(* ===== verification/_CoqProject ===== *)
-Q . S2P
Prelude.v
CString.v
Layout.v
Spinlock.v
Kalloc.v
Vm.v
VmProps.v
KvmRoom.v
Fp.v
Sched.v
SchedProps.v
Fairness.v
Bytes.v
Console.v
ConsoleProps.v
Io.v
Mp.v
Apic.v
Segs.v
Asm.v
Sleeplock.v
Bio.v
BioProps.v
Ide.v
Bootmain.v
Log.v
LogProps.v
TxDisk.v
Fs.v
FsProps.v
FsData.v
FsRw.v
User.v
Ulib.v
Grep.v
Uprogs.v
Usertests.v
UprogsProps.v
Umalloc.v
UmallocProps.v
UmallocSim.v
Sh.v
ShParse.v
ShRun.v
Mkfs.v
MkfsProps.v
MkfsImage.v
Pipe.v
Kernel.v
Machine.v
File.v
FileProps.v
Syscall.v
Sysfile.v
Proc.v
Start.v
StartProps.v
StartMem.v
StartUser.v
AsmProps.v
StartView.v
StartBoot.v
Mmap.v
Exec.v
Trap.v
Ukernel.v
UsertestsRun.v
ExecProps.v
ProcProps.v
MmapProps.v
