(* ===== verification/Prelude.v ===== *)
(** * A verification of the xv6 kernel with a fair scheduler and mmap

    The program is a small Unix kernel in C (src/): the teaching system xv6,
    whose scheduler is replaced by one that runs the process with the least
    virtual run time, and which has mmap.  With it come its boot loader, the
    program that makes its disk image, a shell, small programs and tests.  This
    library translates them into Rocq functions and proves what makes the parts
    correct.

    ** The parts and where they are

    - CString (string.c), Bytes (structs laid over disk blocks), Layout
      (param.h, memlayout.h, the paging macros of mmu.h).
    - Spinlock (spinlock.c), Sleeplock (sleeplock.c).
    - Kalloc (kalloc.c): the page allocator, whose free list is threaded through
      the bytes of the free pages.  Vm and VmProps (vm.c): page tables as words
      of that same memory; KvmRoom, that boot memory is enough for the kernel's.
    - Fp (the double arithmetic of proc.c), Sched, SchedProps and Fairness (the
      scheduling half of proc.c), Proc and ProcProps (fork, exit, wait and the rest),
      Mmap and MmapProps (mmap, page_fault_handler, munmap).
    - Bio and BioProps (bio.c, memide.c), Ide (ide.c), Log and LogProps (log.c),
      TxDisk (what the log promises to the file system), Fs and FsProps (fs.c),
      FsData (the blocks of a file) and FsRw (readi and writei).
    - Pipe (pipe.c), File and FileProps (file.c), Console and ConsoleProps
      (console.c, uart.c, kbd.c).
    - Kernel puts the states together and gives access to user memory; Machine
      is a concrete kernel state.  Syscall (the argument functions of
      syscall.c), Sysfile (sysfile.c), Exec and ExecProps (exec.c), Trap
      (sysproc.c, the dispatch of syscall.c, trap.c).
    - Io (port and device accesses), Mp (mp.c), Apic (lapic.c, ioapic.c,
      picirq.c), Segs (descriptors of mmu.h), Asm and AsmProps (swtch.S,
      trapasm.S, usys.S and the vectors as functions on registers and memory).
    - Bootmain (bootmain.c).  Start (main.c, and the init functions of vm.c,
      proc.c, trap.c, console.c, uart.c, ide.c) runs the kernel's parts and the
      devices together; StartProps, StartMem, StartUser, StartView and StartBoot
      prove that it reaches the scheduler.
    - User (programs as trees of system calls), Ulib (ulib.c, printf.c), Umalloc,
      UmallocProps and UmallocSim (umalloc.c), Grep, Uprogs and UprogsProps (the
      small programs, forktest, stressfs, mytest and initcode), Sh, ShParse and
      ShRun (sh.c), Usertests (usertests.c), Mkfs, MkfsProps and MkfsImage
      (mkfs.c).
    - Ukernel answers a program's calls with the kernel, through the trap
      handler; UsertestsRun validates the model by running ten of the tests of
      usertests.c on it, from an image of mkfs.

    ** How code is translated

    A function of the C code that changes state is a value of [M S A], a
    function from the state of its component to a result: [Ok] with the new
    state, [Panic] where the code calls panic, [Undef] where it would have
    undefined behaviour or fault, [Hang] where it would loop or sleep for ever.
    A component's state is a record with the fields of its C variables.  Integers
    are [Z] and wrap with [u32], [s32] and the like where C's do.  Components run
    inside larger states through lenses.  Operations that sleep return to the
    caller what they wait for, and Pipe, Sleeplock and Sched let any number of
    processes take such steps in any order; the system calls of Kernel and above
    run one process, for which sleeping is [Hang].

    Type classes are the interfaces: [DiskDriver] (a disk, to the cache),
    [BufCache] (the cache, to the log), [TxDisk] (the log, to the file system),
    [IdeHw] (the disk controller, to ide.c), [Layout] and [KSyms] (addresses the
    linker chooses), [FpEnv] (the precision of double arithmetic), [DevSw] (the
    device table), [DiskIntr] and [DiskInit] (the driver's handler and start),
    [Io] (the devices), [Cpus] (which processor runs), [BootSyms] (what the linker
    and the build embed), [Sbrk] (the kernel, to malloc).  Clients are proved against the class; the
    instances discharge it.

    ** What the theorems show

    - Locks: mutual exclusion of spin locks with the exchange, the stores and the
      test of the owner as separate steps (the two reads of holding are one step);
      any sequence of acquire and release is one on abstract locks, with interrupts
      off while one is held and restored after; sleep locks lose no wakeup,
      because releasesleep calls it.
    - Memory: the allocator is a stack of distinct pages; boot frees every page;
      mappages, allocuvm, deallocuvm, freevm, setupkvm, copyuvm and copyout map,
      copy and free exactly what they should, also when memory runs out.
    - Processes: the process table stays well formed over any history of
      scheduling steps, the scheduler runs the least virtual time and starves no
      process that others do not enter ahead of, exit wakes the parent and gives
      the children to init, a failed exec changes nothing of the process, the
      functions that fetch system call arguments never reach outside the process
      and fetch what is there.
    - Storage: the cache is coherent, a commit is atomic under a crash after any
      of its writes, recovery may be repeated, the IDE driver serves requests in
      order, blocks are allocated zeroed and freed, paths are split correctly,
      what writei stores readi returns, and mkfs makes an image that satisfies the
      kernel's invariant and holds the host's files.
    - Streams: pipes are queues of the bytes of their writers under any
      interleaving, files are counted, the console edits lines as
      two queues and prints numbers that read back.
    - Start: the boot loader loads the kernel, mpinit reads the firmware's tables,
      main brings every processor to the scheduler and the first process to its
      first instruction in user mode; the clock is read at one moment, although its
      registers show anything while they are updated.
    - Entry: a trap saves and restores every register, swtch returns where it was
      called, an interrupt is acknowledged once.
    - User programs: the shell's parser accepts exactly its grammar and runcmd
      starts the programs of the line with their descriptors; malloc gives
      disjoint areas; grep prints the ended lines that match, and wc counts.
    - One theorem shows what the page fault handler really does: it maps the
      first page of an area, not the page that faulted, and refuses the area's
      later faults; another, that mpinit loops for ever on an entry it does not
      know.

    ** Fuel

    A loop that is not structural has a fuel argument and ends in [Hang]
    when it runs out.  Its callers give it a bound of the data: pages in a range,
    blocks in a file, bytes up to the end of the process, entries of a directory.
    The theorems state results [Ok], so they include that the fuel is enough;
    where only a successful run is assumed the statement says so.

    Programs bound loops that read until the end of their input in the same way,
    and end in [Spin].

    ** Not modelled

    The switch to protected mode and paging in bootasm.S, entry.S and
    entryother.S: the mode of the processor is outside the register machine of
    Asm (the page table that code uses is in Start).  The inline assembly of
    x86.h other than the port instructions appears as the effect its callers
    have.  Prototypes and type names (defs.h, types.h).  Programs that fork are
    trees of calls whose children are the branch of the answer 0; Ukernel runs
    programs of one process only.  Calls that hand the CPU over (swtch) are the
    points where the step relations interleave. *)

From stdpp Require Export base numbers list gmap strings.
From Stdlib Require Export ZArith Lia.

Open Scope Z_scope.

(** ** Machine integers

    C's [uint], [ushort] and [uchar] wrap around modulo a power of two; [int]
    and [short] are the two's complement reading of the same bits. *)
Definition u32 (z : Z) : Z := z mod 4294967296.
Definition u16 (z : Z) : Z := z mod 65536.
Definition u8 (z : Z) : Z := z mod 256.
Definition s32 (z : Z) : Z :=
  if u32 z <? 2147483648 then u32 z else u32 z - 4294967296.
Definition s16 (z : Z) : Z :=
  if u16 z <? 32768 then u16 z else u16 z - 65536.

(** C's [/] and [%] on [int] truncate toward zero. *)
Definition cdiv (a b : Z) : Z := Z.quot a b.
Definition cmod (a b : Z) : Z := Z.rem a b.

(** C's truth value of an expression, and the [int] value of a test. *)
Definition truthy (z : Z) : bool := negb (z =? 0).
Definition b2z (b : bool) : Z := if b then 1 else 0.

(** ** Outcomes and the state monad of kernel code

    Kernel code either returns, stops the machine in [panic], performs an
    access that C leaves undefined (a null or out of range pointer, a
    conversion out of range), or waits forever (a spin or a loop that cannot
    end). *)
Inductive res (A : Type) : Type :=
| Ok (a : A)
| Panic (msg : string)
| Undef (why : string)
| Hang.
Arguments Ok {A} a.
Arguments Panic {A} msg.
Arguments Undef {A} why.
Arguments Hang {A}.

Definition M (S A : Type) : Type := S -> res (A * S).

#[export] Instance M_ret {S} : MRet (M S) := fun A a s => Ok (a, s).
#[export] Instance M_bind {S} : MBind (M S) :=
  fun A B f m s =>
    match m s with
    | Ok (a, s') => f a s'
    | Panic e => Panic e
    | Undef e => Undef e
    | Hang => Hang
    end.

Definition get {S} : M S S := fun s => Ok (s, s).
Definition put {S} (s' : S) : M S unit := fun _ => Ok (tt, s').
Definition gets {S A} (f : S -> A) : M S A := fun s => Ok (f s, s).
Definition modify {S} (f : S -> S) : M S unit := fun s => Ok (tt, f s).
Definition panic {S A} (msg : string) : M S A := fun _ => Panic msg.
Definition undef {S A} (why : string) : M S A := fun _ => Undef why.
Definition hang {S A} : M S A := fun _ => Hang.
(** [if(c) stmt;] *)
Definition when {S} (c : bool) (m : M S unit) : M S unit :=
  if c then m else mret tt.

(** A component's operations run inside a larger state through a lens. *)
Record lens (S T : Type) := Lens { lget : S -> T; lset : T -> S -> S }.
Arguments Lens {S T} lget lset.
Arguments lget {S T} l s.
Arguments lset {S T} l t s.

Definition zoom {S T A} (l : lens S T) (m : M T A) : M S A := fun s =>
  match m (lget l s) with
  | Ok (a, t) => Ok (a, lset l t s)
  | Panic e => Panic e
  | Undef e => Undef e
  | Hang => Hang
  end.

(** [for] loops over a list of values, in order. *)
Fixpoint for_each {S A} (l : list A) (body : A -> M S unit) : M S unit :=
  match l with
  | [] => mret tt
  | x :: l' => body x ;; for_each l' body
  end.

Lemma bind_ok {S A B} (m : M S A) (f : A -> M S B) s a s' :
  m s = Ok (a, s') -> mbind f m s = f a s'.
Proof. intros H. unfold mbind, M_bind. by rewrite H. Qed.

Lemma bind_panic {S A B} (m : M S A) (f : A -> M S B) s e :
  m s = Panic e -> mbind f m s = Panic e.
Proof. intros H. unfold mbind, M_bind. by rewrite H. Qed.

Lemma bind_gets {S A B} (g : S -> A) (f : A -> M S B) s : mbind f (gets g) s = f (g s) s.
Proof. done. Qed.

Lemma bind_modify {S B} (g : S -> S) (f : unit -> M S B) s : mbind f (modify g) s = f tt (g s).
Proof. done. Qed.

(** ** Weakest preconditions: the operation returns and [Q] holds after. *)
Definition wp {S A} (m : M S A) (Q : A -> S -> Prop) (s : S) : Prop :=
  match m s with
  | Ok (a, s') => Q a s'
  | _ => False
  end.

Create HintDb wp.
Create Rewrite HintDb cint.

Section Wp.
Context {S : Type}.
Implicit Types s : S.

Lemma wp_ret {A} (a : A) Q s : wp (mret a) Q s <-> Q a s.
Proof. reflexivity. Qed.

Lemma wp_bind {A B} (m : M S A) (f : A -> M S B) Q s :
  wp (mbind f m) Q s <-> wp m (fun a s' => wp (f a) Q s') s.
Proof. unfold wp, mbind, M_bind. destruct (m s) as [[a s']| | |]; reflexivity. Qed.

Lemma wp_get Q s : wp get Q s <-> Q s s.
Proof. reflexivity. Qed.
Lemma wp_put s' Q s : wp (put s') Q s <-> Q tt s'.
Proof. reflexivity. Qed.
Lemma wp_gets {A} (f : S -> A) Q s : wp (gets f) Q s <-> Q (f s) s.
Proof. reflexivity. Qed.
Lemma wp_modify f Q s : wp (modify f) Q s <-> Q tt (f s).
Proof. reflexivity. Qed.

Lemma wp_mono {A} (m : M S A) (Q Q' : A -> S -> Prop) s :
  wp m Q s -> (forall a s', Q a s' -> Q' a s') -> wp m Q' s.
Proof. unfold wp. destruct (m s) as [[a s']| | |]; eauto. Qed.

Lemma wp_ok {A} (m : M S A) Q s :
  wp m Q s <-> exists a s', m s = Ok (a, s') /\ Q a s'.
Proof.
  unfold wp. destruct (m s) as [[a s']| | |]; split.
  - intros. by exists a, s'.
  - intros (? & ? & [= -> ->] & ?). done.
  - done.
  - by intros (? & ? & ? & ?).
  - done.
  - by intros (? & ? & ? & ?).
  - done.
  - by intros (? & ? & ? & ?).
Qed.

Lemma wp_zoom {T A} (l : lens S T) (m : M T A) Q s :
  wp (zoom l m) Q s <-> wp m (fun a t => Q a (lset l t s)) (lget l s).
Proof. unfold wp, zoom. destruct (m (lget l s)) as [[a t]| | |]; reflexivity. Qed.

(** The loop rule: an invariant over the values already visited. *)
Lemma wp_for_each {A} (l : list A) (body : A -> M S unit) (I : list A -> S -> Prop) Q s :
  I [] s ->
  (forall done x todo s, l = done ++ x :: todo -> I done s ->
     wp (body x) (fun _ s' => I (done ++ [x]) s') s) ->
  (forall s, I l s -> Q tt s) ->
  wp (for_each l body) Q s.
Proof.
  intros H0 Hstep Hend.
  cut (forall todo done s, l = done ++ todo -> I done s -> wp (for_each todo body) Q s).
  { intros H. by apply (H l []). }
  clear s H0. induction todo as [|x todo IH]; intros done s Hl Hs; simpl.
  - rewrite app_nil_r in Hl. subst. by apply Hend.
  - apply wp_bind. eapply wp_mono; [by apply (Hstep done x todo)|].
    intros [] s' Hs'. apply (IH (done ++ [x])); [|done].
    by rewrite <-(assoc_L app).
Qed.
End Wp.

(** ** Automation

    [zcases] splits the boolean integer tests of the goal and the hypotheses;
    [wps] runs the state-monad combinators at the head of a [wp] goal. *)
Ltac zcase_one :=
  match goal with
  | |- context [Z.eqb ?a ?b] => destruct (Z.eqb_spec a b)
  | |- context [Z.ltb ?a ?b] => destruct (Z.ltb_spec a b)
  | |- context [Z.leb ?a ?b] => destruct (Z.leb_spec a b)
  | H : context [Z.eqb ?a ?b] |- _ => destruct (Z.eqb_spec a b)
  | H : context [Z.ltb ?a ?b] |- _ => destruct (Z.ltb_spec a b)
  | H : context [Z.leb ?a ?b] |- _ => destruct (Z.leb_spec a b)
  end.
Ltac zcases := repeat (zcase_one; simpl in *; try lia).

Ltac wps :=
  repeat first
    [ rewrite wp_bind | rewrite wp_ret | rewrite wp_get | rewrite wp_gets
    | rewrite wp_put | rewrite wp_modify | rewrite wp_zoom ];
  simpl.

(** ** Generic lemmas *)
Lemma u32_range z : 0 <= u32 z < 4294967296.
Proof. unfold u32. apply Z.mod_pos_bound. lia. Qed.

Lemma u32_small z : 0 <= z < 4294967296 -> u32 z = z.
Proof. apply Z.mod_small. Qed.

Lemma u8_range z : 0 <= u8 z < 256.
Proof. unfold u8. apply Z.mod_pos_bound. lia. Qed.

Lemma u8_small z : 0 <= z < 256 -> u8 z = z.
Proof. apply Z.mod_small. Qed.

Lemma s32_small z : -2147483648 <= z < 2147483648 -> s32 z = z.
Proof.
  intros. unfold s32, u32.
  destruct (Z.ltb_spec (z mod 4294967296) 2147483648);
    Z.div_mod_to_equations; lia.
Qed.

Lemma s32_range z : -2147483648 <= s32 z < 2147483648.
Proof. unfold s32. pose proof (u32_range z). zcases. Qed.

#[export] Hint Rewrite u32_small s32_small u8_small using lia : cint.

(** A multiple of [2^k] and a number below [2^k] share no bit. *)
Lemma land_disjoint a b k : 0 <= k -> a mod 2 ^ k = 0 -> 0 <= b < 2 ^ k -> Z.land a b = 0.
Proof.
  intros Hk Ha Hb. apply Z.bits_inj'. intros n Hn. rewrite Z.land_spec, Z.bits_0.
  destruct (decide (n < k)).
  - rewrite <-(Z.mod_pow2_bits_low a k n) by lia. by rewrite Ha, Z.bits_0.
  - rewrite <-(Z.mod_small b (2 ^ k)) by lia.
    rewrite (Z.mod_pow2_bits_high b k n) by lia. apply andb_false_r.
Qed.

Lemma lor_disjoint a b k : 0 <= k -> a mod 2 ^ k = 0 -> 0 <= b < 2 ^ k -> Z.lor a b = a + b.
Proof. intros. symmetry. apply Z.add_nocarry_lor. by eapply land_disjoint. Qed.

Lemma lor_shiftl y z k : 0 <= k -> 0 <= z < 2 ^ k -> Z.lor (Z.shiftl y k) z = y * 2 ^ k + z.
Proof.
  intros Hk Hz. rewrite Z.shiftl_mul_pow2 by lia. apply (lor_disjoint _ _ k); try lia.
  apply Z.mod_mul. lia.
Qed.

(** The test [a <= x && x < b] of an index range. *)
Lemma in_range_true a x b : a <= x < b -> (a <=? x) && (x <? b) = true.
Proof. intros. apply andb_true_iff. rewrite Z.leb_le, Z.ltb_lt. lia. Qed.

Lemma in_range_false a x b : x < a \/ b <= x -> (a <=? x) && (x <? b) = false.
Proof. intros. apply andb_false_iff. rewrite Z.leb_gt, Z.ltb_ge. lia. Qed.

(** Membership in concrete list expressions. *)
Ltac lelem :=
  repeat first [ rewrite elem_of_cons in * | rewrite elem_of_app in * | rewrite elem_of_nil in * ];
  first [tauto | intuition congruence | naive_solver].
