(* ===== verification/CString.v ===== *)
(** * Memory and the string library

    The kernel's memory is a map from addresses to bytes, an absent address
    reading as zero.  Words are little endian, as on x86.  On top of it the
    routines of string.c, with the two x86 store instructions of x86.h that
    [memset] uses. *)
From S2P Require Import Prelude.

Open Scope Z_scope.

Abbreviation mem := (gmap Z Z).

(** ** Bytes and words *)
Definition rdb (m : mem) (a : Z) : Z := default 0 (m !! a).
Definition wrb (m : mem) (a b : Z) : mem := <[a := u8 b]> m.

Definition rdw (m : mem) (a : Z) : Z :=
  rdb m a + 256 * rdb m (a + 1) + 65536 * rdb m (a + 2) + 16777216 * rdb m (a + 3).
Definition wrw (m : mem) (a w : Z) : mem :=
  wrb (wrb (wrb (wrb m a w) (a + 1) (w / 256)) (a + 2) (w / 65536)) (a + 3) (w / 16777216).

(** A C string pointer, as the bytes found at successive offsets. *)
Definition rd (m : mem) (a : Z) : nat -> Z := fun i => rdb m (a + Z.of_nat i).

(** ** x86.h: rep stosb, rep stosl *)
Fixpoint stosb (m : mem) (addr data : Z) (cnt : nat) : mem :=
  match cnt with
  | O => m
  | S cnt' => stosb (wrb m addr data) (addr + 1) data cnt'
  end.

Fixpoint stosl (m : mem) (addr data : Z) (cnt : nat) : mem :=
  match cnt with
  | O => m
  | S cnt' => stosl (wrw m addr data) (addr + 4) data cnt'
  end.

(** ** string.c *)
Definition memset (m : mem) (dst c n : Z) : Z * mem :=
  if (cmod (s32 dst) 4 =? 0) && (n mod 4 =? 0) then
    let c := Z.land c 0xFF in
    (dst, stosl m dst
            (u32 (Z.lor (Z.lor (Z.lor (Z.shiftl c 24) (Z.shiftl c 16)) (Z.shiftl c 8)) c))
            (Z.to_nat (n / 4)))
  else (dst, stosb m dst c (Z.to_nat n)).

Fixpoint memcmp (s1 s2 : nat -> Z) (n : nat) : Z :=
  match n with
  | O => 0
  | S n' =>
      if negb (s1 O =? s2 O) then s1 O - s2 O
      else memcmp (fun i => s1 (S i)) (fun i => s2 (S i)) n'
  end.

(** [while(n-- > 0) *--d = *--s;] *)
Fixpoint move_down (m : mem) (d s : Z) (n : nat) : mem :=
  match n with
  | O => m
  | S n' => move_down (wrb m (d - 1) (rdb m (s - 1))) (d - 1) (s - 1) n'
  end.

(** [while(n-- > 0) *d++ = *s++;] *)
Fixpoint move_up (m : mem) (d s : Z) (n : nat) : mem :=
  match n with
  | O => m
  | S n' => move_up (wrb m d (rdb m s)) (d + 1) (s + 1) n'
  end.

Definition memmove (m : mem) (dst src n : Z) : Z * mem :=
  if (src <? dst) && (dst <? src + n)
  then (dst, move_down m (dst + n) (src + n) (Z.to_nat n))
  else (dst, move_up m dst src (Z.to_nat n)).

Definition memcpy (m : mem) (dst src n : Z) : Z * mem := memmove m dst src n.

Fixpoint strncmp (p q : nat -> Z) (n : nat) : Z :=
  match n with
  | O => 0
  | S n' =>
      if truthy (p O) && (p O =? q O)
      then strncmp (fun i => p (S i)) (fun i => q (S i)) n'
      else u8 (p O) - u8 (q O)
  end.

(** [while(n-- > 0) *s++ = 0;] *)
Fixpoint strncpy_pad (m : mem) (s : Z) (n : nat) : mem :=
  match n with
  | O => m
  | S n' => strncpy_pad (wrb m s 0) (s + 1) n'
  end.

(** [while(n-- > 0 && ( *s++ = *t++) != 0);] then the padding loop. *)
Fixpoint strncpy_copy (m : mem) (s t : Z) (n : nat) : mem :=
  match n with
  | O => m
  | S n' =>
      let c := rdb m t in
      let m' := wrb m s c in
      if truthy c then strncpy_copy m' (s + 1) (t + 1) n'
      else strncpy_pad m' (s + 1) n'
  end.

Definition strncpy (m : mem) (s t n : Z) : Z * mem :=
  (s, strncpy_copy m s t (Z.to_nat n)).

(** [while(--n > 0 && ( *s++ = *t++) != 0);] then [*s = 0;]; the counter is
    the value of [n - 1] on entry to the test. *)
Fixpoint safestrcpy_loop (m : mem) (s t : Z) (n : nat) : mem :=
  match n with
  | O => wrb m s 0
  | S n' =>
      let c := rdb m t in
      let m' := wrb m s c in
      if truthy c then safestrcpy_loop m' (s + 1) (t + 1) n'
      else wrb m' (s + 1) 0
  end.

Definition safestrcpy (m : mem) (s t n : Z) : Z * mem :=
  if n <=? 0 then (s, m)
  else (s, safestrcpy_loop m s t (Z.to_nat (n - 1))).

(** [for(n = 0; s[n]; n++);] over at most [fuel] bytes. *)
Fixpoint strlen (fuel : nat) (s : nat -> Z) : option Z :=
  match fuel with
  | O => None
  | S fuel' =>
      if truthy (s O) then (fun n => n + 1) <$> strlen fuel' (fun i => s (S i))
      else Some 0
  end.

(** ** Reads after writes *)
Lemma rdb_wrb m a b a' : rdb (wrb m a b) a' = if a =? a' then u8 b else rdb m a'.
Proof.
  unfold rdb, wrb. destruct (Z.eqb_spec a a') as [->|Hne].
  - by rewrite lookup_insert_eq.
  - by rewrite lookup_insert_ne.
Qed.

Lemma rdb_wrb_eq m a b : rdb (wrb m a b) a = u8 b.
Proof. rewrite rdb_wrb. by rewrite Z.eqb_refl. Qed.

Lemma rdb_wrb_ne m a b a' : a <> a' -> rdb (wrb m a b) a' = rdb m a'.
Proof. intros. rewrite rdb_wrb. by destruct (Z.eqb_spec a a'). Qed.

(** Every byte of a memory that only [wrb] wrote is a byte. *)
Definition mem_ok (m : mem) : Prop := forall a, 0 <= rdb m a < 256.

Lemma mem_ok_empty : mem_ok ∅.
Proof. intros a. unfold rdb. rewrite lookup_empty. simpl. lia. Qed.

Lemma mem_ok_wrb m a b : mem_ok m -> mem_ok (wrb m a b).
Proof. intros H a'. rewrite rdb_wrb. pose proof (u8_range b). by case_match. Qed.

Lemma mem_ok_wrw m a w : mem_ok m -> mem_ok (wrw m a w).
Proof. intros H. unfold wrw. by repeat apply mem_ok_wrb. Qed.

Definition byte_of (w i : Z) : Z := u8 (w / 256 ^ i).

Lemma rdb_wrw m a w a' :
  rdb (wrw m a w) a' =
    if (a <=? a') && (a' <? a + 4) then byte_of w (a' - a) else rdb m a'.
Proof.
  unfold wrw, byte_of. rewrite !rdb_wrb.
  destruct (Z.leb_spec a a'), (Z.ltb_spec a' (a + 4)); simpl.
  - assert (a' = a + 0 \/ a' = a + 1 \/ a' = a + 2 \/ a' = a + 3) as [->|[->|[->| ->]]] by lia;
      rewrite ?Z.add_simpl_l, ?Z.add_0_r; zcases; rewrite ?Z.div_1_r; try done.
  - by zcases.
  - by zcases.
  - lia.
Qed.

Lemma rdw_wrw_eq m a w : rdw (wrw m a w) a = u32 w.
Proof.
  unfold rdw. rewrite !rdb_wrw.
  rewrite !(proj2 (Z.leb_le _ _)), !(proj2 (Z.ltb_lt _ _)) by lia. simpl.
  unfold byte_of, u8, u32.
  replace (a - a) with 0 by lia. replace (a + 1 - a) with 1 by lia.
  replace (a + 2 - a) with 2 by lia. replace (a + 3 - a) with 3 by lia.
  change (256 ^ 0) with 1. change (256 ^ 1) with 256.
  change (256 ^ 2) with 65536. change (256 ^ 3) with 16777216.
  Z.div_mod_to_equations. lia.
Qed.

Lemma rdw_wrw_ne m a w a' :
  a + 4 <= a' \/ a' + 4 <= a -> rdw (wrw m a w) a' = rdw m a'.
Proof.
  intros H. unfold rdw. rewrite !rdb_wrw.
  repeat match goal with |- context [(a <=? ?x) && (?x <? a + 4)] =>
    replace ((a <=? x) && (x <? a + 4)) with false by
      (symmetry; apply andb_false_iff; rewrite Z.leb_gt, Z.ltb_ge; lia) end.
  done.
Qed.

Lemma rdw_range m a : mem_ok m -> 0 <= rdw m a < 4294967296.
Proof.
  intros H. unfold rdw.
  pose proof (H a); pose proof (H (a + 1)); pose proof (H (a + 2)); pose proof (H (a + 3)). lia.
Qed.

Lemma rdw_ext m m' a :
  (forall i, a <= i < a + 4 -> rdb m i = rdb m' i) -> rdw m a = rdw m' a.
Proof. intros H. unfold rdw. by rewrite !H by lia. Qed.

(** ** The store instructions and memset *)
Lemma rdb_stosb n : forall m a c a',
  rdb (stosb m a c n) a' =
    if (a <=? a') && (a' <? a + Z.of_nat n) then u8 c else rdb m a'.
Proof.
  induction n as [|n IH]; intros m a c a'; simpl stosb.
  - destruct (Z.leb_spec a a'), (Z.ltb_spec a' (a + Z.of_nat 0)); simpl; try done; lia.
  - rewrite IH, rdb_wrb.
    destruct (Z.eqb_spec a a'), (Z.leb_spec (a + 1) a'), (Z.leb_spec a a'),
      (Z.ltb_spec a' (a + 1 + Z.of_nat n)), (Z.ltb_spec a' (a + Z.of_nat (S n)));
      simpl; try done; lia.
Qed.

Lemma rdb_stosl n : forall m a w a',
  rdb (stosl m a w n) a' =
    if (a <=? a') && (a' <? a + 4 * Z.of_nat n) then byte_of w ((a' - a) mod 4) else rdb m a'.
Proof.
  induction n as [|n IH]; intros m a w a'; simpl stosl.
  - destruct (Z.leb_spec a a'), (Z.ltb_spec a' (a + 4 * Z.of_nat 0)); simpl; try done; lia.
  - rewrite IH, rdb_wrw.
    destruct (Z.leb_spec (a + 4) a'), (Z.leb_spec a a'), (Z.ltb_spec a' (a + 4)),
      (Z.ltb_spec a' (a + 4 + 4 * Z.of_nat n)), (Z.ltb_spec a' (a + 4 * Z.of_nat (S n)));
      simpl; try done; try lia.
    + f_equal. replace (a' - a) with (a' - (a + 4) + 1 * 4) by lia. by rewrite Z.mod_add.
    + by rewrite (Z.mod_small (a' - a)) by lia.
Qed.

Lemma byte_of_repeat c i :
  0 <= i < 4 ->
  byte_of (u32 (Z.lor (Z.lor (Z.lor (Z.shiftl (Z.land c 255) 24) (Z.shiftl (Z.land c 255) 16))
     (Z.shiftl (Z.land c 255) 8)) (Z.land c 255))) i = u8 c.
Proof.
  intros Hi.
  assert (Hc : Z.land c 255 = u8 c) by (change 255 with (Z.ones 8); by rewrite Z.land_ones).
  rewrite Hc. pose proof (u8_range c) as Hr. generalize dependent (u8 c). intros x _ Hx.
  assert (Z.lor (Z.lor (Z.lor (Z.shiftl x 24) (Z.shiftl x 16)) (Z.shiftl x 8)) x
          = x * 16777216 + x * 65536 + x * 256 + x) as ->.
  { rewrite <-!Z.lor_assoc.
    rewrite (lor_shiftl x x 8) by lia. change (2 ^ 8) with 256.
    rewrite (lor_shiftl x _ 16) by lia. change (2 ^ 16) with 65536.
    rewrite (lor_shiftl x _ 24) by lia. change (2 ^ 24) with 16777216. lia. }
  unfold u32. rewrite Z.mod_small by lia. unfold byte_of, u8.
  assert (i = 0 \/ i = 1 \/ i = 2 \/ i = 3) as [->|[->|[->| ->]]] by lia;
    [change (256 ^ 0) with 1|change (256 ^ 1) with 256|change (256 ^ 2) with 65536
    |change (256 ^ 3) with 16777216]; Z.div_mod_to_equations; lia.
Qed.

Lemma memset_ret m dst c n : (memset m dst c n).1 = dst.
Proof. unfold memset. by case_match. Qed.

Lemma memset_mem m dst c n a :
  0 <= n ->
  rdb (memset m dst c n).2 a = if (dst <=? a) && (a <? dst + n) then u8 c else rdb m a.
Proof.
  intros Hn. unfold memset.
  destruct ((cmod (s32 dst) 4 =? 0) && (n mod 4 =? 0)) eqn:E; simpl.
  - apply andb_true_iff in E as [_ E%Z.eqb_eq].
    rewrite rdb_stosl. rewrite Z2Nat.id by (apply Z.div_pos; lia).
    replace (4 * (n / 4)) with n by (Z.div_mod_to_equations; lia).
    case_match; [|done]. apply byte_of_repeat. apply Z.mod_pos_bound. lia.
  - rewrite rdb_stosb. by rewrite Z2Nat.id by lia.
Qed.

Lemma mem_ok_memset m dst c n : 0 <= n -> mem_ok m -> mem_ok (memset m dst c n).2.
Proof.
  intros Hn H a. rewrite memset_mem by lia. pose proof (u8_range c). by case_match.
Qed.

(** ** Moves *)
Lemma rdb_move_up n : forall m d s a,
  mem_ok m -> (d <= s \/ s + Z.of_nat n <= d) ->
  rdb (move_up m d s n) a =
    if (d <=? a) && (a <? d + Z.of_nat n) then rdb m (a - d + s) else rdb m a.
Proof.
  induction n as [|n IH]; intros m d s a Hm H; simpl move_up.
  - destruct (Z.leb_spec d a), (Z.ltb_spec a (d + Z.of_nat 0)); simpl; try done; lia.
  - rewrite IH by (try lia; by apply mem_ok_wrb).
    destruct (Z.leb_spec d a), (Z.leb_spec (d + 1) a), (Z.ltb_spec a (d + 1 + Z.of_nat n)),
      (Z.ltb_spec a (d + Z.of_nat (S n))); simpl; try lia;
      rewrite rdb_wrb; zcases; try done.
    + replace (a - (d + 1) + (s + 1)) with (a - d + s) by lia. done.
    + subst a. rewrite Z.sub_diag. by rewrite u8_small by apply Hm.
Qed.

Lemma rdb_move_down n : forall m d s a,
  mem_ok m -> s <= d ->
  rdb (move_down m d s n) a =
    if (d - Z.of_nat n <=? a) && (a <? d) then rdb m (a - d + s) else rdb m a.
Proof.
  induction n as [|n IH]; intros m d s a Hm H; simpl move_down.
  - destruct (Z.leb_spec (d - Z.of_nat 0) a), (Z.ltb_spec a d); simpl; try done; lia.
  - rewrite IH by (try lia; by apply mem_ok_wrb).
    destruct (Z.leb_spec (d - 1 - Z.of_nat n) a), (Z.ltb_spec a (d - 1)),
      (Z.leb_spec (d - Z.of_nat (S n)) a), (Z.ltb_spec a d); simpl; try lia;
      rewrite rdb_wrb; zcases; try done.
    + replace (a - (d - 1) + (s - 1)) with (a - d + s) by lia. done.
    + replace (a - d + s) with (s - 1) by lia. by rewrite u8_small by apply Hm.
Qed.

Lemma memmove_mem m dst src n a :
  mem_ok m -> 0 <= n ->
  rdb (memmove m dst src n).2 a =
    if (dst <=? a) && (a <? dst + n) then rdb m (a - dst + src) else rdb m a.
Proof.
  intros Hm Hn. unfold memmove.
  destruct (Z.ltb_spec src dst), (Z.ltb_spec dst (src + n)); simpl.
  1: rewrite rdb_move_down, Z2Nat.id by (done || lia);
     replace (dst + n - n) with dst by lia;
     by replace (a - (dst + n) + (src + n)) with (a - dst + src) by lia.
  all: rewrite rdb_move_up by (rewrite ?Z2Nat.id by lia; done || lia); by rewrite Z2Nat.id by lia.
Qed.

Lemma mem_ok_memmove m dst src n : mem_ok m -> 0 <= n -> mem_ok (memmove m dst src n).2.
Proof. intros Hm Hn a. rewrite memmove_mem by done. by case_match. Qed.

(** ** Comparison *)
Lemma strncmp_zero n : forall p q,
  (forall i, 0 <= p i < 256) -> (forall i, 0 <= q i < 256) ->
  strncmp p q n = 0 <->
  (forall i, (i < n)%nat -> (forall j, (j < i)%nat -> p j <> 0) -> p i = q i).
Proof.
  induction n as [|n IH]; intros p q Hp Hq; simpl.
  { split; [intros; lia|done]. }
  unfold truthy. destruct (Z.eqb_spec (p O) 0) as [H0|H0]; simpl.
  - rewrite !u8_small by done. split.
    + intros Heq i Hi Hj. destruct i as [|i]; [lia|]. exfalso. apply (Hj O); [lia|done].
    + intros Hall. specialize (Hall O ltac:(lia)). rewrite Hall; [lia|intros; lia].
  - destruct (Z.eqb_spec (p O) (q O)) as [He|He].
    + rewrite IH by done. split; intros Hall.
      * intros [|i] Hi Hj; [done|]. apply Hall; [lia|]. intros j Hji. apply Hj. lia.
      * intros i Hi Hj. apply (Hall (S i)); [lia|]. intros [|j] Hji; [done|]. apply Hj. lia.
    + rewrite !u8_small by done. split; [lia|].
      intros Hall. exfalso. apply He. apply Hall; [lia|]. intros; lia.
Qed.

Lemma memcmp_zero n : forall s1 s2,
  memcmp s1 s2 n = 0 <-> (forall i, (i < n)%nat -> s1 i = s2 i).
Proof.
  induction n as [|n IH]; intros s1 s2; simpl.
  { split; [intros; lia|done]. }
  destruct (Z.eqb_spec (s1 O) (s2 O)) as [He|He]; simpl.
  - rewrite IH. split; intros Hall.
    + intros [|i] Hi; [done|]. apply Hall. lia.
    + intros i Hi. apply (Hall (S i)). lia.
  - split; [lia|]. intros Hall. exfalso. apply He, Hall. lia.
Qed.

(** ** Bounded copies *)
Lemma rdb_strncpy_pad n : forall m s a,
  rdb (strncpy_pad m s n) a = if (s <=? a) && (a <? s + Z.of_nat n) then 0 else rdb m a.
Proof.
  induction n as [|n IH]; intros m s a; simpl strncpy_pad.
  - destruct (Z.leb_spec s a), (Z.ltb_spec a (s + Z.of_nat 0)); simpl; try done; lia.
  - rewrite IH, rdb_wrb.
    destruct (Z.eqb_spec s a), (Z.leb_spec (s + 1) a), (Z.leb_spec s a),
      (Z.ltb_spec a (s + 1 + Z.of_nat n)), (Z.ltb_spec a (s + Z.of_nat (S n)));
      simpl; try done; lia.
Qed.

(** The byte a bounded copy leaves at offset [i]: the source byte up to and
    including its first NUL, zero after. *)
Fixpoint strn_byte (t : nat -> Z) (i : nat) : Z :=
  match i with
  | O => t O
  | S i' => if truthy (t O) then strn_byte (fun j => t (S j)) i' else 0
  end.

Lemma strn_byte_ext i : forall t t', (forall j, (j <= i)%nat -> t j = t' j) ->
  strn_byte t i = strn_byte t' i.
Proof.
  induction i as [|i IH]; intros t t' H; simpl; [apply H; lia|].
  rewrite (H O) by lia. rewrite (IH (fun j => t (S j)) (fun j => t' (S j))); [done|].
  intros. apply H. lia.
Qed.

Lemma rdb_strncpy_copy n : forall m s t a,
  mem_ok m -> (s + Z.of_nat n <= t \/ t + Z.of_nat n <= s) ->
  rdb (strncpy_copy m s t n) a =
    if (s <=? a) && (a <? s + Z.of_nat n) then strn_byte (rd m t) (Z.to_nat (a - s)) else rdb m a.
Proof.
  induction n as [|n IH]; intros m s t a Hm H; simpl strncpy_copy.
  { destruct (Z.leb_spec s a), (Z.ltb_spec a (s + Z.of_nat 0)); simpl; try done; lia. }
  assert (Hrd0 : rd m t 0 = rdb m t) by (unfold rd; f_equal; lia).
  destruct (Z.leb_spec s a) as [Hsa|Hsa]; simpl; cycle 1.
  { case_match; [rewrite IH by (try lia; by apply mem_ok_wrb)|rewrite rdb_strncpy_pad];
      zcases; rewrite rdb_wrb_ne by lia; done. }
  destruct (decide (a = s)) as [->|Hne].
  { zcases. rewrite Z.sub_diag. simpl. rewrite Hrd0.
    case_match; [rewrite IH by (try lia; by apply mem_ok_wrb)|rewrite rdb_strncpy_pad];
      zcases; rewrite rdb_wrb_eq, u8_small by apply Hm; done. }
  replace (Z.to_nat (a - s)) with (S (Z.to_nat (a - (s + 1)))) by lia. simpl. rewrite Hrd0.
  destruct (truthy (rdb m t)) eqn:E.
  - rewrite IH by (try lia; by apply mem_ok_wrb). zcases; [|by rewrite rdb_wrb_ne by lia].
    apply strn_byte_ext. intros j Hj. unfold rd. rewrite rdb_wrb_ne by lia. f_equal. lia.
  - rewrite rdb_strncpy_pad. zcases. by rewrite rdb_wrb_ne by lia.
Qed.

Lemma safestrcpy_loop_spec n : forall m s t,
  mem_ok m -> (s + Z.of_nat n < t \/ t + Z.of_nat n <= s) ->
  let m' := safestrcpy_loop m s t n in
  (forall a, ~ (s <= a <= s + Z.of_nat n) -> rdb m' a = rdb m a) /\
  exists k, (k <= n)%nat /\ rdb m' (s + Z.of_nat k) = 0 /\
    (forall i, (i < k)%nat -> rdb m' (s + Z.of_nat i) = rdb m (t + Z.of_nat i) /\
                              rdb m (t + Z.of_nat i) <> 0) /\
    (rdb m (t + Z.of_nat k) = 0 \/ k = n).
Proof.
  induction n as [|n IH]; intros m s t Hm H; simpl.
  { split; [intros; apply rdb_wrb_ne; lia|]. exists O. repeat split; try lia.
    by rewrite Z.add_0_r, rdb_wrb_eq. }
  unfold truthy. destruct (Z.eqb_spec (rdb m t) 0) as [E|E]; simpl.
  - split; [intros; rewrite !rdb_wrb_ne by lia; done|].
    exists O. repeat split; try lia.
    + rewrite rdb_wrb_ne, Z.add_0_r, rdb_wrb_eq by lia. by rewrite E.
    + left. by rewrite Z.add_0_r.
  - destruct (IH (wrb m s (rdb m t)) (s + 1) (t + 1)) as [Hout (k & Hk & H0 & Hpre & Hend)];
      [by apply mem_ok_wrb|lia|]. split.
    + intros a Ha. rewrite Hout by lia. apply rdb_wrb_ne. lia.
    + exists (S k). repeat split; try lia.
      * rewrite <-H0. f_equal. lia.
      * destruct i as [|i].
        { rewrite !Z.add_0_r, Hout, rdb_wrb_eq, u8_small by (apply Hm || lia). done. }
        replace (s + Z.of_nat (S i)) with (s + 1 + Z.of_nat i) by lia.
        replace (t + Z.of_nat (S i)) with (t + 1 + Z.of_nat i) by lia.
        rewrite (proj1 (Hpre i ltac:(lia))). apply rdb_wrb_ne. lia.
      * destruct i as [|i]; [by rewrite Z.add_0_r|].
        replace (t + Z.of_nat (S i)) with (t + 1 + Z.of_nat i) by lia.
        rewrite <-(rdb_wrb_ne m s (rdb m t)) by lia. apply (Hpre i). lia.
      * replace (t + Z.of_nat (S k)) with (t + 1 + Z.of_nat k) by lia.
        destruct (decide (k = n)) as [->|]; [by right|left].
        destruct Hend as [Hend|]; [|done]. rewrite <-Hend.
        symmetry. apply rdb_wrb_ne. lia.
Qed.

(** ** Properties *)

(** [memmove] copies [n] bytes from [src] to [dst] whatever the overlap of
    the two ranges, changes no byte outside the destination, and returns
    [dst]. *)
Theorem memmove_overlap_safe m dst src n :
  mem_ok m -> 0 <= n ->
  (memmove m dst src n).1 = dst /\
  (forall i, 0 <= i < n -> rdb (memmove m dst src n).2 (dst + i) = rdb m (src + i)) /\
  (forall a, ~ (dst <= a < dst + n) -> rdb (memmove m dst src n).2 a = rdb m a).
Proof.
  intros Hm Hn. split; [|split].
  - unfold memmove. by case_match.
  - intros i Hi. rewrite memmove_mem by done. zcases. f_equal. lia.
  - intros a Ha. rewrite memmove_mem by done.
    destruct (Z.leb_spec dst a), (Z.ltb_spec a (dst + n)); simpl; try done; lia.
Qed.

Lemma memmove_overlap_safe_witness :
  rdb (memmove (wrb (wrb ∅ 0 7) 1 9) 1 0 2).2 2 = 9.
Proof.
  apply (proj1 (proj2 (memmove_overlap_safe (wrb (wrb ∅ 0 7) 1 9) 1 0 2
    ltac:(apply mem_ok_wrb, mem_ok_wrb, mem_ok_empty) ltac:(lia))) 1). lia.
Defined.

(** [safestrcpy] into a buffer of [n > 0] bytes that does not overlap the
    source leaves a NUL inside the buffer, preceded by a prefix of the source
    that stops at the source's own NUL or fills the buffer, and writes nothing
    outside the buffer. *)
Theorem safestrcpy_terminates_string m s t n :
  mem_ok m -> 0 < n -> (s + n <= t \/ t + n <= s) ->
  let m' := (safestrcpy m s t n).2 in
  (forall a, ~ (s <= a < s + n) -> rdb m' a = rdb m a) /\
  exists k, (k < Z.to_nat n)%nat /\ rdb m' (s + Z.of_nat k) = 0 /\
    (forall i, (i < k)%nat -> rdb m' (s + Z.of_nat i) = rdb m (t + Z.of_nat i) /\
                              rdb m (t + Z.of_nat i) <> 0) /\
    (rdb m (t + Z.of_nat k) = 0 \/ Z.of_nat k = n - 1).
Proof.
  intros Hm Hn H. unfold safestrcpy. zcases.
  destruct (safestrcpy_loop_spec (Z.to_nat (n - 1)) m s t Hm ltac:(lia))
    as [Hout (k & Hk & Hnul & Hpre & Hend)].
  split; [intros; apply Hout; lia|].
  exists k. split_and!; [lia|done|done|].
  destruct Hend as [Hend|Hend]; [by left|right; lia].
Qed.

Lemma safestrcpy_terminates_string_witness :
  exists k, (k < 2)%nat /\ rdb (safestrcpy (wrb (wrb (wrb ∅ 0 65) 1 66) 2 67) 16 0 2).2 (16 + Z.of_nat k) = 0.
Proof.
  destruct (safestrcpy_terminates_string (wrb (wrb (wrb ∅ 0 65) 1 66) 2 67) 16 0 2
    ltac:(repeat apply mem_ok_wrb; apply mem_ok_empty) ltac:(lia) ltac:(lia))
    as [_ (k & Hk & H0 & _)].
  exists k. split; [exact Hk|exact H0].
Defined.
