(* ===== verification/Layout.v ===== *)
(** * Constants and address arithmetic

    param.h, memlayout.h and the paging macros of mmu.h.  Addresses are
    32-bit values; the macros wrap where C's [uint] arithmetic does. *)
From S2P Require Import Prelude.

Open Scope Z_scope.

(** ** param.h *)
Definition NPROC : Z := 64.
Definition KSTACKSIZE : Z := 4096.
Definition NCPU : Z := 8.
Definition NOFILE : Z := 16.
Definition NFILE : Z := 100.
Definition NINODE : Z := 50.
Definition NDEV : Z := 10.
Definition ROOTDEV : Z := 1.
Definition MAXARG : Z := 32.
Definition MAXOPBLOCKS : Z := 10.
Definition LOGSIZE : Z := MAXOPBLOCKS * 3.
Definition NBUF : Z := MAXOPBLOCKS * 3.
Definition FSSIZE : Z := 1000.
Definition PROT_READ : Z := 0x1.
Definition PROT_WRITE : Z := 0x2.
Definition MAP_ANONYMOUS : Z := 0x1.
Definition MAP_POPULATE : Z := 0x2.
Definition MMAPBASE : Z := 0x40000000.

(** ** memlayout.h *)
Definition EXTMEM : Z := 0x100000.
Definition PHYSTOP : Z := 0xE000000.
Definition DEVSPACE : Z := 0xFE000000.
Definition KERNBASE : Z := 0x80000000.
Definition KERNLINK : Z := KERNBASE + EXTMEM.
Definition V2P (a : Z) : Z := u32 (a - KERNBASE).
Definition P2V (a : Z) : Z := u32 (a + KERNBASE).

(** ** mmu.h *)
Definition PGSIZE : Z := 4096.
Definition NPDENTRIES : Z := 1024.
Definition PTXSHIFT : Z := 12.
Definition PDXSHIFT : Z := 22.
Definition PDX (va : Z) : Z := Z.land (Z.shiftr (u32 va) PDXSHIFT) 0x3FF.
Definition PTX (va : Z) : Z := Z.land (Z.shiftr (u32 va) PTXSHIFT) 0x3FF.
Definition PGADDR (d t o : Z) : Z :=
  u32 (Z.lor (Z.lor (Z.shiftl d PDXSHIFT) (Z.shiftl t PTXSHIFT)) o).
Definition PGROUNDUP (sz : Z) : Z := Z.land (u32 (sz + PGSIZE - 1)) (u32 (Z.lnot (PGSIZE - 1))).
Definition PGROUNDDOWN (a : Z) : Z := Z.land (u32 a) (u32 (Z.lnot (PGSIZE - 1))).
Definition PTE_P : Z := 0x001.
Definition PTE_W : Z := 0x002.
Definition PTE_U : Z := 0x004.
Definition PTE_PS : Z := 0x080.
Definition PTE_ADDR (pte : Z) : Z := Z.land (u32 pte) (u32 (Z.lnot 0xFFF)).
Definition PTE_FLAGS (pte : Z) : Z := Z.land (u32 pte) 0xFFF.

(** The linker script kernel.ld places the kernel image: [data] is the start
    of its writable part and [end] the first address after it.  The image is
    linked above 1 MB and fits in the 4 MB that the boot page table maps. *)
Class Layout := {
  kdata : Z;
  kend : Z;
  kdata_page : kdata mod 4096 = 0;
  kdata_low : KERNLINK < kdata;
  kdata_kend : kdata <= kend;
  kend_high : kend < KERNBASE + 4194304;
}.

(** ** The macros as arithmetic *)
Lemma land_not_fff x : 0 <= x < 4294967296 -> Z.land x 4294963200 = x - x mod 4096.
Proof.
  intros Hx. replace 4294963200 with (Z.land (Z.lnot (Z.ones 12)) (Z.ones 32)) by reflexivity.
  rewrite Z.land_assoc, Z.land_ones by lia.
  rewrite <-Z.ldiff_land, Z.ldiff_ones_r, Z.shiftl_mul_pow2, Z.shiftr_div_pow2 by lia.
  change (2 ^ 12) with 4096. rewrite Z.mod_small; Z.div_mod_to_equations; lia.
Qed.

Lemma PGROUNDDOWN_eq a : PGROUNDDOWN a = u32 a - u32 a mod 4096.
Proof.
  unfold PGROUNDDOWN. change (u32 (Z.lnot (PGSIZE - 1))) with 4294963200.
  apply land_not_fff, u32_range.
Qed.

Lemma PGROUNDUP_eq a :
  0 <= a -> a + 4095 < 4294967296 -> PGROUNDUP a = (a + 4095) / 4096 * 4096.
Proof.
  intros. unfold PGROUNDUP. change (u32 (Z.lnot (PGSIZE - 1))) with 4294963200.
  rewrite land_not_fff by apply u32_range. unfold PGSIZE.
  rewrite u32_small by lia. Z.div_mod_to_equations. lia.
Qed.

Lemma PTE_ADDR_eq p : PTE_ADDR p = u32 p - u32 p mod 4096.
Proof.
  unfold PTE_ADDR. change (u32 (Z.lnot 0xFFF)) with 4294963200.
  apply land_not_fff, u32_range.
Qed.

Lemma PTE_FLAGS_eq p : PTE_FLAGS p = u32 p mod 4096.
Proof. unfold PTE_FLAGS. change 0xFFF with (Z.ones 12). by rewrite Z.land_ones. Qed.

Lemma PDX_eq va : PDX va = u32 va / 4194304.
Proof.
  unfold PDX, PDXSHIFT. change 0x3FF with (Z.ones 10).
  rewrite Z.land_ones, Z.shiftr_div_pow2 by lia. change (2 ^ 22) with 4194304.
  change (2 ^ 10) with 1024. pose proof (u32_range va).
  apply Z.mod_small. Z.div_mod_to_equations. lia.
Qed.

Lemma PTX_eq va : PTX va = u32 va / 4096 mod 1024.
Proof.
  unfold PTX, PTXSHIFT. change 0x3FF with (Z.ones 10).
  rewrite Z.land_ones, Z.shiftr_div_pow2 by lia. reflexivity.
Qed.

Lemma PDX_range va : 0 <= PDX va < 1024.
Proof. rewrite PDX_eq. pose proof (u32_range va). Z.div_mod_to_equations. lia. Qed.

Lemma PTX_range va : 0 <= PTX va < 1024.
Proof. rewrite PTX_eq. apply Z.mod_pos_bound. lia. Qed.

(** Both indexes depend on the page only. *)
Lemma PDX_PTX_page va va' : u32 va / 4096 = u32 va' / 4096 -> PDX va = PDX va' /\ PTX va = PTX va'.
Proof.
  rewrite !PDX_eq, !PTX_eq. intros E. rewrite E. split; [|done].
  change 4194304 with (4096 * 1024). rewrite <-!Z.div_div by lia. by rewrite E.
Qed.

(** A page is determined by its two indexes. *)
Lemma PDX_PTX_inj va va' :
  PDX va = PDX va' -> PTX va = PTX va' -> u32 va / 4096 = u32 va' / 4096.
Proof.
  rewrite !PDX_eq, !PTX_eq. intros. pose proof (u32_range va). pose proof (u32_range va').
  Z.div_mod_to_equations. lia.
Qed.

Lemma V2P_P2V a : 0 <= a < 4294967296 -> V2P (P2V a) = a.
Proof.
  intros. unfold V2P, P2V, u32, KERNBASE. Z.div_mod_to_equations. lia.
Qed.

Lemma P2V_V2P a : 0 <= a < 4294967296 -> P2V (V2P a) = a.
Proof.
  intros. unfold V2P, P2V, u32, KERNBASE. Z.div_mod_to_equations. lia.
Qed.
