(* ===== verification/Spinlock.v ===== *)
(** * Spin locks and interrupt nesting

    spinlock.c with [mycpu] and [cpuid] of proc.c.  The first part is the code
    of one CPU, run to completion: the interrupt flag, the per-CPU nesting
    counters and the lock words.  The second part lets every CPU take the
    steps of [acquire] and [release] in any order and shows mutual exclusion.
    The third part is the interface the other components use, a lock that is
    free or held by the running CPU, with the proof that the code implements
    it. *)
From S2P Require Import Prelude Layout CString.

Open Scope Z_scope.

(** ** struct cpu, struct spinlock *)
Record cpu := Cpu { apicid : Z; ncli : Z; intena : Z }.

Record spinlock := Spinlock { locked : Z; lname : string; lcpu : option nat }.

(** The executing CPU's interrupt flag and APIC id (its lapicid()), the table
    of CPUs, and the locks by address. *)
Record lkst := Lkst {
  eflags : Z;
  lapicid : Z;
  cpus : list cpu;
  locks : gmap Z spinlock
}.

Definition FL_IF : Z := 0x200.

Definition readeflags : M lkst Z := gets eflags.
Definition cli : M lkst unit :=
  modify (fun s => Lkst (Z.land (eflags s) (Z.lnot FL_IF)) (lapicid s) (cpus s) (locks s)).
Definition sti : M lkst unit :=
  modify (fun s => Lkst (Z.lor (eflags s) FL_IF) (lapicid s) (cpus s) (locks s)).

(** [for(i = 0; i < ncpu; ++i) if(cpus[i].apicid == apicid) return &cpus[i];] *)
Fixpoint find_cpu (id : Z) (l : list cpu) (i : nat) : option nat :=
  match l with
  | [] => None
  | c :: l' => if apicid c =? id then Some i else find_cpu id l' (S i)
  end.

Definition mycpu : M lkst nat :=
  f ← readeflags;
  if truthy (Z.land f FL_IF) then panic "mycpu called with interrupts enabled"
  else
    s ← get;
    match find_cpu (lapicid s) (cpus s) 0 with
    | Some i => mret i
    | None => panic "unknown apicid"
    end.

Definition cpuid : M lkst Z := i ← mycpu; mret (Z.of_nat i).

Definition get_cpu (i : nat) : M lkst cpu :=
  s ← get;
  match cpus s !! i with Some c => mret c | None => undef "cpus" end.
Definition set_cpu (i : nat) (c : cpu) : M lkst unit :=
  modify (fun s => Lkst (eflags s) (lapicid s) (<[i := c]> (cpus s)) (locks s)).

Definition get_lock (l : Z) : M lkst spinlock :=
  s ← get;
  match locks s !! l with Some k => mret k | None => undef "lock" end.
Definition set_lock (l : Z) (k : spinlock) : M lkst unit :=
  modify (fun s => Lkst (eflags s) (lapicid s) (cpus s) (<[l := k]> (locks s))).

Definition initlock (l : Z) (name : string) : M lkst unit :=
  set_lock l (Spinlock 0 name None).

Definition pushcli : M lkst unit :=
  f ← readeflags;
  cli ;;
  i ← mycpu;
  c ← get_cpu i;
  (if ncli c =? 0 then set_cpu i (Cpu (apicid c) (ncli c) (Z.land f FL_IF)) else mret tt) ;;
  i ← mycpu;
  c ← get_cpu i;
  set_cpu i (Cpu (apicid c) (ncli c + 1) (intena c)).

Definition popcli : M lkst unit :=
  f ← readeflags;
  if truthy (Z.land f FL_IF) then panic "popcli - interruptible"
  else
    i ← mycpu;
    c ← get_cpu i;
    set_cpu i (Cpu (apicid c) (ncli c - 1) (intena c)) ;;
    if ncli c - 1 <? 0 then panic "popcli"
    else
      i ← mycpu;
      c ← get_cpu i;
      if (ncli c =? 0) && truthy (intena c) then sti else mret tt.

Definition holding (l : Z) : M lkst bool :=
  pushcli ;;
  k ← get_lock l;
  i ← mycpu;
  let r := truthy (locked k) && bool_decide (lcpu k = Some i) in
  popcli ;;
  mret r.

(** One CPU alone: the exchange loop ends at once on a free lock and never on
    a taken one.  The call stack recorded in [lk->pcs] is left out. *)
Definition acquire (l : Z) : M lkst unit :=
  pushcli ;;
  h ← holding l;
  if (h : bool) then panic "acquire"
  else
    k ← get_lock l;
    if truthy (locked k) then hang
    else
      set_lock l (Spinlock 1 (lname k) (lcpu k)) ;;
      i ← mycpu;
      k ← get_lock l;
      set_lock l (Spinlock (locked k) (lname k) (Some i)).

Definition release (l : Z) : M lkst unit :=
  h ← holding l;
  if negb h then panic "release"
  else
    k ← get_lock l;
    set_lock l (Spinlock (locked k) (lname k) None) ;;
    k ← get_lock l;
    set_lock l (Spinlock 0 (lname k) (lcpu k)) ;;
    popcli.

(** [getcallerpcs]: follow the saved frame pointers, at most ten. *)
Fixpoint getcallerpcs_walk (m : mem) (ebp : Z) (n : nat) : list Z :=
  match n with
  | O => []
  | S n' =>
      if (ebp =? 0) || (ebp <? KERNBASE) || (ebp =? 0xffffffff)
      then replicate n 0
      else rdw m (ebp + 4) :: getcallerpcs_walk m (rdw m ebp) n'
  end.
Definition getcallerpcs (m : mem) (v : Z) : list Z := getcallerpcs_walk m (v - 8) 10.

(** ** Every CPU at once

    Where a CPU is in [acquire]/[release] of one lock, and the atomic actions
    between those points: the exchange, the store of [lk->cpu] and the two
    stores of [release].  The [holding] tests read the shared words. *)
Inductive lkpc := Outside | Spinning | Won | Inside | Leaving.

Record cstate := CState { pc : nat -> lkpc; word : Z; owner : option nat }.

Definition at_pc (p : nat -> lkpc) (c : nat) (q : lkpc) : nat -> lkpc :=
  fun c' => if decide (c' = c) then q else p c'.

(** What [holding] answers on CPU [c]. *)
Definition holds_now (s : cstate) (c : nat) : bool :=
  truthy (word s) && bool_decide (owner s = Some c).

Inductive lk_step : cstate -> cstate -> Prop :=
| step_enter s c :
    pc s c = Outside -> holds_now s c = false ->
    lk_step s (CState (at_pc (pc s) c Spinning) (word s) (owner s))
| step_xchg s c :
    pc s c = Spinning ->
    lk_step s (CState (at_pc (pc s) c (if truthy (word s) then Spinning else Won)) 1 (owner s))
| step_own s c :
    pc s c = Won ->
    lk_step s (CState (at_pc (pc s) c Inside) (word s) (Some c))
| step_leave s c :
    pc s c = Inside -> holds_now s c = true ->
    lk_step s (CState (at_pc (pc s) c Leaving) (word s) None)
| step_free s c :
    pc s c = Leaving ->
    lk_step s (CState (at_pc (pc s) c Outside) 0 (owner s)).

(** [initlock] leaves the lock free with no CPU near it. *)
Definition lk_init : cstate := CState (fun _ => Outside) 0 None.

Definition critical (p : lkpc) : bool :=
  match p with Won | Inside | Leaving => true | _ => false end.

Definition lk_inv (s : cstate) : Prop :=
  (word s = 0 \/ word s = 1) /\
  (forall c, critical (pc s c) = true -> word s = 1) /\
  (forall c c', critical (pc s c) = true -> critical (pc s c') = true -> c = c') /\
  (forall c, pc s c = Inside <-> owner s = Some c).

Lemma lk_inv_step s s' : lk_inv s -> lk_step s s' -> lk_inv s'.
Proof.
  intros (Hw & Hc & Hu & Ho) Hstep.
  destruct Hstep as [s c Hp Hh|s c Hp|s c Hp|s c Hp Hh|s c Hp]; unfold lk_inv; simpl;
    unfold at_pc.
  - split_and!; [done|intros c'|intros c' c''|intros c'; rewrite <-Ho];
      repeat case_decide; subst; simpl; try done; try by eauto.
    rewrite Hp. split; congruence.
  - unfold truthy. destruct Hw as [Hw|Hw]; rewrite Hw; simpl.
    + assert (Hno : forall c', critical (pc s c') = false).
      { intros c'. destruct (critical (pc s c')) eqn:E; [|done].
        specialize (Hc _ E). congruence. }
      split_and!; [by right|done|intros c' c''|intros c'; rewrite <-Ho];
        repeat case_decide; subst; simpl; try done.
      * rewrite !Hno. done.
      * by rewrite Hno.
      * by rewrite Hno.
      * rewrite Hp. split; congruence.
    + split_and!; [by right|done|intros c' c''|intros c'; rewrite <-Ho];
        repeat case_decide; subst; simpl; try done; try by eauto.
      rewrite Hp. split; congruence.
  - assert (Hcc : critical (pc s c) = true) by by rewrite Hp.
    split_and!; [done|intros c'|intros c' c''|intros c'];
      repeat case_decide; subst; simpl; try done; try by eauto.
    split; [|congruence]. intros Hi. exfalso.
    assert (c' = c); [|done]. apply Hu; [by rewrite Hi|done].
  - assert (Hcc : critical (pc s c) = true) by by rewrite Hp.
    split_and!; [done|intros c'|intros c' c''|intros c'];
      repeat case_decide; subst; simpl; try done; try by eauto.
    split; [|congruence]. intros Hi. exfalso.
    assert (c' = c); [|done]. apply Hu; [by rewrite Hi|done].
  - assert (Hno : forall c', c' <> c -> critical (pc s c') = false).
    { intros c' Hne. destruct (critical (pc s c')) eqn:E; [|done].
      exfalso. apply Hne, Hu; [done|by rewrite Hp]. }
    split_and!; [by left|intros c'|intros c' c''|intros c'; rewrite <-Ho];
      repeat case_decide; subst; simpl; try done; rewrite ?Hno by done; try done.
    rewrite Hp. split; congruence.
Qed.

Lemma lk_inv_reachable s : rtc lk_step lk_init s -> lk_inv s.
Proof.
  intros H. remember lk_init as s0 eqn:E. assert (lk_inv s0) as Hi.
  { subst. unfold lk_inv, lk_init; simpl. split_and!; [by left|done|done|split; congruence]. }
  clear E. induction H; eauto using lk_inv_step.
Qed.

(** C10: whatever the interleaving of the CPUs in [acquire] and [release], at
    most one CPU is past the exchange and not yet past the final store, and
    on every CPU [holding] is true exactly between taking the lock and
    starting to release it, so that the panics of [acquire] and [release]
    never fire on a CPU that pairs the two calls. *)
Theorem spinlock_mutual_exclusion s :
  rtc lk_step lk_init s ->
  (forall c c', critical (pc s c) = true -> critical (pc s c') = true -> c = c') /\
  (forall c, holds_now s c = true <-> pc s c = Inside).
Proof.
  intros (Hw & Hc & Hu & Ho)%lk_inv_reachable. split; [done|]. intros c.
  unfold holds_now. rewrite andb_true_iff, bool_decide_eq_true, Ho. unfold truthy.
  split; [tauto|]. intros H. split; [|done].
  rewrite (Hc c); [done|]. apply Ho in H. by rewrite H.
Qed.

Lemma spinlock_mutual_exclusion_witness :
  exists s, rtc lk_step lk_init s /\ pc s 3%nat = Inside /\ holds_now s 3 = true.
Proof.
  assert (H : rtc lk_step lk_init
    (CState (at_pc (at_pc (at_pc (pc lk_init) 3 Spinning) 3 Won) 3 Inside) 1 (Some 3%nat))).
  { eapply rtc_l; [apply (step_enter lk_init 3); done|].
    eapply rtc_l; [eapply (step_xchg _ 3); done|].
    eapply rtc_l; [eapply (step_own _ 3); done|]. apply rtc_refl. }
  eexists. split; [exact H|]. split; [done|].
  apply (proj2 (spinlock_mutual_exclusion _ H) 3%nat). done.
Defined.

(** ** One CPU: nesting *)

(** The executing CPU is entry [i] of the table. *)
Definition this_cpu (s : lkst) (i : nat) (c : cpu) : Prop :=
  find_cpu (lapicid s) (cpus s) 0 = Some i /\ cpus s !! i = Some c.

Lemma find_cpu_insert id l : forall k i j c c',
  find_cpu id l k = Some (k + i)%nat -> l !! j = Some c -> apicid c' = apicid c ->
  find_cpu id (<[j := c']> l) k = Some (k + i)%nat.
Proof.
  induction l as [|x l IH]; intros k i j c c' Hf Hj Ha; [done|].
  destruct j as [|j]; simpl in *.
  - simplify_eq. rewrite Ha. done.
  - destruct (apicid x =? id); [done|].
    destruct i as [|i].
    { exfalso. clear -Hf. assert (forall l k, find_cpu id l (S k) <> Some (k + 0)%nat) as H; [|by eapply H].
      clear. intros l. assert (forall l k n, find_cpu id l k = Some n -> (k <= n)%nat) as H.
      { induction l0 as [|y l0 IH]; simpl; intros k n; [done|]. case_match; [intros [= ->]; lia|].
        intros ?%IH. lia. }
      intros k E%H. lia. }
    replace (k + S i)%nat with (S k + i)%nat in * by lia. by eapply IH.
Qed.

Lemma this_cpu_set s i c c' e l :
  this_cpu s i c -> apicid c' = apicid c ->
  this_cpu (Lkst e (lapicid s) (<[i := c']> (cpus s)) l) i c'.
Proof.
  intros [Hf Hi] Ha. split; simpl.
  - by apply (find_cpu_insert _ _ 0 i i c c').
  - apply list_lookup_insert_eq. by eapply lookup_lt_Some.
Qed.

Lemma mycpu_ok s i c :
  this_cpu s i c -> Z.land (eflags s) FL_IF = 0 -> mycpu s = Ok (i, s).
Proof. intros [Hf Hi] He. unfold mycpu, mbind, M_bind, readeflags, gets, get. rewrite He. simpl. by rewrite Hf. Qed.

Lemma cli_off f : Z.land (Z.land f (Z.lnot FL_IF)) FL_IF = 0.
Proof. by rewrite <-Z.land_assoc, (Z.land_comm (Z.lnot _)), Z.land_lnot_diag, Z.land_0_r. Qed.

Lemma cli_noop f : Z.land f FL_IF = 0 -> Z.land f (Z.lnot FL_IF) = f.
Proof. intros H. rewrite <-(Z.lor_ldiff_and f FL_IF) at 2. by rewrite H, Z.lor_0_r, Z.ldiff_land. Qed.

Lemma flag_cases f : Z.land f FL_IF = 0 \/ Z.land f FL_IF = FL_IF.
Proof.
  destruct (Z.testbit f 9) eqn:E; [right|left]; apply Z.bits_inj'; intros n Hn;
    rewrite Z.land_spec; change FL_IF with (2 ^ 9); rewrite Z.pow2_bits_eqb by lia;
    destruct (Z.eqb_spec 9 n) as [<-|]; rewrite ?E, ?andb_false_r, ?Z.bits_0; done.
Qed.

Lemma sti_cli f : Z.land f FL_IF <> 0 -> Z.lor (Z.land f (Z.lnot FL_IF)) FL_IF = f.
Proof.
  intros H. destruct (flag_cases f) as [|E]; [done|]. rewrite <-Z.ldiff_land.
  rewrite <-E at 2. apply Z.lor_ldiff_and.
Qed.

Definition pushed (s : lkst) (i : nat) (c : cpu) : lkst :=
  Lkst (Z.land (eflags s) (Z.lnot FL_IF)) (lapicid s)
    (<[i := Cpu (apicid c) (ncli c + 1)
              (if ncli c =? 0 then Z.land (eflags s) FL_IF else intena c)]> (cpus s))
    (locks s).

Ltac run := unfold mbind, M_bind, readeflags, gets, get, cli, sti, modify, mret, M_ret; simpl.

Lemma get_cpu_ok s i c : cpus s !! i = Some c -> get_cpu i s = Ok (c, s).
Proof. intros H. unfold get_cpu. run. by rewrite H. Qed.

Lemma get_lock_ok s l k : locks s !! l = Some k -> get_lock l s = Ok (k, s).
Proof. intros H. unfold get_lock. run. by rewrite H. Qed.

Lemma pushcli_ok s i c : this_cpu s i c -> pushcli s = Ok (tt, pushed s i c).
Proof.
  intros Hc. unfold pushcli. run.
  set (s1 := Lkst (Z.land (eflags s) (Z.lnot FL_IF)) (lapicid s) (cpus s) (locks s)).
  assert (H1 : this_cpu s1 i c) by apply Hc.
  rewrite (mycpu_ok s1 i c H1 (cli_off _)).
  rewrite (get_cpu_ok s1 i c) by apply Hc.
  destruct (ncli c =? 0) eqn:E; unfold set_cpu; run.
  - assert (H2 := this_cpu_set s1 i c (Cpu (apicid c) (ncli c) (Z.land (eflags s) FL_IF))
      (eflags s1) (locks s1) H1 eq_refl). simpl in H2.
    rewrite (mycpu_ok _ i _ H2 (cli_off _)).
    rewrite (get_cpu_ok _ i _ (proj2 H2)). run. unfold pushed. rewrite E.
    by rewrite list_insert_insert_eq.
  - rewrite (mycpu_ok s1 i c H1 (cli_off _)).
    rewrite (get_cpu_ok s1 i c) by apply Hc. run. unfold pushed. by rewrite E.
Qed.

Lemma this_cpu_pushed s i c : this_cpu s i c ->
  this_cpu (pushed s i c) i (Cpu (apicid c) (ncli c + 1)
    (if ncli c =? 0 then Z.land (eflags s) FL_IF else intena c)).
Proof. intros H. by apply (this_cpu_set s i c). Qed.

(** [popcli] with interrupts off and a positive count. *)
Lemma popcli_ok s i c :
  this_cpu s i c -> Z.land (eflags s) FL_IF = 0 -> 1 <= ncli c ->
  popcli s = Ok (tt, Lkst
    (if (ncli c =? 1) && truthy (intena c) then Z.lor (eflags s) FL_IF else eflags s)
    (lapicid s) (<[i := Cpu (apicid c) (ncli c - 1) (intena c)]> (cpus s)) (locks s)).
Proof.
  intros Hc He Hn. unfold popcli. run. rewrite He. simpl.
  rewrite (mycpu_ok s i c Hc He), (get_cpu_ok s i c) by apply Hc. unfold set_cpu. run.
  destruct (Z.ltb_spec (ncli c - 1) 0); [lia|]. run.
  assert (H2 := this_cpu_set s i c (Cpu (apicid c) (ncli c - 1) (intena c))
    (eflags s) (locks s) Hc eq_refl).
  rewrite (mycpu_ok _ i _ H2) by done.
  rewrite (get_cpu_ok _ i _ (proj2 H2)). simpl.
  destruct (Z.eqb_spec (ncli c - 1) 0), (Z.eqb_spec (ncli c) 1); try lia; simpl; try done.
  by destruct (truthy (intena c)).
Qed.

(** The kernel's interrupt discipline: with a non-zero count interrupts are
    off. *)
Definition cli_ok (s : lkst) (c : cpu) : Prop :=
  0 <= ncli c /\ (ncli c <> 0 -> Z.land (eflags s) FL_IF = 0).

Lemma push_pop s i c :
  this_cpu s i c -> cli_ok s c ->
  popcli (pushed s i c) = Ok (tt, Lkst (eflags s) (lapicid s)
    (<[i := Cpu (apicid c) (ncli c) (if ncli c =? 0 then Z.land (eflags s) FL_IF else intena c)]>
       (cpus s)) (locks s)).
Proof.
  intros Hc [Hn Hi]. rewrite (popcli_ok _ i _ (this_cpu_pushed s i c Hc)) by (apply cli_off || (simpl; lia)).
  simpl. rewrite list_insert_insert_eq. replace (ncli c + 1 - 1) with (ncli c) by lia.
  do 3 f_equal. unfold truthy.
  destruct (Z.eqb_spec (ncli c) 0) as [E|E], (Z.eqb_spec (ncli c + 1) 1); try lia; simpl.
  - destruct (Z.eqb_spec (Z.land (eflags s) FL_IF) 0); simpl.
    + by apply cli_noop.
    + by apply sti_cli.
  - apply cli_noop. by apply Hi.
Qed.

Lemma holding_ok s i c l k :
  this_cpu s i c -> cli_ok s c -> locks s !! l = Some k ->
  holding l s = Ok (truthy (locked k) && bool_decide (lcpu k = Some i),
    Lkst (eflags s) (lapicid s)
      (<[i := Cpu (apicid c) (ncli c)
           (if ncli c =? 0 then Z.land (eflags s) FL_IF else intena c)]> (cpus s)) (locks s)).
Proof.
  intros Hc Ho Hk. unfold holding. run.
  rewrite (pushcli_ok s i c Hc). rewrite (get_lock_ok _ l k) by done.
  rewrite (mycpu_ok _ i _ (this_cpu_pushed s i c Hc) (cli_off _)).
  by rewrite (push_pop s i c Hc Ho).
Qed.

Lemma holding_nested s i c l k :
  this_cpu s i c -> cli_ok s c -> ncli c <> 0 -> locks s !! l = Some k ->
  holding l s = Ok (truthy (locked k) && bool_decide (lcpu k = Some i), s).
Proof.
  intros Hc Ho Hn Hk. rewrite (holding_ok s i c l k) by done.
  destruct (Z.eqb_spec (ncli c) 0); [done|].
  rewrite list_insert_id; [by destruct s|]. rewrite (proj2 Hc). by destruct c.
Qed.

Lemma cli_ok_pushed s i c : cli_ok s c ->
  cli_ok (pushed s i c) (Cpu (apicid c) (ncli c + 1)
    (if ncli c =? 0 then Z.land (eflags s) FL_IF else intena c)).
Proof. intros [Hn _]. split; simpl; [lia|]. intros _. apply cli_off. Qed.

Lemma acquire_eq s i c l k :
  this_cpu s i c -> cli_ok s c -> locks s !! l = Some k ->
  acquire l s =
    if truthy (locked k) then
      if bool_decide (lcpu k = Some i) then Panic "acquire" else Hang
    else Ok (tt, Lkst (eflags (pushed s i c)) (lapicid s) (cpus (pushed s i c))
                   (<[l := Spinlock 1 (lname k) (Some i)]> (locks s))).
Proof.
  intros Hc Ho Hk. unfold acquire. run. rewrite (pushcli_ok s i c Hc).
  rewrite (holding_nested _ i _ l k (this_cpu_pushed s i c Hc) (cli_ok_pushed s i c Ho))
    by (done || (destruct Ho; simpl; lia)).
  destruct (truthy (locked k)) eqn:E; simpl.
  - case_bool_decide; simpl; [done|].
    rewrite (get_lock_ok _ l k) by done. by rewrite E.
  - rewrite (get_lock_ok _ l k) by done. rewrite E. unfold set_lock. run.
    set (s2 := Lkst _ _ _ _).
    assert (H2 : this_cpu s2 i (Cpu (apicid c) (ncli c + 1)
      (if ncli c =? 0 then Z.land (eflags s) FL_IF else intena c)))
      by apply (this_cpu_pushed s i c Hc).
    rewrite (mycpu_ok s2 i _ H2) by apply cli_off.
    rewrite (get_lock_ok s2 l (Spinlock 1 (lname k) (lcpu k)))
      by (simpl; by rewrite lookup_insert_eq).
    simpl. by rewrite insert_insert_eq.
Qed.

Lemma release_eq s i c l k :
  this_cpu s i c -> cli_ok s c -> 1 <= ncli c -> locks s !! l = Some k ->
  release l s =
    if truthy (locked k) && bool_decide (lcpu k = Some i) then
      Ok (tt, Lkst
        (if (ncli c =? 1) && truthy (intena c) then Z.lor (eflags s) FL_IF else eflags s)
        (lapicid s) (<[i := Cpu (apicid c) (ncli c - 1) (intena c)]> (cpus s))
        (<[l := Spinlock 0 (lname k) None]> (locks s)))
    else Panic "release".
Proof.
  intros Hc Ho Hn Hk. unfold release. run.
  rewrite (holding_nested s i c l k) by (done || lia).
  destruct (truthy (locked k) && bool_decide (lcpu k = Some i)) eqn:E; simpl; [|done].
  rewrite (get_lock_ok s l k) by done. unfold set_lock. run.
  rewrite (get_lock_ok _ l (Spinlock (locked k) (lname k) None))
    by (simpl; by rewrite lookup_insert_eq).
  simpl. rewrite insert_insert_eq.
  rewrite (popcli_ok _ i c) by (done || (destruct Ho as [_ H]; apply H; lia)). done.
Qed.

(** ** The interface

    For the components above, which run on one CPU between scheduling points,
    a lock is free or held by this CPU. *)
Definition lk_acquire : M bool unit :=
  fun h => if h then Panic "acquire" else Ok (tt, true).
Definition lk_release : M bool unit :=
  fun h => if h then Ok (tt, false) else Panic "release".

(** Sequences of calls by one CPU, on the code and on the interface: the set of
    the locks it holds, each of them an abstract lock. *)
Inductive lkop := Acquire (l : Z) | Release (l : Z).
Definition op_lock (o : lkop) : Z := match o with Acquire l | Release l => l end.
Definition do_op (o : lkop) : M lkst unit := match o with Acquire l => acquire l | Release l => release l end.
Definition set_held (l : Z) (b : bool) (held : gset Z) : gset Z := if b then {[l]} ∪ held else held ∖ {[l]}.
Definition heldL (l : Z) : lens (gset Z) bool := Lens (fun held => bool_decide (l ∈ held)) (set_held l).
Definition spec_op (o : lkop) : M (gset Z) unit :=
  match o with Acquire l => zoom (heldL l) lk_acquire | Release l => zoom (heldL l) lk_release end.

(** The interrupts of a CPU at nesting depth [d], when they are [on] outside. *)
Definition interrupts (s : lkst) (c : cpu) (on : bool) : Prop :=
  if ncli c =? 0 then Z.land (eflags s) FL_IF = (if on then FL_IF else 0)
  else Z.land (eflags s) FL_IF = 0 /\ truthy (intena c) = on.

(** The locks [held] by CPU [i], which has nested [base] times on top of them. *)
Record represents (s : lkst) (i : nat) (on : bool) (base : Z) (held : gset Z) : Prop := {
  re_cpu : exists c, this_cpu s i c /\ 0 <= base /\ ncli c = base + Z.of_nat (size held) /\ interrupts s c on;
  re_locks l k : locks s !! l = Some k ->
    if decide (l ∈ held) then locked k = 1 /\ lcpu k = Some i else locked k = 0
}.

Lemma interrupts_cli_ok s c on : 0 <= ncli c -> interrupts s c on -> cli_ok s c.
Proof. intros H I. split; [done|]. unfold interrupts in I. destruct (Z.eqb_spec (ncli c) 0); [done|]. intros _. apply I. Qed.
Lemma interrupts_pushed s i c on : 0 <= ncli c -> interrupts s c on ->
  interrupts (pushed s i c) (Cpu (apicid c) (ncli c + 1) (if ncli c =? 0 then Z.land (eflags s) FL_IF else intena c)) on.
Proof.
  intros H I. unfold interrupts in *. simpl. destruct (Z.eqb_spec (ncli c + 1) 0); [lia|]. split; [apply cli_off|].
  destruct (ncli c =? 0); [|apply I]. rewrite I. by destruct on.
Qed.
Lemma interrupts_popped s c on : 1 <= ncli c -> interrupts s c on -> forall a cs ls,
  interrupts (Lkst (if (ncli c =? 1) && truthy (intena c) then Z.lor (eflags s) FL_IF else eflags s) a cs ls)
    (Cpu (apicid c) (ncli c - 1) (intena c)) on.
Proof.
  intros H I a cs ls. unfold interrupts in *. simpl. destruct (Z.eqb_spec (ncli c) 0); [lia|]. destruct I as [I1 <-].
  destruct (Z.eqb_spec (ncli c - 1) 0), (Z.eqb_spec (ncli c) 1); try lia; simpl; [|done].
  destruct (truthy (intena c)); [|done]. by rewrite Z.land_lor_distr_l, I1, Z.land_diag.
Qed.

(** release of a lock this CPU does not hold, at any depth. *)
Lemma release_not_held s i c l k : this_cpu s i c -> cli_ok s c -> locks s !! l = Some k ->
  truthy (locked k) && bool_decide (lcpu k = Some i) = false -> release l s = Panic "release".
Proof. intros Hc Ho Hk E. unfold release. run. rewrite (holding_ok s i c l k Hc Ho Hk), E. done. Qed.

Section Step.
Context (s : lkst) (i : nat) (on : bool) (base : Z) (held : gset Z) (l : Z) (k : spinlock).
Hypotheses (R : represents s i on base held) (Hl : locks s !! l = Some k).

Lemma acquire_refines : match spec_op (Acquire l) held with
  | Ok (_, held') => exists s', acquire l s = Ok (tt, s') /\ represents s' i on base held' /\ dom (locks s') = dom (locks s)
  | Panic e => acquire l s = Panic e | _ => False end.
Proof.
  destruct R as [(c & Hc & Hb & Hn & Hi) HL]. assert (H0 : 0 <= ncli c) by lia.
  pose proof (acquire_eq s i c l k Hc (interrupts_cli_ok _ _ _ H0 Hi) Hl) as E. pose proof (HL l k Hl) as Hk.
  cbn [spec_op]. unfold zoom, lk_acquire. cbn [heldL lget lset]. destruct (decide (l ∈ held)) as [Hin|Hin].
  - rewrite bool_decide_eq_true_2 by done. destruct Hk as [H1 H2]. rewrite H1, H2, bool_decide_eq_true_2 in E by done. exact E.
  - rewrite bool_decide_eq_false_2 by done. rewrite Hk in E. eexists. split; [exact E|]. split.
    + split; simpl.
      * eexists. split; [apply (this_cpu_pushed s i c Hc)|]. split; [done|]. cbn [ncli]. split.
        { unfold set_held. rewrite size_union by set_solver. rewrite size_singleton. lia. }
        exact (interrupts_pushed s i c on H0 Hi).
      * intros l' k'. destruct (decide (l' = l)) as [->|Hne].
        { rewrite lookup_insert_eq. intros [= <-]. unfold set_held. by rewrite decide_True by set_solver. }
        rewrite lookup_insert_ne by done. intros H%HL. unfold set_held.
        destruct (decide (l' ∈ held)); [rewrite decide_True by set_solver|rewrite decide_False by set_solver]; done.
    + simpl. apply dom_insert_lookup_L. by eexists.
Qed.

Lemma release_refines : match spec_op (Release l) held with
  | Ok (_, held') => exists s', release l s = Ok (tt, s') /\ represents s' i on base held' /\ dom (locks s') = dom (locks s)
  | Panic e => release l s = Panic e | _ => False end.
Proof.
  destruct R as [(c & Hc & Hb & Hn & Hi) HL]. assert (H0 : 0 <= ncli c) by lia.
  pose proof (interrupts_cli_ok _ _ _ H0 Hi) as Ho. pose proof (HL l k Hl) as Hk.
  cbn [spec_op]. unfold zoom, lk_release. cbn [heldL lget lset]. destruct (decide (l ∈ held)) as [Hin|Hin].
  - rewrite bool_decide_eq_true_2 by done. destruct Hk as [H1 H2].
    assert (Hs : size held = S (size (held ∖ {[l]}))).
    { rewrite size_difference, size_singleton by set_solver. assert (size held <> 0)%nat; [|lia]. intros E%size_empty_inv. set_solver. }
    pose proof (release_eq s i c l k Hc Ho ltac:(lia) Hl) as E. rewrite H1, H2, bool_decide_eq_true_2 in E by done.
    eexists. split; [exact E|]. split.
    + split; simpl.
      * eexists. split; [by apply (this_cpu_set s i c)|]. split; [done|]. cbn [ncli]. split; [lia|].
        apply interrupts_popped; [lia|done].
      * intros l' k'. destruct (decide (l' = l)) as [->|Hne].
        { rewrite lookup_insert_eq. intros [= <-]. unfold set_held. by rewrite decide_False by set_solver. }
        rewrite lookup_insert_ne by done. intros H%HL.
        destruct (decide (l' ∈ held)); [rewrite decide_True by set_solver|rewrite decide_False by set_solver]; done.
    + simpl. apply dom_insert_lookup_L. by eexists.
  - rewrite bool_decide_eq_false_2 by done. apply (release_not_held s i c l k Hc Ho Hl). by rewrite Hk.
Qed.
End Step.

(** C28: on one CPU, any sequence of acquire and release, from any nesting depth
    and with interrupts on or off, does what the two-state locks do that the other
    components are verified against: it returns when they do, and then this CPU
    holds the same locks, no other lock has changed, the depth is the number of
    locks held above the depth of the start, and interrupts are off while a lock is
    held and as at the start when none is; and it panics when they do, with the
    same message.  The locks are free or held by this CPU. *)
Theorem spinlock_refines_interface ops s i on base held :
  represents s i on base held -> Forall (fun o => is_Some (locks s !! op_lock o)) ops ->
  match for_each ops spec_op held with
  | Ok (_, held') => exists s', for_each ops do_op s = Ok (tt, s') /\ represents s' i on base held'
  | Panic e => for_each ops do_op s = Panic e
  | _ => False
  end.
Proof.
  revert s held. induction ops as [|o ops IH]; intros s held R F; [by exists s|].
  apply Forall_cons in F as [[k Hk] F].
  assert (Step : match spec_op o held with
    | Ok (_, held') => exists s', do_op o s = Ok (tt, s') /\ represents s' i on base held' /\ dom (locks s') = dom (locks s)
    | Panic e => do_op o s = Panic e | _ => False end).
  { destruct o as [l|l]; [by apply (acquire_refines s i on base held l k)|by apply (release_refines s i on base held l k)]. }
  cbn [for_each]. unfold mbind, M_bind. destruct (spec_op o held) as [[[] held1]|e| |] eqn:E; [|by rewrite Step|done..].
  destruct Step as (s1 & -> & R1 & Hd). apply (IH s1 held1 R1).
  eapply Forall_impl; [exact F|]. intros o'. rewrite <-!elem_of_dom, Hd. done.
Qed.

(** From outside with interrupts on: two locks are taken and given back in the
    other order, and interrupts are on again. *)
Lemma spinlock_refines_interface_witness :
  exists s', for_each [Acquire 5; Acquire 6; Release 5; Release 6] do_op
      (Lkst 0x202 7 [Cpu 7 0 0] {[5 := Spinlock 0 "kmem" None; 6 := Spinlock 0 "time" None]}) = Ok (tt, s') /\
    represents s' 0 true 0 ∅.
Proof.
  pose proof (spinlock_refines_interface [Acquire 5; Acquire 6; Release 5; Release 6]
    (Lkst 0x202 7 [Cpu 7 0 0] {[5 := Spinlock 0 "kmem" None; 6 := Spinlock 0 "time" None]}) 0 true 0 ∅) as H.
  destruct (for_each _ spec_op ∅) as [[[] held]| | |] eqn:E in H; [|vm_compute in E; discriminate E..].
  assert (held = ∅) as -> by (vm_compute in E; injection E as <-; reflexivity).
  apply H; [split|].
  - exists (Cpu 7 0 0). by split_and!.
  - intros l k. destruct (decide (l ∈ ∅)) as [Hd|_]; [by apply not_elem_of_empty in Hd|]. cbn [locks]. rewrite lookup_insert_Some, lookup_singleton_Some. intros [[_ <-]|[_ [_ <-]]]; done.
  - repeat constructor; vm_compute; by eexists.
Defined.

(** A critical section is transparent to interrupts: from a CPU that keeps
    the discipline (a non-zero nesting count means interrupts are off), taking
    and releasing a free lock returns with the interrupt flag, the nesting
    count and the lock as they were, interrupts being off in between. *)
Theorem critical_section_restores_interrupts s i c l n :
  this_cpu s i c -> cli_ok s c -> locks s !! l = Some (Spinlock 0 n None) ->
  exists s1 s2 c2,
    acquire l s = Ok (tt, s1) /\ Z.land (eflags s1) FL_IF = 0 /\
    release l s1 = Ok (tt, s2) /\ eflags s2 = eflags s /\ locks s2 = locks s /\
    this_cpu s2 i c2 /\ ncli c2 = ncli c.
Proof.
  intros Hc Ho Hk.
  pose proof (acquire_eq s i c l _ Hc Ho Hk) as Ha. simpl in Ha.
  eexists _, _, _. split; [exact Ha|]. split; [apply cli_off|].
  set (s1 := Lkst _ _ _ _).
  assert (H1 : this_cpu s1 i (Cpu (apicid c) (ncli c + 1)
      (if ncli c =? 0 then Z.land (eflags s) FL_IF else intena c)))
    by apply (this_cpu_pushed s i c Hc).
  assert (Ho1 : cli_ok s1 (Cpu (apicid c) (ncli c + 1)
      (if ncli c =? 0 then Z.land (eflags s) FL_IF else intena c)))
    by apply (cli_ok_pushed s i c Ho).
  rewrite (release_eq s1 i _ l (Spinlock 1 n (Some i)) H1 Ho1)
    by ((destruct Ho; simpl; lia) || (simpl; by rewrite lookup_insert_eq)).
  simpl. rewrite bool_decide_eq_true_2 by done. split; [done|].
  pose proof (push_pop s i c Hc Ho) as Hpp.
  rewrite (popcli_ok _ i _ (this_cpu_pushed s i c Hc)) in Hpp
    by (apply cli_off || (destruct Ho; simpl; lia)).
  injection Hpp as He _. simpl in He. split_and!.
  - simpl. exact He.
  - simpl. rewrite insert_insert_eq. by apply insert_id.
  - by apply (this_cpu_set s1 i _ _ _ _ H1).
  - simpl. lia.
Qed.

Lemma critical_section_restores_interrupts_witness :
  exists s1, acquire 5 (Lkst 0x202 7 [Cpu 7 0 0] {[5 := Spinlock 0 "kmem" None]}) = Ok (tt, s1) /\
    Z.land (eflags s1) FL_IF = 0.
Proof.
  destruct (critical_section_restores_interrupts
    (Lkst 0x202 7 [Cpu 7 0 0] {[5 := Spinlock 0 "kmem" None]}) 0 (Cpu 7 0 0) 5 "kmem"
    ltac:(done) ltac:(split; simpl; [lia|done]) ltac:(reflexivity)) as (s1 & _ & _ & H & H' & _).
  exists s1. split; [exact H|exact H'].
Defined.
