(* ===== verification/Kalloc.v ===== *)
(** * The physical page allocator (kalloc.c)

    Free pages are linked through their first word.  The list therefore lives
    in the same memory that page tables and user pages live in; the invariant
    [kmem_ok] says which list of pages the memory holds. *)
From S2P Require Import Prelude CString Layout Spinlock.

Open Scope Z_scope.

(** ** struct kmem, with the memory the list is threaded through *)
Record kmem := Kmem {
  km_lock : bool;
  use_lock : bool;
  freelist : Z;
  ram : mem
}.

Definition km_lockL : lens kmem bool :=
  Lens km_lock (fun b s => Kmem b (use_lock s) (freelist s) (ram s)).
Definition ramL : lens kmem mem :=
  Lens ram (fun m s => Kmem (km_lock s) (use_lock s) (freelist s) m).

(** Word loads and stores, and [memset], on the kernel's memory. *)
Definition load (a : Z) : M kmem Z := gets (fun s => rdw (ram s) a).
Definition store (a w : Z) : M kmem unit :=
  modify (fun s => lset ramL (wrw (ram s) a w) s).
Definition kmemset (dst c n : Z) : M kmem unit :=
  modify (fun s => lset ramL (memset (ram s) dst c n).2 s).

Section Kalloc.
Context `{L : !Layout}.

Definition kfree (v : Z) : M kmem unit :=
  if truthy (v mod PGSIZE) || (v <? kend) || (PHYSTOP <=? V2P v) then panic "kfree"
  else
    kmemset v 1 PGSIZE ;;
    ul ← gets use_lock;
    when ul (zoom km_lockL lk_acquire) ;;
    fl ← gets freelist;
    store v fl ;;
    modify (fun s => Kmem (km_lock s) (use_lock s) v (ram s)) ;;
    ul ← gets use_lock;
    when ul (zoom km_lockL lk_release).

Definition kalloc : M kmem Z :=
  ul ← gets use_lock;
  when ul (zoom km_lockL lk_acquire) ;;
  r ← gets freelist;
  (if truthy r then
     next ← load r;
     modify (fun s => Kmem (km_lock s) (use_lock s) next (ram s))
   else mret tt) ;;
  ul ← gets use_lock;
  when ul (zoom km_lockL lk_release) ;;
  mret r.

(** [for(; p + PGSIZE <= vend; p += PGSIZE) kfree(p);]; the number of pages
    between [p] and [vend] bounds the iterations. *)
Fixpoint freerange_loop (fuel : nat) (p vend : Z) : M kmem unit :=
  match fuel with
  | O => hang
  | S fuel' =>
      if p + PGSIZE <=? vend then kfree p ;; freerange_loop fuel' (p + PGSIZE) vend
      else mret tt
  end.

Definition freerange (vstart vend : Z) : M kmem unit :=
  let p := PGROUNDUP vstart in
  freerange_loop (S (Z.to_nat ((vend - p) / PGSIZE))) p vend.

Definition kinit1 (vstart vend : Z) : M kmem unit :=
  modify (fun s => Kmem false (use_lock s) (freelist s) (ram s)) ;;
  modify (fun s => Kmem (km_lock s) false (freelist s) (ram s)) ;;
  freerange vstart vend.

Definition kinit2 (vstart vend : Z) : M kmem unit :=
  freerange vstart vend ;;
  modify (fun s => Kmem (km_lock s) true (freelist s) (ram s)).

(** [while(r != 0){ free_memory_pages++; r = r->next; }]: no more
    iterations than there are page frames, unless the list is cyclic. *)
Fixpoint freemem_loop (fuel : nat) (r n : Z) : M kmem Z :=
  match fuel with
  | O => hang
  | S fuel' =>
      if truthy r then next ← load r; freemem_loop fuel' next (s32 (n + 1))
      else mret n
  end.

Definition freemem : M kmem Z :=
  r ← gets freelist;
  freemem_loop (Z.to_nat (PHYSTOP / PGSIZE + 1)) r 0.

(** ** The invariant *)
Definition page_ok (p : Z) : Prop :=
  p mod 4096 = 0 /\ kend <= p /\ p < KERNBASE + PHYSTOP.

(** The list found in memory [m] from pointer [r]. *)
Fixpoint chain (m : mem) (r : Z) (l : list Z) : Prop :=
  match l with
  | [] => r = 0
  | p :: l' => r = p /\ chain m (rdw m p) l'
  end.

Record kmem_ok (s : kmem) (l : list Z) : Prop := {
  ko_chain : chain (ram s) (freelist s) l;
  ko_pages : Forall page_ok l;
  ko_nodup : NoDup l;
  ko_lock : km_lock s = false;
  ko_mem : mem_ok (ram s)
}.

Lemma page_ok_range p : page_ok p -> KERNBASE + EXTMEM < p /\ p + 4096 <= KERNBASE + PHYSTOP.
Proof.
  intros (H1 & H2 & H3). pose proof kdata_low. pose proof kdata_kend.
  unfold KERNLINK, KERNBASE, EXTMEM, PHYSTOP in *. split; [lia|].
  Z.div_mod_to_equations. lia.
Qed.

(** Distinct aligned pages do not overlap. *)
Lemma pages_disjoint p q : p mod 4096 = 0 -> q mod 4096 = 0 -> p <> q ->
  p + 4096 <= q \/ q + 4096 <= p.
Proof. intros. Z.div_mod_to_equations. lia. Qed.

Lemma chain_frame m m' l : forall r,
  chain m r l -> (forall p, p ∈ l -> rdw m' p = rdw m p) -> chain m' r l.
Proof.
  induction l as [|p l IH]; intros r; simpl; [done|].
  intros [-> Hc] H. split; [done|]. rewrite H by set_solver.
  apply IH; [done|]. set_solver.
Qed.

(** [kfree]'s test is exactly [page_ok]. *)
Lemma kfree_test v : 0 <= v < 4294967296 ->
  truthy (v mod PGSIZE) || (v <? kend) || (PHYSTOP <=? V2P v) = false <-> page_ok v.
Proof.
  intros Hv. unfold page_ok, truthy, PGSIZE, V2P.
  pose proof kdata_low. pose proof kdata_kend.
  rewrite !orb_false_iff, negb_false_iff, Z.eqb_eq, Z.ltb_ge, Z.leb_gt.
  unfold KERNLINK, KERNBASE, EXTMEM, PHYSTOP in *.
  split; intros H1.
  - destruct H1 as [[? ?] Hp]. rewrite u32_small in Hp by lia. lia.
  - rewrite u32_small by lia. lia.
Qed.

(** ** Allocation *)
Lemma kalloc_spec s l :
  kmem_ok s l ->
  exists s', kalloc s = Ok (hd 0 l, s') /\ kmem_ok s' (tl l) /\
    ram s' = ram s /\ use_lock s' = use_lock s.
Proof.
  intros [Hc Hp Hn Hl Hm].
  destruct s as [lk ul fl m]; simpl in *; subst lk. destruct l as [|p l]; simpl in *.
  - subst fl. exists (Kmem false ul 0 m). split; [|done]. by destruct ul.
  - destruct Hc as [-> Hc]. apply Forall_cons in Hp as [Hp Hps].
    apply NoDup_cons in Hn as [_ Hn].
    exists (Kmem false ul (rdw m p) m). split; [|done].
    assert (Ht : truthy p = true).
    { unfold truthy. pose proof (page_ok_range p Hp). unfold KERNBASE, EXTMEM in *.
      destruct (Z.eqb_spec p 0); [lia|done]. }
    unfold kalloc, when, load, zoom, gets, modify, mbind, M_bind, mret, M_ret; simpl.
    destruct ul; simpl; rewrite Ht; done.
Qed.

Lemma kfree_panics v s : 0 <= v < 4294967296 -> ~ page_ok v -> kfree v s = Panic "kfree".
Proof.
  intros Hv H. unfold kfree.
  destruct (_ || _ || _) eqn:E; [done|]. exfalso. apply H. by apply kfree_test.
Qed.

Lemma kfree_spec v s l :
  kmem_ok s l -> page_ok v -> v ∉ l ->
  exists s', kfree v s = Ok (tt, s') /\ kmem_ok s' (v :: l) /\ use_lock s' = use_lock s /\
    (forall a, ~ (v <= a < v + 4096) -> rdb (ram s') a = rdb (ram s) a) /\
    (forall a, v + 4 <= a < v + 4096 -> rdb (ram s') a = 1).
Proof.
  intros [Hc Hp Hn Hl Hm] Hv Hnotin. pose proof (page_ok_range v Hv) as Hr.
  unfold KERNBASE, EXTMEM, PHYSTOP in Hr.
  unfold kfree. rewrite (proj2 (kfree_test v ltac:(lia)) Hv).
  destruct s as [lk ul fl m]; simpl in *; subst lk.
  set (m1 := wrw (memset m v 1 4096).2 v fl).
  assert (Hm1 : forall a, rdb m1 a = if (v <=? a) && (a <? v + 4) then byte_of fl (a - v)
                           else if (v <=? a) && (a <? v + 4096) then 1 else rdb m a).
  { intros a. unfold m1. rewrite rdb_wrw, memset_mem by lia. done. }
  exists (Kmem false ul v m1). split; [|split; [|split; [done|split]]].
  - unfold kmemset, when, load, store, zoom, gets, modify, mbind, M_bind, mret, M_ret; simpl.
    by destruct ul.
  - split; simpl; [split; [done|]|by apply Forall_cons|by apply NoDup_cons|done|].
    + assert (Hfl : rdw m1 v = fl).
      { unfold m1. rewrite rdw_wrw_eq. apply u32_small. destruct l as [|p l]; simpl in Hc.
        - lia.
        - destruct Hc as [-> _]. apply Forall_cons in Hp as [Hp _].
          apply page_ok_range in Hp. unfold KERNBASE, EXTMEM, PHYSTOP in Hp. lia. }
      rewrite Hfl. apply (chain_frame m); [done|]. intros q Hq.
      rewrite Forall_forall in Hp. pose proof (Hp q Hq) as Hqok.
      assert (q <> v) by (intros ->; done).
      destruct (pages_disjoint q v (proj1 Hqok) (proj1 Hv)) as [Hd|Hd]; [done| |];
        apply rdw_ext; intros a Ha; rewrite Hm1; zcases; done.
    + intros a. rewrite Hm1. pose proof (u8_range (fl / 256 ^ (a - v))).
      unfold byte_of. repeat case_match; [done|lia|apply Hm].
  - intros a Ha. simpl. rewrite Hm1. zcases; done.
  - intros a Ha. simpl. rewrite Hm1. zcases; done.
Qed.

(** ** Initialisation *)

(** The pages from [p], [n] of them, in the order [freerange] frees them. *)
Definition pages_from (p : Z) (n : nat) : list Z :=
  (fun i => p + 4096 * Z.of_nat i) <$> seq 0 n.

Lemma pages_from_S p n : pages_from p (S n) = p :: pages_from (p + 4096) n.
Proof.
  unfold pages_from. simpl. f_equal; [lia|]. rewrite <-seq_shift, <-list_fmap_compose.
  apply list_fmap_ext. intros ? i _. simpl. lia.
Qed.

Lemma elem_of_pages_from p n q :
  q ∈ pages_from p n <-> exists i, 0 <= i < Z.of_nat n /\ q = p + 4096 * i.
Proof.
  unfold pages_from. rewrite list_elem_of_fmap. split.
  - intros (i & -> & Hi%elem_of_seq). exists (Z.of_nat i). lia.
  - intros (i & Hi & ->). exists (Z.to_nat i). rewrite elem_of_seq, Z2Nat.id by lia. lia.
Qed.

Lemma freerange_loop_spec n : forall fuel p vend s l,
  kmem_ok s l -> p mod 4096 = 0 -> kend <= p -> vend <= KERNBASE + PHYSTOP ->
  Z.of_nat n * 4096 <= Z.max 0 (vend - p) < Z.of_nat (S n) * 4096 -> (n < fuel)%nat ->
  (forall q, q ∈ l -> q < p \/ vend <= q) ->
  exists s', freerange_loop fuel p vend s = Ok (tt, s') /\
    kmem_ok s' (reverse (pages_from p n) ++ l) /\ use_lock s' = use_lock s.
Proof.
  induction n as [|n IH]; intros fuel p vend s l Hs Hp Hlo Hhi Hn Hf Hl;
    destruct fuel as [|fuel]; try lia; simpl freerange_loop; unfold PGSIZE.
  - destruct (Z.leb_spec (p + 4096) vend); [lia|]. by exists s.
  - destruct (Z.leb_spec (p + 4096) vend); [|lia].
    destruct (kfree_spec p s l Hs) as (s1 & Hk & Hs1 & Hu1 & _ & _).
    { split_and!; [done|done|lia]. }
    { intros Hin. apply Hl in Hin. lia. }
    destruct (IH fuel (p + 4096) vend s1 (p :: l) Hs1) as (s2 & Hk2 & Hs2 & Hu2);
      try lia.
    { rewrite <-(Z.mul_1_l 4096). by rewrite Z.mod_add. }
    { intros q [->|Hq]%elem_of_cons; [lia|]. apply Hl in Hq. lia. }
    exists s2. unfold mbind, M_bind. rewrite Hk. split; [done|].
    rewrite pages_from_S, reverse_cons. rewrite <-app_assoc. split; [done|]. by rewrite Hu2.
Qed.

Lemma freerange_spec vstart vend s l :
  kmem_ok s l -> kend <= vstart -> vstart <= vend -> vend <= KERNBASE + PHYSTOP ->
  (forall q, q ∈ l -> q < vstart \/ vend <= q) ->
  exists s' n, freerange vstart vend s = Ok (tt, s') /\ use_lock s' = use_lock s /\
    kmem_ok s' (reverse (pages_from (PGROUNDUP vstart) n) ++ l) /\
    (forall q, q ∈ pages_from (PGROUNDUP vstart) n <->
       q mod 4096 = 0 /\ vstart <= q /\ q + 4096 <= vend).
Proof.
  intros Hs H1 H2 H3 Hl. pose proof kdata_low. pose proof kdata_kend.
  unfold KERNLINK, KERNBASE, EXTMEM, PHYSTOP in *.
  assert (Hr : PGROUNDUP vstart = (vstart + 4095) / 4096 * 4096) by (apply PGROUNDUP_eq; lia).
  set (n := Z.to_nat (Z.max 0 (vend - PGROUNDUP vstart) / 4096)).
  destruct (freerange_loop_spec n (S (Z.to_nat ((vend - PGROUNDUP vstart) / PGSIZE)))
    (PGROUNDUP vstart) vend s l Hs) as (s' & Hk & Hok & Hu).
  - rewrite Hr. apply Z.mod_mul. lia.
  - rewrite Hr. Z.div_mod_to_equations. lia.
  - unfold KERNBASE, PHYSTOP. lia.
  - unfold n. rewrite Nat2Z.inj_succ, Z2Nat.id by (apply Z.div_pos; lia).
    Z.div_mod_to_equations. lia.
  - unfold n, PGSIZE. destruct (Z.max_spec 0 (vend - PGROUNDUP vstart)) as [[? ->]|[? ->]]; [lia|].
    rewrite Z.div_0_l by lia. lia.
  - intros q Hq. destruct (Hl q Hq); [left; rewrite Hr; Z.div_mod_to_equations; lia|by right].
  - exists s', n. split_and!; [done|done|done|]. intros q. rewrite elem_of_pages_from. unfold n.
    rewrite Z2Nat.id by (apply Z.div_pos; lia). rewrite Hr.
    set (b := (vstart + 4095) / 4096).
    assert (Hb : 4096 * b - 4095 <= vstart <= 4096 * b) by (unfold b; Z.div_mod_to_equations; lia).
    clearbody b. split.
    + intros (i & Hi & ->). split; [|].
      * replace (b * 4096 + 4096 * i) with ((b + i) * 4096) by lia. apply Z.mod_mul. lia.
      * Z.div_mod_to_equations. lia.
    + intros (Hq & Hq1 & Hq2). exists (q / 4096 - b). Z.div_mod_to_equations. lia.
Qed.

(** ** Counting *)
Lemma freemem_loop_spec m ul fl l : forall fuel r n,
  chain m r l -> Forall page_ok l -> (length l < fuel)%nat ->
  0 <= n -> n + Z.of_nat (length l) < 2147483648 ->
  freemem_loop fuel r n (Kmem false ul fl m) =
    Ok (n + Z.of_nat (length l), Kmem false ul fl m).
Proof.
  induction l as [|p l IH]; intros fuel r n Hc Hp Hf Hn Hb; destruct fuel as [|fuel];
    simpl in *; try lia.
  - subst r. simpl. unfold mret, M_ret. do 2 f_equal. lia.
  - destruct Hc as [-> Hc]. apply Forall_cons in Hp as [Hp Hps].
    assert (truthy p = true) as ->.
    { unfold truthy. pose proof (page_ok_range p Hp). unfold KERNBASE, EXTMEM in *.
      destruct (Z.eqb_spec p 0); [lia|done]. }
    unfold mbind, M_bind, load, gets; simpl. rewrite s32_small by lia.
    rewrite IH by (done || lia). do 2 f_equal. lia.
Qed.

(** There are no more valid pages than frames below PHYSTOP. *)
Lemma pages_bounded l : Forall page_ok l -> NoDup l -> (length l <= Z.to_nat (PHYSTOP / PGSIZE))%nat.
Proof.
  intros Hp Hn.
  set (idx := fun p => Z.to_nat ((p - KERNBASE) / 4096)).
  assert (Hinj : forall p q, p ∈ l -> q ∈ l -> idx p = idx q -> p = q).
  { rewrite Forall_forall in Hp. intros p q Hip Hiq E. unfold idx in E.
    pose proof (Hp p Hip) as Ha. pose proof (Hp q Hiq) as Hb.
    pose proof (page_ok_range p Ha). pose proof (page_ok_range q Hb).
    destruct Ha as [Ha _], Hb as [Hb _]. unfold KERNBASE, EXTMEM in *.
    Z.div_mod_to_equations. lia. }
  assert (Hnd : NoDup (idx <$> l)).
  { clear Hp. induction l as [|p l IH]; simpl; [constructor|].
    apply NoDup_cons in Hn as [Hn1 Hn2]. apply NoDup_cons. split.
    - intros (q & Hq & Hin)%list_elem_of_fmap. apply Hn1.
      rewrite (Hinj p q) by (done || set_solver). done.
    - apply IH; [done|]. intros; apply Hinj; set_solver. }
  rewrite <-(length_fmap idx). rewrite <-(length_seq (Z.to_nat (PHYSTOP / PGSIZE)) 0).
  apply submseteq_length, NoDup_submseteq; [done|].
  intros i (p & -> & Hin)%list_elem_of_fmap. rewrite elem_of_seq.
  rewrite Forall_forall in Hp. pose proof (page_ok_range p (Hp p Hin)).
  unfold idx, PHYSTOP, PGSIZE, KERNBASE, EXTMEM in *. split; [lia|].
  rewrite Nat.add_0_l. apply Z2Nat.inj_lt; Z.div_mod_to_equations; lia.
Qed.

Lemma freemem_spec s l : kmem_ok s l -> freemem s = Ok (Z.of_nat (length l), s).
Proof.
  intros [Hc Hp Hn Hl Hm]. pose proof (pages_bounded l Hp Hn) as Hb.
  destruct s as [lk ul fl m]; simpl in *; subst lk.
  change (Z.to_nat (PHYSTOP / PGSIZE)) with (Z.to_nat 57344) in Hb.
  unfold freemem, mbind, M_bind, gets. simpl freelist.
  change (PHYSTOP / PGSIZE + 1) with 57345.
  rewrite (freemem_loop_spec m ul fl l) by (done || lia).
  by rewrite Z.add_0_l.
Qed.

(** ** Properties *)

(** C15: the allocator implements a stack of pages kept inside the free pages
    themselves.  [kalloc] pops the most recently freed page, or returns 0 on
    an empty list, and changes no byte of memory.  [kfree] of an address that
    is not a free page pushes it, overwriting only that page (bytes of 1
    behind the link), and panics exactly when the address is unaligned,
    inside the kernel image or beyond physical memory. *)
Theorem allocator_refines_stack s l :
  kmem_ok s l ->
  (exists s', kalloc s = Ok (hd 0 l, s') /\ kmem_ok s' (tl l) /\ ram s' = ram s) /\
  (forall v, 0 <= v < 4294967296 -> v ∉ l ->
     (page_ok v -> exists s', kfree v s = Ok (tt, s') /\ kmem_ok s' (v :: l) /\
        (forall a, ~ (v <= a < v + PGSIZE) -> rdb (ram s') a = rdb (ram s) a) /\
        (forall a, v + 4 <= a < v + PGSIZE -> rdb (ram s') a = 1)) /\
     (~ page_ok v -> kfree v s = Panic "kfree")).
Proof.
  intros Hs. split.
  - destruct (kalloc_spec s l Hs) as (s' & ? & ? & ? & ?). eauto.
  - intros v Hv Hl. split; [|by apply kfree_panics]. intros Hok.
    destruct (kfree_spec v s l Hs Hok Hl) as (s' & ? & ? & ? & ? & ?). eauto 10.
Qed.

(** [freemem] terminates on every well formed free list and returns the
    number of its pages, leaving the allocator unchanged. *)
Theorem freemem_counts_free_pages s l :
  kmem_ok s l -> freemem s = Ok (Z.of_nat (length l), s).
Proof. apply freemem_spec. Qed.

(** The two initialisation phases of [main], from the end of the kernel
    to 4 MB and from there to PHYSTOP, put every whole page of allocatable
    memory on the free list, exactly once, and turn locking on. *)
Theorem boot_frees_every_page b u m :
  mem_ok m ->
  exists s' l,
    (kinit1 kend (P2V 4194304) ;; kinit2 (P2V 4194304) (P2V PHYSTOP)) (Kmem b u 0 m)
      = Ok (tt, s') /\
    kmem_ok s' l /\ (forall p, p ∈ l <-> page_ok p) /\ use_lock s' = true.
Proof.
  intros Hm. pose proof kdata_low. pose proof kdata_kend. pose proof kend_high.
  unfold KERNLINK, KERNBASE, EXTMEM in *.
  change (P2V 4194304) with 2151677952. change (P2V PHYSTOP) with 2382364672.
  destruct (freerange_spec kend 2151677952 (Kmem false false 0 m) [])
    as (s1 & n1 & Hr1 & Hu1 & Hk1 & Hp1); unfold KERNBASE, PHYSTOP; try lia.
  { split; simpl; [done|constructor|constructor|done|done]. }
  { intros q Hq. by apply elem_of_nil in Hq. }
  rewrite app_nil_r in Hk1.
  destruct (freerange_spec 2151677952 2382364672 s1 (reverse (pages_from (PGROUNDUP kend) n1)))
    as (s2 & n2 & Hr2 & Hu2 & Hk2 & Hp2); unfold KERNBASE, PHYSTOP; try lia; try done.
  { intros q Hq. apply elem_of_reverse, Hp1 in Hq. lia. }
  eexists (Kmem (km_lock s2) true (freelist s2) (ram s2)), _. split_and!.
  - unfold kinit1, kinit2, mbind, M_bind, modify; simpl. rewrite Hr1, Hr2. done.
  - destruct Hk2 as [? ? ? ? ?]. by split.
  - intros p. rewrite elem_of_app, !elem_of_reverse, Hp1, Hp2.
    unfold page_ok, KERNBASE, PHYSTOP. split; [lia|].
    intros (Hq & ? & ?). Z.div_mod_to_equations. lia.
  - done.
Qed.
End Kalloc.

(** A kernel image of the usual size, for the witnesses. *)
Definition example_layout : Layout := {|
  kdata := 0x80108000; kend := 0x801154a8;
  kdata_page := eq_refl; kdata_low := eq_refl;
  kdata_kend := ltac:(discriminate); kend_high := eq_refl |}.

Definition example_kmem : kmem :=
  Kmem false true 0x80400000 (wrw (wrw ∅ 0x80400000 0x80401000) 0x80401000 0).

Lemma example_kmem_ok : @kmem_ok example_layout example_kmem [0x80400000; 0x80401000].
Proof.
  split; [vm_compute; by split_and!| | |done|].
  - repeat constructor; simpl; unfold KERNBASE, PHYSTOP; lia.
  - apply (bool_decide_unpack _). reflexivity.
  - simpl. by apply mem_ok_wrw, mem_ok_wrw, mem_ok_empty.
Defined.

Lemma allocator_refines_stack_witness :
  @kfree example_layout 0x80100000 example_kmem = Panic "kfree" /\
  exists s', kalloc example_kmem = Ok (0x80400000, s').
Proof.
  destruct (@allocator_refines_stack example_layout example_kmem _ example_kmem_ok)
    as [(s' & H & _) Hf]. split.
  - apply (Hf 0x80100000); [lia|apply (bool_decide_unpack _); reflexivity|].
    unfold page_ok. simpl. lia.
  - exists s'. exact H.
Defined.

Lemma freemem_counts_free_pages_witness : freemem example_kmem = Ok (2, example_kmem).
Proof. exact (@freemem_counts_free_pages example_layout _ _ example_kmem_ok). Defined.

Lemma boot_frees_every_page_witness :
  exists s' l,
    (@kinit1 example_layout 0x801154a8 (P2V 4194304) ;;
     @kinit2 example_layout (P2V 4194304) (P2V PHYSTOP)) (Kmem false false 0 ∅) = Ok (tt, s') /\
    @kmem_ok example_layout s' l.
Proof.
  destruct (@boot_frees_every_page example_layout false false ∅ mem_ok_empty)
    as (s' & l & H & H' & _). exists s', l. split; [exact H|exact H'].
Defined.
