(* ===== verification/Vm.v ===== *)
(** * Page tables (vm.c)

    Page directories and page tables are pages of the allocator's memory.  The
    operations follow vm.c; [pte_at] and [translate] state what the hardware's
    two-level walk finds, and the lemmas relate the two. *)
From S2P Require Import Prelude CString Layout Spinlock Kalloc.

Open Scope Z_scope.

(** ** The entries *)
Definition pte_present (e : Z) : bool := truthy (Z.land e PTE_P).

(** struct kmap: one row of the table of kernel mappings. *)
Record kmap_row := Kmap { virt : Z; phys_start : Z; phys_end : Z; kperm : Z }.

Section Vm.
Context `{L : !Layout}.

Definition kmap : list kmap_row := [
  Kmap KERNBASE 0 EXTMEM PTE_W;
  Kmap KERNLINK (V2P KERNLINK) (V2P kdata) 0;
  Kmap kdata (V2P kdata) PHYSTOP PTE_W;
  Kmap DEVSPACE DEVSPACE 0 PTE_W ].

(** Returns the address of the entry, or 0. *)
Definition walkpgdir (pgdir va : Z) (alloc : bool) : M kmem Z :=
  let pde := pgdir + 4 * PDX va in
  e ← load pde;
  if pte_present e then mret (P2V (PTE_ADDR e) + 4 * PTX va)
  else if negb alloc then mret 0
  else
    pgtab ← kalloc;
    if pgtab =? 0 then mret 0
    else
      kmemset pgtab 0 PGSIZE ;;
      store pde (Z.lor (Z.lor (Z.lor (V2P pgtab) PTE_P) PTE_W) PTE_U) ;;
      mret (pgtab + 4 * PTX va).

(** The loop runs from [a] to [last] page by page, which takes
    [(last - a) / PGSIZE + 1] iterations (modulo 2^32). *)
Fixpoint mappages_loop (fuel : nat) (pgdir a last pa perm : Z) : M kmem Z :=
  match fuel with
  | O => hang
  | S fuel' =>
      pte ← walkpgdir pgdir a true;
      if pte =? 0 then mret (-1)
      else
        e ← load pte;
        if pte_present e then panic "remap"
        else
          store pte (Z.lor (Z.lor pa perm) PTE_P) ;;
          if a =? last then mret 0
          else mappages_loop fuel' pgdir (u32 (a + PGSIZE)) last (u32 (pa + PGSIZE)) perm
  end.

Definition mappages (pgdir va size pa perm : Z) : M kmem Z :=
  let a := PGROUNDDOWN va in
  let last := PGROUNDDOWN (u32 (va + size - 1)) in
  mappages_loop (S (Z.to_nat (u32 (last - a) / PGSIZE))) pgdir a last pa perm.

(** [for(; a < oldsz; a += PGSIZE)]: every iteration moves [a] up by at
    least a page. *)
Fixpoint deallocuvm_loop (fuel : nat) (pgdir a oldsz : Z) : M kmem unit :=
  match fuel with
  | O => hang
  | S fuel' =>
      if a <? oldsz then
        pte ← walkpgdir pgdir a false;
        if pte =? 0 then
          deallocuvm_loop fuel' pgdir
            (u32 (u32 (PGADDR (PDX a + 1) 0 0 - PGSIZE) + PGSIZE)) oldsz
        else
          e ← load pte;
          (if pte_present e then
             let pa := PTE_ADDR e in
             if pa =? 0 then panic "kfree"
             else kfree (P2V pa) ;; store pte 0
           else mret tt) ;;
          deallocuvm_loop fuel' pgdir (u32 (a + PGSIZE)) oldsz
      else mret tt
  end.

Definition deallocuvm (pgdir oldsz newsz : Z) : M kmem Z :=
  if oldsz <=? newsz then mret oldsz
  else
    let a := PGROUNDUP newsz in
    deallocuvm_loop (S (Z.to_nat ((oldsz - a) / PGSIZE + 1))) pgdir a oldsz ;;
    mret newsz.

Fixpoint allocuvm_loop (fuel : nat) (pgdir a oldsz newsz : Z) : M kmem Z :=
  match fuel with
  | O => hang
  | S fuel' =>
      if a <? newsz then
        v ← kalloc;
        if v =? 0 then
          deallocuvm pgdir newsz oldsz ;; mret 0
        else
          kmemset v 0 PGSIZE ;;
          r ← mappages pgdir a PGSIZE (V2P v) (Z.lor PTE_W PTE_U);
          if r <? 0 then
            deallocuvm pgdir newsz oldsz ;; kfree v ;; mret 0
          else allocuvm_loop fuel' pgdir (u32 (a + PGSIZE)) oldsz newsz
      else mret newsz
  end.

Definition allocuvm (pgdir oldsz newsz : Z) : M kmem Z :=
  if KERNBASE <=? newsz then mret 0
  else if newsz <? oldsz then mret oldsz
  else
    let a := PGROUNDUP oldsz in
    allocuvm_loop (S (Z.to_nat ((newsz - a) / PGSIZE + 1))) pgdir a oldsz newsz.

Definition freevm (pgdir : Z) : M kmem unit :=
  if pgdir =? 0 then panic "freevm: no pgdir"
  else
    deallocuvm pgdir KERNBASE 0 ;;
    for_each (seqZ 0 NPDENTRIES) (fun i =>
      e ← load (pgdir + 4 * i);
      if pte_present e then kfree (P2V (PTE_ADDR e)) else mret tt) ;;
    kfree pgdir.

Fixpoint setupkvm_loop (pgdir : Z) (ks : list kmap_row) : M kmem Z :=
  match ks with
  | [] => mret pgdir
  | k :: ks' =>
      r ← mappages pgdir (virt k) (u32 (phys_end k - phys_start k)) (phys_start k) (kperm k);
      if r <? 0 then freevm pgdir ;; mret 0
      else setupkvm_loop pgdir ks'
  end.

Definition setupkvm : M kmem Z :=
  pgdir ← kalloc;
  if pgdir =? 0 then mret 0
  else
    kmemset pgdir 0 PGSIZE ;;
    if DEVSPACE <? P2V PHYSTOP then panic "PHYSTOP too high"
    else setupkvm_loop pgdir kmap.

(** The bytes of a caller's buffer, stored from address [a] up. *)
Fixpoint wr_bytes (m : mem) (a : Z) (bs : list Z) : mem :=
  match bs with
  | [] => m
  | b :: bs' => wr_bytes (wrb m a b) (a + 1) bs'
  end.
Definition store_bytes (a : Z) (bs : list Z) : M kmem unit :=
  modify (fun s => lset ramL (wr_bytes (ram s) a bs) s).

Definition inituvm (pgdir : Z) (init : list Z) (sz : Z) : M kmem unit :=
  if PGSIZE <=? sz then panic "inituvm: more than a page"
  else
    v ← kalloc;
    kmemset v 0 PGSIZE ;;
    mappages pgdir 0 PGSIZE (V2P v) (Z.lor PTE_W PTE_U) ;;
    store_bytes v (take (Z.to_nat sz) init).

Definition clearpteu (pgdir uva : Z) : M kmem unit :=
  pte ← walkpgdir pgdir uva false;
  if pte =? 0 then panic "clearpteu"
  else e ← load pte; store pte (Z.land e (u32 (Z.lnot PTE_U))).

(** [for(i = 0; i < sz; i += PGSIZE)] *)
Fixpoint copyuvm_loop (fuel : nat) (pgdir d i sz : Z) : M kmem Z :=
  match fuel with
  | O => hang
  | S fuel' =>
      if i <? sz then
        pte ← walkpgdir pgdir i false;
        if pte =? 0 then panic "copyuvm: pte should exist"
        else
          e ← load pte;
          if negb (pte_present e) then panic "copyuvm: page not present"
          else
            let pa := PTE_ADDR e in
            let flags := PTE_FLAGS e in
            v ← kalloc;
            if v =? 0 then freevm d ;; mret 0
            else
              modify (fun s => lset ramL (memmove (ram s) v (P2V pa) PGSIZE).2 s) ;;
              r ← mappages d i PGSIZE (V2P v) flags;
              if r <? 0 then kfree v ;; freevm d ;; mret 0
              else copyuvm_loop fuel' pgdir d (u32 (i + PGSIZE)) sz
      else mret d
  end.

Definition copyuvm (pgdir sz : Z) : M kmem Z :=
  d ← setupkvm;
  if d =? 0 then mret 0
  else copyuvm_loop (S (Z.to_nat (sz / PGSIZE + 1))) pgdir d 0 sz.

(** Dereferencing the null entry pointer of an unmapped region is undefined. *)
Definition uva2ka (pgdir uva : Z) : M kmem Z :=
  pte ← walkpgdir pgdir uva false;
  if pte =? 0 then undef "uva2ka: no page table"
  else
    e ← load pte;
    if negb (pte_present e) then mret 0
    else if negb (truthy (Z.land e PTE_U)) then mret 0
    else mret (P2V (PTE_ADDR e)).

(** [buf] is the caller's buffer of [len] bytes; every iteration consumes at
    least one byte. *)
Fixpoint copyout_loop (fuel : nat) (pgdir va : Z) (buf : list Z) : M kmem Z :=
  match buf with
  | [] => mret 0
  | _ :: _ =>
      match fuel with
      | O => hang
      | S fuel' =>
          let va0 := PGROUNDDOWN va in
          pa0 ← uva2ka pgdir va0;
          if pa0 =? 0 then mret (-1)
          else
            let n := u32 (PGSIZE - (va - va0)) in
            let n := if Z.of_nat (length buf) <? n then Z.of_nat (length buf) else n in
            store_bytes (pa0 + (va - va0)) (take (Z.to_nat n) buf) ;;
            copyout_loop fuel' pgdir (u32 (va0 + PGSIZE)) (drop (Z.to_nat n) buf)
      end
  end.

Definition copyout (pgdir va : Z) (p : list Z) : M kmem Z :=
  copyout_loop (length p) pgdir va p.

(** ** What the hardware finds *)
Definition pde_at (m : mem) (pgdir i : Z) : Z := rdw m (pgdir + 4 * i).
Definition table_at (m : mem) (pgdir i : Z) : Z := P2V (PTE_ADDR (pde_at m pgdir i)).

Definition pte_at (m : mem) (pgdir va : Z) : Z :=
  if pte_present (pde_at m pgdir (PDX va))
  then rdw m (table_at m pgdir (PDX va) + 4 * PTX va)
  else 0.

Definition translate (m : mem) (pgdir va : Z) : option Z :=
  let e := pte_at m pgdir va in
  if pte_present e then Some (PTE_ADDR e + u32 va mod 4096) else None.

(** ** Entries as numbers *)
Lemma pte_present_odd e : pte_present e = Z.odd e.
Proof.
  unfold pte_present, PTE_P, truthy. change 1 with (Z.ones 1).
  rewrite Z.land_ones by lia. change (2 ^ 1) with 2. rewrite Zmod_odd. by destruct (Z.odd e).
Qed.

Lemma pte_value pa perm :
  0 <= pa < 4294967296 -> pa mod 4096 = 0 -> 0 <= perm < 4096 ->
  let e := Z.lor (Z.lor pa perm) PTE_P in
  u32 e = e /\ PTE_ADDR e = pa /\ PTE_FLAGS e = Z.lor perm PTE_P /\ pte_present e = true.
Proof.
  intros Hpa Hal Hp e.
  assert (Hlo : 0 <= Z.lor perm 1 < 4096).
  { split; [apply Z.lor_nonneg; lia|]. destruct (decide (perm = 0)) as [->|]; [done|].
    assert (Z.log2 (Z.lor perm 1) < 12).
    { rewrite Z.log2_lor by lia. apply Z.max_lub_lt; [|simpl; lia].
      apply Z.log2_lt_pow2; lia. }
    apply Z.log2_lt_cancel. change (Z.log2 4096) with 12. done. }
  assert (He : e = pa + Z.lor perm 1).
  { unfold e, PTE_P. rewrite <-Z.lor_assoc. by apply (lor_disjoint _ _ 12). }
  assert (Hodd : Z.odd (Z.lor perm 1) = true).
  { rewrite <-Z.bit0_odd, Z.lor_spec. apply orb_true_r. }
  clearbody e. subst e.
  assert (Hsm : u32 (pa + Z.lor perm 1) = pa + Z.lor perm 1).
  { apply u32_small. Z.div_mod_to_equations. lia. }
  split_and!.
  - done.
  - rewrite PTE_ADDR_eq, Hsm. Z.div_mod_to_equations. lia.
  - rewrite PTE_FLAGS_eq, Hsm. unfold PTE_P. Z.div_mod_to_equations. lia.
  - rewrite pte_present_odd, Z.odd_add, Hodd.
    assert (Z.odd pa = false) as ->; [|done].
    rewrite (Z.div_mod pa 4096), Hal by lia.
    by rewrite Z.add_0_r, Z.odd_mul.
Qed.

Lemma pde_value p :
  page_ok p ->
  let e := Z.lor (Z.lor (Z.lor (V2P p) PTE_P) PTE_W) PTE_U in
  u32 e = e /\ P2V (PTE_ADDR e) = p /\ pte_present e = true.
Proof.
  intros Hp e. pose proof (page_ok_range p Hp) as Hr.
  unfold KERNBASE, EXTMEM, PHYSTOP in Hr. destruct Hp as [Hal _].
  assert (Hv : V2P p = p - KERNBASE).
  { unfold V2P, KERNBASE. apply u32_small. lia. }
  destruct (pte_value (V2P p) 7) as (H1 & H2 & _ & H3).
  { rewrite Hv. unfold KERNBASE. lia. }
  { rewrite Hv. unfold KERNBASE. Z.div_mod_to_equations. lia. }
  { lia. }
  assert (He : e = Z.lor (Z.lor (V2P p) 7) PTE_P).
  { unfold e, PTE_P, PTE_W, PTE_U. rewrite <-!Z.lor_assoc. reflexivity. }
  rewrite He. split_and!; [done| |done]. rewrite H2. apply P2V_V2P. lia.
Qed.

(** ** Memory that agrees on a page *)
Definition same_page (m m' : mem) (p : Z) : Prop :=
  forall a, p <= a < p + 4096 -> rdb m' a = rdb m a.

Lemma same_page_refl m p : same_page m m p.
Proof. done. Qed.
Lemma same_page_trans m1 m2 m3 p : same_page m1 m2 p -> same_page m2 m3 p -> same_page m1 m3 p.
Proof. intros H1 H2 a Ha. rewrite H2, H1; done. Qed.

Lemma same_page_rdw m m' p i : same_page m m' p -> 0 <= i < 1024 ->
  rdw m' (p + 4 * i) = rdw m (p + 4 * i).
Proof. intros H Hi. apply rdw_ext. intros a Ha. apply H. lia. Qed.

Lemma same_page_wrw m p q i w :
  p mod 4096 = 0 -> q mod 4096 = 0 -> p <> q -> 0 <= i < 1024 ->
  same_page m (wrw m (q + 4 * i) w) p.
Proof.
  intros Hp Hq Hne Hi a Ha. rewrite rdb_wrw.
  destruct (pages_disjoint p q Hp Hq Hne); zcases; done.
Qed.

Lemma same_page_memset m p q c :
  p mod 4096 = 0 -> q mod 4096 = 0 -> p <> q -> same_page m (memset m q c 4096).2 p.
Proof.
  intros Hp Hq Hne a Ha. rewrite memset_mem by lia.
  destruct (pages_disjoint p q Hp Hq Hne); zcases; done.
Qed.

Lemma rdw_memset0 m p i : 0 <= i < 1024 -> rdw (memset m p 0 4096).2 (p + 4 * i) = 0.
Proof. intros Hi. unfold rdw. rewrite !memset_mem, !in_range_true by lia. done. Qed.

Lemma chain_same_page m m' r l :
  chain m r l -> (forall p, p ∈ l -> same_page m m' p) -> chain m' r l.
Proof.
  intros Hc H. apply (chain_frame m); [done|]. intros p Hp.
  pose proof (same_page_rdw m m' p 0 (H p Hp)) as E. rewrite Z.mul_0_r, Z.add_0_r in E.
  apply E. lia.
Qed.

(** The allocator does not notice a write outside its free pages. *)
Lemma kmem_ok_ram s l m' :
  kmem_ok s l -> mem_ok m' -> (forall p, p ∈ l -> same_page (ram s) m' p) ->
  kmem_ok (Kmem (km_lock s) (use_lock s) (freelist s) m') l.
Proof.
  intros [Hc Hp Hn Hl Hm] Hm' H. split; simpl; try done. by apply (chain_same_page (ram s)).
Qed.

(** ** Well formed page directories *)
Definition has_table (m : mem) (pgdir i : Z) : Prop :=
  0 <= i < 1024 /\ pte_present (pde_at m pgdir i) = true.
Definition is_table (m : mem) (pgdir q : Z) : Prop :=
  exists i, has_table m pgdir i /\ table_at m pgdir i = q.

Record pgdir_ok (m : mem) (l : list Z) (pgdir : Z) : Prop := {
  po_page : page_ok pgdir;
  po_free : pgdir ∉ l;
  po_tab : forall q, is_table m pgdir q -> page_ok q /\ (q ∉ l) /\ q <> pgdir;
  po_inj : forall i j, has_table m pgdir i -> has_table m pgdir j ->
             table_at m pgdir i = table_at m pgdir j -> i = j
}.

(** What a page-table operation that only takes pages from the allocator
    does: it uses the first pages of the free list, and touches nothing but
    them, the directory and its tables. *)
Record vm_grow (s s' : kmem) (pgdir : Z) (used l' : list Z) : Prop := {
  vg_kmem : kmem_ok s' l';
  vg_pgdir : pgdir_ok (ram s') l' pgdir;
  vg_lock : use_lock s' = use_lock s;
  vg_frame : forall q, q mod 4096 = 0 -> q <> pgdir -> q ∉ used ->
               ~ is_table (ram s) pgdir q -> same_page (ram s) (ram s') q;
  vg_tables : forall q, is_table (ram s') pgdir q -> is_table (ram s) pgdir q \/ q ∈ used;
  vg_mono : forall q, is_table (ram s) pgdir q -> is_table (ram s') pgdir q;
  vg_used : forall q, q ∈ used -> is_table (ram s') pgdir q
}.

Lemma vm_grow_refl s pgdir l : kmem_ok s l -> pgdir_ok (ram s) l pgdir -> vm_grow s s pgdir [] l.
Proof. intros. split; try done; [by left|]. by intros q ?%elem_of_nil. Qed.

Lemma vm_grow_trans s1 s2 s3 pgdir u1 u2 l2 l3 :
  vm_grow s1 s2 pgdir u1 l2 -> vm_grow s2 s3 pgdir u2 l3 -> vm_grow s1 s3 pgdir (u1 ++ u2) l3.
Proof.
  intros H1 H2. split.
  - apply H2.
  - apply H2.
  - by rewrite (vg_lock _ _ _ _ _ H2), (vg_lock _ _ _ _ _ H1).
  - intros q Hq Hne Hu Ht. apply not_elem_of_app in Hu as [Hu1 Hu2].
    eapply same_page_trans; [by apply (vg_frame _ _ _ _ _ H1)|].
    apply (vg_frame _ _ _ _ _ H2); try done.
    intros [?|?]%(vg_tables _ _ _ _ _ H1); done.
  - intros q [Hq|Hq]%(vg_tables _ _ _ _ _ H2); [|right; lelem].
    apply (vg_tables _ _ _ _ _ H1) in Hq as [?|?]; [by left|right; lelem].
  - intros q Hq. by apply (vg_mono _ _ _ _ _ H2), (vg_mono _ _ _ _ _ H1).
  - intros q [Hq|Hq]%elem_of_app; [|by apply (vg_used _ _ _ _ _ H2)].
    by apply (vg_mono _ _ _ _ _ H2), (vg_used _ _ _ _ _ H1).
Qed.

Lemma page_ok_aligned p : page_ok p -> p mod 4096 = 0.
Proof. by intros []. Qed.

Lemma page_ok_nonzero p i : page_ok p -> 0 <= i -> (p + 4 * i =? 0) = false.
Proof.
  intros Hp Hi. pose proof (page_ok_range p Hp). unfold KERNBASE, EXTMEM in *.
  apply Z.eqb_neq. lia.
Qed.

Lemma table_is m pgdir va : pte_present (pde_at m pgdir (PDX va)) = true ->
  is_table m pgdir (table_at m pgdir (PDX va)).
Proof. intros H. exists (PDX va). split; [split; [apply PDX_range|done]|done]. Qed.

(** ** walkpgdir *)
Lemma walkpgdir_find pgdir va s :
  walkpgdir pgdir va false s =
    Ok (if pte_present (pde_at (ram s) pgdir (PDX va))
        then table_at (ram s) pgdir (PDX va) + 4 * PTX va else 0, s).
Proof.
  unfold walkpgdir, mbind, M_bind, load, gets, pde_at, table_at. simpl.
  destruct (pte_present _); done.
Qed.

Lemma same_pgdir_tables m m' pgdir :
  same_page m m' pgdir ->
  (forall i, 0 <= i < 1024 -> pde_at m' pgdir i = pde_at m pgdir i).
Proof. intros H i Hi. by apply same_page_rdw. Qed.

(** Adding a zeroed page [p] as the table of index [i]. *)
Section AddTable.
Context (m : mem) (pgdir i p : Z) (l : list Z).
Hypothesis Hm : mem_ok m.
Hypothesis Hd : pgdir_ok m (p :: l) pgdir.
Hypothesis Hi : 0 <= i < 1024.
Hypothesis Habs : pte_present (pde_at m pgdir i) = false.
Hypothesis Hp : page_ok p.
Hypothesis Hpl : p ∉ l.

Let e := Z.lor (Z.lor (Z.lor (V2P p) PTE_P) PTE_W) PTE_U.
Let m' := wrw (memset m p 0 4096).2 (pgdir + 4 * i) e.

Lemma add_table_ne : p <> pgdir.
Proof. intros E. apply (po_free _ _ _ Hd). lelem. Qed.

Lemma add_table_same q : q mod 4096 = 0 -> q <> p -> q <> pgdir -> same_page m m' q.
Proof.
  intros Hq H1 H2. eapply same_page_trans.
  - by apply same_page_memset; [| apply page_ok_aligned|].
  - apply same_page_wrw; try done. apply page_ok_aligned, Hd.
Qed.

Lemma add_table_pde j : 0 <= j < 1024 ->
  pde_at m' pgdir j = if decide (j = i) then e else pde_at m pgdir j.
Proof.
  intros Hj. unfold pde_at, m'. case_decide as Hji.
  - subst j. rewrite rdw_wrw_eq. apply (pde_value p Hp).
  - rewrite rdw_wrw_ne by lia. apply same_page_rdw; [|done].
    apply same_page_memset; [apply page_ok_aligned, Hd|by apply page_ok_aligned|].
    pose proof add_table_ne. done.
Qed.

Lemma add_table_has j : has_table m' pgdir j <-> j = i \/ has_table m pgdir j.
Proof.
  unfold has_table. destruct (pde_value p Hp) as (_ & _ & He). fold e in He. split.
  - intros [Hj H]. rewrite add_table_pde in H by done. case_decide; [by left|by right].
  - intros [->|[Hj H]]; (split; [done|]); rewrite add_table_pde by done; case_decide; done.
Qed.

Lemma add_table_at j : has_table m' pgdir j ->
  table_at m' pgdir j = if decide (j = i) then p else table_at m pgdir j.
Proof.
  intros [Hj H]. unfold table_at. rewrite add_table_pde by done.
  case_decide; [|done]. apply (pde_value p Hp).
Qed.

Lemma add_table_tables q : is_table m' pgdir q <-> q = p \/ is_table m pgdir q.
Proof.
  split.
  - intros (j & Hj & <-). rewrite add_table_at by done.
    apply add_table_has in Hj as [->|Hj]; [rewrite decide_True by done; by left|].
    case_decide; [by left|right; by exists j].
  - intros [->|(j & Hj & <-)].
    + exists i. assert (H : has_table m' pgdir i) by (apply add_table_has; by left).
      split; [done|]. rewrite add_table_at by done. by rewrite decide_True.
    + exists j. assert (H : has_table m' pgdir j) by (apply add_table_has; by right).
      split; [done|]. rewrite add_table_at by done. rewrite decide_False; [done|].
      intros ->. destruct Hj. congruence.
Qed.

Lemma add_table_ok : pgdir_ok m' l pgdir.
Proof.
  destruct Hd as [H1 H2 H3 H4]. split; [done|lelem| |].
  - intros q [->|Hq]%add_table_tables.
    + split_and!; [done|done|apply add_table_ne].
    + destruct (H3 q Hq) as (? & ? & ?). split_and!; [done|lelem|done].
  - intros j k Hj Hk. rewrite !add_table_at by done. pose proof Hj as Hj'. pose proof Hk as Hk'.
    apply add_table_has in Hj', Hk'.
    assert (Hnp : forall x, has_table m pgdir x -> table_at m pgdir x <> p).
    { intros x Hx E. destruct (H3 p) as (_ & H & _); [by exists x|]. lelem. }
    repeat case_decide; subst; try done.
    + destruct Hk' as [?|Hk']; [done|]. intros E. by destruct (Hnp k Hk').
    + destruct Hj' as [?|Hj']; [done|]. intros E. by destruct (Hnp j Hj').
    + destruct Hj' as [?|Hj']; [done|]. destruct Hk' as [?|Hk']; [done|]. by apply H4.
Qed.

Lemma add_table_pte va : pte_at m' pgdir va = pte_at m pgdir va.
Proof.
  unfold pte_at. pose proof (PDX_range va) as Hx. pose proof (PTX_range va) as Ht.
  rewrite add_table_pde by done. case_decide as E.
  - rewrite E. rewrite Habs. destruct (pde_value p Hp) as (_ & _ & He). fold e in He.
    rewrite He. rewrite add_table_at by (apply add_table_has; by left).
    rewrite decide_True by done. unfold m'.
    rewrite rdw_wrw_ne; [by apply rdw_memset0|].
    destruct (pages_disjoint p pgdir) as [?|?];
      [by apply page_ok_aligned|apply page_ok_aligned, Hd|apply add_table_ne|lia|lia].
  - destruct (pte_present (pde_at m pgdir (PDX va))) eqn:Hpr; [|done].
    assert (Hhas : has_table m pgdir (PDX va)) by done.
    rewrite add_table_at by (apply add_table_has; by right). rewrite decide_False by done.
    destruct (po_tab _ _ _ Hd (table_at m pgdir (PDX va))) as (Ha & Hb & Hc); [by eexists|].
    apply same_page_rdw; [|done]. apply add_table_same; [by apply page_ok_aligned| |done].
    lelem.
Qed.

Lemma add_table_mem : mem_ok m'.
Proof. apply mem_ok_wrw, mem_ok_memset; [lia|done]. Qed.
End AddTable.

(** What [walkpgdir] with allocation does: find the table, or add one from
    the allocator, or find the allocator empty; the mapping never changes. *)
Lemma walkpgdir_alloc pgdir va s l :
  kmem_ok s l -> pgdir_ok (ram s) l pgdir ->
  exists r s' used l',
    walkpgdir pgdir va true s = Ok (r, s') /\ l = used ++ l' /\
    vm_grow s s' pgdir used l' /\
    (forall va', pte_at (ram s') pgdir va' = pte_at (ram s) pgdir va') /\
    ((r = 0 /\ l = [] /\ pte_at (ram s) pgdir va = 0 /\ ram s' = ram s) \/
     (r <> 0 /\ pte_present (pde_at (ram s') pgdir (PDX va)) = true /\
      r = table_at (ram s') pgdir (PDX va) + 4 * PTX va)).
Proof.
  intros Hk Hd. unfold walkpgdir, mbind at 1, M_bind at 1, load, gets.
  fold (pde_at (ram s) pgdir (PDX va)). pose proof (PTX_range va) as Ht.
  destruct (pte_present (pde_at (ram s) pgdir (PDX va))) eqn:E.
  - eexists _, s, [], l. split_and!; [done|done|by apply vm_grow_refl|done|right].
    split_and!; [|done|done].
    destruct (po_tab _ _ _ Hd _ (table_is _ _ _ E)) as (Hp & _).
    fold (table_at (ram s) pgdir (PDX va)).
    apply Z.eqb_neq, page_ok_nonzero; [done|lia].
  - simpl. destruct (kalloc_spec s l Hk) as (s1 & Hal & Hk1 & Hr1 & Hu1).
    unfold mbind at 1, M_bind at 1. rewrite Hal. destruct l as [|p l]; simpl.
    + exists 0, s1, [], []. split_and!; [done|done| |by rewrite Hr1|left].
      * split; try done; rewrite ?Hr1; try done; [by left|]. by intros q ?%elem_of_nil.
      * split_and!; [done|done| |done]. unfold pte_at. by rewrite E.
    + pose proof (ko_pages _ _ Hk) as Hps. apply Forall_cons in Hps as [Hp Hps].
      pose proof (ko_nodup _ _ Hk) as Hnd. apply NoDup_cons in Hnd as [Hpl Hnd].
      pose proof (page_ok_nonzero p 0 Hp ltac:(lia)) as Hnz. rewrite Z.mul_0_r, Z.add_0_r in Hnz.
      rewrite Hnz. unfold kmemset, store, modify, mbind, M_bind, mret, M_ret. simpl. rewrite Hr1.
      pose proof (PDX_range va) as Hx. pose proof (ko_mem _ _ Hk) as Hm.
      set (m' := wrw (memset (ram s) p 0 PGSIZE).2 _ _).
      assert (Hh : has_table m' pgdir (PDX va))
        by (apply (add_table_has _ _ _ _ l Hd Hx Hp); by left).
      eexists _, _, [p], l. split_and!; [done|done| | |right].
      * split; simpl.
        -- destruct Hk1 as [? ? ? ? ?]. apply (kmem_ok_ram s1); [by split| |].
           { by apply (add_table_mem (ram s) pgdir (PDX va) p). }
           rewrite Hr1. intros q Hq. apply (add_table_same _ _ _ _ l Hd Hx Hp).
           { rewrite Forall_forall in Hps. by apply page_ok_aligned, Hps. }
           { intros ->. done. }
           { intros ->. apply (po_free _ _ _ Hd). lelem. }
        -- by apply (add_table_ok _ _ _ _ _ Hd Hx E).
        -- done.
        -- intros q Hq Hne Hu _. apply (add_table_same _ _ _ _ l Hd Hx Hp); [done| |done]. lelem.
        -- intros q [->|Hq]%(add_table_tables _ _ _ _ _ Hd Hx E Hp); [right; lelem|by left].
        -- intros q Hq. apply (add_table_tables _ _ _ _ _ Hd Hx E Hp). by right.
        -- intros q ->%list_elem_of_singleton. apply (add_table_tables _ _ _ _ _ Hd Hx E Hp). by left.
      * intros va'. by apply (add_table_pte _ _ _ _ _ Hd Hx E Hp).
      * rewrite (add_table_at _ _ _ _ _ Hd Hx Hp) by done. rewrite decide_True by done.
        split_and!; [|apply Hh|done]. apply Z.eqb_neq, page_ok_nonzero; [done|lia].
Qed.

(** ** Storing an entry *)
Section SetPte.
Context (m : mem) (pgdir va w : Z) (l : list Z).
Hypothesis Hd : pgdir_ok m l pgdir.
Hypothesis Hpr : pte_present (pde_at m pgdir (PDX va)) = true.

Let t := table_at m pgdir (PDX va).
Let m' := wrw m (t + 4 * PTX va) w.

Lemma set_pte_table : page_ok t /\ (t ∉ l) /\ t <> pgdir.
Proof. apply (po_tab _ _ _ Hd), table_is, Hpr. Qed.

Lemma set_pte_same q : q mod 4096 = 0 -> q <> t -> same_page m m' q.
Proof.
  intros Hq Hne. apply same_page_wrw; [done|apply page_ok_aligned, set_pte_table|done|].
  apply PTX_range.
Qed.

Lemma set_pte_pde i : 0 <= i < 1024 -> pde_at m' pgdir i = pde_at m pgdir i.
Proof.
  intros Hi. apply same_pgdir_tables; [|done]. apply set_pte_same.
  - apply page_ok_aligned, Hd.
  - pose proof set_pte_table as (_ & _ & H). done.
Qed.

Lemma set_pte_has i : has_table m' pgdir i <-> has_table m pgdir i.
Proof. unfold has_table. split; intros [Hi H]; rewrite set_pte_pde in * by done; done. Qed.

Lemma set_pte_at i : 0 <= i < 1024 -> table_at m' pgdir i = table_at m pgdir i.
Proof. intros Hi. unfold table_at. by rewrite set_pte_pde. Qed.

Lemma set_pte_tables q : is_table m' pgdir q <-> is_table m pgdir q.
Proof.
  split; intros (i & Hi & <-); exists i; rewrite set_pte_has in *;
    (split; [done|]); destruct Hi; by rewrite set_pte_at.
Qed.

Lemma set_pte_ok : pgdir_ok m' l pgdir.
Proof.
  destruct Hd as [H1 H2 H3 H4]. split; try done.
  - intros q Hq. apply H3. by apply set_pte_tables.
  - intros i j Hi Hj. rewrite !set_pte_has in *. destruct Hi, Hj. rewrite !set_pte_at by done.
    by apply H4.
Qed.

Lemma set_pte_eq va' : u32 va' / 4096 = u32 va / 4096 -> pte_at m' pgdir va' = u32 w.
Proof.
  intros E. assert (PDX va' = PDX va /\ PTX va' = PTX va) as [Ex Et].
  { rewrite !PDX_eq, !PTX_eq, E. split; [|done].
    pose proof (u32_range va); pose proof (u32_range va'). Z.div_mod_to_equations. lia. }
  unfold pte_at. rewrite Ex, Et. rewrite set_pte_pde by apply PDX_range. rewrite Hpr.
  rewrite set_pte_at by apply PDX_range. unfold m', t. by rewrite rdw_wrw_eq.
Qed.

Lemma set_pte_ne va' : u32 va' / 4096 <> u32 va / 4096 ->
  pte_at m' pgdir va' = pte_at m pgdir va'.
Proof.
  intros E. unfold pte_at. pose proof (PDX_range va') as Hx. pose proof (PTX_range va') as Ht.
  rewrite set_pte_pde, set_pte_at by done.
  destruct (pte_present (pde_at m pgdir (PDX va'))) eqn:Hp'; [|done].
  destruct (decide (PDX va' = PDX va)) as [Ex|Ex].
  - rewrite Ex. unfold m', t. rewrite rdw_wrw_ne; [done|].
    assert (PTX va' <> PTX va); [|lia]. intros Et. apply E. by apply PDX_PTX_inj.
  - apply same_page_rdw; [|done]. apply set_pte_same.
    + apply page_ok_aligned. apply (po_tab _ _ _ Hd). by apply table_is.
    + intros Et. apply Ex. apply (po_inj _ _ _ Hd); [done|split; [apply PDX_range|done]|done].
Qed.
End SetPte.

Lemma store_pte pgdir va w s l :
  kmem_ok s l -> pgdir_ok (ram s) l pgdir ->
  pte_present (pde_at (ram s) pgdir (PDX va)) = true ->
  exists s', store (table_at (ram s) pgdir (PDX va) + 4 * PTX va) w s = Ok (tt, s') /\
    vm_grow s s' pgdir [] l /\
    (forall va', pte_at (ram s') pgdir va' =
       if u32 va' / 4096 =? u32 va / 4096 then u32 w else pte_at (ram s) pgdir va') /\
    (forall q, q mod 4096 = 0 -> q <> table_at (ram s) pgdir (PDX va) ->
       same_page (ram s) (ram s') q).
Proof.
  intros Hk Hd Hpr. eexists. split; [done|].
  pose proof (set_pte_table _ _ _ _ Hd Hpr) as (Hp & Hl & Hne). split; [|split].
  - split; simpl.
    + apply kmem_ok_ram; [done|apply mem_ok_wrw, Hk|]. intros q Hq.
      apply (set_pte_same _ _ _ _ l); [done|done| |].
      * pose proof (ko_pages _ _ Hk) as Hps. rewrite Forall_forall in Hps.
        by apply page_ok_aligned, Hps.
      * intros ->. done.
    + by apply set_pte_ok.
    + done.
    + intros q Hq _ _ Ht. apply (set_pte_same _ _ _ _ l); [done|done|done|].
      intros ->. apply Ht. by apply table_is.
    + intros q Hq. left. by apply (set_pte_tables _ _ _ _ l Hd Hpr) in Hq.
    + intros q Hq. by apply (set_pte_tables _ _ _ _ l Hd Hpr).
    + by intros q ?%elem_of_nil.
  - intros va'. simpl. destruct (Z.eqb_spec (u32 va' / 4096) (u32 va / 4096)).
    + by apply (set_pte_eq _ _ _ _ l).
    + by apply (set_pte_ne _ _ _ _ l).
  - intros q Hq Hqt. simpl. by apply (set_pte_same _ _ _ _ l).
Qed.

(** ** mappages *)

(** One iteration: either the entry is written, or the allocator was empty
    and nothing changed, or the page was already mapped. *)
Lemma mappages_step pgdir a last pa perm fuel s l :
  kmem_ok s l -> pgdir_ok (ram s) l pgdir ->
  if pte_present (pte_at (ram s) pgdir a) then
    mappages_loop (S fuel) pgdir a last pa perm s = Panic "remap"
  else exists s' used l', l = used ++ l' /\ vm_grow s s' pgdir used l' /\
    ((l = [] /\ ram s' = ram s /\
      mappages_loop (S fuel) pgdir a last pa perm s = Ok (-1, s')) \/
     ((forall va', pte_at (ram s') pgdir va' =
         if u32 va' / 4096 =? u32 a / 4096 then u32 (Z.lor (Z.lor pa perm) PTE_P)
         else pte_at (ram s) pgdir va') /\
      mappages_loop (S fuel) pgdir a last pa perm s =
        if a =? last then Ok (0, s')
        else mappages_loop fuel pgdir (u32 (a + PGSIZE)) last (u32 (pa + PGSIZE)) perm s')).
Proof.
  intros Hk Hd.
  destruct (walkpgdir_alloc pgdir a s l Hk Hd)
    as (r & s1 & used & l' & Hw & Hl & Hg & Hpte & [(-> & Hl0 & Hz & Hr)|(Hr & Hpr & Hra)]).
  - rewrite Hz. simpl pte_present. exists s1, used, l'. split_and!; [done|done|left].
    split_and!; [done|done|]. cbn [mappages_loop]. by rewrite (bind_ok _ _ _ _ _ Hw).
  - assert (Hload : rdw (ram s1) r = pte_at (ram s) pgdir a).
    { rewrite <-Hpte. unfold pte_at. by rewrite Hpr, Hra. }
    assert (Hrun : mappages_loop (S fuel) pgdir a last pa perm s =
      if pte_present (pte_at (ram s) pgdir a) then Panic "remap"
      else (store r (Z.lor (Z.lor pa perm) PTE_P) ;;
            (if a =? last then mret 0
             else mappages_loop fuel pgdir (u32 (a + PGSIZE)) last (u32 (pa + PGSIZE)) perm)) s1).
    { cbn [mappages_loop]. rewrite (bind_ok _ _ _ _ _ Hw). apply Z.eqb_neq in Hr. rewrite Hr.
      unfold load. rewrite bind_gets, Hload. by destruct (pte_present (pte_at (ram s) pgdir a)). }
    rewrite Hrun. clear Hrun.
    destruct (pte_present (pte_at (ram s) pgdir a)) eqn:E; [done|].
    destruct (store_pte pgdir a (Z.lor (Z.lor pa perm) PTE_P) s1 l' (vg_kmem _ _ _ _ _ Hg)
      (vg_pgdir _ _ _ _ _ Hg) Hpr) as (s2 & Hst & Hg2 & Hpte2 & _).
    exists s2, used, l'. split_and!; [done| |right].
    + rewrite <-(app_nil_r used). exact (vm_grow_trans _ _ _ _ _ _ _ _ Hg Hg2).
    + split.
      * intros va'. rewrite Hpte2, Hpte. done.
      * subst r. rewrite (bind_ok _ _ _ _ _ Hst). by destruct (a =? last).
Qed.

Lemma mappages_loop_spec pgdir perm n : forall fuel a pa s l,
  kmem_ok s l -> pgdir_ok (ram s) l pgdir ->
  a mod 4096 = 0 -> 0 <= a -> a + 4096 * Z.of_nat n < 4294967296 -> (n < fuel)%nat ->
  0 <= pa < 4294967296 ->
  (forall k, 0 <= k <= Z.of_nat n -> pte_present (pte_at (ram s) pgdir (a + 4096 * k)) = false) ->
  exists r s' used l',
    mappages_loop fuel pgdir a (a + 4096 * Z.of_nat n) pa perm s = Ok (r, s') /\
    l = used ++ l' /\ vm_grow s s' pgdir used l' /\
    (forall va', u32 va' / 4096 < a / 4096 \/ a / 4096 + Z.of_nat n < u32 va' / 4096 ->
       pte_at (ram s') pgdir va' = pte_at (ram s) pgdir va') /\
    ((r = 0 /\ forall k, 0 <= k <= Z.of_nat n ->
        pte_at (ram s') pgdir (a + 4096 * k) =
          u32 (Z.lor (Z.lor (u32 (pa + 4096 * k)) perm) PTE_P)) \/
     (r = -1 /\ l' = [])).
Proof.
  induction n as [|n IH]; intros fuel a pa s l Hk Hd Hal Ha Hb Hf Hpa Habs;
    destruct fuel as [|fuel]; try lia;
    match goal with |- context [a + 4096 * Z.of_nat ?k] =>
      pose proof (mappages_step pgdir a (a + 4096 * Z.of_nat k) pa perm fuel s l Hk Hd) as Hstep end;
    pose proof (Habs 0 ltac:(lia)) as Habs0; rewrite Z.mul_0_r, Z.add_0_r in Habs0;
    rewrite Habs0 in Hstep;
    destruct Hstep as (s1 & used & l1 & Hl & Hg & [(Hl0 & Hr & Hrun)|(Hpte & Hrun)]).
  1,3: exists (-1), s1, used, l1; split_and!; [done|done|done|by rewrite Hr|right];
       subst l; by apply app_eq_nil in Hl0 as [_ ->].
  - replace (a =? a + 4096 * Z.of_nat 0) with true in Hrun by (symmetry; apply Z.eqb_eq; lia).
    exists 0, s1, used, l1. split_and!; [done|done|done| |left].
    + intros va' Hva'. rewrite Hpte. rewrite (u32_small a) by lia.
      destruct (Z.eqb_spec (u32 va' / 4096) (a / 4096)); [lia|done].
    + split; [done|]. intros k Hk0. assert (k = 0) as -> by lia.
      rewrite Z.mul_0_r, !Z.add_0_r, Hpte, Z.eqb_refl. by rewrite (u32_small pa).
  - replace (a =? a + 4096 * Z.of_nat (S n)) with false in Hrun by (symmetry; apply Z.eqb_neq; lia).
    unfold PGSIZE in Hrun. rewrite (u32_small (a + 4096)) in Hrun by lia.
    destruct (IH fuel (a + 4096) (u32 (pa + 4096)) s1 l1 (vg_kmem _ _ _ _ _ Hg)
      (vg_pgdir _ _ _ _ _ Hg)) as (r & s2 & used2 & l2 & Hrun2 & Hl2 & Hg2 & Hout & Hres);
      try lia; try apply u32_range.
    { replace (a + 4096) with (a + 1 * 4096) by lia. by rewrite Z.mod_add. }
    { intros k Hk0. rewrite Hpte. rewrite !u32_small by lia.
      destruct (Z.eqb_spec ((a + 4096 + 4096 * k) / 4096) (a / 4096)) as [E|E].
      { Z.div_mod_to_equations. lia. }
      replace (a + 4096 + 4096 * k) with (a + 4096 * (k + 1)) by lia. apply Habs. lia. }
    assert (Hdiv : (a + 4096) / 4096 = a / 4096 + 1)
      by (replace (a + 4096) with (a + 1 * 4096) by lia; by rewrite Z.div_add).
    exists r, s2, (used ++ used2), l2. split_and!.
    + rewrite Hrun, <-Hrun2. f_equal. lia.
    + by rewrite <-app_assoc, <-Hl2.
    + by eapply vm_grow_trans.
    + intros va' Hva'. rewrite Hout by lia. rewrite Hpte, (u32_small a) by lia.
      destruct (Z.eqb_spec (u32 va' / 4096) (a / 4096)); [lia|done].
    + destruct Hres as [[-> Hres]|Hres]; [left|by right]. split; [done|]. intros k Hk0.
      destruct (decide (k = 0)) as [->|].
      * rewrite Z.mul_0_r, !Z.add_0_r. rewrite Hout by (rewrite (u32_small a) by lia; lia).
        rewrite Hpte, Z.eqb_refl. by rewrite (u32_small pa).
      * replace (a + 4096 * k) with (a + 4096 + 4096 * (k - 1)) by lia.
        rewrite Hres by lia. do 3 f_equal. unfold u32.
        rewrite Z.add_mod_idemp_l by lia. f_equal. lia.
Qed.

(** The whole call, for a range that does not wrap around. *)
Lemma mappages_spec pgdir va size pa perm s l :
  kmem_ok s l -> pgdir_ok (ram s) l pgdir ->
  0 <= va -> 0 < size -> va + size <= 4294967296 -> 0 <= pa < 4294967296 ->
  let n := (va + size - 1) / 4096 - va / 4096 in
  let a := va / 4096 * 4096 in
  (forall k, 0 <= k <= n -> pte_present (pte_at (ram s) pgdir (a + 4096 * k)) = false) ->
  exists r s' used l',
    mappages pgdir va size pa perm s = Ok (r, s') /\
    l = used ++ l' /\ vm_grow s s' pgdir used l' /\
    (forall va', u32 va' / 4096 < va / 4096 \/ (va + size - 1) / 4096 < u32 va' / 4096 ->
       pte_at (ram s') pgdir va' = pte_at (ram s) pgdir va') /\
    ((r = 0 /\ forall k, 0 <= k <= n ->
        pte_at (ram s') pgdir (a + 4096 * k) =
          u32 (Z.lor (Z.lor (u32 (pa + 4096 * k)) perm) PTE_P)) \/
     (r = -1 /\ l' = [])).
Proof.
  intros Hk Hd Hva Hsz Hend Hpa n a Habs. unfold mappages.
  assert (Ea : PGROUNDDOWN va = a).
  { rewrite PGROUNDDOWN_eq, u32_small by lia. unfold a. Z.div_mod_to_equations. lia. }
  assert (El : PGROUNDDOWN (u32 (va + size - 1)) = a + 4096 * n).
  { rewrite PGROUNDDOWN_eq, !(u32_small (va + size - 1)) by lia.
    unfold a, n. Z.div_mod_to_equations. lia. }
  assert (Hn : 0 <= n) by (unfold n; Z.div_mod_to_equations; lia).
  rewrite Ea, El. unfold PGSIZE.
  assert (Hn2 : a + 4096 * n < 4294967296) by (unfold a, n; Z.div_mod_to_equations; lia).
  assert (Ha : 0 <= a) by (unfold a; Z.div_mod_to_equations; lia).
  replace (u32 (a + 4096 * n - a) / 4096) with n
    by (rewrite u32_small by lia; Z.div_mod_to_equations; lia).
  destruct (mappages_loop_spec pgdir perm (Z.to_nat n) (S (Z.to_nat n)) a pa s l Hk Hd)
    as (r & s' & used & l' & Hrun & Hl & Hg & Hout & Hres);
    rewrite ?Z2Nat.id in * by lia; try lia; try done.
  { unfold a. apply Z.mod_mul. lia. }
  exists r, s', used, l'. split_and!; try done.
  intros va' Hva'. apply Hout. unfold a, n. rewrite Z.div_mul by lia. lia.
Qed.

(** One page at an aligned address: on failure nothing changed. *)
Lemma mappages_one pgdir va pa perm s l :
  kmem_ok s l -> pgdir_ok (ram s) l pgdir -> va mod 4096 = 0 -> 0 <= va < 4294967296 ->
  pte_present (pte_at (ram s) pgdir va) = false ->
  exists r s' used l',
    mappages pgdir va PGSIZE pa perm s = Ok (r, s') /\
    l = used ++ l' /\ vm_grow s s' pgdir used l' /\
    ((r = 0 /\ forall va', pte_at (ram s') pgdir va' =
        if u32 va' / 4096 =? va / 4096 then u32 (Z.lor (Z.lor pa perm) PTE_P)
        else pte_at (ram s) pgdir va') \/
     (r = -1 /\ l = [] /\ ram s' = ram s)).
Proof.
  intros Hk Hd Hal Hva Habs. unfold mappages.
  assert (Ea : PGROUNDDOWN va = va).
  { rewrite PGROUNDDOWN_eq, u32_small by lia. lia. }
  assert (El : PGROUNDDOWN (u32 (va + PGSIZE - 1)) = va).
  { unfold PGSIZE. rewrite PGROUNDDOWN_eq. unfold u32. rewrite Z.mod_mod by lia.
    rewrite Z.mod_small; Z.div_mod_to_equations; lia. }
  rewrite Ea, El, Z.sub_diag. change (Z.to_nat (u32 0 / PGSIZE)) with O.
  pose proof (mappages_step pgdir va va pa perm 0 s l Hk Hd) as H. rewrite Habs in H.
  destruct H as (s' & used & l' & Hl & Hg & [(Hl0 & Hr & Hrun)|(Hpte & Hrun)]).
  - exists (-1), s', used, l'. split_and!; try done. by right.
  - rewrite Z.eqb_refl in Hrun. exists 0, s', used, l'. split_and!; try done. left.
    split; [done|]. intros va'. by rewrite Hpte, (u32_small va).
Qed.

(** ** Memory changes away from the page tables *)
Lemma pgdir_same_has m m' pgdir i : same_page m m' pgdir ->
  has_table m' pgdir i <-> has_table m pgdir i.
Proof.
  intros H. unfold has_table.
  split; intros [Hi Hp]; rewrite (same_pgdir_tables m m') in * by done; done.
Qed.

Lemma pgdir_same_at m m' pgdir i : same_page m m' pgdir -> 0 <= i < 1024 ->
  table_at m' pgdir i = table_at m pgdir i.
Proof. intros H Hi. unfold table_at. by rewrite (same_pgdir_tables m m'). Qed.

Lemma pgdir_same_tables m m' pgdir q : same_page m m' pgdir ->
  is_table m' pgdir q <-> is_table m pgdir q.
Proof.
  intros H. split; intros (i & Hi & <-); exists i;
    rewrite (pgdir_same_has m m') in * by done; (split; [done|]); destruct Hi;
    by rewrite (pgdir_same_at m m').
Qed.

Lemma pgdir_same_pte m m' pgdir va :
  same_page m m' pgdir -> (forall q, is_table m pgdir q -> same_page m m' q) ->
  pte_at m' pgdir va = pte_at m pgdir va.
Proof.
  intros H Ht. unfold pte_at. pose proof (PDX_range va). pose proof (PTX_range va).
  rewrite (same_pgdir_tables m m'), (pgdir_same_at m m') by done.
  destruct (pte_present (pde_at m pgdir (PDX va))) eqn:E; [|done].
  apply same_page_rdw; [|done]. by apply Ht, table_is.
Qed.

Lemma pgdir_same_ok m m' l l' pgdir :
  pgdir_ok m l pgdir -> same_page m m' pgdir -> (pgdir ∉ l') ->
  (forall q, is_table m pgdir q -> q ∉ l') -> pgdir_ok m' l' pgdir.
Proof.
  intros [H1 H2 H3 H4] Hs Hp Ht. split; [done|done| |].
  - intros q Hq. rewrite (pgdir_same_tables m m') in Hq by done.
    destruct (H3 q Hq) as (? & _ & ?). split_and!; [done|by apply Ht|done].
  - intros i j Hi Hj. rewrite !(pgdir_same_has m m') in * by done.
    rewrite !(pgdir_same_at m m') by (done || apply Hi || apply Hj). by apply H4.
Qed.

Lemma pte_at_page m pgdir va va' : u32 va / 4096 = u32 va' / 4096 ->
  pte_at m pgdir va = pte_at m pgdir va'.
Proof. intros [E1 E2]%PDX_PTX_page. unfold pte_at. by rewrite E1, E2. Qed.

(** ** User pages

    Below KERNBASE every mapped page is a page of the allocator of its own:
    not free, not a table, and mapped once. *)
Definition upage (m : mem) (pgdir va : Z) : Z := P2V (PTE_ADDR (pte_at m pgdir va)).
Definition mapped (m : mem) (pgdir va : Z) : Prop := pte_present (pte_at m pgdir va) = true.

Record user_ok (m : mem) (l : list Z) (pgdir : Z) : Prop := {
  uo_page : forall va, 0 <= va < KERNBASE -> mapped m pgdir va ->
    page_ok (upage m pgdir va) /\ (upage m pgdir va ∉ l) /\ upage m pgdir va <> pgdir /\
    ~ is_table m pgdir (upage m pgdir va);
  uo_inj : forall va va', 0 <= va < KERNBASE -> 0 <= va' < KERNBASE ->
    mapped m pgdir va -> mapped m pgdir va' -> upage m pgdir va = upage m pgdir va' ->
    va / 4096 = va' / 4096
}.

Lemma upage_addr_nonzero m pgdir va : page_ok (upage m pgdir va) ->
  (PTE_ADDR (pte_at m pgdir va) =? 0) = false.
Proof.
  intros H%page_ok_range. unfold upage, P2V, KERNBASE, EXTMEM in H. apply Z.eqb_neq. intros E.
  rewrite E in H. rewrite u32_small in H by lia. lia.
Qed.

(** ** deallocuvm *)

(** kfree of a page that is no part of the page table leaves the table alone. *)
Lemma kfree_frame pgdir q s l :
  kmem_ok s l -> pgdir_ok (ram s) l pgdir -> page_ok q -> q ∉ l -> q <> pgdir ->
  ~ is_table (ram s) pgdir q ->
  exists s1, kfree q s = Ok (tt, s1) /\ kmem_ok s1 (q :: l) /\ pgdir_ok (ram s1) (q :: l) pgdir /\
    use_lock s1 = use_lock s /\ same_page (ram s) (ram s1) pgdir /\
    (forall va, pte_at (ram s1) pgdir va = pte_at (ram s) pgdir va) /\
    (forall p, p mod 4096 = 0 -> p <> q -> same_page (ram s) (ram s1) p).
Proof.
  intros Hk Hd Hq Hql Hqd Hqt.
  destruct (kfree_spec q s l Hk Hq Hql) as (s1 & Hf & Hk1 & Hu1 & Hout & _).
  assert (Hsame : forall p, p mod 4096 = 0 -> p <> q -> same_page (ram s) (ram s1) p).
  { intros p Hp Hne b Hb. apply Hout.
    destruct (pages_disjoint p q Hp (page_ok_aligned q Hq) Hne); lia. }
  assert (Hsd : same_page (ram s) (ram s1) pgdir).
  { apply Hsame; [apply page_ok_aligned, Hd|done]. }
  exists s1. split_and!; try done.
  - apply (pgdir_same_ok (ram s) _ l); [done|done| |].
    + pose proof (po_free _ _ _ Hd). lelem.
    + intros p Hp. destruct (po_tab _ _ _ Hd p Hp) as (_ & ? & _).
      rewrite not_elem_of_cons. split; [intros ->; done|done].
  - intros va. apply pgdir_same_pte; [done|]. intros p Hp.
    apply Hsame; [by apply page_ok_aligned, (po_tab _ _ _ Hd)|]. intros ->. done.
Qed.

(** Freeing the page at [a] and clearing its entry. *)
Lemma dealloc_page pgdir a s l :
  kmem_ok s l -> pgdir_ok (ram s) l pgdir -> user_ok (ram s) l pgdir ->
  0 <= a < KERNBASE -> mapped (ram s) pgdir a ->
  let q := upage (ram s) pgdir a in
  exists s', (kfree q ;; store (table_at (ram s) pgdir (PDX a) + 4 * PTX a) 0) s = Ok (tt, s') /\
    kmem_ok s' (q :: l) /\ pgdir_ok (ram s') (q :: l) pgdir /\ user_ok (ram s') (q :: l) pgdir /\
    use_lock s' = use_lock s /\
    (forall va', pte_at (ram s') pgdir va' =
       if u32 va' / 4096 =? a / 4096 then 0 else pte_at (ram s) pgdir va') /\
    (forall p, is_table (ram s') pgdir p <-> is_table (ram s) pgdir p) /\
    (forall p, p mod 4096 = 0 -> p <> q -> ~ is_table (ram s) pgdir p ->
       same_page (ram s) (ram s') p).
Proof.
  intros Hk Hd Hu Ha Hmap q. destruct (uo_page _ _ _ Hu a Ha Hmap) as (Hq & Hql & Hqd & Hqt).
  fold q in Hq, Hql, Hqd, Hqt.
  destruct (kfree_frame pgdir q s l) as (s1 & Hf & Hk1 & Hd1 & Hu1 & Hsd & Hpte1 & Hsame); try done.
  assert (Hpd : pte_present (pde_at (ram s) pgdir (PDX a)) = true).
  { unfold mapped, pte_at in Hmap. by destruct (pte_present (pde_at (ram s) pgdir (PDX a))). }
  pose proof (PDX_range a) as Hx.
  destruct (store_pte pgdir a 0 s1 (q :: l) Hk1 Hd1) as (s2 & Hs2 & Hg2 & Hpte2 & Hfr).
  { by rewrite (same_pgdir_tables (ram s)). }
  rewrite (pgdir_same_at (ram s)) in Hs2, Hfr by done.
  assert (Hpte : forall va', pte_at (ram s2) pgdir va' =
    if u32 va' / 4096 =? a / 4096 then 0 else pte_at (ram s) pgdir va').
  { intros va'. rewrite Hpte2, Hpte1. by rewrite (u32_small a) by (unfold KERNBASE in Ha; lia). }
  assert (Htab : forall p, is_table (ram s2) pgdir p <-> is_table (ram s) pgdir p).
  { intros p. rewrite <-(pgdir_same_tables (ram s) (ram s1)) by done. split.
    - intros [?|?%elem_of_nil]%(vg_tables _ _ _ _ _ Hg2); done.
    - apply (vg_mono _ _ _ _ _ Hg2). }
  assert (Hmaps : forall va, 0 <= va < KERNBASE -> mapped (ram s2) pgdir va ->
    va / 4096 <> a / 4096 /\ mapped (ram s) pgdir va /\ upage (ram s2) pgdir va = upage (ram s) pgdir va).
  { intros va Hva. unfold mapped, upage. rewrite Hpte.
    rewrite (u32_small va) by (unfold KERNBASE in Hva; lia).
    destruct (Z.eqb_spec (va / 4096) (a / 4096)); [done|]. done. }
  exists s2. split_and!.
  - by rewrite (bind_ok _ _ _ _ _ Hf).
  - apply Hg2.
  - apply Hg2.
  - split.
    + intros va Hva Hm. destruct (Hmaps va Hva Hm) as (Hne & Hm' & ->).
      destruct (uo_page _ _ _ Hu va Hva Hm') as (H1 & H2 & H3 & H4). split_and!; [done| |done|].
      * rewrite not_elem_of_cons. split; [|done]. intros E. apply Hne.
        by apply (uo_inj _ _ _ Hu).
      * by rewrite Htab.
    + intros va va' Hva Hva' Hm Hm'. destruct (Hmaps va Hva Hm) as (_ & ? & ->).
      destruct (Hmaps va' Hva' Hm') as (_ & ? & ->). by apply (uo_inj _ _ _ Hu).
  - by rewrite (vg_lock _ _ _ _ _ Hg2), Hu1.
  - done.
  - done.
  - intros p Hp Hne Ht. eapply same_page_trans; [by apply Hsame|]. apply Hfr; [done|].
    intros ->. apply Ht. by apply table_is.
Qed.

(** ** The deallocation loop *)
Definition page_in (a z va : Z) : Prop := a <= va / 4096 * 4096 < z.

(** The loop from [a] to [oldsz] moved the pages mapped there to the free list. *)
Record dealloc_res (s s' : kmem) (pgdir a oldsz : Z) (freed l : list Z) : Prop := {
  dr_kmem : kmem_ok s' (freed ++ l);
  dr_pgdir : pgdir_ok (ram s') (freed ++ l) pgdir;
  dr_user : user_ok (ram s') (freed ++ l) pgdir;
  dr_lock : use_lock s' = use_lock s;
  dr_gone : forall va, 0 <= va < 4294967296 -> page_in a oldsz va -> ~ mapped (ram s') pgdir va;
  dr_keep : forall va, 0 <= va < 4294967296 -> ~ page_in a oldsz va ->
              pte_at (ram s') pgdir va = pte_at (ram s) pgdir va;
  dr_freed : forall q, q ∈ freed <-> exists va, 0 <= va < 4294967296 /\ page_in a oldsz va /\
               mapped (ram s) pgdir va /\ q = upage (ram s) pgdir va;
  dr_tables : forall q, is_table (ram s') pgdir q <-> is_table (ram s) pgdir q;
  dr_frame : forall q, q mod 4096 = 0 -> q ∉ freed -> ~ is_table (ram s) pgdir q ->
               same_page (ram s) (ram s') q
}.

(** Moving the start of the range over pages that are not mapped. *)
Lemma dealloc_res_skip s s' pgdir a a' oldsz freed l :
  a <= a' -> (forall va, 0 <= va < 4294967296 -> page_in a oldsz va -> ~ page_in a' oldsz va ->
    ~ mapped (ram s) pgdir va) ->
  dealloc_res s s' pgdir a' oldsz freed l -> dealloc_res s s' pgdir a oldsz freed l.
Proof.
  intros Ha Hskip [H1 H2 H3 H4 H5 H6 H7 H8 H9].
  assert (Hdec : forall va, page_in a' oldsz va \/ ~ page_in a' oldsz va).
  { intros va. unfold page_in. lia. }
  assert (Hsub : forall va, page_in a' oldsz va -> page_in a oldsz va).
  { intros va. unfold page_in. lia. }
  split; try done.
  - intros va Hva Hin. destruct (Hdec va) as [Hin'|Hin']; [by apply H5|].
    unfold mapped. rewrite H6 by done. by apply Hskip.
  - intros va Hva Hin. apply H6; [done|]. intros Hin'. by apply Hin, Hsub.
  - intros q. rewrite H7. split; intros (va & Hva & Hin & Hm & ->); exists va;
      (split; [done|]; split; [|done]).
    + by apply Hsub.
    + destruct (Hdec va) as [|Hn]; [done|]. by destruct (Hskip va Hva Hin Hn).
Qed.

Lemma dealloc_res_nil s pgdir a oldsz l :
  kmem_ok s l -> pgdir_ok (ram s) l pgdir -> user_ok (ram s) l pgdir -> oldsz <= a ->
  dealloc_res s s pgdir a oldsz [] l.
Proof.
  intros Hk Hd Hu Hle. split; try done.
  - intros va _ Hin. unfold page_in in Hin. lia.
  - intros q. split; [by intros ?%elem_of_nil|]. intros (va & _ & Hin & _).
    unfold page_in in Hin. lia.
Qed.

(** One freed page followed by the rest of the loop. *)
Lemma dealloc_res_step s s1 s' pgdir a oldsz freed l :
  a mod 4096 = 0 -> 0 <= a < oldsz -> oldsz <= KERNBASE -> mapped (ram s) pgdir a ->
  let q := upage (ram s) pgdir a in
  use_lock s1 = use_lock s ->
  (forall va', pte_at (ram s1) pgdir va' =
     if u32 va' / 4096 =? a / 4096 then 0 else pte_at (ram s) pgdir va') ->
  (forall p, is_table (ram s1) pgdir p <-> is_table (ram s) pgdir p) ->
  (forall p, p mod 4096 = 0 -> p <> q -> ~ is_table (ram s) pgdir p ->
     same_page (ram s) (ram s1) p) ->
  dealloc_res s1 s' pgdir (a + 4096) oldsz freed (q :: l) ->
  dealloc_res s s' pgdir a oldsz (freed ++ [q]) l.
Proof.
  intros Hal Ha Hold Hm q Hlk Hpte Htab Hfr [H1 H2 H3 H4 H5 H6 H7 H8 H9].
  assert (Hassoc : (freed ++ [q]) ++ l = freed ++ q :: l) by by rewrite <-app_assoc.
  unfold KERNBASE in Hold.
  assert (Hcase : forall va, 0 <= va < 4294967296 -> page_in a oldsz va ->
    va / 4096 = a / 4096 \/ (page_in (a + 4096) oldsz va /\ va / 4096 <> a / 4096)).
  { intros va Hva. unfold page_in. Z.div_mod_to_equations. lia. }
  assert (Hnot : forall va, ~ page_in a oldsz va ->
    ~ page_in (a + 4096) oldsz va /\ va / 4096 <> a / 4096).
  { intros va Hn. unfold page_in in *. split; [lia|]. intros E. rewrite E in Hn.
    Z.div_mod_to_equations. lia. }
  assert (Heq : forall va, va / 4096 = a / 4096 -> ~ page_in (a + 4096) oldsz va).
  { intros va E. unfold page_in. rewrite E. Z.div_mod_to_equations. lia. }
  assert (Hat : forall va, 0 <= va < 4294967296 -> pte_at (ram s1) pgdir va =
    if va / 4096 =? a / 4096 then 0 else pte_at (ram s) pgdir va).
  { intros va Hva. by rewrite Hpte, (u32_small va). }
  rewrite <-!Hassoc in *. split; try done.
  - by rewrite H4.
  - intros va Hva Hin. destruct (Hcase va Hva Hin) as [E|[Hin' _]]; [|by apply H5].
    unfold mapped. rewrite H6, Hat by (done || by apply Heq). rewrite E, Z.eqb_refl. done.
  - intros va Hva Hn. destruct (Hnot va Hn). rewrite H6, Hat by done.
    by destruct (Z.eqb_spec (va / 4096) (a / 4096)).
  - intros p. rewrite elem_of_app, list_elem_of_singleton, H7. split.
    + intros [(va & Hva & Hin & Hmv & ->)| ->].
      * exists va. unfold mapped, upage in *. rewrite Hat in * by done.
        destruct (Z.eqb_spec (va / 4096) (a / 4096)); [done|].
        split; [done|]. split; [|done]. unfold page_in in *. lia.
      * exists a. split; [lia|]. split; [|done]. unfold page_in. Z.div_mod_to_equations. lia.
    + intros (va & Hva & Hin & Hmv & ->). destruct (Hcase va Hva Hin) as [E|[Hin' Hne]].
      * right. unfold q, upage. do 2 f_equal. apply pte_at_page. by rewrite !u32_small by lia.
      * left. exists va. unfold mapped, upage in *. rewrite Hat by done.
        by destruct (Z.eqb_spec (va / 4096) (a / 4096)).
  - intros p. by rewrite H8, Htab.
  - intros p Hp Hn Ht. eapply same_page_trans.
    + apply Hfr; [done| |done]. intros ->. apply Hn. lelem.
    + apply H9; [done| |by rewrite Htab]. intros Hin. apply Hn. lelem.
Qed.

(** The next multiple of 4 MB, where the walk resumes after a missing table. *)
Lemma next_table_eq a : 0 <= a < KERNBASE ->
  u32 (u32 (PGADDR (PDX a + 1) 0 0 - PGSIZE) + PGSIZE) = (a / 4194304 + 1) * 4194304.
Proof.
  unfold KERNBASE, PGADDR, PGSIZE, PDXSHIFT. intros Ha.
  rewrite PDX_eq, (u32_small a), Z.shiftl_0_l, !Z.lor_0_r, Z.shiftl_mul_pow2 by lia.
  change (2 ^ 22) with 4194304.
  rewrite (u32_small ((a / 4194304 + 1) * 4194304)) by (Z.div_mod_to_equations; lia).
  rewrite (u32_small (_ - 4096)) by (Z.div_mod_to_equations; lia).
  rewrite u32_small by (Z.div_mod_to_equations; lia). lia.
Qed.

Lemma no_table_unmapped m pgdir a va :
  0 <= a < KERNBASE -> 0 <= va < 4294967296 ->
  pte_present (pde_at m pgdir (PDX a)) = false ->
  a <= va / 4096 * 4096 < (a / 4194304 + 1) * 4194304 -> ~ mapped m pgdir va.
Proof.
  intros Ha Hva Hp Hr. unfold KERNBASE in Ha. unfold mapped, pte_at.
  assert (PDX va = PDX a) as ->.
  { rewrite !PDX_eq, !u32_small by lia. Z.div_mod_to_equations. lia. }
  by rewrite Hp.
Qed.

Lemma deallocuvm_loop_spec pgdir oldsz fuel : forall a s l,
  kmem_ok s l -> pgdir_ok (ram s) l pgdir -> user_ok (ram s) l pgdir ->
  a mod 4096 = 0 -> 0 <= a -> oldsz <= KERNBASE -> oldsz - a <= 4096 * (Z.of_nat fuel - 1) ->
  (0 < fuel)%nat ->
  exists s' freed, deallocuvm_loop fuel pgdir a oldsz s = Ok (tt, s') /\
    dealloc_res s s' pgdir a oldsz freed l.
Proof.
  induction fuel as [|fuel IH]; intros a s l Hk Hd Hu Hal Ha Hold Hfuel Hpos; [lia|].
  cbn [deallocuvm_loop]. destruct (Z.ltb_spec a oldsz) as [Hlt|Hge].
  2: { exists s, []. split; [done|]. by apply dealloc_res_nil. }
  rewrite (bind_ok _ _ _ _ _ (walkpgdir_find pgdir a s)).
  assert (Hak : 0 <= a < KERNBASE) by lia.
  assert (Hup : u32 (a + PGSIZE) = a + 4096).
  { unfold KERNBASE, PGSIZE in *. apply u32_small. lia. }
  destruct (pte_present (pde_at (ram s) pgdir (PDX a))) eqn:Ep.
  2: { rewrite Z.eqb_refl, next_table_eq by done.
    destruct (IH ((a / 4194304 + 1) * 4194304) s l) as (s' & freed & Hrun & Hres); try done;
      [Z.div_mod_to_equations; lia..|].
    exists s', freed. split; [done|].
    eapply dealloc_res_skip; [| |done]; [Z.div_mod_to_equations; lia|].
    intros va Hva Hin Hn. apply (no_table_unmapped _ _ a); [done..|]. unfold page_in in *. lia. }
  pose proof (table_is _ _ _ Ep) as Ht. destruct (po_tab _ _ _ Hd _ Ht) as (Htp & _).
  rewrite page_ok_nonzero by (done || apply PTX_range).
  unfold load. rewrite bind_gets. rewrite Hup.
  assert (He : rdw (ram s) (table_at (ram s) pgdir (PDX a) + 4 * PTX a) = pte_at (ram s) pgdir a).
  { unfold pte_at. by rewrite Ep. }
  rewrite He. destruct (pte_present (pte_at (ram s) pgdir a)) eqn:Em.
  - destruct (uo_page _ _ _ Hu a Hak Em) as (Hq & _).
    rewrite upage_addr_nonzero by done.
    destruct (dealloc_page pgdir a s l Hk Hd Hu Hak Em) as (s1 & Hrun1 & Hk1 & Hd1 & Hu1 & Hl1 & Hp1 & Ht1 & Hf1).
    rewrite (bind_ok _ _ _ _ _ Hrun1).
    destruct (IH (a + 4096) s1 (upage (ram s) pgdir a :: l)) as (s' & freed & Hrun & Hres); try done;
      [Z.div_mod_to_equations; lia..|].
    exists s', (freed ++ [upage (ram s) pgdir a]). split; [done|].
    by eapply dealloc_res_step.
  - destruct (IH (a + 4096) s l) as (s' & freed & Hrun & Hres); try done;
      [Z.div_mod_to_equations; lia..|].
    exists s', freed. split; [done|]. eapply dealloc_res_skip; [| |done]; [lia|].
    intros va Hva Hin Hn Hmv.
    assert (E : va / 4096 = a / 4096) by (unfold page_in in *; Z.div_mod_to_equations; lia).
    unfold mapped in Hmv. rewrite (pte_at_page _ _ va a), Em in Hmv; [done|].
    unfold KERNBASE in *. by rewrite !u32_small by lia.
Qed.

Lemma deallocuvm_spec pgdir oldsz newsz s l :
  kmem_ok s l -> pgdir_ok (ram s) l pgdir -> user_ok (ram s) l pgdir ->
  0 <= newsz <= oldsz -> oldsz <= KERNBASE ->
  exists s' freed, deallocuvm pgdir oldsz newsz s = Ok (newsz, s') /\
    dealloc_res s s' pgdir (PGROUNDUP newsz) oldsz freed l.
Proof.
  intros Hk Hd Hu Hn Hold. unfold deallocuvm. unfold KERNBASE in Hold.
  assert (Hup : PGROUNDUP newsz = (newsz + 4095) / 4096 * 4096).
  { apply PGROUNDUP_eq; lia. }
  destruct (Z.leb_spec oldsz newsz).
  { exists s, []. assert (oldsz = newsz) as -> by lia. split; [done|].
    apply dealloc_res_nil; [done..|]. rewrite Hup. Z.div_mod_to_equations. lia. }
  destruct (deallocuvm_loop_spec pgdir oldsz (S (Z.to_nat ((oldsz - PGROUNDUP newsz) / PGSIZE + 1)))
    (PGROUNDUP newsz) s l) as (s' & freed & Hrun & Hres); try done; unfold PGSIZE, KERNBASE;
    try (rewrite Hup; Z.div_mod_to_equations; lia).
  exists s', freed. split; [|done]. by rewrite (bind_ok _ _ _ _ _ Hrun).
Qed.

(** ** Installing a fresh page *)
Definition fresh (m : mem) (pgdir v : Z) : Prop :=
  page_ok v /\ v <> pgdir /\ ~ is_table m pgdir v /\
  forall va, 0 <= va < KERNBASE -> mapped m pgdir va -> upage m pgdir va <> v.

Lemma free_is_fresh m l pgdir v :
  pgdir_ok m l pgdir -> user_ok m l pgdir -> page_ok v -> v ∈ l -> fresh m pgdir v.
Proof.
  intros Hd Hu Hv Hin. split_and!; [done| | |].
  - intros ->. by apply (po_free _ _ _ Hd).
  - intros Ht. by apply (po_tab _ _ _ Hd) in Ht as (_ & ? & _).
  - intros va Hva Hm E. destruct (uo_page _ _ _ Hu va Hva Hm) as (_ & Hn & _). by rewrite E in Hn.
Qed.

Lemma user_ok_mono m m' l l' pgdir :
  user_ok m l pgdir ->
  (forall va, 0 <= va < KERNBASE -> pte_at m' pgdir va = pte_at m pgdir va) ->
  (forall q, is_table m' pgdir q -> is_table m pgdir q \/ q ∈ l) ->
  (forall q, q ∈ l' -> q ∈ l) -> user_ok m' l' pgdir.
Proof.
  intros [H1 H2] Hpte Ht Hl. unfold mapped, upage in *. split; unfold mapped, upage.
  - intros va Hva. rewrite Hpte by done. intros Hm. destruct (H1 va Hva Hm) as (? & Hn & ? & ?).
    split_and!; [done| |done|].
    + by intros ?%Hl.
    + by intros [?|?]%Ht.
  - intros va va' Hva Hva'. rewrite !Hpte by done. by apply H2.
Qed.

Lemma page_entry v perm : page_ok v -> 0 <= perm < 4096 ->
  let e := Z.lor (Z.lor (V2P v) perm) PTE_P in
  u32 e = e /\ PTE_ADDR e = V2P v /\ P2V (PTE_ADDR e) = v /\
  PTE_FLAGS e = Z.lor perm PTE_P /\ pte_present e = true.
Proof.
  intros Hv Hp e. pose proof (page_ok_range v Hv) as Hr.
  unfold KERNBASE, EXTMEM, PHYSTOP in Hr.
  assert (Hvp : V2P v = v - KERNBASE) by (apply u32_small; unfold KERNBASE; lia).
  destruct (pte_value (V2P v) perm) as (E1 & E2 & E3 & E4); [| |done|].
  { rewrite Hvp. unfold KERNBASE. lia. }
  { rewrite Hvp. apply page_ok_aligned in Hv. unfold KERNBASE. Z.div_mod_to_equations. lia. }
  fold e in E1, E2, E3, E4. split_and!; try done. rewrite E2. apply P2V_V2P. lia.
Qed.

(** Mapping a fresh page at [a] keeps user pages separate. *)
Lemma user_ok_add m m' l used l' pgdir a v perm :
  user_ok m l pgdir -> l = used ++ l' -> (forall q, q ∈ used -> q ∉ l') ->
  fresh m pgdir v -> v ∉ l -> 0 <= a < KERNBASE -> 0 <= perm < 4096 ->
  (forall va, pte_at m' pgdir va =
     if u32 va / 4096 =? a / 4096 then Z.lor (Z.lor (V2P v) perm) PTE_P else pte_at m pgdir va) ->
  (forall q, is_table m' pgdir q -> is_table m pgdir q \/ q ∈ used) ->
  user_ok m' l' pgdir.
Proof.
  intros [H1 H2] -> Hdis (Hv & Hvd & Hvt & Hvm) Hvl Ha Hp Hpte Ht.
  destruct (page_entry v perm Hv Hp) as (_ & _ & E3 & _ & E4).
  unfold mapped, upage in *.
  assert (Hu : forall va, 0 <= va < KERNBASE -> u32 va = va).
  { intros va Hva. unfold KERNBASE in Hva. apply u32_small. lia. }
  split; unfold mapped, upage.
  - intros va Hva. rewrite Hpte, Hu by done.
    destruct (Z.eqb_spec (va / 4096) (a / 4096)).
    + intros _. rewrite E3. split_and!; [done|lelem|done|].
      intros [?|?]%Ht; [done|]. apply Hvl. lelem.
    + intros Hm. destruct (H1 va Hva Hm) as (? & Hn & ? & ?). split_and!; [done|lelem|done|].
      intros [?|?]%Ht; [done|]. apply Hn. lelem.
  - intros va va' Hva Hva'. rewrite !Hpte, !Hu by done.
    destruct (Z.eqb_spec (va / 4096) (a / 4096)) as [->|],
      (Z.eqb_spec (va' / 4096) (a / 4096)) as [->|]; rewrite ?E3; intros Hm Hm' E.
    + done.
    + by destruct (Hvm va' Hva' Hm').
    + by destruct (Hvm va Hva Hm).
    + by apply H2.
Qed.

Record installed (s s2 : kmem) (m1 : mem) (pgdir v : Z) (used l2 : list Z) : Prop := {
  in_kmem : kmem_ok s2 l2;
  in_pgdir : pgdir_ok (ram s2) l2 pgdir;
  in_user : user_ok (ram s2) l2 pgdir;
  in_lock : use_lock s2 = use_lock s;
  in_page : same_page m1 (ram s2) v;
  in_tables : forall q, is_table (ram s2) pgdir q <-> is_table (ram s) pgdir q \/ q ∈ used;
  in_frame : forall q, q mod 4096 = 0 -> q <> v -> q <> pgdir -> q ∉ used ->
    ~ is_table (ram s) pgdir q -> same_page (ram s) (ram s2) q
}.

Lemma install_page pgdir a perm v m1 s l :
  kmem_ok s l -> pgdir_ok (ram s) l pgdir -> user_ok (ram s) l pgdir ->
  fresh (ram s) pgdir v -> v ∉ l ->
  (forall p, p mod 4096 = 0 -> p <> v -> same_page (ram s) m1 p) -> mem_ok m1 ->
  a mod 4096 = 0 -> 0 <= a < KERNBASE -> ~ mapped (ram s) pgdir a -> 0 <= perm < 4096 ->
  exists r s2 used l2,
    mappages pgdir a PGSIZE (V2P v) perm (lset ramL m1 s) = Ok (r, s2) /\ l = used ++ l2 /\
    installed s s2 m1 pgdir v used l2 /\
    ((r = 0 /\ forall va, pte_at (ram s2) pgdir va =
        if u32 va / 4096 =? a / 4096 then Z.lor (Z.lor (V2P v) perm) PTE_P
        else pte_at (ram s) pgdir va) \/
     (r = -1 /\ l = [] /\ forall va, pte_at (ram s2) pgdir va = pte_at (ram s) pgdir va)).
Proof.
  intros Hk Hd Hu Hfr Hvl Hsame Hm1 Hal Ha Hnm Hp. pose proof Hfr as (Hv & Hvd & Hvt & Hvm).
  assert (Hpages : forall p, p ∈ l -> same_page (ram s) m1 p).
  { intros p Hin. apply Hsame; [|intros ->; done]. pose proof (ko_pages _ _ Hk) as Hps.
    rewrite Forall_forall in Hps. by apply page_ok_aligned, Hps. }
  assert (Hsd : same_page (ram s) m1 pgdir).
  { apply Hsame; [apply page_ok_aligned, Hd|done]. }
  assert (Hst : forall q, is_table (ram s) pgdir q -> same_page (ram s) m1 q).
  { intros q Hq. apply Hsame; [by apply page_ok_aligned, (po_tab _ _ _ Hd)|]. intros ->. done. }
  assert (Hd1 : pgdir_ok m1 l pgdir).
  { apply (pgdir_same_ok (ram s) _ l); [done|done|apply Hd|]. intros q Hq.
    by apply (po_tab _ _ _ Hd). }
  assert (Hpte1 : forall va, pte_at m1 pgdir va = pte_at (ram s) pgdir va).
  { intros va. by apply pgdir_same_pte. }
  assert (Htab1 : forall q, is_table m1 pgdir q <-> is_table (ram s) pgdir q).
  { intros q. by apply pgdir_same_tables. }
  assert (Hk1 : kmem_ok (lset ramL m1 s) l) by by apply kmem_ok_ram.
  destruct (mappages_one pgdir a (V2P v) perm (lset ramL m1 s) l Hk1 Hd1 Hal)
    as (r & s2 & used & l2 & Hrun & Hl & Hg & Hres).
  { unfold KERNBASE in Ha. lia. }
  { simpl. rewrite Hpte1. by apply not_true_iff_false. }
  destruct Hg as [G1 G2 G3 G4 G5 G6 G7]. simpl in *.
  pose proof (page_entry v perm Hv Hp) as (Eu & _).
  assert (Hdis : forall q, q ∈ used -> q ∉ l2).
  { pose proof (ko_nodup _ _ Hk) as Hnd. rewrite Hl in Hnd. apply NoDup_app in Hnd. apply Hnd. }
  assert (Htab : forall q, is_table (ram s2) pgdir q <-> is_table (ram s) pgdir q \/ q ∈ used).
  { intros q. rewrite <-Htab1. split; [apply G5|]. intros [?|?]; [by apply G6|by apply G7]. }
  assert (Hvn : v ∉ used) by (rewrite Hl in Hvl; lelem).
  exists r, s2, used, l2. split; [done|]. split; [done|].
  assert (Hres' : (r = 0 /\ forall va, pte_at (ram s2) pgdir va =
        if u32 va / 4096 =? a / 4096 then Z.lor (Z.lor (V2P v) perm) PTE_P
        else pte_at (ram s) pgdir va) \/
     (r = -1 /\ l = [] /\ forall va, pte_at (ram s2) pgdir va = pte_at (ram s) pgdir va)).
  { destruct Hres as [(-> & Hpte)|(-> & Hl0 & Hram)]; [left|right]; (split; [done|]).
    - intros va. by rewrite Hpte, Eu, Hpte1.
    - split; [done|]. intros va. by rewrite Hram, Hpte1. }
  split; [|done]. split; try done.
  - destruct Hres' as [(_ & Hpte)|(_ & -> & Hpte)].
    + apply (user_ok_add (ram s) _ l used l2 _ a v perm); try done. by intros q ?%Htab.
    + symmetry in Hl. apply app_eq_nil in Hl as [-> ->].
      apply (user_ok_mono (ram s) _ []); try done. intros q [?|?]%Htab; by auto.
  - apply G4; [by apply page_ok_aligned|done|done|by rewrite Htab1].
  - intros q Hq Hne Hqd Hqu Hqt. eapply same_page_trans; [by apply Hsame|].
    apply G4; [done|done|done|by rewrite Htab1].
Qed.

(** ** allocuvm *)
Definition zeroed (m : mem) (p : Z) : Prop := forall b, p <= b < p + 4096 -> rdb m b = 0.

(** The pages of [a0 .. a) are mapped to zeroed pages that were free before;
    every page that was free is still free, holds a new page table, is
    mapped there or is one of the pages [held] by the caller. *)
Record alloc_inv (s0 s : kmem) (pgdir a0 a : Z) (l0 l held : list Z) : Prop := {
  ai_kmem : kmem_ok s l;
  ai_pgdir : pgdir_ok (ram s) l pgdir;
  ai_user : user_ok (ram s) l pgdir;
  ai_lock : use_lock s = use_lock s0;
  ai_new : forall va, 0 <= va < KERNBASE -> page_in a0 a va ->
    mapped (ram s) pgdir va /\ PTE_FLAGS (pte_at (ram s) pgdir va) = Z.lor (Z.lor PTE_W PTE_U) PTE_P /\
    upage (ram s) pgdir va ∈ l0 /\ zeroed (ram s) (upage (ram s) pgdir va);
  ai_old : forall va, 0 <= va < 4294967296 -> ~ page_in a0 a va ->
    pte_at (ram s) pgdir va = pte_at (ram s0) pgdir va;
  ai_sub : forall q, q ∈ held ++ l -> q ∈ l0;
  ai_account : forall q, q ∈ l0 -> q ∈ held ++ l \/ is_table (ram s) pgdir q \/
    exists va, 0 <= va < KERNBASE /\ page_in a0 a va /\ q = upage (ram s) pgdir va;
  ai_mono : forall q, is_table (ram s0) pgdir q -> is_table (ram s) pgdir q;
  ai_tables : forall q, is_table (ram s) pgdir q -> is_table (ram s0) pgdir q \/ q ∈ l0;
  ai_frame : forall q, q mod 4096 = 0 -> q <> pgdir -> q ∉ l0 -> ~ is_table (ram s0) pgdir q ->
    same_page (ram s0) (ram s) q
}.

Lemma alloc_inv_start s pgdir a l :
  kmem_ok s l -> pgdir_ok (ram s) l pgdir -> user_ok (ram s) l pgdir ->
  alloc_inv s s pgdir a a l l [].
Proof.
  intros Hk Hd Hu. split; try done; [|by left..]. intros va _ Hin. unfold page_in in Hin. lia.
Qed.

Lemma page_in_snoc a0 a va : a0 <= a -> a mod 4096 = 0 -> 
  page_in a0 (a + 4096) va <-> page_in a0 a va \/ va / 4096 = a / 4096.
Proof. unfold page_in. intros. Z.div_mod_to_equations. lia. Qed.

(** A page installed at [a] extends the range. *)
Lemma alloc_inv_step s0 s s1 s2 m1 pgdir a0 a l0 v l1 used l2 :
  alloc_inv s0 s pgdir a0 a l0 (v :: l1) [] -> ram s1 = ram s -> use_lock s1 = use_lock s ->
  a0 <= a -> 0 <= a < KERNBASE -> a mod 4096 = 0 -> l1 = used ++ l2 -> zeroed m1 v ->
  installed s1 s2 m1 pgdir v used l2 ->
  (forall va, pte_at (ram s2) pgdir va =
     if u32 va / 4096 =? a / 4096
     then Z.lor (Z.lor (V2P v) (Z.lor PTE_W PTE_U)) PTE_P else pte_at (ram s) pgdir va) ->
  alloc_inv s0 s2 pgdir a0 (a + 4096) l0 l2 [].
Proof.
  intros HI Hram Hlk Ha0 Ha Hal -> Hz [J1 J2 J3 J4 J5 J6 J7] Hpte. rewrite Hram in J6, J7.
  assert (Hvl : v ∈ l0) by (apply (ai_sub _ _ _ _ _ _ _ _ HI); lelem).
  assert (Hv : page_ok v).
  { pose proof (ko_pages _ _ (ai_kmem _ _ _ _ _ _ _ _ HI)) as Hps.
    by apply Forall_cons in Hps as [? _]. }
  destruct (page_entry v (Z.lor PTE_W PTE_U) Hv ltac:(done)) as (_ & _ & E3 & E4 & E5).
  assert (Hat : forall va, 0 <= va < 4294967296 -> pte_at (ram s2) pgdir va =
    if va / 4096 =? a / 4096 then Z.lor (Z.lor (V2P v) (Z.lor PTE_W PTE_U)) PTE_P
    else pte_at (ram s) pgdir va).
  { intros va Hva. by rewrite Hpte, (u32_small va). }
  assert (Hnew : forall va, 0 <= va < KERNBASE -> page_in a0 a va ->
    pte_at (ram s2) pgdir va = pte_at (ram s) pgdir va).
  { intros va Hva Hin. unfold KERNBASE in *. rewrite Hat by lia.
    destruct (Z.eqb_spec (va / 4096) (a / 4096)) as [E|]; [|done].
    unfold page_in in Hin. rewrite E in Hin. Z.div_mod_to_equations. lia. }
  split; try done.
  - by rewrite J4, Hlk, (ai_lock _ _ _ _ _ _ _ _ HI).
  - intros va Hva [Hin|E]%page_in_snoc; [| |done|done].
    + destruct (ai_new _ _ _ _ _ _ _ _ HI va Hva Hin) as (H1 & H2 & H3 & H4).
      unfold mapped, upage in *. rewrite Hnew by done. split_and!; try done.
      destruct (uo_page _ _ _ (ai_user _ _ _ _ _ _ _ _ HI) va Hva H1) as (K1 & K2 & K3 & K4).
      unfold upage in *. intros b Hb. rewrite (J7 (P2V (PTE_ADDR (pte_at (ram s) pgdir va)))); try done.
      * by apply H4.
      * by apply page_ok_aligned.
      * intros E. apply K2. rewrite E. lelem.
      * intros E. apply K2. lelem.
    + unfold mapped, upage. unfold KERNBASE in Hva. rewrite Hat, E, Z.eqb_refl, E3 by lia.
      split_and!; try done. intros b Hb. rewrite (J5 b Hb). by apply Hz.
  - intros va Hva Hn. rewrite page_in_snoc in Hn by done. rewrite Hat by done.
    destruct (Z.eqb_spec (va / 4096) (a / 4096)); [tauto|].
    apply (ai_old _ _ _ _ _ _ _ _ HI); tauto.
  - intros q Hq. apply (ai_sub _ _ _ _ _ _ _ _ HI). lelem.
  - intros q [Hq|[Hq|(va & Hva & Hin & ->)]]%(ai_account _ _ _ _ _ _ _ _ HI).
    + apply elem_of_cons in Hq as [->|[Hq|Hq]%elem_of_app].
      * right. right. exists a. rewrite page_in_snoc by done. split; [done|]. split; [by right|].
        unfold upage. unfold KERNBASE in Ha. by rewrite Hat, Z.eqb_refl, E3 by lia.
      * right. left. apply J6. by right.
      * by left.
    + right. left. apply J6. by left.
    + right. right. exists va. rewrite page_in_snoc by done. split; [done|]. split; [by left|].
      unfold upage. by rewrite Hnew.
  - intros q Hq. apply J6. left. by apply (ai_mono _ _ _ _ _ _ _ _ HI).
  - intros q [Hq|Hq]%J6; [by apply (ai_tables _ _ _ _ _ _ _ _ HI)|].
    right. apply (ai_sub _ _ _ _ _ _ _ _ HI). lelem.
  - intros q Hq Hqd Hql Hqt. eapply same_page_trans; [by apply (ai_frame _ _ _ _ _ _ _ _ HI)|].
    assert (Hqs : q ∉ [] ++ v :: used ++ l2) by (intros ?%(ai_sub _ _ _ _ _ _ _ _ HI); done).
    apply J7; [done| |done| |].
    + intros ->. apply Hqs. lelem.
    + intros ?. apply Hqs. lelem.
    + by intros [?|?]%(ai_tables _ _ _ _ _ _ _ _ HI).
Qed.

(** The state after a failed growth: the range is unmapped again, every other
    entry is as before, and no page is lost: what was free is free again or
    holds a page table. *)
Record rolled_back (s0 s : kmem) (pgdir a0 z : Z) (l0 l held : list Z) : Prop := {
  rb_kmem : kmem_ok s l;
  rb_pgdir : pgdir_ok (ram s) l pgdir;
  rb_user : user_ok (ram s) l pgdir;
  rb_lock : use_lock s = use_lock s0;
  rb_gone : forall va, 0 <= va < 4294967296 -> page_in a0 z va -> ~ mapped (ram s) pgdir va;
  rb_keep : forall va, 0 <= va < 4294967296 -> ~ page_in a0 z va ->
    pte_at (ram s) pgdir va = pte_at (ram s0) pgdir va;
  rb_sub : forall q, q ∈ held ++ l -> q ∈ l0;
  rb_account : forall q, q ∈ l0 -> q ∈ held ++ l \/ is_table (ram s) pgdir q;
  rb_frame : forall q, q mod 4096 = 0 -> q <> pgdir -> q ∉ l0 -> ~ is_table (ram s0) pgdir q ->
    same_page (ram s0) (ram s) q
}.

Lemma rolled_back_dealloc s0 s s' pgdir a0 a z l0 l held freed :
  alloc_inv s0 s pgdir a0 a l0 l held -> a <= z -> z <= KERNBASE -> 0 <= a0 ->
  (forall va, 0 <= va < 4294967296 -> page_in a0 z va -> ~ mapped (ram s0) pgdir va) ->
  dealloc_res s s' pgdir a0 z freed l ->
  rolled_back s0 s' pgdir a0 z l0 (freed ++ l) held.
Proof.
  intros HI Haz Hz Ha0 Hun [D1 D2 D3 D4 D5 D6 D7 D8 D9].
  assert (Hdec : forall va, page_in a0 a va \/ ~ page_in a0 a va).
  { intros va. unfold page_in. lia. }
  assert (Hsub : forall va, page_in a0 a va -> page_in a0 z va).
  { intros va. unfold page_in. lia. }
  assert (Hfl : forall q, q ∈ freed -> q ∈ l0).
  { intros q (va & Hva & Hin & Hm & ->)%D7. destruct (Hdec va) as [Hd|Hd].
    - apply (ai_new _ _ _ _ _ _ _ _ HI); [|done]. unfold page_in, KERNBASE in *.
      Z.div_mod_to_equations. lia.
    - unfold mapped in Hm. rewrite (ai_old _ _ _ _ _ _ _ _ HI) in Hm by done.
      by destruct (Hun va Hva Hin). }
  split; try done.
  - by rewrite D4, (ai_lock _ _ _ _ _ _ _ _ HI).
  - intros va Hva Hn. rewrite D6 by done. apply (ai_old _ _ _ _ _ _ _ _ HI); [done|].
    intros ?%Hsub. done.
  - intros q. rewrite !elem_of_app. intros Hq.
    destruct (decide (q ∈ freed)) as [|Hn]; [by apply Hfl|].
    apply (ai_sub _ _ _ _ _ _ _ _ HI). rewrite elem_of_app. tauto.
  - intros q [Hq|[Hq|(va & Hva & Hin & ->)]]%(ai_account _ _ _ _ _ _ _ _ HI).
    + left. revert Hq. rewrite !elem_of_app. tauto.
    + right. by apply D8.
    + left. rewrite !elem_of_app. right. left. apply D7. exists va.
      split; [unfold KERNBASE in Hva; lia|]. split; [by apply Hsub|]. split; [|done].
      by apply (ai_new _ _ _ _ _ _ _ _ HI).
  - intros q Hq Hqd Hql Hqt. eapply same_page_trans; [by apply (ai_frame _ _ _ _ _ _ _ _ HI)|].
    apply D9; [done| |].
    + by intros ?%Hfl.
    + by intros [?|?]%(ai_tables _ _ _ _ _ _ _ _ HI).
Qed.

(** Freeing a page the caller still held. *)
Lemma rolled_back_kfree s0 s pgdir a0 z l0 l v :
  rolled_back s0 s pgdir a0 z l0 l [v] -> v ∉ l -> fresh (ram s) pgdir v ->
  exists s', kfree v s = Ok (tt, s') /\ rolled_back s0 s' pgdir a0 z l0 (v :: l) [].
Proof.
  intros [R1 R2 R3 R4 R5 R6 R7 R8 R9] Hvl (Hv & Hvd & Hvt & Hvm).
  destruct (kfree_frame pgdir v s l) as (s1 & Hf & Hk1 & Hd1 & Hu1 & Hsd & Hpte1 & Hsame); try done.
  assert (Htab : forall q, is_table (ram s1) pgdir q <-> is_table (ram s) pgdir q).
  { intros q. by apply pgdir_same_tables. }
  exists s1. split; [done|]. split; try done.
  - destruct R3 as [U1 U2]. unfold mapped, upage in *. split; unfold mapped, upage.
    + intros va Hva. rewrite Hpte1. intros Hm. destruct (U1 va Hva Hm) as (? & ? & ? & ?).
      rewrite Htab. split_and!; try done. rewrite not_elem_of_cons. split; [|done].
      by apply Hvm.
    + intros va va' Hva Hva'. rewrite !Hpte1. by apply U2.
  - by rewrite Hu1.
  - intros va Hva Hin. unfold mapped. rewrite Hpte1. by apply R5.
  - intros va Hva Hin. rewrite Hpte1. by apply R6.
  - intros q Hq. destruct (R8 q Hq) as [?|?]; [by left|]. right. by apply Htab.
  - intros q Hq Hqd Hql Hqt. eapply same_page_trans; [by apply R9|].
    apply Hsame; [done|]. intros ->. apply Hql, R7. lelem.
Qed.

(** Failure to map a page leaves it held by the caller. *)
Lemma alloc_inv_hold s0 s s1 s2 m1 pgdir a0 a l0 v :
  alloc_inv s0 s pgdir a0 a l0 [v] [] -> ram s1 = ram s -> use_lock s1 = use_lock s ->
  installed s1 s2 m1 pgdir v [] [] ->
  (forall va, pte_at (ram s2) pgdir va = pte_at (ram s) pgdir va) ->
  alloc_inv s0 s2 pgdir a0 a l0 [] [v].
Proof.
  intros HI Hram Hlk [J1 J2 J3 J4 J5 J6 J7] Hpte. rewrite Hram in J6, J7.
  assert (Htab : forall q, is_table (ram s2) pgdir q <-> is_table (ram s) pgdir q).
  { intros q. rewrite J6. split; [|by left]. by intros [?|?%elem_of_nil]. }
  destruct HI as [I1 I2 I3 I4 I5 I6 I7 I8 I9 I10 I11]. split; try done.
  - by rewrite J4, Hlk.
  - intros va Hva Hin. destruct (I5 va Hva Hin) as (H1 & H2 & H3 & H4).
    unfold mapped, upage in *. rewrite Hpte. split_and!; try done.
    destruct (uo_page _ _ _ I3 va Hva H1) as (K1 & K2 & K3 & K4). unfold upage in *.
    intros b Hb. rewrite (J7 (P2V (PTE_ADDR (pte_at (ram s) pgdir va)))); try done.
    + by apply H4.
    + by apply page_ok_aligned.
    + intros E. apply K2. rewrite E. lelem.
    + by intros ?%elem_of_nil.
  - intros va Hva Hin. rewrite Hpte. by apply I6.
  - intros q Hq. destruct (I8 q Hq) as [?|[?|(va & Hva & Hin & ->)]]; [by left| |].
    + right. left. by apply Htab.
    + right. right. exists va. split; [done|]. split; [done|]. unfold upage. by rewrite Hpte.
  - intros q Hq. apply Htab. by apply I9.
  - intros q Hq. by apply I10, Htab.
  - intros q Hq Hqd Hql Hqt. eapply same_page_trans; [by apply I11|].
    apply J7; [done| |done| |].
    + intros ->. apply Hql, I7. lelem.
    + by intros ?%elem_of_nil.
    + by intros [?|?]%I10.
Qed.

Lemma alloc_inv_end s0 s pgdir a0 a z l0 l :
  alloc_inv s0 s pgdir a0 a l0 l [] -> a0 mod 4096 = 0 -> a mod 4096 = 0 -> a0 <= a ->
  z <= a -> (a = a0 \/ a < z + 4096) -> alloc_inv s0 s pgdir a0 z l0 l [].
Proof.
  intros HI Hal0 Hal H0 Hz Hor.
  assert (Hiff : forall va, page_in a0 z va <-> page_in a0 a va).
  { intros va. unfold page_in. Z.div_mod_to_equations. lia. }
  destruct HI as [I1 I2 I3 I4 I5 I6 I7 I8 I9 I10 I11]. split; try done.
  - intros va Hva Hin%Hiff. by apply I5.
  - intros va Hva Hn. apply I6; [done|]. by rewrite <-Hiff.
  - intros q Hq. destruct (I8 q Hq) as [?|[?|(va & ? & ? & ->)]]; [by auto..|].
    right. right. exists va. split; [done|]. by rewrite Hiff.
Qed.

Lemma hd_page_nonzero l v l1 : Forall page_ok l -> l = v :: l1 -> (v =? 0) = false.
Proof.
  intros Hp ->. apply Forall_cons in Hp as [Hv _].
  pose proof (page_ok_nonzero v 0 Hv ltac:(lia)) as H. by rewrite Z.mul_0_r, Z.add_0_r in H.
Qed.

(** kalloc under [alloc_inv]: the head of the free list, which nothing uses. *)
Lemma kalloc_fresh pgdir s v l :
  kmem_ok s (v :: l) -> pgdir_ok (ram s) (v :: l) pgdir -> user_ok (ram s) (v :: l) pgdir ->
  exists s1, kalloc s = Ok (v, s1) /\ ram s1 = ram s /\ use_lock s1 = use_lock s /\
    kmem_ok s1 l /\ pgdir_ok (ram s1) l pgdir /\ user_ok (ram s1) l pgdir /\
    fresh (ram s1) pgdir v /\ (v ∉ l) /\ (v =? 0) = false.
Proof.
  intros Hk Hd Hu. destruct (kalloc_spec s _ Hk) as (s1 & Hrun & Hk1 & Hr & Hl). simpl in *.
  exists s1. rewrite Hr. pose proof (ko_pages _ _ Hk) as Hps. apply Forall_cons in Hps as [Hv _].
  pose proof (ko_nodup _ _ Hk) as [Hn _]%NoDup_cons.
  split_and!; try done.
  - apply (pgdir_same_ok (ram s) _ (v :: l)); try done.
    + pose proof (po_free _ _ _ Hd). lelem.
    + intros q (_ & Hq & _)%(po_tab _ _ _ Hd). lelem.
  - apply (user_ok_mono (ram s) _ (v :: l)); try done; [by left|]. intros q Hq. lelem.
  - apply (free_is_fresh _ (v :: l)); try done. lelem.
  - by eapply hd_page_nonzero; [apply (ko_pages _ _ Hk)|].
Qed.

(** The deallocation a failed growth ends with. *)
Lemma alloc_rollback pgdir oldsz newsz a s0 s l0 l held :
  alloc_inv s0 s pgdir (PGROUNDUP oldsz) a l0 l held ->
  0 <= oldsz <= newsz -> newsz < KERNBASE -> a <= newsz ->
  (forall va, 0 <= va < 4294967296 -> page_in (PGROUNDUP oldsz) newsz va ->
     ~ mapped (ram s0) pgdir va) ->
  exists s2 l2, deallocuvm pgdir newsz oldsz s = Ok (oldsz, s2) /\
    (forall v, fresh (ram s) pgdir v -> v ∉ l -> fresh (ram s2) pgdir v /\ v ∉ l2) /\
    rolled_back s0 s2 pgdir (PGROUNDUP oldsz) newsz l0 l2 held.
Proof.
  intros HI Hold Hnew Ha Hun.
  assert (Hup : PGROUNDUP oldsz = (oldsz + 4095) / 4096 * 4096).
  { apply PGROUNDUP_eq; unfold KERNBASE in *; lia. }
  assert (Ha0 : 0 <= PGROUNDUP oldsz) by (rewrite Hup; Z.div_mod_to_equations; lia).
  destruct (deallocuvm_spec pgdir newsz oldsz s l) as (s2 & freed & Hrun & Hd);
    [apply HI..|done|lia|].
  exists s2, (freed ++ l). split_and!; [done| |].
  - intros v (Hv & Hvd & Hvt & Hvm) Hvl.
    assert (Hkb : forall va, page_in (PGROUNDUP oldsz) newsz va -> 0 <= va < KERNBASE).
    { intros va. unfold page_in, KERNBASE in *. Z.div_mod_to_equations. lia. }
    split; [split_and!; try done|].
    + by rewrite (dr_tables _ _ _ _ _ _ _ Hd).
    + intros va Hva. unfold mapped, upage in *.
      assert (0 <= va < 4294967296) by (unfold KERNBASE in *; lia).
      destruct (decide (PGROUNDUP oldsz <= va / 4096 * 4096 < newsz)) as [Hin|Hin].
      * intros Hm. by destruct (dr_gone _ _ _ _ _ _ _ Hd va).
      * rewrite (dr_keep _ _ _ _ _ _ _ Hd) by done. by apply Hvm.
    + rewrite not_elem_of_app. split; [|done].
      intros (va & Hva & Hin & Hm & E)%(dr_freed _ _ _ _ _ _ _ Hd).
      by destruct (Hvm va (Hkb va Hin) Hm).
  - eapply rolled_back_dealloc; [done|lia..|done|done].
Qed.

Lemma allocuvm_loop_spec pgdir oldsz newsz s0 l0 a0 fuel : forall a s l,
  alloc_inv s0 s pgdir a0 a l0 l [] ->
  a0 = PGROUNDUP oldsz -> 0 <= oldsz <= newsz -> newsz < KERNBASE ->
  a0 <= a -> a mod 4096 = 0 -> (a = a0 \/ a < newsz + 4096) ->
  (forall va, 0 <= va < 4294967296 -> page_in a0 newsz va -> ~ mapped (ram s0) pgdir va) ->
  newsz - a <= 4096 * (Z.of_nat fuel - 1) -> (0 < fuel)%nat ->
  exists r s' l', allocuvm_loop fuel pgdir a oldsz newsz s = Ok (r, s') /\
    ((r = newsz /\ alloc_inv s0 s' pgdir a0 newsz l0 l' []) \/
     (r = 0 /\ rolled_back s0 s' pgdir a0 newsz l0 l' [])).
Proof.
  induction fuel as [|fuel IH]; intros a s l HI Ha0 Hold Hnew Hle Hal Hor Hun Hfuel Hpos; [lia|].
  assert (Hup : PGROUNDUP oldsz = (oldsz + 4095) / 4096 * 4096).
  { apply PGROUNDUP_eq; unfold KERNBASE in *; lia. }
  assert (Hal0 : a0 mod 4096 = 0 /\ 0 <= a0) by (rewrite Ha0, Hup; Z.div_mod_to_equations; lia).
  cbn [allocuvm_loop]. destruct (Z.ltb_spec a newsz) as [Hlt|Hge].
  2: { exists newsz, s, l. split; [done|]. left. split; [done|]. eapply alloc_inv_end; done || lia. }
  pose proof (ai_kmem _ _ _ _ _ _ _ _ HI) as Hk. destruct l as [|v l1].
  - destruct (kalloc_spec s [] Hk) as (s1 & Hrun & Hk1 & Hr & Hl). simpl in *.
    rewrite (bind_ok _ _ _ _ _ Hrun), Z.eqb_refl.
    assert (HI1 : alloc_inv s0 s1 pgdir a0 a l0 [] []).
    { destruct HI. split; rewrite ?Hr, ?Hl; done. }
    subst a0. destruct (alloc_rollback pgdir oldsz newsz a s0 s1 l0 [] [] HI1)
      as (s2 & l2 & Hd & _ & Hrb); [done|done|lia|done|].
    rewrite (bind_ok _ _ _ _ _ Hd). exists 0, s2, l2. split; [done|]. by right.
  - destruct (kalloc_fresh pgdir s v l1) as (s1 & Hrun & Hr & Hlk & Hk1 & Hd1 & Hu1 & Hf & Hvl & Hv0);
      [apply HI..|].
    rewrite (bind_ok _ _ _ _ _ Hrun), Hv0. unfold kmemset. rewrite bind_modify.
    set (m1 := (memset (ram s1) v 0 PGSIZE).2).
    assert (Hva : v mod 4096 = 0) by (apply page_ok_aligned, Hf).
    destruct (install_page pgdir a (Z.lor PTE_W PTE_U) v m1 s1 l1) as (r & s2 & used & l2 & Hm & Hll & Hins & Hcase);
      try done.
    { intros p Hp Hne. by apply same_page_memset. }
    { by apply mem_ok_memset, Hk1. }
    { unfold KERNBASE in *. lia. }
    { unfold mapped. rewrite Hr, (ai_old _ _ _ _ _ _ _ _ HI); [apply Hun|..];
        unfold page_in, KERNBASE in *; try lia; Z.div_mod_to_equations; lia. }
    rewrite (bind_ok _ _ _ _ _ Hm). rewrite Hr in Hcase.
    destruct Hcase as [(-> & Hpte)|(-> & -> & Hpte)]; simpl.
    + assert (u32 (a + PGSIZE) = a + 4096) as ->.
      { unfold PGSIZE, KERNBASE in *. apply u32_small. lia. }
      apply (IH _ _ l2); try done; try lia; [|Z.div_mod_to_equations; lia].
      apply (alloc_inv_step s0 s s1 s2 m1 pgdir a0 a l0 v l1 used l2); try done; [lia|].
      intros b Hb. unfold m1, PGSIZE. rewrite memset_mem, in_range_true by lia. done.
    + symmetry in Hll. apply app_eq_nil in Hll as [-> ->].
      assert (HI2 : alloc_inv s0 s2 pgdir a0 a l0 [] [v]) by by eapply alloc_inv_hold.
      subst a0. destruct (alloc_rollback pgdir oldsz newsz a s0 s2 l0 [] [v] HI2)
        as (s3 & l3 & Hd & Hfr & Hrb); [done|done|lia|done|].
      rewrite (bind_ok _ _ _ _ _ Hd).
      destruct (Hfr v) as [Hf3 Hv3]; [|lelem|].
      { destruct Hf as (F1 & F2 & F3 & F4). split_and!; try done.
        - intros [?|?%elem_of_nil]%(in_tables _ _ _ _ _ _ _ Hins); done.
        - intros va Hva'. unfold mapped, upage. rewrite Hpte, <-Hr. by apply F4. }
      destruct (rolled_back_kfree _ _ _ _ _ _ _ _ Hrb Hv3 Hf3) as (s4 & Hkf & Hrb4).
      rewrite (bind_ok _ _ _ _ _ Hkf). exists 0, s4, (v :: l3). split; [done|]. by right.
Qed.

(** The walk to a mapped page finds its entry. *)
Lemma walk_present pgdir va s l :
  mapped (ram s) pgdir va -> pgdir_ok (ram s) l pgdir ->
  exists pte, walkpgdir pgdir va false s = Ok (pte, s) /\ (pte =? 0) = false /\
    rdw (ram s) pte = pte_at (ram s) pgdir va.
Proof.
  intros Hm Hd. exists (table_at (ram s) pgdir (PDX va) + 4 * PTX va).
  rewrite walkpgdir_find. unfold mapped, pte_at in *.
  destruct (pte_present (pde_at (ram s) pgdir (PDX va))) eqn:E; [|done]. split_and!; try done.
  apply page_ok_nonzero; [|apply PTX_range]. by apply (po_tab _ _ _ Hd), table_is.
Qed.
End Vm.
