(* ===== verification/VmProps.v ===== *)
(** * Address spaces (vm.c): whole-operation theorems

    freevm, setupkvm and copyuvm in terms of the pages they take and return,
    and the properties of the page-table operations. *)
From S2P Require Import Prelude CString Layout Spinlock Kalloc Vm.

Open Scope Z_scope.

Section VmProps.
Context `{L : !Layout}.

(** ** freevm *)
Lemma free_tables pgdir n : forall i s l,
  0 <= i -> i + Z.of_nat n <= 1024 -> kmem_ok s l -> page_ok pgdir -> pgdir ∉ l ->
  (forall j, i <= j < i + Z.of_nat n -> has_table (ram s) pgdir j ->
     page_ok (table_at (ram s) pgdir j) /\ (table_at (ram s) pgdir j ∉ l) /\
     table_at (ram s) pgdir j <> pgdir) ->
  (forall j k, has_table (ram s) pgdir j -> has_table (ram s) pgdir k ->
     table_at (ram s) pgdir j = table_at (ram s) pgdir k -> j = k) ->
  exists s' freed,
    for_each (seqZ i (Z.of_nat n)) (fun i =>
      e ← load (pgdir + 4 * i);
      if pte_present e then kfree (P2V (PTE_ADDR e)) else mret tt) s = Ok (tt, s') /\
    kmem_ok s' (freed ++ l) /\ use_lock s' = use_lock s /\
    (forall q, q ∈ freed <-> exists j, i <= j < i + Z.of_nat n /\
       has_table (ram s) pgdir j /\ q = table_at (ram s) pgdir j) /\
    (forall q, q mod 4096 = 0 -> q ∉ freed -> same_page (ram s) (ram s') q).
Proof.
  induction n as [|n IH]; intros i s l Hi Hn Hk Hp Hpl Htab Hinj.
  { exists s, []. split_and!; try done. intros q. split; [by intros ?%elem_of_nil|].
    intros (j & ? & _). lia. }
  rewrite seqZ_cons by lia. cbn [for_each]. replace (Z.pred (Z.of_nat (S n))) with (Z.of_nat n) by lia.
  unfold load. rewrite <-Z.add_1_r.
  fold (pde_at (ram s) pgdir i).
  destruct (pte_present (pde_at (ram s) pgdir i)) eqn:E.
  - assert (Hh : has_table (ram s) pgdir i) by (split; [lia|done]).
    destruct (Htab i) as (Hq & Hql & Hqd); [lia|done|]. set (q := table_at (ram s) pgdir i) in *.
    destruct (kfree_spec q s l Hk Hq Hql) as (s1 & Hf & Hk1 & Hu1 & Hout & _).
    assert (Hsame : forall p, p mod 4096 = 0 -> p <> q -> same_page (ram s) (ram s1) p).
    { intros p Hpa Hne b Hb. apply Hout.
      destruct (pages_disjoint p q Hpa (page_ok_aligned q Hq) Hne); lia. }
    assert (Hsd : same_page (ram s) (ram s1) pgdir).
    { apply Hsame; [by apply page_ok_aligned|done]. }
    destruct (IH (i + 1) s1 (q :: l)) as (s' & freed & Hrun & Hk' & Hl' & Hfr & Hsm); try lia; try done.
    { lelem. }
    { intros j Hj. rewrite (pgdir_same_has (ram s)) by done. intros Hhj.
      rewrite (pgdir_same_at (ram s)) by (done || apply Hhj).
      destruct (Htab j) as (? & ? & ?); [lia|done|]. split_and!; try done.
      rewrite not_elem_of_cons. split; [|done]. intros Eq. apply Hinj in Eq; [lia|done|done]. }
    { intros j k Hj Hkk. rewrite (pgdir_same_has (ram s)) in Hj, Hkk by done.
      rewrite (pgdir_same_at (ram s) _ _ j), (pgdir_same_at (ram s) _ _ k)
        by (done || apply Hj || apply Hkk). by apply Hinj. }
    exists s', (freed ++ [q]). split_and!.
    + unfold mbind at 1, M_bind at 1, mbind at 1, M_bind at 1, gets.
      fold (pde_at (ram s) pgdir i). rewrite E.
      change (P2V (PTE_ADDR (pde_at (ram s) pgdir i))) with q. by rewrite Hf.
    + by rewrite <-app_assoc.
    + by rewrite Hl'.
    + intros p. rewrite elem_of_app, list_elem_of_singleton, Hfr. split.
      * intros [(j & Hj & Hhj & ->)| ->]; [|exists i; split; [lia|done]].
        rewrite (pgdir_same_has (ram s)) in Hhj by done. exists j. split; [lia|]. split; [done|].
        apply pgdir_same_at; [done|apply Hhj].
      * intros (j & Hj & Hhj & ->). destruct (decide (j = i)) as [->|Hne]; [by right|]. left.
        exists j. split; [lia|]. rewrite (pgdir_same_has (ram s)) by done. split; [done|].
        symmetry. apply pgdir_same_at; [done|apply Hhj].
    + intros p Hpa Hn'. eapply same_page_trans; [apply Hsame; [done|]|apply Hsm; [done|]].
      * intros ->. apply Hn'. lelem.
      * intros Hin. apply Hn'. lelem.
  - destruct (IH (i + 1) s l) as (s' & freed & Hrun & Hk' & Hl' & Hfr & Hsm); try lia; try done.
    { intros j Hj. apply Htab. lia. }
    exists s', freed. split_and!; try done.
    + unfold mbind at 1, M_bind at 1, mbind at 1, M_bind at 1, gets.
      fold (pde_at (ram s) pgdir i). by rewrite E.
    + intros q. rewrite Hfr. split; intros (j & Hj & Hhj & ->); exists j; (split; [|done]); [lia|].
      destruct (decide (j = i)) as [->|]; [|lia]. destruct Hhj as [_ Hb]. by rewrite E in Hb.
Qed.

(** Every page of the address space: mapped below KERNBASE, page tables and
    the directory. *)
Definition owns (m : mem) (pgdir q : Z) : Prop :=
  (exists va, 0 <= va < KERNBASE /\ mapped m pgdir va /\ q = upage m pgdir va) \/
  is_table m pgdir q \/ q = pgdir.

Lemma freevm_spec pgdir s l :
  kmem_ok s l -> pgdir_ok (ram s) l pgdir -> user_ok (ram s) l pgdir ->
  exists s' freed, freevm pgdir s = Ok (tt, s') /\ kmem_ok s' (freed ++ l) /\
    use_lock s' = use_lock s /\ (forall q, q ∈ freed <-> owns (ram s) pgdir q) /\
    (forall q, q mod 4096 = 0 -> q ∉ freed -> same_page (ram s) (ram s') q).
Proof.
  intros Hk Hd Hu. unfold freevm.
  pose proof (page_ok_nonzero pgdir 0 (po_page _ _ _ Hd) ltac:(lia)) as Hnz.
  rewrite Z.mul_0_r, Z.add_0_r in Hnz. rewrite Hnz.
  destruct (deallocuvm_spec pgdir KERNBASE 0 s l) as (s1 & f1 & Hrun1 & [D1 D2 D3 D4 D5 D6 D7 D8 D9]);
    try done.
  rewrite (bind_ok _ _ _ _ _ Hrun1).
  destruct (free_tables pgdir 1024 0 s1 (f1 ++ l)) as (s2 & f2 & Hrun2 & Hk2 & Hl2 & Hf2 & Hs2); try done.
  { apply D2. } { apply D2. }
  { intros j Hj Hh. apply (po_tab _ _ _ D2). by exists j. }
  { apply (po_inj _ _ _ D2). }
  change (Z.of_nat 1024) with NPDENTRIES in *. rewrite (bind_ok _ _ _ _ _ Hrun2).
  assert (Hf2' : forall q, q ∈ f2 <-> is_table (ram s1) pgdir q).
  { intros q. rewrite Hf2. split.
    - intros (j & _ & Hh & ->). by exists j.
    - intros (j & Hh & <-). exists j. split; [apply Hh|done]. }
  destruct (kfree_spec pgdir s2 (f2 ++ f1 ++ l)) as (s3 & Hrun3 & Hk3 & Hl3 & Hout & _).
  { done. } { apply Hd. }
  { rewrite elem_of_app, Hf2'. intros [Ht|Ht].
    - by apply (po_tab _ _ _ D2) in Ht as (_ & _ & ?).
    - by apply (po_free _ _ _ D2). }
  exists s3, (pgdir :: f2 ++ f1). split_and!.
  - done.
  - simpl. by rewrite <-app_assoc.
  - by rewrite Hl3, Hl2, D4.
  - intros q. unfold owns. rewrite elem_of_cons, elem_of_app, Hf2', D8, D7.
    split.
    + intros [->|[?|(va & Hva & Hin & Hm & ->)]]; [by auto..|]. left. exists va.
      split; [|done]. unfold page_in in Hin. change (PGROUNDUP 0) with 0 in Hin.
      unfold KERNBASE in *. Z.div_mod_to_equations. lia.
    + intros [(va & Hva & Hm & ->)|[?| ->]]; [|by auto..]. right. right. exists va.
      unfold KERNBASE in *. split; [lia|]. split; [|done].
      unfold page_in. change (PGROUNDUP 0) with 0. Z.div_mod_to_equations. lia.
  - intros q Hq Hn. eapply same_page_trans; [|eapply same_page_trans].
    + apply D9; [done| |].
      * intros ?. apply Hn. lelem.
      * intros ?. apply Hn. apply elem_of_cons. right. apply elem_of_app. left. by apply Hf2', D8.
    + apply Hs2; [done|]. intros ?. apply Hn. lelem.
    + intros b Hb. apply Hout.
      destruct (pages_disjoint q pgdir Hq (page_ok_aligned _ (po_page _ _ _ Hd))); [|lia..].
      intros ->. apply Hn. lelem.
Qed.

(** ** setupkvm *)
Definition row_size (k : kmap_row) : Z := u32 (phys_end k - phys_start k).
Definition in_row (k : kmap_row) (va : Z) : bool := (virt k <=? va) && (va <? virt k + row_size k).
Definition row_entry (k : kmap_row) (va : Z) : Z :=
  Z.lor (Z.lor (phys_start k + (va / 4096 * 4096 - virt k)) (kperm k)) PTE_P.

(** The entry the rows prescribe for [va]: 0 where no row applies. *)
Fixpoint rows_entry (ks : list kmap_row) (va : Z) : Z :=
  match ks with
  | [] => 0
  | k :: ks' => if in_row k va then row_entry k va else rows_entry ks' va
  end.

Record row_ok (k : kmap_row) : Prop := {
  ro_virt : virt k mod 4096 = 0 /\ KERNBASE <= virt k;
  ro_size : row_size k mod 4096 = 0 /\ 0 < row_size k /\ virt k + row_size k <= 4294967296;
  ro_phys : phys_start k mod 4096 = 0 /\ 0 <= phys_start k /\
    phys_start k + row_size k <= 4294967296;
  ro_perm : 0 <= kperm k < 4096
}.

(** The rows follow each other from [lo] up. *)
Fixpoint rows_from (lo : Z) (ks : list kmap_row) : Prop :=
  match ks with
  | [] => True
  | k :: ks' => lo <= virt k /\ row_ok k /\ rows_from (virt k + row_size k) ks'
  end.

Lemma rows_entry_below ks : forall lo va, rows_from lo ks -> va < lo -> rows_entry ks va = 0.
Proof.
  induction ks as [|k ks IH]; intros lo va H Hlt; [done|]. destruct H as (Hv & Hk & Hr). simpl.
  destruct Hk as [_ (_ & Hs & _) _ _]. unfold in_row. rewrite in_range_false by lia.
  eapply IH; [done|lia].
Qed.

Lemma user_ok_none m l pgdir :
  (forall va, 0 <= va < KERNBASE -> pte_at m pgdir va = 0) -> user_ok m l pgdir.
Proof.
  intros H. split; unfold mapped; intros va; [|intros va'].
  - intros Hva. by rewrite H.
  - intros Hva _. by rewrite H.
Qed.

(** Mapping one row. *)
Lemma map_row d k s l :
  kmem_ok s l -> pgdir_ok (ram s) l d -> row_ok k ->
  (forall va, 0 <= va < 4294967296 -> in_row k va = true -> pte_at (ram s) d va = 0) ->
  exists r s' used l',
    mappages d (virt k) (row_size k) (phys_start k) (kperm k) s = Ok (r, s') /\
    l = used ++ l' /\ vm_grow s s' d used l' /\
    (forall va, 0 <= va < 4294967296 -> in_row k va = false ->
       pte_at (ram s') d va = pte_at (ram s) d va) /\
    ((r = 0 /\ forall va, 0 <= va < 4294967296 -> in_row k va = true ->
        pte_at (ram s') d va = row_entry k va) \/ (r = -1 /\ l' = [])).
Proof.
  intros Hk Hd [[Hv1 Hv2] (Hs1 & Hs2 & Hs3) (Hp1 & Hp2 & Hp3) Hperm] Hun.
  unfold KERNBASE in Hv2. unfold in_row in *.
  destruct (mappages_spec d (virt k) (row_size k) (phys_start k) (kperm k) s l)
    as (r & s' & used & l' & Hrun & Hl & Hg & Hout & Hres); try done; try lia.
  { intros i Hi. rewrite Hun; [done|..]; [|apply in_range_true]; Z.div_mod_to_equations; lia. }
  exists r, s', used, l'. split_and!; try done.
  - intros va Hva Hn. apply Hout. rewrite u32_small by done. Z.div_mod_to_equations. lia.
  - destruct Hres as [[-> Hin]|?]; [left|by right]. split; [done|]. intros va Hva Hr.
    set (i := va / 4096 - virt k / 4096).
    assert (Hi : 0 <= i <= (virt k + row_size k - 1) / 4096 - virt k / 4096).
    { unfold i. Z.div_mod_to_equations. lia. }
    rewrite (pte_at_page _ _ va (virt k / 4096 * 4096 + 4096 * i)).
    2: { unfold i. rewrite !u32_small by (Z.div_mod_to_equations; lia).
         Z.div_mod_to_equations. lia. }
    rewrite Hin by done. unfold row_entry.
    replace (phys_start k + (va / 4096 * 4096 - virt k)) with (phys_start k + 4096 * i)
      by (unfold i; Z.div_mod_to_equations; lia).
    rewrite (u32_small (phys_start k + 4096 * i)) by (unfold i; Z.div_mod_to_equations; lia).
    apply pte_value; [|Z.div_mod_to_equations; lia|done]. unfold i. Z.div_mod_to_equations. lia.
Qed.

Lemma setupkvm_loop_spec d ks : forall lo s l,
  kmem_ok s l -> pgdir_ok (ram s) l d -> rows_from lo ks -> KERNBASE <= lo ->
  (forall va, 0 <= va < 4294967296 -> lo <= va \/ va < KERNBASE -> pte_at (ram s) d va = 0) ->
  exists r s', setupkvm_loop d ks s = Ok (r, s') /\
    ((r = d /\ exists used l', l = used ++ l' /\ vm_grow s s' d used l' /\
        forall va, 0 <= va < 4294967296 ->
          pte_at (ram s') d va = if va <? lo then pte_at (ram s) d va else rows_entry ks va) \/
     (r = 0 /\ exists l', kmem_ok s' l' /\ use_lock s' = use_lock s /\
        (forall q, q ∈ l' <-> q ∈ l \/ is_table (ram s) d q \/ q = d) /\
        (forall q, q mod 4096 = 0 -> q ∉ l' -> same_page (ram s) (ram s') q))).
Proof.
  induction ks as [|k ks IH]; intros lo s l Hk Hd Hrows Hlo Hun.
  { exists d, s. split; [done|]. left. split; [done|]. exists [], l. split; [done|].
    split; [by apply vm_grow_refl|]. intros va Hva. simpl. zcases; try done; [apply Hun; [done|lia]]. }
  destruct Hrows as (Hv & Hrow & Hrows). cbn [setupkvm_loop]. fold (row_size k).
  pose proof (ro_size _ Hrow) as (_ & Hs & _).
  destruct (map_row d k s l Hk Hd Hrow) as (r & s1 & used & l1 & Hrun & Hl & Hg & Hout & Hres).
  { intros va Hva Hr. apply Hun; [done|]. unfold in_row in Hr. lia. }
  rewrite (bind_ok _ _ _ _ _ Hrun). destruct Hres as [[-> Hin]|[-> ->]]; simpl.
  - destruct (IH (virt k + row_size k) s1 l1) as (r & s2 & Hrun2 & Hres2); try lia; try done.
    { apply Hg. } { apply Hg. }
    { intros va Hva Hor. assert (Hr : in_row k va = false) by (apply in_range_false; lia).
      rewrite Hout by done. apply Hun; [done|lia]. }
    exists r, s2. split; [done|]. destruct Hres2 as [(-> & u2 & l2 & -> & Hg2 & Hpte)|(-> & l2 & Hk2 & Hl2 & Hq2 & Hsm)].
    + left. split; [done|]. exists (used ++ u2), l2. split; [by rewrite <-app_assoc|].
      split; [by eapply vm_grow_trans|]. intros va Hva. rewrite Hpte by done.
      assert (Hbelow : va < virt k + row_size k -> rows_entry ks va = 0) by by apply rows_entry_below.
      destruct (in_row k va) eqn:Er.
      * rewrite (Hin va) by done. unfold in_row in Er. by zcases.
      * rewrite Hout by done. unfold in_row in Er. zcases; try done.
        rewrite Hun, Hbelow; done || lia.
    + right. split; [done|]. exists l2. split_and!; try done.
      * by rewrite Hl2, (vg_lock _ _ _ _ _ Hg).
      * intros q. rewrite Hq2, Hl, elem_of_app. split.
        -- intros [?|[[?|?]%(vg_tables _ _ _ _ _ Hg)|?]]; by auto.
        -- pose proof (vg_mono _ _ _ _ _ Hg q). pose proof (vg_used _ _ _ _ _ Hg q). tauto.
      * intros q Hq Hn. rewrite Hq2 in Hn. eapply same_page_trans; [|apply Hsm; [done|by rewrite Hq2]].
        apply (vg_frame _ _ _ _ _ Hg); [done|tauto| |].
        -- intros Hu. apply Hn. right. left. by apply (vg_used _ _ _ _ _ Hg).
        -- intros Ht. apply Hn. right. left. by apply (vg_mono _ _ _ _ _ Hg).
  - rewrite app_nil_r in Hl. subst used.
    assert (Hu0 : forall va, 0 <= va < KERNBASE -> pte_at (ram s1) d va = 0).
    { intros va Hva. unfold KERNBASE in *.
      rewrite Hout; [apply Hun; lia|lia|]. apply in_range_false. lia. }
    destruct (freevm_spec d s1 [] (vg_kmem _ _ _ _ _ Hg) (vg_pgdir _ _ _ _ _ Hg))
      as (s2 & freed & Hrun2 & Hk2 & Hl2 & Hf & Hsm); [by apply user_ok_none|].
    rewrite app_nil_r in Hk2.
    rewrite (bind_ok _ _ _ _ _ Hrun2). exists 0, s2. split; [done|]. right. split; [done|].
    exists freed. split; [done|]. split; [by rewrite Hl2, (vg_lock _ _ _ _ _ Hg)|].
    assert (Hfq : forall q, q ∈ freed <-> q ∈ l \/ is_table (ram s) d q \/ q = d).
    { intros q. rewrite Hf. unfold owns. split.
      - intros [(va & Hva & Hm & _)|[[?|?]%(vg_tables _ _ _ _ _ Hg)|?]]; try by auto.
        unfold mapped in Hm. by rewrite Hu0 in Hm.
      - intros [?|[?|?]]; [| |by auto]; right; left; [by apply (vg_used _ _ _ _ _ Hg)|].
        by apply (vg_mono _ _ _ _ _ Hg). }
    split; [done|]. intros q Hq Hn. eapply same_page_trans; [|by apply Hsm].
    rewrite Hfq in Hn. apply (vg_frame _ _ _ _ _ Hg); [done|tauto..].
Qed.

Lemma kmap_rows : rows_from KERNBASE kmap.
Proof.
  pose proof kdata_low as H1. pose proof kdata_kend as H2. pose proof kend_high as H3.
  pose proof kdata_page as H4. unfold KERNLINK, KERNBASE, EXTMEM in *.
  assert (E : V2P kdata = kdata - 2147483648) by (apply u32_small; unfold KERNBASE; lia).
  unfold kmap. cbn [rows_from virt].
  change (V2P KERNLINK) with 1048576.
  assert (E1 : row_size (Kmap KERNBASE 0 EXTMEM PTE_W) = 1048576) by done.
  assert (E2 : row_size (Kmap KERNLINK 1048576 (V2P kdata) 0) = kdata - 2148532224).
  { unfold row_size. cbn [phys_end phys_start]. rewrite E. rewrite u32_small by lia. lia. }
  assert (E3 : row_size (Kmap kdata (V2P kdata) PHYSTOP PTE_W) = 2382364672 - kdata).
  { unfold row_size. cbn [phys_end phys_start]. rewrite E. unfold PHYSTOP.
    rewrite u32_small by lia. lia. }
  assert (E4 : row_size (Kmap DEVSPACE DEVSPACE 0 PTE_W) = 33554432) by done.
  rewrite E1, E2, E3.
  assert (Hrow : forall k, virt k mod 4096 = 0 -> KERNBASE <= virt k -> row_size k mod 4096 = 0 ->
    0 < row_size k -> virt k + row_size k <= 4294967296 -> phys_start k mod 4096 = 0 ->
    0 <= phys_start k -> phys_start k + row_size k <= 4294967296 -> 0 <= kperm k < 4096 -> row_ok k).
  { intros k. split; split_and!; tauto. }
  unfold KERNLINK, KERNBASE, EXTMEM, DEVSPACE in *.
  split_and!; try lia; try done;
    (apply Hrow; cbn [virt phys_start kperm]; rewrite ?E1, ?E2, ?E3, ?E4, ?E; try done; try lia;
     Z.div_mod_to_equations; lia).
Qed.

(** An empty directory. *)
Lemma pgdir_zero m l d : page_ok d -> d ∉ l -> zeroed m d ->
  pgdir_ok m l d /\ (forall q, ~ is_table m d q) /\ (forall va, pte_at m d va = 0).
Proof.
  intros Hd Hl Hz.
  assert (Hp : forall i, 0 <= i < 1024 -> pte_present (pde_at m d i) = false).
  { intros i Hi. unfold pde_at, rdw. by rewrite !Hz by lia. }
  assert (Ht : forall q, ~ is_table m d q).
  { intros q (i & [Hi Hh] & _). by rewrite Hp in Hh. }
  split_and!; [|done|].
  - split; [done|done| |].
    + intros q Hq. by destruct (Ht q).
    + intros i j [Hi Hh]. by rewrite Hp in Hh.
  - intros va. unfold pte_at. by rewrite Hp by apply PDX_range.
Qed.

Lemma setupkvm_spec s l :
  kmem_ok s l ->
  exists r s', setupkvm s = Ok (r, s') /\ use_lock s' = use_lock s /\
    ((r = 0 /\ exists l', kmem_ok s' l' /\ (forall q, q ∈ l' <-> q ∈ l) /\
        (forall q, q mod 4096 = 0 -> q ∉ l -> same_page (ram s) (ram s') q)) \/
     (exists used l', l = r :: used ++ l' /\ kmem_ok s' l' /\ pgdir_ok (ram s') l' r /\
        (forall q, is_table (ram s') r q <-> q ∈ used) /\
        (forall va, 0 <= va < 4294967296 -> pte_at (ram s') r va = rows_entry kmap va) /\
        (forall q, q mod 4096 = 0 -> q ∉ r :: used -> same_page (ram s) (ram s') q))).
Proof.
  intros Hk. unfold setupkvm. destruct (kalloc_spec s l Hk) as (s1 & Hrun & Hk1 & Hr1 & Hl1).
  rewrite (bind_ok _ _ _ _ _ Hrun). destruct l as [|d l]; cbn [hd tl] in *.
  { exists 0, s1. split; [done|]. split; [done|]. left. split; [done|]. exists [].
    by rewrite Hr1. }
  pose proof (ko_pages _ _ Hk) as Hps. rewrite (hd_page_nonzero (d :: l) d l Hps eq_refl).
  apply Forall_cons in Hps as [Hd _]. pose proof (ko_nodup _ _ Hk) as [Hdl _]%NoDup_cons.
  unfold kmemset. rewrite bind_modify. change (DEVSPACE <? P2V PHYSTOP) with false. cbn match.
  set (m1 := (memset (ram s1) d 0 PGSIZE).2). set (s2 := lset ramL m1 s1).
  assert (Hz : zeroed m1 d).
  { intros b Hb. unfold m1, PGSIZE. rewrite memset_mem, in_range_true by lia. done. }
  assert (Hsame : forall q, q mod 4096 = 0 -> q <> d -> same_page (ram s) m1 q).
  { intros q Hq Hne. rewrite <-Hr1. apply same_page_memset; [done|by apply page_ok_aligned|done]. }
  destruct (pgdir_zero m1 l d Hd Hdl Hz) as (Hpd & Hnt & Hpte).
  assert (Hk2 : kmem_ok s2 l).
  { apply kmem_ok_ram; [done|by apply mem_ok_memset, Hk1|]. intros q Hq. rewrite Hr1.
    apply Hsame; [|intros ->; done]. pose proof (ko_pages _ _ Hk1) as Hps.
    rewrite Forall_forall in Hps. by apply page_ok_aligned, Hps. }
  destruct (setupkvm_loop_spec d kmap KERNBASE s2 l Hk2 Hpd kmap_rows) as (r & s3 & Hrun3 & Hres); [lia|done|].
  exists r, s3. split; [done|].
  destruct Hres as [(-> & used & l' & -> & Hg & Hp)|(-> & l' & Hk3 & Hl3 & Hq & Hsm)].
  - split; [by rewrite (vg_lock _ _ _ _ _ Hg)|]. right. exists used, l'.
    split; [done|]. split; [apply Hg|]. split; [apply Hg|]. split; [|split].
    + intros q. split; [|apply (vg_used _ _ _ _ _ Hg)].
      intros [Ht|?]%(vg_tables _ _ _ _ _ Hg); [|done]. by destruct (Hnt q).
    + intros va Hva. rewrite Hp by done. destruct (Z.ltb_spec va KERNBASE); [|done].
      change (ram s2) with m1. rewrite Hpte. symmetry. eapply rows_entry_below; [apply kmap_rows|done].
    + intros q Ha Hn. eapply same_page_trans; [apply Hsame; [done|lelem]|].
      apply (vg_frame _ _ _ _ _ Hg); [done|lelem|lelem|apply Hnt].
  - split; [by rewrite Hl3|]. left. split; [done|]. exists l'. split; [done|].
    assert (Hq' : forall q, q ∈ l' <-> q ∈ d :: l).
    { intros q. rewrite Hq, elem_of_cons. pose proof (Hnt q). tauto. }
    split; [done|]. intros q Ha Hn. eapply same_page_trans; [apply Hsame; [done|lelem]|].
    apply Hsm; [done|by rewrite Hq'].
Qed.

(** ** copyuvm *)
Lemma flags_present e : pte_present e = true -> Z.lor (PTE_FLAGS e) PTE_P = PTE_FLAGS e.
Proof.
  rewrite pte_present_odd. intros Ho. rewrite PTE_FLAGS_eq. unfold PTE_P.
  set (f := u32 e mod 4096).
  assert (Hf : Z.odd f = true).
  { assert (E : f = e mod 4096).
    { unfold f, u32. replace 4294967296 with (4096 * 1048576) by lia.
      rewrite Z.rem_mul_r by lia. rewrite Z.mul_comm, Z.mod_add by lia. by rewrite Z.mod_mod. }
    rewrite E. rewrite (Z.div_mod e 4096), Z.odd_add, Z.odd_mul in Ho by lia. done. }
  apply Z.bits_inj'. intros n Hn. rewrite Z.lor_spec.
  destruct (decide (n = 0)) as [->|Hne].
  - by rewrite Z.bit0_odd, Hf.
  - change 1 with (2 ^ 0). rewrite Z.pow2_bits_false by done. apply orb_false_r.
Qed.

(** [d] holds copies of the pages of [p] below [i], in pages that were free;
    every page that was free is still free or belongs to [d]. *)
Record copy_inv (s0 s : kmem) (p d i : Z) (l0 l : list Z) : Prop := {
  ci_kmem : kmem_ok s l;
  ci_pgdir : pgdir_ok (ram s) l d;
  ci_user : user_ok (ram s) l d;
  ci_lock : use_lock s = use_lock s0;
  ci_copy : forall va, 0 <= va < KERNBASE -> page_in 0 i va ->
    mapped (ram s) d va /\
    PTE_FLAGS (pte_at (ram s) d va) = PTE_FLAGS (pte_at (ram s0) p va) /\
    (forall k, 0 <= k < 4096 ->
       rdb (ram s) (upage (ram s) d va + k) = rdb (ram s0) (upage (ram s0) p va + k));
  ci_rest : forall va, 0 <= va < 4294967296 -> ~ page_in 0 i va ->
    pte_at (ram s) d va = rows_entry kmap va;
  ci_own : forall q, q ∈ l0 <-> q ∈ l \/ owns (ram s) d q;
  ci_frame : forall q, q mod 4096 = 0 -> q ∉ l0 -> same_page (ram s0) (ram s) q
}.

Lemma copy_inv_start s0 s p d l0 used l :
  kmem_ok s l -> pgdir_ok (ram s) l d -> use_lock s = use_lock s0 -> l0 = d :: used ++ l ->
  (forall q, is_table (ram s) d q <-> q ∈ used) ->
  (forall va, 0 <= va < 4294967296 -> pte_at (ram s) d va = rows_entry kmap va) ->
  (forall q, q mod 4096 = 0 -> q ∉ d :: used -> same_page (ram s0) (ram s) q) ->
  copy_inv s0 s p d 0 l0 l.
Proof.
  intros Hk Hd Hl -> Ht Hp Hf.
  assert (Hz : forall va, 0 <= va < KERNBASE -> pte_at (ram s) d va = 0).
  { intros va Hva. unfold KERNBASE in Hva. rewrite Hp by lia.
    eapply rows_entry_below; [apply kmap_rows|]. unfold KERNBASE. lia. }
  split; try done.
  - by apply user_ok_none.
  - intros va _ Hin. unfold page_in in Hin. lia.
  - intros va Hva _. by apply Hp.
  - intros q. rewrite elem_of_cons, elem_of_app. unfold owns. rewrite Ht. split; [tauto|].
    intros [?|[(va & Hva & Hm & _)|?]]; [tauto| |tauto]. unfold mapped in Hm. by rewrite Hz in Hm.
  - intros q Hq Hn. apply Hf; [done|]. intros Hin. apply Hn.
    apply elem_of_cons in Hin as [->|Hin]; lelem.
Qed.

(** The parent's address space as seen during the copy. *)
Lemma copy_inv_source s0 s p d i l0 l :
  copy_inv s0 s p d i l0 l -> pgdir_ok (ram s0) l0 p -> user_ok (ram s0) l0 p ->
  same_page (ram s0) (ram s) p /\
  (forall va, pte_at (ram s) p va = pte_at (ram s0) p va) /\
  (forall va, 0 <= va < KERNBASE -> mapped (ram s0) p va ->
     same_page (ram s0) (ram s) (upage (ram s0) p va)).
Proof.
  intros HI Hd Hu.
  assert (Hp : same_page (ram s0) (ram s) p).
  { apply (ci_frame _ _ _ _ _ _ _ HI); [apply page_ok_aligned, Hd|apply Hd]. }
  split_and!; [done| |].
  - intros va. apply pgdir_same_pte; [done|]. intros q (Hq & Hl & _)%(po_tab _ _ _ Hd).
    apply (ci_frame _ _ _ _ _ _ _ HI); [by apply page_ok_aligned|done].
  - intros va Hva Hm. destruct (uo_page _ _ _ Hu va Hva Hm) as (Hq & Hl & _).
    apply (ci_frame _ _ _ _ _ _ _ HI); [by apply page_ok_aligned|done].
Qed.

(** The user pages of [d] after one more page. *)
Lemma copy_maps s0 s s2 p d i l0 l v e q :
  copy_inv s0 s p d i l0 l -> 0 <= i < 2147483648 -> i mod 4096 = 0 ->
  (forall va, 0 <= va < 4294967296 -> pte_at (ram s2) d va =
    if va / 4096 =? i / 4096 then Z.lor (Z.lor (V2P v) (PTE_FLAGS e)) PTE_P
    else pte_at (ram s) d va) ->
  P2V (PTE_ADDR (Z.lor (Z.lor (V2P v) (PTE_FLAGS e)) PTE_P)) = v ->
  pte_present (Z.lor (Z.lor (V2P v) (PTE_FLAGS e)) PTE_P) = true ->
  (exists va, 0 <= va < KERNBASE /\ mapped (ram s2) d va /\ q = upage (ram s2) d va) <->
  q = v \/ exists va, 0 <= va < KERNBASE /\ mapped (ram s) d va /\ q = upage (ram s) d va.
Proof.
  intros HI Hi Hal Hat E3 E5. unfold mapped, upage, KERNBASE. split.
  - intros (va & Hva & Hmv & ->). rewrite Hat in * by lia.
    destruct (Z.eqb_spec (va / 4096) (i / 4096)); [by left|]. right. by exists va.
  - intros [->|(va & Hva & Hmv & ->)].
    + exists i. by rewrite Hat, Z.eqb_refl, E3 by lia.
    + exists va. rewrite Hat by lia.
      destruct (Z.eqb_spec (va / 4096) (i / 4096)) as [E|]; [|done].
      assert (Hn : ~ page_in 0 i va).
      { unfold page_in. rewrite E. Z.div_mod_to_equations. lia. }
      rewrite (ci_rest _ _ _ _ _ _ _ HI) in Hmv by (done || lia).
      rewrite (rows_entry_below _ KERNBASE) in Hmv; [done|apply kmap_rows|unfold KERNBASE; lia].
Qed.

Lemma copy_inv_step s0 s s1 s2 p d i l0 v l1 used l2 :
  let e := pte_at (ram s0) p i in
  let m1 := (memmove (ram s1) v (upage (ram s0) p i) PGSIZE).2 in
  copy_inv s0 s p d i l0 (v :: l1) -> ram s1 = ram s -> use_lock s1 = use_lock s ->
  pgdir_ok (ram s0) l0 p -> user_ok (ram s0) l0 p -> mapped (ram s0) p i ->
  0 <= i < KERNBASE -> i mod 4096 = 0 -> l1 = used ++ l2 ->
  installed s1 s2 m1 d v used l2 ->
  (forall va, pte_at (ram s2) d va =
     if u32 va / 4096 =? i / 4096 then Z.lor (Z.lor (V2P v) (PTE_FLAGS e)) PTE_P
     else pte_at (ram s) d va) ->
  copy_inv s0 s2 p d (i + 4096) l0 l2.
Proof.
  intros e m1 HI Hram Hlk Hd Hu Hm Hi Hal -> [J1 J2 J3 J4 J5 J6 J7] Hpte. rewrite Hram in J6, J7.
  destruct (copy_inv_source _ _ _ _ _ _ _ HI Hd Hu) as (_ & _ & Hsrc).
  assert (Hv : page_ok v).
  { pose proof (ko_pages _ _ (ci_kmem _ _ _ _ _ _ _ HI)) as Hps. by apply Forall_cons in Hps as [? _]. }
  assert (Hfl : 0 <= PTE_FLAGS e < 4096) by (rewrite PTE_FLAGS_eq; apply Z.mod_pos_bound; lia).
  destruct (page_entry v (PTE_FLAGS e) Hv Hfl) as (_ & _ & E3 & E4 & E5).
  rewrite flags_present in E4 by done.
  assert (Hat : forall va, 0 <= va < 4294967296 -> pte_at (ram s2) d va =
    if va / 4096 =? i / 4096 then Z.lor (Z.lor (V2P v) (PTE_FLAGS e)) PTE_P
    else pte_at (ram s) d va).
  { intros va Hva. by rewrite Hpte, (u32_small va). }
  assert (Hold : forall va, page_in 0 i va -> va / 4096 <> i / 4096).
  { intros va Hin E. unfold page_in in Hin. rewrite E in Hin. Z.div_mod_to_equations. lia. }
  unfold KERNBASE in Hi. split; try done.
  - by rewrite J4, Hlk, (ci_lock _ _ _ _ _ _ _ HI).
  - intros va Hva [Hin|E]%page_in_snoc; [| |lia|done]; unfold mapped, upage.
    + destruct (ci_copy _ _ _ _ _ _ _ HI va Hva Hin) as (H1 & H2 & H3). unfold KERNBASE in Hva.
      rewrite Hat by lia. specialize (Hold va Hin).
      destruct (Z.eqb_spec (va / 4096) (i / 4096)); [done|]. split_and!; [done|done|].
      intros k Hk. rewrite <-H3 by done.
      destruct (uo_page _ _ _ (ci_user _ _ _ _ _ _ _ HI) va Hva H1) as (K1 & K2 & K3 & K4).
      unfold upage in *. apply (J7 (P2V (PTE_ADDR (pte_at (ram s) d va)))); try done; [by apply page_ok_aligned|..|lia].
      * intros E. apply K2. rewrite E. lelem.
      * intros E. apply K2. lelem.
    + assert (Ee : pte_at (ram s0) p va = e).
      { apply pte_at_page. unfold KERNBASE in Hva. by rewrite !u32_small by lia. }
      unfold KERNBASE in Hva. rewrite Hat, E, Z.eqb_refl, E3, E4, Ee by lia. split_and!; [done|done|].
      intros k Hk. rewrite (J5 (v + k)) by lia. unfold m1, PGSIZE.
      rewrite memmove_mem, in_range_true by (done || lia || (rewrite Hram; apply (ci_kmem _ _ _ _ _ _ _ HI))).
      rewrite Hram. replace (v + k - v + upage (ram s0) p i) with (upage (ram s0) p i + k) by lia.
      change (P2V (PTE_ADDR e)) with (upage (ram s0) p i).
      apply (Hsrc i); [unfold KERNBASE; lia|done|lia].
  - intros va Hva Hn. rewrite page_in_snoc in Hn by (done || lia). rewrite Hat by done.
    destruct (Z.eqb_spec (va / 4096) (i / 4096)); [tauto|].
    apply (ci_rest _ _ _ _ _ _ _ HI); tauto.
  - intros q. rewrite (ci_own _ _ _ _ _ _ _ HI). unfold owns. rewrite J6, elem_of_cons, elem_of_app.
    pose proof (copy_maps s0 s s2 p d i l0 (v :: used ++ l2) v e q HI Hi Hal Hat E3 E5) as Hmaps.
    tauto.
  - intros q Hq Hn. eapply same_page_trans; [by apply (ci_frame _ _ _ _ _ _ _ HI)|].
    rewrite (ci_own _ _ _ _ _ _ _ HI) in Hn. unfold owns in Hn.
    apply J7; [done| | | |]; [..|tauto].
    + intros ->. apply Hn. left. lelem.
    + tauto.
    + intros ?. apply Hn. left. lelem.
Qed.

(** What a failed copy leaves: the same pages free, nothing else touched. *)
Definition undone (s0 s : kmem) (l0 : list Z) : Prop :=
  exists l, kmem_ok s l /\ use_lock s = use_lock s0 /\ (forall q, q ∈ l <-> q ∈ l0) /\
    (forall q, q mod 4096 = 0 -> q ∉ l0 -> same_page (ram s0) (ram s) q).

Lemma copy_undo s0 s p d i l0 l :
  copy_inv s0 s p d i l0 l ->
  exists s', freevm d s = Ok (tt, s') /\ undone s0 s' l0.
Proof.
  intros HI. destruct HI as [I1 I2 I3 I4 I5 I6 I7 I8].
  destruct (freevm_spec d s l I1 I2 I3) as (s' & freed & Hrun & Hk & Hl & Hf & Hsm).
  exists s'. split; [done|]. exists (freed ++ l).
  assert (Hq : forall q, q ∈ freed ++ l <-> q ∈ l0).
  { intros q. rewrite elem_of_app, Hf, I7. tauto. }
  split_and!; [done|by rewrite Hl|done|]. intros q Ha Hn.
  eapply same_page_trans; [by apply I8|]. apply Hsm; [done|]. intros Hin. apply Hn, Hq. lelem.
Qed.

(** A page that could not be mapped goes back to the free list. *)
Lemma copy_inv_kfree s0 s s1 s2 m1 p d i l0 v :
  copy_inv s0 s p d i l0 [v] -> ram s1 = ram s -> use_lock s1 = use_lock s ->
  installed s1 s2 m1 d v [] [] -> (forall va, pte_at (ram s2) d va = pte_at (ram s) d va) ->
  exists s3, kfree v s2 = Ok (tt, s3) /\ copy_inv s0 s3 p d i l0 [v].
Proof.
  intros HI Hram Hlk [J1 J2 J3 J4 J5 J6 J7] Hpte. rewrite Hram in J6, J7.
  pose proof HI as [I1 I2 I3 I4 I5 I6 I7 I8].
  pose proof (ko_pages _ _ I1) as [Hv _]%Forall_cons.
  destruct (free_is_fresh (ram s) [v] d v I2 I3 Hv ltac:(lelem)) as (_ & Hvd & Hvt & Hvm).
  assert (Htab : forall q, is_table (ram s2) d q <-> is_table (ram s) d q).
  { intros q. rewrite J6, elem_of_nil. tauto. }
  destruct (kfree_frame d v s2 []) as (s3 & Hf & Hk3 & Hd3 & Hl3 & Hsd & Hp3 & Hsame); try done.
  { lelem. } { by rewrite Htab. }
  assert (Hp : forall va, pte_at (ram s3) d va = pte_at (ram s) d va).
  { intros va. by rewrite Hp3, Hpte. }
  assert (Htab3 : forall q, is_table (ram s3) d q <-> is_table (ram s) d q).
  { intros q. rewrite <-Htab. by apply pgdir_same_tables. }
  assert (Hsm : forall q, q mod 4096 = 0 -> q <> v -> q <> d -> ~ is_table (ram s) d q ->
    same_page (ram s) (ram s3) q).
  { intros q Ha Hne Hqd Hqt. eapply same_page_trans; [apply J7; try done; lelem|by apply Hsame]. }
  exists s3. split; [done|]. split; try done.
  - apply (user_ok_mono (ram s) _ [v]); try done. intros q Hq. left. by apply Htab3.
  - by rewrite Hl3, J4, Hlk.
  - intros va Hva Hin. destruct (I5 va Hva Hin) as (H1 & H2 & H3). unfold mapped, upage in *.
    rewrite Hp. split_and!; try done. intros k Hk. rewrite <-H3 by done.
    destruct (uo_page _ _ _ I3 va Hva H1) as (K1 & K2 & K3 & K4). unfold upage in *.
    apply (Hsm (P2V (PTE_ADDR (pte_at (ram s) d va)))); [by apply page_ok_aligned|lelem|done|done|lia].
  - intros va Hva Hn. rewrite Hp. by apply I6.
  - intros q. rewrite I7. unfold owns, mapped, upage. rewrite Htab3. by setoid_rewrite Hp.
  - intros q Ha Hn. eapply same_page_trans; [by apply I8|]. rewrite I7 in Hn. unfold owns in Hn.
    apply Hsm; [done| |tauto|tauto]. intros ->. apply Hn. left. lelem.
Qed.

Lemma copy_inv_end s0 s p d i sz l0 l :
  copy_inv s0 s p d i l0 l -> i mod 4096 = 0 -> sz <= i -> (i = 0 \/ i < sz + 4096) -> 0 <= sz ->
  copy_inv s0 s p d sz l0 l.
Proof.
  intros [I1 I2 I3 I4 I5 I6 I7 I8] Hal Hz Hor H0.
  assert (Hiff : forall va, page_in 0 sz va <-> page_in 0 i va).
  { intros va. unfold page_in. Z.div_mod_to_equations. lia. }
  split; try done.
  - intros va Hva Hin%Hiff. by apply I5.
  - intros va Hva Hn. apply I6; [done|]. by rewrite <-Hiff.
Qed.

Lemma copyuvm_loop_spec p d sz s0 l0 fuel : forall i s l,
  copy_inv s0 s p d i l0 l -> pgdir_ok (ram s0) l0 p -> user_ok (ram s0) l0 p ->
  i mod 4096 = 0 -> 0 <= i -> 0 <= sz <= KERNBASE -> (i = 0 \/ i < sz + 4096) ->
  (forall va, 0 <= va < KERNBASE -> page_in 0 sz va -> mapped (ram s0) p va) ->
  sz - i <= 4096 * (Z.of_nat fuel - 1) -> (0 < fuel)%nat ->
  exists r s', copyuvm_loop fuel p d i sz s = Ok (r, s') /\
    ((r = d /\ exists l', copy_inv s0 s' p d sz l0 l') \/ (r = 0 /\ undone s0 s' l0)).
Proof.
  induction fuel as [|fuel IH]; intros i s l HI Hd Hu Hal Hi Hsz Hor Hmap Hfuel Hpos; [lia|].
  cbn [copyuvm_loop]. destruct (Z.ltb_spec i sz) as [Hlt|Hge].
  2: { exists d, s. split; [done|]. left. split; [done|]. exists l. eapply copy_inv_end; done || lia. }
  assert (Hik : 0 <= i < KERNBASE) by lia.
  assert (Hmi : mapped (ram s0) p i).
  { apply Hmap; [done|]. unfold page_in. Z.div_mod_to_equations. lia. }
  destruct (copy_inv_source _ _ _ _ _ _ _ HI Hd Hu) as (Hsp & Hpte & _).
  destruct (walk_present p i s l0) as (pte & Hw & Hnz & Hld).
  { unfold mapped. by rewrite Hpte. }
  { apply (pgdir_same_ok (ram s0) _ l0); try done; [apply Hd|].
    by intros q (_ & ? & _)%(po_tab _ _ _ Hd). }
  rewrite (bind_ok _ _ _ _ _ Hw), Hnz. unfold load. rewrite bind_gets, Hld, Hpte, Hmi.
  cbn [negb]. fold (upage (ram s0) p i).
  pose proof (ci_kmem _ _ _ _ _ _ _ HI) as Hk. destruct l as [|v l1].
  - destruct (kalloc_spec s [] Hk) as (s1 & Hrun & Hk1 & Hr & Hl). cbn [hd tl] in *.
    rewrite (bind_ok _ _ _ _ _ Hrun), Z.eqb_refl.
    assert (HI1 : copy_inv s0 s1 p d i l0 []).
    { destruct HI. split; rewrite ?Hr, ?Hl; done. }
    destruct (copy_undo _ _ _ _ _ _ _ HI1) as (s2 & Hf & Hun).
    rewrite (bind_ok _ _ _ _ _ Hf). exists 0, s2. split; [done|]. by right.
  - destruct (kalloc_fresh d s v l1) as (s1 & Hrun & Hr & Hlk & Hk1 & Hd1 & Hu1 & Hf & Hvl & Hv0);
      [apply HI..|].
    rewrite (bind_ok _ _ _ _ _ Hrun), Hv0, bind_modify.
    set (m1 := (memmove (ram s1) v (upage (ram s0) p i) PGSIZE).2).
    destruct (install_page d i (PTE_FLAGS (pte_at (ram s0) p i)) v m1 s1 l1)
      as (r & s2 & used & l2 & Hm & Hll & Hins & Hcase); try done.
    { intros q Hq Hne b Hb. unfold m1, PGSIZE. rewrite memmove_mem by (lia || apply Hk1).
      destruct (pages_disjoint q v Hq (page_ok_aligned _ (proj1 Hf)) Hne);
        rewrite in_range_false by lia; done. }
    { apply mem_ok_memmove; [apply Hk1|done]. }
    { unfold mapped. rewrite Hr, (ci_rest _ _ _ _ _ _ _ HI).
      - by rewrite (rows_entry_below _ KERNBASE); [|apply kmap_rows|lia].
      - unfold KERNBASE in *. lia.
      - unfold page_in. Z.div_mod_to_equations. lia. }
    { rewrite PTE_FLAGS_eq. apply Z.mod_pos_bound. lia. }
    rewrite (bind_ok _ _ _ _ _ Hm). rewrite Hr in Hcase.
    destruct Hcase as [(-> & Hpt)|(-> & -> & Hpt)]; cbn match.
    + assert (u32 (i + PGSIZE) = i + 4096) as ->.
      { unfold PGSIZE, KERNBASE in *. apply u32_small. lia. }
      apply (IH _ _ l2); try done; try lia; [|Z.div_mod_to_equations; lia].
      by apply (copy_inv_step s0 s s1 s2 p d i l0 v l1 used l2).
    + symmetry in Hll. apply app_eq_nil in Hll as [-> ->].
      destruct (copy_inv_kfree s0 s s1 s2 m1 p d i l0 v) as (s3 & Hkf & HI3); try done.
      change (-1 <? 0) with true. cbn match. rewrite (bind_ok _ _ _ _ _ Hkf).
      destruct (copy_undo _ _ _ _ _ _ _ HI3) as (s4 & Hfv & Hun).
      rewrite (bind_ok _ _ _ _ _ Hfv). exists 0, s4. split; [done|]. by right.
Qed.

Lemma copyuvm_spec p sz s l :
  kmem_ok s l -> pgdir_ok (ram s) l p -> user_ok (ram s) l p -> 0 <= sz <= KERNBASE ->
  (forall va, 0 <= va < KERNBASE -> page_in 0 sz va -> mapped (ram s) p va) ->
  exists r s', copyuvm p sz s = Ok (r, s') /\
    ((r <> 0 /\ r ∈ l /\ exists l', copy_inv s s' p r sz l l') \/ (r = 0 /\ undone s s' l)).
Proof.
  intros Hk Hd Hu Hsz Hmap. unfold copyuvm.
  destruct (setupkvm_spec s l Hk) as (d & s1 & Hrun & Hl & Hres). rewrite (bind_ok _ _ _ _ _ Hrun).
  destruct Hres as [(-> & l' & Hk' & Hq & Hfr)|(used & l' & Hll & Hk' & Hd' & Ht & Hp & Hfr)].
  { exists 0, s1. split; [done|]. right. split; [done|]. by exists l'. }
  rewrite (hd_page_nonzero l d (used ++ l') (ko_pages _ _ Hk) Hll).
  destruct (copyuvm_loop_spec p d sz s l (S (Z.to_nat (sz / PGSIZE + 1))) 0 s1 l') as (r & s2 & Hrun2 & Hres);
    try done; try (left; done); unfold PGSIZE; try (Z.div_mod_to_equations; lia).
  { by apply (copy_inv_start s s1 p d l used l'). }
  exists r, s2. split; [done|]. destruct Hres as [(-> & Hc)|?]; [left|by right].
  split_and!; [|rewrite Hll; lelem|done].
  pose proof (hd_page_nonzero l d (used ++ l') (ko_pages _ _ Hk) Hll). lia.
Qed.

(** ** copyout *)
Lemma wr_bytes_mem bs : forall m a b,
  rdb (wr_bytes m a bs) b =
    if (a <=? b) && (b <? a + Z.of_nat (length bs)) then u8 (bs !!! Z.to_nat (b - a)) else rdb m b.
Proof.
  induction bs as [|x bs IH]; intros m a b; cbn [wr_bytes length].
  - by rewrite in_range_false by lia.
  - rewrite IH, rdb_wrb. destruct (decide (b = a)) as [->|Hne].
    + rewrite in_range_false, in_range_true by lia. replace (a - a) with 0 by lia. by zcases.
    + destruct (decide (a <= b < a + Z.of_nat (S (length bs)))).
      * rewrite !in_range_true by lia.
        replace (Z.to_nat (b - a)) with (S (Z.to_nat (b - (a + 1)))) by lia. done.
      * rewrite !in_range_false by lia. by zcases.
Qed.

Lemma mem_ok_wr_bytes bs : forall m a, mem_ok m -> mem_ok (wr_bytes m a bs).
Proof. induction bs as [|x bs IH]; intros m a H; [done|]. by apply IH, mem_ok_wrb. Qed.

(** The byte a user program reads at [va]. *)
Definition uread (m : mem) (pgdir va : Z) : Z := rdb m (upage m pgdir va + va mod 4096).
Definition writable (m : mem) (pgdir va : Z) : Prop :=
  mapped m pgdir va /\ truthy (Z.land (pte_at m pgdir va) PTE_U) = true.

(** Bytes stored into one user page. *)
Lemma user_write pgdir va bs s l :
  kmem_ok s l -> pgdir_ok (ram s) l pgdir -> user_ok (ram s) l pgdir ->
  0 <= va < KERNBASE -> mapped (ram s) pgdir va -> va mod 4096 + Z.of_nat (length bs) <= 4096 ->
  let s' := lset ramL (wr_bytes (ram s) (upage (ram s) pgdir va + va mod 4096) bs) s in
  kmem_ok s' l /\ pgdir_ok (ram s') l pgdir /\ user_ok (ram s') l pgdir /\
  (forall va', pte_at (ram s') pgdir va' = pte_at (ram s) pgdir va') /\
  (forall va', 0 <= va' < KERNBASE -> mapped (ram s) pgdir va' -> uread (ram s') pgdir va' =
     if (va <=? va') && (va' <? va + Z.of_nat (length bs)) then u8 (bs !!! Z.to_nat (va' - va))
     else uread (ram s) pgdir va').
Proof.
  intros Hk Hd Hu Hva Hm Hlen s'. destruct (uo_page _ _ _ Hu va Hva Hm) as (Hq & Hql & Hqd & Hqt).
  set (q := upage (ram s) pgdir va) in *. pose proof (Z.mod_pos_bound va 4096 ltac:(lia)) as Hmod.
  pose proof (page_ok_aligned q Hq) as Hqa.
  assert (Hsame : forall p, p mod 4096 = 0 -> p <> q -> same_page (ram s) (ram s') p).
  { intros p Hp Hne b Hb. simpl. rewrite wr_bytes_mem.
    destruct (pages_disjoint p q Hp Hqa Hne); rewrite in_range_false by lia; done. }
  assert (Hsd : same_page (ram s) (ram s') pgdir).
  { apply Hsame; [apply page_ok_aligned, Hd|done]. }
  assert (Hpte : forall va', pte_at (ram s') pgdir va' = pte_at (ram s) pgdir va').
  { intros va'. apply pgdir_same_pte; [done|]. intros t Ht.
    apply Hsame; [by apply page_ok_aligned, (po_tab _ _ _ Hd)|]. intros ->. done. }
  split_and!; [| | |done|].
  - apply kmem_ok_ram; [done|apply mem_ok_wr_bytes, Hk|]. intros p Hp. apply Hsame; [|intros ->; done].
    pose proof (ko_pages _ _ Hk) as Hps. rewrite Forall_forall in Hps. by apply page_ok_aligned, Hps.
  - apply (pgdir_same_ok (ram s) _ l); try done; [apply Hd|].
    by intros t (_ & ? & _)%(po_tab _ _ _ Hd).
  - apply (user_ok_mono (ram s) _ l); try done. intros t Ht. left.
    by apply (pgdir_same_tables (ram s) (ram s')).
  - intros va' Hva' Hm'. unfold uread, upage. rewrite Hpte.
    fold (upage (ram s) pgdir va'). simpl. rewrite wr_bytes_mem.
    pose proof (Z.mod_pos_bound va' 4096 ltac:(lia)) as Hmod'.
    destruct (decide (va' / 4096 = va / 4096)) as [E|E].
    + assert (upage (ram s) pgdir va' = q) as ->.
      { unfold q, upage. do 2 f_equal. apply pte_at_page. unfold KERNBASE in *. by rewrite !u32_small by lia. }
      assert (Hd' : va' mod 4096 - va mod 4096 = va' - va) by (Z.div_mod_to_equations; lia).
      destruct (decide (va <= va' < va + Z.of_nat (length bs))).
      * rewrite !in_range_true by lia. do 2 f_equal. lia.
      * rewrite !in_range_false by lia. done.
    + assert (Hne : upage (ram s) pgdir va' <> q) by (intros Eq; by apply (uo_inj _ _ _ Hu) in Eq).
      destruct (uo_page _ _ _ Hu va' Hva' Hm') as (Hq' & _).
      destruct (pages_disjoint _ q (page_ok_aligned _ Hq') Hqa Hne);
        rewrite !in_range_false by (Z.div_mod_to_equations; lia); done.
Qed.

Lemma uva2ka_writable pgdir va s l :
  pgdir_ok (ram s) l pgdir -> writable (ram s) pgdir va ->
  uva2ka pgdir va s = Ok (upage (ram s) pgdir va, s).
Proof.
  intros Hd [Hm Hw]. destruct (walk_present pgdir va s l Hm Hd) as (pte & Hrun & Hnz & Hld).
  unfold uva2ka. rewrite (bind_ok _ _ _ _ _ Hrun), Hnz. unfold load. rewrite bind_gets, Hld.
  rewrite Hm, Hw. done.
Qed.

Lemma copyout_loop_spec pgdir fuel : forall va buf s l,
  kmem_ok s l -> pgdir_ok (ram s) l pgdir -> user_ok (ram s) l pgdir ->
  0 <= va -> va + Z.of_nat (length buf) <= KERNBASE -> (length buf <= fuel)%nat ->
  (forall a, va <= a < va + Z.of_nat (length buf) -> writable (ram s) pgdir a) ->
  exists s', copyout_loop fuel pgdir va buf s = Ok (0, s') /\
    kmem_ok s' l /\ pgdir_ok (ram s') l pgdir /\ user_ok (ram s') l pgdir /\
    (forall a, pte_at (ram s') pgdir a = pte_at (ram s) pgdir a) /\
    (forall a, 0 <= a < KERNBASE -> mapped (ram s) pgdir a -> uread (ram s') pgdir a =
       if (va <=? a) && (a <? va + Z.of_nat (length buf)) then u8 (buf !!! Z.to_nat (a - va))
       else uread (ram s) pgdir a).
Proof.
  induction fuel as [|fuel IH]; intros va buf s l Hk Hd Hu Hva Hend Hfuel Hw;
    (destruct buf as [|x buf]; [exists s; split_and!; try done; intros a _ _; simpl; by rewrite in_range_false by lia|]);
    [simpl in Hfuel; lia|].
  set (b := x :: buf) in *.
  assert (Hlb : 0 < Z.of_nat (length b)) by (simpl; lia). unfold KERNBASE in Hend.
  assert (Hva0 : PGROUNDDOWN va = va - va mod 4096) by (rewrite PGROUNDDOWN_eq, u32_small by lia; done).
  pose proof (Z.mod_pos_bound va 4096 ltac:(lia)) as Hmod.
  set (va0 := va - va mod 4096) in *.
  assert (Hpg : pte_at (ram s) pgdir va0 = pte_at (ram s) pgdir va).
  { apply pte_at_page. unfold va0. rewrite !u32_small; Z.div_mod_to_equations; lia. }
  destruct (Hw va) as [Hm Hwb]; [lia|].
  assert (Hw0 : writable (ram s) pgdir va0) by (unfold writable, mapped; by rewrite Hpg).
  assert (Hup : upage (ram s) pgdir va0 = upage (ram s) pgdir va) by (unfold upage; by rewrite Hpg).
  destruct (uo_page _ _ _ Hu va ltac:(unfold KERNBASE; lia) Hm) as (Hq & _).
  pose proof (page_ok_nonzero _ 0 Hq ltac:(lia)) as Hnz. rewrite Z.mul_0_r, Z.add_0_r in Hnz.
  set (n := Z.min (Z.of_nat (length b)) (4096 - va mod 4096)).
  assert (Hrun : copyout_loop (S fuel) pgdir va b s =
    copyout_loop fuel pgdir (u32 (va0 + PGSIZE)) (drop (Z.to_nat n) b)
      (lset ramL (wr_bytes (ram s) (upage (ram s) pgdir va + va mod 4096) (take (Z.to_nat n) b)) s)).
  { cbn [copyout_loop]. unfold b at 1. rewrite Hva0.
    rewrite (bind_ok _ _ _ _ _ (uva2ka_writable pgdir va0 s l Hd Hw0)), Hup, Hnz.
    unfold store_bytes. rewrite bind_modify. replace (va - va0) with (va mod 4096) by (unfold va0; lia).
    rewrite (u32_small (PGSIZE - va mod 4096)) by (unfold PGSIZE; lia).
    assert ((if Z.of_nat (length b) <? PGSIZE - va mod 4096 then Z.of_nat (length b)
             else PGSIZE - va mod 4096) = n) as ->; [|done].
    unfold n, PGSIZE. zcases; lia. }
  rewrite Hrun. clear Hrun.
  assert (Hlt : Z.of_nat (length (take (Z.to_nat n) b)) = n) by (rewrite length_take; lia).
  destruct (user_write pgdir va (take (Z.to_nat n) b) s l) as (Hk1 & Hd1 & Hu1 & Hp1 & Hr1);
    try done; try lia; [unfold KERNBASE; lia|].
  set (s1 := lset ramL _ s) in *. rewrite Hlt in Hr1.
  destruct (decide (n = Z.of_nat (length b))) as [En|En].
  - rewrite drop_ge by lia. exists s1. split; [by destruct fuel|]. split_and!; try done.
    intros a Ha Hma. rewrite Hr1, En by done. rewrite take_ge by lia. done.
  - assert (En' : n = 4096 - va mod 4096) by lia.
    assert (Hnext : u32 (va0 + PGSIZE) = va + n) by (rewrite u32_small; unfold va0, PGSIZE; lia).
    rewrite Hnext. assert (Hld : Z.of_nat (length (drop (Z.to_nat n) b)) = Z.of_nat (length b) - n)
      by (rewrite length_drop; lia).
    destruct (IH (va + n) (drop (Z.to_nat n) b) s1 l) as (s2 & Hrun & K1 & K2 & K3 & K4 & K5);
      try done; try lia.
    { unfold KERNBASE. lia. }
    { intros a Ha. unfold writable, mapped. rewrite Hp1. apply Hw. lia. }
    exists s2. split_and!; try done; [by intros a; rewrite K4, Hp1|].
    intros a Ha Hma. rewrite K5 by (done || (unfold mapped; by rewrite Hp1)). rewrite Hr1, Hld by done.
    destruct (decide (va + n <= a < va + Z.of_nat (length b))).
    + rewrite !in_range_true by lia. rewrite lookup_total_drop. do 2 f_equal. lia.
    + rewrite in_range_false by lia. destruct (decide (va <= a < va + n)).
      * rewrite !in_range_true by lia. rewrite lookup_total_take_lt by lia. done.
      * by rewrite !in_range_false by lia.
Qed.

(** ** The properties *)

(** [mappages] on unmapped pages either installs the whole range, so that
    every address of [va .. va+size) translates to the corresponding physical
    address with the permissions asked for, or returns -1 with the free list
    exhausted; in both cases the translation of every other page is unchanged,
    and the tables it adds come from the free list. *)
Theorem mappages_maps_range pgdir va size pa perm s l :
  kmem_ok s l -> pgdir_ok (ram s) l pgdir ->
  va mod 4096 = 0 -> 0 <= va -> 0 < size -> va + size <= 4294967296 ->
  pa mod 4096 = 0 -> 0 <= pa -> pa + size <= 4294967296 -> 0 <= perm < 4096 ->
  (forall a, va <= a < va + size -> ~ mapped (ram s) pgdir a) ->
  exists r s' used l',
    mappages pgdir va size pa perm s = Ok (r, s') /\
    l = used ++ l' /\ kmem_ok s' l' /\ pgdir_ok (ram s') l' pgdir /\
    (forall a, 0 <= a < 4294967296 -> a / 4096 < va / 4096 \/ (va + size - 1) / 4096 < a / 4096 ->
       translate (ram s') pgdir a = translate (ram s) pgdir a) /\
    ((r = 0 /\ forall a, va <= a < va + size ->
        translate (ram s') pgdir a = Some (pa + (a - va)) /\
        PTE_FLAGS (pte_at (ram s') pgdir a) = Z.lor perm PTE_P) \/
     (r = -1 /\ l' = [])).
Proof.
  intros Hk Hd Hal Hva Hsz Hend Hpal Hpa Hpend Hperm Hun.
  destruct (mappages_spec pgdir va size pa perm s l)
    as (r & s' & used & l' & Hrun & Hl & Hg & Hout & Hres); try done; try lia.
  { intros k Hkk. apply not_true_iff_false. apply Hun. Z.div_mod_to_equations. lia. }
  exists r, s', used, l'. split; [done|]. split; [done|]. split; [apply Hg|]. split; [apply Hg|].
  split.
  - intros a Ha Hn. unfold translate. rewrite Hout by (rewrite u32_small by done; done). done.
  - destruct Hres as [[-> Hin]|?]; [left|by right]. split; [done|]. intros a Ha.
    set (k := a / 4096 - va / 4096).
    assert (Hpg : pte_at (ram s') pgdir a = pte_at (ram s') pgdir (va / 4096 * 4096 + 4096 * k)).
    { apply pte_at_page. unfold k. rewrite !u32_small by (Z.div_mod_to_equations; lia).
      Z.div_mod_to_equations. lia. }
    unfold translate. rewrite Hpg, Hin by (unfold k; Z.div_mod_to_equations; lia).
    rewrite (u32_small (pa + 4096 * k)) by (unfold k; Z.div_mod_to_equations; lia).
    destruct (pte_value (pa + 4096 * k) perm) as (-> & -> & -> & ->);
      [unfold k; Z.div_mod_to_equations; lia|unfold k; Z.div_mod_to_equations; lia|done|].
    split; [|done]. f_equal. rewrite u32_small by lia. unfold k. Z.div_mod_to_equations. lia.
Qed.

(** C29: deallocuvm from [oldsz] down to [newsz] unmaps exactly the pages that
    start in [PGROUNDUP newsz .. oldsz), puts exactly the pages that were mapped
    there on the free list, and leaves every other entry, table and page as it
    was; it never panics on a well formed address space. *)
Theorem deallocuvm_frees_exactly pgdir oldsz newsz s l :
  kmem_ok s l -> pgdir_ok (ram s) l pgdir -> user_ok (ram s) l pgdir ->
  0 <= newsz <= oldsz -> oldsz <= KERNBASE ->
  exists s' freed, deallocuvm pgdir oldsz newsz s = Ok (newsz, s') /\
    dealloc_res s s' pgdir (PGROUNDUP newsz) oldsz freed l.
Proof. apply deallocuvm_spec. Qed.

(** C23: allocuvm grows an address space completely or not at all.  On success
    every page of the new range is mapped writable for the user to a zeroed
    page taken from the free list, and user pages stay separate.  On failure
    it returns 0, the range is unmapped again, every other entry is as before,
    and each page that was free is free again or holds a page table. *)
Theorem allocuvm_all_or_nothing pgdir oldsz newsz s l :
  kmem_ok s l -> pgdir_ok (ram s) l pgdir -> user_ok (ram s) l pgdir ->
  0 <= oldsz <= newsz -> newsz < KERNBASE ->
  (forall va, 0 <= va < 4294967296 -> page_in (PGROUNDUP oldsz) newsz va ->
     ~ mapped (ram s) pgdir va) ->
  exists r s' l', allocuvm pgdir oldsz newsz s = Ok (r, s') /\
    ((r = newsz /\ alloc_inv s s' pgdir (PGROUNDUP oldsz) newsz l l' []) \/
     (r = 0 /\ rolled_back s s' pgdir (PGROUNDUP oldsz) newsz l l' [])).
Proof.
  intros Hk Hd Hu Hold Hnew Hun. unfold allocuvm. unfold KERNBASE in Hnew.
  assert (Hup : PGROUNDUP oldsz = (oldsz + 4095) / 4096 * 4096) by (apply PGROUNDUP_eq; lia).
  destruct (Z.leb_spec KERNBASE newsz) as [H|_]; [unfold KERNBASE in H; lia|].
  destruct (Z.ltb_spec newsz oldsz); [lia|].
  apply (allocuvm_loop_spec pgdir oldsz newsz s l (PGROUNDUP oldsz) _ _ s l); try done; try lia.
  - by apply alloc_inv_start.
  - rewrite Hup. Z.div_mod_to_equations. lia.
  - unfold PGSIZE. rewrite Hup. Z.div_mod_to_equations. lia.
Qed.

(** C30: freevm returns the whole address space: afterwards the free list holds
    what it held, each page mapped below KERNBASE, each page table and the
    directory, each of them once; other pages keep their contents. *)
Theorem freevm_returns_every_page pgdir s l :
  kmem_ok s l -> pgdir_ok (ram s) l pgdir -> user_ok (ram s) l pgdir ->
  exists s' freed, freevm pgdir s = Ok (tt, s') /\ kmem_ok s' (freed ++ l) /\
    use_lock s' = use_lock s /\ (forall q, q ∈ freed <-> owns (ram s) pgdir q) /\
    (forall q, q mod 4096 = 0 -> q ∉ freed -> same_page (ram s) (ram s') q).
Proof. apply freevm_spec. Qed.

(** setupkvm either returns a directory whose entries are exactly the rows
    of kmap (no user page mapped), built from pages of the free list, or
    returns 0 having put every page back. *)
Theorem setupkvm_maps_kernel s l :
  kmem_ok s l ->
  exists r s', setupkvm s = Ok (r, s') /\ use_lock s' = use_lock s /\
    ((r = 0 /\ exists l', kmem_ok s' l' /\ (forall q, q ∈ l' <-> q ∈ l) /\
        (forall q, q mod 4096 = 0 -> q ∉ l -> same_page (ram s) (ram s') q)) \/
     (exists used l', l = r :: used ++ l' /\ kmem_ok s' l' /\ pgdir_ok (ram s') l' r /\
        (forall q, is_table (ram s') r q <-> q ∈ used) /\
        (forall va, 0 <= va < 4294967296 -> pte_at (ram s') r va = rows_entry kmap va) /\
        (forall q, q mod 4096 = 0 -> q ∉ r :: used -> same_page (ram s) (ram s') q))).
Proof. apply setupkvm_spec. Qed.

(** C2: copyuvm gives the child its own copy of the parent's memory.  On success
    every page of the parent below [sz] is mapped in the child with the same
    flags to a different page with the same bytes; the parent's table and pages
    are untouched, and everything the child uses came from the free list.  On
    failure it returns 0 and every page it took is free again. *)
Theorem copyuvm_isolated_copy p sz s l :
  kmem_ok s l -> pgdir_ok (ram s) l p -> user_ok (ram s) l p -> 0 <= sz <= KERNBASE ->
  (forall va, 0 <= va < KERNBASE -> page_in 0 sz va -> mapped (ram s) p va) ->
  exists r s', copyuvm p sz s = Ok (r, s') /\
    (forall va, pte_at (ram s') p va = pte_at (ram s) p va) /\
    (forall va, 0 <= va < KERNBASE -> mapped (ram s) p va ->
       same_page (ram s) (ram s') (upage (ram s) p va)) /\
    ((r <> 0 /\ r ∈ l /\ (exists l', copy_inv s s' p r sz l l') /\
        forall va va', 0 <= va < KERNBASE -> 0 <= va' < KERNBASE ->
          mapped (ram s') r va -> mapped (ram s) p va' ->
          upage (ram s') r va <> upage (ram s) p va') \/
     (r = 0 /\ undone s s' l)).
Proof.
  intros Hk Hd Hu Hsz Hmap. destruct (copyuvm_spec p sz s l) as (r & s' & Hrun & Hres); try done.
  assert (Hfr : forall q, q mod 4096 = 0 -> q ∉ l -> same_page (ram s) (ram s') q).
  { destruct Hres as [(_ & _ & l' & HI)|(_ & l' & _ & _ & _ & H)]; [apply HI|done]. }
  exists r, s'. split; [done|]. split_and!.
  - intros va. apply pgdir_same_pte.
    + apply Hfr; [apply page_ok_aligned, Hd|apply Hd].
    + intros q (Hq & Hl & _)%(po_tab _ _ _ Hd). apply Hfr; [by apply page_ok_aligned|done].
  - intros va Hva Hm. destruct (uo_page _ _ _ Hu va Hva Hm) as (Hq & Hl & _).
    apply Hfr; [by apply page_ok_aligned|done].
  - destruct Hres as [(Hr & Hin & l' & HI)|?]; [left|by right]. split_and!; [done|done|by exists l'|].
    intros va va' Hva Hva' Hm Hm' E. destruct (uo_page _ _ _ Hu va' Hva' Hm') as (_ & Hl & _).
    apply Hl. rewrite <-E. apply (ci_own _ _ _ _ _ _ _ HI). right. left. by exists va.
Qed.

(** Copyout to writable user memory returns 0; afterwards the user reads the
    buffer's bytes at [va .. va+len), across page boundaries, reads what it read
    before everywhere else, and the page table is unchanged. *)
Theorem copyout_writes_user_bytes pgdir va buf s l :
  kmem_ok s l -> pgdir_ok (ram s) l pgdir -> user_ok (ram s) l pgdir ->
  0 <= va -> va + Z.of_nat (length buf) <= KERNBASE ->
  (forall a, va <= a < va + Z.of_nat (length buf) -> writable (ram s) pgdir a) ->
  exists s', copyout pgdir va buf s = Ok (0, s') /\
    kmem_ok s' l /\ pgdir_ok (ram s') l pgdir /\ user_ok (ram s') l pgdir /\
    (forall a, pte_at (ram s') pgdir a = pte_at (ram s) pgdir a) /\
    (forall a, 0 <= a < KERNBASE -> mapped (ram s) pgdir a -> uread (ram s') pgdir a =
       if (va <=? a) && (a <? va + Z.of_nat (length buf)) then u8 (buf !!! Z.to_nat (a - va))
       else uread (ram s) pgdir a).
Proof. intros. unfold copyout. by apply copyout_loop_spec. Qed.
End VmProps.

(** ** Concrete instances: an empty directory and three free pages *)
Definition ex_vm : kmem :=
  Kmem false true 0x80401000
    (wrw (wrw (wrw ∅ 0x80401000 0x80402000) 0x80402000 0x80403000) 0x80403000 0).
Definition ex_pgdir : Z := 0x80400000.
Abbreviation ex_free := [0x80401000; 0x80402000; 0x80403000].
#[local] Existing Instance example_layout.

Lemma ex_vm_ok : kmem_ok ex_vm ex_free.
Proof.
  split; [vm_compute; by split_and!| | |done|].
  - repeat constructor; simpl; unfold KERNBASE, PHYSTOP; lia.
  - apply (bool_decide_unpack _). reflexivity.
  - simpl. by apply mem_ok_wrw, mem_ok_wrw, mem_ok_wrw, mem_ok_empty.
Defined.

Lemma ex_dir_ok : pgdir_ok (ram ex_vm) ex_free ex_pgdir /\ (forall va, pte_at (ram ex_vm) ex_pgdir va = 0).
Proof.
  destruct (pgdir_zero (ram ex_vm) ex_free ex_pgdir) as (H1 & _ & H3); [| | |by split].
  - repeat split; simpl; unfold ex_pgdir, KERNBASE, PHYSTOP; lia.
  - apply (bool_decide_unpack _). reflexivity.
  - intros b Hb. unfold ex_vm, ex_pgdir in *. simpl. rewrite !rdb_wrw, !in_range_false by lia. done.
Defined.

Lemma ex_user_ok : user_ok (ram ex_vm) ex_free ex_pgdir.
Proof. apply user_ok_none. intros va _. apply ex_dir_ok. Defined.

Lemma ex_unmapped va : ~ mapped (ram ex_vm) ex_pgdir va.
Proof. unfold mapped. by rewrite (proj2 ex_dir_ok). Defined.

(** The state after growing it to one page. *)
Lemma ex_grown : exists s1 l1,
  allocuvm ex_pgdir 0 4096 ex_vm = Ok (4096, s1) /\
  alloc_inv ex_vm s1 ex_pgdir 0 4096 ex_free l1 [].
Proof.
  destruct (allocuvm_loop_spec ex_pgdir 0 4096 ex_vm ex_free 0 3 0 ex_vm ex_free
    (alloc_inv_start _ _ _ _ ex_vm_ok (proj1 ex_dir_ok) ex_user_ok) eq_refl)
    as (r & s1 & l1 & Hrun & Hres);
    [lia|reflexivity|lia|reflexivity|by left|intros va _ _; apply ex_unmapped|lia|lia|].
  exists s1, l1. change (allocuvm ex_pgdir 0 4096 ex_vm) with (allocuvm_loop 3 ex_pgdir 0 0 4096 ex_vm).
  assert (Hok : match allocuvm_loop 3 ex_pgdir 0 0 4096 ex_vm with Ok (r, _) => r =? 4096 | _ => false end = true)
    by (vm_compute; reflexivity).
  rewrite Hrun in Hok |- *. apply Z.eqb_eq in Hok. subst r.
  destruct Hres as [[_ H]|[H _]]; [|discriminate H]. split; [reflexivity|exact H].
Qed.

Lemma mappages_maps_range_witness :
  exists r s', mappages ex_pgdir 0x1000 8192 0x5000 6 ex_vm = Ok (r, s').
Proof.
  destruct (mappages_maps_range ex_pgdir 0x1000 8192 0x5000 6 ex_vm ex_free ex_vm_ok (proj1 ex_dir_ok))
    as (r & s' & used & l' & H & _); [reflexivity|lia|lia|lia|reflexivity|lia|lia|lia|intros a _; apply ex_unmapped|].
  exists r, s'. exact H.
Defined.

Lemma deallocuvm_frees_exactly_witness :
  exists s1 s2 (freed : list Z), allocuvm ex_pgdir 0 4096 ex_vm = Ok (4096, s1) /\
    deallocuvm ex_pgdir 4096 0 s1 = Ok (0, s2) /\ upage (ram s1) ex_pgdir 0 ∈ freed.
Proof.
  destruct ex_grown as (s1 & l1 & Hrun & [H1 H2 H3 _ H5 _ _ _ _ _ _]).
  destruct (deallocuvm_frees_exactly ex_pgdir 4096 0 s1 l1 H1 H2 H3) as (s2 & freed & H & Hd);
    [lia|unfold KERNBASE; lia|].
  exists s1, s2, freed. split; [exact Hrun|]. split; [exact H|]. apply (dr_freed _ _ _ _ _ _ _ Hd).
  exists 0. split; [lia|]. split; [unfold page_in; change (PGROUNDUP 0) with 0; change (0 / 4096) with 0; lia|].
  split; [|reflexivity]. apply (H5 0); [unfold KERNBASE; lia|unfold page_in; change (0 / 4096) with 0; lia].
Defined.

Lemma allocuvm_all_or_nothing_witness :
  exists r s', allocuvm ex_pgdir 0 0x10000 ex_vm = Ok (r, s') /\ (r = 0x10000 \/ r = 0).
Proof.
  destruct (allocuvm_all_or_nothing ex_pgdir 0 0x10000 ex_vm ex_free ex_vm_ok (proj1 ex_dir_ok) ex_user_ok)
    as (r & s' & l' & H & Hres); [lia|unfold KERNBASE; lia|intros va _ _; apply ex_unmapped|].
  exists r, s'. split; [exact H|]. destruct Hres as [[E _]|[E _]]; [left|right]; exact E.
Defined.

Lemma freevm_returns_every_page_witness :
  exists s1 s2 (freed : list Z), allocuvm ex_pgdir 0 4096 ex_vm = Ok (4096, s1) /\
    freevm ex_pgdir s1 = Ok (tt, s2) /\ ex_pgdir ∈ freed.
Proof.
  destruct ex_grown as (s1 & l1 & Hrun & [H1 H2 H3 _ _ _ _ _ _ _ _]).
  destruct (freevm_returns_every_page ex_pgdir s1 l1 H1 H2 H3) as (s2 & freed & H & _ & _ & Hf & _).
  exists s1, s2, freed. split; [exact Hrun|]. split; [exact H|]. apply Hf. right. right. reflexivity.
Defined.

Lemma setupkvm_maps_kernel_witness : exists r s', setupkvm ex_vm = Ok (r, s').
Proof.
  destruct (setupkvm_maps_kernel ex_vm ex_free ex_vm_ok) as (r & s' & H & _). exists r, s'. exact H.
Defined.

Lemma copyuvm_isolated_copy_witness :
  exists s1 r s2, allocuvm ex_pgdir 0 4096 ex_vm = Ok (4096, s1) /\
    copyuvm ex_pgdir 4096 s1 = Ok (r, s2) /\
    pte_at (ram s2) ex_pgdir 0 = pte_at (ram s1) ex_pgdir 0.
Proof.
  destruct ex_grown as (s1 & l1 & Hrun & [H1 H2 H3 _ H5 _ _ _ _ _ _]).
  destruct (copyuvm_isolated_copy ex_pgdir 4096 s1 l1 H1 H2 H3) as (r & s2 & H & Hp & _);
    [unfold KERNBASE; lia|intros va Hva Hin; apply (H5 va Hva Hin)|].
  exists s1, r, s2. split; [exact Hrun|]. split; [exact H|]. apply Hp.
Defined.

Lemma copyout_writes_user_bytes_witness :
  exists s1 s2, allocuvm ex_pgdir 0 4096 ex_vm = Ok (4096, s1) /\
    copyout ex_pgdir 0x10 [0x68; 0x69] s1 = Ok (0, s2) /\ uread (ram s2) ex_pgdir 0x11 = 0x69.
Proof.
  destruct ex_grown as (s1 & l1 & Hrun & [H1 H2 H3 _ H5 _ _ _ _ _ _]).
  assert (Hin : forall a, 0 <= a < 4096 -> page_in 0 4096 a).
  { intros a Ha. unfold page_in. Z.div_mod_to_equations. lia. }
  assert (Hw : forall a, 0 <= a < 4096 -> writable (ram s1) ex_pgdir a).
  { intros a Ha. destruct (H5 a) as (Hm & Hf & _); [unfold KERNBASE; lia|by apply Hin|].
    split; [exact Hm|]. rewrite PTE_FLAGS_eq in Hf. unfold truthy. apply negb_true_iff, Z.eqb_neq.
    intros E. assert (Hb : Z.testbit (u32 (pte_at (ram s1) ex_pgdir a) mod 2 ^ 12) 2 = true).
    { change (2 ^ 12) with 4096. rewrite Hf. reflexivity. }
    rewrite Z.mod_pow2_bits_low in Hb by lia. unfold u32 in Hb. change 4294967296 with (2 ^ 32) in Hb.
    rewrite Z.mod_pow2_bits_low in Hb by lia.
    assert (Hz : Z.testbit (Z.land (pte_at (ram s1) ex_pgdir a) PTE_U) 2 = false)
      by (rewrite E; apply Z.testbit_0_l).
    rewrite Z.land_spec, Hb in Hz. discriminate. }
  destruct (copyout_writes_user_bytes ex_pgdir 0x10 [0x68; 0x69] s1 l1 H1 H2 H3)
    as (s2 & H & _ & _ & _ & _ & Hr); [lia|unfold KERNBASE; simpl; lia|intros a Ha; apply Hw; simpl in Ha; lia|].
  exists s1, s2. split; [exact Hrun|]. split; [exact H|].
  rewrite Hr; [reflexivity|unfold KERNBASE; lia|apply (Hw 0x11); lia].
Defined.
