(* ===== verification/KvmRoom.v ===== *)
(** * How much memory the kernel's page table needs

    setupkvm takes pages for a directory and for the tables of the addresses in
    kmap, which lie in 64 of the 1024 parts of the address space: with 66 pages
    free it cannot fail. *)
From S2P Require Import Prelude CString Layout Spinlock Kalloc Vm VmProps.

Open Scope Z_scope.

Section Room.
Context `{L : !Layout}.

Lemma walk_index d va s l r s' : kmem_ok s l -> pgdir_ok (ram s) l d -> walkpgdir d va true s = Ok (r, s') ->
  forall j, has_table (ram s') d j -> has_table (ram s) d j \/ j = PDX va.
Proof.
  intros Hk Hd. unfold walkpgdir, mbind at 1, M_bind at 1, load, gets. fold (pde_at (ram s) d (PDX va)).
  destruct (pte_present (pde_at (ram s) d (PDX va))) eqn:E; cbn [negb].
  - intros [= <- <-] j Hj. by left.
  - destruct (kalloc_spec s l Hk) as (s1 & Hal & Hk1 & Hr1 & _). unfold mbind at 1, M_bind at 1. rewrite Hal.
    destruct l as [|p l]; cbn [hd tl] in *; [intros [= <- <-] j Hj; left; by rewrite <-Hr1|].
    pose proof (ko_pages _ _ Hk) as Hps. apply Forall_cons in Hps as [Hp _].
    pose proof (page_ok_nonzero p 0 Hp ltac:(lia)) as Hnz. rewrite Z.mul_0_r, Z.add_0_r in Hnz. rewrite Hnz.
    intros [= <- <-] j Hj. cbn in Hj. rewrite Hr1 in Hj. apply (add_table_has _ _ _ _ l Hd (PDX_range va) Hp) in Hj as [->|Hj]; [by right|by left].
Qed.

Lemma map_index d last perm : forall fuel a pa s l r s', kmem_ok s l -> pgdir_ok (ram s) l d ->
  mappages_loop fuel d a last pa perm s = Ok (r, s') ->
  forall j, has_table (ram s') d j -> has_table (ram s) d j \/ exists k, 0 <= k < Z.of_nat fuel /\ j = PDX (u32 (a + 4096 * k)).
Proof.
  induction fuel as [|fuel IH]; intros a pa s l r s' Hk Hd; [done|]. cbn [mappages_loop].
  destruct (walkpgdir_alloc d a s l Hk Hd) as (q & s1 & used & l1 & Hw & _ & Hg & _ & Hres). rewrite (bind_ok _ _ _ _ _ Hw).
  pose proof (walk_index d a s l q s1 Hk Hd Hw) as Hi.
  assert (Ha : PDX a = PDX (u32 (a + 4096 * 0))) by (rewrite Z.add_0_r; unfold PDX, u32; by rewrite Z.mod_mod).
  destruct Hres as [(-> & _)|(Hq & Hpr & ->)].
  - intros [= <- <-] j [Hj| ->]%Hi; [by left|]. right. exists 0. lia.
  - rewrite (proj2 (Z.eqb_neq _ _) Hq). unfold load at 1. rewrite bind_gets. destruct (pte_present (rdw _ _)); [done|].
    destruct (store_pte d a (Z.lor (Z.lor pa perm) PTE_P) s1 l1 (vg_kmem _ _ _ _ _ Hg) (vg_pgdir _ _ _ _ _ Hg) Hpr) as (s2 & Hst & Hg2 & _ & _).
    rewrite (bind_ok _ _ _ _ _ Hst).
    assert (Hh : forall j, has_table (ram s2) d j -> has_table (ram s1) d j).
    { injection Hst as <-. intros j. cbn. by rewrite (set_pte_has _ _ _ _ l1 (vg_pgdir _ _ _ _ _ Hg) Hpr). }
    destruct (a =? last); [intros [= <- <-] j [Hj| ->]%Hh%Hi; [by left|right; exists 0; lia]|].
    intros E j Hj. destruct (IH _ _ _ l1 _ _ (vg_kmem _ _ _ _ _ Hg2) (vg_pgdir _ _ _ _ _ Hg2) E j Hj) as [Hj'|(k & Hk1 & ->)].
    + apply Hh, Hi in Hj' as [?| ->]; [by left|right; exists 0; lia].
    + right. exists (k + 1). split; [lia|]. replace (a + 4096 * (k + 1)) with (a + 4096 + 4096 * k) by lia.
      unfold PGSIZE, u32. by rewrite Z.add_mod_idemp_l.
Qed.

(** The parts of the address space that kmap touches. *)
Definition kmap_parts : list Z := seqZ 512 56 ++ seqZ 1016 8.
Lemma row_index d k s l r s' : kmem_ok s l -> pgdir_ok (ram s) l d -> row_ok k ->
  (forall va, virt k <= va < virt k + row_size k -> va / 4194304 ∈ kmap_parts) ->
  mappages d (virt k) (row_size k) (phys_start k) (kperm k) s = Ok (r, s') ->
  forall j, has_table (ram s') d j -> has_table (ram s) d j \/ j ∈ kmap_parts.
Proof.
  intros Hk Hd [[Hv1 Hv2] (Hs1 & Hs2 & Hs3) _ _] Hin Hrun j Hj. unfold mappages, KERNBASE in *.
  assert (Ea : PGROUNDDOWN (virt k) = virt k) by (rewrite PGROUNDDOWN_eq, u32_small by lia; lia).
  assert (El : PGROUNDDOWN (u32 (virt k + row_size k - 1)) = virt k + row_size k - 4096).
  { rewrite PGROUNDDOWN_eq, !(u32_small (virt k + row_size k - 1)) by lia. Z.div_mod_to_equations. lia. }
  rewrite Ea, El in Hrun. destruct (map_index _ _ _ _ _ _ _ _ _ _ Hk Hd Hrun j Hj) as [?|(i & Hi & ->)]; [by left|right].
  rewrite (u32_small (_ - _)) in Hi by (Z.div_mod_to_equations; lia). unfold PGSIZE in Hi. rewrite PDX_eq. unfold u32. rewrite Z.mod_mod by lia.
  rewrite Z.mod_small by (Z.div_mod_to_equations; lia). apply Hin. Z.div_mod_to_equations. lia.
Qed.

(** Distinct tables have distinct parts. *)
Lemma tables_bounded m l d us ps : pgdir_ok m l d -> NoDup us -> (forall q, q ∈ us -> is_table m d q) ->
  (forall j, has_table m d j -> j ∈ ps) -> (length us <= length ps)%nat.
Proof.
  intros Hd Hn Ht Hp. assert (exists ixs, length ixs = length us /\ NoDup ixs /\ (forall i, i ∈ ixs -> has_table m d i /\ table_at m d i ∈ us)) as (ixs & E & N & F).
  { revert Hn Ht. induction us as [|q us IH]; intros Hn Ht; [exists []; split_and!; [done|constructor|]; by intros i ?%elem_of_nil|].
    apply NoDup_cons in Hn as [Hq Hn]. destruct IH as (ixs & E & N & F); [done|intros; apply Ht; lelem|].
    destruct (Ht q ltac:(lelem)) as (i & Hi & Eq). exists (i :: ixs). split_and!; [cbn; lia| |].
    - apply NoDup_cons. split; [|done]. intros Hin. apply F in Hin as [_ Hin]. by rewrite Eq in Hin.
    - intros j [->|Hj]%elem_of_cons; [rewrite Eq; split; [done|lelem]|]. apply F in Hj as [? ?]. split; [done|lelem]. }
  rewrite <-E. apply submseteq_length, NoDup_submseteq; [done|]. intros i Hi. apply Hp. by apply F.
Qed.

Lemma kmap_in_parts k va : k ∈ kmap -> virt k <= va < virt k + row_size k -> va / 4194304 ∈ kmap_parts.
Proof.
  intros Hk Hva. assert (P : (512 <= va / 4194304 < 568) \/ (1016 <= va / 4194304 < 1024) -> va / 4194304 ∈ kmap_parts).
  { intros Hp. unfold kmap_parts. rewrite elem_of_app, !elem_of_seqZ. lia. }
  apply P. pose proof kdata_low as H1. pose proof kdata_kend as H2. pose proof kend_high as H3. unfold KERNLINK, KERNBASE, EXTMEM in *.
  assert (E : V2P kdata = kdata - 2147483648) by (apply u32_small; unfold KERNBASE; lia).
  unfold kmap in Hk. rewrite !elem_of_cons, elem_of_nil in Hk. change (V2P KERNLINK) with 1048576 in Hk.
  destruct Hk as [-> | [-> | [-> | [-> | []]]]].
  - change (row_size _) with 1048576 in Hva. cbn [virt] in Hva. unfold KERNBASE in Hva. Z.div_mod_to_equations. lia.
  - unfold row_size in Hva. cbn [virt phys_start phys_end] in Hva. rewrite E, u32_small in Hva by lia. unfold KERNLINK, KERNBASE, EXTMEM in Hva. Z.div_mod_to_equations. lia.
  - unfold row_size, PHYSTOP in Hva. cbn [virt phys_start phys_end] in Hva. rewrite E, u32_small in Hva by lia. Z.div_mod_to_equations. lia.
  - change (row_size _) with 33554432 in Hva. cbn [virt] in Hva. unfold DEVSPACE in Hva. Z.div_mod_to_equations. lia.
Qed.

Lemma loop_succeeds d ks : forall lo s l us, kmem_ok s l -> pgdir_ok (ram s) l d -> rows_from lo ks -> KERNBASE <= lo ->
  (forall va, 0 <= va < 4294967296 -> lo <= va \/ va < KERNBASE -> pte_at (ram s) d va = 0) ->
  (forall k, k ∈ ks -> k ∈ kmap) -> NoDup (us ++ l) -> (forall q, q ∈ us -> is_table (ram s) d q) -> (forall j, has_table (ram s) d j -> j ∈ kmap_parts) ->
  (65 <= length us + length l)%nat -> exists s', setupkvm_loop d ks s = Ok (d, s') /\ forall j, has_table (ram s') d j -> j ∈ kmap_parts.
Proof.
  induction ks as [|k ks IH]; intros lo s l us Hk Hd Hrows Hlo Hun Hin Hnd Hus Hix Hlen; [by exists s|].
  destruct Hrows as (Hv & Hrow & Hrows). cbn [setupkvm_loop]. fold (row_size k). pose proof (ro_size _ Hrow) as (_ & Hs & _).
  destruct (map_row d k s l Hk Hd Hrow) as (r & s1 & used & l1 & Hrun & Hl & Hg & Hout & Hres).
  { intros va Hva Hr. apply Hun; [done|]. unfold in_row in Hr. lia. }
  assert (Hix1 : forall j, has_table (ram s1) d j -> j ∈ kmap_parts).
  { intros j Hj. destruct (row_index d k s l r s1 Hk Hd Hrow) with (j := j) as [?|?]; [|done|done|by apply Hix|done].
    intros va. apply kmap_in_parts, Hin. lelem. }
  assert (Hus1 : forall q, q ∈ us ++ used -> is_table (ram s1) d q).
  { intros q [Hq|Hq]%elem_of_app; [by apply (vg_mono _ _ _ _ _ Hg), Hus|by apply (vg_used _ _ _ _ _ Hg)]. }
  rewrite (bind_ok _ _ _ _ _ Hrun). subst l. rewrite app_assoc in Hnd. rewrite length_app in Hlen. destruct Hres as [[-> Hpte]|[-> ->]]; cbn [Z.ltb Z.compare].
  - apply (IH (virt k + row_size k) s1 l1 (us ++ used)); try done; try lia; try apply Hg.
    + intros va Hva Hor. rewrite Hout by (try done; apply in_range_false; lia). apply Hun; [done|lia].
    + intros k' Hk'. apply Hin. lelem.
    + rewrite length_app. lia.
  - exfalso. rewrite app_nil_r in Hnd. pose proof (tables_bounded (ram s1) [] d (us ++ used) kmap_parts (vg_pgdir _ _ _ _ _ Hg) Hnd Hus1 Hix1) as B.
    rewrite length_app in B. change (length kmap_parts) with 64%nat in B. cbn [length] in Hlen. lia.
Qed.

Lemma setupkvm_room s l : kmem_ok s l -> (66 <= length l)%nat ->
  exists d s' used l', setupkvm s = Ok (d, s') /\ use_lock s' = use_lock s /\ l = d :: used ++ l' /\ kmem_ok s' l' /\ pgdir_ok (ram s') l' d /\
    (forall q, is_table (ram s') d q <-> q ∈ used) /\
    (forall va, 0 <= va < 4294967296 -> pte_at (ram s') d va = rows_entry kmap va) /\
    (forall q, q mod 4096 = 0 -> q ∉ d :: used -> same_page (ram s) (ram s') q) /\ (length used <= 64)%nat.
Proof.
  intros Hk Hlen. destruct (setupkvm_spec s l Hk) as (r & s' & Hrun & Hu & Hres).
  assert (Hr : r <> 0 /\ forall j, has_table (ram s') r j -> j ∈ kmap_parts).
  { unfold setupkvm in Hrun. destruct (kalloc_spec s l Hk) as (s1 & Hal & Hk1 & Hr1 & _). rewrite (bind_ok _ _ _ _ _ Hal) in Hrun.
    destruct l as [|d l]; [cbn in Hlen; lia|]. cbn [hd tl length] in *. pose proof (ko_pages _ _ Hk) as Hps.
    rewrite (hd_page_nonzero (d :: l) d l Hps eq_refl) in Hrun. apply Forall_cons in Hps as [Hd _]. pose proof (ko_nodup _ _ Hk) as Hn. apply NoDup_cons in Hn as [Hdl Hn].
    unfold kmemset in Hrun. rewrite bind_modify in Hrun. change (DEVSPACE <? P2V PHYSTOP) with false in Hrun. cbn match in Hrun.
    set (m1 := (memset (ram s1) d 0 PGSIZE).2) in *. set (s2 := lset ramL m1 s1) in *.
    assert (Hz : zeroed m1 d) by (intros b Hb; unfold m1, PGSIZE; rewrite memset_mem, in_range_true by lia; done).
    destruct (pgdir_zero m1 l d Hd Hdl Hz) as (Hpd & Hnt & Hpte).
    assert (Hk2 : kmem_ok s2 l).
    { apply kmem_ok_ram; [done|by apply mem_ok_memset, Hk1|]. intros q Hq. apply same_page_memset; [|by apply page_ok_aligned|intros ->; done].
      pose proof (ko_pages _ _ Hk1) as Hps. rewrite Forall_forall in Hps. by apply page_ok_aligned, Hps. }
    destruct (loop_succeeds d kmap KERNBASE s2 l [] Hk2 Hpd kmap_rows) as (s3 & E & Hix); try done.
    - by intros q ?%elem_of_nil.
    - intros j Hj. destruct (Hnt (table_at m1 d j)). by exists j.
    - cbn. lia.
    - rewrite E in Hrun. injection Hrun as <- <-. split; [|done]. intros ->. pose proof (page_ok_range 0 Hd). unfold KERNBASE, EXTMEM in *. lia. }
  destruct Hr as [Hr Hix]. destruct Hres as [[? _]|(used & l' & -> & Hk' & Hd' & Ht & Hp & Hf)]; [done|].
  exists r, s', used, l'. split_and!; try done.
  apply (tables_bounded (ram s') l' r used kmap_parts Hd'); [|by intros q Hq; apply Ht|done].
  pose proof (ko_nodup _ _ Hk) as Hn. apply NoDup_cons in Hn as [_ Hn]. by apply NoDup_app in Hn as [Hn _].
Qed.
End Room.
