(* ===== verification/Fp.v ===== *)
(** * Double precision arithmetic

    proc.c computes virtual run times and time slices in [double].  A finite
    binary64 number is an integer multiple of 2^-1074, so a double is modelled
    by that integer; an operation computes the exact rational result and rounds
    it to [prec] significant bits, ties to even.  [prec] is 53 where the compiler
    evaluates in doubles and 64 where it keeps x87 registers; the lemmas hold for
    every precision of at least 53 bits. *)
From S2P Require Import Prelude.

Open Scope Z_scope.

(** The evaluation precision of floating expressions. *)
Class FpEnv := { prec : Z; prec_ok : 53 <= prec }.

Definition fp_double : FpEnv := {| prec := 53; prec_ok := ltac:(lia) |}.
Definition fp_x87 : FpEnv := {| prec := 64; prec_ok := ltac:(lia) |}.

Abbreviation dbl := Z.
Definition dunit : Z := 2 ^ 1074.

(** The integer nearest to [a / b], ties to even. *)
Definition rne (a b : Z) : Z :=
  let q := a / b in
  let r := a mod b in
  if 2 * r <? b then q
  else if b <? 2 * r then q + 1
  else if Z.even q then q else q + 1.

Section Fp.
Context `{FE : !FpEnv}.

(** The rational [a / b], in units of 2^-1074, rounded to [prec] bits. *)
Definition dround_pos (a b : Z) : dbl :=
  let e := Z.max 0 (Z.log2 (a / b) - (prec - 1)) in
  rne a (b * 2 ^ e) * 2 ^ e.
Definition dround (a b : Z) : dbl :=
  if a <? 0 then - dround_pos (- a) b else dround_pos a b.

(** Conversions from integers, the four operations the source uses and the
    comparison. *)
Definition dofZ (z : Z) : dbl := dround (z * dunit) 1.
Definition dadd (x y : dbl) : dbl := dround (x + y) 1.
Definition dsub (x y : dbl) : dbl := dround (x - y) 1.
Definition dmul (x y : dbl) : dbl := dround (x * y) dunit.
Definition ddiv (x y : dbl) : dbl := dround (x * dunit) y.
Definition dgt (x y : dbl) : bool := y <? x.
(** 0.5 *)
Definition dhalf : dbl := 2 ^ 1073.
(** Truncation, as in a cast to an integer type. *)
Definition dtrunc (x : dbl) : Z := Z.quot x dunit.

(** ** Rounding *)
Lemma rne_exact a b : 0 < b -> a mod b = 0 -> rne a b = a / b.
Proof. intros Hb Hm. unfold rne. rewrite Hm. destruct (Z.ltb_spec (2 * 0) b); [done|lia]. Qed.

Lemma rne_error a b : 0 < b -> 2 * Z.abs (rne a b * b - a) <= b.
Proof.
  intros Hb. unfold rne. pose proof (Z.div_mod a b ltac:(lia)). pose proof (Z.mod_pos_bound a b Hb).
  destruct (Z.ltb_spec (2 * (a mod b)) b); [nia|].
  destruct (Z.ltb_spec b (2 * (a mod b))); [nia|]. destruct (Z.even _); nia.
Qed.

(** The error of rounding a number below 2^k. *)
Lemma dround_error a b k : 0 <= a -> 0 < b -> 53 <= k -> a < b * 2 ^ k ->
  2 * Z.abs (dround a b * b - a) <= b * 2 ^ (k - 53).
Proof.
  intros Ha Hb Hk Hlt. unfold dround. destruct (Z.ltb_spec a 0); [lia|]. unfold dround_pos.
  set (e := Z.max 0 (Z.log2 (a / b) - (prec - 1))). pose proof prec_ok as Hp.
  assert (He : 0 <= e <= k - 53).
  { assert (Z.log2 (a / b) < k); [|lia].
    destruct (Z.le_gt_cases (a / b) 0) as [Hz|Hz]; [rewrite Z.log2_nonpos by done; lia|].
    apply Z.log2_lt_pow2; [done|]. apply Z.div_lt_upper_bound; lia. }
  pose proof (Z.pow_pos_nonneg 2 e ltac:(lia) ltac:(lia)) as Hpos.
  pose proof (rne_error a (b * 2 ^ e) ltac:(nia)) as Herr.
  replace (rne a (b * 2 ^ e) * 2 ^ e * b) with (rne a (b * 2 ^ e) * (b * 2 ^ e)) by ring.
  assert (2 ^ e <= 2 ^ (k - 53)) by (apply Z.pow_le_mono_r; lia). nia.
Qed.

(** Numbers of at most [prec] significant bits are not rounded. *)
Lemma dround_exact m t b : 0 <= m < 2 ^ prec -> 0 <= t -> 0 < b ->
  dround (m * 2 ^ t * b) b = m * 2 ^ t.
Proof.
  intros Hm Ht Hb. pose proof (Z.pow_pos_nonneg 2 t ltac:(lia) ltac:(lia)) as Hpt.
  unfold dround. destruct (Z.ltb_spec (m * 2 ^ t * b) 0); [nia|]. unfold dround_pos.
  rewrite Z.div_mul by lia. set (e := Z.max 0 (Z.log2 (m * 2 ^ t) - (prec - 1))).
  assert (He : 0 <= e <= t).
  { unfold e. destruct (decide (m = 0)) as [->|Hne]; [simpl; pose proof prec_ok; lia|].
    rewrite Z.log2_mul_pow2 by lia.
    assert (Z.log2 m < prec) by (apply Z.log2_lt_pow2; lia). lia. }
  assert (Hsplit : 2 ^ t = 2 ^ (t - e) * 2 ^ e) by (rewrite <-Z.pow_add_r by lia; f_equal; lia).
  pose proof (Z.pow_pos_nonneg 2 e ltac:(lia) ltac:(lia)) as Hpe.
  assert (Hdiv : m * 2 ^ t * b = m * 2 ^ (t - e) * (b * 2 ^ e)) by (rewrite Hsplit; ring).
  assert (Hpos : b * 2 ^ e <> 0) by nia.
  rewrite Hdiv, rne_exact by (rewrite ?Z.mod_mul by done; nia). rewrite Z.div_mul by done.
  rewrite Hsplit. symmetry. apply Z.mul_assoc.
Qed.

(** The same for numbers of either sign. *)
Lemma dround_opp a b : a <> 0 -> dround (- a) b = - dround a b.
Proof.
  intros Ha. unfold dround. destruct (Z.ltb_spec a 0), (Z.ltb_spec (- a) 0); try lia.
  by rewrite Z.opp_involutive.
Qed.

Lemma dround_error_abs a b k : 0 < b -> 53 <= k -> Z.abs a < b * 2 ^ k ->
  2 * Z.abs (dround a b * b - a) <= b * 2 ^ (k - 53).
Proof.
  intros Hb Hk Hlt. destruct (Z.le_gt_cases 0 a) as [Ha|Ha]; [apply dround_error; lia|].
  pose proof (dround_error (- a) b k ltac:(lia) Hb Hk ltac:(lia)) as H.
  rewrite dround_opp in H by lia. lia.
Qed.

Lemma dround_exact_abs m t b : Z.abs m < 2 ^ prec -> 0 <= t -> 0 < b ->
  dround (m * 2 ^ t * b) b = m * 2 ^ t.
Proof.
  intros Hm Ht Hb. destruct (Z.le_gt_cases 0 m) as [H|H]; [apply dround_exact; lia|].
  pose proof (dround_exact (- m) t b ltac:(lia) Ht Hb) as He.
  pose proof (Z.pow_pos_nonneg 2 t ltac:(lia) ltac:(lia)) as Hpt.
  replace (- m * 2 ^ t * b) with (- (m * 2 ^ t * b)) in He by ring.
  rewrite dround_opp in He by nia. lia.
Qed.

Lemma rne_upper a b n : 0 < b -> a < b * n -> rne a b <= n.
Proof.
  intros Hb Ha. assert (Hq : a / b < n) by (apply Z.div_lt_upper_bound; lia).
  unfold rne. repeat case_match; lia.
Qed.

Lemma rne_nonneg a b : 0 <= a -> 0 < b -> 0 <= rne a b.
Proof.
  intros Ha Hb. assert (0 <= a / b) by (apply Z.div_pos; lia). unfold rne. repeat case_match; lia.
Qed.

(** A result has at most [prec] significant bits, so that scaling it by a
    power of two is exact. *)
Lemma dround_repr a b : 0 <= a -> 0 < b ->
  exists m t, dround a b = m * 2 ^ t /\ 0 <= m < 2 ^ prec /\ 0 <= t.
Proof.
  intros Ha Hb. unfold dround. destruct (Z.ltb_spec a 0); [lia|]. unfold dround_pos.
  set (e := Z.max 0 (Z.log2 (a / b) - (prec - 1))). pose proof prec_ok as Hp.
  assert (He : 0 <= e) by (unfold e; lia).
  pose proof (Z.pow_pos_nonneg 2 e ltac:(lia) ltac:(lia)) as Hpe.
  assert (Hup : rne a (b * 2 ^ e) <= 2 ^ prec).
  { apply rne_upper; [nia|]. rewrite <-Z.mul_assoc, <-Z.pow_add_r by lia.
    assert (a / b < 2 ^ (e + prec)) as Hq.
    { destruct (Z.le_gt_cases (a / b) 0) as [Hz|Hz].
      - assert (0 < 2 ^ (e + prec)) by (apply Z.pow_pos_nonneg; lia). lia.
      - apply Z.log2_lt_pow2; [done|]. unfold e. lia. }
    apply Z.lt_le_trans with (b * (a / b + 1)); [pose proof (Z.mul_succ_div_gt a b Hb); lia|nia]. }
  pose proof (rne_nonneg a (b * 2 ^ e) Ha ltac:(nia)).
  destruct (decide (rne a (b * 2 ^ e) = 2 ^ prec)) as [Eq|Ne].
  - exists (2 ^ (prec - 1)), (e + 1). rewrite Eq. split_and!; try lia.
    + rewrite <-!Z.pow_add_r by lia. f_equal. lia.
    + apply Z.pow_lt_mono_r; lia.
  - exists (rne a (b * 2 ^ e)), e. split_and!; done || lia.
Qed.

Lemma dunit_pos : 0 < dunit.
Proof. apply Z.pow_pos_nonneg; lia. Qed.

Lemma dofZ_exact z : 0 <= z < 2 ^ 53 -> dofZ z = z * dunit.
Proof.
  intros Hz. unfold dofZ. rewrite <-(Z.mul_1_r (z * dunit)) at 1. unfold dunit.
  rewrite dround_exact; [reflexivity| |lia|lia]. pose proof prec_ok.
  assert (2 ^ 53 <= 2 ^ prec) by (apply Z.pow_le_mono_r; lia). lia.
Qed.

(** Multiplying a computed quotient by 1024 only moves its exponent. *)
Lemma dmul_1024 a b : 0 <= a -> 0 < b -> dmul (dofZ 1024) (dround a b) = 1024 * dround a b.
Proof.
  intros Ha Hb. destruct (dround_repr a b Ha Hb) as (m & t & -> & Hm & Ht).
  rewrite dofZ_exact by lia. unfold dmul.
  replace (1024 * dunit * (m * 2 ^ t)) with (m * 2 ^ (t + 10) * dunit)
    by (rewrite Z.pow_add_r by lia; change (2 ^ 10) with 1024; ring).
  rewrite dround_exact by (done || lia). rewrite Z.pow_add_r by lia. change (2 ^ 10) with 1024. ring.
Qed.

(** Truncating an approximation of [n / w] that is exact on integers and off
    by less than [1 / w] otherwise gives the floor. *)
Lemma dtrunc_floor c n w : 0 < w -> 0 <= n ->
  Z.abs (c * w - n * dunit) < dunit -> (n mod w = 0 -> c * w = n * dunit) ->
  dtrunc c = n / w.
Proof.
  intros Hw Hn Herr Hex. pose proof dunit_pos as Hu. unfold dtrunc.
  pose proof (Z.div_mod n w ltac:(lia)) as Hd. pose proof (Z.mod_pos_bound n w Hw) as Hr.
  assert (Hq : 0 <= n / w) by (apply Z.div_pos; lia).
  assert (Hc : n / w * dunit <= c < (n / w + 1) * dunit).
  { destruct (decide (n mod w = 0)) as [Hz|Hz].
    - specialize (Hex Hz). assert (c = n / w * dunit) by nia. nia.
    - split; apply (Z.mul_lt_mono_pos_r w) || idtac; nia. }
  rewrite Z.quot_div_nonneg by nia. symmetry. apply Z.div_unique with (c - n / w * dunit); lia.
Qed.
(** ** Quotients and sums with their error bounds *)
Lemma dunit_split : dunit = 1073741824 * 2 ^ 1044.
Proof. unfold dunit. change 1073741824 with (2 ^ 30). by rewrite <-Z.pow_add_r by lia. Qed.

(** A quotient of integers, with its error. *)
Lemma quotient_error d w n : 0 <= d -> 0 < w -> 0 <= n -> d < w * 2 ^ n ->
  2 * Z.abs (ddiv (d * dunit) (w * dunit) * w - d * dunit) <= w * 2 ^ (n + 1021).
Proof.
  intros Hd Hw Hn Hlt. unfold ddiv. pose proof dunit_pos as Hu.
  pose proof (dround_error (d * dunit * dunit) (w * dunit) (n + 1074)) as H.
  replace (n + 1074 - 53) with (n + 1021) in H by lia.
  assert (Hlt' : d * dunit * dunit < w * dunit * 2 ^ (n + 1074)).
  { rewrite Z.pow_add_r by lia. fold dunit. nia. }
  specialize (H ltac:(nia) ltac:(nia) ltac:(lia) Hlt').
  set (q := dround (d * dunit * dunit) (w * dunit)) in *.
  replace (q * (w * dunit) - d * dunit * dunit) with ((q * w - d * dunit) * dunit) in H by ring.
  rewrite Z.abs_mul, (Z.abs_eq dunit) in H by lia.
  set (X := Z.abs (q * w - d * dunit)) in *. set (P := 2 ^ (n + 1021)) in *. nia.
Qed.

(** Exact quotients. *)
Lemma quotient_exact d w m t : 0 <= d < 9007199254740992 -> 0 < w < 4294967296 ->
  0 <= m < 9007199254740992 -> 0 <= t <= 1074 -> d * 2 ^ t = w * m ->
  ddiv (d * dunit) (w * dunit) = m * 2 ^ (1074 - t).
Proof.
  intros Hd Hw Hm Ht Heq. unfold ddiv. pose proof dunit_pos as Hu.
  assert (Hs : dunit = 2 ^ t * 2 ^ (1074 - t)).
  { unfold dunit. rewrite <-Z.pow_add_r by lia. f_equal. lia. }
  replace (d * dunit * dunit) with (m * 2 ^ (1074 - t) * (w * dunit)).
  - apply dround_exact; [|lia|nia]. pose proof prec_ok.
    assert (2 ^ 53 <= 2 ^ prec) by (apply Z.pow_le_mono_r; lia).
    change (2 ^ 53) with 9007199254740992 in *. lia.
  - transitivity (w * m * 2 ^ (1074 - t) * dunit); [ring|]. rewrite <-Heq, Hs. ring.
Qed.
(** Sums and differences, with their error. *)
Lemma sum_error x k : Z.abs x < 2 ^ k -> 53 <= k ->
  2 * Z.abs (dround x 1 - x) <= 2 ^ (k - 53).
Proof.
  intros Hx Hk. pose proof (dround_error_abs x 1 k ltac:(lia) Hk ltac:(lia)) as H.
  rewrite Z.mul_1_r, Z.mul_1_l in H. done.
Qed.

Lemma sum_exact m : Z.abs m < 9007199254740992 -> dround (m * dunit) 1 = m * dunit.
Proof.
  intros Hm. rewrite <-(Z.mul_1_r (m * dunit)) at 1. unfold dunit. apply dround_exact_abs; [|lia|lia].
  pose proof prec_ok. assert (2 ^ 53 <= 2 ^ prec) by (apply Z.pow_le_mono_r; lia).
  change (2 ^ 53) with 9007199254740992 in *. lia.
Qed.

(** A quotient known up to [V] lies in the range of the exact one, up to [V]. *)
Lemma quotient_range q w d n U V : 0 < w -> 0 <= d -> d <= w * n -> 0 <= U ->
  Z.abs (q * w - d * U) <= w * V -> - V <= q <= n * U + V.
Proof.
  intros Hw Hd Hn HU Hq. assert (H1 : 0 <= d * U) by (by apply Z.mul_nonneg_nonneg).
  assert (H2 : d * U <= w * n * U) by (by apply Z.mul_le_mono_nonneg_r).
  clear Hn Hd HU. split; apply (Z.mul_le_mono_pos_l _ _ w Hw); lia.
Qed.

(** Scaling an error bound. *)
Lemma abs_scale x w e : 0 < w -> Z.abs x <= e -> Z.abs (x * w) <= e * w.
Proof.
  intros Hw Hx. rewrite Z.abs_mul, (Z.abs_eq w) by lia. apply Z.mul_le_mono_nonneg_r; lia.
Qed.

(** The factor of an exact multiple. *)
Lemma factor_range m w d n : 0 < w -> 0 <= d -> d < w * n -> d = m * w -> 0 <= m < n.
Proof.
  intros Hw Hd Hn ->. split.
  - apply (Z.mul_le_mono_pos_r _ _ w Hw). lia.
  - apply (Z.mul_lt_mono_pos_r w _ _ Hw). lia.
Qed.

(** The sum [vruntime + 1024 * (d / w)]. *)
Lemma step_sum v d w : 0 <= v < 4294967296 -> 0 <= d < 4294967296 -> 0 < w <= 88818 ->
  d < w * 16777216 ->
  let s := dadd (dofZ v) (dmul (dofZ 1024) (ddiv (dofZ d) (dofZ w))) in
  Z.abs (s * w - (v * w + 1024 * d) * dunit) < dunit /\
  ((v * w + 1024 * d) mod w = 0 -> s * w = (v * w + 1024 * d) * dunit).
Proof.
  intros Hv Hd Hw Hlt s. pose proof dunit_pos as Hu. pose proof dunit_split as HV.
  assert (HVp : 0 < 2 ^ 1044) by done. remember (2 ^ 1044) as V eqn:HVd.
  unfold s. rewrite (dofZ_exact v), (dofZ_exact d), (dofZ_exact w) by lia. unfold ddiv at 1 2.
  rewrite !dmul_1024 by nia.
  fold (ddiv (d * dunit) (w * dunit)).
  pose proof (quotient_error d w 24 ltac:(lia) ltac:(lia) ltac:(lia) ltac:(lia)) as Hq.
  change (24 + 1021) with (1 + 1044) in Hq. rewrite Z.pow_add_r in Hq by lia. rewrite <-HVd in Hq.
  unfold dadd. split.
  - remember (ddiv (d * dunit) (w * dunit)) as q eqn:Hdefq; clear Hdefq.
    assert (Hqr : - V <= q <= 16777216 * dunit + V) by (apply (quotient_range q w d); lia).
    assert (Hvu : v * dunit <= 4294967295 * dunit) by (apply Z.mul_le_mono_nonneg_r; lia).
    assert (Hvu' : 0 <= v * dunit) by (apply Z.mul_nonneg_nonneg; lia).
    pose proof (sum_error (v * dunit + 1024 * q) (12 + (53 + 1044))) as Hs.
    replace (12 + (53 + 1044) - 53) with (12 + 1044) in Hs by lia.
    rewrite !Z.pow_add_r in Hs by lia. rewrite <-HVd in Hs.
    change (2 ^ 12) with 4096 in Hs. change (2 ^ 53) with 9007199254740992 in Hs.
    specialize (Hs ltac:(lia) ltac:(lia)).
    remember (dround (v * dunit + 1024 * q) 1) as r eqn:Hdefr; clear Hdefr.
    assert (Hwv : w * V <= 88818 * V) by (apply Z.mul_le_mono_nonneg_r; lia).
    pose proof (abs_scale (r - (v * dunit + 1024 * q)) w (2048 * V) ltac:(lia) ltac:(lia)) as H1.
    replace (r * w - (v * w + 1024 * d) * dunit)
      with ((r - (v * dunit + 1024 * q)) * w + 1024 * (q * w - d * dunit)) by ring.
    lia.
  - intros Hm. rewrite Z.add_comm, Z.mod_add in Hm by lia.
    apply Z.mod_divide in Hm as [m Hm]; [|lia].
    pose proof (factor_range m w (1024 * d) 17179869184 ltac:(lia) ltac:(lia) ltac:(lia) Hm) as Hmr.
    rewrite (quotient_exact d w m 10) by lia.
    replace (v * dunit + 1024 * (m * 2 ^ (1074 - 10))) with ((v + m) * dunit).
    2: { assert (Hs : dunit = 1024 * 2 ^ (1074 - 10)) by reflexivity. rewrite Hs. ring. }
    rewrite sum_exact by lia. rewrite Hm. ring.
Qed.

(** The value stored on overflow: [vruntime + (1024 * d / w - 2147483647)]. *)
Lemma wrap_sum v d w : 0 <= v < 4294967296 -> 0 <= d < 4294967296 -> 0 < w <= 88818 ->
  1024 * d <= 2147483647 * w ->
  let s := dadd (dofZ v) (dsub (ddiv (dmul (dofZ 1024) (dofZ d)) (dofZ w)) (dofZ 2147483647)) in
  let n := v * w + 1024 * d - 2147483647 * w in
  Z.abs (s * w - n * dunit) < dunit /\ (n mod w = 0 -> s * w = n * dunit).
Proof.
  intros Hv Hd Hw Hlt s n. pose proof dunit_pos as Hu. pose proof dunit_split as HV.
  assert (HVp : 0 < 2 ^ 1044) by done. remember (2 ^ 1044) as V eqn:HVd.
  assert (Hmul : dmul (dofZ 1024) (dofZ d) = 1024 * d * dunit).
  { rewrite !dofZ_exact by lia. unfold dmul.
    replace (1024 * dunit * (d * dunit)) with (1024 * d * 2 ^ 1074 * dunit) by (fold dunit; ring).
    rewrite dround_exact_abs; [done| |lia|lia]. pose proof prec_ok.
    assert (2 ^ 53 <= 2 ^ prec) by (apply Z.pow_le_mono_r; lia).
    change (2 ^ 53) with 9007199254740992 in *. lia. }
  unfold s. rewrite Hmul, !dofZ_exact by lia.
  pose proof (quotient_error (1024 * d) w 31 ltac:(lia) ltac:(lia) ltac:(lia) ltac:(lia)) as Hq.
  change (31 + 1021) with (8 + 1044) in Hq. rewrite Z.pow_add_r in Hq by lia. rewrite <-HVd in Hq.
  change (2 ^ 8) with 256 in Hq. unfold dadd, dsub. split.
  - remember (ddiv (1024 * d * dunit) (w * dunit)) as q eqn:Hdefq; clear Hdefq.
    assert (Hqr : - (128 * V) <= q <= 2147483647 * dunit + 128 * V)
      by (apply (quotient_range q w (1024 * d)); lia).
    assert (Hvu : v * dunit <= 4294967295 * dunit) by (apply Z.mul_le_mono_nonneg_r; lia).
    assert (Hvu' : 0 <= v * dunit) by (apply Z.mul_nonneg_nonneg; lia).
    pose proof (sum_error (q - 2147483647 * dunit) (9 + (53 + 1044))) as Hz.
    replace (9 + (53 + 1044) - 53) with (9 + 1044) in Hz by lia.
    rewrite !Z.pow_add_r in Hz by lia. rewrite <-HVd in Hz.
    change (2 ^ 9) with 512 in Hz. change (2 ^ 53) with 9007199254740992 in Hz.
    specialize (Hz ltac:(lia) ltac:(lia)).
    remember (dround (q - 2147483647 * dunit) 1) as z eqn:Hdefz; clear Hdefz.
    pose proof (sum_error (v * dunit + z) (10 + (53 + 1044))) as Hs.
    replace (10 + (53 + 1044) - 53) with (10 + 1044) in Hs by lia.
    rewrite !Z.pow_add_r in Hs by lia. rewrite <-HVd in Hs.
    change (2 ^ 10) with 1024 in Hs. change (2 ^ 53) with 9007199254740992 in Hs.
    specialize (Hs ltac:(lia) ltac:(lia)).
    remember (dround (v * dunit + z) 1) as r eqn:Hdefr; clear Hdefr.
    assert (Hwv : w * V <= 88818 * V) by (apply Z.mul_le_mono_nonneg_r; lia).
    pose proof (abs_scale (r - (v * dunit + z)) w (512 * V) ltac:(lia) ltac:(lia)) as H1.
    pose proof (abs_scale (z - (q - 2147483647 * dunit)) w (256 * V) ltac:(lia) ltac:(lia)) as H2.
    unfold n. replace (r * w - (v * w + 1024 * d - 2147483647 * w) * dunit)
      with ((r - (v * dunit + z)) * w + (z - (q - 2147483647 * dunit)) * w
            + (q * w - 1024 * d * dunit)) by ring.
    lia.
  - intros Hm. replace n with (1024 * d + (v - 2147483647) * w) in Hm by (unfold n; ring).
    rewrite Z.mod_add in Hm by lia. apply Z.mod_divide in Hm as [m Hm]; [|lia].
    pose proof (factor_range m w (1024 * d) 2147483648 ltac:(lia) ltac:(lia) ltac:(lia) Hm) as Hmr.
    rewrite (quotient_exact (1024 * d) w m 0) by lia. rewrite Z.sub_0_r. fold dunit.
    replace (m * dunit - 2147483647 * dunit) with ((m - 2147483647) * dunit) by ring.
    rewrite sum_exact by lia.
    replace (v * dunit + (m - 2147483647) * dunit) with ((v + m - 2147483647) * dunit) by ring.
    rewrite sum_exact by lia. unfold n. rewrite Hm. ring.
Qed.

(** [(int)(a / w + 0.5)]: the quotient rounded half up. *)
Lemma round_half a w : 0 <= a < 4294967296 -> 0 < w < 4294967296 -> a < w * 524288 ->
  dtrunc (dadd (ddiv (dofZ a) (dofZ w)) dhalf) = (2 * a + w) / (2 * w).
Proof.
  intros Ha Hw Hlt. pose proof dunit_pos as Hu.
  assert (Hh : dunit = 2 * dhalf) by reflexivity.
  assert (Hhp : 0 < dhalf) by lia.
  rewrite !dofZ_exact by lia. apply dtrunc_floor; [lia|lia| |].
  - pose proof (quotient_error a w 19 ltac:(lia) ltac:(lia) ltac:(lia) ltac:(lia)) as Hq.
    change (19 + 1021) with 1040 in Hq.
    assert (HV : dhalf = 8589934592 * 2 ^ 1040) by reflexivity.
    assert (HVp : 0 < 2 ^ 1040) by lia. remember (2 ^ 1040) as V eqn:HVd.
    remember (ddiv (a * dunit) (w * dunit)) as q eqn:Hdq; clear Hdq.
    assert (Hqr : - V <= q <= 524288 * dunit + V) by (apply (quotient_range q w a); lia).
    pose proof (sum_error (q + dhalf) (1 + (53 + 1040))) as Hs.
    replace (1 + (53 + 1040) - 53) with (1 + 1040) in Hs by lia.
    rewrite !Z.pow_add_r, <-HVd in Hs by lia.
    change (2 ^ 1) with 2 in Hs. change (2 ^ 53) with 9007199254740992 in Hs.
    specialize (Hs ltac:(lia) ltac:(lia)). unfold dadd.
    remember (dround (q + dhalf) 1) as r eqn:Hdr; clear Hdr.
    pose proof (abs_scale (r - (q + dhalf)) w V ltac:(lia) ltac:(lia)) as H1.
    replace (r * (2 * w) - (2 * a + w) * dunit)
      with (2 * ((r - (q + dhalf)) * w) + 2 * (q * w - a * dunit)) by (rewrite Hh; ring).
    assert (w * V <= 4294967295 * V) by (apply Z.mul_le_mono_nonneg_r; lia). lia.
  - intros Hm. apply Z.mod_divide in Hm as [m Hm]; [|lia].
    assert (Hmr : 0 < m <= 524289).
    { split; [apply (Z.mul_lt_mono_pos_r (2 * w))|apply (Z.mul_le_mono_pos_r _ _ (2 * w))]; lia. }
    rewrite (quotient_exact a w (2 * m - 1) 1) by (try lia; change (2 ^ 1) with 2; lia).
    unfold dadd. change (2 ^ (1074 - 1)) with dhalf.
    replace ((2 * m - 1) * dhalf + dhalf) with (m * dunit) by (rewrite Hh; ring).
    rewrite sum_exact by lia. rewrite Hm. ring.
Qed.
End Fp.
