(* ===== verification/Sched.v ===== *)
(** * The process table and the scheduler (proc.c)

    The process table with the scheduling half of proc.c: allocation of virtual
    run time (CFS style weights, [vruntime] with an overflow counter), the choice
    of the next process, sched, yield, sleep, wakeup, kill and the niceness
    calls.  fork, exit and wait are in Proc.v. *)
From S2P Require Import Prelude CString Layout Spinlock Fp.

Open Scope Z_scope.

Definition nice_to_weight : list Z := [
  88818; 71054; 56843; 45475; 36380;
  29104; 23283; 18626; 14901; 11921;
  9537; 7629; 6104; 4883; 3906;
  3125; 2500; 2000; 1600; 1280;
  1024; 819; 655; 524; 419;
  336; 268; 214; 172; 137;
  110; 88; 70; 56; 45;
  36; 29; 23; 18; 15 ].

Inductive procstate := UNUSED | EMBRYO | SLEEPING | RUNNABLE | RUNNING | ZOMBIE.

#[export] Instance procstate_eq_dec : EqDecision procstate.
Proof. solve_decision. Defined.

Record proc := Proc {
  sz : Z;  (* bytes of user memory *)
  pgdir : Z;  (* page directory *)
  kstack : Z;  (* kernel stack page *)
  state : procstate;
  pid : Z;
  parent : option nat;  (* slot of the parent *)
  tf : Z;  (* trap frame *)
  context : Z;  (* saved context *)
  chan : Z;  (* channel slept on, or 0 *)
  killed : Z;
  ofile : list Z;  (* open files *)
  cwd : Z;  (* current directory *)
  nice : Z;
  name : list Z;
  time_slice : Z;
  vruntime : Z;
  actual_runtime : Z;
  int_overflow : Z;
  scheduled_time : Z;
  weight : Z;
  ctx_intena : Z;  (* the local intena of sched, on the kernel stack *)
}.

Definition set_sz (v : Z) (p : proc) : proc :=
  Proc v (pgdir p) (kstack p) (state p) (pid p) (parent p) (tf p) (context p) (chan p)
    (killed p) (ofile p) (cwd p) (nice p) (name p) (time_slice p) (vruntime p)
    (actual_runtime p) (int_overflow p) (scheduled_time p) (weight p) (ctx_intena p).
Definition set_pgdir (v : Z) (p : proc) : proc :=
  Proc (sz p) v (kstack p) (state p) (pid p) (parent p) (tf p) (context p) (chan p) (killed p)
    (ofile p) (cwd p) (nice p) (name p) (time_slice p) (vruntime p) (actual_runtime p)
    (int_overflow p) (scheduled_time p) (weight p) (ctx_intena p).
Definition set_kstack (v : Z) (p : proc) : proc :=
  Proc (sz p) (pgdir p) v (state p) (pid p) (parent p) (tf p) (context p) (chan p) (killed p)
    (ofile p) (cwd p) (nice p) (name p) (time_slice p) (vruntime p) (actual_runtime p)
    (int_overflow p) (scheduled_time p) (weight p) (ctx_intena p).
Definition set_state (v : procstate) (p : proc) : proc :=
  Proc (sz p) (pgdir p) (kstack p) v (pid p) (parent p) (tf p) (context p) (chan p) (killed p)
    (ofile p) (cwd p) (nice p) (name p) (time_slice p) (vruntime p) (actual_runtime p)
    (int_overflow p) (scheduled_time p) (weight p) (ctx_intena p).
Definition set_pid (v : Z) (p : proc) : proc :=
  Proc (sz p) (pgdir p) (kstack p) (state p) v (parent p) (tf p) (context p) (chan p) (killed p)
    (ofile p) (cwd p) (nice p) (name p) (time_slice p) (vruntime p) (actual_runtime p)
    (int_overflow p) (scheduled_time p) (weight p) (ctx_intena p).
Definition set_parent (v : option nat) (p : proc) : proc :=
  Proc (sz p) (pgdir p) (kstack p) (state p) (pid p) v (tf p) (context p) (chan p) (killed p)
    (ofile p) (cwd p) (nice p) (name p) (time_slice p) (vruntime p) (actual_runtime p)
    (int_overflow p) (scheduled_time p) (weight p) (ctx_intena p).
Definition set_tf (v : Z) (p : proc) : proc :=
  Proc (sz p) (pgdir p) (kstack p) (state p) (pid p) (parent p) v (context p) (chan p)
    (killed p) (ofile p) (cwd p) (nice p) (name p) (time_slice p) (vruntime p)
    (actual_runtime p) (int_overflow p) (scheduled_time p) (weight p) (ctx_intena p).
Definition set_context (v : Z) (p : proc) : proc :=
  Proc (sz p) (pgdir p) (kstack p) (state p) (pid p) (parent p) (tf p) v (chan p) (killed p)
    (ofile p) (cwd p) (nice p) (name p) (time_slice p) (vruntime p) (actual_runtime p)
    (int_overflow p) (scheduled_time p) (weight p) (ctx_intena p).
Definition set_chan (v : Z) (p : proc) : proc :=
  Proc (sz p) (pgdir p) (kstack p) (state p) (pid p) (parent p) (tf p) (context p) v (killed p)
    (ofile p) (cwd p) (nice p) (name p) (time_slice p) (vruntime p) (actual_runtime p)
    (int_overflow p) (scheduled_time p) (weight p) (ctx_intena p).
Definition set_killed (v : Z) (p : proc) : proc :=
  Proc (sz p) (pgdir p) (kstack p) (state p) (pid p) (parent p) (tf p) (context p) (chan p) v
    (ofile p) (cwd p) (nice p) (name p) (time_slice p) (vruntime p) (actual_runtime p)
    (int_overflow p) (scheduled_time p) (weight p) (ctx_intena p).
Definition set_ofile (v : list Z) (p : proc) : proc :=
  Proc (sz p) (pgdir p) (kstack p) (state p) (pid p) (parent p) (tf p) (context p) (chan p)
    (killed p) v (cwd p) (nice p) (name p) (time_slice p) (vruntime p) (actual_runtime p)
    (int_overflow p) (scheduled_time p) (weight p) (ctx_intena p).
Definition set_cwd (v : Z) (p : proc) : proc :=
  Proc (sz p) (pgdir p) (kstack p) (state p) (pid p) (parent p) (tf p) (context p) (chan p)
    (killed p) (ofile p) v (nice p) (name p) (time_slice p) (vruntime p) (actual_runtime p)
    (int_overflow p) (scheduled_time p) (weight p) (ctx_intena p).
Definition set_nice (v : Z) (p : proc) : proc :=
  Proc (sz p) (pgdir p) (kstack p) (state p) (pid p) (parent p) (tf p) (context p) (chan p)
    (killed p) (ofile p) (cwd p) v (name p) (time_slice p) (vruntime p) (actual_runtime p)
    (int_overflow p) (scheduled_time p) (weight p) (ctx_intena p).
Definition set_name (v : list Z) (p : proc) : proc :=
  Proc (sz p) (pgdir p) (kstack p) (state p) (pid p) (parent p) (tf p) (context p) (chan p)
    (killed p) (ofile p) (cwd p) (nice p) v (time_slice p) (vruntime p) (actual_runtime p)
    (int_overflow p) (scheduled_time p) (weight p) (ctx_intena p).
Definition set_time_slice (v : Z) (p : proc) : proc :=
  Proc (sz p) (pgdir p) (kstack p) (state p) (pid p) (parent p) (tf p) (context p) (chan p)
    (killed p) (ofile p) (cwd p) (nice p) (name p) v (vruntime p) (actual_runtime p)
    (int_overflow p) (scheduled_time p) (weight p) (ctx_intena p).
Definition set_vruntime (v : Z) (p : proc) : proc :=
  Proc (sz p) (pgdir p) (kstack p) (state p) (pid p) (parent p) (tf p) (context p) (chan p)
    (killed p) (ofile p) (cwd p) (nice p) (name p) (time_slice p) v (actual_runtime p)
    (int_overflow p) (scheduled_time p) (weight p) (ctx_intena p).
Definition set_actual_runtime (v : Z) (p : proc) : proc :=
  Proc (sz p) (pgdir p) (kstack p) (state p) (pid p) (parent p) (tf p) (context p) (chan p)
    (killed p) (ofile p) (cwd p) (nice p) (name p) (time_slice p) (vruntime p) v
    (int_overflow p) (scheduled_time p) (weight p) (ctx_intena p).
Definition set_int_overflow (v : Z) (p : proc) : proc :=
  Proc (sz p) (pgdir p) (kstack p) (state p) (pid p) (parent p) (tf p) (context p) (chan p)
    (killed p) (ofile p) (cwd p) (nice p) (name p) (time_slice p) (vruntime p)
    (actual_runtime p) v (scheduled_time p) (weight p) (ctx_intena p).
Definition set_scheduled_time (v : Z) (p : proc) : proc :=
  Proc (sz p) (pgdir p) (kstack p) (state p) (pid p) (parent p) (tf p) (context p) (chan p)
    (killed p) (ofile p) (cwd p) (nice p) (name p) (time_slice p) (vruntime p)
    (actual_runtime p) (int_overflow p) v (weight p) (ctx_intena p).
Definition set_weight (v : Z) (p : proc) : proc :=
  Proc (sz p) (pgdir p) (kstack p) (state p) (pid p) (parent p) (tf p) (context p) (chan p)
    (killed p) (ofile p) (cwd p) (nice p) (name p) (time_slice p) (vruntime p)
    (actual_runtime p) (int_overflow p) (scheduled_time p) v (ctx_intena p).
Definition set_ctx_intena (v : Z) (p : proc) : proc :=
  Proc (sz p) (pgdir p) (kstack p) (state p) (pid p) (parent p) (tf p) (context p) (chan p)
    (killed p) (ofile p) (cwd p) (nice p) (name p) (time_slice p) (vruntime p)
    (actual_runtime p) (int_overflow p) (scheduled_time p) (weight p) v.

Definition no_proc : proc :=
  Proc 0 0 0 UNUSED 0 None 0 0 0 0 (replicate (Z.to_nat NOFILE) 0) 0 0 (replicate 16 0)
    0 0 0 0 0 0 0.

(** The part of struct cpu that scheduling uses: the running process, the
    stack and page table registers, the interrupt flag and the pushcli count. *)
Record pcpu := Pcpu {
  c_proc : option nat;
  c_esp0 : Z;
  c_cr3 : Z;
  c_if : bool;
  c_ncli : Z;
  c_intena : Z
}.

Record ptable := Pt {
  plock : bool;
  procs : list proc;
  initproc : option nat;
  nextpid : Z;
  pcpus : list pcpu;
  kpgdir : Z
}.

Definition plockL : lens ptable bool :=
  Lens plock (fun b s => Pt b (procs s) (initproc s) (nextpid s) (pcpus s) (kpgdir s)).
Definition procsL : lens ptable (list proc) :=
  Lens procs (fun l s => Pt (plock s) l (initproc s) (nextpid s) (pcpus s) (kpgdir s)).
Definition cpusL : lens ptable (list pcpu) :=
  Lens pcpus (fun l s => Pt (plock s) (procs s) (initproc s) (nextpid s) l (kpgdir s)).
Definition set_initproc (i : option nat) (s : ptable) : ptable :=
  Pt (plock s) (procs s) i (nextpid s) (pcpus s) (kpgdir s).
Definition set_nextpid (n : Z) (s : ptable) : ptable :=
  Pt (plock s) (procs s) (initproc s) n (pcpus s) (kpgdir s).

Definition get_proc (i : nat) : M ptable proc := fun s =>
  match procs s !! i with Some p => Ok (p, s) | None => Undef "no such process slot" end.
Definition upd_proc (i : nat) (f : proc -> proc) : M ptable unit :=
  modify (fun s => lset procsL (alter f i (procs s)) s).
Definition get_pcpu (c : nat) : M ptable pcpu := fun s =>
  match pcpus s !! c with Some x => Ok (x, s) | None => Panic "unknown apicid" end.
Definition upd_pcpu (c : nat) (f : pcpu -> pcpu) : M ptable unit :=
  modify (fun s => lset cpusL (alter f c (pcpus s)) s).

(** pushcli and popcli of spinlock.c on CPU [me]. *)
Definition cpu_pushcli (me : nat) : M ptable unit :=
  c ← get_pcpu me;
  upd_pcpu me (fun x => Pcpu (c_proc x) (c_esp0 x) (c_cr3 x) false (c_ncli x + 1)
                          (if c_ncli c =? 0 then b2z (c_if c) else c_intena x)).
Definition cpu_popcli (me : nat) : M ptable unit :=
  c ← get_pcpu me;
  if c_if c then panic "popcli - interruptible"
  else if c_ncli c - 1 <? 0 then panic "popcli"
  else
    upd_pcpu me (fun x => Pcpu (c_proc x) (c_esp0 x) (c_cr3 x)
      ((c_ncli x - 1 =? 0) && truthy (c_intena x)) (c_ncli x - 1) (c_intena x)).

(** acquire and release of ptable.lock. *)
Definition pt_acquire (me : nat) : M ptable unit := cpu_pushcli me ;; zoom plockL lk_acquire.
Definition pt_release (me : nat) : M ptable unit := zoom plockL lk_release ;; cpu_popcli me.

(** myproc() where the caller has a process; the null result is [None]. *)
Definition myproc (me : nat) : M ptable (option nat) := c ← get_pcpu me; mret (c_proc c).
Definition curproc (me : nat) : M ptable nat :=
  p ← myproc me; match p with Some i => mret i | None => undef "null process" end.

Section Sched.
Context `{FE : !FpEnv}.

(** ** Weights and virtual run time *)

(** [int total_weight += p->weight], over the slots in use. *)
Definition totalweight (ps : list proc) : Z :=
  foldl (fun t p => if decide (state p = UNUSED) then t else s32 (t + weight p)) 0 ps.

(** Conversion of a double to [uint]. *)
Definition d2u (x : dbl) : res Z :=
  let t := dtrunc x in
  if (0 <=? t) && (t <? 4294967296) then Ok t else Undef "double out of the range of uint".

Definition vruntimeupdate (p : proc) : res proc :=
  let d := u32 (actual_runtime p - scheduled_time p) in
  if weight p =? 0 then Undef "division by zero"
  else
    let v := dofZ (vruntime p) in
    let w := dofZ (weight p) in
    let step := dmul (dofZ 1024) (ddiv (dofZ d) w) in
    if dgt (dadd v step) (dofZ 2147483647) then
      if int_overflow p =? 2147483647 then Undef "signed overflow"
      else
        match d2u (dadd v (dsub (ddiv (dmul (dofZ 1024) (dofZ d)) w) (dofZ 2147483647))) with
        | Ok x => Ok (set_vruntime x (set_int_overflow (int_overflow p + 1) p))
        | Panic e => Panic e | Undef e => Undef e | Hang => Hang
        end
    else
      match d2u (dadd v step) with
      | Ok x => Ok (set_vruntime x p)
      | Panic e => Panic e | Undef e => Undef e | Hang => Hang
      end.

(** vruntimeupdate(p) on the table. *)
Definition upd_vruntime (i : nat) : M ptable unit :=
  p ← get_proc i;
  match vruntimeupdate p with
  | Ok p' => upd_proc i (fun _ => p')
  | Panic e => panic e | Undef e => undef e | Hang => hang
  end.

(** ** Choosing the next process *)
Definition runnable (p : proc) : bool := bool_decide (state p = RUNNABLE).

(** The test that replaces [shortest]. *)
Definition shorter (p q : proc) : bool :=
  (int_overflow p <? int_overflow q) ||
  ((int_overflow p =? int_overflow q) && (vruntime p <? vruntime q)).

(** [for(p = ptable.proc; ...) if(p->state == RUNNABLE && p shorter) shortest = p] *)
Fixpoint shortest_from (i : nat) (ps : list proc) (best : nat) (b : proc) : nat * proc :=
  match ps with
  | [] => (best, b)
  | p :: ps' =>
      if runnable p && shorter p b then shortest_from (S i) ps' i p
      else shortest_from (S i) ps' best b
  end.

Fixpoint first_runnable (i : nat) (ps : list proc) : option (nat * proc) :=
  match ps with
  | [] => None
  | p :: ps' => if runnable p then Some (i, p) else first_runnable (S i) ps'
  end.

Definition pick (ps : list proc) : option (nat * proc) :=
  match first_runnable 0 ps with
  | None => None
  | Some (i, p) => Some (shortest_from 0 ps i p)
  end.

(** [1000 * (int)((double)weight / total_weight + 0.5) * 10] *)
Definition slice (w total : Z) : Z :=
  u32 (1000 * dtrunc (dadd (ddiv (dofZ w) (dofZ total)) dhalf) * 10).

Definition switchkvm (me : nat) : M ptable unit :=
  k ← gets kpgdir;
  upd_pcpu me (fun x => Pcpu (c_proc x) (c_esp0 x) (V2P k) (c_if x) (c_ncli x) (c_intena x)).

Definition switchuvm (me : nat) (p : option nat) : M ptable unit :=
  match p with
  | None => panic "switchuvm: no process"
  | Some i =>
      p ← get_proc i;
      if kstack p =? 0 then panic "switchuvm: no kstack"
      else if pgdir p =? 0 then panic "switchuvm: no pgdir"
      else
        cpu_pushcli me ;;
        upd_pcpu me (fun x => Pcpu (c_proc x) (u32 (kstack p + KSTACKSIZE)) (V2P (pgdir p))
                                (c_if x) (c_ncli x) (c_intena x)) ;;
        cpu_popcli me
  end.

Definition set_cproc (me : nat) (p : option nat) : M ptable unit :=
  upd_pcpu me (fun x => Pcpu p (c_esp0 x) (c_cr3 x) (c_if x) (c_ncli x) (c_intena x)).
Definition cpu_sti (me : nat) : M ptable unit :=
  upd_pcpu me (fun x => Pcpu (c_proc x) (c_esp0 x) (c_cr3 x) true (c_ncli x) (c_intena x)).

(** One iteration of the scheduler's loop up to [swtch]: [Some i] when process
    [i] now runs on [me], with ptable.lock held.  The inner search leaves [p]
    at the end of the table, so an iteration runs at most one process. *)
Definition scheduler_pick (me : nat) : M ptable (option nat) :=
  cpu_sti me ;;
  pt_acquire me ;;
  ps ← gets procs;
  let total := u32 (totalweight ps) in
  match pick ps with
  | None => pt_release me ;; mret None
  | Some (i, p) =>
      (if total =? 0 then undef "division by zero" else mret tt) ;;
      upd_proc i (set_time_slice (slice (weight p) total)) ;;
      upd_proc i (fun q => set_scheduled_time (actual_runtime q) q) ;;
      set_cproc me (Some i) ;;
      switchuvm me (Some i) ;;
      upd_proc i (set_state RUNNING) ;;
      mret (Some i)
  end.

(** The rest of the iteration, after the process switched back. *)
Definition scheduler_back (me : nat) : M ptable unit :=
  switchkvm me ;; set_cproc me None ;; pt_release me.

(** sched up to [swtch]. *)
Definition sched (me : nat) : M ptable unit :=
  i ← curproc me;
  held ← gets plock;
  (if negb held then panic "sched ptable.lock" else mret tt) ;;
  c ← get_pcpu me;
  (if negb (c_ncli c =? 1) then panic "sched locks" else mret tt) ;;
  p ← get_proc i;
  (if decide (state p = RUNNING) then panic "sched running" else mret tt) ;;
  (if c_if c then panic "sched interruptible" else mret tt) ;;
  upd_proc i (set_ctx_intena (c_intena c)).

(** sched after [swtch] returned on CPU [me]. *)
Definition sched_resume (me : nat) : M ptable unit :=
  i ← curproc me;
  p ← get_proc i;
  upd_pcpu me (fun x => Pcpu (c_proc x) (c_esp0 x) (c_cr3 x) (c_if x) (c_ncli x) (ctx_intena p)).

(** ** yield *)
Definition yield_out (me : nat) : M ptable unit :=
  pt_acquire me ;;
  i ← curproc me;
  upd_vruntime i ;;
  upd_proc i (set_state RUNNABLE) ;;
  sched me.
Definition yield_in (me : nat) : M ptable unit := sched_resume me ;; pt_release me.

(** The timer's share of trap(): charge the running process a tick; [true] when
    its slice is used up and it has to yield. *)
Definition timer_charge (me : nat) : M ptable bool :=
  i ← curproc me;
  upd_proc i (fun p => set_actual_runtime (u32 (actual_runtime p + 1000)) p) ;;
  p ← get_proc i;
  mret (time_slice p <=? u32 (actual_runtime p - scheduled_time p)).

(** ** sleep and wakeup

    [other]: the caller's lock is not ptable.lock, so it is released here and
    acquired again on resumption; the lock word itself is the caller's. *)
Definition sleep_out (me : nat) (ch : Z) (other : bool) : M ptable unit :=
  p ← myproc me;
  match p with
  | None => panic "sleep"
  | Some i =>
      (if other then pt_acquire me ;; cpu_popcli me else mret tt) ;;
      upd_vruntime i ;;
      upd_proc i (set_chan ch) ;;
      upd_proc i (set_state SLEEPING) ;;
      sched me
  end.
Definition sleep_in (me : nat) (other : bool) : M ptable unit :=
  sched_resume me ;;
  i ← curproc me;
  upd_proc i (set_chan 0) ;;
  if other then pt_release me ;; cpu_pushcli me else mret tt.

(** The last slot that is not RUNNABLE: where the search for the shortest
    process starts. *)
Fixpoint last_index (i : nat) (ps : list proc) : option nat :=
  match ps with
  | [] => None
  | p :: ps' =>
      match last_index (S i) ps' with
      | Some j => Some j
      | None => if runnable p then None else Some i
      end
  end.

(** [(uint)(shortest->vruntime - (int)(1024 / (double)p->weight + 0.5)) * 1000] *)
Definition woken_vruntime (v w : Z) : Z :=
  u32 (u32 (v - dtrunc (dadd (ddiv (dofZ 1024) (dofZ w)) dhalf)) * 1000).

(** The body of the last loop at slot [i]; [best] is re-read from the table,
    which the loop may have changed. *)
Definition wake_slot (ch : Z) (best i : nat) : M ptable unit :=
  p ← get_proc i;
  if decide (state p = SLEEPING) then
    if chan p =? ch then
      upd_proc i (set_state RUNNABLE) ;;
      b ← get_proc best;
      if negb (int_overflow b =? 0) || negb (vruntime b =? 0) then
        (if weight p =? 0 then undef "division by zero" else mret tt) ;;
        upd_proc i (set_vruntime (woken_vruntime (vruntime b) (weight p))) ;;
        b' ← get_proc best;
        upd_proc i (set_int_overflow (int_overflow b'))
      else
        upd_proc i (set_vruntime (vruntime b)) ;;
        upd_proc i (set_int_overflow 0)
    else mret tt
  else mret tt.

Definition wakeup1 (ch : Z) : M ptable unit :=
  ps ← gets procs;
  match last_index 0 ps with
  | None => undef "null process"
  | Some k =>
      q ← get_proc k;
      let best := (shortest_from 0 ps k q).1 in
      for_each (seq 0 (length ps)) (wake_slot ch best)
  end.

Definition wakeup (me : nat) (ch : Z) : M ptable unit :=
  pt_acquire me ;; wakeup1 ch ;; pt_release me.

(** ** kill, getnice, setnice *)
Definition find_pid (pd : Z) (ps : list proc) : option nat :=
  fst <$> list_find (fun p => pid p = pd) ps.

Definition kill (me : nat) (pd : Z) : M ptable Z :=
  pt_acquire me ;;
  ps ← gets procs;
  match find_pid pd ps with
  | None => pt_release me ;; mret (-1)
  | Some i =>
      upd_proc i (set_killed 1) ;;
      p ← get_proc i;
      (if decide (state p = SLEEPING) then
         upd_proc i (set_state RUNNABLE) ;; upd_vruntime i
       else mret tt) ;;
      pt_release me ;; mret 0
  end.

Definition getnice (me : nat) (pd : Z) : M ptable Z :=
  pt_acquire me ;;
  ps ← gets procs;
  match find_pid pd ps with
  | None => pt_release me ;; mret (-1)
  | Some i => p ← get_proc i; pt_release me ;; mret (nice p)
  end.

Definition setnice (me : nat) (pd value : Z) : M ptable Z :=
  if (39 <? value) || (value <? 0) then mret (-1)
  else
    pt_acquire me ;;
    ps ← gets procs;
    (match find_pid pd ps with
     | None => mret tt
     | Some i =>
         upd_proc i (set_nice value) ;;
         upd_proc i (fun p => set_weight (nth (Z.to_nat (nice p)) nice_to_weight 0) p)
     end) ;;
    pt_release me ;; mret 0.
End Sched.
