(* ===== verification/SchedProps.v ===== *)
(** * Scheduling: virtual time, the process table and wakeups

    Theorems on Sched.v: the floating-point update of virtual run time is exact,
    the scheduler picks the process with the least virtual time, wakeup1 wakes
    exactly the sleepers, and the process table stays well formed in every history
    of these operations. *)
From S2P Require Import Prelude CString Layout Spinlock Fp Sched.

Open Scope Z_scope.

Section SchedProps.
Context `{FE : !FpEnv}.

(** ** vruntimeupdate *)

(** Run time since the process was scheduled, as an unsigned difference. *)
Definition ran (p : proc) : Z := u32 (actual_runtime p - scheduled_time p).
(** [weight * (vruntime + 1024 * ran / weight)] *)
Definition vnum (p : proc) : Z := vruntime p * weight p + 1024 * ran p.

(** Virtual time as one number: the counter of overflows and [vruntime]. *)
Definition vtime (p : proc) : Z := int_overflow p * 2147483647 + vruntime p.

(** The ranges in which proc.c keeps the scheduling fields. *)
Record vt_ok (p : proc) : Prop := {
  vo_vruntime : 0 <= vruntime p < 4294967296;
  vo_weight : 0 < weight p <= 88818;
  vo_overflow : 0 <= int_overflow p < 2147483647
}.

(** The update in exact arithmetic. *)
Definition vruntime_exact (p : proc) : proc :=
  if 2147483647 * weight p <? vnum p
  then set_vruntime (vnum p / weight p - 2147483647) (set_int_overflow (int_overflow p + 1) p)
  else set_vruntime (vnum p / weight p) p.

Lemma approx_compare s n w k : 0 < w -> Z.abs (s * w - n * dunit) < dunit ->
  (n mod w = 0 -> s * w = n * dunit) -> (k * dunit <? s) = (k * w <? n).
Proof.
  intros Hw Herr Hex. pose proof dunit_pos as Hu.
  destruct (Z.ltb_spec (k * w) n) as [Hlt|Hge]; [apply Z.ltb_lt|apply Z.ltb_ge].
  - assert (k * dunit * w < s * w); nia.
  - destruct (decide (n = k * w)) as [->|Hne].
    + rewrite Z.mod_mul in Hex by lia. specialize (Hex eq_refl).
      assert (s * w = k * dunit * w) by lia. nia.
    + assert (s * w <= k * dunit * w); nia.
Qed.

Lemma vruntimeupdate_eq p : vt_ok p -> 1024 * ran p <= 2147483647 * weight p ->
  vruntimeupdate p = Ok (vruntime_exact p).
Proof.
  intros [Hv Hw Ho] Hr. unfold vruntimeupdate, vruntime_exact. fold (ran p).
  assert (Hran : 0 <= ran p < 4294967296) by apply u32_range.
  destruct (Z.eqb_spec (weight p) 0); [lia|]. unfold dgt.
  destruct (step_sum (vruntime p) (ran p) (weight p)) as [He Hx]; [lia..|].
  set (s := dadd _ _) in *. rewrite (dofZ_exact 2147483647) by lia.
  rewrite (approx_compare s (vnum p) (weight p)) by (done || lia).
  destruct (Z.ltb_spec (2147483647 * weight p) (vnum p)) as [Hlt|Hge].
  - destruct (Z.eqb_spec (int_overflow p) 2147483647); [lia|].
    rewrite <-(dofZ_exact 2147483647) by lia.
    destruct (wrap_sum (vruntime p) (ran p) (weight p)) as [He' Hx']; [lia..|].
    set (z := dadd (dofZ (vruntime p)) (dsub _ _)) in *. unfold d2u.
    assert (Ht : dtrunc z = vnum p / weight p - 2147483647).
    { rewrite (dtrunc_floor z (vruntime p * weight p + 1024 * ran p - 2147483647 * weight p) (weight p));
        try done; unfold vnum in *; [|lia..].
      replace (vruntime p * weight p + 1024 * ran p - 2147483647 * weight p)
        with (vruntime p * weight p + 1024 * ran p + (- 2147483647) * weight p) by ring.
      rewrite Z.div_add by lia. lia. }
    rewrite Ht, in_range_true; [done|]. unfold vnum in *.
    assert (Hfl : 2147483647 <= (vruntime p * weight p + 1024 * ran p) / weight p)
      by (apply Z.div_le_lower_bound; lia).
    rewrite Z.add_comm, Z.div_add in * by lia.
    assert (1024 * ran p / weight p <= 2147483647) by (apply Z.div_le_upper_bound; lia). lia.
  - unfold d2u. rewrite (dtrunc_floor s (vnum p) (weight p)); unfold vnum in *; try done; [|lia|nia].
    assert (0 <= (vruntime p * weight p + 1024 * ran p) / weight p) by (apply Z.div_pos; nia).
    assert ((vruntime p * weight p + 1024 * ran p) / weight p <= 2147483647)
      by (apply Z.div_le_upper_bound; lia).
    rewrite in_range_true by lia. done.
Qed.

Lemma vruntime_exact_vtime p : 0 < weight p ->
  vtime (vruntime_exact p) = vtime p + 1024 * ran p / weight p.
Proof.
  intros Hw. unfold vtime, vruntime_exact.
  assert (Hq : vnum p / weight p = vruntime p + 1024 * ran p / weight p).
  { unfold vnum. rewrite Z.add_comm, Z.div_add by lia. lia. }
  destruct (Z.ltb_spec (2147483647 * weight p) (vnum p)); simpl; lia.
Qed.

Lemma vruntime_exact_range p : vt_ok p -> 1024 * ran p <= 2147483647 * weight p ->
  0 <= vruntime (vruntime_exact p) < 4294967296 /\
  (vruntime p <= 2147483647 -> vruntime (vruntime_exact p) <= 2147483647).
Proof.
  intros [Hv Hw Ho] Hr. unfold vruntime_exact, vnum.
  pose proof (u32_range (actual_runtime p - scheduled_time p)) as Hran. fold (ran p) in Hran.
  assert (1024 * ran p / weight p <= 2147483647) by (apply Z.div_le_upper_bound; lia).
  assert (0 <= 1024 * ran p / weight p) by (apply Z.div_pos; lia).
  assert (Hq : (vruntime p * weight p + 1024 * ran p) / weight p = 1024 * ran p / weight p + vruntime p).
  { by rewrite Z.add_comm, Z.div_add by lia. }
  destruct (Z.ltb_spec (2147483647 * weight p) (vruntime p * weight p + 1024 * ran p)) as [Hlt|Hge]; simpl.
  - assert (2147483647 <= (vruntime p * weight p + 1024 * ran p) / weight p)
      by (apply Z.div_le_lower_bound; lia). lia.
  - assert ((vruntime p * weight p + 1024 * ran p) / weight p <= 2147483647)
      by (apply Z.div_le_upper_bound; lia). lia.
Qed.

(** ** The scheduler's choice *)
Lemma shorter_irrefl p : shorter p p = false.
Proof. unfold shorter. rewrite !Z.ltb_irrefl, Z.eqb_refl. done. Qed.

Lemma shorter_spec p q : shorter p q = true <->
  int_overflow p < int_overflow q \/ (int_overflow p = int_overflow q /\ vruntime p < vruntime q).
Proof. unfold shorter. rewrite orb_true_iff, andb_true_iff, !Z.ltb_lt, Z.eqb_eq. tauto. Qed.

Lemma shorter_false p q : shorter p q = false <->
  int_overflow q < int_overflow p \/ (int_overflow p = int_overflow q /\ vruntime q <= vruntime p).
Proof. rewrite <-not_true_iff_false, shorter_spec. lia. Qed.

(** What the search from slot [i] on returns: the first process not longer
    than any RUNNABLE one, starting from the candidate it is given. *)
Lemma shortest_from_spec ps : forall i best b,
  let r := shortest_from i ps best b in
  (r = (best, b) /\ forall k q, ps !! k = Some q -> runnable q = true -> shorter q b = false) \/
  (exists k, ps !! k = Some r.2 /\ r.1 = (i + k)%nat /\ runnable r.2 = true /\ shorter r.2 b = true /\
     (forall k' q, ps !! k' = Some q -> runnable q = true -> shorter q r.2 = false) /\
     (forall k' q, (k' < k)%nat -> ps !! k' = Some q -> runnable q = true -> shorter r.2 q = true)).
Proof.
  induction ps as [|p ps IH]; intros i best b; cbn [shortest_from]; [by left|].
  destruct (runnable p && shorter p b) eqn:Ep; [apply andb_true_iff in Ep as [Hr Hs]|].
  - right. destruct (IH (S i) i p) as [[-> Hall]|(k & Hk & Hi & Hrun & Hsh & Hall & Hfst)].
    + exists O. split; [done|]. split; [simpl; lia|]. split; [done|]. split; [done|]. split.
      * intros [|k'] q; simpl; [intros [= <-] _; apply shorter_irrefl|by apply Hall].
      * intros k' q ?. lia.
    + rewrite shorter_spec in Hsh, Hs. exists (S k). split; [done|]. split; [lia|]. split; [done|].
      split; [rewrite shorter_spec; lia|]. split.
      * intros [|k'] q; simpl; [|by apply Hall]. intros [= <-] _. rewrite shorter_false. lia.
      * intros [|k'] q Hlt; simpl; [intros [= <-] _; by rewrite shorter_spec|].
        intros Hq Hrq. apply (Hfst k' q); [lia|done|done].
  - destruct (IH (S i) best b) as [[-> Hall]|(k & Hk & Hi & Hrun & Hsh & Hall & Hfst)].
    + left. split; [done|]. intros [|k'] q; simpl; [|by apply Hall].
      intros [= <-] Hr. by rewrite Hr in Ep.
    + right. exists (S k). split; [done|]. split; [lia|]. split; [done|]. split; [done|]. split.
      * intros [|k'] q; simpl; [|by apply Hall]. intros [= <-] Hr. rewrite Hr in Ep. simpl in Ep.
        rewrite shorter_false in *. rewrite shorter_spec in Hsh. lia.
      * intros [|k'] q Hlt; simpl; [|by intros; apply (Hfst k'); [lia|..]].
        intros [= <-] Hr. rewrite Hr in Ep. simpl in Ep. rewrite shorter_false in Ep.
        rewrite shorter_spec in *. lia.
Qed.

Lemma first_runnable_spec ps : forall i,
  match first_runnable i ps with
  | None => forall k q, ps !! k = Some q -> runnable q = false
  | Some (j, p) => exists k, j = (i + k)%nat /\ ps !! k = Some p /\ runnable p = true /\
      forall k' q, (k' < k)%nat -> ps !! k' = Some q -> runnable q = false
  end.
Proof.
  induction ps as [|p ps IH]; intros i; cbn [first_runnable]; [done|].
  destruct (runnable p) eqn:Er.
  - exists O. split_and!; [lia|done|done|lia].
  - specialize (IH (S i)). destruct (first_runnable (S i) ps) as [[j q]|].
    + destruct IH as (k & -> & Hk & Hr & Hf). exists (S k). split_and!; [lia|done|done|].
      intros [|k'] q' Hlt; simpl; [by intros [= <-]|]. apply Hf. lia.
    + intros [|k] q; simpl; [by intros [= <-]|apply IH].
Qed.

Lemma pick_spec ps :
  match pick ps with
  | None => forall k q, ps !! k = Some q -> runnable q = false
  | Some (i, p) => ps !! i = Some p /\ runnable p = true /\
      (forall k q, ps !! k = Some q -> runnable q = true -> shorter q p = false) /\
      (forall k q, (k < i)%nat -> ps !! k = Some q -> runnable q = true -> shorter p q = true)
  end.
Proof.
  unfold pick. pose proof (first_runnable_spec ps 0) as Hf.
  destruct (first_runnable 0 ps) as [[j b]|]; [|done].
  destruct Hf as (k & -> & Hk & Hr & Hlow). simpl.
  destruct (shortest_from_spec ps 0 k b) as [[-> Hall]|(k' & Hk' & Hi & Hrun & Hsh & Hall & Hfst)].
  - split_and!; try done. intros k' q Hlt Hq Hrq. by rewrite (Hlow k' q) in Hrq.
  - destruct (shortest_from 0 ps k b) as [i p]; simpl in *. subst i. by split_and!.
Qed.

(** ** Running the operations on the table *)
Definition with_procs (s : ptable) (ps : list proc) : ptable := lset procsL ps s.
Definition with_cpu (s : ptable) (me : nat) (c : pcpu) : ptable := lset cpusL (<[me := c]> (pcpus s)) s.
Definition with_lock (s : ptable) (b : bool) : ptable := lset plockL b s.

Definition pushed_cpu (c : pcpu) : pcpu :=
  Pcpu (c_proc c) (c_esp0 c) (c_cr3 c) false (c_ncli c + 1)
    (if c_ncli c =? 0 then b2z (c_if c) else c_intena c).
Definition popped_cpu (c : pcpu) : pcpu :=
  Pcpu (c_proc c) (c_esp0 c) (c_cr3 c) ((c_ncli c - 1 =? 0) && truthy (c_intena c))
    (c_ncli c - 1) (c_intena c).

Lemma alter_some {A} (f : A -> A) (l : list A) i x : l !! i = Some x -> alter f i l = <[i := f x]> l.
Proof.
  revert i. induction l as [|y l IH]; intros [|i] H; simplify_eq/=; [done|]. f_equal. by apply IH.
Qed.

Lemma get_proc_ok i s p : procs s !! i = Some p -> get_proc i s = Ok (p, s).
Proof. intros H. unfold get_proc. by rewrite H. Qed.
Lemma upd_proc_ok i f s p : procs s !! i = Some p ->
  upd_proc i f s = Ok (tt, with_procs s (<[i := f p]> (procs s))).
Proof. intros H. unfold upd_proc, modify. by rewrite (alter_some f _ i p). Qed.
Lemma get_pcpu_ok me s c : pcpus s !! me = Some c -> get_pcpu me s = Ok (c, s).
Proof. intros H. unfold get_pcpu. by rewrite H. Qed.
Lemma upd_pcpu_ok me f s c : pcpus s !! me = Some c -> upd_pcpu me f s = Ok (tt, with_cpu s me (f c)).
Proof. intros H. unfold upd_pcpu, modify. by rewrite (alter_some f _ me c). Qed.

Lemma cpu_pushcli_ok me s c : pcpus s !! me = Some c ->
  cpu_pushcli me s = Ok (tt, with_cpu s me (pushed_cpu c)).
Proof.
  intros H. unfold cpu_pushcli. rewrite (bind_ok _ _ _ _ _ (get_pcpu_ok me s c H)).
  by rewrite (upd_pcpu_ok _ _ _ c).
Qed.

Lemma cpu_popcli_ok me s c : pcpus s !! me = Some c -> c_if c = false -> 0 < c_ncli c ->
  cpu_popcli me s = Ok (tt, with_cpu s me (popped_cpu c)).
Proof.
  intros H Hi Hn. unfold cpu_popcli. rewrite (bind_ok _ _ _ _ _ (get_pcpu_ok me s c H)), Hi.
  destruct (Z.ltb_spec (c_ncli c - 1) 0); [lia|]. by rewrite (upd_pcpu_ok _ _ _ c).
Qed.

Lemma pt_acquire_ok me s c : pcpus s !! me = Some c -> plock s = false ->
  pt_acquire me s = Ok (tt, with_lock (with_cpu s me (pushed_cpu c)) true).
Proof.
  intros H Hl. unfold pt_acquire. rewrite (bind_ok _ _ _ _ _ (cpu_pushcli_ok me s c H)).
  unfold zoom. simpl. by rewrite Hl.
Qed.

Lemma pt_release_ok me s c : pcpus s !! me = Some c -> plock s = true -> c_if c = false ->
  0 < c_ncli c -> pt_release me s = Ok (tt, with_cpu (with_lock s false) me (popped_cpu c)).
Proof.
  intros H Hl Hi Hn. unfold pt_release.
  assert (Hz : zoom plockL lk_release s = Ok (tt, with_lock s false)).
  { unfold zoom. simpl. by rewrite Hl. }
  rewrite (bind_ok _ _ _ _ _ Hz). by apply cpu_popcli_ok.
Qed.

(** What an operation of CPU [me] leaves alone. *)
Definition same_rest (me : nat) (s s' : ptable) : Prop :=
  initproc s' = initproc s /\ nextpid s' = nextpid s /\ kpgdir s' = kpgdir s /\
  length (pcpus s') = length (pcpus s) /\
  (forall c, c <> me -> pcpus s' !! c = pcpus s !! c).

Lemma same_rest_refl me s : same_rest me s s.
Proof. by repeat split. Qed.
Lemma same_rest_trans me s1 s2 s3 : same_rest me s1 s2 -> same_rest me s2 s3 -> same_rest me s1 s3.
Proof.
  intros (A1 & A2 & A3 & A4 & A5) (B1 & B2 & B3 & B4 & B5). split_and!; try congruence.
  intros c Hc. by rewrite B5, A5.
Qed.
Lemma same_rest_procs me s ps : same_rest me s (with_procs s ps).
Proof. by repeat split. Qed.
Lemma same_rest_lock me s b : same_rest me s (with_lock s b).
Proof. by repeat split. Qed.
Lemma same_rest_cpu me s x : same_rest me s (with_cpu s me x).
Proof.
  split_and!; try done; simpl; [apply length_insert|]. intros c Hc. by rewrite list_lookup_insert_ne.
Qed.
Ltac rest := repeat first [apply same_rest_refl
  | eapply same_rest_trans; [|apply same_rest_cpu]
  | eapply same_rest_trans; [|apply same_rest_lock]
  | eapply same_rest_trans; [|apply same_rest_procs]].

Lemma with_cpu_lookup s me c x : pcpus s !! me = Some c -> pcpus (with_cpu s me x) !! me = Some x.
Proof. intros H. simpl. apply list_lookup_insert_eq. by eapply lookup_lt_Some. Qed.

Opaque slice.
Definition dispatched (p : proc) (total : Z) : proc :=
  set_state RUNNING (set_scheduled_time (actual_runtime p) (set_time_slice (slice (weight p) total) p)).

Lemma scheduler_pick_none me s c :
  pcpus s !! me = Some c -> plock s = false -> 0 <= c_ncli c -> pick (procs s) = None ->
  exists s' x, scheduler_pick me s = Ok (None, s') /\ procs s' = procs s /\ plock s' = false /\
    same_rest me s s' /\ pcpus s' !! me = Some x /\ c_proc x = c_proc c /\ c_ncli x = c_ncli c.
Proof.
  intros Hc Hl Hn Hp. unfold scheduler_pick, cpu_sti.
  rewrite (bind_ok _ _ _ _ _ (upd_pcpu_ok me _ s c Hc)).
  set (s1 := with_cpu s me _). pose proof (with_cpu_lookup s me c _ Hc : pcpus s1 !! me = Some _) as H1.
  rewrite (bind_ok _ _ _ _ _ (pt_acquire_ok me s1 _ H1 Hl)).
  set (s2 := with_lock _ true).
  pose proof (with_cpu_lookup s1 me _ (pushed_cpu _) H1 : pcpus s2 !! me = Some _) as H2.
  rewrite bind_gets. change (procs s2) with (procs s). rewrite Hp.
  rewrite (bind_ok _ _ _ _ _ (pt_release_ok me s2 _ H2 eq_refl eq_refl ltac:(simpl; lia))).
  set (x2 := pushed_cpu _) in *. eexists _, (popped_cpu x2).
  split; [done|]. split; [done|]. split; [done|]. split; [rest|].
  split; [exact (with_cpu_lookup (with_lock s2 false) me x2 (popped_cpu x2) H2)|].
  split; [done|simpl; lia].
Qed.

Lemma switchuvm_ok me i s c p :
  pcpus s !! me = Some c -> procs s !! i = Some p -> kstack p <> 0 -> pgdir p <> 0 ->
  0 < c_ncli c -> exists x,
  switchuvm me (Some i) s = Ok (tt, with_cpu s me x) /\ c_proc x = c_proc c /\
    c_cr3 x = V2P (pgdir p) /\ c_if x = false /\ c_ncli x = c_ncli c /\ c_intena x = c_intena c.
Proof.
  intros Hc Hp Hk Hd Hn. unfold switchuvm. rewrite (bind_ok _ _ _ _ _ (get_proc_ok i s p Hp)).
  destruct (Z.eqb_spec (kstack p) 0); [done|]. destruct (Z.eqb_spec (pgdir p) 0); [done|].
  rewrite (bind_ok _ _ _ _ _ (cpu_pushcli_ok me s c Hc)).
  pose proof (with_cpu_lookup s me c (pushed_cpu c) Hc) as H1.
  rewrite (bind_ok _ _ _ _ _ (upd_pcpu_ok me _ _ _ H1)).
  set (x := Pcpu _ _ _ _ _ _).
  pose proof (with_cpu_lookup _ me _ x H1) as H2.
  rewrite (cpu_popcli_ok me _ x H2 eq_refl) by (simpl; lia).
  exists (popped_cpu x). split_and!; try done.
  - unfold with_cpu. simpl. by rewrite !list_insert_insert_eq.
  - simpl. destruct (Z.eqb_spec (c_ncli c + 1 - 1) 0); [lia|done].
  - simpl. lia.
  - simpl. destruct (Z.eqb_spec (c_ncli c) 0); [lia|done].
Qed.

Lemma scheduler_pick_some me s c i p :
  pcpus s !! me = Some c -> plock s = false -> c_ncli c = 0 -> pick (procs s) = Some (i, p) ->
  u32 (totalweight (procs s)) <> 0 -> kstack p <> 0 -> pgdir p <> 0 ->
  exists s' x, scheduler_pick me s = Ok (Some i, s') /\
    procs s' = <[i := dispatched p (u32 (totalweight (procs s)))]> (procs s) /\
    plock s' = true /\ same_rest me s s' /\ pcpus s' !! me = Some x /\ c_proc x = Some i /\
    c_cr3 x = V2P (pgdir p) /\ c_if x = false /\ c_ncli x = 1 /\ c_intena x = 1.
Proof.
  intros Hc Hl Hn Hp Ht Hk Hd. unfold scheduler_pick, cpu_sti.
  pose proof (pick_spec (procs s)) as Hps. rewrite Hp in Hps. destruct Hps as (Hi & _).
  assert (Hlt : (i < length (procs s))%nat) by by eapply lookup_lt_Some.
  rewrite (bind_ok _ _ _ _ _ (upd_pcpu_ok me _ s c Hc)).
  set (s1 := with_cpu s me _). pose proof (with_cpu_lookup s me c _ Hc : pcpus s1 !! me = Some _) as H1.
  rewrite (bind_ok _ _ _ _ _ (pt_acquire_ok me s1 _ H1 Hl)).
  set (s2 := with_lock _ true).
  pose proof (with_cpu_lookup s1 me _ (pushed_cpu _) H1 : pcpus s2 !! me = Some _) as H2.
  rewrite bind_gets. change (procs s2) with (procs s). rewrite Hp.
  destruct (Z.eqb_spec (u32 (totalweight (procs s))) 0); [done|].
  set (total := u32 (totalweight (procs s))) in *.
  assert (Hret : (mret tt : M ptable unit) s2 = Ok (tt, s2)) by done.
  rewrite (bind_ok _ _ _ _ _ Hret).
  rewrite (bind_ok _ _ _ _ _ (upd_proc_ok i _ s2 p Hi)). set (s3 := with_procs s2 _).
  assert (Hi3 : procs s3 !! i = Some (set_time_slice (slice (weight p) total) p))
    by (simpl; by apply list_lookup_insert_eq).
  rewrite (bind_ok _ _ _ _ _ (upd_proc_ok i _ s3 _ Hi3)). set (s4 := with_procs s3 _).
  assert (Hi4 : procs s4 !! i = Some (set_scheduled_time (actual_runtime p) (set_time_slice (slice (weight p) total) p)))
    by (simpl; apply list_lookup_insert_eq; by rewrite length_insert).
  unfold set_cproc. rewrite (bind_ok _ _ _ _ _ (upd_pcpu_ok me _ s4 _ H2)).
  set (x5 := Pcpu (Some i) _ _ _ _ _). set (s5 := with_cpu s4 me x5).
  pose proof (with_cpu_lookup s4 me _ x5 H2 : pcpus s5 !! me = Some x5) as H5.
  destruct (switchuvm_ok me i s5 x5 _ H5 Hi4 Hk Hd) as (x & Hsw & Hx1 & Hx2 & Hx3 & Hx4 & Hx5); [simpl; lia|].
  rewrite (bind_ok _ _ _ _ _ Hsw). rewrite (bind_ok _ _ _ _ _ (upd_proc_ok i _ (with_cpu s5 me x) _ Hi4)).
  eexists _, x. split; [done|]. split; [simpl; by rewrite !list_insert_insert_eq|].
  split; [done|]. split; [rest|]. split_and!; try done.
  - simpl. apply list_lookup_insert_eq. rewrite !length_insert. by eapply lookup_lt_Some.
  - rewrite Hx4. simpl. lia.
  - rewrite Hx5. simpl. by rewrite Hn.
Qed.

(** ** The total weight and the time slice *)
Fixpoint sum_weights (ps : list proc) : Z :=
  match ps with
  | [] => 0
  | p :: ps' => (if decide (state p = UNUSED) then 0 else weight p) + sum_weights ps'
  end.

Definition weights_ok (ps : list proc) : Prop :=
  Forall (fun p => state p <> UNUSED -> 0 < weight p <= 88818) ps.

Lemma sum_weights_bound ps : weights_ok ps -> 0 <= sum_weights ps <= 88818 * Z.of_nat (length ps).
Proof.
  induction 1 as [|p ps Hp H IH]; simpl; [lia|]. destruct (decide (state p = UNUSED)); [lia|].
  specialize (Hp n). lia.
Qed.

Lemma totalweight_fold ps : forall t, weights_ok ps -> 0 <= t ->
  t + 88818 * Z.of_nat (length ps) < 2147483648 ->
  foldl (fun t p => if decide (state p = UNUSED) then t else s32 (t + weight p)) t ps
    = t + sum_weights ps.
Proof.
  induction ps as [|p ps IH]; intros t H Ht Hb; simpl; [lia|]. inversion H as [|? ? Hp Hps]; subst.
  simpl in Hb. destruct (decide (state p = UNUSED)) as [|Hne].
  - rewrite IH by (done || lia). lia.
  - specialize (Hp Hne). rewrite s32_small by lia. rewrite IH by (done || lia). lia.
Qed.

(** The sum never wraps: 64 slots of at most 88818. *)
Lemma totalweight_sum ps : weights_ok ps -> (length ps <= 64)%nat ->
  totalweight ps = sum_weights ps.
Proof. intros H Hl. unfold totalweight. rewrite totalweight_fold by (done || lia). lia. Qed.

Lemma sum_weights_elem ps i p : weights_ok ps -> ps !! i = Some p -> state p <> UNUSED ->
  weight p <= sum_weights ps.
Proof.
  intros H. revert i. induction H as [|q ps Hq H IH]; intros [|i] Hi Hne; simplify_eq/=.
  - rewrite decide_False by done. pose proof (sum_weights_bound ps H). lia.
  - specialize (IH i Hi Hne). destruct (decide (state q = UNUSED)) as [|Hn]; [lia|].
    specialize (Hq Hn). lia.
Qed.

Lemma slice_eq w total : 0 < w <= total -> total < 4294967296 ->
  slice w total = if total <=? 2 * w then 10000 else 0.
Proof.
  intros Hw Ht. Transparent slice. unfold slice. Opaque slice. rewrite round_half by lia.
  destruct (Z.leb_spec total (2 * w)) as [H|H].
  - replace ((2 * w + total) / (2 * total)) with 1; [done|].
    apply Z.div_unique with (2 * w - total); lia.
  - rewrite Z.div_small by lia. done.
Qed.

Lemma curproc_ok me s c i : pcpus s !! me = Some c -> c_proc c = Some i -> curproc me s = Ok (i, s).
Proof.
  intros Hc Hi. unfold curproc, myproc, mbind, M_bind. rewrite (get_pcpu_ok me s c Hc). simpl.
  by rewrite Hi.
Qed.

Definition ticked (n : Z) (p : proc) : proc := set_actual_runtime (u32 (actual_runtime p + 1000 * n)) p.

Lemma ticked_ran n p : 0 <= n -> ran p + 1000 * n < 4294967296 -> ran (ticked n p) = ran p + 1000 * n.
Proof.
  intros Hn Hb. pose proof (u32_range (actual_runtime p - scheduled_time p)) as Hr. fold (ran p) in Hr.
  unfold ran, ticked in *. simpl. unfold u32 in *. rewrite Zminus_mod_idemp_l.
  replace (actual_runtime p + 1000 * n - scheduled_time p)
    with (actual_runtime p - scheduled_time p + 1000 * n) by lia.
  rewrite <-Zplus_mod_idemp_l. apply Z.mod_small. lia.
Qed.

Lemma ticked_ticked m n p : ticked n (ticked m p) = ticked (m + n) p.
Proof.
  unfold ticked. destruct p. unfold set_actual_runtime. cbn. f_equal.
  unfold u32. rewrite Zplus_mod_idemp_l. f_equal. lia.
Qed.

Lemma timer_charge_ok me i c s p :
  pcpus s !! me = Some c -> c_proc c = Some i -> procs s !! i = Some p ->
  timer_charge me s = Ok (time_slice p <=? ran (ticked 1 p), with_procs s (<[i := ticked 1 p]> (procs s))).
Proof.
  intros Hc Hi Hp. unfold timer_charge. rewrite (bind_ok _ _ _ _ _ (curproc_ok me s c i Hc Hi)).
  rewrite (bind_ok _ _ _ _ _ (upd_proc_ok i _ s p Hp)).
  assert (Hl : (i < length (procs s))%nat) by by eapply lookup_lt_Some.
  rewrite (bind_ok _ _ _ _ _ (get_proc_ok i (with_procs s (<[i := ticked 1 p]> (procs s))) (ticked 1 p)
    (list_lookup_insert_eq _ _ _ Hl))). done.
Qed.

Lemma sched_resume_ok me s c i p :
  pcpus s !! me = Some c -> c_proc c = Some i -> procs s !! i = Some p ->
  sched_resume me s = Ok (tt, with_cpu s me
    (Pcpu (c_proc c) (c_esp0 c) (c_cr3 c) (c_if c) (c_ncli c) (ctx_intena p))).
Proof.
  intros Hc Hi Hp. unfold sched_resume. rewrite (bind_ok _ _ _ _ _ (curproc_ok me s c i Hc Hi)).
  rewrite (bind_ok _ _ _ _ _ (get_proc_ok i s p Hp)). by rewrite (upd_pcpu_ok me _ s c Hc).
Qed.

(** Resuming in yield: back to the process, with its interrupt state. *)
Lemma yield_in_ok me s c i p :
  pcpus s !! me = Some c -> c_proc c = Some i -> procs s !! i = Some p -> plock s = true ->
  c_if c = false -> c_ncli c = 1 ->
  exists s' x, yield_in me s = Ok (tt, s') /\ procs s' = procs s /\ plock s' = false /\
    same_rest me s s' /\ pcpus s' !! me = Some x /\ c_proc x = Some i /\ c_ncli x = 0 /\
    c_intena x = ctx_intena p /\ c_if x = truthy (ctx_intena p) /\ c_cr3 x = c_cr3 c.
Proof.
  intros Hc Hi Hp Hl Hif Hn. unfold yield_in.
  rewrite (bind_ok _ _ _ _ _ (sched_resume_ok me s c i p Hc Hi Hp)).
  set (x1 := Pcpu _ _ _ _ _ _). pose proof (with_cpu_lookup s me c x1 Hc) as H1.
  rewrite (pt_release_ok me _ x1 H1); [|done|done|simpl; lia].
  eexists _, (popped_cpu x1). split; [done|]. split; [done|]. split; [done|]. split; [rest|].
  split; [simpl; apply list_lookup_insert_eq; rewrite length_insert; by eapply lookup_lt_Some|].
  simpl. rewrite Hn. split_and!; done.
Qed.

Lemma upd_vruntime_ok i s p p' : procs s !! i = Some p -> vruntimeupdate p = Ok p' ->
  upd_vruntime i s = Ok (tt, with_procs s (<[i := p']> (procs s))).
Proof.
  intros Hp Hv. unfold upd_vruntime. rewrite (bind_ok _ _ _ _ _ (get_proc_ok i s p Hp)), Hv.
  by rewrite (upd_proc_ok i _ s p Hp).
Qed.

Lemma sched_ok me s c i p :
  pcpus s !! me = Some c -> c_proc c = Some i -> procs s !! i = Some p -> plock s = true ->
  c_ncli c = 1 -> c_if c = false -> state p <> RUNNING ->
  sched me s = Ok (tt, with_procs s (<[i := set_ctx_intena (c_intena c) p]> (procs s))).
Proof.
  intros Hc Hi Hp Hl Hn Hif Hst. unfold sched.
  rewrite (bind_ok _ _ _ _ _ (curproc_ok me s c i Hc Hi)), bind_gets, Hl.
  unfold mbind at 1, M_bind at 1. simpl. rewrite (bind_ok _ _ _ _ _ (get_pcpu_ok me s c Hc)), Hn.
  unfold mbind at 1, M_bind at 1. simpl. rewrite (bind_ok _ _ _ _ _ (get_proc_ok i s p Hp)).
  rewrite decide_False by done. unfold mbind at 1, M_bind at 1. simpl. rewrite Hif.
  unfold mbind at 1, M_bind at 1. simpl. by rewrite (upd_proc_ok i _ s p Hp).
Qed.

(** Leaving the CPU: lock taken, [f] applied to the process, sched passed. *)
Lemma yield_out_ok me s c i p p' :
  pcpus s !! me = Some c -> c_proc c = Some i -> procs s !! i = Some p -> plock s = false ->
  c_ncli c = 0 -> vruntimeupdate p = Ok p' ->
  exists s' x, yield_out me s = Ok (tt, s') /\
    procs s' = <[i := set_ctx_intena (b2z (c_if c)) (set_state RUNNABLE p')]> (procs s) /\
    plock s' = true /\ same_rest me s s' /\ pcpus s' !! me = Some x /\ c_proc x = Some i /\
    c_ncli x = 1 /\ c_if x = false.
Proof.
  intros Hc Hi Hp Hl Hn Hv. unfold yield_out.
  assert (Hlt : (i < length (procs s))%nat) by by eapply lookup_lt_Some.
  rewrite (bind_ok _ _ _ _ _ (pt_acquire_ok me s c Hc Hl)). set (s1 := with_lock _ true).
  pose proof (with_cpu_lookup s me c (pushed_cpu c) Hc : pcpus s1 !! me = Some _) as H1.
  rewrite (bind_ok _ _ _ _ _ (curproc_ok me s1 _ i H1 Hi)).
  rewrite (bind_ok _ _ _ _ _ (upd_vruntime_ok i s1 p p' Hp Hv)). set (s2 := with_procs s1 _).
  assert (Hp2 : procs s2 !! i = Some p') by (simpl; by apply list_lookup_insert_eq).
  rewrite (bind_ok _ _ _ _ _ (upd_proc_ok i _ s2 p' Hp2)). set (s3 := with_procs s2 _).
  assert (Hp3 : procs s3 !! i = Some (set_state RUNNABLE p'))
    by (simpl; apply list_lookup_insert_eq; by rewrite length_insert).
  rewrite (sched_ok me s3 (pushed_cpu c) i _ H1 Hi Hp3 eq_refl); [|simpl; lia|done|done].
  eexists _, (pushed_cpu c). split; [done|]. split.
  { simpl. rewrite Hn, !list_insert_insert_eq. done. }
  split; [done|]. split; [rest|]. split; [done|]. split; [done|]. split; [simpl; lia|done].
Qed.

Lemma scheduler_back_ok me s c :
  pcpus s !! me = Some c -> plock s = true -> c_ncli c = 1 -> c_if c = false ->
  exists s' x, scheduler_back me s = Ok (tt, s') /\ procs s' = procs s /\ plock s' = false /\
    same_rest me s s' /\ pcpus s' !! me = Some x /\ c_proc x = None /\ c_ncli x = 0 /\
    c_cr3 x = V2P (kpgdir s).
Proof.
  intros Hc Hl Hn Hif. unfold scheduler_back, switchkvm, set_cproc.
  assert (Hk : (k ← gets kpgdir; upd_pcpu me (fun x => Pcpu (c_proc x) (c_esp0 x) (V2P k) (c_if x) (c_ncli x) (c_intena x))) s
    = Ok (tt, with_cpu s me (Pcpu (c_proc c) (c_esp0 c) (V2P (kpgdir s)) (c_if c) (c_ncli c) (c_intena c)))).
  { rewrite bind_gets. by rewrite (upd_pcpu_ok me _ s c Hc). }
  rewrite (bind_ok _ _ _ _ _ Hk). set (x1 := Pcpu _ _ _ _ _ _). set (s1 := with_cpu s me x1).
  pose proof (with_cpu_lookup s me c x1 Hc : pcpus s1 !! me = Some x1) as H1.
  rewrite (bind_ok _ _ _ _ _ (upd_pcpu_ok me _ s1 x1 H1)). set (x2 := Pcpu None _ _ _ _ _).
  set (s2 := with_cpu s1 me x2).
  pose proof (with_cpu_lookup s1 me x1 x2 H1 : pcpus s2 !! me = Some x2) as H2.
  rewrite (pt_release_ok me s2 x2 H2); [|done|done|simpl; lia].
  eexists _, (popped_cpu x2). split; [done|]. split; [done|]. split; [done|]. split; [rest|].
  split; [simpl; apply list_lookup_insert_eq; rewrite !length_insert; by eapply lookup_lt_Some|].
  split; [done|]. split; [simpl; lia|done].
Qed.

Lemma vruntime_exact_fields p :
  weight (vruntime_exact p) = weight p /\ kstack (vruntime_exact p) = kstack p /\
  pgdir (vruntime_exact p) = pgdir p /\ pid (vruntime_exact p) = pid p /\
  nice (vruntime_exact p) = nice p /\ state (vruntime_exact p) = state p /\
  int_overflow p <= int_overflow (vruntime_exact p) <= int_overflow p + 1.
Proof. unfold vruntime_exact. destruct (_ <? _); simpl; split_and!; try done; lia. Qed.

(** ** Wakeups *)
Definition sleeping_on (ch : Z) (p : proc) : bool := bool_decide (state p = SLEEPING) && (chan p =? ch).

(** [p'] is [p] after wakeup1(ch): made runnable with a new virtual time if it
    slept on [ch], untouched otherwise. *)
Definition awakened (ch : Z) (p p' : proc) : Prop :=
  if sleeping_on ch p
  then exists v o, 0 <= v < 4294967296 /\ p' = set_int_overflow o (set_vruntime v (set_state RUNNABLE p))
  else p' = p.

Lemma last_index_spec ps : forall i,
  match last_index i ps with
  | None => forall k q, ps !! k = Some q -> runnable q = true
  | Some j => exists k q, j = (i + k)%nat /\ ps !! k = Some q /\ runnable q = false
  end.
Proof.
  induction ps as [|p ps IH]; intros i; cbn [last_index]; [done|].
  specialize (IH (S i)). destruct (last_index (S i) ps) as [j|].
  - destruct IH as (k & q & -> & Hk & Hr). exists (S k), q. split; [lia|done].
  - destruct (runnable p) eqn:Er.
    + intros [|k] q; simpl; [by intros [= <-]|apply IH].
    + exists O, p. split; [lia|done].
Qed.

Lemma shortest_from_lt ps i best b : (best < i + length ps)%nat ->
  ((shortest_from i ps best b).1 < i + length ps)%nat.
Proof.
  revert i best b. induction ps as [|p ps IH]; intros i best b H; simpl in *; [lia|].
  destruct (_ && _); rewrite <-Nat.add_succ_comm; apply IH; lia.
Qed.

Definition vr_ok (p : proc) : Prop := 0 <= vruntime p < 4294967296 /\ (state p = SLEEPING -> weight p <> 0).

Lemma wake_slot_ok ch best i s p b :
  procs s !! i = Some p -> procs s !! best = Some b -> vr_ok p -> vr_ok b ->
  exists p', wake_slot ch best i s = Ok (tt, with_procs s (<[i := p']> (procs s))) /\
    awakened ch p p' /\ vr_ok p'.
Proof.
  intros Hi Hb [Hvp Hwp] [Hvb Hwb]. unfold wake_slot.
  rewrite (bind_ok _ _ _ _ _ (get_proc_ok i s p Hi)). unfold awakened, sleeping_on.
  assert (Hsame : with_procs s (<[i := p]> (procs s)) = s).
  { unfold with_procs. rewrite list_insert_id by done. by destruct s. }
  assert (Hlt : (i < length (procs s))%nat) by by eapply lookup_lt_Some.
  destruct (decide (state p = SLEEPING)) as [Hst|Hst].
  2: { rewrite bool_decide_false by done. exists p. rewrite Hsame. split_and!; done. }
  rewrite bool_decide_true by done. destruct (Z.eqb_spec (chan p) ch) as [Hch|Hch]; simpl.
  2: { exists p. rewrite Hsame. split_and!; done. }
  rewrite (bind_ok _ _ _ _ _ (upd_proc_ok i _ s p Hi)). set (s1 := with_procs s _).
  assert (Hget : exists b1, procs s1 !! best = Some b1 /\ 0 <= vruntime b1 < 4294967296).
  { destruct (decide (best = i)) as [->|Hne].
    - exists (set_state RUNNABLE p). split; [by apply list_lookup_insert_eq|done].
    - exists b. split; [simpl; by rewrite list_lookup_insert_ne|done]. }
  destruct Hget as (b1 & Hb1 & Hv1). rewrite (bind_ok _ _ _ _ _ (get_proc_ok best s1 b1 Hb1)).
  assert (Hi1 : procs s1 !! i = Some (set_state RUNNABLE p)) by (by apply list_lookup_insert_eq).
  destruct (negb (int_overflow b1 =? 0) || negb (vruntime b1 =? 0)).
  - destruct (Z.eqb_spec (weight p) 0) as [E0|_]; [by destruct (Hwp Hst)|].
    unfold mbind at 1, M_bind at 1. simpl.
    set (v := woken_vruntime (vruntime b1) (weight p)).
    rewrite (bind_ok _ _ _ _ _ (upd_proc_ok i _ s1 _ Hi1)). set (s2 := with_procs s1 _).
    assert (Hget2 : exists b2, procs s2 !! best = Some b2).
    { apply lookup_lt_is_Some. simpl. rewrite !length_insert. by eapply lookup_lt_Some. }
    destruct Hget2 as (b2 & Hb2). rewrite (bind_ok _ _ _ _ _ (get_proc_ok best s2 b2 Hb2)).
    assert (Hi2 : procs s2 !! i = Some (set_vruntime v (set_state RUNNABLE p)))
      by (apply list_lookup_insert_eq; simpl; by rewrite length_insert).
    rewrite (upd_proc_ok i _ s2 _ Hi2).
    exists (set_int_overflow (int_overflow b2) (set_vruntime v (set_state RUNNABLE p))).
    assert (Hv : 0 <= v < 4294967296) by apply u32_range.
    split; [|split; [by exists v, (int_overflow b2)|by split]].
    unfold with_procs. simpl. by rewrite !list_insert_insert_eq.
  - rewrite (bind_ok _ _ _ _ _ (upd_proc_ok i _ s1 _ Hi1)). set (s2 := with_procs s1 _).
    assert (Hi2 : procs s2 !! i = Some (set_vruntime (vruntime b1) (set_state RUNNABLE p)))
      by (apply list_lookup_insert_eq; simpl; by rewrite length_insert).
    rewrite (upd_proc_ok i _ s2 _ Hi2).
    exists (set_int_overflow 0 (set_vruntime (vruntime b1) (set_state RUNNABLE p))).
    split; [|split; [by exists (vruntime b1), 0|by split]].
    unfold with_procs. simpl. by rewrite !list_insert_insert_eq.
Qed.

Lemma wake_all ch best n : forall i s,
  (i + n = length (procs s))%nat -> (best < length (procs s))%nat -> Forall vr_ok (procs s) ->
  exists ps', for_each (seq i n) (wake_slot ch best) s = Ok (tt, with_procs s ps') /\
    length ps' = length (procs s) /\ take i ps' = take i (procs s) /\ Forall vr_ok ps' /\
    (forall k p, (i <= k)%nat -> procs s !! k = Some p -> exists p', ps' !! k = Some p' /\ awakened ch p p').
Proof.
  induction n as [|n IH]; intros i s Hlen Hb Hv; cbn [seq for_each].
  { exists (procs s). split; [by destruct s|]. split_and!; try done. intros k p Hk Hp.
    apply lookup_lt_Some in Hp. lia. }
  destruct (lookup_lt_is_Some_2 (procs s) i ltac:(lia)) as [p Hi].
  destruct (lookup_lt_is_Some_2 (procs s) best Hb) as [b Hbb].
  pose proof Hv as Hv'. rewrite Forall_lookup in Hv'.
  destruct (wake_slot_ok ch best i s p b Hi Hbb (Hv' i p Hi) (Hv' best b Hbb)) as (p' & R & Ha & Hv1).
  rewrite (bind_ok _ _ _ _ _ R). set (s1 := with_procs s _).
  destruct (IH (S i) s1) as (ps' & R' & L' & T' & V' & A').
  { change (procs s1) with (<[i := p']> (procs s)). rewrite length_insert. lia. }
  { change (procs s1) with (<[i := p']> (procs s)). by rewrite length_insert. }
  { by apply Forall_insert. }
  exists ps'. split; [by rewrite R'|].
  change (procs s1) with (<[i := p']> (procs s)) in L'. rewrite length_insert in L'.
  assert (Hlook : forall k, (k < S i)%nat -> ps' !! k = procs s1 !! k).
  { intros k Hk. rewrite <-(lookup_take_lt ps' (S i) k) by done. rewrite T'. by apply lookup_take_lt. }
  split_and!; [done| |done|].
  - apply list_eq. intros k. destruct (decide (k < i)%nat) as [Hk|Hk].
    + rewrite !lookup_take_lt by done. rewrite Hlook by lia. simpl. by rewrite list_lookup_insert_ne by lia.
    + rewrite !lookup_take_ge by lia. done.
  - intros k q Hk Hq. destruct (decide (k = i)) as [->|Hne].
    + exists p'. simplify_eq. rewrite Hlook by lia. split; [|done]. simpl.
      apply list_lookup_insert_eq. lia.
    + apply A'; [lia|]. simpl. by rewrite list_lookup_insert_ne by done.
Qed.

Lemma wakeup1_spec ch s :
  Forall vr_ok (procs s) -> (exists i p, procs s !! i = Some p /\ runnable p = false) ->
  exists ps', wakeup1 ch s = Ok (tt, with_procs s ps') /\ Forall2 (awakened ch) (procs s) ps' /\
    Forall vr_ok ps'.
Proof.
  intros Hv (j & pj & Hj & Hr). unfold wakeup1. rewrite bind_gets.
  pose proof (last_index_spec (procs s) 0) as Hl. destruct (last_index 0 (procs s)) as [k|].
  2: { by rewrite (Hl j pj Hj) in Hr. }
  destruct Hl as (k' & q & -> & Hq & _). simpl.
  assert (Hk : (k' < length (procs s))%nat) by by eapply lookup_lt_Some.
  rewrite (bind_ok _ _ _ _ _ (get_proc_ok k' s q Hq)).
  pose proof (shortest_from_lt (procs s) 0 k' q Hk) as Hb. simpl in Hb.
  destruct (wake_all ch _ (length (procs s)) 0 s eq_refl Hb Hv) as (ps' & R & Hlen & _ & Hv' & A).
  exists ps'. split; [done|]. split; [|done]. apply Forall2_same_length_lookup. split; [done|].
  intros i p p' Hp Hp'. destruct (A i p ltac:(lia) Hp) as (p'' & Hp'' & Ha). by simplify_eq.
Qed.

(** ** The invariant of the process table *)
Record pt_inv (s : ptable) : Prop := {
  pv_len : length (procs s) = 64%nat;
  pv_lock : plock s = false;
  pv_run : forall i p, procs s !! i = Some p ->
    (state p = RUNNING <-> exists c x, pcpus s !! c = Some x /\ c_proc x = Some i);
  pv_one : forall c c' x x' i, pcpus s !! c = Some x -> pcpus s !! c' = Some x' ->
    c_proc x = Some i -> c_proc x' = Some i -> c = c';
  pv_slot : forall c x i, pcpus s !! c = Some x -> c_proc x = Some i -> (i < 64)%nat;
  pv_idle : forall c x, pcpus s !! c = Some x -> c_proc x = None -> c_ncli x = 0;
  pv_vr : Forall (fun p => 0 <= vruntime p < 4294967296) (procs s);
  pv_weight : Forall (fun p => state p <> UNUSED ->
    0 <= nice p < 40 /\ weight p = nth (Z.to_nat (nice p)) nice_to_weight 0) (procs s);
  pv_mem : Forall (fun p => state p = RUNNABLE \/ state p = SLEEPING \/ state p = RUNNING ->
    kstack p <> 0 /\ pgdir p <> 0) (procs s);
  pv_pid : forall i j p q, procs s !! i = Some p -> procs s !! j = Some q ->
    pid p = pid q -> pid p <> 0 -> i = j;
  pv_next : Forall (fun p => 0 <= pid p < nextpid s) (procs s)
}.

Lemma weight_bounds n : 0 <= n < 40 -> 15 <= nth (Z.to_nat n) nice_to_weight 0 <= 88818.
Proof.
  intros Hn.
  assert (Hall : Forall (fun w => 15 <= w <= 88818) nice_to_weight) by (repeat constructor; lia).
  rewrite Forall_lookup in Hall. apply (Hall (Z.to_nat n)).
  destruct (nth_lookup_or_length nice_to_weight (Z.to_nat n) 0) as [H|H]; [done|].
  simpl in H. lia.
Qed.

Lemma pt_inv_weights s : pt_inv s -> weights_ok (procs s).
Proof.
  intros H. eapply Forall_impl; [apply (pv_weight _ H)|]. intros p Hp Hne.
  destruct (Hp Hne) as [Hn ->]. pose proof (weight_bounds _ Hn). lia.
Qed.

(** Processes and CPUs as far as the invariant sees them. *)
Definition view_proc (p : proc) := (state p, pid p, nice p, weight p, kstack p, pgdir p).

(** A change that keeps what the invariant talks about, or wakes a sleeper. *)
Definition quiet (p p' : proc) : Prop :=
  (state p' = state p \/ (state p = SLEEPING /\ state p' = RUNNABLE)) /\
  pid p' = pid p /\ kstack p' = kstack p /\ pgdir p' = pgdir p /\
  0 <= vruntime p' < 4294967296 /\
  (state p <> UNUSED -> 0 <= nice p' < 40 /\ weight p' = nth (Z.to_nat (nice p')) nice_to_weight 0).

Lemma quiet_inv s s' :
  pt_inv s -> Forall2 quiet (procs s) (procs s') -> plock s' = false -> nextpid s' = nextpid s ->
  (forall c, c_proc <$> pcpus s' !! c = c_proc <$> pcpus s !! c) ->
  (forall c x, pcpus s' !! c = Some x -> c_proc x = None -> c_ncli x = 0) -> pt_inv s'.
Proof.
  intros [I1 I2 I3 I4 I5 I6 I7 I8 I9 I10 I11] HF Hl Hn Hc Hidle.
  assert (Hlk : forall i p', procs s' !! i = Some p' -> exists p, procs s !! i = Some p /\ quiet p p').
  { intros i p' Hp'. destruct (Forall2_lookup_r _ _ _ _ _ HF Hp') as (p & ? & ?). by exists p. }
  assert (Hcp : forall c x, pcpus s' !! c = Some x -> exists y, pcpus s !! c = Some y /\ c_proc y = c_proc x).
  { intros c x Hx. specialize (Hc c). rewrite Hx in Hc. simpl in Hc.
    destruct (pcpus s !! c) as [y|]; simpl in Hc; [|done]. exists y. split; [done|]. by injection Hc. }
  assert (Hpc : forall c y, pcpus s !! c = Some y -> exists x, pcpus s' !! c = Some x /\ c_proc x = c_proc y).
  { intros c y Hy. specialize (Hc c). rewrite Hy in Hc. simpl in Hc.
    destruct (pcpus s' !! c) as [x|]; simpl in Hc; [|done]. exists x. split; [done|]. by injection Hc. }
  split; try done.
  - rewrite <-I1. symmetry. by apply Forall2_length in HF.
  - intros i p' Hp'. destruct (Hlk i p' Hp') as (p & Hp & (Hst & _)).
    transitivity (state p = RUNNING); [destruct Hst as [->|[-> ->]]; done|]. rewrite (I3 i p Hp). split.
    + intros (c & y & Hy & Hcy). destruct (Hpc c y Hy) as (x & Hx & E). exists c, x. split; [done|congruence].
    + intros (c & x & Hx & Hcx). destruct (Hcp c x Hx) as (y & Hy & E). exists c, y. split; [done|congruence].
  - intros c c' x x' i Hx Hx' Hi Hi'. destruct (Hcp c x Hx) as (y & Hy & E), (Hcp c' x' Hx') as (y' & Hy' & E').
    apply (I4 c c' y y' i); congruence.
  - intros c x i Hx Hi. destruct (Hcp c x Hx) as (y & Hy & E). apply (I5 c y i); congruence.
  - rewrite Forall_lookup. intros i p' Hp'. destruct (Hlk i p' Hp') as (p & Hp & Hq). apply Hq.
  - rewrite Forall_lookup. intros i p' Hp' Hne. destruct (Hlk i p' Hp') as (p & Hp & Hst & _ & _ & _ & _ & Hw).
    apply Hw. destruct Hst as [E|[E _]]; congruence.
  - rewrite Forall_lookup. intros i p' Hp' Hs. destruct (Hlk i p' Hp') as (p & Hp & Hst & _ & -> & -> & _).
    rewrite Forall_lookup in I9. apply (I9 i p Hp). destruct Hst as [<-|[-> _]]; [done|by auto].
  - intros i j p' q' Hp' Hq' E Hne. destruct (Hlk i p' Hp') as (p & Hp & _ & Hpp & _).
    destruct (Hlk j q' Hq') as (q & Hq & _ & Hqq & _). apply (I10 i j p q); congruence.
  - rewrite Forall_lookup. intros i p' Hp'. destruct (Hlk i p' Hp') as (p & Hp & _ & -> & _). rewrite Hn.
    rewrite Forall_lookup in I11. by apply (I11 i p).
Qed.

Lemma quiet_refl s : pt_inv s -> Forall2 quiet (procs s) (procs s).
Proof.
  intros H. apply Forall2_same_length_lookup. split; [done|]. intros i p p' Hp Hp'. simplify_eq.
  pose proof (pv_vr _ H) as Hv. pose proof (pv_weight _ H) as Hw. rewrite Forall_lookup in Hv, Hw.
  split_and!; try done; [by left|by apply (Hv i p)..|intros Hne; by apply (Hw i p)].
Qed.

Lemma quiet_insert s i p p' : pt_inv s -> procs s !! i = Some p -> quiet p p' ->
  Forall2 quiet (procs s) (<[i := p']> (procs s)).
Proof.
  intros H Hp Hq. pose proof (quiet_refl s H) as Hr. rewrite Forall2_same_length_lookup in Hr |- *.
  destruct Hr as [_ Hr]. split; [by rewrite length_insert|]. intros j q q' Hj Hj'.
  destruct (decide (j = i)) as [->|Hne].
  - rewrite list_lookup_insert_eq in Hj' by (by eapply lookup_lt_Some). by simplify_eq.
  - rewrite list_lookup_insert_ne in Hj' by done. by apply (Hr j).
Qed.

(** What stays of a process when it is put on or taken off a CPU. *)
Definition keeps (p p' : proc) : Prop :=
  pid p' = pid p /\ kstack p' = kstack p /\ pgdir p' = pgdir p /\ nice p' = nice p /\
  weight p' = weight p /\ 0 <= vruntime p' < 4294967296.

Lemma move_inv s s' me i p p' x x' :
  pt_inv s -> procs s !! i = Some p -> procs s' = <[i := p']> (procs s) -> keeps p p' ->
  plock s' = false -> nextpid s' = nextpid s ->
  (forall c, c <> me -> pcpus s' !! c = pcpus s !! c) ->
  pcpus s !! me = Some x -> pcpus s' !! me = Some x' ->
  ((state p = RUNNABLE /\ state p' = RUNNING /\ c_proc x = None /\ c_proc x' = Some i) \/
   (state p = RUNNING /\ (state p' = RUNNABLE \/ state p' = SLEEPING \/ state p' = ZOMBIE) /\
    c_proc x = Some i /\ c_proc x' = None /\ c_ncli x' = 0)) ->
  pt_inv s'.
Proof.
  intros [I1 I2 I3 I4 I5 I6 I7 I8 I9 I10 I11] Hp Hps (K1 & K2 & K3 & K4 & K5 & K6) Hl Hn Hc Hx Hx' Hmove.
  assert (Hi : (i < length (procs s))%nat) by by eapply lookup_lt_Some.
  assert (Hlook : forall j q, procs s' !! j = Some q -> (j = i /\ q = p') \/ (j <> i /\ procs s !! j = Some q)).
  { intros j q Hj. rewrite Hps in Hj. destruct (decide (j = i)) as [->|Hne].
    - rewrite list_lookup_insert_eq in Hj by done. left. split; [done|congruence].
    - rewrite list_lookup_insert_ne in Hj by done. by right. }
  assert (Hcpu : forall c y, pcpus s' !! c = Some y -> (c = me /\ y = x') \/ (c <> me /\ pcpus s !! c = Some y)).
  { intros c y Hy. destruct (decide (c = me)) as [->|Hne]; [left; split; [done|congruence]|right].
    rewrite Hc in Hy by done. done. }
  assert (Hme : forall c y, pcpus s !! c = Some y -> c_proc y = Some i -> c = me).
  { intros c y Hy Hcy. destruct Hmove as [(Hst & _ & Hnone & _)|(_ & _ & Hsome & _)].
    - assert (state p = RUNNING) by (apply (I3 i p Hp); by exists c, y). congruence.
    - by apply (I4 c me y x i). }
  split; try done.
  - by rewrite Hps, length_insert.
  - intros j q Hj. destruct (Hlook j q Hj) as [[-> ->]|[Hne Hq]].
    + destruct Hmove as [(_ & Hst & _ & Hsome)|(_ & Hst & _ & Hnone & _)].
      * split; [intros _; by exists me, x'|done].
      * split; [by destruct Hst as [->|[->| ->]]|]. intros (c & y & Hy & Hcy).
        destruct (Hcpu c y Hy) as [[-> ->]|[Hcn Hy']]; [congruence|]. by destruct Hcn; apply (Hme c y).
    + rewrite (I3 j q Hq). split.
      * intros (c & y & Hy & Hcy). exists c, y. split; [|done]. rewrite Hc; [done|].
        intros ->. destruct Hmove as [(_ & _ & E & _)|(_ & _ & E & _)]; congruence.
      * intros (c & y & Hy & Hcy). destruct (Hcpu c y Hy) as [[-> ->]|[Hcn Hy']]; [|by exists c, y].
        destruct Hmove as [(_ & _ & _ & E)|(_ & _ & _ & E & _)]; congruence.
  - intros c c' y y' j Hy Hy' Hj Hj'.
    destruct (Hcpu c y Hy) as [[-> ->]|[Hcn Hy0]], (Hcpu c' y' Hy') as [[-> ->]|[Hcn' Hy0']]; [done| | |].
    + destruct Hmove as [(_ & _ & _ & E)|(_ & _ & _ & E & _)]; [|congruence].
      assert (j = i) as -> by congruence. by destruct Hcn'; apply (Hme c' y').
    + destruct Hmove as [(_ & _ & _ & E)|(_ & _ & _ & E & _)]; [|congruence].
      assert (j = i) as -> by congruence. by destruct Hcn; apply (Hme c y).
    + by apply (I4 c c' y y' j).
  - intros c y j Hy Hj. destruct (Hcpu c y Hy) as [[-> ->]|[Hcn Hy0]]; [|by apply (I5 c y j)].
    destruct Hmove as [(_ & _ & _ & E)|(_ & _ & _ & E & _)]; [|congruence].
    assert (j = i) as -> by congruence. lia.
  - intros c y Hy Hnone. destruct (Hcpu c y Hy) as [[-> ->]|[Hcn Hy0]]; [|by apply (I6 c y)].
    destruct Hmove as [(_ & _ & _ & E)|(_ & _ & _ & _ & E)]; congruence.
  - rewrite Hps. by apply Forall_insert.
  - rewrite Hps. apply Forall_insert; [done|]. intros _. rewrite K4, K5.
    rewrite Forall_lookup in I8. apply (I8 i p Hp). destruct Hmove as [(-> & _)|(-> & _)]; done.
  - rewrite Hps. apply Forall_insert; [done|]. intros _. rewrite K2, K3.
    rewrite Forall_lookup in I9. apply (I9 i p Hp). destruct Hmove as [(-> & _)|(-> & _)]; auto.
  - intros j k q r Hj Hk E Hne. destruct (Hlook j q Hj) as [[-> ->]|[? Hq]], (Hlook k r Hk) as [[-> ->]|[? Hr]];
      rewrite ?K1 in *.
    + done.
    + by apply (I10 i k p r).
    + by apply (I10 j i q p).
    + by apply (I10 j k q r).
  - rewrite Hps. apply Forall_insert; [by rewrite Hn|]. rewrite K1, Hn. rewrite Forall_lookup in I11. by apply (I11 i p).
Qed.

Lemma vruntimeupdate_keeps p p' : vruntimeupdate p = Ok p' ->
  exists v o, p' = set_vruntime v (set_int_overflow o p) /\ 0 <= v < 4294967296.
Proof.
  unfold vruntimeupdate, d2u. destruct (weight p =? 0); [done|]. destruct (dgt _ _).
  - destruct (int_overflow p =? 2147483647); [done|]. set (t := dtrunc _).
    destruct ((0 <=? t) && (t <? 4294967296)) eqn:Hr; [|done]. clearbody t.
    intros [= <-]. eexists _, _. split; [done|]. lia.
  - set (t := dtrunc _). destruct ((0 <=? t) && (t <? 4294967296)) eqn:Hr; [|done]. clearbody t.
    intros [= <-]. exists t, (int_overflow p). split; [by destruct p|]. lia.
Qed.

Lemma sched_inv me s c i p s' :
  pcpus s !! me = Some c -> c_proc c = Some i -> procs s !! i = Some p -> sched me s = Ok (tt, s') ->
  plock s = true /\ c_ncli c = 1 /\ state p <> RUNNING /\ c_if c = false /\
  s' = with_procs s (<[i := set_ctx_intena (c_intena c) p]> (procs s)).
Proof.
  intros Hc Hi Hp. unfold sched. rewrite (bind_ok _ _ _ _ _ (curproc_ok me s c i Hc Hi)), bind_gets.
  unfold mbind, M_bind. destruct (plock s); simpl; [|done]. rewrite (get_pcpu_ok me s c Hc).
  destruct (Z.eqb_spec (c_ncli c) 1); simpl; [|done]. rewrite (get_proc_ok i s p Hp).
  destruct (decide (state p = RUNNING)); simpl; [done|]. destruct (c_if c); simpl; [done|].
  rewrite (upd_proc_ok i _ s p Hp). intros [= <-]. done.
Qed.

Lemma upd_vruntime_inv i s p s' : procs s !! i = Some p -> upd_vruntime i s = Ok (tt, s') ->
  exists v o, 0 <= v < 4294967296 /\
    s' = with_procs s (<[i := set_vruntime v (set_int_overflow o p)]> (procs s)).
Proof.
  intros Hp. unfold upd_vruntime. rewrite (bind_ok _ _ _ _ _ (get_proc_ok i s p Hp)).
  destruct (vruntimeupdate p) as [p'| | |] eqn:Ev; try done.
  destruct (vruntimeupdate_keeps p p' Ev) as (v & o & -> & Hv). rewrite (upd_proc_ok i _ s p Hp).
  intros [= <-]. by exists v, o.
Qed.

Lemma bind_inv {S A B} (m : M S A) (f : A -> M S B) s b s' :
  mbind f m s = Ok (b, s') -> exists a s1, m s = Ok (a, s1) /\ f a s1 = Ok (b, s').
Proof. unfold mbind, M_bind. destruct (m s) as [[a s1]| | |]; try done. intros H. by exists a, s1. Qed.

(** What yield and sleep leave in the table before control goes to the
    scheduler: the process is off the CPU's accounts in state [st]. *)
Definition left_cpu (me i : nat) (s s' : ptable) (st : procstate) : Prop :=
  exists p p' x, procs s !! i = Some p /\ procs s' = <[i := p']> (procs s) /\
    keeps p p' /\ state p' = st /\ plock s' = true /\ same_rest me s s' /\
    pcpus s' !! me = Some x /\ c_proc x = Some i /\ c_ncli x = 1 /\ c_if x = false.

Lemma left_cpu_back me i s s1 s' st c :
  pt_inv s -> pcpus s !! me = Some c -> c_proc c = Some i ->
  left_cpu me i s s1 st -> st = RUNNABLE \/ st = SLEEPING \/ st = ZOMBIE ->
  scheduler_back me s1 = Ok (tt, s') -> pt_inv s'.
Proof.
  intros H Hc Hi (p & p' & x & Hp & Hps & Hk & Hst & Hl & Hr & Hx & Hxi & Hxn & Hxf) Hor Hback.
  destruct (scheduler_back_ok me s1 x Hx Hl Hxn Hxf) as (s2 & x2 & R & P & L & Sr & C & Cp & Cn & _).
  rewrite R in Hback. injection Hback as <-.
  destruct Hr as (_ & Hr2 & _ & _ & Hr5). destruct Sr as (_ & Hs2 & _ & _ & Hs5).
  apply (move_inv s s2 me i p p' c x2); try done.
  - congruence.
  - congruence.
  - intros c' Hne. by rewrite Hs5, Hr5.
  - right. split.
    + apply (pv_run _ H i p Hp). by exists me, c.
    + rewrite Hst. split_and!; done.
Qed.

(** The state of a process that leaves the CPU, updated from [p]. *)
Lemma leaving_left me i s s0 c p v o g st s' :
  procs s !! i = Some p -> 0 <= v < 4294967296 -> same_rest me s s0 ->
  pcpus s0 !! me = Some c -> c_proc c = Some i ->
  procs s0 = <[i := set_state st (g (set_vruntime v (set_int_overflow o p)))]> (procs s) ->
  (forall q, keeps q (g q) \/ ~ (0 <= vruntime q < 4294967296)) ->
  sched me s0 = Ok (tt, s') -> left_cpu me i s s' st.
Proof.
  intros Hp Hv Hr Hc Hi Hps Hg Hsched.
  assert (Hlt : (i < length (procs s))%nat) by by eapply lookup_lt_Some.
  assert (Hp0 : procs s0 !! i = Some (set_state st (g (set_vruntime v (set_int_overflow o p)))))
    by (rewrite Hps; by apply list_lookup_insert_eq).
  destruct (sched_inv me s0 c i _ s' Hc Hi Hp0 Hsched) as (Hl & Hn & Hst & Hif & ->).
  eexists p, _, c. split; [done|]. split; [simpl; by rewrite Hps, list_insert_insert_eq|].
  split.
  - destruct (Hg (set_vruntime v (set_int_overflow o p))) as [K|Hbad]; [exact K|done].
  - split_and!; try done; apply Hr.
Qed.

Lemma yield_out_left me i s s' c : pt_inv s -> pcpus s !! me = Some c -> c_proc c = Some i ->
  yield_out me s = Ok (tt, s') -> left_cpu me i s s' RUNNABLE.
Proof.
  intros H Hc Hi. unfold yield_out.
  rewrite (bind_ok _ _ _ _ _ (pt_acquire_ok me s c Hc (pv_lock _ H))). set (s1 := with_lock _ true).
  pose proof (with_cpu_lookup s me c (pushed_cpu c) Hc : pcpus s1 !! me = Some _) as H1.
  rewrite (bind_ok _ _ _ _ _ (curproc_ok me s1 _ i H1 Hi)).
  destruct (lookup_lt_is_Some_2 (procs s) i) as [p Hp]; [rewrite (pv_len _ H); by apply (pv_slot _ H me c i)|].
  intros ([] & s2 & Hv & Hrest)%bind_inv.
  destruct (upd_vruntime_inv i s1 p s2 Hp Hv) as (v & o & Hvr & ->).
  apply bind_inv in Hrest as ([] & s3 & Hup & Hsched).
  assert (Hlt : (i < length (procs s))%nat) by by eapply lookup_lt_Some.
  erewrite upd_proc_ok in Hup by (simpl; by apply list_lookup_insert_eq). injection Hup as <-.
  refine (leaving_left me i s _ (pushed_cpu c) p v o (fun q => q) _ _ Hp Hvr _ _ Hi _ _ Hsched).
  - rest.
  - exact H1.
  - simpl. by rewrite list_insert_insert_eq.
  - intros q. destruct (decide (0 <= vruntime q < 4294967296)) as [Hq|Hq]; [left|by right].
    exact (conj eq_refl (conj eq_refl (conj eq_refl (conj eq_refl (conj eq_refl Hq))))).
Qed.

Lemma sleep_out_left me i s s' c ch : pt_inv s -> pcpus s !! me = Some c -> c_proc c = Some i ->
  sleep_out me ch true s = Ok (tt, s') -> left_cpu me i s s' SLEEPING.
Proof.
  intros H Hc Hi. unfold sleep_out, myproc.
  assert (Hmy : (c ← get_pcpu me; mret (c_proc c)) s = Ok (Some i, s))
    by (unfold mbind, M_bind; rewrite (get_pcpu_ok me s c Hc); simpl; by rewrite Hi).
  rewrite (bind_ok _ _ _ _ _ Hmy).
  intros ([] & s2 & Hlock & Hrest)%bind_inv.
  rewrite (bind_ok _ _ _ _ _ (pt_acquire_ok me s c Hc (pv_lock _ H))) in Hlock.
  set (s1 := with_lock _ true) in *.
  pose proof (with_cpu_lookup s me c (pushed_cpu c) Hc : pcpus s1 !! me = Some _) as H1.
  unfold cpu_popcli in Hlock. rewrite (bind_ok _ _ _ _ _ (get_pcpu_ok me s1 _ H1)) in Hlock. simpl in Hlock.
  destruct (c_ncli c + 1 - 1 <? 0); [done|].
  rewrite (upd_pcpu_ok me _ s1 _ H1) in Hlock. injection Hlock as <-.
  set (x2 := Pcpu _ _ _ _ _ _) in *. set (s2 := with_cpu s1 me x2) in *.
  pose proof (with_cpu_lookup s1 me _ x2 H1 : pcpus s2 !! me = Some x2) as H2.
  destruct (lookup_lt_is_Some_2 (procs s) i) as [p Hp]; [rewrite (pv_len _ H); by apply (pv_slot _ H me c i)|].
  apply bind_inv in Hrest as ([] & s3 & Hv & Hrest).
  destruct (upd_vruntime_inv i s2 p s3 Hp Hv) as (v & o & Hvr & ->).
  assert (Hlt : (i < length (procs s))%nat) by by eapply lookup_lt_Some.
  apply bind_inv in Hrest as ([] & s4 & Hup & Hrest).
  erewrite upd_proc_ok in Hup by (simpl; by apply list_lookup_insert_eq). injection Hup as <-.
  apply bind_inv in Hrest as ([] & s5 & Hup & Hsched).
  erewrite upd_proc_ok in Hup by (simpl; apply list_lookup_insert_eq; by rewrite length_insert).
  injection Hup as <-.
  refine (leaving_left me i s _ x2 p v o (set_chan ch) _ _ Hp Hvr _ _ Hi _ _ Hsched).
  - rest.
  - exact H2.
  - simpl. by rewrite !list_insert_insert_eq.
  - intros q. destruct (decide (0 <= vruntime q < 4294967296)) as [Hq|Hq]; [left|by right].
    exact (conj eq_refl (conj eq_refl (conj eq_refl (conj eq_refl (conj eq_refl Hq))))).
Qed.

(** ** Steps of the table, one CPU at a time

    Between acquire and release of ptable.lock an operation is atomic, so a
    system history is a sequence of whole operations by the CPUs. *)
Definition idle (me : nat) (s : ptable) : Prop :=
  exists c, pcpus s !! me = Some c /\ c_proc c = None.
Definition busy (me i : nat) (s : ptable) : Prop :=
  exists c, pcpus s !! me = Some c /\ c_proc c = Some i.

Inductive pt_step (s s' : ptable) : Prop :=
| ps_idle me : idle me s -> scheduler_pick me s = Ok (None, s') -> pt_step s s'
| ps_run me i s1 : idle me s -> scheduler_pick me s = Ok (Some i, s1) ->
    yield_in me s1 = Ok (tt, s') \/ sleep_in me true s1 = Ok (tt, s') \/ pt_release me s1 = Ok (tt, s') ->
    pt_step s s'
| ps_tick me i b : busy me i s -> timer_charge me s = Ok (b, s') -> pt_step s s'
| ps_yield me i s1 : busy me i s -> yield_out me s = Ok (tt, s1) ->
    scheduler_back me s1 = Ok (tt, s') -> pt_step s s'
| ps_sleep me i ch s1 : busy me i s -> sleep_out me ch true s = Ok (tt, s1) ->
    scheduler_back me s1 = Ok (tt, s') -> pt_step s s'
| ps_wakeup me ch : wakeup me ch s = Ok (tt, s') -> pt_step s s'
| ps_kill me pd r : kill me pd s = Ok (r, s') -> pt_step s s'
| ps_setnice me pd v r : setnice me pd v s = Ok (r, s') -> pt_step s s'
| ps_getnice me pd r : getnice me pd s = Ok (r, s') -> pt_step s s'
| ps_locks me i c x : pcpus s !! me = Some c -> c_proc c = Some i -> c_proc x = Some i ->
    s' = with_cpu s me x -> pt_step s s'.

(** A critical section of ptable.lock whose body only changes the table. *)
Lemma locked_inv {A} me (m : M ptable A) s a s' :
  pt_inv s -> (pt_acquire me ;; r ← m; pt_release me ;; mret r) s = Ok (a, s') ->
  (forall s1 s2 a, procs s1 = procs s -> m s1 = Ok (a, s2) ->
     exists ps, s2 = with_procs s1 ps /\ Forall2 quiet (procs s) ps) ->
  pt_inv s'.
Proof.
  intros H Hrun Hm. apply bind_inv in Hrun as ([] & s1 & Hacq & Hrest).
  assert (Hc : exists c, pcpus s !! me = Some c).
  { unfold pt_acquire, cpu_pushcli in Hacq. apply bind_inv in Hacq as ([] & s0 & Hp & _).
    apply bind_inv in Hp as (c & s00 & Hg & _). unfold get_pcpu in Hg.
    destruct (pcpus s !! me) as [c0|]; [by exists c0|done]. }
  destruct Hc as [c Hc]. rewrite (pt_acquire_ok me s c Hc (pv_lock _ H)) in Hacq. injection Hacq as <-.
  apply bind_inv in Hrest as (r & s2 & Hr & Hrest).
  destruct (Hm _ _ _ (eq_refl : procs (with_lock (with_cpu s me (pushed_cpu c)) true) = procs s) Hr) as (ps & -> & Hq).
  apply bind_inv in Hrest as ([] & s3 & Hrel & Hret). injection Hret as <- <-.
  set (s1 := with_lock _ true) in *.
  pose proof (with_cpu_lookup s me c (pushed_cpu c) Hc : pcpus s1 !! me = Some _) as H1.
  unfold pt_release in Hrel. apply bind_inv in Hrel as ([] & s4 & Hz & Hpop).
  unfold zoom in Hz. simpl in Hz. injection Hz as <-.
  unfold cpu_popcli in Hpop.
  erewrite (bind_ok (get_pcpu me)) in Hpop by (apply get_pcpu_ok; exact H1). simpl in Hpop.
  destruct (c_ncli c + 1 - 1 <? 0); [done|].
  erewrite upd_pcpu_ok in Hpop by exact H1. injection Hpop as <-.
  apply (quiet_inv s); try done.
  - intros c'. simpl. destruct (decide (c' = me)) as [->|Hne].
    + rewrite !list_insert_insert_eq, list_lookup_insert_eq by (by eapply lookup_lt_Some). by rewrite Hc.
    + by rewrite !list_lookup_insert_ne by done.
  - intros c' x Hx Hnone. simpl in Hx. destruct (decide (c' = me)) as [->|Hne].
    + rewrite list_insert_insert_eq, list_lookup_insert_eq in Hx by (by eapply lookup_lt_Some).
      injection Hx as <-. simpl in *. rewrite (pv_idle _ H me c Hc Hnone). lia.
    + rewrite !list_lookup_insert_ne in Hx by done. by apply (pv_idle _ H c' x).
Qed.

Lemma awakened_quiet ch ps ps' s : pt_inv s -> ps = procs s -> Forall2 (awakened ch) ps ps' ->
  Forall2 quiet ps ps'.
Proof.
  intros H -> Ha. pose proof (quiet_refl s H) as Hr. rewrite Forall2_same_length_lookup in Ha, Hr |- *.
  destruct Ha as [Hl Ha], Hr as [_ Hr]. split; [done|]. intros i p p' Hp Hp'.
  specialize (Ha i p p' Hp Hp'). specialize (Hr i p p Hp Hp). unfold awakened, sleeping_on in Ha.
  case_bool_decide as Hst; simpl in Ha; [|by subst].
  destruct (chan p =? ch); [|by subst]. destruct Ha as (v & o & Hv & ->).
  destruct Hr as (_ & _ & _ & _ & _ & Hw). split; [by right|]. split; [done|]. split; [done|].
  split; [done|]. split; [exact Hv|exact Hw].
Qed.

Lemma pt_inv_vr s : pt_inv s -> Forall vr_ok (procs s).
Proof.
  intros H. pose proof (pv_vr _ H) as Hv. pose proof (pt_inv_weights _ H) as Hw.
  unfold weights_ok in Hw. rewrite Forall_lookup in Hv, Hw |- *. intros i p Hp. split; [by apply (Hv i p)|].
  intros Hst. assert (state p <> UNUSED) as Hne by congruence. specialize (Hw i p Hp Hne). lia.
Qed.

Lemma wakeup1_quiet ch s s1 s2 a : pt_inv s -> procs s1 = procs s -> wakeup1 ch s1 = Ok (a, s2) ->
  exists ps, s2 = with_procs s1 ps /\ Forall2 quiet (procs s) ps.
Proof.
  intros H Hps Hw. pose proof (last_index_spec (procs s1) 0) as Hl.
  destruct (last_index 0 (procs s1)) as [k|] eqn:El.
  2: { exfalso. unfold wakeup1 in Hw. by rewrite bind_gets, El in Hw. }
  destruct Hl as (k' & q & _ & Hq & Hr).
  destruct (wakeup1_spec ch s1) as (ps & R & A & _); [rewrite Hps; by apply pt_inv_vr|by exists k', q|].
  rewrite R in Hw. injection Hw as <- <-. exists ps. split; [done|].
  rewrite Hps in A. by apply (awakened_quiet ch _ _ s).
Qed.

Definition kill_body (pd : Z) : M ptable Z :=
  ps ← gets procs;
  match find_pid pd ps with
  | None => mret (-1)
  | Some i =>
      upd_proc i (set_killed 1) ;;
      p ← get_proc i;
      (if decide (state p = SLEEPING) then upd_proc i (set_state RUNNABLE) ;; upd_vruntime i
       else mret tt) ;; mret 0
  end.

Lemma kill_locked me pd s : kill me pd s = (pt_acquire me ;; r ← kill_body pd; pt_release me ;; mret r) s.
Proof.
  unfold kill, kill_body, mbind, M_bind. destruct (pt_acquire me s) as [[[] s1]| | |]; try done. simpl.
  destruct (find_pid pd (procs s1)) as [i|]; [|done]. simpl.
  destruct (get_proc i _) as [[p s2]| | |]; try done.
  destruct (decide (state p = SLEEPING)); simpl; [|done].
  by destruct (upd_vruntime i _) as [[[] s3]| | |].
Qed.

Lemma find_pid_some pd ps i : find_pid pd ps = Some i -> exists p, ps !! i = Some p /\ pid p = pd.
Proof.
  unfold find_pid. destruct (list_find _ ps) as [[j q]|] eqn:Ef; [|done]. simpl. intros [= <-].
  apply list_find_Some in Ef as (Hj & Hq & _). by exists q.
Qed.

Lemma quiet_self s i p : pt_inv s -> procs s !! i = Some p -> quiet p p.
Proof.
  intros H Hp. pose proof (quiet_refl s H) as Hr. rewrite Forall2_same_length_lookup in Hr.
  by apply (proj2 Hr i).
Qed.

Lemma kill_quiet pd s s1 s2 a : pt_inv s -> procs s1 = procs s -> kill_body pd s1 = Ok (a, s2) ->
  exists ps, s2 = with_procs s1 ps /\ Forall2 quiet (procs s) ps.
Proof.
  intros H Hps. unfold kill_body. rewrite bind_gets, Hps.
  destruct (find_pid pd (procs s)) as [i|] eqn:Ef.
  2: { intros [= <- <-]. exists (procs s1). split; [by destruct s1|]. rewrite Hps. by apply quiet_refl. }
  destruct (find_pid_some _ _ _ Ef) as (p & Hp & _).
  assert (Hlt : (i < length (procs s))%nat) by by eapply lookup_lt_Some.
  assert (Hp1 : procs s1 !! i = Some p) by by rewrite Hps.
  pose proof (quiet_self s i p H Hp) as (Q1 & Q2 & Q3 & Q4 & Q5 & Q6).
  rewrite (bind_ok _ _ _ _ _ (upd_proc_ok i _ s1 p Hp1)). set (s3 := with_procs s1 _).
  assert (Hp3 : procs s3 !! i = Some (set_killed 1 p)) by (simpl; rewrite Hps; by apply list_lookup_insert_eq).
  rewrite (bind_ok _ _ _ _ _ (get_proc_ok i s3 _ Hp3)). simpl state.
  destruct (decide (state p = SLEEPING)) as [Hst|Hst]; intros ([] & s4 & Hb & Hret)%bind_inv; injection Hret as <- <-.
  - rewrite (bind_ok _ _ _ _ _ (upd_proc_ok i _ s3 _ Hp3)) in Hb.
    set (s5 := with_procs s3 _) in *.
    assert (Hp5 : procs s5 !! i = Some (set_state RUNNABLE (set_killed 1 p)))
      by (simpl; rewrite Hps; apply list_lookup_insert_eq; by rewrite length_insert).
    destruct (upd_vruntime_inv i s5 _ s4 Hp5 Hb) as (v & o & Hv & ->).
    eexists. split; [done|]. simpl. rewrite Hps, !list_insert_insert_eq. apply (quiet_insert s i p); [done|done|].
    split; [right; split; [done|reflexivity]|]. exact (conj eq_refl (conj eq_refl (conj eq_refl (conj Hv Q6)))).
  - injection Hb as <-. eexists. split; [done|]. simpl. rewrite Hps. apply (quiet_insert s i p); [done|done|].
    exact (conj (or_introl eq_refl) (conj eq_refl (conj eq_refl (conj eq_refl (conj Q5 Q6))))).
Qed.

Definition setnice_body (pd value : Z) : M ptable unit :=
  ps ← gets procs;
  match find_pid pd ps with
  | None => mret tt
  | Some i =>
      upd_proc i (set_nice value) ;;
      upd_proc i (fun p => set_weight (nth (Z.to_nat (nice p)) nice_to_weight 0) p)
  end.

Lemma setnice_quiet pd v s s1 s2 a : pt_inv s -> 0 <= v < 40 -> procs s1 = procs s ->
  setnice_body pd v s1 = Ok (a, s2) -> exists ps, s2 = with_procs s1 ps /\ Forall2 quiet (procs s) ps.
Proof.
  intros H Hv Hps. unfold setnice_body. rewrite bind_gets, Hps.
  destruct (find_pid pd (procs s)) as [i|] eqn:Ef.
  2: { intros [= <- <-]. exists (procs s1). split; [by destruct s1|]. rewrite Hps. by apply quiet_refl. }
  destruct (find_pid_some _ _ _ Ef) as (p & Hp & _).
  assert (Hlt : (i < length (procs s))%nat) by by eapply lookup_lt_Some.
  assert (Hp1 : procs s1 !! i = Some p) by by rewrite Hps.
  pose proof (quiet_self s i p H Hp) as (Q1 & Q2 & Q3 & Q4 & Q5 & Q6).
  rewrite (bind_ok _ _ _ _ _ (upd_proc_ok i _ s1 p Hp1)). set (s3 := with_procs s1 _).
  assert (Hp3 : procs s3 !! i = Some (set_nice v p)) by (simpl; rewrite Hps; by apply list_lookup_insert_eq).
  rewrite (upd_proc_ok i _ s3 _ Hp3). intros [= <- <-].
  eexists. split; [done|]. simpl. rewrite Hps, !list_insert_insert_eq. apply (quiet_insert s i p); [done|done|].
  exact (conj (or_introl eq_refl) (conj eq_refl (conj eq_refl (conj eq_refl (conj Q5 (fun _ => conj Hv eq_refl)))))).
Qed.

Lemma sleep_in_locked me s : sleep_in me true s =
  (sched_resume me ;; i ← curproc me; upd_proc i (set_chan 0) ;; pt_release me ;; cpu_pushcli me) s.
Proof. done. Qed.

(** A search that finds a process ends in its dispatch. *)
Lemma scheduler_picks me s c i p : pt_inv s -> pcpus s !! me = Some c -> c_proc c = None -> pick (procs s) = Some (i, p) ->
  exists s' x, scheduler_pick me s = Ok (Some i, s') /\
    procs s' = <[i := dispatched p (sum_weights (procs s))]> (procs s) /\
    plock s' = true /\ same_rest me s s' /\ pcpus s' !! me = Some x /\ c_proc x = Some i /\
    c_cr3 x = V2P (pgdir p) /\ c_if x = false /\ c_ncli x = 1 /\
    0 < weight p <= sum_weights (procs s) /\ sum_weights (procs s) < 4294967296.
Proof.
  intros H Hc Hnone Ep. pose proof (pv_idle _ H me c Hc Hnone) as Hn.
  pose proof (pick_spec (procs s)) as Hps. rewrite Ep in Hps. destruct Hps as (Hj & Hrun & _).
  apply bool_decide_eq_true in Hrun.
  pose proof (pv_mem _ H) as Hmem. rewrite Forall_lookup in Hmem.
  destruct (Hmem i p Hj (or_introl Hrun)) as [Hks Hpd].
  pose proof (pt_inv_weights _ H) as Hw. pose proof (sum_weights_bound _ Hw) as Hb. rewrite (pv_len _ H) in Hb.
  pose proof (sum_weights_elem _ i p Hw Hj ltac:(congruence)) as Hel.
  assert (Hwp : 0 < weight p) by (unfold weights_ok in Hw; rewrite Forall_lookup in Hw; apply (Hw i p Hj); congruence).
  assert (Ht : u32 (totalweight (procs s)) = sum_weights (procs s)).
  { rewrite totalweight_sum by (done || rewrite (pv_len _ H); lia). apply u32_small. lia. }
  destruct (scheduler_pick_some me s c i p Hc (pv_lock _ H) Hn Ep) as
    (s2 & x & R & P & L & Sr & C & Cp & Ccr & Cif & Cn & _); [lia|done|done|].
  rewrite Ht in P. exists s2, x. split_and!; try done; lia.
Qed.

(** What a dispatch changes, whichever way the process had left: by yield, by
    sleep, or as a new process in forkret. *)
Lemma dispatch_effect me i s s1 s' c : pt_inv s -> pcpus s !! me = Some c -> c_proc c = None ->
  scheduler_pick me s = Ok (Some i, s1) ->
  yield_in me s1 = Ok (tt, s') \/ sleep_in me true s1 = Ok (tt, s') \/ pt_release me s1 = Ok (tt, s') ->
  exists p p' x, pick (procs s) = Some (i, p) /\ procs s' = <[i := p']> (procs s) /\
    (p' = dispatched p (sum_weights (procs s)) \/ p' = set_chan 0 (dispatched p (sum_weights (procs s)))) /\
    0 < weight p <= sum_weights (procs s) /\ sum_weights (procs s) < 4294967296 /\
    plock s' = false /\ same_rest me s s' /\ pcpus s' !! me = Some x /\ c_proc x = Some i.
Proof.
  intros H Hc Hnone Hpick Hres.
  destruct (pick (procs s)) as [[j p]|] eqn:Ep.
  2: { destruct (scheduler_pick_none me s c Hc (pv_lock _ H)) as (s2 & x2 & R & _); [|done|congruence].
       by rewrite (pv_idle _ H me c Hc Hnone). }
  destruct (scheduler_picks me s c j p H Hc Hnone Ep) as (s2 & x & R & P & L & Sr & C & Cp & _ & Cif & Cn & Hw & Ht).
  rewrite R in Hpick. injection Hpick as -> <-. set (p1 := dispatched p _) in *.
  pose proof (pick_spec (procs s)) as Hps. rewrite Ep in Hps. destruct Hps as (Hj & _).
  assert (Hlt : (i < length (procs s))%nat) by by eapply lookup_lt_Some.
  assert (Hp1 : procs s2 !! i = Some p1) by (rewrite P; by apply list_lookup_insert_eq).
  destruct Hres as [Hr|[Hr|Hr]].
  - destruct (yield_in_ok me s2 x i p1 C Cp Hp1 L Cif Cn) as (s3 & x3 & R3 & P3 & L3 & S3 & C3 & Cp3 & _).
    rewrite R3 in Hr. injection Hr as <-. exists p, p1, x3. split_and!; try done; try lia; [by rewrite P3|by left|..];
      by apply same_rest_trans with s2.
  - rewrite sleep_in_locked in Hr. rewrite (bind_ok _ _ _ _ _ (sched_resume_ok me s2 x i p1 C Cp Hp1)) in Hr.
    set (x3 := Pcpu _ _ _ _ _ _) in *. set (s3 := with_cpu s2 me x3) in *.
    pose proof (with_cpu_lookup s2 me x x3 C : pcpus s3 !! me = Some x3) as H3.
    rewrite (bind_ok _ _ _ _ _ (curproc_ok me s3 x3 i H3 Cp)) in Hr.
    rewrite (bind_ok _ _ _ _ _ (upd_proc_ok i _ s3 p1 Hp1)) in Hr. set (s4 := with_procs s3 _) in *.
    rewrite (bind_ok _ _ _ _ _ (pt_release_ok me s4 x3 H3 L Cif ltac:(simpl; lia))) in Hr.
    set (s5 := with_cpu (with_lock s4 false) me (popped_cpu x3)) in *.
    pose proof (with_cpu_lookup (with_lock s4 false) me x3 (popped_cpu x3) H3
      : pcpus s5 !! me = Some (popped_cpu x3)) as H5.
    rewrite (cpu_pushcli_ok me s5 _ H5) in Hr. injection Hr as <-.
    exists p, (set_chan 0 p1), (pushed_cpu (popped_cpu x3)). split_and!; try done; try lia.
    + simpl. by rewrite P, list_insert_insert_eq.
    + by right.
    + apply same_rest_trans with s2; [done|rest].
    + simpl. apply list_lookup_insert_eq. rewrite !length_insert. by eapply lookup_lt_Some.
  - rewrite (pt_release_ok me s2 x C L Cif ltac:(lia)) in Hr. injection Hr as <-.
    exists p, p1, (popped_cpu x). split_and!; try done; try lia; [by left|apply same_rest_trans with s2; [done|rest]|].
    simpl. apply list_lookup_insert_eq. by eapply lookup_lt_Some.
Qed.

Lemma dispatch_inv me i s s1 s' : pt_inv s -> idle me s -> scheduler_pick me s = Ok (Some i, s1) ->
  yield_in me s1 = Ok (tt, s') \/ sleep_in me true s1 = Ok (tt, s') \/ pt_release me s1 = Ok (tt, s') ->
  pt_inv s'.
Proof.
  intros H (c & Hc & Hnone) Hpick Hres.
  destruct (dispatch_effect me i s s1 s' c H Hc Hnone Hpick Hres) as (p & p' & x & Ep & P & Hp' & _ & _ & L & Sr & C & Cp).
  pose proof (pick_spec (procs s)) as Hps. rewrite Ep in Hps. destruct Hps as (Hj & Hrun & _). apply bool_decide_eq_true in Hrun.
  pose proof (pv_vr _ H) as Hvr. rewrite Forall_lookup in Hvr. specialize (Hvr i p Hj). simpl in Hvr.
  destruct Sr as (_ & S2 & _ & _ & S5).
  assert (Hk : keeps p p' /\ state p' = RUNNING).
  { destruct Hp' as [-> | ->]; (split; [|done]);
      exact (conj eq_refl (conj eq_refl (conj eq_refl (conj eq_refl (conj eq_refl Hvr))))). }
  apply (move_inv s s' me i p p' c x); try done; [apply Hk|by left; destruct Hk].
Qed.

Lemma idle_inv me s s' : pt_inv s -> idle me s -> scheduler_pick me s = Ok (None, s') -> pt_inv s'.
Proof.
  intros H (c & Hc & Hn) Hp. pose proof (pv_idle _ H me c Hc Hn) as Hcli.
  destruct (pick (procs s)) as [[j p]|] eqn:Ep.
  - exfalso. unfold scheduler_pick, cpu_sti in Hp.
    rewrite (bind_ok _ _ _ _ _ (upd_pcpu_ok me _ s c Hc)) in Hp. set (x1 := Pcpu _ _ _ true _ _) in Hp.
    pose proof (with_cpu_lookup s me c x1 Hc) as H1.
    rewrite (bind_ok _ _ _ _ _ (pt_acquire_ok me _ _ H1 (pv_lock _ H))), bind_gets in Hp.
    simpl in Hp. rewrite Ep in Hp. do 6 apply bind_inv in Hp as (? & ? & _ & Hp). done.
  - destruct (scheduler_pick_none me s c Hc (pv_lock _ H) ltac:(lia) Ep)
      as (s2 & x & R & P & L & (S1 & S2 & S3 & S4 & S5) & C & Cp & Cn).
    rewrite R in Hp. injection Hp as <-. apply (quiet_inv s); try done.
    + rewrite P. by apply quiet_refl.
    + intros c'. destruct (decide (c' = me)) as [->|Hne]; [rewrite C, Hc; simpl; by rewrite Cp|by rewrite S5].
    + intros c' y Hy Hnone. destruct (decide (c' = me)) as [->|Hne]; [congruence|].
      rewrite S5 in Hy by done. by apply (pv_idle _ H c' y).
Qed.

Lemma pt_step_inv s s' : pt_inv s -> pt_step s s' -> pt_inv s'.
Proof.
  intros H Hstep. destruct Hstep as [me (c & Hc & Hn) Hp|me i s1 Hi Hp Hr|me i b (c & Hc & Hi) Ht
    |me i s1 (c & Hc & Hi) Hy Hb|me i ch s1 (c & Hc & Hi) Hy Hb|me ch Hw|me pd r Hk|me pd v r Hs|me pd r Hg
    |me i c x Hc Hi Hx ->].
  - by eapply idle_inv; [|exists c|].
  - by eapply dispatch_inv.
  - destruct (lookup_lt_is_Some_2 (procs s) i) as [p Hp]; [rewrite (pv_len _ H); by apply (pv_slot _ H me c i)|].
    rewrite (timer_charge_ok me i c s p Hc Hi Hp) in Ht. injection Ht as _ <-.
    apply (quiet_inv s); try done; [|by apply (pv_lock _ H)|by apply (pv_idle _ H)].
    apply (quiet_insert s i p); try done.
    pose proof (quiet_self s i p H Hp) as (Q1 & Q2 & Q3 & Q4 & Q5 & Q6).
    exact (conj (or_introl eq_refl) (conj eq_refl (conj eq_refl (conj eq_refl (conj Q5 Q6))))).
  - apply (left_cpu_back me i s s1 s' RUNNABLE c); try done; [by eapply yield_out_left|by auto].
  - apply (left_cpu_back me i s s1 s' SLEEPING c); try done; [by eapply sleep_out_left|by auto].
  - apply (locked_inv me (wakeup1 ch) s tt s' H).
    + unfold wakeup in Hw. unfold mbind, M_bind in *. destruct (pt_acquire me s) as [[[] s1]| | |]; try done.
      destruct (wakeup1 ch s1) as [[[] s2]| | |]; try done. by rewrite Hw.
    + intros s1 s2 a Hps Hrun. by apply (wakeup1_quiet ch s s1 s2 a).
  - rewrite kill_locked in Hk. apply (locked_inv me (kill_body pd) s r s' H Hk).
    intros s1 s2 a Hps Hrun. by apply (kill_quiet pd s s1 s2 a).
  - unfold setnice in Hs. destruct ((39 <? v) || (v <? 0)) eqn:Ev; [injection Hs as _ <-; done|].
    apply orb_false_iff in Ev as [Ev1 Ev2]. apply Z.ltb_ge in Ev1, Ev2.
    apply (locked_inv me (setnice_body pd v) s tt s' H).
    + unfold setnice_body. unfold mbind, M_bind in *. destruct (pt_acquire me s) as [[[] s1]| | |]; try done.
      simpl in *. destruct (find_pid pd (procs s1)); simpl in *;
        (destruct (pt_release me _) as [[[] s2]| | |]; try done; injection Hs as _ <-; done).
    + intros s1 s2 a Hps Hrun. apply (setnice_quiet pd v s s1 s2 a); try done. lia.
  - apply (locked_inv me (ps ← gets procs; match find_pid pd ps with None => mret (-1) | Some i => p ← get_proc i; mret (nice p) end) s r s' H).
    + unfold getnice in Hg. unfold mbind, M_bind in *. destruct (pt_acquire me s) as [[[] s1]| | |]; try done.
      simpl in *. destruct (find_pid pd (procs s1)) as [i|]; simpl in *; [|done].
      destruct (get_proc i s1) as [[p s2]| | |]; done.
    + intros s1 s2 a Hps. rewrite bind_gets. intros Hrun.
      assert (s2 = s1) as ->.
      { destruct (find_pid pd (procs s1)) as [i|]; [|by injection Hrun].
        apply bind_inv in Hrun as (p & s3 & Hgp & Hret). unfold get_proc in Hgp.
        destruct (procs s1 !! i); [|done]. injection Hgp as _ <-. by injection Hret. }
      exists (procs s1). split; [by destruct s1|]. rewrite Hps. by apply quiet_refl.
  - apply (quiet_inv s); try done; [exact (quiet_refl s H)|by apply (pv_lock _ H)| |].
    + intros c'. simpl. destruct (decide (c' = me)) as [->|Hne].
      * rewrite list_lookup_insert_eq by (by eapply lookup_lt_Some). rewrite Hc. simpl. by rewrite Hx, Hi.
      * by rewrite list_lookup_insert_ne by done.
    + intros c' y Hy Hnone. simpl in Hy. destruct (decide (c' = me)) as [->|Hne].
      * rewrite list_lookup_insert_eq in Hy by (by eapply lookup_lt_Some). congruence.
      * rewrite list_lookup_insert_ne in Hy by done. by apply (pv_idle _ H c' y).
Qed.

(** ** The properties *)


(** C24: an iteration of the scheduler runs nothing exactly when no process is
    RUNNABLE; otherwise it puts on the CPU the first RUNNABLE process that is
    least in the order of (int_overflow, vruntime), marks it RUNNING, loads its
    page table, starts its accounting and keeps ptable.lock for it. *)
Theorem scheduler_runs_least me s c :
  pt_inv s -> pcpus s !! me = Some c -> c_proc c = None ->
  exists o s', scheduler_pick me s = Ok (o, s') /\
    match o with
    | None => procs s' = procs s /\ forall j q, procs s !! j = Some q -> state q <> RUNNABLE
    | Some i => exists p x, procs s !! i = Some p /\ state p = RUNNABLE /\
        (forall j q, procs s !! j = Some q -> state q = RUNNABLE ->
           shorter q p = false /\ ((j < i)%nat -> shorter p q = true)) /\
        procs s' = <[i := dispatched p (sum_weights (procs s))]> (procs s) /\
        pcpus s' !! me = Some x /\ c_proc x = Some i /\ c_cr3 x = V2P (pgdir p) /\ plock s' = true
    end.
Proof.
  intros H Hc Hn. pose proof (pv_idle _ H me c Hc Hn) as Hcli.
  pose proof (pick_spec (procs s)) as Hps. destruct (pick (procs s)) as [[i p]|] eqn:Ep.
  - destruct Hps as (Hi & Hr & Hmin & Hfst). apply bool_decide_eq_true in Hr.
    destruct (scheduler_picks me s c i p H Hc Hn Ep) as (s2 & x & R & P & L & Sr & C & Cp & Ccr & _).
    exists (Some i), s2. split; [done|]. exists p, x.
    split; [done|]. split; [done|]. split; [|done].
    intros j q Hj Hq. assert (Hrq : runnable q = true) by by apply bool_decide_eq_true.
    split; [by apply (Hmin j)|]. intros Hlt. by apply (Hfst j).
  - destruct (scheduler_pick_none me s c Hc (pv_lock _ H) ltac:(lia) Ep) as (s2 & x & R & P & _).
    exists None, s2. split; [done|]. split; [done|]. intros j q Hj Hq.
    specialize (Hps j q Hj). by apply bool_decide_eq_false in Hps.
Qed.

(** The time slice computed at dispatch is 10000 when the process holds at
    least half of the total weight of the table and 0 otherwise (the cast to
    int rounds weight / total), so a process runs for ten ticks or for one. *)
Theorem time_slice_all_or_nothing w total :
  0 < w <= total -> total < 4294967296 ->
  slice w total = if total <=? 2 * w then 10000 else 0.
Proof. apply slice_eq. Qed.

(** wakeup1(ch) makes RUNNABLE exactly the processes that sleep on ch and
    changes no other process; of a woken process only the state and the
    virtual time change. *)
Theorem wakeup1_wakes_exactly_sleepers ch s :
  pt_inv s -> (exists i p, procs s !! i = Some p /\ state p <> RUNNABLE) ->
  exists s', wakeup1 ch s = Ok (tt, s') /\ Forall2 (awakened ch) (procs s) (procs s') /\
    pcpus s' = pcpus s /\ nextpid s' = nextpid s /\ plock s' = plock s.
Proof.
  intros H (i & p & Hi & Hp). destruct (wakeup1_spec ch s) as (ps & R & A & _).
  - by apply pt_inv_vr.
  - exists i, p. split; [done|]. by apply bool_decide_eq_false.
  - exists (with_procs s ps). by split_and!.
Qed.

(** wakeup1 dereferences a null pointer when every slot is RUNNABLE. *)
Lemma wakeup1_all_runnable ch s : Forall (fun p => state p = RUNNABLE) (procs s) ->
  wakeup1 ch s = Undef "null process".
Proof.
  intros H. unfold wakeup1. rewrite bind_gets. pose proof (last_index_spec (procs s) 0) as Hl.
  destruct (last_index 0 (procs s)); [|done]. destruct Hl as (k & q & _ & Hq & Hr).
  rewrite Forall_lookup in H. apply bool_decide_eq_false in Hr. by destruct Hr; apply (H k q).
Qed.

(** C7: in every history of dispatches, timer ticks, yields, sleeps, wakeups,
    kills and niceness changes by any number of CPUs, each RUNNING process is on
    exactly one CPU and each CPU runs a RUNNING process, pids are unique, weights
    are those of the niceness, and whatever may be dispatched has a stack and a
    page table. *)
Theorem ptable_invariant_reachable s s' : pt_inv s -> rtc pt_step s s' -> pt_inv s'.
Proof. intros H Hr. induction Hr; [done|]. by eauto using pt_step_inv. Qed.
End SchedProps.

(** ** A table with two runnable processes and one sleeper *)
#[local] Existing Instance fp_double.

Definition ex_run : proc :=
  set_weight 1024 (set_nice 20 (set_pid 1 (set_state RUNNABLE
    (set_pgdir 0x80402000 (set_kstack 0x80401000 no_proc))))).
Definition ex_low : proc :=
  set_vruntime 5 (set_weight 15 (set_nice 39 (set_pid 2 (set_state RUNNABLE
    (set_pgdir 0x80404000 (set_kstack 0x80403000 no_proc)))))).
Definition ex_asleep : proc :=
  set_chan 0x80112000 (set_weight 1024 (set_nice 20 (set_pid 3 (set_state SLEEPING
    (set_pgdir 0x80406000 (set_kstack 0x80405000 no_proc)))))).
Definition ex_pt : ptable :=
  Pt false (ex_run :: ex_low :: ex_asleep :: replicate 61 no_proc) (Some O) 4
    [Pcpu None 0 0x1000 true 0 0] 0x803ff000.

Lemma ex_pt_lookup i p : procs ex_pt !! i = Some p ->
  (i = 0%nat /\ p = ex_run) \/ (i = 1%nat /\ p = ex_low) \/ (i = 2%nat /\ p = ex_asleep) \/ p = no_proc.
Proof.
  destruct i as [|[|[|i]]]; intros H.
  - injection H as <-. auto.
  - injection H as <-. auto.
  - injection H as <-. auto.
  - right. right. right.
    change (replicate 61 no_proc !! i = Some p) in H. by apply lookup_replicate in H as [-> _].
Qed.

Lemma ex_pt_inv : pt_inv ex_pt.
Proof.
  split.
  - reflexivity.
  - reflexivity.
  - intros i p Hp. split.
    + intros Hst. by destruct (ex_pt_lookup i p Hp) as [[_ ->]|[[_ ->]|[[_ ->]| ->]]].
    + intros ([|c] & x & Hx & Hxi); simplify_eq/=.
  - intros [|c] c' x x' i Hx; simplify_eq/=. done.
  - intros [|c] x i Hx; simplify_eq/=. done.
  - intros [|c] x Hx; simplify_eq/=. done.
  - rewrite Forall_lookup. intros i p Hp.
    destruct (ex_pt_lookup i p Hp) as [[_ ->]|[[_ ->]|[[_ ->]| ->]]]; simpl; lia.
  - rewrite Forall_lookup. intros i p Hp.
    destruct (ex_pt_lookup i p Hp) as [[_ ->]|[[_ ->]|[[_ ->]| ->]]]; simpl; (done || (intros _; split; [lia|reflexivity])).
  - rewrite Forall_lookup. intros i p Hp.
    destruct (ex_pt_lookup i p Hp) as [[_ ->]|[[_ ->]|[[_ ->]| ->]]]; simpl; try (intros _; lia).
    intros [?|[?|?]]; done.
  - intros i j p q Hp Hq.
    destruct (ex_pt_lookup i p Hp) as [[-> ->]|[[-> ->]|[[-> ->]| ->]]],
      (ex_pt_lookup j q Hq) as [[-> ->]|[[-> ->]|[[-> ->]| ->]]]; simpl; done.
  - rewrite Forall_lookup. intros i p Hp.
    destruct (ex_pt_lookup i p Hp) as [[_ ->]|[[_ ->]|[[_ ->]| ->]]]; simpl; lia.
Qed.


Lemma scheduler_runs_least_witness : exists o s', scheduler_pick 0 ex_pt = Ok (o, s').
Proof.
  destruct (scheduler_runs_least 0 ex_pt (Pcpu None 0 0x1000 true 0 0) ex_pt_inv eq_refl eq_refl)
    as (o & s' & H & _). exists o, s'. exact H.
Defined.

Lemma time_slice_all_or_nothing_witness : slice 1024 3072 = 0.
Proof. rewrite (time_slice_all_or_nothing 1024 3072); [reflexivity|lia|lia]. Defined.

Lemma wakeup1_wakes_exactly_sleepers_witness :
  exists s', wakeup1 0x80112000 ex_pt = Ok (tt, s') /\
    Forall2 (awakened 0x80112000) (procs ex_pt) (procs s').
Proof.
  destruct (wakeup1_wakes_exactly_sleepers 0x80112000 ex_pt ex_pt_inv) as (s' & H & HF & _).
  - exists 2%nat, ex_asleep. split; [reflexivity|discriminate].
  - exists s'. split; [exact H|exact HF].
Defined.

Lemma ptable_invariant_reachable_witness :
  exists s', setnice 0 1 5 ex_pt = Ok (0, s') /\ pt_inv s'.
Proof.
  eexists. split; [vm_compute; reflexivity|].
  apply (ptable_invariant_reachable ex_pt); [exact ex_pt_inv|]. apply rtc_once.
  apply (ps_setnice _ _ 0 1 5 0). vm_compute. reflexivity.
Defined.
