(* ===== verification/Fairness.v ===== *)
(** * No starvation among the processes that compete for the CPUs

    A process that waits for a CPU is passed over only by processes of less
    virtual time, and each of them gains virtual time whenever its slice ends.
    The theorem bounds the number of dispatches before its own, in any history of
    the scheduler's operations on any number of CPUs, as long as no process that
    was asleep enters the competition ahead of it.  (Without that condition it is
    not true of proc.c: wakeup1 starts its search at the last slot that is not
    RUNNABLE, and while that slot has never been used a woken process gets virtual
    time 0, ahead of all.) *)
From S2P Require Import Prelude CString Layout Spinlock Fp Sched SchedProps.

Open Scope Z_scope.

Section Fairness.
Context `{FE : !FpEnv}.

(** ** Histories *)
Definition active (p : proc) : Prop := state p = RUNNABLE \/ state p = RUNNING.

(** From [s] to [s'] no process enters the competition at virtual time [v] or
    less, or with a vruntime beyond the limit at which the overflow is counted. *)
Definition no_overtaking (v : Z) (s s' : ptable) : Prop :=
  forall i p p', procs s !! i = Some p -> procs s' !! i = Some p' -> ~ active p -> active p' ->
    v < vtime p' /\ vruntime p' <= 2147483647.

(** One operation of the system while slot [j], at virtual time [v], waits; the
    number is 1 when it is a dispatch.  The timer's tick and the yield that
    follows when the slice is used up are one operation: interrupts are off. *)
Inductive op (v : Z) (j : nat) (s s' : ptable) : nat -> Prop :=
| op_idle me : idle me s -> scheduler_pick me s = Ok (None, s') -> op v j s s' 0
| op_dispatch me i s1 : idle me s -> scheduler_pick me s = Ok (Some i, s1) -> i <> j ->
    yield_in me s1 = Ok (tt, s') \/ sleep_in me true s1 = Ok (tt, s') \/ pt_release me s1 = Ok (tt, s') ->
    op v j s s' 1
| op_tick me i : busy me i s -> timer_charge me s = Ok (false, s') -> op v j s s' 0
| op_preempt me i s1 s2 : busy me i s -> timer_charge me s = Ok (true, s1) ->
    yield_out me s1 = Ok (tt, s2) -> scheduler_back me s2 = Ok (tt, s') -> op v j s s' 0
| op_sleep me i ch s1 : busy me i s -> sleep_out me ch true s = Ok (tt, s1) ->
    scheduler_back me s1 = Ok (tt, s') -> op v j s s' 0
| op_wakeup me ch : wakeup me ch s = Ok (tt, s') -> no_overtaking v s s' -> op v j s s' 0
| op_kill me pd r : kill me pd s = Ok (r, s') -> no_overtaking v s s' -> op v j s s' 0
| op_setnice me pd n r : setnice me pd n s = Ok (r, s') -> op v j s s' 0
| op_getnice me pd r : getnice me pd s = Ok (r, s') -> op v j s s' 0
| op_locks me i c x : pcpus s !! me = Some c -> c_proc c = Some i -> c_proc x = Some i ->
    s' = with_cpu s me x -> op v j s s' 0.

(** A history with [n] dispatches, none of them of slot [j]. *)
Inductive history (v : Z) (j : nat) : nat -> ptable -> ptable -> Prop :=
| hist_nil s : history v j 0 s s
| hist_op n d s s1 s2 : history v j n s s1 -> op v j s1 s2 d -> history v j (n + d) s s2.

(** How often [p] can still be dispatched before a process at virtual time [v]:
    every turn costs it at least one unit, the turn it is in included. *)
Definition lead (v : Z) (p : proc) : Z :=
  match state p with
  | RUNNABLE => Z.max 0 (v + 1 - vtime p)
  | RUNNING => Z.max 0 (v - vtime p)
  | _ => 0
  end.
Definition total_lead (v : Z) (ps : list proc) : Z := foldr (fun p t => lead v p + t) 0 ps.
(** The turns that the processes of the other slots can take before slot [j]. *)
Definition ahead (v : Z) (j : nat) (ps : list proc) : Z := total_lead v (delete j ps).

(** The accounting of a process that competes: [vruntime] is within the limit at
    which the overflow is counted, and the present turn is short. *)
Definition accounted (p : proc) : Prop :=
  active p -> vruntime p <= 2147483647 /\ (state p = RUNNING -> ran p <= 10000 /\ time_slice p <= 10000).

Record waiting (v : Z) (j : nat) (s : ptable) : Prop := {
  wt_inv : pt_inv s;
  wt_slot : exists q, procs s !! j = Some q /\ state q = RUNNABLE /\ vtime q = v;
  wt_accounts : Forall accounted (procs s)
}.

(** ** Sums *)
Lemma lead_nonneg v p : 0 <= lead v p.
Proof. unfold lead. destruct (state p); lia. Qed.
Lemma total_lead_nonneg v ps : 0 <= total_lead v ps.
Proof. unfold total_lead. induction ps as [|p ps IH]; cbn; [lia|]. pose proof (lead_nonneg v p). lia. Qed.
Lemma total_lead_perm v ps ps' : ps ≡ₚ ps' -> total_lead v ps = total_lead v ps'.
Proof. unfold total_lead. induction 1; cbn in *; lia. Qed.
Lemma total_lead_split v j ps q : ps !! j = Some q -> total_lead v ps = lead v q + ahead v j ps.
Proof. intros Hq. unfold ahead. by rewrite (total_lead_perm v _ _ (delete_Permutation _ _ _ Hq)). Qed.
Lemma total_lead_le v ps ps' : Forall2 (fun p p' => lead v p' <= lead v p) ps ps' -> total_lead v ps' <= total_lead v ps.
Proof. unfold total_lead. induction 1; cbn in *; lia. Qed.
Lemma total_lead_insert v ps i p p' : ps !! i = Some p ->
  total_lead v (<[i := p']> ps) = total_lead v ps - lead v p + lead v p'.
Proof.
  unfold total_lead. revert i. induction ps as [|q ps IH]; intros [|i] Hi; simplify_eq/=; [lia|]. rewrite (IH i Hi). lia.
Qed.

(** ** One operation *)

(** What an operation does to a process that is not the one dispatched. *)
Definition level (v : Z) (p p' : proc) : Prop :=
  lead v p' <= lead v p /\ (accounted p -> accounted p') /\
  (state p = RUNNABLE -> state p' = RUNNABLE /\ vtime p' = vtime p).

(** The accounting fields decide. *)
Lemma level_same v p p' : state p' = state p -> vruntime p' = vruntime p -> int_overflow p' = int_overflow p ->
  actual_runtime p' = actual_runtime p -> scheduled_time p' = scheduled_time p -> time_slice p' = time_slice p -> level v p p'.
Proof.
  intros E1 E2 E3 E4 E5 E6. unfold level, lead, accounted, active, vtime, ran. rewrite E1, E2, E3, E4, E5, E6. by split_and!.
Qed.
Lemma level_refl v p : level v p p.
Proof. by apply level_same. Qed.
(** A process that was not in the competition. *)
Lemma level_enters v p p' : ~ active p -> (active p' -> state p' = RUNNABLE /\ v < vtime p' /\ vruntime p' <= 2147483647) -> level v p p'.
Proof.
  intros N A. split_and!.
  - pose proof (lead_nonneg v p). unfold lead at 1. destruct (state p') eqn:E; try lia.
    + destruct A as (_ & A & _); [by left|]. lia.
    + destruct A as (A & _); [by right|]. congruence.
  - intros _ Ha. destruct (A Ha) as (E & _ & Hv). split; [done|]. intros ?. congruence.
  - intros E. destruct N. by left.
Qed.

Lemma waiting_level v j s s' : waiting v j s -> pt_inv s' -> Forall2 (level v) (procs s) (procs s') ->
  waiting v j s' /\ total_lead v (procs s') <= total_lead v (procs s).
Proof.
  intros [I (q & Hq & Sq & Vq) A] I' F. split; [split; [done|..]|].
  - destruct (Forall2_lookup_l _ _ _ _ _ F Hq) as (q' & Hq' & _ & _ & L). destruct (L Sq) as [L1 L2]. exists q'. split_and!; [done|done|congruence].
  - rewrite Forall_lookup in A |- *. intros i p' Hp'. destruct (Forall2_lookup_r _ _ _ _ _ F Hp') as (p & Hp & _ & L & _). apply L. by apply (A i).
  - apply total_lead_le. eapply Forall2_impl; [exact F|]. intros p p' L. apply L.
Qed.
(** One slot, not the waiting one, changes. *)
Lemma waiting_insert v j s s' i p p' d : waiting v j s -> pt_inv s' -> procs s !! i = Some p -> procs s' = <[i := p']> (procs s) ->
  i <> j -> accounted p' -> lead v p' + d <= lead v p ->
  waiting v j s' /\ total_lead v (procs s') + d <= total_lead v (procs s).
Proof.
  intros [I (q & Hq & Sq & Vq) A] I' Hp E N A' Hl. split; [split; [done|..]|].
  - exists q. by rewrite E, list_lookup_insert_ne.
  - rewrite E. by apply Forall_insert.
  - rewrite E, (total_lead_insert v _ i p p' Hp). lia.
Qed.

Lemma waiting_weight v j s i p : waiting v j s -> procs s !! i = Some p -> state p <> UNUSED -> 0 < weight p <= 88818.
Proof.
  intros [I _ _] Hp Hs. pose proof (pt_inv_weights _ I) as Hw. unfold weights_ok in Hw. rewrite Forall_lookup in Hw. by apply (Hw i p).
Qed.
Lemma waiting_vruntime v j s i p : waiting v j s -> procs s !! i = Some p -> active p -> 0 <= vruntime p <= 2147483647.
Proof.
  intros [I _ A] Hp Ha. pose proof (pv_vr _ I) as Hv. rewrite Forall_lookup in Hv, A. specialize (Hv i p Hp). cbn in Hv.
  destruct (A i p Hp Ha). lia.
Qed.
(** The running process of a busy CPU. *)
Lemma waiting_busy v j s me i c : waiting v j s -> pcpus s !! me = Some c -> c_proc c = Some i ->
  exists p, procs s !! i = Some p /\ state p = RUNNING /\ ran p <= 10000 /\ time_slice p <= 10000 /\ i <> j.
Proof.
  intros [I (q & Hq & Sq & _) A] Hc Hi.
  destruct (lookup_lt_is_Some_2 (procs s) i) as [p Hp]; [rewrite (pv_len _ I); by apply (pv_slot _ I me c i)|].
  assert (Sp : state p = RUNNING) by (apply (pv_run _ I i p Hp); by exists me, c).
  rewrite Forall_lookup in A. destruct (A i p Hp) as [_ H]; [by right|]. destruct (H Sp).
  exists p. split_and!; try done. intros ->. congruence.
Qed.

(** The update of virtual time when it succeeds, whatever the overflow count. *)
Lemma vruntimeupdate_ok p p' : 0 <= vruntime p <= 2147483647 -> 0 < weight p <= 88818 -> 1024 * ran p <= 2147483647 * weight p ->
  vruntimeupdate p = Ok p' -> p' = vruntime_exact p /\ vruntime p' <= 2147483647.
Proof.
  intros Hv Hw Hr E. set (p0 := set_int_overflow 0 p).
  assert (V0 : vt_ok p0) by (split; cbn; lia).
  pose proof (vruntimeupdate_eq p0 V0 Hr) as E0. pose proof (proj2 (vruntime_exact_range p0 V0 Hr)) as B. specialize (B ltac:(cbn; lia)).
  unfold vruntime_exact in E0, B |- *. change (vnum p0) with (vnum p) in *. change (weight p0) with (weight p) in *.
  unfold vruntimeupdate in E, E0. change (weight p0) with (weight p) in *. change (vruntime p0) with (vruntime p) in *.
  change (actual_runtime p0) with (actual_runtime p) in *. change (scheduled_time p0) with (scheduled_time p) in *.
  destruct (weight p =? 0); [done|]. destruct (dgt _ _).
  - change (int_overflow p0 =? 2147483647) with false in E0. destruct (int_overflow p =? 2147483647); [done|].
    destruct (d2u _) as [x| | |]; try done. injection E as <-. destruct (2147483647 * weight p <? vnum p); [|by destruct p].
    assert (x = vnum p / weight p - 2147483647) as -> by (injection E0; auto). done.
  - destruct (d2u _) as [x| | |]; try done. injection E as <-. destruct (2147483647 * weight p <? vnum p); [by destruct p|].
    assert (x = vnum p / weight p) as -> by (injection E0; auto). done.
Qed.

(** yield and the switch to the scheduler. *)
Lemma yield_effect me i s s1 s' c p : pt_inv s -> pcpus s !! me = Some c -> c_proc c = Some i -> procs s !! i = Some p ->
  yield_out me s = Ok (tt, s1) -> scheduler_back me s1 = Ok (tt, s') ->
  exists p' z, vruntimeupdate p = Ok p' /\ procs s' = <[i := set_ctx_intena z (set_state RUNNABLE p')]> (procs s).
Proof.
  intros H Hc Hi Hp Hy Hb. unfold yield_out in Hy.
  rewrite (bind_ok _ _ _ _ _ (pt_acquire_ok me s c Hc (pv_lock _ H))) in Hy. set (s2 := with_lock _ true) in *.
  pose proof (with_cpu_lookup s me c (pushed_cpu c) Hc : pcpus s2 !! me = Some _) as H2.
  rewrite (bind_ok _ _ _ _ _ (curproc_ok me s2 _ i H2 Hi)) in Hy.
  apply bind_inv in Hy as ([] & s3 & Hv & Hy). unfold upd_vruntime in Hv. rewrite (bind_ok _ _ _ _ _ (get_proc_ok i s2 p Hp)) in Hv.
  destruct (vruntimeupdate p) as [p'| | |] eqn:Ev; try done.
  rewrite (upd_proc_ok i _ s2 p Hp) in Hv. injection Hv as <-.
  assert (Hlt : (i < length (procs s))%nat) by by eapply lookup_lt_Some.
  apply bind_inv in Hy as ([] & s4 & Hup & Hs). erewrite upd_proc_ok in Hup by (simpl; by apply list_lookup_insert_eq). injection Hup as <-.
  set (s4 := with_procs _ _) in *.
  assert (Hp4 : procs s4 !! i = Some (set_state RUNNABLE p')) by (simpl; rewrite list_insert_insert_eq; by apply list_lookup_insert_eq).
  destruct (sched_inv me s4 (pushed_cpu c) i _ s1 H2 Hi Hp4 Hs) as (Hl & Hn & _ & Hif & E).
  assert (Hc1 : pcpus s1 !! me = Some (pushed_cpu c)) by (by rewrite E). assert (Hl1 : plock s1 = true) by (by rewrite E).
  destruct (scheduler_back_ok me s1 (pushed_cpu c) Hc1 Hl1 Hn Hif) as (s5 & x5 & R & P & _).
  rewrite R in Hb. injection Hb as <-. exists p', (c_intena (pushed_cpu c)). split; [done|].
  rewrite P, E. simpl. by rewrite !list_insert_insert_eq.
Qed.

(** A critical section of ptable.lock leaves the table its body leaves. *)
Lemma locked_effect {A} me (m : M ptable A) s a s' : plock s = false ->
  (pt_acquire me ;; r ← m; pt_release me ;; mret r) s = Ok (a, s') ->
  exists s1 s2, procs s1 = procs s /\ m s1 = Ok (a, s2) /\ procs s' = procs s2.
Proof.
  intros Hl Hrun. apply bind_inv in Hrun as ([] & s1 & Hacq & Hrest). apply bind_inv in Hrest as (r & s2 & Hm & Hrest).
  apply bind_inv in Hrest as ([] & s3 & Hrel & Hret). injection Hret as <- <-. exists s1, s2. split_and!; [|done|].
  - unfold pt_acquire, cpu_pushcli in Hacq. apply bind_inv in Hacq as ([] & s0 & Hp & Hz). apply bind_inv in Hp as (c & s00 & Hg & Hu).
    unfold get_pcpu in Hg. destruct (pcpus s !! me); [|done]. injection Hg as _ <-. injection Hu as <-.
    unfold zoom in Hz. cbn in Hz. rewrite Hl in Hz. by injection Hz as <-.
  - unfold pt_release in Hrel. apply bind_inv in Hrel as ([] & s4 & Hz & Hpop). unfold zoom in Hz. cbn in Hz. destruct (plock s2); try done. injection Hz as <-.
    unfold cpu_popcli in Hpop. apply bind_inv in Hpop as (c & s5 & Hg & Hpop). unfold get_pcpu in Hg. destruct (pcpus _ !! me); [|done].
    injection Hg as _ <-. destruct (c_if _); [done|]. destruct (_ <? 0); [done|]. by injection Hpop as <-.
Qed.

Lemma level_insert v ps i p p' : ps !! i = Some p -> level v p p' -> Forall2 (level v) ps (<[i := p']> ps).
Proof.
  intros Hp L. rewrite Forall2_same_length_lookup. split; [by rewrite length_insert|]. intros k x y Hx.
  destruct (decide (k = i)) as [->|N].
  - rewrite list_lookup_insert_eq by (by eapply lookup_lt_Some). intros [= <-]. by simplify_eq.
  - rewrite list_lookup_insert_ne by done. intros Hy. simplify_eq. apply level_refl.
Qed.
Lemma level_refls v ps : Forall2 (level v) ps ps.
Proof. rewrite Forall2_same_length_lookup. split; [done|]. intros k x y Hx Hy. simplify_eq. apply level_refl. Qed.

Lemma wakeup_level v s me ch s' : pt_inv s -> wakeup me ch s = Ok (tt, s') -> no_overtaking v s s' -> Forall2 (level v) (procs s) (procs s').
Proof.
  intros I Hw No. destruct (locked_effect me (wakeup1 ch) s tt s' (pv_lock _ I)) as (s1 & s2 & P1 & R & P2).
  { unfold wakeup in Hw. unfold mbind, M_bind in *. destruct (pt_acquire me s) as [[[] s1]| | |]; try done.
    destruct (wakeup1 ch s1) as [[[] s2]| | |]; try done. by rewrite Hw. }
  pose proof (last_index_spec (procs s1) 0) as Hl. destruct (last_index 0 (procs s1)) as [k|] eqn:El.
  2: { exfalso. unfold wakeup1 in R. by rewrite bind_gets, El in R. }
  destruct Hl as (k' & q & _ & Hq & Hr).
  destruct (wakeup1_spec ch s1) as (ps & R' & A & _); [rewrite P1; by apply pt_inv_vr|by exists k', q|].
  rewrite R' in R. injection R as <-. cbn in P2. rewrite P1 in A. rewrite P2. unfold no_overtaking in No. rewrite P2 in No.
  rewrite Forall2_same_length_lookup in A |- *. destruct A as [L A]. split; [done|]. intros i p p' Hp Hp'. specialize (A i p p' Hp Hp').
  unfold awakened, sleeping_on in A. case_bool_decide as Hst; cbn [andb] in A; [|subst; apply level_refl].
  destruct (chan p =? ch); [|subst; apply level_refl]. destruct A as (x & o & _ & ->).
  assert (N : ~ active p) by (intros [?|?]; congruence). apply level_enters; [done|]. intros Ha. split; [done|]. by apply (No i p _ Hp Hp').
Qed.

Lemma kill_level v s me pd r s' : pt_inv s -> kill me pd s = Ok (r, s') -> no_overtaking v s s' -> Forall2 (level v) (procs s) (procs s').
Proof.
  intros I Hk No. rewrite kill_locked in Hk. destruct (locked_effect me (kill_body pd) s r s' (pv_lock _ I) Hk) as (s1 & s2 & P1 & R & P2).
  unfold no_overtaking in No. rewrite P2 in *. unfold kill_body in R. rewrite bind_gets, P1 in R.
  destruct (find_pid pd (procs s)) as [i|] eqn:Ef; [|injection R as _ <-; rewrite P1; apply level_refls].
  destruct (find_pid_some _ _ _ Ef) as (p & Hp & _). assert (Hp1 : procs s1 !! i = Some p) by by rewrite P1.
  assert (Hlt : (i < length (procs s))%nat) by by eapply lookup_lt_Some.
  rewrite (bind_ok _ _ _ _ _ (upd_proc_ok i _ s1 p Hp1)) in R. set (s3 := with_procs s1 _) in *.
  assert (Hp3 : procs s3 !! i = Some (set_killed 1 p)) by (simpl; rewrite P1; by apply list_lookup_insert_eq).
  rewrite (bind_ok _ _ _ _ _ (get_proc_ok i s3 _ Hp3)) in R. simpl state in R.
  destruct (decide (state p = SLEEPING)) as [Hst|Hst]; apply bind_inv in R as ([] & s4 & Hb & Hret); injection Hret as _ <-.
  - rewrite (bind_ok _ _ _ _ _ (upd_proc_ok i _ s3 _ Hp3)) in Hb. set (s5 := with_procs s3 _) in *.
    assert (Hp5 : procs s5 !! i = Some (set_state RUNNABLE (set_killed 1 p))) by (simpl; rewrite P1; apply list_lookup_insert_eq; by rewrite length_insert).
    destruct (upd_vruntime_inv i s5 _ s4 Hp5 Hb) as (x & o & _ & E4).
    assert (P4 : procs s4 = <[i := set_vruntime x (set_int_overflow o (set_state RUNNABLE (set_killed 1 p)))]> (procs s)).
    { rewrite E4. simpl. by rewrite P1, !list_insert_insert_eq. }
    rewrite P4 in *. apply (level_insert v _ i p _ Hp). assert (N : ~ active p) by (intros [?|?]; congruence). apply level_enters; [done|].
    intros Ha. split; [done|]. apply (No i p _ Hp); [by rewrite list_lookup_insert_eq|done|done].
  - injection Hb as <-. simpl. rewrite P1. apply (level_insert v _ i p _ Hp). by apply level_same.
Qed.

Lemma setnice_level v s me pd n r s' : pt_inv s -> setnice me pd n s = Ok (r, s') -> Forall2 (level v) (procs s) (procs s').
Proof.
  intros I Hs. unfold setnice in Hs. destruct ((39 <? n) || (n <? 0)); [injection Hs as _ <-; apply level_refls|].
  destruct (locked_effect me (setnice_body pd n) s tt s' (pv_lock _ I)) as (s1 & s2 & P1 & R & P2).
  { unfold setnice_body. unfold mbind, M_bind in *. destruct (pt_acquire me s) as [[[] s1]| | |]; try done.
    simpl in *. destruct (find_pid pd (procs s1)); simpl in *; (destruct (pt_release me _) as [[[] s2]| | |]; try done; injection Hs as _ <-; done). }
  rewrite P2. unfold setnice_body in R. rewrite bind_gets, P1 in R.
  destruct (find_pid pd (procs s)) as [i|] eqn:Ef; [|injection R as <-; rewrite P1; apply level_refls].
  destruct (find_pid_some _ _ _ Ef) as (p & Hp & _). assert (Hp1 : procs s1 !! i = Some p) by by rewrite P1.
  assert (Hlt : (i < length (procs s))%nat) by by eapply lookup_lt_Some.
  rewrite (bind_ok _ _ _ _ _ (upd_proc_ok i _ s1 p Hp1)) in R. set (s3 := with_procs s1 _) in *.
  assert (Hp3 : procs s3 !! i = Some (set_nice n p)) by (simpl; rewrite P1; by apply list_lookup_insert_eq).
  rewrite (upd_proc_ok i _ s3 _ Hp3) in R. injection R as <-. simpl. rewrite P1, list_insert_insert_eq.
  apply (level_insert v _ i p _ Hp). by apply level_same.
Qed.

Lemma getnice_level v s me pd r s' : pt_inv s -> getnice me pd s = Ok (r, s') -> Forall2 (level v) (procs s) (procs s').
Proof.
  intros I Hg.
  destruct (locked_effect me (ps ← gets procs; match find_pid pd ps with None => mret (-1) | Some i => p ← get_proc i; mret (nice p) end) s r s' (pv_lock _ I))
    as (s1 & s2 & P1 & R & P2).
  { unfold getnice in Hg. unfold mbind, M_bind in *. destruct (pt_acquire me s) as [[[] s1]| | |]; try done.
    simpl in *. destruct (find_pid pd (procs s1)) as [i|]; simpl in *; [|done]. destruct (get_proc i s1) as [[p s2]| | |]; done. }
  rewrite P2. assert (s2 = s1) as ->; [|rewrite P1; apply level_refls]. rewrite bind_gets in R.
  destruct (find_pid pd (procs s1)) as [i|]; [|by injection R]. apply bind_inv in R as (p & s3 & Hgp & Hret). unfold get_proc in Hgp.
  destruct (procs s1 !! i); [|done]. injection Hgp as _ <-. by injection Hret.
Qed.

(** The process that is picked is not behind the one that waits. *)
Lemma picked_least v j s i p : waiting v j s -> pick (procs s) = Some (i, p) ->
  procs s !! i = Some p /\ state p = RUNNABLE /\ vtime p <= v.
Proof.
  intros W Ep. pose proof W as [_ (q & Hq & Sq & <-) _]. pose proof (pick_spec (procs s)) as H. rewrite Ep in H. destruct H as (Hi & Hp & Hmin & _).
  apply bool_decide_eq_true in Hp. split_and!; [done|done|].
  specialize (Hmin j q Hq ltac:(by apply bool_decide_eq_true)). rewrite shorter_false in Hmin.
  pose proof (waiting_vruntime _ _ _ i p W Hi (or_introl Hp)). pose proof (waiting_vruntime _ _ _ j q W Hq (or_introl Sq)). unfold vtime. nia.
Qed.

Lemma dispatch_step v j s s' me i s1 : waiting v j s -> idle me s -> scheduler_pick me s = Ok (Some i, s1) -> i <> j ->
  yield_in me s1 = Ok (tt, s') \/ sleep_in me true s1 = Ok (tt, s') \/ pt_release me s1 = Ok (tt, s') -> pt_inv s' ->
  waiting v j s' /\ total_lead v (procs s') + 1 <= total_lead v (procs s).
Proof.
  intros W (c & Hc & Hn) Hp Hij Hr I'.
  destruct (dispatch_effect me i s s1 s' c (wt_inv _ _ _ W) Hc Hn Hp Hr) as (p & p' & x & Ep & P & Hp' & Hw & Ht & _).
  destruct (picked_least v j s i p W Ep) as (Hi & Sp & Vp). pose proof (waiting_vruntime _ _ _ i p W Hi (or_introl Sp)) as Rp.
  assert (F : state p' = RUNNING /\ vruntime p' = vruntime p /\ vtime p' = vtime p /\ ran p' = 0 /\ time_slice p' = slice (weight p) (sum_weights (procs s))).
  { destruct Hp' as [-> | ->]; split_and!; try done; unfold ran, dispatched; simpl; by rewrite Z.sub_diag. }
  destruct F as (F1 & F2 & F3 & F4 & F5).
  apply (waiting_insert v j s s' i p p'); try done.
  - intros _. rewrite F2, F4, F5, slice_eq by done. split; [lia|]. intros _. destruct (_ <=? _); lia.
  - unfold lead. rewrite F1, Sp, F3. lia.
Qed.

(** The end of a slice costs the process some virtual time. *)
Lemma preempt_step v j s s' me i s1 s2 : waiting v j s -> busy me i s -> timer_charge me s = Ok (true, s1) ->
  yield_out me s1 = Ok (tt, s2) -> scheduler_back me s2 = Ok (tt, s') -> pt_inv s1 -> pt_inv s' ->
  waiting v j s' /\ total_lead v (procs s') + 0 <= total_lead v (procs s).
Proof.
  intros W (c & Hc & Hi) Ht Hy Hb I1 I'. destruct (waiting_busy v j s me i c W Hc Hi) as (p & Hp & Sp & Rp & Tp & Hij).
  pose proof (waiting_weight _ _ _ i p W Hp ltac:(congruence)) as Hw. pose proof (waiting_vruntime _ _ _ i p W Hp (or_intror Sp)) as Hv.
  rewrite (timer_charge_ok me i c s p Hc Hi Hp) in Ht. injection Ht as _ <-.
  pose proof (u32_range (actual_runtime p - scheduled_time p)) as Hr0. fold (ran p) in Hr0.
  assert (Er : ran (ticked 1 p) = ran p + 1000) by (rewrite ticked_ran by lia; lia).
  assert (Hlt : (i < length (procs s))%nat) by by eapply lookup_lt_Some.
  destruct (yield_effect me i _ s2 s' c (ticked 1 p) I1 Hc Hi ltac:(simpl; by apply list_lookup_insert_eq) Hy Hb) as (p2 & z & E2 & P).
  simpl in P. rewrite list_insert_insert_eq in P.
  destruct (vruntimeupdate_ok (ticked 1 p) p2 Hv Hw ltac:(rewrite Er; cbn; lia) E2) as [-> Hlim].
  apply (waiting_insert v j s s' i p _ 0 W I' Hp P Hij).
  - intros _. split; [exact Hlim|]. intros ?. done.
  - unfold lead. cbn [state set_ctx_intena set_state]. rewrite Sp. change (vtime (set_ctx_intena z (set_state RUNNABLE ?x))) with (vtime x).
    rewrite vruntime_exact_vtime by (cbn; lia). rewrite Er. change (weight (ticked 1 p)) with (weight p). change (vtime (ticked 1 p)) with (vtime p).
    assert (1 <= 1024 * (ran p + 1000) / weight p) by (apply Z.div_le_lower_bound; lia). lia.
Qed.

Lemma tick_step v j s s' me i : waiting v j s -> busy me i s -> timer_charge me s = Ok (false, s') -> pt_inv s' ->
  waiting v j s' /\ total_lead v (procs s') + 0 <= total_lead v (procs s).
Proof.
  intros W (c & Hc & Hi) Ht I'. destruct (waiting_busy v j s me i c W Hc Hi) as (p & Hp & Sp & Rp & Tp & Hij).
  pose proof (waiting_vruntime _ _ _ i p W Hp (or_intror Sp)) as Hv.
  rewrite (timer_charge_ok me i c s p Hc Hi Hp) in Ht. injection Ht as Eb <-. apply Z.leb_gt in Eb.
  apply (waiting_insert v j s _ i p (ticked 1 p) 0 W I' Hp eq_refl Hij).
  - intros _. change (vruntime (ticked 1 p)) with (vruntime p). change (time_slice (ticked 1 p)) with (time_slice p). split; [lia|]. intros _. lia.
  - unfold lead. cbn [state ticked set_actual_runtime]. rewrite Sp. change (vtime (ticked 1 p)) with (vtime p). lia.
Qed.

Lemma sleep_step v j s s' me i ch s1 : waiting v j s -> busy me i s -> sleep_out me ch true s = Ok (tt, s1) ->
  scheduler_back me s1 = Ok (tt, s') -> pt_inv s' ->
  waiting v j s' /\ total_lead v (procs s') + 0 <= total_lead v (procs s).
Proof.
  intros W (c & Hc & Hi) Hs Hb I'. destruct (waiting_busy v j s me i c W Hc Hi) as (p & Hp & Sp & _ & _ & Hij).
  destruct (sleep_out_left me i s s1 c ch (wt_inv _ _ _ W) Hc Hi Hs) as (p0 & p' & x & Hp0 & P & _ & Sp' & Hl & _ & Hx & Hxi & Hxn & Hxf).
  destruct (scheduler_back_ok me s1 x Hx Hl Hxn Hxf) as (s2 & x2 & R & P2 & _). rewrite R in Hb. injection Hb as <-. rewrite P in P2.
  apply (waiting_insert v j s s2 i p p' 0 W I' Hp P2 Hij).
  - intros [?|?]; congruence.
  - pose proof (lead_nonneg v p). unfold lead at 1. rewrite Sp'. lia.
Qed.

Lemma op_waiting v j s s' d : waiting v j s -> op v j s s' d ->
  waiting v j s' /\ total_lead v (procs s') + Z.of_nat d <= total_lead v (procs s).
Proof.
  intros W H. pose proof (wt_inv _ _ _ W) as I.
  assert (Q : pt_inv s' -> Forall2 (level v) (procs s) (procs s') -> waiting v j s' /\ total_lead v (procs s') + Z.of_nat 0 <= total_lead v (procs s)).
  { intros I' F. destruct (waiting_level v j s s' W I' F). split; [done|lia]. }
  destruct H as [me Hi Hp|me i s1 Hi Hp Hij Hr|me i Hb Ht|me i s1 s2 Hb Ht Hy Hk|me i ch s1 Hb Hs Hk|me ch Hw No|me pd r Hk No|me pd n r Hs|me pd r Hg|me i c x Hc Hi Hx ->].
  - apply Q; [by eapply idle_inv|]. destruct Hi as (c & Hc & Hn).
    destruct (pick (procs s)) as [[i p]|] eqn:Ep.
    { destruct (scheduler_picks me s c i p I Hc Hn Ep) as (s2 & x & R & _). congruence. }
    destruct (scheduler_pick_none me s c Hc (pv_lock _ I)) as (s2 & x & R & P & _); [by rewrite (pv_idle _ I me c Hc Hn)|done|].
    rewrite R in Hp. injection Hp as <-. rewrite P. apply level_refls.
  - eapply dispatch_step; try done. by eapply dispatch_inv.
  - eapply tick_step; try done. eapply pt_step_inv; [done|]. by eapply ps_tick.
  - assert (I1 : pt_inv s1) by (eapply pt_step_inv; [done|by eapply ps_tick]).
    eapply preempt_step; try done. eapply pt_step_inv; [exact I1|]. eapply (ps_yield _ _ me i); try done.
    destruct Hb as (c & Hc & Hi). destruct (waiting_busy v j s me i c W Hc Hi) as (p & Hp & _).
    rewrite (timer_charge_ok me i c s p Hc Hi Hp) in Ht. injection Ht as _ <-. by exists c.
  - eapply sleep_step; try done. eapply pt_step_inv; [done|]. by eapply ps_sleep.
  - apply Q; [eapply pt_step_inv; [done|by eapply ps_wakeup]|by eapply wakeup_level].
  - apply Q; [eapply pt_step_inv; [done|by eapply ps_kill]|by eapply kill_level].
  - apply Q; [eapply pt_step_inv; [done|by eapply ps_setnice]|by eapply setnice_level].
  - apply Q; [eapply pt_step_inv; [done|by eapply ps_getnice]|by eapply getnice_level].
  - apply Q; [eapply pt_step_inv; [done|by eapply (ps_locks _ _ me i c x)]|apply level_refls].
Qed.

Lemma history_waiting v j n s s' : waiting v j s -> history v j n s s' ->
  waiting v j s' /\ total_lead v (procs s') + Z.of_nat n <= total_lead v (procs s).
Proof.
  intros W H. induction H as [s|n d s s1 s2 H IH O]; [split; [done|lia]|].
  destruct (IH W) as [W1 L1]. destruct (op_waiting v j s1 s2 d W1 O) as [W2 L2]. split; [done|lia].
Qed.

(** Two slots at once. *)
Lemma total_lead_two v ps i j p q : ps !! i = Some p -> ps !! j = Some q -> i <> j -> lead v p + lead v q <= total_lead v ps.
Proof.
  intros Hp Hq Hij. pose proof (total_lead_insert v ps i p no_proc Hp) as E. change (lead v no_proc) with 0 in E.
  rewrite (total_lead_split v j _ q) in E by (by rewrite list_lookup_insert_ne). pose proof (total_lead_nonneg v (delete j (<[i := no_proc]> ps))).
  unfold ahead in E. lia.
Qed.

End Fairness.

(** ** The process of slot 0 takes its turn while slot 1 waits *)
#[local] Existing Instance fp_double.

Lemma ex_accounted : Forall accounted (procs ex_pt).
Proof.
  rewrite Forall_lookup. intros i p Hp. unfold accounted, active.
  destruct (ex_pt_lookup i p Hp) as [[_ ->]|[[_ ->]|[[_ ->]| ->]]]; intros [E|E]; try discriminate E; (split; [cbn; lia|]); intros F; discriminate F.
Qed.

