(* ===== verification/Bytes.v ===== *)
(** * Records in disk blocks

    A disk block is a list of bytes; the file system and the log lay C structs
    over it.  Little-endian fields of two and four bytes at a byte offset. *)
From S2P Require Import Prelude.

Open Scope Z_scope.

Abbreviation bytes := (list Z).

Definition getb (l : bytes) (o : nat) : Z := default 0 (l !! o).
Definition get16 (l : bytes) (o : nat) : Z := getb l o + 256 * getb l (o + 1).
Definition get32 (l : bytes) (o : nat) : Z :=
  getb l o + 256 * getb l (o + 1) + 65536 * getb l (o + 2) + 16777216 * getb l (o + 3).

Definition putb (l : bytes) (o : nat) (v : Z) : bytes := <[o := u8 v]> l.
Definition put16 (l : bytes) (o : nat) (v : Z) : bytes := putb (putb l o v) (o + 1) (v / 256).
Definition put32 (l : bytes) (o : nat) (v : Z) : bytes :=
  putb (putb (putb (putb l o v) (o + 1) (v / 256)) (o + 2) (v / 65536)) (o + 3) (v / 16777216).

(** [memmove] of [src] to offset [o]. *)
Definition put_bytes (l : bytes) (o : nat) (src : bytes) : bytes :=
  take o l ++ src ++ drop (o + length src) l.
Definition get_bytes (l : bytes) (o n : nat) : bytes := take n (drop o l).

Definition bytes_ok (l : bytes) : Prop := Forall (fun b => 0 <= b < 256) l.

Lemma length_putb l o v : length (putb l o v) = length l.
Proof. apply length_insert. Qed.
Lemma length_put16 l o v : length (put16 l o v) = length l.
Proof. unfold put16. by rewrite !length_putb. Qed.
Lemma length_put32 l o v : length (put32 l o v) = length l.
Proof. unfold put32. by rewrite !length_putb. Qed.

Lemma bytes_ok_putb l o v : bytes_ok l -> bytes_ok (putb l o v).
Proof. intros H. apply Forall_insert; [done|]. apply u8_range. Qed.
Lemma bytes_ok_put16 l o v : bytes_ok l -> bytes_ok (put16 l o v).
Proof. intros H. by apply bytes_ok_putb, bytes_ok_putb. Qed.
Lemma bytes_ok_put32 l o v : bytes_ok l -> bytes_ok (put32 l o v).
Proof. intros H. by do 4 apply bytes_ok_putb. Qed.

Lemma getb_putb_eq l o v : (o < length l)%nat -> getb (putb l o v) o = u8 v.
Proof. intros H. unfold getb, putb. by rewrite list_lookup_insert_eq. Qed.
Lemma getb_putb_ne l o o' v : o <> o' -> getb (putb l o v) o' = getb l o'.
Proof. intros H. unfold getb, putb. by rewrite list_lookup_insert_ne. Qed.
Lemma getb_range l o : bytes_ok l -> 0 <= getb l o < 256.
Proof.
  intros H. unfold getb. destruct (l !! o) as [b|] eqn:E; simpl; [|lia].
  unfold bytes_ok in H. rewrite Forall_lookup in H. by apply (H o).
Qed.

Lemma get32_range l o : bytes_ok l -> 0 <= get32 l o < 4294967296.
Proof.
  intros H. unfold get32. pose proof (getb_range l o H). pose proof (getb_range l (o + 1) H).
  pose proof (getb_range l (o + 2) H). pose proof (getb_range l (o + 3) H). lia.
Qed.
Lemma get16_range l o : bytes_ok l -> 0 <= get16 l o < 65536.
Proof. intros H. unfold get16. pose proof (getb_range l o H). pose proof (getb_range l (o + 1) H). lia. Qed.

Lemma getb_put32 l o o' v : (o + 3 < length l)%nat ->
  getb (put32 l o v) o' =
    if decide (o' = o) then u8 v else if decide (o' = o + 1)%nat then u8 (v / 256)
    else if decide (o' = o + 2)%nat then u8 (v / 65536)
    else if decide (o' = o + 3)%nat then u8 (v / 16777216) else getb l o'.
Proof.
  intros H. unfold put32. repeat case_decide; subst;
    repeat first [rewrite getb_putb_eq by (rewrite ?length_putb; lia) | rewrite getb_putb_ne by lia];
    try done; lia.
Qed.

Lemma getb_put16 l o o' v : (o + 1 < length l)%nat ->
  getb (put16 l o v) o' =
    if decide (o' = o) then u8 v else if decide (o' = o + 1)%nat then u8 (v / 256) else getb l o'.
Proof.
  intros H. unfold put16. repeat case_decide; subst;
    repeat first [rewrite getb_putb_eq by (rewrite ?length_putb; lia) | rewrite getb_putb_ne by lia];
    try done; lia.
Qed.

Lemma get32_put32_eq l o v : (o + 3 < length l)%nat -> get32 (put32 l o v) o = u32 v.
Proof.
  intros H. unfold get32. rewrite !getb_put32 by done. repeat case_decide; try lia.
  unfold u8, u32. Z.div_mod_to_equations. lia.
Qed.
Lemma get32_put32_ne l o o' v : (o + 3 < length l)%nat -> (o' + 4 <= o \/ o + 4 <= o')%nat ->
  get32 (put32 l o v) o' = get32 l o'.
Proof. intros H Hd. unfold get32. rewrite !getb_put32 by done. repeat case_decide; try lia. Qed.
Lemma get16_put16_eq l o v : (o + 1 < length l)%nat -> get16 (put16 l o v) o = u16 v.
Proof.
  intros H. unfold get16. rewrite !getb_put16 by done. repeat case_decide; try lia.
  unfold u8, u16. Z.div_mod_to_equations. lia.
Qed.
Lemma get16_put16_ne l o o' v : (o + 1 < length l)%nat -> (o' + 2 <= o \/ o + 2 <= o')%nat ->
  get16 (put16 l o v) o' = get16 l o'.
Proof. intros H Hd. unfold get16. rewrite !getb_put16 by done. repeat case_decide; try lia. Qed.
Lemma get32_put16_ne l o o' v : (o + 1 < length l)%nat -> (o' + 4 <= o \/ o + 2 <= o')%nat ->
  get32 (put16 l o v) o' = get32 l o'.
Proof. intros H Hd. unfold get32. rewrite !getb_put16 by done. repeat case_decide; try lia. Qed.
Lemma get16_put32_ne l o o' v : (o + 3 < length l)%nat -> (o' + 2 <= o \/ o + 4 <= o')%nat ->
  get16 (put32 l o v) o' = get16 l o'.
Proof. intros H Hd. unfold get16. rewrite !getb_put32 by done. repeat case_decide; try lia. Qed.

Lemma length_put_bytes l o src : (o + length src <= length l)%nat -> length (put_bytes l o src) = length l.
Proof. intros H. unfold put_bytes. rewrite !length_app, length_take, length_drop. lia. Qed.

Lemma get_put_bytes l o src : (o + length src <= length l)%nat ->
  get_bytes (put_bytes l o src) o (length src) = src.
Proof.
  intros H. unfold get_bytes, put_bytes.
  rewrite drop_app_length' by (rewrite length_take; lia). by rewrite take_app_length.
Qed.
