(* ===== verification/Console.v ===== *)
(** * The console (console.c), its serial port (uart.c) and keyboard (kbd.c)

    The screen and the serial line as the output of [cprintf] and
    [consolewrite], the line editor of [consoleintr] and [consoleread] over its
    ring buffer, and the decoding of the keyboard's scan codes. *)
From S2P Require Import Prelude Bytes Spinlock.

Open Scope Z_scope.

(** The bytes of a string literal. *)
Fixpoint bytes_of (s : string) : bytes :=
  match s with
  | EmptyString => []
  | String a s => Z.of_nat (Ascii.nat_of_ascii a) :: bytes_of s
  end.

(** The escapes of C string literals that the kernel's messages use. *)
Fixpoint unescape (l : bytes) : bytes :=
  match l with
  | 92 :: 110 :: l => 10 :: unescape l
  | 92 :: 116 :: l => 9 :: unescape l
  | b :: l => b :: unescape l
  | [] => []
  end.

(** ** Output *)

(** What [consputc] changes: the bytes sent on the serial line, the cells of
    the CGA memory and its cursor register.  [uart] tells whether a serial port
    was found. *)
Record screen := Screen {
  panicked : Z; uart : Z; serial : bytes; crt : list Z; cursor : Z }.

Definition BACKSPACE : Z := 0x100.

Definition uartputc (c : Z) : M screen unit :=
  s ← get;
  if uart s =? 0 then mret tt
  else put (Screen (panicked s) (uart s) (serial s ++ [u8 c]) (crt s) (cursor s)).

(** [memmove(crt, crt+80, 2*23*80)] and [memset(crt+pos, 0, 2*(24*80 - pos))]. *)
Definition scroll_up (l : list Z) : list Z := take 1840 (drop 80 l) ++ drop 1840 l.
Definition blank (pos : nat) (l : list Z) : list Z :=
  take pos l ++ replicate (1920 - pos) 0 ++ drop (pos + (1920 - pos)) l.

Definition crt_set (pos v : Z) (l : list Z) : option (list Z) :=
  if (0 <=? pos) && (pos <? Z.of_nat (length l)) then Some (<[Z.to_nat pos := v]> l) else None.

Definition cgaputc (c : Z) : M screen unit :=
  s ← get;
  let pos := cursor s in
  (if c =? 10 then mret (pos + (80 - pos mod 80), crt s)
   else if c =? BACKSPACE then mret (if 0 <? pos then pos - 1 else pos, crt s)
   else match crt_set pos (Z.lor (Z.land c 0xff) 0x0700) (crt s) with
        | Some l => mret (pos + 1, l)
        | None => undef "outside the CGA memory"
        end) ≫= fun '(pos, l) =>
  if (pos <? 0) || (25 * 80 <? pos) then panic "pos under/overflow"
  else
    let '(pos, l) :=
      if 24 <=? pos / 80 then (pos - 80, blank (Z.to_nat (pos - 80)) (scroll_up l)) else (pos, l) in
    match crt_set pos (Z.lor 32 0x0700) l with
    | Some l => put (Screen (panicked s) (uart s) (serial s) l (u16 pos))
    | None => undef "outside the CGA memory"
    end.

Definition consputc (c : Z) : M screen unit :=
  s ← get;
  if truthy (panicked s) then hang
  else
    (if c =? BACKSPACE then uartputc 8 ;; uartputc 32 ;; uartputc 8
     else uartputc c) ;;
    cgaputc c.

(** [printint]: the digits least significant first, in a buffer of 16 bytes. *)
Definition digit (d : Z) : Z := if d <? 10 then 48 + d else 87 + d.
Fixpoint digits (fuel : nat) (x base : Z) : bytes :=
  match fuel with
  | O => []
  | S fuel =>
      digit (x mod base) :: (if x / base =? 0 then [] else digits fuel (x / base) base)
  end.
Definition printint_buf (xx base sign : Z) : bytes :=
  let neg := truthy sign && (xx <? 0) in
  let x := if neg then u32 (- xx) else u32 xx in
  digits 32 x base ++ (if neg then [45] else []).
Definition printint (xx base sign : Z) : M screen unit :=
  if 16 <? Z.of_nat (length (printint_buf xx base sign)) then undef "buf overflow"
  else for_each (rev (printint_buf xx base sign)) consputc.

(** The arguments of [cprintf]: words and strings, a null string being [None]. *)
Inductive carg := CInt (v : Z) | CStr (s : option bytes).

Fixpoint cprintf_loop (fmt : bytes) (args : list carg) : M screen unit :=
  match fmt with
  | [] => mret tt
  | c :: fmt =>
      if c =? 0 then mret tt
      else if negb (c =? 37) then consputc c ;; cprintf_loop fmt args
      else
        match fmt with
        | [] => mret tt
        | c :: fmt =>
            if c =? 0 then mret tt
            else if c =? 100 then
              match args with
              | CInt v :: args => printint (s32 v) 10 1 ;; cprintf_loop fmt args
              | _ => undef "argument"
              end
            else if (c =? 120) || (c =? 112) then
              match args with
              | CInt v :: args => printint (s32 v) 16 0 ;; cprintf_loop fmt args
              | _ => undef "argument"
              end
            else if c =? 115 then
              match args with
              | CStr s :: args =>
                  for_each (default (bytes_of "(null)") s) consputc ;; cprintf_loop fmt args
              | _ => undef "argument"
              end
            else if c =? 37 then consputc 37 ;; cprintf_loop fmt args
            else consputc 37 ;; consputc c ;; cprintf_loop fmt args
        end
  end.

(** ** Input *)

Definition INPUT_BUF : Z := 128.

(** The input buffer with its read, write and edit index. *)
Record input := Input { ibuf : bytes; ir : Z; iw : Z; ie : Z }.
(** The keyboard: the codes waiting at its data port and the modifier keys. *)
Record kbd := Kbd { kb_codes : list Z; shift : Z }.

(** The console: its lock, the output, the input, the two devices' pending
    input and the number of wakeups of sleepers on [&input.r]. *)
Record console := Console {
  c_lock : bool; locking : Z; scr : screen; inp : input; kb : kbd; uart_rx : list Z;
  woke_in : nat }.

Definition c_lockL : lens console bool :=
  Lens c_lock (fun v c => Console v (locking c) (scr c) (inp c) (kb c) (uart_rx c) (woke_in c)).
Definition scrL : lens console screen :=
  Lens scr (fun v c => Console (c_lock c) (locking c) v (inp c) (kb c) (uart_rx c) (woke_in c)).
Definition inpL : lens console input :=
  Lens inp (fun v c => Console (c_lock c) (locking c) (scr c) v (kb c) (uart_rx c) (woke_in c)).
Definition kbL : lens console kbd :=
  Lens kb (fun v c => Console (c_lock c) (locking c) (scr c) (inp c) v (uart_rx c) (woke_in c)).
Definition set_locking v c := Console (c_lock c) v (scr c) (inp c) (kb c) (uart_rx c) (woke_in c).
Definition set_uart_rx v c := Console (c_lock c) (locking c) (scr c) (inp c) (kb c) v (woke_in c).
Definition wake_input c := Console (c_lock c) (locking c) (scr c) (inp c) (kb c) (uart_rx c) (S (woke_in c)).

Definition c_acquire : M console unit := zoom c_lockL lk_acquire.
Definition c_release : M console unit := zoom c_lockL lk_release.
Definition cputc (c : Z) : M console unit := zoom scrL (consputc c).

Definition cprintf (fmt : string) (args : list carg) : M console unit :=
  c ← get;
  let locking := truthy (locking c) in
  when locking c_acquire ;;
  zoom scrL (cprintf_loop (unescape (bytes_of fmt)) args) ;;
  when locking c_release.

Definition uartgetc : M console Z :=
  c ← get;
  if uart (scr c) =? 0 then mret (-1)
  else match uart_rx c with
       | [] => mret (-1)
       | d :: l => modify (set_uart_rx l) ;; mret d
       end.

(** The keyboard maps of kbd.h. *)
Definition SHIFT : Z := 1.
Definition CTL : Z := 2.
Definition ALT : Z := 4.
Definition CAPSLOCK : Z := 8.
Definition NUMLOCK : Z := 16.
Definition SCROLLLOCK : Z := 32.
Definition E0ESC : Z := 64.
Definition shiftcode (d : Z) : Z :=
  if d =? 0x1D then CTL else if d =? 0x2A then SHIFT else if d =? 0x36 then SHIFT
  else if d =? 0x38 then ALT else if d =? 0x9D then CTL else if d =? 0xB8 then ALT else 0.
Definition togglecode (d : Z) : Z :=
  if d =? 0x3A then CAPSLOCK else if d =? 0x45 then NUMLOCK
  else if d =? 0x46 then SCROLLLOCK else 0.

(** The keys of the numeric pad and the arrows, which the three maps share. *)
Definition keypad (enter div d : Z) : Z :=
  if d =? 0x9C then enter else if d =? 0xB5 then div
  else if d =? 0xC8 then 0xE2 else if d =? 0xD0 then 0xE3
  else if d =? 0xC9 then 0xE6 else if d =? 0xD1 then 0xE7
  else if d =? 0xCB then 0xE4 else if d =? 0xCD then 0xE5
  else if d =? 0x97 then 0xE0 else if d =? 0xCF then 0xE1
  else if d =? 0xD2 then 0xE8 else if d =? 0xD3 then 0xE9 else 0.
Definition keymap (table : bytes) (enter div d : Z) : Z :=
  match table !! Z.to_nat d with Some c => c | None => keypad enter div d end.

Definition normalmap : Z -> Z := keymap
  ([0; 27] ++ bytes_of "1234567890-=" ++ [8; 9] ++ bytes_of "qwertyuiop[]" ++ [10; 0]
   ++ bytes_of "asdfghjkl;'`" ++ [0; 92] ++ bytes_of "zxcvbnm,./" ++ [0; 42; 0; 32]
   ++ replicate 13 0 ++ bytes_of "789-456+1230." ++ replicate 4 0) 10 47.
Definition shiftmap : Z -> Z := keymap
  ([0; 27] ++ bytes_of "!@#$%^&*()_+" ++ [8; 9] ++ bytes_of "QWERTYUIOP{}" ++ [10; 0]
   ++ bytes_of "ASDFGHJKL:" ++ [34; 126; 0; 124] ++ bytes_of "ZXCVBNM<>?" ++ [0; 42; 0; 32]
   ++ replicate 13 0 ++ bytes_of "789-456+1230." ++ replicate 4 0) 10 47.
(** [C(x)] *)
Definition Ctl (s : string) : bytes := (fun c => c - 64) <$> bytes_of s.
Definition ctlmap : Z -> Z := keymap
  (replicate 16 0 ++ Ctl "QWERTYUIOP" ++ [0; 0; 13; 0] ++ Ctl "ASDFGHJKL" ++ [0; 0; 0; 0]
   ++ [28] ++ Ctl "ZXCVBNM" ++ [0; 0; 239; 0; 0]) 13 239.

Definition charcode (k data : Z) : Z :=
  if k =? 0 then normalmap data else if k =? 1 then shiftmap data else ctlmap data.

Definition kbdgetc : M kbd Z :=
  k ← get;
  match kb_codes k with
  | [] => mret (-1)
  | data :: codes =>
      let sh := shift k in
      if data =? 0xE0 then put (Kbd codes (Z.lor sh E0ESC)) ;; mret 0
      else if truthy (Z.land data 0x80) then
        let data := if truthy (Z.land sh E0ESC) then data else Z.land data 0x7F in
        put (Kbd codes (Z.ldiff sh (Z.lor (shiftcode data) E0ESC))) ;; mret 0
      else
        let '(data, sh) :=
          if truthy (Z.land sh E0ESC) then (Z.lor data 0x80, Z.ldiff sh E0ESC) else (data, sh) in
        let sh := Z.lxor (Z.lor sh (shiftcode data)) (togglecode data) in
        let c := charcode (Z.land sh (Z.lor CTL SHIFT)) data in
        let c := if truthy (Z.land sh CAPSLOCK) then
                   if (97 <=? c) && (c <=? 122) then c - 32
                   else if (65 <=? c) && (c <=? 90) then c + 32 else c
                 else c in
        put (Kbd codes sh) ;; mret c
  end.

(** [input.e--; consputc(BACKSPACE)] *)
Definition erase : M console unit :=
  zoom inpL (modify (fun i => Input (ibuf i) (ir i) (iw i) (u32 (ie i - 1)))) ;; cputc BACKSPACE.
Definition last_is_newline (i : input) : bool :=
  getb (ibuf i) (Z.to_nat (u32 (ie i - 1) mod INPUT_BUF)) =? 10.
Fixpoint kill_line (fuel : nat) : M console unit :=
  c ← get;
  if negb (ie (inp c) =? iw (inp c)) && negb (last_is_newline (inp c)) then
    match fuel with O => hang | S fuel => erase ;; kill_line fuel end
  else mret tt.

(** [input.buf[input.e++ % INPUT_BUF] = c] *)
Definition store_char (c : Z) (i : input) : input :=
  Input (<[Z.to_nat (ie i mod INPUT_BUF) := u8 c]> (ibuf i)) (ir i) (iw i) (u32 (ie i + 1)).
Definition commit_line (i : input) : input := Input (ibuf i) (ir i) (ie i) (ie i).

(** The switch of [consoleintr]; the result tells whether ^P was typed. *)
Definition consoleintr_char (c : Z) : M console bool :=
  if c =? 16 then mret true
  else if c =? 21 then
    s ← get;
    kill_line (Z.to_nat (u32 (ie (inp s) - iw (inp s)))) ;; mret false
  else if (c =? 8) || (c =? 127) then
    s ← get;
    when (negb (ie (inp s) =? iw (inp s))) erase ;; mret false
  else
    s ← get;
    when (truthy c && (u32 (ie (inp s) - ir (inp s)) <? INPUT_BUF))
      (let c := if c =? 13 then 10 else c in
       zoom inpL (modify (store_char c)) ;;
       cputc c ;;
       s ← get;
       when ((c =? 10) || (c =? 4) || (ie (inp s) =? u32 (ir (inp s) + INPUT_BUF)))
         (zoom inpL (modify commit_line) ;; modify wake_input)) ;;
    mret false.

Fixpoint consoleintr_loop (fuel : nat) (getc : M console Z) (doprocdump : bool) : M console bool :=
  match fuel with
  | O => hang
  | S fuel =>
      c ← getc;
      if 0 <=? c then
        d ← consoleintr_char c;
        consoleintr_loop fuel getc (doprocdump || d)
      else mret doprocdump
  end.
(** The result tells the caller to run [procdump], which needs the lock free. *)
Definition consoleintr (fuel : nat) (getc : M console Z) : M console bool :=
  c_acquire ;;
  d ← consoleintr_loop fuel getc false;
  c_release ;;
  mret d.
(** The devices have a finite number of bytes waiting. *)
Definition kbdintr : M console bool :=
  s ← get; consoleintr (S (length (kb_codes (kb s)))) (zoom kbL kbdgetc).
Definition uartintr : M console bool :=
  s ← get; consoleintr (S (length (uart_rx s))) uartgetc.

(** [consoleread] between the two calls on the inode's lock; [n] bytes are still
    wanted of [target] and [out] is what has been stored.  It sleeps, having
    released the lock, where there is nothing to read. *)
Inductive cread := CRead (r : Z) (out : bytes) | CSleep (n : nat) (out : bytes).
Definition next_char (i : input) : Z := getb (ibuf i) (Z.to_nat (ir i mod INPUT_BUF)).
Definition skip_char (i : input) : input := Input (ibuf i) (u32 (ir i + 1)) (iw i) (ie i).
Definition unskip_char (i : input) : input := Input (ibuf i) (u32 (ir i - 1)) (iw i) (ie i).

Fixpoint consoleread_loop (killed : bool) (target : Z) (n : nat) (out : bytes) : M console cread :=
  match n with
  | O => c_release ;; mret (CRead (target - Z.of_nat n) out)
  | S n' =>
      s ← get;
      if ir (inp s) =? iw (inp s) then
        if killed then c_release ;; mret (CRead (-1) out)
        else c_release ;; mret (CSleep n out)
      else
        let c := next_char (inp s) in
        zoom inpL (modify skip_char) ;;
        if c =? 4 then
          when (Z.of_nat n <? target) (zoom inpL (modify unskip_char)) ;;
          c_release ;; mret (CRead (target - Z.of_nat n) out)
        else if c =? 10 then c_release ;; mret (CRead (target - Z.of_nat n') (out ++ [c]))
        else consoleread_loop killed target n' (out ++ [c])
  end.
(** The call, and its continuation after a wakeup. *)
Definition consoleread (killed : bool) (target : Z) (n : nat) (out : bytes) : M console cread :=
  c_acquire ;; consoleread_loop killed target n out.

Definition consolewrite (buf : bytes) : M console Z :=
  c_acquire ;;
  for_each buf cputc ;;
  c_release ;;
  mret (Z.of_nat (length buf)).
