(* ===== verification/ConsoleProps.v ===== *)
(** * Properties of the console

    The screen's cursor stays on the screen and nothing printed is lost;
    [printint] prints a number that reads back; the line editor and its ring
    buffer behave as two queues. *)
From S2P Require Import Prelude Bytes Spinlock Console.

Open Scope Z_scope.

(** ** Output *)

(** A working screen: the cursor is in the 24 text rows and the video memory
    has at least the 25 rows of the mode. *)
Record screen_ok (s : screen) : Prop := {
  so_panicked : panicked s = 0;
  so_crt : (2000 < length (crt s))%nat;
  so_cursor : 0 <= cursor s < 1920
}.

(** What a character puts on the serial line. *)
Definition echo (c : Z) : bytes := if c =? BACKSPACE then [8; 32; 8] else [u8 c].
Definition sent (u : Z) (l : bytes) : bytes := if u =? 0 then [] else l.

Lemma crt_set_in pos v l : 0 <= pos < Z.of_nat (length l) -> crt_set pos v l = Some (<[Z.to_nat pos := v]> l).
Proof.
  intros H. unfold crt_set. destruct (Z.leb_spec 0 pos); [|lia]. destruct (Z.ltb_spec pos (Z.of_nat (length l))); [done|lia].
Qed.
Lemma length_scroll_up l : (2000 < length l)%nat -> length (scroll_up l) = length l.
Proof. intros H. unfold scroll_up. rewrite length_app, length_take, !length_drop. lia. Qed.
Lemma length_blank p l : (p <= 1920)%nat -> (2000 < length l)%nat -> length (blank p l) = length l.
Proof. intros Hp H. unfold blank. rewrite !length_app, length_take, length_replicate, length_drop. lia. Qed.

Lemma uartputc_run c s : uartputc c s = Ok (tt, Screen (panicked s) (uart s) (serial s ++ sent (uart s) [u8 c]) (crt s) (cursor s)).
Proof.
  unfold uartputc, sent. unfold mbind, M_bind, get. destruct (uart s =? 0); [|reflexivity].
  rewrite app_nil_r. by destruct s.
Qed.

Lemma uart_bytes u c : sent u (echo c) = if c =? BACKSPACE then sent u [8] ++ sent u [32] ++ sent u [8] else sent u [u8 c].
Proof. unfold sent, echo. by destruct (u =? 0), (c =? BACKSPACE). Qed.

(** The cell and the position [cgaputc] writes next. *)
Lemma wp_cgaputc c s : screen_ok s ->
  wp (cgaputc c) (fun _ s' => screen_ok s' /\ serial s' = serial s /\ uart s' = uart s) s.
Proof.
  intros [Hp Hl Hc]. unfold cgaputc. apply wp_bind, wp_get, wp_bind.
  assert (F : forall p l, (0 <= p <= 1920) -> length l = length (crt s) ->
    wp (if (p <? 0) || (25 * 80 <? p) then panic "pos under/overflow" else
        let '(pos, l) := if 24 <=? p / 80 then (p - 80, blank (Z.to_nat (p - 80)) (scroll_up l)) else (p, l) in
        match crt_set pos (Z.lor 32 0x0700) l with
        | Some l => put (Screen (panicked s) (uart s) (serial s) l (u16 pos))
        | None => undef "outside the CGA memory" end)
      (fun _ s' => screen_ok s' /\ serial s' = serial s /\ uart s' = uart s) s).
  { intros p l Hr El. destruct (Z.ltb_spec p 0); [lia|]. destruct (Z.ltb_spec (25 * 80) p); [lia|]. cbn [orb].
    destruct (Z.leb_spec 24 (p / 80)) as [H24|H24].
    - assert (p = 1920) as -> by (Z.div_mod_to_equations; lia).
      assert (EL : length (blank (Z.to_nat (1920 - 80)) (scroll_up l)) = length (crt s)).
      { rewrite length_blank, length_scroll_up; rewrite ?length_scroll_up; lia. }
      rewrite crt_set_in by (rewrite EL; lia). apply wp_put. split; [|done]. split; cbn [panicked crt cursor].
      + done.
      + rewrite length_insert, EL. done.
      + vm_compute. intuition discriminate.
    - assert (p < 1920) by (Z.div_mod_to_equations; lia).
      rewrite crt_set_in by lia. apply wp_put. split; [|done]. split; cbn [panicked crt cursor]; [done|rewrite length_insert; lia|].
      unfold u16. rewrite Z.mod_small; lia. }
  destruct (c =? 10).
  - apply wp_ret, F; [|done]. Z.div_mod_to_equations. lia.
  - destruct (c =? BACKSPACE).
    + apply wp_ret, F; [|done]. destruct (Z.ltb_spec 0 (cursor s)); lia.
    + rewrite crt_set_in by lia. apply wp_ret, F; [lia|]. by rewrite length_insert.
Qed.

Lemma wp_consputc c s : screen_ok s ->
  wp (consputc c) (fun _ s' => screen_ok s' /\ serial s' = serial s ++ sent (uart s) (echo c) /\ uart s' = uart s) s.
Proof.
  intros O. unfold consputc. apply wp_bind, wp_get. rewrite (so_panicked s O). cbn [truthy negb Z.eqb].
  apply wp_bind. set (s1 := Screen (panicked s) (uart s) (serial s ++ sent (uart s) (echo c)) (crt s) (cursor s)).
  assert (E : (if c =? BACKSPACE then uartputc 8 ;; uartputc 32 ;; uartputc 8 else uartputc c) s = Ok (tt, s1)).
  { unfold s1. rewrite uart_bytes. destruct (c =? BACKSPACE); [|apply uartputc_run].
    rewrite (bind_ok _ _ _ _ _ (uartputc_run _ _)), (bind_ok _ _ _ _ _ (uartputc_run _ _)), uartputc_run. cbn.
    by rewrite <-!app_assoc. }
  unfold wp at 1. rewrite E. eapply wp_mono; [apply wp_cgaputc; split; apply O|].
  by intros [] s' (O' & E1 & E2).
Qed.

Lemma sent_app u l k : sent u (l ++ k) = sent u l ++ sent u k.
Proof. unfold sent. by destruct (u =? 0). Qed.

(** C36: Whatever is printed - any sequence of characters and backspaces - the
    console never stops in "pos under/overflow" and never writes outside the
    video memory, its cursor stays in the 24 text rows, and every character
    reaches the serial line in order. *)
Theorem console_output_safe (cs : list Z) (s : screen) (O : screen_ok s) :
  wp (for_each cs consputc)
    (fun _ s' => screen_ok s' /\ serial s' = serial s ++ sent (uart s) (flat_map echo cs)) s.
Proof.
  apply wp_mono with (Q := fun _ s' => screen_ok s' /\ serial s' = serial s ++ sent (uart s) (flat_map echo cs)
    /\ uart s' = uart s); [|by intros [] s' (? & ? & ?)].
  revert s O. induction cs as [|c cs IH]; intros s O; cbn [for_each flat_map].
  - apply wp_ret. split_and!; [done| |done]. unfold sent. destruct (uart s =? 0); by rewrite app_nil_r.
  - apply wp_bind. eapply wp_mono; [by apply wp_consputc|]. intros [] s1 (O1 & E1 & U1).
    eapply wp_mono; [by apply IH|]. intros [] s2 (O2 & E2 & U2). split_and!; [done| |congruence].
    by rewrite E2, E1, U1, sent_app, app_assoc.
Qed.

(** Printing through a helper keeps this form. *)
Lemma wp_putall cs s : screen_ok s -> Forall (fun c => 0 <= c < 256) cs ->
  wp (for_each cs consputc) (fun _ s' => screen_ok s' /\ serial s' = serial s ++ sent (uart s) cs /\ uart s' = uart s) s.
Proof.
  intros O F. revert s O. induction F as [|c cs Hc F IH]; intros s O; cbn [for_each].
  - apply wp_ret. split_and!; [done| |done]. unfold sent. destruct (uart s =? 0); by rewrite app_nil_r.
  - apply wp_bind. eapply wp_mono; [by apply wp_consputc|]. intros [] s1 (O1 & E1 & U1).
    eapply wp_mono; [by apply IH|]. intros [] s2 (O2 & E2 & U2). split_and!; [done| |congruence].
    assert (Ec : echo c = [c]).
    { unfold echo, BACKSPACE. destruct (Z.eqb_spec c 256); [lia|]. unfold u8. by rewrite Z.mod_small. }
    change (c :: cs) with ([c] ++ cs). by rewrite E2, E1, U1, Ec, sent_app, app_assoc.
Qed.

(** Reading a number back: an optional minus sign and digits, the most
    significant first. *)
Definition undigit (c : Z) : Z := if c <? 58 then c - 48 else c - 87.
Definition read_digits (base : Z) (l : bytes) : Z := fold_right (fun c a => undigit c + base * a) 0 (rev l).
Definition read_number (base : Z) (l : bytes) : Z :=
  match l with
  | 45 :: l => - read_digits base l
  | _ => read_digits base l
  end.

Lemma undigit_digit d : 0 <= d < 16 -> undigit (digit d) = d.
Proof.
  intros H. unfold undigit, digit. destruct (Z.ltb_spec d 10).
  - destruct (Z.ltb_spec (48 + d) 58); lia.
  - destruct (Z.ltb_spec (87 + d) 58); lia.
Qed.
Lemma digit_range d : 0 <= d < 16 -> 48 <= digit d < 103.
Proof. intros H. unfold digit. destruct (Z.ltb_spec d 10); lia. Qed.

Section Digits.
Context (base : Z).
Hypothesis Hb : 2 <= base <= 16.

Lemma digits_value fuel : forall x, 0 <= x < base ^ Z.of_nat fuel ->
  fold_right (fun c a => undigit c + base * a) 0 (digits fuel x base) = x.
Proof.
  induction fuel as [|fuel IH]; intros x Hx; cbn [digits fold_right].
  - change (Z.of_nat 0) with 0 in Hx. rewrite Z.pow_0_r in Hx. lia.
  - rewrite Nat2Z.inj_succ, Z.pow_succ_r in Hx by lia.
    pose proof (Z.mod_pos_bound x base ltac:(lia)). rewrite undigit_digit by lia.
    pose proof (Z.div_mod x base ltac:(lia)).
    assert (x / base < base ^ Z.of_nat fuel) by (apply Z.div_lt_upper_bound; lia).
    pose proof (Z.div_pos x base ltac:(lia) ltac:(lia)).
    destruct (Z.eqb_spec (x / base) 0) as [E|E]; cbn [fold_right]; [lia|]. rewrite IH by lia. lia.
Qed.

Lemma digits_length k : forall fuel x, 0 <= x < base ^ Z.of_nat (S k) -> (length (digits fuel x base) <= S k)%nat.
Proof.
  induction k as [|k IH]; intros [|fuel] x Hx; cbn [digits length]; try lia.
  - rewrite Z.pow_1_r in Hx. by rewrite Z.div_small by lia.
  - destruct (x / base =? 0); cbn [length]; [lia|]. apply le_n_S, IH.
    split; [apply Z.div_pos; lia|]. apply Z.div_lt_upper_bound; [lia|].
    rewrite Nat2Z.inj_succ, Z.pow_succ_r in Hx by lia. lia.
Qed.

Lemma digits_chars fuel : forall x, Forall (fun c => 48 <= c < 103) (digits fuel x base).
Proof.
  induction fuel as [|fuel IH]; intros x; cbn [digits]; constructor.
  - apply digit_range. pose proof (Z.mod_pos_bound x base ltac:(lia)). lia.
  - by destruct (x / base =? 0).
Qed.
End Digits.

Lemma digits_nonempty fuel x base : digits (S fuel) x base <> [].
Proof. done. Qed.

Lemma read_number_plain base l : Forall (fun c => 48 <= c < 103) l -> read_number base (rev l) = fold_right (fun c a => undigit c + base * a) 0 l.
Proof.
  intros F. assert (read_number base (rev l) = read_digits base (rev l)) as ->.
  { apply Forall_rev in F. destruct (rev l) as [|c r]; [done|]. inversion F; subst. unfold read_number.
    destruct c as [|c|]; try lia. repeat (destruct c as [c|c|]; try lia; try done). }
  unfold read_digits. by rewrite rev_involutive.
Qed.

(** What [printint] prints for a base of 10 or 16 reads back as the number. *)
Definition int_range (x : Z) : Prop := -2147483648 <= x < 2147483648.
Lemma printint_buf_ok xx base sign : int_range xx -> base = 10 \/ base = 16 ->
  (length (printint_buf xx base sign) <= 16)%nat /\
  Forall (fun c => 0 <= c < 256) (rev (printint_buf xx base sign)) /\
  read_number base (rev (printint_buf xx base sign)) = (if truthy sign then xx else u32 xx).
Proof.
  intros Hx Hb. unfold int_range in Hx. unfold printint_buf. set (neg := truthy sign && (xx <? 0)).
  set (x := if neg then u32 (- xx) else u32 xx).
  assert (Rx : 0 <= x < 4294967296) by (unfold x; destruct neg; apply u32_range).
  assert (B : 2 <= base <= 16) by lia.
  assert (L : (length (digits 32 x base) <= 10)%nat).
  { apply (digits_length base B 9). destruct Hb as [-> | ->]; [change (10 ^ Z.of_nat 10) with 10000000000|change (16 ^ Z.of_nat 10) with 1099511627776]; lia. }
  pose proof (digits_chars base B 32 x) as C.
  assert (V : fold_right (fun c a => undigit c + base * a) 0 (digits 32 x base) = x).
  { apply digits_value; [done|]. split; [lia|]. apply Z.lt_le_trans with (2 ^ 32); [lia|]. apply Z.pow_le_mono_l. lia. }
  assert (C' : Forall (fun c => 0 <= c < 256) (rev (digits 32 x base))).
  { apply Forall_rev. eapply Forall_impl; [exact C|]. cbn. lia. }
  split_and!.
  - rewrite length_app. destruct neg; cbn [length]; lia.
  - rewrite rev_app_distr. apply Forall_app. split; [|done]. destruct neg; by repeat constructor.
  - rewrite rev_app_distr. destruct neg eqn:N; cbn [rev app].
    + unfold neg in N. apply andb_true_iff in N as [-> N]. apply Z.ltb_lt in N. cbn [read_number].
      unfold read_digits. rewrite rev_involutive, V. unfold x, u32. rewrite Z.mod_small; lia.
    + rewrite read_number_plain, V by done. unfold x. unfold neg in N. destruct (truthy sign); [|done].
      cbn in N. apply Z.ltb_ge in N. unfold u32. rewrite Z.mod_small; lia.
Qed.

(** [printint] prints at most the 16 characters its buffer holds, and they
    read back as the number: the signed value in decimal for "%d", the unsigned
    word in hexadecimal for "%x" and "%p", the least integer included. *)
Theorem printint_roundtrip (xx base sign : Z) (s : screen) (O : screen_ok s) (Hx : int_range xx)
  (Hb : base = 10 \/ base = 16) :
  wp (printint xx base sign) (fun _ s' => screen_ok s' /\ exists text,
    serial s' = serial s ++ sent (uart s) text /\ (length text <= 16)%nat /\
    read_number base text = if truthy sign then xx else u32 xx) s.
Proof.
  destruct (printint_buf_ok xx base sign Hx Hb) as (L & F & V). unfold printint.
  destruct (Z.ltb_spec 16 (Z.of_nat (length (printint_buf xx base sign)))); [lia|].
  eapply wp_mono; [by apply wp_putall|]. intros [] s' (O' & E & _). split; [done|].
  exists (rev (printint_buf xx base sign)). by rewrite length_rev.
Qed.

(** ** The input buffer as two queues *)

(** [n] bytes of the ring from index [f]. *)
Definition ring (d : bytes) (f : Z) (n : nat) : bytes :=
  (fun k => getb d (Z.to_nat ((f + Z.of_nat k) mod INPUT_BUF))) <$> seq 0 n.
Definition dist (a b : Z) : nat := Z.to_nat (u32 (b - a)).

Definition typed (i : input) : bytes := ring (ibuf i) (ir i) (dist (ir i) (ie i)).
Definition ready (i : input) : bytes := take (dist (ir i) (iw i)) (typed i).
Definition line (i : input) : bytes := drop (dist (ir i) (iw i)) (typed i).

Record input_ok (i : input) : Prop := {
  io_len : length (ibuf i) = 128%nat;
  io_r : 0 <= ir i < 4294967296;
  io_w : 0 <= iw i < 4294967296;
  io_e : 0 <= ie i < 4294967296;
  io_we : (dist (ir i) (iw i) <= dist (ir i) (ie i) <= 128)%nat
}.

Ltac indices :=
  unfold dist, u32, INPUT_BUF in *; cbn [ir iw ie ibuf] in *; Z.div_mod_to_equations; lia.

Lemma ring_length d f n : length (ring d f n) = n.
Proof. unfold ring. by rewrite length_fmap, length_seq. Qed.
Lemma ring_u32 d f n : ring d (u32 f) n = ring d f n.
Proof.
  apply list_fmap_ext. intros i k _. do 2 f_equal. unfold u32, INPUT_BUF. Z.div_mod_to_equations. lia.
Qed.
Lemma ring_snoc d f n : ring d f (S n) = ring d f n ++ [getb d (Z.to_nat ((f + Z.of_nat n) mod INPUT_BUF))].
Proof. unfold ring. by rewrite seq_S, fmap_app. Qed.
Lemma ring_cons d f n : ring d f (S n) = getb d (Z.to_nat (f mod INPUT_BUF)) :: ring d (f + 1) n.
Proof.
  unfold ring. cbn [seq fmap list_fmap]. f_equal; [by rewrite Z.add_0_r|].
  rewrite <-fmap_S_seq, <-list_fmap_compose. apply list_fmap_ext. intros i k _. cbn. do 3 f_equal. lia.
Qed.
Lemma ring_index r e : (r + Z.of_nat (dist r e)) mod INPUT_BUF = e mod INPUT_BUF.
Proof.
  unfold dist. rewrite Z2Nat.id by apply u32_range. replace e with (r + (e - r)) at 2 by lia.
  generalize (e - r). intros z. unfold u32, INPUT_BUF. Z.div_mod_to_equations. lia.
Qed.
Lemma ring_store d f n v : (n < 128)%nat ->
  ring (<[Z.to_nat ((f + Z.of_nat n) mod INPUT_BUF) := v]> d) f n = ring d f n.
Proof.
  intros Hn. apply list_fmap_ext. intros i k Hk. apply lookup_seq in Hk as [-> Hk]. unfold getb.
  rewrite list_lookup_insert_ne; [done|]. intros E. apply Z2Nat.inj in E; [|apply Z.mod_pos_bound; done..].
  unfold INPUT_BUF in E. Z.div_mod_to_equations. lia.
Qed.

Section InputOk.
Context (i : input).
Hypothesis O : input_ok i.

Lemma typed_length : length (typed i) = dist (ir i) (ie i).
Proof. apply ring_length. Qed.
Lemma line_empty : (ie i =? iw i) = true <-> line i = [].
Proof.
  destruct O as [_ Hr Hw He Hd]. rewrite Z.eqb_eq. unfold line. split; intros H.
  - apply drop_ge. rewrite typed_length, H. done.
  - apply (f_equal length) in H. rewrite length_drop, typed_length in H. cbn in H. indices.
Qed.
Lemma ready_empty : (ir i =? iw i) = true <-> ready i = [].
Proof.
  destruct O as [_ Hr Hw He Hd]. rewrite Z.eqb_eq. split; intros H.
  - unfold ready. replace (dist (ir i) (iw i)) with 0%nat; [done|]. indices.
  - apply (f_equal length) in H. unfold ready in H. rewrite length_take, typed_length in H. cbn in H. indices.
Qed.
Lemma typed_split : typed i = ready i ++ line i.
Proof. unfold ready, line. by rewrite take_drop. Qed.
Lemma room : (u32 (ie i - ir i) <? INPUT_BUF) = true <-> (length (typed i) < 128)%nat.
Proof. destruct O as [_ Hr Hw He Hd]. rewrite Z.ltb_lt, typed_length. indices. Qed.

Lemma store_typed c : (length (typed i) < 128)%nat -> typed (store_char c i) = typed i ++ [u8 c].
Proof.
  intros H. rewrite typed_length in H. destruct O as [Hl Hr Hw He Hd]. unfold typed at 1. cbn [store_char ibuf ir ie].
  assert (Ei : Z.to_nat (ie i mod INPUT_BUF) = Z.to_nat ((ir i + Z.of_nat (dist (ir i) (ie i))) mod INPUT_BUF)).
  { by rewrite ring_index. }
  replace (dist (ir i) (u32 (ie i + 1))) with (S (dist (ir i) (ie i))) by indices.
  rewrite ring_snoc, Ei, ring_store by done. f_equal. f_equal. unfold getb. rewrite list_lookup_insert_eq; [done|].
  rewrite Hl. change 128%nat with (Z.to_nat 128). apply Z2Nat.inj_lt; [apply Z.mod_pos_bound; done|done|apply Z.mod_pos_bound; done].
Qed.
Lemma store_ok c : (length (typed i) < 128)%nat -> input_ok (store_char c i).
Proof.
  intros H. rewrite typed_length in H. destruct O as [Hl Hr Hw He Hd].
  split; cbn [store_char ibuf ir iw ie]; [by rewrite length_insert|done|done|apply u32_range|indices].
Qed.
Lemma store_queues c : (length (typed i) < 128)%nat ->
  ready (store_char c i) = ready i /\ line (store_char c i) = line i ++ [u8 c].
Proof.
  intros H. pose proof (io_we i O). unfold ready, line. rewrite store_typed by done. cbn [store_char ir iw].
  rewrite take_app_le, drop_app_le by (rewrite typed_length; lia). done.
Qed.

Lemma commit_ok : input_ok (commit_line i).
Proof. destruct O as [Hl Hr Hw He Hd]. split; cbn [commit_line ibuf ir iw ie]; try done; lia. Qed.
Lemma commit_queues : ready (commit_line i) = ready i ++ line i /\ line (commit_line i) = [].
Proof.
  rewrite <-typed_split. unfold ready, line. change (typed (commit_line i)) with (typed i). cbn [commit_line ir iw].
  split; [apply take_ge|apply drop_ge]; by rewrite typed_length.
Qed.

(** [input.e--] *)
Definition erase_char : input := Input (ibuf i) (ir i) (iw i) (u32 (ie i - 1)).
Lemma dist_strict : line i <> [] -> (dist (ir i) (iw i) < dist (ir i) (ie i))%nat.
Proof.
  intros H. destruct (Z.eqb_spec (ie i) (iw i)) as [E|E]; [by apply Z.eqb_eq, line_empty in E|].
  destruct O as [Hl Hr Hw He Hd]. indices.
Qed.
Lemma dist_pred r e : (0 < dist r e)%nat -> dist r (u32 (e - 1)) = (dist r e - 1)%nat.
Proof.
  intros H. unfold dist in *. unfold u32 in *. rewrite Zminus_mod_idemp_l.
  replace (e - 1 - r) with (e - r - 1) by lia. generalize dependent (e - r). intros z. indices.
Qed.
Lemma erase_ok : line i <> [] -> input_ok erase_char.
Proof.
  intros H.
  destruct O as [Hl Hr Hw He Hd]. split; cbn [erase_char ibuf ir iw ie]; [done..|apply u32_range|].
  pose proof (dist_strict H) as Hs. rewrite dist_pred by lia. lia.
Qed.
Lemma erase_queues : line i <> [] ->
  ready erase_char = ready i /\ line i = line erase_char ++ [getb (ibuf i) (Z.to_nat (u32 (ie i - 1) mod INPUT_BUF))].
Proof.
  intros H. pose proof (dist_strict H) as Hs. pose proof (dist_pred (ir i) (ie i) ltac:(lia)) as Hp.
  destruct O as [Hl Hr Hw He Hd].
  assert (T : typed i = typed erase_char ++ [getb (ibuf i) (Z.to_nat (u32 (ie i - 1) mod INPUT_BUF))]).
  { unfold typed. cbn [erase_char ibuf ir ie].
    replace (dist (ir i) (ie i)) with (S (dist (ir i) (u32 (ie i - 1)))) by lia. by rewrite ring_snoc, ring_index. }
  assert (L : (dist (ir i) (iw i) <= length (typed erase_char))%nat).
  { unfold typed. rewrite ring_length. cbn [erase_char ir ie]. lia. }
  unfold ready, line. cbn [erase_char ir iw] in *. rewrite T, take_app_le, drop_app_le by done. done.
Qed.

Lemma skip_char_ok : ready i <> [] -> input_ok (skip_char i).
Proof.
  intros H. destruct (Z.eqb_spec (ir i) (iw i)) as [E|E]; [by apply Z.eqb_eq, ready_empty in E|].
  destruct O as [Hl Hr Hw He Hd]. split; cbn [skip_char ibuf ir iw ie]; [done|apply u32_range|done|done|indices].
Qed.
Lemma skip_queues : ready i <> [] -> ready i = next_char i :: ready (skip_char i) /\ line (skip_char i) = line i.
Proof.
  intros H. destruct (Z.eqb_spec (ir i) (iw i)) as [E|E]; [by apply Z.eqb_eq, ready_empty in E|].
  destruct O as [Hl Hr Hw He Hd].
  assert (T : typed i = next_char i :: typed (skip_char i)).
  { unfold typed. cbn [skip_char ibuf ir ie]. rewrite ring_u32.
    replace (dist (ir i) (ie i)) with (S (dist (u32 (ir i + 1)) (ie i))) by indices. apply ring_cons. }
  unfold ready, line. cbn [skip_char ir iw].
  replace (dist (ir i) (iw i)) with (S (dist (u32 (ir i + 1)) (iw i))) by indices. by rewrite T.
Qed.
Lemma unskip_skip : unskip_char (skip_char i) = i.
Proof.
  destruct O as [Hl Hr Hw He Hd]. unfold unskip_char, skip_char. destruct i as [b r w e]; cbn in *. f_equal.
  unfold u32. Z.div_mod_to_equations. lia.
Qed.
End InputOk.

(** ** The line editor *)

(** What a user of the console sees: the lines that can be read, the line being
    edited, and how often readers were woken. *)
Record editor := Editor { e_ready : bytes; e_line : bytes; e_wakes : nat }.

Definition type_char (c : Z) (ed : editor) : editor :=
  if c =? 16 then ed
  else if c =? 21 then Editor (e_ready ed) [] (e_wakes ed)
  else if (c =? 8) || (c =? 127) then Editor (e_ready ed) (removelast (e_line ed)) (e_wakes ed)
  else if truthy c && bool_decide (length (e_ready ed) + length (e_line ed) < 128)%nat then
    let c := if c =? 13 then 10 else c in
    let l := e_line ed ++ [c] in
    if (c =? 10) || (c =? 4) || bool_decide (length (e_ready ed) + length l = 128)%nat
    then Editor (e_ready ed ++ l) [] (S (e_wakes ed))
    else Editor (e_ready ed) l (e_wakes ed)
  else ed.

(** A read of [n] bytes that already has [got]: up to the end of a line, or to a
    ^D, which is left for the next read unless it comes first. *)
Fixpoint read_line (killed : bool) (n : nat) (got : bytes) (l : bytes) : cread * bytes :=
  match n, l with
  | O, _ => (CRead (Z.of_nat (length got)) got, l)
  | S _, [] => (if killed then CRead (-1) got else CSleep n got, l)
  | S n', c :: l' =>
      if c =? 4 then (CRead (Z.of_nat (length got)) got, match got with [] => l' | _ => l end)
      else if c =? 10 then (CRead (Z.of_nat (length (got ++ [c]))) (got ++ [c]), l')
      else read_line killed n' (got ++ [c]) l'
  end.

(** The console implements the editor; [lk] tells whether its lock is held.  A
    line being edited has no newline. *)
Record edits (lk : bool) (c : console) (ed : editor) : Prop := {
  ed_lock : c_lock c = lk;
  ed_scr : screen_ok (scr c);
  ed_inp : input_ok (inp c);
  ed_ready : ready (inp c) = e_ready ed;
  ed_line : line (inp c) = e_line ed;
  ed_wakes : woke_in c = e_wakes ed;
  ed_nonl : 10 ∉ e_line ed
}.
Definition same_devices (c c' : console) : Prop :=
  uart_rx c' = uart_rx c /\ kb c' = kb c /\ uart (scr c') = uart (scr c).

Lemma typed_sum lk c ed : edits lk c ed -> length (typed (inp c)) = (length (e_ready ed) + length (e_line ed))%nat.
Proof. intros [_ _ O <- <- _ _]. by rewrite (typed_split (inp c)), length_app. Qed.

(** Printing changes only the screen. *)
Lemma wp_cputc lk ch c ed : edits lk c ed ->
  wp (cputc ch) (fun _ c' => edits lk c' ed /\ same_devices c c' /\ inp c' = inp c) c.
Proof.
  intros [? So ? ? ? ? ?]. unfold cputc, zoom, wp. cbn [scrL lget lset].
  pose proof (wp_consputc ch (scr c) So) as W. unfold wp in W. destruct (consputc ch (scr c)) as [[[] s']| | |]; try done.
  destruct W as (So' & _ & U). split; [by split|done].
Qed.

Lemma wp_erase lk c ed : edits lk c ed -> e_line ed <> [] ->
  wp erase (fun _ c' => edits lk c' (Editor (e_ready ed) (removelast (e_line ed)) (e_wakes ed)) /\ same_devices c c') c.
Proof.
  intros E Hl. destruct E as [? ? Oi Er El ? Hn]. rewrite <-El in Hl.
  destruct (erase_queues (inp c) Oi Hl) as [Q1 Q2]. unfold erase. apply wp_bind. unfold wp at 1. cbn.
  eapply wp_mono; [apply (wp_cputc lk BACKSPACE _ (Editor (e_ready ed) (removelast (e_line ed)) (e_wakes ed)))|].
  - split; cbn [c_lock scr inp woke_in e_ready e_line e_wakes]; try done; [by apply erase_ok|by rewrite <-Er| |].
    + rewrite <-El, Q2, removelast_last. done.
    + rewrite <-El, Q2, removelast_last. rewrite <-El, Q2 in Hn. set_solver.
  - by intros [] c' (E' & D & _).
Qed.

(** Nothing in the line being edited is a newline, so all of it goes. *)
Lemma wp_kill_line lk : forall fuel c ed, edits lk c ed -> length (e_line ed) = fuel ->
  wp (kill_line fuel) (fun _ c' => edits lk c' (Editor (e_ready ed) [] (e_wakes ed)) /\ same_devices c c') c.
Proof.
  induction fuel as [|fuel IH]; intros c ed E Hf; pose proof E as [? ? Oi Er El ? Hn].
  - assert (e_line ed = []) as E0 by (by destruct (e_line ed)). cbn [kill_line]. apply wp_bind, wp_get.
    rewrite (proj2 (line_empty (inp c) Oi)) by congruence. cbn [negb andb].
    apply wp_ret. split; [|done]. rewrite <-E0. by destruct ed.
  - assert (N : e_line ed <> []) by (by destruct (e_line ed)). cbn [kill_line]. apply wp_bind, wp_get.
    rewrite <-El in N. destruct (erase_queues (inp c) Oi N) as [Q1 Q2].
    destruct (ie (inp c) =? iw (inp c)) eqn:Ee; [by apply line_empty in Ee|]. cbn [negb andb].
    unfold last_is_newline. destruct (Z.eqb_spec (getb (ibuf (inp c)) (Z.to_nat (u32 (ie (inp c) - 1) mod INPUT_BUF))) 10) as [E10|_].
    { destruct Hn. rewrite <-El, Q2, E10. apply elem_of_app. right. by apply list_elem_of_singleton. }
    cbn [negb]. apply wp_bind. rewrite El in N. eapply wp_mono; [by apply (wp_erase lk c ed)|]. intros [] c1 [E1 D1].
    eapply wp_mono; [apply (IH c1 _ E1)|].
    + cbn [e_line]. rewrite <-El in *. rewrite Q2, removelast_last in *. rewrite length_app in Hf. cbn in Hf. lia.
    + intros [] c2 [E2 D2]. split; [done|]. unfold same_devices in *. intuition congruence.
Qed.

Lemma line_length lk c ed : edits lk c ed -> Z.to_nat (u32 (ie (inp c) - iw (inp c))) = length (e_line ed).
Proof.
  intros [_ _ O _ <- _ _]. unfold line. rewrite length_drop, typed_length. destruct O as [_ Hr Hw He Hd]. indices.
Qed.

(** Storing a character that fits, echoing it, and ending the line with it. *)
Lemma wp_store lk ch c ed : edits lk c ed -> (length (typed (inp c)) < 128)%nat -> 0 <= ch < 256 ->
  wp (zoom inpL (modify (store_char ch)) ;; cputc ch)
    (fun _ c' => c_lock c' = lk /\ screen_ok (scr c') /\ input_ok (inp c') /\ ready (inp c') = e_ready ed /\
       line (inp c') = e_line ed ++ [ch] /\ woke_in c' = e_wakes ed /\ same_devices c c') c.
Proof.
  intros [Hlk So Oi Er El Hw Hn] Hr Hc. apply wp_bind. unfold wp at 1. cbn.
  unfold cputc, zoom, wp. cbn [scrL lget lset scr].
  pose proof (wp_consputc ch (scr c) So) as W. unfold wp in W. destruct (consputc ch (scr c)) as [[[] s']| | |]; try done.
  destruct W as (So' & _ & U). destruct (store_queues (inp c) Oi ch Hr) as [Q1 Q2]. cbn [c_lock scr inp woke_in].
  split_and!; try done; [by apply store_ok|by rewrite Q1| ]. rewrite Q2, El. unfold u8. by rewrite Z.mod_small.
Qed.

Lemma full_line i : input_ok i -> (ie i =? u32 (ir i + INPUT_BUF)) = bool_decide (length (typed i) = 128%nat).
Proof.
  intros [_ Hr Hw He Hd]. rewrite typed_length. apply eq_true_iff_eq. rewrite Z.eqb_eq, bool_decide_eq_true. indices.
Qed.

Lemma wp_consoleintr_char lk ch c ed : edits lk c ed -> 0 <= ch < 256 ->
  wp (consoleintr_char ch) (fun d c' => edits lk c' (type_char ch ed) /\ same_devices c c' /\ d = (ch =? 16)) c.
Proof.
  intros E Hc. unfold consoleintr_char, type_char.
  destruct (Z.eqb_spec ch 16) as [->|N16]; [by apply wp_ret|].
  destruct (Z.eqb_spec ch 21) as [->|N21].
  { apply wp_bind, wp_get, wp_bind. rewrite (line_length lk c ed E).
    eapply wp_mono; [by apply wp_kill_line|]. intros [] c' [E' D]. by apply wp_ret. }
  destruct ((ch =? 8) || (ch =? 127)).
  { apply wp_bind, wp_get, wp_bind. pose proof E as [? ? Oi Er El ? Hn]. destruct (ie (inp c) =? iw (inp c)) eqn:Ee; cbn [negb when].
    - apply wp_ret, wp_ret. split; [|done]. apply line_empty in Ee; [|done]. rewrite El in Ee. destruct ed as [r l w].
      cbn in Ee. by subst.
    - eapply wp_mono; [apply (wp_erase lk c ed E)|intros [] c' [E' D]; by apply wp_ret].
      rewrite <-El. intros Eq. apply line_empty in Eq; [|done]. congruence. }
  apply wp_bind, wp_get, wp_bind. pose proof (typed_sum lk c ed E) as T.
  rewrite (eq_true_iff_eq _ _ (iff_trans (room (inp c) (ed_inp _ _ _ E)) (iff_sym (bool_decide_eq_true _)))), T.
  destruct (truthy ch && bool_decide (length (e_ready ed) + length (e_line ed) < 128)%nat) eqn:G; cbn [when]; [|by apply wp_ret, wp_ret].
  apply andb_true_iff in G as [_ G]. apply bool_decide_eq_true in G.
  set (ch' := if ch =? 13 then 10 else ch).
  apply wp_mono with (Q := fun _ c' => edits lk c'
    (if (ch' =? 10) || (ch' =? 4) || bool_decide (length (e_ready ed) + length (e_line ed ++ [ch']) = 128)%nat
     then Editor (e_ready ed ++ e_line ed ++ [ch']) [] (S (e_wakes ed)) else Editor (e_ready ed) (e_line ed ++ [ch']) (e_wakes ed))
    /\ same_devices c c'); [|intros [] c' [E' D]; by apply wp_ret].
  assert (Hc' : 0 <= ch' < 256) by (unfold ch'; destruct (ch =? 13); lia).
  pose proof (wp_store lk ch' c ed E ltac:(lia) Hc') as W. rewrite wp_bind in W. apply wp_bind.
  eapply wp_mono; [exact W|]. intros [] c1 W1. apply wp_bind. eapply wp_mono; [exact W1|].
  intros [] c2 (K & So & Oi & R2 & L2 & W2 & D2). apply wp_bind, wp_get.
  rewrite full_line by done. rewrite (typed_split (inp c2)), length_app, R2, L2.
  destruct ((ch' =? 10) || (ch' =? 4) || _) eqn:G2; cbn [when].
  - apply wp_bind. unfold wp at 1. cbn. destruct (commit_queues (inp c2)) as [Q1 Q2].
    split; [|done]. split; cbn [c_lock scr inp woke_in e_ready e_line e_wakes]; try done.
    + by apply commit_ok.
    + etrans; [exact Q1|]. by rewrite R2, L2.
    + cbn. by rewrite <-W2.
    + apply not_elem_of_nil.
  - apply wp_ret. split; [|done]. split; cbn [e_ready e_line e_wakes]; try done.
    apply orb_false_iff in G2 as [G2 _]. apply orb_false_iff in G2 as [G2 _]. apply Z.eqb_neq in G2.
    pose proof (ed_nonl _ _ _ E). rewrite elem_of_app, list_elem_of_singleton. naive_solver.
Qed.

(** All that has been received goes through the editor, and the loop ends when
    the serial port has no more. *)
Lemma wp_uart_loop : forall l c ed d, edits true c ed -> truthy (uart (scr c)) = true -> uart_rx c = l ->
  Forall (fun ch => 0 <= ch < 256) l ->
  wp (consoleintr_loop (S (length l)) uartgetc d)
    (fun _ c' => edits true c' (fold_left (fun ed ch => type_char ch ed) l ed) /\ uart_rx c' = [] /\ uart (scr c') = uart (scr c)) c.
Proof.
  induction l as [|ch l IH]; intros c ed d E U Rx F; cbn [consoleintr_loop length fold_left]; apply wp_bind; unfold uartgetc;
    apply wp_bind, wp_get; unfold truthy in U; apply negb_true_iff in U; rewrite U, Rx.
  - apply wp_ret. cbn. apply wp_ret. done.
  - inversion F as [|? ? Hc F']; subst. apply wp_bind, wp_modify, wp_ret. destruct (Z.leb_spec 0 ch); [|lia].
    apply wp_bind. eapply wp_mono; [apply (wp_consoleintr_char true ch _ ed)|].
    + by destruct E.
    + done.
    + intros d' c1 (E1 & (R1 & _ & U1) & _). eapply wp_mono; [apply (IH c1 _ _ E1)|].
      * unfold truthy. rewrite U1. cbn. by rewrite U.
      * by rewrite R1.
      * done.
      * intros [] c2 (E2 & R2 & U2); cbn in *; by rewrite U2, U1.
Qed.

Lemma edits_lock lk lk' c ed : edits lk c ed -> edits lk' (lset c_lockL lk' c) ed.
Proof. intros []. by split. Qed.
Lemma wp_c_acquire c ed Q : edits false c ed -> (edits true (lset c_lockL true c) ed -> Q tt (lset c_lockL true c)) -> wp c_acquire Q c.
Proof.
  intros E H. unfold wp, c_acquire, zoom, lk_acquire. cbn [c_lockL lget]. rewrite (ed_lock _ _ _ E).
  apply H. by eapply edits_lock.
Qed.
Lemma wp_c_release c ed Q : edits true c ed -> (edits false (lset c_lockL false c) ed -> Q tt (lset c_lockL false c)) -> wp c_release Q c.
Proof.
  intros E H. unfold wp, c_release, zoom, lk_release. cbn [c_lockL lget]. rewrite (ed_lock _ _ _ E).
  apply H. by eapply edits_lock.
Qed.

Lemma wp_uartintr c ed : edits false c ed -> truthy (uart (scr c)) = true -> Forall (fun ch => 0 <= ch < 256) (uart_rx c) ->
  wp uartintr (fun _ c' => edits false c' (fold_left (fun ed ch => type_char ch ed) (uart_rx c) ed) /\ uart (scr c') = uart (scr c)) c.
Proof.
  intros E U F. unfold uartintr. apply wp_bind, wp_get. unfold consoleintr. apply wp_bind.
  apply (wp_c_acquire c ed _ E). intros E0. apply wp_bind.
  eapply wp_mono; [apply (wp_uart_loop (uart_rx c) _ ed _ E0 U eq_refl F)|].
  intros d c1 (E1 & R1 & U1). apply wp_bind, (wp_c_release c1 _ _ E1). intros E2. by apply wp_ret.
Qed.

Lemma wp_consoleread_loop killed : forall n out c ed, edits true c ed ->
  wp (consoleread_loop killed (Z.of_nat (n + length out)) n out)
    (fun r c' => r = fst (read_line killed n out (e_ready ed)) /\
       edits false c' (Editor (snd (read_line killed n out (e_ready ed))) (e_line ed) (e_wakes ed)) /\ same_devices c c') c.
Proof.
  induction n as [|n IH]; intros out c ed E; cbn [consoleread_loop read_line].
  - apply wp_bind, (wp_c_release c ed _ E). intros E1. apply wp_ret. cbn [fst snd]. split_and!; [f_equal; lia| |done].
    by destruct ed.
  - apply wp_bind, wp_get. pose proof E as [Hlk So Oi Er El Hw Hn]. destruct (ir (inp c) =? iw (inp c)) eqn:Ee.
    { apply ready_empty in Ee; [|done]. rewrite Er in Ee. destruct ed as [rd ln wk]. cbn in Ee. subst rd. cbn [e_ready e_line e_wakes].
      destruct killed; apply wp_bind, (wp_c_release c _ _ E); intros E1; apply wp_ret; done. }
    assert (N : ready (inp c) <> []) by (intros X; apply ready_empty in X; [congruence|done]).
    destruct (skip_queues (inp c) Oi N) as [Q1 Q2]. pose proof (skip_char_ok (inp c) Oi N) as Ok1. rewrite <-Er, Q1.
    set (ed1 := Editor (ready (skip_char (inp c))) (e_line ed) (e_wakes ed)).
    assert (E1 : edits true (lset inpL (skip_char (inp c)) c) ed1) by (split; try done; by etrans; [exact Q2|]).
    apply wp_bind. unfold wp at 1. cbn [zoom modify inpL lget lset].
    destruct (Z.eqb_spec (next_char (inp c)) 4) as [E4|N4].
    { apply wp_bind. destruct (Z.ltb_spec (Z.of_nat (S n)) (Z.of_nat (S n + length out))) as [H|H]; cbn [when].
      - unfold wp at 1. cbn [zoom modify inpL lget lset inp]. rewrite unskip_skip by done.
        apply wp_bind. apply (wp_c_release _ ed); [by destruct E; split|]. intros E2. apply wp_ret. cbn [fst snd].
        destruct out as [|o out]; [cbn in H; lia|]. split_and!; [f_equal; lia| |done].
        rewrite <-Q1, Er. by destruct ed.
      - destruct out; [|cbn [length] in H; lia]. apply wp_ret, wp_bind, (wp_c_release _ ed1); [exact E1|]. intros E2. apply wp_ret.
        cbn [fst snd]. split_and!; [f_equal; cbn [length]; lia|done|done]. }
    destruct (Z.eqb_spec (next_char (inp c)) 10) as [E10|N10].
    { apply wp_bind, (wp_c_release _ ed1); [exact E1|]. intros E2. apply wp_ret. cbn [fst snd].
      split_and!; [f_equal; rewrite length_app; cbn [length]; lia|done|done]. }
    replace (Z.of_nat (S n + length out)) with (Z.of_nat (n + length (out ++ [next_char (inp c)])))
      by (rewrite length_app; cbn [length]; lia).
    eapply wp_mono; [apply (IH _ _ ed1 E1)|]. done.
Qed.

Lemma wp_consoleread killed n out c ed : edits false c ed ->
  wp (consoleread killed (Z.of_nat (n + length out)) n out)
    (fun r c' => r = fst (read_line killed n out (e_ready ed)) /\
       edits false c' (Editor (snd (read_line killed n out (e_ready ed))) (e_line ed) (e_wakes ed)) /\ same_devices c c') c.
Proof.
  intros E. unfold consoleread. apply wp_bind, (wp_c_acquire c ed _ E). intros E1.
  eapply wp_mono; [by apply wp_consoleread_loop|]. done.
Qed.

Lemma wp_consolewrite buf c ed : edits false c ed ->
  wp (consolewrite buf) (fun r c' => r = Z.of_nat (length buf) /\ edits false c' ed /\ same_devices c c') c.
Proof.
  intros E. unfold consolewrite. apply wp_bind, (wp_c_acquire c ed _ E). intros E1. apply wp_bind.
  apply wp_mono with (Q := fun _ c' => edits true c' ed /\ same_devices c c').
  - assert (D : same_devices c (lset c_lockL true c)) by done. revert E1 D. generalize (lset c_lockL true c). clear E.
    induction buf as [|b buf IH]; intros c0 E0 D0; cbn [for_each]; [by apply wp_ret|].
    apply wp_bind. eapply wp_mono; [by apply (wp_cputc true b c0 ed)|]. intros [] c1 (E1 & D1 & _). apply IH; [done|].
    unfold same_devices in *. intuition congruence.
  - intros [] c1 [E2 D]. apply wp_bind, (wp_c_release c1 ed _ E2). intros E3. by apply wp_ret.
Qed.

(** ** What happens at the console *)

(** Characters arrive on the serial line, a process reads (or goes on reading
    after a wakeup, having [out] already) and a process writes. *)
Inductive cevent := Typed (l : bytes) | Read (killed : bool) (out : bytes) (n : nat) | Wrote (l : bytes).
Inductive cresult := NoResult | ReadResult (r : cread) | WroteResult (n : Z).

Definition run_event (ev : cevent) : M console cresult :=
  match ev with
  | Typed l => modify (set_uart_rx l) ;; uartintr ;; mret NoResult
  | Read killed out n => r ← consoleread killed (Z.of_nat (n + length out)) n out; mret (ReadResult r)
  | Wrote l => n ← consolewrite l; mret (WroteResult n)
  end.
Fixpoint run_events (evs : list cevent) : M console (list cresult) :=
  match evs with
  | [] => mret []
  | ev :: evs => r ← run_event ev; rs ← run_events evs; mret (r :: rs)
  end.

Definition spec_event (ev : cevent) (ed : editor) : cresult * editor :=
  match ev with
  | Typed l => (NoResult, fold_left (fun ed ch => type_char ch ed) l ed)
  | Read killed out n =>
      let '(r, l) := read_line killed n out (e_ready ed) in
      (ReadResult r, Editor l (e_line ed) (e_wakes ed))
  | Wrote l => (WroteResult (Z.of_nat (length l)), ed)
  end.
Fixpoint spec_events (evs : list cevent) (ed : editor) : list cresult * editor :=
  match evs with
  | [] => ([], ed)
  | ev :: evs =>
      let '(r, ed) := spec_event ev ed in
      let '(rs, ed) := spec_events evs ed in (r :: rs, ed)
  end.
Definition event_ok (ev : cevent) : Prop :=
  match ev with Typed l => Forall (fun ch => 0 <= ch < 256) l | _ => True end.

Lemma wp_run_event ev c ed : edits false c ed -> truthy (uart (scr c)) = true -> event_ok ev ->
  wp (run_event ev) (fun r c' => r = fst (spec_event ev ed) /\ edits false c' (snd (spec_event ev ed)) /\
    uart (scr c') = uart (scr c)) c.
Proof.
  intros E U Ho. destruct ev as [l|killed out n|l]; cbn [run_event spec_event].
  - apply wp_bind, wp_modify, wp_bind. eapply wp_mono; [apply (wp_uartintr (set_uart_rx l c) ed); try done; by destruct E|].
    intros d c1 [E1 U1]. by apply wp_ret.
  - apply wp_bind. eapply wp_mono; [by apply wp_consoleread|]. intros r c1 (-> & E1 & _ & _ & U1). apply wp_ret.
    destruct (read_line killed n out (e_ready ed)) as [r l]. done.
  - apply wp_bind. eapply wp_mono; [by apply wp_consolewrite|]. intros r c1 (-> & E1 & _ & _ & U1). by apply wp_ret.
Qed.

(** C16: The console's ring buffer implements a line editor: over any sequence of
    characters typed, reads and writes - every interrupt handler and every
    read coming to an end - each read returns what the abstract editor of two
    queues returns (at most one line, ^D as the end of the file, erased
    characters gone), and each completed line wakes the readers. *)
Theorem console_line_discipline (evs : list cevent) (c : console) (ed : editor)
  (E : edits false c ed) (U : truthy (uart (scr c)) = true) (Ho : Forall event_ok evs) :
  exists c', run_events evs c = Ok (fst (spec_events evs ed), c') /\ edits false c' (snd (spec_events evs ed)).
Proof.
  revert c ed E U. induction Ho as [|ev evs Ho Hos IH]; intros c ed E U; cbn [run_events spec_events]; [by exists c|].
  pose proof (wp_run_event ev c ed E U Ho) as W. apply wp_ok in W as (r & c1 & R & -> & E1 & U1).
  rewrite (bind_ok _ _ _ _ _ R). destruct (spec_event ev ed) as [r ed1]. cbn [fst snd] in *.
  destruct (IH c1 ed1 E1 ltac:(by rewrite U1)) as (c2 & R2 & E2). rewrite (bind_ok _ _ _ _ _ R2).
  destruct (spec_events evs ed1) as [rs ed2]. by exists c2.
Qed.

(** ** Examples *)

(** A machine after boot: an empty screen with the cursor at its end. *)
Definition ex_screen : screen := Screen 0 1 [] (replicate 2100 0) 1919.
Definition ex_console : console :=
  Console false 1 ex_screen (Input (replicate 128 0) 0 0 0) (Kbd [] 0) [] 0.

Lemma ex_screen_ok : screen_ok ex_screen.
Proof. split; [done|vm_compute; lia|vm_compute; split; [discriminate|reflexivity]]. Qed.
Lemma ex_console_edits : edits false ex_console (Editor [] [] 0).
Proof.
  split; try done; [apply ex_screen_ok| |apply not_elem_of_nil].
  split; [done|cbn; lia|cbn; lia|cbn; lia|vm_compute; lia].
Qed.

Lemma console_output_safe_witness :
  wp (for_each [72; 105; BACKSPACE; 10] consputc)
    (fun _ s' => screen_ok s' /\ serial s' = serial ex_screen ++ sent (uart ex_screen) (flat_map echo [72; 105; BACKSPACE; 10])) ex_screen.
Proof. apply (console_output_safe [72; 105; BACKSPACE; 10] ex_screen). apply ex_screen_ok. Defined.

Lemma printint_roundtrip_witness :
  wp (printint (-2147483648) 10 1) (fun _ s' => screen_ok s' /\ exists text,
    serial s' = serial ex_screen ++ sent (uart ex_screen) text /\ (length text <= 16)%nat /\
    read_number 10 text = if truthy 1 then -2147483648 else u32 (-2147483648)) ex_screen.
Proof.
  apply (printint_roundtrip (-2147483648) 10 1 ex_screen); [apply ex_screen_ok|unfold int_range; lia|by left].
Defined.

(** "ab", a backspace, "c" and a return are read as "ac" and a newline. *)
Lemma console_line_discipline_witness :
  exists c', run_events [Typed [97; 98; 8; 99]; Read false [] 5; Typed [13]; Read false [] 5; Wrote [33]] ex_console
    = Ok (fst (spec_events [Typed [97; 98; 8; 99]; Read false [] 5; Typed [13]; Read false [] 5; Wrote [33]] (Editor [] [] 0)), c')
    /\ edits false c' (snd (spec_events [Typed [97; 98; 8; 99]; Read false [] 5; Typed [13]; Read false [] 5; Wrote [33]] (Editor [] [] 0))).
Proof.
  apply (console_line_discipline [Typed [97; 98; 8; 99]; Read false [] 5; Typed [13]; Read false [] 5; Wrote [33]]
    ex_console (Editor [] [] 0)); [apply ex_console_edits|reflexivity|].
  repeat constructor; unfold event_ok; lia.
Defined.

Lemma read_back_example :
  fst (spec_events [Typed [97; 98; 8; 99]; Read false [] 5; Typed [13]; Read false [] 5; Wrote [33]] (Editor [] [] 0))
  = [NoResult; ReadResult (CSleep 5 []); NoResult; ReadResult (CRead 3 [97; 99; 10]); WroteResult 1].
Proof. reflexivity. Qed.
