(* ===== verification/Io.v ===== *)
(** * Device access

    The port instructions of x86.h and the device registers that are mapped in
    memory.  What a device does is a parameter: [Io] has the effect of each
    access on the state of the devices and what a read returns. *)
From S2P Require Import Prelude.

Open Scope Z_scope.

Class Io (H : Type) := {
  io_outb : Z -> Z -> H -> H;
  io_inb : Z -> H -> Z * H;
  mm_write : Z -> Z -> H -> H;  (* a word of the address space of the devices *)
  mm_read : Z -> H -> Z * H
}.

Section Access.
Context {H : Type} `{IO : !Io H}.

(** The data register of the instruction is a byte. *)
Definition outb (port data : Z) : M H unit := modify (io_outb (u16 port) (u8 data)).
Definition inb (port : Z) : M H Z := fun h => let '(v, h') := io_inb (u16 port) h in Ok (u8 v, h').
Definition writel (a v : Z) : M H unit := modify (mm_write (u32 a) (u32 v)).
Definition readl (a : Z) : M H Z := fun h => let '(v, h') := mm_read (u32 a) h in Ok (u32 v, h').

Lemma wp_outb port data (Q : unit -> H -> Prop) h : wp (outb port data) Q h <-> Q tt (io_outb (u16 port) (u8 data) h).
Proof. reflexivity. Qed.
Lemma wp_inb port (Q : Z -> H -> Prop) h : wp (inb port) Q h <-> Q (u8 (io_inb (u16 port) h).1) (io_inb (u16 port) h).2.
Proof. unfold wp, inb. by destruct (io_inb (u16 port) h). Qed.
Lemma wp_writel a v (Q : unit -> H -> Prop) h : wp (writel a v) Q h <-> Q tt (mm_write (u32 a) (u32 v) h).
Proof. reflexivity. Qed.
Lemma wp_readl a (Q : Z -> H -> Prop) h : wp (readl a) Q h <-> Q (u32 (mm_read (u32 a) h).1) (mm_read (u32 a) h).2.
Proof. unfold wp, readl. by destruct (mm_read (u32 a) h). Qed.
End Access.

#[global] Opaque outb inb writel readl.
