(* ===== verification/Mp.v ===== *)
(** * The multiprocessor tables (mp.c, mp.h)

    The firmware describes the processors in a table in low memory.  [mpinit]
    searches for the pointer to it, tests its checksum and takes from it the ids
    of the processors' interrupt controllers.  The theorem at the end says what
    it takes from every table, and what it does with one it does not know. *)
From S2P Require Import Prelude Layout CString Bytes Console Io.

Open Scope Z_scope.

(** ** mp.h *)
Definition MPPROC : Z := 0x00.
Definition MPBUS : Z := 0x01.
Definition MPIOAPIC : Z := 0x02.
Definition MPIOINTR : Z := 0x03.
Definition MPLINTR : Z := 0x04.

(** struct mp, struct mpconf, struct mpproc, struct mpioapic: sizes and the
    fields that are read *)
Definition sizeof_mp : Z := 16.
Definition mp_physaddr (m : mem) (p : Z) : Z := rdw m (p + 4).
Definition mp_imcrp (m : mem) (p : Z) : Z := rdb m (p + 12).
Definition sizeof_mpconf : Z := 44.
Definition mpconf_length (m : mem) (c : Z) : Z := rdb m (c + 4) + 256 * rdb m (c + 5).
Definition mpconf_version (m : mem) (c : Z) : Z := rdb m (c + 6).
Definition mpconf_lapicaddr (m : mem) (c : Z) : Z := rdw m (c + 36).
Definition sizeof_mpproc : Z := 20.
Definition mpproc_apicid (m : mem) (p : Z) : Z := rdb m (p + 1).
Definition sizeof_mpioapic : Z := 8.
Definition mpioapic_apicno (m : mem) (p : Z) : Z := rdb m (p + 1).

(** ** mp.c

    [mp_ids] are the [apicid]s of [cpus[0]] to [cpus[ncpu-1]]. *)
Record mpst (H : Type) := Mpst { mp_ram : mem; mp_ids : list Z; ioapicid : Z; lapic : Z; mp_io : H }.
Arguments Mpst {H} _ _ _ _ _.
Arguments mp_ram {H} _.
Arguments mp_ids {H} _.
Arguments ioapicid {H} _.
Arguments lapic {H} _.
Arguments mp_io {H} _.

Fixpoint sum_from (m : mem) (addr : Z) (len : nat) (sum : Z) : Z :=
  match len with
  | O => sum
  | S len => sum_from m (addr + 1) len (sum + rdb m addr)
  end.
Definition sum (m : mem) (addr len : Z) : Z := u8 (sum_from m addr (Z.to_nat len) 0).

(** The bytes of a string literal, as [memcmp] sees them. *)
Definition lit (s : string) : nat -> Z := getb (bytes_of s).

(** [for(p = addr; p < e; p += sizeof(struct mp))]; 0 when nothing is found *)
Fixpoint mpsearch_loop (fuel : nat) (m : mem) (p e : Z) : Z :=
  match fuel with
  | O => 0
  | S fuel =>
      if p <? e then
        if (memcmp (rd m p) (lit "_MP_") 4 =? 0) && (sum m p sizeof_mp =? 0) then p
        else mpsearch_loop fuel m (p + sizeof_mp) e
      else 0
  end.
Definition mpsearch1 (m : mem) (a len : Z) : Z :=
  let addr := P2V a in
  mpsearch_loop (S (Z.to_nat len)) m addr (addr + len).

Definition mpsearch (m : mem) : Z :=
  let bda := P2V 0x400 in
  let last := mpsearch1 m 0xF0000 0x10000 in
  let p := Z.shiftl (Z.lor (Z.shiftl (rdb m (bda + 0x0F)) 8) (rdb m (bda + 0x0E))) 4 in
  if truthy p then
    let mp := mpsearch1 m p 1024 in if truthy mp then mp else last
  else
    let p := Z.lor (Z.shiftl (rdb m (bda + 0x14)) 8) (rdb m (bda + 0x13)) * 1024 in
    let mp := mpsearch1 m (u32 (p - 1024)) 1024 in if truthy mp then mp else last.

(** The table and the pointer to it. *)
Definition mpconfig (m : mem) : option (Z * Z) :=
  let mp := mpsearch m in
  if (mp =? 0) || (mp_physaddr m mp =? 0) then None
  else
    let conf := P2V (mp_physaddr m mp) in
    if negb (memcmp (rd m conf) (lit "PCMP") 4 =? 0) then None
    else if negb (mpconf_version m conf =? 1) && negb (mpconf_version m conf =? 4) then None
    else if negb (sum m conf (mpconf_length m conf) =? 0) then None
    else Some (conf, mp).

Section Init.
Context {H : Type} `{IO : !Io H}.
Implicit Types s : mpst H.

Definition mp_ioL : lens (mpst H) H := Lens mp_io (fun v s => Mpst (mp_ram s) (mp_ids s) (ioapicid s) (lapic s) v).
Definition add_cpu id s := Mpst (mp_ram s) (mp_ids s ++ [id]) (ioapicid s) (lapic s) (mp_io s).
Definition set_ioapicid v s := Mpst (mp_ram s) (mp_ids s) v (lapic s) (mp_io s).
Definition set_lapic v s := Mpst (mp_ram s) (mp_ids s) (ioapicid s) v (mp_io s).

(** The entries; the result is [ismp].  The [break] of the default case leaves
    the switch, not the loop, and [p] stays where it is. *)
Fixpoint mpinit_loop (fuel : nat) (p e ismp : Z) : M (mpst H) Z :=
  match fuel with
  | O => hang
  | S fuel =>
      if p <? e then
        m ← gets mp_ram;
        let type := rdb m p in
        if type =? MPPROC then
          n ← gets (fun s => Z.of_nat (length (mp_ids s)));
          when (n <? NCPU) (modify (add_cpu (mpproc_apicid m p))) ;;
          mpinit_loop fuel (p + sizeof_mpproc) e ismp
        else if type =? MPIOAPIC then
          modify (set_ioapicid (mpioapic_apicno m p)) ;;
          mpinit_loop fuel (p + sizeof_mpioapic) e ismp
        else if (type =? MPBUS) || (type =? MPIOINTR) || (type =? MPLINTR) then mpinit_loop fuel (p + 8) e ismp
        else mpinit_loop fuel p e 0
      else mret ismp
  end.

(** mpinit with as many iterations of its loop as the table has bytes, and [extra]
    more.  An entry that is understood has at least eight bytes, so [extra] is 0 in
    [mpinit]; it is a parameter to say what happens when [p] does not advance. *)
Definition mpinit_for (extra : nat) : M (mpst H) unit :=
  m ← gets mp_ram;
  match mpconfig m with
  | None => panic "Expect to run on an SMP"
  | Some (conf, mp) =>
      modify (set_lapic (mpconf_lapicaddr m conf)) ;;
      ismp ← mpinit_loop (S (Z.to_nat (mpconf_length m conf)) + extra) (conf + sizeof_mpconf) (conf + mpconf_length m conf) 1;
      if negb (truthy ismp) then panic "Didn't find a suitable machine"
      else when (truthy (mp_imcrp m mp))
        (zoom mp_ioL (outb 0x22 0x70 ;; v ← inb 0x23; outb 0x23 (Z.lor v 1)))
  end.
Definition mpinit : M (mpst H) unit := mpinit_for 0.
End Init.

(** ** What the tables say *)

Definition holds (m : mem) (a : Z) (l : bytes) : Prop := forall i, (i < length l)%nat -> rdb m (a + Z.of_nat i) = getb l i.
Definition total (l : bytes) : Z := foldr Z.add 0 l.

(** The entries of the table, with the bytes the kernel does not look at. *)
Inductive entry :=
| Processor (id : Z) (rest : bytes)
| IoApic (id : Z) (rest : bytes)
| Other (type : Z) (rest : bytes).
Definition encode (e : entry) : bytes :=
  match e with
  | Processor id rest => MPPROC :: id :: rest
  | IoApic id rest => MPIOAPIC :: id :: rest
  | Other type rest => type :: rest
  end.
Definition entry_ok (e : entry) : Prop :=
  match e with
  | Processor _ rest => length rest = 18%nat
  | IoApic _ rest => length rest = 6%nat
  | Other type rest => (type = MPBUS \/ type = MPIOINTR \/ type = MPLINTR) /\ length rest = 7%nat
  end.
Definition processors (es : list entry) : list Z := omap (fun e => match e with Processor id _ => Some id | _ => None end) es.
Definition ioapics (es : list entry) : list Z := omap (fun e => match e with IoApic id _ => Some id | _ => None end) es.

Record header_ok (hdr body : bytes) : Prop := {
  hd_size : length hdr = 44%nat;
  hd_sig : take 4 hdr = bytes_of "PCMP";
  hd_len : get16 hdr 4 = Z.of_nat (length hdr + length body);
  hd_version : getb hdr 6 = 1 \/ getb hdr 6 = 4;
  hd_sum : total (hdr ++ body) mod 256 = 0
}.

(** A pointer structure at an address, and the places where the code looks for
    one: the first kilobyte of the extended BIOS data area or, when there is none, the last
    of base memory, and the last 64 kilobytes of the ROM. *)
Definition pointer (m : mem) (a : Z) : Prop :=
  exists l, holds m a l /\ length l = 16%nat /\ take 4 l = bytes_of "_MP_" /\ total l mod 256 = 0.
Definition area (a : Z) (n : nat) : list Z := map (fun i => a + 16 * Z.of_nat i) (seq 0 n).
Definition word16 (m : mem) (a : Z) : Z := rdb m a + 256 * rdb m (a + 1).
Definition places (m : mem) : list Z :=
  let ebda := 16 * word16 m (P2V 0x40E) in
  (if ebda =? 0 then area (P2V (u32 (1024 * word16 m (P2V 0x413) - 1024))) 64 else area (P2V ebda) 64)
  ++ area (P2V 0xF0000) 4096.

(** ** Searching *)
Definition bytes_mem (m : mem) : Prop := forall a, 0 <= rdb m a < 256.

Lemma holds_app m a l1 l2 : holds m a (l1 ++ l2) <-> holds m a l1 /\ holds m (a + Z.of_nat (length l1)) l2.
Proof.
  unfold holds, getb. split.
  - intros E. split; intros i Hi.
    + rewrite (E i) by (rewrite length_app; lia). by rewrite lookup_app_l.
    + replace (a + Z.of_nat (length l1) + Z.of_nat i) with (a + Z.of_nat (length l1 + i)) by lia.
      rewrite E by (rewrite length_app; lia). rewrite lookup_app_r by lia. f_equal. f_equal. lia.
  - intros [E1 E2] i Hi. rewrite length_app in Hi. destruct (decide (i < length l1)%nat) as [D|D].
    + rewrite E1 by done. by rewrite lookup_app_l.
    + specialize (E2 (i - length l1)%nat ltac:(lia)). rewrite lookup_app_r by lia. rewrite <-E2. f_equal. lia.
Qed.
Lemma holds_cons m a x l : holds m a (x :: l) <-> rdb m a = x /\ holds m (a + 1) l.
Proof.
  change (x :: l) with ([x] ++ l). rewrite holds_app. cbn [length]. split; intros [E1 E2]; (split; [|exact E2]).
  - specialize (E1 0%nat ltac:(cbn; lia)). by rewrite Z.add_0_r in E1.
  - intros i Hi. cbn in Hi. replace i with 0%nat by lia. by rewrite Z.add_0_r.
Qed.
Lemma table_holds_self m a n : exists l, holds m a l /\ length l = n.
Proof.
  exists (map (fun i => rdb m (a + Z.of_nat i)) (seq 0 n)). split; [|by rewrite length_map, length_seq].
  intros i Hi. rewrite length_map, length_seq in Hi. unfold getb. change (@map nat Z) with (@fmap list _ nat Z).
  by rewrite list_lookup_fmap, (lookup_seq_lt 0 n i Hi).
Qed.
Lemma holds_unique m a l l' : holds m a l -> holds m a l' -> length l = length l' -> l = l'.
Proof.
  intros E E' L. apply list_eq_same_length with (length l); [done|done|]. intros i x y Hi Hx Hy.
  specialize (E i Hi). specialize (E' i ltac:(lia)). unfold getb in *. rewrite Hx in E. rewrite Hy in E'. simpl in *. congruence.
Qed.

Lemma sum_from_holds m l : forall a s, holds m a l -> sum_from m a (length l) s = s + total l.
Proof.
  induction l as [|x l IH]; intros a s E; cbn [sum_from length total foldr]; [lia|].
  apply holds_cons in E as [<- E]. rewrite (IH _ _ E). unfold total. lia.
Qed.
Lemma sum_holds m a l : holds m a l -> sum m a (Z.of_nat (length l)) = total l mod 256.
Proof. intros E. unfold sum, u8. by rewrite Nat2Z.id, (sum_from_holds m l a 0 E). Qed.

Lemma memcmp_eq p q n : memcmp p q n = 0 <-> forall i, (i < n)%nat -> p i = q i.
Proof.
  revert p q. induction n as [|n IH]; intros p q; cbn [memcmp]; [split; [lia|done]|].
  destruct (Z.eqb_spec (p 0%nat) (q 0%nat)) as [E|E]; cbn [negb].
  - rewrite IH. split; [intros K [|i] Hi; [done|apply K; lia]|intros K i Hi; apply K; lia].
  - split; [lia|]. intros K. destruct E. apply K. lia.
Qed.

Lemma memcmp_lit m a s : length (bytes_of s) = 4%nat -> memcmp (rd m a) (lit s) 4 = 0 <-> holds m a (bytes_of s).
Proof. intros L. rewrite memcmp_eq. unfold holds, lit, rd. by rewrite L. Qed.

Definition is_pointer (m : mem) (a : Z) : bool := (memcmp (rd m a) (lit "_MP_") 4 =? 0) && (sum m a sizeof_mp =? 0).
Lemma is_pointer_spec m a : is_pointer m a = true <-> pointer m a.
Proof.
  unfold is_pointer, pointer. rewrite andb_true_iff, !Z.eqb_eq, memcmp_lit by done. destruct (table_holds_self m a 16) as (l & E & L).
  assert (Es : sum m a sizeof_mp = total l mod 256) by (rewrite <-(sum_holds m a l E), L; done). rewrite Es. clear Es.
  assert (E4 : holds m a (take 4 l)) by (rewrite <-(take_drop 4 l) in E; by apply holds_app in E as [E _]).
  split.
  - intros [H1 H2]. exists l. split_and!; [done|done| |done]. apply (holds_unique m a); [done|done|]. by rewrite length_take, L.
  - intros (l' & F & L' & H1 & H2). assert (l' = l) as -> by (apply (holds_unique m a); [done|done|congruence]). by rewrite <-H1.
Qed.

Lemma area_cons a n : area a (S n) = a :: area (a + 16) n.
Proof.
  unfold area. cbn [seq map]. f_equal; [lia|]. rewrite <-seq_shift, map_map. apply map_ext. intros i. lia.
Qed.
Lemma search_area m n : forall fuel p, (n < fuel)%nat -> mpsearch_loop fuel m p (p + 16 * Z.of_nat n) = default 0 (List.find (is_pointer m) (area p n)).
Proof.
  induction n as [|n IH]; intros [|fuel] p Hf; [lia| |lia|]; cbn [mpsearch_loop].
  - rewrite (proj2 (Z.ltb_ge _ _)) by lia. done.
  - rewrite (proj2 (Z.ltb_lt _ _)) by lia. fold (is_pointer m p). rewrite area_cons. cbn [List.find].
    destruct (is_pointer m p); [done|]. rewrite <-(IH fuel (p + 16)) by lia. unfold sizeof_mp. f_equal. lia.
Qed.
Lemma mpsearch1_spec m a n : mpsearch1 m a (16 * Z.of_nat n) = default 0 (List.find (is_pointer m) (area (P2V a) n)).
Proof. apply search_area. lia. Qed.

Lemma find_app {A} (f : A -> bool) l1 l2 :
  List.find f (l1 ++ l2) = match List.find f l1 with Some x => Some x | None => List.find f l2 end.
Proof. induction l1 as [|x l1 IH]; [done|]. cbn. by destruct (f x). Qed.
Lemma find_area m a n x : List.find (is_pointer m) (area a n) = Some x -> 0 < a -> 0 < x.
Proof.
  intros E Ha. apply List.find_some in E as [E _]. unfold area in E. apply List.in_map_iff in E as (i & <- & _). lia.
Qed.
(** One of two areas, and then the ROM. *)
Lemma search_two m a b : 0 < P2V a ->
  (let mp := mpsearch1 m a 1024 in if truthy mp then mp else mpsearch1 m b 65536)
  = default 0 (List.find (is_pointer m) (area (P2V a) 64 ++ area (P2V b) 4096)).
Proof.
  intros Ha. cbv zeta. change 1024 with (16 * Z.of_nat 64). change 65536 with (16 * Z.of_nat 4096). rewrite !mpsearch1_spec, find_app.
  destruct (List.find _ (area (P2V a) 64)) as [x|] eqn:E; cbn [default from_option id]; [|done].
  apply find_area in E; [|done]. unfold truthy. by rewrite (proj2 (Z.eqb_neq x 0)) by lia.
Qed.

Lemma base_pos w : 0 <= w < 65536 -> 0 < P2V (u32 (1024 * w - 1024)) /\ 0 < P2V (16 * w).
Proof.
  intros R. unfold P2V, KERNBASE. split; [|rewrite u32_small; lia].
  destruct (Z.eqb_spec w 0) as [-> | D]; [by vm_compute|]. rewrite (u32_small (1024 * w - 1024)), u32_small by lia. lia.
Qed.
Lemma word16_range m a : bytes_mem m -> 0 <= word16 m a < 65536.
Proof. intros B. unfold word16. pose proof (B a). pose proof (B (a + 1)). lia. Qed.
Lemma area_pos a n : 0 < a -> Forall (Z.lt 0) (area a n).
Proof. intros Ha. apply Forall_forall. intros x E. apply list_elem_of_In, List.in_map_iff in E as (i & <- & _). lia. Qed.
Lemma places_pos m : bytes_mem m -> Forall (Z.lt 0) (places m).
Proof.
  intros B. destruct (base_pos _ (word16_range m (P2V 0x40E) B)) as [_ P1]. destruct (base_pos _ (word16_range m (P2V 0x413) B)) as [P2 _].
  unfold places. apply Forall_app. split; [destruct (_ =? _); by apply area_pos|apply area_pos; by vm_compute].
Qed.
Lemma mpsearch_spec m : bytes_mem m -> mpsearch m = default 0 (List.find (is_pointer m) (places m)).
Proof.
  intros B. unfold mpsearch, places. cbv zeta.
  assert (W : forall a, Z.lor (Z.shiftl (rdb m (a + 1)) 8) (rdb m a) = word16 m a).
  { intros a. pose proof (B a). unfold word16. rewrite lor_shiftl by lia. change (2 ^ 8) with 256. lia. }
  change (P2V 0x400 + 0x0F) with (P2V 0x40E + 1). change (P2V 0x400 + 0x0E) with (P2V 0x40E).
  change (P2V 0x400 + 0x14) with (P2V 0x413 + 1). change (P2V 0x400 + 0x13) with (P2V 0x413). rewrite !W.
  destruct (base_pos _ (word16_range m (P2V 0x40E) B)) as [_ P1]. destruct (base_pos _ (word16_range m (P2V 0x413) B)) as [P2 _].
  rewrite Z.shiftl_mul_pow2 by lia. change (2 ^ 4) with 16. rewrite (Z.mul_comm _ 16), (Z.mul_comm _ 1024). unfold truthy at 1.
  by destruct (Z.eqb_spec (16 * word16 m (P2V 0x40E)) 0) as [E|E]; cbn [negb]; apply search_two.
Qed.
Lemma mpsearch_first m pre a post : bytes_mem m -> places m = pre ++ a :: post -> Forall (fun x => ~ pointer m x) pre -> pointer m a -> mpsearch m = a.
Proof.
  intros B E F P. rewrite mpsearch_spec, E, find_app by done.
  assert (List.find (is_pointer m) pre = None) as ->.
  { induction pre as [|x pre IH] in F |- *; [done|]. apply Forall_cons in F as [F1 F2]. cbn [List.find]. rewrite <-is_pointer_spec in F1.
    destruct (is_pointer m x); [done|]. by apply IH. }
  cbn [List.find]. apply is_pointer_spec in P. by rewrite P.
Qed.
Lemma mpsearch_none m : bytes_mem m -> Forall (fun x => ~ pointer m x) (places m) -> mpsearch m = 0.
Proof.
  intros B F. rewrite mpsearch_spec by done. destruct (List.find _ _) as [x|] eqn:E; [|done]. apply List.find_some in E as [I P].
  rewrite Forall_forall in F. destruct (F x); [by apply list_elem_of_In|by apply is_pointer_spec].
Qed.

(** ** The table *)

(** The pointer structure at [fp] is the first, and the table it points to
    starts with the header [hdr] and the bytes [body]. *)
Record table (m : mem) (fp : Z) (hdr body : bytes) : Prop := {
  tb_bytes : bytes_mem m;
  tb_first : exists pre post, places m = pre ++ fp :: post /\ Forall (fun x => ~ pointer m x) pre;
  tb_pointer : pointer m fp;
  tb_low : 0 < mp_physaddr m fp /\ mp_physaddr m fp + Z.of_nat (length hdr + length body) <= KERNBASE;
  tb_holds : holds m (P2V (mp_physaddr m fp)) (hdr ++ body);
  tb_header : header_ok hdr body
}.

Lemma mpconfig_table m fp hdr body : table m fp hdr body ->
  mpconfig m = Some (P2V (mp_physaddr m fp), fp) /\
  mpconf_length m (P2V (mp_physaddr m fp)) = 44 + Z.of_nat (length body) /\
  mpconf_lapicaddr m (P2V (mp_physaddr m fp)) = get32 hdr 36.
Proof.
  intros [B (pre & post & E & F) P [C1 C2] Hh [L1 L2 L3 L4 L5]]. set (c := P2V _) in *.
  apply holds_app in Hh as K. destruct K as [K1 K2].
  assert (R : forall z, 0 <= z < 44 -> rdb m (c + z) = getb hdr (Z.to_nat z)).
  { intros z Hz. rewrite <-(Z2Nat.id z) at 1 by lia. apply K1. lia. }
  assert (Len : mpconf_length m c = 44 + Z.of_nat (length body)).
  { unfold mpconf_length. rewrite (R 4), (R 5) by lia. unfold get16 in L3. change (Z.to_nat 4) with 4%nat. change (Z.to_nat 5) with (4 + 1)%nat. lia. }
  split; [|split; [done|]].
  - unfold mpconfig. rewrite (mpsearch_first m pre fp post B E F P). assert (Hfp : 0 < fp).
    { pose proof (places_pos m B) as Q. rewrite E in Q. apply Forall_app in Q as [_ Q]. by apply Forall_cons in Q as [Q _]. }
    rewrite (proj2 (Z.eqb_neq fp 0)), (proj2 (Z.eqb_neq (mp_physaddr m fp) 0)) by lia. cbn [orb]. fold c.
    rewrite (proj2 (memcmp_lit m c "PCMP" eq_refl)). 2:{ rewrite <-(take_drop 4 hdr) in K1. apply holds_app in K1 as [K1 _]. by rewrite <-L2. }
    unfold mpconf_version. rewrite (R 6), Len by lia. replace (44 + Z.of_nat (length body)) with (Z.of_nat (length (hdr ++ body))) by (rewrite length_app; lia).
    rewrite (sum_holds m c _ Hh), L5. change (Z.to_nat 6) with 6%nat. by destruct L4 as [-> | ->].
  - unfold mpconf_lapicaddr, rdw, get32. rewrite <-!Z.add_assoc. by rewrite !R by lia.
Qed.

Lemma lapic_table m fp hdr body : table m fp hdr body -> P2V (mp_physaddr m fp) = mp_physaddr m fp + KERNBASE.
Proof. intros [_ _ _ [C1 C2] _ [L1 _ _ _ _]]. unfold P2V. apply u32_small. unfold KERNBASE in *. lia. Qed.

Section Entries.
Context {H : Type} `{IO : !Io H}.
Implicit Types s : mpst H.

Definition take_entry (e : entry) s : mpst H :=
  match e with
  | Processor id _ => if Z.of_nat (length (mp_ids s)) <? NCPU then add_cpu id s else s
  | IoApic id _ => set_ioapicid id s
  | Other _ _ => s
  end.
Definition take_entries (es : list entry) s : mpst H := foldl (fun s e => take_entry e s) s es.

Lemma take_entry_ram e s : mp_ram (take_entry e s) = mp_ram s.
Proof. destruct e; cbn; [destruct (_ <? _)| |]; done. Qed.
Lemma take_entries_ram es : forall s, mp_ram (take_entries es s) = mp_ram s.
Proof. induction es as [|e es IH]; intros s; [done|]. cbn [take_entries foldl]. etrans; [apply IH|apply take_entry_ram]. Qed.
Lemma take_entries_spec es : forall s, (length (mp_ids s) <= 8)%nat ->
  take_entries es s = Mpst (mp_ram s) (mp_ids s ++ take (8 - length (mp_ids s)) (processors es)) (default (ioapicid s) (last (ioapics es))) (lapic s) (mp_io s).
Proof.
  induction es as [|e es IH]; intros s Hs; [cbn; rewrite take_nil, app_nil_r; by destruct s|].
  change (take_entries (e :: es) s) with (take_entries es (take_entry e s)). destruct e as [id r|id r|ty r]; cbn [take_entry processors ioapics omap list_omap].
  - unfold NCPU. destruct (Z.ltb_spec (Z.of_nat (length (mp_ids s))) 8) as [L|L]; rewrite IH; cbn [add_cpu mp_ram mp_ids ioapicid lapic mp_io]; try done.
    + rewrite length_app, <-app_assoc. cbn [length app]. replace (8 - length (mp_ids s))%nat with (S (8 - (length (mp_ids s) + 1))) by lia. done.
    + rewrite length_app. cbn. lia.
    + by replace (8 - length (mp_ids s))%nat with 0%nat by lia.
  - rewrite IH by done. cbn [set_ioapicid mp_ram mp_ids ioapicid lapic mp_io]. fold (ioapics es). f_equal.
    rewrite last_cons. by destruct (last (ioapics es)).
  - by rewrite IH.
Qed.

Definition body_of (es : list entry) : bytes := concat (map encode es).
Lemma entry_step fuel e s p en i : entry_ok e -> holds (mp_ram s) p (encode e) -> p < en ->
  mpinit_loop (S fuel) p en i s = mpinit_loop fuel (p + Z.of_nat (length (encode e))) en i (take_entry e s).
Proof.
  intros Ok Hh Hp. cbn [mpinit_loop]. rewrite (proj2 (Z.ltb_lt _ _)) by done. rewrite bind_gets.
  destruct e as [id r|id r|ty r]; cbn [encode entry_ok] in *.
  - apply holds_cons in Hh as [-> Hh]. apply holds_cons in Hh as [E _]. cbn [length]. rewrite Ok. cbn [Z.eqb MPPROC]. unfold mpproc_apicid. rewrite E, bind_gets. cbn [take_entry].
    by destruct (_ <? _).
  - apply holds_cons in Hh as [-> Hh]. apply holds_cons in Hh as [E _]. cbn [length]. rewrite Ok. unfold mpioapic_apicno. rewrite E. done.
  - apply holds_cons in Hh as [-> Hh]. cbn [length]. destruct Ok as [Ty ->]. by destruct Ty as [-> | [-> | ->]].
Qed.
Lemma entries_run es : forall fuel s p en i, Forall entry_ok es -> holds (mp_ram s) p (body_of es) -> p + Z.of_nat (length (body_of es)) <= en ->
  (length es <= fuel)%nat ->
  mpinit_loop fuel p en i s = mpinit_loop (fuel - length es) (p + Z.of_nat (length (body_of es))) en i (take_entries es s).
Proof.
  induction es as [|e es IH]; intros fuel s p en i F Hh Hl Hf.
  - cbn [body_of concat map length]. rewrite Z.add_0_r. by rewrite Nat.sub_0_r.
  - apply Forall_cons in F as [F1 F2]. cbn [body_of map concat] in *. fold (body_of es) in *. apply holds_app in Hh as [H1 H2]. rewrite length_app in *.
    destruct fuel as [|fuel]; [cbn in Hf; lia|]. assert (Hp : p < en) by (destruct e; cbn [encode length] in *; lia).
    rewrite (entry_step fuel e s p en i F1 H1 Hp), IH; [|done|by rewrite take_entry_ram|lia|cbn in Hf; lia].
    cbn [length Nat.sub]. f_equal. lia.
Qed.
Lemma length_body es : Forall entry_ok es -> (length es <= length (body_of es))%nat.
Proof.
  induction es as [|e es IH]; intros F; [done|]. apply Forall_cons in F as [F1 F2]. specialize (IH F2). cbn [body_of map concat] in *. fold (body_of es).
  rewrite length_app. destruct e; cbn [encode length] in *; lia.
Qed.

(** The tail of mpinit: external interrupts are masked when the machine has the
    register for it. *)
Definition imcr (h : H) : H := io_outb 0x23 (u8 (Z.lor (u8 (io_inb 0x23 (io_outb 0x22 0x70 h)).1) 1)) (io_inb 0x23 (io_outb 0x22 0x70 h)).2.

Lemma mpinit_runs extra s fp hdr body : table (mp_ram s) fp hdr body ->
  mpinit_for extra s = (ismp ← mpinit_loop (S (Z.to_nat (44 + Z.of_nat (length body))) + extra) (P2V (mp_physaddr (mp_ram s) fp) + 44)
      (P2V (mp_physaddr (mp_ram s) fp) + 44 + Z.of_nat (length body)) 1;
    if negb (truthy ismp) then panic "Didn't find a suitable machine"
    else when (truthy (mp_imcrp (mp_ram s) fp)) (zoom mp_ioL (outb 0x22 0x70 ;; v ← inb 0x23; outb 0x23 (Z.lor v 1)))) (set_lapic (get32 hdr 36) s).
Proof.
  intros T. destruct (mpconfig_table _ _ _ _ T) as (E1 & E2 & E3). unfold mpinit_for. rewrite bind_gets, E1, bind_modify, E2, E3.
  unfold sizeof_mpconf. by rewrite Z.add_assoc.
Qed.

Lemma body_holds s fp hdr body : table (mp_ram s) fp hdr body -> holds (mp_ram s) (P2V (mp_physaddr (mp_ram s) fp) + 44) body.
Proof. intros T. pose proof (tb_holds _ _ _ _ T) as Hh. apply holds_app in Hh as [_ Hh]. by rewrite (hd_size _ _ (tb_header _ _ _ _ T)) in Hh. Qed.

Lemma mpinit_good s fp hdr es (Q : unit -> mpst H -> Prop) : table (mp_ram s) fp hdr (body_of es) -> Forall entry_ok es -> mp_ids s = [] ->
  Q tt (Mpst (mp_ram s) (take 8 (processors es)) (default (ioapicid s) (last (ioapics es))) (get32 hdr 36)
    (if truthy (mp_imcrp (mp_ram s) fp) then imcr (mp_io s) else mp_io s)) ->
  wp mpinit Q s.
Proof.
  intros T F E HQ. unfold wp, mpinit. rewrite (mpinit_runs 0 s fp hdr _ T). pose proof (body_holds _ _ _ _ T) as Hh. pose proof (length_body es F) as Ln.
  set (p := P2V _ + 44) in *. set (s1 := set_lapic _ s). set (n := (S (Z.to_nat (44 + Z.of_nat (length (body_of es)))) + 0)%nat).
  unfold mbind at 1, M_bind. rewrite (entries_run es n s1 p _ 1 F Hh) by lia.
  destruct (n - length es)%nat as [|f] eqn:Ef; [lia|]. cbn [mpinit_loop]. rewrite Z.ltb_irrefl. unfold mret at 1, M_ret.
  rewrite take_entries_spec by (unfold s1; cbn; rewrite E; cbn; lia). unfold s1. cbn [set_lapic mp_ram mp_ids ioapicid lapic mp_io]. rewrite E. cbn [length app Nat.sub].
  match goal with |- match ?m ?st with _ => _ end => change (wp m Q st) end.
  change (negb (truthy 1)) with false. cbn iota. revert HQ. destruct (truthy _); cbn [when]; intros HQ; [|done]. rewrite wp_zoom, wp_bind, wp_outb, wp_bind, wp_inb, wp_outb. exact HQ.
Qed.

(** The loop at an entry it does not know. *)
Lemma loop_unknown fuel : forall p e i s, p < e -> ~ rdb (mp_ram s) p ∈ [MPPROC; MPBUS; MPIOAPIC; MPIOINTR; MPLINTR] ->
  mpinit_loop fuel p e i s = Hang.
Proof.
  induction fuel as [|fuel IH]; intros p e i s Hp Hty; [done|]. cbn [mpinit_loop]. rewrite (proj2 (Z.ltb_lt _ _)) by done. rewrite bind_gets.
  rewrite !elem_of_cons, elem_of_nil in Hty. rewrite !(proj2 (Z.eqb_neq (rdb (mp_ram s) p) _)) by naive_solver.
  apply IH; [done|]. rewrite !elem_of_cons, elem_of_nil. naive_solver.
Qed.
Lemma mpinit_unknown extra s fp hdr es ty rest : table (mp_ram s) fp hdr (body_of es ++ ty :: rest) -> Forall entry_ok es ->
  ~ ty ∈ [MPPROC; MPBUS; MPIOAPIC; MPIOINTR; MPLINTR] -> mpinit_for extra s = Hang.
Proof.
  intros T F Hty. rewrite (mpinit_runs extra s fp hdr _ T). pose proof (body_holds _ _ _ _ T) as Hh. pose proof (length_body es F) as Ln.
  set (p := P2V _ + 44) in *. set (s1 := set_lapic _ s). apply holds_app in Hh as [H1 H2]. apply holds_cons in H2 as [H2 _]. rewrite length_app. cbn [length].
  unfold mbind at 1, M_bind. rewrite (entries_run es _ s1 p _ 1 F H1) by lia. rewrite loop_unknown; [done|lia|].
  rewrite take_entries_ram. change (mp_ram s1) with (mp_ram s). by rewrite H2.
Qed.

End Entries.

(** ** A machine of two processors, with ids 0 and 4 *)
Definition ex_entries : list entry :=
  [Processor 0 (replicate 18 0); Processor 4 (replicate 18 0); Other MPBUS (replicate 7 0); IoApic 2 (replicate 6 0)].
Definition ex_header (sum : Z) : bytes :=
  bytes_of "PCMP" ++ [100; 0; 4; sum] ++ replicate 28 0 ++ [0; 0; 224; 254] ++ replicate 4 0.
Definition ex_pointer (sum : Z) : bytes := bytes_of "_MP_" ++ [0; 16; 0; 0; 1; 4; sum; 0; 0; 0; 0; 0].
Definition load_bytes (a : Z) (l : bytes) (m : mem) : mem := foldr (fun ib m => wrb m (a + Z.of_nat ib.1) ib.2) m (imap pair l).
(** The data area of the BIOS says that its extension is at 0x9FC00; the pointer
    is there, and the table at 0x1000. *)
Definition ex_tables : mem :=
  load_bytes (P2V 0x1000) (ex_header (- total (ex_header 0 ++ body_of ex_entries) mod 256) ++ body_of ex_entries)
    (load_bytes (P2V 0x9FC00) (ex_pointer (- total (ex_pointer 0) mod 256)) (load_bytes (P2V 0x40E) [192; 159] ∅)).
(** Devices that record what is written to them. *)
Definition ex_io : Io (list (Z * Z)) := {|
  io_outb := fun p v l => l ++ [(p, v)]; io_inb := fun _ l => (0, l);
  mm_write := fun a v l => l ++ [(a, v)]; mm_read := fun _ l => (0, l) |}.

Lemma holds_check m a l : forallb (fun i => rdb m (a + Z.of_nat i) =? getb l i) (seq 0 (length l)) = true -> holds m a l.
Proof.
  intros E i Hi. rewrite forallb_forall in E. apply Z.eqb_eq, E, in_seq. lia.
Qed.
Lemma ex_table : table ex_tables (P2V 0x9FC00) (ex_header (- total (ex_header 0 ++ body_of ex_entries) mod 256)) (body_of ex_entries).
Proof.
  split.
  - intros a. unfold rdb. assert (map_Forall (fun _ b => 0 <= b < 256) ex_tables) as F by (apply (bool_decide_unpack _); vm_compute; exact I).
    destruct (ex_tables !! a) as [b|] eqn:E; cbn; [by apply (F a)|lia].
  - exists [], (List.tl (places ex_tables)). split; [by vm_compute|constructor].
  - exists (ex_pointer (- total (ex_pointer 0) mod 256)). split_and!; [apply holds_check; by vm_compute|done|done|by vm_compute].
  - by vm_compute.
  - apply holds_check. by vm_compute.
  - split; [done|done|by vm_compute|by right|by vm_compute].
Qed.
