(* ===== verification/Apic.v ===== *)
(** * The interrupt controllers and the clock chip (lapic.c, ioapic.c, picirq.c)

    [lapic], the address of the local controller that mpinit found, is an argument
    of the functions that use it.  The theorem at the end is about [cmostime],
    which reads a clock that ticks while it is read. *)
From S2P Require Import Prelude Layout CString Io.

Open Scope Z_scope.

(** ** traps.h *)
Definition T_IRQ0 : Z := 32.
Definition IRQ_TIMER : Z := 0.
Definition IRQ_KBD : Z := 1.
Definition IRQ_COM1 : Z := 4.
Definition IRQ_IDE : Z := 14.
Definition IRQ_ERROR : Z := 19.
Definition IRQ_SPURIOUS : Z := 31.

(** ** lapic.c: the registers *)
Definition ID : Z := 0x0020 / 4.
Definition VER : Z := 0x0030 / 4.
Definition TPR : Z := 0x0080 / 4.
Definition EOI : Z := 0x00B0 / 4.
Definition SVR : Z := 0x00F0 / 4.
Definition ENABLE : Z := 0x00000100.
Definition ESR : Z := 0x0280 / 4.
Definition ICRLO : Z := 0x0300 / 4.
Definition INIT : Z := 0x00000500.
Definition STARTUP : Z := 0x00000600.
Definition DELIVS : Z := 0x00001000.
Definition ASSERT : Z := 0x00004000.
Definition LEVEL : Z := 0x00008000.
Definition BCAST : Z := 0x00080000.
Definition ICRHI : Z := 0x0310 / 4.
Definition TIMER : Z := 0x0320 / 4.
Definition X1 : Z := 0x0000000B.
Definition PERIODIC : Z := 0x00020000.
Definition PCINT : Z := 0x0340 / 4.
Definition LINT0 : Z := 0x0350 / 4.
Definition LINT1 : Z := 0x0360 / 4.
Definition ERROR : Z := 0x0370 / 4.
Definition MASKED : Z := 0x00010000.
Definition TICR : Z := 0x0380 / 4.
Definition TDCR : Z := 0x03E0 / 4.

Definition CMOS_PORT : Z := 0x70.
Definition CMOS_RETURN : Z := 0x71.
Definition CMOS_STATA : Z := 0x0a.
Definition CMOS_STATB : Z := 0x0b.
Definition CMOS_UIP : Z := Z.shiftl 1 7.
Definition SECS : Z := 0x00.
Definition MINS : Z := 0x02.
Definition HOURS : Z := 0x04.
Definition DAY : Z := 0x07.
Definition MONTH : Z := 0x08.
Definition YEAR : Z := 0x09.

(** struct rtcdate (date.h) *)
Record rtcdate := RtcDate { second : Z; minute : Z; hour : Z; day : Z; month : Z; year : Z }.
#[export] Instance rtcdate_eq_dec : EqDecision rtcdate.
Proof. solve_decision. Defined.

(** ** ioapic.c *)
Definition IOAPIC : Z := 0xFEC00000.
Definition REG_ID : Z := 0x00.
Definition REG_VER : Z := 0x01.
Definition REG_TABLE : Z := 0x10.
Definition INT_DISABLED : Z := 0x00010000.
(** struct ioapic *)
Definition ioapic_reg : Z := IOAPIC.
Definition ioapic_data : Z := IOAPIC + 16.

(** ** picirq.c *)
Definition IO_PIC1 : Z := 0x20.
Definition IO_PIC2 : Z := 0xA0.

Section Apic.
Context {H : Type} `{IO : !Io H}.

(** The write is followed by a read, to wait for it. *)
Definition lapicw (lapic index value : Z) : M H unit :=
  writel (lapic + 4 * index) value ;; readl (lapic + 4 * ID) ;; mret tt.
Definition lapicr (lapic index : Z) : M H Z := readl (lapic + 4 * index).

(** [while(lapic[ICRLO] & DELIVS)] *)
Fixpoint wait_delivery (fuel : nat) (lapic : Z) : M H unit :=
  match fuel with
  | O => hang
  | S fuel => v ← lapicr lapic ICRLO; if truthy (Z.land v DELIVS) then wait_delivery fuel lapic else mret tt
  end.
Definition lapicinit (fuel : nat) (lapic : Z) : M H unit :=
  if lapic =? 0 then mret tt
  else
    lapicw lapic SVR (Z.lor ENABLE (T_IRQ0 + IRQ_SPURIOUS)) ;;
    lapicw lapic TDCR X1 ;;
    lapicw lapic TIMER (Z.lor PERIODIC (T_IRQ0 + IRQ_TIMER)) ;;
    lapicw lapic TICR 10000000 ;;
    lapicw lapic LINT0 MASKED ;;
    lapicw lapic LINT1 MASKED ;;
    v ← lapicr lapic VER;
    when (4 <=? Z.land (Z.shiftr v 16) 0xFF) (lapicw lapic PCINT MASKED) ;;
    lapicw lapic ERROR (T_IRQ0 + IRQ_ERROR) ;;
    lapicw lapic ESR 0 ;;
    lapicw lapic ESR 0 ;;
    lapicw lapic EOI 0 ;;
    lapicw lapic ICRHI 0 ;;
    lapicw lapic ICRLO (Z.lor (Z.lor BCAST INIT) LEVEL) ;;
    wait_delivery fuel lapic ;;
    lapicw lapic TPR 0.

Definition lapicid (lapic : Z) : M H Z :=
  if lapic =? 0 then mret 0 else v ← lapicr lapic ID; mret (Z.shiftr v 24).
Definition lapiceoi (lapic : Z) : M H unit := when (negb (lapic =? 0)) (lapicw lapic EOI 0).
Definition microdelay (us : Z) : M H unit := mret tt.

(** The warm reset vector of lapicstartap: two halfwords of memory. *)
Definition wrv : Z := P2V (Z.lor (Z.shiftl 0x40 4) 0x67).
Definition warm_reset (addr : Z) (m : mem) : mem :=
  let m := wrb (wrb m wrv 0) (wrv + 1) 0 in
  let v := u16 (Z.shiftr addr 4) in
  wrb (wrb m (wrv + 2) v) (wrv + 3) (v / 256).
(** The register accesses of lapicstartap before and after it stores the
    vector. *)
Definition cmos_shutdown : M H unit := outb CMOS_PORT 0xF ;; outb (CMOS_PORT + 1) 0x0A.
Definition send_startup (lapic apicid addr : Z) : M H unit :=
  lapicw lapic ICRHI (s32 (Z.shiftl apicid 24)) ;;
  lapicw lapic ICRLO (Z.lor STARTUP (Z.shiftr addr 12)) ;;
  microdelay 200.
Definition universal_startup (lapic apicid addr : Z) : M H unit :=
  lapicw lapic ICRHI (s32 (Z.shiftl apicid 24)) ;;
  lapicw lapic ICRLO (Z.lor (Z.lor INIT LEVEL) ASSERT) ;;
  microdelay 200 ;;
  lapicw lapic ICRLO (Z.lor INIT LEVEL) ;;
  microdelay 100 ;;
  for_each [0; 1] (fun _ => send_startup lapic apicid addr).
Definition lapicstartap (lapic apicid addr : Z) : M (mem * H) unit :=
  zoom (Lens snd (fun h s => (s.1, h))) cmos_shutdown ;;
  modify (fun s => (warm_reset addr s.1, s.2)) ;;
  zoom (Lens snd (fun h s => (s.1, h))) (universal_startup lapic apicid addr).

Definition cmos_read (reg : Z) : M H Z := outb CMOS_PORT reg ;; microdelay 200 ;; inb CMOS_RETURN.
Definition fill_rtcdate : M H rtcdate :=
  s ← cmos_read SECS;
  mi ← cmos_read MINS;
  h ← cmos_read HOURS;
  d ← cmos_read DAY;
  mo ← cmos_read MONTH;
  y ← cmos_read YEAR;
  mret (RtcDate s mi h d mo y).

(** The loop of cmostime; the memcmp compares two structs of six words. *)
Fixpoint read_stable (fuel : nat) : M H rtcdate :=
  match fuel with
  | O => hang
  | S fuel =>
      t1 ← fill_rtcdate;
      a ← cmos_read CMOS_STATA;
      if truthy (Z.land a CMOS_UIP) then read_stable fuel
      else
        t2 ← fill_rtcdate;
        if decide (t1 = t2) then mret t1 else read_stable fuel
  end.
Definition CONV (x : Z) : Z := u32 (Z.shiftr x 4 * 10 + Z.land x 0xf).
Definition conv_date (t : rtcdate) : rtcdate :=
  RtcDate (CONV (second t)) (CONV (minute t)) (CONV (hour t)) (CONV (day t)) (CONV (month t)) (CONV (year t)).
Definition cmostime (fuel : nat) : M H rtcdate :=
  sb ← cmos_read CMOS_STATB;
  let bcd := Z.land sb (Z.shiftl 1 2) =? 0 in
  t1 ← read_stable fuel;
  let t1 := if bcd then conv_date t1 else t1 in
  mret (RtcDate (second t1) (minute t1) (hour t1) (day t1) (month t1) (u32 (year t1 + 2000))).

Definition ioapicread (reg : Z) : M H Z := writel ioapic_reg reg ;; readl ioapic_data.
Definition ioapicwrite (reg data : Z) : M H unit := writel ioapic_reg reg ;; writel ioapic_data data.
(** The message of a mismatch goes to the console: [true] when it is printed. *)
Definition ioapicinit (ioapicid : Z) : M H bool :=
  v ← ioapicread REG_VER;
  let maxintr := Z.land (Z.shiftr v 16) 0xFF in
  w ← ioapicread REG_ID;
  let id := Z.shiftr w 24 in
  for_each (seq 0 (S (Z.to_nat maxintr))) (fun i =>
    ioapicwrite (REG_TABLE + 2 * Z.of_nat i) (Z.lor INT_DISABLED (T_IRQ0 + Z.of_nat i)) ;;
    ioapicwrite (REG_TABLE + 2 * Z.of_nat i + 1) 0) ;;
  mret (negb (id =? ioapicid)).
Definition ioapicenable (irq cpunum : Z) : M H unit :=
  ioapicwrite (REG_TABLE + 2 * irq) (T_IRQ0 + irq) ;;
  ioapicwrite (REG_TABLE + 2 * irq + 1) (s32 (Z.shiftl cpunum 24)).

Definition picinit : M H unit := outb (IO_PIC1 + 1) 0xFF ;; outb (IO_PIC2 + 1) 0xFF.
End Apic.

(** ** The clock

    What the data sheet of the clock chip says: the registers hold the date, in
    binary or with two decimal digits in a byte.  Once a second comes an update
    cycle, during which reading a register of the date gives anything.  The bit UIP
    of the status is set during the cycle and some time before it, so that after a
    read of a clear UIP the date stays readable for a while.

    [rtc_count] is the number of updates so far, [rtc_wait] the number of port
    accesses before the next cycle and [rtc_busy] those before the end of the
    present one, 0 when there is none.  A cycle has at most [rtc_span] accesses,
    UIP is set [rtc_window] accesses ahead, which is at least 16, and cycles are
    more than 80 accesses apart (a second is about a million). *)
Definition clock_regs : list Z := [SECS; MINS; HOURS; DAY; MONTH; YEAR].
Definition field (r : Z) (t : rtcdate) : Z :=
  if r =? SECS then second t else if r =? MINS then minute t else if r =? HOURS then hour t
  else if r =? DAY then day t else if r =? MONTH then month t else year t.
Definition encoded (binary : bool) (n : Z) : Z := if binary then n else 16 * (n / 10) + n mod 10.
(** One access brings the next cycle nearer, starts it, goes on with it or ends it. *)
Definition access (window span : nat) (c w b c' w' b' : nat) : Prop :=
  (c' = c /\ b = 0%nat /\ w = S w' /\ b' = 0%nat) \/
  (c' = c /\ b = 0%nat /\ w = 0%nat /\ (1 <= b' <= span)%nat) \/
  (c' = c /\ b = S b' /\ (1 <= b')%nat) \/
  (c' = S c /\ b = 1%nat /\ b' = 0%nat /\ (window + 80 <= w')%nat).

Class Rtc (H : Type) `{IO : !Io H} := {
  rtc_date : nat -> rtcdate;
  rtc_binary : bool;
  rtc_count : H -> nat;
  rtc_wait : H -> nat;
  rtc_busy : H -> nat;
  rtc_sel : H -> Z;
  rtc_window : nat;
  rtc_span : nat;
  rtc_ahead : (16 <= rtc_window)%nat;
  rtc_fields n r : r ∈ clock_regs -> 0 <= field r (rtc_date n) < 100;
  rtc_outb r h : let h' := io_outb CMOS_PORT r h in rtc_sel h' = r /\
    access rtc_window rtc_span (rtc_count h) (rtc_wait h) (rtc_busy h) (rtc_count h') (rtc_wait h') (rtc_busy h');
  rtc_inb h : let '(v, h') := io_inb CMOS_RETURN h in rtc_sel h' = rtc_sel h /\
    access rtc_window rtc_span (rtc_count h) (rtc_wait h) (rtc_busy h) (rtc_count h') (rtc_wait h') (rtc_busy h') /\
    (rtc_sel h ∈ clock_regs -> rtc_busy h = 0%nat -> v = encoded rtc_binary (field (rtc_sel h) (rtc_date (rtc_count h)))) /\
    (rtc_sel h = CMOS_STATB -> Z.testbit v 2 = rtc_binary) /\
    (rtc_sel h = CMOS_STATA -> Z.testbit v 7 = true <-> (rtc_busy h <> 0 \/ rtc_wait h <= rtc_window)%nat)
}.

(** ** Reading it *)
Lemma encoded_range b n : 0 <= n < 100 -> 0 <= encoded b n < 256.
Proof. intros Hn. destruct b; cbn; [lia|]. Z.div_mod_to_equations. lia. Qed.
Lemma CONV_encoded n : 0 <= n < 100 -> CONV (encoded false n) = n.
Proof.
  intros Hn. cbn [encoded]. unfold CONV. change 0xf with (Z.ones 4). rewrite Z.land_ones, Z.shiftr_div_pow2 by lia. change (2 ^ 4) with 16.
  rewrite u32_small; Z.div_mod_to_equations; lia.
Qed.
Lemma bit_truthy v k : 0 <= k -> truthy (Z.land v (Z.shiftl 1 k)) = Z.testbit v k.
Proof.
  intros Hk. rewrite Z.shiftl_1_l. unfold truthy. destruct (Z.eqb_spec (Z.land v (2 ^ k)) 0) as [E|E]; cbn [negb].
  - assert (T : Z.testbit (Z.land v (2 ^ k)) k = false) by (by rewrite E, Z.testbit_0_l). rewrite Z.land_spec, Z.pow2_bits_true, andb_true_r in T by done. done.
  - destruct (Z.testbit v k) eqn:T; [done|]. destruct E. apply Z.bits_inj'. intros i Hi. rewrite Z.land_spec, Z.testbit_0_l, Z.pow2_bits_eqb by done.
    destruct (Z.eqb_spec k i) as [<- | D]; [by rewrite T|apply andb_false_r].
Qed.

Section Clock.
Context {H : Type} `{IO : !Io H} `{RT : !Rtc H}.
Implicit Types h : H.

(** The accesses before the present cycle, or the next, is over. *)
Definition rest h : nat := match rtc_busy h with O => (rtc_wait h + rtc_span + 1)%nat | b => b end.
(** [k] accesses later: the date is readable all the time if the next cycle is that
    far away; otherwise the end of the cycle is nearer or has come. *)
Definition after (k : nat) h h' : Prop :=
  (rtc_count h' = rtc_count h /\ (k + rest h' <= rest h)%nat \/
   rtc_count h' = S (rtc_count h) /\ rtc_busy h' = 0%nat /\ (rtc_window + 80 < rtc_wait h' + k)%nat) /\
  (rtc_busy h = 0%nat -> (k <= rtc_wait h)%nat ->
   rtc_count h' = rtc_count h /\ rtc_busy h' = 0%nat /\ rtc_wait h = (k + rtc_wait h')%nat).
Lemma after_one h h' :
  access rtc_window rtc_span (rtc_count h) (rtc_wait h) (rtc_busy h) (rtc_count h') (rtc_wait h') (rtc_busy h') -> after 1 h h'.
Proof. unfold access, after, rest. intros A. destruct (rtc_busy h), (rtc_busy h'); lia. Qed.
Lemma after_trans j k h1 h2 h3 : after j h1 h2 -> after k h2 h3 -> (j + k <= 80)%nat -> after (j + k) h1 h3.
Proof. unfold after. intros [A1 A2] [B1 B2] L. split; lia. Qed.
Lemma after_mono k h h' : after k h h' -> (rtc_count h <= rtc_count h')%nat.
Proof. unfold after. lia. Qed.

Lemma u8_bit v k : 0 <= k < 8 -> Z.testbit (u8 v) k = Z.testbit v k.
Proof. intros Hk. unfold u8. change 256 with (2 ^ 8). apply Z.mod_pow2_bits_low. lia. Qed.

(** A register is read after the first of two accesses. *)
Lemma wp_cmos_read r (Q : Z -> H -> Prop) h : 0 <= r < 256 ->
  (forall v h1 h', after 1 h h1 -> after 1 h1 h' ->
    (r ∈ clock_regs -> rtc_busy h1 = 0%nat -> v = encoded rtc_binary (field r (rtc_date (rtc_count h1)))) ->
    (r = CMOS_STATB -> Z.testbit v 2 = rtc_binary) ->
    (r = CMOS_STATA -> Z.testbit v 7 = true <-> (rtc_busy h1 <> 0 \/ rtc_wait h1 <= rtc_window)%nat) -> Q v h') ->
  wp (cmos_read r) Q h.
Proof.
  intros Hr HQ. unfold cmos_read, microdelay. rewrite wp_bind, wp_outb, wp_bind, wp_ret, wp_inb.
  change (u16 CMOS_PORT) with CMOS_PORT. change (u16 CMOS_RETURN) with CMOS_RETURN. rewrite (u8_small r) by done.
  destruct (rtc_outb r h) as [S1 A1]. set (h1 := io_outb _ _ _) in *. pose proof (rtc_inb h1) as I. destruct (io_inb CMOS_RETURN h1) as [v h2].
  destruct I as (S2 & A2 & I1 & I2 & I3). rewrite S1 in *. cbn [fst snd]. apply (HQ (u8 v) h1 h2).
  - by apply after_one.
  - by apply after_one.
  - intros E B. rewrite (I1 E B). apply u8_small, encoded_range, rtc_fields. done.
  - intros E. rewrite <-(I2 E). by apply u8_bit.
  - intros E. rewrite <-(I3 E), u8_bit by lia. done.
Qed.

(** A register of the date, which is right when no cycle comes near. *)
Lemma wp_clock_read r (Q : Z -> H -> Prop) h : r ∈ clock_regs ->
  (forall v h', after 2 h h' ->
    (rtc_busy h = 0%nat -> (2 <= rtc_wait h)%nat -> v = encoded rtc_binary (field r (rtc_date (rtc_count h)))) -> Q v h') ->
  wp (cmos_read r) Q h.
Proof.
  intros Hr HQ. apply wp_cmos_read.
  { unfold clock_regs in Hr. rewrite !elem_of_cons, elem_of_nil in Hr. destruct Hr as [-> | [-> | [-> | [-> | [-> | [-> | []]]]]]]; done. }
  intros v h1 h' A1 A2 V _ _. apply HQ; [exact (after_trans 1 1 _ _ _ A1 A2 ltac:(lia))|].
  intros B W. destruct A1 as [_ A1]. destruct (A1 B ltac:(lia)) as (<- & B1 & _). by apply V.
Qed.

Definition shown (t : rtcdate) : rtcdate :=
  let e := encoded rtc_binary in RtcDate (e (second t)) (e (minute t)) (e (hour t)) (e (day t)) (e (month t)) (e (year t)).
Lemma wp_fill (Q : rtcdate -> H -> Prop) h :
  (forall t h', after 12 h h' -> (rtc_busy h = 0%nat -> (12 <= rtc_wait h)%nat -> t = shown (rtc_date (rtc_count h))) -> Q t h') ->
  wp fill_rtcdate Q h.
Proof.
  intros HQ. unfold fill_rtcdate. rewrite wp_bind. apply wp_clock_read; [set_solver|]. intros v0 h0 A0 V0.
  rewrite wp_bind. apply wp_clock_read; [set_solver|]. intros v1 h1 A1 V1. pose proof (after_trans _ _ _ _ _ A0 A1 ltac:(lia)) as B1.
  rewrite wp_bind. apply wp_clock_read; [set_solver|]. intros v2 h2 A2 V2. pose proof (after_trans _ _ _ _ _ B1 A2 ltac:(lia)) as B2.
  rewrite wp_bind. apply wp_clock_read; [set_solver|]. intros v3 h3 A3 V3. pose proof (after_trans _ _ _ _ _ B2 A3 ltac:(lia)) as B3.
  rewrite wp_bind. apply wp_clock_read; [set_solver|]. intros v4 h4 A4 V4. pose proof (after_trans _ _ _ _ _ B3 A4 ltac:(lia)) as B4.
  rewrite wp_bind. apply wp_clock_read; [set_solver|]. intros v5 h5 A5 V5. pose proof (after_trans _ _ _ _ _ B4 A5 ltac:(lia)) as B5.
  rewrite wp_ret. apply HQ; [exact B5|]. intros B W.
  destruct (proj2 A0 B ltac:(lia)) as (C0 & D0 & W0). destruct (proj2 B1 B ltac:(lia)) as (C1 & D1 & W1). destruct (proj2 B2 B ltac:(lia)) as (C2 & D2 & W2).
  destruct (proj2 B3 B ltac:(lia)) as (C3 & D3 & W3). destruct (proj2 B4 B ltac:(lia)) as (C4 & D4 & W4).
  rewrite V0, V1, V2, V3, V4, V5 by (done || lia). by rewrite C0, C1, C2, C3, C4.
Qed.

(** The second reading is right, since UIP was clear; the first is returned if it
    agrees with it. *)
Lemma wp_read_stable (Q : rtcdate -> H -> Prop) : forall fuel h,
  (rest h + 2 <= fuel \/ rtc_busy h = 0 /\ rtc_window + 27 <= rtc_wait h /\ 1 <= fuel)%nat ->
  (forall h' n, (rtc_count h <= n <= rtc_count h')%nat -> Q (shown (rtc_date n)) h') -> wp (read_stable fuel) Q h.
Proof.
  pose proof rtc_ahead as Ha. induction fuel as [|fuel IH]; intros h0 Hf HQ; [lia|]. cbn [read_stable].
  rewrite wp_bind. apply wp_fill. intros t1 h1 A1 F1. rewrite wp_bind. apply wp_cmos_read; [done|]. intros a h1' h2 A2 A3 _ _ U.
  specialize (U eq_refl). pose proof (after_trans _ _ _ _ _ A1 A2 ltac:(lia)) as A12. pose proof (after_trans _ _ _ _ _ A12 A3 ltac:(lia)) as A13.
  change (12 + 1)%nat with 13%nat in *. change (13 + 1)%nat with 14%nat in *.
  unfold CMOS_UIP. rewrite bit_truthy by lia. destruct (Z.testbit a 7).
  - pose proof (after_mono _ _ _ A13). apply IH; [|intros h' n Hn; apply HQ; lia].
    destruct Hf as [Hf|(Hb & Hw & _)]; [clear -A13 Hf; unfold after in A13; lia|].
    destruct (proj2 A12 Hb ltac:(lia)) as (_ & B1 & W1). destruct (proj1 U eq_refl); lia.
  - destruct (decide (rtc_busy h1' = 0 /\ rtc_window < rtc_wait h1')%nat) as [[B W]|N]; [|exfalso; assert (false = true) by (apply U; lia); done].
    destruct (proj2 A3 B ltac:(lia)) as (C3 & B2 & W2).
    rewrite wp_bind. apply wp_fill. intros t2 h3 A4 F2. specialize (F2 B2 ltac:(lia)). pose proof (after_trans _ _ _ _ _ A13 A4 ltac:(lia)) as A.
    change (14 + 12)%nat with 26%nat in A. pose proof (after_mono _ _ _ A13). pose proof (after_mono _ _ _ A4). case_decide as E.
    + rewrite wp_ret, E, F2. apply HQ. lia.
    + apply IH; [|intros h' n Hn; apply HQ; lia]. destruct Hf as [Hf|(Hb & Hw & _)]; [clear -A Hf; unfold after in A; lia|].
      destruct E. rewrite (F1 Hb), F2 by lia. destruct (proj2 A13 Hb ltac:(lia)) as (-> & _). done.
Qed.

(** C39: cmostime returns a time the clock showed.  The clock is updated while its
    registers are read one by one, and during the update reading them gives
    anything, but the result is the date of one moment between the call and the
    return, in decimal whatever the registers use, and the loop ends: it is
    repeated only until the update that disturbs it is over. *)
Theorem cmostime_reads_clock h fuel : (rest h + 4 <= fuel)%nat ->
  wp (cmostime fuel) (fun r h' => exists n, (rtc_count h <= n <= rtc_count h')%nat /\
    let t := rtc_date n in r = RtcDate (second t) (minute t) (hour t) (day t) (month t) (year t + 2000)) h.
Proof.
  intros Hf. unfold cmostime. rewrite wp_bind. apply wp_cmos_read; [done|]. intros sb h1' h1 A1 A2 _ B _. specialize (B eq_refl).
  pose proof (after_trans _ _ _ _ _ A1 A2 ltac:(lia)) as A.
  rewrite wp_bind. apply wp_read_stable; [unfold after in *; lia|]. intros h' n Hn. rewrite wp_ret. exists n.
  pose proof (after_mono _ _ _ A). split; [lia|]. clear A A1 A2 Hf Hn. rewrite <-(negb_involutive (Z.land sb _ =? 0)). fold (truthy (Z.land sb (Z.shiftl 1 2))).
  rewrite bit_truthy, B by lia. assert (F : forall r, r ∈ clock_regs -> 0 <= field r (rtc_date n) < 100) by (intros r; apply rtc_fields).
  pose proof (F SECS ltac:(set_solver)). pose proof (F MINS ltac:(set_solver)). pose proof (F HOURS ltac:(set_solver)).
  pose proof (F DAY ltac:(set_solver)). pose proof (F MONTH ltac:(set_solver)). pose proof (F YEAR ltac:(set_solver)). cbn in *.
  unfold shown. destruct rtc_binary; cbn [negb]; cbn -[CONV encoded u32]; [cbn [encoded]|rewrite !CONV_encoded by done]; rewrite u32_small by lia; done.
Qed.
End Clock.

(** ** A clock at half past noon

    An update cycle of six accesses comes every 101, and shows 0xFF meanwhile. *)
Module ExClock.
Record chip := Chip { count : nat; wait : nat; busy : nat; sel : Z }.
Definition date (n : nat) : rtcdate := RtcDate (Z.of_nat (n mod 60)) 30 12 15 1 24.
Definition turn (c : chip) : chip :=
  match busy c, wait c with
  | O, O => Chip (count c) 0 6 (sel c)
  | O, S w => Chip (count c) w 0 (sel c)
  | 1%nat, _ => Chip (S (count c)) 100 0 (sel c)
  | S b, w => Chip (count c) w b (sel c)
  end.
Definition uip (c : chip) : bool := negb (busy c =? 0)%nat || (wait c <=? 16)%nat.
Definition value (c : chip) : Z :=
  if decide (sel c ∈ clock_regs) then if (busy c =? 0)%nat then encoded false (field (sel c) (date (count c))) else 0xFF
  else if (sel c =? CMOS_STATA) && uip c then 128 else 0.
#[export] Instance chip_io : Io chip := {|
  io_outb := fun p v c => if p =? CMOS_PORT then turn (Chip (count c) (wait c) (busy c) v) else c;
  io_inb := fun p c => if p =? CMOS_RETURN then (value c, turn c) else (0, c);
  mm_write := fun _ _ c => c; mm_read := fun _ c => (0, c) |}.
Lemma turn_access c : sel (turn c) = sel c /\
  access 16 6 (count c) (wait c) (busy c) (count (turn c)) (wait (turn c)) (busy (turn c)).
Proof. unfold turn, access. destruct (busy c) as [|[|b]], (wait c); cbn; (split; [done|lia]). Qed.
#[export] Program Instance chip_rtc : Rtc chip := {|
  rtc_date := date; rtc_binary := false; rtc_count := count; rtc_wait := wait; rtc_busy := busy; rtc_sel := sel;
  rtc_window := 16; rtc_span := 6 |}.
Next Obligation. lia. Qed.
Next Obligation. intros n r Hr. pose proof (Nat.mod_upper_bound n 60). unfold clock_regs in Hr. rewrite !elem_of_cons, elem_of_nil in Hr.
  destruct Hr as [-> | [-> | [-> | [-> | [-> | [-> | []]]]]]]; cbn; lia. Qed.
Next Obligation. intros r c. apply (turn_access (Chip (count c) (wait c) (busy c) r)). Qed.
Next Obligation.
  intros c. cbn. destruct (turn_access c) as [S A]. split_and!; [done|done| | |].
  - intros Hs Hb. unfold value. by rewrite decide_True, Hb.
  - intros Hs. unfold value. rewrite decide_False by (rewrite Hs; set_solver). by rewrite Hs.
  - intros Hs. unfold value. rewrite decide_False by (rewrite Hs; set_solver). rewrite Hs. change (CMOS_STATA =? CMOS_STATA) with true. cbn [andb]. unfold uip.
    destruct (Nat.eqb_spec (busy c) 0), (Nat.leb_spec (wait c) 16); cbn; split; (done || lia).
Qed.
End ExClock.
Lemma cmostime_reads_clock_witness : exists n r h',
  @cmostime _ ExClock.chip_io 20 (ExClock.Chip 7 5 0 0) = Ok (r, h') /\ r = RtcDate (Z.of_nat (n mod 60)) 30 12 15 1 2024.
Proof.
  destruct (proj1 (wp_ok _ _ _) (@cmostime_reads_clock _ ExClock.chip_io ExClock.chip_rtc (ExClock.Chip 7 5 0 0) 20 ltac:(cbn; lia))) as (r & h' & E & n & _ & R).
  exists n, r, h'. split; [exact E|exact R].
Defined.
