(* ===== verification/Segs.v ===== *)
(** * Segment and gate descriptors (mmu.h, seginit of vm.c, tvinit of trap.c)

    The bit fields of the two kinds of descriptors as records, the tables the
    kernel fills with them, and what the processor makes of them. *)
From S2P Require Import Prelude.

Open Scope Z_scope.

(** ** mmu.h *)
Definition SEG_KCODE : Z := 1.
Definition SEG_KDATA : Z := 2.
Definition SEG_UCODE : Z := 3.
Definition SEG_UDATA : Z := 4.
Definition NSEGS : Z := 6.
Definition DPL_USER : Z := 0x3.
Definition STA_X : Z := 0x8.
Definition STA_W : Z := 0x2.
Definition STA_R : Z := 0x2.
Definition STS_IG32 : Z := 0xE.
Definition STS_TG32 : Z := 0xF.
Definition T_SYSCALL : Z := 64.

Record segdesc := SegDesc {
  lim_15_0 : Z; base_15_0 : Z; base_23_16 : Z; sd_type : Z; sd_s : Z; sd_dpl : Z; sd_p : Z;
  lim_19_16 : Z; sd_avl : Z; sd_rsv1 : Z; sd_db : Z; sd_g : Z; base_31_24 : Z }.
Definition SEG (type base lim dpl : Z) : segdesc :=
  SegDesc (Z.land (Z.shiftr lim 12) 0xffff) (Z.land base 0xffff) (Z.land (Z.shiftr base 16) 0xff) type 1 dpl 1
    (Z.shiftr lim 28) 0 0 1 1 (Z.shiftr base 24).

Record gatedesc := GateDesc {
  off_15_0 : Z; gd_cs : Z; gd_args : Z; gd_rsv1 : Z; gd_type : Z; gd_s : Z; gd_dpl : Z; gd_p : Z; off_31_16 : Z }.
Definition SETGATE (istrap sel off d : Z) : gatedesc :=
  GateDesc (Z.land off 0xffff) sel 0 0 (if truthy istrap then STS_TG32 else STS_IG32) 0 d 1 (Z.shiftr off 16).

(** ** The tables

    [seginit] fills four of the six entries of its CPU's table; [tvinit] sets 256
    gates and then one of them again. *)
Definition no_seg : segdesc := SegDesc 0 0 0 0 0 0 0 0 0 0 0 0 0.
Definition seginit_gdt (gdt : list segdesc) : list segdesc :=
  let gdt := <[Z.to_nat SEG_KCODE := SEG (Z.lor STA_X STA_R) 0 0xffffffff 0]> gdt in
  let gdt := <[Z.to_nat SEG_KDATA := SEG STA_W 0 0xffffffff 0]> gdt in
  let gdt := <[Z.to_nat SEG_UCODE := SEG (Z.lor STA_X STA_R) 0 0xffffffff DPL_USER]> gdt in
  <[Z.to_nat SEG_UDATA := SEG STA_W 0 0xffffffff DPL_USER]> gdt.
Definition tvinit_idt (vectors : nat -> Z) (idt : list gatedesc) : list gatedesc :=
  let idt := fold_left (fun t i => <[i := SETGATE 0 (Z.shiftl SEG_KCODE 3) (vectors i) 0]> t) (seq 0 256) idt in
  let n := Z.to_nat T_SYSCALL in
  <[n := SETGATE 1 (Z.shiftl SEG_KCODE 3) (vectors n) DPL_USER]> idt.

(** ** What the processor reads in them *)
Definition seg_base (d : segdesc) : Z := base_15_0 d + 65536 * base_23_16 d + 16777216 * base_31_24 d.
(** The last offset of the segment. *)
Definition seg_last (d : segdesc) : Z :=
  let l := lim_15_0 d + 65536 * lim_19_16 d in if sd_g d =? 1 then 4096 * l + 4095 else l.
Definition gate_off (g : gatedesc) : Z := off_15_0 g + 65536 * off_31_16 g.
(** The handler that a trap or interrupt with this gate enters and whether
    interrupts stay on; an [int] instruction may use the gate when it runs at a
    privilege level of at most [dpl]. *)
Definition enters (g : gatedesc) (sel off : Z) (ints_on : bool) : Prop :=
  gd_p g = 1 /\ gd_s g = 0 /\ gd_cs g = sel /\ gate_off g = off /\ gd_type g = (if ints_on then STS_TG32 else STS_IG32).
Definition int_allowed (g : gatedesc) (cpl : Z) : bool := cpl <=? gd_dpl g.

Lemma SETGATE_off istrap sel off d : 0 <= off < 4294967296 -> gate_off (SETGATE istrap sel off d) = off.
Proof.
  intros H. unfold gate_off, SETGATE. cbn. change 0xffff with (Z.ones 16). rewrite Z.land_ones, Z.shiftr_div_pow2 by lia.
  change (2 ^ 16) with 65536. pose proof (Z.div_mod off 65536 ltac:(lia)). lia.
Qed.

Lemma set_gates vectors l : forall idt i, (i < length idt)%nat ->
  fold_left (fun t i => <[i := SETGATE 0 (Z.shiftl SEG_KCODE 3) (vectors i) 0]> t) l idt !! i
  = if decide (i ∈ l) then Some (SETGATE 0 (Z.shiftl SEG_KCODE 3) (vectors i) 0) else idt !! i.
Proof.
  induction l as [|j l IH]; intros idt i Hi; cbn [fold_left]; [by rewrite decide_False by set_solver|].
  rewrite IH by (by rewrite length_insert). destruct (decide (i ∈ l)) as [D|D].
  - by rewrite decide_True by set_solver.
  - destruct (decide (i = j)) as [->|Dj]; [rewrite decide_True by set_solver; by rewrite list_lookup_insert_eq|].
    rewrite decide_False by set_solver. by rewrite list_lookup_insert_ne.
Qed.
Lemma length_set_gates vectors l : forall idt,
  length (fold_left (fun t i => <[i := SETGATE 0 (Z.shiftl SEG_KCODE 3) (vectors i) 0]> t) l idt) = length idt.
Proof. induction l as [|j l IH]; intros idt; cbn [fold_left]; [done|]. by rewrite IH, length_insert. Qed.

(** Every vector enters its handler in the kernel's code segment; user code can
    call the gate of system calls and no other, and only it leaves interrupts
    on. *)
Lemma tvinit_gates vectors idt i : length idt = 256%nat -> (i < 256)%nat -> 0 <= vectors i < 4294967296 ->
  exists g, tvinit_idt vectors idt !! i = Some g /\
    enters g (8 * SEG_KCODE) (vectors i) (bool_decide (i = Z.to_nat T_SYSCALL)) /\
    int_allowed g 3 = bool_decide (i = Z.to_nat T_SYSCALL).
Proof.
  intros L Hi Hv. unfold tvinit_idt. destruct (decide (i = Z.to_nat T_SYSCALL)) as [->|D].
  - rewrite list_lookup_insert_eq by (rewrite length_set_gates, L; cbn; lia). eexists. split; [done|]. rewrite bool_decide_true by done.
    split; [|done]. split_and!; try done. by apply SETGATE_off.
  - rewrite list_lookup_insert_ne by done. rewrite set_gates by lia. rewrite decide_True by (apply elem_of_seq; lia). eexists. split; [done|].
    rewrite bool_decide_false by done. split; [|done]. split_and!; try done. by apply SETGATE_off.
Qed.
Lemma seginit_flat gdt : length gdt = 6%nat -> forall i, i ∈ [1; 2; 3; 4]%nat ->
  exists d, seginit_gdt gdt !! i = Some d /\ seg_base d = 0 /\ seg_last d = 4294967295 /\
    sd_dpl d = (if decide (i < 3)%nat then 0 else 3).
Proof.
  intros L i Hi. do 6 (destruct gdt as [|? gdt]; [done|]). destruct gdt; [|done].
  rewrite !elem_of_cons, elem_of_nil in Hi. destruct Hi as [-> | [-> | [-> | [-> | []]]]]; eexists; (split; [reflexivity|done]).
Qed.
