(* ===== verification/Asm.v ===== *)
(** * The assembly of the kernel (swtch.S, trapasm.S, vectors.pl, usys.S)

    The instructions these files use, as functions on the registers of a processor
    and memory.  Kernel code reaches kernel memory and user code the memory of its
    process; the privilege level is that of the code segment. *)
From S2P Require Import Prelude CString Layout Spinlock Segs.

Open Scope Z_scope.

(** ** The processor *)
Inductive reg := EAX | ECX | EDX | EBX | ESP | EBP | ESI | EDI | EIP | EFLAGS | CS | SS | DS | ES | FS | GS.
#[export] Instance reg_eq_dec : EqDecision reg.
Proof. solve_decision. Defined.

Record amach := AMach { rg : reg -> Z; kram : mem; uram : mem }.
Definition cpl (s : amach) : Z := Z.land (rg s CS) 3.
Definition setr (r : reg) (v : Z) (s : amach) : amach := AMach (fun x => if decide (x = r) then v else rg s x) (kram s) (uram s).
Definition ldw (a : Z) (s : amach) : Z := rdw (if cpl s =? 0 then kram s else uram s) a.
Definition stw (a v : Z) (s : amach) : amach :=
  if cpl s =? 0 then AMach (rg s) (wrw (kram s) a v) (uram s) else AMach (rg s) (kram s) (wrw (uram s) a v).

Definition push (v : Z) (s : amach) : amach := let a := u32 (rg s ESP - 4) in stw a v (setr ESP a s).
Definition pushr (r : reg) (s : amach) : amach := push (rg s r) s.
Definition popr (r : reg) (s : amach) : amach := let a := rg s ESP in setr r (ldw a s) (setr ESP (u32 (a + 4)) s).
(** The segment registers are 16 bits wide. *)
Definition popseg (r : reg) (s : amach) : amach := let a := rg s ESP in setr r (u16 (ldw a s)) (setr ESP (u32 (a + 4)) s).
Definition ret : amach -> amach := popr EIP.

Definition pushal (s : amach) : amach :=
  let old := rg s ESP in
  pushr EDI (pushr ESI (pushr EBP (push old (pushr EBX (pushr EDX (pushr ECX (pushr EAX s))))))).
Definition popal (s : amach) : amach :=
  let s := popr EBP (popr ESI (popr EDI s)) in
  let s := setr ESP (u32 (rg s ESP + 4)) s in
  popr EAX (popr ECX (popr EDX (popr EBX s))).

(** Return from an interrupt; the stack changes with the privilege level. *)
Definition iret (s : amach) : amach :=
  let a := rg s ESP in
  let eip := ldw a s in
  let cs := u16 (ldw (u32 (a + 4)) s) in
  let flags := ldw (u32 (a + 8)) s in
  let esp := ldw (u32 (a + 12)) s in
  let ss := u16 (ldw (u32 (a + 16)) s) in
  let s := if cpl s <? Z.land cs 3 then setr SS ss (setr ESP esp s) else setr ESP (u32 (a + 12)) s in
  setr EFLAGS flags (setr CS cs (setr EIP eip s)).

(** A trap or interrupt through a gate.  From user code the processor takes the
    kernel stack of the task state segment; some exceptions push an error code.
    An interrupt gate turns interrupts off. *)
Definition FL_TRAP : Z := 0x34100.  (* TF, NT, RF, VM *)
Definition interrupt (g : gatedesc) (esp0 ss0 : Z) (err : option Z) (s : amach) : amach :=
  let u := s in
  let s := if Z.land (gd_cs g) 3 <? cpl s then setr SS ss0 (setr ESP esp0 s) else s in
  let crossed := negb (cpl u =? Z.land (gd_cs g) 3) in
  let s := setr CS (gd_cs g) s in
  let s := if crossed then push (rg u ESP) (push (rg u SS) s) else s in
  let s := push (rg u EIP) (push (rg u CS) (push (rg u EFLAGS) s)) in
  let s := match err with Some e => push e s | None => s end in
  let flags := Z.ldiff (rg u EFLAGS) FL_TRAP in
  setr EIP (gate_off g) (setr EFLAGS (if gd_type g =? STS_IG32 then Z.ldiff flags FL_IF else flags) s).

(** ** swtch.S *)
Definition swtch (s : amach) : amach :=
  let s := setr EAX (ldw (u32 (rg s ESP + 4)) s) s in
  let s := setr EDX (ldw (u32 (rg s ESP + 8)) s) s in
  let s := pushr EDI (pushr ESI (pushr EBX (pushr EBP s))) in
  let s := stw (rg s EAX) (rg s ESP) s in
  let s := setr ESP (rg s EDX) s in
  ret (popr EBP (popr EBX (popr ESI (popr EDI s)))).

(** ** vectors.pl and trapasm.S *)
Definition has_error_code (i : Z) : bool := (i =? 8) || (10 <=? i) && (i <=? 14) || (i =? 17).
Definition vector (i : Z) (s : amach) : amach :=
  let s := if has_error_code i then s else push 0 s in
  push i s.
(** Up to the call of trap, whose argument is the frame. *)
Definition alltraps (s : amach) : amach :=
  let s := pushr GS (pushr FS (pushr ES (pushr DS s))) in
  let s := pushal s in
  let ax := 8 * SEG_KDATA in
  let s := setr EAX (Z.lor (Z.ldiff (rg s EAX) 0xffff) ax) s in
  let s := setr ES ax (setr DS ax s) in
  pushr ESP s.
Definition trapret (s : amach) : amach :=
  let s := popal s in
  let s := popseg DS (popseg ES (popseg FS (popseg GS s))) in
  iret (setr ESP (u32 (rg s ESP + 8)) s).

(** ** usys.S, up to the trap and after it *)
Definition usys_enter (num : Z) (s : amach) : amach := setr EAX num s.
Definition usys_leave : amach -> amach := ret.
