(* ===== verification/Sleeplock.v ===== *)
(** * Sleeping locks (sleeplock.c)

    The lock operations and a model of any number of processes using one lock,
    in which waiting processes sleep on the lock and are woken by its release. *)
From S2P Require Import Prelude Spinlock.

Open Scope Z_scope.

(** struct sleeplock; [sl_woken] counts the calls of wakeup on the lock. *)
Record sleeplock := SleepLock { sl_lk : bool; sl_locked : Z; sl_pid : Z; sl_woken : nat }.

Definition sl_lkL : lens sleeplock bool :=
  Lens sl_lk (fun b s => SleepLock b (sl_locked s) (sl_pid s) (sl_woken s)).

Definition initsleeplock : sleeplock := SleepLock false 0 0 0.

(** A process that finds the lock taken sleeps: alone, it never returns. *)
Definition acquiresleep (mypid : Z) : M sleeplock unit :=
  zoom sl_lkL lk_acquire ;;
  l ← gets sl_locked;
  (if truthy l then hang else mret tt) ;;
  modify (fun s => SleepLock (sl_lk s) 1 (sl_pid s) (sl_woken s)) ;;
  modify (fun s => SleepLock (sl_lk s) (sl_locked s) mypid (sl_woken s)) ;;
  zoom sl_lkL lk_release.

Definition releasesleep : M sleeplock unit :=
  zoom sl_lkL lk_acquire ;;
  modify (fun s => SleepLock (sl_lk s) 0 (sl_pid s) (sl_woken s)) ;;
  modify (fun s => SleepLock (sl_lk s) (sl_locked s) 0 (sl_woken s)) ;;
  modify (fun s => SleepLock (sl_lk s) (sl_locked s) (sl_pid s) (S (sl_woken s))) ;;
  zoom sl_lkL lk_release.

Definition holdingsleep (mypid : Z) : M sleeplock bool :=
  zoom sl_lkL lk_acquire ;;
  r ← gets (fun s => truthy (sl_locked s) && (sl_pid s =? mypid));
  zoom sl_lkL lk_release ;;
  mret r.

Lemma acquiresleep_ok mypid n p : acquiresleep mypid (SleepLock false 0 p n) = Ok (tt, SleepLock false 1 mypid n).
Proof. done. Qed.
Lemma acquiresleep_blocks mypid l n p : l <> 0 -> acquiresleep mypid (SleepLock false l p n) = Hang.
Proof.
  intros H. unfold acquiresleep, mbind, M_bind, zoom. simpl. unfold truthy.
  destruct (Z.eqb_spec l 0); [done|]. done.
Qed.
Lemma releasesleep_ok l n p : releasesleep (SleepLock false l p n) = Ok (tt, SleepLock false 0 0 (S n)).
Proof. done. Qed.
Lemma holdingsleep_ok mypid l n p :
  holdingsleep mypid (SleepLock false l p n) = Ok (truthy l && (p =? mypid), SleepLock false l p n).
Proof. done. Qed.

(** ** Many processes

    Each operation holds the spinlock of the lock throughout, except inside
    sleep; so it is one step, and a waiter is in one of three places: about to
    test [locked] (first time, after a wakeup, or because kill woke it), asleep, or
    past the loop. *)
Inductive slpc := Away | Testing | Asleep | Has.

Record slstate := SlState { spc : nat -> slpc; slock : sleeplock; pids : nat -> Z }.

Definition set_spc (f : nat -> slpc) (c : nat) (q : slpc) : nat -> slpc :=
  fun d => if decide (d = c) then q else f d.
(** If the operation that led from [k] to [k'] called wakeup, everyone asleep on
    the lock goes back to testing. *)
Definition wake_spc (k k' : sleeplock) (f : nat -> slpc) : nat -> slpc :=
  fun d => match f d with
           | Asleep => if decide (sl_woken k' = sl_woken k) then Asleep else Testing
           | q => q
           end.

Inductive sl_step : slstate -> slstate -> Prop :=
| sl_call c f k p : f c = Away -> sl_step (SlState f k p) (SlState (set_spc f c Testing) k p)
| sl_take c f k k' p : f c = Testing -> acquiresleep (p c) k = Ok (tt, k') ->
    sl_step (SlState f k p) (SlState (wake_spc k k' (set_spc f c Has)) k' p)
| sl_wait c f k p : f c = Testing -> acquiresleep (p c) k = Hang ->
    sl_step (SlState f k p) (SlState (set_spc f c Asleep) k p)
| sl_release c f k k' p : f c = Has -> releasesleep k = Ok (tt, k') ->
    sl_step (SlState f k p) (SlState (wake_spc k k' (set_spc f c Away)) k' p)
| sl_kill c f k p : f c = Asleep -> sl_step (SlState f k p) (SlState (set_spc f c Testing) k p).

Definition sl_init (p : nat -> Z) : slstate := SlState (fun _ => Away) initsleeplock p.

Record sl_inv (s : slstate) : Prop := {
  si_lk : sl_lk (slock s) = false;
  si_one : forall c d, spc s c = Has -> spc s d = Has -> c = d;
  si_has : forall c, spc s c = Has -> sl_locked (slock s) = 1 /\ sl_pid (slock s) = pids s c;
  si_free : sl_locked (slock s) <> 0 -> exists c, spc s c = Has;
  si_asleep : forall c, spc s c = Asleep -> exists d, spc s d = Has
}.

Lemma wake_has k k' f d : wake_spc k k' f d = Has <-> f d = Has.
Proof. unfold wake_spc. destruct (f d); try done. by case_decide. Qed.

(** A process that goes to test changes nothing the invariant speaks of. *)
Lemma sl_inv_testing c f k p : f c <> Has -> sl_inv (SlState f k p) -> sl_inv (SlState (set_spc f c Testing) k p).
Proof.
  intros Hc [I1 I2 I3 I4 I5]. simpl in *.
  assert (Hh : forall d, set_spc f c Testing d = Has -> f d = Has).
  { intros d. unfold set_spc. by case_decide. }
  assert (Hh' : forall d, f d = Has -> set_spc f c Testing d = Has).
  { intros d Hd. unfold set_spc. case_decide; [congruence|done]. }
  split; simpl; try done.
  - intros d e Hd He. by apply I2; apply Hh.
  - intros d Hd. by apply I3, Hh.
  - intros Hl. destruct (I4 Hl) as [d Hd]. exists d. by apply Hh'.
  - intros d. unfold set_spc at 1. case_decide; [done|]. intros Hd. destruct (I5 d Hd) as [e He].
    exists e. by apply Hh'.
Qed.

Lemma sl_inv_step s s' : sl_inv s -> sl_step s s' -> sl_inv s'.
Proof.
  intros [I1 I2 I3 I4 I5] Hs.
  destruct Hs as [c f k p Hc|c f k k' p Hc Hr|c f k p Hc Hr|c f k k' p Hc Hr|c f k p Hc]; simpl in *;
    destruct k as [lk lo pp n]; simpl in *; subst lk.
  - apply sl_inv_testing; [by rewrite Hc|by split].
  - assert (lo = 0) as ->.
    { destruct (decide (lo = 0)); [done|]. by rewrite acquiresleep_blocks in Hr. }
    rewrite acquiresleep_ok in Hr. injection Hr as <-.
    assert (Hno : forall d, f d <> Has).
    { intros d Hd. destruct (I3 d Hd) as [? _]. lia. }
    assert (Hh : forall d, set_spc f c Has d = Has -> d = c).
    { intros d. unfold set_spc. case_decide; [done|]. intros Hd. by destruct (Hno d). }
    assert (Hhas : set_spc f c Has c = Has) by (unfold set_spc; by rewrite decide_True).
    split; simpl; try done.
    + intros d e Hd%wake_has He%wake_has. rewrite (Hh d Hd), (Hh e He). done.
    + intros d Hd%wake_has. by rewrite (Hh d Hd).
    + intros _. exists c. by apply wake_has.
    + intros d _. exists c. by apply wake_has.
  - assert (Hl : lo <> 0) by (intros ->; by rewrite acquiresleep_ok in Hr).
    destruct (I4 Hl) as [h Hh0].
    assert (Hh : forall d, set_spc f c Asleep d = Has -> f d = Has).
    { intros d. unfold set_spc. by case_decide. }
    assert (Hh' : forall d, f d = Has -> set_spc f c Asleep d = Has).
    { intros d Hd. unfold set_spc. case_decide; [congruence|done]. }
    split; simpl; try done.
    + intros d e Hd He. by apply I2; apply Hh.
    + intros d Hd. by apply I3, Hh.
    + intros _. exists h. by apply Hh'.
    + intros d _. exists h. by apply Hh'.
  - rewrite releasesleep_ok in Hr. injection Hr as <-.
    assert (Hno : forall d, set_spc f c Away d <> Has).
    { intros d. unfold set_spc. case_decide as E; [done|]. intros Ed. destruct E. by apply I2. }
    split; simpl; try done.
    + intros d e Hd%wake_has. by destruct (Hno d).
    + intros d Hd%wake_has. by destruct (Hno d).
    + intros d. unfold wake_spc. cbn. destruct (set_spc f c Away d); try done. by rewrite decide_False by lia.
  - apply sl_inv_testing; [by rewrite Hc|by split].
Qed.

(** C32: in every reachable state of any number of processes using a sleep lock,
    at most one has it, the lock then names that process, and nobody sleeps on a
    free lock: whenever a process is asleep in acquiresleep, some process has the
    lock.  A sleeper is woken only by a wakeup that releasesleep makes, or by
    kill. *)
Theorem sleeplock_exclusive_no_lost_wakeup p s :
  rtc sl_step (sl_init p) s ->
  (forall c d, spc s c = Has -> spc s d = Has -> c = d) /\
  (forall c, spc s c = Has -> sl_locked (slock s) = 1 /\ sl_pid (slock s) = pids s c) /\
  (forall c, spc s c = Asleep -> exists d, spc s d = Has).
Proof.
  intros Hr. assert (H : sl_inv s).
  { assert (H0 : sl_inv (sl_init p)) by (split; simpl; done).
    revert H0. induction Hr; [done|]. by eauto using sl_inv_step. }
  split_and!; apply H.
Qed.

Lemma sleeplock_exclusive_no_lost_wakeup_witness : exists s, spc s 1%nat = Asleep /\ exists d, spc s d = Has.
Proof.
  refine ((fun s (H : rtc sl_step (sl_init Z.of_nat) s) (Hs : spc s 1%nat = Asleep) =>
    ex_intro _ s (conj Hs (proj2 (proj2 (sleeplock_exclusive_no_lost_wakeup Z.of_nat s H)) 1%nat Hs)))
    (SlState _ (SleepLock false 1 0 0) Z.of_nat) _ _).
  - eapply rtc_l; [apply (sl_call 0); reflexivity|].
    eapply rtc_l; [apply (sl_call 1); reflexivity|].
    eapply rtc_l; [apply (sl_take 0); [reflexivity|apply acquiresleep_ok]|].
    eapply rtc_l; [apply (sl_wait 1); [reflexivity|apply acquiresleep_blocks; lia]|].
    apply rtc_refl.
  - reflexivity.
Defined.
