(* ===== verification/Bio.v ===== *)
(** * The buffer cache (bio.c, buf.h) over a disk driver (memide.c)

    [DiskDriver] is what the cache needs of a driver, [memide] the in-memory
    driver that provides it.  [BufCache] is what the cache promises to the log
    and the file system: an abstract state with the content every block is seen
    to have, the content on disk, the blocks held and the blocks pinned. *)
From S2P Require Import Prelude Bytes Spinlock Sleeplock.

Open Scope Z_scope.

Definition BSIZE : nat := 512.
Definition NBUF : nat := 30.
Definition B_VALID : Z := 2.
Definition B_DIRTY : Z := 4.

(** struct buf.  The LRU links are the list [mru] of the cache; the device
    queue link is in Ide. *)
Record buf := Buf {
  flags : Z; dev : Z; blockno : Z; lock : sleeplock; refcnt : Z; data : bytes }.

Definition set_flags f b := Buf f (dev b) (blockno b) (lock b) (refcnt b) (data b).
Definition set_dev d b := Buf (flags b) d (blockno b) (lock b) (refcnt b) (data b).
Definition set_blockno n b := Buf (flags b) (dev b) n (lock b) (refcnt b) (data b).
Definition set_lock l b := Buf (flags b) (dev b) (blockno b) l (refcnt b) (data b).
Definition set_refcnt r b := Buf (flags b) (dev b) (blockno b) (lock b) r (data b).
Definition set_data d b := Buf (flags b) (dev b) (blockno b) (lock b) (refcnt b) d.

(** A buffer in static storage, before anything uses it. *)
Definition no_buf : buf := Buf 0 0 0 initsleeplock 0 (replicate BSIZE 0).

(** Applying block writes to the contents of a disk. *)
Definition disk_set (d : Z -> bytes) (n : Z) (x : bytes) : Z -> bytes :=
  fun m => if decide (m = n) then x else d m.
Definition apply_writes (ws : list (Z * bytes)) (d : Z -> bytes) : Z -> bytes :=
  foldl (fun d w => disk_set d w.1 w.2) d ws.

(** ** The driver *)

(** Buffer [b] is locked by process [pid]. *)
Definition locked_by (pid : Z) (b : buf) : Prop :=
  sl_lk (lock b) = false /\ sl_locked (lock b) = 1 /\ sl_pid (lock b) = pid.

Class DiskDriver (D : Type) := {
  iderw : Z -> nat -> M (list buf * D) unit;
  medium : D -> Z -> bytes;
  disk_size : D -> Z;
  writes : D -> list (Z * bytes);
  drv_ok : D -> Prop;
  medium_length d n : drv_ok d -> 0 <= n < disk_size d -> length (medium d n) = BSIZE;
  (** a buffer that was never filled is read *)
  iderw_read pid bs d i b :
    drv_ok d -> bs !! i = Some b -> locked_by pid b -> flags b = 0 -> dev b = 1 ->
    0 <= blockno b < disk_size d -> length (data b) = BSIZE ->
    exists d', iderw pid i (bs, d) =
        Ok (tt, (<[i := set_flags B_VALID (set_data (medium d (blockno b)) b)]> bs, d')) /\
      drv_ok d' /\ disk_size d' = disk_size d /\ writes d' = writes d /\
      forall n, medium d' n = medium d n;
  (** a dirty buffer is written *)
  iderw_write pid bs d i b :
    drv_ok d -> bs !! i = Some b -> locked_by pid b -> flags b = Z.lor B_VALID B_DIRTY -> dev b = 1 ->
    0 <= blockno b < disk_size d -> length (data b) = BSIZE ->
    exists d', iderw pid i (bs, d) = Ok (tt, (<[i := set_flags B_VALID b]> bs, d')) /\
      drv_ok d' /\ disk_size d' = disk_size d /\
      writes d' = writes d ++ [(blockno b, data b)] /\
      forall n, 0 <= n < disk_size d -> medium d' n = disk_set (medium d) (blockno b) (data b) n
}.

(** ** Access to a buffer and to its lock *)
Definition get_buf {D} (i : nat) : M (list buf * D) buf := fun s =>
  match s.1 !! i with Some b => Ok (b, s) | None => Undef "not a buffer" end.
Definition put_buf {D} (i : nat) (b : buf) : M (list buf * D) unit :=
  modify (fun s => (<[i := b]> s.1, s.2)).
Definition on_lock {D A} (i : nat) (m : M sleeplock A) : M (list buf * D) A := fun s =>
    match s.1 !! i with
    | None => Undef "not a buffer"
    | Some b =>
        match m (lock b) with
        | Ok (a, l) => Ok (a, (<[i := set_lock l b]> s.1, s.2))
        | Panic e => Panic e
        | Undef e => Undef e
        | Hang => Hang
        end
    end.

(** A locked buffer passes the check of [holdingsleep], unchanged. *)
Lemma holding_run {D} pid i b (bs : list buf) (d : D) : bs !! i = Some b -> locked_by pid b ->
  on_lock i (holdingsleep pid) (bs, d) = Ok (true, (bs, d)).
Proof.
  intros Hb (Hl & Hk & Hp). destruct b as [f dv n [lk lo p w] r da]; simpl in *. subst lk lo p.
  unfold on_lock. cbn [fst]. rewrite Hb. cbn [lock].
  rewrite holdingsleep_ok. simpl. rewrite Z.eqb_refl. unfold set_lock. simpl.
  by rewrite list_insert_id.
Qed.

Lemma get_buf_ok {D} (bs : list buf) i b (d : D) : bs !! i = Some b -> get_buf i (bs, d) = Ok (b, (bs, d)).
Proof. intros Hb. unfold get_buf. simpl. by rewrite Hb. Qed.

(** ** The in-memory disk of memide.c *)
Module Memide.
(** [memdisk] is the disk image, a block at a time; [md_writes] records the
    writes made, in order, and is read by no code. *)
Record memdisk := MemDisk { disksize : Z; img : gmap Z bytes; md_writes : list (Z * bytes) }.

(** ideinit: the image the kernel is linked with, [_binary_fs_img_size] bytes long. *)
Definition ideinit (image : gmap Z bytes) (image_size : Z) : memdisk :=
  MemDisk (image_size / Z.of_nat BSIZE) image [].

Definition ideintr : M memdisk unit := mret tt.

Definition img_block (m : memdisk) (n : Z) : bytes := default (replicate BSIZE 0) (img m !! n).

Definition iderw (pid : Z) (i : nat) : M (list buf * memdisk) unit :=
  h ← on_lock i (holdingsleep pid);
  (if (negb h : bool) then panic "iderw: buf not locked" else mret tt) ;;
  b ← get_buf i;
  (if Z.land (flags b) (Z.lor B_VALID B_DIRTY) =? B_VALID
   then panic "iderw: nothing to do" else mret tt) ;;
  (if negb (dev b =? 1) then panic "iderw: request not for disk 1" else mret tt) ;;
  sz ← gets (fun s => disksize s.2);
  (if sz <=? blockno b then panic "iderw: block out of range" else mret tt) ;;
  (if truthy (Z.land (flags b) B_DIRTY) then
     put_buf i (set_flags (Z.land (flags b) (Z.lnot B_DIRTY)) b) ;;
     modify (fun s => (s.1, MemDisk (disksize s.2) (<[blockno b := data b]> (img s.2))
                              (md_writes s.2 ++ [(blockno b, data b)])))
   else
     p ← gets (fun s => img_block s.2 (blockno b));
     put_buf i (set_data p b)) ;;
  b ← get_buf i;
  put_buf i (set_flags (Z.lor (flags b) B_VALID) b).

Definition mem_ok (m : memdisk) : Prop :=
  forall n, 0 <= n < disksize m -> length (img_block m n) = BSIZE.

Section Laws.
Variables (pid : Z) (bs : list buf) (d : memdisk) (i : nat) (b : buf).
Hypotheses (Hd : mem_ok d) (Hb : bs !! i = Some b) (Hl : locked_by pid b) (H1 : dev b = 1)
  (Hn : 0 <= blockno b < disksize d).

Let Hi : (i < length bs)%nat := lookup_lt_Some _ _ _ Hb.

Lemma mem_iderw_read : flags b = 0 ->
  iderw pid i (bs, d) = Ok (tt, (<[i := set_flags B_VALID (set_data (img_block d (blockno b)) b)]> bs, d)).
Proof.
  intros Hf. unfold iderw. rewrite (bind_ok _ _ _ _ _ (holding_run _ _ _ _ d Hb Hl)). cbn [negb].
  rewrite (bind_ok _ _ _ tt _ eq_refl). rewrite (bind_ok _ _ _ _ _ (get_buf_ok _ _ _ _ Hb)).
  rewrite Hf, H1. change (Z.land 0 (Z.lor B_VALID B_DIRTY) =? B_VALID) with false.
  change (truthy (Z.land 0 B_DIRTY)) with false. cbn [negb Z.eqb Pos.eqb].
  do 2 rewrite (bind_ok _ _ _ tt _ eq_refl). rewrite bind_gets. cbn [snd].
  destruct (Z.leb_spec (disksize d) (blockno b)); [lia|].
  rewrite (bind_ok _ _ _ tt _ eq_refl).
  unfold mbind, M_bind, gets, put_buf, modify, get_buf. cbn [fst snd].
  rewrite list_lookup_insert_eq by done. cbn [flags set_data]. rewrite Hf.
  cbn [fst snd]. by rewrite list_insert_insert_eq.
Qed.

Lemma mem_iderw_write : flags b = Z.lor B_VALID B_DIRTY ->
  iderw pid i (bs, d) = Ok (tt, (<[i := set_flags B_VALID b]> bs,
    MemDisk (disksize d) (<[blockno b := data b]> (img d)) (md_writes d ++ [(blockno b, data b)]))).
Proof.
  intros Hf. unfold iderw. rewrite (bind_ok _ _ _ _ _ (holding_run _ _ _ _ d Hb Hl)). cbn [negb].
  rewrite (bind_ok _ _ _ tt _ eq_refl). rewrite (bind_ok _ _ _ _ _ (get_buf_ok _ _ _ _ Hb)).
  rewrite Hf, H1. change (Z.land (Z.lor B_VALID B_DIRTY) (Z.lor B_VALID B_DIRTY) =? B_VALID) with false.
  change (truthy (Z.land (Z.lor B_VALID B_DIRTY) B_DIRTY)) with true. cbn [negb Z.eqb Pos.eqb].
  do 2 rewrite (bind_ok _ _ _ tt _ eq_refl). rewrite bind_gets. cbn [snd].
  destruct (Z.leb_spec (disksize d) (blockno b)); [lia|].
  rewrite (bind_ok _ _ _ tt _ eq_refl).
  unfold mbind, M_bind, gets, put_buf, modify, get_buf. cbn [fst snd].
  rewrite list_lookup_insert_eq by done. cbn [flags set_flags set_data].
  cbn [fst snd]. rewrite list_insert_insert_eq. reflexivity.
Qed.
End Laws.

#[global] Program Instance memide_driver : DiskDriver memdisk := {
  iderw := iderw; medium := img_block; disk_size := disksize; writes := md_writes; drv_ok := mem_ok
}.
Next Obligation. intros d n H Hn. by apply H. Qed.
Next Obligation.
  intros pid bs d i b Hd Hb Hl Hf H1 Hn Hlen. exists d.
  split; [by apply mem_iderw_read|]. by split_and!.
Qed.
Next Obligation.
  intros pid bs d i b Hd Hb Hl Hf H1 Hn Hlen.
  assert (Hm : forall n, img_block (MemDisk (disksize d) (<[blockno b := data b]> (img d))
     (md_writes d ++ [(blockno b, data b)])) n = disk_set (img_block d) (blockno b) (data b) n).
  { intros n. unfold img_block, disk_set. simpl. case_decide as E.
    - subst. by rewrite lookup_insert_eq.
    - by rewrite lookup_insert_ne. }
  eexists. split; [by apply mem_iderw_write|]. split_and!; try done.
  intros n Hn'. rewrite Hm. unfold disk_set. case_decide; [done|by apply Hd].
Qed.
End Memide.

(** ** What the cache promises

    The abstract state: what each block of the disk is seen to hold, what the
    disk holds, the blocks whose buffer is held (with the buffer), the blocks
    pinned in memory, the disk writes made, and the size of the disk. *)
Record cabs := CAbs {
  view : Z -> bytes; ondisk : Z -> bytes; held : gmap Z nat; pinned : gset Z;
  dwrites : list (Z * bytes); dsize : Z }.

Definition in_disk (a : cabs) (n : Z) : Prop := 0 <= n < dsize a.
Definition hold (n : Z) (i : nat) (a : cabs) : cabs :=
  CAbs (view a) (ondisk a) (<[n := i]> (held a)) (pinned a) (dwrites a) (dsize a).
Definition unhold (n : Z) (a : cabs) : cabs :=
  CAbs (view a) (ondisk a) (delete n (held a)) (pinned a) (dwrites a) (dsize a).
Definition edit (n : Z) (x : bytes) (a : cabs) : cabs :=
  CAbs (disk_set (view a) n x) (ondisk a) (held a) (pinned a) (dwrites a) (dsize a).
Definition pin (n : Z) (a : cabs) : cabs :=
  CAbs (view a) (ondisk a) (held a) ({[n]} ∪ pinned a) (dwrites a) (dsize a).
Definition flush (n : Z) (a : cabs) : cabs :=
  CAbs (view a) (disk_set (ondisk a) n (view a n)) (held a) (pinned a ∖ {[n]})
    (dwrites a ++ [(n, view a n)]) (dsize a).

(** A recyclable buffer is left for block [n]. *)
Definition room (a : cabs) (n : Z) : Prop :=
  (size ({[n]} ∪ dom (held a) ∪ pinned a) <= NBUF)%nat.

Class BufCache (S : Type) := {
  brep : S -> cabs -> Prop;
  bread : Z -> Z -> M S nat;
  bwrite : nat -> M S unit;
  brelse : nat -> M S unit;
  buf_data : nat -> M S bytes;
  buf_put : nat -> bytes -> M S unit;
  buf_blockno : nat -> M S Z;
  buf_dirty : nat -> M S unit;
  brep_length s a n : brep s a -> in_disk a n -> length (view a n) = BSIZE /\ length (ondisk a n) = BSIZE;
  brep_clean s a n : brep s a -> in_disk a n -> held a !! n = None -> n ∉ pinned a -> view a n = ondisk a n;
  bread_law s a n : brep s a -> in_disk a n -> held a !! n = None -> room a n ->
    exists i s', bread 1 n s = Ok (i, s') /\ brep s' (hold n i a);
  bwrite_law s a n i : brep s a -> held a !! n = Some i ->
    exists s', bwrite i s = Ok (tt, s') /\ brep s' (flush n a);
  brelse_law s a n i : brep s a -> held a !! n = Some i -> (n ∈ pinned a \/ view a n = ondisk a n) ->
    exists s', brelse i s = Ok (tt, s') /\ brep s' (unhold n a);
  buf_data_law s a n i : brep s a -> held a !! n = Some i -> buf_data i s = Ok (view a n, s);
  buf_put_law s a n i x : brep s a -> held a !! n = Some i -> length x = BSIZE ->
    exists s', buf_put i x s = Ok (tt, s') /\ brep s' (edit n x a);
  buf_blockno_law s a n i : brep s a -> held a !! n = Some i -> buf_blockno i s = Ok (n, s);
  buf_dirty_law s a n i : brep s a -> held a !! n = Some i ->
    exists s', buf_dirty i s = Ok (tt, s') /\ brep s' (pin n a)
}.

(** ** The cache of bio.c *)
Module Bcache.
(** [mru] is the LRU list from [head.next] to [head.prev]; [me] is the pid of
    the process that runs. *)
Record bcache (D : Type) := BCache {
  bc_lock : bool; bufs : list buf; mru : list nat; drv : D; me : Z }.
Arguments BCache {D} _ _ _ _ _.
Arguments bc_lock {D} _.
Arguments bufs {D} _.
Arguments mru {D} _.
Arguments drv {D} _.
Arguments me {D} _.

Section Ops.
Context {D : Type} `{DD : !DiskDriver D}.
Implicit Types (s : bcache D) (l : list nat).

Definition bc_lockL : lens (bcache D) bool :=
  Lens bc_lock (fun b s => BCache b (bufs s) (mru s) (drv s) (me s)).
Definition bufsL : lens (bcache D) (list buf * D) :=
  Lens (fun s => (bufs s, drv s)) (fun p s => BCache (bc_lock s) p.1 (mru s) p.2 (me s)).
Definition set_mru l s := BCache (bc_lock s) (bufs s) l (drv s) (me s).

Definition nth_buf (i : nat) : M (bcache D) buf := zoom bufsL (get_buf i).
Definition store_buf (i : nat) (b : buf) : M (bcache D) unit := zoom bufsL (put_buf i b).
Definition buf_lock {A} (i : nat) (m : M sleeplock A) : M (bcache D) A := zoom bufsL (on_lock i m).

Definition binit (d : D) (pid : Z) : bcache D :=
  BCache false (replicate NBUF no_buf) (reverse (seq 0 NBUF)) d pid.

(** The first buffer of [l] that passes a test. *)
Fixpoint first_buf (p : buf -> bool) (bs : list buf) (l : list nat) : option nat :=
  match l with
  | [] => None
  | i :: l' =>
      match bs !! i with
      | Some b => if p b then Some i else first_buf p bs l'
      | None => first_buf p bs l'
      end
  end.
Definition caches (d n : Z) (b : buf) : bool := (dev b =? d) && (blockno b =? n).
Definition unused (b : buf) : bool := (refcnt b =? 0) && (Z.land (flags b) B_DIRTY =? 0).

Definition bget (d n : Z) : M (bcache D) nat :=
  zoom bc_lockL lk_acquire ;;
  hit ← gets (fun s => first_buf (caches d n) (bufs s) (mru s));
  match hit with
  | Some i =>
      b ← nth_buf i;
      store_buf i (set_refcnt (u32 (refcnt b + 1)) b) ;;
      zoom bc_lockL lk_release ;;
      pid ← gets me;
      buf_lock i (acquiresleep pid) ;;
      mret i
  | None =>
      free ← gets (fun s => first_buf unused (bufs s) (reverse (mru s)));
      match free with
      | Some i =>
          b ← nth_buf i;
          store_buf i (set_refcnt 1 (set_flags 0 (set_blockno n (set_dev d b)))) ;;
          zoom bc_lockL lk_release ;;
          pid ← gets me;
          buf_lock i (acquiresleep pid) ;;
          mret i
      | None => panic "bget: no buffers"
      end
  end.

Definition bread (d n : Z) : M (bcache D) nat :=
  i ← bget d n;
  b ← nth_buf i;
  pid ← gets me;
  when (Z.land (flags b) B_VALID =? 0) (zoom bufsL (iderw pid i)) ;;
  mret i.

Definition bwrite (i : nat) : M (bcache D) unit :=
  pid ← gets me;
  h ← buf_lock i (holdingsleep pid);
  (if (negb h : bool) then panic "bwrite" else mret tt) ;;
  b ← nth_buf i;
  store_buf i (set_flags (Z.lor (flags b) B_DIRTY) b) ;;
  zoom bufsL (iderw pid i).

Definition to_front (i : nat) (l : list nat) : list nat := i :: filter (fun j => j <> i) l.

Definition brelse (i : nat) : M (bcache D) unit :=
  pid ← gets me;
  h ← buf_lock i (holdingsleep pid);
  (if (negb h : bool) then panic "brelse" else mret tt) ;;
  buf_lock i releasesleep ;;
  zoom bc_lockL lk_acquire ;;
  b ← nth_buf i;
  store_buf i (set_refcnt (u32 (refcnt b - 1)) b) ;;
  when (u32 (refcnt b - 1) =? 0) (modify (fun s => set_mru (to_front i (mru s)) s)) ;;
  zoom bc_lockL lk_release.

(** Clients read [b->data] and [b->blockno], write [b->data] and set B_DIRTY. *)
Definition buf_data (i : nat) : M (bcache D) bytes := b ← nth_buf i; mret (data b).
Definition buf_put (i : nat) (x : bytes) : M (bcache D) unit :=
  b ← nth_buf i; store_buf i (set_data x b).
Definition buf_blockno (i : nat) : M (bcache D) Z := b ← nth_buf i; mret (blockno b).
Definition buf_dirty (i : nat) : M (bcache D) unit :=
  b ← nth_buf i; store_buf i (set_flags (Z.lor (flags b) B_DIRTY) b).
End Ops.
End Bcache.
