(* ===== verification/BioProps.v ===== *)
(** * The buffer cache keeps its promise

    The cache of bio.c, over any driver, represents an abstract block store:
    what a block is seen to hold survives recycling of buffers, and held or
    pinned blocks are never recycled.  The doubly linked LRU list is shown to
    behave as the list the cache model uses. *)
From S2P Require Import Prelude Bytes Spinlock Sleeplock Bio.

Open Scope Z_scope.
Import Bcache.

Section Rep.
Context {D : Type} `{DD : !DiskDriver D}.
Implicit Types (s : bcache D) (a : cabs) (b : buf).

(** Buffer [b] of slot [i]: never used, or caching the content its block is seen
    to have, marked dirty when the block is pinned, locked when it is held. *)
Definition empty_slot b : Prop := dev b = 0 /\ flags b = 0 /\ refcnt b = 0 /\ sl_locked (lock b) = 0.
Definition full_slot (pid : Z) a (i : nat) b : Prop :=
  dev b = 1 /\ in_disk a (blockno b) /\ data b = view a (blockno b) /\
  flags b = (if decide (blockno b ∈ pinned a) then Z.lor B_VALID B_DIRTY else B_VALID) /\
  match held a !! blockno b with
  | Some j => j = i /\ refcnt b = 1 /\ sl_locked (lock b) = 1 /\ sl_pid (lock b) = pid
  | None => refcnt b = 0 /\ sl_locked (lock b) = 0
  end.
Definition slot_ok (pid : Z) a (i : nat) b : Prop :=
  sl_lk (lock b) = false /\ length (data b) = BSIZE /\ (empty_slot b \/ full_slot pid a i b).

Definition in_slot s (i : nat) (n : Z) : Prop :=
  exists b, bufs s !! i = Some b /\ dev b = 1 /\ blockno b = n.

Record rep s a : Prop := {
  r_lock : bc_lock s = false;
  r_len : length (bufs s) = NBUF;
  r_mru : mru s ≡ₚ seq 0 NBUF;
  r_drv : drv_ok (drv s);
  r_size : disk_size (drv s) = dsize a;
  r_writes : writes (drv s) = dwrites a;
  r_disk n : in_disk a n -> medium (drv s) n = ondisk a n;
  r_view n : in_disk a n -> length (view a n) = BSIZE;
  r_slots i b : bufs s !! i = Some b -> slot_ok (me s) a i b;
  r_uniq i j n : in_slot s i n -> in_slot s j n -> i = j;
  r_clean n : in_disk a n -> held a !! n = None -> n ∉ pinned a -> view a n = ondisk a n;
  r_held n i : held a !! n = Some i -> in_slot s i n;
  r_pin n : n ∈ pinned a -> exists i, in_slot s i n
}.

(** [a'] differs from [a] only in what it says of block [n]. *)
Record only_block (n : Z) a a' : Prop := {
  ob_view m : m <> n -> view a' m = view a m;
  ob_disk m : m <> n -> ondisk a' m = ondisk a m;
  ob_held m : m <> n -> held a' !! m = held a !! m;
  ob_pin m : m <> n -> (m ∈ pinned a' <-> m ∈ pinned a);
  ob_size : dsize a' = dsize a
}.

Lemma full_slot_only n pid a a' i b : only_block n a a' -> blockno b <> n ->
  full_slot pid a i b -> full_slot pid a' i b.
Proof.
  intros [O1 O2 O3 O4 O5] Hn (F1 & F2 & F3 & F4 & F5). unfold full_slot, in_disk in *.
  rewrite O5, O1, O3 by done. split_and!; try done; [lia..|].
  rewrite F4. pose proof (O4 _ Hn). repeat case_decide; tauto.
Qed.

(** Replacing the buffer of slot [i] by one that caches block [n]. *)
Lemma rep_update s s' a a' i b0 b n :
  rep s a -> bufs s !! i = Some b0 -> bufs s' = <[i := b]> (bufs s) ->
  bc_lock s' = false -> me s' = me s -> mru s' ≡ₚ mru s ->
  drv_ok (drv s') -> disk_size (drv s') = disk_size (drv s) -> writes (drv s') = dwrites a' ->
  (forall m, in_disk a m -> medium (drv s') m = ondisk a' m) ->
  only_block n a a' -> blockno b = n ->
  (forall j, in_slot s j n -> j = i) ->
  (dev b0 = 1 -> blockno b0 <> n -> held a !! blockno b0 = None /\ (blockno b0 ∉ pinned a)) ->
  (held a' !! n = None -> n ∉ pinned a' -> view a' n = ondisk a' n) ->
  sl_lk (lock b) = false -> length (data b) = BSIZE -> full_slot (me s) a' i b ->
  rep s' a'.
Proof.
  intros R Hb0 Hbs Hlk Hme Hmru Hdo Hds Hw Hdisk Ob Hn Huniq Hold Hclean Hsl Hlen Hfull.
  assert (Hi : (i < length (bufs s))%nat) by by apply lookup_lt_Some in Hb0.
  assert (Hin : in_slot s' i n).
  { exists b. rewrite Hbs, list_lookup_insert_eq by done. by destruct Hfull. }
  assert (Hslot : forall j m, in_slot s' j m -> (j = i /\ m = n) \/ (j <> i /\ in_slot s j m)).
  { intros j m (c & Hc & Hc1 & Hcm). destruct (decide (j = i)) as [->|Hj].
    - rewrite Hbs, list_lookup_insert_eq in Hc by done. injection Hc as <-. left. by subst m.
    - rewrite Hbs, list_lookup_insert_ne in Hc by done. right. split; [done|]. by exists c. }
  assert (Hkeep : forall j m, m <> n -> (held a !! m = Some j \/ m ∈ pinned a) -> in_slot s j m -> in_slot s' j m).
  { intros j m Hm Hhp (c & Hc & Hc1 & Hcm). destruct (decide (j = i)) as [->|Hj].
    - rewrite Hb0 in Hc. injection Hc as <-. rewrite Hcm in Hold.
      destruct (Hold Hc1 Hm) as [HA HB]. exfalso. destruct Hhp as [HC|HC]; [congruence|done].
    - exists c. by rewrite Hbs, list_lookup_insert_ne. }
  pose proof Ob as [O1 O2 O3 O4 O5].
  split; unfold in_disk in *; rewrite ?O5; try done.
  - rewrite Hbs, length_insert. apply R.
  - rewrite Hmru. apply R.
  - rewrite Hds. apply R.
  - intros m Hm. destruct (decide (m = n)) as [->|Hmn].
    + destruct Hfull as (_ & _ & HF & _). rewrite <-Hn, <-HF. done.
    + rewrite O1 by done. by apply (r_view _ _ R).
  - intros j c Hc. destruct (decide (j = i)) as [->|Hj].
    + rewrite Hbs, list_lookup_insert_eq in Hc by done. injection Hc as <-. rewrite Hme.
      unfold slot_ok. auto.
    + rewrite Hbs, list_lookup_insert_ne in Hc by done. rewrite Hme.
      destruct (r_slots _ _ R j c Hc) as (S1 & S2 & S3). split; [done|]. split; [done|].
      destruct S3 as [S3|S3]; [by left|right]. eapply full_slot_only; [done| |done].
      intros E. apply Hj, Huniq. exists c. by destruct S3.
  - intros j k m Hj Hk. apply Hslot in Hj as [[-> ->]|[Hj Hj']], Hk as [[-> Hm]|[Hk Hk']]; try done.
    + by destruct Hk; apply Huniq.
    + destruct Hj. subst m. by apply Huniq.
    + by eapply (r_uniq _ _ R).
  - intros m Hm Hh Hp. destruct (decide (m = n)) as [->|Hmn]; [by apply Hclean|].
    rewrite O1, O2 by done. rewrite O3 in Hh by done. rewrite (O4 _ Hmn) in Hp.
    by apply (r_clean _ _ R).
  - intros m j Hh. destruct (decide (m = n)) as [->|Hmn].
    + destruct Hfull as (_ & _ & _ & _ & HF). rewrite Hn, Hh in HF. by destruct HF as [-> _].
    + rewrite O3 in Hh by done. apply Hkeep; [done|by left|]. by apply (r_held _ _ R).
  - intros m Hp. destruct (decide (m = n)) as [->|Hmn]; [by exists i|].
    apply (O4 _ Hmn) in Hp. destruct (r_pin _ _ R m Hp) as [j Hj]. exists j. by apply Hkeep; [|right|].
Qed.

(** The slot of a held block. *)
Lemma held_slot s a n i : rep s a -> held a !! n = Some i ->
  exists b, bufs s !! i = Some b /\ blockno b = n /\ locked_by (me s) b /\ length (data b) = BSIZE /\
    full_slot (me s) a i b /\ refcnt b = 1.
Proof.
  intros R Hh. destruct (r_held _ _ R n i Hh) as (b & Hb & H1 & Hn).
  destruct (r_slots _ _ R i b Hb) as (S1 & S2 & S3). exists b.
  destruct S3 as [[? _]|S3]; [congruence|].
  pose proof S3 as (F1 & F2 & F3 & F4 & F5). rewrite Hn, Hh in F5. destruct F5 as (_ & F5 & F6 & F7).
  unfold locked_by. auto 10.
Qed.

(** ** Running the operations *)
Lemma nth_buf_run k bs l (d : D) pid i b : bs !! i = Some b ->
  nth_buf i (BCache k bs l d pid) = Ok (b, BCache k bs l d pid).
Proof. intros Hb. unfold nth_buf, zoom, get_buf. simpl. by rewrite Hb. Qed.

Lemma store_buf_run k bs l (d : D) pid i b :
  store_buf i b (BCache k bs l d pid) = Ok (tt, BCache k (<[i := b]> bs) l d pid).
Proof. done. Qed.

Lemma acquire_run bs l (d : D) pid :
  zoom bc_lockL lk_acquire (BCache false bs l d pid) = Ok (tt, BCache true bs l d pid).
Proof. done. Qed.

Lemma release_run bs l (d : D) pid :
  zoom bc_lockL lk_release (BCache true bs l d pid) = Ok (tt, BCache false bs l d pid).
Proof. done. Qed.

Lemma buf_lock_acquire k bs l (d : D) pid i b : bs !! i = Some b ->
  sl_lk (lock b) = false -> sl_locked (lock b) = 0 ->
  buf_lock i (acquiresleep pid) (BCache k bs l d pid) =
    Ok (tt, BCache k (<[i := set_lock (SleepLock false 1 pid (sl_woken (lock b))) b]> bs) l d pid).
Proof.
  intros Hb H1 H2. unfold buf_lock, zoom, on_lock. cbn [lget bufsL bufs drv fst]. rewrite Hb.
  destruct b as [f dv n [lk lo p w] r da]; simpl in *. by subst.
Qed.

Lemma buf_lock_holding k bs l (d : D) pid i b : bs !! i = Some b -> locked_by pid b ->
  buf_lock i (holdingsleep pid) (BCache k bs l d pid) = Ok (true, BCache k bs l d pid).
Proof.
  intros Hb Hl. unfold buf_lock, zoom. cbn [lget bufsL bufs drv]. by rewrite (holding_run pid i b).
Qed.

Lemma buf_lock_release k bs l (d : D) pid i b : bs !! i = Some b -> sl_lk (lock b) = false ->
  buf_lock i releasesleep (BCache k bs l d pid) =
    Ok (tt, BCache k (<[i := set_lock (SleepLock false 0 0 (S (sl_woken (lock b)))) b]> bs) l d pid).
Proof.
  intros Hb H1. unfold buf_lock, zoom, on_lock. cbn [lget bufsL bufs drv fst]. rewrite Hb.
  destruct b as [f dv n [lk lo p w] r da]; simpl in *. by subst.
Qed.

(** ** The laws *)
Lemma data_law s a n i : rep s a -> held a !! n = Some i -> buf_data i s = Ok (view a n, s).
Proof.
  intros R Hh. destruct (held_slot _ _ _ _ R Hh) as (b & Hb & Hn & _ & _ & (_ & _ & HF & _) & _).
  destruct s as [k bs l d pid]. unfold buf_data. rewrite (bind_ok _ _ _ _ _ (nth_buf_run _ _ _ _ _ _ _ Hb)).
  by rewrite HF, Hn.
Qed.

Lemma blockno_law s a n i : rep s a -> held a !! n = Some i -> buf_blockno i s = Ok (n, s).
Proof.
  intros R Hh. destruct (held_slot _ _ _ _ R Hh) as (b & Hb & Hn & _).
  destruct s as [k bs l d pid]. unfold buf_blockno. rewrite (bind_ok _ _ _ _ _ (nth_buf_run _ _ _ _ _ _ _ Hb)).
  by rewrite Hn.
Qed.

Lemma disk_set_ne d n x m : m <> n -> disk_set d n x m = d m.
Proof. intros H. unfold disk_set. by rewrite decide_False. Qed.
Lemma disk_set_eq d n x : disk_set d n x n = x.
Proof. unfold disk_set. by rewrite decide_True. Qed.

Lemma put_law s a n i x : rep s a -> held a !! n = Some i -> length x = BSIZE ->
  exists s', buf_put i x s = Ok (tt, s') /\ rep s' (edit n x a).
Proof.
  intros R Hh Hx. destruct (held_slot _ _ _ _ R Hh) as (b & Hb & Hn & Hl & Hlen & HF & Hr).
  destruct s as [k bs l d pid]. unfold buf_put. rewrite (bind_ok _ _ _ _ _ (nth_buf_run _ _ _ _ _ _ _ Hb)).
  rewrite store_buf_run. eexists. split; [reflexivity|].
  apply (rep_update _ _ a _ i b (set_data x b) n R Hb); try done; simpl; try apply R.
  - split; intros; simpl; try done. by apply disk_set_ne.
  - intros j Hj. eapply (r_uniq _ _ R); [done|]. by eapply r_held.
  - intros E1 E2. congruence.
  - apply Hl.
  - destruct HF as (F1 & F2 & F3 & F4 & F5). unfold full_slot, edit. simpl. rewrite Hn, disk_set_eq.
    rewrite Hn in *. auto.
Qed.

Lemma dirty_law s a n i : rep s a -> held a !! n = Some i ->
  exists s', buf_dirty i s = Ok (tt, s') /\ rep s' (pin n a).
Proof.
  intros R Hh. destruct (held_slot _ _ _ _ R Hh) as (b & Hb & Hn & Hl & Hlen & HF & Hr).
  destruct s as [k bs l d pid]. unfold buf_dirty. rewrite (bind_ok _ _ _ _ _ (nth_buf_run _ _ _ _ _ _ _ Hb)).
  rewrite store_buf_run. eexists. split; [reflexivity|].
  apply (rep_update _ _ a _ i b (set_flags (Z.lor (flags b) B_DIRTY) b) n R Hb); try done; simpl; try apply R.
  - split; intros; simpl; try done. set_solver.
  - intros j Hj. eapply (r_uniq _ _ R); [done|]. by eapply r_held.
  - intros E1 E2. congruence.
  - apply Hl.
  - destruct HF as (F1 & F2 & F3 & F4 & F5). unfold full_slot, pin. simpl.
    rewrite (decide_True (P := blockno b ∈ _)) by set_solver. rewrite F4.
    split_and!; try done; try apply F2. by case_decide.
Qed.

Lemma write_law s a n i : rep s a -> held a !! n = Some i ->
  exists s', bwrite i s = Ok (tt, s') /\ rep s' (flush n a).
Proof.
  intros R Hh. destruct (held_slot _ _ _ _ R Hh) as (b & Hb & Hn & Hl & Hlen & HF & Hr).
  pose proof HF as (F1 & F2 & F3 & F4 & F5).
  assert (Hd := r_drv _ _ R). assert (Hsz := r_size _ _ R).
  destruct s as [k bs l d pid]. simpl in *. unfold bwrite. rewrite bind_gets. cbn [me].
  rewrite (bind_ok _ _ _ _ _ (buf_lock_holding _ _ _ _ _ _ _ Hb Hl)). cbn [negb].
  rewrite (bind_ok _ _ _ tt _ eq_refl), (bind_ok _ _ _ _ _ (nth_buf_run _ _ _ _ _ _ _ Hb)).
  rewrite (bind_ok _ _ _ _ _ (store_buf_run _ _ _ _ _ _ _)).
  assert (Hfl : Z.lor (flags b) B_DIRTY = Z.lor B_VALID B_DIRTY) by (rewrite F4; by case_decide).
  rewrite Hfl. set (b1 := set_flags _ b).
  assert (Hi : (i < length bs)%nat) by by apply lookup_lt_Some in Hb.
  destruct (iderw_write pid (<[i := b1]> bs) d i b1) as (d' & Hrun & Hd1 & Hd2 & Hd3 & Hd4);
    try done; [by rewrite list_lookup_insert_eq|by simpl; rewrite Hsz|].
  unfold zoom. cbn [lget bufsL bufs drv]. rewrite Hrun. eexists. split; [reflexivity|].
  cbn [lset bufsL fst snd]. rewrite list_insert_insert_eq.
  apply (rep_update _ _ a _ i b (set_flags B_VALID b) n R Hb); try done; simpl; try apply R.
  - rewrite Hd3. f_equal; [apply R|]. simpl. by rewrite Hn, F3, Hn.
  - intros m Hm. rewrite Hd4 by (by rewrite Hsz). simpl. unfold disk_set. rewrite Hn, F3, Hn.
    destruct (decide (m = n)); [done|]. by apply (r_disk _ _ R).
  - split; intros; simpl; try done; [by apply disk_set_ne|set_solver].
  - intros j Hj. eapply (r_uniq _ _ R); [done|]. by eapply r_held.
  - intros E1 E2. congruence.
  - apply Hl.
  - unfold full_slot, flush. simpl. rewrite decide_False by set_solver. auto.
Qed.

Lemma filter_ne_id (i : nat) (l : list nat) : (i ∉ l) -> filter (fun j => j <> i) l = l.
Proof.
  induction l as [|x l IH]; [done|]. intros [H1 H2]%not_elem_of_cons.
  rewrite filter_cons_True, IH by done. done.
Qed.

Lemma to_front_perm i l : NoDup l -> i ∈ l -> to_front i l ≡ₚ l.
Proof.
  intros Hnd Hi. apply list_elem_of_split in Hi as (l1 & l2 & ->).
  apply NoDup_app in Hnd as (N1 & N2 & N3). apply NoDup_cons in N3 as [N3 N4].
  unfold to_front. rewrite filter_app, filter_cons_False by tauto.
  rewrite !filter_ne_id by set_solver. by rewrite Permutation_middle.
Qed.

Lemma mru_elem s a i b : rep s a -> bufs s !! i = Some b -> i ∈ mru s.
Proof.
  intros R Hb. rewrite (r_mru _ _ R). apply elem_of_seq. apply lookup_lt_Some in Hb.
  rewrite (r_len _ _ R) in Hb. lia.
Qed.
Lemma mru_NoDup s a : rep s a -> NoDup (mru s).
Proof. intros R. rewrite (r_mru _ _ R). apply NoDup_seq. Qed.

Lemma relse_law s a n i : rep s a -> held a !! n = Some i -> (n ∈ pinned a \/ view a n = ondisk a n) ->
  exists s', brelse i s = Ok (tt, s') /\ rep s' (unhold n a).
Proof.
  intros R Hh Hsaved. destruct (held_slot _ _ _ _ R Hh) as (b & Hb & Hn & Hl & Hlen & HF & Hr).
  pose proof HF as (F1 & F2 & F3 & F4 & F5). assert (Hk := r_lock _ _ R).
  pose proof (mru_elem _ _ _ _ R Hb) as Hmi. pose proof (mru_NoDup _ _ R) as Hnd.
  destruct s as [k bs l d pid]. simpl in *. subst k. unfold brelse. rewrite bind_gets. cbn [me].
  rewrite (bind_ok _ _ _ _ _ (buf_lock_holding _ _ _ _ _ _ _ Hb Hl)). cbn [negb].
  rewrite (bind_ok _ _ _ tt _ eq_refl).
  rewrite (bind_ok _ _ _ _ _ (buf_lock_release _ _ _ _ _ _ _ Hb (proj1 Hl))).
  assert (Hi : (i < length bs)%nat) by by apply lookup_lt_Some in Hb.
  set (b1 := set_lock _ b).
  rewrite (bind_ok _ _ _ _ _ (acquire_run _ _ _ _)).
  rewrite (bind_ok _ _ _ b1 _ (nth_buf_run _ _ _ _ _ _ _ (list_lookup_insert_eq _ _ _ Hi))).
  rewrite (bind_ok _ _ _ _ _ (store_buf_run _ _ _ _ _ _ _)), list_insert_insert_eq.
  assert (Hr1 : u32 (refcnt b1 - 1) = 0) by (simpl; by rewrite Hr). rewrite Hr1.
  eexists. split; [reflexivity|].
  apply (rep_update _ _ a _ i b (set_refcnt 0 b1) n R Hb); try done; simpl; try apply R.
  - by apply to_front_perm.
  - split; intros; simpl; try done. by apply lookup_delete_ne.
  - intros j Hj. eapply (r_uniq _ _ R); [done|]. by eapply r_held.
  - intros _ Hp. by destruct Hsaved.
  - unfold full_slot, unhold. simpl. rewrite Hn, lookup_delete_eq. rewrite Hn in *. by split_and!.
Qed.

(** ** Finding a buffer *)
Lemma first_buf_some p bs l i : first_buf p bs l = Some i -> exists b, bs !! i = Some b /\ p b = true.
Proof.
  induction l as [|j l IH]; [done|]. simpl. destruct (bs !! j) as [b|] eqn:Hb; [|done].
  destruct (p b) eqn:Hp; [|done]. intros [= <-]. by exists b.
Qed.
Lemma first_buf_none p bs l i b : first_buf p bs l = None -> i ∈ l -> bs !! i = Some b -> p b = false.
Proof.
  induction l as [|j l IH]; [set_solver|]. simpl. intros Hf Hi Hb.
  apply elem_of_cons in Hi as [->|Hi].
  - rewrite Hb in Hf. by destruct (p b).
  - destruct (bs !! j) as [c|]; [|auto]. destruct (p c); [done|auto].
Qed.

Lemma caches_spec n b : caches 1 n b = true <-> dev b = 1 /\ blockno b = n.
Proof. unfold caches. rewrite andb_true_iff, !Z.eqb_eq. done. Qed.

Lemma hit_slot s a n i : rep s a -> first_buf (caches 1 n) (bufs s) (mru s) = Some i -> in_slot s i n.
Proof. intros R Hf. apply first_buf_some in Hf as (b & Hb & Hp). apply caches_spec in Hp. by exists b. Qed.
Lemma miss_slot s a n j : rep s a -> first_buf (caches 1 n) (bufs s) (mru s) = None -> ~ in_slot s j n.
Proof.
  intros R Hf (b & Hb & Hbn). apply caches_spec in Hbn.
  rewrite (first_buf_none _ _ _ _ _ Hf (mru_elem _ _ _ _ R Hb) Hb) in Hbn. done.
Qed.

(** A buffer that is not free for recycling caches a held or pinned block. *)
Lemma busy_slot s a i b : rep s a -> bufs s !! i = Some b -> unused b = false ->
  in_slot s i (blockno b) /\ blockno b ∈ dom (held a) ∪ pinned a.
Proof.
  intros R Hb Hu. destruct (r_slots _ _ R i b Hb) as (_ & _ & [(E1 & E2 & E3 & E4)|(F1 & F2 & F3 & F4 & F5)]).
  - unfold unused in Hu. by rewrite E2, E3 in Hu.
  - split; [by exists b|]. apply elem_of_union. unfold unused in Hu. rewrite F4 in Hu.
    destruct (held a !! blockno b) eqn:Hh; [left; by apply elem_of_dom_2 in Hh|].
    destruct F5 as [F5 _]. rewrite F5 in Hu. case_decide; [by right|done].
Qed.
Lemma free_slot s a i b : rep s a -> bufs s !! i = Some b -> unused b = true ->
  refcnt b = 0 /\ sl_locked (lock b) = 0 /\
  (dev b = 1 -> held a !! blockno b = None /\ (blockno b ∉ pinned a)).
Proof.
  intros R Hb Hu. unfold unused in Hu. apply andb_true_iff in Hu as [Hu1 Hu2]. apply Z.eqb_eq in Hu1.
  destruct (r_slots _ _ R i b Hb) as (_ & _ & [(E1 & E2 & E3 & E4)|(F1 & F2 & F3 & F4 & F5)]).
  - split_and!; try done. congruence.
  - destruct (held a !! blockno b) eqn:Hh; [lia|]. split_and!; [done|apply F5|].
    intros _. split; [done|]. rewrite F4 in Hu2. by case_decide.
Qed.

(** While there is room, a miss finds a buffer to recycle. *)
Lemma room_free s a n : rep s a -> room a n -> first_buf (caches 1 n) (bufs s) (mru s) = None ->
  exists i b, first_buf unused (bufs s) (reverse (mru s)) = Some i /\ bufs s !! i = Some b /\ unused b = true.
Proof.
  intros R Hroom Hmiss. destruct (first_buf unused (bufs s) (reverse (mru s))) as [i|] eqn:Hf.
  { apply first_buf_some in Hf as Hf'. destruct Hf' as (b & Hb & Hu). by exists i, b. }
  exfalso. assert (Hall : forall i b, bufs s !! i = Some b -> unused b = false).
  { intros i b Hb. eapply first_buf_none; [done| |done]. rewrite elem_of_reverse. by eapply mru_elem. }
  assert (Hnd : NoDup (blockno <$> bufs s)).
  { apply NoDup_alt. intros i j x. rewrite !list_lookup_fmap. intros Hi Hj.
    destruct (bufs s !! i) as [bi|] eqn:Ei; [|done]. destruct (bufs s !! j) as [bj|] eqn:Ej; [|done].
    simpl in *. injection Hi as Hi. injection Hj as Hj.
    apply (r_uniq _ _ R i j x).
    - destruct (busy_slot _ _ _ _ R Ei (Hall _ _ Ei)) as [Hs _]. by rewrite Hi in Hs.
    - destruct (busy_slot _ _ _ _ R Ej (Hall _ _ Ej)) as [Hs _]. by rewrite Hj in Hs. }
  assert (Hsub : list_to_set (blockno <$> bufs s) ⊆@{gset Z} dom (held a) ∪ pinned a).
  { intros x. rewrite elem_of_list_to_set, list_elem_of_fmap. intros (b & -> & Hb).
    apply list_elem_of_lookup in Hb as [i Hi]. exact (proj2 (busy_slot _ _ i b R Hi (Hall _ _ Hi))). }
  assert (Hnin : n ∉@{gset Z} list_to_set (blockno <$> bufs s)).
  { rewrite elem_of_list_to_set, list_elem_of_fmap. intros (b & -> & Hb).
    apply list_elem_of_lookup in Hb as [i Hi].
    exact (miss_slot _ _ _ i R Hmiss (proj1 (busy_slot _ _ i b R Hi (Hall _ _ Hi)))). }
  assert (Hsz : size ({[n]} ∪ list_to_set (blockno <$> bufs s) : gset Z) = S NBUF).
  { rewrite size_union by set_solver. rewrite size_singleton, size_list_to_set by done.
    rewrite length_fmap, (r_len _ _ R). done. }
  assert (size ({[n]} ∪ list_to_set (blockno <$> bufs s) : gset Z) <= size ({[n]} ∪ dom (held a) ∪ pinned a))%nat.
  { apply subseteq_size. set_solver. }
  unfold room in Hroom. lia.
Qed.

Lemma uncached_clean s a n : rep s a -> in_disk a n -> (forall j, ~ in_slot s j n) ->
  held a !! n = None /\ (n ∉ pinned a) /\ view a n = ondisk a n.
Proof.
  intros R Hn Hno. assert (Hh : held a !! n = None).
  { destruct (held a !! n) as [i|] eqn:E; [|done]. destruct (Hno i (r_held _ _ R n i E)). }
  assert (Hp : n ∉ pinned a). { intros Hp. destruct (r_pin _ _ R n Hp) as [i Hi]. by destruct (Hno i). }
  split_and!; try done. by apply (r_clean _ _ R).
Qed.

Lemma hold_only n i a : only_block n a (hold n i a).
Proof. split; intros; simpl; try done. by apply lookup_insert_ne. Qed.

(** bread of a cached block. *)
Lemma read_hit s a n i : rep s a -> in_disk a n -> held a !! n = None ->
  first_buf (caches 1 n) (bufs s) (mru s) = Some i ->
  exists s', bread 1 n s = Ok (i, s') /\ rep s' (hold n i a).
Proof.
  intros R Hn Hh Hf. pose proof (hit_slot _ _ _ _ R Hf) as Hs. destruct (Hs) as (b & Hb & H1 & Hbn).
  destruct (r_slots _ _ R i b Hb) as (S1 & S2 & [[? _]|HF]); [congruence|].
  pose proof HF as (F1 & F2 & F3 & F4 & F5). rewrite Hbn, Hh in F5. destruct F5 as [F5 F6].
  assert (Hk := r_lock _ _ R). destruct s as [k bs l d pid]. simpl in *. subst k.
  assert (Hi : (i < length bs)%nat) by by apply lookup_lt_Some in Hb.
  unfold bread, bget. rewrite (bind_ok (mbind _ _) _ (BCache false bs l d pid) i
    (BCache false (<[i := set_lock (SleepLock false 1 pid (sl_woken (lock b))) (set_refcnt 1 b)]> bs) l d pid)).
  - rewrite (bind_ok _ _ _ _ _ (nth_buf_run _ _ _ _ _ _ _ (list_lookup_insert_eq _ _ _ Hi))).
    rewrite bind_gets. cbn [me flags set_lock set_refcnt].
    assert (Hv : (Z.land (flags b) B_VALID =? 0) = false) by (rewrite F4; by case_decide).
    rewrite Hv. eexists. split; [reflexivity|].
    eapply (rep_update _ _ a _ i b (set_lock _ (set_refcnt 1 b)) n R Hb); try done; simpl; try apply R.
    + apply hold_only.
    + intros j Hj. by eapply (r_uniq _ _ R).
    + by rewrite lookup_insert_eq.
    + unfold full_slot, hold. simpl. rewrite Hbn, lookup_insert_eq. rewrite Hbn in *. by split_and!.
  - rewrite (bind_ok _ _ _ _ _ (acquire_run _ _ _ _)), bind_gets. cbn [bufs mru].
    rewrite Hf, (bind_ok _ _ _ _ _ (nth_buf_run _ _ _ _ _ _ _ Hb)).
    rewrite (bind_ok _ _ _ _ _ (store_buf_run _ _ _ _ _ _ _)).
    assert (Hr1 : u32 (refcnt b + 1) = 1) by by rewrite F5. rewrite Hr1.
    rewrite (bind_ok _ _ _ _ _ (release_run _ _ _ _)), bind_gets. cbn [me].
    rewrite (bind_ok _ _ _ _ _ (buf_lock_acquire _ _ _ _ _ _ (set_refcnt 1 b) (list_lookup_insert_eq _ _ _ Hi) S1 F6)).
    by rewrite list_insert_insert_eq.
Qed.

(** bread of a block that is not cached recycles a buffer and reads the disk. *)
Lemma read_miss s a n i b : rep s a -> in_disk a n ->
  first_buf (caches 1 n) (bufs s) (mru s) = None ->
  first_buf unused (bufs s) (reverse (mru s)) = Some i -> bufs s !! i = Some b -> unused b = true ->
  exists s', bread 1 n s = Ok (i, s') /\ rep s' (hold n i a).
Proof.
  intros R Hn Hmiss Hfree Hb Hu. destruct (free_slot _ _ _ _ R Hb Hu) as (U1 & U2 & U3).
  assert (Hno : forall j, ~ in_slot s j n) by (intros j; by apply (miss_slot _ a)).
  destruct (uncached_clean _ _ _ R Hn Hno) as (Hh & Hp & Hv).
  destruct (r_slots _ _ R i b Hb) as (S1 & S2 & _). assert (Hd := r_drv _ _ R).
  assert (Hk := r_lock _ _ R). assert (Hsz := r_size _ _ R). assert (Hdk := r_disk _ _ R n Hn).
  destruct s as [k bs l d pid]. simpl in *. subst k.
  assert (Hi : (i < length bs)%nat) by by apply lookup_lt_Some in Hb.
  set (b1 := set_refcnt 1 (set_flags 0 (set_blockno n (set_dev 1 b)))).
  set (b2 := set_lock (SleepLock false 1 pid (sl_woken (lock b))) b1).
  assert (Hb2 : <[i := b2]> bs !! i = Some b2) by by apply list_lookup_insert_eq.
  destruct (iderw_read pid (<[i := b2]> bs) d i b2) as (d' & Hrun & D1 & D2 & D3 & D4); try done.
  { unfold in_disk in Hn. simpl. by rewrite Hsz. }
  unfold bread, bget. rewrite (bind_ok (mbind _ _) _ (BCache false bs l d pid) i (BCache false (<[i := b2]> bs) l d pid)).
  - rewrite (bind_ok _ _ _ _ _ (nth_buf_run _ _ _ _ _ _ _ Hb2)), bind_gets. cbn [me].
    change (Z.land (flags b2) B_VALID =? 0) with true. cbn [when].
    rewrite (bind_ok _ _ _ tt (BCache false (<[i := set_flags B_VALID (set_data (medium d n) b2)]> bs) l d' pid)).
    2:{ unfold zoom. cbn [lget bufsL bufs drv]. rewrite Hrun. cbn [lset bufsL fst snd].
        by rewrite list_insert_insert_eq. }
    eexists. split; [reflexivity|].
    eapply (rep_update _ _ a _ i b (set_flags B_VALID (set_data (medium d n) b2)) n R Hb); try done; simpl; try apply R.
    + rewrite D3. apply R.
    + intros m Hm. rewrite D4. by apply (r_disk _ _ R).
    + apply hold_only.
    + intros j Hj. by destruct (Hno j).
    + intros E1 _. by apply U3.
    + rewrite Hdk, <-Hv. by apply (r_view _ _ R).
    + unfold full_slot, hold. simpl. rewrite lookup_insert_eq, decide_False by done.
      rewrite Hdk, <-Hv. by split_and!.
  - rewrite (bind_ok _ _ _ _ _ (acquire_run _ _ _ _)), bind_gets. cbn [bufs mru].
    rewrite Hmiss, bind_gets. cbn [bufs mru]. rewrite Hfree.
    rewrite (bind_ok _ _ _ _ _ (nth_buf_run _ _ _ _ _ _ _ Hb)).
    rewrite (bind_ok _ _ _ _ _ (store_buf_run _ _ _ _ _ _ _)).
    rewrite (bind_ok _ _ _ _ _ (release_run _ _ _ _)), bind_gets. cbn [me].
    rewrite (bind_ok _ _ _ _ _ (buf_lock_acquire _ _ _ _ _ _ b1 (list_lookup_insert_eq _ _ _ Hi) S1 U2)).
    by rewrite list_insert_insert_eq.
Qed.

Lemma read_law s a n : rep s a -> in_disk a n -> held a !! n = None -> room a n ->
  exists i s', bread 1 n s = Ok (i, s') /\ rep s' (hold n i a).
Proof.
  intros R Hn Hh Hroom. destruct (first_buf (caches 1 n) (bufs s) (mru s)) as [i|] eqn:Hf.
  - exists i. by apply read_hit.
  - destruct (room_free _ _ _ R Hroom Hf) as (i & b & Hfree & Hb & Hu). exists i. by eapply read_miss.
Qed.

(** The cache as it starts. *)
Definition boot_abs (d : D) : cabs := CAbs (medium d) (medium d) ∅ ∅ (writes d) (disk_size d).

Lemma binit_rep d pid : drv_ok d -> rep (binit d pid) (boot_abs d).
Proof.
  intros Hd. assert (Hb : forall i b, replicate NBUF no_buf !! i = Some b -> b = no_buf).
  { intros i b Hi. by apply lookup_replicate in Hi as [-> _]. }
  assert (Hno : forall i n, ~ in_slot (binit d pid) i n).
  { intros i n (b & Hi & H1 & _). apply Hb in Hi. by subst b. }
  split; simpl; try done.
  - apply reverse_Permutation.
  - intros n. by apply medium_length.
  - intros i b Hi. apply Hb in Hi as ->. split_and!; try done. by left.
  - intros i j n Hi. by destruct (Hno i n).
Qed.

#[export] Program Instance bcache_impl : BufCache (bcache D) := {
  brep := rep; Bio.bread := bread; Bio.bwrite := bwrite; Bio.brelse := brelse;
  Bio.buf_data := buf_data; Bio.buf_put := buf_put; Bio.buf_blockno := buf_blockno;
  Bio.buf_dirty := buf_dirty
}.
Next Obligation.
  intros s a n R Hn. split; [by apply (r_view _ _ R)|]. rewrite <-(r_disk _ _ R n Hn).
  apply medium_length; [apply R|]. rewrite (r_size _ _ R). apply Hn.
Qed.
Next Obligation. intros s a n R. apply (r_clean _ _ R). Qed.
Next Obligation. exact read_law. Qed.
Next Obligation. exact write_law. Qed.
Next Obligation. exact relse_law. Qed.
Next Obligation. exact data_law. Qed.
Next Obligation. exact put_law. Qed.
Next Obligation. exact blockno_law. Qed.
Next Obligation. exact dirty_law. Qed.

(** ** Clients

    What code does with blocks: read one in, change the bytes of one it holds,
    pin it, write it, let it go; [h] remembers the buffers it was given. *)
Inductive bop := ORead (n : Z) | OEdit (n : Z) (x : bytes) | OPin (n : Z) | OWrite (n : Z) | ORelse (n : Z).

Definition with_handle {A} (h : gmap Z nat) (n : Z) (k : nat -> M (bcache D) A) : M (bcache D) A :=
  match h !! n with Some i => k i | None => undef "no buffer for the block" end.

Fixpoint client (ops : list bop) (h : gmap Z nat) : M (bcache D) (gmap Z nat * list bytes) :=
  match ops with
  | [] => mret (h, [])
  | ORead n :: ops =>
      i ← bread 1 n; x ← buf_data i; r ← client ops (<[n := i]> h); mret (r.1, x :: r.2)
  | OEdit n x :: ops => with_handle h n (fun i => buf_put i x) ;; client ops h
  | OPin n :: ops => with_handle h n buf_dirty ;; client ops h
  | OWrite n :: ops => with_handle h n bwrite ;; client ops h
  | ORelse n :: ops => with_handle h n brelse ;; client ops (delete n h)
  end.

(** The same on the abstract state; [i] is the buffer a read is given. *)
Definition aop (i : nat) (o : bop) (a : cabs) : cabs :=
  match o with
  | ORead n => hold n i a
  | OEdit n x => edit n x a
  | OPin n => pin n a
  | OWrite n => flush n a
  | ORelse n => unhold n a
  end.
Definition areads (o : bop) (a : cabs) : list bytes := match o with ORead n => [view a n] | _ => [] end.

(** The discipline: reads find room and do not take a block twice, the rest is
    done with blocks that are held, and a change is saved before release. *)
Definition allowed (o : bop) (a : cabs) : Prop :=
  match o with
  | ORead n => in_disk a n /\ held a !! n = None /\ room a n
  | OEdit n x => n ∈ dom (held a) /\ length x = BSIZE
  | OPin n | OWrite n => n ∈ dom (held a)
  | ORelse n => n ∈ dom (held a) /\ (n ∈ pinned a \/ view a n = ondisk a n)
  end.

Fixpoint aclient (hs : list nat) (ops : list bop) (a : cabs) : cabs * list bytes :=
  match hs, ops with
  | i :: hs, o :: ops => let r := aclient hs ops (aop i o a) in (r.1, areads o a ++ r.2)
  | _, _ => (a, [])
  end.
Fixpoint disciplined (ops : list bop) (a : cabs) : Prop :=
  match ops with
  | [] => True
  | o :: ops => allowed o a /\ forall i, disciplined ops (aop i o a)
  end.

(** An operation on a held buffer is one step of the client. *)
Lemma client_step s a n (k : nat -> M (bcache D) unit) {A} (f : unit -> M (bcache D) A) (a' : cabs) :
  rep s a -> n ∈ dom (held a) ->
  (forall i, held a !! n = Some i -> exists s', k i s = Ok (tt, s') /\ rep s' a') ->
  exists s', rep s' a' /\ mbind f (with_handle (held a) n k) s = f tt s'.
Proof.
  intros R Hn Hk. apply elem_of_dom in Hn as [i Hi]. destruct (Hk i Hi) as (s' & Hs & R').
  exists s'. split; [done|]. unfold with_handle. rewrite Hi. by apply bind_ok.
Qed.

Lemma client_run ops : forall s a, rep s a -> disciplined ops a ->
  exists hs s', client ops (held a) s = Ok ((held (aclient hs ops a).1, (aclient hs ops a).2), s') /\
    rep s' (aclient hs ops a).1 /\ length hs = length ops.
Proof.
  induction ops as [|o ops IH]; intros s a R Hd.
  { exists [], s. by split_and!. }
  destruct Hd as [Ho Hd].
  destruct o as [n|n x|n|n|n]; simpl in Ho.
  - destruct Ho as (H1 & H2 & H3). destruct (read_law s a n R H1 H2 H3) as (i & s1 & Hrun & R1).
    destruct (IH s1 _ R1 (Hd i)) as (hs & s2 & Hc & R2 & Hlen). exists (i :: hs), s2.
    simpl. rewrite (bind_ok _ _ _ _ _ Hrun).
    rewrite (bind_ok _ _ _ _ _ (data_law s1 _ n i R1 (lookup_insert_eq _ _ _))).
    simpl in Hc. rewrite (bind_ok _ _ _ _ _ Hc). by rewrite Hlen.
  - destruct Ho as [H1 H2]. destruct (client_step s a n (fun i => buf_put i x) (fun _ => client ops (held a)) (edit n x a) R H1)
      as (s1 & R1 & Hs); [intros; by apply put_law|].
    destruct (IH s1 _ R1 (Hd 0%nat)) as (hs & s2 & Hc & R2 & Hlen). exists (0%nat :: hs), s2.
    simpl. rewrite Hs. by rewrite Hlen.
  - destruct (client_step s a n buf_dirty (fun _ => client ops (held a)) (pin n a) R Ho)
      as (s1 & R1 & Hs); [intros; by apply dirty_law|].
    destruct (IH s1 _ R1 (Hd 0%nat)) as (hs & s2 & Hc & R2 & Hlen). exists (0%nat :: hs), s2.
    simpl. rewrite Hs. by rewrite Hlen.
  - destruct (client_step s a n bwrite (fun _ => client ops (held a)) (flush n a) R Ho)
      as (s1 & R1 & Hs); [intros; by apply write_law|].
    destruct (IH s1 _ R1 (Hd 0%nat)) as (hs & s2 & Hc & R2 & Hlen). exists (0%nat :: hs), s2.
    simpl. rewrite Hs. by rewrite Hlen.
  - destruct Ho as [H1 H2]. destruct (client_step s a n brelse (fun _ => client ops (delete n (held a))) (unhold n a) R H1)
      as (s1 & R1 & Hs); [intros; by apply relse_law|].
    destruct (IH s1 _ R1 (Hd 0%nat)) as (hs & s2 & Hc & R2 & Hlen). exists (0%nat :: hs), s2.
    simpl. rewrite Hs. by rewrite Hlen.
Qed.

Lemma aclient_size hs : forall ops a, dsize (aclient hs ops a).1 = dsize a.
Proof.
  induction hs as [|i hs IH]; intros [|o ops] a; try done. simpl. rewrite IH. by destruct o.
Qed.
End Rep.

(** C3: the buffer cache is a faithful window on the disk.  From a freshly
    initialised cache, over any driver, every disciplined sequence of reads,
    edits, pins, writes and releases runs without panicking or waiting; each
    read returns what the block was last seen to hold, whichever buffers were
    recycled in between, and the disk receives exactly the blocks written, in
    order. *)
Theorem bcache_coherent {D} {DD : DiskDriver D} (d : D) (pid : Z) (ops : list bop) :
  drv_ok d -> disciplined ops (boot_abs d) ->
  exists (hs : list nat) (s' : bcache D) (h : gmap Z nat),
    let r := aclient hs ops (boot_abs d) in
    length hs = length ops /\
    client ops ∅ (binit d pid) = Ok ((h, r.2), s') /\
    writes (drv s') = dwrites r.1 /\
    (forall n, 0 <= n < disk_size d -> medium (drv s') n = ondisk r.1 n).
Proof.
  intros Hd Hops. destruct (client_run ops _ _ (binit_rep d pid Hd) Hops) as (hs & s' & Hc & R & Hlen).
  exists hs, s', (held (aclient hs ops (boot_abs d)).1). cbn zeta.
  split; [done|]. split; [exact Hc|]. split; [apply R|].
  intros n Hn. apply (r_disk _ _ R). unfold in_disk. by rewrite aclient_size.
Qed.

Definition ex_disk : Memide.memdisk := Memide.ideinit ∅ (40 * 512).

Lemma bcache_coherent_witness :
  exists hs s' h,
    let r := aclient hs [ORead 3; OEdit 3 (replicate BSIZE 7); OWrite 3; ORelse 3; ORead 3] (boot_abs ex_disk) in
    client [ORead 3; OEdit 3 (replicate BSIZE 7); OWrite 3; ORelse 3; ORead 3] ∅ (binit ex_disk 1) = Ok ((h, r.2), s').
Proof.
  destruct (bcache_coherent ex_disk 1
    [ORead 3; OEdit 3 (replicate BSIZE 7); OWrite 3; ORelse 3; ORead 3]) as (hs & s' & h & _ & Hc & _).
  - intros n Hn. reflexivity.
  - cbn [disciplined allowed aop].
    split; [split; [|split]; [vm_compute; intuition congruence|reflexivity|vm_compute; lia]|intros i1].
    split; [split; [apply elem_of_dom; by exists i1|reflexivity]|intros i2].
    split; [apply elem_of_dom; by exists i1|intros i3].
    split; [split; [apply elem_of_dom; by exists i1|right; reflexivity]|intros i4].
    split; [split; [|split]; [vm_compute; intuition congruence|reflexivity|vm_compute; lia]|done].
  - exists hs, s', h. exact Hc.
Defined.

(** ** The LRU links

    The cache threads its buffers on a doubly linked ring through [head]; the
    model above uses the list of buffers between [head.next] and [head.prev]. *)
Record links := Links { lnext : nat -> nat; lprev : nat -> nat }.

(** [bcache.head] is none of the buffers. *)
Definition head : nat := NBUF.
Lemma head_NBUF : head = NBUF.
Proof. reflexivity. Qed.
#[global] Opaque head.

Definition fset (f : nat -> nat) (x y : nat) : nat -> nat := fun z => if decide (z = x) then y else f z.
Definition set_next (x y : nat) (k : links) : links := Links (fset (lnext k) x y) (lprev k).
Definition set_prev (x y : nat) (k : links) : links := Links (lnext k) (fset (lprev k) x y).

(** The last four assignments of brelse, and those of the loop in binit. *)
Definition push_front (b : nat) (k : links) : links :=
  let k := set_next b (lnext k head) k in
  let k := set_prev b head k in
  let k := set_prev (lnext k head) b k in
  set_next head b k.
Definition unlink (b : nat) (k : links) : links :=
  let k := set_prev (lnext k b) (lprev k b) k in
  set_next (lprev k b) (lnext k b) k.
Definition brelse_links (b : nat) (k : links) : links := push_front b (unlink b k).
Definition binit_links (k : links) : links :=
  foldl (fun k b => push_front b k) (set_next head head (set_prev head head k)) (seq 0 NBUF).

(** The two loops of bget visit the buffers from a link up to [head]. *)
Fixpoint visit (link : nat -> nat) (fuel : nat) (b : nat) : list nat :=
  match fuel with
  | O => []
  | S fuel => if decide (b = head) then [] else b :: visit link fuel (link b)
  end.

(** Going forward from [x] one meets [l], then [y]; and back again. *)
Fixpoint chain (k : links) (x : nat) (l : list nat) (y : nat) : Prop :=
  match l with
  | [] => lnext k x = y /\ lprev k y = x
  | z :: l => lnext k x = z /\ lprev k z = x /\ chain k z l y
  end.
Definition ring (k : links) (l : list nat) : Prop := chain k head l head /\ NoDup (head :: l).

Lemma chain_ext k k' l : forall x y,
  (forall u, u ∈ x :: l -> lnext k' u = lnext k u) -> (forall u, u ∈ l ++ [y] -> lprev k' u = lprev k u) ->
  chain k x l y -> chain k' x l y.
Proof.
  induction l as [|z l IH]; intros x y Hn Hp; simpl.
  - rewrite Hn, Hp by set_solver. done.
  - intros (H1 & H2 & H3). rewrite Hn, Hp by set_solver. split_and!; try done.
    apply IH; [| |done]; intros u Hu; [apply Hn|apply Hp]; set_solver.
Qed.

Lemma chain_app k l1 z l2 y : forall x, chain k x (l1 ++ z :: l2) y <-> chain k x l1 z /\ chain k z l2 y.
Proof. induction l1 as [|w l1 IH]; intros x; simpl; [tauto|]. rewrite IH. tauto. Qed.

Lemma chain_next k x l y : chain k x l y -> lnext k x ∈ l ++ [y].
Proof. destruct l as [|z l]; simpl; intros H; destruct H as [-> _]; set_solver. Qed.
Lemma chain_prev k l y : forall x, chain k x l y -> lprev k y ∈ x :: l.
Proof.
  induction l as [|z l IH]; intros x; simpl; [intros [_ ->]; set_solver|].
  intros (_ & _ & H). apply IH in H. set_solver.
Qed.

Lemma unlink_chain k b l2 y l1 : forall x,
  chain k x l1 b -> chain k b l2 y -> NoDup (l1 ++ b :: l2) ->
  (x ∉ l1 ++ b :: l2) -> (y ∉ l1 ++ b :: l2) -> chain (unlink b k) x (l1 ++ l2) y.
Proof.
  induction l1 as [|w l1 IH]; intros x H1 H2 Hnd Hx Hy.
  - destruct H1 as [Hxb Hbx]. simpl in Hnd. apply NoDup_cons in Hnd as [Hb Hnd].
    destruct l2 as [|z l2]; simpl in H2 |- *; unfold fset.
    + destruct H2 as [-> H2]. rewrite (decide_False (P := b = y)) by set_solver. rewrite Hbx.
      by rewrite !decide_True.
    + destruct H2 as (Hz & Hzb & H2). apply NoDup_cons in Hnd as [Hzl Hnd]. rewrite Hz.
      rewrite (decide_False (P := b = z)) by set_solver. rewrite Hbx, !decide_True by done.
      split_and!; [done..|]. eapply chain_ext; [| |exact H2]; intros u Hu; simpl; unfold fset; rewrite Hz.
      * rewrite (decide_False (P := b = z)), Hbx by set_solver. rewrite decide_False; [done|]. set_solver.
      * rewrite decide_False; [done|]. set_solver.
  - destruct H1 as (Hw & Hwx & H1). pose proof (chain_prev _ _ _ _ H1) as Hp.
    pose proof (chain_next _ _ _ _ H2) as Hq. simpl in Hnd. apply NoDup_cons in Hnd as [Hwn Hnd].
    assert (Hwq : w <> lnext k b) by (clear IH H1 H2; set_solver).
    assert (Hbq : b <> lnext k b).
    { apply NoDup_app in Hnd as (_ & _ & Hnd). apply NoDup_cons in Hnd as [Hbl _]. intros E.
      rewrite <-E in Hq. apply elem_of_app in Hq as [Hq|Hq]; [done|].
      apply list_elem_of_singleton in Hq. subst y. apply Hy. simpl. rewrite elem_of_cons, elem_of_app, elem_of_cons. auto. }
    assert (Hxp : x <> lprev k b).
    { intros E. rewrite <-E in Hp. apply Hx, elem_of_app. by left. }
    assert (Hx' : w ∉ l1 ++ b :: l2) by done.
    assert (Hy' : y ∉ l1 ++ b :: l2) by (intros E; apply Hy; by right).
    specialize (IH w H1 H2 Hnd Hx' Hy').
    simpl. unfold fset. rewrite (decide_False (P := b = lnext k b)), decide_False by done.
    by rewrite decide_False by done.
Qed.

Lemma push_front_ring k b l : ring k l -> (b ∉ head :: l) -> ring (push_front b k) (b :: l).
Proof.
  intros [Hc Hnd] Hb. apply NoDup_cons in Hnd as Hnd'. destruct Hnd' as [Hh Hnd'].
  split; [|constructor; [set_solver|constructor; [set_solver|done]]].
  pose proof (chain_next _ _ _ _ Hc) as Hq.
  assert (Hbq : b <> lnext k head) by set_solver.
  unfold push_front. simpl. unfold fset.
  rewrite (decide_False (P := head = b)) by set_solver.
  rewrite (decide_True (P := head = head)) by done.
  rewrite (decide_False (P := b = lnext k head)), (decide_True (P := b = b)) by done.
  split_and!; [done..|].
  destruct l as [|z l]; simpl in *; unfold fset.
  - destruct Hc as [-> _]. rewrite (decide_False (P := b = head)) by set_solver. by rewrite !decide_True.
  - destruct Hc as (Hz & Hzh & Hc). rewrite Hz.
    rewrite (decide_False (P := b = head)), (decide_True (P := b = b)) by set_solver.
    split; [done|]. split; [by rewrite decide_True|].
    eapply chain_ext; [| |exact Hc]; intros u Hu; simpl; unfold fset.
    + rewrite !decide_False; set_solver.
    + apply NoDup_cons in Hnd' as [Hzl _]. rewrite !decide_False; set_solver.
Qed.

Lemma unlink_ring k b l : ring k l -> b ∈ l -> ring (unlink b k) (filter (fun j => j <> b) l).
Proof.
  intros [Hc Hnd] Hb. apply NoDup_cons in Hnd as [Hh Hnd].
  apply list_elem_of_split in Hb as (l1 & l2 & ->). apply chain_app in Hc as [H1 H2].
  assert (E : filter (fun j => j <> b) (l1 ++ b :: l2) = l1 ++ l2).
  { apply NoDup_app in Hnd as (N1 & N2 & N3). apply NoDup_cons in N3 as [N3 N4].
    rewrite filter_app, filter_cons_False by tauto. f_equal; apply filter_ne_id; set_solver. }
  rewrite E. split; [by apply unlink_chain|]. rewrite <-E. constructor.
  - rewrite list_elem_of_filter. tauto.
  - by apply NoDup_filter.
Qed.

Lemma visit_next k l : forall x fuel, chain k x l head -> (head ∉ l) -> (length l < fuel)%nat ->
  visit (lnext k) fuel (lnext k x) = l.
Proof.
  induction l as [|z l IH]; intros x [|fuel] Hc Hh Hf; simpl in *; try lia.
  - destruct Hc as [-> _]. by rewrite decide_True.
  - destruct Hc as (-> & _ & Hc). apply not_elem_of_cons in Hh as [Hz Hh].
    rewrite decide_False by done. by rewrite (IH z fuel) by (done || lia).
Qed.

Lemma visit_prev k l : forall y fuel, chain k head l y -> (head ∉ l) -> (length l < fuel)%nat ->
  visit (lprev k) fuel (lprev k y) = reverse l.
Proof.
  induction l as [|z l IH] using rev_ind; intros y [|fuel] Hc Hh Hf; simpl in *; try lia.
  - destruct Hc as [_ ->]. by rewrite decide_True.
  - rewrite length_app in Hf. simpl in Hf. apply chain_app in Hc as [Hc [_ ->]].
    rewrite decide_False by set_solver. rewrite reverse_app. simpl. f_equal. apply IH; [done|set_solver|lia].
Qed.

(** C33: the pointer manipulations of the LRU ring implement the list of the
    cache model.  binit builds the ring of all buffers; the six assignments of
    brelse move a buffer to the front and keep all others in order, in both
    directions; and the two scans of bget, along next and along prev, visit
    exactly that list, from the most and from the least recently used end, and
    stop. *)
Theorem lru_ring_refines_list (k : links) :
  ring (binit_links k) (reverse (seq 0 NBUF)) /\
  (forall k l b, ring k l -> b ∈ l -> ring (brelse_links b k) (to_front b l)) /\
  (forall k l fuel, ring k l -> (length l < fuel)%nat ->
     visit (lnext k) fuel (lnext k head) = l /\ visit (lprev k) fuel (lprev k head) = reverse l).
Proof.
  split_and!.
  - unfold binit_links.
    assert (H : forall n m k l, ring k l -> (forall x, x ∈ l -> (x < m)%nat) -> (m + n = NBUF)%nat ->
      ring (foldl (fun k b => push_front b k) k (seq m n)) (reverse (seq m n) ++ l)).
    { induction n as [|n IH]; intros m k' l Hr Hl Hm; [done|]. simpl. rewrite reverse_cons, <-(assoc_L app).
      apply IH; [|intros x [->|Hx]%elem_of_cons; [lia|by apply Hl in Hx; lia]|lia].
      apply push_front_ring; [done|]. intros [E|Hx]%elem_of_cons; [|by apply Hl in Hx; lia].
      rewrite head_NBUF in E. lia. }
    rewrite <-(app_nil_r (reverse (seq 0 NBUF))). apply H; [|set_solver|done].
    split; [simpl; unfold fset; by rewrite decide_True|]. apply NoDup_singleton.
  - intros k' l b Hr Hb. apply push_front_ring; [by apply unlink_ring|].
    destruct Hr as [_ Hnd]. apply NoDup_cons in Hnd as [Hh _].
    intros [->|Hx]%elem_of_cons; [done|]. by apply list_elem_of_filter in Hx as [? _].
  - intros k' l fuel [Hc Hnd] Hf. apply NoDup_cons in Hnd as [Hh _].
    split; [by apply visit_next|by apply visit_prev].
Qed.

Lemma lru_ring_refines_list_witness :
  visit (lprev (brelse_links 7 (binit_links (Links id id)))) 40
    (lprev (brelse_links 7 (binit_links (Links id id))) head) = reverse (to_front 7 (reverse (seq 0 NBUF))).
Proof.
  destruct (lru_ring_refines_list (Links id id)) as (H1 & H2 & H3).
  apply H3; [|vm_compute; lia]. apply H2; [exact H1|]. apply elem_of_reverse, elem_of_seq. vm_compute. lia.
Defined.
