(* ===== verification/Ide.v ===== *)
(** * The IDE disk driver (ide.c)

    The driver's queue and the register writes of a request, over a disk
    controller that behaves as the ATA standard documents.  The driver provides
    [DiskDriver], the interface the buffer cache is proved against. *)
From S2P Require Import Prelude Bytes Spinlock Sleeplock Bio BioProps.

Open Scope Z_scope.

Definition IDE_BSY : Z := 0x80.
Definition IDE_DRDY : Z := 0x40.
Definition IDE_DF : Z := 0x20.
Definition IDE_ERR : Z := 0x01.
Definition IDE_CMD_READ : Z := 0x20.
Definition IDE_CMD_WRITE : Z := 0x30.
Definition FSSIZE : Z := 1000.

(** ** The controller

    Programmed I/O of one sector in LBA addressing: the sector count, the four
    address registers (the last with the drive in bit 4 and the top address bits)
    and then the command.  [sectors] is the content of the drives. *)
Definition lba_regs (drive lba : Z) : list (Z * Z) :=
  [(0x1f2, 1); (0x1f3, Z.land lba 0xff); (0x1f4, Z.land (Z.shiftr lba 8) 0xff);
   (0x1f5, Z.land (Z.shiftr lba 16) 0xff);
   (0x1f6, Z.lor (Z.lor 0xe0 (Z.shiftl drive 4)) (Z.land (Z.shiftr lba 24) 0x0f))].

Class IdeHw (H : Type) := {
  hw_outb : Z -> Z -> H -> H;
  hw_inb : Z -> H -> Z * H;
  hw_outsl : Z -> bytes -> H -> H;
  hw_insl : Z -> nat -> H -> bytes * H;
  sectors : H -> Z -> Z -> bytes;
  hw_ready : H -> Prop;
  hw_reading : H -> Z -> Z -> Prop;
  hw_delay : H -> nat;
  sector_length h drive lba : hw_ready h -> length (sectors h drive lba) = BSIZE;
  (** the status shows ready after at most [hw_delay] reads that show busy *)
  ready_status h : hw_ready h ->
    exists r h', hw_inb 0x1f7 h = (r, h') /\ hw_ready h' /\ sectors h' = sectors h /\
      (Z.land r (Z.lor IDE_BSY IDE_DRDY) = IDE_DRDY \/ (hw_delay h' < hw_delay h)%nat);
  (** the device control register: interrupts stay on *)
  control_reg h : hw_ready h -> hw_ready (hw_outb 0x3f6 0 h) /\ sectors (hw_outb 0x3f6 0 h) = sectors h;
  read_command h drive lba : hw_ready h -> drive = 0 \/ drive = 1 -> 0 <= lba < 268435456 ->
    let h' := foldl (fun h r => hw_outb r.1 r.2 h) h (lba_regs drive lba ++ [(0x1f7, IDE_CMD_READ)]) in
    hw_reading h' drive lba /\ sectors h' = sectors h;
  reading_status h drive lba : hw_reading h drive lba ->
    exists r h', hw_inb 0x1f7 h = (r, h') /\ hw_reading h' drive lba /\ sectors h' = sectors h /\
      ((Z.land r (Z.lor IDE_BSY IDE_DRDY) = IDE_DRDY /\ Z.land r (Z.lor IDE_DF IDE_ERR) = 0) \/
       (Z.land r (Z.lor IDE_BSY IDE_DRDY) <> IDE_DRDY /\ (hw_delay h' < hw_delay h)%nat));
  read_data h drive lba : hw_reading h drive lba ->
    exists h', hw_insl 0x1f0 BSIZE h = (sectors h drive lba, h') /\ hw_ready h' /\ sectors h' = sectors h;
  write_command h drive lba x : hw_ready h -> drive = 0 \/ drive = 1 -> 0 <= lba < 268435456 -> length x = BSIZE ->
    let h' := hw_outsl 0x1f0 x
      (foldl (fun h r => hw_outb r.1 r.2 h) h (lba_regs drive lba ++ [(0x1f7, IDE_CMD_WRITE)])) in
    hw_ready h' /\
    forall d n, sectors h' d n = if decide (d = drive /\ n = lba) then x else sectors h d n
}.

(** ** The driver

    [ide_writes] records the writes started, in order, and [ide_woken] the
    buffers whose sleepers were woken; no code reads them. *)
Record ide (H : Type) := Ide {
  ide_lock : bool; idequeue : list nat; havedisk1 : Z; hw : H;
  ide_writes : list (Z * bytes); ide_woken : list nat }.
Arguments Ide {H} _ _ _ _ _ _.
Arguments ide_lock {H} _.
Arguments idequeue {H} _.
Arguments havedisk1 {H} _.
Arguments hw {H} _.
Arguments ide_writes {H} _.
Arguments ide_woken {H} _.

Section Driver.
Context {H : Type} `{HW : !IdeHw H}.
Abbreviation St := (list buf * ide H)%type.

Definition ide_lockL : lens (ide H) bool := Lens ide_lock (fun v d =>
  Ide v (idequeue d) (havedisk1 d) (hw d) (ide_writes d) (ide_woken d)).
Definition hwL : lens (ide H) H := Lens hw (fun v d =>
  Ide (ide_lock d) (idequeue d) (havedisk1 d) v (ide_writes d) (ide_woken d)).
Definition set_queue v (d : ide H) := Ide (ide_lock d) v (havedisk1 d) (hw d) (ide_writes d) (ide_woken d).
Definition set_havedisk1 v (d : ide H) := Ide (ide_lock d) (idequeue d) v (hw d) (ide_writes d) (ide_woken d).
Definition add_write w (d : ide H) := Ide (ide_lock d) (idequeue d) (havedisk1 d) (hw d) (ide_writes d ++ [w]) (ide_woken d).
Definition add_woken i (d : ide H) := Ide (ide_lock d) (idequeue d) (havedisk1 d) (hw d) (ide_writes d) (ide_woken d ++ [i]).
Definition drvL : lens St (ide H) := Lens snd (fun d s => (s.1, d)).

Definition outb (port v : Z) : M (ide H) unit := zoom hwL (modify (hw_outb port v)).
Definition inb (port : Z) : M (ide H) Z := zoom hwL (fun h => Ok (hw_inb port h)).
Definition outsl (port : Z) (x : bytes) : M (ide H) unit := zoom hwL (modify (hw_outsl port x)).
Definition insl (port : Z) (n : nat) : M (ide H) bytes := zoom hwL (fun h => Ok (hw_insl port n h)).
Definition ide_acquire : M (ide H) unit := zoom ide_lockL lk_acquire.
Definition ide_release : M (ide H) unit := zoom ide_lockL lk_release.

(** The status is polled until the disk is ready. *)
Fixpoint idewait_loop (fuel : nat) (checkerr : bool) : M (ide H) Z :=
  match fuel with
  | O => hang
  | S fuel =>
      r ← inb 0x1f7;
      if negb (Z.land r (Z.lor IDE_BSY IDE_DRDY) =? IDE_DRDY) then idewait_loop fuel checkerr
      else if checkerr && negb (Z.land r (Z.lor IDE_DF IDE_ERR) =? 0) then mret (-1)
      else mret 0
  end.
Definition idewait (checkerr : bool) : M (ide H) Z :=
  d ← get; idewait_loop (S (hw_delay (hw d))) checkerr.

(** The probe of disk 1: a status other than 0 within a thousand polls. *)
Fixpoint probe (n : nat) : M (ide H) unit :=
  match n with
  | O => mret tt
  | S n => r ← inb 0x1f7; if negb (r =? 0) then modify (set_havedisk1 1) else probe n
  end.
Definition ideinit : M (ide H) unit :=
  modify (lset ide_lockL false) ;;
  idewait false ;;
  outb 0x1f6 (Z.lor 0xe0 (Z.shiftl 1 4)) ;;
  probe 1000 ;;
  outb 0x1f6 (Z.lor 0xe0 (Z.shiftl 0 4)).

(** A block is one sector. *)
Definition idestart (b : option buf) : M (ide H) unit :=
  match b with
  | None => panic "idestart"
  | Some b =>
      (if FSSIZE <=? blockno b then panic "incorrect blockno" else mret tt) ;;
      let sector := blockno b in
      idewait false ;;
      outb 0x3f6 0 ;;
      outb 0x1f2 1 ;;
      outb 0x1f3 (Z.land sector 0xff) ;;
      outb 0x1f4 (Z.land (Z.shiftr sector 8) 0xff) ;;
      outb 0x1f5 (Z.land (Z.shiftr sector 16) 0xff) ;;
      outb 0x1f6 (Z.lor (Z.lor 0xe0 (Z.shiftl (Z.land (dev b) 1) 4)) (Z.land (Z.shiftr sector 24) 0x0f)) ;;
      if truthy (Z.land (flags b) B_DIRTY) then
        outb 0x1f7 IDE_CMD_WRITE ;;
        outsl 0x1f0 (data b) ;;
        modify (add_write (blockno b, data b))
      else outb 0x1f7 IDE_CMD_READ
  end.

Definition on_ide {A} (m : M (ide H) A) : M St A := zoom drvL m.
Definition start_first : M St unit :=
  q ← gets (fun s => idequeue s.2);
  match q with
  | [] => mret tt
  | j :: _ => b ← get_buf j; on_ide (idestart (Some b))
  end.

Definition ideintr : M St unit :=
  on_ide ide_acquire ;;
  q ← gets (fun s => idequeue s.2);
  match q with
  | [] => on_ide ide_release
  | i :: q =>
      on_ide (modify (set_queue q)) ;;
      b ← get_buf i;
      (if negb (truthy (Z.land (flags b) B_DIRTY)) then
         r ← on_ide (idewait true);
         if 0 <=? r then x ← on_ide (insl 0x1f0 BSIZE); put_buf i (set_data x b) else mret tt
       else mret tt) ;;
      b ← get_buf i;
      put_buf i (set_flags (Z.land (Z.lor (flags b) B_VALID) (Z.lnot B_DIRTY)) b) ;;
      on_ide (modify (add_woken i)) ;;
      start_first ;;
      on_ide ide_release
  end.

(** The request is queued, and started if the disk was idle. *)
Definition ide_submit (i : nat) : M St unit :=
  on_ide (modify (fun d => set_queue (idequeue d ++ [i]) d)) ;;
  q ← gets (fun s => idequeue s.2);
  match q with
  | j :: _ => if decide (j = i) then b ← get_buf i; on_ide (idestart (Some b)) else mret tt
  | [] => mret tt
  end.

(** Each sleep on the buffer lasts until the disk interrupts. *)
Definition request_done (b : buf) : bool := Z.land (flags b) (Z.lor B_VALID B_DIRTY) =? B_VALID.
Fixpoint iderw_wait (fuel : nat) (i : nat) : M St unit :=
  b ← get_buf i;
  if request_done b then mret tt
  else
    match fuel with
    | O => hang
    | S fuel =>
        on_ide ide_release ;; ideintr ;; on_ide ide_acquire ;;
        iderw_wait fuel i
    end.

Definition iderw (pid : Z) (i : nat) : M St unit :=
  h ← on_lock i (holdingsleep pid);
  (if (negb h : bool) then panic "iderw: buf not locked" else mret tt) ;;
  b ← get_buf i;
  (if request_done b then panic "iderw: nothing to do" else mret tt) ;;
  d1 ← gets (fun s => havedisk1 s.2);
  (if negb (dev b =? 0) && (d1 =? 0) then panic "iderw: ide disk 1 not present" else mret tt) ;;
  on_ide ide_acquire ;;
  ide_submit i ;;
  n ← gets (fun s => length (idequeue s.2));
  iderw_wait n i ;;
  on_ide ide_release.

(** ** Requests are served *)
Implicit Types d : ide H.

Definition with_hw (h : H) d : ide H := lset hwL h d.
Lemma inb_run port d r h : hw_inb port (hw d) = (r, h) -> inb port d = Ok (r, with_hw h d).
Proof. intros E. unfold inb, zoom. cbn. by rewrite E. Qed.

Lemma idewait_ready d : hw_ready (hw d) ->
  exists r h, idewait false d = Ok (r, with_hw h d) /\ hw_ready h /\ sectors h = sectors (hw d).
Proof.
  unfold idewait. rewrite (bind_ok get _ d d d eq_refl). intros R.
  assert (G : forall n d, (hw_delay (hw d) < n)%nat -> hw_ready (hw d) ->
    exists r h, idewait_loop n false d = Ok (r, with_hw h d) /\ hw_ready h /\ sectors h = sectors (hw d)).
  { clear d R. induction n as [|n IH]; intros d Hn R; [lia|]. cbn [idewait_loop].
    destruct (ready_status (hw d) R) as (r & h & E & R' & Es & Hr). rewrite (bind_ok _ _ _ _ _ (inb_run _ _ _ _ E)).
    destruct (Z.eqb_spec (Z.land r (Z.lor IDE_BSY IDE_DRDY)) IDE_DRDY) as [E1|E1]; cbn [negb andb].
    - by exists 0, h.
    - destruct Hr as [Hr|Hr]; [done|]. destruct (IH (with_hw h d)) as (r' & h' & E' & R2 & Es2); [cbn; lia|done|].
      exists r', h'. rewrite E'. split; [done|]. split; [done|]. by rewrite Es2. }
  apply G; [lia|done].
Qed.

Lemma idewait_reading d drive lba : hw_reading (hw d) drive lba ->
  exists h, idewait true d = Ok (0, with_hw h d) /\ hw_reading h drive lba /\ sectors h = sectors (hw d).
Proof.
  unfold idewait. rewrite (bind_ok get _ d d d eq_refl). intros R.
  assert (G : forall n d, (hw_delay (hw d) < n)%nat -> hw_reading (hw d) drive lba ->
    exists h, idewait_loop n true d = Ok (0, with_hw h d) /\ hw_reading h drive lba /\ sectors h = sectors (hw d)).
  { clear d R. induction n as [|n IH]; intros d Hn R; [lia|]. cbn [idewait_loop].
    destruct (reading_status (hw d) drive lba R) as (r & h & E & R' & Es & Hr). rewrite (bind_ok _ _ _ _ _ (inb_run _ _ _ _ E)).
    destruct (Z.eqb_spec (Z.land r (Z.lor IDE_BSY IDE_DRDY)) IDE_DRDY) as [E1|E1]; cbn [negb].
    - destruct Hr as [[_ ->]|[? _]]; [|done]. by exists h.
    - destruct Hr as [[? _]|[_ Hr]]; [done|]. destruct (IH (with_hw h d)) as (h' & E' & R2 & Es2); [cbn; lia|done|].
      exists h'. rewrite E'. split; [done|]. split; [done|]. by rewrite Es2. }
  apply G; [lia|done].
Qed.

(** The disks' content after a write. *)
Definition put_sector (m : Z -> Z -> bytes) (drive lba : Z) (x : bytes) : Z -> Z -> bytes :=
  fun dr n => if decide (dr = drive /\ n = lba) then x else m dr n.
Definition drive_of (b : buf) : Z := Z.land (dev b) 1.
Definition dirty (b : buf) : bool := truthy (Z.land (flags b) B_DIRTY).

(** A request that can be made, and what serving it does to the disks and to
    the buffer. *)
Definition req_ok (b : buf) : Prop := 0 <= blockno b < FSSIZE /\ length (data b) = BSIZE.
Definition served_disk (m : Z -> Z -> bytes) (b : buf) : Z -> Z -> bytes :=
  if dirty b then put_sector m (drive_of b) (blockno b) (data b) else m.
Definition served_buf (m : Z -> Z -> bytes) (b : buf) : buf :=
  set_flags (Z.land (Z.lor (flags b) B_VALID) (Z.lnot B_DIRTY))
    (if dirty b then b else set_data (m (drive_of b) (blockno b)) b).

(** The disk works on the request of [b]; the disks held [m] before it. *)
Definition started (m : Z -> Z -> bytes) (h : H) (b : buf) : Prop :=
  (forall dr n, sectors h dr n = served_disk m b dr n) /\
  if dirty b then hw_ready h else hw_reading h (drive_of b) (blockno b).

Lemma drive_of_range b : drive_of b = 0 \/ drive_of b = 1.
Proof.
  unfold drive_of. assert (Z.land (dev b) 1 = dev b mod 2) as ->.
  { change (Z.land (dev b) (Z.ones 1) = dev b mod 2 ^ 1). by apply Z.land_ones. }
  pose proof (Z.mod_pos_bound (dev b) 2 ltac:(lia)). lia.
Qed.

Definition logged_write (b : buf) d : ide H := if dirty b then add_write (blockno b, data b) d else d.
Lemma idestart_run d b m : hw_ready (hw d) -> (forall dr n, sectors (hw d) dr n = m dr n) -> req_ok b ->
  exists h, idestart (Some b) d = Ok (tt, logged_write b (with_hw h d)) /\ started m h b.
Proof.
  intros R Em [Hb Hl]. destruct (idewait_ready d R) as (r & h0 & E0 & R0 & Es0). unfold idestart.
  destruct (Z.leb_spec FSSIZE (blockno b)); [lia|]. rewrite (bind_ok _ _ d tt d eq_refl), (bind_ok _ _ _ _ _ E0).
  destruct (control_reg h0 R0) as [R0' Es1]. rewrite <-Es1 in Es0. clear R0 Es1.
  fold (drive_of b). fold (dirty b). unfold started, logged_write, served_disk. destruct (dirty b).
  - destruct (write_command _ (drive_of b) (blockno b) (data b) R0' (drive_of_range b)) as [R1 S1]; [unfold FSSIZE in *; lia|done|].
    eexists. split; [reflexivity|]. split; [|exact R1]. intros dr n. unfold put_sector. rewrite <-Em, <-Es0. exact (S1 dr n).
  - destruct (read_command _ (drive_of b) (blockno b) R0' (drive_of_range b)) as [R1 S1]; [unfold FSSIZE in *; lia|].
    eexists. split; [reflexivity|]. split; [|exact R1]. intros dr n. rewrite <-Em, <-Es0. exact (f_equal (fun f => f dr n) S1).
Qed.

(** The queue is being worked on: its buffers are there, the first request has
    been started and the disks held [m] before it. *)
Record working (bs : list buf) d (m : Z -> Z -> bytes) : Prop := {
  wk_lock : ide_lock d = false;
  wk_nodup : NoDup (idequeue d);
  wk_bufs : Forall (fun i => exists b, bs !! i = Some b /\ req_ok b) (idequeue d);
  wk_first : match idequeue d with
             | [] => hw_ready (hw d) /\ forall dr n, sectors (hw d) dr n = m dr n
             | i :: _ => exists b, bs !! i = Some b /\ started m (hw d) b
             end
}.

(** The transfer of the data of the request that is done. *)
Lemma transfer_run bs d m i b : bs !! i = Some b -> started m (hw d) b ->
  exists h, (if negb (dirty b) then
       r ← on_ide (idewait true);
       if 0 <=? r then x ← on_ide (insl 0x1f0 BSIZE); put_buf i (set_data x b) else mret tt
     else mret tt) (bs, d)
    = Ok (tt, (<[i := if dirty b then b else set_data (m (drive_of b) (blockno b)) b]> bs, with_hw h d)) /\
    hw_ready h /\ forall dr n, sectors h dr n = served_disk m b dr n.
Proof.
  intros Hb [Es R]. unfold served_disk in Es |- *. destruct (dirty b); cbn [negb].
  - exists (hw d). rewrite list_insert_id by done. split; [by destruct d|done].
  - destruct (idewait_reading d _ _ R) as (h0 & E0 & R0 & Es0).
    destruct (read_data h0 _ _ R0) as (h1 & E1 & R1 & Es1). exists h1. split; [|split; [done|]].
    + unfold mbind, M_bind, on_ide, zoom at 1. cbn [drvL lget snd]. rewrite E0. cbn [lset fst].
      change (0 <=? 0) with true. cbn iota. unfold insl, zoom. cbn [hwL drvL lget lset snd fst hw with_hw].
      rewrite E1. unfold put_buf, modify. cbn [fst snd]. rewrite Es0, Es. done.
    + intros dr n. by rewrite Es1, Es0.
Qed.

Definition done_d (i : nat) (q : list nat) d : ide H := add_woken i (set_queue q d).

(** An interrupt finishes the first request and starts the next. *)
Lemma ideintr_serves bs d m i q b : working bs d m -> idequeue d = i :: q -> bs !! i = Some b ->
  exists d', ideintr (bs, d) = Ok (tt, (<[i := served_buf m b]> bs, d')) /\
    working (<[i := served_buf m b]> bs) d' (served_disk m b) /\ idequeue d' = q /\ havedisk1 d' = havedisk1 d /\
    ide_woken d' = ide_woken d ++ [i] /\
    ide_writes d' = ide_writes d ++
      match q with [] => [] | j :: _ => match bs !! j with Some c => if dirty c then [(blockno c, data c)] else [] | None => [] end end.
Proof.
  intros [Wl Wn Wb Wf] Hq Hb. rewrite Hq in Wn, Wb, Wf. destruct Wf as (b' & Hb' & St).
  assert (b' = b) as -> by congruence. clear Hb'. inversion Wn as [|? ? Ni Nq]; subst. inversion Wb as [|? ? _ Fq]; subst.
  set (d1 := set_queue q (lset ide_lockL true d)).
  destruct (transfer_run bs d1 m i b Hb St) as (h & Et & Rh & Eh).
  set (bs' := <[i := served_buf m b]> bs).
  assert (Fq' : Forall (fun j => exists c, bs' !! j = Some c /\ req_ok c) q).
  { rewrite Forall_forall in Fq |- *. intros j Hj. destruct (Fq j Hj) as (c & Hc & Rc). exists c. split; [|done].
    unfold bs'. rewrite list_lookup_insert_ne; [done|]. intros ->. done. }
  set (d2 := add_woken i (with_hw h d1)).
  assert (Erun : ideintr (bs, d) = (start_first ;; on_ide ide_release) (bs', d2)).
  { unfold ideintr. rewrite (bind_ok _ _ _ tt (bs, lset ide_lockL true d)).
    2:{ unfold on_ide, ide_acquire, zoom. cbn [drvL ide_lockL lget snd]. by rewrite Wl. }
    rewrite bind_gets. cbn [snd]. change (idequeue (lset ide_lockL true d)) with (idequeue d). rewrite Hq. cbn iota.
    rewrite (bind_ok (on_ide (modify (set_queue q))) _ (bs, lset ide_lockL true d) tt (bs, d1) eq_refl), (bind_ok _ _ _ _ _ (get_buf_ok bs i b d1 Hb)).
    fold (dirty b). rewrite (bind_ok _ _ _ _ _ Et).
    assert (Hlt : (i < length bs)%nat) by (by eapply lookup_lt_Some).
    set (b1 := if dirty b then b else set_data (m (drive_of b) (blockno b)) b).
    rewrite (bind_ok _ _ _ _ _ (get_buf_ok (<[i := b1]> bs) i b1 (with_hw h d1) ltac:(by rewrite list_lookup_insert_eq))).
    rewrite (bind_ok _ _ _ tt (bs', with_hw h d1)).
    2:{ unfold put_buf, modify. cbn [fst snd]. rewrite list_insert_insert_eq. unfold bs', served_buf, b1. do 4 f_equal. by destruct (dirty b). }
    by rewrite (bind_ok (on_ide (modify (add_woken i))) _ (bs', with_hw h d1) tt (bs', d2) eq_refl). }
  destruct q as [|j q].
  - exists (lset ide_lockL false d2). split_and!; [rewrite Erun; reflexivity| |done..|by rewrite app_nil_r].
    split; [done|constructor|constructor|]. cbn. done.
  - inversion Fq' as [|? ? (c & Hc & Rc) Fq'']; subst.
    assert (Hcj : bs !! j = Some c).
    { unfold bs' in Hc. rewrite list_lookup_insert_ne in Hc; [done|]. intros ->. apply Ni. by left. }
    destruct (idestart_run d2 c (served_disk m b)) as (h2 & E2 & S2); [done|done|done|].
    exists (lset ide_lockL false (logged_write c (with_hw h2 d2))).
    assert (Ew : ide_writes (lset ide_lockL false (logged_write c (with_hw h2 d2))) =
      ide_writes d ++ (if dirty c then [(blockno c, data c)] else [])).
    { unfold logged_write. destruct (dirty c); [done|]. by rewrite app_nil_r. }
    assert (Eq : idequeue (logged_write c (with_hw h2 d2)) = j :: q) by (unfold logged_write; by destruct (dirty c)).
    assert (Eh2 : hw (logged_write c (with_hw h2 d2)) = h2) by (unfold logged_write; by destruct (dirty c)).
    split_and!.
    + rewrite Erun. unfold start_first. rewrite (bind_ok _ _ _ tt (bs', logged_write c (with_hw h2 d2))).
      * unfold on_ide, ide_release, zoom. cbn [drvL ide_lockL lget lset snd fst].
        replace (ide_lock (logged_write c (with_hw h2 d2))) with true by (unfold logged_write; by destruct (dirty c)). done.
      * rewrite bind_gets. cbn [snd]. change (idequeue d2) with (j :: q). cbn iota.
        rewrite (bind_ok _ _ _ _ _ (get_buf_ok bs' j c d2 Hc)). unfold on_ide, zoom. cbn [drvL lget snd]. by rewrite E2.
    + split; cbn [lset ide_lockL ide_lock idequeue hw]; rewrite ?Eq, ?Eh2; [done|done|done|]. by exists c.
    + exact Eq.
    + unfold logged_write. by destruct (dirty c).
    + unfold logged_write. by destruct (dirty c).
    + rewrite Hcj. exact Ew.
Qed.

(** The requests of a queue, served one after the other. *)
Fixpoint serve_all (q : list nat) (bs : list buf) (m : Z -> Z -> bytes) : list buf * (Z -> Z -> bytes) :=
  match q with
  | [] => (bs, m)
  | i :: q =>
      match bs !! i with
      | Some b => serve_all q (<[i := served_buf m b]> bs) (served_disk m b)
      | None => (bs, m)
      end
  end.


(** ** The driver provides the cache's interface *)
Definition ide_idle d : Prop :=
  ide_lock d = false /\ idequeue d = [] /\ havedisk1 d <> 0 /\ hw_ready (hw d).

Lemma served_done m b : flags b = 0 \/ flags b = Z.lor B_VALID B_DIRTY -> request_done (served_buf m b) = true /\ request_done b = false.
Proof. intros Hf. unfold request_done, served_buf, dirty. destruct Hf as [-> | ->]; done. Qed.

Lemma iderw_run pid bs d i b : ide_idle d -> bs !! i = Some b -> locked_by pid b ->
  flags b = 0 \/ flags b = Z.lor B_VALID B_DIRTY -> req_ok b ->
  exists d', iderw pid i (bs, d) = Ok (tt, (<[i := served_buf (sectors (hw d)) b]> bs, d')) /\ ide_idle d' /\
    (forall dr n, sectors (hw d') dr n = served_disk (sectors (hw d)) b dr n) /\
    ide_writes d' = ide_writes d ++ (if dirty b then [(blockno b, data b)] else []).
Proof.
  intros (Il & Iq & Id & Ir) Hb Hl Hf Rb. destruct (served_done (sectors (hw d)) b Hf) as [D1 D0].
  set (d0 := set_queue [i] (lset ide_lockL true d)).
  destruct (idestart_run d0 b (sectors (hw d)) Ir (fun _ _ => eq_refl) Rb) as (h & E1 & S1).
  set (d1 := logged_write b (with_hw h d0)). set (d2 := lset ide_lockL false d1).
  assert (Q1 : idequeue d1 = [i] /\ hw d1 = h /\ ide_lock d1 = true /\ havedisk1 d1 = havedisk1 d)
    by (unfold d1, logged_write; by destruct (dirty b)).
  assert (W : working bs d2 (sectors (hw d))).
  { destruct Q1 as (Q1 & Q2 & Q3 & _). split; cbn [d2 lset ide_lockL ide_lock idequeue hw]; rewrite ?Q1, ?Q2; [done|..].
    - constructor; [apply not_elem_of_nil|constructor].
    - constructor; [by exists b|constructor].
    - by exists b. }
  destruct (ideintr_serves bs d2 _ i [] b W (proj1 Q1) Hb) as (d3 & E3 & W3 & Q3 & K3 & _ & P3).
  assert (Hlt : (i < length bs)%nat) by (by eapply lookup_lt_Some).
  set (bs' := <[i := served_buf (sectors (hw d)) b]> bs) in *.
  assert (E4 : iderw_wait 1 i (bs, d1) = Ok (tt, (bs', lset ide_lockL true d3))).
  { cbn [iderw_wait]. rewrite (bind_ok _ _ _ _ _ (get_buf_ok bs i b d1 Hb)), D0.
    rewrite (bind_ok _ _ _ tt (bs, d2)).
    2:{ unfold on_ide, ide_release, zoom. cbn [drvL ide_lockL lget snd]. by rewrite (proj1 (proj2 (proj2 Q1))). }
    rewrite (bind_ok _ _ _ _ _ E3). rewrite (bind_ok _ _ _ tt (bs', lset ide_lockL true d3)).
    2:{ unfold on_ide, ide_acquire, zoom. cbn [drvL ide_lockL lget snd]. by rewrite (wk_lock _ _ _ W3). }
    rewrite (bind_ok _ _ _ _ _ (get_buf_ok bs' i _ _ (list_lookup_insert_eq bs i _ Hlt))). by rewrite D1. }
  exists d3. split_and!.
  - unfold iderw. rewrite (bind_ok _ _ _ _ _ (holding_run _ _ _ _ d Hb Hl)). cbn [negb].
    rewrite (bind_ok _ _ (bs, d) tt (bs, d) eq_refl), (bind_ok _ _ _ _ _ (get_buf_ok bs i b d Hb)), D0.
    rewrite (bind_ok _ _ (bs, d) tt (bs, d) eq_refl), bind_gets. cbn [snd].
    destruct (Z.eqb_spec (havedisk1 d) 0) as [?|_]; [done|]. rewrite andb_false_r.
    rewrite (bind_ok _ _ (bs, d) tt (bs, d) eq_refl).
    rewrite (bind_ok _ _ _ tt (bs, lset ide_lockL true d)).
    2:{ unfold on_ide, ide_acquire, zoom. cbn [drvL ide_lockL lget snd]. by rewrite Il. }
    rewrite (bind_ok _ _ _ tt (bs, d1)).
    2:{ unfold ide_submit. rewrite (bind_ok _ _ _ tt (bs, d0)).
        - rewrite bind_gets. cbn [snd]. change (idequeue d0) with [i]. cbn iota. rewrite decide_True by done.
          rewrite (bind_ok _ _ _ _ _ (get_buf_ok bs i b d0 Hb)). unfold on_ide, zoom. cbn [drvL lget snd]. by rewrite E1.
        - unfold on_ide, zoom, modify, d0, set_queue. cbn. by rewrite Iq. }
    rewrite bind_gets. cbn [snd]. rewrite (proj1 Q1). change (length [i]) with 1%nat. rewrite (bind_ok _ _ _ _ _ E4).
    unfold on_ide, ide_release, zoom. cbn [drvL ide_lockL lget lset snd fst ide_lock]. do 3 f_equal.
    pose proof (wk_lock _ _ _ W3). destruct d3; cbn in *; by subst.
  - destruct Q1 as (_ & _ & _ & Q4). split; [apply (wk_lock _ _ _ W3)|]. split; [done|]. split.
    + rewrite K3. cbn. by rewrite Q4.
    + pose proof (wk_first _ _ _ W3) as F. rewrite Q3 in F. apply F.
  - pose proof (wk_first _ _ _ W3) as F. rewrite Q3 in F. apply F.
  - rewrite P3, app_nil_r. unfold d2, d1, logged_write. destruct (dirty b); [done|]. by rewrite app_nil_r.
Qed.

#[export] Program Instance ide_driver : DiskDriver (ide H) := {
  iderw := iderw; medium := fun d => sectors (hw d) 1; disk_size := fun _ => FSSIZE;
  writes := ide_writes; drv_ok := ide_idle
}.
Next Obligation. intros d n (_ & _ & _ & R) _. by apply sector_length. Qed.
Next Obligation.
  intros pid bs d i b I Hb Hl Hf H1 Hn Hd. destruct (iderw_run pid bs d i b I Hb Hl (or_introl Hf) (conj Hn Hd)) as (d' & E & I' & S' & W').
  assert (Dr : drive_of b = 1) by (unfold drive_of; by rewrite H1). assert (Di : dirty b = false) by (unfold dirty; by rewrite Hf).
  exists d'. unfold served_buf, served_disk in *. rewrite Di, Hf in *. rewrite Dr in *. split_and!; try done. by rewrite W', app_nil_r.
Qed.
Next Obligation.
  intros pid bs d i b I Hb Hl Hf H1 Hn Hd. destruct (iderw_run pid bs d i b I Hb Hl (or_intror Hf) (conj Hn Hd)) as (d' & E & I' & S' & W').
  assert (Dr : drive_of b = 1) by (unfold drive_of; by rewrite H1). assert (Di : dirty b = true) by (unfold dirty; by rewrite Hf).
  exists d'. unfold served_buf, served_disk in *. rewrite Di, Hf in *. rewrite Dr in *. split_and!; try done.
  intros n _. rewrite S'. unfold put_sector, disk_set. by case_decide as E1; case_decide as E2; naive_solver.
Qed.
End Driver.

(** ** A controller

    A model of the controller with its registers, on which the driver runs. *)
Module Ata.
Inductive mode := Idle | Reading (drive lba : Z) | Writing (drive lba : Z).
Record ata := AtaSt { regs : gmap Z Z; disks : gmap (Z * Z) bytes; md : mode }.

Definition reg (h : ata) (p : Z) : Z := default 0 (regs h !! p).
Definition drive (h : ata) : Z := Z.shiftr (reg h 0x1f6) 4 mod 2.
Definition lba (h : ata) : Z :=
  reg h 0x1f3 + 256 * reg h 0x1f4 + 65536 * reg h 0x1f5 + 16777216 * (reg h 0x1f6 mod 16).
Definition sector (h : ata) (dr n : Z) : bytes := default (replicate BSIZE 0) (disks h !! (dr, n)).

Definition outb (p v : Z) (h : ata) : ata :=
  if p =? 0x1f7 then
    AtaSt (regs h) (disks h) (if v =? IDE_CMD_READ then Reading (drive h) (lba h) else Writing (drive h) (lba h))
  else AtaSt (<[p := v]> (regs h)) (disks h) (md h).
Definition outsl (p : Z) (x : bytes) (h : ata) : ata :=
  match md h with
  | Writing dr n => AtaSt (regs h) (<[(dr, n) := x]> (disks h)) Idle
  | _ => h
  end.
Definition insl (p : Z) (n : nat) (h : ata) : bytes * ata :=
  match md h with
  | Reading dr l => (sector h dr l, AtaSt (regs h) (disks h) Idle)
  | _ => ([], h)
  end.
Definition sized (h : ata) : Prop := forall dr n, length (sector h dr n) = BSIZE.
Definition ready (h : ata) : Prop := md h = Idle /\ sized h.
Definition reading (h : ata) (dr n : Z) : Prop := md h = Reading dr n /\ sized h.

Lemma land_pow z k : 0 <= k -> Z.land z (Z.ones k) = z mod 2 ^ k.
Proof. apply Z.land_ones. Qed.
Lemma lba_bytes n : 0 <= n < 268435456 ->
  Z.land n 0xff + 256 * Z.land (Z.shiftr n 8) 0xff + 65536 * Z.land (Z.shiftr n 16) 0xff
  + 16777216 * (Z.land (Z.shiftr n 24) 0x0f) = n.
Proof.
  intros Hn. change 0xff with (Z.ones 8). change 0x0f with (Z.ones 4). rewrite !land_pow, !Z.shiftr_div_pow2 by lia.
  change (2 ^ 8) with 256. change (2 ^ 16) with 65536. change (2 ^ 24) with 16777216. change (2 ^ 4) with 16.
  Z.div_mod_to_equations. lia.
Qed.

(** The device register: 0xe0, the drive in bit 4 and the top address bits. *)
Lemma device_reg dr t : dr = 0 \/ dr = 1 -> 0 <= t < 16 ->
  Z.shiftr (Z.lor (Z.lor 0xe0 (Z.shiftl dr 4)) t) 4 mod 2 = dr /\ Z.lor (Z.lor 0xe0 (Z.shiftl dr 4)) t mod 16 = t.
Proof.
  intros Hd Ht. assert (t ∈ (Z.of_nat <$> seq 0 16)) as I.
  { apply list_elem_of_fmap. exists (Z.to_nat t). split; [lia|]. apply elem_of_seq. lia. }
  cbn in I. rewrite !elem_of_cons, elem_of_nil in I. destruct Hd as [-> | ->]; naive_solver.
Qed.

Definition program (h : ata) (dr n : Z) : ata := foldl (fun h r => outb r.1 r.2 h) h (lba_regs dr n).
Lemma program_run h dr n : dr = 0 \/ dr = 1 -> 0 <= n < 268435456 ->
  drive (program h dr n) = dr /\ lba (program h dr n) = n /\ disks (program h dr n) = disks h.
Proof.
  intros Hd Hn. set (t := Z.land (Z.shiftr n 24) 0x0f).
  assert (Ht : 0 <= t < 16).
  { unfold t. change 0x0f with (Z.ones 4). rewrite land_pow by lia. apply Z.mod_pos_bound. lia. }
  destruct (device_reg dr t Hd Ht) as [D1 D2].
  assert (R6 : reg (program h dr n) 0x1f6 = Z.lor (Z.lor 0xe0 (Z.shiftl dr 4)) t) by (unfold reg, program; cbn; by simplify_map_eq).
  split_and!; [unfold drive; by rewrite R6| |done]. unfold lba. rewrite R6, D2. etrans; [|exact (lba_bytes n Hn)]. fold t.
  unfold reg, program. cbn. by simplify_map_eq.
Qed.

Lemma command_read g : outb 0x1f7 IDE_CMD_READ g = AtaSt (regs g) (disks g) (Reading (drive g) (lba g)).
Proof. done. Qed.
Lemma command_write g : outb 0x1f7 IDE_CMD_WRITE g = AtaSt (regs g) (disks g) (Writing (drive g) (lba g)).
Proof. done. Qed.
Lemma program_command h dr n c : foldl (fun h r => outb r.1 r.2 h) h (lba_regs dr n ++ [(0x1f7, c)]) = outb 0x1f7 c (program h dr n).
Proof. apply foldl_app. Qed.

#[global] Program Instance ata_hw : IdeHw ata := {
  hw_outb := outb; hw_inb := fun _ h => (IDE_DRDY, h); hw_outsl := outsl; hw_insl := insl;
  sectors := sector; hw_ready := ready; hw_reading := reading; hw_delay := fun _ => 0%nat
}.
Next Obligation. intros h dr n [_ S]. apply S. Qed.
Next Obligation. intros h R. exists IDE_DRDY, h. split_and!; try done. by left. Qed.
Next Obligation. intros h [R S]. split; [split; [exact R|exact S]|done]. Qed.
Next Obligation.
  intros h dr n [_ S] Hd Hn h'. destruct (program_run h dr n Hd Hn) as (D & N & E). unfold h'.
  rewrite program_command, command_read, D, N, E. split; [split; [done|exact S]|done].
Qed.
Next Obligation. intros h dr n R. exists IDE_DRDY, h. split_and!; try done. by left. Qed.
Next Obligation.
  intros h dr n [M S]. unfold insl. rewrite M. eexists. split; [reflexivity|]. done.
Qed.
Next Obligation.
  intros h dr n x [_ S] Hd Hn Hx h'. destruct (program_run h dr n Hd Hn) as (D & N & E). unfold h'.
  rewrite program_command, command_write, D, N, E. unfold outsl. cbn [md regs disks].
  assert (Es : forall d l, sector (AtaSt (regs (program h dr n)) (<[(dr, n) := x]> (disks h)) Idle) d l
    = if decide (d = dr /\ l = n) then x else sector h d l).
  { intros d l. unfold sector. cbn. case_decide as Ed.
    - destruct Ed as [-> ->]. by rewrite lookup_insert_eq.
    - rewrite lookup_insert_ne; [done|]. intros [= <- <-]. by apply Ed. }
  split; [split; [done|]|done]. intros d l. rewrite Es. case_decide; [done|apply S].
Qed.
End Ata.

(** A write of block 5 and a read of block 5 are queued: the read sees the
    write. *)
Definition ex_req (f : Z) (x : bytes) : buf := Buf f 1 5 initsleeplock 1 x.
Definition ex_bufs : list buf := [ex_req (Z.lor B_VALID B_DIRTY) (replicate BSIZE 7); ex_req 0 (replicate BSIZE 0)].
Definition ex_ata : Ata.ata := Ata.AtaSt ∅ ∅ Ata.Idle.
Definition ex_ide (h : Ata.ata) : ide Ata.ata := Ide false [0%nat; 1%nat] 1 h [] [].

