(* ===== verification/Bootmain.v ===== *)
(** * The boot loader (bootmain.c)

    The boot sector reads the kernel, an ELF file that starts at sector 1 of the
    first disk, to the physical addresses its program headers name, and jumps to
    it.  It runs without paging: memory is physical.  The disk is the controller
    that the driver of the kernel is proved against. *)
From S2P Require Import Prelude CString Bytes Spinlock Sleeplock Bio Ide.

Open Scope Z_scope.

Definition SECTSIZE : Z := 512.
Definition ELF_MAGIC : Z := 0x464C457F.
(** Fields of struct elfhdr and struct proghdr (elf.h) in memory. *)
Definition elf_magic (m : mem) (e : Z) : Z := rdw m e.
Definition elf_entry (m : mem) (e : Z) : Z := rdw m (e + 24).
Definition elf_phoff (m : mem) (e : Z) : Z := rdw m (e + 28).
Definition elf_phnum (m : mem) (e : Z) : Z := rdb m (e + 44) + 256 * rdb m (e + 45).
Definition sizeof_proghdr : Z := 32.
Definition ph_off (m : mem) (p : Z) : Z := rdw m (p + 4).
Definition ph_paddr (m : mem) (p : Z) : Z := rdw m (p + 12).
Definition ph_filesz (m : mem) (p : Z) : Z := rdw m (p + 16).
Definition ph_memsz (m : mem) (p : Z) : Z := rdw m (p + 20).

(** The words that rep insl stores. *)
Fixpoint ins_store (m : mem) (a : Z) (l : bytes) : mem :=
  match l with
  | [] => m
  | b :: l => ins_store (wrb m a b) (a + 1) l
  end.

Section Boot.
Context {H : Type} `{HW : !IdeHw H}.
Record bst := Bst { b_ram : mem; b_hw : H }.
Implicit Types s : bst.

Definition outb (port v : Z) : M bst unit := modify (fun s => Bst (b_ram s) (hw_outb port (u8 v) (b_hw s))).
Definition inb (port : Z) : M bst Z := fun s => let '(v, h) := hw_inb port (b_hw s) in Ok (v, Bst (b_ram s) h).
Definition insl (port addr cnt : Z) : M bst unit := fun s =>
  let '(x, h) := hw_insl port (Z.to_nat (4 * cnt)) (b_hw s) in Ok (tt, Bst (ins_store (b_ram s) addr x) h).

(** [while((inb(0x1F7) & 0xC0) != 0x40)] *)
Fixpoint waitdisk_loop (fuel : nat) : M bst unit :=
  match fuel with
  | O => hang
  | S fuel => r ← inb 0x1F7; if negb (Z.land r 0xC0 =? 0x40) then waitdisk_loop fuel else mret tt
  end.
Definition waitdisk : M bst unit := n ← gets (fun s => hw_delay (b_hw s)); waitdisk_loop (S n).

Definition readsect (dst offset : Z) : M bst unit :=
  waitdisk ;;
  outb 0x1F2 1 ;;
  outb 0x1F3 offset ;;
  outb 0x1F4 (Z.shiftr offset 8) ;;
  outb 0x1F5 (Z.shiftr offset 16) ;;
  outb 0x1F6 (Z.lor (Z.shiftr offset 24) 0xE0) ;;
  outb 0x1F7 0x20 ;;
  waitdisk ;;
  insl 0x1F0 dst (SECTSIZE / 4).

(** [for(; pa < epa; pa += SECTSIZE, offset++)] *)
Fixpoint readseg_loop (fuel : nat) (pa epa offset : Z) : M bst unit :=
  match fuel with
  | O => hang
  | S fuel =>
      if pa <? epa then readsect pa offset ;; readseg_loop fuel (u32 (pa + SECTSIZE)) epa (u32 (offset + 1))
      else mret tt
  end.
Definition readseg (pa count offset : Z) : M bst unit :=
  let epa := u32 (pa + count) in
  let pa := u32 (pa - offset mod SECTSIZE) in
  let offset := offset / SECTSIZE + 1 in
  readseg_loop (S (S (Z.to_nat (count / SECTSIZE + 1)))) pa epa offset.

(** [for(; ph < eph; ph++)] *)
Fixpoint load_kernel (n : nat) (ph : Z) : M bst unit :=
  match n with
  | O => mret tt
  | S n =>
      m ← gets b_ram;
      let pa := ph_paddr m ph in
      readseg pa (ph_filesz m ph) (ph_off m ph) ;;
      m ← gets b_ram;
      when (ph_filesz m ph <? ph_memsz m ph)
        (modify (fun s => Bst (stosb (b_ram s) (u32 (pa + ph_filesz m ph)) 0 (Z.to_nat (ph_memsz m ph - ph_filesz m ph))) (b_hw s))) ;;
      load_kernel n (ph + sizeof_proghdr)
  end.

(** The address it jumps to, or [None] when it returns to bootasm.S. *)
Definition elf : Z := 0x10000.
Definition bootmain : M bst (option Z) :=
  readseg elf 4096 0 ;;
  m ← gets b_ram;
  if negb (elf_magic m elf =? ELF_MAGIC) then mret None
  else
    load_kernel (Z.to_nat (elf_phnum m elf)) (u32 (elf + elf_phoff m elf)) ;;
    m ← gets b_ram;
    mret (Some (elf_entry m elf)).
End Boot.
Arguments bst H : clear implicits.
Arguments Bst {H} _ _.
Arguments b_ram {H} _.
Arguments b_hw {H} _.

(** ** Reading from the disk *)

Lemma rdb_ins_store l : forall m a x, rdb (ins_store m a l) x
  = if (a <=? x) && (x <? a + Z.of_nat (length l)) then u8 (getb l (Z.to_nat (x - a))) else rdb m x.
Proof.
  induction l as [|b l IH]; intros m a x; cbn [ins_store length].
  - destruct (Z.leb_spec a x), (Z.ltb_spec x (a + Z.of_nat 0)); cbn; try done; lia.
  - rewrite IH, rdb_wrb. destruct (Z.eqb_spec a x) as [-> | D].
    + rewrite (proj2 (Z.leb_gt (x + 1) x)), (proj2 (Z.leb_le x x)), (proj2 (Z.ltb_lt x (x + Z.of_nat (S (length l))))) by lia. cbn [andb]. by rewrite Z.sub_diag.
    + destruct (Z.leb_spec (a + 1) x), (Z.leb_spec a x), (Z.ltb_spec x (a + 1 + Z.of_nat (length l))), (Z.ltb_spec x (a + Z.of_nat (S (length l))));
        cbn [andb]; try done; try lia. by replace (Z.to_nat (x - a)) with (S (Z.to_nat (x - (a + 1)))) by lia.
Qed.

(** Byte [i] of the file that starts at sector 1. *)
Definition fbyte (c : Z -> Z -> bytes) (i : Z) : Z := u8 (getb (c 0 (i / 512 + 1)) (Z.to_nat (i mod 512))).
Lemma fbyte_range c i : 0 <= fbyte c i < 256.
Proof. apply u8_range. Qed.

(** ** The program headers *)
Abbreviation file := (Z -> Z).
Definition fword (f : file) (o : Z) : Z := f o + 256 * f (o + 1) + 65536 * f (o + 2) + 16777216 * f (o + 3).
Record seg := Seg { g_off : Z; g_pa : Z; g_filesz : Z; g_memsz : Z }.
Definition seg_at (f : file) (p : Z) : seg := Seg (fword f (p + 4)) (fword f (p + 12)) (fword f (p + 16)) (fword f (p + 20)).
Fixpoint segs_at (f : file) (n : nat) (p : Z) : list seg :=
  match n with O => [] | S n => seg_at f p :: segs_at f n (p + 32) end.
Definition phoff (f : file) : Z := fword f 28.
Definition phnum (f : file) : nat := Z.to_nat (f 44 + 256 * f 45).
Definition segments (f : file) : list seg := segs_at f (phnum f) (phoff f).

(** Whole sectors are read: the copy starts up to 511 bytes before the
    segment. *)
Definition pad (g : seg) : Z := g_off g mod 512.
Definition low (g : seg) : Z := g_pa g - pad g.
Definition high (g : seg) : Z := g_pa g + Z.max (g_filesz g) (g_memsz g).
Definition empty (g : seg) : Prop := pad g = 0 /\ g_filesz g = 0 /\ g_memsz g = 0.
(** A segment stays clear of the page of headers and of the end of memory. *)
Definition seg_ok (g : seg) : Prop :=
  empty g \/ (0x11000 <= low g /\ g_pa g + g_filesz g + 512 < 4294967296 /\ g_pa g + g_memsz g < 4294967296).
(** The segments are in increasing order, far enough apart for the padding. *)
Fixpoint ordered (l : list seg) : Prop :=
  match l with
  | [] => True
  | g :: l => Forall (fun g' => empty g' \/ high g <= low g') l /\ ordered l
  end.
(** The bytes of the file, and zeros after them. *)
Definition loaded (f : file) (m : mem) (g : seg) : Prop := forall k, 0 <= k < g_memsz g \/ 0 <= k < g_filesz g ->
  rdb m (g_pa g + k) = if k <? g_filesz g then f (g_off g + k) else 0.
Definition headers (f : file) (m : mem) : Prop := forall i, 0 <= i < 4096 -> rdb m (elf + i) = f i.

Lemma headers_word f m o : headers f m -> 0 <= o -> o + 4 <= 4096 -> rdw m (elf + o) = fword f o.
Proof. intros Hh H1 H2. unfold rdw, fword. rewrite <-!Z.add_assoc, !Hh by lia. done. Qed.

Section BootProps.
Context {H : Type} `{HW : !IdeHw H}.
Implicit Types s : bst H.

Lemma wp_waitdisk (R : H -> Prop) (Q : unit -> bst H -> Prop) s :
  (forall h, R h -> exists r h', hw_inb 0x1F7 h = (r, h') /\ R h' /\ (Z.land r 0xC0 = 0x40 \/ (hw_delay h' < hw_delay h)%nat)) ->
  R (b_hw s) -> (forall h, R h -> Q tt (Bst (b_ram s) h)) -> wp waitdisk Q s.
Proof.
  intros Step Hs HQ. unfold waitdisk. rewrite wp_bind, wp_gets.
  assert (G : forall n h, (hw_delay h < n)%nat -> R h -> wp (waitdisk_loop n) Q (Bst (b_ram s) h)).
  { induction n as [|n IH]; intros h Hn Rh; [lia|]. cbn [waitdisk_loop]. rewrite wp_bind. destruct (Step h Rh) as (r & h' & E & R' & D).
    unfold wp at 1, inb. cbn [b_hw b_ram]. rewrite E. destruct (Z.eqb_spec (Z.land r 0xC0) 0x40) as [Er|Er]; cbn [negb]; [by apply HQ|].
    apply IH; [|done]. destruct D; [done|lia]. }
  destruct s as [m h]. apply G; [cbn; lia|done].
Qed.

Lemma lor_e0 t : 0 <= t < 16 -> u8 (Z.lor t 0xE0) = Z.lor (Z.lor 0xe0 (Z.shiftl 0 4)) (Z.land t 0x0f).
Proof.
  intros Ht. change 0x0f with (Z.ones 4). rewrite Z.land_ones by lia. change (2 ^ 4) with 16. rewrite Z.mod_small by done.
  change (Z.lor 0xe0 (Z.shiftl 0 4)) with 0xe0. rewrite (Z.lor_comm 0xe0).
  assert (t ∈ (Z.of_nat <$> seq 0 16)) as I by (apply list_elem_of_fmap; exists (Z.to_nat t); split; [lia|apply elem_of_seq; lia]).
  cbn in I. rewrite !elem_of_cons, elem_of_nil in I. naive_solver.
Qed.
Lemma u8_land z : u8 z = Z.land z 0xff.
Proof. change 0xff with (Z.ones 8). by rewrite Z.land_ones by lia. Qed.

Lemma wp_readsect dst lba (Q : unit -> bst H -> Prop) s : hw_ready (b_hw s) -> 0 <= lba < 268435456 ->
  (forall h, hw_ready h -> sectors h = sectors (b_hw s) -> Q tt (Bst (ins_store (b_ram s) dst (sectors (b_hw s) 0 lba)) h)) ->
  wp (readsect dst lba) Q s.
Proof.
  intros R Hl HQ. unfold readsect. rewrite wp_bind. set (c := sectors (b_hw s)) in *.
  apply (wp_waitdisk (fun h => hw_ready h /\ sectors h = c)); [|done|].
  { intros h [Rh E]. destruct (ready_status h Rh) as (r & h' & E1 & R1 & E2 & D). exists r, h'. split_and!; [done|done|congruence|done]. }
  intros h0 [R0 E0]. destruct (read_command h0 0 lba R0 (or_introl eq_refl) Hl) as [R1 S1].
  unfold outb. do 6 rewrite wp_bind, wp_modify. cbn [b_ram b_hw]. rewrite wp_bind.
  assert (Ht : 0 <= Z.shiftr lba 24 < 16) by (rewrite Z.shiftr_div_pow2 by lia; change (2 ^ 24) with 16777216; Z.div_mod_to_equations; lia).
  rewrite (lor_e0 _ Ht), !u8_land. change (Z.land 1 0xff) with 1. change (Z.land 0x20 0xff) with IDE_CMD_READ. cbn [lba_regs app foldl fst snd] in R1, S1.
  set (h1 := hw_outb 0x1f7 IDE_CMD_READ _) in *.
  apply (wp_waitdisk (fun h => hw_reading h 0 lba /\ sectors h = c)); [|cbn [b_hw]; split; [done|congruence]|].
  { intros h [Rh E]. destruct (reading_status h 0 lba Rh) as (r & h' & E1 & R2 & E2 & D). exists r, h'. split_and!; [done|done|congruence|].
    destruct D as [[D _]|[_ D]]; [by left|by right]. }
  intros h2 [R2 E2]. destruct (read_data h2 0 lba R2) as (h3 & E3 & R3 & S3). unfold wp, insl. cbn [b_ram b_hw].
  change (Z.to_nat (4 * (SECTSIZE / 4))) with BSIZE. rewrite E3, E2. apply HQ; [done|congruence].
Qed.

Lemma wp_readseg_loop c n : forall fuel pa epa lba s (Q : unit -> bst H -> Prop), hw_ready (b_hw s) -> sectors (b_hw s) = c -> (n < fuel)%nat ->
  epa <= pa + 512 * Z.of_nat n -> (0 < Z.of_nat n -> pa + 512 * Z.of_nat n < epa + 512) ->
  0 <= pa -> pa + 512 * Z.of_nat n < 4294967296 -> 1 <= lba -> lba + Z.of_nat n <= 268435456 ->
  (forall h m, hw_ready h -> sectors h = c ->
    (forall x, rdb m x = if (pa <=? x) && (x <? pa + 512 * Z.of_nat n) then fbyte c (512 * (lba - 1) + (x - pa)) else rdb (b_ram s) x) -> Q tt (Bst m h)) ->
  wp (readseg_loop fuel pa epa lba) Q s.
Proof.
  induction n as [|n IH]; intros [|fuel] pa epa lba s Q R Ec Hf He Hn Hp Hw Hl Hb HQ; try lia; cbn [readseg_loop].
  - rewrite (proj2 (Z.ltb_ge _ _)) by lia. rewrite wp_ret. destruct s as [m h]. apply (HQ h m R Ec). intros x.
    destruct (Z.leb_spec pa x), (Z.ltb_spec x (pa + 512 * Z.of_nat 0)); cbn; try done; lia.
  - specialize (Hn ltac:(lia)). rewrite (proj2 (Z.ltb_lt _ _)) by lia. rewrite wp_bind. apply wp_readsect; [done|lia|]. intros h1 R1 E1. rewrite Ec in *.
    unfold SECTSIZE. rewrite !u32_small by lia. apply IH; cbn [b_hw b_ram]; try done; try lia. intros h m Rm Em Hm. apply (HQ h m Rm Em). intros x. rewrite Hm, rdb_ins_store.
    assert (L : length (c 0 lba) = 512%nat) by (rewrite <-Ec; by apply sector_length). rewrite L.
    destruct (Z.leb_spec (pa + 512) x), (Z.ltb_spec x (pa + 512 + 512 * Z.of_nat n)), (Z.leb_spec pa x), (Z.ltb_spec x (pa + 512 * Z.of_nat (S n))),
      (Z.ltb_spec x (pa + Z.of_nat 512)); cbn [andb]; try done; try lia.
    + f_equal. lia.
    + unfold fbyte. replace (512 * (lba - 1) + (x - pa)) with ((x - pa) + (lba - 1) * 512) by lia. rewrite Z.div_add, Z.mod_add by lia.
      rewrite Z.div_small, Z.mod_small by lia. by replace (0 + (lba - 1) + 1) with lba by lia.
Qed.

Lemma fword_range c o : 0 <= fword (fbyte c) o < 4294967296.
Proof.
  unfold fword. pose proof (fbyte_range c o). pose proof (fbyte_range c (o + 1)). pose proof (fbyte_range c (o + 2)). pose proof (fbyte_range c (o + 3)). lia.
Qed.
Lemma wp_readseg c pa count off s (Q : unit -> bst H -> Prop) : hw_ready (b_hw s) -> sectors (b_hw s) = c ->
  0 <= count -> 0 <= off < 4294967296 -> 0 <= pa - off mod 512 -> pa + count + 512 <= 4294967296 ->
  (forall h m n, hw_ready h -> sectors h = c -> pa + count <= pa - off mod 512 + 512 * Z.of_nat n ->
    (off mod 512 = 0 -> count = 0 -> n = 0%nat) ->
    (forall x, rdb m x = if (pa - off mod 512 <=? x) && (x <? pa - off mod 512 + 512 * Z.of_nat n) then fbyte c (off + (x - pa)) else rdb (b_ram s) x) -> Q tt (Bst m h)) ->
  wp (readseg pa count off) Q s.
Proof.
  intros R Ec Hc Ho Hp Hw HQ. unfold readseg, SECTSIZE. assert (Hm : 0 <= off mod 512 < 512) by (apply Z.mod_pos_bound; lia).
  rewrite (u32_small (pa + count)), (u32_small (pa - off mod 512)) by lia. set (n := Z.to_nat ((off mod 512 + count + 511) / 512)).
  assert (Hn : off mod 512 + count <= 512 * Z.of_nat n < off mod 512 + count + 512) by (unfold n; Z.div_mod_to_equations; lia).
  apply (wp_readseg_loop c n); try done; try (Z.div_mod_to_equations; lia).
  intros h m Rh Eh Hx. apply (HQ h m n Rh Eh); [lia|lia|]. intros x. rewrite Hx. destruct (_ && _); [|done]. f_equal.
  pose proof (Z.div_mod off 512 ltac:(lia)). lia.
Qed.

Lemma wp_readseg_none pa off s (Q : unit -> bst H -> Prop) : off mod 512 = 0 -> Q tt s -> wp (readseg pa 0 off) Q s.
Proof. intros E HQ. unfold readseg, SECTSIZE. rewrite E, Z.add_0_r, Z.sub_0_r. cbn [readseg_loop]. by rewrite Z.ltb_irrefl. Qed.
Lemma wp_assoc4 {A} (b : mem -> M (bst H) unit) (d : mem -> mem -> M (bst H) unit) (k : M (bst H) A) (Q : A -> bst H -> Prop) s :
  wp ((m ← gets b_ram; b m ;; m' ← gets b_ram; d m m') ;; k) Q s -> wp (m ← gets b_ram; b m ;; m' ← gets b_ram; d m m' ;; k) Q s.
Proof.
  rewrite !wp_bind, !wp_gets, !wp_bind. intros E. eapply wp_mono; [exact E|]. intros [] s'. cbv beta. rewrite !wp_bind, !wp_gets, !wp_bind. done.
Qed.

(** One segment: its bytes and zeros, and nothing below it changes. *)
Lemma wp_load_seg c p s (Q : unit -> bst H -> Prop) : let f := fbyte c in let g := seg_at f p in
  hw_ready (b_hw s) -> sectors (b_hw s) = c -> headers f (b_ram s) -> 0 <= p -> p + 32 <= 4096 -> seg_ok g ->
  (forall h m, hw_ready h -> sectors h = c -> loaded f m g -> (forall x, empty g \/ x < low g -> rdb m x = rdb (b_ram s) x) -> Q tt (Bst m h)) ->
  wp (m ← gets b_ram;
      readseg (ph_paddr m (elf + p)) (ph_filesz m (elf + p)) (ph_off m (elf + p)) ;;
      m' ← gets b_ram;
      when (ph_filesz m' (elf + p) <? ph_memsz m' (elf + p))
        (modify (fun s => Bst (stosb (b_ram s) (u32 (ph_paddr m (elf + p) + ph_filesz m' (elf + p))) 0 (Z.to_nat (ph_memsz m' (elf + p) - ph_filesz m' (elf + p)))) (b_hw s)))) Q s.
Proof.
  intros f g R Ec Hh Hp1 Hp2 Gok HQ. rewrite wp_bind, wp_gets, wp_bind.
  assert (W : forall m, headers f m -> ph_paddr m (elf + p) = g_pa g /\ ph_filesz m (elf + p) = g_filesz g /\ ph_off m (elf + p) = g_off g /\ ph_memsz m (elf + p) = g_memsz g).
  { intros m Hm. unfold ph_paddr, ph_filesz, ph_off, ph_memsz. rewrite <-!Z.add_assoc, !(headers_word f m) by (done || lia). done. }
  destruct (W _ Hh) as (-> & -> & -> & _).
  assert (Rg : 0 <= g_off g < 4294967296 /\ 0 <= g_pa g < 4294967296 /\ 0 <= g_filesz g < 4294967296 /\ 0 <= g_memsz g < 4294967296) by (unfold g; cbn; split_and!; apply fword_range).
  assert (Hm : 0 <= g_off g mod 512 < 512) by (apply Z.mod_pos_bound; lia). unfold seg_ok, empty, low, pad in *. destruct Gok as [(E1 & E2 & E3)|(G1 & G2 & G3)].
  - rewrite E2. apply wp_readseg_none; [done|]. rewrite wp_bind, wp_gets. destruct (W _ Hh) as (_ & -> & _ & ->).
    rewrite E2, E3. change (wp (mret tt) Q s). rewrite wp_ret. destruct s as [m h]. apply HQ; try done. intros k Hk. lia.
  - apply (wp_readseg c); try done; try lia. intros h m n Rh Eh Hn N0 Hx. cbn [b_ram]. rewrite wp_bind, wp_gets. cbn [b_ram].
    assert (Low : forall x, x < g_pa g - g_off g mod 512 -> rdb m x = rdb (b_ram s) x).
    { intros x Hlt. rewrite Hx. by rewrite (proj2 (Z.leb_gt _ _)). }
    destruct (W m) as (_ & -> & _ & ->); [intros i Hi; rewrite Low by (unfold elf; lia); by apply Hh|].
    assert (File : forall k, 0 <= k < g_filesz g -> rdb m (g_pa g + k) = f (g_off g + k)).
    { intros k Hk. rewrite Hx, (proj2 (Z.leb_le _ _)), (proj2 (Z.ltb_lt _ _)) by lia. cbn [andb]. unfold f. f_equal. lia. }
    destruct (Z.ltb_spec (g_filesz g) (g_memsz g)) as [Hs|Hs]; cbn [when].
    + rewrite wp_modify. cbn [b_ram b_hw]. rewrite u32_small by lia. apply HQ; try done.
      * intros k Hk. rewrite rdb_stosb. destruct (Z.ltb_spec k (g_filesz g)).
        -- rewrite (proj2 (Z.leb_gt _ _)) by lia. cbn [andb]. apply File. lia.
        -- rewrite (proj2 (Z.leb_le _ _)), (proj2 (Z.ltb_lt _ _)) by lia. done.
      * intros x [D|Hlt]; [lia|]. rewrite rdb_stosb, (proj2 (Z.leb_gt _ _)) by lia. cbn [andb]. by apply Low.
    + rewrite wp_ret. apply HQ; try done.
      * intros k Hk. rewrite (proj2 (Z.ltb_lt _ _)) by lia. apply File. lia.
      * intros x [(D1 & D2 & _)|Hlt]; [|by apply Low]. rewrite Hx, (N0 D1 D2). destruct (Z.leb_spec (g_pa g - g_off g mod 512) x); [|done].
        by rewrite (proj2 (Z.ltb_ge _ _)) by lia.
Qed.

Lemma wp_load_kernel c n : forall p s (Q : unit -> bst H -> Prop), let f := fbyte c in let l := segs_at f n p in
  hw_ready (b_hw s) -> sectors (b_hw s) = c -> headers f (b_ram s) -> 0 <= p -> p + 32 * Z.of_nat n <= 4096 -> Forall seg_ok l -> ordered l ->
  (forall h m, hw_ready h -> sectors h = c -> headers f m -> Forall (loaded f m) l ->
    (forall x, Forall (fun g => empty g \/ x < low g) l -> rdb m x = rdb (b_ram s) x) -> Q tt (Bst m h)) ->
  wp (load_kernel n (elf + p)) Q s.
Proof.
  induction n as [|n IH]; intros p s Q f l R Ec Hh H1 H2 F O HQ; subst f; cbn [load_kernel].
  - rewrite wp_ret. destruct s as [m h]. by apply HQ.
  - unfold l in *. cbn [segs_at ordered] in *. clear l. apply Forall_cons in F as [F1 F2]. destruct O as [O1 O2].
    apply (wp_assoc4 (fun m => readseg (ph_paddr m (elf + p)) (ph_filesz m (elf + p)) (ph_off m (elf + p)))
      (fun m m' => when (ph_filesz m' (elf + p) <? ph_memsz m' (elf + p)) _)).
    rewrite wp_bind. apply (wp_load_seg c p s); try done; try lia. intros h m Rh Eh Lg Low.
    replace (elf + p + sizeof_proghdr) with (elf + (p + 32)) by (unfold sizeof_proghdr; lia).
    assert (Hm : headers (fbyte c) m). { intros i Hi. rewrite Low; [by apply Hh|]. unfold elf. destruct F1 as [F1|F1]; [by left|right; lia]. }
    apply IH; try done; try lia. intros h' m' R' E' Hm' Ls Low'. apply HQ; try done.
    + constructor; [|done]. intros k Hk. rewrite <-(Lg k Hk). apply Low'. eapply Forall_impl; [exact O1|]. intros g' [D|D]; [by left|right].
      unfold high in D. lia.
    + intros x Hx. apply Forall_cons in Hx as [X1 X2]. rewrite Low' by done. by apply Low.
Qed.

Lemma wp_first_page s (Q : unit -> bst H -> Prop) : hw_ready (b_hw s) ->
  (forall h m, hw_ready h -> sectors h = sectors (b_hw s) -> headers (fbyte (sectors (b_hw s))) m -> Q tt (Bst m h)) -> wp (readseg elf 4096 0) Q s.
Proof.
  intros R HQ. apply (wp_readseg (sectors (b_hw s))); try done. intros h m n Rh Eh Hn _ Hx. apply HQ; try done. intros i Hi.
  change (0 mod 512) with 0 in *. rewrite Hx, (proj2 (Z.leb_le _ _)), (proj2 (Z.ltb_lt _ _)) by lia. cbn [andb]. f_equal. lia.
Qed.

End BootProps.

(** ** A kernel of one segment: 5 bytes at offset 4100 of the file, 8 in memory *)
Definition ex_word (w : Z) : bytes := [w mod 256; w / 256 mod 256; w / 65536 mod 256; w / 16777216].
Definition ex_elf : bytes :=
  ex_word ELF_MAGIC ++ replicate 20 0 ++ ex_word 0x10000c ++ ex_word 52 ++ replicate 12 0 ++ [1; 0] ++ replicate 6 0
  ++ ex_word 1 ++ ex_word 4100 ++ ex_word 0x80100004 ++ ex_word 0x100004 ++ ex_word 5 ++ ex_word 8 ++ replicate 8 0.
Definition ex_boot : Ata.ata :=
  Ata.AtaSt ∅ (<[(0, 1) := ex_elf ++ replicate (512 - length ex_elf) 0]> {[ (0, 9) := [9; 9; 9; 9; 1; 2; 3; 4; 5] ++ replicate 503 9 ]}) Ata.Idle.
