(* ===== verification/Log.v ===== *)
(** * The log (log.c) and the superblock (fs.h, readsb of fs.c)

    Written against the interface [BufCache]: a transaction's blocks are pinned
    in the cache, copied to the log area, committed by one write of the header
    and then installed. *)
From S2P Require Import Prelude Bytes Spinlock Bio.

Open Scope Z_scope.

Definition MAXOPBLOCKS : Z := 10.
Definition LOGSIZE : nat := 30.

(** struct superblock, in the order of its fields on disk. *)
Record superblock := SuperBlock {
  sb_size : Z; sb_nblocks : Z; sb_ninodes : Z; sb_nlog : Z;
  sb_logstart : Z; sb_inodestart : Z; sb_bmapstart : Z }.
Definition sb_decode (x : bytes) : superblock :=
  SuperBlock (get32 x 0) (get32 x 4) (get32 x 8) (get32 x 12) (get32 x 16) (get32 x 20) (get32 x 24).

(** struct log with struct logheader; [woken] counts the wakeups of sleepers on
    the log. *)
Record log := Log {
  lg_lock : bool; start : Z; lsize : Z; outstanding : Z; committing : Z; ldev : Z;
  lh_n : Z; lh_block : list Z; woken : nat }.

Definition set_lg_lock v g := Log v (start g) (lsize g) (outstanding g) (committing g) (ldev g) (lh_n g) (lh_block g) (woken g).
Definition set_start v g := Log (lg_lock g) v (lsize g) (outstanding g) (committing g) (ldev g) (lh_n g) (lh_block g) (woken g).
Definition set_lsize v g := Log (lg_lock g) (start g) v (outstanding g) (committing g) (ldev g) (lh_n g) (lh_block g) (woken g).
Definition set_outstanding v g := Log (lg_lock g) (start g) (lsize g) v (committing g) (ldev g) (lh_n g) (lh_block g) (woken g).
Definition set_committing v g := Log (lg_lock g) (start g) (lsize g) (outstanding g) v (ldev g) (lh_n g) (lh_block g) (woken g).
Definition set_ldev v g := Log (lg_lock g) (start g) (lsize g) (outstanding g) (committing g) v (lh_n g) (lh_block g) (woken g).
Definition set_lh_n v g := Log (lg_lock g) (start g) (lsize g) (outstanding g) (committing g) (ldev g) v (lh_block g) (woken g).
Definition set_lh_block v g := Log (lg_lock g) (start g) (lsize g) (outstanding g) (committing g) (ldev g) (lh_n g) v (woken g).
Definition wake_log g := Log (lg_lock g) (start g) (lsize g) (outstanding g) (committing g) (ldev g) (lh_n g) (lh_block g) (S (woken g)).

Definition no_log : log := Log false 0 0 0 0 0 0 (replicate LOGSIZE 0) 0.

(** Reading and writing the header in a block's bytes. *)
Definition hdr_n (x : bytes) : Z := s32 (get32 x 0).
Definition hdr_block (x : bytes) (i : nat) : Z := s32 (get32 x (4 + 4 * i)).
Fixpoint put_blocks (x : bytes) (i : nat) (bl : list Z) : bytes :=
  match bl with
  | [] => x
  | b :: bl => put_blocks (put32 x (4 + 4 * i) b) (S i) bl
  end.

Record lstate (S : Type) := LState { lg : log; bc : S }.
Arguments LState {S} _ _.
Arguments lg {S} _.
Arguments bc {S} _.

Section Ops.
Context {S : Type} `{BC : !BufCache S}.

Definition logL : lens (lstate S) log := Lens lg (fun g s => LState g (bc s)).
Definition bcL : lens (lstate S) S := Lens bc (fun b s => LState (lg s) b).
Definition lg_lockL : lens log bool := Lens lg_lock set_lg_lock.

Definition logv {A} (f : log -> A) : M (lstate S) A := gets (fun s => f (lg s)).
Definition logm (f : log -> log) : M (lstate S) unit := zoom logL (modify f).
Definition log_acquire : M (lstate S) unit := zoom logL (zoom lg_lockL lk_acquire).
Definition log_release : M (lstate S) unit := zoom logL (zoom lg_lockL lk_release).
Definition cache {A} (m : M S A) : M (lstate S) A := zoom bcL m.

(** log.lh.block[i], an array of LOGSIZE entries *)
Definition lh_get (i : nat) : M (lstate S) Z := fun s =>
  match lh_block (lg s) !! i with
  | Some b => Ok (b, s)
  | None => Undef "log.lh.block out of range"
  end.
Definition lh_set (i : nat) (b : Z) : M (lstate S) unit :=
  bl ← logv lh_block;
  if decide (i < length bl)%nat then logm (set_lh_block (<[i := b]> bl))
  else undef "log.lh.block out of range".

(** readsb of fs.c *)
Definition readsb (d : Z) : M (lstate S) superblock :=
  bp ← cache (bread (u32 d) 1);
  x ← cache (buf_data bp);
  cache (brelse bp) ;;
  mret (sb_decode x).

Definition install_trans : M (lstate S) unit :=
  n ← logv lh_n;
  for_each (seq 0 (Z.to_nat n)) (fun tail =>
    d ← logv (fun g => u32 (ldev g)); st ← logv start;
    lbuf ← cache (bread d (u32 (st + Z.of_nat tail + 1)));
    b ← lh_get tail;
    dbuf ← cache (bread d (u32 b));
    x ← cache (buf_data lbuf);
    cache (buf_put dbuf x) ;;
    cache (bwrite dbuf) ;;
    cache (brelse lbuf) ;;
    cache (brelse dbuf)).

Definition read_head : M (lstate S) unit :=
  d ← logv (fun g => u32 (ldev g)); st ← logv start;
  buf ← cache (bread d (u32 st));
  x ← cache (buf_data buf);
  logm (set_lh_n (hdr_n x)) ;;
  n ← logv lh_n;
  for_each (seq 0 (Z.to_nat n)) (fun i => lh_set i (hdr_block x i)) ;;
  cache (brelse buf).

Definition write_head : M (lstate S) unit :=
  d ← logv (fun g => u32 (ldev g)); st ← logv start;
  buf ← cache (bread d (u32 st));
  n ← logv lh_n;
  x ← cache (buf_data buf);
  cache (buf_put buf (put32 x 0 n)) ;;
  for_each (seq 0 (Z.to_nat n)) (fun i =>
    b ← lh_get i;
    x ← cache (buf_data buf);
    cache (buf_put buf (put32 x (4 + 4 * i) b))) ;;
  cache (bwrite buf) ;;
  cache (brelse buf).

Definition recover_from_log : M (lstate S) unit :=
  read_head ;;
  install_trans ;;
  logm (set_lh_n 0) ;;
  write_head.

Definition initlog (d : Z) : M (lstate S) unit :=
  (* sizeof(struct logheader) is 4 + 4 * LOGSIZE *)
  (if (Z.of_nat BSIZE <=? 4 + 4 * Z.of_nat LOGSIZE) then panic "initlog: too big logheader" else mret tt) ;;
  logm (set_lg_lock false) ;;
  sb ← readsb d;
  logm (set_start (s32 (sb_logstart sb))) ;;
  logm (set_lsize (s32 (sb_nlog sb))) ;;
  logm (set_ldev (s32 d)) ;;
  recover_from_log.

(** A process that must wait sleeps on the log until a commit or an end_op:
    alone, it never returns. *)
Definition begin_op : M (lstate S) unit :=
  log_acquire ;;
  g ← logv id;
  if truthy (committing g) then hang
  else if Z.of_nat LOGSIZE <? lh_n g + (outstanding g + 1) * MAXOPBLOCKS then hang
  else logm (set_outstanding (outstanding g + 1)) ;; log_release.

Definition write_log : M (lstate S) unit :=
  n ← logv lh_n;
  for_each (seq 0 (Z.to_nat n)) (fun tail =>
    d ← logv (fun g => u32 (ldev g)); st ← logv start;
    to ← cache (bread d (u32 (st + Z.of_nat tail + 1)));
    b ← lh_get tail;
    from ← cache (bread d (u32 b));
    x ← cache (buf_data from);
    cache (buf_put to x) ;;
    cache (bwrite to) ;;
    cache (brelse from) ;;
    cache (brelse to)).

Definition commit : M (lstate S) unit :=
  n ← logv lh_n;
  when (0 <? n)
    (write_log ;;
     write_head ;;
     install_trans ;;
     logm (set_lh_n 0) ;;
     write_head).

Definition end_op : M (lstate S) unit :=
  log_acquire ;;
  logm (fun g => set_outstanding (outstanding g - 1) g) ;;
  c ← logv committing;
  (if truthy c then panic "log.committing" else mret tt) ;;
  o ← logv outstanding;
  do_commit ←
    (if o =? 0 then logm (set_committing 1) ;; mret true
     else logm wake_log ;; mret false);
  log_release ;;
  when do_commit
    (commit ;;
     log_acquire ;;
     logm (set_committing 0) ;;
     logm wake_log ;;
     log_release).

(** The index the loop of log_write stops at. *)
Fixpoint absorb (bl : list Z) (i n : nat) (b : Z) : nat :=
  match n, bl with
  | O, _ | _, [] => i
  | Datatypes.S n, x :: bl => if u32 x =? b then i else absorb bl (Datatypes.S i) n b
  end.

Definition log_write (buf : nat) : M (lstate S) unit :=
  g ← logv id;
  (if (Z.of_nat LOGSIZE <=? lh_n g) || (lsize g - 1 <=? lh_n g)
   then panic "too big a transaction" else mret tt) ;;
  (if outstanding g <? 1 then panic "log_write outside of trans" else mret tt) ;;
  log_acquire ;;
  b ← cache (buf_blockno buf);
  i ← logv (fun g => absorb (lh_block g) 0 (Z.to_nat (lh_n g)) b);
  lh_set i (s32 b) ;;
  n ← logv lh_n;
  when (Z.of_nat i =? n) (logm (set_lh_n (n + 1))) ;;
  cache (buf_dirty buf) ;;
  log_release.
End Ops.
