(* ===== verification/LogProps.v ===== *)
(** * The log makes transactions atomic

    Every disk write of a commit and of a recovery is followed: after a crash at
    any point, recovery leaves either all the blocks of the transaction or none
    of them. *)
From Stdlib Require Import FunctionalExtensionality.
From S2P Require Import Prelude Bytes Spinlock Sleeplock Bio BioProps Log.

Open Scope Z_scope.

(** ** Sequences of block writes *)
Definition written (n : Z) (x : bytes) (a : cabs) : cabs :=
  CAbs (disk_set (view a) n x) (disk_set (ondisk a) n x) (held a) (pinned a ∖ {[n]})
    (dwrites a ++ [(n, x)]) (dsize a).
Definition write_all (ws : list (Z * bytes)) (a : cabs) : cabs :=
  foldl (fun a w => written w.1 w.2 a) a ws.

Lemma apply_writes_app ws ws' d : apply_writes (ws ++ ws') d = apply_writes ws' (apply_writes ws d).
Proof. apply foldl_app. Qed.

Lemma apply_writes_cons n x ws d : apply_writes ((n, x) :: ws) d = apply_writes ws (disk_set d n x).
Proof. done. Qed.

Lemma apply_writes_notin ws b : forall d, (b ∉ ws.*1) -> apply_writes ws d b = d b.
Proof.
  induction ws as [|[n x] ws IH]; intros d Hb; [done|]. simpl in Hb.
  apply not_elem_of_cons in Hb as [H1 H2]. simpl. rewrite IH by done. by apply disk_set_ne.
Qed.

(** Writes that agree with [f] leave [f] where they write. *)
Lemma apply_writes_in ws (f : Z -> bytes) b : forall d,
  (forall w, w ∈ ws -> w.2 = f w.1) -> b ∈ ws.*1 -> apply_writes ws d b = f b.
Proof.
  induction ws as [|[n x] ws IH]; intros d Hf Hb; [by apply elem_of_nil in Hb|]. simpl in *.
  assert (Hf' : forall w, w ∈ ws -> w.2 = f w.1) by (intros w Hw; apply Hf; by right).
  destruct (decide (b ∈ ws.*1)) as [Hin|Hout]; [by apply IH|].
  apply elem_of_cons in Hb as [->|Hb]; [|done]. rewrite apply_writes_notin by done.
  rewrite disk_set_eq. apply (Hf (n, x)). by left.
Qed.

(** Where writes land, what was there before does not matter. *)
Lemma apply_writes_same ws b : forall d d', b ∈ ws.*1 -> apply_writes ws d b = apply_writes ws d' b.
Proof.
  induction ws as [|[n x] ws IH]; intros d d' Hb; [by apply elem_of_nil in Hb|]. rewrite !apply_writes_cons.
  destruct (decide (b ∈ ws.*1)) as [Hi|Hn]; [by apply IH|].
  simpl in Hb. apply elem_of_cons in Hb as [->|Hb]; [|done].
  rewrite !apply_writes_notin by done. by rewrite !disk_set_eq.
Qed.

Lemma write_all_app ws ws' a : write_all (ws ++ ws') a = write_all ws' (write_all ws a).
Proof. apply foldl_app. Qed.
Lemma write_all_view ws : forall a, view (write_all ws a) = apply_writes ws (view a).
Proof. induction ws as [|w ws IH]; intros a; [done|]. simpl. by rewrite IH. Qed.
Lemma write_all_ondisk ws : forall a, ondisk (write_all ws a) = apply_writes ws (ondisk a).
Proof. induction ws as [|w ws IH]; intros a; [done|]. simpl. by rewrite IH. Qed.
Lemma write_all_held ws : forall a, held (write_all ws a) = held a.
Proof. induction ws as [|w ws IH]; intros a; [done|]. simpl. by rewrite IH. Qed.
Lemma write_all_dsize ws : forall a, dsize (write_all ws a) = dsize a.
Proof. induction ws as [|w ws IH]; intros a; [done|]. simpl. by rewrite IH. Qed.
Lemma write_all_dwrites ws : forall a, dwrites (write_all ws a) = dwrites a ++ ws.
Proof.
  induction ws as [|[n x] ws IH]; intros a; [by rewrite app_nil_r|]. simpl. rewrite IH. simpl.
  by rewrite <-(assoc_L app).
Qed.
Lemma write_all_pinned ws : forall a, pinned (write_all ws a) = pinned a ∖ list_to_set ws.*1.
Proof.
  induction ws as [|[n x] ws IH]; intros a; simpl; [by rewrite difference_empty_L|].
  rewrite IH. simpl. set_solver.
Qed.

(** ** The header *)
Lemma put_blocks_snoc bl b : forall x i,
  put_blocks x i (bl ++ [b]) = put32 (put_blocks x i bl) (4 + 4 * (i + length bl)) b.
Proof.
  induction bl as [|c bl IH]; intros x i; simpl.
  - f_equal. lia.
  - rewrite IH. f_equal. lia.
Qed.
Lemma put_blocks_length bl : forall x i, length (put_blocks x i bl) = length x.
Proof. induction bl as [|b bl IH]; intros x i; simpl; [done|]. by rewrite IH, length_put32. Qed.

Lemma put_blocks_before bl o : forall x i, (o + 4 <= 4 + 4 * i)%nat -> (4 + 4 * (i + length bl) <= length x)%nat ->
  get32 (put_blocks x i bl) o = get32 x o.
Proof.
  induction bl as [|b bl IH]; intros x i Ho Hl; cbn [length put_blocks] in *; [done|].
  rewrite IH by (rewrite ?length_put32; lia). apply get32_put32_ne; lia.
Qed.
Lemma put_blocks_at bl : forall x i j b, (4 + 4 * (i + length bl) <= length x)%nat -> bl !! j = Some b ->
  get32 (put_blocks x i bl) (4 + 4 * (i + j)) = u32 b.
Proof.
  induction bl as [|c bl IH]; intros x i j b Hl Hj; [done|]. cbn [length put_blocks] in *. destruct j as [|j]; cbn in Hj.
  - injection Hj as <-. rewrite put_blocks_before by (rewrite ?length_put32; lia).
    rewrite Nat.add_0_r. apply get32_put32_eq. lia.
  - replace (i + S j)%nat with (S i + j)%nat by lia. apply IH; [rewrite length_put32; lia|done].
Qed.

(** The header of a transaction on the blocks [bl], over the old bytes [x]. *)
Definition header (x : bytes) (bl : list Z) : bytes := put_blocks (put32 x 0 (Z.of_nat (length bl))) 0 bl.

Section Header.
Variables (x : bytes) (bl : list Z).
Hypotheses (Hx : length x = BSIZE) (Hbl : (length bl <= LOGSIZE)%nat).

Lemma header_length : length (header x bl) = BSIZE.
Proof. unfold header. by rewrite put_blocks_length, length_put32. Qed.
Lemma header_n : hdr_n (header x bl) = Z.of_nat (length bl).
Proof.
  unfold hdr_n, header. unfold BSIZE, LOGSIZE in *.
  rewrite put_blocks_before by (rewrite ?length_put32; lia). rewrite get32_put32_eq by lia.
  rewrite u32_small, s32_small; lia.
Qed.
Lemma header_block i b : bl !! i = Some b -> 0 <= b < 2147483648 -> hdr_block (header x bl) i = b.
Proof.
  intros Hi Hb. unfold hdr_block, header. unfold BSIZE, LOGSIZE in *.
  rewrite (put_blocks_at _ _ 0 i b) by (rewrite ?length_put32; done || lia).
  rewrite u32_small, s32_small; lia.
Qed.
End Header.

(** ** What a disk means after a crash

    The writes that recovery will redo, and the contents it will leave. *)
Definition logged (st : Z) (d : Z -> bytes) : list (Z * bytes) :=
  (fun i => (hdr_block (d st) i, d (st + Z.of_nat i + 1))) <$> seq 0 (Z.to_nat (hdr_n (d st))).
Definition recovered (st : Z) (d : Z -> bytes) : Z -> bytes := apply_writes (logged st d) d.

(** A disk whose header is empty holds what it says. *)
Lemma recovered_empty st d : hdr_n (d st) = 0 -> recovered st d = d.
Proof. intros H. unfold recovered, logged. by rewrite H. Qed.

(** A disk whose header names [bl], with the new contents of those blocks in the
    log, means the new contents, whatever part of them is installed. *)
Lemma recovered_committed st d bl (new : Z -> bytes) :
  hdr_n (d st) = Z.of_nat (length bl) ->
  (forall i b, bl !! i = Some b -> hdr_block (d st) i = b /\ d (st + Z.of_nat i + 1) = new b) ->
  forall b, (b ∈ bl \/ d b = new b) -> recovered st d b = new b.
Proof.
  intros Hn Hbl b Hb. unfold recovered, logged. rewrite Hn, Nat2Z.id.
  set (ws := (fun i : nat => _) <$> seq 0 (length bl)).
  assert (Hws : forall w, w ∈ ws -> w.2 = new w.1).
  { intros w Hw. apply list_elem_of_fmap in Hw as (i & -> & Hi). apply elem_of_seq in Hi.
    destruct (lookup_lt_is_Some_2 bl i ltac:(lia)) as [c Hc]. destruct (Hbl i c Hc) as [E1 E2]. simpl.
    by rewrite E1, E2. }
  destruct (decide (b ∈ ws.*1)) as [Hin|Hout]; [by apply apply_writes_in|].
  rewrite apply_writes_notin by done. destruct Hb as [Hb|Hb]; [|done]. destruct Hout.
  apply list_elem_of_lookup in Hb as [i Hi]. apply list_elem_of_fmap. exists (b, d (st + Z.of_nat i + 1)).
  split; [done|]. apply list_elem_of_fmap. exists i. destruct (Hbl i b Hi) as [E1 E2].
  split; [by rewrite E1|]. apply elem_of_seq. apply lookup_lt_Some in Hi. lia.
Qed.

(** ** Running the log's operations *)
Lemma wp_seq_loop {S} (I : nat -> S -> Prop) n (body : nat -> M S unit) (Q : unit -> S -> Prop) s :
  I 0%nat s -> (forall k s, (k < n)%nat -> I k s -> wp (body k) (fun _ s' => I (Datatypes.S k) s') s) ->
  (forall s, I n s -> Q tt s) -> wp (for_each (seq 0 n) body) Q s.
Proof.
  intros H0 Hstep Hend. apply (wp_for_each _ _ (fun l s => I (length l) s)); [done| |].
  - intros l x todo s' Hl Hs. assert (Hx : seq 0 n !! length l = Some x).
    { rewrite Hl. apply list_lookup_middle. done. }
    apply lookup_seq in Hx as [-> Hx]. eapply wp_mono; [by apply Hstep|].
    intros [] s'' H. rewrite length_app. simpl. by rewrite Nat.add_1_r.
  - intros s'. rewrite length_seq. apply Hend.
Qed.

Section Run.
Context {S : Type} `{BC : !BufCache S}.
Implicit Types (g : log) (c : S) (a : cabs).

Lemma wp_logv {A} (f : log -> A) Q g c : Q (f g) (LState g c) -> wp (logv f) Q (LState g c).
Proof. done. Qed.
Lemma bind_logv {A B} (f : log -> A) (k : A -> M (lstate S) B) g c :
  mbind k (logv f) (LState g c) = k (f g) (LState g c).
Proof. done. Qed.
Lemma wp_logm (f : log -> log) Q g c : Q tt (LState (f g) c) -> wp (logm f) Q (LState g c).
Proof. done. Qed.

Section Cache.
Variables (g : log) (c : S) (a : cabs).
Hypothesis R : brep c a.

Lemma wp_bread n Q : in_disk a n -> held a !! n = None -> room a n ->
  (forall i c', brep c' (hold n i a) -> Q i (LState g c')) -> wp (cache (bread 1 n)) Q (LState g c).
Proof.
  intros H1 H2 H3 HQ. destruct (bread_law c a n R H1 H2 H3) as (i & c' & Hr & R').
  unfold wp, cache, zoom. simpl. rewrite Hr. by apply HQ.
Qed.
Lemma wp_bwrite n i Q : held a !! n = Some i ->
  (forall c', brep c' (flush n a) -> Q tt (LState g c')) -> wp (cache (bwrite i)) Q (LState g c).
Proof.
  intros H1 HQ. destruct (bwrite_law c a n i R H1) as (c' & Hr & R').
  unfold wp, cache, zoom. simpl. rewrite Hr. by apply HQ.
Qed.
Lemma wp_brelse n i Q : held a !! n = Some i -> (n ∈ pinned a \/ view a n = ondisk a n) ->
  (forall c', brep c' (unhold n a) -> Q tt (LState g c')) -> wp (cache (brelse i)) Q (LState g c).
Proof.
  intros H1 H2 HQ. destruct (brelse_law c a n i R H1 H2) as (c' & Hr & R').
  unfold wp, cache, zoom. simpl. rewrite Hr. by apply HQ.
Qed.
Lemma wp_data n i Q : held a !! n = Some i -> Q (view a n) (LState g c) -> wp (cache (buf_data i)) Q (LState g c).
Proof.
  intros H1 HQ. unfold wp, cache, zoom. simpl. by rewrite (buf_data_law c a n i R H1).
Qed.
Lemma wp_buf_put n i x Q : held a !! n = Some i -> length x = BSIZE ->
  (forall c', brep c' (edit n x a) -> Q tt (LState g c')) -> wp (cache (buf_put i x)) Q (LState g c).
Proof.
  intros H1 H2 HQ. destruct (buf_put_law c a n i x R H1 H2) as (c' & Hr & R').
  unfold wp, cache, zoom. simpl. rewrite Hr. by apply HQ.
Qed.
Lemma wp_dirty n i Q : held a !! n = Some i ->
  (forall c', brep c' (pin n a) -> Q tt (LState g c')) -> wp (cache (buf_dirty i)) Q (LState g c).
Proof.
  intros H1 HQ. destruct (buf_dirty_law c a n i R H1) as (c' & Hr & R').
  unfold wp, cache, zoom. simpl. rewrite Hr. by apply HQ.
Qed.
End Cache.

Lemma wp_lh_get i b Q g c : lh_block g !! i = Some b -> Q b (LState g c) -> wp (lh_get i) Q (LState g c).
Proof. intros H HQ. unfold wp, lh_get. simpl. by rewrite H. Qed.

(** Reading in, changing, writing and releasing one block. *)
Lemma put_abs n i x a : held a !! n = None ->
  unhold n (flush n (edit n x (hold n i a))) = written n x a.
Proof.
  intros Hh. unfold unhold, flush, edit, hold, written. simpl. rewrite !disk_set_eq.
  f_equal. by rewrite delete_insert_id.
Qed.

(** Copying block [src] to block [dst]. *)
Lemma copy_abs src i dst j x a : src <> dst -> held a !! src = None -> held a !! dst = None ->
  unhold dst (unhold src (flush dst (edit dst x (hold src i (hold dst j a))))) = written dst x a.
Proof.
  intros Hne H1 H2. unfold unhold, flush, edit, hold, written. simpl. rewrite !disk_set_eq.
  f_equal. rewrite delete_insert_id by (by rewrite lookup_insert_ne). by rewrite delete_insert_id.
Qed.
Lemma hold_comm n i m j a : n <> m -> hold n i (hold m j a) = hold m j (hold n i a).
Proof. intros H. unfold hold. simpl. f_equal. by rewrite insert_insert_ne. Qed.

(** ** The loops of a commit *)
Section Commit.
Context (g : log) (a0 : cabs) (bl : list Z).

(** Blocks outside the log area; a log area that is on the disk. *)
Definition home (g : log) (b : Z) : Prop := b < start g \/ start g + lsize g <= b.
Record log_area (g : log) (a : cabs) : Prop := {
  la_dev : ldev g = 1;
  la_start : 0 <= start g;
  la_end : start g + lsize g <= dsize a;
  la_dsize : dsize a <= 2147483648;
  la_mem : length (lh_block g) = LOGSIZE
}.
(** The header in memory names the blocks [bl], which can be installed. *)
Record log_names (g : log) (a : cabs) (bl : list Z) : Prop := {
  ln_area : log_area g a;
  ln_n : lh_n g = Z.of_nat (length bl);
  ln_blocks : take (length bl) (lh_block g) = bl;
  ln_fits : Z.of_nat (length bl) < lsize g;
  ln_room : (length bl < NBUF)%nat;
  ln_home b : b ∈ bl -> home g b /\ in_disk a b;
  ln_pinned : pinned a ⊆ list_to_set bl
}.
(** A transaction on [bl] is ready to commit: its blocks are pinned in the cache
    and the header on disk is empty. *)
Record log_tx (g : log) (a : cabs) (bl : list Z) : Prop := {
  tx_names : log_names g a bl;
  tx_nodup : NoDup bl;
  tx_pinned : pinned a = list_to_set bl;
  tx_clean : hdr_n (ondisk a (start g)) = 0
}.

Lemma names_lookup i b : log_names g a0 bl -> bl !! i = Some b -> lh_block g !! i = Some b.
Proof.
  intros T Hi. rewrite <-(ln_blocks _ _ _ T) in Hi. by apply lookup_take_Some in Hi as [Hi _].
Qed.

(** The writes of the four phases of a commit. *)
Definition log_ws : list (Z * bytes) := imap (fun i b => (start g + Z.of_nat i + 1, view a0 b)) bl.
Definition commit_hdr : bytes := header (view a0 (start g)) bl.
Definition home_ws : list (Z * bytes) := (fun b => (b, view a0 b)) <$> bl.
Definition clear_hdr : bytes := header commit_hdr [].
Definition commit_ws : list (Z * bytes) :=
  log_ws ++ (start g, commit_hdr) :: home_ws ++ [(start g, clear_hdr)].

Lemma log_ws_at w : w ∈ log_ws -> exists i b, bl !! i = Some b /\ w = (start g + Z.of_nat i + 1, view a0 b).
Proof.
  intros Hw. apply list_elem_of_lookup in Hw as [i Hi]. unfold log_ws in Hi.
  rewrite list_lookup_imap in Hi. destruct (bl !! i) as [b|] eqn:E; [|done].
  injection Hi as <-. by exists i, b.
Qed.
Lemma log_ws_lookup i b : bl !! i = Some b -> log_ws !! i = Some (start g + Z.of_nat i + 1, view a0 b).
Proof. intros H. unfold log_ws. by rewrite list_lookup_imap, H. Qed.
Lemma home_ws_lookup i b : bl !! i = Some b -> home_ws !! i = Some (b, view a0 b).
Proof. intros H. unfold home_ws. by rewrite list_lookup_fmap, H. Qed.

Hypothesis T : log_names g a0 bl.

(** The log blocks are in the log area. *)
Lemma log_ws_area w : w ∈ log_ws -> start g < w.1 < start g + lsize g.
Proof.
  intros Hw. apply log_ws_at in Hw as (i & b & Hi & ->). simpl. apply lookup_lt_Some in Hi.
  pose proof (ln_fits _ _ _ T). lia.
Qed.
Lemma log_ws_not_home ws b : (forall w, w ∈ ws -> w ∈ log_ws) -> home g b -> b ∉ ws.*1.
Proof.
  intros Hsub Hb Hin. apply list_elem_of_fmap in Hin as (w & -> & Hw).
  apply Hsub, log_ws_area in Hw. unfold home in Hb. lia.
Qed.
Lemma home_ws_home w : w ∈ home_ws -> home g w.1 /\ in_disk a0 w.1.
Proof. intros Hw. apply list_elem_of_fmap in Hw as (b & -> & Hb). by apply (ln_home _ _ _ T). Qed.

Lemma pinned_log ws : (forall w, w ∈ ws -> w ∈ log_ws) -> pinned (write_all ws a0) = pinned a0.
Proof.
  intros Hsub. rewrite write_all_pinned. apply set_eq. intros b.
  rewrite elem_of_difference, elem_of_list_to_set. split; [tauto|]. intros Hb. split; [done|].
  apply log_ws_not_home; [done|]. apply (ln_home _ _ _ T).
  apply (ln_pinned _ _ _ T), elem_of_list_to_set in Hb. done.
Qed.

Lemma in_disk_area i : (i < length bl)%nat -> in_disk a0 (start g + Z.of_nat i + 1).
Proof.
  intros Hi. unfold in_disk. destruct (ln_area _ _ _ T). pose proof (ln_fits _ _ _ T). lia.
Qed.
Lemma in_disk_start : in_disk a0 (start g).
Proof. unfold in_disk. destruct (ln_area _ _ _ T). pose proof (ln_fits _ _ _ T). lia. Qed.
End Commit.

Lemma size_list_to_set_le (l : list Z) : (size (list_to_set l : gset Z) <= length l)%nat.
Proof.
  induction l as [|x l IH]; [done|]. cbn [list_to_set length]. rewrite size_union_alt, size_singleton.
  assert (size ((list_to_set l : gset Z) ∖ {[x]}) <= size (list_to_set l : gset Z))%nat; [|lia].
  apply subseteq_size. set_solver.
Qed.
Lemma room_list a n l : {[n]} ∪ dom (held a) ∪ pinned a ⊆ list_to_set l -> (length l <= NBUF)%nat -> room a n.
Proof.
  intros Hsub Hl. unfold room. apply subseteq_size in Hsub. pose proof (size_list_to_set_le l). lia.
Qed.

(** Copying a block to another, the destination read in first (write_log) or
    last (install_trans): all that the bodies of the two loops do. *)
Section Copy.
Context (g : log) (c : S) (a : cabs) (src dst : Z) (l : list Z) (tail : nat).
Hypotheses (R : brep c a) (Hh : held a = ∅) (Hsrc : in_disk a src) (Hdst : in_disk a dst)
  (Hne : src <> dst) (Hsaved : src ∈ pinned a \/ view a src = ondisk a src)
  (Hl : {[src; dst]} ∪ pinned a ⊆ list_to_set l) (Hlen : (length l <= NBUF)%nat)
  (Hdev : ldev g = 1) (Hbig : dsize a <= 2147483648).

Let u32_src : u32 src = src.
Proof. apply u32_small. unfold in_disk in Hsrc. lia. Qed.
Let u32_dst : u32 dst = dst.
Proof. apply u32_small. unfold in_disk in Hdst. lia. Qed.
Let Hs0 : held a !! src = None.
Proof. by rewrite Hh. Qed.
Let Hd0 : held a !! dst = None.
Proof. by rewrite Hh. Qed.

Lemma copy_tail i j c2 : brep c2 (hold src i (hold dst j a)) ->
  wp (x ← cache (buf_data i); cache (buf_put j x) ;; cache (bwrite j) ;; cache (brelse i) ;; cache (brelse j))
     (fun _ s => exists c', s = LState g c' /\ brep c' (written dst (view a src) a)) (LState g c2).
Proof.
  intros R2. set (a2 := hold src i (hold dst j a)) in *.
  assert (Hsi : held a2 !! src = Some i) by apply lookup_insert_eq.
  assert (Hdj : held a2 !! dst = Some j) by (unfold a2; simpl; rewrite lookup_insert_ne by done; apply lookup_insert_eq).
  rewrite wp_bind. apply (wp_data g c2 a2 R2 src i); [done|]. change (view a2 src) with (view a src).
  rewrite wp_bind. apply (wp_buf_put g c2 a2 R2 dst j); [done|by apply (brep_length c a src)|]. intros c3 R3.
  rewrite wp_bind. apply (wp_bwrite g c3 _ R3 dst j); [done|]. intros c4 R4.
  rewrite wp_bind. apply (wp_brelse g c4 _ R4 src i); [done| |].
  { simpl. rewrite !disk_set_ne by done. destruct Hsaved; [left; set_solver|by right]. }
  intros c5 R5. apply (wp_brelse g c5 _ R5 dst j).
  - simpl. by rewrite lookup_delete_ne.
  - right. simpl. by rewrite !disk_set_eq.
  - intros c6 R6. exists c6. split; [done|]. unfold a2 in R6. by rewrite copy_abs in R6.
Qed.

Lemma copy_to_log : lh_block g !! tail = Some src -> start g + Z.of_nat tail + 1 = dst ->
  wp (d ← logv (fun g => u32 (ldev g)); st ← logv start;
      to ← cache (bread d (u32 (st + Z.of_nat tail + 1)));
      b ← lh_get tail;
      from ← cache (bread d (u32 b));
      x ← cache (buf_data from);
      cache (buf_put to x) ;; cache (bwrite to) ;; cache (brelse from) ;; cache (brelse to))
     (fun _ s => exists c', s = LState g c' /\ brep c' (written dst (view a src) a)) (LState g c).
Proof.
  intros Hb Hst. rewrite wp_bind. apply wp_logv. rewrite wp_bind. apply wp_logv. rewrite Hst, u32_dst, Hdev.
  change (u32 1) with 1. rewrite wp_bind. apply (wp_bread g c a R dst); [done..| |].
  { apply room_list with l; [|done]. rewrite Hh, dom_empty_L. set_solver. }
  intros j c1 R1. rewrite wp_bind. apply (wp_lh_get _ src); [done|]. rewrite u32_src, wp_bind.
  apply (wp_bread g c1 _ R1 src); [done|simpl; by rewrite lookup_insert_ne| |].
  { apply room_list with l; [|done]. simpl. rewrite Hh, dom_insert_L, dom_empty_L. set_solver. }
  intros i c2 R2. by apply copy_tail.
Qed.

Lemma copy_to_home : lh_block g !! tail = Some dst -> start g + Z.of_nat tail + 1 = src ->
  wp (d ← logv (fun g => u32 (ldev g)); st ← logv start;
      lbuf ← cache (bread d (u32 (st + Z.of_nat tail + 1)));
      b ← lh_get tail;
      dbuf ← cache (bread d (u32 b));
      x ← cache (buf_data lbuf);
      cache (buf_put dbuf x) ;; cache (bwrite dbuf) ;; cache (brelse lbuf) ;; cache (brelse dbuf))
     (fun _ s => exists c', s = LState g c' /\ brep c' (written dst (view a src) a)) (LState g c).
Proof.
  intros Hb Hst. rewrite wp_bind. apply wp_logv. rewrite wp_bind. apply wp_logv. rewrite Hst, u32_src, Hdev.
  change (u32 1) with 1. rewrite wp_bind. apply (wp_bread g c a R src); [done..| |].
  { apply room_list with l; [|done]. rewrite Hh, dom_empty_L. set_solver. }
  intros i c1 R1. rewrite wp_bind. apply (wp_lh_get _ dst); [done|]. rewrite u32_dst, wp_bind.
  apply (wp_bread g c1 _ R1 dst); [done|simpl; by rewrite lookup_insert_ne| |].
  { apply room_list with l; [|done]. simpl. rewrite Hh, dom_insert_L, dom_empty_L. set_solver. }
  intros j c2 R2. apply copy_tail. by rewrite hold_comm.
Qed.
End Copy.

(** write_log copies every block of the transaction to the log area. *)
Lemma write_log_run g c a bl : log_tx g a bl -> held a = ∅ -> brep c a ->
  wp write_log (fun _ s => exists c', s = LState g c' /\ brep c' (write_all (log_ws g a bl) a)) (LState g c).
Proof.
  intros Tx Hh R. pose proof (tx_names _ _ _ Tx) as T. destruct (ln_area _ _ _ T) as [A1 A2 A3 A4 A5].
  unfold write_log. rewrite wp_bind. apply wp_logv. rewrite (ln_n _ _ _ T), Nat2Z.id.
  apply (wp_seq_loop (fun k s => exists c', s = LState g c' /\ brep c' (write_all (take k (log_ws g a bl)) a))).
  - by exists c.
  - intros k s Hk (c1 & -> & R1). destruct (lookup_lt_is_Some_2 bl k Hk) as [b Hb].
    assert (Hbin : b ∈ bl) by by eapply list_elem_of_lookup_2.
    assert (Hsub : forall w, w ∈ take k (log_ws g a bl) -> w ∈ log_ws g a bl) by (intros w; apply subseteq_take).
    destruct (ln_home _ _ _ T b Hbin) as [Hhome Hin].
    set (a1 := write_all (take k (log_ws g a bl)) a) in *.
    assert (Hv : view a1 b = view a b).
    { unfold a1. rewrite write_all_view, apply_writes_notin; [done|]. by eapply log_ws_not_home. }
    assert (Hp : pinned a1 = pinned a) by by eapply pinned_log.
    assert (Hds : dsize a1 = dsize a) by apply write_all_dsize.
    rewrite (take_S_r _ k _ (log_ws_lookup g a bl k b Hb)), write_all_app. cbn [write_all foldl fst snd].
    fold a1. rewrite <-Hv. pose proof (in_disk_area _ _ _ T k Hk) as Hda.
    apply (copy_to_log g c1 a1 b (start g + Z.of_nat k + 1) (start g + Z.of_nat k + 1 :: bl)); try done.
    + unfold a1. by rewrite write_all_held.
    + unfold in_disk. rewrite Hds. apply Hin.
    + unfold in_disk. rewrite Hds. apply Hda.
    + unfold home in Hhome. pose proof (ln_fits _ _ _ T). lia.
    + left. rewrite Hp, (tx_pinned _ _ _ Tx). by apply elem_of_list_to_set.
    + rewrite Hp. pose proof (ln_pinned _ _ _ T) as Hpin. simpl. set_solver.
    + simpl. pose proof (ln_room _ _ _ T). lia.
    + by rewrite Hds.
    + by eapply names_lookup.
  - intros s (c1 & -> & R1). exists c1. split; [done|]. rewrite take_ge in R1; [done|].
    unfold log_ws. by rewrite length_imap.
Qed.

(** install_trans copies the log area to the blocks named. *)
Definition install_ws (g : log) (v : Z -> bytes) (bl : list Z) : list (Z * bytes) :=
  imap (fun i b => (b, v (start g + Z.of_nat i + 1))) bl.

Lemma install_ws_elem g v bl w : w ∈ install_ws g v bl ->
  exists i b, bl !! i = Some b /\ w = (b, v (start g + Z.of_nat i + 1)).
Proof.
  intros Hw. apply list_elem_of_lookup in Hw as [i Hi]. unfold install_ws in Hi.
  rewrite list_lookup_imap in Hi. destruct (bl !! i) as [b|] eqn:E; [|done].
  injection Hi as <-. by exists i, b.
Qed.

Lemma install_ws_out g a bl ws n : log_names g a bl -> (forall w, w ∈ ws -> w ∈ install_ws g (view a) bl) ->
  start g <= n < start g + lsize g -> n ∉ ws.*1.
Proof.
  intros T Hsub Hn Hin. apply list_elem_of_fmap in Hin as (w & -> & Hw).
  apply Hsub, install_ws_elem in Hw as (i & b & Hi & ->). apply list_elem_of_lookup_2 in Hi.
  destruct (ln_home _ _ _ T b Hi) as [Hhome _]. unfold home in Hhome. simpl in Hn. lia.
Qed.

Lemma install_run g c a bl : log_names g a bl -> held a = ∅ -> brep c a ->
  wp install_trans (fun _ s => exists c', s = LState g c' /\ brep c' (write_all (install_ws g (view a) bl) a))
    (LState g c).
Proof.
  intros T Hh R. destruct (ln_area _ _ _ T) as [A1 A2 A3 A4 A5].
  unfold install_trans. rewrite wp_bind. apply wp_logv. rewrite (ln_n _ _ _ T), Nat2Z.id.
  set (ws := install_ws g (view a) bl).
  apply (wp_seq_loop (fun k s => exists c', s = LState g c' /\ brep c' (write_all (take k ws) a))).
  - by exists c.
  - intros k s Hk (c1 & -> & R1). destruct (lookup_lt_is_Some_2 bl k Hk) as [b Hb].
    assert (Hbin : b ∈ bl) by by eapply list_elem_of_lookup_2.
    assert (Hsub : forall w, w ∈ take k ws -> w ∈ ws) by (intros w; apply subseteq_take).
    destruct (ln_home _ _ _ T b Hbin) as [Hhome Hin]. pose proof (ln_fits _ _ _ T) as Hfit.
    assert (Hwk : ws !! k = Some (b, view a (start g + Z.of_nat k + 1))).
    { unfold ws, install_ws. by rewrite list_lookup_imap, Hb. }
    assert (Hout : start g + Z.of_nat k + 1 ∉ (take k ws).*1) by (eapply install_ws_out; [done..|lia]).
    pose proof (in_disk_area _ _ _ T k Hk) as Hda. set (n := start g + Z.of_nat k + 1) in *.
    assert (Hnp : n ∉ pinned a).
    { intros Hp. apply (ln_pinned _ _ _ T), elem_of_list_to_set, (ln_home _ _ _ T) in Hp as [Hp _].
      unfold home in Hp. lia. }
    set (a1 := write_all (take k ws) a) in *.
    assert (Hv : view a1 n = view a n) by (unfold a1; by rewrite write_all_view, apply_writes_notin).
    assert (Ho : ondisk a1 n = ondisk a n) by (unfold a1; by rewrite write_all_ondisk, apply_writes_notin).
    assert (Hds : dsize a1 = dsize a) by apply write_all_dsize.
    rewrite (take_S_r _ k _ Hwk), write_all_app. cbn [write_all foldl fst snd]. fold a1. rewrite <-Hv.
    apply (copy_to_home g c1 a1 n b (n :: bl)); try done.
    + unfold a1. by rewrite write_all_held.
    + unfold in_disk. rewrite Hds. apply Hda.
    + unfold in_disk. rewrite Hds. apply Hin.
    + unfold home in Hhome. lia.
    + right. rewrite Hv, Ho. by apply (brep_clean c a n R); [|rewrite Hh|].
    + unfold a1. rewrite write_all_pinned. pose proof (ln_pinned _ _ _ T) as Hpin. simpl. set_solver.
    + simpl. pose proof (ln_room _ _ _ T). lia.
    + by rewrite Hds.
    + by eapply names_lookup.
  - intros s (c1 & -> & R1). exists c1. split; [done|]. rewrite take_ge in R1; [done|].
    unfold ws, install_ws. by rewrite length_imap.
Qed.

(** write_head writes the header in memory over the one on disk. *)
Lemma edit_edit n x y a : edit n y (edit n x a) = edit n y a.
Proof.
  unfold edit. simpl. f_equal. apply functional_extensionality. intros m. unfold disk_set.
  by destruct (decide (m = n)).
Qed.

Lemma write_head_run g c a bl : log_names g a bl -> held a = ∅ -> brep c a ->
  wp write_head (fun _ s => exists c', s = LState g c' /\
    brep c' (written (start g) (header (view a (start g)) bl) a)) (LState g c).
Proof.
  intros T Hh R. destruct (ln_area _ _ _ T) as [A1 A2 A3 A4 A5]. pose proof (in_disk_start _ _ _ T) as Hst.
  pose proof (ln_room _ _ _ T) as Hr.
  assert (Hu : u32 (start g) = start g) by (apply u32_small; unfold in_disk in Hst; lia).
  unfold write_head. rewrite wp_bind. apply wp_logv. rewrite wp_bind. apply wp_logv. rewrite A1, Hu, wp_bind.
  apply (wp_bread g c a R (start g)); [done|by rewrite Hh| |].
  { apply room_list with (start g :: bl); [|simpl; lia]. rewrite Hh, dom_empty_L.
    pose proof (ln_pinned _ _ _ T). simpl. set_solver. }
  intros i c1 R1. rewrite wp_bind. apply wp_logv. rewrite (ln_n _ _ _ T), Nat2Z.id.
  destruct (brep_length c a (start g) R Hst) as [Hvl _]. set (x := view a (start g)) in *.
  rewrite wp_bind. apply (wp_data g c1 _ R1 (start g) i); [apply lookup_insert_eq|].
  change (view (hold (start g) i a) (start g)) with x.
  rewrite wp_bind. apply (wp_buf_put g c1 _ R1 (start g) i); [apply lookup_insert_eq|by rewrite length_put32|].
  intros c2 R2. set (x0 := put32 x 0 (Z.of_nat (length bl))) in *.
  assert (Hx0 : length x0 = BSIZE) by (unfold x0; by rewrite length_put32).
  rewrite wp_bind.
  apply (wp_seq_loop (fun k s => exists c', s = LState g c' /\
    brep c' (edit (start g) (put_blocks x0 0 (take k bl)) (hold (start g) i a)))).
  - by exists c2.
  - intros k s Hk (c3 & -> & R3). destruct (lookup_lt_is_Some_2 bl k Hk) as [b Hb].
    rewrite wp_bind. apply (wp_lh_get _ b); [by eapply names_lookup|].
    rewrite wp_bind. apply (wp_data g c3 _ R3 (start g) i); [apply lookup_insert_eq|].
    cbn [view edit]. rewrite disk_set_eq. apply (wp_buf_put g c3 _ R3 (start g) i); [apply lookup_insert_eq| |].
    { by rewrite length_put32, put_blocks_length. }
    intros c4 R4. exists c4. split; [done|]. rewrite edit_edit in R4.
    rewrite (take_S_r _ k b Hb), put_blocks_snoc, length_take_le by lia. done.
  - intros s (c3 & -> & R3). rewrite take_ge in R3 by done. fold (header x bl) in R3.
    rewrite wp_bind. apply (wp_bwrite g c3 _ R3 (start g) i); [apply lookup_insert_eq|]. intros c4 R4.
    apply (wp_brelse g c4 _ R4 (start g) i); [apply lookup_insert_eq|right; simpl; by rewrite !disk_set_eq|].
    intros c5 R5. exists c5. split; [done|]. rewrite put_abs in R5; [done|by rewrite Hh].
Qed.

(** read_head takes the header on disk into memory. *)
Definition hdr_blocks (x : bytes) : list Z := hdr_block x <$> seq 0 (Z.to_nat (hdr_n x)).
Definition with_header (x : bytes) (g : log) : log :=
  set_lh_block (hdr_blocks x ++ drop (Z.to_nat (hdr_n x)) (lh_block g)) (set_lh_n (hdr_n x) g).

Lemma lh_set_run i b g c Q : (i < length (lh_block g))%nat ->
  Q tt (LState (set_lh_block (<[i := b]> (lh_block g)) g) c) -> wp (lh_set i b) Q (LState g c).
Proof.
  intros Hi HQ. unfold lh_set. rewrite wp_bind. apply wp_logv. by rewrite decide_True by done.
Qed.

Lemma read_head_run g c a : log_area g a -> 0 < lsize g -> held a = ∅ -> pinned a = ∅ -> brep c a ->
  (Z.to_nat (hdr_n (view a (start g))) <= LOGSIZE)%nat ->
  wp read_head (fun _ s => exists c', s = LState (with_header (view a (start g)) g) c' /\ brep c' a) (LState g c).
Proof.
  intros [A1 A2 A3 A4 A5] Hsz Hh Hp R Hn. set (x := view a (start g)) in *.
  assert (Hst : in_disk a (start g)) by (unfold in_disk; lia).
  assert (Hu : u32 (start g) = start g) by (apply u32_small; unfold in_disk in Hst; lia).
  unfold read_head. rewrite wp_bind. apply wp_logv. rewrite wp_bind. apply wp_logv. rewrite A1, Hu, wp_bind.
  apply (wp_bread g c a R (start g)); [done|by rewrite Hh| |].
  { apply room_list with [start g]; [|simpl; unfold NBUF; lia]. rewrite Hh, Hp, dom_empty_L. set_solver. }
  intros i c1 R1. rewrite wp_bind. apply (wp_data g c1 _ R1 (start g) i); [apply lookup_insert_eq|].
  change (view (hold (start g) i a) (start g)) with x.
  rewrite wp_bind. apply wp_logm. rewrite wp_bind. apply wp_logv. cbn [lh_n set_lh_n]. rewrite wp_bind.
  apply (wp_seq_loop (fun k s => s = LState (set_lh_block
    ((hdr_block x <$> seq 0 k) ++ drop k (lh_block g)) (set_lh_n (hdr_n x) g)) c1)).
  - simpl. by destruct g.
  - intros k s Hk ->. apply lh_set_run.
    + cbn [lh_block set_lh_block]. rewrite length_app, length_fmap, length_seq, length_drop. lia.
    + f_equal. unfold set_lh_block. cbn [lg_lock start lsize outstanding committing ldev lh_n lh_block woken set_lh_n].
      f_equal. rewrite insert_app_r_alt by (by rewrite length_fmap, length_seq).
      rewrite length_fmap, length_seq, Nat.sub_diag, seq_S, fmap_app, <-(assoc_L app). simpl. f_equal.
      destruct (lookup_lt_is_Some_2 (lh_block g) k ltac:(lia)) as [y Hy].
      by rewrite (drop_S _ y k Hy).
  - intros s ->. apply (wp_brelse _ c1 _ R1 (start g) i); [apply lookup_insert_eq| |].
    { right. simpl. apply (brep_clean c a (start g) R Hst); [by rewrite Hh|rewrite Hp; set_solver]. }
    intros c2 R2. exists c2. split; [done|].
    assert (E : unhold (start g) (hold (start g) i a) = a).
    { unfold unhold, hold. simpl. rewrite delete_insert_id by (by rewrite Hh). by destruct a. }
    by rewrite E in R2.
Qed.

(** ** A whole commit *)
Lemma names_write g a bl ws : log_names g a bl -> log_names g (write_all ws a) bl.
Proof.
  intros [[A1 A2 A3 A4 A5] N1 N2 N3 N4 N5 N6]. pose proof (write_all_dsize ws a) as Hd.
  split; try done.
  - by split; rewrite ?Hd.
  - intros b Hb. unfold in_disk. rewrite Hd. by apply N5.
  - rewrite write_all_pinned. set_solver.
Qed.

(** The header in memory emptied. *)
Lemma names_empty g a bl : log_names g a bl -> pinned a = ∅ -> log_names (set_lh_n 0 g) a [].
Proof.
  intros [[A1 A2 A3 A4 A5] N1 N2 N3 N4 N5 N6] Hp. split; try done; cbn [length lsize set_lh_n].
  - lia.
  - unfold NBUF. lia.
  - intros b Hb. by apply elem_of_nil in Hb.
  - by rewrite Hp.
Qed.

(** The log area holds the new contents once write_log is done. *)
Lemma log_area_view g a bl (v : Z -> bytes) i b : bl !! i = Some b ->
  apply_writes (log_ws g a bl) v (start g + Z.of_nat i + 1) = view a b.
Proof.
  intros Hi. rewrite (apply_writes_in _ (fun n => default [] (view a <$> bl !! Z.to_nat (n - start g - 1)))).
  - replace (start g + Z.of_nat i + 1 - start g - 1) with (Z.of_nat i) by lia.
    by rewrite Nat2Z.id, Hi.
  - intros w Hw. apply log_ws_at in Hw as (j & e & Hj & ->). cbn [fst snd].
    replace (start g + Z.of_nat j + 1 - start g - 1) with (Z.of_nat j) by lia.
    by rewrite Nat2Z.id, Hj.
  - apply list_elem_of_fmap. eexists. split; [|eapply list_elem_of_lookup_2, log_ws_lookup, Hi]. done.
Qed.

Lemma start_not_logged g a bl : log_names g a bl -> start g ∉ (log_ws g a bl).*1.
Proof.
  intros T Hin. apply list_elem_of_fmap in Hin as (w & E & Hw). apply (log_ws_area _ _ _ T) in Hw. lia.
Qed.
Lemma home_ws_fst g a bl : (home_ws a bl).*1 = bl.
Proof. unfold home_ws. rewrite <-list_fmap_compose. by rewrite list_fmap_id. Qed.
Lemma area_not_home g a bl n : log_names g a bl -> start g <= n < start g + lsize g -> n ∉ (home_ws a bl).*1.
Proof.
  intros T Hn. rewrite (home_ws_fst g). intros Hb. apply (ln_home _ _ _ T) in Hb as [Hb _]. unfold home in Hb. lia.
Qed.

Lemma install_is_home g a bl v : (forall i b, bl !! i = Some b -> v (start g + Z.of_nat i + 1) = view a b) ->
  install_ws g v bl = home_ws a bl.
Proof.
  intros Hv. apply list_eq. intros i. unfold install_ws, home_ws.
  rewrite list_lookup_imap, list_lookup_fmap. destruct (bl !! i) as [b|] eqn:E; [|done]. simpl.
  by rewrite (Hv i b).
Qed.

Lemma commit_run g c a bl : log_tx g a bl -> bl <> [] -> held a = ∅ -> brep c a ->
  wp commit (fun _ s => exists c', s = LState (set_lh_n 0 g) c' /\ brep c' (write_all (commit_ws g a bl) a))
    (LState g c).
Proof.
  intros Tx Hne Hh R. pose proof (tx_names _ _ _ Tx) as T. pose proof (ln_fits _ _ _ T) as Hfit.
  unfold commit. rewrite wp_bind. apply wp_logv. rewrite (ln_n _ _ _ T).
  destruct (Z.ltb_spec 0 (Z.of_nat (length bl))) as [_|Hlt]; [|destruct bl; simpl in *; [done|lia]].
  cbn [when]. rewrite wp_bind. eapply wp_mono; [by apply write_log_run|]. intros [] s (c1 & -> & R1).
  set (a1 := write_all (log_ws g a bl) a) in *. pose proof (names_write g a bl (log_ws g a bl) T) as T1. fold a1 in T1.
  assert (H1 : held a1 = ∅) by (unfold a1; by rewrite write_all_held).
  assert (V1 : view a1 (start g) = view a (start g)).
  { unfold a1. rewrite write_all_view. by apply apply_writes_notin, start_not_logged. }
  rewrite wp_bind. eapply wp_mono; [by apply (write_head_run g c1 a1 bl)|]. intros [] s (c2 & -> & R2).
  rewrite V1 in R2. fold (commit_hdr g a bl) in R2. set (a2 := written (start g) (commit_hdr g a bl) a1) in *.
  pose proof (names_write g a1 bl [(start g, commit_hdr g a bl)] T1) as T2. fold a2 in T2.
  rewrite wp_bind. eapply wp_mono; [by apply (install_run g c2 a2 bl)|]. intros [] s (c3 & -> & R3).
  rewrite (install_is_home g a) in R3.
  2:{ intros i b Hi. unfold a2, a1. cbn [view written]. rewrite disk_set_ne by lia. rewrite write_all_view.
      by apply log_area_view. }
  set (a3 := write_all (home_ws a bl) a2) in *. pose proof (names_write g a2 bl (home_ws a bl) T2) as T3. fold a3 in T3.
  assert (P3 : pinned a3 = ∅).
  { unfold a3. rewrite write_all_pinned, (home_ws_fst g). pose proof (ln_pinned _ _ _ T2). set_solver. }
  assert (V3 : view a3 (start g) = commit_hdr g a bl).
  { unfold a3. rewrite write_all_view, apply_writes_notin; [apply disk_set_eq|].
    apply (area_not_home g); [done|lia]. }
  rewrite wp_bind. apply wp_logm.
  eapply wp_mono; [apply (write_head_run (set_lh_n 0 g) c3 a3 []); [by eapply names_empty| |done]|].
  { unfold a3. by rewrite write_all_held. }
  intros [] s (c4 & -> & R4). exists c4. split; [done|]. cbn [start set_lh_n] in R4. rewrite V3 in R4.
  unfold commit_ws. rewrite write_all_app. cbn [write_all foldl fst snd]. fold a1 a2.
  fold (write_all (home_ws a bl ++ [(start g, clear_hdr g a bl)]) a2). rewrite write_all_app. exact R4.
Qed.

(** ** Recovery *)
Definition hdr_valid (g : log) (sz : Z) (x : bytes) : Prop :=
  0 <= hdr_n x < lsize g /\ hdr_n x < Z.of_nat NBUF /\
  forall b, b ∈ hdr_blocks x -> home g b /\ 0 <= b < sz.

Lemma logged_install g v : logged (start g) v = install_ws g v (hdr_blocks (v (start g))).
Proof.
  unfold logged, install_ws, hdr_blocks. apply list_eq. intros i.
  rewrite list_lookup_imap, !list_lookup_fmap.
  destruct (seq 0 (Z.to_nat (hdr_n (v (start g)))) !! i) as [j|] eqn:E; [|done].
  apply lookup_seq in E as [-> _]. done.
Qed.

Lemma header_names g a x : log_area g a -> hdr_valid g (dsize a) x -> pinned a = ∅ ->
  log_names (with_header x g) a (hdr_blocks x).
Proof.
  intros [A1 A2 A3 A4 A5] (H1 & H2 & H3) Hp.
  assert (Hl : length (hdr_blocks x) = Z.to_nat (hdr_n x)) by (unfold hdr_blocks; by rewrite length_fmap, length_seq).
  assert (Hlog : (NBUF <= LOGSIZE)%nat) by (unfold NBUF, LOGSIZE; lia).
  split; rewrite ?Hl; cbn [with_header lsize lh_n lh_block set_lh_block set_lh_n]; try lia.
  - split; try done. simpl. rewrite length_app, Hl, length_drop. lia.
  - by rewrite take_app_length'.
  - intros b Hb. by apply H3.
  - rewrite Hp. set_solver.
Qed.

Lemma recover_run g c a : log_area g a -> held a = ∅ -> pinned a = ∅ -> brep c a ->
  hdr_valid g (dsize a) (view a (start g)) ->
  wp recover_from_log (fun _ s => exists g' c', s = LState g' c' /\ lh_n g' = 0 /\
    brep c' (write_all (logged (start g) (view a) ++ [(start g, header (view a (start g)) [])]) a)) (LState g c).
Proof.
  intros A Hh Hp R HV. pose proof HV as (V1 & V2 & V3). set (x := view a (start g)) in *.
  unfold recover_from_log. rewrite wp_bind. eapply wp_mono.
  { apply read_head_run with (a := a); try done; [lia|]. fold x. unfold NBUF, LOGSIZE in *. lia. }
  intros [] s (c1 & -> & R1). fold x. pose proof (header_names g a x A HV Hp) as T.
  set (g1 := with_header x g) in *.
  rewrite wp_bind. eapply wp_mono; [by apply (install_run g1 c1 a (hdr_blocks x))|]. intros [] s (c2 & -> & R2).
  change (install_ws g1 (view a) (hdr_blocks x)) with (install_ws g (view a) (hdr_blocks x)) in R2.
  set (a2 := write_all (install_ws g (view a) (hdr_blocks x)) a) in *.
  pose proof (names_write g1 a _ (install_ws g (view a) (hdr_blocks x)) T) as T2. fold a2 in T2.
  assert (P2 : pinned a2 = ∅) by (unfold a2; rewrite write_all_pinned, Hp; set_solver).
  assert (E2 : view a2 (start g) = x).
  { unfold a2. rewrite write_all_view, apply_writes_notin; [done|].
    eapply (install_ws_out g1 a); [done|intros w Hw; exact Hw|]. simpl. lia. }
  rewrite wp_bind. apply wp_logm.
  eapply wp_mono; [apply (write_head_run (set_lh_n 0 g1) c2 a2 []); [by eapply names_empty| |done]|].
  { unfold a2. by rewrite write_all_held. }
  intros [] s (c3 & -> & R3). exists (set_lh_n 0 g1), c3. split_and!; [done..|].
  change (start (set_lh_n 0 g1)) with (start g) in R3. rewrite E2 in R3.
  by rewrite logged_install, write_all_app.
Qed.

(** What recovery leaves in the home blocks is what the disk meant. *)
Lemma recovered_home g a d x b : home g b -> 0 < lsize g ->
  ondisk (write_all (logged (start g) d ++ [(start g, x)]) a) b = apply_writes (logged (start g) d) (ondisk a) b.
Proof.
  intros Hb Hs. rewrite write_all_ondisk, apply_writes_app. apply disk_set_ne. unfold home in Hb. simpl. lia.
Qed.

(** ** The disk at each point of a commit *)
Section Crash.
Context (g : log) (c : S) (a : cabs) (bl : list Z).
Hypotheses (Tx : log_tx g a bl) (Hh : held a = ∅) (R : brep c a) (Hne : bl <> []).
Let T := tx_names _ _ _ Tx.

Definition crash_disk (k : nat) : Z -> bytes := apply_writes (take k (commit_ws g a bl)) (ondisk a).

Lemma hdr_len : length (view a (start g)) = BSIZE.
Proof. exact (proj1 (brep_length c a _ R (in_disk_start g a bl T))). Qed.
Lemma bl_small : (length bl <= LOGSIZE)%nat.
Proof. pose proof (ln_room _ _ _ T). unfold NBUF, LOGSIZE in *. lia. Qed.
Lemma clean_home b : home g b -> in_disk a b -> (b ∉ bl) -> view a b = ondisk a b.
Proof.
  intros Hb Hd Hn. apply (brep_clean c a b R Hd); [by rewrite Hh|].
  rewrite (tx_pinned _ _ _ Tx). by rewrite elem_of_list_to_set.
Qed.
Lemma clear_hdr_n : hdr_n (clear_hdr g a bl) = 0.
Proof.
  unfold clear_hdr. rewrite header_n; [done| |simpl; lia]. apply header_length. apply hdr_len.
Qed.

(** Before the header is written the disk holds the old contents. *)
Lemma crash_early k : (k <= length bl)%nat ->
  crash_disk k (start g) = ondisk a (start g) /\ forall b, home g b -> crash_disk k b = ondisk a b.
Proof.
  intros Hk. assert (Hl : length (log_ws g a bl) = length bl) by apply length_imap.
  unfold crash_disk, commit_ws. rewrite take_app_le by lia.
  assert (Hsub : forall w, w ∈ take k (log_ws g a bl) -> w ∈ log_ws g a bl) by (intros w; apply subseteq_take).
  split; [|intros b Hb]; apply apply_writes_notin.
  - intros Hin. apply list_elem_of_fmap in Hin as (w & E & Hw). apply Hsub, (log_ws_area _ _ _ T) in Hw. lia.
  - by eapply log_ws_not_home.
Qed.

(** Once the header is written, and until it is cleared, the header names the
    blocks, the log area holds their new contents, other blocks are current. *)
Lemma crash_middle m : (m <= length bl)%nat ->
  let d := crash_disk (Datatypes.S (length bl + m)) in
  d (start g) = commit_hdr g a bl /\
  (forall i b, bl !! i = Some b -> d (start g + Z.of_nat i + 1) = view a b) /\
  (forall b, home g b -> in_disk a b -> b ∈ bl \/ d b = view a b).
Proof.
  intros Hm d. pose proof (ln_fits _ _ _ T) as Hfit.
  assert (Hl : length (log_ws g a bl) = length bl) by apply length_imap.
  assert (Hd : d = apply_writes (take m (home_ws a bl))
     (disk_set (apply_writes (log_ws g a bl) (ondisk a)) (start g) (commit_hdr g a bl))).
  { unfold d, crash_disk, commit_ws. rewrite take_app_ge by lia.
    replace (Datatypes.S (length bl + m) - length (log_ws g a bl))%nat with (Datatypes.S m) by lia. cbn [take].
    rewrite take_app_le by (unfold home_ws; rewrite length_fmap; lia). by rewrite apply_writes_app. }
  assert (Hout : forall n, start g <= n < start g + lsize g -> n ∉ (take m (home_ws a bl)).*1).
  { intros n Hn Hin. apply (area_not_home g a bl n T Hn). rewrite fmap_take in Hin. by apply subseteq_take in Hin. }
  rewrite Hd. split_and!.
  - rewrite apply_writes_notin by (apply Hout; lia). apply disk_set_eq.
  - intros i b Hi. pose proof (lookup_lt_Some _ _ _ Hi). rewrite apply_writes_notin by (apply Hout; lia).
    rewrite disk_set_ne by lia. by apply log_area_view.
  - intros b Hb Hin. destruct (decide (b ∈ bl)) as [?|Hn]; [by left|right].
    rewrite apply_writes_notin.
    + rewrite disk_set_ne by (unfold home in Hb; lia). rewrite apply_writes_notin; [by rewrite clean_home|].
      by eapply log_ws_not_home.
    + intros Hx. rewrite fmap_take in Hx. apply subseteq_take in Hx. by rewrite (home_ws_fst g) in Hx.
Qed.

(** When all is done the header is empty and the disk is current. *)
Lemma crash_late k : (Datatypes.S (length bl + length bl) < k)%nat ->
  hdr_n (crash_disk k (start g)) = 0 /\ forall b, home g b -> in_disk a b -> crash_disk k b = view a b.
Proof.
  intros Hk. pose proof (ln_fits _ _ _ T) as Hfit.
  assert (Hl : length (commit_ws g a bl) = (2 + length bl + length bl)%nat).
  { unfold commit_ws, log_ws, home_ws. rewrite length_app. cbn [length]. rewrite length_app, length_imap, length_fmap. simpl. lia. }
  unfold crash_disk. rewrite take_ge by lia. unfold commit_ws.
  rewrite apply_writes_app, apply_writes_cons, apply_writes_app, apply_writes_cons.
  split; [unfold apply_writes at 1; simpl; rewrite disk_set_eq; apply clear_hdr_n|].
  intros b Hb Hin. unfold apply_writes at 1. cbn [foldl]. rewrite disk_set_ne by (unfold home in Hb; lia).
  destruct (decide (b ∈ bl)) as [Hi|Hn].
  - apply apply_writes_in; [|by rewrite (home_ws_fst g)].
    intros w Hw. by apply list_elem_of_fmap in Hw as (e & -> & _).
  - rewrite apply_writes_notin by (by rewrite (home_ws_fst g)).
    rewrite disk_set_ne by (unfold home in Hb; lia). rewrite apply_writes_notin; [by rewrite clean_home|].
    by eapply log_ws_not_home.
Qed.
End Crash.

(** The machine after a crash that left the disk contents [d], started again:
    an empty cache over that disk, and the log area where it was. *)
Record booted (g : log) (a : cabs) (sz : Z) (d : Z -> bytes) : Prop := {
  bt_area : log_area g a;
  bt_held : held a = ∅;
  bt_pinned : pinned a = ∅;
  bt_size : dsize a = sz;
  bt_disk n : in_disk a n -> ondisk a n = d n
}.

Lemma booted_view g c a sz d n : booted g a sz d -> brep c a -> in_disk a n -> view a n = d n.
Proof.
  intros B R Hn. rewrite <-(bt_disk _ _ _ _ B n Hn).
  apply (brep_clean c a n R Hn); [by rewrite (bt_held _ _ _ _ B)|rewrite (bt_pinned _ _ _ _ B); set_solver].
Qed.

(** Recovery of a disk with a valid header leaves [new] in the home blocks when
    that is what the disk means. *)
Lemma recover_to g c a sz d (new : Z -> bytes) : booted g a sz d -> brep c a -> 0 < lsize g ->
  hdr_valid g sz (d (start g)) ->
  (forall b, home g b -> in_disk a b -> recovered (start g) d b = new b) ->
  exists g' c' a', recover_from_log (LState g c) = Ok (tt, LState g' c') /\ lh_n g' = 0 /\ brep c' a' /\
    (forall b, home g b -> in_disk a b -> ondisk a' b = new b).
Proof.
  intros B R Hs HV Hnew. pose proof (bt_area _ _ _ _ B) as A. pose proof A as [A1 A2 A3 A4 A5].
  assert (Hst : view a (start g) = d (start g)) by (eapply booted_view; [done..|unfold in_disk; lia]).
  assert (Hlog : logged (start g) (view a) = logged (start g) d).
  { unfold logged. rewrite Hst. apply list_fmap_ext. intros i j Hj. apply lookup_seq in Hj as [-> Hj].
    f_equal. eapply booted_view; [done..|]. destruct HV as [HV _]. unfold in_disk. lia. }
  pose proof (recover_run g c a A (bt_held _ _ _ _ B) (bt_pinned _ _ _ _ B) R) as Hrun.
  rewrite Hst, (bt_size _ _ _ _ B), Hlog in Hrun. specialize (Hrun HV).
  apply wp_ok in Hrun as ([] & s & Hr & g' & c' & -> & Hn & R'). exists g', c'. eexists.
  split; [exact Hr|]. split; [done|]. split; [exact R'|].
  intros b Hb Hin. rewrite (recovered_home g a d _ b Hb Hs), <-Hnew by done. unfold recovered.
  destruct (decide (b ∈ (logged (start g) d).*1)) as [Hi|Hn'].
  - by apply apply_writes_same.
  - rewrite !apply_writes_notin by done. by apply (bt_disk _ _ _ _ B).
Qed.

Lemma commit_hdr_valid g c a bl d : log_tx g a bl -> brep c a -> d (start g) = commit_hdr g a bl ->
  hdr_valid g (dsize a) (d (start g)) /\ hdr_n (d (start g)) = Z.of_nat (length bl) /\
  forall i b, bl !! i = Some b -> hdr_block (d (start g)) i = b.
Proof.
  intros Tx R Hd. pose proof (tx_names _ _ _ Tx) as T. rewrite Hd.
  pose proof (hdr_len g c a bl Tx R) as Hlen. pose proof (bl_small g a bl Tx) as Hbl.
  assert (Hn : hdr_n (commit_hdr g a bl) = Z.of_nat (length bl)) by by apply header_n.
  assert (Hb : forall i b, bl !! i = Some b -> hdr_block (commit_hdr g a bl) i = b).
  { intros i b Hi. apply header_block; try done. destruct (ln_home _ _ _ T b) as [_ Hin].
    { by eapply list_elem_of_lookup_2. }
    pose proof (la_dsize _ _ (ln_area _ _ _ T)). unfold in_disk in Hin. lia. }
  pose proof (ln_fits _ _ _ T). pose proof (ln_room _ _ _ T).
  split; [|done]. split; [lia|]. split; [lia|].
  - intros b Hin. unfold hdr_blocks in Hin. apply list_elem_of_fmap in Hin as (i & -> & Hi).
    apply elem_of_seq in Hi. rewrite Hn, Nat2Z.id in Hi.
    destruct (lookup_lt_is_Some_2 bl i ltac:(lia)) as [e He]. rewrite (Hb i e He).
    apply (ln_home _ _ _ T). by eapply list_elem_of_lookup_2.
Qed.

Lemma empty_hdr_valid g sz x : hdr_n x = 0 -> 0 < lsize g -> hdr_valid g sz x.
Proof.
  intros Hx Hs. unfold hdr_valid, hdr_blocks. rewrite Hx. split; [lia|]. split; [unfold NBUF; lia|].
  intros b Hb. by apply elem_of_nil in Hb.
Qed.

(** What a crash after [k] writes of a commit means. *)
Lemma crash_meaning g c a bl k : log_tx g a bl -> held a = ∅ -> brep c a ->
  let d := crash_disk g a bl k in
  hdr_valid g (dsize a) (d (start g)) /\
  forall b, home g b -> in_disk a b ->
    recovered (start g) d b = if decide (k <= length bl)%nat then ondisk a b else view a b.
Proof.
  intros Tx Hh R d. pose proof (tx_names _ _ _ Tx) as T. pose proof (ln_fits _ _ _ T) as Hfit.
  destruct (decide (k <= length bl)%nat) as [Hk|Hk].
  - destruct (crash_early g a bl Tx k Hk) as [E1 E2]. fold d in E1, E2. pose proof (tx_clean _ _ _ Tx) as Hc.
    rewrite <-E1 in Hc. split; [apply empty_hdr_valid; [done|lia]|].
    intros b Hb _. rewrite recovered_empty by done. by apply E2.
  - destruct (decide (k <= Datatypes.S (length bl + length bl))%nat) as [Hk2|Hk2].
    + destruct (crash_middle g c a bl Tx Hh R (k - length bl - 1) ltac:(lia)) as (E1 & E2 & E3).
      replace (Datatypes.S (length bl + (k - length bl - 1))) with k in * by lia. fold d in E1, E2, E3.
      destruct (commit_hdr_valid g c a bl d Tx R E1) as (V1 & V2 & V3). split; [done|].
      intros b Hb Hin. apply (recovered_committed _ d bl (view a)); [done| |by apply E3].
      intros i e Hi. split; [by apply V3|by apply E2].
    + destruct (crash_late g c a bl Tx Hh R k ltac:(lia)) as [E1 E2]. fold d in E1, E2.
      split; [apply empty_hdr_valid; [done|lia]|].
      intros b Hb Hin. rewrite recovered_empty by done. by apply E2.
Qed.

(** ** Recording a block in a transaction *)
Lemma absorb_spec l : forall bl i b, take (length bl) l = bl ->
  (forall e, e ∈ bl -> 0 <= e < 2147483648) ->
  exists j, absorb l i (length bl) b = (i + j)%nat /\
    ((b ∈ bl /\ bl !! j = Some b) \/ ((b ∉ bl) /\ j = length bl)).
Proof.
  induction l as [|x l IH]; intros bl i b Ht Hs.
  { destruct bl; [|done]. exists 0%nat. simpl. split; [lia|]. right. split; [set_solver|done]. }
  destruct bl as [|e bl]; simpl in *.
  { exists 0%nat. split; [lia|]. right. split; [set_solver|done]. }
  injection Ht as -> Ht. assert (He : 0 <= e < 2147483648) by (apply Hs; by left).
  rewrite u32_small by lia. destruct (Z.eqb_spec e b) as [->|Hne].
  - exists 0%nat. split; [lia|]. left. split; [by left|done].
  - destruct (IH bl (Datatypes.S i) b Ht) as (j & Hj & Hc); [intros; apply Hs; by right|].
    exists (Datatypes.S j). split; [lia|]. destruct Hc as [[H1 H2]|[H1 H2]].
    + left. split; [by right|done].
    + right. split; [by apply not_elem_of_cons|lia].
Qed.

Definition add_block (b : Z) (bl : list Z) : list Z := if decide (b ∈ bl) then bl else bl ++ [b].

(** The header in memory after recording [b] at index [j]. *)
Definition record_block (j : nat) (b : Z) (bl : list Z) (g : log) : log :=
  let g1 := set_lh_block (<[j := b]> (lh_block g)) g in
  if decide (b ∈ bl) then g1 else set_lh_n (Z.of_nat (length bl) + 1) g1.

Lemma record_tx g a bl b j : log_tx g a bl -> Z.of_nat (length bl) + 1 < lsize g -> (length bl + 1 < NBUF)%nat ->
  home g b -> in_disk a b -> (j < length (lh_block g))%nat ->
  (b ∈ bl /\ bl !! j = Some b \/ (b ∉ bl) /\ j = length bl) ->
  log_tx (record_block j b bl g) (pin b a) (add_block b bl).
Proof.
  intros Tx Hfit Hnb Hb Hin Hjl Hc. pose proof (tx_names _ _ _ Tx) as T.
  pose proof T as [[A1 A2 A3 A4 A5] N1 N2 N3 N4 N5 N6]. set (g2 := record_block j b bl g).
  assert (Hg : start g2 = start g /\ lsize g2 = lsize g /\ ldev g2 = ldev g /\
    lh_block g2 = <[j := b]> (lh_block g)).
  { unfold g2, record_block. by destruct (decide (b ∈ bl)). }
  destruct Hg as (G1 & G2 & G3 & G6).
  assert (Hb' : forall e, e ∈ add_block b bl -> e = b \/ e ∈ bl).
  { intros e. unfold add_block. case_decide; [by right|]. rewrite elem_of_app, list_elem_of_singleton. tauto. }
  assert (Hset : list_to_set (add_block b bl) = {[b]} ∪ (list_to_set bl : gset Z)).
  { unfold add_block. case_decide; [set_solver|]. rewrite list_to_set_app_L. set_solver. }
  assert (Hlen : (length (add_block b bl) <= length bl + 1)%nat).
  { unfold add_block. case_decide; [lia|]. rewrite length_app. simpl. lia. }
  split.
  + split; rewrite ?G1, ?G2, ?G3, ?G6.
    * split; rewrite ?G1, ?G2, ?G3, ?G6, ?length_insert; done.
    * unfold g2, record_block, add_block. case_decide; simpl; [done|]. rewrite length_app. simpl. lia.
    * destruct Hc as [[H1 H2]|[H1 ->]]; unfold add_block.
      -- rewrite decide_True by done. rewrite list_insert_id; [done|]. by eapply names_lookup.
      -- rewrite decide_False by done. rewrite length_app. simpl. rewrite Nat.add_1_r.
         rewrite (take_S_r _ _ b) by (by apply list_lookup_insert_eq). f_equal. by rewrite take_insert_ge.
    * lia.
    * lia.
    * intros e He. unfold home. rewrite G1, G2. destruct (Hb' e He) as [->|He']; [done|by apply N5].
    * rewrite Hset. simpl. set_solver.
  + unfold add_block. case_decide; [apply Tx|]. apply NoDup_app. split_and!; [apply Tx| |apply NoDup_singleton].
    intros e He E. apply list_elem_of_singleton in E. by subst.
  + rewrite Hset. simpl. by rewrite (tx_pinned _ _ _ Tx).
  + rewrite G1. apply Tx.
Qed.
(** The blocks and the cache after recording [b]. *)
Lemma log_write_run g c a bl b i : log_tx g a bl -> lg_lock g = false -> 1 <= outstanding g ->
  Z.of_nat (length bl) + 1 < lsize g -> (length bl + 1 < NBUF)%nat ->
  brep c a -> held a !! b = Some i -> home g b -> in_disk a b ->
  exists g' c', log_write i (LState g c) = Ok (tt, LState g' c') /\
    brep c' (pin b a) /\ log_tx g' (pin b a) (add_block b bl) /\
    lg_lock g' = false /\ outstanding g' = outstanding g /\ start g' = start g /\ lsize g' = lsize g /\
    committing g' = committing g.
Proof.
  intros Tx Hlk Ho Hfit Hnb R Hi Hb Hin. pose proof (tx_names _ _ _ Tx) as T.
  pose proof T as [[A1 A2 A3 A4 A5] N1 N2 N3 N4 N5 N6]. 
  assert (Hsmall : forall e, e ∈ bl -> 0 <= e < 2147483648).
  { intros e He. destruct (N5 e He) as [_ H]. unfold in_disk in H. lia. }
  destruct (absorb_spec (lh_block g) bl 0 b N2 Hsmall) as (j & Hj & Hc). simpl in Hj.
  assert (Hjl : (j < length (lh_block g))%nat).
  { rewrite A5. unfold LOGSIZE, NBUF in *. destruct Hc as [[_ Hc]|[_ Hc]]; [apply lookup_lt_Some in Hc; lia|lia]. }
  assert (Hsb : s32 b = b) by (apply s32_small; unfold in_disk in Hin; lia).
  destruct (buf_dirty_law c a b i R Hi) as (c1 & Hdirty & R1).
  set (g1 := set_lh_block (<[j := b]> (lh_block g)) g). set (g2 := record_block j b bl g).
  exists g2, c1. split.
  - unfold log_write. rewrite bind_logv. cbn [id].
    destruct (Z.leb_spec (Z.of_nat LOGSIZE) (lh_n g)); [unfold LOGSIZE, NBUF in *; lia|].
    destruct (Z.leb_spec (lsize g - 1) (lh_n g)); [lia|]. cbn [orb].
    rewrite (bind_ok _ _ _ tt _ eq_refl). destruct (Z.ltb_spec (outstanding g) 1); [lia|].
    rewrite (bind_ok _ _ _ tt _ eq_refl).
    rewrite (bind_ok log_acquire _ _ tt (LState (set_lg_lock true g) c)).
    2:{ unfold log_acquire, zoom, lk_acquire. simpl. by rewrite Hlk. }
    rewrite (bind_ok (cache (buf_blockno i)) _ _ b (LState (set_lg_lock true g) c)).
    2:{ unfold cache, zoom. simpl. by rewrite (buf_blockno_law c a b i R Hi). }
    rewrite bind_logv. cbn [lh_block lh_n set_lg_lock]. rewrite N1, Nat2Z.id, Hj, Hsb.
    rewrite (bind_ok (lh_set j b) _ _ tt (LState (set_lg_lock true g1) c)).
    2:{ unfold lh_set. rewrite bind_logv. cbn [lh_block set_lg_lock]. by rewrite decide_True by done. }
    rewrite bind_logv. cbn [lh_n set_lg_lock g1 set_lh_block]. rewrite N1.
    rewrite (bind_ok _ _ _ tt (LState (set_lg_lock true g2) c)).
    2:{ unfold g2, record_block. destruct Hc as [[E1 E2]|[E1 ->]].
        - rewrite decide_True by done. apply lookup_lt_Some in E2.
          destruct (Z.eqb_spec (Z.of_nat j) (Z.of_nat (length bl))); [lia|done].
        - rewrite decide_False by done. by rewrite Z.eqb_refl. }
    rewrite (bind_ok (cache (buf_dirty i)) _ _ tt (LState (set_lg_lock true g2) c1)).
    2:{ unfold cache, zoom. simpl. by rewrite Hdirty. }
    unfold log_release, zoom, lk_release. simpl. unfold g2, record_block. destruct (decide (b ∈ bl)); simpl; by rewrite <-Hlk.
  - split; [done|]. split; [by apply record_tx|]. unfold g2, record_block. by destruct (decide (b ∈ bl)).
Qed.

(** ** A transaction from begin_op to end_op *)

(** What file-system code does to one block. *)
Definition update (b : Z) (x : bytes) : M (lstate S) unit :=
  bp ← cache (bread 1 b);
  cache (buf_put bp x) ;;
  log_write bp ;;
  cache (brelse bp).
Definition transaction (ups : list (Z * bytes)) : M (lstate S) unit :=
  begin_op ;;
  for_each ups (fun w => update w.1 w.2) ;;
  end_op.

(** The log at rest. *)
Record log_idle (g : log) (a : cabs) : Prop := {
  id_tx : log_tx g a [];
  id_lock : lg_lock g = false;
  id_out : outstanding g = 0;
  id_com : committing g = 0;
  id_held : held a = ∅
}.

(** The state while a transaction has made the updates [ups] to state [a]. *)
Record log_open (a : cabs) (ups : list (Z * bytes)) (g : log) (a1 : cabs) (bl : list Z) : Prop := {
  op_tx : log_tx g a1 bl;
  op_lock : lg_lock g = false;
  op_out : outstanding g = 1;
  op_com : committing g = 0;
  op_held : held a1 = ∅;
  op_view : view a1 = apply_writes ups (view a);
  op_disk : ondisk a1 = ondisk a;
  op_size : dsize a1 = dsize a;
  op_len : (length bl <= length ups)%nat
}.

Lemma update_run a ups g c a1 bl b x : log_open a ups g a1 bl -> brep c a1 -> home g b -> in_disk a b ->
  length x = BSIZE -> Z.of_nat (length ups) + 1 < lsize g -> (length ups + 1 < NBUF)%nat ->
  wp (update b x) (fun _ s => exists g' c' a' bl', s = LState g' c' /\ brep c' a' /\
    start g' = start g /\ lsize g' = lsize g /\ log_open a (ups ++ [(b, x)]) g' a' bl') (LState g c).
Proof.
  intros [Tx O1 O2 O3 O4 O5 O6 O7 O8] R Hb Hin Hx Hfit Hroom.
  assert (Hin1 : in_disk a1 b) by (unfold in_disk; by rewrite O7).
  unfold update. rewrite wp_bind. apply (wp_bread g c a1 R b); [done|by rewrite O4| |].
  { apply room_list with (b :: bl); [|simpl; lia]. rewrite O4, dom_empty_L, (tx_pinned _ _ _ Tx). simpl. set_solver. }
  intros i c1 R1. rewrite wp_bind. apply (wp_buf_put g c1 _ R1 b i); [apply lookup_insert_eq|done|].
  intros c2 R2. set (a2 := edit b x (hold b i a1)) in *.
  assert (Tx2 : log_tx g a2 bl) by by destruct Tx as [[[] ? ? ? ? ? ?] ? ? ?].
  destruct (log_write_run g c2 a2 bl b i) as (g' & c3 & Hrun & R3 & Tx3 & E1 & E2 & E3 & E4 & E5);
    [done|done|lia|lia|lia|done|apply lookup_insert_eq|done|done|].
  rewrite wp_bind. unfold wp at 1. rewrite Hrun.
  apply (wp_brelse g' c3 _ R3 b i); [apply lookup_insert_eq|left; simpl; set_solver|].
  intros c4 R4. exists g', c4, (unhold b (pin b a2)), (add_block b bl). split_and!; [done..|].
  assert (Hh : held (unhold b (pin b a2)) = ∅) by (simpl; rewrite O4; by rewrite delete_insert_id).
  split; try done; [ | by rewrite E2 | by rewrite E5 | simpl; by rewrite O5, apply_writes_app | ].
  - by destruct Tx3 as [[[] ? ? ? ? ? ?] ? ? ?].
  - unfold add_block. case_decide; rewrite !length_app; simpl; lia.
Qed.

Lemma commit_ws_length g a bl : length (commit_ws g a bl) = (2 + length bl + length bl)%nat.
Proof.
  unfold commit_ws, log_ws, home_ws. rewrite length_app. cbn [length].
  rewrite length_app, length_imap, length_fmap. simpl. lia.
Qed.

(** A commit empties the log and makes the disk current. *)
Lemma commit_done g c a bl : log_tx g a bl -> held a = ∅ -> brep c a ->
  wp commit (fun _ s => exists c' a', s = LState (set_lh_n 0 g) c' /\ brep c' a' /\
    log_tx (set_lh_n 0 g) a' [] /\ held a' = ∅ /\ dsize a' = dsize a /\
    (exists ws, dwrites a' = dwrites a ++ ws /\
       (bl = [] /\ ws = [] \/ bl <> [] /\ ws = commit_ws g a bl)) /\
    forall b, home g b -> in_disk a b -> ondisk a' b = view a b) (LState g c).
Proof.
  intros Tx Hh R. pose proof (tx_names _ _ _ Tx) as T. destruct (decide (bl = [])) as [->|Hne].
  - unfold commit. rewrite wp_bind. apply wp_logv. rewrite (ln_n _ _ _ T). simpl.
    assert (Hg : set_lh_n 0 g = g). { pose proof (ln_n _ _ _ T). destruct g; simpl in *. by subst. }
    exists c, a. rewrite Hg. split_and!; try done.
    + exists []. rewrite app_nil_r. split; [done|by left].
    + intros b Hb Hin. symmetry. eapply clean_home; try done. set_solver.
  - eapply wp_mono; [by apply commit_run|]. intros [] s (c' & -> & R').
    exists c', (write_all (commit_ws g a bl) a).
    destruct (crash_late g c a bl Tx Hh R (length (commit_ws g a bl))) as [E1 E2].
    { rewrite commit_ws_length. lia. }
    unfold crash_disk in E1, E2. rewrite take_ge in E1, E2 by done.
    assert (Hp : pinned (write_all (commit_ws g a bl) a) = ∅).
    { rewrite write_all_pinned, (tx_pinned _ _ _ Tx). unfold commit_ws.
      rewrite fmap_app. cbn [fmap list_fmap]. rewrite fmap_app, (home_ws_fst g).
      rewrite list_to_set_app_L. simpl. rewrite list_to_set_app_L. set_solver. }
    split_and!; try done.
    + split; [eapply names_empty; [by apply names_write|done]|constructor|by rewrite Hp|].
      simpl. by rewrite write_all_ondisk.
    + by rewrite write_all_held.
    + apply write_all_dsize.
    + exists (commit_ws g a bl). rewrite write_all_dwrites. split; [done|by right].
    + intros b Hb Hin. rewrite write_all_ondisk. by apply E2.
Qed.

Lemma begin_run g c a : log_idle g a -> brep c a ->
  begin_op (LState g c) = Ok (tt, LState (set_outstanding 1 g) c).
Proof.
  intros [Tx I1 I2 I3 I4] R. pose proof (ln_n _ _ _ (tx_names _ _ _ Tx)) as Hn. destruct g; simpl in *. subst.
  done.
Qed.

Lemma end_run a ups g c a1 bl : log_open a ups g a1 bl -> brep c a1 ->
  wp end_op (fun _ s => exists g' c' a', s = LState g' c' /\ brep c' a' /\ log_idle g' a' /\ dsize a' = dsize a1 /\
    forall b, home g b -> in_disk a1 b -> ondisk a' b = view a1 b) (LState g c).
Proof.
  intros [Tx O1 O2 O3 O4 O5 O6 O7 O8] R.
  set (g1 := set_committing 1 (set_outstanding 0 g)).
  assert (Tx1 : log_tx g1 a1 bl) by by destruct Tx as [[[] ? ? ? ? ? ?] ? ? ?].
  pose proof (commit_done g1 c a1 bl Tx1 O4 R) as Hc. apply wp_ok in Hc as ([] & s & Hrun & Hpost).
  destruct Hpost as (c' & a' & -> & R' & Tx' & Hh' & Hsz & _ & Hd).
  assert (Hstart : end_op (LState g c) =
    (commit ;; log_acquire ;; logm (set_committing 0) ;; logm wake_log ;; log_release) (LState g1 c)).
  { unfold g1. clear - O1 O2 O3. destruct g; simpl in *; subst. reflexivity. }
  unfold wp. rewrite Hstart, (bind_ok _ _ _ _ _ Hrun).
  set (g2 := wake_log (set_committing 0 (set_lh_n 0 g1))).
  assert (Hend : (log_acquire ;; logm (set_committing 0) ;; logm wake_log ;; log_release)
    (LState (set_lh_n 0 g1) c') = Ok (tt, LState g2 c')).
  { unfold g2, g1. clear - O1. destruct g; simpl in *; subst. reflexivity. }
  rewrite Hend. exists g2, c', a'. split_and!; try done. split; try done.
  by destruct Tx' as [[[] ? ? ? ? ? ?] ? ? ?].
Qed.

(** A transaction applies its updates.  From a log at rest, beginning an
    operation, updating blocks through the cache and the log, and ending the
    operation runs without panicking or waiting, leaves the log at rest, and
    the disk holds the old contents with exactly the updates applied. *)
Theorem transaction_applies_updates g c a ups : log_idle g a -> brep c a ->
  Z.of_nat (length ups) < lsize g -> (length ups < NBUF)%nat ->
  Forall (fun w => home g w.1 /\ in_disk a w.1 /\ length w.2 = BSIZE) ups ->
  exists g' c' a', transaction ups (LState g c) = Ok (tt, LState g' c') /\ brep c' a' /\ log_idle g' a' /\
    forall b, home g b -> in_disk a b -> ondisk a' b = apply_writes ups (ondisk a) b.
Proof.
  intros I R Hfit Hroom Hups. pose proof I as [Tx I1 I2 I3 I4].
  set (g1 := set_outstanding 1 g).
  assert (Hopen : log_open a [] g1 a []).
  { split; try done. by destruct Tx as [[[] ? ? ? ? ? ?] ? ? ?]. }
  assert (Hloop : wp (for_each ups (fun w => update w.1 w.2)) (fun _ s => exists g' c' a' bl,
    s = LState g' c' /\ brep c' a' /\ start g' = start g /\ lsize g' = lsize g /\ log_open a ups g' a' bl)
    (LState g1 c)).
  { apply (wp_for_each _ _ (fun done s => exists g' c' a' bl,
      s = LState g' c' /\ brep c' a' /\ start g' = start g /\ lsize g' = lsize g /\ log_open a done g' a' bl)).
    - by exists g1, c, a, [].
    - intros done [b x] todo s Hl (g' & c' & a' & bl & -> & R' & S1 & S2 & Ho). subst ups.
      rewrite length_app in Hfit, Hroom. simpl in Hfit, Hroom.
      apply Forall_app in Hups as [_ Hups]. apply Forall_cons in Hups as [(U1 & U2 & U3) _].
      eapply wp_mono; [apply (update_run a done g' c' a' bl b x); try done; simpl in *|].
      + unfold home in *. by rewrite S1, S2.
      + lia.
      + lia.
      + intros [] s (g'' & c'' & a'' & bl' & -> & R'' & S1' & S2' & Ho'). exists g'', c'', a'', bl'.
        split_and!; try done; congruence.
    - done. }
  apply wp_ok in Hloop as ([] & s & Hrun & g2 & c2 & a2 & bl & -> & R2 & S1 & S2 & Ho).
  pose proof (end_run _ _ _ _ _ _ Ho R2) as Hend.
  apply wp_ok in Hend as ([] & s & Hrun2 & g3 & c3 & a3 & -> & R3 & I3' & Hsz & Hd). destruct Ho.
  exists g3, c3, a3. split_and!; try done.
  - unfold transaction. rewrite (bind_ok _ _ _ _ _ (begin_run g c a I R)).
    by rewrite (bind_ok _ _ _ _ _ Hrun).
  - intros b Hb Hin. rewrite Hd, op_view0.
    + destruct (decide (b ∈ ups.*1)) as [Hi|Hn]; [by apply apply_writes_same|].
      rewrite !apply_writes_notin by done. by eapply clean_home; try done; set_solver.
    + unfold home in *. by rewrite S1, S2.
    + unfold in_disk. by rewrite op_size0.
Qed.

(** Installing only some of the logged blocks changes neither the header nor
    the log area. *)
Lemma partial_install g a k : log_area g a -> hdr_valid g (dsize a) (ondisk a (start g)) ->
  let d := apply_writes (take k (logged (start g) (ondisk a))) (ondisk a) in
  d (start g) = ondisk a (start g) /\ logged (start g) d = logged (start g) (ondisk a).
Proof.
  intros A (V1 & V2 & V3) d.
  assert (Hout : forall n, start g <= n < start g + lsize g -> d n = ondisk a n).
  { intros n Hn. apply apply_writes_notin. intros Hin. rewrite fmap_take in Hin. apply subseteq_take in Hin.
    rewrite logged_install in Hin. apply list_elem_of_fmap in Hin as (w & E & Hw).
    apply install_ws_elem in Hw as (i & b & Hi & ->). apply list_elem_of_lookup_2, V3 in Hi as [Hi _].
    simpl in E. unfold home in Hi. lia. }
  assert (E : d (start g) = ondisk a (start g)) by (apply Hout; lia). split; [done|].
  unfold logged. rewrite E. apply list_fmap_ext. intros i j Hj. apply lookup_seq in Hj as [-> Hj].
  f_equal. apply Hout. lia.
Qed.

(** A transaction that has updated one block is ready to commit. *)
Lemma open_update g c a b x : log_idle g a -> brep c a -> home g b -> in_disk a b -> length x = BSIZE ->
  1 < lsize g ->
  exists g' c' a' bl, log_tx g' a' bl /\ held a' = ∅ /\ brep c' a' /\ view a' b = x.
Proof.
  intros [Tx I1 I2 I3 I4] R Hb Hin Hx Hs.
  assert (Hopen : log_open a [] (set_outstanding 1 g) a []).
  { split; try done. by destruct Tx as [[[] ? ? ? ? ? ?] ? ? ?]. }
  pose proof (update_run a [] (set_outstanding 1 g) c a [] b x Hopen R Hb Hin Hx ltac:(simpl; lia)
    ltac:(unfold NBUF; simpl; lia)) as Hw.
  apply wp_ok in Hw as (_ & _ & _ & g' & c' & a' & bl & _ & R' & _ & _ & Ho). destruct Ho.
  exists g', c', a', bl. split_and!; try done. rewrite op_view0. apply disk_set_eq.
Qed.
End Run.

(** C1: a commit is atomic.  Take a transaction that is ready to commit and
    any crash, after [k] of the disk writes the commit makes.  The machine that
    starts again on the disk so left recovers, and what it then finds outside
    the log area is everything as it was before the transaction if the crash
    came before the header was written, and everything as the transaction left
    it otherwise; never a mixture.  Without a crash the commit ends with the disk
    current and the log empty. *)
Theorem commit_crash_atomic {S} {BC : BufCache S} (g : log) (c : S) (a : cabs) (bl : list Z) :
  log_tx g a bl -> held a = ∅ -> brep c a ->
  exists c' a' ws,
    commit (LState g c) = Ok (tt, LState (set_lh_n 0 g) c') /\
    brep c' a' /\ log_tx (set_lh_n 0 g) a' [] /\ dwrites a' = dwrites a ++ ws /\
    (forall b, home g b -> in_disk a b -> ondisk a' b = view a b) /\
    forall k g2 c2 a2,
      start g2 = start g -> lsize g2 = lsize g -> brep c2 a2 ->
      booted g2 a2 (dsize a) (apply_writes (take k ws) (ondisk a)) ->
      exists g3 c3 a3,
        recover_from_log (LState g2 c2) = Ok (tt, LState g3 c3) /\ brep c3 a3 /\
        forall b, home g b -> in_disk a b ->
          ondisk a3 b = if decide (k <= length bl)%nat then ondisk a b else view a b.
Proof.
  intros Tx Hh R. pose proof (commit_done g c a bl Tx Hh R) as Hc.
  apply wp_ok in Hc as ([] & s & Hrun & c' & a' & -> & R' & Tx' & Hh' & Hsz & (ws & Hws & Hcase) & Hd).
  exists c', a', ws. split_and!; try done. intros k g2 c2 a2 G1 G2 R2 B.
  assert (Hhome : forall b, home g2 b <-> home g b) by (intros b; unfold home; by rewrite G1, G2).
  assert (Hin : forall b, in_disk a2 b <-> in_disk a b) by (intros b; unfold in_disk; by rewrite (bt_size _ _ _ _ B)).
  assert (Hmean : hdr_valid g (dsize a) (apply_writes (take k ws) (ondisk a) (start g)) /\
    forall b, home g b -> in_disk a b -> recovered (start g) (apply_writes (take k ws) (ondisk a)) b =
      if decide (k <= length bl)%nat then ondisk a b else view a b).
  { destruct Hcase as [[-> ->]|[Hne ->]]; [|by apply (crash_meaning g c a bl k)].
    rewrite take_nil. pose proof (tx_clean _ _ _ Tx) as Hcl. pose proof (ln_fits _ _ _ (tx_names _ _ _ Tx)) as Hf.
    split; [by apply empty_hdr_valid|]. intros b Hb Hi. rewrite recovered_empty by done.
    case_decide; [done|]. symmetry. eapply clean_home; try done. set_solver. }
  destruct Hmean as [HV HM]. pose proof (ln_fits _ _ _ (tx_names _ _ _ Tx)) as Hf.
  destruct (recover_to g2 c2 a2 (dsize a) (apply_writes (take k ws) (ondisk a))
    (fun b => if decide (k <= length bl)%nat then ondisk a b else view a b) B R2)
    as (g3 & c3 & a3 & Hrec & _ & R3 & H3).
  - lia.
  - unfold hdr_valid in *. rewrite G1, G2. destruct HV as (V1 & V2 & V3). split; [done|]. split; [done|].
    intros b Hb. rewrite Hhome. by apply V3.
  - intros b Hb Hi. rewrite G1. apply HM; [by apply Hhome|by apply Hin].
  - exists g3, c3, a3. split; [done|]. split; [done|]. intros b Hb Hi. apply H3; [by apply Hhome|by apply Hin].
Qed.

(** C22: recovery may itself be interrupted.  Whatever valid header the disk
    holds, after any number of the writes that recovery makes, the disk still
    has a valid header and still means the same contents for every block
    outside the log area; so recovering again finishes the job. *)
Theorem recovery_idempotent {S} {BC : BufCache S} (g : log) (c : S) (a : cabs) :
  log_area g a -> held a = ∅ -> pinned a = ∅ -> brep c a -> hdr_valid g (dsize a) (ondisk a (start g)) ->
  exists g' c' a' ws,
    recover_from_log (LState g c) = Ok (tt, LState g' c') /\ brep c' a' /\ dwrites a' = dwrites a ++ ws /\
    (forall b, home g b -> in_disk a b -> ondisk a' b = recovered (start g) (ondisk a) b) /\
    forall k, let d := apply_writes (take k ws) (ondisk a) in
      hdr_valid g (dsize a) (d (start g)) /\
      forall b, home g b -> in_disk a b -> recovered (start g) d b = recovered (start g) (ondisk a) b.
Proof.
  intros A Hh Hp R HV. pose proof A as [A1 A2 A3 A4 A5]. pose proof HV as (V1 & V2 & V3).
  assert (Hclean : forall n, in_disk a n -> view a n = ondisk a n).
  { intros n Hn. apply (brep_clean c a n R Hn); [by rewrite Hh|rewrite Hp; set_solver]. }
  assert (Hst : view a (start g) = ondisk a (start g)) by (apply Hclean; unfold in_disk; lia).
  assert (Hlog : logged (start g) (view a) = logged (start g) (ondisk a)).
  { unfold logged. rewrite Hst. apply list_fmap_ext. intros i j Hj. apply lookup_seq in Hj as [-> Hj].
    f_equal. apply Hclean. unfold in_disk. lia. }
  pose proof (recover_run g c a A Hh Hp R ltac:(by rewrite Hst)) as Hrun. rewrite Hst, Hlog in Hrun.
  set (ws := logged (start g) (ondisk a)) in *. set (x := ondisk a (start g)) in *.
  apply wp_ok in Hrun as ([] & s & Hr & g' & c' & -> & Hn & R'). exists g', c'. eexists. exists (ws ++ [(start g, header x [])]).
  split; [exact Hr|]. split; [exact R'|]. split; [apply write_all_dwrites|].
  split; [intros b Hb Hi; by apply recovered_home; [|lia]|].
  intros k d. assert (Hlen : length x = BSIZE) by (unfold x; apply (brep_length c a _ R); unfold in_disk; lia).
  destruct (decide (k <= length ws)%nat) as [Hk|Hk].
  - assert (Hd : d = apply_writes (take k ws) (ondisk a)) by (unfold d; by rewrite take_app_le).
    destruct (partial_install g a k A HV) as [P1 P2]. fold ws in P1, P2. rewrite <-Hd in P1, P2.
    rewrite P1. split; [done|]. intros b Hb Hi. unfold recovered. rewrite P2. fold ws.
    destruct (decide (b ∈ ws.*1)) as [H1|H1]; [by apply apply_writes_same|].
    rewrite !apply_writes_notin by done. rewrite Hd. apply apply_writes_notin.
    intros Hx. rewrite fmap_take in Hx. by apply subseteq_take in Hx.
  - assert (Hd : d = disk_set (apply_writes ws (ondisk a)) (start g) (header x [])).
    { unfold d. rewrite take_ge by (rewrite length_app; simpl; lia). by rewrite apply_writes_app. }
    assert (H0 : hdr_n (d (start g)) = 0) by (rewrite Hd, disk_set_eq, header_n by (simpl; done || lia); done).
    split; [apply empty_hdr_valid; [done|lia]|]. intros b Hb Hi. rewrite recovered_empty by done.
    rewrite Hd. apply disk_set_ne. unfold home in Hb. lia.
Qed.

(** ** An example: an empty disk of a hundred blocks, its log at block 2 *)
Definition ex_img : Memide.memdisk := Memide.ideinit ∅ (100 * 512).
Definition ex_log : log := Log false 2 30 0 0 1 0 (replicate LOGSIZE 0) 0.

Lemma ex_img_ok : drv_ok ex_img.
Proof. intros n Hn. reflexivity. Qed.

Lemma ex_rep : brep (Bcache.binit ex_img 1) (boot_abs ex_img).
Proof. exact (binit_rep ex_img 1 ex_img_ok). Qed.
Lemma ex_home b : 32 <= b -> home ex_log b.
Proof. by right. Qed.
Lemma ex_in b : 0 <= b < 100 -> in_disk (boot_abs ex_img) b.
Proof. done. Qed.

(** A disk of that size whose log header is empty is at rest. *)
Lemma boot_idle (m : Memide.memdisk) : Memide.disksize m = 100 -> hdr_n (Memide.img_block m 2) = 0 ->
  log_idle ex_log (boot_abs m).
Proof.
  intros Hs Hh. split; try reflexivity. constructor; [|constructor|reflexivity|exact Hh].
  constructor; try reflexivity.
  - constructor; try reflexivity; simpl; rewrite ?Hs; lia.
  - unfold NBUF. simpl. lia.
  - intros b Hb. by apply elem_of_nil in Hb.
Qed.

Lemma ex_idle : log_idle ex_log (boot_abs ex_img).
Proof. by apply boot_idle. Qed.

(** A transaction on block 50, about to commit. *)
Lemma ex_ready : exists (g : log) (c : Bcache.bcache Memide.memdisk) (a : cabs) (bl : list Z),
  log_tx g a bl /\ held a = ∅ /\ brep c a /\ view a 50 = replicate BSIZE 7.
Proof.
  destruct (open_update ex_log (Bcache.binit ex_img 1) (boot_abs ex_img) 50 (replicate BSIZE 7)
    ex_idle ex_rep (ex_home 50 ltac:(lia)) (ex_in 50 ltac:(lia)) eq_refl eq_refl)
    as (g & c & a & bl & H1 & H2 & H3 & H4).
  exists g, c, a, bl. auto.
Qed.

Lemma commit_crash_atomic_witness : exists (g : log) (c : Bcache.bcache Memide.memdisk) (a : cabs),
  exists c' a', commit (LState g c) = Ok (tt, LState (set_lh_n 0 g) c') /\ brep c' a' /\
    view a 50 = replicate BSIZE 7.
Proof.
  destruct ex_ready as (g & c & a & bl & Tx & Hh & R & Hv).
  destruct (commit_crash_atomic g c a bl Tx Hh R) as (c' & a' & ws & H1 & H2 & _).
  exists g, c, a, c', a'. auto.
Defined.

Lemma recovery_idempotent_witness : exists g' c' a', 
  recover_from_log (LState ex_log (Bcache.binit ex_img 1)) = Ok (tt, LState g' c') /\
  brep c' a' /\ ondisk a' 50 = replicate BSIZE 0.
Proof.
  destruct (recovery_idempotent ex_log (Bcache.binit ex_img 1) (boot_abs ex_img))
    as (g' & c' & a' & ws & H1 & H2 & _ & H3 & _).
  - exact (ln_area _ _ _ (tx_names _ _ _ (id_tx _ _ ex_idle))).
  - reflexivity.
  - reflexivity.
  - exact ex_rep.
  - apply empty_hdr_valid; reflexivity.
  - exists g', c', a'. split; [exact H1|]. split; [exact H2|]. rewrite H3.
    + rewrite recovered_empty by reflexivity. reflexivity.
    + apply (ex_home 50). lia.
    + apply (ex_in 50). lia.
Defined.

Lemma transaction_applies_updates_witness : exists g' c' a',
  transaction [(50, replicate BSIZE 7); (60, replicate BSIZE 8); (50, replicate BSIZE 9)]
    (LState ex_log (Bcache.binit ex_img 1)) = Ok (tt, LState g' c') /\
  log_idle g' a' /\ ondisk a' 50 = replicate BSIZE 9.
Proof.
  destruct (transaction_applies_updates ex_log (Bcache.binit ex_img 1) (boot_abs ex_img)
    [(50, replicate BSIZE 7); (60, replicate BSIZE 8); (50, replicate BSIZE 9)])
    as (g' & c' & a' & H1 & H2 & H3 & H4).
  - exact ex_idle.
  - exact ex_rep.
  - reflexivity.
  - unfold NBUF. simpl. lia.
  - repeat (constructor; [split; [apply ex_home; simpl; lia|split; [apply ex_in; simpl; lia|reflexivity]]|]).
    constructor.
  - exists g', c', a'. split; [exact H1|]. split; [exact H3|]. rewrite H4; [reflexivity| |].
    + apply (ex_home 50). lia.
    + apply (ex_in 50). lia.
Defined.
