(* ===== verification/TxDisk.v ===== *)
(** * What the log and the cache promise to the file system

    Inside a transaction the file system reads blocks in, changes them, records
    them in the log and lets them go.  [TxDisk] states this in terms of what the
    blocks are seen to hold; log.c over bio.c provides it. *)
From S2P Require Import Prelude Bytes Spinlock Bio BioProps Log LogProps.

Open Scope Z_scope.

(** The blocks as seen by the transaction, those held (with their buffers), those
    changed but not yet recorded, those recorded, how many may be recorded, and
    which blocks may be used. *)
Record tabs := TAbs {
  tview : Z -> bytes; theld : gmap Z nat; tdirty : gset Z; tlogged : gset Z; tcap : nat;
  usable : Z -> Prop }.

Definition thold (n : Z) (i : nat) (t : tabs) : tabs :=
  TAbs (tview t) (<[n := i]> (theld t)) (tdirty t) (tlogged t) (tcap t) (usable t).
Definition tdrop (n : Z) (t : tabs) : tabs :=
  TAbs (tview t) (delete n (theld t)) (tdirty t) (tlogged t) (tcap t) (usable t).
Definition tedit (n : Z) (x : bytes) (t : tabs) : tabs :=
  TAbs (disk_set (tview t) n x) (theld t) ({[n]} ∪ tdirty t) (tlogged t) (tcap t) (usable t).
Definition trecord (n : Z) (t : tabs) : tabs :=
  TAbs (tview t) (theld t) (tdirty t ∖ {[n]}) ({[n]} ∪ tlogged t) (tcap t) (usable t).

Class TxDisk (S : Type) := {
  trep : S -> tabs -> Prop;
  tx_bread : Z -> Z -> M S nat;
  tx_data : nat -> M S bytes;
  tx_put : nat -> bytes -> M S unit;
  tx_log_write : nat -> M S unit;
  tx_brelse : nat -> M S unit;
  trep_length s t n : trep s t -> usable t n -> length (tview t n) = BSIZE;
  tx_bread_law s t n : trep s t -> usable t n -> theld t !! n = None -> (size (theld t) < 3)%nat ->
    exists i s', tx_bread 1 n s = Ok (i, s') /\ trep s' (thold n i t);
  tx_data_law s t n i : trep s t -> theld t !! n = Some i -> tx_data i s = Ok (tview t n, s);
  tx_put_law s t n i x : trep s t -> theld t !! n = Some i -> length x = BSIZE ->
    exists s', tx_put i x s = Ok (tt, s') /\ trep s' (tedit n x t);
  tx_log_write_law s t n i : trep s t -> theld t !! n = Some i -> (size ({[n]} ∪ tlogged t) <= tcap t)%nat ->
    exists s', tx_log_write i s = Ok (tt, s') /\ trep s' (trecord n t);
  tx_brelse_law s t n i : trep s t -> theld t !! n = Some i -> n ∉ tdirty t ->
    exists s', tx_brelse i s = Ok (tt, s') /\ trep s' (tdrop n t)
}.

(** ** The log provides it *)
Section Log.
Context {S : Type} `{BC : !BufCache S}.

(** A transaction is open on state [s]; blocks changed since they were read in
    are pinned by the log or still held and marked changed. *)
Record in_tx (s : lstate S) (t : tabs) (a : cabs) (bl : list Z) : Prop := {
  it_rep : brep (bc s) a;
  it_tx : log_tx (lg s) a bl;
  it_lock : lg_lock (lg s) = false;
  it_out : 1 <= outstanding (lg s);
  it_view : tview t = view a;
  it_held : theld t = held a;
  it_logged : tlogged t = list_to_set bl;
  it_dirty n i : held a !! n = Some i -> n ∉ tdirty t -> n ∈ bl \/ view a n = ondisk a n;
  it_usable n : usable t n -> home (lg s) n /\ in_disk a n;
  it_usable_held n i : held a !! n = Some i -> usable t n;
  it_cap : (tcap t + 4 <= NBUF)%nat;
  it_fits : Z.of_nat (tcap t) + 2 <= lsize (lg s);
  it_count : (length bl <= tcap t)%nat
}.

Definition log_trep (s : lstate S) (t : tabs) : Prop := exists a bl, in_tx s t a bl.

(** Holding, changing and releasing blocks leave the transaction's record as it
    is. *)
Lemma log_tx_cache g a a' bl : log_tx g a bl -> pinned a' = pinned a -> dsize a' = dsize a -> ondisk a' = ondisk a ->
  log_tx g a' bl.
Proof.
  intros [[[A1 A2 A3 A4 A5] N1 N2 N3 N4 N5 N6] T1 T2 T3] Hp Hd Ho.
  split; [split; [split|..]|..]; rewrite ?Hp, ?Hd, ?Ho; try done.
  intros b Hb. unfold in_disk. rewrite Hd. by apply N5.
Qed.

Lemma log_bread_law s t n : log_trep s t -> usable t n -> theld t !! n = None -> (size (theld t) < 3)%nat ->
  exists i s', cache (bread 1 n) s = Ok (i, s') /\ log_trep s' (thold n i t).
Proof.
  intros (a & bl & I) Hu Hh Hs. destruct I as [R Tx L1 L2 L3 L4 L5 L6 L7 L8 L9 L10 L11]. destruct s as [g c]. simpl in *.
  rewrite L4 in Hh, Hs. destruct (L7 n Hu) as [Hhome Hin].
  destruct (bread_law c a n R Hin Hh) as (i & c' & Hrun & R').
  { unfold room. rewrite (tx_pinned _ _ _ Tx).
    pose proof (size_list_to_set_le bl). rewrite size_union_alt.
    assert (size (list_to_set bl ∖ ({[n]} ∪ dom (held a))) <= size (list_to_set bl : gset Z))%nat
      by (apply subseteq_size; set_solver).
    assert (size ({[n]} ∪ dom (held a)) <= 1 + size (held a))%nat; [|lia].
    rewrite size_union_alt, size_singleton, <-(size_dom (held a)).
    assert (size (dom (held a) ∖ {[n]}) <= size (dom (held a)))%nat by (apply subseteq_size; set_solver). lia. }
  exists i, (LState g c'). split; [unfold cache, zoom; simpl; by rewrite Hrun|].
  exists (hold n i a), bl. split; simpl; try done.
  - by apply (log_tx_cache g a).
  - by rewrite L4.
  - intros m j. destruct (decide (m = n)) as [->|Hm].
    + intros _ _. destruct (decide (n ∈ bl)) as [Hb|Hb]; [by left|right].
      apply (brep_clean c a n R Hin Hh). rewrite (tx_pinned _ _ _ Tx). by rewrite elem_of_list_to_set.
    + rewrite lookup_insert_ne by done. apply L6.
  - intros m j. destruct (decide (m = n)) as [->|Hm]; [done|]. rewrite lookup_insert_ne by done. apply L8.
Qed.

Lemma log_data_law s t n i : log_trep s t -> theld t !! n = Some i -> cache (buf_data i) s = Ok (tview t n, s).
Proof.
  intros (a & bl & [R Tx L1 L2 L3 L4 L5 L6 L7 L8 L9 L10 L11]) Hh. destruct s as [g c]. simpl in *.
  rewrite L4 in Hh. unfold cache, zoom. simpl. by rewrite (buf_data_law c a n i R Hh), L3.
Qed.

Lemma log_put_law s t n i x : log_trep s t -> theld t !! n = Some i -> length x = BSIZE ->
  exists s', cache (buf_put i x) s = Ok (tt, s') /\ log_trep s' (tedit n x t).
Proof.
  intros (a & bl & [R Tx L1 L2 L3 L4 L5 L6 L7 L8 L9 L10 L11]) Hh Hx. destruct s as [g c]. simpl in *.
  rewrite L4 in Hh. destruct (buf_put_law c a n i x R Hh Hx) as (c' & Hrun & R').
  exists (LState g c'). split; [unfold cache, zoom; simpl; by rewrite Hrun|].
  exists (edit n x a), bl. split; simpl; try done.
  - by apply (log_tx_cache g a).
  - by rewrite L3.
  - intros m j Hm Hd. rewrite disk_set_ne by set_solver. apply (L6 m j); set_solver.
Qed.

Lemma log_log_write_law s t n i : log_trep s t -> theld t !! n = Some i -> (size ({[n]} ∪ tlogged t) <= tcap t)%nat ->
  exists s', log_write i s = Ok (tt, s') /\ log_trep s' (trecord n t).
Proof.
  intros (a & bl & [R Tx L1 L2 L3 L4 L5 L6 L7 L8 L9 L10 L11]) Hh Hc. destruct s as [g c]. simpl in *.
  rewrite L4 in Hh. destruct (L7 n (L8 n i Hh)) as [Hhome Hin].
  destruct (log_write_run g c a bl n i) as (g' & c' & Hrun & R' & Tx' & E1 & E2 & E3 & E4 & E5); try done; try lia.
  assert (Hset : list_to_set (add_block n bl) = {[n]} ∪ (list_to_set bl : gset Z)).
  { unfold add_block. case_decide; [set_solver|]. rewrite list_to_set_app_L. set_solver. }
  assert (Hhm : forall m, home g' m <-> home g m) by (intros m; unfold home; by rewrite E3, E4).
  exists (LState g' c'). split; [done|]. exists (pin n a), (add_block n bl). split; simpl; try done; rewrite ?E2, ?E4; try done.
  - by rewrite Hset, L5.
  - intros m j Hm Hd. destruct (decide (m = n)) as [->|Hne].
    + left. apply (elem_of_list_to_set (C := gset Z)). rewrite Hset. set_solver.
    + destruct (L6 m j Hm) as [Hb|Hv]; [set_solver| |by right].
      left. apply (elem_of_list_to_set (C := gset Z)). rewrite Hset. set_solver.
  - intros m Hm. rewrite Hhm. by apply L7.
  - rewrite L5, <-Hset, size_list_to_set in Hc; [done|apply Tx'].
Qed.

Lemma log_brelse_law s t n i : log_trep s t -> theld t !! n = Some i -> n ∉ tdirty t ->
  exists s', cache (brelse i) s = Ok (tt, s') /\ log_trep s' (tdrop n t).
Proof.
  intros (a & bl & [R Tx L1 L2 L3 L4 L5 L6 L7 L8 L9 L10 L11]) Hh Hd. destruct s as [g c]. simpl in *.
  rewrite L4 in Hh. destruct (brelse_law c a n i R Hh) as (c' & Hrun & R').
  { rewrite (tx_pinned _ _ _ Tx). destruct (L6 n i Hh Hd); [left; by apply elem_of_list_to_set|by right]. }
  exists (LState g c'). split; [unfold cache, zoom; simpl; by rewrite Hrun|].
  exists (unhold n a), bl. split; simpl; try done.
  - by apply (log_tx_cache g a).
  - by rewrite L4.
  - intros m j Hm Hdm. apply lookup_delete_Some in Hm as [_ Hm]. by apply (L6 m j).
  - intros m j Hm. apply lookup_delete_Some in Hm as [_ Hm]. by apply (L8 m j).
Qed.

#[export] Program Instance log_txdisk : TxDisk (lstate S) := {
  trep := log_trep; tx_bread := fun d n => cache (bread d n); tx_data := fun i => cache (buf_data i);
  tx_put := fun i x => cache (buf_put i x); tx_log_write := log_write; tx_brelse := fun i => cache (brelse i)
}.
Next Obligation.
  intros s t n (a & bl & [R Tx L1 L2 L3 L4 L5 L6 L7 L8 L9 L10 L11]) Hu. rewrite L3.
  apply (brep_length _ a n R). by apply L7.
Qed.
Next Obligation. exact log_bread_law. Qed.
Next Obligation. exact log_data_law. Qed.
Next Obligation. exact log_put_law. Qed.
Next Obligation. exact log_log_write_law. Qed.
Next Obligation. exact log_brelse_law. Qed.

(** An operation that has begun may use every block outside the log area. *)
Lemma begin_trep g c a cap : log_idle g a -> brep c a -> (cap + 4 <= NBUF)%nat -> Z.of_nat cap + 2 <= lsize g ->
  exists s, begin_op (LState g c) = Ok (tt, s) /\
    trep s (TAbs (view a) ∅ ∅ ∅ cap (fun n => home g n /\ in_disk a n)).
Proof.
  intros I R Hc Hf. exists (LState (set_outstanding 1 g) c). split; [by apply (begin_run g c a)|].
  pose proof I as [Tx I1 I2 I3 I4]. exists a, []. split; simpl; try done; try lia.
  - by destruct Tx as [[[] ? ? ? ? ? ?] ? ? ?].
  - by rewrite I4.
  - rewrite I4. by intros m j Hm.
Qed.
End Log.
