(* ===== verification/Fs.v ===== *)
(** * The file system (fs.c, fs.h, the inode of file.h)

    Free-block map, inodes with their cache, file contents, directories and
    path names, over the transactional disk of [TxDisk]. *)
From S2P Require Import Prelude Bytes CString Spinlock Sleeplock Bio Log TxDisk.

Open Scope Z_scope.

Definition ROOTINO : Z := 1.
Definition ROOTDEV : Z := 1.
Definition NDIRECT : nat := 12.
Definition NINDIRECT : nat := 128.
Definition MAXFILE : Z := 140.
(** inodes per block, of 64 bytes each; bitmap bits per block *)
Definition IPB : Z := 8.
Definition BPB : Z := 4096.
Definition DIRSIZ : nat := 14.
Definition NINODE : nat := 50.
Definition NDEV : Z := 10.
Definition T_DIR : Z := 1.
Definition T_FILE : Z := 2.
Definition T_DEV : Z := 3.

Definition IBLOCK (i : Z) (sb : superblock) : Z := i / IPB + sb_inodestart sb.
Definition BBLOCK (b : Z) (sb : superblock) : Z := b / BPB + sb_bmapstart sb.

(** struct dinode: the fields of an inode on disk *)
Record dinode := DInode {
  d_type : Z; d_major : Z; d_minor : Z; d_nlink : Z; d_size : Z; d_addrs : list Z }.

(** The dinode at byte [o] of a block. *)
Definition dinode_at (x : bytes) (o : nat) : dinode :=
  DInode (s16 (get16 x o)) (s16 (get16 x (o + 2))) (s16 (get16 x (o + 4))) (s16 (get16 x (o + 6)))
    (get32 x (o + 8)) ((fun k => get32 x (o + 12 + 4 * k)%nat) <$> seq 0 13).
Fixpoint put_addrs (x : bytes) (o : nat) (l : list Z) : bytes :=
  match l with
  | [] => x
  | v :: l => put_addrs (put32 x o v) (o + 4) l
  end.
Definition put_dinode (x : bytes) (o : nat) (d : dinode) : bytes :=
  let x := put16 x o (d_type d) in
  let x := put16 x (o + 2) (d_major d) in
  let x := put16 x (o + 4) (d_minor d) in
  let x := put16 x (o + 6) (d_nlink d) in
  let x := put32 x (o + 8) (d_size d) in
  put_addrs x (o + 12) (d_addrs d).
Definition dinode_off (inum : Z) : nat := Z.to_nat (64 * (inum mod IPB)).

(** struct inode of file.h *)
Record inode := Inode {
  idev : Z; inum : Z; ref : Z; ilk : sleeplock; valid : Z; idata : dinode }.
Definition no_inode : inode :=
  Inode 0 0 0 initsleeplock 0 (DInode 0 0 0 0 0 (replicate 13 0)).

Definition set_idev v i := Inode v (inum i) (ref i) (ilk i) (valid i) (idata i).
Definition set_inum v i := Inode (idev i) v (ref i) (ilk i) (valid i) (idata i).
Definition set_ref v i := Inode (idev i) (inum i) v (ilk i) (valid i) (idata i).
Definition set_ilk v i := Inode (idev i) (inum i) (ref i) v (valid i) (idata i).
Definition set_valid v i := Inode (idev i) (inum i) (ref i) (ilk i) v (idata i).
Definition set_idata v i := Inode (idev i) (inum i) (ref i) (ilk i) (valid i) v.
Definition set_type v (d : dinode) := DInode v (d_major d) (d_minor d) (d_nlink d) (d_size d) (d_addrs d).
Definition set_major v (d : dinode) := DInode (d_type d) v (d_minor d) (d_nlink d) (d_size d) (d_addrs d).
Definition set_minor v (d : dinode) := DInode (d_type d) (d_major d) v (d_nlink d) (d_size d) (d_addrs d).
Definition set_nlink v (d : dinode) := DInode (d_type d) (d_major d) (d_minor d) v (d_size d) (d_addrs d).
Definition set_size v (d : dinode) := DInode (d_type d) (d_major d) (d_minor d) (d_nlink d) v (d_addrs d).
Definition set_addr (k : nat) v (d : dinode) :=
  DInode (d_type d) (d_major d) (d_minor d) (d_nlink d) (d_size d) (<[k := v]> (d_addrs d)).
Definition addr (k : nat) (d : dinode) : Z := default 0 (d_addrs d !! k).

(** The file system's state: the disk, the superblock in memory, the inode cache
    and its lock, and of the running process its pid and current directory. *)
Record fstate (S : Type) := FState {
  disk : S; sb : superblock; ic_lock : bool; icache : list inode; mypid : Z; cwd : nat }.
Arguments FState {S} _ _ _ _ _ _.
Arguments disk {S} _.
Arguments sb {S} _.
Arguments ic_lock {S} _.
Arguments icache {S} _.
Arguments mypid {S} _.
Arguments cwd {S} _.

(** devsw: what a device's read and write do, by major number. *)
Class DevSw (S : Type) := {
  dev_read : Z -> option (nat -> Z -> M (fstate S) (Z * bytes));
  dev_write : Z -> option (nat -> bytes -> M (fstate S) Z)
}.

(** The position of the first free block in a bitmap block, of [n] bits. *)
Definition bit_mask (bi : Z) : Z := Z.shiftl 1 (bi mod 8).
Definition bit_used (x : bytes) (bi : Z) : bool := negb (Z.land (getb x (Z.to_nat (bi / 8))) (bit_mask bi) =? 0).
Definition set_bit (x : bytes) (bi : Z) : bytes :=
  putb x (Z.to_nat (bi / 8)) (Z.lor (getb x (Z.to_nat (bi / 8))) (bit_mask bi)).
Definition clear_bit (x : bytes) (bi : Z) : bytes :=
  putb x (Z.to_nat (bi / 8)) (Z.land (getb x (Z.to_nat (bi / 8))) (Z.lnot (bit_mask bi))).
Fixpoint first_free (x : bytes) (bi : Z) (n : nat) : option Z :=
  match n with
  | O => None
  | S n => if negb (bit_used x bi) then Some bi else first_free x (bi + 1) n
  end.

Section Ops.
Context {S : Type} `{TD : !TxDisk S} `{DV : !DevSw S}.

Definition diskL : lens (fstate S) S :=
  Lens disk (fun d s => FState d (sb s) (ic_lock s) (icache s) (mypid s) (cwd s)).
Definition ic_lockL : lens (fstate S) bool :=
  Lens ic_lock (fun l s => FState (disk s) (sb s) l (icache s) (mypid s) (cwd s)).
Definition set_icache c (s : fstate S) := FState (disk s) (sb s) (ic_lock s) c (mypid s) (cwd s).
Definition set_sb b (s : fstate S) := FState (disk s) b (ic_lock s) (icache s) (mypid s) (cwd s).

Definition bread (d n : Z) : M (fstate S) nat := zoom diskL (tx_bread d n).
Definition bdata (i : nat) : M (fstate S) bytes := zoom diskL (tx_data i).
Definition bput (i : nat) (x : bytes) : M (fstate S) unit := zoom diskL (tx_put i x).
Definition log_write (i : nat) : M (fstate S) unit := zoom diskL (tx_log_write i).
Definition brelse (i : nat) : M (fstate S) unit := zoom diskL (tx_brelse i).
Definition ic_acquire : M (fstate S) unit := zoom ic_lockL lk_acquire.
Definition ic_release : M (fstate S) unit := zoom ic_lockL lk_release.

Definition nth_inode (i : nat) : M (fstate S) inode := fun s =>
  match icache s !! i with Some ip => Ok (ip, s) | None => Undef "not an inode" end.
Definition upd_inode (i : nat) (f : inode -> inode) : M (fstate S) unit :=
  ip ← nth_inode i; modify (fun s => set_icache (<[i := f ip]> (icache s)) s).
Definition upd_data (i : nat) (f : dinode -> dinode) : M (fstate S) unit :=
  upd_inode i (fun ip => set_idata (f (idata ip)) ip).
Definition inode_lock {A} (i : nat) (m : M sleeplock A) : M (fstate S) A := fun s =>
  match icache s !! i with
  | None => Undef "not an inode"
  | Some ip =>
      match m (ilk ip) with
      | Ok (a, l) => Ok (a, set_icache (<[i := set_ilk l ip]> (icache s)) s)
      | Panic e => Panic e
      | Undef e => Undef e
      | Hang => Hang
      end
  end.

Definition bzero (d bno : Z) : M (fstate S) unit :=
  bp ← bread d bno;
  bput bp (replicate BSIZE 0) ;;
  log_write bp ;;
  brelse bp.

(** The outer loop of balloc; [n] bounds the number of bitmap blocks. *)
Fixpoint balloc_loop (d b : Z) (n : nat) : M (fstate S) Z :=
  match n with
  | O => panic "balloc: out of blocks"
  | Datatypes.S n =>
      v ← gets sb;
      if b <? sb_size v then
        bp ← bread d (BBLOCK b v);
        x ← bdata bp;
        match first_free x 0 (Z.to_nat (Z.min BPB (sb_size v - b))) with
        | Some bi =>
            bput bp (set_bit x bi) ;;
            log_write bp ;;
            brelse bp ;;
            bzero d (b + bi) ;;
            mret (b + bi)
        | None =>
            brelse bp ;;
            balloc_loop d (b + BPB) n
        end
      else panic "balloc: out of blocks"
  end.
Definition balloc (d : Z) : M (fstate S) Z :=
  v ← gets sb;
  balloc_loop d 0 (Z.to_nat (sb_size v / BPB + 1)).

Definition bfree (d b : Z) : M (fstate S) unit :=
  v ← gets sb;
  bp ← bread d (BBLOCK b v);
  x ← bdata bp;
  (if negb (bit_used x (b mod BPB)) then panic "freeing free block" else mret tt) ;;
  bput bp (clear_bit x (b mod BPB)) ;;
  log_write bp ;;
  brelse bp.

(** readsb into the superblock in memory; the inode locks start free. *)
Definition iinit (d : Z) : M (fstate S) unit :=
  zoom ic_lockL (put false) ;;
  modify (fun s => set_icache (set_ilk initsleeplock <$> icache s) s) ;;
  bp ← bread d 1;
  x ← bdata bp;
  brelse bp ;;
  modify (set_sb (sb_decode x)).

(** The scan of iget: the cached entry, or else the first free one. *)
Fixpoint iget_scan (d n : Z) (l : list inode) (i : nat) (empty : option nat) : option nat * option nat :=
  match l with
  | [] => (None, empty)
  | ip :: l =>
      if (0 <? ref ip) && (idev ip =? d) && (inum ip =? n) then (Some i, empty)
      else
        let empty := match empty with None => if ref ip =? 0 then Some i else None | _ => empty end in
        iget_scan d n l (Datatypes.S i) empty
  end.

Definition iget (d n : Z) : M (fstate S) nat :=
  ic_acquire ;;
  r ← gets (fun s => iget_scan d n (icache s) 0 None);
  match r with
  | (Some i, _) =>
      upd_inode i (fun ip => set_ref (ref ip + 1) ip) ;;
      ic_release ;;
      mret i
  | (None, None) => panic "iget: no inodes"
  | (None, Some i) =>
      upd_inode i (fun ip => set_valid 0 (set_ref 1 (set_inum n (set_idev d ip)))) ;;
      ic_release ;;
      mret i
  end.

Definition idup (i : nat) : M (fstate S) nat :=
  ic_acquire ;;
  upd_inode i (fun ip => set_ref (ref ip + 1) ip) ;;
  ic_release ;;
  mret i.

Definition fresh_dinode (type : Z) : dinode := DInode type 0 0 0 0 (replicate 13 0).

Fixpoint ialloc_loop (d type n : Z) (fuel : nat) : M (fstate S) nat :=
  match fuel with
  | O => panic "ialloc: no inodes"
  | Datatypes.S fuel =>
      v ← gets sb;
      if n <? sb_ninodes v then
        bp ← bread d (IBLOCK n v);
        x ← bdata bp;
        if d_type (dinode_at x (dinode_off n)) =? 0 then
          bput bp (put_dinode x (dinode_off n) (fresh_dinode type)) ;;
          log_write bp ;;
          brelse bp ;;
          iget d n
        else
          brelse bp ;;
          ialloc_loop d type (n + 1) fuel
      else panic "ialloc: no inodes"
  end.
Definition ialloc (d type : Z) : M (fstate S) nat :=
  v ← gets sb;
  ialloc_loop d type 1 (Z.to_nat (sb_ninodes v)).

Definition iupdate (i : nat) : M (fstate S) unit :=
  v ← gets sb;
  ip ← nth_inode i;
  bp ← bread (idev ip) (IBLOCK (inum ip) v);
  x ← bdata bp;
  bput bp (put_dinode x (dinode_off (inum ip)) (idata ip)) ;;
  log_write bp ;;
  brelse bp.

Definition ilock (i : option nat) : M (fstate S) unit :=
  match i with
  | None => panic "ilock"
  | Some i =>
      ip ← nth_inode i;
      (if ref ip <? 1 then panic "ilock" else mret tt) ;;
      pid ← gets mypid;
      inode_lock i (acquiresleep pid) ;;
      ip ← nth_inode i;
      when (valid ip =? 0)
        (v ← gets sb;
         bp ← bread (idev ip) (IBLOCK (inum ip) v);
         x ← bdata bp;
         upd_inode i (set_idata (dinode_at x (dinode_off (inum ip)))) ;;
         brelse bp ;;
         upd_inode i (set_valid 1) ;;
         ip ← nth_inode i;
         if d_type (idata ip) =? 0 then panic "ilock: no type" else mret tt)
  end.

Definition iunlock (i : option nat) : M (fstate S) unit :=
  match i with
  | None => panic "iunlock"
  | Some i =>
      pid ← gets mypid;
      h ← inode_lock i (holdingsleep pid);
      ip ← nth_inode i;
      (if negb h || (ref ip <? 1) then panic "iunlock" else mret tt) ;;
      inode_lock i releasesleep
  end.

(** The two loops of itrunc. *)
Definition trunc_direct (i k : nat) : M (fstate S) unit :=
  ip ← nth_inode i;
  when (truthy (addr k (idata ip)))
    (bfree (idev ip) (addr k (idata ip)) ;;
     upd_data i (set_addr k 0)).
Definition trunc_indirect (d : Z) (bp j : nat) : M (fstate S) unit :=
  x ← bdata bp;
  when (truthy (get32 x (4 * j))) (bfree d (get32 x (4 * j))).

Definition itrunc (i : nat) : M (fstate S) unit :=
  for_each (seq 0 NDIRECT) (trunc_direct i) ;;
  ip ← nth_inode i;
  when (truthy (addr NDIRECT (idata ip)))
    (bp ← bread (idev ip) (addr NDIRECT (idata ip));
     for_each (seq 0 NINDIRECT) (trunc_indirect (idev ip) bp) ;;
     brelse bp ;;
     bfree (idev ip) (addr NDIRECT (idata ip)) ;;
     upd_data i (set_addr NDIRECT 0)) ;;
  upd_data i (set_size 0) ;;
  iupdate i.

Definition iput (i : nat) : M (fstate S) unit :=
  pid ← gets mypid;
  inode_lock i (acquiresleep pid) ;;
  ip ← nth_inode i;
  when (truthy (valid ip) && (d_nlink (idata ip) =? 0))
    (ic_acquire ;;
     ip ← nth_inode i;
     ic_release ;;
     when (ref ip =? 1)
       (itrunc i ;;
        upd_data i (set_type 0) ;;
        iupdate i ;;
        upd_inode i (set_valid 0))) ;;
  inode_lock i releasesleep ;;
  ic_acquire ;;
  upd_inode i (fun ip => set_ref (ref ip - 1) ip) ;;
  ic_release.

Definition iunlockput (i : nat) : M (fstate S) unit :=
  iunlock (Some i) ;;
  iput i.

Definition bmap (i : nat) (bn : Z) : M (fstate S) Z :=
  ip ← nth_inode i;
  if bn <? Z.of_nat NDIRECT then
    let k := Z.to_nat bn in
    if addr k (idata ip) =? 0 then
      a ← balloc (idev ip);
      upd_data i (set_addr k a) ;;
      mret a
    else mret (addr k (idata ip))
  else
    let bn := bn - Z.of_nat NDIRECT in
    if bn <? Z.of_nat NINDIRECT then
      a ← (if addr NDIRECT (idata ip) =? 0 then
             a ← balloc (idev ip);
             upd_data i (set_addr NDIRECT a) ;;
             mret a
           else mret (addr NDIRECT (idata ip)));
      bp ← bread (idev ip) a;
      x ← bdata bp;
      b ← (if get32 x (4 * Z.to_nat bn) =? 0 then
             b ← balloc (idev ip);
             bput bp (put32 x (4 * Z.to_nat bn) b) ;;
             log_write bp ;;
             mret b
           else mret (get32 x (4 * Z.to_nat bn)));
      brelse bp ;;
      mret b
    else panic "bmap: out of range".

(** struct stat *)
Record stat := Stat { st_type : Z; st_dev : Z; st_ino : Z; st_nlink : Z; st_size : Z }.
Definition stati (i : nat) : M (fstate S) stat :=
  ip ← nth_inode i;
  mret (Stat (d_type (idata ip)) (s32 (idev ip)) (inum ip) (d_nlink (idata ip)) (d_size (idata ip))).

Fixpoint readi_loop (fuel i : nat) (off tot n : Z) (dst : bytes) : M (fstate S) bytes :=
  match fuel with
  | O => hang
  | Datatypes.S fuel =>
      if tot <? n then
        a ← bmap i (off / Z.of_nat BSIZE);
        ip ← nth_inode i;
        bp ← bread (idev ip) a;
        let o := off mod Z.of_nat BSIZE in
        let m := Z.min (n - tot) (Z.of_nat BSIZE - o) in
        x ← bdata bp;
        brelse bp ;;
        readi_loop fuel i (off + m) (tot + m) n (dst ++ get_bytes x (Z.to_nat o) (Z.to_nat m))
      else mret dst
  end.

(** The result and the bytes stored at dst. *)
Definition readi (i : nat) (off n : Z) : M (fstate S) (Z * bytes) :=
  ip ← nth_inode i;
  if d_type (idata ip) =? T_DEV then
    let mj := d_major (idata ip) in
    if (mj <? 0) || (NDEV <=? mj) then mret (-1, [])
    else match dev_read mj with None => mret (-1, []) | Some f => f i n end
  else if (d_size (idata ip) <? off) || (u32 (off + n) <? off) then mret (-1, [])
  else
    let n := if d_size (idata ip) <? off + n then d_size (idata ip) - off else n in
    dst ← readi_loop (Z.to_nat n + 1) i off 0 n [];
    mret (s32 n, dst).

Fixpoint writei_loop (fuel i : nat) (off tot n : Z) (src : bytes) : M (fstate S) Z :=
  match fuel with
  | O => hang
  | Datatypes.S fuel =>
      if tot <? n then
        a ← bmap i (off / Z.of_nat BSIZE);
        ip ← nth_inode i;
        bp ← bread (idev ip) a;
        let o := off mod Z.of_nat BSIZE in
        let m := Z.min (n - tot) (Z.of_nat BSIZE - o) in
        x ← bdata bp;
        bput bp (put_bytes x (Z.to_nat o) (take (Z.to_nat m) src)) ;;
        log_write bp ;;
        brelse bp ;;
        writei_loop fuel i (off + m) (tot + m) n (drop (Z.to_nat m) src)
      else mret off
  end.

(** [src] holds the [n] bytes to write. *)
Definition writei (i : nat) (src : bytes) (off n : Z) : M (fstate S) Z :=
  ip ← nth_inode i;
  if d_type (idata ip) =? T_DEV then
    let mj := d_major (idata ip) in
    if (mj <? 0) || (NDEV <=? mj) then mret (-1)
    else match dev_write mj with None => mret (-1) | Some f => f i src end
  else if (d_size (idata ip) <? off) || (u32 (off + n) <? off) then mret (-1)
  else if MAXFILE * Z.of_nat BSIZE <? off + n then mret (-1)
  else
    off' ← writei_loop (Z.to_nat n + 1) i off 0 n src;
    ip ← nth_inode i;
    when ((0 <? n) && (d_size (idata ip) <? off'))
      (upd_data i (set_size off') ;;
       iupdate i) ;;
    mret (s32 n).

(** struct dirent: 2 bytes of inode number and the name *)
Definition de_inum (de : bytes) : Z := get16 de 0.
Definition de_name (de : bytes) : bytes := drop 2 de.
Definition DESIZE : Z := 16.

(** A byte of a string, 0 past its end. *)
Definition str (s : bytes) : nat -> Z := getb s.
Definition namecmp (s t : bytes) : Z := strncmp (str s) (str t) DIRSIZ.

Fixpoint dirlookup_loop (fuel dp : nat) (name : bytes) (off : Z) : M (fstate S) (option (nat * Z)) :=
  match fuel with
  | O => hang
  | Datatypes.S fuel =>
      ip ← nth_inode dp;
      if off <? d_size (idata ip) then
        r ← readi dp off DESIZE;
        (if negb (r.1 =? DESIZE) then panic "dirlookup read" else mret tt) ;;
        if de_inum r.2 =? 0 then dirlookup_loop fuel dp name (off + DESIZE)
        else if namecmp name (de_name r.2) =? 0 then
          ip ← nth_inode dp;
          i ← iget (idev ip) (de_inum r.2);
          mret (Some (i, off))
        else dirlookup_loop fuel dp name (off + DESIZE)
      else mret None
  end.
(** The inode found and the offset of its entry. *)
Definition dirlookup (dp : nat) (name : bytes) : M (fstate S) (option (nat * Z)) :=
  ip ← nth_inode dp;
  (if negb (d_type (idata ip) =? T_DIR) then panic "dirlookup not DIR" else mret tt) ;;
  dirlookup_loop (Z.to_nat (d_size (idata ip) / DESIZE + 2)) dp name 0.

(** The loop of dirlink: the offset of a free entry, or the end. *)
Fixpoint dirlink_loop (fuel dp : nat) (off : Z) : M (fstate S) Z :=
  match fuel with
  | O => hang
  | Datatypes.S fuel =>
      ip ← nth_inode dp;
      if off <? d_size (idata ip) then
        r ← readi dp off DESIZE;
        (if negb (r.1 =? DESIZE) then panic "dirlink read" else mret tt) ;;
        if de_inum r.2 =? 0 then mret off
        else dirlink_loop fuel dp (off + DESIZE)
      else mret off
  end.

(** strncpy of [n] bytes from byte [i] of [s]: after a 0, zeros. *)
Fixpoint strncpy_bytes (s : bytes) (i n : nat) : bytes :=
  match n with
  | O => []
  | Datatypes.S n => if getb s i =? 0 then replicate (Datatypes.S n) 0 else getb s i :: strncpy_bytes s (Datatypes.S i) n
  end.
Definition make_dirent (name : bytes) (n : Z) : bytes :=
  put16 (replicate 2 0 ++ strncpy_bytes name 0 DIRSIZ) 0 n.

Definition dirlink (dp : nat) (name : bytes) (n : Z) : M (fstate S) Z :=
  r ← dirlookup dp name;
  match r with
  | Some (ip, _) => iput ip ;; mret (-1)
  | None =>
      ip ← nth_inode dp;
      off ← dirlink_loop (Z.to_nat (d_size (idata ip) / DESIZE + 2)) dp 0;
      w ← writei dp (make_dirent name n) off DESIZE;
      (if negb (w =? DESIZE) then panic "dirlink" else mret tt) ;;
      mret 0
  end.

(** A path is the bytes before its terminating 0. *)
Definition SLASH : Z := 47.
Fixpoint skip_slashes (p : bytes) : bytes :=
  match p with
  | c :: p' => if c =? SLASH then skip_slashes p' else p
  | [] => []
  end.
Fixpoint take_elem (p : bytes) : bytes * bytes :=
  match p with
  | c :: p' => if c =? SLASH then ([], p) else let r := take_elem p' in (c :: r.1, r.2)
  | [] => ([], [])
  end.
(** The rest of the path and the name buffer after the call. *)
Definition skipelem (path name : bytes) : option (bytes * bytes) :=
  let path := skip_slashes path in
  match path with
  | [] => None
  | _ =>
      let r := take_elem path in
      let name :=
        if decide (DIRSIZ <= length r.1)%nat then put_bytes name 0 (take DIRSIZ r.1)
        else put_bytes name 0 (r.1 ++ [0]) in
      Some (skip_slashes r.2, name)
  end.

Fixpoint namex_loop (fuel ip : nat) (path : bytes) (parent : bool) (name : bytes) :
    M (fstate S) (option nat * bytes) :=
  match fuel with
  | O => hang
  | Datatypes.S fuel =>
      match skipelem path name with
      | None =>
          if parent then iput ip ;; mret (None, name)
          else mret (Some ip, name)
      | Some (path, name) =>
          ilock (Some ip) ;;
          i ← nth_inode ip;
          if negb (d_type (idata i) =? T_DIR) then iunlockput ip ;; mret (None, name)
          else if parent && (match path with [] => true | _ => false end) then
            iunlock (Some ip) ;; mret (Some ip, name)
          else
            r ← dirlookup ip name;
            match r with
            | None => iunlockput ip ;; mret (None, name)
            | Some (next, _) => iunlockput ip ;; namex_loop fuel next path parent name
            end
      end
  end.

Definition namex (path : bytes) (parent : bool) (name : bytes) : M (fstate S) (option nat * bytes) :=
  c ← gets cwd;
  ip ← (match path with
        | 47 :: _ => iget ROOTDEV ROOTINO
        | _ => idup c
        end);
  namex_loop (length path + 1) ip path parent name.

Definition namei (path : bytes) : M (fstate S) (option nat) :=
  r ← namex path false (replicate DIRSIZ 0);
  mret r.1.
Definition nameiparent (path name : bytes) : M (fstate S) (option nat * bytes) :=
  namex path true name.
End Ops.
