(* ===== verification/FsProps.v ===== *)
(** * Properties of the file system

    The on-disk encodings, path names, the free-block map and the inode layer. *)
From S2P Require Import Prelude Bytes CString Spinlock Sleeplock Bio BioProps Log LogProps TxDisk Fs.

Open Scope Z_scope.

(** ** Inodes on disk *)
Record dinode_ok (d : dinode) : Prop := {
  do_type : -32768 <= d_type d < 32768;
  do_major : -32768 <= d_major d < 32768;
  do_minor : -32768 <= d_minor d < 32768;
  do_nlink : -32768 <= d_nlink d < 32768;
  do_size : 0 <= d_size d < 4294967296;
  do_len : length (d_addrs d) = 13%nat;
  do_addrs : Forall (fun a => 0 <= a < 4294967296) (d_addrs d)
}.

Lemma s16_u16 z : -32768 <= z < 32768 -> s16 (u16 z) = z.
Proof.
  intros Hz. unfold s16, u16. rewrite Z.mod_mod by lia.
  destruct (Z.ltb_spec (z mod 65536) 32768); Z.div_mod_to_equations; lia.
Qed.

Lemma put_addrs_length l : forall x o, length (put_addrs x o l) = length x.
Proof. induction l as [|v l IH]; intros x o; simpl; [done|]. by rewrite IH, length_put32. Qed.

Lemma put_addrs_get16 l : forall x o o', (o + 4 * length l <= length x)%nat ->
  (o' + 2 <= o \/ o + 4 * length l <= o')%nat -> get16 (put_addrs x o l) o' = get16 x o'.
Proof.
  induction l as [|v l IH]; intros x o o' Hl Ho; cbn [length put_addrs] in *; [done|].
  rewrite IH by (rewrite ?length_put32; lia). apply get16_put32_ne; lia.
Qed.
Lemma put_addrs_get32 l : forall x o o', (o + 4 * length l <= length x)%nat ->
  (o' + 4 <= o \/ o + 4 * length l <= o')%nat -> get32 (put_addrs x o l) o' = get32 x o'.
Proof.
  induction l as [|v l IH]; intros x o o' Hl Ho; cbn [length put_addrs] in *; [done|].
  rewrite IH by (rewrite ?length_put32; lia). apply get32_put32_ne; lia.
Qed.
Lemma put_addrs_at l : forall x o k v, (o + 4 * length l <= length x)%nat -> l !! k = Some v ->
  get32 (put_addrs x o l) (o + 4 * k) = u32 v.
Proof.
  induction l as [|w l IH]; intros x o k v Hl Hk; [done|]. cbn [length put_addrs] in *.
  destruct k as [|k]; cbn in Hk.
  - injection Hk as <-. rewrite put_addrs_get32 by (rewrite ?length_put32; lia).
    replace (o + 4 * 0)%nat with o by lia. apply get32_put32_eq. lia.
  - replace (o + 4 * S k)%nat with (o + 4 + 4 * k)%nat by lia. apply IH; [rewrite length_put32; lia|done].
Qed.

Lemma put_dinode_length x o d : length (put_dinode x o d) = length x.
Proof. unfold put_dinode. by rewrite put_addrs_length, length_put32, !length_put16. Qed.

(** The fields of other inodes are not touched. *)
Lemma put_dinode_get16 x o d o' : (o + 64 <= length x)%nat -> length (d_addrs d) = 13%nat ->
  (o' + 2 <= o \/ o + 64 <= o')%nat -> get16 (put_dinode x o d) o' = get16 x o'.
Proof.
  intros Hl Hd Ho. unfold put_dinode. rewrite put_addrs_get16 by (rewrite ?length_put32, ?length_put16, ?Hd; lia).
  rewrite get16_put32_ne by (rewrite ?length_put16; lia).
  by rewrite !get16_put16_ne by (rewrite ?length_put16; lia).
Qed.
Lemma put_dinode_get32 x o d o' : (o + 64 <= length x)%nat -> length (d_addrs d) = 13%nat ->
  (o' + 4 <= o \/ o + 64 <= o')%nat -> get32 (put_dinode x o d) o' = get32 x o'.
Proof.
  intros Hl Hd Ho. unfold put_dinode. rewrite put_addrs_get32 by (rewrite ?length_put32, ?length_put16, ?Hd; lia).
  rewrite get32_put32_ne by (rewrite ?length_put16; lia).
  by rewrite !get32_put16_ne by (rewrite ?length_put16; lia).
Qed.

Lemma dinode_same x o d : (o + 64 <= length x)%nat -> dinode_ok d -> dinode_at (put_dinode x o d) o = d.
Proof.
  intros Hl [D1 D2 D3 D4 D5 D6 D7]. unfold dinode_at, put_dinode. destruct d as [ty mj mi nl sz ad].
  cbn [d_type d_major d_minor d_nlink d_size d_addrs] in *.
  repeat first
    [ rewrite put_addrs_get16 by (rewrite ?length_put32, ?length_put16, ?D6; lia)
    | rewrite put_addrs_get32 by (rewrite ?length_put32, ?length_put16, ?D6; lia)
    | rewrite get16_put32_ne by (rewrite ?length_put16; lia) ].
  rewrite get32_put32_eq by (rewrite ?length_put16; lia).
  repeat first
    [ rewrite get16_put16_eq by (rewrite ?length_put16; lia)
    | rewrite get16_put16_ne by (rewrite ?length_put16; lia) ].
  rewrite !s16_u16, u32_small by lia. f_equal.
  apply list_eq. intros k. rewrite list_lookup_fmap. destruct (decide (k < 13)%nat) as [Hk|Hk].
  - rewrite lookup_seq_lt by done. destruct (lookup_lt_is_Some_2 ad k ltac:(lia)) as [v Hv]. simpl.
    rewrite Hv. f_equal. rewrite (put_addrs_at _ _ _ k v) by (rewrite ?length_put32, ?length_put16, ?D6; done || lia).
    apply u32_small. rewrite Forall_lookup in D7. by apply (D7 k).
  - rewrite lookup_seq_ge, lookup_ge_None_2 by lia. done.
Qed.

Lemma dinode_other x o o' d : (o + 64 <= length x)%nat -> length (d_addrs d) = 13%nat ->
  (o' + 64 <= o \/ o + 64 <= o')%nat -> dinode_at (put_dinode x o d) o' = dinode_at x o'.
Proof.
  intros Hl Hd Ho. unfold dinode_at. rewrite !put_dinode_get16, put_dinode_get32 by (done || lia). f_equal.
  apply list_fmap_ext. intros i k Hk. apply lookup_seq in Hk as [-> Hk]. apply put_dinode_get32; done || lia.
Qed.

(** ** Path names *)

(** The elements of a path, and an element as a directory stores it. *)
Fixpoint elements_from (cur : bytes) (p : bytes) : list bytes :=
  match p with
  | [] => if decide (cur = []) then [] else [cur]
  | c :: p => if decide (c = SLASH) then (if decide (cur = []) then [] else [cur]) ++ elements_from [] p
              else elements_from (cur ++ [c]) p
  end.
Definition elements (p : bytes) : list bytes := elements_from [] p.

(** What is in the name buffer, up to a 0 or to DIRSIZ bytes. *)
Definition name_of (e : bytes) (old : bytes) : bytes :=
  if decide (DIRSIZ <= length e)%nat then take DIRSIZ e else put_bytes old 0 (e ++ [0]).

Lemma elements_skip p : elements (skip_slashes p) = elements p.
Proof.
  induction p as [|c p IH]; [done|]. simpl. destruct (Z.eqb_spec c SLASH) as [->|Hc]; [|done].
  by rewrite IH.
Qed.

Lemma elements_take p : forall cur, (cur <> [] \/ exists c p', p = c :: p' /\ c <> SLASH) ->
  elements_from cur p = (cur ++ (take_elem p).1) :: elements (take_elem p).2.
Proof.
  induction p as [|c p IH]; intros cur Hcur; simpl.
  - destruct Hcur as [Hcur|(c & p' & ? & _)]; [|done]. rewrite decide_False by done. by rewrite app_nil_r.
  - destruct (Z.eqb_spec c SLASH) as [->|Hc].
    + destruct Hcur as [Hcur|(c & p' & [= <- _] & ?)]; [|done].
      rewrite (decide_True (P := SLASH = SLASH)), (decide_False (P := cur = [])) by done. by rewrite app_nil_r.
    + rewrite decide_False by done. simpl. rewrite IH by (left; by destruct cur).
      by rewrite <-(assoc_L app).
Qed.

Lemma skip_slashes_head p : match skip_slashes p with [] => True | c :: _ => c <> SLASH end.
Proof. induction p as [|c p IH]; simpl; [done|]. by destruct (Z.eqb_spec c SLASH). Qed.

Lemma skip_slashes_shorter p : (length (skip_slashes p) <= length p)%nat.
Proof. induction p as [|c p IH]; simpl; [lia|]. case_match; simpl; lia. Qed.
Lemma take_elem_shorter p : (length (take_elem p).2 + length (take_elem p).1 = length p)%nat.
Proof. induction p as [|c p IH]; simpl; [lia|]. case_match; simpl; lia. Qed.

(** The elements of a path by repeated calls of skipelem, the way namex walks. *)
Fixpoint walk_path (fuel : nat) (p name : bytes) : option (list bytes) :=
  match fuel with
  | O => None
  | S fuel =>
      match skipelem p name with
      | None => Some []
      | Some (p, name) => (fun l => name :: l) <$> walk_path fuel p name
      end
  end.
Fixpoint names_of (es : list bytes) (old : bytes) : list bytes :=
  match es with
  | [] => []
  | e :: es => name_of e old :: names_of es (name_of e old)
  end.

(** C34: skipelem parses path names.  Calling it until it returns 0 visits
    exactly the elements of the path between slashes, in order, however many
    slashes there are; each call puts the element into the name buffer, cut at
    DIRSIZ bytes and ended by a 0 when it is shorter; and a path of [n] bytes
    takes at most [n + 1] calls. *)
Theorem skipelem_walks_elements (p name : bytes) : length name = DIRSIZ ->
  walk_path (length p + 1) p name = Some (names_of (elements p) name).
Proof.
  cut (forall fuel p name, (length p < fuel)%nat -> length name = DIRSIZ ->
    walk_path fuel p name = Some (names_of (elements p) name)).
  { intros H Hn. apply H; [lia|done]. }
  clear p name. induction fuel as [|fuel IH]; intros p name Hf Hn; [lia|]. simpl. unfold skipelem.
  pose proof (skip_slashes_head p) as Hh. pose proof (skip_slashes_shorter p) as Hs.
  rewrite <-(elements_skip p). destruct (skip_slashes p) as [|c q] eqn:E; [done|].
  unfold elements at 1. rewrite elements_take by (right; by exists c, q). cbn [app names_of].
  pose proof (take_elem_shorter (c :: q)) as Ht. assert (He : (0 < length (take_elem (c :: q)).1)%nat).
  { simpl. destruct (Z.eqb_spec c SLASH); [done|simpl; lia]. }
  set (e := (take_elem (c :: q)).1) in *. set (r := (take_elem (c :: q)).2) in *.
  assert (Hname : (if decide (DIRSIZ <= length e)%nat then put_bytes name 0 (take DIRSIZ e)
     else put_bytes name 0 (e ++ [0])) = name_of e name).
  { unfold name_of. case_decide; [|done]. unfold put_bytes. rewrite take_0, drop_ge, app_nil_r; [done|].
    rewrite length_take. lia. }
  rewrite Hname. assert (Hnl : length (name_of e name) = DIRSIZ).
  { unfold name_of. case_decide; [rewrite length_take; lia|].
    rewrite length_put_bytes; [done|]. rewrite length_app. simpl. lia. }
  rewrite IH; [|pose proof (skip_slashes_shorter r); simpl in Ht, Hs; lia|done].
  simpl. by rewrite elements_skip.
Qed.

Lemma skipelem_walks_elements_witness :
  walk_path 11 [47; 97; 47; 47; 98; 98; 47; 99; 47; 47] (replicate DIRSIZ 0) =
  Some (names_of [[97]; [98; 98]; [99]] (replicate DIRSIZ 0)).
Proof. exact (skipelem_walks_elements [47; 97; 47; 47; 98; 98; 47; 99; 47; 47] (replicate DIRSIZ 0) eq_refl). Defined.

(** ** Running block operations *)
Definition tupd (n : Z) (x : bytes) (t : tabs) : tabs :=
  TAbs (disk_set (tview t) n x) (theld t) (tdirty t) ({[n]} ∪ tlogged t) (tcap t) (usable t).

Lemma upd_abs n i x t : theld t !! n = None -> (n ∉ tdirty t) ->
  tdrop n (trecord n (tedit n x (thold n i t))) = tupd n x t.
Proof.
  intros Hh Hd. unfold tdrop, trecord, tedit, thold, tupd. simpl. f_equal.
  - by rewrite delete_insert_id.
  - set_solver.
Qed.
Lemma peek_abs n i t : theld t !! n = None -> tdrop n (thold n i t) = t.
Proof. intros Hh. unfold tdrop, thold. simpl. rewrite delete_insert_id by done. by destruct t. Qed.

(** [k] more blocks can be recorded. *)
Definition budget (t : tabs) (k : nat) : Prop := (size (tlogged t) + k <= tcap t)%nat.

Lemma budget_upd t k n x : budget t (S k) -> budget (tupd n x t) k.
Proof.
  unfold budget. simpl. intros H. rewrite size_union_alt, size_singleton.
  assert (size (tlogged t ∖ {[n]}) <= size (tlogged t))%nat by (apply subseteq_size; set_solver). lia.
Qed.
Lemma budget_mono t k k' : budget t k -> (k' <= k)%nat -> budget t k'.
Proof. unfold budget. lia. Qed.
Lemma budget_log t n : budget t 1 -> (size ({[n]} ∪ tlogged t) <= tcap t)%nat.
Proof.
  unfold budget. intros H. rewrite size_union_alt, size_singleton.
  assert (size (tlogged t ∖ {[n]}) <= size (tlogged t))%nat by (apply subseteq_size; set_solver). lia.
Qed.

Section Run.
Context {S : Type} `{TD : !TxDisk S} `{DV : !DevSw S}.
Implicit Types (s : fstate S) (t : tabs).

Definition with_disk (d : S) (s : fstate S) : fstate S := lset diskL d s.

Lemma with_disk_twice d d' s : with_disk d' (with_disk d s) = with_disk d' s.
Proof. done. Qed.

(** Between operations no block is held and all changes are recorded. *)
Record at_rest s t : Prop := {
  ar_rep : trep (disk s) t;
  ar_held : theld t = ∅;
  ar_dirty : tdirty t = ∅
}.

Section Steps.
Context (s : fstate S) (t : tabs).
Hypothesis R : trep (disk s) t.

Lemma wp_fs_bread n Q : usable t n -> theld t !! n = None -> (size (theld t) < 3)%nat ->
  (forall i d', trep d' (thold n i t) -> Q i (with_disk d' s)) -> wp (bread 1 n) Q s.
Proof.
  intros H1 H2 H3 HQ. destruct (tx_bread_law _ t n R H1 H2 H3) as (i & d' & Hr & R').
  unfold wp, bread, zoom. simpl. rewrite Hr. by apply HQ.
Qed.
Lemma wp_fs_data n i Q : theld t !! n = Some i -> Q (tview t n) s -> wp (bdata i) Q s.
Proof.
  intros H1 HQ. unfold wp, bdata, zoom. simpl. rewrite (tx_data_law _ t n i R H1).
  by destruct s.
Qed.
Lemma wp_fs_put n i x Q : theld t !! n = Some i -> length x = BSIZE ->
  (forall d', trep d' (tedit n x t) -> Q tt (with_disk d' s)) -> wp (bput i x) Q s.
Proof.
  intros H1 H2 HQ. destruct (tx_put_law _ t n i x R H1 H2) as (d' & Hr & R').
  unfold wp, bput, zoom. simpl. rewrite Hr. by apply HQ.
Qed.
Lemma wp_fs_log n i Q : theld t !! n = Some i -> budget t 1 ->
  (forall d', trep d' (trecord n t) -> Q tt (with_disk d' s)) -> wp (log_write i) Q s.
Proof.
  intros H1 H2 HQ. destruct (tx_log_write_law _ t n i R H1 (budget_log _ _ H2)) as (d' & Hr & R').
  unfold wp, log_write, zoom. simpl. rewrite Hr. by apply HQ.
Qed.
Lemma wp_fs_relse n i Q : theld t !! n = Some i -> n ∉ tdirty t ->
  (forall d', trep d' (tdrop n t) -> Q tt (with_disk d' s)) -> wp (brelse i) Q s.
Proof.
  intros H1 H2 HQ. destruct (tx_brelse_law _ t n i R H1 H2) as (d' & Hr & R').
  unfold wp, brelse, zoom. simpl. rewrite Hr. by apply HQ.
Qed.
End Steps.

(** Changing a block that is held: store, record, release. *)
Lemma wp_commit_block s t n i x Q : trep (disk s) (thold n i t) -> theld t !! n = None -> (n ∉ tdirty t) ->
  length x = BSIZE -> budget t 1 ->
  (forall d', trep d' (tupd n x t) -> Q tt (with_disk d' s)) ->
  wp (bput i x ;; log_write i ;; brelse i) Q s.
Proof.
  intros R Hh Hd Hx Hb HQ.
  rewrite wp_bind. apply (wp_fs_put s _ R n i); [apply lookup_insert_eq|done|]. intros d1 R1.
  rewrite wp_bind. apply (wp_fs_log (with_disk d1 s) _ R1 n i); [apply lookup_insert_eq|done|]. intros d2 R2.
  apply (wp_fs_relse (with_disk d2 s) _ R2 n i); [apply lookup_insert_eq|simpl; set_solver|]. intros d3 R3.
  rewrite upd_abs in R3 by done. by apply HQ.
Qed.

Lemma wp_commit_then {A} s t n i x (m : M (fstate S) A) Q :
  trep (disk s) (thold n i t) -> theld t !! n = None -> (n ∉ tdirty t) -> length x = BSIZE -> budget t 1 ->
  (forall d', trep d' (tupd n x t) -> wp m Q (with_disk d' s)) ->
  wp (bput i x ;; log_write i ;; brelse i ;; m) Q s.
Proof.
  intros R Hh Hd Hx Hb HQ.
  rewrite wp_bind. apply (wp_fs_put s _ R n i); [apply lookup_insert_eq|done|]. intros d1 R1.
  rewrite wp_bind. apply (wp_fs_log (with_disk d1 s) _ R1 n i); [apply lookup_insert_eq|done|]. intros d2 R2.
  rewrite wp_bind. apply (wp_fs_relse (with_disk d2 s) _ R2 n i); [apply lookup_insert_eq|simpl; set_solver|].
  intros d3 R3. rewrite upd_abs in R3 by done. by apply HQ.
Qed.

Lemma wp_bzero s t n Q : trep (disk s) t -> usable t n -> theld t !! n = None -> (size (theld t) < 3)%nat ->
  (n ∉ tdirty t) -> budget t 1 ->
  (forall d', trep d' (tupd n (replicate BSIZE 0) t) -> Q tt (with_disk d' s)) -> wp (bzero 1 n) Q s.
Proof.
  intros R Hu Hh Hs Hd Hb HQ. unfold bzero. rewrite wp_bind. apply (wp_fs_bread s t R n); try done.
  intros i d1 R1. apply (wp_commit_block (with_disk d1 s) t n i); try done.
Qed.
End Run.

(** ** The free-block map *)
Lemma land_bit y k : 0 <= k -> (Z.land y (Z.shiftl 1 k) =? 0) = negb (Z.testbit y k).
Proof.
  intros Hk. rewrite Z.shiftl_1_l. destruct (Z.testbit y k) eqn:E; simpl.
  - apply Z.eqb_neq. intros H0. assert (H1 : Z.testbit (Z.land y (2 ^ k)) k = true)
      by (rewrite Z.land_spec, E, Z.pow2_bits_true; done || lia).
    rewrite H0, Z.bits_0 in H1. done.
  - apply Z.eqb_eq, Z.bits_inj'. intros n Hn. rewrite Z.land_spec, Z.bits_0.
    destruct (decide (n = k)) as [->|Hne]; [by rewrite E|]. rewrite Z.pow2_bits_false by done. apply andb_false_r.
Qed.

Lemma bit_used_testbit x bi : bit_used x bi = Z.testbit (getb x (Z.to_nat (bi / 8))) (bi mod 8).
Proof.
  unfold bit_used, bit_mask. rewrite land_bit by (apply Z.mod_pos_bound; lia). apply negb_involutive.
Qed.

Lemma u8_testbit y k : 0 <= k < 8 -> Z.testbit (u8 y) k = Z.testbit y k.
Proof. intros Hk. unfold u8. change 256 with (2 ^ 8). apply Z.mod_pow2_bits_low. lia. Qed.

Section Bits.
Context (x : bytes) (a b : Z).
Hypotheses (Hx : length x = BSIZE) (Ha : 0 <= a < BPB) (Hb : 0 <= b < BPB).

Let Ha8 : (Z.to_nat (a / 8) < length x)%nat.
Proof. rewrite Hx. unfold BSIZE, BPB in *. Z.div_mod_to_equations. lia. Qed.

(** Setting or clearing bit [a] changes no other bit [b]. *)
Lemma bit_change v : (forall k, 0 <= k < 8 -> k <> a mod 8 ->
    Z.testbit v k = Z.testbit (getb x (Z.to_nat (a / 8))) k) ->
  bit_used (putb x (Z.to_nat (a / 8)) v) b = if decide (a = b) then Z.testbit v (a mod 8) else bit_used x b.
Proof.
  intros Hv. rewrite !bit_used_testbit.
  assert (Hm : 0 <= b mod 8 < 8) by (apply Z.mod_pos_bound; lia).
  destruct (decide (a / 8 = b / 8)) as [E|E].
  - rewrite E, getb_putb_eq by (by rewrite <-E). rewrite u8_testbit by done. rewrite <-E.
    case_decide as Hab; [by rewrite Hab|]. rewrite Hv; [by rewrite E|done|].
    intros Hmod. apply Hab. pose proof (Z.div_mod a 8 ltac:(lia)). pose proof (Z.div_mod b 8 ltac:(lia)). lia.
  - rewrite getb_putb_ne; [by rewrite decide_False by congruence|].
    intros He. apply E. apply Z2Nat.inj in He; [done|apply Z.div_pos; lia..].
Qed.

Lemma set_bit_used : bit_used (set_bit x a) b = (if decide (a = b) then true else bit_used x b).
Proof.
  unfold set_bit. rewrite bit_change.
  - case_decide; [|done]. unfold bit_mask. rewrite Z.lor_spec, Z.shiftl_1_l.
    rewrite Z.pow2_bits_true by (apply Z.mod_pos_bound; lia). apply orb_true_r.
  - intros k Hk Hne. unfold bit_mask. rewrite Z.lor_spec, Z.shiftl_1_l, Z.pow2_bits_false by done. apply orb_false_r.
Qed.
Lemma clear_bit_used : bit_used (clear_bit x a) b = (if decide (a = b) then false else bit_used x b).
Proof.
  assert (Hm : 0 <= a mod 8) by (apply Z.mod_pos_bound; lia).
  unfold clear_bit. rewrite bit_change.
  - case_decide; [|done]. unfold bit_mask. rewrite Z.land_spec, Z.lnot_spec by done.
    rewrite Z.shiftl_1_l, Z.pow2_bits_true by done. apply andb_false_r.
  - intros k Hk Hne. unfold bit_mask. rewrite Z.land_spec, Z.lnot_spec, Z.shiftl_1_l, Z.pow2_bits_false by (done || lia).
    apply andb_true_r.
Qed.
End Bits.

Lemma set_bit_length x a : length (set_bit x a) = length x.
Proof. apply length_putb. Qed.
Lemma clear_bit_length x a : length (clear_bit x a) = length x.
Proof. apply length_putb. Qed.

Lemma first_free_some x n : forall bi r, first_free x bi n = Some r ->
  bi <= r < bi + Z.of_nat n /\ bit_used x r = false /\ forall k, bi <= k < r -> bit_used x k = true.
Proof.
  induction n as [|n IH]; intros bi r; simpl; [done|]. destruct (bit_used x bi) eqn:E; simpl.
  - intros H. apply IH in H as (H1 & H2 & H3). split; [lia|]. split; [done|].
    intros k Hk. destruct (decide (k = bi)) as [->|]; [done|]. apply H3. lia.
  - intros [= <-]. split; [lia|]. split; [done|]. intros k Hk. lia.
Qed.
Lemma first_free_none x n : forall bi, first_free x bi n = None ->
  forall k, bi <= k < bi + Z.of_nat n -> bit_used x k = true.
Proof.
  induction n as [|n IH]; intros bi; simpl; [lia|]. destruct (bit_used x bi) eqn:E; simpl; [|done].
  intros H k Hk. destruct (decide (k = bi)) as [->|]; [done|]. apply (IH (bi + 1)); [done|lia].
Qed.

Definition used (v : superblock) (t : tabs) (b : Z) : bool := bit_used (tview t (BBLOCK b v)) (b mod BPB).

(** A file system on the disk: its blocks are numbered below [sb_size], the
    bitmap's own blocks are marked used, and the blocks outside the log area are
    available to the transaction. *)
Record fs_ok (v : superblock) (t : tabs) : Prop := {
  fo_size : 0 < sb_size v < 2147483648;
  fo_free b : 0 <= b < sb_size v -> used v t b = false -> usable t b;
  fo_bmap b : 0 <= b < sb_size v -> usable t (BBLOCK b v);
  fo_meta b : 0 <= b < sb_size v -> 0 <= BBLOCK b v < sb_size v /\ used v t (BBLOCK b v) = true
}.

(** The blocks held are in use and none is a bitmap block. *)
Definition held_ok (v : superblock) (t : tabs) : Prop :=
  (size (theld t) < 3)%nat /\ tdirty t = ∅ /\
  forall n i, theld t !! n = Some i -> (0 <= n < sb_size v /\ used v t n = true) /\ forall b, 0 <= b < sb_size v -> n <> BBLOCK b v.

(** The state after block [b] is allocated, and after it is freed. *)
Definition alloc_abs (v : superblock) (b : Z) (t : tabs) : tabs :=
  tupd b (replicate BSIZE 0) (tupd (BBLOCK b v) (set_bit (tview t (BBLOCK b v)) (b mod BPB)) t).
Definition free_abs (v : superblock) (b : Z) (t : tabs) : tabs :=
  tupd (BBLOCK b v) (clear_bit (tview t (BBLOCK b v)) (b mod BPB)) t.

Lemma BBLOCK_same a b v : BBLOCK a v = BBLOCK b v -> a / BPB = b / BPB.
Proof. unfold BBLOCK. lia. Qed.
Lemma mod_BPB b : 0 <= b mod BPB < BPB.
Proof. apply Z.mod_pos_bound. done. Qed.
Lemma block_split a b : a / BPB = b / BPB -> a mod BPB = b mod BPB -> a = b.
Proof. intros H1 H2. rewrite (Z.div_mod a BPB), (Z.div_mod b BPB) by done. by rewrite H1, H2. Qed.

Section Alloc.
Context {S : Type} `{TD : !TxDisk S} `{DV : !DevSw S}.

Section Map.
Context (v : superblock) (t : tabs).
Hypotheses (F : fs_ok v t) (L : forall n, usable t n -> length (tview t n) = BSIZE).

(** What changing the bit of [a] does to the map. *)
Lemma used_change y a b : 0 <= a < sb_size v -> 0 <= b < sb_size v ->
  used v (tupd (BBLOCK a v) y t) b =
    if decide (a / BPB = b / BPB) then bit_used y (b mod BPB) else used v t b.
Proof.
  intros Ha Hb. unfold used. simpl. unfold disk_set. unfold BBLOCK. repeat case_decide; try done; lia.
Qed.

Lemma used_alloc a b : 0 <= a < sb_size v -> 0 <= b < sb_size v -> used v t a = false ->
  used v (alloc_abs v a t) b = if decide (a = b) then true else used v t b.
Proof.
  intros Ha Hb Hf. destruct (fo_meta _ _ F b Hb) as [Hm Hu].
  assert (Hne : BBLOCK b v <> a) by (intros E; rewrite E in Hu; congruence).
  assert (E1 : used v (alloc_abs v a t) b =
    used v (tupd (BBLOCK a v) (set_bit (tview t (BBLOCK a v)) (a mod BPB)) t) b).
  { unfold used, alloc_abs. simpl. by rewrite disk_set_ne. }
  rewrite E1, used_change by done. case_decide as E.
  - rewrite set_bit_used; [|by apply L, (fo_bmap _ _ F)|apply mod_BPB..].
    case_decide as E2; [by rewrite decide_True by by apply block_split|].
    rewrite decide_False by congruence. unfold used, BBLOCK. by rewrite E.
  - by rewrite decide_False by congruence.
Qed.
Lemma used_free a b : 0 <= a < sb_size v -> 0 <= b < sb_size v ->
  used v (free_abs v a t) b = if decide (a = b) then false else used v t b.
Proof.
  intros Ha Hb. unfold free_abs. rewrite used_change by done. case_decide as E.
  - rewrite clear_bit_used; [|by apply L, (fo_bmap _ _ F)|apply mod_BPB..].
    case_decide as E2; [by rewrite decide_True by by apply block_split|].
    rewrite decide_False by congruence. unfold used, BBLOCK. by rewrite E.
  - by rewrite decide_False by congruence.
Qed.
End Map.

Lemma tlen (d : S) t n : trep d t -> usable t n -> length (tview t n) = BSIZE.
Proof. apply trep_length. Qed.

(** balloc finds the first free block, marks it and clears it. *)
Lemma balloc_loop_run s t n : forall b, trep (disk s) t -> fs_ok (sb s) t -> held_ok (sb s) t -> budget t 2 ->
  0 <= b -> b mod BPB = 0 -> (forall k, 0 <= k < b -> k < sb_size (sb s) -> used (sb s) t k = true) ->
  (exists k, 0 <= k < sb_size (sb s) /\ used (sb s) t k = false) ->
  sb_size (sb s) <= b + Z.of_nat n * BPB ->
  wp (balloc_loop 1 b n) (fun r s' => exists d', s' = with_disk d' s /\ 0 <= r < sb_size (sb s) /\
    used (sb s) t r = false /\ (forall k, 0 <= k < r -> used (sb s) t k = true) /\
    trep d' (alloc_abs (sb s) r t)) s.
Proof.
  revert s. induction n as [|n IH]; intros s b R F Hh Hb H0 Hmod Hlow Hex Hend.
  { destruct Hex as (k & Hk & Hu). rewrite Hlow in Hu; [done|lia|lia]. }
  pose proof (fo_size _ _ F) as Hsz. destruct Hh as (Hh1 & Hh2 & Hh3).
  cbn [balloc_loop]. rewrite wp_bind, wp_gets. set (v := sb s) in *.
  destruct (Z.ltb_spec b (sb_size v)) as [Hlt|Hge].
  2:{ destruct Hex as (k & Hk & Hu). rewrite Hlow in Hu; [done|lia|lia]. }
  assert (Hnh : forall m, used v t m = false \/ (exists c, 0 <= c < sb_size v /\ m = BBLOCK c v) -> theld t !! m = None).
  { intros m Hm. destruct (theld t !! m) as [i|] eqn:E; [|done]. destruct (Hh3 m i E) as [[_ E1] E2].
    destruct Hm as [Hm|(c & Hc & ->)]; [congruence|]. by destruct (E2 c Hc). }
  rewrite wp_bind. apply (wp_fs_bread s t R (BBLOCK b v)); [by apply (fo_bmap _ _ F)|apply Hnh; right; by exists b|done|].
  intros i d1 R1. rewrite wp_bind. apply (wp_fs_data (with_disk d1 s) _ R1 (BBLOCK b v) i); [apply lookup_insert_eq|].
  change (tview (thold (BBLOCK b v) i t) (BBLOCK b v)) with (tview t (BBLOCK b v)).
  set (x := tview t (BBLOCK b v)). set (cnt := Z.to_nat (Z.min BPB (sb_size v - b))).
  assert (Hcnt : Z.of_nat cnt = Z.min BPB (sb_size v - b)) by (unfold cnt, BPB in *; lia).
  assert (Hbit : forall bi, 0 <= bi < Z.of_nat cnt -> used v t (b + bi) = bit_used x bi /\ BBLOCK (b + bi) v = BBLOCK b v).
  { intros bi Hbi. pose proof (Z.div_mod b BPB ltac:(done)) as Hdm.
    assert (E1 : (b + bi) / BPB = b / BPB).
    { symmetry. apply Z.div_unique with bi; unfold BPB in *; lia. }
    assert (E2 : (b + bi) mod BPB = bi).
    { symmetry. apply Z.mod_unique with (b / BPB); unfold BPB in *; lia. }
    unfold used, BBLOCK. rewrite E1, E2. done. }
  destruct (first_free x 0 cnt) as [bi|] eqn:Hff.
  - apply first_free_some in Hff as (B1 & B2 & B3). destruct (Hbit bi ltac:(lia)) as [U1 U2].
    assert (Hr : 0 <= b + bi < sb_size v) by (unfold BPB in *; lia).
    assert (Hfree : used v t (b + bi) = false) by congruence.
    assert (Hne : b + bi <> BBLOCK b v).
    { intros E. destruct (fo_meta _ _ F b ltac:(lia)) as [_ Hm]. rewrite <-E in Hm. congruence. }
    apply (wp_commit_then (with_disk d1 s) t (BBLOCK b v) i); [done|apply Hnh; right; by exists b|set_solver| | |].
    + rewrite set_bit_length. apply (tlen _ _ _ R), (fo_bmap _ _ F). lia.
    + by apply (budget_mono t 2); [|lia].
    + intros d2 R2. rewrite wp_bind.
      apply (wp_bzero _ (tupd (BBLOCK b v) (set_bit x bi) t)); [done|by apply (fo_free _ _ F)| |done|simpl; set_solver| |].
      * apply Hnh. by left.
      * by apply budget_upd.
      * intros d3 R3. rewrite wp_ret. exists d3. split; [by rewrite !with_disk_twice|]. split; [done|]. split; [done|]. split.
        -- intros k Hk. destruct (decide (k < b)) as [Hkb|Hkb]; [apply Hlow; lia|].
           replace k with (b + (k - b)) by lia. destruct (Hbit (k - b) ltac:(lia)) as [-> _]. apply B3. lia.
        -- unfold alloc_abs. rewrite U2. fold x. assert (Hbm : (b + bi) mod BPB = bi).
           { symmetry. apply Z.mod_unique with (b / BPB); [unfold BPB in *; lia|].
             pose proof (Z.div_mod b BPB ltac:(done)). lia. }
           by rewrite Hbm.
  - pose proof (first_free_none _ _ _ Hff) as B3.
    rewrite wp_bind. apply (wp_fs_relse (with_disk d1 s) _ R1 (BBLOCK b v) i); [apply lookup_insert_eq|simpl; set_solver|].
    intros d2 R2. rewrite peek_abs in R2 by (apply Hnh; right; by exists b).
    assert (Hcase : Z.of_nat cnt = BPB \/ sb_size v <= b + Z.of_nat cnt) by lia.
    eapply wp_mono; [apply (IH (with_disk d2 s) (b + BPB)); try done; [unfold BPB in *; lia| | |]|].
    + rewrite Z.add_mod, Hmod by done. done.
    + intros k Hk Hk2. change (sb (with_disk d2 s)) with v in *. destruct (decide (k < b)) as [Hkb|Hkb]; [apply Hlow; [lia|done]|].
      replace k with (b + (k - b)) by lia. 
      destruct (Hbit (k - b) ltac:(lia)) as [-> _]. apply B3. lia.
    + simpl. fold v. unfold BPB in *. lia.
    + intros r s' (d' & -> & P1 & P2 & P3 & P4). exists d'. by rewrite with_disk_twice.
Qed.

Lemma balloc_run s t : trep (disk s) t -> fs_ok (sb s) t -> held_ok (sb s) t -> budget t 2 ->
  (exists k, 0 <= k < sb_size (sb s) /\ used (sb s) t k = false) ->
  wp (balloc 1) (fun r s' => exists d', s' = with_disk d' s /\ 0 <= r < sb_size (sb s) /\
    used (sb s) t r = false /\ (forall k, 0 <= k < r -> used (sb s) t k = true) /\
    trep d' (alloc_abs (sb s) r t)) s.
Proof.
  intros R F Hh Hb Hex. unfold balloc. rewrite wp_bind, wp_gets. apply balloc_loop_run; try done; try lia.
  pose proof (fo_size _ _ F) as Hsz.
  rewrite Z2Nat.id by (pose proof (Z.div_pos (sb_size (sb s)) BPB ltac:(lia) ltac:(done)); lia).
  pose proof (Z.mul_succ_div_gt (sb_size (sb s)) BPB ltac:(done)). lia.
Qed.

Lemma bfree_run s t b : trep (disk s) t -> fs_ok (sb s) t -> held_ok (sb s) t -> budget t 1 ->
  0 <= b < sb_size (sb s) -> used (sb s) t b = true ->
  wp (bfree 1 b) (fun _ s' => exists d', s' = with_disk d' s /\ trep d' (free_abs (sb s) b t)) s.
Proof.
  intros R F (Hh1 & Hh2 & Hh3) Hb Hr Hu. set (v := sb s) in *.
  assert (Hnh : theld t !! BBLOCK b v = None).
  { destruct (theld t !! BBLOCK b v) as [i|] eqn:E; [|done]. destruct (Hh3 _ i E) as [_ E2]. by destruct (E2 b Hr). }
  unfold bfree. rewrite wp_bind, wp_gets. fold v. rewrite wp_bind.
  apply (wp_fs_bread s t R (BBLOCK b v)); [by apply (fo_bmap _ _ F)|done..|].
  intros i d1 R1. rewrite wp_bind. apply (wp_fs_data (with_disk d1 s) _ R1 (BBLOCK b v) i); [apply lookup_insert_eq|].
  change (tview (thold (BBLOCK b v) i t) (BBLOCK b v)) with (tview t (BBLOCK b v)).
  unfold used in Hu. rewrite Hu. cbn [negb]. rewrite wp_bind, wp_ret.
  apply (wp_commit_block (with_disk d1 s) t (BBLOCK b v) i); [done|done|set_solver| |done|].
  - rewrite clear_bit_length. by apply (tlen _ _ _ R), (fo_bmap _ _ F).
  - intros d' R'. exists d'. by rewrite with_disk_twice.
Qed.

(** With every block in use the scan goes over the whole map and panics. *)
Lemma balloc_loop_full n : forall s t b, trep (disk s) t -> fs_ok (sb s) t -> held_ok (sb s) t ->
  0 <= b -> b mod BPB = 0 -> (forall k, 0 <= k < sb_size (sb s) -> used (sb s) t k = true) ->
  balloc_loop 1 b n s = Panic "balloc: out of blocks".
Proof.
  induction n as [|n IH]; intros s t b R F Hh H0 Hmod Hfull; [done|]. cbn [balloc_loop]. rewrite bind_gets.
  pose proof (fo_size _ _ F) as Hsz. pose proof Hh as (Hh1 & Hh2 & Hh3).
  destruct (Z.ltb_spec b (sb_size (sb s))) as [Hlt|Hge]; [|done].
  assert (Hnh : theld t !! BBLOCK b (sb s) = None).
  { destruct (theld t !! BBLOCK b (sb s)) as [i|] eqn:E; [|done]. destruct (Hh3 _ i E) as [_ E2]. by destruct (E2 b). }
  destruct (tx_bread_law _ t (BBLOCK b (sb s)) R (fo_bmap _ _ F b ltac:(lia)) Hnh Hh1) as (i & d1 & Hr1 & R1).
  rewrite (bind_ok (bread 1 _) _ _ i (with_disk d1 s)) by (unfold bread, zoom; simpl; by rewrite Hr1).
  rewrite (bind_ok (bdata i) _ _ (tview t (BBLOCK b (sb s))) (with_disk d1 s)).
  2:{ unfold bdata, zoom. simpl. rewrite (tx_data_law _ _ (BBLOCK b (sb s)) i R1 (lookup_insert_eq _ _ _)). by destruct s. }
  destruct (first_free _ _ _) as [bi|] eqn:Hff.
  - exfalso. apply first_free_some in Hff as (B1 & B2 & _).
    assert (Hu : used (sb s) t (b + bi) = true) by (apply Hfull; lia).
    assert (Hdiv : (b + bi) / BPB = b / BPB /\ (b + bi) mod BPB = bi).
    { pose proof (Z.div_mod b BPB ltac:(done)). split; symmetry;
        [apply Z.div_unique with bi|apply Z.mod_unique with (b / BPB)]; unfold BPB in *; lia. }
    destruct Hdiv as [E1 E2]. unfold used, BBLOCK in Hu. rewrite E1, E2 in Hu. unfold BBLOCK in B2. congruence.
  - destruct (tx_brelse_law _ _ (BBLOCK b (sb s)) i R1 (lookup_insert_eq _ _ _)) as (d2 & Hr2 & R2); [simpl; set_solver|].
    rewrite (bind_ok (brelse i) _ _ tt (with_disk d2 s)) by (unfold brelse, zoom; simpl; by rewrite Hr2).
    rewrite peek_abs in R2 by done. apply (IH (with_disk d2 s) t); try done; [unfold BPB in *; lia|].
    rewrite Z.add_mod, Hmod by done. done.
Qed.

Lemma alloc_fs_ok v t r : fs_ok v t -> (forall n, usable t n -> length (tview t n) = BSIZE) ->
  0 <= r < sb_size v -> used v t r = false -> fs_ok v (alloc_abs v r t).
Proof.
  intros F L Hr Hu. pose proof F as [F1 F2 F3 F4]. split; try done.
  - intros b Hb Hf. rewrite (used_alloc v t F L) in Hf by done. case_decide; [done|]. by apply F2.
  - intros b Hb. destruct (F4 b Hb) as [F5 F6]. split; [done|]. rewrite (used_alloc v t F L) by done. by case_decide.
Qed.

(** C21: The block allocator.  While some block is free, balloc returns the
    first free one; afterwards exactly that block has become used, it is full of
    zeros, and no other block but the bitmap block that records it has changed;
    the file system stays well formed.  When every block is in use balloc
    panics. *)
Theorem balloc_first_free_zeroed s t :
  trep (disk s) t -> fs_ok (sb s) t -> held_ok (sb s) t -> budget t 2 ->
  ((exists k, 0 <= k < sb_size (sb s) /\ used (sb s) t k = false) ->
   exists r d' t', balloc 1 s = Ok (r, with_disk d' s) /\ trep d' t' /\
     0 <= r < sb_size (sb s) /\ used (sb s) t r = false /\ (forall k, 0 <= k < r -> used (sb s) t k = true) /\
     (forall b, 0 <= b < sb_size (sb s) -> used (sb s) t' b = if decide (b = r) then true else used (sb s) t b) /\
     tview t' r = replicate BSIZE 0 /\
     (forall n, n <> r -> n <> BBLOCK r (sb s) -> tview t' n = tview t n) /\
     fs_ok (sb s) t') /\
  ((forall k, 0 <= k < sb_size (sb s) -> used (sb s) t k = true) ->
   balloc 1 s = Panic "balloc: out of blocks").
Proof.
  intros R F Hh Hb. assert (L : forall n, usable t n -> length (tview t n) = BSIZE) by (intros n; by apply (tlen (disk s))).
  split.
  - intros Hex. pose proof (balloc_run s t R F Hh Hb Hex) as Hw.
    apply wp_ok in Hw as (r & s' & Hrun & d' & -> & P1 & P2 & P3 & P4).
    exists r, d', (alloc_abs (sb s) r t). split_and!; try done; try lia.
    + intros b Hb'. rewrite (used_alloc (sb s) t F L) by done. repeat case_decide; congruence.
    + apply disk_set_eq.
    + intros n H1 H2. simpl. by rewrite !disk_set_ne.
    + by apply alloc_fs_ok.
  - intros Hfull. unfold balloc. rewrite bind_gets. by apply (balloc_loop_full _ s t).
Qed.

Lemma bfree_free_panics s t b : trep (disk s) t -> fs_ok (sb s) t -> held_ok (sb s) t ->
  0 <= b < sb_size (sb s) -> used (sb s) t b = false -> bfree 1 b s = Panic "freeing free block".
Proof.
  intros R F (Hh1 & Hh2 & Hh3) Hr Hu. unfold bfree. rewrite bind_gets.
  assert (Hnh : theld t !! BBLOCK b (sb s) = None).
  { destruct (theld t !! BBLOCK b (sb s)) as [i|] eqn:E; [|done]. destruct (Hh3 _ i E) as [_ E2]. by destruct (E2 b). }
  destruct (tx_bread_law _ t (BBLOCK b (sb s)) R (fo_bmap _ _ F b Hr) Hnh Hh1) as (i & d1 & Hr1 & R1).
  rewrite (bind_ok (bread 1 _) _ _ i (with_disk d1 s)) by (unfold bread, zoom; simpl; by rewrite Hr1).
  rewrite (bind_ok (bdata i) _ _ (tview t (BBLOCK b (sb s))) (with_disk d1 s)).
  2:{ unfold bdata, zoom. simpl. rewrite (tx_data_law _ _ (BBLOCK b (sb s)) i R1 (lookup_insert_eq _ _ _)). by destruct s. }
  unfold used in Hu. by rewrite Hu.
Qed.

(** Freeing a block that has just been allocated gives the free-block map
    back, bit for bit, and freeing a block that is not in use panics. *)
Theorem bfree_inverts_balloc s t :
  trep (disk s) t -> fs_ok (sb s) t -> held_ok (sb s) t -> budget t 3 ->
  (exists k, 0 <= k < sb_size (sb s) /\ used (sb s) t k = false) ->
  exists r s1 d2 t2, balloc 1 s = Ok (r, s1) /\ bfree 1 r s1 = Ok (tt, with_disk d2 s) /\ trep d2 t2 /\
    (forall b, 0 <= b < sb_size (sb s) -> used (sb s) t2 b = used (sb s) t b) /\
    bfree 1 r s = Panic "freeing free block".
Proof.
  intros R F Hh Hb Hex. set (v := sb s).
  assert (L : forall n, usable t n -> length (tview t n) = BSIZE) by (intros n; by apply (tlen (disk s))).
  pose proof (balloc_run s t R F Hh (budget_mono t 3 2 Hb ltac:(lia)) Hex) as Hw.
  apply wp_ok in Hw as (r & s' & Hrun & d' & -> & P1 & P2 & P3 & P4).
  pose proof (alloc_fs_ok v t r F L P1 P2) as F'.
  assert (Hu' : used v (alloc_abs v r t) r = true) by (rewrite (used_alloc v t F L) by done; by rewrite decide_True).
  assert (Hh' : held_ok v (alloc_abs v r t)).
  { destruct Hh as (Hh1 & Hh2 & Hh3). split_and!; try done. intros n i E. destruct (Hh3 n i E) as [[Hn E1] E2].
    split; [|done]. split; [done|]. rewrite (used_alloc v t F L) by done. by case_decide. }
  pose proof (bfree_run (with_disk d' s) (alloc_abs v r t) r P4 F' Hh') as Hw2.
  specialize (Hw2 ltac:(by do 2 apply budget_upd) P1 Hu').
  apply wp_ok in Hw2 as ([] & s2 & Hrun2 & d2 & -> & R2).
  exists r, (with_disk d' s), d2, (free_abs v r (alloc_abs v r t)). split_and!; try done.
  - intros b Hbr. rewrite (used_free v (alloc_abs v r t) F') by (done || intros n; by apply (tlen d')).
    rewrite (used_alloc v t F L) by done. case_decide as E; [by rewrite <-E|done].
  - by apply bfree_free_panics with t.
Qed.
End Alloc.

(** ** An example: a disk of a hundred blocks with its log at block 2 and its
    bitmap in block 40, the first 48 blocks in use. *)
Definition ex_fimg : Memide.memdisk :=
  Memide.ideinit {[40 := replicate 6 255 ++ replicate 506 0]} (100 * 512).
Definition ex_sb : superblock := SuperBlock 100 50 16 30 2 33 40.

#[local] Instance no_devs {S} : DevSw S := {| dev_read := fun _ => None; dev_write := fun _ => None |}.

Lemma ex_fimg_ok : drv_ok ex_fimg.
Proof.
  intros n Hn. unfold ex_fimg, Memide.img_block. simpl. destruct (decide (n = 40)) as [->|Hne].
  - by rewrite lookup_singleton_eq.
  - by rewrite lookup_singleton_ne.
Qed.

Definition ex_tabs : tabs :=
  TAbs (medium ex_fimg) ∅ ∅ ∅ 20 (fun n => home ex_log n /\ in_disk (boot_abs ex_fimg) n).

Lemma ex_fs_state : exists d : lstate (Bcache.bcache Memide.memdisk), trep d ex_tabs.
Proof.
  destruct (begin_trep ex_log (Bcache.binit ex_fimg 1) (boot_abs ex_fimg) 20) as (s & _ & Hs).
  - by apply boot_idle.
  - exact (binit_rep ex_fimg 1 ex_fimg_ok).
  - unfold NBUF. lia.
  - done.
  - by exists s.
Qed.

Lemma ex_used b : 0 <= b < 100 -> used ex_sb ex_tabs b = (b <? 48).
Proof.
  intros Hb. assert (H : forallb (fun k => Bool.eqb (used ex_sb ex_tabs (Z.of_nat k)) (Z.of_nat k <? 48)) (seq 0 100) = true)
    by (vm_compute; reflexivity).
  rewrite forallb_forall in H. specialize (H (Z.to_nat b)). rewrite Z2Nat.id in H by lia.
  apply Bool.eqb_prop, H, in_seq. lia.
Qed.

Lemma ex_fs_ok : fs_ok ex_sb ex_tabs.
Proof.
  assert (HB : forall b, 0 <= b < 100 -> BBLOCK b ex_sb = 40).
  { intros b Hb. unfold BBLOCK. simpl. rewrite Z.div_small by (unfold BPB; lia). done. }
  split; simpl; [lia|..].
  - intros b Hb Hu. rewrite ex_used in Hu by done. apply Z.ltb_ge in Hu. split; [right; simpl; lia|done].
  - intros b Hb. rewrite HB by done. split; [right; simpl; lia|done].
  - intros b Hb. rewrite HB by done. split; [lia|]. by rewrite ex_used by lia.
Qed.

Lemma balloc_first_free_zeroed_witness :
  exists (s : fstate (lstate (Bcache.bcache Memide.memdisk))) r s' , balloc 1 s = Ok (r, s') /\ r = 48.
Proof.
  destruct ex_fs_state as [d R]. exists (FState d ex_sb false (replicate NINODE no_inode) 1 0).
  destruct (balloc_first_free_zeroed (FState d ex_sb false (replicate NINODE no_inode) 1 0) ex_tabs R ex_fs_ok) as [H _].
  - split; [vm_compute; lia|]. split; [reflexivity|]. by intros n i Hn.
  - vm_compute. lia.
  - destruct H as (r & d' & t' & H1 & _ & H2 & H3 & H4 & _).
    + exists 50. split; [simpl; lia|]. exact (ex_used 50 ltac:(lia)).
    + exists r, (with_disk d' (FState d ex_sb false (replicate NINODE no_inode) 1 0)). split; [exact H1|].
      simpl in H2, H3, H4. rewrite ex_used in H3 by done. apply Z.ltb_ge in H3.
      destruct (decide (r = 48)); [done|]. specialize (H4 48 ltac:(lia)). rewrite ex_used in H4 by lia. done.
Defined.

Lemma bfree_inverts_balloc_witness :
  exists (s : fstate (lstate (Bcache.bcache Memide.memdisk))) r s1 s2,
    balloc 1 s = Ok (r, s1) /\ bfree 1 r s1 = Ok (tt, s2).
Proof.
  destruct ex_fs_state as [d R]. exists (FState d ex_sb false (replicate NINODE no_inode) 1 0).
  destruct (bfree_inverts_balloc (FState d ex_sb false (replicate NINODE no_inode) 1 0) ex_tabs R ex_fs_ok)
    as (r & s1 & d2 & t2 & H1 & H2 & _).
  - split; [vm_compute; lia|]. split; [reflexivity|]. by intros n i Hn.
  - vm_compute. lia.
  - exists 50. split; [simpl; lia|]. exact (ex_used 50 ltac:(lia)).
  - eexists r, s1, _. split; [exact H1|exact H2].
Defined.
