(* ===== verification/FsData.v ===== *)
(** * File contents (bmap, readi, writei and iupdate of fs.c)

    The bytes of a file are spread over direct blocks and the blocks an indirect
    block lists.  What writei stores readi returns, the rest of the file and all
    other files keep their bytes, and a chunk of filewrite fits in the blocks
    that begin_op sets aside. *)
From S2P Require Import Prelude Bytes CString Spinlock Sleeplock Bio BioProps Log LogProps TxDisk Fs FsProps.

Open Scope Z_scope.

(** ** Where the blocks of a file are *)
Inductive site := AtInode | AtIndirect | AtData (k : Z).
#[export] Instance site_eq_dec : EqDecision site.
Proof. solve_decision. Defined.

Definition site_ok (x : site) : Prop := match x with AtData k => 0 <= k < MAXFILE | _ => True end.

(** The block at a site of inode [n], 0 where there is none. *)
Definition at_site (v : superblock) (t : tabs) (n : Z) (d : dinode) (x : site) : Z :=
  match x with
  | AtInode => IBLOCK n v
  | AtIndirect => addr NDIRECT d
  | AtData k =>
      if k <? Z.of_nat NDIRECT then addr (Z.to_nat k) d
      else if addr NDIRECT d =? 0 then 0
      else get32 (tview t (addr NDIRECT d)) (4 * Z.to_nat (k - Z.of_nat NDIRECT))
  end.

(** Byte [p] of the file; a block that is not there reads as zeros. *)
Definition file_byte (v : superblock) (t : tabs) (n : Z) (d : dinode) (p : Z) : Z :=
  let a := at_site v t n d (AtData (p / Z.of_nat BSIZE)) in
  if a =? 0 then 0 else getb (tview t a) (Z.to_nat (p mod Z.of_nat BSIZE)).

(** A block some file or the inode area has: in use, available to the
    transaction, and not of the bitmap. *)
Record owned (v : superblock) (t : tabs) (b : Z) : Prop := {
  ow_range : 0 <= b < sb_size v;
  ow_used : used v t b = true;
  ow_usable : usable t b;
  ow_bmap c : 0 <= c < sb_size v -> b <> BBLOCK c v
}.

Record file_ok (v : superblock) (t : tabs) (n : Z) (d : dinode) : Prop := {
  fl_dinode : dinode_ok d;
  fl_size : 0 <= d_size d <= MAXFILE * Z.of_nat BSIZE;
  fl_boot : owned v t 0;
  fl_inode : IBLOCK n v <> 0;
  fl_owned x : site_ok x -> at_site v t n d x <> 0 -> owned v t (at_site v t n d x);
  fl_inj x y : site_ok x -> site_ok y -> at_site v t n d x <> 0 ->
    at_site v t n d x = at_site v t n d y -> x = y;
  fl_full k : 0 <= k -> k * Z.of_nat BSIZE < d_size d -> at_site v t n d (AtData k) <> 0
}.

Lemma fl_len v t n d : file_ok v t n d -> length (d_addrs d) = 13%nat.
Proof. intros F. by apply do_len, (fl_dinode _ _ _ _ F). Qed.

(** Blocks in use that are not of this file, and that they stay as they are. *)
Definition other (v : superblock) (t : tabs) (n : Z) (d : dinode) (b : Z) : Prop :=
  owned v t b /\ forall x, site_ok x -> at_site v t n d x <> b.
Definition frame (v : superblock) (n : Z) (t : tabs) (d : dinode) (t' : tabs) (d' : dinode) : Prop :=
  forall b, other v t n d b -> other v t' n d' b /\ tview t' b = tview t b.

(** More blocks for the same file: its bytes and its other fields stay. *)
Record grown (v : superblock) (n : Z) (t : tabs) (d : dinode) (t' : tabs) (d' : dinode) : Prop := {
  gr_frame : frame v n t d t' d';
  gr_sites x : site_ok x -> at_site v t n d x <> 0 -> at_site v t' n d' x = at_site v t n d x;
  gr_inode : tview t' (IBLOCK n v) = tview t (IBLOCK n v);
  gr_bytes p : 0 <= p < MAXFILE * Z.of_nat BSIZE -> file_byte v t' n d' p = file_byte v t n d p;
  gr_fields : DInode (d_type d') (d_major d') (d_minor d') (d_nlink d') (d_size d') [] =
              DInode (d_type d) (d_major d) (d_minor d) (d_nlink d) (d_size d) []
}.

Lemma getb_zeros m o : getb (replicate m 0) o = 0.
Proof. unfold getb. destruct (replicate m 0 !! o) as [z|] eqn:E; [|done]. by apply lookup_replicate in E as [-> _]. Qed.
Lemma get32_zeros m o : get32 (replicate m 0) o = 0.
Proof. unfold get32. by rewrite !getb_zeros. Qed.

Section Frame.
Context (v : superblock) (n : Z).

Lemma frame_refl t d : frame v n t d t d.
Proof. intros b Hb. done. Qed.
Lemma frame_trans t1 d1 t2 d2 t3 d3 :
  frame v n t1 d1 t2 d2 -> frame v n t2 d2 t3 d3 -> frame v n t1 d1 t3 d3.
Proof. intros H1 H2 b Hb. destruct (H1 b Hb) as [O1 E1]. destruct (H2 b O1) as [O2 E2]. split; [done|congruence]. Qed.

(** The file's blocks depend on the view only through the indirect block. *)
Lemma at_site_view t t' d x : (addr NDIRECT d <> 0 -> tview t' (addr NDIRECT d) = tview t (addr NDIRECT d)) ->
  at_site v t' n d x = at_site v t n d x.
Proof.
  intros H. destruct x as [| |k]; unfold at_site; try done. destruct (k <? _); [done|].
  destruct (Z.eqb_spec (addr NDIRECT d) 0); [done|]. by rewrite H.
Qed.

(** Changing a block that some site other than the indirect one has. *)
Lemma owned_upd t b y c : (forall c', 0 <= c' < sb_size v -> c <> BBLOCK c' v) -> owned v t b -> owned v (tupd c y t) b.
Proof.
  intros Hc [O1 O2 O3 O4]. split; try done. unfold used in *. cbn [tupd tview].
  rewrite disk_set_ne; [done|]. intros E. apply (Hc b); [lia|done].
Qed.
Lemma upd_fs_ok t b y : fs_ok v t -> (forall c, 0 <= c < sb_size v -> b <> BBLOCK c v) -> fs_ok v (tupd b y t).
Proof.
  intros [F1 F2 F3 F4] Hb.
  assert (Hu : forall c, 0 <= c < sb_size v -> used v (tupd b y t) c = used v t c).
  { intros c Hc. unfold used. cbn [tupd tview]. rewrite disk_set_ne; [done|]. intros E. by apply (Hb c). }
  split; try done.
  - intros c Hc Hf. rewrite Hu in Hf by done. by apply F2.
  - intros c Hc. destruct (F4 c Hc) as [M1 M2]. split; [done|]. by rewrite Hu.
Qed.

Section Change.
Context (t t' : tabs) (d d' : dinode).
Hypotheses (F : file_ok v t n d) (Hdin : dinode_ok d')
  (Hown : forall b, owned v t b -> owned v t' b).

(** The same blocks, with other contents. *)
Lemma file_ok_same : 0 <= d_size d' <= MAXFILE * Z.of_nat BSIZE ->
  (forall x, site_ok x -> at_site v t' n d' x = at_site v t n d x) ->
  (forall k, 0 <= k -> k * Z.of_nat BSIZE < d_size d' -> at_site v t n d (AtData k) <> 0) ->
  file_ok v t' n d'.
Proof.
  intros Hs Ha Hf. destruct F as [_ _ F0 F1 F2 F3 _]. split; try done; try by apply Hown.
  - intros x Hx. rewrite Ha by done. intros H0. by apply Hown, F2.
  - intros x y Hx Hy. rewrite !Ha by done. by apply F3.
  - intros k Hk Hlt. rewrite Ha; [by apply Hf|]. split; [done|]. unfold BSIZE in *. lia.
Qed.
Lemma frame_same : (forall x, site_ok x -> at_site v t' n d' x = at_site v t n d x) ->
  (forall b, other v t n d b -> tview t' b = tview t b) -> frame v n t d t' d'.
Proof.
  intros Ha Hv b Hb. split; [|by apply Hv]. destruct Hb as [O Hb]. split; [by apply Hown|].
  intros x Hx. rewrite Ha by done. by apply Hb.
Qed.

(** One block more, which was not in use before. *)
Section Add.
Context (x0 : site) (r : Z).
Hypotheses (Hx0 : site_ok x0) (H0 : at_site v t n d x0 = 0) (Hr : at_site v t' n d' x0 = r)
  (Ho : owned v t' r) (Hu : used v t r = false)
  (Ha : forall x, site_ok x -> x <> x0 -> at_site v t' n d' x = at_site v t n d x).

Lemma new_block_new b : owned v t b -> r <> b.
Proof. intros [_ H _ _] ->. congruence. Qed.

Lemma file_ok_add : d_size d' = d_size d -> file_ok v t' n d'.
Proof.
  intros Hs. destruct F as [_ G1 G2 G3 G4 G5 G6].
  assert (Hne : forall x, site_ok x -> x <> x0 -> at_site v t n d x <> 0 -> at_site v t n d x <> r)
    by (intros x Hx Hn H1 E; by apply (new_block_new (at_site v t n d x)); [apply G4|]).
  split; try done; [by rewrite Hs|by apply Hown|..].
  - intros x Hx. destruct (decide (x = x0)) as [->|Hn]; [by rewrite Hr|]. rewrite Ha by done.
    intros H1. by apply Hown, G4.
  - intros x y Hx Hy. destruct (decide (x = x0)) as [->|Hnx], (decide (y = x0)) as [->|Hny]; try done.
    + rewrite Hr, (Ha y) by done. intros H1 E. exfalso. apply (Hne y Hy Hny); congruence.
    + rewrite Hr, (Ha x) by done. intros H1 E. exfalso. by apply (Hne x Hx Hnx).
    + rewrite !Ha by done. by apply G5.
  - intros k Hk. rewrite Hs. intros Hlt. assert (Hk' : site_ok (AtData k)) by (split; [done|unfold BSIZE in *; lia]).
    pose proof (G6 k Hk Hlt) as H1. rewrite Ha; [done|done|]. intros E. rewrite E in H1. done.
Qed.
Lemma frame_add : (forall b, other v t n d b -> tview t' b = tview t b) -> frame v n t d t' d'.
Proof.
  intros Hv b Hb. split; [|by apply Hv]. destruct Hb as [O Hb]. split; [by apply Hown|].
  intros x Hx. destruct (decide (x = x0)) as [->|Hn]; [rewrite Hr; by apply new_block_new|].
  rewrite Ha by done. by apply Hb.
Qed.
Lemma grown_add : (forall b, owned v t b -> b <> addr NDIRECT d -> tview t' b = tview t b) ->
  tview t' r = replicate BSIZE 0 ->
  DInode (d_type d') (d_major d') (d_minor d') (d_nlink d') (d_size d') [] =
  DInode (d_type d) (d_major d) (d_minor d) (d_nlink d) (d_size d) [] -> grown v n t d t' d'.
Proof.
  intros Hv Hz Hd. split; [| | |intros p Hp|done].
  - apply frame_add. intros b [O Hb]. apply Hv; [done|]. intros E. by apply (Hb AtIndirect).
  - intros x Hx H1. apply Ha; [done|]. by intros ->.
  - pose proof (fl_inode _ _ _ _ F) as Hi. apply Hv; [by apply (fl_owned _ _ _ _ F AtInode)|].
    intros E. by apply (fl_inj _ _ _ _ F AtInode AtIndirect) in Hi.
  - unfold file_byte. assert (Hk : site_ok (AtData (p / Z.of_nat BSIZE)))
      by (unfold site_ok, BSIZE, MAXFILE in *; Z.div_mod_to_equations; lia).
    set (x := AtData (p / Z.of_nat BSIZE)) in *. destruct (decide (x = x0)) as [E|E].
    + rewrite E, H0, Hr, Hz, getb_zeros. by destruct (r =? 0).
    + rewrite Ha by done. destruct (Z.eqb_spec (at_site v t n d x) 0) as [E0|E0]; [done|].
      rewrite Hv; [done|by apply (fl_owned _ _ _ _ F)|]. intros E1.
      by apply (fl_inj _ _ _ _ F x AtIndirect) in E0.
Qed.
End Add.
End Change.

(** ** Allocation *)
Section Alloc.
Context (t : tabs) (r : Z).
Hypotheses (F : fs_ok v t) (L : forall b, usable t b -> length (tview t b) = BSIZE)
  (Hr : 0 <= r < sb_size v) (Hu : used v t r = false).

Lemma alloc_owned b : owned v t b -> owned v (alloc_abs v r t) b.
Proof.
  intros [O1 O2 O3 O4]. split; try done. rewrite (used_alloc v t F L) by done. by case_decide.
Qed.
Lemma alloc_new : owned v (alloc_abs v r t) r.
Proof.
  split; try done; [rewrite (used_alloc v t F L) by done; by rewrite decide_True|by apply (fo_free _ _ F)|].
  intros c Hc E. destruct (fo_meta _ _ F c Hc) as [_ M]. rewrite <-E in M. congruence.
Qed.
Lemma alloc_view b : owned v t b -> tview (alloc_abs v r t) b = tview t b.
Proof.
  intros [O1 O2 O3 O4]. cbn [alloc_abs tupd tview]. rewrite !disk_set_ne; [done| |].
  - by apply O4.
  - intros ->. congruence.
Qed.
End Alloc.
End Frame.

(** ** What a write may still use

    The log has room for [m] more blocks besides what the indirect block may
    cost: its own record and that of the bitmap block for it. *)
Definition indirect_cost (t : tabs) (d : dinode) : nat :=
  if decide (addr NDIRECT d <> 0 /\ addr NDIRECT d ∈ tlogged t) then 0 else 2.
Definition reserve (t : tabs) (d : dinode) (m : nat) : Prop := budget t (m + indirect_cost t d).
(** At least [m] blocks are free. *)
Definition frees (v : superblock) (t : tabs) (m : nat) : Prop :=
  exists X : gset Z, (m <= size X)%nat /\ forall b, b ∈ X -> 0 <= b < sb_size v /\ used v t b = false.
Definition indirect_free (d : dinode) : nat := if addr NDIRECT d =? 0 then 1 else 0.

Lemma budget_again t k b x : budget t k -> b ∈ tlogged t -> budget (tupd b x t) k.
Proof.
  unfold budget. cbn [tupd tlogged tcap]. intros H Hb. by rewrite (subseteq_union_1_L {[b]} (tlogged t)) by set_solver.
Qed.
Lemma frees_mono v t m m' : frees v t m -> (m' <= m)%nat -> frees v t m'.
Proof. intros (X & H1 & H2) Hle. exists X. split; [lia|done]. Qed.
Lemma frees_some v t m : frees v t (S m) -> exists k, 0 <= k < sb_size v /\ used v t k = false.
Proof.
  intros (X & H1 & H2). destruct (set_choose_L X) as [b Hb]; [|by exists b; apply H2].
  intros ->. rewrite size_empty in H1. lia.
Qed.
Lemma frees_alloc v t m r : fs_ok v t -> (forall b, usable t b -> length (tview t b) = BSIZE) ->
  0 <= r < sb_size v -> used v t r = false -> frees v t (S m) -> frees v (alloc_abs v r t) m.
Proof.
  intros F L Hr Hu (X & H1 & H2). exists (X ∖ {[r]}). split.
  - assert (size X <= 1 + size (X ∖ {[r]}))%nat; [|lia].
    transitivity (size ({[r]} ∪ X ∖ {[r]})); [apply subseteq_size; intros y; destruct (decide (y = r)); set_solver|].
    rewrite size_union by set_solver. by rewrite size_singleton.
  - intros b Hb. destruct (H2 b) as [B1 B2]; [set_solver|]. split; [done|].
    rewrite (used_alloc v t F L) by done. rewrite decide_False by set_solver. done.
Qed.

(** ** The three ways bmap adds a block *)
Lemma addr_set_eq d k r : length (d_addrs d) = 13%nat -> (k < 13)%nat -> addr k (set_addr k r d) = r.
Proof. intros H Hk. unfold addr, set_addr. simpl. by rewrite list_lookup_insert_eq by lia. Qed.
Lemma addr_set_ne d k k' r : k <> k' -> addr k' (set_addr k r d) = addr k' d.
Proof. intros H. unfold addr, set_addr. simpl. by rewrite list_lookup_insert_ne. Qed.

Lemma set_addr_ok d k r : dinode_ok d -> 0 <= r < 4294967296 -> dinode_ok (set_addr k r d).
Proof.
  intros [] Hr. split; try done; unfold set_addr; simpl; [by rewrite length_insert|by apply Forall_insert].
Qed.

Section Adding.
Context (v : superblock) (n : Z) (t : tabs) (d : dinode) (r : Z).
Hypotheses (G : file_ok v t n d) (F : fs_ok v t) (L : forall b, usable t b -> length (tview t b) = BSIZE)
  (Hr : 0 <= r < sb_size v) (Hu : used v t r = false).

Lemma new_not_boot : r <> 0.
Proof. intros ->. pose proof (ow_used _ _ _ (fl_boot _ _ _ _ G)). congruence. Qed.
Lemma new_view : tview (alloc_abs v r t) r = replicate BSIZE 0.
Proof. apply disk_set_eq. Qed.
Lemma alloc_at_site x : at_site v (alloc_abs v r t) n d x = at_site v t n d x.
Proof. apply at_site_view. intros H. apply alloc_view; try done. by apply (fl_owned _ _ _ _ G AtIndirect). Qed.

Lemma add_direct k : 0 <= k < Z.of_nat NDIRECT -> addr (Z.to_nat k) d = 0 ->
  let d' := set_addr (Z.to_nat k) r d in
  at_site v (alloc_abs v r t) n d' (AtData k) = r /\ file_ok v (alloc_abs v r t) n d' /\
  grown v n t d (alloc_abs v r t) d'.
Proof.
  intros Hk H0 d'. pose proof (fl_len _ _ _ _ G) as Hl. unfold NDIRECT in Hk.
  assert (Hx : at_site v t n d (AtData k) = 0) by (unfold at_site; by rewrite (proj2 (Z.ltb_lt _ _)) by (unfold NDIRECT; lia)).
  assert (Hr' : at_site v (alloc_abs v r t) n d' (AtData k) = r).
  { unfold at_site. rewrite (proj2 (Z.ltb_lt _ _)) by (unfold NDIRECT; lia). apply addr_set_eq; [done|lia]. }
  assert (Ha : forall x, site_ok x -> x <> AtData k -> at_site v (alloc_abs v r t) n d' x = at_site v t n d x).
  { intros x Hs Hne. rewrite <-alloc_at_site. assert (H12 : addr NDIRECT d' = addr NDIRECT d) by (apply addr_set_ne; unfold NDIRECT; lia).
    destruct x as [| |k']; unfold at_site; [done|done|]. rewrite H12.
    destruct (Z.ltb_spec k' (Z.of_nat NDIRECT)); [|done]. apply addr_set_ne. unfold site_ok in Hs.
    assert (k <> k') by congruence. lia. }
  assert (Hl' : dinode_ok d') by (apply set_addr_ok; [apply G|pose proof (fo_size _ _ F); lia]).
  assert (Hs : site_ok (AtData k)) by (split; unfold MAXFILE; lia).
  split; [done|].
  pose proof (alloc_owned v t r F L Hr Hu) as Ho. pose proof (alloc_new v t r F L Hr Hu) as Hn.
  split; [by apply (file_ok_add v n t _ d d' G Hl' Ho (AtData k) r)|].
  apply (grown_add v n t _ d d' G Ho (AtData k) r); try done; [|apply new_view].
  intros b O _. by apply alloc_view.
Qed.

Lemma add_indirect : addr NDIRECT d = 0 ->
  let d' := set_addr NDIRECT r d in
  addr NDIRECT d' = r /\ (forall k, at_site v (alloc_abs v r t) n d' (AtData k) = at_site v t n d (AtData k)) /\
  file_ok v (alloc_abs v r t) n d' /\ grown v n t d (alloc_abs v r t) d'.
Proof.
  intros H0 d'. pose proof (fl_len _ _ _ _ G) as Hl.
  assert (H12 : addr NDIRECT d' = r) by (apply addr_set_eq; [done|unfold NDIRECT; lia]).
  assert (Hk : forall k, at_site v (alloc_abs v r t) n d' (AtData k) = at_site v t n d (AtData k)).
  { intros k. unfold at_site. rewrite H12, H0. destruct (Z.ltb_spec k (Z.of_nat NDIRECT)).
    - apply addr_set_ne. unfold NDIRECT in *. lia.
    - rewrite new_view, get32_zeros. by destruct (r =? 0). }
  assert (Ha : forall x, site_ok x -> x <> AtIndirect -> at_site v (alloc_abs v r t) n d' x = at_site v t n d x)
    by (intros x Hs Hne; destruct x as [| |k]; try done; apply Hk).
  assert (Hl' : dinode_ok d') by (apply set_addr_ok; [apply G|pose proof (fo_size _ _ F); lia]).
  split; [done|]. split; [done|].
  pose proof (alloc_owned v t r F L Hr Hu) as Ho. pose proof (alloc_new v t r F L Hr Hu) as Hn.
  split; [by apply (file_ok_add v n t _ d d' G Hl' Ho AtIndirect r)|].
  apply (grown_add v n t _ d d' G Ho AtIndirect r); try done; [|apply new_view].
  intros b O _. by apply alloc_view.
Qed.

Lemma add_listed k : Z.of_nat NDIRECT <= k < MAXFILE -> addr NDIRECT d <> 0 -> at_site v t n d (AtData k) = 0 ->
  let a := addr NDIRECT d in
  let t' := tupd a (put32 (tview t a) (4 * Z.to_nat (k - Z.of_nat NDIRECT)) r) (alloc_abs v r t) in
  at_site v t' n d (AtData k) = r /\ fs_ok v t' /\ file_ok v t' n d /\ grown v n t d t' d.
Proof.
  intros Hk H12 H0 a t'. pose proof (fl_len _ _ _ _ G) as Hl. pose proof (fo_size _ _ F) as Hsz.
  pose proof (fl_owned _ _ _ _ G AtIndirect Logic.I H12 : owned v t a) as O. pose proof O as [O1 O2 O3 O4].
  assert (Hra : r <> a) by (intros E; subst r; congruence).
  assert (Hlen : length (tview t a) = BSIZE) by by apply L.
  assert (Hsite : forall k', at_site v t' n d (AtData k') =
    if k' <? Z.of_nat NDIRECT then addr (Z.to_nat k') d else
    get32 (put32 (tview t a) (4 * Z.to_nat (k - Z.of_nat NDIRECT)) r) (4 * Z.to_nat (k' - Z.of_nat NDIRECT))).
  { intros k'. unfold at_site. fold a. rewrite (proj2 (Z.eqb_neq a 0)) by done.
    unfold t'. cbn [tupd tview]. by rewrite disk_set_eq. }
  assert (Hr' : at_site v t' n d (AtData k) = r).
  { rewrite Hsite, (proj2 (Z.ltb_ge _ _)) by lia.
    rewrite get32_put32_eq; [apply u32_small; lia|]. rewrite Hlen. unfold BSIZE, MAXFILE, NDIRECT in *. lia. }
  assert (Ha : forall x, site_ok x -> x <> AtData k -> at_site v t' n d x = at_site v t n d x).
  { intros x Hs Hne. destruct x as [| |k']; [done|done|]. rewrite Hsite. unfold at_site. fold a.
    rewrite (proj2 (Z.eqb_neq a 0)) by done. destruct (Z.ltb_spec k' (Z.of_nat NDIRECT)) as [|Hk']; [done|].
    assert (k' <> k) by congruence. unfold site_ok, MAXFILE, NDIRECT, BSIZE in *. apply get32_put32_ne; lia. }
  assert (Hown : forall b, owned v t b -> owned v t' b) by (intros b Hb; apply owned_upd; [done|by apply alloc_owned]).
  assert (Ho : owned v t' r) by (apply owned_upd; [done|by apply alloc_new]).
  assert (Hs : site_ok (AtData k)) by (split; unfold NDIRECT in *; lia).
  assert (Hv : forall b, b <> a -> tview t' b = tview (alloc_abs v r t) b) by (intros b Hb; by apply disk_set_ne).
  split; [done|]. split; [by apply upd_fs_ok; [apply alloc_fs_ok|]|].
  split; [by apply (file_ok_add v n t t' d d G (fl_dinode _ _ _ _ G) Hown (AtData k) r)|].
  apply (grown_add v n t t' d d G Hown (AtData k) r); try done.
  - intros b Ob Hb. rewrite Hv by done. by apply alloc_view.
  - rewrite Hv by done. apply new_view.
Qed.
End Adding.

(** ** Running on one inode

    Inode [ip] in slot [i] of the cache, locked by the caller; [d] are its
    fields as cached. *)
Section Run.
Context {S : Type} `{TD : !TxDisk S} `{DV : !DevSw S}.
Context (i : nat) (ip : inode).
Implicit Types (s : fstate S) (t : tabs) (d : dinode).
Abbreviation n := (inum ip).

Definition now s (k : S) d : fstate S := set_icache (<[i := set_idata d ip]> (icache s)) (with_disk k s).

Record inv s t d : Prop := {
  iv_rep : trep (disk s) t;
  iv_held : theld t = ∅;
  iv_dirty : tdirty t = ∅;
  iv_fs : fs_ok (sb s) t;
  iv_ip : icache s !! i = Some (set_idata d ip);
  iv_dev : idev ip = 1;
  iv_file : file_ok (sb s) t n d
}.

Lemma now_now s k d k' d' : now (now s k d) k' d' = now s k' d'.
Proof. unfold now. simpl. unfold set_icache, with_disk. simpl. by rewrite list_insert_insert_eq. Qed.
Lemma with_disk_now s t d k : inv s t d -> with_disk k s = now s k d.
Proof. intros I. unfold now. rewrite list_insert_id by apply (iv_ip _ _ _ I). by destruct s. Qed.
Lemma now_with_disk s k k' d : now (with_disk k s) k' d = now s k' d.
Proof. done. Qed.
Lemma with_disk_of_now s k k' d : with_disk k' (now s k d) = now s k' d.
Proof. done. Qed.

(** The next state is one too. *)
Lemma inv_now s t d k t' d' : inv s t d -> trep k t' -> theld t' = ∅ -> tdirty t' = ∅ -> fs_ok (sb s) t' ->
  file_ok (sb s) t' n d' -> inv (now s k d') t' d'.
Proof.
  intros I R H1 H2 F G. split; try done; [|by apply (iv_dev _ _ _ I)].
  simpl. apply list_lookup_insert_eq. apply lookup_lt_is_Some. by eexists; apply (iv_ip _ _ _ I).
Qed.
Lemma inv_lens s t d b : inv s t d -> usable t b -> length (tview t b) = BSIZE.
Proof. intros I. apply (tlen (disk s)), I. Qed.

Lemma wp_nth_inode s t d Q : inv s t d -> Q (set_idata d ip) s -> wp (nth_inode i) Q s.
Proof. intros I HQ. unfold wp, nth_inode. by rewrite (iv_ip _ _ _ I). Qed.
Lemma wp_upd_data s t d f Q : inv s t d -> Q tt (now s (disk s) (f d)) -> wp (upd_data i f) Q s.
Proof.
  intros I HQ. unfold upd_data, upd_inode. rewrite wp_bind. apply (wp_nth_inode s t d); [done|].
  rewrite wp_modify. by destruct s.
Qed.

(** Reading a block of the file. *)
Lemma wp_peek {A} s t b (m : nat -> M (fstate S) A) Q : trep (disk s) t -> theld t = ∅ -> tdirty t = ∅ -> usable t b ->
  (forall j k, trep k (thold b j t) -> wp (m j) Q (with_disk k s)) -> wp (j ← bread 1 b; m j) Q s.
Proof.
  intros R H1 H2 Hu HQ. rewrite wp_bind. apply (wp_fs_bread s t R b); [done|by rewrite H1|rewrite H1, map_size_empty; lia|].
  intros j k R'. by apply HQ.
Qed.

Lemma wp_log_again s t b j Q : trep (disk s) t -> theld t !! b = Some j -> budget t 1 \/ (b ∈ tlogged t /\ budget t 0) ->
  (forall k, trep k (trecord b t) -> Q tt (with_disk k s)) -> wp (log_write j) Q s.
Proof.
  intros R Hh Hb HQ. destruct (tx_log_write_law _ t b j R Hh) as (k & Hr & R').
  - destruct Hb as [Hb|[Hin Hb]]; [by apply budget_log|].
    unfold budget in Hb. rewrite (subseteq_union_1_L {[b]} (tlogged t)) by set_solver. lia.
  - unfold wp, log_write, zoom. simpl. rewrite Hr. by apply HQ.
Qed.

(** A block that the file has is found where the inode says. *)
Lemma wp_bmap_found s t d k Q : inv s t d -> 0 <= k < MAXFILE -> at_site (sb s) t n d (AtData k) <> 0 ->
  (forall c, trep c t -> Q (at_site (sb s) t n d (AtData k)) (now s c d)) -> wp (bmap i k) Q s.
Proof.
  intros I Hk H0 HQ. unfold bmap. rewrite wp_bind. apply (wp_nth_inode s t d); [done|]. cbn [set_idata idata idev].
  rewrite (iv_dev _ _ _ I). unfold at_site in *. destruct (k <? Z.of_nat NDIRECT) eqn:Hd.
  - destruct (Z.eqb_spec (addr (Z.to_nat k) d) 0); [done|]. rewrite wp_ret.
    specialize (HQ (disk s) (iv_rep _ _ _ I)). rewrite <-(with_disk_now s t d) in HQ by done. by destruct s.
  - apply Z.ltb_ge in Hd. cbv zeta. destruct (Z.ltb_spec (k - Z.of_nat NDIRECT) (Z.of_nat NINDIRECT)) as [_|Hb];
      [|unfold MAXFILE, NDIRECT, NINDIRECT in *; lia].
    destruct (Z.eqb_spec (addr NDIRECT d) 0) as [E|E]; [done|]. rewrite wp_bind, wp_ret.
    pose proof (fl_owned _ _ _ _ (iv_file _ _ _ I) AtIndirect Logic.I E) as O.
    apply (wp_peek s t); [apply I..|apply O|]. intros j c R.
    rewrite wp_bind. apply (wp_fs_data (with_disk c s) _ R (addr NDIRECT d) j); [apply lookup_insert_eq|].
    cbn [thold tview]. destruct (Z.eqb_spec (get32 (tview t (addr NDIRECT d)) (4 * Z.to_nat (k - Z.of_nat NDIRECT))) 0); [done|].
    rewrite wp_bind, wp_ret, wp_bind.
    apply (wp_fs_relse (with_disk c s) _ R (addr NDIRECT d) j); [apply lookup_insert_eq|cbn; rewrite (iv_dirty _ _ _ I); set_solver|].
    intros c' R'. rewrite wp_ret, with_disk_twice, (with_disk_now s t d) by done. apply HQ.
    rewrite peek_abs in R'; [done|]. by rewrite (iv_held _ _ _ I).
Qed.

Lemma grown_trans v t1 d1 t2 d2 t3 d3 : grown v n t1 d1 t2 d2 -> grown v n t2 d2 t3 d3 -> grown v n t1 d1 t3 d3.
Proof.
  intros [A1 A2 A3 A4 A5] [B1 B2 B3 B4 B5]. split.
  - by eapply frame_trans.
  - intros x Hx H0. rewrite B2, A2; try done. by rewrite A2.
  - congruence.
  - intros p Hp. by rewrite B4, A4.
  - congruence.
Qed.

Lemma wp_balloc s t Q : trep (disk s) t -> fs_ok (sb s) t -> held_ok (sb s) t -> budget t 2 -> frees (sb s) t 1 ->
  (forall r c, 0 <= r < sb_size (sb s) -> used (sb s) t r = false -> trep c (alloc_abs (sb s) r t) -> Q r (with_disk c s)) ->
  wp (balloc 1) Q s.
Proof.
  intros R F Hh Hb Hf HQ. eapply wp_mono; [apply (balloc_run s t); try done; by eapply frees_some|].
  intros r s' (c & -> & H1 & H2 & _ & H3). by apply HQ.
Qed.
Lemma inv_held_ok s t d : inv s t d -> held_ok (sb s) t.
Proof.
  intros I. unfold held_ok. rewrite (iv_held _ _ _ I), map_size_empty. split; [lia|]. split; [apply I|].
  intros b j Hb. done.
Qed.

Lemma reserve_alloc v t d d' m r : reserve t d (m + 2) -> addr NDIRECT d' = addr NDIRECT d ->
  reserve (alloc_abs v r t) d' m.
Proof.
  unfold reserve. intros H E. apply (budget_mono _ (m + indirect_cost t d)).
  - do 2 apply budget_upd. by replace (Datatypes.S (Datatypes.S (m + indirect_cost t d))) with (m + 2 + indirect_cost t d)%nat by lia.
  - unfold indirect_cost. rewrite E. simpl. repeat case_decide; [lia|lia|set_solver|lia].
Qed.

Lemma wp_upd_now s t d0 c d f Q : inv s t d0 -> Q tt (now s c (f d)) -> wp (upd_data i f) Q (now s c d).
Proof.
  intros I HQ. unfold upd_data, upd_inode. rewrite wp_bind.
  assert (Hip : icache (now s c d) !! i = Some (set_idata d ip)).
  { simpl. apply list_lookup_insert_eq, lookup_lt_is_Some. by eexists; apply (iv_ip _ _ _ I). }
  unfold wp at 1, nth_inode. rewrite Hip, wp_modify.
  replace (set_icache _ _) with (now s c (f d)); [done|].
  unfold now. simpl. unfold set_icache, with_disk. simpl. by rewrite list_insert_insert_eq.
Qed.

(** What bmap leaves when it had to add block [k]. *)
Definition added s t d k m q (Q : Z -> fstate S -> Prop) : Prop :=
  forall r c t' d', inv (now s c d') t' d' -> at_site (sb s) t' n d' (AtData k) = r -> r <> 0 -> r ∈ tlogged t' ->
    grown (sb s) n t d t' d' -> reserve t' d' m -> frees (sb s) t' (q + indirect_free d') -> Q r (now s c d').

Lemma wp_bmap_direct s t d k m q Q : inv s t d -> 0 <= k < Z.of_nat NDIRECT -> addr (Z.to_nat k) d = 0 ->
  reserve t d (m + 2) -> frees (sb s) t (q + 1 + indirect_free d) -> added s t d k m q Q ->
  wp (a ← balloc 1; upd_data i (set_addr (Z.to_nat k) a) ;; mret a) Q s.
Proof.
  intros I Hk H0 Hb Hf HQ. rewrite wp_bind.
  apply (wp_balloc s t); [apply I|apply I|by eapply inv_held_ok|apply (budget_mono _ _ _ Hb); lia|apply (frees_mono _ _ _ _ Hf); lia|].
  intros r c Hr Hu R. pose proof (fun b => inv_lens s t d b I) as L.
  destruct (add_direct (sb s) n t d r (iv_file _ _ _ I) (iv_fs _ _ _ I) L Hr Hu k Hk H0) as (A1 & A2 & A3).
  set (d' := set_addr (Z.to_nat k) r d) in *. rewrite (with_disk_now s t d) by done.
  assert (I' : inv (now s c d') (alloc_abs (sb s) r t) d').
  { apply (inv_now s t d); try done; [apply I..|]. apply alloc_fs_ok; try done. apply I. }
  assert (E12 : addr NDIRECT d' = addr NDIRECT d) by (apply addr_set_ne; unfold NDIRECT in *; lia).
  rewrite wp_bind. apply (wp_upd_now s t d c d); [done|]. rewrite wp_ret.
  apply (HQ r c (alloc_abs (sb s) r t) d'); try done.
  - by apply (new_not_boot (sb s) n t d r (iv_file _ _ _ I)).
  - cbn. set_solver.
  - by apply (reserve_alloc _ t d).
  - unfold indirect_free in *. rewrite E12. apply frees_alloc; try done; [apply I|]. apply (frees_mono _ _ _ _ Hf). lia.
Qed.

(** The second half of bmap: block [k] is listed in the indirect block. *)
Lemma wp_bmap_listed s t d k m q Q : inv s t d -> Z.of_nat NDIRECT <= k < MAXFILE -> addr NDIRECT d <> 0 ->
  at_site (sb s) t n d (AtData k) = 0 -> reserve t d (m + 2) -> frees (sb s) t (q + 1) -> added s t d k m q Q ->
  let o := (4 * Z.to_nat (k - Z.of_nat NDIRECT))%nat in
  wp (bp ← bread 1 (addr NDIRECT d); x ← bdata bp;
      b ← (if get32 x o =? 0 then b ← balloc 1; bput bp (put32 x o b) ;; log_write bp ;; mret b else mret (get32 x o));
      brelse bp ;; mret b) Q s.
Proof.
  intros I Hk H12 H0 Hb Hf HQ o. set (a := addr NDIRECT d) in *.
  pose proof (fl_owned _ _ _ _ (iv_file _ _ _ I) AtIndirect Logic.I H12 : owned (sb s) t a) as O.
  assert (Hget : get32 (tview t a) o = 0).
  { unfold at_site in H0. fold a in H0. rewrite (proj2 (Z.ltb_ge _ _)), (proj2 (Z.eqb_neq a 0)) in H0 by (done || lia). done. }
  apply (wp_peek s t); [apply I..|apply O|]. intros j c0 R0. set (s0 := with_disk c0 s).
  rewrite wp_bind. apply (wp_fs_data s0 _ R0 a j); [apply lookup_insert_eq|]. cbn [thold tview]. rewrite Hget, Z.eqb_refl.
  rewrite !wp_bind. assert (Hres := Hb). unfold reserve in Hb.
  apply (wp_balloc s0 (thold a j t)); [done|by destruct (iv_fs _ _ _ I)| |apply (budget_mono _ _ 2 Hb); lia|apply (frees_mono _ t _ _ Hf); lia|].
  { split; [cbn; rewrite (iv_held _ _ _ I); by rewrite insert_empty, map_size_singleton; lia|]. split; [apply I|].
    cbn. rewrite (iv_held _ _ _ I). intros b j' Hj. apply lookup_insert_Some in Hj as [[<- _]|[_ Hj]]; [|done].
    split; [split; apply O|apply O]. }
  intros r c1 Hr Hu R1. pose proof (fun b => inv_lens s t d b I) as L.
  change (trep c1 (thold a j (alloc_abs (sb s) r t))) in R1.
  destruct (add_listed (sb s) n t d r (iv_file _ _ _ I) (iv_fs _ _ _ I) L Hr Hu k Hk H12 H0) as (A1 & A2 & A3 & A4).
  fold a in A1, A2, A3, A4. fold o in A1, A2, A3, A4. set (t1 := alloc_abs (sb s) r t) in *.
  set (y := put32 (tview t a) o r) in *.
  assert (Hb1 : budget t1 (m + indirect_cost t d))
    by (do 2 apply budget_upd; apply (budget_mono _ _ _ Hb); lia).
  rewrite wp_bind. apply (wp_fs_put (with_disk c1 s0) _ R1 a j); [apply lookup_insert_eq|unfold y; rewrite length_put32; by apply L, O|].
  intros c2 R2. rewrite wp_bind. apply (wp_log_again (with_disk c2 (with_disk c1 s0)) _ a j _ R2); [apply lookup_insert_eq| |].
  { unfold indirect_cost in Hb1. fold a in Hb1. case_decide as E.
    - right. split; [cbn; set_solver|]. by apply (budget_mono _ _ 0 Hb1); lia.
    - left. by apply (budget_mono _ _ 1 Hb1); lia. }
  intros c3 R3. rewrite wp_ret, wp_bind. apply (wp_fs_relse (with_disk c3 s0) _ R3 a j); [apply lookup_insert_eq|cbn; set_solver|].
  intros c4 R4. rewrite wp_ret. rewrite upd_abs in R4 by (cbn; rewrite ?(iv_held _ _ _ I), ?(iv_dirty _ _ _ I); done || set_solver).
  rewrite !with_disk_twice. unfold s0. rewrite !with_disk_twice, (with_disk_now s t d) by done.
  apply (HQ r c4 (tupd a y t1) d); try done.
  - by apply (inv_now s t d); try done; apply I.
  - by apply (new_not_boot (sb s) n t d r (iv_file _ _ _ I)).
  - cbn. set_solver.
  - unfold reserve. unfold indirect_cost at 1. fold a. rewrite decide_True by (cbn; set_solver).
    unfold indirect_cost in Hb1. fold a in Hb1. case_decide as E.
    + by apply budget_again; [|cbn; set_solver].
    + apply budget_upd. apply (budget_mono _ _ _ Hb1). lia.
  - unfold indirect_free. fold a. rewrite (proj2 (Z.eqb_neq a 0)) by done.
    destruct (frees_alloc (sb s) t q r (iv_fs _ _ _ I) L Hr Hu) as (X & X1 & X2); [by apply (frees_mono _ _ _ _ Hf); lia|].
    exists X. split; [lia|]. intros b Hbx. destruct (X2 b Hbx) as [X3 X4]. split; [done|].
    rewrite <-X4. unfold used. cbn [tupd tview]. rewrite disk_set_ne; [done|]. intros E. by apply (ow_bmap _ _ _ O b).
Qed.

(** A block that the file does not have is allocated, full of zeros. *)
Lemma wp_bmap_new s t d k m q Q : inv s t d -> 0 <= k < MAXFILE -> at_site (sb s) t n d (AtData k) = 0 ->
  reserve t d (m + 2) -> frees (sb s) t (q + 1 + indirect_free d) -> added s t d k m q Q -> wp (bmap i k) Q s.
Proof.
  intros I Hk H0 Hb Hf HQ. unfold bmap. rewrite wp_bind. apply (wp_nth_inode s t d); [done|]. cbn [set_idata idata idev].
  rewrite (iv_dev _ _ _ I). destruct (Z.ltb_spec k (Z.of_nat NDIRECT)) as [Hd|Hd].
  { assert (E : addr (Z.to_nat k) d = 0) by (unfold at_site in H0; by rewrite (proj2 (Z.ltb_lt _ _)) in H0 by done).
    rewrite E, Z.eqb_refl. apply (wp_bmap_direct s t d k m q); try done. lia. }
  cbv zeta. rewrite (proj2 (Z.ltb_lt _ _)) by (unfold MAXFILE, NDIRECT, NINDIRECT in *; lia).
  destruct (Z.eqb_spec (addr NDIRECT d) 0) as [E|E].
  2:{ rewrite wp_bind, wp_ret. unfold indirect_free in Hf. rewrite (proj2 (Z.eqb_neq _ _)) in Hf by done.
      apply (wp_bmap_listed s t d k m q); try done; [lia|]. apply (frees_mono _ _ _ _ Hf). lia. }
  unfold indirect_free in Hf. rewrite E in Hf. cbn [Z.eqb] in Hf. assert (Hres := Hb). unfold reserve, indirect_cost in Hb.
  rewrite decide_False in Hb by (by intros [? _]). rewrite !wp_bind.
  apply (wp_balloc s t); [apply I|apply I|by eapply inv_held_ok|apply (budget_mono _ _ _ Hb); lia|apply (frees_mono _ _ _ _ Hf); lia|].
  intros r c Hr Hu R. pose proof (fun b => inv_lens s t d b I) as L.
  destruct (add_indirect (sb s) n t d r (iv_file _ _ _ I) (iv_fs _ _ _ I) L Hr Hu E) as (A1 & A2 & A3 & A4).
  pose proof (new_not_boot (sb s) n t d r (iv_file _ _ _ I) Hr Hu) as Hr0.
  set (d1 := set_addr NDIRECT r d) in *. set (t1 := alloc_abs (sb s) r t) in *.
  rewrite (with_disk_now s t d), wp_bind by done. apply (wp_upd_now s t d c d); [done|]. rewrite wp_ret. fold d1. rewrite <-A1.
  assert (I1 : inv (now s c d1) t1 d1) by (apply (inv_now s t d); try done; [apply I..|]; by apply alloc_fs_ok; try done; apply I).
  apply (wp_bmap_listed (now s c d1) t1 d1 k m q); try done; [lia|..].
  - by rewrite A1.
  - by rewrite <-H0.
  - unfold reserve, indirect_cost. rewrite decide_True by (rewrite A1; split; [done|cbn; set_solver]).
    do 2 apply budget_upd. apply (budget_mono _ _ _ Hb). lia.
  - apply frees_alloc; try done; [apply I|]. apply (frees_mono _ _ _ _ Hf). lia.
  - intros r2 c2 t2 d2 J1 J2 J3 J4 J5 J6 J7. rewrite now_now in *. apply (HQ r2 c2 t2 d2); try done.
    by eapply grown_trans.
Qed.
End Run.
