(* ===== verification/FsRw.v ===== *)
(** * Reading and writing files (readi, writei and iupdate of fs.c)

    On top of FsData: readi returns the bytes of the file, writei changes exactly
    the bytes it is given and keeps everything else, within the blocks that
    begin_op sets aside for one operation. *)
From S2P Require Import Prelude Bytes CString Spinlock Sleeplock Bio BioProps Log LogProps TxDisk Fs FsProps FsData.

Open Scope Z_scope.

(** The bytes of a file from [off] on. *)
Definition file_bytes (v : superblock) (t : tabs) (n : Z) (d : dinode) (off len : Z) : bytes :=
  file_byte v t n d <$> seqZ off len.

Lemma getb_get_bytes x o m j : (j < m)%nat -> getb (get_bytes x o m) j = getb x (o + j).
Proof. intros H. unfold getb, get_bytes. rewrite lookup_take_lt by done. by rewrite lookup_drop. Qed.
Lemma length_get_bytes x o m : (o + m <= length x)%nat -> length (get_bytes x o m) = m.
Proof. intros H. unfold get_bytes. rewrite length_take, length_drop. lia. Qed.
Lemma getb_put_bytes x o y j : (o + length y <= length x)%nat ->
  getb (put_bytes x o y) j = if decide (o <= j < o + length y)%nat then getb y (j - o) else getb x j.
Proof.
  intros H. unfold getb, put_bytes. case_decide as E.
  - rewrite lookup_app_r by (rewrite length_take; lia). rewrite length_take, lookup_app_l by lia. do 2 f_equal. lia.
  - destruct (decide (j < o)%nat) as [Hj|Hj].
    + rewrite lookup_app_l by (rewrite length_take; lia). by rewrite lookup_take_lt.
    + rewrite !lookup_app_r by (rewrite ?length_take; lia). rewrite length_take, lookup_drop. do 2 f_equal. lia.
Qed.
Lemma getb_eq x y : length x = length y -> (forall j, (j < length x)%nat -> getb x j = getb y j) -> x = y.
Proof.
  intros Hl Hj. apply list_eq. intros j. destruct (decide (j < length x)%nat) as [H|H].
  - specialize (Hj j H). unfold getb in Hj. destruct (lookup_lt_is_Some_2 x j) as [a Ha]; [done|].
    destruct (lookup_lt_is_Some_2 y j) as [b Hb]; [lia|]. rewrite Ha, Hb in *. simpl in Hj. by subst.
  - by rewrite !lookup_ge_None_2 by lia.
Qed.

Lemma file_bytes_app v t n d off a b : 0 <= a -> 0 <= b ->
  file_bytes v t n d off (a + b) = file_bytes v t n d off a ++ file_bytes v t n d (off + a) b.
Proof. intros Ha Hb. unfold file_bytes. by rewrite seqZ_app, fmap_app. Qed.
Lemma length_file_bytes v t n d off len : length (file_bytes v t n d off len) = Z.to_nat len.
Proof. unfold file_bytes. by rewrite length_fmap, length_seqZ. Qed.
Lemma getb_file_bytes v t n d off len j : (j < Z.to_nat len)%nat ->
  getb (file_bytes v t n d off len) j = file_byte v t n d (off + Z.of_nat j).
Proof. intros H. unfold getb, file_bytes. rewrite list_lookup_fmap, lookup_seqZ_lt by lia. done. Qed.

(** Positions inside one block. *)
Lemma same_block off j : 0 <= j -> off mod 512 + j < 512 -> (off + j) / 512 = off / 512 /\ (off + j) mod 512 = off mod 512 + j.
Proof. intros H1 H2. Z.div_mod_to_equations. lia. Qed.

Lemma file_bytes_chunk v t n d off m : 0 <= m -> off mod 512 + m <= 512 ->
  at_site v t n d (AtData (off / 512)) <> 0 -> length (tview t (at_site v t n d (AtData (off / 512)))) = BSIZE ->
  get_bytes (tview t (at_site v t n d (AtData (off / 512)))) (Z.to_nat (off mod 512)) (Z.to_nat m) =
  file_bytes v t n d off m.
Proof.
  intros Hm Ho H0 Hl. assert (Hp : 0 <= off mod 512) by (apply Z.mod_pos_bound; lia).
  assert (Hlen : length (get_bytes (tview t (at_site v t n d (AtData (off / 512)))) (Z.to_nat (off mod 512)) (Z.to_nat m)) = Z.to_nat m)
    by (apply length_get_bytes; rewrite Hl; unfold BSIZE; lia).
  apply getb_eq; rewrite Hlen; [by rewrite length_file_bytes|]. intros j Hj.
  rewrite getb_get_bytes, getb_file_bytes by done. unfold file_byte. change (Z.of_nat BSIZE) with 512.
  destruct (same_block off (Z.of_nat j)) as [-> ->]; [lia|lia|]. rewrite (proj2 (Z.eqb_neq _ _)) by done.
  f_equal. lia.
Qed.

(** ** readi *)
Section Read.
Context {S : Type} `{TD : !TxDisk S} `{DV : !DevSw S} (i : nat) (ip : inode).
Implicit Types (s : fstate S) (t : tabs) (d : dinode).

Lemma full_site v t n d off : file_ok v t n d -> 0 <= off < d_size d ->
  0 <= off / 512 < MAXFILE /\ at_site v t n d (AtData (off / 512)) <> 0.
Proof.
  intros G H. pose proof (fl_size _ _ _ _ G) as Hs. unfold MAXFILE, BSIZE in *. split; [Z.div_mod_to_equations; lia|].
  apply (fl_full _ _ _ _ G); unfold BSIZE; Z.div_mod_to_equations; lia.
Qed.

Lemma inv_again s t d c : inv i ip s t d -> trep c t -> inv i ip (now i ip s c d) t d.
Proof. intros I R. apply (inv_now i ip s t d); try done; apply I. Qed.

Lemma wp_readi_loop t d fuel : forall s off tot len dst Q, inv i ip s t d -> 0 <= off -> tot <= len ->
  off + (len - tot) <= d_size d -> len - tot < Z.of_nat fuel ->
  (forall c, trep c t -> Q (dst ++ file_bytes (sb s) t (inum ip) d off (len - tot)) (now i ip s c d)) ->
  wp (readi_loop fuel i off tot len dst) Q s.
Proof.
  induction fuel as [|fuel IH]; intros s off tot len dst Q I Ho Ht Hs Hf HQ; [lia|]. cbn [readi_loop].
  destruct (Z.ltb_spec tot len) as [Hlt|Hge].
  2:{ replace (len - tot) with 0 in HQ by lia. specialize (HQ (disk s) (iv_rep _ _ _ _ _ I)).
      rewrite app_nil_r, <-(with_disk_now i ip s t d) in HQ by done. rewrite wp_ret. by destruct s. }
  destruct (full_site (sb s) t (inum ip) d off (iv_file _ _ _ _ _ I)) as [Hk H0]; [lia|]. change (Z.of_nat BSIZE) with 512.
  rewrite wp_bind. apply (wp_bmap_found i ip s t d); [done..|]. intros c R. pose proof (inv_again s t d c I R) as I1.
  rewrite wp_bind. apply (wp_nth_inode i ip _ t d); [done|]. cbn [set_idata idev]. rewrite (iv_dev _ _ _ _ _ I).
  set (a := at_site (sb s) t (inum ip) d (AtData (off / 512))) in *.
  pose proof (fl_owned _ _ _ _ (iv_file _ _ _ _ _ I) (AtData (off / 512)) Hk H0) as O. fold a in O.
  apply (wp_peek (now i ip s c d) t); [apply I1..|apply O|]. intros j c1 R1. cbv zeta.
  rewrite wp_bind. apply (wp_fs_data _ _ (R1 : trep (disk (with_disk c1 (now i ip s c d))) _) a j); [apply lookup_insert_eq|]. cbn [thold tview].
  rewrite wp_bind. apply (wp_fs_relse _ _ (R1 : trep (disk (with_disk c1 (now i ip s c d))) _) a j);
    [apply lookup_insert_eq|cbn; rewrite (iv_dirty _ _ _ _ _ I); set_solver|].
  intros c2 R2. rewrite peek_abs in R2 by (by rewrite (iv_held _ _ _ _ _ I)). rewrite with_disk_twice, with_disk_of_now.
  pose proof (Z.mod_pos_bound off 512 ltac:(lia)) as Hm. set (m := Z.min (len - tot) (512 - off mod 512)).
  apply IH; try lia; [by apply inv_again|]. intros c3 R3. rewrite now_now. cbn [sb now set_icache with_disk lset].
  unfold a. rewrite file_bytes_chunk; [|lia|lia|done|by apply (inv_lens i ip s t d), O]. rewrite <-(assoc_L app).
  rewrite <-file_bytes_app by lia. replace (m + (len - (tot + m))) with (len - tot) by lia. by apply HQ.
Qed.
End Read.

(** ** writei *)

(** The bytes [src] are stored at [off]: all other bytes of the file, its other
    fields and the blocks of others are as before. *)
Record wrote (v : superblock) (n : Z) (t : tabs) (d : dinode) (off : Z) (src : bytes) (t' : tabs) (d' : dinode) : Prop := {
  wr_frame : frame v n t d t' d';
  wr_sites x : site_ok x -> at_site v t n d x <> 0 -> at_site v t' n d' x = at_site v t n d x;
  wr_inode : tview t' (IBLOCK n v) = tview t (IBLOCK n v);
  wr_bytes p : 0 <= p < MAXFILE * 512 -> file_byte v t' n d' p =
    if decide (off <= p < off + Z.of_nat (length src)) then getb src (Z.to_nat (p - off)) else file_byte v t n d p;
  wr_fields : DInode (d_type d') (d_major d') (d_minor d') (d_nlink d') (d_size d') [] =
              DInode (d_type d) (d_major d) (d_minor d) (d_nlink d) (d_size d) []
}.

Section Wrote.
Context (v : superblock) (n : Z).

Lemma wrote_nil t d off : wrote v n t d off [] t d.
Proof. split; try done. intros p Hp. rewrite decide_False; [done|]. simpl. lia. Qed.

Lemma wrote_app t d off x t1 d1 y t2 d2 : 0 <= off -> wrote v n t d off x t1 d1 ->
  wrote v n t1 d1 (off + Z.of_nat (length x)) y t2 d2 -> wrote v n t d off (x ++ y) t2 d2.
Proof.
  intros Ho [A1 A2 A3 A4 A5] [B1 B2 B3 B4 B5]. split.
  - by eapply frame_trans.
  - intros z Hz H0. rewrite B2, A2; try done. by rewrite A2.
  - congruence.
  - intros p Hp. rewrite B4, A4 by done. rewrite length_app. unfold getb.
    repeat case_decide; try lia; try done.
    + rewrite lookup_app_r by lia. do 2 f_equal. lia.
    + by rewrite lookup_app_l by lia.
  - congruence.
Qed.

Lemma wrote_grown t d t1 d1 off x t2 d2 : grown v n t d t1 d1 -> wrote v n t1 d1 off x t2 d2 -> wrote v n t d off x t2 d2.
Proof.
  intros [A1 A2 A3 A4 A5] [B1 B2 B3 B4 B5]. split.
  - by eapply frame_trans.
  - intros z Hz H0. rewrite B2, A2; try done. by rewrite A2.
  - congruence.
  - intros p Hp. rewrite B4, A4 by done. done.
  - congruence.
Qed.

(** Storing part of one block. *)
Section Store.
Context (t : tabs) (d : dinode) (off : Z) (y : bytes).
Hypotheses (G : file_ok v t n d) (F : fs_ok v t) (L : forall b, usable t b -> length (tview t b) = BSIZE).
Abbreviation k := (off / 512).
Abbreviation a := (at_site v t n d (AtData k)).
Hypotheses (Hk : 0 <= k < MAXFILE) (H0 : a <> 0) (Hy : off mod 512 + Z.of_nat (length y) <= 512).
Definition stored : tabs := tupd a (put_bytes (tview t a) (Z.to_nat (off mod 512)) y) t.

Lemma stored_site x : at_site v stored n d x = at_site v t n d x.
Proof.
  apply at_site_view. intros H12. apply disk_set_ne. intros E.
  by apply (fl_inj _ _ _ _ G AtIndirect (AtData k)) in H12.
Qed.
Lemma stored_owned b : owned v t b -> owned v stored b.
Proof. apply owned_upd. by apply (fl_owned _ _ _ _ G (AtData k)). Qed.
Lemma stored_fs_ok : fs_ok v stored.
Proof. apply upd_fs_ok; [done|]. by apply (fl_owned _ _ _ _ G (AtData k)). Qed.
Lemma stored_file_ok : file_ok v stored n d.
Proof.
  apply (file_ok_same v n t stored d d G); [by apply G|by apply stored_owned|by apply G|intros; apply stored_site|].
  intros k' H1 H2. by apply (fl_full _ _ _ _ G).
Qed.
Lemma stored_wrote : 0 <= off -> wrote v n t d off y stored d.
Proof.
  intros Hoff. pose proof (Z.mod_pos_bound off 512 ltac:(lia)) as Hm. split; try done.
  - apply frame_same; [by apply stored_owned|intros; apply stored_site|]. intros b [O Hb]. apply disk_set_ne.
    intros ->. by apply (Hb (AtData k)).
  - intros x Hx _. apply stored_site.
  - apply disk_set_ne. intros E. pose proof (fl_inode _ _ _ _ G) as Hi. by apply (fl_inj _ _ _ _ G AtInode (AtData k)) in Hi.
  - intros p Hp. unfold file_byte. rewrite stored_site. change (Z.of_nat BSIZE) with 512.
    assert (Hpk : site_ok (AtData (p / 512))) by (unfold site_ok, MAXFILE in *; Z.div_mod_to_equations; lia).
    destruct (decide (p / 512 = k)) as [E|E].
    + rewrite E, (proj2 (Z.eqb_neq _ _)) by done. unfold stored. cbn [tupd tview]. rewrite disk_set_eq.
      rewrite getb_put_bytes by (rewrite (L a); [unfold BSIZE; lia|by apply (fl_owned _ _ _ _ G (AtData k))]).
      pose proof (Z.div_mod p 512 ltac:(lia)). pose proof (Z.div_mod off 512 ltac:(lia)).
      pose proof (Z.mod_pos_bound p 512 ltac:(lia)). rewrite E in *.
      repeat case_decide; try lia; try done. f_equal. lia.
    + rewrite decide_False by (Z.div_mod_to_equations; lia).
      destruct (Z.eqb_spec (at_site v t n d (AtData (p / 512))) 0) as [E0|E0]; [done|].
      f_equal. unfold stored. cbn [tupd tview]. apply disk_set_ne. intros E1.
      apply (fl_inj _ _ _ _ G _ (AtData k)) in E1; [congruence|done..].
Qed.
End Store.
End Wrote.

Section Write.
Context {S : Type} `{TD : !TxDisk S} `{DV : !DevSw S} (i : nat) (ip : inode).
Implicit Types (s : fstate S) (t : tabs) (d : dinode).
Abbreviation n := (inum ip).
Abbreviation inv := (inv i ip).
Abbreviation now := (now i ip).

(** Whether block [k] has to be allocated. *)
Definition missing (v : superblock) t d (k : Z) : nat := if at_site v t n d (AtData k) =? 0 then 1 else 0.

Lemma wp_bmap s t d k m q Q : inv s t d -> 0 <= k < MAXFILE ->
  reserve t d (m + 1 + missing (sb s) t d k) -> frees (sb s) t (q + missing (sb s) t d k + indirect_free d) ->
  (forall r c t' d', inv (now s c d') t' d' -> at_site (sb s) t' n d' (AtData k) = r -> r <> 0 ->
    grown (sb s) n t d t' d' -> (at_site (sb s) t n d (AtData k) <> 0 -> d' = d) ->
    reserve t' d' (m + 1) \/ (r ∈ tlogged t' /\ reserve t' d' m) -> frees (sb s) t' (q + indirect_free d') ->
    Q r (now s c d')) -> wp (bmap i k) Q s.
Proof.
  intros I Hk Hb Hf HQ. unfold missing in *. destruct (Z.eqb_spec (at_site (sb s) t n d (AtData k)) 0) as [E|E].
  - apply (wp_bmap_new i ip s t d k m q); try done; [by replace (m + 2)%nat with (m + 1 + 1)%nat by lia|].
    intros r c t' d' H1 H2 H3 H4 H5 H6 H7. apply (HQ r c t' d'); try done. by right.
  - apply (wp_bmap_found i ip s t d k); try done. intros c R. apply (HQ _ c t d); try done.
    + by apply inv_again.
    + left. by rewrite Nat.add_0_r in Hb.
    + by rewrite Nat.add_0_r in Hf.
Qed.

Lemma reserve_stored t d b x m : reserve t d (m + 1) \/ (b ∈ tlogged t /\ reserve t d m) -> reserve (tupd b x t) d m.
Proof.
  assert (Hc : (indirect_cost (tupd b x t) d <= indirect_cost t d)%nat)
    by (unfold indirect_cost; repeat case_decide; cbn in *; try lia; set_solver).
  unfold reserve. intros [H|[Hin H]].
  - apply budget_upd, (budget_mono _ _ _ H). lia.
  - apply budget_again; [|done]. apply (budget_mono _ _ _ H). lia.
Qed.
Lemma frees_upd v t b x m : frees v t m -> (forall c, 0 <= c < sb_size v -> b <> BBLOCK c v) -> frees v (tupd b x t) m.
Proof.
  intros (X & H1 & H2) Hb. exists X. split; [done|]. intros c Hc. destruct (H2 c Hc) as [H3 H4]. split; [done|].
  rewrite <-H4. unfold used. cbn [tupd tview]. rewrite disk_set_ne; [done|]. intros E. by apply (Hb c).
Qed.

(** One round of writei's loop: part of one block. *)
Lemma wp_write_step {A} s t d off y m q (f : bytes -> bytes) (rest : M (fstate S) A) Q : inv s t d -> 0 <= off -> 0 <= off / 512 < MAXFILE ->
  off mod 512 + Z.of_nat (length y) <= 512 -> (forall x, f x = put_bytes x (Z.to_nat (off mod 512)) y) ->
  reserve t d (m + 1 + missing (sb s) t d (off / 512)) -> frees (sb s) t (q + missing (sb s) t d (off / 512) + indirect_free d) ->
  (forall c t' d', inv (now s c d') t' d' -> wrote (sb s) n t d off y t' d' ->
    at_site (sb s) t' n d' (AtData (off / 512)) <> 0 -> (at_site (sb s) t n d (AtData (off / 512)) <> 0 -> d' = d) ->
    reserve t' d' m -> frees (sb s) t' (q + indirect_free d') -> wp rest Q (now s c d')) ->
  wp (a ← bmap i (off / 512); ip ← nth_inode i; bp ← bread (idev ip) a; x ← bdata bp;
      bput bp (f x) ;; log_write bp ;; brelse bp ;; rest) Q s.
Proof.
  intros I Ho Hk Hy Hfx Hb Hf HQ. rewrite wp_bind. apply (wp_bmap s t d (off / 512) m q); [done..|].
  intros a c1 t1 d1 I1 Ha Ha0 Hg Hsame Hres Hfr.
  rewrite wp_bind. apply (wp_nth_inode i ip _ t1 d1); [done|]. cbn [set_idata idev]. rewrite (iv_dev _ _ _ _ _ I).
  pose proof (iv_file _ _ _ _ _ I1 : file_ok (sb s) t1 n d1) as G1. pose proof (iv_fs _ _ _ _ _ I1 : fs_ok (sb s) t1) as F1.
  subst a. set (a := at_site (sb s) t1 n d1 (AtData (off / 512))) in *.
  pose proof (fl_owned _ _ _ _ G1 (AtData (off / 512)) Hk Ha0) as O. fold a in O.
  pose proof (fun b => inv_lens i ip _ t1 d1 b I1) as L. pose proof (Z.mod_pos_bound off 512 ltac:(lia)) as Hm.
  apply (wp_peek (now s c1 d1) t1); [apply I1..|apply O|]. intros j c2 R2. set (s2 := with_disk c2 (now s c1 d1)).
  rewrite wp_bind. apply (wp_fs_data s2 _ R2 a j); [apply lookup_insert_eq|]. cbn [thold tview]. rewrite Hfx.
  rewrite wp_bind. apply (wp_fs_put s2 _ R2 a j); [apply lookup_insert_eq| |].
  { rewrite length_put_bytes by (rewrite (L a) by apply O; unfold BSIZE; lia). by apply L, O. }
  intros c3 R3. rewrite wp_bind. apply (wp_log_again (with_disk c3 s2) _ a j _ R3); [apply lookup_insert_eq| |].
  { destruct Hres as [H|[Hin H]]; [left; apply (budget_mono _ _ 1 H); lia|right; split; [done|apply (budget_mono _ _ 0 H); lia]]. }
  intros c4 R4. rewrite wp_bind. apply (wp_fs_relse (with_disk c4 s2) _ R4 a j); [apply lookup_insert_eq|cbn; set_solver|].
  intros c5 R5. rewrite upd_abs in R5 by (rewrite ?(iv_held _ _ _ _ _ I1), ?(iv_dirty _ _ _ _ _ I1); done || set_solver).
  unfold s2. rewrite !with_disk_twice, with_disk_of_now. apply (HQ c5 (stored (sb s) n t1 d1 off y) d1); try done.
  - rewrite <-(now_now i ip s c1 d1). apply (inv_now i ip _ t1 d1); try done; [apply I1..| |].
    + by apply stored_fs_ok.
    + by apply stored_file_ok.
  - eapply wrote_grown; [done|]. by apply stored_wrote.
  - by rewrite stored_site.
  - by apply reserve_stored.
  - apply frees_upd; [done|apply O].
Qed.

(** All the blocks below position [e] are there. *)
Definition covered (v : superblock) t d (e : Z) : Prop :=
  forall k, 0 <= k < MAXFILE -> k * 512 < e -> at_site v t n d (AtData k) <> 0.

Lemma covered_wrote v t d off y t' d' e : wrote v n t d off y t' d' -> covered v t d off ->
  0 <= off -> off mod 512 + Z.of_nat (length y) <= 512 -> at_site v t' n d' (AtData (off / 512)) <> 0 ->
  e = off + Z.of_nat (length y) -> covered v t' d' e.
Proof.
  intros W C Ho Hy H0 -> k Hk He. destruct (decide (k = off / 512)) as [->|Hne]; [done|].
  assert (at_site v t n d (AtData k) <> 0) by (apply C; [done|]; Z.div_mod_to_equations; lia).
  by rewrite (wr_sites _ _ _ _ _ _ _ _ W) by done.
Qed.
Lemma covered_size v t d : file_ok v t n d -> covered v t d (d_size d).
Proof. intros G k Hk He. apply (fl_full _ _ _ _ G); [lia|done]. Qed.
Lemma missing_covered v t d off k : covered v t d off -> 0 <= k < MAXFILE -> k * 512 < off -> missing v t d k = 0%nat.
Proof. intros C Hk He. unfold missing. by rewrite (proj2 (Z.eqb_neq _ _)) by by apply C. Qed.
Lemma missing_le v t d k : (missing v t d k <= 1)%nat.
Proof. unfold missing. destruct (_ =? _); lia. Qed.

(** What the loop leaves after writing [src] at [off]. *)
Definition finished s t d off src m (Q : Z -> fstate S -> Prop) : Prop :=
  forall c t' d', inv (now s c d') t' d' -> wrote (sb s) n t d off src t' d' ->
    covered (sb s) t' d' (off + Z.of_nat (length src)) -> (off + Z.of_nat (length src) <= d_size d -> d' = d) ->
    reserve t' d' m -> Q (off + Z.of_nat (length src)) (now s c d').

(** The loop from a block boundary, over at most [q] blocks. *)
Lemma wp_writei_aligned fuel : forall s t d off tot len src q m Q, inv s t d -> 0 <= off ->
  off mod 512 = 0 \/ src = [] -> len - tot = Z.of_nat (length src) -> Z.of_nat (length src) <= 512 * Z.of_nat q ->
  off + Z.of_nat (length src) <= MAXFILE * 512 -> (length src < fuel)%nat -> covered (sb s) t d off ->
  reserve t d (2 * q + m) -> frees (sb s) t (q + indirect_free d) ->
  finished s t d off src m Q -> wp (writei_loop fuel i off tot len src) Q s.
Proof.
  induction fuel as [|fuel IH]; intros s t d off tot len src q m Q I Ho Hal Hlen Hq Hmax Hfu C Hb Hf HQ; [lia|].
  cbn [writei_loop]. destruct (Z.ltb_spec tot len) as [Hlt|Hge].
  2:{ assert (src = []) as -> by (apply nil_length_inv; lia). rewrite wp_ret.
      specialize (HQ (disk s) t d). rewrite <-(with_disk_now i ip s t d) in HQ by done.
      replace (with_disk (disk s) s) with s in HQ by by destruct s. rewrite Z.add_0_r in HQ.
      apply HQ; try done; [apply wrote_nil|]. apply (budget_mono _ _ _ Hb). lia. }
  destruct Hal as [Hal| ->]; [|simpl in Hlen; lia]. destruct q as [|q]; [simpl in Hq; lia|].
  change (Z.of_nat BSIZE) with 512. rewrite Hal. cbv zeta. set (mm := Z.min (len - tot) (512 - 0)).
  assert (Hlt' : length (take (Z.to_nat mm) src) = Z.to_nat mm) by (rewrite length_take; lia).
  assert (Hld : length (drop (Z.to_nat mm) src) = (length src - Z.to_nat mm)%nat) by apply length_drop.
  assert (Hk : 0 <= off / 512 < MAXFILE) by (unfold MAXFILE in *; Z.div_mod_to_equations; lia).
  pose proof (missing_le (sb s) t d (off / 512)) as Hmi.
  apply (wp_write_step s t d off (take (Z.to_nat mm) src) (2 * q + m) q
    (fun x => put_bytes x (Z.to_nat 0) (take (Z.to_nat mm) src))); try done; rewrite ?Hal; try done; [lia| | |].
  { apply (budget_mono _ _ _ Hb). lia. }
  { apply (frees_mono _ _ _ _ Hf). lia. }
  intros c t1 d1 I1 W1 H1 Hsame Hb1 Hf1.
  assert (Hend : off + Z.of_nat (length (take (Z.to_nat mm) src)) = off + mm) by lia.
  apply (IH _ t1 d1 (off + mm) (tot + mm) len _ q m); try done; try lia.
  - destruct (decide (len - tot <= 512)); [right; apply nil_length_inv; lia|left].
    replace mm with 512 by lia. rewrite Z.add_mod, Hal by lia. done.
  - eapply (covered_wrote (sb s)); [done|done|done|rewrite Hal; lia|done|by rewrite Hend].
  - intros c2 t2 d2 I2 W2 C2 Hs2 Hb2. rewrite now_now in *. cbn [sb FsData.now set_icache with_disk lset] in *.
    assert (E : off + mm + Z.of_nat (length (drop (Z.to_nat mm) src)) = off + Z.of_nat (length src)) by lia.
    rewrite E in *. apply (HQ c2 t2 d2); try done.
    + rewrite <-(take_drop (Z.to_nat mm) src). eapply wrote_app; [done|done|by rewrite Hend].
    + intros Hle. assert (d1 = d) as ->; [|by apply Hs2]. apply Hsame, (covered_size _ _ _ (iv_file _ _ _ _ _ I)); [done|].
      Z.div_mod_to_equations. lia.
Qed.

(** From any position: one more block, which the file already has. *)
Lemma wp_writei_loop s t d off src q m Q : inv s t d -> 0 <= off -> Z.of_nat (length src) <= 512 * Z.of_nat q ->
  off + Z.of_nat (length src) <= MAXFILE * 512 -> covered (sb s) t d off ->
  reserve t d (2 * q + 1 + m) -> frees (sb s) t (q + indirect_free d) -> finished s t d off src m Q ->
  wp (writei_loop (Z.to_nat (Z.of_nat (length src)) + 1) i off 0 (Z.of_nat (length src)) src) Q s.
Proof.
  intros I Ho Hq Hmax C Hb Hf HQ. rewrite Nat2Z.id, Nat.add_comm. pose proof (Z.mod_pos_bound off 512 ltac:(lia)) as Hm.
  destruct (decide (off mod 512 = 0 \/ src = [])) as [Hal|Hal].
  { apply (wp_writei_aligned _ s t d off 0 _ src q m); try done; try lia. apply (budget_mono _ _ _ Hb). lia. }
  assert (Hne : (0 < length src)%nat) by (destruct src; [tauto|simpl; lia]).
  cbn [writei_loop Nat.add]. rewrite (proj2 (Z.ltb_lt _ _)) by lia. change (Z.of_nat BSIZE) with 512. cbv zeta.
  set (mm := Z.min (Z.of_nat (length src) - 0) (512 - off mod 512)).
  assert (Hlt' : length (take (Z.to_nat mm) src) = Z.to_nat mm) by (rewrite length_take; lia).
  assert (Hld : length (drop (Z.to_nat mm) src) = (length src - Z.to_nat mm)%nat) by apply length_drop.
  assert (Hk : 0 <= off / 512 < MAXFILE) by (unfold MAXFILE in *; Z.div_mod_to_equations; lia).
  assert (Hmi : missing (sb s) t d (off / 512) = 0%nat) by (apply (missing_covered _ _ _ off); [done..|Z.div_mod_to_equations; lia]).
  apply (wp_write_step s t d off (take (Z.to_nat mm) src) (2 * q + m) q
    (fun x => put_bytes x (Z.to_nat (off mod 512)) (take (Z.to_nat mm) src))); try done; [lia| | |].
  { rewrite Hmi. apply (budget_mono _ _ _ Hb). lia. }
  { rewrite Hmi. apply (frees_mono _ _ _ _ Hf). lia. }
  intros c t1 d1 I1 W1 H1 Hsame Hb1 Hf1.
  assert (Hend : off + Z.of_nat (length (take (Z.to_nat mm) src)) = off + mm) by lia.
  apply (wp_writei_aligned _ _ t1 d1 (off + mm) (0 + mm) _ _ q m); try done; try lia.
  - destruct (decide (Z.of_nat (length src) <= 512 - off mod 512)); [right; apply nil_length_inv; lia|left].
    replace mm with (512 - off mod 512) by lia. Z.div_mod_to_equations; lia.
  - eapply (covered_wrote (sb s)); [done|done|done|lia|done|by rewrite Hend].
  - intros c2 t2 d2 I2 W2 C2 Hs2 Hb2. rewrite now_now in *. cbn [sb FsData.now set_icache with_disk lset] in *.
    assert (E : off + mm + Z.of_nat (length (drop (Z.to_nat mm) src)) = off + Z.of_nat (length src)) by lia.
    rewrite E in *. assert (Hd1 : d1 = d) by (apply Hsame, C; [done|Z.div_mod_to_equations; lia]). subst d1.
    apply (HQ c2 t2 d2); try done.
    rewrite <-(take_drop (Z.to_nat mm) src). eapply wrote_app; [done|done|by rewrite Hend].
Qed.

(** ** iupdate *)
Definition updated (v : superblock) t d : tabs :=
  tupd (IBLOCK n v) (put_dinode (tview t (IBLOCK n v)) (dinode_off n) d) t.

Lemma dinode_off_bound m : (dinode_off m + 64 <= BSIZE)%nat.
Proof. unfold dinode_off, IPB, BSIZE. pose proof (Z.mod_pos_bound m 8 ltac:(lia)). lia. Qed.

Section Update.
Context (v : superblock) (t : tabs) (d : dinode).
Hypotheses (G : file_ok v t n d) (F : fs_ok v t) (L : forall b, usable t b -> length (tview t b) = BSIZE).

Lemma inode_owned : owned v t (IBLOCK n v).
Proof. apply (fl_owned _ _ _ _ G AtInode Logic.I), G. Qed.
Lemma updated_view x : site_ok x -> x <> AtInode -> at_site v t n d x <> 0 ->
  tview (updated v t d) (at_site v t n d x) = tview t (at_site v t n d x).
Proof.
  intros Hx Hne H0. apply disk_set_ne. intros E. by apply (fl_inj _ _ _ _ G x AtInode) in H0.
Qed.
Lemma updated_site x : at_site v (updated v t d) n d x = at_site v t n d x.
Proof. apply at_site_view. intros H12. by apply (updated_view AtIndirect). Qed.
Lemma updated_fs_ok : fs_ok v (updated v t d).
Proof. apply upd_fs_ok; [done|apply inode_owned]. Qed.
Lemma updated_owned b : owned v t b -> owned v (updated v t d) b.
Proof. apply owned_upd, inode_owned. Qed.
Lemma updated_file_ok : file_ok v (updated v t d) n d.
Proof.
  apply (file_ok_same v n t _ d d G); [by apply G|by apply updated_owned|by apply G|intros; apply updated_site|apply G].
Qed.
Lemma updated_frame : frame v n t d (updated v t d) d.
Proof.
  apply frame_same; [by apply updated_owned|intros; apply updated_site|]. intros b [O Hb]. apply disk_set_ne.
  intros ->. by apply (Hb AtInode).
Qed.
Lemma updated_bytes p : 0 <= p < MAXFILE * 512 -> file_byte v (updated v t d) n d p = file_byte v t n d p.
Proof.
  intros Hp. unfold file_byte. rewrite updated_site. change (Z.of_nat BSIZE) with 512.
  destruct (Z.eqb_spec (at_site v t n d (AtData (p / 512))) 0); [done|]. rewrite updated_view; try done.
  unfold site_ok, MAXFILE in *. Z.div_mod_to_equations. lia.
Qed.
Lemma updated_dinode : dinode_at (tview (updated v t d) (IBLOCK n v)) (dinode_off n) = d.
Proof.
  unfold updated. cbn [tupd tview]. rewrite disk_set_eq. apply dinode_same; [|apply G].
  rewrite L by apply inode_owned. apply dinode_off_bound.
Qed.
Lemma updated_others m : 0 <= m -> 0 <= n -> m <> n ->
  dinode_at (tview (updated v t d) (IBLOCK m v)) (dinode_off m) = dinode_at (tview t (IBLOCK m v)) (dinode_off m).
Proof.
  intros H1 H2 Hne. unfold updated. cbn [tupd tview]. destruct (decide (IBLOCK m v = IBLOCK n v)) as [E|E].
  - rewrite E, disk_set_eq. pose proof (dinode_off_bound n). pose proof (dinode_off_bound m).
    apply dinode_other; [rewrite L by apply inode_owned; done|by apply (fl_len v t n)|..].
    all: unfold IBLOCK, dinode_off, IPB in *; Z.div_mod_to_equations; lia.
  - by rewrite disk_set_ne.
Qed.
End Update.

Lemma wp_iupdate s t d Q : inv s t d -> budget t 1 ->
  (forall c, trep c (updated (sb s) t d) -> Q tt (now s c d)) -> wp (iupdate i) Q s.
Proof.
  intros I Hb HQ. pose proof (inode_owned _ _ _ (iv_file _ _ _ _ _ I)) as O. unfold iupdate.
  rewrite wp_bind, wp_gets, wp_bind. apply (wp_nth_inode i ip s t d); [done|]. cbn [set_idata idev inum idata].
  rewrite (iv_dev _ _ _ _ _ I). apply (wp_peek s t); [apply I..|apply O|]. intros j c R.
  rewrite wp_bind. apply (wp_fs_data (with_disk c s) _ R (IBLOCK n (sb s)) j); [apply lookup_insert_eq|]. cbn [thold tview].
  apply (wp_commit_block (with_disk c s) t (IBLOCK n (sb s)) j); try done.
  - by rewrite (iv_held _ _ _ _ _ I).
  - rewrite (iv_dirty _ _ _ _ _ I). set_solver.
  - rewrite put_dinode_length. by apply (inv_lens i ip s t d), O.
  - intros c' R'. rewrite with_disk_twice, (with_disk_now i ip s t d) by done. by apply HQ.
Qed.

(** A longer size, when the blocks are there. *)
Lemma file_ok_size v t d e : file_ok v t n d -> covered v t d e -> d_size d <= e <= MAXFILE * 512 ->
  file_ok v t n (set_size e d).
Proof.
  intros G C He. pose proof (fl_size _ _ _ _ G) as Hs. pose proof (fl_dinode _ _ _ _ G) as D.
  apply (file_ok_same v n t t d); try done.
  - destruct D. split; try done. cbn [set_size d_size]. unfold MAXFILE in *. lia.
  - cbn [set_size d_size]. change (Z.of_nat BSIZE) with 512. lia.
  - intros k Hk Hlt. apply C; [|done]. cbn [set_size d_size] in Hlt. unfold BSIZE, MAXFILE in *. lia.
Qed.

(** What a write of [src] at [off] leaves: the inode on disk is the inode in
    the cache, and all the bytes are as they should be. *)
Record written_file (v : superblock) t d (off : Z) (src : bytes) t' d' : Prop := {
  wf_size : d_size d' = Z.max (d_size d) (off + Z.of_nat (length src));
  wf_bytes p : 0 <= p < MAXFILE * 512 -> file_byte v t' n d' p =
    if decide (off <= p < off + Z.of_nat (length src)) then getb src (Z.to_nat (p - off)) else file_byte v t n d p;
  wf_frame : frame v n t d t' d';
  wf_synced : dinode_at (tview t' (IBLOCK n v)) (dinode_off n) = d';
  wf_inodes m : 0 <= m -> 0 <= n -> m <> n -> IBLOCK m v = IBLOCK n v ->
    dinode_at (tview t' (IBLOCK m v)) (dinode_off m) = dinode_at (tview t (IBLOCK m v)) (dinode_off m);
  wf_type : (d_type d', d_major d', d_minor d', d_nlink d') = (d_type d, d_major d, d_minor d, d_nlink d)
}.

(** The new size is stored with the inode. *)
Lemma written_longer v t d off src t1 d1 : file_ok v t1 n d1 -> fs_ok v t1 -> (forall b, usable t1 b -> length (tview t1 b) = BSIZE) ->
  wrote v n t d off src t1 d1 -> covered v t1 d1 (off + Z.of_nat (length src)) ->
  d_size d < off + Z.of_nat (length src) <= MAXFILE * 512 ->
  let d2 := set_size (off + Z.of_nat (length src)) d1 in
  file_ok v t1 n d2 /\ written_file v t d off src (updated v t1 d2) d2.
Proof.
  intros G F L [W1 W2 W3 W4 W5] C He d2. injection W5 as E1 E2 E3 E4 E5.
  assert (G2 : file_ok v t1 n d2) by (apply file_ok_size; [done|done|lia]).
  split; [done|]. split.
  - cbn. lia.
  - intros p Hp. rewrite updated_bytes by done. by apply W4.
  - eapply frame_trans; [exact W1|]. apply (frame_trans v n t1 d1 t1 d2); [by intros b Hb|by apply updated_frame].
  - by apply updated_dinode.
  - intros m H1 H2 H3 H4. rewrite updated_others by done. by rewrite H4, W3.
  - cbn. congruence.
Qed.

Lemma wp_writei s t d off src Q : inv s t d -> d_type d <> T_DEV ->
  dinode_at (tview t (IBLOCK n (sb s))) (dinode_off n) = d -> 0 <= off <= d_size d ->
  Z.of_nat (length src) <= (MAXOPBLOCKS - 1 - 1 - 2) / 2 * 512 -> off + Z.of_nat (length src) <= MAXFILE * 512 ->
  budget t (Z.to_nat MAXOPBLOCKS) -> frees (sb s) t 4 ->
  (forall c t' d', inv (now s c d') t' d' -> written_file (sb s) t d off src t' d' -> Q (Z.of_nat (length src)) (now s c d')) ->
  wp (writei i src off (Z.of_nat (length src))) Q s.
Proof.
  intros I Hty Hsync Ho Hlen Hmax Hb Hf HQ. unfold writei. rewrite wp_bind. apply (wp_nth_inode i ip s t d); [done|].
  cbn [set_idata idata]. rewrite (proj2 (Z.eqb_neq _ _)) by done. change ((MAXOPBLOCKS - 1 - 1 - 2) / 2 * 512) with 1536 in Hlen.
  change (MAXFILE * Z.of_nat BSIZE) with 71680. change (MAXFILE * 512) with 71680 in *.
  pose proof (covered_size _ _ _ (iv_file _ _ _ _ _ I)) as C.
  pose proof (fl_size _ _ _ _ (iv_file _ _ _ _ _ I)) as Hsz. change (MAXFILE * Z.of_nat BSIZE) with 71680 in Hsz.
  rewrite (proj2 (Z.ltb_ge (d_size d) off)), u32_small, (proj2 (Z.ltb_ge _ off)), (proj2 (Z.ltb_ge 71680 _)) by lia.
  cbn [orb]. rewrite wp_bind. apply (wp_writei_loop s t d off src 3 1); try done; try lia.
  { intros k Hk He. apply C; [done|lia]. }
  { unfold reserve. apply (budget_mono _ _ _ Hb). change (Z.to_nat MAXOPBLOCKS) with 10%nat. unfold indirect_cost. case_decide; lia. }
  { apply (frees_mono _ _ _ _ Hf). unfold indirect_free. destruct (_ =? _); lia. }
  intros c t1 d1 I1 W C1 Hsame Hres. set (e := off + Z.of_nat (length src)) in *. pose proof W as [W1 W2 W3 W4 W5].
  assert (Hsz1 : d_size d1 = d_size d) by congruence.
  rewrite wp_bind. apply (wp_nth_inode i ip _ t1 d1); [done|]. cbn [set_idata idata]. rewrite Hsz1.
  destruct (Z.ltb_spec (d_size d) e) as [Hgt|Hle].
  - rewrite (proj2 (Z.ltb_lt 0 _)) by lia. cbn [andb when].
    destruct (written_longer (sb s) t d off src t1 d1) as [G2 W']; [apply I1|apply I1|intros b; apply (inv_lens i ip _ t1 d1 b I1)|done|done|unfold MAXFILE; lia|].
    fold e in G2, W'. set (d2 := set_size e d1) in *. rewrite !wp_bind.
    apply (wp_upd_now i ip s t d); [done|]. fold d2.
    assert (I2 : inv (now s c d2) t1 d2) by (apply (inv_now i ip s t d); try done; apply I1).
    apply (wp_iupdate _ t1 d2); [done|by apply (budget_mono _ _ 1 Hres); lia|]. intros c3 R3. rewrite now_now, wp_ret, s32_small by lia.
    apply (HQ c3 (updated (sb s) t1 d2) d2); [|done]. apply (inv_now i ip s t d); try done; [apply I1..| |].
    + by apply updated_fs_ok; [|apply I1].
    + by apply updated_file_ok.
  - assert (d1 = d) as -> by by apply Hsame. rewrite andb_false_r. cbn [when]. rewrite wp_bind, !wp_ret, s32_small by lia.
    apply (HQ c t1 d); [done|]. split; try done; [lia|by rewrite W3|]. intros m _ _ _ E. by rewrite E, W3.
Qed.

(** ** The whole operations *)

(** readi returns what is left of the file from [off], at most [len] bytes. *)
Lemma readi_run s t d off len : inv s t d -> d_type d <> T_DEV -> 0 <= off <= d_size d -> 0 <= len < 2147483648 ->
  exists c, readi i off len s =
    Ok ((Z.min len (d_size d - off), file_bytes (sb s) t n d off (Z.min len (d_size d - off))), now s c d) /\ trep c t.
Proof.
  intros I Hty Ho Hlen. pose proof (fl_size _ _ _ _ (iv_file _ _ _ _ _ I)) as Hsz. change (MAXFILE * Z.of_nat BSIZE) with 71680 in Hsz.
  assert (Hw : wp (readi i off len) (fun r s' => exists c, r = (Z.min len (d_size d - off),
    file_bytes (sb s) t n d off (Z.min len (d_size d - off))) /\ s' = now s c d /\ trep c t) s).
  { unfold readi. rewrite wp_bind. apply (wp_nth_inode i ip s t d); [done|]. cbn [set_idata idata].
    rewrite (proj2 (Z.eqb_neq _ _)) by done.
    rewrite (proj2 (Z.ltb_ge (d_size d) off)), u32_small, (proj2 (Z.ltb_ge _ off)) by lia. cbn [orb]. cbv zeta.
    replace (if d_size d <? off + len then d_size d - off else len) with (Z.min len (d_size d - off))
      by (destruct (Z.ltb_spec (d_size d) (off + len)); lia).
    set (m := Z.min len (d_size d - off)). rewrite wp_bind. apply (wp_readi_loop i ip t d); try done; try lia.
    intros c R. rewrite wp_ret, s32_small by lia. exists c. split; [|done]. cbn [app]. by rewrite Z.sub_0_r. }
  apply wp_ok in Hw as (r & s' & Hrun & c & -> & -> & R). by exists c.
Qed.

(** A position past the end, or a range past the largest file, is refused. *)
Lemma writei_refused s t d off src : inv s t d -> d_type d <> T_DEV -> 0 <= off < 4294967296 -> Z.of_nat (length src) < 2147483648 ->
  d_size d < off \/ MAXFILE * 512 < off + Z.of_nat (length src) -> writei i src off (Z.of_nat (length src)) s = Ok (-1, s).
Proof.
  intros I Hty Ho Hl H. pose proof (fl_size _ _ _ _ (iv_file _ _ _ _ _ I)) as Hsz. change (MAXFILE * Z.of_nat BSIZE) with 71680 in Hsz.
  unfold writei. rewrite (bind_ok (nth_inode i) _ s (set_idata d ip) s) by (unfold nth_inode; by rewrite (iv_ip _ _ _ _ _ I)).
  cbn [set_idata idata]. rewrite (proj2 (Z.eqb_neq _ _)) by done. change (MAXFILE * Z.of_nat BSIZE) with 71680.
  change (MAXFILE * 512) with 71680 in H. destruct (Z.ltb_spec (d_size d) off); [done|]. cbn [orb].
  destruct (u32 (off + Z.of_nat (length src)) <? off); [done|]. by rewrite (proj2 (Z.ltb_lt 71680 _)) by lia.
Qed.

(** C5: files keep what is written to them.  For an inode whose blocks are in
    order, on a disk with four free blocks and in an operation that may record
    the MAXOPBLOCKS blocks begin_op sets aside, writing a chunk of filewrite at
    any position up to the end of the file succeeds.  Afterwards the file has the
    bytes written there and its old bytes elsewhere, and grows exactly when the
    chunk passes the end; the inode on disk is the one in the cache, the other
    inodes of its block and the blocks of all other files are unchanged, and the
    inode's blocks are still in order.  readi at that position then returns the
    chunk.  A position past the end, or a chunk past the largest file, is
    refused without a change. *)
Theorem written_bytes_read_back s t d off src : inv s t d -> d_type d <> T_DEV ->
  dinode_at (tview t (IBLOCK n (sb s))) (dinode_off n) = d ->
  0 <= off < 4294967296 -> Z.of_nat (length src) <= (MAXOPBLOCKS - 1 - 1 - 2) / 2 * 512 ->
  budget t (Z.to_nat MAXOPBLOCKS) -> frees (sb s) t 4 ->
  (off <= d_size d -> off + Z.of_nat (length src) <= MAXFILE * 512 ->
   exists c t' d' c', writei i src off (Z.of_nat (length src)) s = Ok (Z.of_nat (length src), now s c d') /\
     inv (now s c d') t' d' /\ written_file (sb s) t d off src t' d' /\
     readi i off (Z.of_nat (length src)) (now s c d') = Ok ((Z.of_nat (length src), src), now s c' d')) /\
  (d_size d < off \/ MAXFILE * 512 < off + Z.of_nat (length src) ->
   writei i src off (Z.of_nat (length src)) s = Ok (-1, s)).
Proof.
  intros I Hty Hsync Ho Hlen Hb Hf. assert (Hs : Z.of_nat (length src) <= 1536) by done. split.
  2:{ intros H. apply (writei_refused s t d); try done; lia. }
  intros Hle Hmax.
  assert (Hw : wp (writei i src off (Z.of_nat (length src))) (fun r s' => exists c t' d', r = Z.of_nat (length src) /\
    s' = now s c d' /\ inv s' t' d' /\ written_file (sb s) t d off src t' d') s).
  { apply (wp_writei s t d); try done; [lia|]. intros c t' d' I' W. by exists c, t', d'. }
  apply wp_ok in Hw as (r & s' & Hrun & c & t' & d' & -> & -> & I' & W).
  assert (Hty' : d_type d' <> T_DEV) by (pose proof (wf_type _ _ _ _ _ _ _ W); congruence).
  pose proof (wf_size _ _ _ _ _ _ _ W) as Hsz.
  destruct (readi_run _ t' d' off (Z.of_nat (length src)) I' Hty') as (c' & Hread & _); [lia|lia|].
  rewrite Z.min_l in Hread by lia. rewrite now_now in Hread. exists c, t', d', c'. split_and!; try done.
  rewrite Hread. do 3 f_equal. apply getb_eq; rewrite length_file_bytes, Nat2Z.id; [done|]. intros j Hj.
  rewrite getb_file_bytes by lia. cbn [sb FsData.now set_icache with_disk lset].
  rewrite (wf_bytes _ _ _ _ _ _ _ W) by (unfold MAXFILE in *; lia). rewrite decide_True by lia. f_equal. lia.
Qed.
End Write.

(** ** An example: inode 1 is a file of ten bytes in block 47 *)
Definition ex_dinode : dinode := DInode T_FILE 0 0 1 10 (47 :: replicate 12 0).
Definition ex_img : Memide.memdisk :=
  Memide.ideinit {[40 := replicate 6 255 ++ replicate 506 0; 33 := put_dinode (replicate 512 0) 64 ex_dinode]} (100 * 512).
Definition ex_view : tabs :=
  TAbs (medium ex_img) ∅ ∅ ∅ 20 (fun n => home ex_log n /\ in_disk (boot_abs ex_img) n).
Definition ex_ip : inode := set_idev 1 (set_inum 1 (set_ref 1 (set_valid 1 no_inode))).

Lemma file_img_ok : drv_ok ex_img.
Proof.
  intros n Hn. unfold ex_img, Memide.img_block. simpl. destruct (decide (n = 40)) as [->|H1]; [done|].
  rewrite lookup_insert_ne by done. destruct (decide (n = 33)) as [->|H2]; [by rewrite lookup_singleton_eq|].
  by rewrite lookup_singleton_ne.
Qed.
Lemma ex_view_state : exists d : lstate (Bcache.bcache Memide.memdisk), trep d ex_view.
Proof.
  destruct (begin_trep ex_log (Bcache.binit ex_img 1) (boot_abs ex_img) 20) as (s & _ & Hs);
    [by apply boot_idle|exact (binit_rep ex_img 1 file_img_ok)|unfold NBUF; lia|done|by exists s].
Qed.
Lemma ex_view_used b : 0 <= b < 100 -> used ex_sb ex_view b = (b <? 48).
Proof.
  intros Hb. assert (H : forallb (fun k => Bool.eqb (used ex_sb ex_view (Z.of_nat k)) (Z.of_nat k <? 48)) (seq 0 100) = true)
    by (vm_compute; reflexivity).
  rewrite forallb_forall in H. specialize (H (Z.to_nat b)). rewrite Z2Nat.id in H by lia.
  apply Bool.eqb_prop, H, in_seq. lia.
Qed.
Lemma ex_BBLOCK b : 0 <= b < 100 -> BBLOCK b ex_sb = 40.
Proof. intros Hb. unfold BBLOCK. simpl. rewrite Z.div_small by (unfold BPB; lia). done. Qed.
Lemma ex_view_fs_ok : fs_ok ex_sb ex_view.
Proof.
  split; simpl; [lia|..].
  - intros b Hb Hu. rewrite ex_view_used in Hu by done. apply Z.ltb_ge in Hu. split; [right; simpl; lia|done].
  - intros b Hb. rewrite ex_BBLOCK by done. split; [right; simpl; lia|done].
  - intros b Hb. rewrite ex_BBLOCK by done. split; [lia|]. by rewrite ex_view_used by lia.
Qed.
Lemma ex_owned b : b = 0 \/ b = 33 \/ b = 47 -> owned ex_sb ex_view b.
Proof.
  intros Hb. split; [simpl; lia|rewrite ex_view_used by lia; apply Z.ltb_lt; lia| |].
  - split; [unfold home; simpl; lia|]. by destruct Hb as [->|[->| ->]].
  - intros c Hc. rewrite ex_BBLOCK by done. lia.
Qed.
Lemma ex_at_site x : site_ok x -> at_site ex_sb ex_view 1 ex_dinode x =
  match x with AtInode => 33 | AtIndirect => 0 | AtData k => if k =? 0 then 47 else 0 end.
Proof.
  destruct x as [| |k]; try done. intros Hk. unfold at_site. destruct (Z.ltb_spec k (Z.of_nat NDIRECT)) as [H|H].
  - unfold site_ok, NDIRECT in *. destruct (Z.eqb_spec k 0) as [->|Hne]; [done|].
    unfold addr, ex_dinode. cbn [d_addrs]. replace (Z.to_nat k) with (S (Z.to_nat (k - 1))) by lia.
    rewrite lookup_cons. by rewrite lookup_replicate_2 by lia.
  - unfold NDIRECT in *. rewrite (proj2 (Z.eqb_neq k 0)) by lia. done.
Qed.
Lemma ex_file_ok : file_ok ex_sb ex_view 1 ex_dinode.
Proof.
  split; try done.
  - split; try done. repeat constructor; lia.
  - apply ex_owned. by left.
  - intros x Hx. rewrite ex_at_site by done. destruct x as [| |k]; [intros _; apply ex_owned; tauto|done|].
    destruct (k =? 0); [intros _; apply ex_owned; tauto|done].
  - intros x y Hx Hy. rewrite !ex_at_site by done. destruct x as [| |k], y as [| |k']; try done;
      repeat match goal with |- context [?z =? 0] => destruct (Z.eqb_spec z 0) end; intros; subst; congruence.
  - intros k Hk Hlt. change (k * 512 < 10) in Hlt. assert (k = 0) as -> by lia. by rewrite ex_at_site.
Qed.

#[local] Existing Instance no_devs.

Lemma written_bytes_read_back_witness :
  exists (s s' : fstate (lstate (Bcache.bcache Memide.memdisk))) c',
    writei 0 [1; 2; 3] 8 3 s = Ok (3, s') /\ readi 0 8 3 s' = Ok ((3, [1; 2; 3]), c').
Proof.
  destruct ex_view_state as [d R].
  set (s := FState d ex_sb false (set_idata ex_dinode ex_ip :: replicate 49 no_inode) 1 0).
  destruct (written_bytes_read_back 0 ex_ip s ex_view ex_dinode 8 [1; 2; 3]) as [H _].
  - split; try done; [exact ex_view_fs_ok|exact ex_file_ok].
  - done.
  - vm_compute. reflexivity.
  - lia.
  - vm_compute. done.
  - vm_compute. lia.
  - exists {[48; 49; 50; 51]}. split; [vm_compute; lia|]. intros b Hb. rewrite !elem_of_union, !elem_of_singleton in Hb.
    cbn [s sb]. split; [simpl; lia|]. rewrite ex_view_used by lia. apply Z.ltb_ge. lia.
  - destruct H as (c & t' & d' & c' & H1 & _ & _ & H2); [vm_compute; done|vm_compute; done|].
    eexists s, _, _. split; [exact H1|exact H2].
Defined.
