(* ===== verification/User.v ===== *)
(** * User programs

    A program is a tree of the system calls it makes (user.h): each call is
    followed, for every answer the kernel may give, by the rest of the program.
    [run] executes a program against a kernel given as a function of the calls. *)
From Stdlib Require Import FunctionalExtensionality.
From S2P Require Import Prelude Bytes Console Fs.

Open Scope Z_scope.

(** The system calls, by the type of the answer.  [exit] is a constructor of
    programs; [exec] answers only when it fails.  With them, what else a program
    does outside its own variables: a call whose pointer is an address instead of
    a string or a buffer, the trap instruction with any registers, the allocator
    of umalloc.c, accesses of one or four bytes through a pointer and the port
    instructions.  An access that faults for good ends the program: it has no
    answer. *)
Variant call : Type -> Type :=
| CFork : call Z
| CWait : call Z
| CPipe : call (option (Z * Z))
| CWrite (fd : Z) (b : bytes) : call Z
| CRead (fd n : Z) : call (Z * bytes)
| CClose (fd : Z) : call Z
| CKill (pid : Z) : call Z
| CExec (path : bytes) (argv : list bytes) : call Z
| COpen (path : bytes) (mode : Z) : call Z
| CMknod (path : bytes) (major minor : Z) : call Z
| CUnlink (path : bytes) : call Z
| CFstat (fd : Z) : call (Z * stat)
| CLink (old new : bytes) : call Z
| CMkdir (path : bytes) : call Z
| CChdir (path : bytes) : call Z
| CDup (fd : Z) : call Z
| CSbrk (n : Z) : call Z
| CSleep (n : Z) : call Z
| CGetpid : call Z
| CMmap (addr length prot flags fd offset : Z) : call Z
| CMunmap (addr : Z) : call Z
| CFreemem : call Z
| CReadAt (fd p n : Z) : call Z
| CLinkAt (old : bytes) (p : Z) : call Z
| CTrap (eax esp : Z) : call Z
| CMalloc (n : Z) : call Z
| CFree (p : Z) : call unit
| CLoad (p n : Z) : call Z
| CStore (p n v : Z) : call unit
| COutb (port v : Z) : call unit
| CInb (port : Z) : call Z.

(** [Spin] is a loop that goes on past the bound of the model, [Stuck] undefined
    behaviour. *)
Inductive prog (A : Type) : Type :=
| Ret (a : A)
| Exit
| Spin
| Stuck (why : string)
| Call (R : Type) (c : call R) (k : R -> prog A).
Arguments Ret {A} a.
Arguments Exit {A}.
Arguments Spin {A}.
Arguments Stuck {A} why.
Arguments Call {A R} c k.

Fixpoint prog_bind {A B} (f : A -> prog B) (p : prog A) : prog B :=
  match p with
  | Ret a => f a
  | Exit => Exit
  | Spin => Spin
  | Stuck e => Stuck e
  | Call c k => Call c (fun r => prog_bind f (k r))
  end.
#[export] Instance prog_ret : MRet prog := fun A a => Ret a.
#[export] Instance prog_mbind : MBind prog := fun A B f p => prog_bind f p.

Definition sys {R} (c : call R) : prog R := Call c Ret.

Fixpoint for_all {A} (l : list A) (f : A -> prog unit) : prog unit :=
  match l with
  | [] => mret tt
  | x :: l => f x ;; for_all l f
  end.

(** A kernel answers calls and changes its state.  [None]: the program exited. *)
Section Run.
Context {W : Type} (kernel : forall R, call R -> M W R).

Fixpoint run {A} (p : prog A) : M W (option A) :=
  match p with
  | Ret a => mret (Some a)
  | Exit => mret None
  | Spin => hang
  | Stuck e => undef e
  | Call c k => r ← kernel _ c; run (k r)
  end.

Lemma run_bind {A B} (p : prog A) (f : A -> prog B) w :
  run (p ≫= f) w = match run p w with
    | Ok (Some a, w') => run (f a) w'
    | Ok (None, w') => Ok (None, w')
    | Panic e => Panic e | Undef e => Undef e | Hang => Hang
    end.
Proof.
  revert w. induction p as [a| | |e|R c k IH]; intros w; try done.
  change (run (Call c k ≫= f)) with (r ← kernel R c; run (k r ≫= f)). cbn [run].
  unfold mbind at 1 3, M_bind. destruct (kernel R c w) as [[r w']| | |]; [apply IH|done..].
Qed.

Lemma wp_run_bind {A B} (p : prog A) (f : A -> prog B) Q w :
  wp (run p) (fun o w' => match o with Some a => wp (run (f a)) Q w' | None => Q None w' end) w ->
  wp (run (p ≫= f)) Q w.
Proof.
  unfold wp at 1 3. rewrite run_bind. destruct (run p w) as [[[a|] w']| | |]; done.
Qed.
Lemma wp_run_ret {A} (a : A) Q w : wp (run (mret a)) Q w <-> Q (Some a) w.
Proof. done. Qed.
Lemma wp_run_sys {R} (c : call R) Q w : wp (kernel R c) (fun r => Q (Some r)) w -> wp (run (sys c)) Q w.
Proof. intros H. unfold sys. cbn [run]. rewrite wp_bind. done. Qed.

Lemma wp_for_all {A} (l : list A) (f : A -> prog unit) (I : list A -> W -> Prop) Q w :
  I [] w ->
  (forall done x todo w, l = done ++ x :: todo -> I done w ->
     wp (run (f x)) (fun o w' => o = Some tt /\ I (done ++ [x]) w') w) ->
  (forall w, I l w -> Q (Some tt) w) -> wp (run (for_all l f)) Q w.
Proof.
  intros H0 Hs He. cut (forall todo done w, l = done ++ todo -> I done w -> wp (run (for_all todo f)) Q w).
  { intros H. by apply (H l []). }
  clear w H0. induction todo as [|x todo IH]; intros done w Hl Hw; cbn [for_all].
  - rewrite app_nil_r in Hl. subst. by apply He.
  - apply wp_run_bind. eapply wp_mono; [by apply (Hs done x todo)|]. intros o w' [-> Hw'].
    apply (IH (done ++ [x])); [|done]. by rewrite <-(assoc_L app).
Qed.
End Run.

(** ** A plain kernel

    Files with their contents and open descriptors with the bytes still to read;
    reads may be short, by the sizes in [shorts], and what is written is
    collected for each descriptor.  It stands for the kernel where a theorem
    about a program is about the bytes it moves. *)
Record plain := Plain {
  files : gmap bytes bytes; opened : gmap Z bytes; written_to : Z -> bytes; shorts : list nat }.

Definition set_opened o w := Plain (files w) o (written_to w) (shorts w).
Definition add_written fd b w :=
  Plain (files w) (opened w) (fun x => if x =? fd then written_to w x ++ b else written_to w x) (shorts w).

(** How many of the [n] bytes asked for a read delivers out of [len]. *)
Definition read_size (n len : nat) (l : list nat) : nat :=
  match l with
  | [] => Nat.min n len
  | k :: _ => Nat.min (Nat.max 1 k) (Nat.min n len)
  end.
Definition plain_read (fd n : Z) : M plain (Z * bytes) := fun w =>
  match opened w !! fd with
  | None => Ok ((-1, []), w)
  | Some d =>
      let k := read_size (Z.to_nat n) (length d) (shorts w) in
      Ok ((Z.of_nat k, take k d), Plain (files w) (<[fd := drop k d]> (opened w)) (written_to w) (tail (shorts w)))
  end.
(** The lowest free descriptor, of 16. *)
Definition lowest_fd (o : gmap Z bytes) : option Z :=
  find (fun fd => bool_decide (o !! fd = None)) (seqZ 0 16).

Definition plain_kernel (R : Type) (c : call R) : M plain R :=
  match c in call R return M plain R with
  | CRead fd n => plain_read fd n
  | CWrite fd b => modify (add_written fd b) ;; mret (Z.of_nat (length b))
  | COpen path _ => fun w =>
      match files w !! path, lowest_fd (opened w) with
      | Some d, Some fd => Ok (fd, set_opened (<[fd := d]> (opened w)) w)
      | _, _ => Ok (-1, w)
      end
  | CClose fd => modify (fun w => set_opened (delete fd (opened w)) w) ;; mret 0
  | _ => undef "not a call of plain files"
  end.

Lemma add_written_nil fd w : add_written fd [] w = w.
Proof.
  unfold add_written. destruct w. simpl. f_equal. apply functional_extensionality. intros y.
  rewrite app_nil_r. by destruct (y =? fd).
Qed.
Lemma add_written_app fd a b w : add_written fd b (add_written fd a w) = add_written fd (a ++ b) w.
Proof.
  unfold add_written. simpl. f_equal. apply functional_extensionality. intros y.
  destruct (y =? fd); [by rewrite (assoc_L app)|done].
Qed.
Lemma wp_plain_write fd b Q w : Q (Some (Z.of_nat (length b))) (add_written fd b w) -> wp (run plain_kernel (sys (CWrite fd b))) Q w.
Proof. done. Qed.

(** A read takes bytes off the front; it takes none only at the end of the file. *)
Lemma wp_plain_read fd n d w (Q : option (Z * bytes) -> plain -> Prop) : opened w !! fd = Some d -> 0 < n ->
  (forall k, (k <= length d)%nat -> Z.of_nat k <= n -> (k = 0%nat -> d = []) ->
     (shorts w = [] -> k = Nat.min (Z.to_nat n) (length d)) ->
     Q (Some (Z.of_nat k, take k d))
       (Plain (files w) (<[fd := drop k d]> (opened w)) (written_to w) (tail (shorts w)))) ->
  wp (run plain_kernel (sys (CRead fd n))) Q w.
Proof.
  intros Ho Hn HQ. apply wp_run_sys. cbn [plain_kernel]. unfold wp, plain_read. rewrite Ho. apply HQ; unfold read_size.
  - destruct (shorts w); lia.
  - destruct (shorts w); lia.
  - intros E. apply nil_length_inv. destruct (shorts w); lia.
  - by intros ->.
Qed.
