(* ===== verification/Ulib.v ===== *)
(** * The user library (ulib.c and printf.c)

    A string argument is the bytes before its null byte; buffers that a function
    writes through a pointer are in the memory of CString. *)
From S2P Require Import Prelude Bytes CString Console Fs User.

Open Scope Z_scope.

Definition O_RDONLY : Z := 0x000.
Definition O_WRONLY : Z := 0x001.
Definition O_RDWR : Z := 0x002.
Definition O_CREATE : Z := 0x200.

(** ** ulib.c *)

(** [while(( *s++ = *t++) != 0)], over a source of at most [fuel] bytes. *)
Fixpoint strcpy_loop (fuel : nat) (m : mem) (s t : Z) : option mem :=
  match fuel with
  | O => None
  | S fuel =>
      let m' := wrb m s (rdb m t) in
      if truthy (rdb m t) then strcpy_loop fuel m' (s + 1) (t + 1) else Some m'
  end.
Definition strcpy (fuel : nat) (m : mem) (s t : Z) : option (Z * mem) :=
  (fun m' => (s, m')) <$> strcpy_loop fuel m s t.

Fixpoint strcmp (p q : bytes) : Z :=
  match p, q with
  | a :: p', b :: q' => if a =? b then strcmp p' q' else a - b
  | a :: _, [] => a
  | [], b :: _ => - b
  | [], [] => 0
  end.

Definition strlen (s : bytes) : Z := Z.of_nat (length s).

Definition memset (m : mem) (dst c n : Z) : Z * mem := (dst, stosb m dst c (Z.to_nat n)).

(** The rest of the string from the first [c] on. *)
Fixpoint strchr (s : bytes) (c : Z) : option bytes :=
  match s with
  | [] => None
  | x :: s' => if x =? c then Some s else strchr s' c
  end.

(** The characters read, at most [max - 1], the last one an end of line or none. *)
Fixpoint gets_loop (fuel : nat) (i max : Z) (acc : bytes) : prog bytes :=
  match fuel with
  | O => Spin
  | S fuel =>
      if i + 1 <? max then
        r ← sys (CRead 0 1);
        let '(cc, b) := r in
        if cc <? 1 then mret acc
        else
          let c := getb b 0 in
          if (c =? 10) || (c =? 13) then mret (acc ++ [c])
          else gets_loop fuel (i + 1) max (acc ++ [c])
      else mret acc
  end.
Definition gets (max : Z) : prog bytes := gets_loop (Z.to_nat max + 1) 0 max [].

Definition stat (name : bytes) : prog (Z * Fs.stat) :=
  fd ← sys (COpen name O_RDONLY);
  if fd <? 0 then mret (-1, Fs.Stat 0 0 0 0 0)
  else
    r ← sys (CFstat fd);
    sys (CClose fd) ;;
    mret r.

Fixpoint atoi_loop (n : Z) (s : bytes) : Z :=
  match s with
  | [] => n
  | c :: s => if (48 <=? c) && (c <=? 57) then atoi_loop (s32 (n * 10 + c - 48)) s else n
  end.
Definition atoi (s : bytes) : Z := atoi_loop 0 s.

(** [while(n-- > 0) *dst++ = *src++;] *)
Fixpoint memmove_loop (n : nat) (m : mem) (dst src : Z) : mem :=
  match n with
  | O => m
  | S n => memmove_loop n (wrb m dst (rdb m src)) (dst + 1) (src + 1)
  end.
Definition memmove (m : mem) (vdst vsrc n : Z) : Z * mem := (vdst, memmove_loop (Z.to_nat n) m vdst vsrc).

(** ** printf.c *)
Definition putc (fd c : Z) : prog unit := sys (CWrite fd [u8 c]) ;; mret tt.
Definition puts (fd : Z) (l : bytes) : prog unit := for_all l (putc fd).

Definition digit (d : Z) : Z := if d <? 10 then 48 + d else 55 + d.
(** The digits, least significant first. *)
Fixpoint digits (fuel : nat) (x base : Z) : bytes :=
  match fuel with
  | O => []
  | S fuel => digit (x mod base) :: (if x / base =? 0 then [] else digits fuel (x / base) base)
  end.
Definition printint_buf (xx base sgn : Z) : bytes :=
  let neg := truthy sgn && (xx <? 0) in
  let x := if neg then u32 (- xx) else u32 xx in
  digits 32 x base ++ (if neg then [45] else []).
Definition printint (fd xx base sgn : Z) : prog unit :=
  if 16 <? Z.of_nat (length (printint_buf xx base sgn)) then Stuck "buf overflow"
  else puts fd (rev (printint_buf xx base sgn)).

(** The conversion after a percent sign: what it prints and the arguments left. *)
Definition convert (fd c : Z) (ap : list carg) : prog (list carg) :=
  if c =? 100 then
    match ap with CInt v :: ap => printint fd (s32 v) 10 1 ;; mret ap | _ => Stuck "argument" end
  else if (c =? 120) || (c =? 112) then
    match ap with CInt v :: ap => printint fd (s32 v) 16 0 ;; mret ap | _ => Stuck "argument" end
  else if c =? 115 then
    match ap with CStr s :: ap => puts fd (default (bytes_of "(null)") s) ;; mret ap | _ => Stuck "argument" end
  else if c =? 99 then
    match ap with CInt v :: ap => putc fd v ;; mret ap | _ => Stuck "argument" end
  else if c =? 37 then putc fd c ;; mret ap
  else putc fd 37 ;; putc fd c ;; mret ap.

Fixpoint printf_loop (fd : Z) (fmt : bytes) (state : bool) (ap : list carg) : prog unit :=
  match fmt with
  | [] => mret tt
  | c :: fmt =>
      if state then ap ← convert fd c ap; printf_loop fd fmt false ap
      else if c =? 37 then printf_loop fd fmt true ap
      else putc fd c ;; printf_loop fd fmt false ap
  end.
Definition printf (fd : Z) (fmt : string) (ap : list carg) : prog unit :=
  printf_loop fd (unescape (bytes_of fmt)) false ap.
