(* ===== verification/Grep.v ===== *)
(** * grep (grep.c)

    The pattern matcher and the loop over the lines of the input. *)
From S2P Require Import Prelude Bytes Console User Ulib.

Open Scope Z_scope.

Definition DOT : Z := 46.
Definition STAR : Z := 42.
Definition CARET : Z := 94.
Definition DOLLAR : Z := 36.
Definition NEWLINE : Z := 10.

(** [matchstar c re text], given what [matchhere re] answers. *)
Fixpoint matchstar (here : bytes -> bool) (c : Z) (text : bytes) : bool :=
  here text ||
  match text with
  | [] => false
  | t :: text => if (t =? c) || (c =? DOT) then matchstar here c text else false
  end.

Fixpoint matchhere (re : bytes) (text : bytes) : bool :=
  match re with
  | [] => true
  | c :: re1 =>
      let rest (_ : unit) :=
        if (c =? DOLLAR) && match re1 with [] => true | _ => false end then
          match text with [] => true | _ => false end
        else
          match text with
          | [] => false
          | t :: text => if (c =? DOT) || (c =? t) then matchhere re1 text else false
          end in
      match re1 with
      | s :: re2 => if s =? STAR then matchstar (matchhere re2) c text else rest tt
      | [] => rest tt
      end
  end.

(** [do if(matchhere(re, text)) return 1; while( *text++ != 0)] *)
Fixpoint search (re text : bytes) : bool :=
  matchhere re text || match text with [] => false | _ :: text => search re text end.

Definition match_ (re text : bytes) : bool :=
  match re with
  | c :: re' => if c =? CARET then matchhere re' text else search re text
  | [] => search re text
  end.

(** [strchr(p, '\n')] in the buffer from [p] on: the line before it and what
    follows.  A null byte ends the search. *)
Fixpoint next_line (l : bytes) : option (bytes * bytes) :=
  match l with
  | [] => None
  | x :: l =>
      if x =? 0 then None
      else if x =? NEWLINE then Some ([], l)
      else match next_line l with Some (a, b) => Some (x :: a, b) | None => None end
  end.

(** The inner loop; returns the bytes from [p] on when no line is left. *)
Fixpoint grep_lines (fuel : nat) (pattern l : bytes) : prog bytes :=
  match fuel with
  | O => Spin
  | S fuel =>
      match next_line l with
      | None => mret l
      | Some (line, l') =>
          (if match_ pattern line then sys (CWrite 1 (line ++ [NEWLINE])) ;; mret tt else mret tt) ;;
          grep_lines fuel pattern l'
      end
  end.

(** [kept] are the first [m] bytes of the buffer. *)
Fixpoint grep_loop (fuel : nat) (pattern : bytes) (fd : Z) (kept : bytes) : prog unit :=
  match fuel with
  | O => Spin
  | S fuel =>
      r ← sys (CRead fd (1024 - Z.of_nat (length kept) - 1));
      let '(n, b) := r in
      if 0 <? n then
        let data := kept ++ b in
        rest ← grep_lines (length data + 1) pattern data;
        grep_loop fuel pattern fd (if (length rest =? length data)%nat then [] else rest)
      else mret tt
  end.
Definition grep (fuel : nat) (pattern : bytes) (fd : Z) : prog unit := grep_loop fuel pattern fd [].

Definition grep_file (fuel : nat) (pattern name : bytes) : prog unit :=
  fd ← sys (COpen name 0);
  if fd <? 0 then printf 1 "grep: cannot open %s\n" [CStr (Some name)] ;; Exit
  else grep fuel pattern fd ;; sys (CClose fd) ;; mret tt.

Definition main (fuel : nat) (argv : list bytes) : prog unit :=
  match argv with
  | _ :: pattern :: [] => grep fuel pattern 0 ;; Exit
  | _ :: pattern :: names => for_all names (grep_file fuel pattern) ;; Exit
  | _ => printf 2 "usage: grep pattern [file ...]\n" [] ;; Exit
  end.

(** ** What a pattern means

    A pattern is a list of characters, each to be matched once or any number of
    times, the dot matching every character; it may have to end at the end of the
    text.  A star or a dollar elsewhere stands for itself. *)
Definition atom : Type := Z * bool.
Definition fits (c x : Z) : Prop := c = DOT \/ x = c.

Fixpoint parse (re : bytes) : list atom * bool :=
  match re with
  | [] => ([], false)
  | c :: re1 =>
      let one (_ : unit) :=
        if (c =? DOLLAR) && match re1 with [] => true | _ => false end then ([], true)
        else let '(a, e) := parse re1 in ((c, false) :: a, e) in
      match re1 with
      | s :: re2 => if s =? STAR then let '(a, e) := parse re2 in ((c, true) :: a, e) else one tt
      | [] => one tt
      end
  end.

Inductive lang : list atom -> bytes -> Prop :=
| lang_nil : lang [] []
| lang_once c x l u : fits c x -> lang l u -> lang ((c, false) :: l) (x :: u)
| lang_many c l v u : Forall (fits c) v -> lang l u -> lang ((c, true) :: l) (v ++ u).

(** The text begins with a match. *)
Definition starts (p : list atom * bool) (text : bytes) : Prop :=
  exists u rest, text = u ++ rest /\ lang p.1 u /\ (p.2 = true -> rest = []).

(** The text contains a match: at its start if the pattern begins with a caret. *)
Definition pattern_matches (re text : bytes) : Prop :=
  match re with
  | c :: re' => if c =? CARET then starts (parse re') text else exists a b, text = a ++ b /\ starts (parse re) b
  | [] => exists a b, text = a ++ b /\ starts (parse []) b
  end.

Lemma matchstar_spec here c P text : (forall t, here t = true <-> P t) ->
  matchstar here c text = true <-> exists v u, text = v ++ u /\ Forall (fits c) v /\ P u.
Proof.
  intros Hh. induction text as [|t text IH]; cbn [matchstar]; rewrite orb_true_iff, Hh.
  - split.
    + intros [H|H]; [|done]. by exists [], [].
    + intros (v & u & E & _ & H). symmetry in E. apply app_nil in E as [-> ->]. by left.
  - assert (Hf : ((t =? c) || (c =? DOT) = true) <-> fits c t) by (unfold fits; rewrite orb_true_iff, !Z.eqb_eq; tauto).
    split.
    + intros [H|H]; [by exists [], (t :: text)|]. destruct ((t =? c) || (c =? DOT)); [|done].
      apply IH in H as (v & u & -> & Hv & Hu). exists (t :: v), u. split; [done|]. split; [|done].
      constructor; [by apply Hf|done].
    + intros (v & u & E & Hv & Hu). destruct v as [|x v]; [simpl in E; subst; by left|]. injection E as -> ->.
      apply Forall_cons in Hv as [H1 H2]. right. rewrite (proj2 Hf H1). apply IH. by exists v, u.
Qed.

Lemma starts_many c a e text : starts ((c, true) :: a, e) text <->
  exists v u, text = v ++ u /\ Forall (fits c) v /\ starts (a, e) u.
Proof.
  split.
  - intros (u & rest & -> & Hl & He). simpl in Hl, He. inversion Hl; subst. exists v, (u0 ++ rest).
    split; [by rewrite app_assoc|]. split; [done|]. by exists u0, rest.
  - intros (v & u & -> & Hv & (w & rest & -> & Hl & He)). exists (v ++ w), rest. split; [by rewrite app_assoc|].
    split; [by constructor|done].
Qed.
Lemma starts_once c a e text : starts ((c, false) :: a, e) text <->
  exists x u, text = x :: u /\ fits c x /\ starts (a, e) u.
Proof.
  split.
  - intros (u & rest & -> & Hl & He). simpl in Hl, He. inversion Hl; subst. exists x, (u0 ++ rest).
    split; [done|]. split; [done|]. by exists u0, rest.
  - intros (x & u & -> & Hx & (w & rest & -> & Hl & He)). exists (x :: w), rest. split; [done|].
    split; [by constructor|done].
Qed.

Lemma matchhere_one c re text : (c =? DOLLAR) && match re with [] => true | _ => false end = false ->
  (forall t, matchhere re t = true <-> starts (parse re) t) ->
  match text with [] => false | t :: text => if (c =? DOT) || (c =? t) then matchhere re text else false end = true <->
  starts (let '(a, e) := parse re in ((c, false) :: a, e)) text.
Proof.
  intros _ IH. destruct (parse re) as [a e] eqn:E. rewrite starts_once. destruct text as [|t text].
  - split; [done|]. by intros (x & u & ? & _).
  - assert (Hf : ((c =? DOT) || (c =? t) = true) <-> fits c t) by (unfold fits; rewrite orb_true_iff, !Z.eqb_eq; intuition congruence).
    destruct ((c =? DOT) || (c =? t)) eqn:E1.
    + rewrite IH. split; [intros H; exists t, text; split; [done|]; split; [by apply Hf|done]|].
      by intros (x & u & [= -> ->] & _ & H).
    + split; [done|]. intros (x & u & [= -> ->] & H & _). by apply Hf in H.
Qed.

Lemma matchhere_spec re text : matchhere re text = true <-> starts (parse re) text.
Proof.
  remember (length re) as m eqn:Hm. revert re Hm text. induction (lt_wf m) as [m _ IH]. intros re -> text.
  destruct re as [|c re].
  { split; [intros _; exists [], text; by repeat constructor|done]. }
  assert (Hone : forall text, (if (c =? DOLLAR) && match re with [] => true | _ => false end then
      match text with [] => true | _ => false end
      else match text with [] => false | t :: text => if (c =? DOT) || (c =? t) then matchhere re text else false end) = true <->
    starts (if (c =? DOLLAR) && match re with [] => true | _ => false end then ([], true)
      else let '(a, e) := parse re in ((c, false) :: a, e)) text).
  { intros t. destruct (_ && _) eqn:E; [|apply matchhere_one; [done|]; intros t'; apply (IH (length re)); simpl; lia || done].
    split.
    - destruct t; [|done]. intros _. exists [], []. by repeat constructor.
    - intros (u & rest & -> & Hl & He). inversion Hl; subst. by rewrite (He eq_refl). }
  destruct re as [|s re]; [apply Hone|]. specialize (Hone text). cbn [matchhere parse] in *. destruct (s =? STAR); [|exact Hone].
  destruct (parse re) as [a e] eqn:E. rewrite starts_many, matchstar_spec; [done|].
  intros t. rewrite (IH (length re)) by (simpl; lia || done). by rewrite E.
Qed.

Lemma search_spec re text : search re text = true <-> exists a b, text = a ++ b /\ starts (parse re) b.
Proof.
  induction text as [|t text IH]; cbn [search]; rewrite orb_true_iff, matchhere_spec.
  - split; [intros [H|H]; [by exists [], []|done]|]. intros (a & b & E & H). symmetry in E. apply app_nil in E as [-> ->]. by left.
  - rewrite IH. split.
    + intros [H|(a & b & -> & H)]; [by exists [], (t :: text)|by exists (t :: a), b].
    + intros (a & b & E & H). destruct a as [|x a]; [simpl in E; subst; by left|]. injection E as -> ->. right. by exists a, b.
Qed.

Lemma match_spec re text : match_ re text = true <-> pattern_matches re text.
Proof.
  unfold match_, pattern_matches. destruct re as [|c re]; [apply search_spec|].
  destruct (c =? CARET); [apply matchhere_spec|apply search_spec].
Qed.

(** ** Lines *)

(** The lines of a text that end in a newline, without it. *)
Fixpoint ended_from (cur l : bytes) : list bytes :=
  match l with
  | [] => []
  | x :: l => if x =? NEWLINE then cur :: ended_from [] l else ended_from (cur ++ [x]) l
  end.
Definition ended_lines (l : bytes) : list bytes := ended_from [] l.
(** Those that match, as grep prints them. *)
Definition matching (pattern l : bytes) : bytes :=
  concat (map (fun x => if match_ pattern x then x ++ [NEWLINE] else []) (ended_lines l)).

Lemma ended_from_plain cur a : NEWLINE ∉ a -> forall l, ended_from cur (a ++ l) = ended_from (cur ++ a) l.
Proof.
  revert cur. induction a as [|x a IH]; intros cur Ha l; [by rewrite app_nil_r|]. apply not_elem_of_cons in Ha as [Hx Ha].
  cbn [app ended_from]. rewrite (proj2 (Z.eqb_neq _ _)) by done. rewrite IH by done. by rewrite <-(assoc_L app).
Qed.
Lemma ended_plain a : NEWLINE ∉ a -> ended_lines a = [].
Proof. intros Ha. unfold ended_lines. rewrite <-(app_nil_r a). by rewrite ended_from_plain. Qed.
Lemma ended_cons a l : NEWLINE ∉ a -> ended_lines (a ++ NEWLINE :: l) = a :: ended_lines l.
Proof. intros Ha. unfold ended_lines. by rewrite ended_from_plain. Qed.
(** A text is its ended lines and a rest without a newline. *)
Definition with_newlines (ls : list bytes) : bytes := concat ((fun x => x ++ [NEWLINE]) <$> ls).
Lemma ended_from_spec l : forall cur, NEWLINE ∉ cur -> Forall (fun x => NEWLINE ∉ x) (ended_from cur l) /\
  exists tail, NEWLINE ∉ tail /\ cur ++ l = with_newlines (ended_from cur l) ++ tail.
Proof.
  induction l as [|x l IH]; intros cur Hc; cbn [ended_from].
  - split; [done|]. exists cur. by rewrite app_nil_r.
  - destruct (Z.eqb_spec x NEWLINE) as [->|Hx].
    + destruct (IH [] ltac:(set_solver)) as (F & tail & Ht & E). split; [by constructor|]. exists tail. split; [done|].
      unfold with_newlines in *. cbn [fmap list_fmap concat app] in *. rewrite E at 1. by rewrite <-!(assoc_L app).
    + destruct (IH (cur ++ [x]) ltac:(set_solver)) as (F & tail & Ht & E). split; [done|]. exists tail. split; [done|].
      rewrite <-E. by rewrite <-(assoc_L app).
Qed.
Lemma ended_lines_spec l : Forall (fun x => NEWLINE ∉ x) (ended_lines l) /\
  exists tail, NEWLINE ∉ tail /\ l = with_newlines (ended_lines l) ++ tail.
Proof. apply (ended_from_spec l []). set_solver. Qed.
Lemma matching_cons pattern a l : NEWLINE ∉ a ->
  matching pattern (a ++ NEWLINE :: l) = (if match_ pattern a then a ++ [NEWLINE] else []) ++ matching pattern l.
Proof. intros Ha. unfold matching. by rewrite ended_cons. Qed.

Lemma next_line_spec l : 0 ∉ l -> match next_line l with
  | None => NEWLINE ∉ l
  | Some (a, b) => l = a ++ NEWLINE :: b /\ NEWLINE ∉ a
  end.
Proof.
  induction l as [|x l IH]; intros H0; cbn [next_line]; [set_solver|]. apply not_elem_of_cons in H0 as [Hx H0].
  rewrite (proj2 (Z.eqb_neq x 0)) by done. destruct (Z.eqb_spec x NEWLINE) as [->|Hn]; [split; [done|set_solver]|].
  specialize (IH H0). destruct (next_line l) as [[a b]|]; [|set_solver]. destruct IH as [-> Ha]. split; [done|set_solver].
Qed.

(** Every stretch without a newline is shorter than the buffer. *)
Definition short_lines (text : bytes) : Prop :=
  forall a b c, text = a ++ b ++ c -> NEWLINE ∉ b -> (length b < 1023)%nat.
Lemma short_lines_app a b : short_lines (a ++ b) -> short_lines b.
Proof. intros H x y z -> Hy. apply (H (a ++ x) y z); [by rewrite <-(assoc_L app)|done]. Qed.

Section World.
Context (pattern : bytes) (fd : Z).

Lemma wp_grep_lines fuel : forall l w Q, 0 ∉ l -> (length l < fuel)%nat ->
  (forall a rest, l = a ++ rest -> NEWLINE ∉ rest -> a = [] \/ (length rest < length l)%nat ->
    (forall z, matching pattern (l ++ z) = matching pattern a ++ matching pattern (rest ++ z)) ->
    Q (Some rest) (add_written 1 (matching pattern a) w)) ->
  wp (run plain_kernel (grep_lines fuel pattern l)) Q w.
Proof.
  induction fuel as [|fuel IH]; intros l w Q H0 Hf HQ; [lia|]. cbn [grep_lines].
  pose proof (next_line_spec l H0) as Hn. destruct (next_line l) as [[line l']|].
  - destruct Hn as [-> Hl]. rewrite length_app in Hf. simpl in Hf. apply wp_run_bind.
    set (out := if match_ pattern line then line ++ [NEWLINE] else []).
    assert (Hm : forall z, matching pattern ((line ++ NEWLINE :: l') ++ z) = out ++ matching pattern (l' ++ z)).
    { intros z. rewrite <-(assoc_L app). cbn [app]. by apply matching_cons. }
    assert (Hnext : wp (run plain_kernel (grep_lines fuel pattern l')) Q (add_written 1 out w)).
    { apply IH; [set_solver|lia|]. intros a rest -> Hr Hlen Hz.
      assert (E : add_written 1 (matching pattern a) (add_written 1 out w) =
        add_written 1 (matching pattern (line ++ NEWLINE :: a)) w).
      { rewrite add_written_app. f_equal. by rewrite matching_cons. }
      rewrite E. apply HQ; [by rewrite <-(assoc_L app)|done|right; rewrite !length_app; simpl; rewrite length_app; lia|].
      intros z. rewrite Hm, Hz, matching_cons by done. by rewrite (assoc_L app). }
    destruct (match_ pattern line) eqn:E; [exact Hnext|].
    apply wp_run_ret. unfold out in Hnext. by rewrite add_written_nil in Hnext.
  - apply wp_run_ret. specialize (HQ [] l eq_refl Hn (or_introl eq_refl)).
    unfold matching at 2 in HQ. cbn in HQ. rewrite add_written_nil in HQ. by apply HQ.
Qed.

(** The state after reading [fd] to its end. *)
Definition at_end (out : bytes) (w : plain) : plain :=
  add_written 1 out (Plain (files w) (<[fd := []]> (opened w)) (written_to w) (tail (shorts w))).

Lemma wp_grep_loop fuel : forall kept d w Q, opened w !! fd = Some d -> shorts w = [] -> 0 ∉ kept ++ d ->
  NEWLINE ∉ kept -> short_lines (kept ++ d) -> (length d < fuel)%nat ->
  Q (Some tt) (at_end (matching pattern (kept ++ d)) w) ->
  wp (run plain_kernel (grep_loop fuel pattern fd kept)) Q w.
Proof.
  induction fuel as [|fuel IH]; intros kept d w Q Ho Hs H0 Hk Hsh Hf HQ; [lia|]. cbn [grep_loop].
  assert (Hkl : (length kept < 1023)%nat) by (apply (Hsh [] kept d); done).
  apply wp_run_bind. apply (wp_plain_read fd _ d); [done|lia|]. intros n Hn1 Hn2 Hn3 Hn4. specialize (Hn4 Hs).
  destruct n as [|n].
  { rewrite (Hn3 eq_refl) in *. cbn. rewrite Hs in *. rewrite app_nil_r in HQ. unfold matching in HQ. rewrite ended_plain in HQ by done.
    cbn in HQ. unfold at_end in HQ. rewrite add_written_nil, Hs in HQ. done. }
  rewrite (proj2 (Z.ltb_lt 0 _)) by lia. apply wp_run_bind. set (k := S n) in *. set (data := kept ++ take k d).
  assert (Hdata : kept ++ d = data ++ drop k d) by (unfold data; by rewrite <-(assoc_L app), take_drop).
  assert (Hd0 : 0 ∉ data) by (rewrite Hdata in H0; set_solver).
  apply wp_grep_lines; [done|lia|]. intros a rest Ha Hr Hcase Hz. set (w' := add_written _ _ _).
  assert (Hnext : forall kept', NEWLINE ∉ kept' -> 0 ∉ kept' ++ drop k d -> short_lines (kept' ++ drop k d) ->
    matching pattern (kept ++ d) = matching pattern a ++ matching pattern (kept' ++ drop k d) ->
    wp (run plain_kernel (grep_loop fuel pattern fd kept')) Q w').
  { intros kept' K1 K2 K3 K4. apply (IH kept' (drop k d)); try done.
    - apply lookup_insert_eq.
    - simpl. by rewrite Hs.
    - rewrite length_drop. lia.
    - replace (at_end _ w') with (at_end (matching pattern (kept ++ d)) w); [done|]. rewrite K4. unfold at_end, w'.
      rewrite <-(add_written_app 1 (matching pattern a)). f_equal. unfold add_written. simpl. by rewrite insert_insert_eq, Hs. }
  destruct (Nat.eqb_spec (length rest) (length data)) as [E|E].
  - assert (a = []) as -> by (destruct Hcase as [?|?]; [done|lia]). simpl in Ha. subst rest.
    assert (Hk' : drop k d = []).
    { apply drop_ge. pose proof (Hsh [] data (drop k d) Hdata Hr) as Hl. unfold data in Hl. rewrite length_app, length_take in Hl. lia. }
    apply Hnext; rewrite ?Hk'; [set_solver|set_solver|intros x y z E' _; symmetry in E'; apply app_nil in E' as [_ E'];
      apply app_nil in E' as [-> _]; simpl; lia|]. rewrite Hdata, Hk', app_nil_r. unfold matching at 1. by rewrite ended_plain.
  - apply Hnext; [done| | |by rewrite Hdata, Hz]; rewrite Hdata, Ha in *.
    + set_solver.
    + rewrite <-(assoc_L app) in Hsh. by apply short_lines_app in Hsh.
Qed.
End World.

#[export] Instance pattern_matches_dec re text : Decision (pattern_matches re text).
Proof.
  refine (match match_ re text as b return match_ re text = b -> _ with
    | true => fun E => left _ | false => fun E => right _ end eq_refl).
  - by apply match_spec.
  - rewrite <-match_spec, E. done.
Defined.

(** The ended lines of a text that match, each with its newline. *)
Definition matching_lines (pattern text : bytes) : bytes :=
  with_newlines (filter (pattern_matches pattern) (ended_lines text)).

Lemma matching_matching_lines pattern text : matching pattern text = matching_lines pattern text.
Proof.
  unfold matching, matching_lines, with_newlines. induction (ended_lines text) as [|x l IH]; [done|]. cbn [map concat]. rewrite IH.
  rewrite filter_cons. destruct (match_ pattern x) eqn:E.
  - rewrite decide_True by by apply match_spec. done.
  - rewrite decide_False; [done|]. rewrite <-match_spec, E. done.
Qed.

(** A file that grep can read: no null byte, and no line as long as its buffer. *)
Definition readable (w : plain) (fuel : nat) (name : bytes) : Prop :=
  exists text, files w !! name = Some text /\ (0 ∉ text) /\ short_lines text /\ (length text < fuel)%nat.
Definition content (w : plain) (name : bytes) : bytes := default [] (files w !! name).

(** C37: grep prints the lines that end in a newline and match.  For any pattern and
    any files without null bytes whose lines fit in its buffer (less than 1023
    bytes), from which every read gives as much as it asks for, grep ends and has
    written to its output, in order, exactly the newline-terminated lines of each
    file that contain a match of the pattern in the sense of [pattern_matches], each
    with its newline; nothing else is written and no descriptor stays open.  What
    follows the last newline of a file is the only part of it that is not one of
    these lines, and is never printed. *)
Theorem grep_prints_matching_lines (fuel : nat) (argv0 pattern : bytes) (names : list bytes) (w : plain) (fd : Z) :
  names <> [] -> shorts w = [] -> lowest_fd (opened w) = Some fd -> Forall (readable w fuel) names ->
  run plain_kernel (main fuel (argv0 :: pattern :: names)) w =
    Ok (None, add_written 1 (concat ((fun f => matching_lines pattern (content w f)) <$> names)) w) /\
  forall name, name ∈ names -> (Forall (fun x => NEWLINE ∉ x) (ended_lines (content w name))) /\
    exists tail, NEWLINE ∉ tail /\ content w name = with_newlines (ended_lines (content w name)) ++ tail.
Proof.
  intros Hn Hs Hfd Hr. split; [|intros name _; apply ended_lines_spec]. set (out l := concat ((fun f => matching_lines pattern (content w f)) <$> l)).
  assert (Hno : opened w !! fd = None).
  { unfold lowest_fd in Hfd. apply find_some in Hfd as [_ H]. by apply bool_decide_eq_true in H. }
  assert (Hfd0 : 0 <= fd).
  { unfold lowest_fd in Hfd. apply find_some in Hfd as [H _]. apply list_elem_of_In, elem_of_seqZ in H. lia. }
  assert (Hw : wp (run plain_kernel (for_all names (grep_file fuel pattern)))
    (fun o w' => o = Some tt /\ w' = add_written 1 (out names) w) w).
  { apply (wp_for_all _ _ _ (fun done w' => w' = add_written 1 (out done) w)); [by rewrite add_written_nil| |by intros ? ->].
    intros done x todo w' E ->. rewrite E in Hr. apply Forall_app in Hr as [_ Hr]. apply Forall_cons in Hr as [(text & T1 & T2 & T3 & T4) _].
    unfold grep_file. apply wp_run_bind, wp_run_sys. cbn [plain_kernel]. unfold wp at 1. cbn [files opened add_written].
    rewrite T1, Hfd, (proj2 (Z.ltb_ge fd 0)) by done. apply wp_run_bind.
    apply (wp_grep_loop pattern fd fuel [] text); try done; [apply lookup_insert_eq|set_solver|].
    apply wp_run_bind, wp_run_sys. cbn [plain_kernel]. rewrite wp_bind, wp_modify, wp_ret, wp_run_ret. split; [done|].
    unfold out. rewrite fmap_app, concat_app. cbn [fmap list_fmap concat]. rewrite app_nil_r, matching_matching_lines.
    assert (content w x = text) as -> by (unfold content; by rewrite T1). cbn [app].
    unfold set_opened, at_end. cbn [opened files written_to shorts add_written].
    rewrite insert_insert_eq, delete_insert_id, Hs by done. rewrite <-add_written_app. unfold add_written. simpl. by rewrite Hs. }
  apply wp_ok in Hw as (o & w' & Hrun & -> & ->). unfold main. destruct names as [|x names]; [done|].
  rewrite run_bind, Hrun. done.
Qed.

Lemma grep_prints_matching_lines_witness :
  let text := [97; 98; 10; 99; 10; 98; 98; 10; 98] in
  run plain_kernel (main 20 [[103]; [94; 98; 42; 36]; [102]]) (Plain {[ [102] := text ]} ∅ (fun _ => []) []) =
  Ok (None, add_written 1 [98; 98; 10] (Plain {[ [102] := text ]} ∅ (fun _ => []) [])).
Proof.
  intros text. assert (R : Forall (readable (Plain {[ [102] := text ]} ∅ (fun _ => []) []) 20) [[102]]).
  { constructor; [|done]. exists text. split_and!; [done|by apply (bool_decide_unpack _)| |simpl; lia].
    intros a b c E _. assert (length text = length (a ++ b ++ c)) as El by (by rewrite E). rewrite !length_app in El.
    change (length text) with 9%nat in El. lia. }
  rewrite (proj1 (grep_prints_matching_lines 20 [103] [94; 98; 42; 36] [[102]]
    (Plain {[ [102] := text ]} ∅ (fun _ => []) []) 0 ltac:(done) eq_refl eq_refl R)).
  assert (E : concat ((fun f => matching_lines [94; 98; 42; 36] (content (Plain {[ [102] := text ]} ∅ (fun _ => []) []) f)) <$> [[102]]) =
    [98; 98; 10]) by (vm_compute; reflexivity). by rewrite E.
Defined.
