(* ===== verification/Uprogs.v ===== *)
(** * The small user programs

    cat, wc, echo, ls, kill, ln, mkdir, rm, zombie, init, initcode, forktest,
    stressfs and mytest as programs of system calls.  [fuel] bounds the reads of a
    file. *)
From S2P Require Import Prelude Bytes Console Fs User Ulib.

Open Scope Z_scope.

(** [for(i = 1; i < argc; i++)] over a file named on the command line. *)
Definition each_file (use : bytes -> Z -> prog unit) (complain : bytes -> prog unit) (name : bytes) : prog unit :=
  fd ← sys (COpen name 0);
  if fd <? 0 then complain name ;; Exit
  else use name fd ;; sys (CClose fd) ;; mret tt.

(** ** cat.c *)
Module Cat.
Fixpoint cat_loop (fuel : nat) (fd : Z) : prog Z :=
  match fuel with
  | O => Spin
  | S fuel =>
      r ← sys (CRead fd 512);
      let '(n, b) := r in
      if 0 <? n then
        k ← sys (CWrite 1 b);
        if k =? n then cat_loop fuel fd
        else printf 1 "cat: write error\n" [] ;; Exit
      else mret n
  end.
Definition cat (fuel : nat) (fd : Z) : prog unit :=
  n ← cat_loop fuel fd;
  if n <? 0 then printf 1 "cat: read error\n" [] ;; Exit else mret tt.
Definition main (fuel : nat) (argv : list bytes) : prog unit :=
  match argv with
  | _ :: ((_ :: _) as names) =>
      for_all names (each_file (fun _ fd => cat fuel fd) (fun name => printf 1 "cat: cannot open %s\n" [CStr (Some name)])) ;; Exit
  | _ => cat fuel 0 ;; Exit
  end.
End Cat.

(** ** wc.c *)
Module Wc.
Record counts := Counts { l : Z; w : Z; c : Z; inword : bool }.
(** ulib.c's strchr stops at the null byte without comparing it. *)
Definition separator (x : Z) : bool :=
  match strchr [32; 13; 9; 10; 11] x with Some _ => true | None => false end.
Definition wc_step (s : counts) (x : Z) : counts :=
  let s := Counts (l s) (w s) (s32 (c s + 1)) (inword s) in
  let s := if x =? 10 then Counts (s32 (l s + 1)) (w s) (c s) (inword s) else s in
  if separator x then Counts (l s) (w s) (c s) false
  else if negb (inword s) then Counts (l s) (s32 (w s + 1)) (c s) true
  else s.
Fixpoint wc_loop (fuel : nat) (fd : Z) (s : counts) : prog (Z * counts) :=
  match fuel with
  | O => Spin
  | S fuel =>
      r ← sys (CRead fd 512);
      let '(n, b) := r in
      if 0 <? n then wc_loop fuel fd (fold_left wc_step b s) else mret (n, s)
  end.
Definition wc (fuel : nat) (name : bytes) (fd : Z) : prog unit :=
  r ← wc_loop fuel fd (Counts 0 0 0 false);
  let '(n, s) := r in
  if n <? 0 then printf 1 "wc: read error\n" [] ;; Exit
  else printf 1 "%d %d %d %s\n" [CInt (l s); CInt (w s); CInt (c s); CStr (Some name)].
Definition main (fuel : nat) (argv : list bytes) : prog unit :=
  match argv with
  | _ :: ((_ :: _) as names) =>
      for_all names (each_file (wc fuel) (fun name => printf 1 "wc: cannot open %s\n" [CStr (Some name)])) ;; Exit
  | _ => wc fuel [] 0 ;; Exit
  end.
End Wc.

(** ** echo.c *)
Module Echo.
Fixpoint echo (args : list bytes) : prog unit :=
  match args with
  | [] => mret tt
  | a :: rest =>
      printf 1 "%s%s" [CStr (Some a); CStr (Some match rest with [] => [10] | _ => [32] end)] ;;
      echo rest
  end.
Definition main (argv : list bytes) : prog unit := echo (tail argv) ;; Exit.
End Echo.

(** ** ls.c *)
Module Ls.
(** The bytes of a string up to its null byte. *)
Fixpoint until_null (l : bytes) : bytes :=
  match l with
  | [] => []
  | x :: l => if x =? 0 then [] else x :: until_null l
  end.
(** [for(p = path+strlen(path); p >= path && *p != '/'; p--)] and [p++] *)
Fixpoint after_slash (path cur : bytes) : bytes :=
  match path with
  | [] => cur
  | x :: path => if x =? 47 then after_slash path path else after_slash path cur
  end.
Definition fmtname (path : bytes) : bytes :=
  let p := after_slash path path in
  if Z.of_nat DIRSIZ <=? strlen p then p
  else p ++ replicate (DIRSIZ - length p) 32.

Definition print_entry (name : bytes) (st : Fs.stat) : prog unit :=
  printf 1 "%s %d %d %d\n" [CStr (Some name); CInt (st_type st); CInt (st_ino st); CInt (st_size st)].

(** The entries of the directory [path]. *)
Fixpoint ls_dir (fuel : nat) (path : bytes) (fd : Z) : prog unit :=
  match fuel with
  | O => Spin
  | S fuel =>
      r ← sys (CRead fd DESIZE);
      let '(n, de) := r in
      if n =? DESIZE then
        (if de_inum de =? 0 then mret tt
         else
           let buf := path ++ [47] ++ until_null (de_name de) in
           q ← stat buf;
           let '(e, st) := q in
           if e <? 0 then printf 1 "ls: cannot stat %s\n" [CStr (Some buf)]
           else print_entry (fmtname buf) st) ;;
        ls_dir fuel path fd
      else mret tt
  end.
Definition ls (fuel : nat) (path : bytes) : prog unit :=
  fd ← sys (COpen path 0);
  if fd <? 0 then printf 2 "ls: cannot open %s\n" [CStr (Some path)]
  else
    r ← sys (CFstat fd);
    let '(e, st) := r in
    if e <? 0 then
      printf 2 "ls: cannot stat %s\n" [CStr (Some path)] ;;
      sys (CClose fd) ;; mret tt
    else
      (if st_type st =? T_FILE then print_entry (fmtname path) st
       else if st_type st =? T_DIR then
         if 512 <? strlen path + 1 + Z.of_nat DIRSIZ + 1 then printf 1 "ls: path too long\n" []
         else ls_dir fuel path fd
       else mret tt) ;;
      sys (CClose fd) ;; mret tt.
Definition main (fuel : nat) (argv : list bytes) : prog unit :=
  match argv with
  | _ :: ((_ :: _) as paths) => for_all paths (ls fuel) ;; Exit
  | _ => ls fuel [46] ;; Exit
  end.
End Ls.

(** ** kill.c, ln.c, mkdir.c, rm.c, zombie.c *)
Module Kill.
Definition main (argv : list bytes) : prog unit :=
  match argv with
  | _ :: ((_ :: _) as pids) => for_all pids (fun p => sys (CKill (atoi p)) ;; mret tt) ;; Exit
  | _ => printf 2 "usage: kill pid...\n" [] ;; Exit
  end.
End Kill.

Module Ln.
Definition main (argv : list bytes) : prog unit :=
  match argv with
  | [_; old; new] =>
      r ← sys (CLink old new);
      (if r <? 0 then printf 2 "link %s %s: failed\n" [CStr (Some old); CStr (Some new)] else mret tt) ;;
      Exit
  | _ => printf 2 "Usage: ln old new\n" [] ;; Exit
  end.
End Ln.

Module Mkdir.
Fixpoint mkdirs (names : list bytes) : prog unit :=
  match names with
  | [] => mret tt
  | x :: names =>
      r ← sys (CMkdir x);
      if r <? 0 then printf 2 "mkdir: %s failed to create\n" [CStr (Some x)] else mkdirs names
  end.
Definition main (argv : list bytes) : prog unit :=
  match argv with
  | _ :: ((_ :: _) as names) => mkdirs names ;; Exit
  | _ => printf 2 "Usage: mkdir files...\n" [] ;; Exit
  end.
End Mkdir.

Module Rm.
Fixpoint unlinks (names : list bytes) : prog unit :=
  match names with
  | [] => mret tt
  | x :: names =>
      r ← sys (CUnlink x);
      if r <? 0 then printf 2 "rm: %s failed to delete\n" [CStr (Some x)] else unlinks names
  end.
Definition main (argv : list bytes) : prog unit :=
  match argv with
  | _ :: ((_ :: _) as names) => unlinks names ;; Exit
  | _ => printf 2 "Usage: rm files...\n" [] ;; Exit
  end.
End Rm.

Module Zombie.
Definition main : prog unit :=
  pid ← sys CFork;
  (if 0 <? pid then sys (CSleep 5) ;; mret tt else mret tt) ;;
  Exit.
End Zombie.

(** ** init.c: [rounds] bounds the endless loop, [kids] the children it waits for *)
Module Init.
Definition console : bytes := bytes_of "console".
Fixpoint reap (kids : nat) (pid : Z) : prog unit :=
  match kids with
  | O => Spin
  | S kids =>
      wpid ← sys CWait;
      if (0 <=? wpid) && negb (wpid =? pid) then printf 1 "zombie!\n" [] ;; reap kids pid
      else mret tt
  end.
Fixpoint init_loop (rounds kids : nat) : prog unit :=
  match rounds with
  | O => Spin
  | S rounds =>
      printf 1 "init: starting sh\n" [] ;;
      printf 1 "Student ID: 2022310269\n" [] ;;
      printf 1 "Name: Hyeongrok Jo\n" [] ;;
      printf 1 "Have a nice day!\n" [] ;;
      pid ← sys CFork;
      if pid <? 0 then printf 1 "init: fork failed\n" [] ;; Exit
      else if pid =? 0 then
        sys (CExec (bytes_of "sh") [bytes_of "sh"]) ;;
        printf 1 "init: exec sh failed\n" [] ;;
        Exit
      else reap kids pid ;; init_loop rounds kids
  end.
Definition open_console : prog unit :=
  fd ← sys (COpen console O_RDWR);
  (if fd <? 0 then sys (CMknod console 1 1) ;; sys (COpen console O_RDWR) ;; mret tt else mret tt) ;;
  sys (CDup 0) ;;
  sys (CDup 0) ;;
  mret tt.
Definition main (rounds kids : nat) : prog unit :=
  open_console ;;
  init_loop rounds kids.
End Init.

(** ** initcode.S: the first process *)
Module Initcode.
Definition init : bytes := bytes_of "/init".
Definition start : prog unit := sys (CExec init [init]) ;; Exit.
End Initcode.

(** ** forktest.c: a printf of its own, that writes the format *)
Module Forktest.
Definition N : nat := 1000.
Definition printf (fd : Z) (s : string) : prog unit :=
  sys (CWrite fd (unescape (bytes_of s))) ;; mret tt.
(** The children made until fork fails; [rounds] of the [N] rounds remain. *)
Fixpoint forks (rounds : nat) (n : Z) : prog Z :=
  match rounds with
  | O => mret n
  | S rounds =>
      pid ← sys CFork;
      if pid <? 0 then mret n
      else if pid =? 0 then Exit
      else forks rounds (n + 1)
  end.
Fixpoint waits (n : nat) : prog unit :=
  match n with
  | O => mret tt
  | S n =>
      pid ← sys CWait;
      if pid <? 0 then printf 1 "wait stopped early\n" ;; Exit else waits n
  end.
Definition forktest : prog unit :=
  printf 1 "fork test\n" ;;
  n ← forks N 0;
  (if n =? Z.of_nat N then printf 1 "fork claimed to work N times!\n" ;; Exit else mret tt) ;;
  waits (Z.to_nat n) ;;
  pid ← sys CWait;
  (if negb (pid =? -1) then printf 1 "wait got too many\n" ;; Exit else mret tt) ;;
  printf 1 "fork test OK\n".
Definition main : prog unit := forktest ;; Exit.
End Forktest.

(** ** stressfs.c *)
Module Stressfs.
(** [for(i = 0; i < 4; i++) if(fork() > 0) break;] *)
Fixpoint spread (rounds : nat) (i : Z) : prog Z :=
  match rounds with
  | O => mret i
  | S rounds => pid ← sys CFork; if 0 <? pid then mret i else spread rounds (i + 1)
  end.
Fixpoint times (n : nat) (p : prog unit) : prog unit :=
  match n with
  | O => mret tt
  | S n => p ;; times n p
  end.
Definition main : prog unit :=
  let data := replicate 512 97 in
  printf 1 "stressfs starting\n" [] ;;
  i ← spread 4 0;
  printf 1 "write %d\n" [CInt i] ;;
  let path := bytes_of "stressfs" ++ [48 + i] in
  fd ← sys (COpen path (Z.lor O_CREATE O_RDWR));
  times 20 (sys (CWrite fd data) ;; mret tt) ;;
  sys (CClose fd) ;;
  printf 1 "read\n" [] ;;
  fd ← sys (COpen path O_RDONLY);
  times 20 (sys (CRead fd 512) ;; mret tt) ;;
  sys (CClose fd) ;;
  sys CWait ;;
  Exit.
End Stressfs.

(** ** mytest.c: memory mapped files *)
Module Mytest.
Definition PROT_READ : Z := 0x1.
Definition PROT_WRITE : Z := 0x2.
Definition MAP_ANONYMOUS : Z := 0x1.
Definition MAP_POPULATE : Z := 0x2.
Definition print_int (fmt : string) (c : call Z) : prog unit := v ← sys c; printf 1 fmt [CInt v].
Definition print_free (fmt : string) : prog unit := print_int fmt CFreemem.
Definition free_now : prog unit := print_free "free memory number: %d\n".
Definition print_four (fmt : string) (area : Z) : prog unit :=
  a ← sys (CLoad area 1);
  b ← sys (CLoad (u32 (area + 1)) 1);
  c ← sys (CLoad (u32 (area + 2)) 1);
  d ← sys (CLoad (u32 (area + 3)) 1);
  printf 1 fmt [CInt a; CInt b; CInt c; CInt d].
(** What printf does for a string in mapped memory. *)
Fixpoint puts_at (fuel : nat) (a : Z) : prog unit :=
  match fuel with
  | O => Spin
  | S fuel =>
      c ← sys (CLoad a 1);
      if c =? 0 then mret tt else putc 1 c ;; puts_at fuel (u32 (a + 1))
  end.
Definition print_at (fuel : nat) (a : Z) : prog unit :=
  if a =? 0 then puts 1 (bytes_of "(null)") else puts_at fuel a.
Definition four : string := "mmap result (first four letters): %c%c%c%c\n".
Definition four2 : string := "mmap result (first four letters): %c%c%c%c\n\n".
Definition map_file (prot flags fd : Z) : prog Z := sys (CMmap 0 8192 prot flags fd 0).
Definition unmap (area : Z) : prog unit := print_int "munmap result: %d\n" (CMunmap area).

Definition errors (fd : Z) : prog unit :=
  printf 1 "\n=========================Some Error Handling==============================\n" [] ;;
  printf 1 "The mmap results are like these...\n" [] ;;
  print_int "address is not page-aligned: %d\n" (CMmap 3 8192 PROT_READ MAP_POPULATE fd 0) ;;
  print_int "length is not page-aligned: %d\n" (CMmap 0 235 PROT_READ MAP_POPULATE fd 0) ;;
  print_int "offset is negative: %d\n" (CMmap 0 8192 PROT_READ MAP_POPULATE fd (-3)) ;;
  print_int "length is 0: %d\n" (CMmap 0 0 PROT_READ MAP_POPULATE fd 0) ;;
  print_int "prot is invalid: %d\n" (CMmap 0 8192 0 MAP_POPULATE fd 0) ;;
  print_int "not anonymous but fd is negative: %d\n" (CMmap 3 8192 PROT_READ MAP_POPULATE (-1) 0).

Definition populated (fd : Z) : prog unit :=
  printf 1 "\n=================Private file mapping with MAP_POPULATE===================\n" [] ;;
  free_now ;;
  area ← map_file PROT_READ MAP_POPULATE fd;
  print_four four area ;;
  print_free "free memory number after mmap: %d\n" ;;
  unmap area ;;
  print_free "free memory number after munmap: %d\n".

Definition anonymous (fuel : nat) : prog unit :=
  printf 1 "\n============Private anonymous file mapping with MAP_POPULATE==============\n" [] ;;
  free_now ;;
  area ← map_file (Z.lor PROT_READ PROT_WRITE) (Z.lor MAP_POPULATE MAP_ANONYMOUS) (-1);
  sys (CStore area 1 103) ;;
  sys (CStore (u32 (area + 1)) 1 111) ;;
  sys (CStore (u32 (area + 2)) 1 111) ;;
  sys (CStore (u32 (area + 3)) 1 100) ;;
  printf 1 "mmap result: " [] ;; print_at fuel area ;; printf 1 "\n" [] ;;
  free_now ;;
  unmap area.

Definition on_demand (fd : Z) : prog unit :=
  printf 1 "\n===============Private file mapping without MAP_POPULATE==================\n" [] ;;
  free_now ;;
  area ← map_file PROT_READ 0 fd;
  print_four four area ;;
  free_now ;;
  unmap area ;;
  free_now.

Definition forked (fd : Z) : prog unit :=
  printf 1 "\n===============================fork=======================================\n" [] ;;
  free_now ;;
  area ← map_file (Z.lor PROT_READ PROT_WRITE) MAP_POPULATE fd;
  sys (CStore area 1 68) ;;
  print_four four2 area ;;
  print_free "free memory number before wait: %d\n" ;;
  pid ← sys CFork;
  if pid =? 0 then
    print_free "free memory number of child: %d\n" ;;
    printf 1 "child's mapped area and parent's are same" [] ;;
    print_four "child result (first four letters): %c%c%c%c\n" area ;;
    sys (CStore area 1 70) ;;
    print_four "changed child result (first four letters): %c%c%c%c\n\n" area ;;
    unmap area ;;
    Exit
  else
    sys CWait ;;
    printf 1 "Even though the child mapped area is changed, parent is not changed!\n" [] ;;
    print_free "free memory number of parent: %d\n" ;;
    print_four "parent result (first four letters): %c%c%c%c\n" area ;;
    unmap area.

Definition protected (fd : Z) : prog unit :=
  printf 1 "\n==========================Write with PROT_WRITE============================\n" [] ;;
  free_now ;;
  area ← map_file (Z.lor PROT_READ PROT_WRITE) MAP_POPULATE fd;
  printf 1 "Write with PROT_WRITE\n" [] ;;
  sys (CStore area 1 70) ;;
  print_four four2 area ;;
  unmap area ;;
  printf 1 "\n=======================Write without PROT_WRITE============================\n\n" [] ;;
  free_now ;;
  area ← map_file PROT_READ MAP_POPULATE fd;
  print_four four2 area ;;
  printf 1 "Write without PROT_WRITE (there will be page fault)\n" [] ;;
  sys (CStore area 1 70) ;;
  unmap area ;;
  free_now ;;
  printf 1 "==========================================================================\n" [].

Definition main (fuel : nat) : prog unit :=
  printf 1 "=========================Initial Free Memory==============================\n" [] ;;
  free_now ;;
  fd ← sys (COpen (bytes_of "README") 2);
  errors fd ;;
  populated fd ;;
  anonymous fuel ;;
  on_demand fd ;;
  forked fd ;;
  protected fd ;;
  Exit.
End Mytest.
