(* ===== verification/Usertests.v ===== *)
(** * The test program (usertests.c)

    Each test is a program of system calls.  The global buffer [buf] is passed
    from test to test, since some write what an earlier one left in it; [fuel]
    bounds the loops that read until a call says stop.  A test that finds
    something wrong says so and exits. *)
From S2P Require Import Prelude Bytes Console Fs User Ulib.

Open Scope Z_scope.

(** ** The calls as C has them *)
Definition fork : prog Z := sys CFork.
Definition wait : prog Z := sys CWait.
Definition open (path : string) (mode : Z) : prog Z := sys (COpen (bytes_of path) mode).
Definition close (fd : Z) : prog unit := sys (CClose fd) ;; mret tt.
Definition unlink (path : string) : prog Z := sys (CUnlink (bytes_of path)).
Definition link (old new : string) : prog Z := sys (CLink (bytes_of old) (bytes_of new)).
Definition mkdir (path : string) : prog Z := sys (CMkdir (bytes_of path)).
Definition chdir (path : string) : prog Z := sys (CChdir (bytes_of path)).
Definition write (fd : Z) (b : bytes) : prog Z := sys (CWrite fd b).
Definition sbrk (n : Z) : prog Z := r ← sys (CSbrk (s32 n)); mret (u32 r).
Definition say (msg : string) : prog unit := printf 1 msg [].
Definition CREATE_RDWR : Z := Z.lor O_CREATE O_RDWR.

(** [if(call ...){ printf(1, msg); exit(); }] *)
Definition exit_if (bad : Z -> bool) (p : prog Z) (msg : string) : prog unit :=
  r ← p; if bad r then say msg ;; Exit else mret tt.
Definition neg (r : Z) : bool := r <? 0.
Definition nonneg (r : Z) : bool := 0 <=? r.
Definition zero (r : Z) : bool := r =? 0.
Definition nonzero (r : Z) : bool := negb (r =? 0).
Definition not (n r : Z) : bool := negb (r =? n).
(** The descriptor of a file that must open. *)
Definition must_open (path : string) (mode : Z) (msg : string) : prog Z :=
  fd ← open path mode; if fd <? 0 then say msg ;; Exit else mret fd.

(** Bytes stored at the start of a buffer; a read into it; [memset] on it. *)
Definition over (b buf : bytes) : bytes := b ++ drop (length b) buf.
Definition read_into (fd n : Z) (buf : bytes) : prog (Z * bytes) :=
  r ← sys (CRead fd n); let '(n, b) := r in mret (n, over b buf).
Definition fill (c : Z) (n : nat) (buf : bytes) : bytes := over (replicate n (u8 c)) buf.
Definition BUF : Z := 8192.
(** A byte as a signed char. *)
Definition s8 (x : Z) : Z := if x <? 128 then x else x - 256.

(** [for(i = lo; i < hi; i += step)] with a state. *)
Fixpoint for_loop {S} (fuel : nat) (i hi step : Z) (f : Z -> S -> prog S) (s : S) : prog S :=
  match fuel with
  | O => Spin
  | Datatypes.S fuel => if i <? hi then s ← f i s; for_loop fuel (i + step) hi step f s else mret s
  end.
Definition for_st {S} (lo hi step : Z) (f : Z -> S -> prog S) (s : S) : prog S :=
  for_loop (Z.to_nat (hi - lo) + 1) lo hi step f s.
Definition for_to (hi : Z) (f : Z -> prog unit) : prog unit := for_st 0 hi 1 (fun i _ => f i) tt.

(** ** Inodes freed by chdir, exit and open *)
Definition iputtest : prog unit :=
  say "iput test\n" ;;
  exit_if neg (mkdir "iputdir") "mkdir failed\n" ;;
  exit_if neg (chdir "iputdir") "chdir iputdir failed\n" ;;
  exit_if neg (unlink "../iputdir") "unlink ../iputdir failed\n" ;;
  exit_if neg (chdir "/") "chdir / failed\n" ;;
  say "iput test ok\n".

Definition exitiputtest : prog unit :=
  say "exitiput test\n" ;;
  pid ← fork;
  (if pid <? 0 then say "fork failed\n" ;; Exit else mret tt) ;;
  (if pid =? 0 then
     exit_if neg (mkdir "iputdir") "mkdir failed\n" ;;
     exit_if neg (chdir "iputdir") "child chdir failed\n" ;;
     exit_if neg (unlink "../iputdir") "unlink ../iputdir failed\n" ;;
     Exit
   else mret tt) ;;
  wait ;;
  say "exitiput test ok\n".

Definition openiputtest : prog unit :=
  say "openiput test\n" ;;
  exit_if neg (mkdir "oidir") "mkdir oidir failed\n" ;;
  pid ← fork;
  (if pid <? 0 then say "fork failed\n" ;; Exit else mret tt) ;;
  (if pid =? 0 then
     fd ← open "oidir" O_RDWR;
     (if 0 <=? fd then say "open directory for write succeeded\n" ;; Exit else mret tt) ;;
     Exit
   else mret tt) ;;
  sys (CSleep 1) ;;
  exit_if nonzero (unlink "oidir") "unlink failed\n" ;;
  wait ;;
  say "openiput test ok\n".

(** ** Simple file system tests *)
Definition opentest : prog unit :=
  say "open test\n" ;;
  fd ← must_open "echo" 0 "open echo failed!\n";
  close fd ;;
  exit_if nonneg (open "doesnotexist" 0) "open doesnotexist succeeded!\n" ;;
  say "open test ok\n".

Definition writetest (buf : bytes) : prog bytes :=
  say "small file test\n" ;;
  fd ← open "small" CREATE_RDWR;
  (if 0 <=? fd then say "creat small succeeded; ok\n" else say "error: creat small failed!\n" ;; Exit) ;;
  for_to 100 (fun i =>
    r ← write fd (bytes_of "aaaaaaaaaa");
    (if not 10 r then printf 1 "error: write aa %d new file failed\n" [CInt i] ;; Exit else mret tt) ;;
    r ← write fd (bytes_of "bbbbbbbbbb");
    if not 10 r then printf 1 "error: write bb %d new file failed\n" [CInt i] ;; Exit else mret tt) ;;
  say "writes ok\n" ;;
  close fd ;;
  fd ← open "small" O_RDONLY;
  (if 0 <=? fd then say "open small succeeded ok\n" else say "error: open small failed!\n" ;; Exit) ;;
  r ← read_into fd 2000 buf; let '(i, buf) := r in
  (if i =? 2000 then say "read succeeded ok\n" else say "read failed\n" ;; Exit) ;;
  close fd ;;
  exit_if neg (unlink "small") "unlink small failed\n" ;;
  say "small file test ok\n" ;;
  mret buf.

(** The blocks of the file hold their numbers, from [n] on. *)
Fixpoint writetest1_read (fuel : nat) (fd n : Z) (buf : bytes) : prog bytes :=
  match fuel with
  | O => Spin
  | S fuel =>
      r ← read_into fd 512 buf; let '(i, buf) := r in
      if i =? 0 then
        if n =? MAXFILE - 1 then printf 1 "read only %d blocks from big" [CInt n] ;; Exit
        else mret buf
      else if negb (i =? 512) then printf 1 "read failed %d\n" [CInt i] ;; Exit
      else if negb (s32 (get32 buf 0) =? n) then
        printf 1 "read content of block %d is %d\n" [CInt n; CInt (s32 (get32 buf 0))] ;; Exit
      else writetest1_read fuel fd (n + 1) buf
  end.
Definition writetest1 (fuel : nat) (buf : bytes) : prog bytes :=
  say "big files test\n" ;;
  fd ← must_open "big" CREATE_RDWR "error: creat big failed!\n";
  buf ← for_st 0 MAXFILE 1 (fun i buf =>
    let buf := put32 buf 0 i in
    exit_if (not 512) (write fd (take 512 buf)) "error: write big file failed\n" ;;
    mret buf) buf;
  close fd ;;
  fd ← must_open "big" O_RDONLY "error: open big failed!\n";
  buf ← writetest1_read fuel fd 0 buf;
  close fd ;;
  exit_if neg (unlink "big") "unlink big failed\n" ;;
  say "big files ok\n" ;;
  mret buf.

Definition createtest : prog unit :=
  say "many creates, followed by unlink test\n" ;;
  for_to 52 (fun i => fd ← sys (COpen [97; 48 + i] CREATE_RDWR); close fd) ;;
  for_to 52 (fun i => sys (CUnlink [97; 48 + i]) ;; mret tt) ;;
  say "many creates, followed by unlink; ok\n".

Definition dirtest : prog unit :=
  say "mkdir test\n" ;;
  exit_if neg (mkdir "dir0") "mkdir failed\n" ;;
  exit_if neg (chdir "dir0") "chdir dir0 failed\n" ;;
  exit_if neg (chdir "..") "chdir .. failed\n" ;;
  exit_if neg (unlink "dir0") "unlink dir0 failed\n" ;;
  say "mkdir test ok\n".

Definition echoargv : list bytes := bytes_of <$> ["echo"; "ALL"; "TESTS"; "PASSED"].
Definition exectest : prog unit :=
  say "exec test\n" ;;
  exit_if neg (sys (CExec (bytes_of "echo") echoargv)) "exec echo failed\n".

(** ** Pipes and processes *)
(** [buf[i] = seq++] for [n] bytes, and the comparison of the other end. *)
Definition sequence (seq : Z) (n : nat) : bytes := (fun i => u8 (seq + i)) <$> seqZ 0 (Z.of_nat n).
Definition same_bytes (a b : bytes) : bool := bool_decide (a = b).
(** [None] when the test returns early; else the bytes read. *)
Fixpoint pipe1_read (fuel : nat) (fd seq cc total : Z) (buf : bytes) : prog (option Z * bytes) :=
  match fuel with
  | O => Spin
  | S fuel =>
      r ← read_into fd cc buf; let '(n, buf) := r in
      if 0 <? n then
        if negb (same_bytes (take (Z.to_nat n) buf) (sequence seq (Z.to_nat n))) then
          say "pipe1 oops 2\n" ;; mret (None, buf)
        else pipe1_read fuel fd (seq + n) (Z.min (cc * 2) BUF) (total + n) buf
      else mret (Some total, buf)
  end.
Definition pipe1 (fuel : nat) (buf : bytes) : prog bytes :=
  fds ← sys CPipe;
  match fds with
  | None => say "pipe() failed\n" ;; Exit
  | Some (rfd, wfd) =>
      pid ← fork;
      if pid =? 0 then
        close rfd ;;
        for_st 0 5 1 (fun n '(seq, buf) =>
          let buf := over (sequence seq 1033) buf in
          exit_if (not 1033) (write wfd (take 1033 buf)) "pipe1 oops 1\n" ;;
          mret (seq + 1033, buf)) (0, buf) ;;
        Exit
      else if 0 <? pid then
        close wfd ;;
        r ← pipe1_read fuel rfd 0 1 0 buf;
        match r with
        | (None, buf) => mret buf
        | (Some total, buf) =>
            (if negb (total =? 5 * 1033) then printf 1 "pipe1 oops 3 total %d\n" [CInt total] ;; Exit else mret tt) ;;
            close rfd ;;
            wait ;;
            say "pipe1 ok\n" ;;
            mret buf
        end
      else say "fork() failed\n" ;; Exit
  end.

(** A child that loops until it is killed. *)
Definition spinner : prog Z := pid ← fork; if pid =? 0 then Spin else mret pid.
Definition preempt (buf : bytes) : prog bytes :=
  say "preempt: " ;;
  pid1 ← spinner;
  pid2 ← spinner;
  pfds ← sys CPipe;
  match pfds with
  | None => Stuck "pfds is not initialised"
  | Some (rfd, wfd) =>
      pid3 ← fork;
      (if pid3 =? 0 then
         close rfd ;;
         n ← write wfd (bytes_of "x");
         (if not 1 n then say "preempt write error" else mret tt) ;;
         close wfd ;;
         Spin
       else mret tt) ;;
      close wfd ;;
      r ← read_into rfd BUF buf; let '(n, buf) := r in
      if not 1 n then say "preempt read error" ;; mret buf
      else
        close rfd ;;
        say "kill... " ;;
        sys (CKill pid1) ;; sys (CKill pid2) ;; sys (CKill pid3) ;;
        say "wait... " ;;
        wait ;; wait ;; wait ;;
        say "preempt ok\n" ;;
        mret buf
  end.

Fixpoint exitwait_loop (rounds : nat) : prog unit :=
  match rounds with
  | O => say "exitwait ok\n"
  | S rounds =>
      pid ← fork;
      if pid <? 0 then say "fork failed\n"
      else if negb (pid =? 0) then
        w ← wait;
        if negb (w =? pid) then say "wait wrong pid\n" else exitwait_loop rounds
      else Exit
  end.
Definition exitwait : prog unit := exitwait_loop 100.

(** All the memory there is, linked through its first words. *)
Fixpoint take_all (fuel : nat) (m1 : Z) : prog Z :=
  match fuel with
  | O => Spin
  | S fuel =>
      m2 ← sys (CMalloc 10001);
      if m2 =? 0 then mret m1 else sys (CStore m2 4 m1) ;; take_all fuel m2
  end.
Fixpoint free_all (fuel : nat) (m1 : Z) : prog unit :=
  match fuel with
  | O => Spin
  | S fuel =>
      if m1 =? 0 then mret tt
      else m2 ← sys (CLoad m1 4); sys (CFree m1) ;; free_all fuel m2
  end.
Definition mem (fuel : nat) : prog unit :=
  say "mem test\n" ;;
  ppid ← sys CGetpid;
  pid ← fork;
  if pid =? 0 then
    m1 ← take_all fuel 0;
    free_all fuel m1 ;;
    m1 ← sys (CMalloc (1024 * 20));
    (if m1 =? 0 then say "couldn't allocate mem?!!\n" ;; sys (CKill ppid) ;; Exit else mret tt) ;;
    sys (CFree m1) ;;
    say "mem ok\n" ;;
    Exit
  else wait ;; mret tt.

(** ** Files shared by processes *)
Fixpoint shared_writes (rounds : nat) (fd : Z) (buf : bytes) : prog unit :=
  match rounds with
  | O => mret tt
  | S rounds =>
      r ← write fd buf;
      if not 10 r then say "fstests: write sharedfd failed\n" else shared_writes rounds fd buf
  end.
Definition count_of (c : Z) (buf : bytes) : Z := Z.of_nat (length (filter (fun x => x = c) buf)).
(** All ten bytes of the buffer are counted, whatever the read's length. *)
Fixpoint shared_reads (fuel : nat) (fd : Z) (buf : bytes) (nc np : Z) : prog (Z * Z) :=
  match fuel with
  | O => Spin
  | S fuel =>
      r ← read_into fd 10 buf; let '(n, buf) := r in
      if 0 <? n then shared_reads fuel fd buf (nc + count_of 99 buf) (np + count_of 112 buf) else mret (nc, np)
  end.
Definition sharedfd (fuel : nat) : prog unit :=
  say "sharedfd test\n" ;;
  unlink "sharedfd" ;;
  fd ← open "sharedfd" CREATE_RDWR;
  if fd <? 0 then say "fstests: cannot open sharedfd for writing"
  else
    pid ← fork;
    let buf := replicate 10 (if pid =? 0 then 99 else 112) in
    shared_writes 1000 fd buf ;;
    (if pid =? 0 then Exit else wait) ;;
    close fd ;;
    fd ← open "sharedfd" 0;
    if fd <? 0 then say "fstests: cannot open sharedfd for reading\n"
    else
      r ← shared_reads fuel fd buf 0 0; let '(nc, np) := r in
      close fd ;;
      unlink "sharedfd" ;;
      if (nc =? 10000) && (np =? 10000) then say "sharedfd ok\n"
      else printf 1 "sharedfd oops %d %d\n" [CInt nc; CInt np] ;; Exit.

(** The length of a file whose bytes must all be [c]. *)
Fixpoint all_are (fuel : nat) (fd c total : Z) (buf : bytes) : prog (Z * bytes) :=
  match fuel with
  | O => Spin
  | S fuel =>
      r ← read_into fd BUF buf; let '(n, buf) := r in
      if 0 <? n then
        if negb (forallb (Z.eqb c) (take (Z.to_nat n) buf)) then say "wrong char\n" ;; Exit
        else all_are fuel fd c (total + n) buf
      else mret (total, buf)
  end.
Definition fourfiles (fuel : nat) (buf : bytes) : prog bytes :=
  let fname i := [102; 48 + i] in
  say "fourfiles test\n" ;;
  for_to 4 (fun pi =>
    sys (CUnlink (fname pi)) ;;
    pid ← fork;
    (if pid <? 0 then say "fork failed\n" ;; Exit else mret tt) ;;
    if pid =? 0 then
      fd ← sys (COpen (fname pi) CREATE_RDWR);
      (if fd <? 0 then say "create failed\n" ;; Exit else mret tt) ;;
      let buf := fill (48 + pi) 512 buf in
      for_to 12 (fun _ =>
        n ← write fd (take 500 buf);
        if not 500 n then printf 1 "write failed %d\n" [CInt n] ;; Exit else mret tt) ;;
      Exit
    else mret tt) ;;
  for_to 4 (fun _ => wait ;; mret tt) ;;
  buf ← for_st 0 2 1 (fun i buf =>
    fd ← sys (COpen (fname i) 0);
    r ← all_are fuel fd (48 + i) 0 buf; let '(total, buf) := r in
    close fd ;;
    (if negb (total =? 12 * 500) then printf 1 "wrong length %d\n" [CInt total] ;; Exit else mret tt) ;;
    sys (CUnlink (fname i)) ;;
    mret buf) buf;
  say "fourfiles ok\n" ;;
  mret buf.

Definition createdelete : prog unit :=
  let N := 20 in
  say "createdelete test\n" ;;
  for_to 4 (fun pi =>
    pid ← fork;
    (if pid <? 0 then say "fork failed\n" ;; Exit else mret tt) ;;
    if pid =? 0 then
      for_to N (fun i =>
        fd ← sys (COpen [112 + pi; 48 + i] CREATE_RDWR);
        (if fd <? 0 then say "create failed\n" ;; Exit else mret tt) ;;
        close fd ;;
        if (0 <? i) && (i mod 2 =? 0) then exit_if neg (sys (CUnlink [112 + pi; 48 + i / 2])) "unlink failed\n"
        else mret tt) ;;
      Exit
    else mret tt) ;;
  for_to 4 (fun _ => wait ;; mret tt) ;;
  for_to N (fun i => for_to 4 (fun pi =>
    let name := [112 + pi; 48 + i] in
    fd ← sys (COpen name 0);
    (if ((i =? 0) || (N / 2 <=? i)) && (fd <? 0) then
       printf 1 "oops createdelete %s didn't exist\n" [CStr (Some name)] ;; Exit
     else if (1 <=? i) && (i <? N / 2) && (0 <=? fd) then
       printf 1 "oops createdelete %s did exist\n" [CStr (Some name)] ;; Exit
     else mret tt) ;;
    if 0 <=? fd then close fd else mret tt)) ;;
  for_to N (fun i => for_to 4 (fun pi => sys (CUnlink [112 + i; 48 + i]) ;; mret tt)) ;;
  say "createdelete ok\n".

(** ** Links and names *)
Definition unlinkread (buf : bytes) : prog bytes :=
  say "unlinkread test\n" ;;
  fd ← must_open "unlinkread" CREATE_RDWR "create unlinkread failed\n";
  write fd (bytes_of "hello") ;;
  close fd ;;
  fd ← must_open "unlinkread" O_RDWR "open unlinkread failed\n";
  exit_if nonzero (unlink "unlinkread") "unlink unlinkread failed\n" ;;
  fd1 ← open "unlinkread" CREATE_RDWR;
  write fd1 (bytes_of "yyy") ;;
  close fd1 ;;
  r ← read_into fd BUF buf; let '(n, buf) := r in
  (if not 5 n then say "unlinkread read failed" ;; Exit else mret tt) ;;
  (if not 104 (getb buf 0) then say "unlinkread wrong data\n" ;; Exit else mret tt) ;;
  exit_if (not 10) (write fd (take 10 buf)) "unlinkread write failed\n" ;;
  close fd ;;
  unlink "unlinkread" ;;
  say "unlinkread ok\n" ;;
  mret buf.

Definition linktest (buf : bytes) : prog bytes :=
  say "linktest\n" ;;
  unlink "lf1" ;;
  unlink "lf2" ;;
  fd ← must_open "lf1" CREATE_RDWR "create lf1 failed\n";
  exit_if (not 5) (write fd (bytes_of "hello")) "write lf1 failed\n" ;;
  close fd ;;
  exit_if neg (link "lf1" "lf2") "link lf1 lf2 failed\n" ;;
  unlink "lf1" ;;
  exit_if nonneg (open "lf1" 0) "unlinked lf1 but it is still there!\n" ;;
  fd ← must_open "lf2" 0 "open lf2 failed\n";
  r ← read_into fd BUF buf; let '(n, buf) := r in
  (if not 5 n then say "read lf2 failed\n" ;; Exit else mret tt) ;;
  close fd ;;
  exit_if nonneg (link "lf2" "lf2") "link lf2 lf2 succeeded! oops\n" ;;
  unlink "lf2" ;;
  exit_if nonneg (link "lf2" "lf1") "link non-existant succeeded! oops\n" ;;
  exit_if nonneg (link "." "lf1") "link . lf1 succeeded! oops\n" ;;
  say "linktest ok\n" ;;
  mret buf.

(** The directory's files of two characters, C first: the second characters seen
    so far and their number. *)
Fixpoint concreate_list (fuel : nat) (fd : Z) (de : bytes) (fa : list bool) (n : Z) : prog Z :=
  match fuel with
  | O => Spin
  | S fuel =>
      r ← read_into fd 16 de; let '(cc, de) := r in
      if 0 <? cc then
        let name := drop 2 de in
        if (get16 de 0 =? 0) then concreate_list fuel fd de fa n
        else if (getb name 0 =? 67) && (getb name 2 =? 0) then
          let i := s8 (getb name 1) - 48 in
          let shown := [CStr (Some (take (if getb name 1 =? 0 then 1 else 2) name))] in
          if (i <? 0) || (40 <=? i) then printf 1 "concreate weird file %s\n" shown ;; Exit
          else if default false (fa !! Z.to_nat i) then printf 1 "concreate duplicate file %s\n" shown ;; Exit
          else concreate_list fuel fd de (<[Z.to_nat i := true]> fa) (n + 1)
        else concreate_list fuel fd de fa n
      else mret n
  end.
Definition four_times (p : prog unit) : prog unit := p ;; p ;; p ;; p.
Definition concreate (fuel : nat) : prog unit :=
  let file i := [67; 48 + i] in
  say "concreate test\n" ;;
  for_to 40 (fun i =>
    sys (CUnlink (file i)) ;;
    pid ← fork;
    (if (nonzero pid && (i mod 3 =? 1)) || ((pid =? 0) && (i mod 5 =? 1)) then
       sys (CLink (file 0) (file i)) ;; mret tt
     else
       fd ← sys (COpen (file i) CREATE_RDWR);
       (if fd <? 0 then printf 1 "concreate create %s failed\n" [CStr (Some (file i))] ;; Exit else mret tt) ;;
       close fd) ;;
    if pid =? 0 then Exit else wait ;; mret tt) ;;
  fd ← open "." 0;
  n ← concreate_list fuel fd (replicate 16 0) (replicate 40 false) 0;
  close fd ;;
  (if not 40 n then say "concreate not enough files in directory listing\n" ;; Exit else mret tt) ;;
  for_to 40 (fun i =>
    pid ← fork;
    (if pid <? 0 then say "fork failed\n" ;; Exit else mret tt) ;;
    (if ((i mod 3 =? 0) && (pid =? 0)) || ((i mod 3 =? 1) && nonzero pid) then
       four_times (fd ← sys (COpen (file i) 0); close fd)
     else four_times (sys (CUnlink (file i)) ;; mret tt)) ;;
    if pid =? 0 then Exit else wait ;; mret tt) ;;
  say "concreate ok\n".

Definition linkunlink : prog unit :=
  say "linkunlink test\n" ;;
  unlink "x" ;;
  pid ← fork;
  (if pid <? 0 then say "fork failed\n" ;; Exit else mret tt) ;;
  for_st 0 100 1 (fun i x =>
    let x := u32 (x * 1103515245 + 12345) in
    (if x mod 3 =? 0 then fd ← open "x" CREATE_RDWR; close fd
     else if x mod 3 =? 1 then link "cat" "x" ;; mret tt
     else unlink "x" ;; mret tt) ;;
    mret x) (if pid =? 0 then 97 else 1) ;;
  (if nonzero pid then wait else Exit) ;;
  say "linkunlink ok\n".

Definition bigdir : prog unit :=
  let name i := [120; 48 + i / 64; 48 + i mod 64] in
  say "bigdir test\n" ;;
  unlink "bd" ;;
  fd ← must_open "bd" O_CREATE "bigdir create failed\n";
  close fd ;;
  for_to 500 (fun i => exit_if nonzero (sys (CLink (bytes_of "bd") (name i))) "bigdir link failed\n") ;;
  unlink "bd" ;;
  for_to 500 (fun i => exit_if nonzero (sys (CUnlink (name i))) "bigdir unlink failed") ;;
  say "bigdir ok\n".

Definition subdir (buf : bytes) : prog bytes :=
  say "subdir test\n" ;;
  unlink "ff" ;;
  exit_if nonzero (mkdir "dd") "subdir mkdir dd failed\n" ;;
  fd ← must_open "dd/ff" CREATE_RDWR "create dd/ff failed\n";
  write fd (bytes_of "ff") ;;
  close fd ;;
  exit_if nonneg (unlink "dd") "unlink dd (non-empty dir) succeeded!\n" ;;
  exit_if nonzero (mkdir "/dd/dd") "subdir mkdir dd/dd failed\n" ;;
  fd ← must_open "dd/dd/ff" CREATE_RDWR "create dd/dd/ff failed\n";
  write fd (bytes_of "FF") ;;
  close fd ;;
  fd ← must_open "dd/dd/../ff" 0 "open dd/dd/../ff failed\n";
  r ← read_into fd BUF buf; let '(cc, buf) := r in
  (if not 2 cc || not 102 (getb buf 0) then say "dd/dd/../ff wrong content\n" ;; Exit else mret tt) ;;
  close fd ;;
  exit_if nonzero (link "dd/dd/ff" "dd/dd/ffff") "link dd/dd/ff dd/dd/ffff failed\n" ;;
  exit_if nonzero (unlink "dd/dd/ff") "unlink dd/dd/ff failed\n" ;;
  exit_if nonneg (open "dd/dd/ff" O_RDONLY) "open (unlinked) dd/dd/ff succeeded\n" ;;
  exit_if nonzero (chdir "dd") "chdir dd failed\n" ;;
  exit_if nonzero (chdir "dd/../../dd") "chdir dd/../../dd failed\n" ;;
  exit_if nonzero (chdir "dd/../../../dd") "chdir dd/../../dd failed\n" ;;
  exit_if nonzero (chdir "./..") "chdir ./.. failed\n" ;;
  fd ← must_open "dd/dd/ffff" 0 "open dd/dd/ffff failed\n";
  r ← read_into fd BUF buf; let '(cc, buf) := r in
  (if not 2 cc then say "read dd/dd/ffff wrong len\n" ;; Exit else mret tt) ;;
  close fd ;;
  exit_if nonneg (open "dd/dd/ff" O_RDONLY) "open (unlinked) dd/dd/ff succeeded!\n" ;;
  exit_if nonneg (open "dd/ff/ff" CREATE_RDWR) "create dd/ff/ff succeeded!\n" ;;
  exit_if nonneg (open "dd/xx/ff" CREATE_RDWR) "create dd/xx/ff succeeded!\n" ;;
  exit_if nonneg (open "dd" O_CREATE) "create dd succeeded!\n" ;;
  exit_if nonneg (open "dd" O_RDWR) "open dd rdwr succeeded!\n" ;;
  exit_if nonneg (open "dd" O_WRONLY) "open dd wronly succeeded!\n" ;;
  exit_if zero (link "dd/ff/ff" "dd/dd/xx") "link dd/ff/ff dd/dd/xx succeeded!\n" ;;
  exit_if zero (link "dd/xx/ff" "dd/dd/xx") "link dd/xx/ff dd/dd/xx succeeded!\n" ;;
  exit_if zero (link "dd/ff" "dd/dd/ffff") "link dd/ff dd/dd/ffff succeeded!\n" ;;
  exit_if zero (mkdir "dd/ff/ff") "mkdir dd/ff/ff succeeded!\n" ;;
  exit_if zero (mkdir "dd/xx/ff") "mkdir dd/xx/ff succeeded!\n" ;;
  exit_if zero (mkdir "dd/dd/ffff") "mkdir dd/dd/ffff succeeded!\n" ;;
  exit_if zero (unlink "dd/xx/ff") "unlink dd/xx/ff succeeded!\n" ;;
  exit_if zero (unlink "dd/ff/ff") "unlink dd/ff/ff succeeded!\n" ;;
  exit_if zero (chdir "dd/ff") "chdir dd/ff succeeded!\n" ;;
  exit_if zero (chdir "dd/xx") "chdir dd/xx succeeded!\n" ;;
  exit_if nonzero (unlink "dd/dd/ffff") "unlink dd/dd/ff failed\n" ;;
  exit_if nonzero (unlink "dd/ff") "unlink dd/ff failed\n" ;;
  exit_if zero (unlink "dd") "unlink non-empty dd succeeded!\n" ;;
  exit_if neg (unlink "dd/dd") "unlink dd/dd failed\n" ;;
  exit_if neg (unlink "dd") "unlink dd failed\n" ;;
  say "subdir ok\n" ;;
  mret buf.

(** ** Large writes and files *)
Definition bigwrite (buf : bytes) : prog unit :=
  say "bigwrite test\n" ;;
  unlink "bigwrite" ;;
  for_st 499 (12 * 512) 471 (fun sz _ =>
    fd ← must_open "bigwrite" CREATE_RDWR "cannot create bigwrite\n";
    for_to 2 (fun _ =>
      cc ← write fd (take (Z.to_nat sz) buf);
      if not sz cc then printf 1 "write(%d) ret %d\n" [CInt sz; CInt cc] ;; Exit else mret tt) ;;
    close fd ;;
    unlink "bigwrite" ;;
    mret tt) tt ;;
  say "bigwrite ok\n".

Fixpoint bigfile_read (fuel : nat) (fd i total : Z) (buf : bytes) : prog (Z * bytes) :=
  match fuel with
  | O => Spin
  | S fuel =>
      r ← read_into fd 300 buf; let '(cc, buf) := r in
      if cc <? 0 then say "read bigfile failed\n" ;; Exit
      else if cc =? 0 then mret (total, buf)
      else if not 300 cc then say "short read bigfile\n" ;; Exit
      else if not (i / 2) (getb buf 0) || not (i / 2) (getb buf 299) then say "read bigfile wrong data\n" ;; Exit
      else bigfile_read fuel fd (i + 1) (total + cc) buf
  end.
Definition bigfile (fuel : nat) (buf : bytes) : prog bytes :=
  say "bigfile test\n" ;;
  unlink "bigfile" ;;
  fd ← must_open "bigfile" CREATE_RDWR "cannot create bigfile";
  buf ← for_st 0 20 1 (fun i buf =>
    let buf := fill i 600 buf in
    exit_if (not 600) (write fd (take 600 buf)) "write bigfile failed\n" ;;
    mret buf) buf;
  close fd ;;
  fd ← must_open "bigfile" 0 "cannot open bigfile\n";
  r ← bigfile_read fuel fd 0 0 buf; let '(total, buf) := r in
  close fd ;;
  (if not (20 * 600) total then say "read bigfile wrong total\n" ;; Exit else mret tt) ;;
  unlink "bigfile" ;;
  say "bigfile test ok\n" ;;
  mret buf.

Definition fourteen : prog unit :=
  say "fourteen test\n" ;;
  exit_if nonzero (mkdir "12345678901234") "mkdir 12345678901234 failed\n" ;;
  exit_if nonzero (mkdir "12345678901234/123456789012345") "mkdir 12345678901234/123456789012345 failed\n" ;;
  fd ← must_open "123456789012345/123456789012345/123456789012345" O_CREATE
         "create 123456789012345/123456789012345/123456789012345 failed\n";
  close fd ;;
  fd ← must_open "12345678901234/12345678901234/12345678901234" 0
         "open 12345678901234/12345678901234/12345678901234 failed\n";
  close fd ;;
  exit_if zero (mkdir "12345678901234/12345678901234") "mkdir 12345678901234/12345678901234 succeeded!\n" ;;
  exit_if zero (mkdir "123456789012345/12345678901234") "mkdir 12345678901234/123456789012345 succeeded!\n" ;;
  say "fourteen ok\n".

Definition rmdot : prog unit :=
  say "rmdot test\n" ;;
  exit_if nonzero (mkdir "dots") "mkdir dots failed\n" ;;
  exit_if nonzero (chdir "dots") "chdir dots failed\n" ;;
  exit_if zero (unlink ".") "rm . worked!\n" ;;
  exit_if zero (unlink "..") "rm .. worked!\n" ;;
  exit_if nonzero (chdir "/") "chdir / failed\n" ;;
  exit_if zero (unlink "dots/.") "unlink dots/. worked!\n" ;;
  exit_if zero (unlink "dots/..") "unlink dots/.. worked!\n" ;;
  exit_if nonzero (unlink "dots") "unlink dots failed!\n" ;;
  say "rmdot ok\n".

Definition dirfile : prog unit :=
  say "dir vs file\n" ;;
  fd ← must_open "dirfile" O_CREATE "create dirfile failed\n";
  close fd ;;
  exit_if zero (chdir "dirfile") "chdir dirfile succeeded!\n" ;;
  exit_if nonneg (open "dirfile/xx" 0) "create dirfile/xx succeeded!\n" ;;
  exit_if nonneg (open "dirfile/xx" O_CREATE) "create dirfile/xx succeeded!\n" ;;
  exit_if zero (mkdir "dirfile/xx") "mkdir dirfile/xx succeeded!\n" ;;
  exit_if zero (unlink "dirfile/xx") "unlink dirfile/xx succeeded!\n" ;;
  exit_if zero (link "README" "dirfile/xx") "link to dirfile/xx succeeded!\n" ;;
  exit_if nonzero (unlink "dirfile") "unlink dirfile failed!\n" ;;
  exit_if nonneg (open "." O_RDWR) "open . for writing succeeded!\n" ;;
  fd ← open "." 0;
  exit_if (Z.ltb 0) (write fd (bytes_of "x")) "write . succeeded!\n" ;;
  close fd ;;
  say "dir vs file OK\n".

Definition create_close (path : string) : prog unit :=
  fd ← open path O_CREATE; if 0 <=? fd then close fd else mret tt.
Definition iref : prog unit :=
  say "empty file name\n" ;;
  for_to (50 + 1) (fun _ =>
    exit_if nonzero (mkdir "irefd") "mkdir irefd failed\n" ;;
    exit_if nonzero (chdir "irefd") "chdir irefd failed\n" ;;
    mkdir "" ;;
    link "README" "" ;;
    create_close "" ;;
    create_close "xx" ;;
    unlink "xx" ;;
    mret tt) ;;
  chdir "/" ;;
  say "empty file name OK\n".

(** ** fork, memory and arguments *)
Fixpoint fork_loop (rounds : nat) (n : Z) : prog Z :=
  match rounds with
  | O => mret n
  | S rounds =>
      pid ← fork;
      if pid <? 0 then mret n
      else if pid =? 0 then Exit
      else fork_loop rounds (n + 1)
  end.
Definition forktest : prog unit :=
  say "fork test\n" ;;
  n ← fork_loop 1000 0;
  (if n =? 1000 then say "fork claimed to work 1000 times!\n" ;; Exit else mret tt) ;;
  for_to n (fun _ => exit_if neg wait "wait stopped early\n") ;;
  exit_if (not (-1)) wait "wait got too many\n" ;;
  say "fork test OK\n".

Definition BIG : Z := 100 * 1024 * 1024.
Definition NOMEM : Z := 0xffffffff.
Definition KERNBASE : Z := 0x80000000.
Fixpoint sleep_forever (fuel : nat) : prog unit :=
  match fuel with
  | O => Spin
  | S fuel => sys (CSleep 1000) ;; sleep_forever fuel
  end.

(** Growing by single bytes, before and after a fork. *)
Definition sbrk_small : prog unit :=
  a ← sbrk 0;
  a ← for_st 0 5000 1 (fun i a =>
    b ← sbrk 1;
    (if negb (b =? a) then printf 1 "sbrk test failed %d %x %x\n" [CInt i; CInt a; CInt b] ;; Exit else mret tt) ;;
    sys (CStore b 1 1) ;;
    mret (u32 (b + 1))) a;
  pid ← fork;
  (if pid <? 0 then say "sbrk test fork failed\n" ;; Exit else mret tt) ;;
  sbrk 1 ;;
  c ← sbrk 1;
  (if negb (c =? u32 (a + 1)) then say "sbrk test failed post-fork\n" ;; Exit else mret tt) ;;
  (if pid =? 0 then Exit else mret tt) ;;
  wait ;;
  mret tt.

(** Growing to 100 megabytes and back. *)
Definition sbrk_big (oldbrk : Z) : prog unit :=
  a ← sbrk 0;
  p ← sbrk (u32 (BIG - a));
  (if negb (p =? a) then say "sbrk test failed to grow big address space; enough phys mem?\n" ;; Exit else mret tt) ;;
  let lastaddr := BIG - 1 in
  sys (CStore lastaddr 1 99) ;;
  a ← sbrk 0;
  c ← sbrk (-4096);
  (if c =? NOMEM then say "sbrk could not deallocate\n" ;; Exit else mret tt) ;;
  c ← sbrk 0;
  (if negb (c =? u32 (a - 4096)) then
     printf 1 "sbrk deallocation produced wrong address, a %x c %x\n" [CInt a; CInt c] ;; Exit
   else mret tt) ;;
  a ← sbrk 0;
  c ← sbrk 4096;
  bad ← (if negb (c =? a) then mret true else e ← sbrk 0; mret (negb (e =? u32 (a + 4096))));
  (if (bad : bool) then printf 1 "sbrk re-allocation failed, a %x c %x\n" [CInt a; CInt c] ;; Exit else mret tt) ;;
  x ← sys (CLoad lastaddr 1);
  (if x =? 99 then say "sbrk de-allocation didn't really deallocate\n" ;; Exit else mret tt) ;;
  a ← sbrk 0;
  e ← sbrk 0;
  c ← sbrk (- (e - oldbrk));
  if negb (c =? a) then printf 1 "sbrk downsize failed, a %x c %x\n" [CInt a; CInt c] ;; Exit else mret tt.

(** A child that reads the kernel's memory should not survive to say so. *)
Definition read_kernel : prog unit :=
  for_st KERNBASE (KERNBASE + 2000000) 50000 (fun a _ =>
    ppid ← sys CGetpid;
    pid ← fork;
    (if pid <? 0 then say "fork failed\n" ;; Exit else mret tt) ;;
    (if pid =? 0 then
       x ← sys (CLoad a 1);
       printf 1 "oops could read %x = %x\n" [CInt a; CInt (s8 x)] ;;
       sys (CKill ppid) ;;
       Exit
     else mret tt) ;;
    wait ;;
    mret tt) tt.

(** Ten children that take what memory they can. *)
Definition sbrk_exhaust (fuel : nat) : prog unit :=
  fds ← sys CPipe;
  match fds with
  | None => say "pipe() failed\n" ;; Exit
  | Some (rfd, wfd) =>
      pids ← for_st 0 10 1 (fun _ pids =>
        pid ← fork;
        (if pid =? 0 then
           e ← sbrk 0;
           sbrk (BIG - e) ;;
           write wfd (bytes_of "x") ;;
           sleep_forever fuel
         else mret tt) ;;
        (if negb (pid =? -1) then sys (CRead rfd 1) ;; mret tt else mret tt) ;;
        mret (pids ++ [pid])) [];
      c ← sbrk 4096;
      for_all pids (fun pid => if pid =? -1 then mret tt else sys (CKill pid) ;; wait ;; mret tt) ;;
      if c =? NOMEM then say "failed sbrk leaked memory\n" ;; Exit else mret tt
  end.

Definition sbrktest (fuel : nat) : prog unit :=
  say "sbrk test\n" ;;
  oldbrk ← sbrk 0;
  sbrk_small ;;
  sbrk_big oldbrk ;;
  read_kernel ;;
  sbrk_exhaust fuel ;;
  e ← sbrk 0;
  (if oldbrk <? e then e ← sbrk 0; sbrk (- (e - oldbrk)) ;; mret tt else mret tt) ;;
  say "sbrk test OK\n".

(** The sleep call with its argument at [p]. *)
Definition SYS_sleep : Z := 13.
Definition validateint (p : Z) : prog unit := sys (CTrap SYS_sleep p) ;; mret tt.
Definition validatetest : prog unit :=
  say "validate test\n" ;;
  let hi := 1100 * 1024 in
  for_st 0 (hi + 1) 4096 (fun p _ =>
    pid ← fork;
    (if pid =? 0 then validateint p ;; Exit else mret tt) ;;
    sys (CSleep 0) ;;
    sys (CSleep 0) ;;
    sys (CKill pid) ;;
    wait ;;
    exit_if (not (-1)) (sys (CLinkAt (bytes_of "nosuchfile") p)) "link should not succeed\n") tt ;;
  say "validate ok\n".

(** [uninit] is where the linker put the array. *)
Definition bsstest (uninit : Z) : prog unit :=
  say "bss test\n" ;;
  for_to 10000 (fun i => exit_if nonzero (sys (CLoad (uninit + i) 1)) "bss test failed\n") ;;
  say "bss test ok\n".

Definition MAXARG : nat := 32.
Definition bigarg : bytes := unescape (bytes_of "bigargs test: failed\n") ++ replicate 199 32.
Definition bigargtest : prog unit :=
  unlink "bigarg-ok" ;;
  pid ← fork;
  (if pid =? 0 then
     say "bigarg test\n" ;;
     sys (CExec (bytes_of "echo") (replicate (MAXARG - 1) bigarg)) ;;
     say "bigarg test ok\n" ;;
     fd ← open "bigarg-ok" O_CREATE;
     close fd ;;
     Exit
   else if pid <? 0 then say "bigargtest: fork failed\n" ;; Exit
   else mret tt) ;;
  wait ;;
  fd ← must_open "bigarg-ok" 0 "bigarg test failed!\n";
  close fd ;;
  unlink "bigarg-ok" ;;
  mret tt.

(** ** A full disk, ports and the last tests *)
Definition full_name (nfiles : Z) : bytes :=
  [102; 48 + nfiles / 1000; 48 + nfiles mod 1000 / 100; 48 + nfiles mod 100 / 10; 48 + nfiles mod 10].
Fixpoint fill_file (fuel : nat) (fd : Z) (buf : bytes) (total : Z) : prog Z :=
  match fuel with
  | O => Spin
  | S fuel =>
      cc ← write fd (take 512 buf);
      if cc <? 512 then mret total else fill_file fuel fd buf (total + cc)
  end.
(** The number of the file at which the disk was full. *)
Fixpoint fill_disk (fuel : nat) (buf : bytes) (nfiles : Z) : prog Z :=
  match fuel with
  | O => Spin
  | S fuel' =>
      let name := full_name nfiles in
      printf 1 "writing %s\n" [CStr (Some name)] ;;
      fd ← sys (COpen name CREATE_RDWR);
      if fd <? 0 then printf 1 "open %s failed\n" [CStr (Some name)] ;; mret nfiles
      else
        total ← fill_file fuel fd buf 0;
        printf 1 "wrote %d bytes\n" [CInt total] ;;
        close fd ;;
        if total =? 0 then mret nfiles else fill_disk fuel' buf (nfiles + 1)
  end.
Definition fsfull (fuel : nat) (buf : bytes) : prog unit :=
  say "fsfull test\n" ;;
  nfiles ← fill_disk fuel buf 0;
  for_all (reverse (seqZ 0 (nfiles + 1))) (fun n => sys (CUnlink (full_name n)) ;; mret tt) ;;
  say "fsfull test finished\n".

Definition RTC_ADDR : Z := 0x70.
Definition RTC_DATA : Z := 0x71.
Definition uio : prog unit :=
  say "uio test\n" ;;
  pid ← fork;
  (if pid =? 0 then
     sys (COutb RTC_ADDR 0x09) ;;
     sys (CInb RTC_DATA) ;;
     say "uio: uio succeeded; test FAILED\n" ;;
     Exit
   else if pid <? 0 then say "fork failed\n" ;; Exit
   else mret tt) ;;
  wait ;;
  say "uio test done\n".

Definition argptest : prog unit :=
  fd ← open "init" O_RDONLY;
  (if fd <? 0 then printf 2 "open failed\n" [] ;; Exit else mret tt) ;;
  e ← sbrk 0;
  sys (CReadAt fd (u32 (e - 1)) (-1)) ;;
  close fd ;;
  say "arg test passed\n".

(** [unsigned long] has 32 bits. *)
Definition rand (randstate : Z) : Z * Z :=
  let r := u32 (randstate * 1664525 + 1013904223) in (r, r).

(** ** main *)
Section Main.
Context (fuel : nat) (uninit : Z).

Definition first_tests (buf : bytes) : prog bytes :=
  say "usertests starting\n" ;;
  exit_if nonneg (open "usertests.ran" 0) "already ran user tests -- rebuild fs.img\n" ;;
  fd ← open "usertests.ran" O_CREATE;
  close fd ;;
  argptest ;;
  createdelete ;;
  linkunlink ;;
  concreate fuel ;;
  buf ← fourfiles fuel buf;
  sharedfd fuel ;;
  mret buf.
Definition memory_tests (buf : bytes) : prog unit :=
  bigargtest ;;
  bigwrite buf ;;
  bigargtest ;;
  bsstest uninit ;;
  sbrktest fuel ;;
  validatetest.
Definition file_tests (buf : bytes) : prog bytes :=
  opentest ;;
  buf ← writetest buf;
  buf ← writetest1 fuel buf;
  createtest ;;
  openiputtest ;;
  exitiputtest ;;
  iputtest ;;
  mret buf.
Definition process_tests (buf : bytes) : prog bytes :=
  mem fuel ;;
  buf ← pipe1 fuel buf;
  buf ← preempt buf;
  exitwait ;;
  mret buf.
Definition name_tests (buf : bytes) : prog bytes :=
  rmdot ;;
  fourteen ;;
  buf ← bigfile fuel buf;
  buf ← subdir buf;
  buf ← linktest buf;
  buf ← unlinkread buf;
  dirfile ;;
  iref ;;
  mret buf.
(** [buf] is zero when the program starts. *)
Definition main : prog unit :=
  buf ← first_tests (replicate (Z.to_nat BUF) 0);
  memory_tests buf ;;
  buf ← file_tests buf;
  buf ← process_tests buf;
  name_tests buf ;;
  forktest ;;
  bigdir ;;
  uio ;;
  exectest ;;
  Exit.
End Main.
