(* ===== verification/UprogsProps.v ===== *)
(** * What the small user programs do

    printf writes the text its format describes, atoi reads back the numbers it
    prints, cat copies files and wc counts them, however the reads are split. *)
From Stdlib Require Import FunctionalExtensionality.
From S2P Require Import Prelude Bytes Console ConsoleProps Fs User Ulib Uprogs.

Open Scope Z_scope.

(** ** printf *)

(** The text of a conversion and the arguments left. *)
Definition conversion (c : Z) (ap : list carg) : option (bytes * list carg) :=
  if c =? 100 then match ap with CInt v :: ap => Some (rev (printint_buf (s32 v) 10 1), ap) | _ => None end
  else if (c =? 120) || (c =? 112) then match ap with CInt v :: ap => Some (rev (printint_buf (s32 v) 16 0), ap) | _ => None end
  else if c =? 115 then match ap with CStr s :: ap => Some (default (bytes_of "(null)") s, ap) | _ => None end
  else if c =? 99 then match ap with CInt v :: ap => Some ([u8 v], ap) | _ => None end
  else if c =? 37 then Some ([c], ap)
  else Some ([37; c], ap).
Fixpoint render (fmt : bytes) (state : bool) (ap : list carg) : option bytes :=
  match fmt with
  | [] => Some []
  | c :: fmt =>
      if state then
        match conversion c ap with
        | Some (b, ap) => (fun l => b ++ l) <$> render fmt false ap
        | None => None
        end
      else if c =? 37 then render fmt true ap
      else (fun l => c :: l) <$> render fmt false ap
  end.

(** The digits of printf are those of the console, in capitals. *)
Definition capital (c : Z) : Z := if c <? 58 then c else c - 32.
Lemma capital_digit x : 0 <= x < 16 -> digit x = capital (Console.digit x).
Proof. intros Hx. unfold digit, Console.digit, capital. zcases. Qed.
Lemma capital_digits base fuel x : 2 <= base <= 16 -> digits fuel x base = capital <$> Console.digits fuel x base.
Proof.
  intros Hb. revert x. induction fuel as [|fuel IH]; intros x; [done|]. cbn [digits Console.digits fmap list_fmap].
  pose proof (Z.mod_pos_bound x base ltac:(lia)). rewrite capital_digit by lia. f_equal.
  destruct (x / base =? 0); [done|]. by rewrite IH.
Qed.
Lemma printint_buf_capital xx base sgn : 2 <= base <= 16 ->
  printint_buf xx base sgn = capital <$> Console.printint_buf xx base sgn.
Proof.
  intros Hb. unfold printint_buf, Console.printint_buf. rewrite capital_digits, fmap_app by done.
  by destruct (truthy sgn && (xx <? 0)).
Qed.
Lemma printint_fits xx base sgn : int_range xx -> base = 10 \/ base = 16 -> (length (printint_buf xx base sgn) <= 16)%nat.
Proof.
  intros Hx Hb. rewrite printint_buf_capital, length_fmap by lia. by apply printint_buf_ok.
Qed.
(** In decimal there are no letters. *)
Lemma digits_ten fuel x : digits fuel x 10 = Console.digits fuel x 10.
Proof.
  revert x. induction fuel as [|fuel IH]; intros x; [done|]. cbn [digits Console.digits].
  pose proof (Z.mod_pos_bound x 10 ltac:(lia)). rewrite IH. f_equal. unfold digit, Console.digit. zcases.
Qed.

Definition is_byte (c : Z) : Prop := 0 <= c < 256.

Lemma is_bytes l : forallb (fun c => (0 <=? c) && (c <? 256)) l = true -> Forall is_byte l.
Proof.
  rewrite forallb_forall. intros H. apply Forall_forall. intros c Hc. specialize (H c (proj1 (list_elem_of_In _ _) Hc)).
  apply andb_true_iff in H as [H1 H2]. apply Z.leb_le in H1. apply Z.ltb_lt in H2. done.
Qed.

Section Printf.
Context (fd : Z).

Lemma wp_putc c w Q : is_byte c -> Q (Some tt) (add_written fd [c] w) -> wp (run plain_kernel (putc fd c)) Q w.
Proof. intros Hc HQ. unfold putc. rewrite u8_small by done. done. Qed.
Lemma wp_puts l w Q : Forall is_byte l -> Q (Some tt) (add_written fd l w) -> wp (run plain_kernel (puts fd l)) Q w.
Proof.
  intros Hl HQ. unfold puts. apply (wp_for_all _ _ _ (fun done w' => w' = add_written fd done w));
    [by rewrite add_written_nil| |by intros ? ->].
  intros done x todo w' -> ->. apply Forall_app in Hl as [_ Hl]. apply Forall_cons in Hl as [Hx _].
  apply wp_putc; [done|]. by rewrite add_written_app.
Qed.

Definition arg_ok (a : carg) : Prop := match a with CStr (Some s) => Forall is_byte s | _ => True end.

Lemma capital_byte c : is_byte c -> is_byte (capital c).
Proof. unfold is_byte, capital. intros H. zcases. Qed.
Lemma printint_bytes xx base sgn : int_range xx -> base = 10 \/ base = 16 -> Forall is_byte (rev (printint_buf xx base sgn)).
Proof.
  intros Hx Hb. rewrite printint_buf_capital by lia. rewrite <-map_rev. apply Forall_fmap.
  eapply Forall_impl; [by apply printint_buf_ok|]. intros c Hc. by apply capital_byte.
Qed.
Lemma wp_printint xx base sgn w Q : int_range xx -> base = 10 \/ base = 16 ->
  Q (Some tt) (add_written fd (rev (printint_buf xx base sgn)) w) -> wp (run plain_kernel (printint fd xx base sgn)) Q w.
Proof.
  intros Hx Hb HQ. unfold printint. pose proof (printint_fits xx base sgn Hx Hb).
  destruct (Z.ltb_spec 16 (Z.of_nat (length (printint_buf xx base sgn)))); [lia|].
  apply wp_puts; [by apply printint_bytes|done].
Qed.

#[local] Opaque printint_buf.
Lemma wp_convert c ap b ap' w Q : is_byte c -> Forall arg_ok ap -> conversion c ap = Some (b, ap') ->
  Q (Some ap') (add_written fd b w) -> wp (run plain_kernel (convert fd c ap)) Q w.
Proof.
  intros Hc Ha E HQ. unfold convert, conversion in *.
  destruct (c =? 100); [destruct ap as [|[v|s] ap]; [discriminate| |discriminate]; injection E as <- <-;
    apply wp_run_bind, wp_printint; [apply s32_range|tauto|exact HQ]|].
  destruct ((c =? 120) || (c =? 112)); [destruct ap as [|[v|s] ap]; [discriminate| |discriminate]; injection E as <- <-;
    apply wp_run_bind, wp_printint; [apply s32_range|tauto|exact HQ]|].
  destruct (c =? 115).
  { destruct ap as [|[v|s] ap]; [discriminate..|]. injection E as <- <-. apply wp_run_bind, wp_puts; [|exact HQ].
    apply Forall_cons in Ha as [Hs _]. destruct s as [s|]; [exact Hs|]. repeat constructor; unfold is_byte; lia. }
  destruct (c =? 99).
  { destruct ap as [|[v|s] ap]; [discriminate| |discriminate]. injection E as <- <-.
    unfold putc. apply wp_run_bind, wp_run_bind, wp_plain_write. rewrite wp_run_ret. exact HQ. }
  destruct (c =? 37); injection E as <- <-; apply wp_run_bind, wp_putc; [done|exact HQ|unfold is_byte; lia|].
  apply wp_run_bind, wp_putc; [done|]. rewrite add_written_app. exact HQ.
Qed.
Lemma conversion_args c ap b ap' : Forall arg_ok ap -> conversion c ap = Some (b, ap') -> Forall arg_ok ap'.
Proof.
  intros Ha E. assert (Ht : ap' = ap \/ ap' = tail ap).
  { unfold conversion in E. repeat case_match; simplify_eq; auto. }
  destruct Ht as [-> | ->]; [exact Ha|]. destruct ap; [exact Ha|]. by apply Forall_cons in Ha as [_ Ha].
Qed.
Lemma wp_printf_loop fmt : forall state ap out w Q, Forall is_byte fmt -> Forall arg_ok ap -> render fmt state ap = Some out ->
  Q (Some tt) (add_written fd out w) -> wp (run plain_kernel (printf_loop fd fmt state ap)) Q w.
Proof.
  induction fmt as [|c fmt IH]; intros state ap out w Q Hf Ha E HQ; cbn [printf_loop render] in *.
  { injection E as <-. by rewrite add_written_nil in HQ. }
  apply Forall_cons in Hf as [Hc Hf]. destruct state.
  - destruct (conversion c ap) as [[b ap']|] eqn:Ec; [|done]. destruct (render fmt false ap') as [l|] eqn:El; [|done].
    injection E as <-. apply wp_run_bind. apply (wp_convert c ap b ap'); try done.
    apply (IH false ap' l); try done; [|by rewrite add_written_app].
    by eapply conversion_args.
  - destruct (Z.eqb_spec c 37); [by apply (IH true ap out)|]. destruct (render fmt false ap) as [l|] eqn:El; [|done].
    injection E as <-. apply wp_run_bind, wp_putc; [done|]. apply (IH false ap l); try done. by rewrite add_written_app.
Qed.
End Printf.

#[local] Transparent printint_buf.

(** ** atoi reads what %d prints *)
Lemma atoi_loop_digits l : forall n, Forall (fun c => 48 <= c < 58) l -> 0 <= n ->
  fold_left (fun a c => 10 * a + (c - 48)) l n < 2147483648 ->
  atoi_loop n l = fold_left (fun a c => 10 * a + (c - 48)) l n.
Proof.
  assert (Hmono : forall l n, Forall (fun c => 48 <= c < 58) l -> 0 <= n -> n <= fold_left (fun a c => 10 * a + (c - 48)) l n).
  { clear. induction l as [|c l IH]; intros n Hl Hn; cbn [fold_left]; [lia|]. apply Forall_cons in Hl as [Hc Hl].
    specialize (IH (10 * n + (c - 48)) Hl). lia. }
  induction l as [|c l IH]; intros n Hl Hn Hlt; [done|]. cbn [atoi_loop fold_left] in *. apply Forall_cons in Hl as [Hc Hl].
  rewrite (proj2 (Z.leb_le _ _)), (proj2 (Z.leb_le _ _)) by lia. cbn [andb].
  pose proof (Hmono l (10 * n + (c - 48)) Hl ltac:(lia)). rewrite s32_small by lia.
  replace (n * 10 + c - 48) with (10 * n + (c - 48)) by lia. apply IH; [done|lia|done].
Qed.
Lemma digits_ten_chars fuel : forall x, Forall (fun c => 48 <= c < 58) (digits fuel x 10).
Proof.
  induction fuel as [|fuel IH]; intros x; cbn [digits]; constructor; [|by destruct (x / 10 =? 0)].
  pose proof (Z.mod_pos_bound x 10 ltac:(lia)). unfold digit. zcases.
Qed.
Definition decimal (n : Z) : bytes := rev (printint_buf n 10 1).
Lemma atoi_decimal n : 0 <= n < 2147483648 -> atoi (decimal n) = n.
Proof.
  intros Hn. unfold atoi, decimal, printint_buf. rewrite (proj2 (Z.ltb_ge n 0)) by lia. rewrite andb_false_r, app_nil_r, u32_small by lia.
  assert (V : fold_left (fun a c => 10 * a + (c - 48)) (rev (digits 32 n 10)) 0 = n).
  { rewrite <-fold_left_rev_right, rev_involutive.
    transitivity (fold_right (fun c a => undigit c + 10 * a) 0 (digits 32 n 10)).
    - pose proof (digits_ten_chars 32 n) as C. induction C as [|c l Hc C IHl]; [done|]. cbn [fold_right]. rewrite IHl.
      unfold undigit. rewrite (proj2 (Z.ltb_lt c 58)) by lia. lia.
    - rewrite digits_ten. apply digits_value; [lia|]. split; [lia|]. apply Z.lt_le_trans with (2 ^ 32); [lia|].
      apply Z.pow_le_mono_l. lia. }
  rewrite atoi_loop_digits; [done|apply Forall_rev, digits_ten_chars|lia|lia].
Qed.

(** ** Programs that read files to their end *)

(** The kernel after descriptor [fd] was read to its end, some short reads were
    used up and [out] was written to the output. *)
Definition consumed (fd : Z) (out : bytes) (sh : list nat) (w : plain) : plain :=
  Plain (files w) (<[fd := []]> (opened w)) (fun x => if x =? 1 then written_to w x ++ out else written_to w x) sh.
Definition with_output (out : bytes) (sh : list nat) (w : plain) : plain :=
  Plain (files w) (opened w) (fun x => if x =? 1 then written_to w x ++ out else written_to w x) sh.

Lemma with_output_nil w : with_output [] (shorts w) w = w.
Proof. pose proof (add_written_nil 1 w) as E. unfold add_written in E. exact E. Qed.

Section EachFile.
Context (use : bytes -> Z -> prog unit) (complain : bytes -> prog unit) (report : bytes -> bytes -> bytes) (ok : bytes -> bytes -> Prop).
Hypothesis Huse : forall name fd text w, opened w !! fd = Some text -> ok name text ->
  wp (run plain_kernel (use name fd)) (fun o w' => o = Some tt /\ exists sh, w' = consumed fd (report name text) sh w) w.

Lemma wp_each_named w fd names : lowest_fd (opened w) = Some fd ->
  Forall (fun name => exists text, files w !! name = Some text /\ ok name text) names ->
  wp (run plain_kernel (for_all names (each_file use complain)))
    (fun o w' => o = Some tt /\ exists sh,
       w' = with_output (concat ((fun name => report name (default [] (files w !! name))) <$> names)) sh w) w.
Proof.
  intros Hfd Hf. apply find_some in Hfd as Hfd'. destruct Hfd' as [Hfd1 Hfd2]. apply bool_decide_eq_true in Hfd2.
  apply list_elem_of_In, elem_of_seqZ in Hfd1.
  apply (wp_for_all _ _ _ (fun done w' => exists sh,
    w' = with_output (concat ((fun name => report name (default [] (files w !! name))) <$> done)) sh w)).
  - exists (shorts w). by rewrite with_output_nil.
  - intros done x todo w' E [sh ->]. rewrite E in Hf. apply Forall_app in Hf as [_ Hf].
    apply Forall_cons in Hf as [(text & T1 & T2) _].
    unfold each_file. apply wp_run_bind, wp_run_sys. cbn [plain_kernel]. unfold wp at 1. cbn [files opened with_output].
    rewrite T1, Hfd, (proj2 (Z.ltb_ge fd 0)) by lia. apply wp_run_bind.
    eapply wp_mono; [apply (Huse x fd text); [apply lookup_insert_eq|done]|]. intros o w' [-> [sh' ->]].
    apply wp_run_bind, wp_run_sys. cbn [plain_kernel]. rewrite wp_bind, wp_modify, wp_ret, wp_run_ret. split; [done|].
    exists sh'. unfold set_opened, consumed, with_output. cbn [files opened written_to shorts].
    rewrite insert_insert_eq, delete_insert_id by done. rewrite fmap_app, concat_app. cbn [fmap list_fmap concat].
    rewrite app_nil_r, T1. cbn [default]. f_equal. apply functional_extensionality. intros y.
    destruct (y =? 1); [by rewrite (assoc_L app)|done].
  - intros w' [sh ->]. split; [done|]. by exists sh.
Qed.
End EachFile.

(** ** cat *)
Lemma wp_cat_loop fuel : forall fd d w, opened w !! fd = Some d -> (length d < fuel)%nat ->
  wp (run plain_kernel (Cat.cat_loop fuel fd)) (fun o w' => o = Some 0 /\ exists sh, w' = consumed fd d sh w) w.
Proof.
  induction fuel as [|fuel IH]; intros fd d w Ho Hf; [lia|]. cbn [Cat.cat_loop].
  apply wp_run_bind. apply (wp_plain_read fd _ d); [done|lia|]. intros k Hk1 Hk2 Hk3 _.
  destruct k as [|k].
  { rewrite (Hk3 eq_refl). split; [done|]. exists (tail (shorts w)). unfold consumed. cbn [drop]. f_equal.
    apply functional_extensionality. intros y. rewrite app_nil_r. by destruct (y =? 1). }
  rewrite (proj2 (Z.ltb_lt 0 _)) by lia. set (j := S k) in *. apply wp_run_bind, wp_plain_write.
  rewrite length_take, Nat.min_l, Z.eqb_refl by done.
  eapply wp_mono; [apply (IH fd (drop j d)); [apply lookup_insert_eq|rewrite length_drop; lia]|].
  intros o w' [-> [sh ->]]. split; [done|]. exists sh. unfold consumed, add_written. cbn [files opened written_to shorts].
  rewrite insert_insert_eq. f_equal. apply functional_extensionality. intros y. destruct (y =? 1); [|done].
  by rewrite <-(assoc_L app), take_drop.
Qed.
Lemma wp_cat fuel (name : bytes) fd text w : opened w !! fd = Some text -> (length text < fuel)%nat ->
  wp (run plain_kernel (Cat.cat fuel fd)) (fun o w' => o = Some tt /\ exists sh, w' = consumed fd text sh w) w.
Proof.
  intros Ho Hf. unfold Cat.cat. apply wp_run_bind. eapply wp_mono; [by apply wp_cat_loop|]. intros o w' [-> Hw']. done.
Qed.

(** ** wc *)

(** A word begins at [i]. *)
Definition word_at (text : bytes) (i : nat) : bool :=
  negb (Wc.separator (getb text i)) && match i with O => true | S j => Wc.separator (getb text j) end.
Definition words (text : bytes) : Z := Z.of_nat (length (List.filter (word_at text) (seq 0 (length text)))).
Definition newlines (text : bytes) : Z := Z.of_nat (length (List.filter (fun x => x =? 10) text)).
Definition in_word (text : bytes) : bool :=
  match length text with O => false | S j => negb (Wc.separator (getb text j)) end.

Lemma getb_app_l a b i : (i < length a)%nat -> getb (a ++ b) i = getb a i.
Proof. intros H. unfold getb. by rewrite lookup_app_l. Qed.
Lemma getb_snoc a x : getb (a ++ [x]) (length a) = x.
Proof. unfold getb. rewrite lookup_app_r by lia. by rewrite Nat.sub_diag. Qed.
Lemma words_snoc a x : words (a ++ [x]) = words a + (if negb (Wc.separator x) && negb (in_word a) then 1 else 0).
Proof.
  unfold words. rewrite length_app, seq_app, List.filter_app, length_app. cbn [length seq Nat.add].
  assert (E1 : List.filter (word_at (a ++ [x])) (seq 0 (length a)) = List.filter (word_at a) (seq 0 (length a))).
  { apply filter_ext_in. intros i Hi. apply in_seq in Hi. unfold word_at. rewrite getb_app_l by lia. f_equal.
    destruct i; [done|]. by rewrite getb_app_l by lia. }
  rewrite E1. cbn [List.filter]. unfold word_at at 2, in_word. rewrite getb_snoc. destruct (length a) as [|j] eqn:E.
  - cbn [negb]. destruct (negb (Wc.separator x) && true); simpl; lia.
  - rewrite getb_app_l, negb_involutive by lia. destruct (negb (Wc.separator x) && Wc.separator (getb a j)); simpl; lia.
Qed.
Lemma filter_length_le' {A} (f : A -> bool) l : (length (List.filter f l) <= length l)%nat.
Proof. induction l as [|x l IH]; simpl; [lia|]. destruct (f x); simpl; lia. Qed.

Lemma wc_fold text : Z.of_nat (length text) < 2147483648 ->
  fold_left Wc.wc_step text (Wc.Counts 0 0 0 false) = Wc.Counts (newlines text) (words text) (Z.of_nat (length text)) (in_word text).
Proof.
  induction text as [|x text IH] using rev_ind; intros Hl; [done|]. rewrite length_app in *. simpl in Hl.
  rewrite fold_left_app, IH by lia. cbn [fold_left].
  assert (Hw : 0 <= words text <= Z.of_nat (length text)).
  { unfold words. pose proof (filter_length_le' (word_at text) (seq 0 (length text))). rewrite length_seq in *. lia. }
  assert (Hn : 0 <= newlines text <= Z.of_nat (length text)).
  { unfold newlines. pose proof (filter_length_le' (fun x => x =? 10) text). lia. }
  assert (Ein : in_word (text ++ [x]) = negb (Wc.separator x)).
  { unfold in_word. rewrite length_app. simpl. rewrite Nat.add_1_r. by rewrite getb_snoc. }
  assert (En : newlines (text ++ [x]) = newlines text + (if x =? 10 then 1 else 0)).
  { unfold newlines. rewrite List.filter_app, length_app. cbn [List.filter]. destruct (x =? 10); simpl; lia. }
  rewrite words_snoc, Ein, En. unfold Wc.wc_step. cbn [Wc.l Wc.w Wc.c Wc.inword].
  replace (Z.of_nat (length text + length [x])) with (Z.of_nat (length text) + 1) by (simpl; lia).
  destruct (x =? 10), (Wc.separator x), (in_word text); cbn [Wc.l Wc.w Wc.c Wc.inword negb andb];
    rewrite !s32_small, ?Z.add_0_r by lia; done.
Qed.

Lemma wp_wc_loop fuel : forall fd d s w, opened w !! fd = Some d -> (length d < fuel)%nat ->
  wp (run plain_kernel (Wc.wc_loop fuel fd s))
    (fun o w' => o = Some (0, fold_left Wc.wc_step d s) /\ exists sh, w' = Plain (files w) (<[fd := []]> (opened w)) (written_to w) sh) w.
Proof.
  induction fuel as [|fuel IH]; intros fd d s w Ho Hf; [lia|]. cbn [Wc.wc_loop].
  apply wp_run_bind. apply (wp_plain_read fd _ d); [done|lia|]. intros k Hk1 Hk2 Hk3 _. destruct k as [|k].
  { rewrite (Hk3 eq_refl). split; [done|]. by exists (tail (shorts w)). }
  rewrite (proj2 (Z.ltb_lt 0 _)) by lia. set (j := S k) in *.
  eapply wp_mono; [apply (IH fd (drop j d)); [apply lookup_insert_eq|rewrite length_drop; lia]|].
  intros o w' [-> [sh ->]]. split; [by rewrite <-fold_left_app, take_drop|]. exists sh. cbn. by rewrite insert_insert_eq.
Qed.

(** The line wc prints for a file. *)
Definition wc_line (name text : bytes) : bytes :=
  decimal (newlines text) ++ [32] ++ decimal (words text) ++ [32] ++ decimal (Z.of_nat (length text)) ++ [32] ++ name ++ [10].

Lemma newlines_range text : 0 <= newlines text <= Z.of_nat (length text).
Proof. unfold newlines. pose proof (filter_length_le' (fun x => x =? 10) text). lia. Qed.
Lemma words_range text : 0 <= words text <= Z.of_nat (length text).
Proof. unfold words. pose proof (filter_length_le' (word_at text) (seq 0 (length text))). rewrite length_seq in *. lia. Qed.

#[local] Opaque printint_buf.
Lemma wp_wc fuel name fd text w : opened w !! fd = Some text -> Forall is_byte name -> (length text < fuel)%nat /\ Z.of_nat (length text) < 2147483648 ->
  wp (run plain_kernel (Wc.wc fuel name fd)) (fun o w' => o = Some tt /\ exists sh, w' = consumed fd (wc_line name text) sh w) w.
Proof.
  intros Ho Hn [Hf Hl]. unfold Wc.wc. apply wp_run_bind. eapply wp_mono; [by apply wp_wc_loop|]. intros o w' [-> [sh ->]].
  rewrite wc_fold by done. cbn [Z.ltb Z.compare Wc.l Wc.w Wc.c]. pose proof (newlines_range text). pose proof (words_range text).
  unfold printf. apply (wp_printf_loop 1 _ false _ (wc_line name text)).
  - apply is_bytes. vm_compute. reflexivity.
  - constructor; [done|]. constructor; [done|]. constructor; [done|]. by constructor.
  - assert (E : unescape (bytes_of "%d %d %d %s\n") = [37; 100; 32; 37; 100; 32; 37; 100; 32; 37; 115; 10]) by reflexivity.
    rewrite E. cbn [render conversion Z.eqb Pos.eqb orb default from_option fmap option_fmap option_map app].
    rewrite !s32_small by lia. unfold wc_line, decimal. cbn [default from_option app]. done.
  - split; [done|]. by exists sh.
Qed.
#[local] Transparent printint_buf.

(** Files that a program can read to the end within its bound. *)
Definition countable_file (w : plain) (fuel : nat) (name : bytes) : Prop :=
  Forall is_byte name /\ exists text, files w !! name = Some text /\ (length text < fuel)%nat /\ Z.of_nat (length text) < 2147483648.

(** Wc counts.  For any files, and however the kernel splits the reads, wc
    ends and has printed for each file, in order, the number of its newlines, of
    its words - the places where a character other than a separator begins the
    text or follows a separator - and of its bytes, in decimal, and its name; and
    each of these decimal numbers is read back by atoi as the count itself. *)
Theorem wc_counts_files (fuel : nat) (argv0 : bytes) (names : list bytes) (w : plain) (fd : Z) :
  names <> [] -> lowest_fd (opened w) = Some fd -> Forall (countable_file w fuel) names ->
  (exists sh, run plain_kernel (Wc.main fuel (argv0 :: names)) w =
    Ok (None, with_output (concat ((fun name => wc_line name (default [] (files w !! name))) <$> names)) sh w)) /\
  forall name text, name ∈ names -> files w !! name = Some text ->
    atoi (decimal (newlines text)) = newlines text /\ atoi (decimal (words text)) = words text /\
    atoi (decimal (Z.of_nat (length text))) = Z.of_nat (length text).
Proof.
  intros Hn Hfd Hf. split.
  - destruct names as [|x0 names0] eqn:En; [done|]. rewrite <-En in *. clear Hn.
    assert (Hw : wp (run plain_kernel (for_all names (each_file (Wc.wc fuel)
        (fun name => printf 1 "wc: cannot open %s\n" [CStr (Some name)]))))
      (fun o w' => o = Some tt /\ exists sh,
         w' = with_output (concat ((fun name => wc_line name (default [] (files w !! name))) <$> names)) sh w) w).
    { apply (wp_each_named _ _ wc_line (fun name text => Forall is_byte name /\ (length text < fuel)%nat /\ Z.of_nat (length text) < 2147483648)) with fd; [|done|].
      - intros name fd' text w' Ho [Hb Ht]. by apply wp_wc.
      - eapply Forall_impl; [exact Hf|]. intros name (Hb & text & T1 & T2). by exists text. }
    apply wp_ok in Hw as (o & w' & Hrun & -> & sh & ->). exists sh. unfold Wc.main. rewrite En in *. rewrite run_bind, Hrun. done.
  - intros name text Hin Ht. rewrite Forall_forall in Hf. destruct (Hf name Hin) as (_ & text' & T1 & _ & T2).
    assert (text' = text) as -> by congruence. pose proof (newlines_range text). pose proof (words_range text).
    rewrite !atoi_decimal by lia. done.
Qed.

Lemma wc_counts_files_witness :
  let text := [97; 98; 32; 99; 10; 10; 100] in
  exists sh, run plain_kernel (Wc.main 20 [[119]; [102]]) (Plain {[ [102] := text ]} ∅ (fun _ => []) [2; 1]%nat) =
    Ok (None, with_output [50; 32; 51; 32; 55; 32; 102; 10] sh (Plain {[ [102] := text ]} ∅ (fun _ => []) [2; 1]%nat)).
Proof.
  intros text. destruct (wc_counts_files 20 [119] [[102]] (Plain {[ [102] := text ]} ∅ (fun _ => []) [2; 1]%nat) 0) as [[sh H] _];
    [done|done| |].
  - constructor; [|done]. split; [by apply is_bytes|]. exists text. split; [done|]. split; [simpl; lia|simpl; lia].
  - exists sh. rewrite H. assert (E : concat ((fun name => wc_line name (default [] (({[ [102] := text ]} : gmap bytes bytes) !! name))) <$> [[102]]) =
      [50; 32; 51; 32; 55; 32; 102; 10]) by (vm_compute; reflexivity). cbn [files]. by rewrite E.
Defined.

(** cat writes the files one after the other, however the reads are split. *)
Lemma cat_copies_files fuel argv0 names w fd : names <> [] -> lowest_fd (opened w) = Some fd ->
  Forall (fun name => exists text, files w !! name = Some text /\ (length text < fuel)%nat) names ->
  exists sh, run plain_kernel (Cat.main fuel (argv0 :: names)) w =
    Ok (None, with_output (concat ((fun name => default [] (files w !! name)) <$> names)) sh w).
Proof.
  intros Hn Hfd Hf. destruct names as [|x0 names0] eqn:En; [done|]. rewrite <-En in *. clear Hn.
  assert (Hw := wp_each_named (fun _ fd => Cat.cat fuel fd) (fun name => printf 1 "cat: cannot open %s\n" [CStr (Some name)])
    (fun _ text => text) (fun _ text => (length text < fuel)%nat) (fun name fd text w Ho Hl => wp_cat fuel name fd text w Ho Hl) w fd names Hfd Hf).
  apply wp_ok in Hw as (o & w' & Hrun & -> & sh & ->). exists sh. unfold Cat.main. rewrite En in *. rewrite run_bind, Hrun. done.
Qed.
