(* ===== verification/Umalloc.v ===== *)
(** * The user memory allocator (umalloc.c)

    Free blocks are linked in a ring by ascending address through headers of two
    words, the address of the next block and the size in units of a header.  The
    memory is a map of the words of the process; the kernel's sbrk is an
    interface. *)
From S2P Require Import Prelude.

Open Scope Z_scope.

(** What the allocator relies on: sbrk fails without a change, or returns the end
    of the memory and moves it up. *)
Class Sbrk (W : Type) := {
  break : W -> Z;
  sbrk : Z -> M W Z;
  sbrk_law w n : 0 < n < 2147483648 ->
    sbrk n w = Ok (-1, w) \/
    exists w', sbrk n w = Ok (break w, w') /\ break w' = break w + n /\ break w' < 4294967296
}.

(** A process that may grow up to a limit. *)
Record limited := Limited { lim_break : Z; lim : Z }.
#[export] Program Instance limited_sbrk : Sbrk limited := {
  break := lim_break;
  sbrk n w := if (0 <? n) && (lim_break w + n <=? Z.min (lim w) 4294967295)
              then Ok (lim_break w, Limited (lim_break w + n) (lim w)) else Ok (-1, w)
}.
Next Obligation.
  intros w n Hn. cbn. destruct ((0 <? n) && (lim_break w + n <=? Z.min (lim w) 4294967295)) eqn:E; [right|by left].
  apply andb_true_iff in E as [_ E]. apply Z.leb_le in E. eexists. split; [reflexivity|]. cbn. lia.
Qed.

Record heap (W : Type) := Heap { words : gmap Z Z; freep : Z; os : W }.
Arguments Heap {W} _ _ _.
Arguments words {W} _.
Arguments freep {W} _.
Arguments os {W} _.

Definition HEADER : Z := 8.

Section Malloc.
Context {W : Type} `{SB : !Sbrk W}.
(** The address of the static header [base]. *)
Context (base : Z).

(** union header: [s.ptr] and [s.size]. *)
Definition s_ptr (m : gmap Z Z) (a : Z) : Z := default 0 (m !! a).
Definition s_size (m : gmap Z Z) (a : Z) : Z := default 0 (m !! (a + 4)).
Definition set_ptr (a v : Z) : M (heap W) unit := modify (fun h => Heap (<[a := v]> (words h)) (freep h) (os h)).
Definition set_size (a v : Z) : M (heap W) unit := modify (fun h => Heap (<[a + 4 := v]> (words h)) (freep h) (os h)).
Definition get_ptr (a : Z) : M (heap W) Z := gets (fun h => s_ptr (words h) a).
Definition get_size (a : Z) : M (heap W) Z := gets (fun h => s_size (words h) a).
Definition set_freep (v : Z) : M (heap W) unit := modify (fun h => Heap (words h) v (os h)).
(** [a + n] on pointers to headers *)
Definition plus (a n : Z) : Z := u32 (a + HEADER * n).

(** The block after which [bp] belongs. *)
Fixpoint find_place (fuel : nat) (bp p : Z) : M (heap W) Z :=
  match fuel with
  | O => hang
  | S fuel =>
      q ← get_ptr p;
      if (p <? bp) && (bp <? q) then mret p
      else if (q <=? p) && ((p <? bp) || (bp <? q)) then mret p
      else find_place fuel bp q
  end.

Definition free (fuel : nat) (ap : Z) : M (heap W) unit :=
  let bp := u32 (ap - HEADER) in
  start ← gets freep;
  p ← find_place fuel bp start;
  n ← get_size bp;
  q ← get_ptr p;
  (if plus bp n =? q then
     k ← get_size q;
     set_size bp (u32 (n + k)) ;;
     r ← get_ptr q;
     set_ptr bp r
   else set_ptr bp q) ;;
  k ← get_size p;
  (if plus p k =? bp then
     n ← get_size bp;
     set_size p (u32 (k + n)) ;;
     r ← get_ptr bp;
     set_ptr p r
   else set_ptr p bp) ;;
  set_freep p.

Definition osL : lens (heap W) W := Lens os (fun w h => Heap (words h) (freep h) w).

Definition morecore (fuel : nat) (nu : Z) : M (heap W) Z :=
  let nu := if nu <? 4096 then 4096 else nu in
  p ← zoom osL (sbrk (s32 (nu * HEADER)));
  if p =? -1 then mret 0
  else
    set_size p nu ;;
    free fuel (plus p 1) ;;
    gets freep.

Fixpoint malloc_loop (fuel : nat) (nunits prevp p : Z) : M (heap W) Z :=
  match fuel with
  | O => hang
  | S fuel' =>
      n ← get_size p;
      if nunits <=? n then
        r ← (if n =? nunits then q ← get_ptr p; set_ptr prevp q ;; mret p
             else
               set_size p (u32 (n - nunits)) ;;
               n ← get_size p;
               let p := plus p n in
               set_size p nunits ;;
               mret p);
        set_freep prevp ;;
        mret (plus r 1)
      else
        f ← gets freep;
        if p =? f then
          p ← morecore fuel nunits;
          if p =? 0 then mret 0
          else q ← get_ptr p; malloc_loop fuel' nunits p q
        else q ← get_ptr p; malloc_loop fuel' nunits p q
  end.

Definition units (nbytes : Z) : Z := u32 (nbytes + HEADER - 1) / HEADER + 1.

Definition malloc (fuel : nat) (nbytes : Z) : M (heap W) Z :=
  let nunits := units nbytes in
  f ← gets freep;
  prevp ← (if f =? 0 then set_ptr base base ;; set_freep base ;; set_size base 0 ;; mret base else mret f);
  p ← get_ptr prevp;
  malloc_loop fuel nunits prevp p.
End Malloc.
