(* ===== verification/UmallocProps.v ===== *)
(** * The allocator keeps its blocks apart

    The memory obtained from sbrk is cut into blocks, free or in use; the ring of
    free blocks lists exactly the free ones in the order of their addresses, and
    no two free blocks are neighbours.  malloc and free change the blocks as
    their specification says, and nothing in a block in use changes. *)
From S2P Require Import Prelude Umalloc.

Open Scope Z_scope.

(** ** Rings: a set of addresses, each followed by the next higher one and the
    highest by the lowest *)
Section Ring.
Context (base : Z).

Definition next_in (R : gset Z) (x y : Z) : Prop :=
  (y ∈ R /\ x < y /\ forall z, z ∈ R -> z <= x \/ y <= z) \/ (y = base /\ forall z, z ∈ R -> z <= x).
Record ring (f : Z -> Z) (R : gset Z) : Prop := {
  rg_base : base ∈ R;
  rg_min z : z ∈ R -> base <= z;
  rg_next x : x ∈ R -> next_in R x (f x)
}.

Definition upd (f : Z -> Z) (a v : Z) : Z -> Z := fun x => if x =? a then v else f x.
Lemma upd_eq f a v : upd f a v a = v.
Proof. unfold upd. by rewrite Z.eqb_refl. Qed.
Lemma upd_ne f a v x : x <> a -> upd f a v x = f x.
Proof. unfold upd. intros H. by rewrite (proj2 (Z.eqb_neq _ _)). Qed.

Lemma ring_ext f g R : ring f R -> (forall x, x ∈ R -> g x = f x) -> ring g R.
Proof. intros [H1 H2 H3] E. split; try done. intros x Hx. rewrite E by done. by apply H3. Qed.

(** The place of an address that is not in the ring. *)
Definition before (R : gset Z) (p bp : Z) : Prop := p ∈ R /\ p < bp /\ forall z, z ∈ R -> z <= p \/ bp < z.

Lemma ring_insert f R p bp : ring f R -> before R p bp -> bp ∉ R -> ring (upd (upd f bp (f p)) p bp) ({[bp]} ∪ R).
Proof.
  intros [G1 G2 G3] (Hp & Hlt & Hb) Hn. split; [set_solver|intros z Hz; apply elem_of_union in Hz as [->%elem_of_singleton|Hz];
    [pose proof (G2 p Hp); lia|by apply G2]|]. intros x Hx. pose proof (G3 p Hp) as Hnp.
  destruct (decide (x = p)) as [->|Hxp].
  { rewrite upd_eq. left. split; [set_solver|]. split; [done|]. intros z Hz.
    apply elem_of_union in Hz as [->%elem_of_singleton|Hz]; [lia|]. destruct (Hb z Hz); lia. }
  rewrite upd_ne by done. destruct (decide (x = bp)) as [->|Hxb].
  - rewrite upd_eq. destruct Hnp as [(Y1 & Y2 & Y3)|(Y1 & Y2)].
    + left. destruct (Hb _ Y1) as [?|Hy]; [lia|]. split; [set_solver|]. split; [done|]. intros z Hz.
      apply elem_of_union in Hz as [->%elem_of_singleton|Hz]; [lia|]. destruct (Y3 z Hz); lia.
    + right. split; [done|]. intros z Hz. apply elem_of_union in Hz as [->%elem_of_singleton|Hz]; [lia|].
      specialize (Y2 z Hz). lia.
  - rewrite upd_ne by done. apply elem_of_union in Hx as [?%elem_of_singleton|Hx]; [done|].
    destruct (G3 x Hx) as [(Y1 & Y2 & Y3)|(Y1 & Y2)].
    + left. split; [set_solver|]. split; [done|]. intros z Hz.
      apply elem_of_union in Hz as [->%elem_of_singleton|Hz]; [|by apply Y3].
      destruct (Hb x Hx), (Y3 p Hp); lia.
    + right. split; [done|]. intros z Hz. apply elem_of_union in Hz as [->%elem_of_singleton|Hz]; [|by apply Y2].
      destruct (Hb x Hx); [|lia]. specialize (Y2 p Hp). lia.
Qed.

Lemma ring_remove f R p : ring f R -> p ∈ R -> f p <> base -> ring (upd f p (f (f p))) (R ∖ {[f p]}).
Proof.
  intros [G1 G2 G3] Hp Hq. set (q := f p) in *.
  destruct (G3 p Hp) as [(Q1 & Q2 & Q3)|(Q1 & _)]; [|done]. fold q in Q1, Q2, Q3.
  split; [set_solver|intros z Hz; apply G2; set_solver|]. intros x Hx. apply elem_of_difference in Hx as [Hx Hxq].
  rewrite elem_of_singleton in Hxq. destruct (decide (x = p)) as [->|Hxp].
  - rewrite upd_eq. destruct (G3 q Q1) as [(Y1 & Y2 & Y3)|(Y1 & Y2)].
    + left. split; [apply elem_of_difference; split; [done|]; rewrite elem_of_singleton; lia|]. split; [lia|].
      intros z Hz. apply elem_of_difference in Hz as [Hz Hzq]. rewrite elem_of_singleton in Hzq. destruct (Q3 z Hz), (Y3 z Hz); lia.
    + right. split; [done|]. intros z Hz. apply elem_of_difference in Hz as [Hz Hzq]. rewrite elem_of_singleton in Hzq.
      specialize (Y2 z Hz). destruct (Q3 z Hz); lia.
  - rewrite upd_ne by done. destruct (G3 x Hx) as [(Y1 & Y2 & Y3)|(Y1 & Y2)].
    + left. split; [apply elem_of_difference; split; [done|]; rewrite elem_of_singleton|].
      { intros E. rewrite E in *. destruct (Y3 p Hp), (Q3 x Hx); lia. }
      split; [done|]. intros z Hz. apply Y3. set_solver.
    + right. split; [done|]. intros z Hz. apply Y2. set_solver.
Qed.

(** ** Walking around the ring *)
Lemma ring_up f R n : ring f R -> forall x y, x ∈ R -> y ∈ R -> x <= y -> (size (filter (fun z => (x < z <= y)%Z) R) <= n)%nat ->
  exists k, (k <= n)%nat /\ Nat.iter k f x = y.
Proof.
  intros G. induction n as [|n IH]; intros x y Hx Hy Hle Hn.
  - exists 0%nat. split; [done|]. simpl. apply Nat.le_0_r, size_empty_inv in Hn.
    destruct (decide (x = y)) as [|Hne]; [done|]. assert (y ∈ filter (fun z => x < z <= y) R) by (apply elem_of_filter; split; [lia|done]).
    set_solver.
  - destruct (decide (x = y)) as [->|Hne]; [exists 0%nat; split; [lia|done]|].
    destruct (rg_next _ _ G x Hx) as [(Y1 & Y2 & Y3)|(Y1 & Y2)]; [|specialize (Y2 y Hy); lia].
    assert (Hfy : f x <= y) by (destruct (Y3 y Hy); lia).
    destruct (IH (f x) y Y1 Hy Hfy) as (k & Hk & E).
    + apply (Nat.succ_le_mono _ n). etransitivity; [|exact Hn]. apply subset_size.
      split; [intros z; rewrite !elem_of_filter; lia || (intros [? ?]; split; [lia|done])|].
      intros Hsub. assert (f x ∈ filter (fun z => f x < z <= y) R) by (apply Hsub, elem_of_filter; split; [lia|done]).
      apply elem_of_filter in H as [? _]. lia.
    + exists (S k). split; [lia|]. by rewrite Nat.iter_succ_r.
Qed.
Lemma ring_top f R n : ring f R -> forall x, x ∈ R -> (size (filter (fun z => (x < z)%Z) R) <= n)%nat ->
  exists k, (k <= S n)%nat /\ Nat.iter k f x = base.
Proof.
  intros G. induction n as [|n IH]; intros x Hx Hn.
  - destruct (rg_next _ _ G x Hx) as [(Y1 & Y2 & Y3)|(Y1 & Y2)]; [|exists 1%nat; by split].
    apply Nat.le_0_r, size_empty_inv in Hn. assert (f x ∈ filter (fun z => (x < z)%Z) R) by (by apply elem_of_filter). set_solver.
  - destruct (rg_next _ _ G x Hx) as [(Y1 & Y2 & Y3)|(Y1 & Y2)]; [|exists 1%nat; split; [lia|done]].
    destruct (IH (f x) Y1) as (k & Hk & E).
    + apply (Nat.succ_le_mono _ n). etransitivity; [|exact Hn]. apply subset_size.
      split; [intros z; rewrite !elem_of_filter; intros [? ?]; split; [lia|done]|].
      intros Hsub. assert (f x ∈ filter (fun z => (f x < z)%Z) R) by (by apply Hsub, elem_of_filter).
      apply elem_of_filter in H as [? _]. lia.
    + exists (S k). split; [lia|]. by rewrite Nat.iter_succ_r.
Qed.
Lemma ring_walk f R x y : ring f R -> x ∈ R -> y ∈ R -> exists k, (k <= 2 * size R + 1)%nat /\ Nat.iter k f x = y.
Proof.
  intros G Hx Hy. destruct (ring_top f R (size R) G x Hx) as (k & Hk & E); [apply subseteq_size; intros z Hz; by apply elem_of_filter in Hz as [_ Hz]|].
  destruct (ring_up f R (size R) G base y (rg_base _ _ G) Hy (rg_min _ _ G y Hy)) as (j & Hj & E');
    [apply subseteq_size; intros z Hz; by apply elem_of_filter in Hz as [_ Hz]|].
  exists (j + k)%nat. split; [lia|]. by rewrite Nat.iter_add, E.
Qed.
Lemma ring_closed f R x : ring f R -> x ∈ R -> f x ∈ R.
Proof. intros G Hx. destruct (rg_next _ _ G x Hx) as [(? & _)|(-> & _)]; [done|apply G]. Qed.
End Ring.

(** ** Blocks

    The memory as a list of blocks, in use or free, with their sizes in units. *)
Abbreviation block := (bool * Z)%type.
Fixpoint total (bl : list block) : Z := match bl with [] => 0 | (_, s) :: bl => s + total bl end.
Fixpoint frees (a : Z) (bl : list block) : gset Z :=
  match bl with
  | [] => ∅
  | (used, s) :: bl => (if used : bool then ∅ else {[a]}) ∪ frees (a + 8 * s) bl
  end.
(** The blocks in use, with their addresses. *)
Fixpoint in_use (a : Z) (bl : list block) : list (Z * Z) :=
  match bl with
  | [] => []
  | (used, s) :: bl => (if used : bool then [(a, s)] else []) ++ in_use (a + 8 * s) bl
  end.
(** Every block's header has its size. *)
Fixpoint tiled (g : Z -> Z) (a : Z) (bl : list block) : Prop :=
  match bl with
  | [] => True
  | (_, s) :: bl => 0 < s /\ g a = s /\ tiled g (a + 8 * s) bl
  end.
Definition starts_free (bl : list block) : bool := match bl with (false, _) :: _ => true | _ => false end.
Fixpoint ends_free (bl : list block) : bool :=
  match bl with [] => false | [(used, _)] => negb used | _ :: bl => ends_free bl end.
(** No two neighbours are free. *)
Fixpoint coalesced (bl : list block) : Prop :=
  match bl with
  | [] => True
  | (used, _) :: bl => (used = false -> starts_free bl = false) /\ coalesced bl
  end.

Lemma total_app a b : total (a ++ b) = total a + total b.
Proof. induction a as [|[u s] a IH]; simpl; [done|]. rewrite IH. lia. Qed.
Lemma frees_app a b x : frees a (b ++ x) = frees a b ∪ frees (a + 8 * total b) x.
Proof.
  revert a. induction b as [|[u s] b IH]; intros a; simpl; [rewrite Z.add_0_r; set_solver|].
  rewrite IH. replace (a + 8 * s + 8 * total b) with (a + 8 * (s + total b)) by lia. set_solver.
Qed.
Lemma in_use_app a b x : in_use a (b ++ x) = in_use a b ++ in_use (a + 8 * total b) x.
Proof.
  revert a. induction b as [|[u s] b IH]; intros a; simpl; [by rewrite Z.add_0_r|].
  rewrite IH, (assoc_L app). replace (a + 8 * s + 8 * total b) with (a + 8 * (s + total b)) by lia. done.
Qed.
Lemma tiled_app g a b x : tiled g a (b ++ x) <-> tiled g a b /\ tiled g (a + 8 * total b) x.
Proof.
  revert a. induction b as [|[u s] b IH]; intros a; simpl; [rewrite Z.add_0_r; tauto|].
  rewrite IH. replace (a + 8 * s + 8 * total b) with (a + 8 * (s + total b)) by lia. tauto.
Qed.
Lemma ends_free_app b x : ends_free (b ++ x) = match x with [] => ends_free b | _ => ends_free x end.
Proof.
  induction b as [|[u s] b IH]; [by destruct x|]. destruct x as [|y x]; [by rewrite app_nil_r|].
  cbn [app ends_free]. destruct b; simpl in *; [done|]. by rewrite IH.
Qed.
Lemma starts_free_app b x : starts_free (b ++ x) = match b with [] => starts_free x | _ => starts_free b end.
Proof. by destruct b as [|[[] s] b]. Qed.
Lemma coalesced_app b x : coalesced (b ++ x) <-> coalesced b /\ coalesced x /\ (ends_free b = true -> starts_free x = false).
Proof.
  induction b as [|[u s] b IH]; [simpl; intuition discriminate|]. cbn [app coalesced]. rewrite IH, starts_free_app.
  destruct b as [|y b]; [|simpl; tauto]. simpl. destruct u; simpl; intuition discriminate.
Qed.

Lemma total_nonneg g a bl : tiled g a bl -> 0 <= total bl.
Proof. revert a. induction bl as [|[u s] bl IH]; intros a; simpl; [lia|]. intros (H1 & _ & H2). specialize (IH _ H2). lia. Qed.
Lemma frees_split g a bl x : tiled g a bl -> x ∈ frees a bl ->
  exists pre s post, bl = pre ++ (false, s) :: post /\ x = a + 8 * total pre.
Proof.
  revert a. induction bl as [|[u s] bl IH]; intros a; simpl; [set_solver|]. intros (H1 & H2 & H3) Hx.
  apply elem_of_union in Hx as [Hx|Hx].
  - destruct u; [set_solver|]. apply elem_of_singleton in Hx as ->. exists [], s, bl. split; [done|simpl; lia].
  - destruct (IH _ H3 Hx) as (pre & s' & post & -> & ->). exists ((u, s) :: pre), s', post. split; [done|simpl; lia].
Qed.
Lemma in_use_split a bl x s : (x, s) ∈ in_use a bl -> exists pre post, bl = pre ++ (true, s) :: post /\ x = a + 8 * total pre.
Proof.
  revert a. induction bl as [|[u s'] bl IH]; intros a; simpl; [set_solver|]. intros Hx. apply elem_of_app in Hx as [Hx|Hx].
  - destruct u; [|set_solver]. apply list_elem_of_singleton in Hx as [= -> ->]. exists [], bl. split; [done|simpl; lia].
  - destruct (IH _ Hx) as (pre & post & -> & ->). exists ((u, s') :: pre), post. split; [done|simpl; lia].
Qed.
Lemma frees_range g a bl x : tiled g a bl -> x ∈ frees a bl -> a <= x < a + 8 * total bl.
Proof.
  intros T Hx. destruct (frees_split g a bl x T Hx) as (pre & s & post & -> & ->). apply tiled_app in T as [T1 T2].
  pose proof (total_nonneg g a pre T1). rewrite total_app. simpl in *. destruct T2 as (? & _ & T2).
  pose proof (total_nonneg _ _ _ T2). lia.
Qed.
Lemma frees_head g a bl : tiled g a bl -> a ∈ frees a bl -> starts_free bl = true.
Proof.
  intros T Ha. destruct bl as [|[[] s] bl]; simpl in *; [set_solver| |done]. destruct T as (H1 & _ & T).
  apply elem_of_union in Ha as [?|Ha]; [set_solver|]. apply (frees_range _ _ _ _ T) in Ha. lia.
Qed.
Lemma tiled_ext g g' a bl : tiled g a bl ->
  (forall pre b s post, bl = pre ++ (b, s) :: post -> g' (a + 8 * total pre) = g (a + 8 * total pre)) -> tiled g' a bl.
Proof.
  revert a. induction bl as [|[u s] bl IH]; intros a; simpl; [done|]. intros (H1 & H2 & H3) E. split; [done|]. split.
  - specialize (E [] u s bl eq_refl). simpl in E. rewrite Z.add_0_r in E. congruence.
  - apply IH; [done|]. intros pre b s' post ->. specialize (E ((u, s) :: pre) b s' post eq_refl). simpl in E.
    replace (a + 8 * s + 8 * total pre) with (a + 8 * (s + total pre)) by lia. done.
Qed.
(** Changing one size that no block of the list has. *)
Lemma tiled_upd g a bl x v : tiled g a bl -> x < a \/ a + 8 * total bl <= x -> tiled (upd g x v) a bl.
Proof.
  intros T Hx. apply (tiled_ext g); [done|]. intros pre b s post ->. apply upd_ne. apply tiled_app in T as [T1 T2].
  pose proof (total_nonneg _ _ _ T1). rewrite total_app in Hx. simpl in *. destruct T2 as (? & _ & T2).
  pose proof (total_nonneg _ _ _ T2). lia.
Qed.

(** ** The heap represents a list of blocks *)
Section Heap.
Context {W : Type} `{SB : !Sbrk W} (base lo : Z).
Hypothesis Hlo : 0 < base /\ base + 8 <= lo.
Implicit Types (h : heap W) (bl : list block).

(** The places where headers can be: none overlaps another by half. *)
Definition hdr (x : Z) : Prop := x = base \/ (lo <= x /\ (x - lo) mod 8 = 0).
Lemma hdr_half x y : hdr x -> hdr y -> y + 4 <> x.
Proof. unfold hdr. intros Hx Hy E. Z.div_mod_to_equations. lia. Qed.
Lemma hdr_block g pre bl : tiled g lo (pre ++ bl) -> hdr (lo + 8 * total pre).
Proof.
  intros T. apply tiled_app in T as [T _]. pose proof (total_nonneg _ _ _ T). right. split; [lia|].
  replace (lo + 8 * total pre - lo) with (total pre * 8) by lia. by rewrite Z.mod_mul.
Qed.

(** The words hold links [f] and sizes [g]. *)
Definition holds (m : gmap Z Z) (f g : Z -> Z) : Prop := forall x, hdr x -> s_ptr m x = f x /\ s_size m x = g x.
Lemma holds_ptr m f g a v : holds m f g -> hdr a -> holds (<[a := v]> m) (upd f a v) g.
Proof.
  intros H Ha x Hx. destruct (H x Hx) as [H1 H2]. unfold s_ptr, s_size, upd in *. split.
  - destruct (Z.eqb_spec x a) as [->|Hne]; [by rewrite lookup_insert_eq|by rewrite lookup_insert_ne].
  - pose proof (hdr_half a x Ha Hx). by rewrite lookup_insert_ne by congruence.
Qed.
Lemma holds_size m f g a v : holds m f g -> hdr a -> holds (<[a + 4 := v]> m) f (upd g a v).
Proof.
  intros H Ha x Hx. destruct (H x Hx) as [H1 H2]. unfold s_ptr, s_size, upd in *. split.
  - pose proof (hdr_half x a Hx Ha). by rewrite lookup_insert_ne by congruence.
  - destruct (Z.eqb_spec x a) as [->|Hne]; [by rewrite lookup_insert_eq|by rewrite lookup_insert_ne by lia].
Qed.
Lemma holds_self m : holds m (s_ptr m) (s_size m).
Proof. done. Qed.

Definition ring_set bl : gset Z := {[base]} ∪ frees lo bl.

Record layout (f g : Z -> Z) (bl : list block) : Prop := {
  ly_tiled : tiled g lo bl;
  ly_base : g base = 0;
  ly_ring : ring base f (ring_set bl);
  ly_coalesced : coalesced bl;
  ly_end : lo + 8 * total bl < 4294967296
}.
Record rep h bl : Prop := {
  rp_layout : layout (s_ptr (words h)) (s_size (words h)) bl;
  rp_break : break (os h) = lo + 8 * total bl;
  rp_freep : freep h ∈ ring_set bl
}.

Lemma ring_set_app pre x : ring_set (pre ++ x) = {[base]} ∪ frees lo pre ∪ frees (lo + 8 * total pre) x.
Proof. clear Hlo. unfold ring_set. rewrite frees_app. set_solver. Qed.
Lemma ring_set_hdr g bl x : tiled g lo bl -> x ∈ ring_set bl -> hdr x.
Proof.
  intros T Hx. apply elem_of_union in Hx as [->%elem_of_singleton|Hx]; [by left|].
  destruct (frees_split g lo bl x T Hx) as (pre & s & post & -> & ->). by apply (hdr_block g pre ((false, s) :: post)).
Qed.

(** The free block before a block: the ring's place, and whether they touch. *)
Lemma free_before g pre : tiled g lo pre -> g base = 0 -> exists p, p ∈ {[base]} ∪ frees lo pre /\ hdr p /\
  (forall z, z ∈ {[base]} ∪ frees lo pre -> z <= p) /\ p < lo + 8 * total pre /\ 0 <= g p /\ p + 8 * g p <= lo + 8 * total pre /\
  (p + 8 * g p = lo + 8 * total pre /\ (exists pre', pre = pre' ++ [(false, g p)] /\ p = lo + 8 * total pre') \/
   p + 8 * g p < lo + 8 * total pre /\ ends_free pre = false).
Proof.
  induction pre as [|[u s] pre IH] using rev_ind; intros T G0.
  - exists base. simpl. split_and!; try lia; [set_solver|by left|].
    intros z Hz. apply elem_of_union in Hz as [->%elem_of_singleton|Hz]; [lia|set_solver].
  - pose proof T as T'. apply tiled_app in T as [T1 (T2 & T3 & _)]. destruct (IH T1 G0) as (p & P1 & P2 & P3 & P4 & P4' & P5 & P6).
    rewrite total_app, frees_app, ends_free_app. cbn [total frees ends_free]. destruct u.
    + exists p. split_and!; try lia; [set_solver|done|intros z Hz; apply P3; set_solver].
    + exists (lo + 8 * total pre). split_and!; try lia.
      * set_solver.
      * by apply (hdr_block g pre [(false, s)]).
      * intros z Hz. rewrite (assoc_L (∪)) in Hz. apply elem_of_union in Hz as [Hz|Hz]; [specialize (P3 z Hz); lia|set_solver].
      * left. split; [lia|]. exists pre. by rewrite T3.
Qed.

Lemma find_place_here fuel h R p bp Q : ring base (s_ptr (words h)) R -> before R p bp -> Q p h -> wp (find_place (S fuel) bp p) Q h.
Proof.
  intros G (Hp & Hpb & Hb) HQ. cbn [find_place]. unfold get_ptr. rewrite wp_bind, wp_gets. pose proof (rg_min _ _ _ G p Hp) as Hmin.
  destruct (rg_next _ _ _ G p Hp) as [(Y1 & Y2 & _)|(Y1 & _)].
  - destruct (Hb _ Y1); [lia|]. rewrite (proj2 (Z.ltb_lt p bp)), (proj2 (Z.ltb_lt bp _)) by lia. cbn [andb orb]. by rewrite wp_ret.
  - rewrite Y1, (proj2 (Z.ltb_lt p bp)), (proj2 (Z.ltb_ge bp _)), (proj2 (Z.leb_le _ _)) by lia. cbn [andb orb]. by rewrite wp_ret.
Qed.
Lemma wp_find_place k : forall fuel h R p bp e Q, ring base (s_ptr (words h)) R -> before R p bp -> (bp ∉ R) -> e ∈ R ->
  Nat.iter k (s_ptr (words h)) e = p -> (k < fuel)%nat -> Q p h -> wp (find_place fuel bp e) Q h.
Proof.
  induction k as [|k IH]; intros fuel h R p bp e Q G B Hn He Hit Hf HQ; (destruct fuel as [|fuel]; [lia|]).
  { simpl in Hit. subst e. by apply (find_place_here fuel h R). }
  rewrite Nat.iter_succ_r in Hit. destruct (decide (e = p)) as [->|Hne]; [by apply (find_place_here fuel h R)|].
  pose proof B as (Hp & Hpb & Hb). pose proof (rg_min _ _ _ G p Hp) as Hmin.
  cbn [find_place]. unfold get_ptr. rewrite wp_bind, wp_gets. set (f := s_ptr (words h)) in *.
  assert (E1 : (e <? bp) && (bp <? f e) = false /\ (f e <=? e) && ((e <? bp) || (bp <? f e)) = false).
  { destruct (Hb e He) as [Hep|Hep]; destruct (rg_next _ _ _ G e He) as [(Y1 & Y2 & Y3)|(Y1 & Y3)]; specialize (Y3 p Hp);
      destruct (Z.ltb_spec e bp), (Z.ltb_spec bp (f e)), (Z.leb_spec (f e) e); simpl; split; try done; lia. }
  destruct E1 as [-> ->]. apply (IH _ _ R p); try done; [by apply (ring_closed base)|lia].
Qed.

(** After the right neighbour has been merged: block [bp] of [n1] units is
    followed by [post1], and the ring without it goes from [p] to [v]. *)
Record merged_right (f g : Z -> Z) (pre : list block) (bp p s : Z) (post : list block) (f1 g1 : Z -> Z) (n1 v : Z) (post1 : list block) : Prop := {
  mr_size : g1 bp = n1;
  mr_pos : 0 < n1;
  mr_grown : s <= n1;
  mr_next : f1 = upd f bp v;
  mr_head : starts_free post1 = false;
  mr_coalesced : coalesced post1;
  mr_total : n1 + total post1 = s + total post;
  mr_use : in_use (bp + 8 * n1) post1 = in_use (bp + 8 * s) post;
  mr_pre : tiled g1 lo pre;
  mr_post : tiled g1 (bp + 8 * n1) post1;
  mr_other x : x <> bp -> g1 x = g x;
  mr_ring : ring base (upd f p v) ({[base]} ∪ frees lo pre ∪ frees (bp + 8 * n1) post1)
}.

Section Free.
Context (f g : Z -> Z) (pre post : list block) (s p : Z).
Hypothesis (L : layout f g (pre ++ (true, s) :: post)).
Let bp := lo + 8 * total pre.
Hypotheses (Hp : p ∈ {[base]} ∪ frees lo pre) (Hmax : forall z, z ∈ {[base]} ∪ frees lo pre -> z <= p) (Hpb : p < bp).

Let Tpre : tiled g lo pre.
Proof. by apply (proj1 (tiled_app g lo pre ((true, s) :: post))), ly_tiled with f. Qed.
Let Tpost : 0 < s /\ g bp = s /\ tiled g (bp + 8 * s) post.
Proof. pose proof (ly_tiled _ _ _ L) as T. apply tiled_app in T as [_ T]. exact T. Qed.
Let Cpost : coalesced post.
Proof. pose proof (ly_coalesced _ _ _ L) as C. by apply coalesced_app in C as (_ & [_ C] & _). Qed.
Let R := {[base]} ∪ frees lo pre ∪ frees (bp + 8 * s) post.
Let Gring : ring base f R.
Proof. pose proof (ly_ring _ _ _ L) as G. rewrite ring_set_app in G. cbn [frees] in G. by rewrite (left_id_L ∅ (∪)) in G. Qed.

Lemma free_place : before R p bp /\ (bp ∉ R).
Proof.
  assert (Hpost : forall z, z ∈ frees (bp + 8 * s) post -> bp < z)
    by (intros z Hz; apply (frees_range g) in Hz; [lia|apply Tpost]).
  split.
  - split; [set_solver|]. split; [done|]. intros z Hz. apply elem_of_union in Hz as [Hz|Hz]; [left; by apply Hmax|right; by apply Hpost].
  - intros Hz. apply elem_of_union in Hz as [Hz|Hz]; [specialize (Hmax _ Hz); lia|]. specialize (Hpost _ Hz). lia.
Qed.

Lemma free_next : f p = bp + 8 * s <-> starts_free post = true.
Proof.
  destruct free_place as [(P1 & P2 & P3) Hnb]. destruct Tpost as (Hs & _ & Tp). split.
  - intros E. apply (frees_head g (bp + 8 * s)); [done|]. destruct (rg_next _ _ _ Gring p P1) as [(Y1 & Y2 & _)|(Y1 & _)].
    + rewrite E in Y1. apply elem_of_union in Y1 as [Y1|Y1]; [specialize (Hmax _ Y1); lia|done].
    + pose proof (rg_min _ _ _ Gring p P1). lia.
  - intros Hf. assert (E : exists sr post', post = (false, sr) :: post') by (destruct post as [|[[] sr] post']; try done; by exists sr, post').
    destruct E as (sr & post' & E).
    assert (Hin : bp + 8 * s ∈ R) by (unfold R; rewrite E; cbn [frees]; set_solver).
    destruct (rg_next _ _ _ Gring p P1) as [(Y1 & Y2 & Y3)|(Y1 & Y3)]; [|specialize (Y3 _ Hin); lia].
    destruct (Y3 _ Hin) as [?|Hle]; [lia|]. apply elem_of_union in Y1 as [Y1|Y1]; [specialize (Hmax _ Y1); lia|].
    apply (frees_range g) in Y1; [lia|done].
Qed.

Lemma free_right_none : starts_free post = false -> merged_right f g pre bp p s post (upd f bp (f p)) g s (f p) post.
Proof.
  intros H. destruct Tpost as (Hs & Hg & Tp). split; try done.
  apply (ring_ext _ f); [exact Gring|]. intros x _. unfold upd. by destruct (Z.eqb_spec x p) as [->|].
Qed.
Lemma free_right_merge sr post' : post = (false, sr) :: post' ->
  merged_right f g pre bp p s post (upd f bp (f (f p))) (upd g bp (s + g (f p))) (s + sr) (f (f p)) post' /\ g (f p) = sr.
Proof.
  intros E. destruct Tpost as (Hs & Hg & Tp). destruct free_place as [(P1 & P2 & P3) Hnb].
  assert (Hq : f p = bp + 8 * s) by (apply free_next; by rewrite E). rewrite E in Tp, Cpost. cbn [tiled coalesced] in *.
  destruct Tp as (Hsr & Hgr & Tp). destruct Cpost as [Ch C]. rewrite Hq in *. split; [|done].
  pose proof (rg_min _ _ _ Gring p P1) as Hmin.
  assert (ER : R ∖ {[bp + 8 * s]} = {[base]} ∪ frees lo pre ∪ frees (bp + 8 * (s + sr)) post').
  { unfold R. rewrite E. cbn [frees]. replace (bp + 8 * (s + sr)) with (bp + 8 * s + 8 * sr) by lia.
    assert (H1 : bp + 8 * s ∉ {[base]} ∪ frees lo pre) by (intros Hx; specialize (Hmax _ Hx); lia).
    assert (H2 : bp + 8 * s ∉ frees (bp + 8 * s + 8 * sr) post') by (intros Hx; apply (frees_range g) in Hx; [lia|done]).
    set_solver. }
  split.
  - rewrite upd_eq. lia.
  - lia.
  - lia.
  - done.
  - by apply Ch.
  - done.
  - rewrite E. simpl. lia.
  - rewrite E. simpl. by replace (bp + 8 * (s + sr)) with (bp + 8 * s + 8 * sr) by lia.
  - apply tiled_upd; [done|]. right. unfold bp. lia.
  - apply tiled_upd; [by replace (bp + 8 * (s + sr)) with (bp + 8 * s + 8 * sr) by lia|]. left. lia.
  - intros x Hx. by apply upd_ne.
  - rewrite <-ER. pose proof (ring_remove base f R p Gring P1) as H. rewrite Hq in H. apply H. lia.
Qed.
End Free.

(** Then the left neighbour, giving the new list of blocks. *)
Lemma free_left f g pre bp p s post f1 g1 n1 v post1 : merged_right f g pre bp p s post f1 g1 n1 v post1 ->
  bp = lo + 8 * total pre -> coalesced pre -> g base = 0 -> lo + 8 * (total pre + s + total post) < 4294967296 ->
  p ∈ {[base]} ∪ frees lo pre -> (forall z, z ∈ {[base]} ∪ frees lo pre -> z <= p) -> p < bp ->
  (forall z, z ∈ frees (bp + 8 * n1) post1 -> bp < z) ->
  (ends_free pre = false -> exists bl', layout (upd f1 p bp) g1 bl' /\ p ∈ ring_set bl' /\ (exists q, q ∈ ring_set bl' /\ s <= g1 q) /\
     total bl' = total pre + s + total post /\ in_use lo bl' = in_use lo pre ++ in_use (bp + 8 * s) post) /\
  (forall pre', pre = pre' ++ [(false, g p)] -> p = lo + 8 * total pre' ->
   exists bl', layout (upd f1 p v) (upd g1 p (g p + n1)) bl' /\ p ∈ ring_set bl' /\ s <= g p + n1 /\
     total bl' = total pre + s + total post /\ in_use lo bl' = in_use lo pre ++ in_use (bp + 8 * s) post).
Proof.
  intros [M1 M2 Mg M3 M4 M5 M6 M7 M8 M9 M10 M11] Hbp Cpre G0 Hend Hp Hmax Hpb Hpost.
  assert (Hbase : base <= p) by (apply Hmax; set_solver).
  assert (Hnb : bp ∉ {[base]} ∪ frees lo pre ∪ frees (bp + 8 * n1) post1).
  { intros Hz. apply elem_of_union in Hz as [Hz|Hz]; [specialize (Hmax _ Hz); lia|specialize (Hpost _ Hz); lia]. }
  split.
  - intros He. exists (pre ++ (false, n1) :: post1). split; [split|].
    + apply tiled_app. cbn [tiled]. rewrite <-Hbp. done.
    + rewrite M10; [done|]. lia.
    + rewrite ring_set_app, <-Hbp. cbn [frees]. subst f1.
      eapply (ring_ext base (upd (upd (upd f p v) bp (upd f p v p)) p bp)).
      * assert (ES : {[base]} ∪ frees lo pre ∪ ({[bp]} ∪ frees (bp + 8 * n1) post1) =
          {[bp]} ∪ ({[base]} ∪ frees lo pre ∪ frees (bp + 8 * n1) post1)) by set_solver.
        rewrite ES. apply ring_insert; try done. split; [set_solver|]. split; [done|]. intros z Hz.
        apply elem_of_union in Hz as [Hz|Hz]; [left; by apply Hmax|right; by apply Hpost].
      * intros x _. unfold upd. rewrite Z.eqb_refl. by destruct (Z.eqb_spec x p), (Z.eqb_spec x bp).
    + apply coalesced_app. cbn [coalesced starts_free]. split_and!; try done. by rewrite He.
    + rewrite total_app. simpl. lia.
    + split; [rewrite ring_set_app; set_solver|].
      split; [exists bp; split; [rewrite ring_set_app, <-Hbp; cbn [frees]; set_solver|lia]|]. rewrite total_app, in_use_app, <-Hbp. simpl. split; [lia|by rewrite M7].
  - intros pre' -> Ep. rewrite total_app in *. cbn [total] in *. exists (pre' ++ (false, g p + n1) :: post1).
    rewrite (in_use_app lo pre' [(false, g p)]). cbn [in_use app]. rewrite app_nil_r. apply tiled_app in M8 as [T1 (T2 & T3 & _)].
    rewrite <-Ep in *. assert (Hbp' : p + 8 * (g p + n1) = bp + 8 * n1) by lia. split; [split|].
    + apply tiled_app. cbn [tiled]. rewrite <-Ep, upd_eq, Hbp'. split; [apply tiled_upd; [done|right; lia]|]. split; [lia|].
      split; [done|]. apply tiled_upd; [done|left; lia].
    + rewrite frees_app in Hmax. unfold upd. destruct (Z.eqb_spec base p) as [E|E]; [|rewrite M10; [done|lia]].
      pose proof (total_nonneg _ _ _ T1). lia.
    + rewrite ring_set_app, <-Ep. cbn [frees]. rewrite Hbp'. subst f1.
      apply (ring_ext base (upd f p v)).
      * rewrite frees_app, <-Ep in M11. cbn [frees] in M11. rewrite (right_id_L ∅ (∪)) in M11.
        by rewrite !(assoc_L (∪)) in *.
      * intros x Hx. unfold upd. destruct (Z.eqb_spec x p); [done|]. destruct (Z.eqb_spec x bp) as [->|]; [|done].
        exfalso. apply Hnb. rewrite frees_app, <-Ep. cbn [frees]. set_solver.
    + apply coalesced_app in Cpre as (C1 & _ & C2). apply coalesced_app. cbn [coalesced starts_free] in *. done.
    + rewrite total_app. simpl. lia.
    + split; [rewrite ring_set_app, <-Ep; cbn [frees]; set_solver|]. split; [lia|]. rewrite total_app, in_use_app, <-Ep. simpl. split; [lia|].
      by rewrite Hbp', M7.
Qed.

(** Headers are outside the payload of the blocks in use. *)
Definition header_of bl (y : Z) : Prop := y = base \/ exists pre b post, bl = pre ++ b :: post /\ y = lo + 8 * total pre.
Definition payload (a s x : Z) : Prop := a + 8 <= x < a + 8 * s.

Lemma header_apart g bl a s y x : tiled g lo bl -> (a, s) ∈ in_use lo bl -> header_of bl y -> payload a s x -> x <> y /\ x <> y + 4.
Proof.
  intros T Ha Hy Hx. unfold payload in Hx. destruct (in_use_split _ _ _ _ Ha) as (pre & post & -> & ->).
  assert (Hpre : 0 <= total pre) by (apply tiled_app in T as [T _]; by eapply total_nonneg).
  destruct Hy as [->|(pre1 & [u s1] & post1 & E & ->)]; [lia|].
  assert (Hc : total pre1 <= total pre \/ total pre + s <= total pre1); [|lia].
  apply app_eq_app in E as (k & [[E1 E2]|[E1 E2]]).
  - left. rewrite E1, total_app. apply tiled_app in T as [T _]. rewrite E1 in T. apply tiled_app in T as [_ T].
    pose proof (total_nonneg _ _ _ T). lia.
  - destruct k as [|[u2 s2] k]; [left; rewrite E1, total_app; simpl; lia|]. injection E2 as <- <- E2. right. rewrite E1, total_app.
    rewrite E2 in T. apply tiled_app in T as [_ T]. cbn [tiled] in T. destruct T as (_ & _ & T). apply tiled_app in T as [T _].
    pose proof (total_nonneg _ _ _ T). simpl. lia.
Qed.
Lemma ring_set_header g bl y : tiled g lo bl -> y ∈ ring_set bl -> header_of bl y.
Proof.
  intros T Hy. apply elem_of_union in Hy as [->%elem_of_singleton|Hy]; [by left|right].
  destruct (frees_split g lo bl y T Hy) as (pre & s & post & -> & ->). by eexists _, _, _.
Qed.

(** The words of the blocks in use are the same. *)
Definition keeps_payload (m m' : gmap Z Z) bl : Prop := forall a s x, (a, s) ∈ in_use lo bl -> payload a s x -> m' !! x = m !! x.

Lemma layout_holds m f g bl : layout f g bl -> holds m f g -> layout (s_ptr m) (s_size m) bl.
Proof.
  intros [L1 L2 L3 L4 L5] H. split; try done.
  - apply (tiled_ext g); [done|]. intros pre b s post ->. by apply H, (hdr_block g pre ((b, s) :: post)).
  - rewrite <-L2. apply H. by left.
  - apply (ring_ext _ f); [done|]. intros x Hx. apply H. by apply (ring_set_hdr g bl).
Qed.

Lemma wp_assoc {A B C} (m : M (heap W) A) (k : A -> M (heap W) B) (l : B -> M (heap W) C) Q h :
  wp (a ← m; b ← k a; l b) Q h <-> wp (b ← (a ← m; k a); l b) Q h.
Proof. unfold wp, mbind, M_bind. by destruct (m h) as [[a h']| | |]. Qed.

(** The two halves of free after the place has been found. *)
Section Halves.
Context (pre post : list block) (s p : Z) (f g : Z -> Z).
Let bp := lo + 8 * total pre.
Hypotheses (L : layout f g (pre ++ (true, s) :: post)) (P1 : p ∈ {[base]} ∪ frees lo pre)
  (P3 : forall z, z ∈ {[base]} ∪ frees lo pre -> z <= p) (P4 : p < bp) (Hp : hdr p) (Hbp : hdr bp).

Lemma wp_merge_right h Q : holds (words h) f g ->
  (forall m1 f1 g1 n1 v post1, merged_right f g pre bp p s post f1 g1 n1 v post1 -> holds m1 f1 g1 ->
     (forall x, x <> bp -> x <> bp + 4 -> m1 !! x = words h !! x) -> Q tt (Heap m1 (freep h) (os h))) ->
  wp (if plus bp s =? f p then k ← get_size (f p); set_size bp (u32 (s + k)) ;; r ← get_ptr (f p); set_ptr bp r
      else set_ptr bp (f p)) Q h.
Proof.
  intros H HQ. pose proof (ly_tiled _ _ _ L) as T. apply tiled_app in T as [Tpre (Hs & Hg & Tpost)].
  pose proof (total_nonneg _ _ _ Tpre) as Hn1. pose proof (total_nonneg _ _ _ Tpost) as Hn2. pose proof (ly_end _ _ _ L) as Hend.
  rewrite total_app in Hend. cbn [total] in Hend. fold bp in Hg, Tpost.
  assert (Hplus : plus bp s = bp + 8 * s) by (unfold plus, HEADER; apply u32_small; lia). rewrite Hplus.
  pose proof (free_next f g pre post s p L P1 P3 P4) as Hnext. fold bp in Hnext.
  destruct (starts_free post) eqn:Est.
  - assert (E : exists sr post', post = (false, sr) :: post') by (destruct post as [|[[] sr] post']; try done; by exists sr, post').
    destruct E as (sr & post' & E). destruct (free_right_merge f g pre post s p L P1 P3 P4 sr post' E) as [MR Hsr]. fold bp in MR.
    rewrite (proj2 Hnext eq_refl), Z.eqb_refl. rewrite E in Hend, Tpost. cbn [total tiled] in Hend, Tpost. destruct Tpost as (Hsr0 & _ & T').
    pose proof (total_nonneg _ _ _ T'). rewrite <-(proj2 Hnext eq_refl).
    assert (Hq : hdr (f p)).
    { rewrite (proj2 Hnext eq_refl). right. unfold bp. split; [lia|].
      replace (lo + 8 * total pre + 8 * s - lo) with ((total pre + s) * 8) by lia. by rewrite Z.mod_mul. }
    unfold get_size, get_ptr, set_size, set_ptr. rewrite wp_bind, wp_gets. destruct (H _ Hq) as [_ ->].
    rewrite wp_bind, wp_modify, wp_bind, wp_gets, wp_modify. cbn [words freep os].
    rewrite (u32_small (s + g (f p))) by lia.
    pose proof (holds_size _ _ _ bp (s + g (f p)) H Hbp) as H1. destruct (H1 _ Hq) as [-> _].
    eapply HQ; [exact MR|by apply holds_ptr|]. intros x X1 X2. by rewrite !lookup_insert_ne.
  - destruct (Z.eqb_spec (bp + 8 * s) (f p)) as [E|E]; [symmetry in E; by apply Hnext in E|].
    unfold set_ptr. rewrite wp_modify. eapply HQ; [by apply (free_right_none f g pre post s p L)|by apply holds_ptr|].
    intros x X1 X2. by rewrite lookup_insert_ne.
Qed.

Lemma wp_merge_left h f1 g1 n1 v post1 Q : merged_right f g pre bp p s post f1 g1 n1 v post1 -> holds (words h) f1 g1 ->
  (p + 8 * g p = bp /\ (exists pre', pre = pre' ++ [(false, g p)] /\ p = lo + 8 * total pre') \/ p + 8 * g p < bp /\ ends_free pre = false) ->
  0 <= g p ->
  (forall m2 bl', layout (s_ptr m2) (s_size m2) bl' -> p ∈ ring_set bl' -> (exists q, q ∈ ring_set bl' /\ s <= s_size m2 q) -> total bl' = total pre + s + total post ->
     in_use lo bl' = in_use lo pre ++ in_use (bp + 8 * s) post ->
     (forall x, x <> p -> x <> p + 4 -> m2 !! x = words h !! x) -> Q tt (Heap m2 (freep h) (os h))) ->
  wp (k ← get_size p; (if plus p k =? bp then n ← get_size bp; set_size p (u32 (k + n)) ;; r ← get_ptr bp; set_ptr p r
      else set_ptr p bp)) Q h.
Proof.
  intros M H Hcase Hgp HQ. pose proof (ly_tiled _ _ _ L) as T. apply tiled_app in T as [Tpre (Hs & Hg & Tpost)].
  pose proof (total_nonneg _ _ _ Tpre) as Hn1. pose proof (ly_end _ _ _ L) as Hend. rewrite total_app in Hend. cbn [total] in Hend.
  pose proof (ly_coalesced _ _ _ L) as C. apply coalesced_app in C as (C1 & _ & _).
  pose proof (total_nonneg _ _ _ (mr_post _ _ _ _ _ _ _ _ _ _ _ _ M)) as Hn3. pose proof (mr_total _ _ _ _ _ _ _ _ _ _ _ _ M) as Htot.
  pose proof (mr_pos _ _ _ _ _ _ _ _ _ _ _ _ M) as Hpos.
  destruct (free_left f g pre bp p s post f1 g1 n1 v post1 M eq_refl C1 (ly_base _ _ _ L) ltac:(lia) P1 P3 P4) as [Hno Hyes].
  { intros z Hz. apply (frees_range g1) in Hz; [lia|apply M]. }
  assert (Hgk : s_size (words h) p = g p).
  { destruct (H p Hp) as [_ ->]. apply (mr_other _ _ _ _ _ _ _ _ _ _ _ _ M). lia. }
  unfold get_size, get_ptr, set_size, set_ptr. rewrite wp_bind, wp_gets, Hgk.
  assert (Hle : p + 8 * g p <= bp) by (destruct Hcase as [[? _]|[? _]]; lia). pose proof (total_nonneg _ _ _ Tpost) as Hn2.
  assert (Hpl : plus p (g p) = p + 8 * g p) by (unfold plus, HEADER; apply u32_small; unfold hdr, bp in *; lia). rewrite Hpl.
  destruct Hcase as [[E (pre' & E1 & E2)]|[E E1]].
  - rewrite (proj2 (Z.eqb_eq _ _) E), wp_bind, wp_gets, wp_bind, wp_modify, wp_bind, wp_gets, wp_modify. cbn [words freep os].
    destruct (H bp Hbp) as [Hf1 ->]. rewrite (mr_size _ _ _ _ _ _ _ _ _ _ _ _ M), u32_small by (unfold hdr, bp in *; lia).
    pose proof (holds_size _ _ _ p (g p + n1) H Hp) as H1. destruct (H1 bp Hbp) as [-> _].
    assert (f1 bp = v) as -> by (rewrite (mr_next _ _ _ _ _ _ _ _ _ _ _ _ M); apply upd_eq).
    destruct (Hyes pre' E1 E2) as (bl' & LY & R1 & Rq & R2 & R3). pose proof (holds_ptr _ _ _ p v H1 Hp) as H2.
    eapply (HQ _ bl'); try done.
    + by eapply layout_holds.
    + exists p. split; [done|]. destruct (H2 p Hp) as [_ ->]. by rewrite upd_eq.
    + intros x X1 X2. by rewrite !lookup_insert_ne.
  - rewrite (proj2 (Z.eqb_neq _ _)) by lia. rewrite wp_modify. destruct (Hno E1) as (bl' & LY & R1 & (q & Q1 & Q2) & R2 & R3).
    pose proof (holds_ptr _ _ _ p bp H Hp) as H2. eapply (HQ _ bl'); try done.
    + by eapply layout_holds.
    + exists q. split; [done|]. destruct (H2 q) as [_ ->]; [|done]. eapply ring_set_hdr; [apply LY|done].
    + intros x X1 X2. by rewrite lookup_insert_ne.
Qed.
End Halves.

Lemma wp_free fuel h pre s post Q : rep h (pre ++ (true, s) :: post) ->
  (2 * size (ring_set (pre ++ (true, s) :: post)) + 1 < fuel)%nat ->
  (forall h' bl', rep h' bl' -> os h' = os h -> (exists q, q ∈ ring_set bl' /\ s <= s_size (words h') q) -> total bl' = total pre + s + total post ->
    in_use lo bl' = in_use lo pre ++ in_use (lo + 8 * total pre + 8 * s) post ->
    keeps_payload (words h) (words h') bl' -> Q tt h') ->
  wp (free fuel (lo + 8 * total pre + 8)) Q h.
Proof.
  intros [L B Fp] Hf HQ. set (bl := pre ++ (true, s) :: post) in *. set (f := s_ptr (words h)) in *. set (g := s_size (words h)) in *.
  pose proof (ly_tiled _ _ _ L) as T. pose proof T as T'. apply tiled_app in T' as [Tpre (Hs & Hg & Tpost)].
  destruct (free_before g pre Tpre (ly_base _ _ _ L)) as (p & P1 & P2 & P3 & P4 & P4' & P5 & P6).
  pose proof (total_nonneg _ _ _ Tpre) as Hn1. pose proof (total_nonneg _ _ _ Tpost) as Hn2. pose proof (ly_end _ _ _ L) as Hend.
  unfold bl in Hend. rewrite total_app in Hend. cbn [total] in Hend. pose proof (hdr_block g pre _ T) as Hbp.
  set (bp := lo + 8 * total pre) in *. destruct (free_place f g pre post s p L P1 P3 P4) as [Bf Hnb].
  assert (ER : {[base]} ∪ frees lo pre ∪ frees (bp + 8 * s) post = ring_set bl).
  { unfold bl. rewrite ring_set_app. cbn [frees]. by rewrite (left_id_L ∅ (∪)). }
  unfold free. unfold HEADER. replace (u32 (bp + 8 - 8)) with bp by (rewrite u32_small; lia). rewrite wp_bind, wp_gets, wp_bind.
  destruct (ring_walk base f (ring_set bl) (freep h) p (ly_ring _ _ _ L) Fp) as (k & Hk & Hit); [rewrite <-ER; set_solver|].
  apply (wp_find_place k fuel h (ring_set bl) p bp); try done; [apply L|by rewrite <-ER|by rewrite <-ER|lia|].
  rewrite wp_bind. change (get_size bp) with (gets (fun h : heap W => s_size (words h) bp)) at 1. rewrite wp_gets, wp_bind.
  change (get_ptr p) with (gets (fun h : heap W => s_ptr (words h) p)) at 1. rewrite wp_gets. fold f g. rewrite Hg, wp_bind.
  apply (wp_merge_right pre post s p f g L P1 P3 P4 Hbp h); [done|]. intros m1 f1 g1 n1 v post1 M H1 K1.
  rewrite wp_assoc, wp_bind.
  apply (wp_merge_left pre post s p f g L P1 P3 P4 P2 Hbp (Heap m1 (freep h) (os h)) f1 g1 n1 v post1); try done.
  intros m2 bl' LY R1 Rq R2 R3 K2. unfold set_freep. rewrite wp_modify. apply (HQ _ bl'); try done.
  - split; [done| |done]. cbn [os]. rewrite B, R2. unfold bl. rewrite total_app. simpl. lia.
  - intros a sz x Ha Hx. rewrite R3 in Ha. cbn [words] in *.
    assert (Ha' : (a, sz) ∈ in_use lo bl) by (unfold bl; rewrite in_use_app; cbn [in_use]; set_solver).
    destruct (header_apart g bl a sz bp x T Ha') as [X1 X2]; [right; by eexists _, _, _|done|].
    destruct (header_apart g bl a sz p x T Ha') as [X3 X4]; [apply (ring_set_header g); [done|rewrite <-ER; set_solver]|done|].
    by rewrite K2, K1.
Qed.
End Heap.
