(* ===== verification/UmallocSim.v ===== *)
(** * malloc and free implement an allocator

    malloc walks the ring of free blocks from the last place, takes a block that
    is large enough or the end of a larger one, and asks the kernel for more when
    it has come round.  The specification is a client's view: the blocks it holds
    and what it has stored in them. *)
From S2P Require Import Prelude Umalloc UmallocProps.

Open Scope Z_scope.

(** ** The size of the ring *)
Lemma frees_bound a bl : coalesced bl -> (size (frees a bl) + (if starts_free bl then 0 else 1) <= S (length (in_use a bl)))%nat.
Proof.
  revert a. induction bl as [|[u s] bl IH]; intros a; [intros _; cbn [frees starts_free in_use length]; rewrite size_empty; lia|]. cbn [coalesced frees in_use starts_free].
  intros [H1 H2]. specialize (IH (a + 8 * s) H2). destruct u; cbn [app length].
  - rewrite (left_id_L ∅ (∪)). destruct (starts_free bl); lia.
  - rewrite H1 in IH by done. pose proof (size_union_alt {[a]} (frees (a + 8 * s) bl)) as E. rewrite size_singleton in E.
    pose proof (subseteq_size (frees (a + 8 * s) bl ∖ {[a]}) (frees (a + 8 * s) bl) ltac:(set_solver)). lia.
Qed.

Lemma set_drop (A C : gset Z) p : p ∉ A -> p ∉ C -> (A ∪ ({[p]} ∪ C)) ∖ {[p]} = A ∪ C.
Proof. set_solver. Qed.

Section Malloc.
Context {W : Type} `{SB : !Sbrk W} (base lo : Z).
Hypothesis Hlo : 0 < base /\ base + 8 <= lo.
Implicit Types (h : heap W) (bl : list block).

Lemma ring_set_bound f g bl : layout base lo f g bl -> (size (ring_set base lo bl) <= 2 + length (in_use lo bl))%nat.
Proof.
  intros L. pose proof (frees_bound lo bl (ly_coalesced _ _ _ _ _ L)) as H. unfold ring_set.
  pose proof (size_union_alt {[base]} (frees lo bl)) as E. rewrite size_singleton in E.
  pose proof (subseteq_size (frees lo bl ∖ {[base]}) (frees lo bl) ltac:(set_solver)). lia.
Qed.

(** ** Taking a block *)
(** A block of [n] units has been taken at [a]. *)
Definition taken h bl (n a : Z) h' bl' : Prop :=
  rep base lo h' bl' /\ in_use lo bl' ≡ₚ (a, n) :: in_use lo bl /\ keeps_payload lo (words h) (words h') bl.

Section Take.
Context h bl (f g : Z -> Z) (prevp p n : Z).
Hypotheses (R : rep base lo h bl) (Ef : s_ptr (words h) = f) (Eg : s_size (words h) = g) (Hprev : prevp ∈ ring_set base lo bl).
Hypotheses (Hp : f prevp = p) (Hn : 0 < n) (Hbig : n <= g p).

Lemma take_split : exists pre post, bl = pre ++ (false, g p) :: post /\ p = lo + 8 * total pre /\ p <> base /\ prevp <> p /\
  0 <= total pre /\ 0 <= total post /\ lo + 8 * (total pre + g p + total post) < 4294967296.
Proof.
  destruct R as [L B Fp]. rewrite Ef, Eg in L. pose proof (ly_ring _ _ _ _ _ L) as G. pose proof (ly_tiled _ _ _ _ _ L) as T.
  assert (Hpr : p ∈ ring_set base lo bl) by (rewrite <-Hp; by apply (ring_closed base)).
  assert (Hpb : p <> base) by (intros E; rewrite E in Hbig; pose proof (ly_base _ _ _ _ _ L); lia).
  unfold ring_set in Hpr. apply elem_of_union in Hpr as [?%elem_of_singleton|Hpr]; [done|].
  destruct (frees_split g lo bl p T Hpr) as (pre & s & post & -> & E). exists pre, post. apply tiled_app in T as [T1 (T2 & T3 & T4)].
  rewrite <-E in T3. rewrite T3. pose proof (ly_end _ _ _ _ _ L) as Hend. rewrite total_app in Hend. cbn [total] in Hend.
  pose proof (total_nonneg _ _ _ T1). pose proof (total_nonneg _ _ _ T4). split_and!; try done; try lia.
  destruct (rg_next _ _ _ G prevp Hprev) as [(_ & ? & _)|(? & _)]; [lia|congruence].
Qed.

(** The whole block. *)
Lemma take_whole : g p = n -> exists bl', taken h bl n p (Heap (<[prevp := f p]> (words h)) prevp (os h)) bl'.
Proof.
  intros E. destruct take_split as (pre & post & Ebl & Ep & Hpb & Hne & Hp0 & Hp1 & Hend). pose proof R as [L B Fp]. rewrite Ef, Eg in L.
  pose proof (ly_tiled _ _ _ _ _ L) as T. assert (Hh : hdr base lo prevp) by (by apply (ring_set_hdr base lo g bl)).
  pose proof (holds_self base lo (words h)) as H0. rewrite Ef, Eg in H0. pose proof (holds_ptr base lo Hlo _ f g prevp (f p) H0 Hh) as H.
  assert (L' : layout base lo (upd f prevp (f p)) g (pre ++ (true, g p) :: post) /\ prevp ∈ ring_set base lo (pre ++ (true, g p) :: post)).
  { destruct L as [L1 L2 L3 L4 L5].
    assert (ER : ring_set base lo bl ∖ {[p]} = ring_set base lo (pre ++ (true, g p) :: post)).
    { rewrite Ebl, !ring_set_app. cbn [frees]. rewrite Ebl in T. apply tiled_app in T as [T1 (T2 & T3 & T4)]. rewrite <-Ep in *.
      rewrite (left_id_L ∅ (∪)). apply set_drop.
      - intros Hx. apply elem_of_union in Hx as [?%elem_of_singleton|Hx]; [done|]. apply (frees_range g) in Hx; [lia|done].
      - intros Hx. apply (frees_range g) in Hx; [lia|done]. }
    split; [split|rewrite <-ER; set_solver].
    - rewrite Ebl in L1. apply tiled_app. by apply tiled_app in L1.
    - done.
    - rewrite <-ER, <-Hp. apply (ring_remove base f _ prevp); congruence.
    - rewrite Ebl in L4. apply coalesced_app. apply coalesced_app in L4 as (C1 & [_ C2] & _). by split_and!.
    - rewrite total_app. simpl. lia. }
  exists (pre ++ (true, g p) :: post). destruct L' as [L' Hin]. split; [|split].
  - split; [by eapply layout_holds| |done]. cbn [os]. rewrite B, Ebl, !total_app. done.
  - rewrite Ebl, !in_use_app. cbn [in_use app]. rewrite <-Ep, E. symmetry. apply Permutation_middle.
  - intros a s x Ha Hx. cbn [words]. destruct (header_apart base lo Hlo g bl a s prevp x T Ha) as [X1 X2]; [|done|].
    { by apply (ring_set_header base lo g). }
    by rewrite lookup_insert_ne.
Qed.

(** The end of a larger block. *)
Lemma take_end : n < g p ->
  exists bl', taken h bl n (p + 8 * (g p - n)) (Heap (<[p + 8 * (g p - n) + 4 := n]> (<[p + 4 := g p - n]> (words h))) prevp (os h)) bl'.
Proof.
  intros E. destruct take_split as (pre & post & Ebl & Ep & Hpb & Hne & Hp0 & Hp1 & Hend). pose proof R as [L B Fp]. rewrite Ef, Eg in L.
  set (a := p + 8 * (g p - n)). set (bl' := pre ++ (false, g p - n) :: (true, n) :: post).
  pose proof (ly_tiled _ _ _ _ _ L) as T. pose proof T as T'. rewrite Ebl in T'. apply tiled_app in T' as [T1 (T2 & T3 & T4)]. rewrite <-Ep in *.
  assert (Hh : hdr base lo p) by (rewrite Ep; rewrite Ebl in T; by apply (hdr_block base lo g pre ((false, g p) :: post))).
  assert (T' : tiled (upd (upd g p (g p - n)) a n) lo bl').
  { apply tiled_app. cbn [tiled]. rewrite <-Ep. fold a. rewrite upd_eq. replace (a + 8 * n) with (p + 8 * g p) by (unfold a; lia).
    rewrite (upd_ne _ a), upd_eq by (unfold a; lia). split_and!; try lia; try done.
    - do 2 (apply tiled_upd; [|right; unfold a; lia]). done.
    - do 2 (apply tiled_upd; [|left; unfold a; lia]). done. }
  assert (Ha : hdr base lo a) by (unfold hdr, a; right; split; [lia|];
    replace (p + 8 * (g p - n) - lo) with ((total pre + (g p - n)) * 8) by lia; by rewrite Z.mod_mul).
  pose proof (holds_self base lo (words h)) as H0. rewrite Ef, Eg in H0.
  pose proof (holds_size base lo Hlo _ _ _ a n (holds_size base lo Hlo _ f g p (g p - n) H0 Hh) Ha) as H.
  assert (ER : ring_set base lo bl' = ring_set base lo bl).
  { unfold bl'. rewrite Ebl, !ring_set_app. cbn [frees]. rewrite <-Ep. replace (p + 8 * (g p - n) + 8 * n) with (p + 8 * g p) by lia. set_solver. }
  exists bl'. split; [|split].
  - destruct L as [L1 L2 L3 L4 L5]. split; [|cbn [os]; rewrite B, Ebl; unfold bl'; rewrite !total_app; simpl; lia|by rewrite ER].
    eapply layout_holds; [|exact H]. split.
    + done.
    + rewrite !upd_ne; [done|lia|unfold a; lia].
    + by rewrite ER.
    + rewrite Ebl in L4. unfold bl'. apply coalesced_app. apply coalesced_app in L4 as (C1 & [_ C2] & C3). by split_and!.
    + unfold bl'. rewrite total_app. simpl. lia.
  - unfold bl'. rewrite Ebl, !in_use_app. cbn [in_use app]. rewrite <-Ep. fold a. replace (a + 8 * n) with (p + 8 * g p) by (unfold a; lia).
    symmetry. apply Permutation_middle.
  - intros a' s x Ha' Hx. cbn [words]. rewrite Ebl in Ha'.
    assert (Hin : (a', s) ∈ in_use lo bl') by (unfold bl'; rewrite in_use_app in *; cbn [in_use app] in *; rewrite <-Ep in *;
      replace (p + 8 * (g p - n) + 8 * n) with (p + 8 * g p) by lia; set_solver).
    destruct (header_apart base lo Hlo _ bl' a' s p x T' Hin) as [X1 X2]; [right; eexists pre, _, _; split; [reflexivity|done]|done|].
    destruct (header_apart base lo Hlo _ bl' a' s a x T' Hin) as [X3 X4]; [|done|by rewrite !lookup_insert_ne].
    right. exists (pre ++ [(false, g p - n)]), (true, n), post. unfold bl', a. rewrite <-(assoc_L app), total_app. split; [done|simpl; lia].
Qed.

Lemma wp_take Q : (forall a h' bl', taken h bl n a h' bl' -> Q (a + 8) h') ->
  wp (r ← (if g p =? n then q ← get_ptr p; set_ptr prevp q ;; mret p
           else set_size p (u32 (g p - n)) ;; m ← get_size p; set_size (plus p m) n ;; mret (plus p m));
      set_freep prevp ;; mret (plus r 1)) Q h.
Proof.
  intros HQ. destruct take_split as (pre & post & Ebl & Ep & Hpb & Hne & Hp0 & Hp1 & Hend).
  unfold get_ptr, get_size, set_ptr, set_size, set_freep, plus, HEADER. rewrite wp_bind. destruct (Z.eqb_spec (g p) n) as [E|E].
  - rewrite wp_bind, wp_gets, wp_bind, wp_modify, wp_ret, wp_bind, wp_modify, wp_ret. cbn [words freep os].
    rewrite Ef, (u32_small (p + _)) by lia. destruct (take_whole E) as [bl' H]. apply (HQ p _ bl' H).
  - rewrite wp_bind, wp_modify, wp_bind, wp_gets, wp_bind, wp_modify, wp_ret, wp_bind, wp_modify, wp_ret. cbn [words freep os].
    rewrite (u32_small (g p - n)) by lia.
    assert (Em : s_size (<[p + 4:=g p - n]> (words h)) p = g p - n) by (unfold s_size; by rewrite lookup_insert_eq). rewrite Em.
    rewrite !(u32_small (p + _)), u32_small by lia. destruct take_end as [bl' H]; [lia|]. by apply (HQ (p + 8 * (g p - n)) _ bl').
Qed.
End Take.

(** ** The walk *)
Lemma wp_get_size a Q h : wp (get_size a) Q h <-> Q (s_size (words h) a) h.
Proof. exact (wp_gets _ Q h). Qed.
Lemma wp_get_ptr a Q h : wp (get_ptr a) Q h <-> Q (s_ptr (words h) a) h.
Proof. exact (wp_gets _ Q h). Qed.

Section Walk.
Context h bl (prevp n : Z).
Hypotheses (R : rep base lo h bl) (Hprev : prevp ∈ ring_set base lo bl) (Hn : 0 < n).
Let p := s_ptr (words h) prevp.

Lemma wp_loop_take fuel Q : n <= s_size (words h) p -> (forall a h' bl', taken h bl n a h' bl' -> Q (a + 8) h') ->
  wp (malloc_loop (S fuel) n prevp p) Q h.
Proof.
  intros Hb HQ. cbn [malloc_loop]. rewrite wp_bind, wp_get_size, (proj2 (Z.leb_le _ _) Hb).
  by apply (wp_take h bl (s_ptr (words h)) (s_size (words h)) prevp p n R).
Qed.
Lemma wp_loop_next fuel Q : s_size (words h) p < n -> p <> freep h -> wp (malloc_loop fuel n p (s_ptr (words h) p)) Q h ->
  wp (malloc_loop (S fuel) n prevp p) Q h.
Proof.
  intros Hb Hf HQ. cbn [malloc_loop]. rewrite wp_bind, wp_get_size, (proj2 (Z.leb_gt _ _) Hb), wp_bind, wp_gets, (proj2 (Z.eqb_neq _ _) Hf).
  by rewrite wp_bind, wp_get_ptr.
Qed.
Lemma next_in_ring : p ∈ ring_set base lo bl.
Proof. eapply (ring_closed base); [apply R|done]. Qed.
End Walk.

Lemma wp_walk_take j : forall fuel h bl prevp n Q, rep base lo h bl -> prevp ∈ ring_set base lo bl -> 0 < n ->
  (forall i, (i < j)%nat -> Nat.iter i (s_ptr (words h)) (s_ptr (words h) prevp) <> freep h) ->
  n <= s_size (words h) (Nat.iter j (s_ptr (words h)) (s_ptr (words h) prevp)) -> (j < fuel)%nat ->
  (forall a h' bl', taken h bl n a h' bl' -> Q (a + 8) h') -> wp (malloc_loop fuel n prevp (s_ptr (words h) prevp)) Q h.
Proof.
  induction j as [|j IH]; intros fuel h bl prevp n Q R Hprev Hn Hfree Hj Hf HQ; (destruct fuel as [|fuel]; [lia|]);
    destruct (decide (n <= s_size (words h) (s_ptr (words h) prevp))) as [Hb|Hb]; try by apply (wp_loop_take h bl).
  apply wp_loop_next; [lia|by apply (Hfree 0%nat); lia|]. rewrite Nat.iter_succ_r in Hj.
  apply (IH fuel h bl); try done; [by apply next_in_ring| |lia]. intros i Hi. rewrite <-Nat.iter_succ_r. apply Hfree. lia.
Qed.

(** From anywhere, a block is met before the walk comes back to the start. *)
Lemma first_hit {A} `{EqDecision A} (f : A -> A) x z k : Nat.iter k f x = z ->
  exists m, (m <= k)%nat /\ Nat.iter m f x = z /\ forall i, (i < m)%nat -> Nat.iter i f x <> z.
Proof.
  revert x. induction k as [|k IH]; intros x Hk.
  - exists 0%nat. split_and!; [done|done|lia].
  - destruct (decide (x = z)) as [->|Hne]; [exists 0%nat; split_and!; [lia|done|lia]|]. rewrite Nat.iter_succ_r in Hk.
    destruct (IH (f x) Hk) as (m & Hm & E1 & E2). exists (S m). rewrite Nat.iter_succ_r. split_and!; [lia|done|].
    intros [|i] Hi; [done|]. rewrite Nat.iter_succ_r. apply E2. lia.
Qed.
Lemma iter_period {A} (f : A -> A) x m j : Nat.iter (S m) f x = x -> Nat.iter j f x = Nat.iter (j mod S m) f x.
Proof.
  intros E. assert (Ej : j = (j mod S m + S m * (j / S m))%nat) by (pose proof (Nat.div_mod j (S m) ltac:(lia)); lia).
  transitivity (Nat.iter (j mod S m + S m * (j / S m))%nat f x); [by f_equal|]. rewrite Nat.iter_add. clear Ej. apply (f_equal (Nat.iter (j mod S m) f)).
  induction (j / S m)%nat as [|q IH]; [by rewrite Nat.mul_0_r|]. rewrite Nat.mul_succ_r, Nat.add_comm, Nat.iter_add, IH. exact E.
Qed.
Lemma meets f R x q : ring base f R -> x ∈ R -> q ∈ R -> exists j, (j <= 2 * size R + 1)%nat /\ Nat.iter j f (f x) = q /\
  forall i, (i < j)%nat -> Nat.iter i f (f x) <> x.
Proof.
  intros G Hx Hq. pose proof (ring_closed base f R x G Hx) as Hfx.
  destruct (ring_walk base f R (f x) x G Hfx Hx) as (k & Hk & Ek). destruct (first_hit f (f x) x k Ek) as (m & Hm & Em & Hmin).
  destruct (ring_walk base f R (f x) q G Hfx Hq) as (j & Hj & Ej). exists (j mod S m)%nat.
  pose proof (Nat.mod_upper_bound j (S m) ltac:(lia)). split_and!; [lia| |intros i Hi; apply Hmin; lia].
  rewrite <-iter_period; [done|]. by rewrite Nat.iter_succ, Em.
Qed.

(** ** More memory *)
Lemma rep_grown h bl nu w : rep base lo h bl -> 0 < nu -> lo + 8 * (total bl + nu) < 4294967296 -> break w = lo + 8 * (total bl + nu) ->
  rep base lo (Heap (<[lo + 8 * total bl + 4 := nu]> (words h)) (freep h) w) (bl ++ [(true, nu)]).
Proof.
  intros [L B Fp] Hnu Hend Hw. pose proof (ly_tiled _ _ _ _ _ L) as T. pose proof (total_nonneg _ _ _ T) as Ht.
  assert (Hh : hdr base lo (lo + 8 * total bl)) by (apply (hdr_block base lo (s_size (words h)) bl []); by rewrite app_nil_r).
  assert (ER : ring_set base lo (bl ++ [(true, nu)]) = ring_set base lo bl) by (rewrite ring_set_app; cbn [frees]; unfold ring_set; set_solver).
  split; [|cbn [os]; rewrite Hw, total_app; simpl; lia|by rewrite ER]. cbn [words].
  eapply layout_holds; [|exact (holds_size base lo Hlo _ _ _ _ nu (holds_self base lo (words h)) Hh)]. destruct L as [L1 L2 L3 L4 L5]. split.
  - apply tiled_app. split; [apply tiled_upd; [done|right; lia]|]. cbn [tiled]. by rewrite upd_eq.
  - rewrite upd_ne; [done|lia].
  - by rewrite ER.
  - apply coalesced_app. by split_and!.
  - rewrite total_app. simpl. lia.
Qed.

Lemma wp_morecore fuel h bl n Q : rep base lo h bl -> 0 < n -> 8 * n < 2147483648 -> (2 * (3 + length (in_use lo bl)) + 2 < fuel)%nat ->
  Q 0 h ->
  (forall h1 bl1, rep base lo h1 bl1 -> in_use lo bl1 = in_use lo bl -> keeps_payload lo (words h) (words h1) bl ->
    (exists q, q ∈ ring_set base lo bl1 /\ n <= s_size (words h1) q) -> Q (freep h1) h1) ->
  wp (morecore fuel n) Q h.
Proof.
  intros R Hn Hn8 Hf HQ0 HQ. unfold morecore, HEADER. set (nu := if n <? 4096 then 4096 else n).
  assert (Hnu : n <= nu /\ 0 < nu /\ nu * 8 < 2147483648) by (unfold nu; destruct (Z.ltb_spec n 4096); lia).
  pose proof (rp_break _ _ _ _ R) as B. pose proof (total_nonneg _ _ _ (ly_tiled _ _ _ _ _ (rp_layout _ _ _ _ R))) as Ht.
  assert (Es : s32 (nu * 8) = nu * 8) by (apply s32_small; lia). rewrite wp_bind, wp_zoom, Es.
  destruct (sbrk_law (os h) (nu * 8) ltac:(lia)) as [E|(w' & E & Hb & Hlim)]; unfold wp at 1; cbn [lget osL]; rewrite E.
  { cbn [lset osL Z.eqb Pos.eqb]. rewrite wp_ret. by destruct h. }
  cbn [lset osL]. rewrite B in *. rewrite (proj2 (Z.eqb_neq _ _)) by lia.
  pose proof (rep_grown h bl nu w' R ltac:(lia) ltac:(lia) ltac:(lia)) as R1. unfold set_size. rewrite wp_bind, wp_modify. cbn [words freep os].
  set (h1 := Heap (<[lo + 8 * total bl + 4 := nu]> (words h)) (freep h) w') in *.
  rewrite wp_bind. unfold plus, HEADER. rewrite u32_small by lia. replace (lo + 8 * total bl + 8 * 1) with (lo + 8 * total bl + 8) by lia.
  pose proof (ring_set_bound _ _ _ (rp_layout _ _ _ _ R1)) as Hsz. rewrite in_use_app, length_app in Hsz. cbn [in_use app length] in Hsz.
  apply (wp_free base lo Hlo fuel h1 bl nu []); [done|lia|]. intros h2 bl2 R2 Eo (q & Q1 & Q2) _ Eu K. rewrite wp_gets.
  cbn [in_use] in Eu. rewrite app_nil_r in Eu. apply (HQ h2 bl2); try done; [|exists q; split; [done|lia]].
  intros a s x Ha Hx. rewrite <-Eu in Ha. rewrite (K a s x Ha Hx). unfold h1. cbn [words].
  apply lookup_insert_ne. rewrite Eu in Ha. destruct (in_use_split _ _ _ _ Ha) as (pre & post & E1 & ->).
  pose proof (ly_tiled _ _ _ _ _ (rp_layout _ _ _ _ R)) as T. rewrite E1 in T |- *. apply tiled_app in T as [_ (T1 & _ & T2)].
  apply total_nonneg in T2. rewrite total_app. unfold payload in Hx. simpl. lia.
Qed.

Lemma wp_loop_more fuel h bl prevp n Q : rep base lo h bl -> 0 < n -> 8 * n < 2147483648 ->
  s_size (words h) (s_ptr (words h) prevp) < n -> s_ptr (words h) prevp = freep h -> (2 * (3 + length (in_use lo bl)) + 4 < fuel)%nat ->
  Q 0 h -> (forall a h' bl', taken h bl n a h' bl' -> Q (a + 8) h') -> wp (malloc_loop fuel n prevp (s_ptr (words h) prevp)) Q h.
Proof.
  intros R Hn Hn8 Hb Hit Hf HQ0 HQ. destruct fuel as [|fuel]; [lia|].
  cbn [malloc_loop]. rewrite wp_bind, wp_get_size, (proj2 (Z.leb_gt _ _) Hb), wp_bind, wp_gets. rewrite Hit, Z.eqb_refl, wp_bind.
  apply (wp_morecore _ h bl); try done; [lia|].
  intros h1 bl1 R1 Eu K (q & Q1 & Q2). pose proof (rp_layout _ _ _ _ R1) as L1. pose proof (ly_ring _ _ _ _ _ L1) as G1.
  assert (Hfp : base <= freep h1) by (apply (rg_min _ _ _ G1), R1). rewrite (proj2 (Z.eqb_neq _ _)) by lia. rewrite wp_bind, wp_get_ptr.
  destruct (meets _ _ (freep h1) q G1 (rp_freep _ _ _ _ R1) Q1) as (j & Hj & Ej & Hmin).
  pose proof (ring_set_bound _ _ _ L1) as Hsz. rewrite Eu in Hsz.
  apply (wp_walk_take j fuel h1 bl1); try done; [apply R1|by rewrite Ej|lia|]. intros a h2 bl2 (T1 & T2 & T3). apply (HQ a h2 bl2).
  split; [done|]. split; [by rewrite T2, Eu|]. intros a' s x Ha Hx. rewrite (T3 a' s x) by (by rewrite ?Eu). by apply (K a' s).
Qed.

Lemma wp_walk k : forall fuel h bl prevp n Q, rep base lo h bl -> prevp ∈ ring_set base lo bl -> 0 < n -> 8 * n < 2147483648 ->
  Nat.iter k (s_ptr (words h)) (s_ptr (words h) prevp) = freep h -> (2 * (3 + length (in_use lo bl)) + 4 + k < fuel)%nat ->
  Q 0 h -> (forall a h' bl', taken h bl n a h' bl' -> Q (a + 8) h') -> wp (malloc_loop fuel n prevp (s_ptr (words h) prevp)) Q h.
Proof.
  induction k as [|k IH]; intros fuel h bl prevp n Q R Hprev Hn Hn8 Hit Hf HQ0 HQ; (destruct fuel as [|fuel]; [lia|]);
    (destruct (decide (n <= s_size (words h) (s_ptr (words h) prevp))) as [Hb|Hb]; [by apply (wp_loop_take h bl)|]);
    (destruct (decide (s_ptr (words h) prevp = freep h)) as [E|E]; [apply (wp_loop_more (S fuel) h bl); done || lia|]); [done|].
  apply wp_loop_next; [lia|done|]. rewrite Nat.iter_succ_r in Hit. apply (IH fuel h bl); try done; [by apply next_in_ring|lia].
Qed.

(** ** malloc *)
(** Before the first call nothing has been asked of the kernel. *)
Definition heap_rep h bl : Prop := (freep h = 0 /\ bl = [] /\ break (os h) = lo /\ lo < 4294967296) \/ rep base lo h bl.

Lemma rep_initial h : break (os h) = lo -> lo < 4294967296 -> rep base lo (Heap (<[base + 4 := 0]> (<[base := base]> (words h))) base (os h)) [].
Proof.
  intros B Hend. assert (Hh : hdr base lo base) by (by left).
  pose proof (holds_size base lo Hlo _ _ _ base 0 (holds_ptr base lo Hlo _ _ _ base base (holds_self base lo (words h)) Hh) Hh) as H.
  split; [|cbn [os total]; lia|cbn [freep]; unfold ring_set; set_solver]. cbn [words]. eapply layout_holds; [|exact H]. split; try done.
  - by rewrite upd_eq.
  - unfold ring_set. cbn [frees]. rewrite (right_id_L ∅ (∪)). split; [set_solver|set_solver|]. intros x ->%elem_of_singleton.
    rewrite upd_eq. right. split; [done|]. set_solver.
  - cbn [total]. lia.
Qed.

Lemma units_bounds nbytes : 0 <= nbytes <= 2147483600 -> 0 < units nbytes /\ 8 * units nbytes < 2147483648 /\ nbytes <= 8 * (units nbytes - 1).
Proof. intros H. unfold units, HEADER. rewrite u32_small by lia. Z.div_mod_to_equations. lia. Qed.

Lemma wp_malloc_rep fuel h bl n Q : rep base lo h bl -> 0 < n -> 8 * n < 2147483648 -> (4 * length (in_use lo bl) + 20 < fuel)%nat ->
  Q 0 h -> (forall a h' bl', taken h bl n a h' bl' -> Q (a + 8) h') -> wp (p ← get_ptr (freep h); malloc_loop fuel n (freep h) p) Q h.
Proof.
  intros R Hn Hn8 Hf HQ0 HQ. pose proof (rp_layout _ _ _ _ R) as L. pose proof (ly_ring _ _ _ _ _ L) as G. pose proof (rp_freep _ _ _ _ R) as Fp.
  rewrite wp_bind, wp_get_ptr. pose proof (ring_closed base _ _ _ G Fp) as Hn0.
  destruct (ring_walk base _ _ (s_ptr (words h) (freep h)) (freep h) G Hn0 Fp) as (k & Hk & Ek).
  pose proof (ring_set_bound _ _ _ L). apply (wp_walk k fuel h bl); try done. lia.
Qed.

Lemma wp_malloc fuel h bl nbytes Q : heap_rep h bl -> 0 <= nbytes <= 2147483600 -> (4 * length (in_use lo bl) + 20 < fuel)%nat ->
  (forall h', rep base lo h' bl -> keeps_payload lo (words h) (words h') bl -> Q 0 h') ->
  (forall a h' bl', taken h bl (units nbytes) a h' bl' -> Q (a + 8) h') -> wp (malloc base fuel nbytes) Q h.
Proof.
  intros HR Hnb Hf HQ0 HQ. destruct (units_bounds nbytes Hnb) as (U1 & U2 & _). unfold malloc. rewrite wp_bind, wp_gets, wp_bind.
  destruct HR as [(Hz & -> & B & Hend)|R].
  - rewrite Hz. cbn [Z.eqb]. unfold set_ptr, set_freep, set_size. rewrite wp_bind, wp_modify, wp_bind, wp_modify, wp_bind, wp_modify, wp_ret.
    cbn [words freep os]. pose proof (rep_initial h B Hend) as R1. 
    apply (wp_malloc_rep fuel (Heap (<[base + 4 := 0]> (<[base := base]> (words h))) base (os h)) [] (units nbytes)); try done.
    + apply HQ0; [done|]. intros a s x Ha. by apply elem_of_nil in Ha.
    + intros a h' bl' (T1 & T2 & T3). apply (HQ a h' bl'). split; [done|]. split; [done|]. intros a' s x Ha. by apply elem_of_nil in Ha.
  - assert (Hfp : base <= freep h) by (apply (rg_min _ _ _ (ly_ring _ _ _ _ _ (rp_layout _ _ _ _ R))), R).
    rewrite (proj2 (Z.eqb_neq _ _)), wp_ret by lia. apply (wp_malloc_rep fuel h bl); try done. by apply HQ0.
Qed.

(** ** The client's view: the areas it holds, as pointers and sizes in bytes, and
    the words it has stored in them *)
Record client := Client { live : list (Z * Z); stored : gmap Z Z }.
Inductive op := Malloc (nbytes : Z) | Free (p : Z) | Store (x v : Z).

Definition within (x : Z) (area : Z * Z) : Prop := area.1 <= x < area.1 + area.2.
(** Two areas with the header of the second between them. *)
Definition apart (a b : Z * Z) : Prop := a.1 + a.2 + 8 <= b.1 \/ b.1 + b.2 + 8 <= a.1.

(** What a client may do: it gives back what it holds, and stores in it. *)
Inductive allowed (c : client) : op -> Prop :=
  | may_malloc n : 0 <= n <= 2147483600 -> allowed c (Malloc n)
  | may_free p b : (p, b) ∈ live c -> allowed c (Free p)
  | may_store x v a : a ∈ live c -> within x a -> (x - a.1) mod 4 = 0 -> allowed c (Store x v).

Inductive step (c : client) : op -> Z -> client -> Prop :=
  | malloc_fails n : step c (Malloc n) 0 c
  | malloc_gives n p b : lo < p -> n <= b -> p + b < 4294967296 -> Forall (apart (p, b)) (live c) ->
      step c (Malloc n) p (Client ((p, b) :: live c) (stored c))
  | free_takes p b l : live c ≡ₚ (p, b) :: l ->
      step c (Free p) 0 (Client l (filter (fun '(x, _) => ~ (p <= x < p + b)) (stored c)))
  | stores x v : step c (Store x v) 0 (Client (live c) (<[x := v]> (stored c))).

Definition exec (fuel : nat) (o : op) : M (heap W) Z :=
  match o with
  | Malloc n => malloc base fuel n
  | Free p => free fuel p ;; mret 0
  | Store x v => modify (fun h => Heap (<[x := v]> (words h)) (freep h) (os h)) ;; mret 0
  end.

Definition area_of (b : Z * Z) : Z * Z := (b.1 + 8, 8 * b.2 - 8).
Definition sim h (c : client) : Prop := exists bl, heap_rep h bl /\ live c ≡ₚ map area_of (in_use lo bl) /\
  forall x v, stored c !! x = Some v -> Exists (within x) (live c) /\ words h !! x = Some v.

Lemma in_use_range g a bl x s : tiled g a bl -> (x, s) ∈ in_use a bl -> a <= x /\ x + 8 * s <= a + 8 * total bl /\ 0 < s.
Proof.
  intros T H. destruct (in_use_split _ _ _ _ H) as (pre & post & -> & ->). apply tiled_app in T as [T1 (T2 & _ & T3)].
  pose proof (total_nonneg _ _ _ T1). pose proof (total_nonneg _ _ _ T3). rewrite total_app. simpl. lia.
Qed.
Lemma in_use_apart g bl a n l : tiled g lo bl -> in_use lo bl ≡ₚ (a, n) :: l -> Forall (fun b => apart (area_of (a, n)) (area_of b)) l.
Proof.
  intros T H. assert (Ha : (a, n) ∈ in_use lo bl) by (rewrite H; by left). destruct (in_use_split _ _ _ _ Ha) as (pre & post & -> & ->).
  apply tiled_app in T as [T1 (T2 & _ & T3)]. rewrite in_use_app in H. cbn [in_use app] in H.
  rewrite <-Permutation_middle in H. apply Permutation_cons_inv in H. rewrite <-H. apply Forall_forall. intros [b m] Hb.
  unfold apart, area_of. cbn [fst snd]. apply elem_of_app in Hb as [Hb|Hb].
  - destruct (in_use_range _ _ _ _ _ T1 Hb) as (? & ? & ?). right. lia.
  - destruct (in_use_range _ _ _ _ _ T3 Hb) as (? & ? & ?). left. lia.
Qed.

Lemma kept_stored h h' bl c : live c ≡ₚ map area_of (in_use lo bl) -> keeps_payload lo (words h) (words h') bl ->
  forall x v, Exists (within x) (live c) -> words h !! x = Some v -> words h' !! x = Some v.
Proof.
  intros Hl K x v Hx E. apply Exists_exists in Hx as (a & Ha & Hw). rewrite Hl in Ha. apply list_elem_of_fmap in Ha as ([b s] & -> & Hb).
  rewrite <-E. apply (K b s); [done|]. unfold within, area_of in Hw. unfold payload. cbn [fst snd] in Hw. lia.
Qed.

Lemma sim_malloc fuel h c n : sim h c -> 0 <= n <= 2147483600 -> (4 * length (live c) + 20 < fuel)%nat ->
  wp (malloc base fuel n) (fun r h' => exists c', step c (Malloc n) r c' /\ sim h' c') h.
Proof.
  intros (bl & HR & Hl & Hs) Hn Hf. assert (Hlen : length (live c) = length (in_use lo bl)) by (by rewrite Hl, length_map).
  apply (wp_malloc fuel h bl); [done|done|lia| |].
  - intros h' R K. exists c. split; [constructor|]. exists bl. split; [by right|]. split; [done|]. intros x v E.
    destruct (Hs x v E) as [Hx Hv]. split; [done|]. by apply (kept_stored h h' bl c Hl K).
  - intros a h' bl' (R & Hu & K). destruct (units_bounds n Hn) as (U1 & U2 & U3). pose proof (rp_layout _ _ _ _ R) as L.
    pose proof (ly_tiled _ _ _ _ _ L) as T. assert (Ha : (a, units n) ∈ in_use lo bl') by (rewrite Hu; by left).
    destruct (in_use_range _ _ _ _ _ T Ha) as (A1 & A2 & A3). pose proof (ly_end _ _ _ _ _ L).
    exists (Client ((a + 8, 8 * units n - 8) :: live c) (stored c)). split.
    + constructor; [lia..|]. pose proof (in_use_apart _ _ _ _ _ T Hu) as Hap. rewrite Hl. by apply Forall_fmap.
    + exists bl'. split; [by right|]. cbn [live stored]. split; [by rewrite Hu, Hl|]. intros x v E. destruct (Hs x v E) as [Hx Hv].
      split; [by right|]. by apply (kept_stored h h' bl c Hl K).
Qed.

Lemma sim_free fuel h c p b : sim h c -> (p, b) ∈ live c -> (4 * length (live c) + 20 < fuel)%nat ->
  wp (free fuel p ;; mret 0) (fun r h' => exists c', step c (Free p) r c' /\ sim h' c') h.
Proof.
  intros (bl & HR & Hl & Hs) Hp Hf. assert (Hlen : length (live c) = length (in_use lo bl)) by (by rewrite Hl, length_map).
  rewrite Hl in Hp. apply list_elem_of_fmap in Hp as ([a s] & E & Ha). injection E as -> ->. cbn [fst snd].
  destruct HR as [(_ & -> & _)|R]; [by apply elem_of_nil in Ha|]. destruct (in_use_split _ _ _ _ Ha) as (pre & post & -> & ->).
  pose proof (ring_set_bound _ _ _ (rp_layout _ _ _ _ R)). rewrite wp_bind.
  apply (wp_free base lo Hlo fuel h pre s post); [done|lia|]. intros h' bl' R' _ _ _ Hu K. rewrite wp_ret.
  set (area := (lo + 8 * total pre + 8, 8 * s - 8)).
  assert (Hl' : live c ≡ₚ area :: map area_of (in_use lo bl')).
  { rewrite Hl, Hu, in_use_app. cbn [in_use app]. rewrite !map_app. cbn [map]. by rewrite Permutation_middle. }
  exists (Client (map area_of (in_use lo bl')) (filter (fun '(x, _) => ~ (area.1 <= x < area.1 + area.2)) (stored c))).
  split; [by apply (free_takes c area.1 area.2)|]. exists bl'. split; [by right|]. split; [done|]. cbn [live stored].
  intros x v E. apply map_lookup_filter_Some in E as [E Hout]. destruct (Hs x v E) as [Hx Hv]. rewrite Hl' in Hx.
  apply Exists_cons in Hx as [Hx|Hx]; [done|]. split; [done|]. by apply (kept_stored h h' bl' (Client (map area_of (in_use lo bl')) ∅)).
Qed.

(** What is stored in an area held by the client touches no header. *)
Lemma layout_ext f g f' g' bl : layout base lo f g bl -> (forall y, header_of base lo bl y -> f' y = f y /\ g' y = g y) -> layout base lo f' g' bl.
Proof.
  intros [L1 L2 L3 L4 L5] E. split; try done.
  - apply (tiled_ext g); [done|]. intros pre b s post Eb. apply E. right. by eexists _, _, _.
  - rewrite <-L2. apply E. by left.
  - apply (ring_ext _ f); [done|]. intros y Hy. by apply E, (ring_set_header base lo g).
Qed.
Lemma sim_store h c x v a : sim h c -> a ∈ live c -> within x a ->
  sim (Heap (<[x := v]> (words h)) (freep h) (os h)) (Client (live c) (<[x := v]> (stored c))).
Proof.
  intros (bl & HR & Hl & Hs) Ha Hw. exists bl. split; [|split; [done|]].
  - destruct HR as [HR|[L B Fp]]; [by left|right]. split; [|done|done]. eapply layout_ext; [exact L|]. intros y Hy.
    rewrite Hl in Ha. apply list_elem_of_fmap in Ha as ([b s] & -> & Hb). unfold within, area_of in Hw. cbn [fst snd] in Hw.
    destruct (header_apart base lo Hlo _ bl b s y x (ly_tiled _ _ _ _ _ L) Hb Hy) as [X1 X2]; [unfold payload; lia|].
    cbn [words]. unfold s_ptr, s_size. by rewrite !lookup_insert_ne.
  - cbn [live stored words]. intros y w E. destruct (decide (y = x)) as [->|Hne].
    + rewrite lookup_insert_eq in *. split; [|done]. apply Exists_exists. by exists a.
    + rewrite lookup_insert_ne in * by done. by apply Hs.
Qed.

(** C13: the allocator refines the client's view.  Whatever a client that frees
    only what it holds and writes only there does, malloc, free and the store
    return; malloc gives nothing or an area of at least the size asked for,
    inside the memory, with room for a header between it and every other area
    held; and every word stored in an area still held is there. *)
Theorem allocator_refines_client fuel h c o : sim h c -> allowed c o -> (4 * length (live c) + 20 < fuel)%nat ->
  wp (exec fuel o) (fun r h' => exists c', step c o r c' /\ sim h' c') h.
Proof.
  intros H A Hf. destruct A as [n Hn|p b Hp|x v a Ha Hw _]; cbn [exec]; [by apply sim_malloc|by apply (sim_free fuel h c p b)|].
  rewrite wp_bind, wp_modify, wp_ret. exists (Client (live c) (<[x := v]> (stored c))). split; [constructor|by apply (sim_store _ _ _ _ a)].
Qed.
End Malloc.

Lemma allocator_refines_client_witness :
  wp (exec 1000 25 (Malloc 100)) (fun r h' => exists c', step 2000 (Client [] ∅) (Malloc 100) r c' /\ sim 1000 2000 h' c')
    (Heap ∅ 0 (Limited 2000 100000)) /\
  match exec 1000 25 (Malloc 100) (Heap ∅ 0 (Limited 2000 100000)) with Ok (r, _) => r | _ => 0 end = 34664.
Proof.
  split; [|vm_compute; reflexivity]. apply (allocator_refines_client 1000 2000); [lia| |by constructor|simpl; lia].
  exists []. split; [left; done|]. split; [done|]. intros x v E. done.
Defined.
