(* ===== verification/Sh.v ===== *)
(** * The shell (sh.c)

    A command is parsed from a line into a tree whose strings are places in the
    line, between [q] and [eq]; nulterminate then cuts the line at the ends, and
    runcmd runs the tree.  The line is the bytes before the null byte at [es], a
    pointer into it its distance from the start.  The constructors take malloc to
    succeed. *)
From S2P Require Import Prelude Bytes CString Console Fs User Ulib.

Open Scope Z_scope.

(** ** Commands, with strings of type [A] *)
Inductive cmd (A : Type) : Type :=
| EXEC (argv : list A)
| REDIR (c : cmd A) (file : A) (mode fd : Z)
| PIPE (left right : cmd A)
| LIST (left right : cmd A)
| BACK (c : cmd A).
Arguments EXEC {A} argv.
Arguments REDIR {A} c file mode fd.
Arguments PIPE {A} left right.
Arguments LIST {A} left right.
Arguments BACK {A} c.

Definition MAXARGS : Z := 10.

Fixpoint cmd_map {A B} (f : A -> B) (c : cmd A) : cmd B :=
  match c with
  | EXEC argv => EXEC (map f argv)
  | REDIR c file mode fd => REDIR (cmd_map f c) (f file) mode fd
  | PIPE l r => PIPE (cmd_map f l) (cmd_map f r)
  | LIST l r => LIST (cmd_map f l) (cmd_map f r)
  | BACK c => BACK (cmd_map f c)
  end.

Definition panic {A} (s : string) : prog A :=
  printf 2 "%s\n" [CStr (Some (bytes_of s))] ;; Exit.
Definition fork1 : prog Z :=
  pid ← sys CFork;
  if pid =? -1 then panic "fork" else mret pid.

(** ** Constructors *)
Definition execcmd {A} : cmd A := EXEC [].
Definition redircmd {A} (subcmd : cmd A) (file : A) (mode fd : Z) : cmd A := REDIR subcmd file mode fd.
Definition pipecmd {A} (left right : cmd A) : cmd A := PIPE left right.
Definition listcmd {A} (left right : cmd A) : cmd A := LIST left right.
Definition backcmd {A} (subcmd : cmd A) : cmd A := BACK subcmd.

(** ** Running: a command never returns *)
Fixpoint runcmd (c : cmd bytes) : prog unit :=
  match c with
  | EXEC [] => Exit
  | EXEC (a :: argv) =>
      sys (CExec a (a :: argv)) ;;
      printf 2 "exec %s failed\n" [CStr (Some a)] ;;
      Exit
  | REDIR c file mode fd =>
      sys (CClose fd) ;;
      r ← sys (COpen file mode);
      (if r <? 0 then printf 2 "open %s failed\n" [CStr (Some file)] ;; Exit else mret tt) ;;
      runcmd c ;;
      Exit
  | LIST l r =>
      pid ← fork1;
      (if pid =? 0 then runcmd l else mret tt) ;;
      sys CWait ;;
      runcmd r ;;
      Exit
  | PIPE l r =>
      p ← sys CPipe;
      match p with
      | None => panic "pipe"
      | Some (p0, p1) =>
          pid ← fork1;
          (if pid =? 0 then
             sys (CClose 1) ;; sys (CDup p1) ;; sys (CClose p0) ;; sys (CClose p1) ;; runcmd l
           else mret tt) ;;
          pid ← fork1;
          (if pid =? 0 then
             sys (CClose 0) ;; sys (CDup p0) ;; sys (CClose p0) ;; sys (CClose p1) ;; runcmd r
           else mret tt) ;;
          sys (CClose p0) ;; sys (CClose p1) ;; sys CWait ;; sys CWait ;;
          Exit
      end
  | BACK c =>
      pid ← fork1;
      (if pid =? 0 then runcmd c else mret tt) ;;
      Exit
  end.

(** ** Parsing *)
Definition whitespace : bytes := [32; 9; 13; 10; 11].
Definition symbols : bytes := bytes_of "<|>&;()".
Definition is_in (s : bytes) (c : Z) : bool := match strchr s c with Some _ => true | None => false end.

Fixpoint count_while (p : Z -> bool) (l : bytes) : nat :=
  match l with
  | [] => O
  | c :: l => if p c then S (count_while p l) else O
  end.

(** A place of a string: from [q] up to [eq]. *)
Abbreviation place := (nat * nat)%type.

(** The exec command of parseexec is inside the redirections put around it. *)
Fixpoint add_arg {A} (q : A) (ret : cmd A) : cmd A :=
  match ret with
  | EXEC argv => EXEC (argv ++ [q])
  | REDIR c file mode fd => REDIR (add_arg q c) file mode fd
  | c => c
  end.

Section Parser.
Context (buf : bytes).

(** [while(s < es && p( *s)) s++] *)
Definition skip (p : Z -> bool) (s : nat) : nat := (s + count_while p (drop s buf))%nat.

Definition gettoken (ps : nat) : Z * place * nat :=
  let s := skip (is_in whitespace) ps in
  let q := s in
  let c := getb buf s in
  let '(ret, s) :=
    if c =? 0 then (c, s)
    else if is_in (bytes_of "|();&<") c then (c, S s)
    else if c =? 62 then
      (if getb buf (S s) =? 62 then (43, S (S s)) else (c, S s))
    else (97, skip (fun c => negb (is_in whitespace c) && negb (is_in symbols c)) s) in
  (ret, (q, s), skip (is_in whitespace) s).

Definition peek (ps : nat) (toks : string) : bool * nat :=
  let s := skip (is_in whitespace) ps in
  (truthy (getb buf s) && is_in (bytes_of toks) (getb buf s), s).

Fixpoint parseredirs (fuel : nat) (c : cmd place) (ps : nat) : prog (cmd place * nat) :=
  match fuel with
  | O => Spin
  | S fuel =>
      let '(more, ps) := peek ps "<>" in
      if more then
        let '(tok, _, ps) := gettoken ps in
        let '(t, q, ps) := gettoken ps in
        if t =? 97 then
          let c :=
            if tok =? 60 then redircmd c q O_RDONLY 0
            else if tok =? 62 then redircmd c q (Z.lor O_WRONLY O_CREATE) 1
            else if tok =? 43 then redircmd c q (Z.lor O_WRONLY O_CREATE) 1
            else c in
          parseredirs fuel c ps
        else panic "missing file for redirection"
      else mret (c, ps)
  end.

Fixpoint parseargs (fuel : nat) (argc : Z) (ret : cmd place) (ps : nat) : prog (cmd place * nat) :=
  match fuel with
  | O => Spin
  | S fuel =>
      let '(stop, ps) := peek ps "|)&;" in
      if stop then mret (ret, ps)
      else
        let '(tok, q, ps) := gettoken ps in
        if tok =? 0 then mret (ret, ps)
        else if negb (tok =? 97) then panic "syntax"
        else
          let ret := add_arg q ret in
          let argc := argc + 1 in
          if MAXARGS <=? argc then panic "too many args"
          else
            r ← parseredirs fuel ret ps;
            let '(ret, ps) := r in
            parseargs fuel argc ret ps
  end.

Fixpoint parsebacks (fuel : nat) (c : cmd place) (ps : nat) : prog (cmd place * nat) :=
  match fuel with
  | O => Spin
  | S fuel =>
      let '(more, ps) := peek ps "&" in
      if more then
        let '(_, _, ps) := gettoken ps in
        parsebacks fuel (backcmd c) ps
      else mret (c, ps)
  end.

Fixpoint parseline (fuel : nat) (ps : nat) : prog (cmd place * nat) :=
  match fuel with
  | O => Spin
  | S fuel =>
      r ← parsepipe fuel ps;
      let '(c, ps) := r in
      r ← parsebacks fuel c ps;
      let '(c, ps) := r in
      let '(more, ps) := peek ps ";" in
      if more then
        let '(_, _, ps) := gettoken ps in
        r ← parseline fuel ps;
        let '(rest, ps) := r in
        mret (listcmd c rest, ps)
      else mret (c, ps)
  end
with parsepipe (fuel : nat) (ps : nat) : prog (cmd place * nat) :=
  match fuel with
  | O => Spin
  | S fuel =>
      r ← parseexec fuel ps;
      let '(c, ps) := r in
      let '(more, ps) := peek ps "|" in
      if more then
        let '(_, _, ps) := gettoken ps in
        r ← parsepipe fuel ps;
        let '(rest, ps) := r in
        mret (pipecmd c rest, ps)
      else mret (c, ps)
  end
with parseexec (fuel : nat) (ps : nat) : prog (cmd place * nat) :=
  match fuel with
  | O => Spin
  | S fuel =>
      let '(block, ps) := peek ps "(" in
      if block then parseblock fuel ps
      else
        r ← parseredirs fuel execcmd ps;
        let '(ret, ps) := r in
        parseargs fuel 0 ret ps
  end
with parseblock (fuel : nat) (ps : nat) : prog (cmd place * nat) :=
  match fuel with
  | O => Spin
  | S fuel =>
      let '(block, ps) := peek ps "(" in
      if negb block then panic "parseblock"
      else
        let '(_, _, ps) := gettoken ps in
        r ← parseline fuel ps;
        let '(c, ps) := r in
        let '(closed, ps) := peek ps ")" in
        if negb closed then panic "syntax - missing )"
        else
          let '(_, _, ps) := gettoken ps in
          parseredirs fuel c ps
  end.
End Parser.

(** NUL-terminate all the counted strings. *)
Fixpoint nulterminate (c : cmd place) (buf : bytes) : bytes :=
  match c with
  | EXEC argv => fold_left (fun buf q => <[q.2 := 0]> buf) argv buf
  | REDIR c file _ _ => <[file.2 := 0]> (nulterminate c buf)
  | PIPE l r => nulterminate r (nulterminate l buf)
  | LIST l r => nulterminate r (nulterminate l buf)
  | BACK c => nulterminate c buf
  end.

(** The string at a place: the bytes before the next null byte. *)
Fixpoint cstring (l : bytes) : bytes :=
  match l with
  | [] => []
  | c :: l => if c =? 0 then [] else c :: cstring l
  end.
Definition string_at (buf : bytes) (q : place) : bytes := cstring (drop q.1 buf).

(** Enough steps for a line. *)
Definition parse_fuel (s : bytes) : nat := (4 * length s + 8)%nat.
Definition parsecmd (s : bytes) : prog (cmd bytes) :=
  r ← parseline s (parse_fuel s) 0;
  let '(c, ps) := r in
  let '(_, ps) := peek s ps "" in
  if negb (Nat.eqb ps (length s)) then
    printf 2 "leftovers: %s\n" [CStr (Some (drop ps s))] ;;
    panic "syntax"
  else mret (cmd_map (string_at (nulterminate c (s ++ [0]))) c).

(** ** The loop *)
Definition getcmd (nbuf : Z) : prog (Z * bytes) :=
  printf 2 "$ " [] ;;
  buf ← gets nbuf;
  mret (if getb buf 0 =? 0 then -1 else 0, buf).

Fixpoint open_console (fuel : nat) : prog unit :=
  match fuel with
  | O => Spin
  | S fuel =>
      fd ← sys (COpen (bytes_of "console") O_RDWR);
      if 0 <=? fd then
        if 3 <=? fd then sys (CClose fd) ;; mret tt else open_console fuel
      else mret tt
  end.

Fixpoint main_loop (rounds : nat) : prog unit :=
  match rounds with
  | O => Spin
  | S rounds =>
      r ← getcmd 100;
      let '(ok, buf) := r in
      if 0 <=? ok then
        if (getb buf 0 =? 99) && (getb buf 1 =? 100) && (getb buf 2 =? 32) then
          let buf := <[(length (cstring buf) - 1)%nat := 0]> buf in
          let path := cstring (drop 3 buf) in
          r ← sys (CChdir path);
          (if r <? 0 then printf 2 "cannot cd %s\n" [CStr (Some path)] else mret tt) ;;
          main_loop rounds
        else
          pid ← fork1;
          (if pid =? 0 then c ← parsecmd (cstring buf); runcmd c else mret tt) ;;
          sys CWait ;;
          main_loop rounds
      else Exit
  end.
Definition main (rounds : nat) : prog unit :=
  open_console 17 ;;
  main_loop rounds.
