(* ===== verification/ShParse.v ===== *)
(** * The shell's parser accepts exactly its grammar

    A line spells a list of tokens; a grammar on tokens says which command they
    are.  The parser returns a command when the line's tokens derive it, and
    prints a message and exits for every other line. *)
From Stdlib Require Import FunctionalExtensionality.
From S2P Require Import Prelude Bytes CString Console Fs User Ulib Sh.

Open Scope Z_scope.

(** ** Tokens *)
Variant tok := Sym (c : Z) | Append | Word (w : bytes).
Definition word_char (c : Z) : bool := negb (is_in whitespace c) && negb (is_in symbols c).
Definition is_word (w : bytes) : Prop := w <> [] /\ Forall (fun c => word_char c = true /\ c <> 0) w.
Definition white (c : Z) : Prop := is_in whitespace c = true.

Definition text (t : tok) : bytes := match t with Sym c => [c] | Append => [62; 62] | Word w => w end.
Definition code (t : tok) : Z := match t with Sym c => c | Append => 43 | Word _ => 97 end.
Definition good (t : tok) : Prop := match t with Sym c => is_in symbols c = true | Append => True | Word w => is_word w end.
(** A word ends where no character of a word follows, and [>] where no other follows. *)
Definition parted (t : tok) (rest : bytes) : Prop :=
  match t, rest with
  | Word _, c :: _ => word_char c = false
  | Sym c, d :: _ => ~ (c = 62 /\ d = 62)
  | _, _ => True
  end.
Inductive spells : list tok -> bytes -> Prop :=
| spells_nil ws : Forall white ws -> spells [] ws
| spells_cons ws t ts rest : Forall white ws -> good t -> parted t rest -> spells ts rest -> spells (t :: ts) (ws ++ text t ++ rest).

(** ** The grammar *)
(** The mode and the descriptor of a redirection. *)
Definition redir_mode (t : tok) : option (Z * Z) :=
  match t with
  | Sym 60 => Some (O_RDONLY, 0)
  | Sym 62 | Append => Some (Z.lor O_WRONLY O_CREATE, 1)
  | _ => None
  end.
Inductive redirs_of : cmd bytes -> list tok -> cmd bytes -> Prop :=
| redirs_none c : redirs_of c [] c
| redirs_more c t w m n u c' : redir_mode t = Some (m, n) -> redirs_of (REDIR c w m n) u c' -> redirs_of c (t :: Word w :: u) c'.
(** Arguments and redirections after [n] arguments. *)
Inductive args_of : Z -> cmd bytes -> list tok -> cmd bytes -> Prop :=
| args_none n c : args_of n c [] c
| args_word n c c1 w t u c' : n + 1 < MAXARGS -> redirs_of (add_arg w c) t c1 -> args_of (n + 1) c1 u c' ->
    args_of n c (Word w :: t ++ u) c'.
Inductive backs_of : cmd bytes -> list tok -> cmd bytes -> Prop :=
| backs_none c : backs_of c [] c
| backs_one c t c' : backs_of (BACK c) t c' -> backs_of c (Sym 38 :: t) c'.

Inductive line_of : list tok -> cmd bytes -> Prop :=
| line_last t u c c' : pipe_of t c -> backs_of c u c' -> line_of (t ++ u) c'
| line_seq t u v c c' d : pipe_of t c -> backs_of c u c' -> line_of v d -> line_of (t ++ u ++ Sym 59 :: v) (LIST c' d)
with pipe_of : list tok -> cmd bytes -> Prop :=
| pipe_last t c : exec_of t c -> pipe_of t c
| pipe_more t u c d : exec_of t c -> pipe_of u d -> pipe_of (t ++ Sym 124 :: u) (PIPE c d)
with exec_of : list tok -> cmd bytes -> Prop :=
| exec_block t u c c' : line_of t c -> redirs_of c u c' -> exec_of (Sym 40 :: t ++ Sym 41 :: u) c'
| exec_simple t u c c' : redirs_of (EXEC []) t c -> args_of 0 c u c' -> exec_of (t ++ u) c'.

Scheme line_ind' := Minimality for line_of Sort Prop
with pipe_ind' := Minimality for pipe_of Sort Prop
with exec_ind' := Minimality for exec_of Sort Prop.
Combined Scheme grammar_ind from line_ind', pipe_ind', exec_ind'.

(** ** Reading tokens from the line *)
Lemma is_in_spec s c : is_in s c = true <-> c ∈ s.
Proof.
  unfold is_in. induction s as [|x s IH]; cbn [strchr]; [set_solver|]. destruct (Z.eqb_spec x c) as [->|H]; [set_solver|]. rewrite IH. set_solver.
Qed.
Lemma count_while_app p l r : Forall (fun c => p c = true) l -> match r with c :: _ => p c = false | [] => True end ->
  count_while p (l ++ r) = length l.
Proof.
  intros Hl Hr. induction Hl as [|c l Hc _ IH]; [by destruct r as [|c r]; [|simpl; rewrite Hr]|]. simpl. by rewrite Hc, IH.
Qed.
Lemma symbol_not_white c : is_in symbols c = true -> is_in whitespace c = false /\ c <> 0.
Proof.
  intros H. apply is_in_spec in H. change symbols with [60; 124; 62; 38; 59; 40; 41] in H. rewrite !elem_of_cons, elem_of_nil in H.
  destruct_or!; subst; done.
Qed.
Lemma good_head t r : good t -> exists c l, text t ++ r = c :: l /\ is_in whitespace c = false /\ c <> 0.
Proof.
  destruct t as [c| |w]; simpl; [intros H%symbol_not_white; by eauto|intros _; by eauto|]. intros [H1 H2].
  destruct H2 as [|c w [Hc Hz] _]; [done|]. apply andb_true_iff in Hc as [Hc _]. apply negb_true_iff in Hc. by eauto.
Qed.

(** ** Programs that return, or print a message and exit, whatever the kernel
    answers: the only calls are writes to the standard error, and there is one
    before an exit. *)
Definition on_stderr {R} (c : call R) : Prop := match c with CWrite fd _ => fd = 2 | _ => False end.
Fixpoint said {A} (Q : A -> Prop) (p : prog A) : Prop :=
  match p with
  | Ret a => Q a
  | Exit => True
  | Spin | Stuck _ => False
  | Call c k => on_stderr c /\ forall r, said Q (k r)
  end.
Definition leads {A} (Q : A -> Prop) (p : prog A) : Prop :=
  match p with
  | Ret a => Q a
  | Call c k => on_stderr c /\ forall r, said Q (k r)
  | Exit | Spin | Stuck _ => False
  end.
(** It prints a message and exits. *)
Definition complains {A} (p : prog A) : Prop := leads (fun _ => False) p.

Lemma leads_said {A} (Q : A -> Prop) p : leads Q p -> said Q p.
Proof. by destruct p. Qed.
Lemma said_bind {A B} (P : A -> Prop) (Q : B -> Prop) p (f : A -> prog B) :
  said P p -> (forall a, P a -> said Q (f a)) -> said Q (p ≫= f).
Proof. intros Hp Hf. induction p as [a| | |e|R c k IH]; [by apply Hf|done..|]. split; [apply Hp|]. intros r. apply IH, Hp. Qed.
Lemma leads_bind {A B} (P : A -> Prop) (Q : B -> Prop) p (f : A -> prog B) :
  leads P p -> (forall a, P a -> leads Q (f a)) -> leads Q (p ≫= f).
Proof.
  intros Hp Hf. destruct p as [a| | |e|R c k]; [by apply Hf|done..|]. split; [apply Hp|]. intros r.
  eapply said_bind; [apply Hp|]. intros a Ha. by apply leads_said, Hf.
Qed.
Lemma leads_mono {A} (P Q : A -> Prop) p : leads P p -> (forall a, P a -> Q a) -> leads Q p.
Proof.
  intros Hp HQ. assert (Hs : forall q, said P q -> said Q q).
  { induction q as [a| | |e|R c k IH]; [apply HQ|done..|]. intros [H1 H2]. split; [done|]. intros r. by apply IH. }
  destruct p as [a| | |e|R c k]; [by apply HQ|done..|]. split; [apply Hp|]. intros r. by apply Hs, Hp.
Qed.
Lemma leads_puts l : leads (fun _ => True) (puts 2 l).
Proof.
  destruct l as [|c l]; [done|]. split; [done|]. intros r. cbn. induction l as [|d l IH]; [done|]. split; [done|]. by intros.
Qed.
Lemma leads_then {A} (p : prog unit) (q : prog A) Q : leads (fun _ => True) p -> leads Q q -> leads Q (p ;; q).
Proof. intros H1 H2. eapply leads_bind; [exact H1|]. by intros _ _. Qed.
Lemma leads_panic {A} (Q : A -> Prop) s : leads Q (panic s).
Proof.
  unfold panic, printf. change (unescape (bytes_of "%s\n")) with [37; 115; 10]. cbn [printf_loop Z.eqb Pos.eqb convert orb default].
  destruct (bytes_of s) as [|c l]; [done|]. split; [done|]. intros r. cbn. induction l as [|d l IH]; [by split|]. split; [done|]. by intros.
Qed.
Lemma prog_assoc {A B C} (p : prog A) (f : A -> prog B) (g : B -> prog C) : (p ≫= f) ≫= g = p ≫= (fun a => f a ≫= g).
Proof.
  induction p as [a| | |e|R c k IH]; try done. change (Call c (fun r => (k r ≫= f) ≫= g) = Call c (fun r => k r ≫= (fun a => f a ≫= g))).
  f_equal. apply functional_extensionality. exact IH.
Qed.
Lemma ret_bind {A B} (a : A) (f : A -> prog B) : mret a ≫= f = f a.
Proof. done. Qed.

Section Line.
Context (buf : bytes).
Abbreviation rest ps := (drop ps buf).
Definition left (ps : nat) : nat := length (drop ps buf).

Lemma skip_split p s l r : rest s = l ++ r -> Forall (fun c => p c = true) l -> match r with c :: _ => p c = false | [] => True end ->
  skip buf p s = (s + length l)%nat /\ rest (skip buf p s) = r.
Proof.
  intros E Hl Hr. assert (Es : skip buf p s = (s + length l)%nat) by (unfold skip; by rewrite E, count_while_app).
  split; [done|]. by rewrite Es, <-drop_drop, E, drop_app_length.
Qed.

(** What follows the spaces. *)
Definition at_tokens (ts : list tok) (r : bytes) : Prop :=
  match ts with
  | [] => r = []
  | t :: ts => exists r', r = text t ++ r' /\ good t /\ parted t r' /\ spells ts r'
  end.
Lemma at_spells ts r : at_tokens ts r -> spells ts r.
Proof.
  destruct ts as [|t ts]; simpl; [intros ->; by constructor|]. intros (r' & -> & H1 & H2 & H3). by apply (spells_cons []).
Qed.
Lemma skip_white ts ps : spells ts (rest ps) ->
  at_tokens ts (rest (skip buf (is_in whitespace) ps)) /\ (left (skip buf (is_in whitespace) ps) <= left ps)%nat.
Proof.
  intros H. inversion H as [ws Hw E1 E2|ws t ts' r Hw Hg Hp Hs E1 E2].
  - destruct (skip_split (is_in whitespace) ps (rest ps) []) as [_ E]; [by rewrite app_nil_r|exact Hw|done|]. unfold left. rewrite E. split; [done|simpl; lia].
  - destruct (good_head t r Hg) as (c & l & E & Hc & _).
    destruct (skip_split (is_in whitespace) ps ws (text t ++ r)) as [_ E']; [done|exact Hw|by rewrite E|]. unfold left. rewrite E'.
    split; [by exists r|]. rewrite <-E2, !length_app. lia.
Qed.

Lemma getb_drop s : getb buf s = match rest s with c :: _ => c | [] => 0 end.
Proof. unfold getb. rewrite <-(Nat.add_0_r s) at 1. rewrite <-lookup_drop. by destruct (rest s). Qed.

(** The symbol in front. *)
Definition front (ts : list tok) : Z := match ts with Sym c :: _ => c | Append :: _ => 62 | _ => 0 end.
Definition front_in (ts : list tok) (toks : string) : bool := is_in (bytes_of toks) (front ts).

(** The tokens from a place on. *)
Definition spelt (ts : list tok) (ps : nat) : Prop := spells ts (rest ps) /\ (ps <= length buf)%nat.
Lemma count_while_le p l : (count_while p l <= length l)%nat.
Proof. induction l as [|c l IH]; simpl; [lia|]. destruct (p c); lia. Qed.
Lemma skip_le p s : (s <= length buf)%nat -> (skip buf p s <= length buf)%nat.
Proof. intros H. unfold skip. pose proof (count_while_le p (rest s)) as H'. rewrite length_drop in H'. lia. Qed.

Lemma peek_spells ts ps toks : spelt ts ps -> forallb (is_in symbols) (bytes_of toks) = true ->
  exists ps', peek buf ps toks = (front_in ts toks, ps') /\ spelt ts ps' /\ at_tokens ts (rest ps') /\ (left ps' <= left ps)%nat.
Proof.
  intros H Hs. destruct (skip_white ts ps (proj1 H)) as [Ha Hl]. set (s := skip buf (is_in whitespace) ps) in *. exists s.
  split; [|split; [split; [by apply at_spells|by apply skip_le, H]|done]]. unfold peek. fold s. f_equal. rewrite getb_drop. unfold front_in.
  assert (Hno : forall c, is_in symbols c = false -> is_in (bytes_of toks) c = false).
  { intros c Hc. destruct (is_in (bytes_of toks) c) eqn:E; [|done]. apply is_in_spec in E. rewrite forallb_forall in Hs.
    rewrite Hs in Hc; [done|]. by apply list_elem_of_In. }
  destruct ts as [|t ts]; simpl in Ha |- *; [rewrite Ha; symmetry; by apply Hno|]. destruct Ha as (r & -> & Hg & Hp & _).
  destruct t as [c| |w]; simpl; [|done|].
  - apply symbol_not_white in Hg as [_ Hg]. unfold truthy. by rewrite (proj2 (Z.eqb_neq _ _) Hg).
  - destruct Hg as [H1 H2]. destruct H2 as [|c w [Hc Hz] _]; [done|]. apply andb_true_iff in Hc as [_ Hc]. apply negb_true_iff in Hc.
    simpl. rewrite (Hno c Hc), (Hno 0 eq_refl). by destruct (truthy c).
Qed.

(** A place holds a word. *)
Definition placed (q : place) (w : bytes) : Prop :=
  is_word w /\ rest q.1 = w ++ rest q.2 /\ q.2 = (q.1 + length w)%nat /\ (q.2 <= length buf)%nat /\
  match rest q.2 with c :: _ => word_char c = false | [] => True end.

Definition reads_tok (t : tok) (q : place) : Prop := match t with Word w => placed q w | _ => True end.

Lemma gettoken_end ps : spelt [] ps -> exists q ps', gettoken buf ps = (0, q, ps') /\ spelt [] ps' /\ (left ps' <= left ps)%nat.
Proof.
  intros H. destruct (skip_white [] ps (proj1 H)) as [Ha Hl]. simpl in Ha. unfold gettoken. set (s := skip buf (is_in whitespace) ps) in *.
  rewrite getb_drop, Ha. cbn [Z.eqb]. destruct (skip_white [] s) as [Ha' Hl']; [rewrite Ha; by constructor|].
  do 2 eexists. split; [reflexivity|]. split; [split; [by apply at_spells|by do 2 apply skip_le; apply H]|lia].
Qed.

(** The part of gettoken between the spaces. *)
Definition scan (s : nat) : Z * nat :=
  let c := getb buf s in
  if c =? 0 then (c, s)
  else if is_in (bytes_of "|();&<") c then (c, S s)
  else if c =? 62 then (if getb buf (S s) =? 62 then (43, S (S s)) else (c, S s))
  else (97, skip buf word_char s).
Lemma scan_token t r s : rest s = text t ++ r -> good t -> parted t r -> scan s = (code t, (s + length (text t))%nat).
Proof.
  intros E Hg Hp. unfold scan. rewrite getb_drop, E. assert (E1 : rest (S s) = drop 1 (text t ++ r)) by (by rewrite <-E, drop_drop, Nat.add_1_r).
  destruct t as [c| |w].
  - cbn [text code good app length] in *. rewrite (getb_drop (S s)), E1, Nat.add_1_r. cbn [drop]. rewrite drop_0. destruct (symbol_not_white c Hg) as [_ Hz].
    rewrite (proj2 (Z.eqb_neq _ _) Hz). destruct (is_in (bytes_of "|();&<") c) eqn:Ei; [done|].
    assert (c = 62) as ->.
    { apply is_in_spec in Hg. change symbols with [60; 124; 62; 38; 59; 40; 41] in Hg. rewrite !elem_of_cons, elem_of_nil in Hg.
      destruct_or!; subst; done. }
    destruct r as [|d r]; [done|]. destruct (Z.eqb_spec d 62) as [->|]; [by destruct Hp|done].
  - cbn [text code good app length] in *. rewrite (getb_drop (S s)), E1. cbn [drop]. by rewrite !Nat.add_succ_r, Nat.add_0_r.
  - destruct Hg as [H1 H2]. cbn [text code] in *. destruct (skip_split word_char s w r E) as [-> _].
    { eapply Forall_impl; [exact H2|]. by intros c [? _]. }
    { by destruct r. }
    destruct H2 as [|c w [Hc Hz] _]; [done|]. cbn [app]. rewrite (proj2 (Z.eqb_neq _ _) Hz). apply andb_true_iff in Hc as [_ Hc].
    apply negb_true_iff in Hc. destruct (is_in (bytes_of "|();&<") c) eqn:Ei.
    { apply is_in_spec in Ei. change (bytes_of "|();&<") with [124; 40; 41; 59; 38; 60] in Ei. rewrite !elem_of_cons, elem_of_nil in Ei.
      destruct_or!; subst; done. }
    destruct (Z.eqb_spec c 62) as [->|]; done.
Qed.

Lemma gettoken_spells t ts ps : spelt (t :: ts) ps ->
  exists q ps', gettoken buf ps = (code t, q, ps') /\ spelt ts ps' /\ reads_tok t q /\ good t /\ (left ps' < left ps)%nat.
Proof.
  intros H. destruct (skip_white _ ps (proj1 H)) as [(r & E & Hg & Hp & Hs) Hl]. set (s := skip buf (is_in whitespace) ps) in *.
  set (e := (s + length (text t))%nat).
  assert (Er : rest e = r) by (unfold e; by rewrite <-drop_drop, E, drop_app_length).
  assert (Eg : gettoken buf ps = (code t, (s, e), skip buf (is_in whitespace) e)).
  { unfold gettoken. fold s. change ((let '(ret, s0) := scan s in (ret, (s, s0), skip buf (is_in whitespace) s0)) = (code t, (s, e), skip buf (is_in whitespace) e)).
    by rewrite (scan_token t r). }
  destruct (skip_white ts e) as [Ha Hl']; [by rewrite Er|]. exists (s, e), (skip buf (is_in whitespace) e).
  assert (Hpos : (0 < length (text t))%nat).
  { destruct t as [c| |w]; simpl in *; [lia..|]. destruct Hg as [Hw _]. destruct w; [done|simpl; lia]. }
  assert (Hlen : (length (text t) + left e = left s)%nat) by (unfold left; by rewrite Er, E, length_app).
  assert (He : (e <= length buf)%nat).
  { pose proof (skip_le (is_in whitespace) ps (proj2 H)) as Hs'. fold s in Hs'. unfold left in Hlen. rewrite !length_drop in Hlen. unfold e in *. lia. }
  split; [done|]. split; [split; [by apply at_spells|by apply skip_le]|]. split; [|split; [done|lia]].
  destruct t as [c| |w]; try done. simpl in *. unfold placed. cbn [fst snd]. rewrite Er. split; [done|]. split; [done|]. split; [done|].
  split; [done|by destruct r].
Qed.

(** ** A tree of places reads as a command *)
Inductive reads : cmd place -> cmd bytes -> Prop :=
| reads_exec qs ws : Forall2 placed qs ws -> reads (EXEC qs) (EXEC ws)
| reads_redir c d q w m n : reads c d -> placed q w -> reads (REDIR c q m n) (REDIR d w m n)
| reads_pipe c d c' d' : reads c d -> reads c' d' -> reads (PIPE c c') (PIPE d d')
| reads_list c d c' d' : reads c d -> reads c' d' -> reads (LIST c c') (LIST d d')
| reads_back c d : reads c d -> reads (BACK c) (BACK d).
Lemma reads_add_arg c d q w : reads c d -> placed q w -> reads (add_arg q c) (add_arg w d).
Proof.
  intros H Hq. induction H; simpl; constructor; try done. apply Forall2_app; [done|by constructor].
Qed.

(** ** Soundness *)
Definition redirs_ok c ts ps (r : cmd place * nat) : Prop :=
  exists t u d, ts = t ++ u /\ redirs_of c t d /\ reads r.1 d /\ spelt u r.2 /\ (left r.2 <= left ps)%nat.

Lemma front_redir t ts : good t -> front_in (t :: ts) "<>" = match redir_mode t with Some _ => true | None => false end.
Proof.
  intros Hg. destruct t as [c| |w]; [|done..]. simpl in Hg. apply is_in_spec in Hg. change symbols with [60; 124; 62; 38; 59; 40; 41] in Hg.
  rewrite !elem_of_cons, elem_of_nil in Hg. destruct_or!; subst; done.
Qed.
Lemma code_word t : good t -> (code t =? 97) = match t with Word _ => true | _ => false end.
Proof.
  destruct t as [c| |w]; [|done..]. simpl. intros Hg. apply is_in_spec in Hg. change symbols with [60; 124; 62; 38; 59; 40; 41] in Hg.
  rewrite !elem_of_cons, elem_of_nil in Hg. destruct_or!; subst; done.
Qed.
Lemma code_nonzero t : good t -> (code t =? 0) = false.
Proof. destruct t as [c| |w]; [|done..]. simpl. intros [_ H]%symbol_not_white. by apply Z.eqb_neq. Qed.
Lemma redir_code {A} t m n (c : cmd A) q : redir_mode t = Some (m, n) ->
  (if code t =? 60 then redircmd c q O_RDONLY 0
   else if code t =? 62 then redircmd c q (Z.lor O_WRONLY O_CREATE) 1
   else if code t =? 43 then redircmd c q (Z.lor O_WRONLY O_CREATE) 1 else c) = REDIR c q m n.
Proof.
  destruct t as [x| |w]; [|by intros [= <- <-]|done]. destruct (decide (x = 60)) as [->|H1]; [by intros [= <- <-]|].
  destruct (decide (x = 62)) as [->|H2]; [by intros [= <- <-]|]. simpl. repeat case_match; done.
Qed.

Lemma leads_redirs fuel : forall c' c ps ts, reads c' c -> spelt ts ps -> (left ps < fuel)%nat ->
  leads (redirs_ok c ts ps) (parseredirs buf fuel c' ps).
Proof.
  induction fuel as [|fuel IH]; intros c' c ps ts Hr Hs Hf; [lia|]. cbn [parseredirs].
  destruct (peek_spells ts ps "<>" Hs eq_refl) as (p1 & -> & S1 & _ & L1). destruct (front_in ts "<>") eqn:F.
  2: { exists [], ts, c. by split_and!; [|constructor|..]. }
  destruct ts as [|t1 ts]; [done|]. destruct (gettoken_spells t1 ts p1 S1) as (q1 & p2 & -> & S2 & _ & G1 & L2).
  destruct ts as [|t2 ts].
  { destruct (gettoken_end p2 S2) as (q2 & p3 & -> & _). apply leads_panic. }
  destruct (gettoken_spells t2 ts p2 S2) as (q2 & p3 & -> & S3 & R3 & G3 & L3). rewrite (code_word t2 G3), (front_redir _ _ G1) in *.
  destruct t2 as [x| |w]; [apply leads_panic..|]. destruct (redir_mode t1) as [[m n]|] eqn:E; [|done].
  rewrite (redir_code t1 m n c' q2 E).
  assert (H : leads (redirs_ok (REDIR c w m n) ts p3) (parseredirs buf fuel (REDIR c' q2 m n) p3)) by (apply IH; [by constructor|done|lia]).
  eapply leads_mono; [exact H|]. intros [d' p4] (t & u & d & -> & D1 & D2 & D3 & D4). exists (t1 :: Word w :: t), u, d. cbn [fst snd] in *.
  split_and!; try done; [by apply (redirs_more _ _ _ m n)|lia].
Qed.

Lemma front_single ts toks c : front_in ts toks = true -> bytes_of toks = [c] -> c <> 0 -> c <> 62 -> exists ts', ts = Sym c :: ts'.
Proof.
  unfold front_in. intros F E H0 H1. rewrite E in F. apply is_in_spec, list_elem_of_singleton in F. destruct ts as [|[x| |w] ts]; simpl in F; subst; try done.
  by exists ts.
Qed.
(** The tokens before the place reached derive what has been read. *)
Definition derives (G : list tok -> cmd bytes -> Prop) ts ps (r : cmd place * nat) : Prop :=
  exists t u d, ts = t ++ u /\ G t d /\ reads r.1 d /\ spelt u r.2 /\ (left r.2 <= left ps)%nat.

Lemma leads_args fuel : forall n c' c ps ts, reads c' c -> spelt ts ps -> (left ps < fuel)%nat ->
  leads (derives (fun t d => args_of n c t d) ts ps) (parseargs buf fuel n c' ps).
Proof.
  induction fuel as [|fuel IH]; intros n c' c ps ts Hr Hs Hf; [lia|]. cbn [parseargs].
  destruct (peek_spells ts ps "|)&;" Hs eq_refl) as (p1 & -> & S1 & _ & L1). destruct (front_in ts "|)&;") eqn:F.
  { exists [], ts, c. by split_and!; [|constructor|..]. }
  destruct ts as [|t ts].
  { destruct (gettoken_end p1 S1) as (q2 & p2 & -> & S2 & L2). exists [], [], c. split_and!; try done; [constructor|cbn [snd]; lia]. }
  destruct (gettoken_spells t ts p1 S1) as (q2 & p2 & -> & S2 & R2 & G2 & L2). rewrite (code_word t G2), (code_nonzero t G2).
  destruct t as [x| |w]; [apply leads_panic..|]. cbn [negb]. destruct (Z.leb_spec MAXARGS (n + 1)); [apply leads_panic|].
  eapply leads_bind; [apply (leads_redirs fuel (add_arg q2 c') (add_arg w c) p2 ts); [by apply reads_add_arg|done|lia]|].
  intros [d' p3] (t & u & d & -> & D1 & D2 & D3 & D4). cbn [fst snd] in *.
  eapply leads_mono; [apply (IH (n + 1) d' d p3 u); [done|done|lia]|]. intros [e' p4] (t2 & u2 & e & -> & E1 & E2 & E3 & E4). cbn [fst snd] in *.
  exists (Word w :: t ++ t2), u2, e. split_and!; try done; [cbn [app]; by rewrite <-!(assoc_L app)|by apply (args_word n c d)|cbn [snd]; lia].
Qed.
Lemma leads_backs fuel : forall c' c ps ts, reads c' c -> spelt ts ps -> (left ps < fuel)%nat ->
  leads (derives (fun t d => backs_of c t d) ts ps) (parsebacks buf fuel c' ps).
Proof.
  induction fuel as [|fuel IH]; intros c' c ps ts Hr Hs Hf; [lia|]. cbn [parsebacks].
  destruct (peek_spells ts ps "&" Hs eq_refl) as (p1 & -> & S1 & _ & L1). destruct (front_in ts "&") eqn:F.
  2: { exists [], ts, c. by split_and!; [|constructor|..]. }
  destruct (front_single ts "&" 38 F) as [ts' ->]; try done. rename ts' into ts.
  destruct (gettoken_spells (Sym 38) ts p1 S1) as (q2 & p2 & -> & S2 & _ & _ & L2).
  eapply leads_mono; [apply (IH (BACK c') (BACK c) p2 ts); [by constructor|done|lia]|]. intros [e' p4] (t2 & u2 & e & -> & E1 & E2 & E3 & E4).
  cbn [fst snd] in *. exists (Sym 38 :: t2), u2, e. split_and!; try done; [by constructor|cbn [snd]; lia].
Qed.

Definition sound_at (fuel : nat) : Prop :=
  (forall ps ts, spelt ts ps -> (4 * left ps + 3 < fuel)%nat -> leads (derives line_of ts ps) (parseline buf fuel ps)) /\
  (forall ps ts, spelt ts ps -> (4 * left ps + 2 < fuel)%nat -> leads (derives pipe_of ts ps) (parsepipe buf fuel ps)) /\
  (forall ps ts, spelt ts ps -> (4 * left ps + 1 < fuel)%nat -> leads (derives exec_of ts ps) (parseexec buf fuel ps)) /\
  (forall ps ts, spelt ts ps -> (4 * left ps < fuel)%nat -> leads (derives exec_of ts ps) (parseblock buf fuel ps)).

Lemma sound_line fuel : sound_at fuel -> forall ps ts, spelt ts ps -> (4 * left ps + 3 < S fuel)%nat ->
  leads (derives line_of ts ps) (parseline buf (S fuel) ps).
Proof.
  intros (IHl & IHp & _) ps ts Hs Hf. cbn [parseline]. eapply leads_bind; [apply (IHp ps ts); [done|lia]|].
  intros [c' p1] (t & u & c & -> & D1 & D2 & D3 & D4). cbn [fst snd] in *.
  eapply leads_bind; [apply (leads_backs fuel c' c p1 u); [done|done|lia]|].
  intros [e' p2] (t2 & u2 & e & -> & E1 & E2 & E3 & E4). cbn [fst snd] in *.
  destruct (peek_spells u2 p2 ";" E3 eq_refl) as (p3 & -> & S3 & _ & L3). destruct (front_in u2 ";") eqn:F.
  2: { exists (t ++ t2), u2, e. split_and!; try done; [by rewrite <-(assoc_L app)|by apply (line_last t t2 c)|cbn [snd]; lia]. }
  destruct (front_single u2 ";" 59 F) as [ts' ->]; try done. destruct (gettoken_spells _ _ p3 S3) as (q & p4 & -> & S4 & _ & _ & L4).
  eapply leads_bind; [apply (IHl p4 ts'); [done|lia]|]. intros [r' p5] (t3 & u3 & r & -> & F1 & F2 & F3 & F4). cbn [fst snd] in *.
  exists (t ++ t2 ++ Sym 59 :: t3), u3, (LIST e r).
  split_and!; try done; [by rewrite <-!(assoc_L app)|by apply (line_seq t t2 t3 c)|by constructor|cbn [snd]; lia].
Qed.
Lemma sound_pipe fuel : sound_at fuel -> forall ps ts, spelt ts ps -> (4 * left ps + 2 < S fuel)%nat ->
  leads (derives pipe_of ts ps) (parsepipe buf (S fuel) ps).
Proof.
  intros (_ & IHp & IHe & _) ps ts Hs Hf. cbn [parsepipe]. eapply leads_bind; [apply (IHe ps ts); [done|lia]|].
  intros [e' p2] (t & u2 & e & -> & D1 & D2 & D3 & D4). cbn [fst snd] in *.
  destruct (peek_spells u2 p2 "|" D3 eq_refl) as (p3 & -> & S3 & _ & L3). destruct (front_in u2 "|") eqn:F.
  2: { exists t, u2, e. split_and!; try done; [by apply pipe_last|cbn [snd]; lia]. }
  destruct (front_single u2 "|" 124 F) as [ts' ->]; try done. destruct (gettoken_spells _ _ p3 S3) as (q & p4 & -> & S4 & _ & _ & L4).
  eapply leads_bind; [apply (IHp p4 ts'); [done|lia]|]. intros [r' p5] (t3 & u3 & r & -> & F1 & F2 & F3 & F4). cbn [fst snd] in *.
  exists (t ++ Sym 124 :: t3), u3, (PIPE e r).
  split_and!; try done; [by rewrite <-!(assoc_L app)|by apply pipe_more|by constructor|cbn [snd]; lia].
Qed.
Lemma sound_exec fuel : sound_at fuel -> forall ps ts, spelt ts ps -> (4 * left ps + 1 < S fuel)%nat ->
  leads (derives exec_of ts ps) (parseexec buf (S fuel) ps).
Proof.
  intros (_ & _ & _ & IHb) ps ts Hs Hf. cbn [parseexec]. destruct (peek_spells ts ps "(" Hs eq_refl) as (p1 & -> & S1 & _ & L1).
  destruct (front_in ts "(") eqn:F.
  - eapply leads_mono; [apply (IHb p1 ts); [done|lia]|]. intros [e' p2] (t & u2 & e & -> & D1 & D2 & D3 & D4). exists t, u2, e.
    cbn [fst snd] in *. split_and!; try done. cbn [snd]. lia.
  - eapply leads_bind; [apply (leads_redirs fuel execcmd (EXEC []) p1 ts); [by repeat constructor|done|lia]|].
    intros [c' p2] (t & u & c & -> & D1 & D2 & D3 & D4). cbn [fst snd] in *.
    eapply leads_mono; [apply (leads_args fuel 0 c' c p2 u); [done|done|lia]|]. intros [e' p3] (t2 & u2 & e & -> & E1 & E2 & E3 & E4).
    cbn [fst snd] in *. exists (t ++ t2), u2, e. split_and!; try done; [by rewrite <-!(assoc_L app)|by apply (exec_simple t t2 c)|cbn [snd]; lia].
Qed.
Lemma sound_block fuel : sound_at fuel -> forall ps ts, spelt ts ps -> (4 * left ps < S fuel)%nat ->
  leads (derives exec_of ts ps) (parseblock buf (S fuel) ps).
Proof.
  intros (IHl & _) ps ts Hs Hf. cbn [parseblock]. destruct (peek_spells ts ps "(" Hs eq_refl) as (p1 & -> & S1 & _ & L1).
  destruct (front_in ts "(") eqn:F; cbn [negb]; [|apply leads_panic].
  destruct (front_single ts "(" 40 F) as [ts' ->]; try done. destruct (gettoken_spells _ _ p1 S1) as (q & p2 & -> & S2 & _ & _ & L2).
  eapply leads_bind; [apply (IHl p2 ts'); [done|lia]|]. intros [c' p3] (t & u & c & -> & D1 & D2 & D3 & D4). cbn [fst snd] in *.
  destruct (peek_spells u p3 ")" D3 eq_refl) as (p4 & -> & S4 & _ & L4). destruct (front_in u ")") eqn:F'; cbn [negb]; [|apply leads_panic].
  destruct (front_single u ")" 41 F') as [u' ->]; try done. destruct (gettoken_spells _ _ p4 S4) as (q' & p5 & -> & S5 & _ & _ & L5).
  eapply leads_mono; [apply (leads_redirs fuel c' c p5 u'); [done|done|lia]|]. intros [e' p6] (t2 & u2 & e & -> & E1 & E2 & E3 & E4).
  cbn [fst snd] in *. exists (Sym 40 :: t ++ Sym 41 :: t2), u2, e.
  split_and!; try done; [cbn [app]; by rewrite <-!(assoc_L app)|by apply (exec_block t t2 c)|cbn [snd]; lia].
Qed.
Lemma sound fuel : sound_at fuel.
Proof.
  induction fuel as [|fuel IH]; [split_and!; intros; lia|].
  split_and!; [by apply sound_line|by apply sound_pipe|by apply sound_exec|by apply sound_block].
Qed.

(** ** Completeness *)
(** Nothing follows, or one of these symbols. *)
Definition follow (k : list tok) (toks : string) : Prop := k = [] \/ front_in k toks = true.
Definition gives c k ps (p : prog (cmd place * nat)) : Prop :=
  exists c' ps', p = mret (c', ps') /\ reads c' c /\ spelt k ps' /\ (left ps' <= left ps)%nat.

Lemma follow_not k A B : follow k A -> forallb (fun c => negb (is_in (bytes_of B) c)) (0 :: bytes_of A) = true -> front_in k B = false.
Proof.
  intros Hk H. rewrite forallb_forall in H. apply negb_true_iff, H. destruct Hk as [->|Hk]; [by left|right].
  apply list_elem_of_In. by apply is_in_spec.
Qed.
Lemma follow_sub k A B : follow k A -> forallb (is_in (bytes_of B)) (bytes_of A) = true -> follow k B.
Proof.
  intros [->|Hk] H; [by left|right]. rewrite forallb_forall in H. apply H, list_elem_of_In. by apply is_in_spec.
Qed.

Lemma gives_redirs c t d : redirs_of c t d -> forall fuel c' ps k, reads c' c -> spelt (t ++ k) ps -> front_in k "<>" = false ->
  (left ps < fuel)%nat -> gives d k ps (parseredirs buf fuel c' ps).
Proof.
  induction 1 as [c|c t w m n u d E _ IH]; intros fuel c' ps k Hr Hs Hk Hf; (destruct fuel as [|fuel]; [lia|]); cbn [parseredirs app] in *;
    destruct (peek_spells _ ps "<>" Hs eq_refl) as (p1 & -> & S1 & _ & L1).
  { rewrite Hk. by exists c', p1. }
  destruct (gettoken_spells _ _ p1 S1) as (q1 & p2 & -> & S2 & _ & G1 & L2). rewrite (front_redir _ _ G1), E.
  destruct (gettoken_spells _ _ p2 S2) as (q2 & p3 & -> & S3 & R3 & G3 & L3). cbn [code Z.eqb Pos.eqb]. rewrite (redir_code t m n c' q2 E).
  destruct (IH fuel (REDIR c' q2 m n) p3 k) as (e & p4 & -> & E1 & E2 & E3); [by constructor|done|done|lia|]. exists e, p4. split_and!; try done. lia.
Qed.

Lemma args_front n c u d k : args_of n c u d -> follow k "|)&;" -> front_in (u ++ k) "<>" = false /\ front_in (u ++ k) "(" = false.
Proof. intros H Hk. destruct H; [|done]. split; by eapply follow_not. Qed.
Lemma gives_args n c t d : args_of n c t d -> forall fuel c' ps k, reads c' c -> spelt (t ++ k) ps -> follow k "|)&;" ->
  (left ps < fuel)%nat -> gives d k ps (parseargs buf fuel n c' ps).
Proof.
  induction 1 as [n c|n c c1 w t u d Hn Hr1 Ha IH]; intros fuel c' ps k Hr Hs Hk Hf; (destruct fuel as [|fuel]; [lia|]); cbn [parseargs app] in *;
    destruct (peek_spells _ ps "|)&;" Hs eq_refl) as (p1 & -> & S1 & _ & L1).
  - destruct Hk as [->|Hk]; [|rewrite Hk; by exists c', p1].
    destruct (gettoken_end p1 S1) as (q2 & p2 & -> & S2 & L2). exists c', p2. split_and!; try done. lia.
  - destruct (gettoken_spells _ _ p1 S1) as (q2 & p2 & -> & S2 & R2 & G2 & L2). change (front_in (Word w :: _) "|)&;") with false.
    cbn [code Z.eqb Pos.eqb negb]. destruct (Z.leb_spec MAXARGS (n + 1)); [lia|]. rewrite <-(assoc_L app) in S2.
    destruct (gives_redirs _ _ _ Hr1 fuel (add_arg q2 c') p2 (u ++ k)) as (e & p3 & -> & E1 & E2 & E3).
    { by apply reads_add_arg. } { done. } { by eapply args_front. } { lia. }
    rewrite ret_bind. destruct (IH fuel e p3 k) as (f & p4 & -> & F1 & F2 & F3); [done|done|done|lia|]. exists f, p4. split_and!; try done. lia.
Qed.
Lemma gives_backs c t d : backs_of c t d -> forall fuel c' ps k, reads c' c -> spelt (t ++ k) ps -> front_in k "&" = false ->
  (left ps < fuel)%nat -> gives d k ps (parsebacks buf fuel c' ps).
Proof.
  induction 1 as [c|c t d _ IH]; intros fuel c' ps k Hr Hs Hk Hf; (destruct fuel as [|fuel]; [lia|]); cbn [parsebacks app] in *;
    destruct (peek_spells _ ps "&" Hs eq_refl) as (p1 & -> & S1 & _ & L1).
  { rewrite Hk. by exists c', p1. }
  destruct (gettoken_spells _ _ p1 S1) as (q1 & p2 & -> & S2 & _ & G1 & L2). change (front_in (Sym 38 :: _) "&") with true. cbn iota.
  change (backcmd c') with (BACK c'). destruct (IH fuel (BACK c') p2 k) as (e & p3 & -> & E1 & E2 & E3); [by constructor|done|done|lia|]. exists e, p3. split_and!; try done. lia.
Qed.

Definition complete_line t c : Prop := forall k fuel ps, follow k ")" -> spelt (t ++ k) ps -> (4 * left ps + 3 < fuel)%nat ->
  gives c k ps (parseline buf fuel ps).
Definition complete_pipe t c : Prop := forall k fuel ps, follow k ")&;" -> spelt (t ++ k) ps -> (4 * left ps + 2 < fuel)%nat ->
  gives c k ps (parsepipe buf fuel ps).
Definition complete_exec t c : Prop := forall k fuel ps, follow k "|)&;" -> spelt (t ++ k) ps -> (4 * left ps + 1 < fuel)%nat ->
  gives c k ps (parseexec buf fuel ps).

Lemma backs_follow c u d k : backs_of c u d -> follow k ")&;" -> follow (u ++ k) ")&;".
Proof. intros [|] Hk; [done|by right]. Qed.
(** parsepipe and the ampersands after it. *)
Lemma complete_backs t u c d : complete_pipe t c -> backs_of c u d -> forall k fuel ps, follow k ");" -> spelt (t ++ u ++ k) ps ->
  (4 * left ps + 2 < fuel)%nat -> gives d k ps (r ← parsepipe buf fuel ps; let '(c, ps) := r in parsebacks buf fuel c ps).
Proof.
  intros IH Hb k fuel ps Hk Hs Hf. destruct (IH (u ++ k) fuel ps) as (c' & p1 & -> & C1 & C2 & C3); try done.
  { eapply backs_follow; [done|]. by eapply follow_sub. }
  rewrite ret_bind. destruct (gives_backs _ _ _ Hb fuel c' p1 k) as (d' & p2 & -> & D1 & D2 & D3); try done; [by eapply follow_not|lia|].
  exists d', p2. split_and!; try done. lia.
Qed.
Lemma parseline_split fuel ps : parseline buf (S fuel) ps =
  (r ← (r ← parsepipe buf fuel ps; let '(c, ps) := r in parsebacks buf fuel c ps);
   let '(c, ps) := r in
   let '(more, ps) := peek buf ps ";" in
   if more then let '(_, _, ps) := gettoken buf ps in r ← parseline buf fuel ps; let '(rest, ps) := r in mret (listcmd c rest, ps)
   else mret (c, ps)).
Proof. cbn [parseline]. rewrite prog_assoc. f_equal. apply functional_extensionality. by intros [c p]. Qed.

Lemma complete_last t u c d : complete_pipe t c -> backs_of c u d -> complete_line (t ++ u) d.
Proof.
  intros IHp Hb k fuel ps Hk Hs Hf. destruct fuel as [|fuel]; [lia|]. rewrite parseline_split. rewrite <-(assoc_L app) in Hs.
  destruct (complete_backs t u c d IHp Hb k fuel ps) as (d' & p1 & -> & D1 & D2 & D3); [by eapply follow_sub|done|lia|]. rewrite ret_bind.
  destruct (peek_spells _ p1 ";" D2 eq_refl) as (p2 & -> & S2 & _ & L2). rewrite (follow_not k ")" ";" Hk eq_refl). exists d', p2.
  split_and!; try done. lia.
Qed.
Lemma complete_seq t u v c d e : complete_pipe t c -> backs_of c u d -> complete_line v e -> complete_line (t ++ u ++ Sym 59 :: v) (LIST d e).
Proof.
  intros IHp Hb IHl k fuel ps Hk Hs Hf. destruct fuel as [|fuel]; [lia|]. rewrite parseline_split.
  rewrite <-!(assoc_L app) in Hs. cbn [app] in Hs.
  destruct (complete_backs t u c d IHp Hb (Sym 59 :: v ++ k) fuel ps) as (d' & p1 & -> & D1 & D2 & D3); [by right|done|lia|]. rewrite ret_bind.
  destruct (peek_spells _ p1 ";" D2 eq_refl) as (p2 & -> & S2 & _ & L2). change (front_in (Sym 59 :: _) ";") with true. cbn iota.
  destruct (gettoken_spells _ _ p2 S2) as (q & p3 & -> & S3 & _ & _ & L3).
  destruct (IHl k fuel p3 Hk S3) as (e' & p4 & -> & E1 & E2 & E3); [lia|]. rewrite ret_bind. exists (LIST d' e'), p4.
  split_and!; try done; [by constructor|lia].
Qed.
Lemma complete_pipe_last t c : complete_exec t c -> complete_pipe t c.
Proof.
  intros IHe k fuel ps Hk Hs Hf. destruct fuel as [|fuel]; [lia|]. cbn [parsepipe].
  destruct (IHe k fuel ps) as (d' & p1 & -> & D1 & D2 & D3); [by eapply follow_sub|done|lia|]. rewrite ret_bind.
  destruct (peek_spells _ p1 "|" D2 eq_refl) as (p2 & -> & S2 & _ & L2). rewrite (follow_not k ")&;" "|" Hk eq_refl). exists d', p2.
  split_and!; try done. lia.
Qed.
Lemma complete_pipe_more t u c d : complete_exec t c -> complete_pipe u d -> complete_pipe (t ++ Sym 124 :: u) (PIPE c d).
Proof.
  intros IHe IHp k fuel ps Hk Hs Hf. destruct fuel as [|fuel]; [lia|]. cbn [parsepipe]. rewrite <-(assoc_L app) in Hs. cbn [app] in Hs.
  destruct (IHe (Sym 124 :: u ++ k) fuel ps) as (d' & p1 & -> & D1 & D2 & D3); [by right|done|lia|]. rewrite ret_bind.
  destruct (peek_spells _ p1 "|" D2 eq_refl) as (p2 & -> & S2 & _ & L2). change (front_in (Sym 124 :: _) "|") with true. cbn iota.
  destruct (gettoken_spells _ _ p2 S2) as (q & p3 & -> & S3 & _ & _ & L3).
  destruct (IHp k fuel p3 Hk S3) as (e' & p4 & -> & E1 & E2 & E3); [lia|]. rewrite ret_bind. exists (PIPE d' e'), p4.
  split_and!; try done; [by constructor|lia].
Qed.
Lemma complete_block t u c d : complete_line t c -> redirs_of c u d -> complete_exec (Sym 40 :: t ++ Sym 41 :: u) d.
Proof.
  intros IHl Hr k fuel ps Hk Hs Hf. destruct fuel as [|[|fuel]]; [lia..|]. cbn [parseexec app] in *.
  destruct (peek_spells _ ps "(" Hs eq_refl) as (p1 & -> & S1 & _ & L1). change (front_in (Sym 40 :: _) "(") with true. cbn iota. cbn [parseblock].
  destruct (peek_spells _ p1 "(" S1 eq_refl) as (p2 & -> & S2 & _ & L2). change (front_in (Sym 40 :: _) "(") with true. cbn [negb].
  destruct (gettoken_spells _ _ p2 S2) as (q & p3 & -> & S3 & _ & _ & L3). rewrite <-(assoc_L app) in S3. cbn [app] in S3.
  destruct (IHl (Sym 41 :: u ++ k) fuel p3) as (c' & p4 & -> & C1 & C2 & C3); [by right|done|lia|]. rewrite ret_bind.
  destruct (peek_spells _ p4 ")" C2 eq_refl) as (p5 & -> & S5 & _ & L5). change (front_in (Sym 41 :: _) ")") with true. cbn [negb].
  destruct (gettoken_spells _ _ p5 S5) as (q' & p6 & -> & S6 & _ & _ & L6).
  destruct (gives_redirs _ _ _ Hr fuel c' p6 k) as (d' & p7 & -> & D1 & D2 & D3); try done; [by eapply follow_not|lia|].
  exists d', p7. split_and!; try done. lia.
Qed.
Lemma complete_simple t u c d : redirs_of (EXEC []) t c -> args_of 0 c u d -> complete_exec (t ++ u) d.
Proof.
  intros Hr Ha k fuel ps Hk Hs Hf. destruct fuel as [|fuel]; [lia|]. cbn [parseexec]. rewrite <-(assoc_L app) in Hs.
  destruct (args_front _ _ _ _ k Ha Hk) as [A1 A2]. destruct (peek_spells _ ps "(" Hs eq_refl) as (p1 & -> & S1 & _ & L1).
  assert (front_in (t ++ u ++ k) "(" = false) as ->.
  { destruct Hr as [|c t w m n v d' E _]; [done|]. destruct t as [x| |w']; simpl in E; [|done..]. unfold front_in. cbn [app front].
    destruct (is_in (bytes_of "(") x) eqn:Ex; [|done]. apply is_in_spec, list_elem_of_singleton in Ex. by subst. }
  destruct (gives_redirs _ _ _ Hr fuel execcmd p1 (u ++ k)) as (c' & p2 & -> & C1 & C2 & C3); try done; [by repeat constructor|lia|].
  rewrite ret_bind. destruct (gives_args _ _ _ _ Ha fuel c' p2 k) as (d' & p3 & -> & D1 & D2 & D3); try done; [lia|].
  exists d', p3. split_and!; try done. lia.
Qed.
Lemma complete : (forall t c, line_of t c -> complete_line t c) /\ (forall t c, pipe_of t c -> complete_pipe t c) /\
  (forall t c, exec_of t c -> complete_exec t c).
Proof.
  apply grammar_ind; intros; [by eapply complete_last|by eapply complete_seq|by apply complete_pipe_last|by apply complete_pipe_more|
    by eapply complete_block|by eapply complete_simple].
Qed.

(** ** Cutting the line *)
Fixpoint ends (c : cmd place) : list nat :=
  match c with
  | EXEC argv => map snd argv
  | REDIR c file _ _ => ends c ++ [file.2]
  | PIPE l r | LIST l r => ends l ++ ends r
  | BACK c => ends c
  end.
Definition cut (es : list nat) (b : bytes) : bytes := fold_left (fun b e => <[e := 0]> b) es b.
Lemma nulterminate_cut c b : nulterminate c b = cut (ends c) b.
Proof.
  revert b. unfold cut. induction c as [argv|c IH file m n|l IHl r IHr|l IHl r IHr|c IH]; intros b; cbn [nulterminate ends].
  - revert b. induction argv as [|q argv IH]; intros b; [done|]. cbn [fold_left map]. apply IH.
  - by rewrite fold_left_app, IH.
  - by rewrite fold_left_app, IHl, IHr.
  - by rewrite fold_left_app, IHl, IHr.
  - apply IH.
Qed.
Lemma length_cut es b : length (cut es b) = length b.
Proof. revert b. induction es as [|e es IH]; intros b; [done|]. cbn [cut fold_left]. etransitivity; [apply IH|]. apply length_insert. Qed.
Lemma cut_zero es b i : b !! i = Some 0 -> cut es b !! i = Some 0.
Proof.
  revert b. induction es as [|e es IH]; intros b H; [done|]. cbn [cut fold_left]. apply IH. pose proof (lookup_lt_Some _ _ _ H) as Hl.
  destruct (decide (e = i)) as [->|Hne]; [by apply list_lookup_insert_eq|by rewrite list_lookup_insert_ne].
Qed.
Lemma cut_at es b i : i ∈ es -> (i < length b)%nat -> cut es b !! i = Some 0.
Proof.
  revert b. induction es as [|e es IH]; intros b Hi Hl; [by apply elem_of_nil in Hi|]. cbn [cut fold_left]. apply elem_of_cons in Hi as [->|Hi].
  - apply cut_zero. by apply list_lookup_insert_eq.
  - apply IH; [done|]. by rewrite length_insert.
Qed.
Lemma cut_other es b i : (i ∉ es) -> cut es b !! i = b !! i.
Proof.
  revert b. induction es as [|e es IH]; intros b Hi; [done|]. cbn [cut fold_left]. apply not_elem_of_cons in Hi as [H1 H2].
  etransitivity; [by apply IH|]. by apply list_lookup_insert_ne.
Qed.

(** No end is inside a word. *)
Lemma placed_end q w i : placed q w -> i = q.2 -> (i <= length buf)%nat /\ forall c, buf !! i = Some c -> word_char c = false.
Proof.
  intros (_ & _ & _ & H1 & H2) ->. split; [done|]. intros c Hc. rewrite <-(Nat.add_0_r q.2), <-lookup_drop in Hc.
  destruct (rest q.2) as [|d r]; [done|]. by injection Hc as <-.
Qed.
Lemma reads_ends c d i : reads c d -> i ∈ ends c -> (i <= length buf)%nat /\ forall x, buf !! i = Some x -> word_char x = false.
Proof.
  induction 1 as [qs ws H|c d q w m n _ IH Hq|? ? ? ? _ IH1 _ IH2|? ? ? ? _ IH1 _ IH2|]; cbn [ends]; intros Hi.
  - apply list_elem_of_fmap in Hi as (q & E & Hq). apply list_elem_of_lookup in Hq as [k Hk].
    destruct (Forall2_lookup_l _ _ _ _ _ H Hk) as (w & _ & Hw). by apply (placed_end q w).
  - apply elem_of_app in Hi as [Hi|Hi]; [by apply IH|]. apply list_elem_of_singleton in Hi. by apply (placed_end q w).
  - apply elem_of_app in Hi as [Hi|Hi]; [by apply IH1|by apply IH2].
  - apply elem_of_app in Hi as [Hi|Hi]; [by apply IH1|by apply IH2].
  - by apply IHreads.
Qed.

Lemma cstring_app w l : Forall (fun c => word_char c = true /\ c <> 0) w -> cstring (w ++ 0 :: l) = w.
Proof. induction 1 as [|c w [_ Hz] _ IH]; [done|]. cbn [cstring app]. by rewrite (proj2 (Z.eqb_neq _ _) Hz), IH. Qed.

Section Cut.
Context (es : list nat) (Hes : forall i, i ∈ es -> (i <= length buf)%nat /\ forall x, buf !! i = Some x -> word_char x = false).

Lemma string_placed q w : placed q w -> q.2 ∈ es -> string_at (cut es (buf ++ [0])) q = w.
Proof.
  intros ([_ Hw] & H1 & H2 & H3 & H4) Hin. unfold string_at. rewrite <-(cstring_app w (drop (S q.2) (cut es (buf ++ [0])))) by done. f_equal.
  set (b := cut es (buf ++ [0])). assert (Hlen : length b = S (length buf)) by (unfold b; rewrite length_cut, length_app; simpl; lia).
  assert (H0 : b !! q.2 = Some 0) by (apply cut_at; [done|rewrite length_app; simpl; lia]).
  rewrite <-(drop_S b 0 q.2 H0). apply list_eq. intros i. rewrite lookup_drop.
  destruct (decide (i < length w)%nat) as [Hi|Hi].
  - rewrite lookup_app_l by done. assert (Hb : buf !! (q.1 + i)%nat = w !! i) by (by rewrite <-lookup_drop, H1, lookup_app_l).
    destruct (lookup_lt_is_Some_2 w i Hi) as [c Hc]. rewrite Hc in Hb |- *. unfold b. rewrite cut_other, lookup_app_l; [done| |].
    + by apply lookup_lt_Some in Hb.
    + intros He. destruct (Hes _ He) as [_ Hx]. specialize (Hx c Hb). rewrite Forall_lookup in Hw. destruct (Hw i c Hc) as [Hc' _]. congruence.
  - rewrite lookup_app_r by lia. rewrite lookup_drop. f_equal. lia.
Qed.
Lemma strings_read c d : reads c d -> (forall i, i ∈ ends c -> i ∈ es) -> cmd_map (string_at (cut es (buf ++ [0]))) c = d.
Proof.
  induction 1 as [qs ws H|c d q w m n _ IH Hq|? ? ? ? _ IH1 _ IH2|? ? ? ? _ IH1 _ IH2|? ? _ IH]; cbn [ends cmd_map]; intros Hi.
  - f_equal. revert Hi. induction H as [|q w qs ws Hq _ IH]; intros Hi; [done|]. cbn [map] in *. rewrite IH, (string_placed q w); try done; set_solver.
  - rewrite IH, (string_placed q w); try done; set_solver.
  - rewrite IH1, IH2; try done; set_solver.
  - rewrite IH1, IH2; try done; set_solver.
  - by rewrite IH.
Qed.
End Cut.

(** nulterminate cuts the line so that every string of the tree is the word that was read. *)
Lemma nulterminate_strings c d : reads c d -> cmd_map (string_at (nulterminate c (buf ++ [0]))) c = d.
Proof. intros H. rewrite nulterminate_cut. apply (strings_read (ends c)); try done. intros i Hi. by apply (reads_ends c d). Qed.
End Line.

(** ** Every line is made of tokens *)
Lemma span p (l : bytes) : exists a b, l = a ++ b /\ Forall (fun c => p c = true) a /\ match b with c :: _ => p c = false | [] => True end.
Proof.
  induction l as [|c l (a & b & -> & Ha & Hb)]; [by exists [], []|]. destruct (p c) eqn:E; [|by exists [], (c :: a ++ b)].
  exists (c :: a), b. split; [done|]. split; [by constructor|done].
Qed.
Lemma first_token s : Forall (fun c => c <> 0) s -> match s with c :: _ => is_in whitespace c = false | [] => False end ->
  exists t r, s = text t ++ r /\ good t /\ parted t r /\ (length r < length s)%nat.
Proof.
  intros Hz Hw. destruct s as [|c s]; [done|]. destruct (is_in symbols c) eqn:Es.
  - destruct (decide (c = 62 /\ head s = Some 62)) as [[-> E]|Hno].
    + destruct s as [|d r]; [done|]. injection E as ->. exists Append, r. split_and!; try done. simpl. lia.
    + exists (Sym c), s. split_and!; try done; [|simpl; lia]. destruct s as [|d s]; [done|]. intros [-> ->]. by apply Hno.
  - destruct (span word_char (c :: s)) as (a & b & E & Ha & Hb).
    assert (Hc : word_char c = true) by (unfold word_char; by rewrite Hw, Es).
    destruct a as [|x a]; [simpl in E; subst b; congruence|]. exists (Word (x :: a)), b. cbn [text]. split; [done|]. split; [|split].
    + split; [done|]. apply Forall_forall. intros y Hy. split; [by apply (proj1 (Forall_forall _ _) Ha)|].
      apply (proj1 (Forall_forall _ _) Hz). rewrite E. set_solver.
    + by destruct b.
    + rewrite E, length_app. simpl. lia.
Qed.
Lemma line_spells s : Forall (fun c => c <> 0) s -> exists ts, spells ts s.
Proof.
  remember (length s) as n eqn:En. revert s En. induction n as [n IH] using lt_wf_ind. intros s -> Hz.
  destruct (span (is_in whitespace) s) as (a & b & -> & Ha & Hb). apply Forall_app in Hz as [_ Hz]. rewrite length_app in IH.
  destruct b as [|c b]; [exists []; rewrite app_nil_r; by constructor|].
  destruct (first_token (c :: b) Hz Hb) as (t & r & E & Hg & Hp & Hl). rewrite E in *. apply Forall_app in Hz as [_ Hz].
  destruct (IH (length r) ltac:(lia) r eq_refl Hz) as [ts Hts]. exists (t :: ts). by constructor.
Qed.

Lemma leads_leftovers s : leads (fun _ => True) (printf 2 "leftovers: %s\n" [CStr (Some s)]).
Proof.
  unfold printf. change (unescape (bytes_of "leftovers: %s\n")) with [108; 101; 102; 116; 111; 118; 101; 114; 115; 58; 32; 37; 115; 10].
  cbn [printf_loop Z.eqb Pos.eqb]. repeat (apply leads_then; [by split|]).
  eapply (leads_bind (fun _ => True)); [|by intros ap _; split]. cbn [convert Z.eqb Pos.eqb orb default]. apply leads_then; [apply leads_puts|done].
Qed.

Section Parsecmd.
Context (s : bytes) (Hz : Forall (fun c => c <> 0) s).

(** The end of the line is reached when no token is left. *)
Lemma peek_end ts ps : spelt s ts ps ->
  exists ps', peek s ps "" = (false, ps') /\ (Nat.eqb ps' (length s) = true <-> ts = []).
Proof.
  intros H. destruct (peek_spells s ts ps "" H eq_refl) as (p' & E & [S1 S2] & Ha & _). exists p'. split; [exact E|]. rewrite Nat.eqb_eq. split.
  - intros ->. rewrite drop_all in Ha. destruct ts as [|t ts]; [done|]. destruct Ha as (r & E' & Hg & _).
    destruct (good_head t r Hg) as (c & l & E2 & _). congruence.
  - intros ->. simpl in Ha. apply (f_equal length) in Ha. rewrite length_drop in Ha. simpl in Ha. lia.
Qed.
Lemma spelt_start ts : spells ts s -> spelt s ts 0.
Proof. intros H. split; [by rewrite drop_0|lia]. Qed.
Lemma fuel_start : (4 * left s 0 + 3 < parse_fuel s)%nat.
Proof. unfold left, parse_fuel. rewrite drop_0. lia. Qed.

Lemma parsecmd_sound : leads (fun c => exists ts, spells ts s /\ line_of ts c) (parsecmd s).
Proof.
  destruct (line_spells s Hz) as [ts Hts]. unfold parsecmd. destruct (sound s (parse_fuel s)) as [Hl _].
  eapply leads_bind; [apply (Hl 0%nat ts); [by apply spelt_start|apply fuel_start]|].
  intros [c' p1] (t & u & d & -> & D1 & D2 & D3 & D4). cbn [fst snd] in *. destruct (peek_end u p1 D3) as (p2 & -> & Hu).
  destruct (Nat.eqb p2 (length s)); cbn [negb].
  - rewrite (proj1 Hu eq_refl), app_nil_r in *. exists t. split; [done|]. by rewrite (nulterminate_strings s c' d D2).
  - apply leads_then; [apply leads_leftovers|apply leads_panic].
Qed.
Lemma parsecmd_complete ts c : spells ts s -> line_of ts c -> parsecmd s = mret c.
Proof.
  intros Hts Hc. unfold parsecmd. destruct (proj1 (complete s) ts c Hc [] (parse_fuel s) 0%nat) as (c' & p1 & -> & C1 & C2 & C3).
  { by left. } { rewrite app_nil_r. by apply spelt_start. } { apply fuel_start. }
  rewrite ret_bind. destruct (peek_end [] p1 C2) as (p2 & -> & Hu). rewrite (proj2 Hu eq_refl). cbn [negb].
  by rewrite (nulterminate_strings s c' c C1).
Qed.
End Parsecmd.

(** The commands a line stands for. *)
Definition means (s : bytes) (c : cmd bytes) : Prop := exists ts, spells ts s /\ line_of ts c.

(** C6: the shell's parser is exact.  It returns the command [c] exactly when the
    line is made of tokens that derive [c] in the grammar, with every string of
    [c], as nulterminate leaves it in the line, the word that was read.  On a line
    that stands for no command it prints a message on the standard error and
    exits; and whatever the kernel answers to its writes, it never returns
    anything but a command of the line. *)
Theorem parsecmd_exact s c : Forall (fun x => x <> 0) s ->
  (parsecmd s = mret c <-> means s c) /\
  ((forall d, ~ means s d) -> complains (parsecmd s)) /\
  leads (means s) (parsecmd s).
Proof.
  intros Hz. pose proof (parsecmd_sound s Hz) as Hs. split; [split|split; [|exact Hs]].
  - intros E. rewrite E in Hs. exact Hs.
  - intros (ts & H1 & H2). by apply (parsecmd_complete s ts).
  - intros Hn. eapply leads_mono; [exact Hs|]. intros d Hd. by destruct (Hn d).
Qed.
(** A line of the language. *)
Lemma parsecmd_exact_witness :
  let s := bytes_of "ls>f;(cat|wc)&" in
  let c := LIST (REDIR (EXEC [bytes_of "ls"]) (bytes_of "f") 513 1) (BACK (PIPE (EXEC [bytes_of "cat"]) (EXEC [bytes_of "wc"]))) in
  parsecmd s = mret c /\ means s c.
Proof.
  intros s c. destruct (parsecmd_exact s c) as [H1 H2]; [by repeat constructor|].
  assert (E : parsecmd s = mret c) by (vm_compute; reflexivity). split; [exact E|by apply H1].
Defined.
