(* ===== verification/ShRun.v ===== *)
(** * What a line of the shell starts, and how it is connected

    [launch] follows a program through the kernel's descriptor tables: a fork
    goes on as the child and as the parent, each with its own table, and an exec
    starts a program with the table of its process.  The theorem says which
    programs a line starts and what their descriptors are. *)
From S2P Require Import Prelude Bytes CString Console Fs User Ulib Sh ShParse.

Open Scope Z_scope.

(** What a descriptor refers to. *)
Variant object := Given (n : Z) | Opened (path : bytes) (mode : Z) | ReadEnd (p : nat) | WriteEnd (p : nat).
Abbreviation table := (gmap Z object).
Record started := Started { st_path : bytes; st_argv : list bytes; st_fds : table }.

(** The lowest descriptor that is not in use. *)
Definition fdalloc (fds : table) : option Z := find (fun fd => bool_decide (fds !! fd = None)) (seqZ 0 16).

Section Launch.
(** The files that can be opened. *)
Context (openable : bytes -> Z -> bool).

(** A process that starts: the programs it and its children start, and the number
    of pipes made so far. *)
Fixpoint launch {A} (p : prog A) (fds : table) (pipes : nat) : list started * nat :=
  match p with
  | Call c k =>
      match c in call R return (R -> prog A) -> list started * nat with
      | CExec path argv => fun _ => ([Started path argv fds], pipes)
      | CFork => fun k =>
          let '(child, n) := launch (k 0) fds pipes in
          let '(parent, n) := launch (k 7) fds n in
          (child ++ parent, n)
      | CPipe => fun k =>
          match fdalloc fds with
          | None => launch (k None) fds pipes
          | Some r =>
              match fdalloc (<[r := ReadEnd pipes]> fds) with
              | None => launch (k None) fds pipes
              | Some w => launch (k (Some (r, w))) (<[w := WriteEnd pipes]> (<[r := ReadEnd pipes]> fds)) (S pipes)
              end
          end
      | CClose fd => fun k =>
          match fds !! fd with
          | None => launch (k (-1)) fds pipes
          | Some _ => launch (k 0) (delete fd fds) pipes
          end
      | CDup fd => fun k =>
          match fds !! fd, fdalloc fds with
          | Some o, Some n => launch (k n) (<[n := o]> fds) pipes
          | _, _ => launch (k (-1)) fds pipes
          end
      | COpen path mode => fun k =>
          match fdalloc fds with
          | Some fd => if openable path mode then launch (k fd) (<[fd := Opened path mode]> fds) pipes else launch (k (-1)) fds pipes
          | None => launch (k (-1)) fds pipes
          end
      | CWrite fd b => fun k => launch (k (Z.of_nat (length b))) fds pipes
      | CWait => fun k => launch (k 7) fds pipes
      | _ => fun _ => ([], pipes)
      end k
  | _ => ([], pipes)
  end.

(** What a command means. *)
Fixpoint meaning (c : cmd bytes) (fds : table) (pipes : nat) : list started * nat :=
  match c with
  | EXEC [] => ([], pipes)
  | EXEC (a :: argv) => ([Started a (a :: argv) fds], pipes)
  | REDIR c file mode fd => if openable file mode then meaning c (<[fd := Opened file mode]> fds) pipes else ([], pipes)
  | PIPE l r =>
      let '(a, n) := meaning l (<[1 := WriteEnd pipes]> fds) (S pipes) in
      let '(b, n) := meaning r (<[0 := ReadEnd pipes]> fds) n in
      (a ++ b, n)
  | LIST l r =>
      let '(a, n) := meaning l fds pipes in
      let '(b, n) := meaning r fds n in
      (a ++ b, n)
  | BACK c => meaning c fds pipes
  end.
End Launch.

(** ** Programs that do not return, and programs that only write *)
Fixpoint noret {A} (p : prog A) : Prop := match p with Ret _ => False | Call _ k => forall r, noret (k r) | _ => True end.
Fixpoint quiet {A} (p : prog A) : Prop :=
  match p with
  | Call c k => match c with CWrite _ _ => True | _ => False end /\ forall r, quiet (k r)
  | _ => True
  end.
Lemma noret_then {A B} (p : prog A) (f : A -> prog B) : (forall a, noret (f a)) -> noret (p ≫= f).
Proof. intros H. induction p as [a| | |e|R c k IH]; [apply H|done..|]. intros r. apply IH. Qed.
Lemma quiet_then {A B} (p : prog A) (f : A -> prog B) : quiet p -> (forall a, quiet (f a)) -> quiet (p ≫= f).
Proof. intros Hp H. induction p as [a| | |e|R c k IH]; [apply H|done..|]. destruct Hp as [H1 H2]. split; [done|]. intros r. apply IH, H2. Qed.
Lemma quiet_puts fd l : quiet (puts fd l).
Proof. induction l as [|c l IH]; [done|]. by split. Qed.
Lemma quiet_putc fd c : quiet (putc fd c).
Proof. by split. Qed.
Lemma quiet_printint fd x b n : quiet (printint fd x b n).
Proof. unfold printint. case_match; [done|apply quiet_puts]. Qed.
Lemma quiet_convert fd c ap : quiet (convert fd c ap).
Proof.
  unfold convert. repeat case_match; try done; try (apply quiet_then; [|done]);
    (apply quiet_printint || apply quiet_puts || by split).
Qed.
Lemma quiet_printf fd fmt ap : quiet (printf fd fmt ap).
Proof.
  unfold printf. generalize (unescape (bytes_of fmt)) as l, false as st. intros l. revert ap.
  induction l as [|c l IH]; intros ap st; cbn [printf_loop]; [done|].
  destruct st; [apply quiet_then; [apply quiet_convert|intros; apply IH]|].
  destruct (c =? 37); [apply IH|apply quiet_then; [apply quiet_putc|intros; apply IH]].
Qed.

Section Meaning.
Context (openable : bytes -> Z -> bool).
#[local] Abbreviation launch := (launch openable).
#[local] Abbreviation meaning := (meaning openable).

Lemma launch_noret {A B} (p : prog A) (f : A -> prog B) fds n : noret p -> launch (p ≫= f) fds n = launch p fds n.
Proof.
  revert fds n. induction p as [a| | |e|R c k IH]; intros fds n H; try done.
  change (Call c k ≫= f) with (Call c (fun r => k r ≫= f)). simpl in H.
  destruct c; cbn [ShRun.launch]; try done; [|by repeat case_match; apply IH..].
  rewrite IH by apply H. destruct (launch (k 0) fds n) as [child m]. by rewrite IH.
Qed.
Lemma launch_quiet {A B} (p : prog A) (f : A -> prog B) fds n : quiet p -> (forall a, launch (f a) fds n = ([], n)) -> launch (p ≫= f) fds n = ([], n).
Proof.
  intros H Hf. induction p as [a| | |e|R c k IH]; [apply Hf|done..|]. change (Call c k ≫= f) with (Call c (fun r => k r ≫= f)).
  destruct H as [H1 H2]. destruct c; try done. cbn [ShRun.launch]. by apply IH.
Qed.
Lemma noret_runcmd c : noret (runcmd c).
Proof.
  destruct c as [[|a argv]|c file m fd|l r|l r|c]; cbn [runcmd]; try done; apply noret_then; intros.
  - by apply noret_then.
  - by do 3 (apply noret_then; intros).
  - destruct a as [[p0 p1]|]; [|by apply noret_then]. do 8 (apply noret_then; intros). done.
  - by do 3 (apply noret_then; intros).
  - by apply noret_then.
Qed.

(** ** The descriptor table of the shell: the first three *)
Definition std (fds : table) : Prop := forall i, is_Some (fds !! i) <-> 0 <= i < 3.

Lemma fdalloc_is fds i : 0 <= i < 16 -> (forall j, 0 <= j < i -> is_Some (fds !! j)) -> fds !! i = None -> fdalloc fds = Some i.
Proof.
  intros Hi Hj Hn. unfold fdalloc. replace (seqZ 0 16) with (seqZ 0 i ++ i :: seqZ (i + 1) (15 - i)).
  - assert (Hp : forall l, (forall j, j ∈ l -> is_Some (fds !! j)) ->
      find (fun fd => bool_decide (fds !! fd = None)) (l ++ i :: seqZ (i + 1) (15 - i)) = Some i).
    { induction l as [|x l IH]; intros Hl; cbn [find app]; [by rewrite bool_decide_true|]. rewrite bool_decide_false.
      - apply IH. intros j Hj'. apply Hl. by right.
      - destruct (Hl x) as [o ->]; [by left|done]. }
    apply Hp. intros j Hin. apply elem_of_seqZ in Hin. apply Hj. lia.
  - transitivity (seqZ 0 i ++ seqZ i (16 - i)).
    + f_equal. rewrite (seqZ_cons i (16 - i)) by lia. do 2 f_equal; lia.
    + rewrite <-(Z.add_0_l i) at 2. rewrite <-seqZ_app by lia. f_equal. lia.
Qed.
Lemma std_insert fds i o : std fds -> 0 <= i < 3 -> std (<[i := o]> fds).
Proof. intros H Hi j. rewrite lookup_insert_is_Some, (H j). lia. Qed.
Lemma std_none fds i : std fds -> ~ 0 <= i < 3 -> fds !! i = None.
Proof. intros H Hi. apply eq_None_not_Some. by rewrite (H i). Qed.

Lemma launch_close {A} fd (f : Z -> prog A) fds n o : fds !! fd = Some o ->
  launch (r ← sys (CClose fd); f r) fds n = launch (f 0) (delete fd fds) n.
Proof. intros H. change (launch (Call (CClose fd) (fun r => f r)) fds n = launch (f 0) (delete fd fds) n). cbn [ShRun.launch]. by rewrite H. Qed.
Lemma launch_dup {A} fd m (f : Z -> prog A) fds n o : fds !! fd = Some o -> fdalloc fds = Some m ->
  launch (r ← sys (CDup fd); f r) fds n = launch (f m) (<[m := o]> fds) n.
Proof. intros H Hm. change (launch (Call (CDup fd) (fun r => f r)) fds n = launch (f m) (<[m := o]> fds) n). cbn [ShRun.launch]. by rewrite H, Hm. Qed.
Lemma launch_fork {A} (f : Z -> prog A) fds n :
  launch (pid ← fork1; f pid) fds n =
    (let '(child, n) := launch (f 0) fds n in let '(parent, n) := launch (f 7) fds n in (child ++ parent, n)).
Proof. done. Qed.

(** A child that puts one end of the pipe in the place of descriptor [d]. *)
Lemma launch_end (d e : Z) fds n (p : prog unit) o r w : std fds -> 0 <= d < 3 -> e = 3 /\ o = r \/ e = 4 /\ o = w ->
  launch (sys (CClose d) ;; sys (CDup e) ;; sys (CClose 3) ;; sys (CClose 4) ;; p) (<[4 := w]> (<[3 := r]> fds)) n = launch p (<[d := o]> fds) n.
Proof.
  intros Hs Hd He. destruct (proj2 (Hs d) Hd) as [x Hx].
  rewrite (launch_close d _ _ n x) by (rewrite !lookup_insert_ne by lia; done).
  rewrite (launch_dup e d _ _ n o).
  2: { rewrite lookup_delete_ne by lia. destruct He as [[-> ->]|[-> ->]]; [rewrite lookup_insert_ne by lia|]; by rewrite lookup_insert_eq. }
  2: { apply fdalloc_is; [lia| |by rewrite lookup_delete_eq]. intros j Hj. rewrite lookup_delete_ne, !lookup_insert_ne by lia. apply Hs. lia. }
  rewrite (launch_close 3 _ _ n r), (launch_close 4 _ _ n w).
  - f_equal. apply map_eq. intros i. pose proof (std_none fds i Hs). destruct (decide (i = 4)) as [->|H4]; [rewrite lookup_delete_eq, lookup_insert_ne by lia; rewrite H; [done|lia]|].
    rewrite lookup_delete_ne by done. destruct (decide (i = 3)) as [->|H3]; [rewrite lookup_delete_eq, lookup_insert_ne by lia; rewrite H; [done|lia]|].
    rewrite lookup_delete_ne by done. destruct (decide (i = d)) as [->|Hid]; [by rewrite !lookup_insert_eq|].
    by rewrite !(lookup_insert_ne _ d), lookup_delete_ne, !lookup_insert_ne by done.
  - rewrite lookup_delete_ne, lookup_insert_ne, lookup_delete_ne by lia. by rewrite lookup_insert_eq.
  - rewrite lookup_insert_ne, lookup_delete_ne, lookup_insert_ne by lia. by rewrite lookup_insert_eq.
Qed.

Lemma launch_open {A} path mode (f : Z -> prog A) fds n fd : fdalloc fds = Some fd ->
  launch (r ← sys (COpen path mode); f r) fds n =
    if openable path mode then launch (f fd) (<[fd := Opened path mode]> fds) n else launch (f (-1)) fds n.
Proof.
  intros H. change (launch (Call (COpen path mode) (fun r => f r)) fds n =
    if openable path mode then launch (f fd) (<[fd := Opened path mode]> fds) n else launch (f (-1)) fds n).
  cbn [ShRun.launch]. by rewrite H.
Qed.
Lemma launch_pipe {A} (f : option (Z * Z) -> prog A) fds n : std fds ->
  launch (p ← sys CPipe; f p) fds n = launch (f (Some (3, 4))) (<[4 := WriteEnd n]> (<[3 := ReadEnd n]> fds)) (S n).
Proof.
  intros H. change (launch (Call CPipe (fun p => f p)) fds n = launch (f (Some (3, 4))) (<[4 := WriteEnd n]> (<[3 := ReadEnd n]> fds)) (S n)).
  cbn [ShRun.launch]. rewrite (fdalloc_is fds 3); [rewrite (fdalloc_is _ 4); [done|lia| |]|lia|intros j Hj; by apply H|apply std_none; [done|lia]].
  - intros j Hj. apply lookup_insert_is_Some. destruct (decide (j = 3)); [by left|right]. split; [done|]. apply H. lia.
  - rewrite lookup_insert_ne by lia. apply std_none; [done|lia].
Qed.
Lemma launch_rest fds n (o r : object) :
  launch (sys (CClose 3) ;; sys (CClose 4) ;; sys CWait ;; sys CWait ;; (Exit : prog unit)) (<[4 := o]> (<[3 := r]> fds)) n = ([], n).
Proof.
  rewrite (launch_close 3 _ _ n r) by (by rewrite lookup_insert_ne, lookup_insert_eq by lia).
  rewrite (launch_close 4 _ _ n o); [done|]. by rewrite lookup_delete_ne, lookup_insert_eq by lia.
Qed.

(** Redirections are of the first three descriptors. *)
Fixpoint redirects (c : cmd bytes) : Prop :=
  match c with
  | EXEC _ => True
  | REDIR c _ _ fd => 0 <= fd < 3 /\ redirects c
  | PIPE l r | LIST l r => redirects l /\ redirects r
  | BACK c => redirects c
  end.

Lemma launch_redir c file mode fd fds n : std fds -> 0 <= fd < 3 ->
  (forall fds n, std fds -> launch (runcmd c) fds n = meaning c fds n) -> launch (runcmd (REDIR c file mode fd)) fds n = meaning (REDIR c file mode fd) fds n.
Proof.
  intros Hs Hfd IH. cbn [runcmd ShRun.meaning]. destruct (proj2 (Hs fd) Hfd) as [o Ho]. rewrite (launch_close fd _ _ n o Ho).
  rewrite (launch_open file mode _ _ n fd).
  2: { apply fdalloc_is; [lia| |by rewrite lookup_delete_eq]. intros j Hj. rewrite lookup_delete_ne by lia. apply Hs. lia. }
  destruct (openable file mode).
  - rewrite (proj2 (Z.ltb_ge fd 0)) by lia. change (mret tt ;; runcmd c ;; Exit) with (runcmd c ;; (Exit : prog unit)).
    rewrite launch_noret by apply noret_runcmd. rewrite insert_delete_eq. apply IH. by apply std_insert.
  - rewrite (proj2 (Z.ltb_lt (-1) 0)) by lia. rewrite launch_noret by (by apply noret_then). apply launch_quiet; [apply quiet_printf|done].
Qed.
Lemma launch_pipeline l r fds n : std fds -> (forall fds n, std fds -> launch (runcmd l) fds n = meaning l fds n) ->
  (forall fds n, std fds -> launch (runcmd r) fds n = meaning r fds n) -> launch (runcmd (PIPE l r)) fds n = meaning (PIPE l r) fds n.
Proof.
  intros Hs IHl IHr. cbn [runcmd ShRun.meaning]. rewrite launch_pipe by done. rewrite launch_fork. cbn [Z.eqb].
  rewrite launch_noret by (do 4 (apply noret_then; intros); apply noret_runcmd).
  rewrite (launch_end 1 4 fds _ _ (WriteEnd n)) by (done || lia || by right). rewrite IHl by (by apply std_insert).
  destruct (meaning l (<[1 := WriteEnd n]> fds) (S n)) as [a n1]. rewrite ret_bind, launch_fork. cbn [Z.eqb].
  rewrite launch_noret by (do 4 (apply noret_then; intros); apply noret_runcmd).
  rewrite (launch_end 0 3 fds _ _ (ReadEnd n)) by (done || lia || by left). rewrite IHr by (by apply std_insert).
  destruct (meaning r (<[0 := ReadEnd n]> fds) n1) as [b n2]. rewrite ret_bind, launch_rest. by rewrite app_nil_r.
Qed.
Lemma launch_runcmd c : redirects c -> forall fds n, std fds -> launch (runcmd c) fds n = meaning c fds n.
Proof.
  induction c as [[|a argv]|c IH file m fd|l IHl r IHr|l IHl r IHr|c IH]; cbn [redirects]; intros Hr fds n Hs; try done.
  - destruct Hr. apply launch_redir; [done|done|]. intros. by apply IH.
  - destruct Hr. apply launch_pipeline; [done|..]; intros; [by apply IHl|by apply IHr].
  - destruct Hr. cbn [runcmd ShRun.meaning]. rewrite launch_fork. cbn [Z.eqb]. rewrite launch_noret by apply noret_runcmd. rewrite IHl by done.
    destruct (meaning l fds n) as [x n1]. rewrite ret_bind.
    change (launch (sys CWait ;; runcmd r ;; Exit) fds n1) with (launch (runcmd r ;; (Exit : prog unit)) fds n1).
    rewrite launch_noret by apply noret_runcmd. by rewrite IHr.
  - cbn [runcmd ShRun.meaning]. rewrite launch_fork. cbn [Z.eqb]. rewrite launch_noret by apply noret_runcmd. rewrite IH by done.
    destruct (meaning c fds n) as [x n1]. rewrite ret_bind. cbn. by rewrite app_nil_r.
Qed.

(** The parser's redirections are of descriptors 0 and 1. *)
Lemma redirects_redirs c t d : redirs_of c t d -> redirects c -> redirects d.
Proof.
  induction 1 as [c|c t w m n u d E _ IH]; [done|]. intros Hc. apply IH. split; [|done]. destruct t as [x| |w']; simpl in E.
  - repeat (case_match; try done); injection E as <- <-; lia.
  - injection E as <- <-. lia.
  - done.
Qed.
Lemma redirects_add_arg w c : redirects c -> redirects (add_arg w c).
Proof. induction c; simpl; tauto. Qed.
Lemma redirects_args n c t d : args_of n c t d -> redirects c -> redirects d.
Proof. induction 1 as [|n c c1 w t u d Hn Hr Ha IH]; [done|]. intros Hc. apply IH. eapply redirects_redirs; [done|]. by apply redirects_add_arg. Qed.
Lemma redirects_backs c t d : backs_of c t d -> redirects c -> redirects d.
Proof. induction 1; auto. Qed.
Lemma redirects_grammar : (forall t c, line_of t c -> redirects c) /\ (forall t c, pipe_of t c -> redirects c) /\ (forall t c, exec_of t c -> redirects c).
Proof.
  apply grammar_ind; intros; try done.
  - by eapply redirects_backs.
  - split; [by eapply redirects_backs|done].
  - by eapply redirects_redirs.
  - eapply redirects_args; [done|]. by eapply redirects_redirs.
Qed.

(** C14: what a line starts.  When the line is made of tokens that derive the
    command [c], parsing and running it in a process with descriptors 0, 1 and 2
    starts exactly the programs of [c] with their arguments, each with the
    descriptors the line says: a redirection replaces one descriptor by the
    opened file, a pipe puts its write end in the place of descriptor 1 of the
    left side and its read end in that of descriptor 0 of the right side, and no
    other end of a pipe stays open in a program. *)
Theorem line_starts_programs s ts c fds n : spells ts s -> line_of ts c -> std fds ->
  launch (c ← parsecmd s; runcmd c) fds n = meaning c fds n.
Proof.
  intros Hs Hc Hf. rewrite (parsecmd_complete s ts c Hs Hc), ret_bind. apply launch_runcmd; [|done]. by eapply (proj1 redirects_grammar).
Qed.
End Meaning.

Lemma line_starts_programs_witness :
  let fds : table := <[0 := Given 0]> (<[1 := Given 1]> (<[2 := Given 2]> ∅)) in
  let c := PIPE (REDIR (EXEC [bytes_of "cat"]) (bytes_of "in") 0 0) (EXEC [bytes_of "wc"]) in
  launch (fun _ _ => true) (c ← parsecmd (bytes_of "cat<in|wc"); runcmd c) fds 0 = meaning (fun _ _ => true) c fds 0.
Proof.
  intros fds c. assert (W : forall w, forallb (fun x => word_char x && negb (x =? 0)) w = true -> w <> [] -> is_word w).
  { intros w Hw Hn. split; [done|]. apply Forall_forall. intros x Hx. rewrite forallb_forall in Hw. apply list_elem_of_In, Hw, andb_true_iff in Hx.
    destruct Hx as [H1 H2]. apply negb_true_iff, Z.eqb_neq in H2. done. }
  apply (line_starts_programs _ _ [Word (bytes_of "cat"); Sym 60; Word (bytes_of "in"); Sym 124; Word (bytes_of "wc")] c).
  - apply (spells_cons [] (Word (bytes_of "cat")) _ (bytes_of "<in|wc")); [constructor|by apply W|done|].
    apply (spells_cons [] (Sym 60) _ (bytes_of "in|wc")); [constructor|done|by intros [? ?]|].
    apply (spells_cons [] (Word (bytes_of "in")) _ (bytes_of "|wc")); [constructor|by apply W|done|].
    apply (spells_cons [] (Sym 124) _ (bytes_of "wc")); [constructor|done|by intros [? ?]|].
    apply (spells_cons [] (Word (bytes_of "wc")) [] []); [constructor|by apply W|done|by constructor].
  - apply (line_last [Word (bytes_of "cat"); Sym 60; Word (bytes_of "in"); Sym 124; Word (bytes_of "wc")] [] c c); [|constructor].
    apply (pipe_more [Word (bytes_of "cat"); Sym 60; Word (bytes_of "in")] [Word (bytes_of "wc")]).
    + apply (exec_simple [] [Word (bytes_of "cat"); Sym 60; Word (bytes_of "in")] (EXEC [])); [constructor|]. apply (args_word 0 _ (REDIR (EXEC [bytes_of "cat"]) (bytes_of "in") 0 0) _ [Sym 60; Word (bytes_of "in")] []); [done| |constructor].
      apply (redirs_more _ (Sym 60) (bytes_of "in") 0 0 []); [done|constructor].
    + apply pipe_last, (exec_simple [] [Word (bytes_of "wc")] (EXEC [])); [constructor|]. apply (args_word 0 _ (EXEC [bytes_of "wc"]) _ [] []); [done|constructor..].
  - intros i. unfold fds. rewrite !lookup_insert_is_Some, lookup_empty. split; [|lia]. intros [?|[? [?|[? [?|[? [? ?]]]]]]]; [lia..|done].
Defined.
