(* ===== verification/Mkfs.v ===== *)
(** * The program that makes the first file system (mkfs.c)

    It runs on the host and writes an image: a superblock, an empty log, inodes
    and their blocks one after the other, and a bitmap of the blocks used.  The
    image is the list of its sectors; a failed call or assertion ends the program
    ([Panic]).  The host is little-endian, as the machine the image is for. *)
From S2P Require Import Prelude Bytes CString Spinlock Sleeplock Bio Log TxDisk Fs.

Open Scope Z_scope.

Definition FSSIZE : Z := 1000.
Definition NINODES : Z := 200.
Definition nbitmap : Z := FSSIZE / (Z.of_nat BSIZE * 8) + 1.
Definition ninodeblocks : Z := NINODES / IPB + 1.
Definition nlog : Z := Z.of_nat LOGSIZE.
Definition nmeta : Z := 2 + nlog + ninodeblocks + nbitmap.
Definition nblocks : Z := FSSIZE - nmeta.

(** convert to intel byte order *)
Definition xshort (x : Z) : Z := get16 (put16 [0; 0] 0 x) 0.
Definition xint (x : Z) : Z := get32 (put32 [0; 0; 0; 0] 0 x) 0.

Definition sb : superblock :=
  SuperBlock (xint FSSIZE) (xint nblocks) (xint NINODES) (xint nlog) (xint 2) (xint (2 + nlog)) (xint (2 + nlog + ninodeblocks)).
Definition sb_bytes (v : superblock) : bytes :=
  let x := replicate BSIZE 0 in
  let x := put32 x 0 (sb_size v) in
  let x := put32 x 4 (sb_nblocks v) in
  let x := put32 x 8 (sb_ninodes v) in
  let x := put32 x 12 (sb_nlog v) in
  let x := put32 x 16 (sb_logstart v) in
  let x := put32 x 20 (sb_inodestart v) in
  put32 x 24 (sb_bmapstart v).

(** The image and the counters of the program. *)
Record image := Image { sects : list bytes; freeinode : Z; freeblock : Z }.
Definition set_sects l (s : image) := Image l (freeinode s) (freeblock s).
Definition set_freeinode v (s : image) := Image (sects s) v (freeblock s).
Definition set_freeblock v (s : image) := Image (sects s) (freeinode s) v.

(** The position in the file, [sec * BSIZE] in unsigned arithmetic. *)
Definition position (sec : Z) : nat := Z.to_nat (u32 (sec * Z.of_nat BSIZE) / Z.of_nat BSIZE).
(** A write past the end of the file fills the gap with zeros. *)
Definition wsect (sec : Z) (buf : bytes) : M image unit :=
  modify (fun s =>
    let l := sects s ++ replicate (S (position sec) - length (sects s)) (replicate BSIZE 0) in
    set_sects (<[position sec := buf]> l) s).
Definition rsect (sec : Z) : M image bytes := fun s =>
  match sects s !! position sec with
  | Some buf => Ok (buf, s)
  | None => Panic "read"
  end.

Definition winode (inum : Z) (d : dinode) : M image unit :=
  let bn := IBLOCK inum sb in
  buf ← rsect bn;
  wsect bn (put_dinode buf (dinode_off inum) d).
Definition rinode (inum : Z) : M image dinode :=
  let bn := IBLOCK inum sb in
  buf ← rsect bn;
  mret (dinode_at buf (dinode_off inum)).

Definition ialloc (type : Z) : M image Z :=
  inum ← gets freeinode;
  modify (set_freeinode (u32 (inum + 1))) ;;
  winode inum (DInode (xshort type) 0 0 (xshort 1) (xint 0) (replicate 13 0)) ;;
  mret inum.

(** A new block, and the next one free. *)
Definition new_block : M image Z :=
  b ← gets freeblock;
  modify (set_freeblock (u32 (b + 1))) ;;
  mret (xint b).

(** The block of the file at [fbn], made when it is not there. *)
Definition block_for (d : dinode) (fbn : Z) : M image (Z * dinode) :=
  if fbn <? Z.of_nat NDIRECT then
    d ← (if xint (addr (Z.to_nat fbn) d) =? 0 then
           b ← new_block;
           mret (set_addr (Z.to_nat fbn) b d)
         else mret d);
    mret (xint (addr (Z.to_nat fbn) d), d)
  else
    d ← (if xint (addr NDIRECT d) =? 0 then
           b ← new_block;
           mret (set_addr NDIRECT b d)
         else mret d);
    let k := (4 * Z.to_nat (fbn - Z.of_nat NDIRECT))%nat in
    indirect ← rsect (xint (addr NDIRECT d));
    indirect ← (if get32 indirect k =? 0 then
                  b ← new_block;
                  wsect (xint (addr NDIRECT d)) (put32 indirect k b) ;;
                  mret (put32 indirect k b)
                else mret indirect);
    mret (xint (get32 indirect k), d).

Fixpoint iappend_loop (fuel : nat) (d : dinode) (off : Z) (p : bytes) : M image (dinode * Z) :=
  match p, fuel with
  | [], _ => mret (d, off)
  | _, O => hang
  | _, S fuel =>
      let fbn := off / Z.of_nat BSIZE in
      if MAXFILE <=? fbn then panic "fbn < MAXFILE"
      else
        r ← block_for d fbn;
        let '(x, d) := r in
        let n1 := Z.min (Z.of_nat (length p)) ((fbn + 1) * Z.of_nat BSIZE - off) in
        buf ← rsect x;
        wsect x (put_bytes buf (Z.to_nat (off - fbn * Z.of_nat BSIZE)) (take (Z.to_nat n1) p)) ;;
        iappend_loop fuel d (u32 (off + n1)) (drop (Z.to_nat n1) p)
  end.
Definition iappend (inum : Z) (p : bytes) : M image unit :=
  d ← rinode inum;
  r ← iappend_loop (S (length p)) d (xint (d_size d)) p;
  let '(d, off) := r in
  winode inum (set_size (xint off) d).

(** The bitmap: the first [used] blocks. *)
Definition balloc (used : Z) : M image unit :=
  if Z.of_nat BSIZE * 8 <=? used then panic "used < BSIZE*8"
  else
    let buf := fold_left (fun x i => set_bit x (Z.of_nat i)) (seq 0 (Z.to_nat used)) (replicate BSIZE 0) in
    wsect (sb_bmapstart sb) buf.

(** A file of the host: what the successive reads of it give. *)
Abbreviation host := (bytes -> option (list bytes)).

Definition add_file (files : host) (rootino : Z) (name : bytes) : M image unit :=
  if existsb (fun c => c =? 47) name then panic "index(argv[i], '/') == 0"
  else
    match files name with
    | None => panic "open"
    | Some reads =>
        let name := match name with 95 :: name' => name' | _ => name end in
        inum ← ialloc T_FILE;
        iappend rootino (make_dirent name (xshort inum)) ;;
        for_each reads (iappend inum)
    end.

(** fix size of root inode dir *)
Definition fix_size (rootino : Z) : M image unit :=
  d ← rinode rootino;
  let off := xint (d_size d) in
  let off := u32 ((off / Z.of_nat BSIZE + 1) * Z.of_nat BSIZE) in
  winode rootino (set_size (xint off) d).

(** [argv] holds the names after the image. *)
Definition main (files : host) (argv : list bytes) : M image unit :=
  modify (set_freeblock nmeta) ;;
  for_each (seq 0 (Z.to_nat FSSIZE)) (fun i => wsect (Z.of_nat i) (replicate BSIZE 0)) ;;
  wsect 1 (sb_bytes sb) ;;
  rootino ← ialloc T_DIR;
  (if rootino =? ROOTINO then mret tt else panic "rootino == ROOTINO") ;;
  iappend rootino (make_dirent [46] (xshort rootino)) ;;
  iappend rootino (make_dirent [46; 46] (xshort rootino)) ;;
  for_each argv (add_file files rootino) ;;
  fix_size rootino ;;
  used ← gets freeblock;
  balloc (s32 used).

(** The image before the program runs: an empty file. *)
Definition start : image := Image [] 1 0.
