(* ===== verification/MkfsProps.v ===== *)
(** * The image mkfs makes is a file system of the kernel

    While the image is built its blocks are handed out in order; a map records
    which site of which file each block is for.  At the end the bitmap marks
    exactly the blocks handed out, every file meets the kernel's conditions for a
    file, and its bytes are those of the host's file. *)
From S2P Require Import Prelude Bytes CString Spinlock Sleeplock Bio BioProps Log LogProps TxDisk Fs FsProps FsData FsRw Mkfs.

Open Scope Z_scope.

Abbreviation isb := Mkfs.sb.
Lemma isb_eq : isb = SuperBlock 1000 941 200 30 2 32 58.
Proof. vm_compute. reflexivity. Qed.
Lemma nmeta_eq : nmeta = 59.
Proof. reflexivity. Qed.
Lemma xint_u32 x : xint x = u32 x.
Proof. unfold xint. apply get32_put32_eq. simpl. lia. Qed.
Lemma xshort_u16 x : xshort x = u16 x.
Proof. unfold xshort. apply get16_put16_eq. simpl. lia. Qed.
Lemma IBLOCK_range n : 0 <= n < 208 -> 32 <= IBLOCK n isb < 58.
Proof. intros H. unfold IBLOCK, IPB. rewrite isb_eq. cbn [sb_inodestart]. Z.div_mod_to_equations. lia. Qed.

(** ** Sectors *)
Definition blk (s : image) (b : Z) : bytes := default [] (sects s !! Z.to_nat b).
Record whole (s : image) : Prop := {
  wh_len : length (sects s) = 1000%nat;
  wh_size b : 0 <= b < 1000 -> length (blk s b) = BSIZE
}.
Definition upd (b : Z) (y : bytes) (s : image) : image := set_sects (<[Z.to_nat b := y]> (sects s)) s.

Lemma position_eq b : 0 <= b < 1000 -> position b = Z.to_nat b.
Proof. intros H. unfold position, BSIZE. rewrite u32_small by lia. f_equal. by rewrite Z.div_mul. Qed.
Lemma wp_rsect b s (Q : bytes -> image -> Prop) : whole s -> 0 <= b < 1000 -> Q (blk s b) s -> wp (rsect b) Q s.
Proof.
  intros W H HQ. unfold wp, rsect. rewrite position_eq by done. unfold blk in HQ. pose proof (wh_len s W).
  destruct (sects s !! Z.to_nat b) as [x|] eqn:E; [done|]. apply lookup_ge_None in E. lia.
Qed.
Lemma wp_wsect b y s (Q : unit -> image -> Prop) : whole s -> 0 <= b < 1000 -> Q tt (upd b y s) -> wp (wsect b y) Q s.
Proof.
  intros W H HQ. unfold wsect. rewrite wp_modify, position_eq by done. pose proof (wh_len s W).
  replace (S (Z.to_nat b) - length (sects s))%nat with 0%nat by lia. simpl. by rewrite app_nil_r.
Qed.
Lemma blk_upd b y s c : whole s -> 0 <= b < 1000 -> 0 <= c -> blk (upd b y s) c = if c =? b then y else blk s c.
Proof.
  intros W Hb Hc. pose proof (wh_len s W). unfold blk, upd. cbn [set_sects sects]. destruct (Z.eqb_spec c b) as [->|Hne].
  - rewrite list_lookup_insert_eq by lia. done.
  - rewrite list_lookup_insert_ne by lia. done.
Qed.
Lemma whole_upd b y s : whole s -> 0 <= b < 1000 -> length y = BSIZE -> whole (upd b y s).
Proof.
  intros W Hb Hy. split; [unfold upd; cbn [set_sects sects]; rewrite length_insert; apply W|]. intros c Hc.
  rewrite blk_upd by (done || lia). destruct (c =? b); [done|by apply W].
Qed.

(** What the kernel sees; [usable] leaves out the log. *)
Definition seen (s : image) : tabs := TAbs (blk s) ∅ ∅ ∅ 10 (fun b => 0 <= b < 1000 /\ ~ 2 <= b < 32).

(** ** Files while they are built
    [e] bytes of the file have blocks, and with [ei] of them the indirect block
    would be there; after its contents the file reads as zeros. *)
Abbreviation owners := (gmap Z (Z * site)).
Record made (s : image) (own : owners) (n : Z) (d : dinode) (e ei : Z) (C : bytes) : Prop := {
  md_dinode : dinode_ok d;
  md_own x : site_ok x -> x <> AtInode -> at_site isb (seen s) n d x <> 0 -> own !! at_site isb (seen s) n d x = Some (n, x);
  md_data k : 0 <= k < MAXFILE -> at_site isb (seen s) n d (AtData k) <> 0 <-> k * 512 < e;
  md_indirect : addr NDIRECT d <> 0 <-> 6144 < ei;
  md_cover : Z.of_nat (length C) <= e <= MAXFILE * 512;
  md_bytes p : 0 <= p < MAXFILE * 512 -> file_byte isb (seen s) n d p = getb C (Z.to_nat p)
}.
Record room (s : image) (own : owners) : Prop := {
  rm_whole : whole s;
  rm_free : 59 <= freeblock s <= 1000;
  rm_own b z : own !! b = Some z -> 59 <= b < freeblock s;
  rm_zero b : freeblock s <= b < 1000 -> blk s b = replicate BSIZE 0
}.

(** Nothing of the other files changes. *)
Record keeps (n : Z) (s : image) (own : owners) (s' : image) (own' : owners) : Prop := {
  kp_own b z : own !! b = Some z -> own' !! b = Some z;
  kp_meta b : 0 <= b < 59 -> blk s' b = blk s b;
  kp_other b m x : m <> n -> own !! b = Some (m, x) -> blk s' b = blk s b;
  kp_inode : freeinode s' = freeinode s
}.
Lemma keeps_refl n s own : keeps n s own s own.
Proof. by split. Qed.
Lemma keeps_trans n s1 o1 s2 o2 s3 o3 : keeps n s1 o1 s2 o2 -> keeps n s2 o2 s3 o3 -> keeps n s1 o1 s3 o3.
Proof.
  intros [A1 A2 A3 A4] [B1 B2 B3 B4]. split; [auto| | |congruence].
  - intros b Hb. by rewrite B2, A2.
  - intros b m x Hm Hb. rewrite (B3 b m x Hm) by auto. by apply (A3 b m x).
Qed.

Lemma at_site_same s s' n d x : site_ok x -> (addr NDIRECT d <> 0 -> blk s' (addr NDIRECT d) = blk s (addr NDIRECT d)) ->
  at_site isb (seen s') n d x = at_site isb (seen s) n d x.
Proof. intros Hx H. by apply at_site_view. Qed.

Lemma site_of s own n d e ei C x : made s own n d e ei C -> site_ok x -> x <> AtInode -> at_site isb (seen s) n d x <> 0 ->
  own !! at_site isb (seen s) n d x = Some (n, x).
Proof. intros H. apply H. Qed.
Lemma site_at p : 0 <= p < MAXFILE * 512 -> site_ok (AtData (p / 512)).
Proof. unfold site_ok, MAXFILE. intros H. Z.div_mod_to_equations. lia. Qed.

(** A file whose blocks have not changed. *)
Lemma made_frame s own s' own' m d e ei C : made s own m d e ei C -> (forall b x, own !! b = Some (m, x) -> blk s' b = blk s b) ->
  (forall b z, own !! b = Some z -> own' !! b = Some z) -> made s' own' m d e ei C.
Proof.
  intros H Hb Ho.
  assert (Hs : forall x, site_ok x -> at_site isb (seen s') m d x = at_site isb (seen s) m d x).
  { intros x Hx. apply at_site_same; [done|]. intros H12. apply (Hb _ AtIndirect). by apply (site_of _ _ _ _ _ _ _ AtIndirect H). }
  split; [apply H| | |apply H|apply H|].
  - intros x Hx Hn Ha. rewrite Hs in * by done. apply Ho. by eapply site_of.
  - intros k Hk. rewrite Hs by done. by apply H.
  - intros p Hp. rewrite <-(md_bytes _ _ _ _ _ _ _ H p Hp). pose proof (site_at p Hp) as Hk.
    unfold file_byte. change (Z.of_nat BSIZE) with 512. rewrite Hs by done. destruct (Z.eqb_spec (at_site isb (seen s) m d (AtData (p / 512))) 0); [done|].
    f_equal. apply (Hb _ (AtData (p / 512))). by apply (site_of _ _ _ _ _ _ _ (AtData (p / 512)) H).
Qed.
Lemma made_keeps n s own s' own' m d e ei C : m <> n -> made s own m d e ei C -> keeps n s own s' own' -> made s' own' m d e ei C.
Proof. intros Hm H K. apply (made_frame s own); [done| |apply K]. intros b x Hb. by apply (kp_other _ _ _ _ _ K b m x). Qed.
Lemma made_extent s own n d e ei C e' ei' : made s own n d e ei C -> (forall k, k * 512 < e <-> k * 512 < e') -> (6144 < ei <-> 6144 < ei') ->
  Z.of_nat (length C) <= e' <= MAXFILE * 512 -> made s own n d e' ei' C.
Proof.
  intros [H1 H2 H3 H4 H5 H6] He Hi Hc. split; try done; [intros k Hk; rewrite <-He; by apply H3|by rewrite <-Hi].
Qed.

(** ** Handing out a block *)
Definition taken s : image := set_freeblock (freeblock s + 1) s.
Lemma blk_taken s b : blk (taken s) b = blk s b.
Proof. done. Qed.
Lemma fresh_none s own : room s own -> own !! freeblock s = None.
Proof. intros R. destruct (own !! freeblock s) as [z|] eqn:E; [|done]. apply (rm_own _ _ R) in E. lia. Qed.
Lemma room_taken s own z : room s own -> freeblock s < 1000 -> room (taken s) (<[freeblock s := z]> own).
Proof.
  intros [R1 R2 R3 R4] Hf. split; [split; apply R1|cbn; lia| |].
  - intros b y Hb. cbn. destruct (decide (b = freeblock s)) as [->|Hne]; [lia|]. rewrite lookup_insert_ne in Hb by done. specialize (R3 b y Hb). lia.
  - intros b Hb. cbn in Hb. apply R4. lia.
Qed.
Lemma room_upd s own a z y : room s own -> own !! a = Some z -> length y = BSIZE -> room (upd a y s) own.
Proof.
  intros [R1 R2 R3 R4] Ha Hy. pose proof (R3 a z Ha). split; [apply whole_upd; [done|lia|done]|done|done|].
  intros b Hb. cbn in Hb. rewrite blk_upd by (done || lia). rewrite (proj2 (Z.eqb_neq _ _)) by lia. by apply R4.
Qed.
Lemma keeps_taken n s own x : room s own -> keeps n s own (taken s) (<[freeblock s := (n, x)]> own).
Proof.
  intros R. split; try done. intros b z Hb. rewrite lookup_insert_ne; [done|]. intros <-. by rewrite (fresh_none s own R) in Hb.
Qed.
Lemma keeps_upd n s own a x y : room s own -> own !! a = Some (n, x) -> keeps n s own (upd a y s) own.
Proof.
  intros R Ha. pose proof (rm_own _ _ R _ _ Ha) as Hr. pose proof (rm_free _ _ R). split; try done.
  - intros b Hb. rewrite blk_upd by (apply R || lia). by rewrite (proj2 (Z.eqb_neq _ _)) by lia.
  - intros b m z Hm Hb. pose proof (rm_own _ _ R _ _ Hb). rewrite blk_upd by (apply R || lia).
    destruct (Z.eqb_spec b a) as [->|]; [congruence|done].
Qed.
Lemma wp_new_block s own (Q : Z -> image -> Prop) : room s own -> freeblock s < 1000 -> Q (freeblock s) (taken s) -> wp new_block Q s.
Proof.
  intros R Hf HQ. pose proof (rm_free _ _ R). unfold new_block. rewrite wp_bind, wp_gets, wp_bind, wp_modify, wp_ret, xint_u32, !u32_small by lia. done.
Qed.

(** A site that had no block gets the fresh one. *)
Lemma made_add s own n d e ei C s' d' x e' ei' : made s own n d e ei C -> room s own -> site_ok x -> x <> AtInode ->
  at_site isb (seen s) n d x = 0 -> dinode_ok d' -> at_site isb (seen s') n d' x = freeblock s ->
  (forall y, site_ok y -> y <> AtInode -> y <> x -> at_site isb (seen s') n d' y = at_site isb (seen s) n d y) ->
  (forall c k, own !! c = Some (n, AtData k) -> blk s' c = blk s c) -> blk s' (freeblock s) = replicate BSIZE 0 ->
  (forall k, 0 <= k < MAXFILE -> k * 512 < e' <-> k * 512 < e \/ x = AtData k) -> (6144 < ei' <-> 6144 < ei \/ x = AtIndirect) ->
  Z.of_nat (length C) <= e' <= MAXFILE * 512 -> made s' (<[freeblock s := (n, x)]> own) n d' e' ei' C.
Proof.
  intros H R Hx Hi H0 Hd Hnew Hold Hblk Hzero He Hei Hc. pose proof (rm_free _ _ R) as Hf. pose proof (fresh_none s own R) as Hfr. split.
  - done.
  - intros y Hy Hyi Ha. destruct (decide (y = x)) as [->|Hne]; [by rewrite Hnew, lookup_insert_eq|].
    rewrite Hold in * by done. pose proof (site_of _ _ _ _ _ _ _ y H Hy Hyi Ha) as Ho. rewrite lookup_insert_ne; [done|]. intros E. congruence.
  - intros k Hk. rewrite He by done. destruct (decide (x = AtData k)) as [->|Hne].
    + rewrite Hnew. split; [by right|lia].
    + rewrite Hold by done. rewrite (md_data _ _ _ _ _ _ _ H k Hk). split; [by left|by intros [?|?]].
  - rewrite Hei. change (addr NDIRECT d') with (at_site isb (seen s') n d' AtIndirect). destruct (decide (x = AtIndirect)) as [->|Hne].
    + rewrite Hnew. split; [by right|lia].
    + rewrite Hold by done. rewrite <-(md_indirect _ _ _ _ _ _ _ H). split; [by left|by intros [?|?]].
  - done.
  - intros p Hp. rewrite <-(md_bytes _ _ _ _ _ _ _ H p Hp). pose proof (site_at p Hp) as Hk.
    unfold file_byte. change (Z.of_nat BSIZE) with 512. destruct (decide (AtData (p / 512) = x)) as [<-|Hne].
    + rewrite Hnew, H0. cbn [seen tview Z.eqb]. rewrite Hzero, getb_zeros. by destruct (freeblock s =? 0).
    + rewrite Hold by done. destruct (Z.eqb_spec (at_site isb (seen s) n d (AtData (p / 512))) 0); [done|]. f_equal.
      apply (Hblk _ (p / 512)). by apply (site_of _ _ _ _ _ _ _ (AtData (p / 512)) H).
Qed.

(** ** The block for the next byte *)
Definition need (off : Z) : Z := (off + 511) / 512 + (if 6144 <? off then 1 else 0).
Definition fields (d : dinode) : dinode := DInode (d_type d) (d_major d) (d_minor d) (d_nlink d) (d_size d) [].

Definition ready n s own d off C (Q : Z * dinode -> image -> Prop) : Prop :=
  forall s' own' d', room s' own' -> made s' own' n d' (off + 1) (off + 1) C -> keeps n s own s' own' ->
    freeblock s' = freeblock s + need (off + 1) - need off -> fields d' = fields d ->
    Q (at_site isb (seen s') n d' (AtData (off / 512)), d') s'.

Section Block.
Context (n : Z) (C : bytes) (off : Z).
Hypotheses (Hoff : off = Z.of_nat (length C)) (Hmax : off < MAXFILE * 512).

Lemma off_block : 0 <= off / 512 < MAXFILE /\ (off / 512 * 512 = off \/ off / 512 * 512 < off).
Proof. unfold MAXFILE in *. Z.div_mod_to_equations. lia. Qed.
Lemma need_next : (off / 512 * 512 < off -> need (off + 1) = need off) /\
  (off / 512 * 512 = off -> need (off + 1) = need off + 1 + (if off =? 6144 then 1 else 0)).
Proof.
  unfold need. destruct (Z.ltb_spec 6144 off), (Z.ltb_spec 6144 (off + 1)), (Z.eqb_spec off 6144); Z.div_mod_to_equations; lia.
Qed.
Lemma extent_next k : off / 512 * 512 < off -> k * 512 < off <-> k * 512 < off + 1.
Proof. Z.div_mod_to_equations. lia. Qed.
Lemma extent_new k : off / 512 * 512 = off -> k * 512 < off + 1 <-> k * 512 < off \/ AtData (off / 512) = AtData k.
Proof.
  intros H. split; [|intros [?|[= <-]]; lia]. intros Hk. destruct (decide (k = off / 512)) as [->|Hne]; [by right|left]. Z.div_mod_to_equations. lia.
Qed.

(** The block is there. *)
Lemma ready_there s own d Q : room s own -> made s own n d off off C -> at_site isb (seen s) n d (AtData (off / 512)) <> 0 ->
  ready n s own d off C Q -> Q (at_site isb (seen s) n d (AtData (off / 512)), d) s.
Proof.
  intros R H Ha HQ. destruct off_block as [Hk Hc]. apply (md_data _ _ _ _ _ _ _ H _ Hk) in Ha. unfold MAXFILE in *. apply (HQ s own d); try done.
  - apply (made_extent s own n d off off); [done|intros k; by apply extent_next| |unfold MAXFILE; lia].
    split; [lia|]. Z.div_mod_to_equations. lia.
  - rewrite (proj1 need_next) by done. lia.
Qed.

(** A direct block. *)
Lemma wp_block_direct s own d Q : room s own -> made s own n d off off C -> off / 512 < 12 -> freeblock s + need (off + 1) - need off <= 1000 ->
  ready n s own d off C Q -> wp (block_for d (off / 512)) Q s.
Proof.
  intros R H Hd Hsp HQ. destruct off_block as [Hk Hc]. pose proof (md_dinode _ _ _ _ _ _ _ H) as D. pose proof (do_addrs _ D) as Da.
  assert (Hsite : forall s d k, 0 <= k < 12 -> at_site isb (seen s) n d (AtData k) = addr (Z.to_nat k) d).
  { intros s0 d0 k Hk0. unfold at_site, NDIRECT. by rewrite (proj2 (Z.ltb_lt _ _)) by (simpl; lia). }
  unfold block_for. change (Z.of_nat NDIRECT) with 12. rewrite (proj2 (Z.ltb_lt _ _) Hd), wp_bind.
  assert (Hx : xint (addr (Z.to_nat (off / 512)) d) = addr (Z.to_nat (off / 512)) d).
  { rewrite xint_u32. unfold addr. destruct (d_addrs d !! _) as [a|] eqn:E; [|done]. apply u32_small. rewrite Forall_lookup in Da. by apply (Da _ _ E). }
  rewrite Hx. destruct (Z.eqb_spec (addr (Z.to_nat (off / 512)) d) 0) as [E|E].
  - assert (Ho : off / 512 * 512 = off).
    { destruct Hc as [?|Hc]; [done|]. apply (md_data _ _ _ _ _ _ _ H _ Hk) in Hc. rewrite Hsite in Hc by lia. done. }
    destruct need_next as [_ Hn]. specialize (Hn Ho). rewrite (proj2 (Z.eqb_neq off 6144)) in Hn by lia.
    pose proof (rm_free _ _ R) as Hf. rewrite wp_bind. apply (wp_new_block s own); [done|lia|]. rewrite !wp_ret.
    set (d' := set_addr (Z.to_nat (off / 512)) (freeblock s) d).
    assert (Hl : length (d_addrs d) = 13%nat) by apply D.
    assert (E' : addr (Z.to_nat (off / 512)) d' = freeblock s) by (apply addr_set_eq; [done|lia]).
    rewrite E', xint_u32, u32_small, <-E' by lia. rewrite <-(Hsite (taken s) d') by lia.
    apply (HQ (taken s) (<[freeblock s := (n, AtData (off / 512))]> own) d'); try done.
    + apply room_taken; [done|lia].
    + apply (made_add s own n d off off); try done.
      * rewrite Hsite by lia. done.
      * apply set_addr_ok; [done|lia].
      * rewrite Hsite by lia. done.
      * intros y Hy Hi Hne. destruct y as [| |k]; [done| |].
        -- apply addr_set_ne. change NDIRECT with 12%nat. lia.
        -- unfold at_site. assert (Hkk : k <> off / 512) by congruence. destruct Hy as [Hy _].
           destruct (Z.ltb_spec k (Z.of_nat NDIRECT)); [apply addr_set_ne; lia|].
           assert (addr NDIRECT d' = addr NDIRECT d) as -> by (apply addr_set_ne; change NDIRECT with 12%nat; lia). done.
      * rewrite blk_taken. apply (rm_zero _ _ R). lia.
      * intros k Hk'. by apply extent_new.
      * split; [left; lia|intros [?|?]; [lia|done]].
      * unfold MAXFILE in *. lia.
    + apply keeps_taken. done.
    + cbn. lia.
  - rewrite !wp_ret, Hx, <-(Hsite s d) by lia. apply (ready_there s own d Q); try done. rewrite Hsite by lia. done.
Qed.

(** The indirect block. *)
Lemma wp_indirect s own d Q : room s own -> made s own n d off off C -> 12 <= off / 512 -> freeblock s + (if off =? 6144 then 1 else 0) <= 1000 ->
  (forall s' own' d', room s' own' -> made s' own' n d' off (off + 1) C -> keeps n s own s' own' ->
    freeblock s' = freeblock s + (if off =? 6144 then 1 else 0) -> fields d' = fields d -> Q d' s') ->
  wp (if addr NDIRECT d =? 0 then b ← new_block; mret (set_addr NDIRECT b d) else mret d) Q s.
Proof.
  intros R H Hd Hsp HQ. pose proof (md_dinode _ _ _ _ _ _ _ H) as D. pose proof (do_len _ D) as Hl. pose proof (rm_free _ _ R) as Hf.
  pose proof (md_indirect _ _ _ _ _ _ _ H) as Hi. assert (Hge : 6144 <= off) by (Z.div_mod_to_equations; lia).
  destruct (Z.eqb_spec (addr NDIRECT d) 0) as [E|E].
  - assert (Ho : off = 6144) by lia. rewrite (proj2 (Z.eqb_eq off 6144) Ho) in *. rewrite wp_bind. apply (wp_new_block s own); [done|lia|]. rewrite wp_ret.
    set (d' := set_addr NDIRECT (freeblock s) d). assert (E' : addr NDIRECT d' = freeblock s) by (apply addr_set_eq; [done|by vm_compute]).
    apply (HQ (taken s) (<[freeblock s := (n, AtIndirect)]> own) d'); try done; [apply room_taken; [done|lia]| |by apply keeps_taken].
    apply (made_add s own n d off off); try done.
    + apply set_addr_ok; [done|lia].
    + intros y Hy Hyi Hne. destruct y as [| |k]; [done|done|]. unfold at_site. destruct (Z.ltb_spec k (Z.of_nat NDIRECT)).
      * apply addr_set_ne. destruct Hy as [Hy _]. change (Z.of_nat NDIRECT) with 12 in *. change NDIRECT with 12%nat. lia.
      * rewrite E, E', (proj2 (Z.eqb_neq (freeblock s) 0)) by lia. cbn [seen tview]. rewrite blk_taken, (rm_zero _ _ R) by lia. apply get32_zeros.
    + rewrite blk_taken. apply (rm_zero _ _ R). lia.
    + intros k Hk. split; [by left|by intros [?|?]].
    + split; [by right|lia].
    + unfold MAXFILE in *. lia.
  - assert (Ho : off <> 6144) by lia. rewrite (proj2 (Z.eqb_neq off 6144) Ho) in *. rewrite wp_ret. apply (HQ s own d); try done.
    + apply (made_extent s own n d off off); try done; [lia|]. unfold MAXFILE in *. lia.
    + lia.
Qed.

(** Its entry. *)
Lemma wp_entry s own d Q : room s own -> made s own n d off (off + 1) C -> 12 <= off / 512 ->
  let k := (4 * Z.to_nat (off / 512 - 12))%nat in let a := addr NDIRECT d in
  freeblock s + (if at_site isb (seen s) n d (AtData (off / 512)) =? 0 then 1 else 0) <= 1000 ->
  (forall s' own', room s' own' -> made s' own' n d (off + 1) (off + 1) C -> keeps n s own s' own' ->
    freeblock s' = freeblock s + (if at_site isb (seen s) n d (AtData (off / 512)) =? 0 then 1 else 0) ->
    Q (at_site isb (seen s') n d (AtData (off / 512)), d) s') ->
  wp (indirect ← rsect a;
      indirect ← (if get32 indirect k =? 0 then b ← new_block; wsect a (put32 indirect k b) ;; mret (put32 indirect k b) else mret indirect);
      mret (xint (get32 indirect k), d)) Q s.
Proof.
  intros R H Hd k a Hsp HQ. destruct off_block as [Hk Hc]. pose proof (md_dinode _ _ _ _ _ _ _ H) as D. pose proof (rm_free _ _ R) as Hf.
  pose proof (md_indirect _ _ _ _ _ _ _ H) as Hi. assert (Ha0 : a <> 0) by (apply Hi; Z.div_mod_to_equations; lia).
  pose proof (site_of _ _ _ _ _ _ _ AtIndirect H Logic.I ltac:(done) Ha0 : own !! a = _) as Hoa. pose proof (rm_own _ _ R _ _ Hoa) as Har.
  pose proof (wh_size _ (rm_whole _ _ R) a ltac:(lia)) as Hlen.
  assert (Hsite : forall s0 j, 12 <= j -> at_site isb (seen s0) n d (AtData j) = get32 (blk s0 a) (4 * Z.to_nat (j - 12))).
  { intros s0 j Hj. unfold at_site. change (Z.of_nat NDIRECT) with 12. fold a. by rewrite (proj2 (Z.ltb_ge _ _)), (proj2 (Z.eqb_neq a 0)) by done. }
  rewrite wp_bind. apply wp_rsect; [apply R|lia|]. rewrite wp_bind. fold k in Hsp. change (get32 (blk s a) k) with (get32 (blk s a) (4 * Z.to_nat (off / 512 - 12))).
  rewrite <-Hsite by done. destruct (Z.eqb_spec (at_site isb (seen s) n d (AtData (off / 512))) 0) as [E|E].
  - assert (Ho : off / 512 * 512 = off) by (destruct Hc as [?|Hc]; [done|]; apply (md_data _ _ _ _ _ _ _ H _ Hk) in Hc; done).
    rewrite wp_bind. apply (wp_new_block s own); [done|lia|]. set (b := freeblock s) in *. set (y := put32 (blk s a) k b).
    assert (Hy : length y = BSIZE) by (unfold y; by rewrite length_put32).
    assert (Hkl : (k + 3 < length (blk s a))%nat) by (rewrite Hlen; unfold k, MAXFILE, BSIZE in *; lia).
    assert (Hoa' : <[b := (n, AtData (off / 512))]> own !! a = Some (n, AtIndirect)) by (rewrite lookup_insert_ne; [done|lia]).
    pose proof (room_taken s own (n, AtData (off / 512)) R ltac:(lia)) as R1. fold b in R1. pose proof (rm_whole _ _ R1) as W1.
    rewrite wp_bind. apply wp_wsect; [done|lia|]. rewrite !wp_ret.
    assert (Eb : get32 y k = b) by (unfold y; rewrite get32_put32_eq by done; apply u32_small; lia).
    set (s' := upd a y (taken s)). assert (Ba : blk s' a = y) by (unfold s'; rewrite blk_upd by (done || lia); by rewrite Z.eqb_refl).
    assert (Es : at_site isb (seen s') n d (AtData (off / 512)) = b) by (rewrite Hsite by done; by rewrite Ba).
    rewrite Eb, xint_u32, u32_small, <-Es by lia. apply (HQ s' (<[b := (n, AtData (off / 512))]> own)).
    + by apply (room_upd _ _ a (n, AtIndirect)).
    + apply (made_add s own n d off (off + 1)); try done.
      * intros z Hz Hzi Hne. destruct z as [| |j]; [done|done|]. destruct (Z.ltb_spec j 12).
        -- unfold at_site. change (Z.of_nat NDIRECT) with 12. by rewrite (proj2 (Z.ltb_lt _ _)).
        -- rewrite !Hsite, Ba by done. assert (j <> off / 512) by congruence. apply get32_put32_ne; [done|]. unfold k. lia.
      * intros c j Hcj. unfold s'. pose proof (rm_own _ _ R _ _ Hcj). rewrite blk_upd by (done || lia). rewrite (proj2 (Z.eqb_neq c a)); [done|]. congruence.
      * unfold s'. fold b. rewrite blk_upd by (done || lia). rewrite (proj2 (Z.eqb_neq b a)) by lia. rewrite blk_taken. apply (rm_zero _ _ R). fold b. lia.
      * intros j Hj. by apply extent_new.
      * split; [by left|by intros [?|?]].
      * unfold MAXFILE in *. lia.
    + eapply keeps_trans; [by apply (keeps_taken n s own (AtData (off / 512)))|]. by apply (keeps_upd n _ _ a AtIndirect).
    + cbn. fold b. lia.
  - rewrite !wp_ret. change (get32 (blk s a) k) with (get32 (blk s a) (4 * Z.to_nat (off / 512 - 12))). rewrite <-Hsite by done.
    pose proof (site_of _ _ _ _ _ _ _ (AtData (off / 512)) H Hk ltac:(done) E) as Ho. pose proof (rm_own _ _ R _ _ Ho).
    rewrite xint_u32, u32_small by lia. apply (HQ s own); [done| |by apply keeps_refl|lia].
    apply (md_data _ _ _ _ _ _ _ H _ Hk) in E. apply (made_extent s own n d off (off + 1)); [done|intros j; by apply extent_next|done|unfold MAXFILE in *; lia].
Qed.

Lemma xint_addr d k : dinode_ok d -> xint (addr k d) = addr k d.
Proof.
  intros D. rewrite xint_u32. pose proof (do_addrs _ D) as Da. unfold addr. destruct (d_addrs d !! k) as [a|] eqn:E; [|done].
  apply u32_small. rewrite Forall_lookup in Da. by apply (Da _ _ E).
Qed.
Lemma wp_block_for s own d Q : room s own -> made s own n d off off C -> freeblock s + need (off + 1) - need off <= 1000 ->
  ready n s own d off C Q -> wp (block_for d (off / 512)) Q s.
Proof.
  intros R H Hsp HQ. destruct (Z.ltb_spec (off / 512) 12) as [Hd|Hd]; [by apply (wp_block_direct s own d Q)|].
  destruct off_block as [Hk Hc]. destruct need_next as [Hn1 Hn2]. unfold block_for. change (Z.of_nat NDIRECT) with 12.
  rewrite (proj2 (Z.ltb_ge _ _) Hd), wp_bind, xint_addr by apply H.
  assert (Hsum : (if off =? 6144 then 1 else 0) + (if bool_decide (off / 512 * 512 = off) then 1 else 0) = need (off + 1) - need off).
  { case_bool_decide as Hb; [rewrite Hn2 by done; lia|]. rewrite Hn1 by lia. destruct (Z.eqb_spec off 6144) as [->|]; [done|lia]. }
  apply (wp_indirect s own d); [done|done|done|destruct (bool_decide _); lia|]. intros s1 own1 d1 R1 H1 K1 F1 E1.
  rewrite xint_addr by apply H1.
  assert (Hz : (at_site isb (seen s1) n d1 (AtData (off / 512)) =? 0) = bool_decide (off / 512 * 512 = off)).
  { pose proof (md_data _ _ _ _ _ _ _ H1 _ Hk) as Hm. case_bool_decide; [apply Z.eqb_eq|apply Z.eqb_neq; apply Hm; lia].
    destruct (decide (at_site isb (seen s1) n d1 (AtData (off / 512)) = 0)) as [|Hx]; [done|]. apply Hm in Hx. lia. }
  apply (wp_entry s1 own1 d1); [done|done|done|rewrite Hz; destruct (bool_decide _); lia|]. rewrite Hz. intros s2 own2 R2 H2 K2 F2.
  apply (HQ s2 own2 d1); try done; [by eapply keeps_trans|]. destruct (bool_decide _); lia.
Qed.
End Block.

(** ** Writing at the end *)
Lemma getb_app C y j : getb (C ++ y) j = if decide (j < length C)%nat then getb C j else getb y (j - length C).
Proof. unfold getb. case_decide; [by rewrite lookup_app_l|by rewrite lookup_app_r by lia]. Qed.
Lemma made_write s own n d off C y : room s own -> made s own n d (off + 1) (off + 1) C -> off = Z.of_nat (length C) ->
  0 < Z.of_nat (length y) -> off mod 512 + Z.of_nat (length y) <= 512 -> off < MAXFILE * 512 ->
  let x := at_site isb (seen s) n d (AtData (off / 512)) in
  let s' := upd x (put_bytes (blk s x) (Z.to_nat (off mod 512)) y) s in
  own !! x = Some (n, AtData (off / 512)) /\ room s' own /\ keeps n s own s' own /\
  made s' own n d (off + Z.of_nat (length y)) (off + Z.of_nat (length y)) (C ++ y).
Proof.
  intros R H Hoff Hy Hfit Hmax x s'. assert (Hk : 0 <= off / 512 < MAXFILE) by (unfold MAXFILE in *; Z.div_mod_to_equations; lia).
  assert (Hx0 : x <> 0) by (apply (md_data _ _ _ _ _ _ _ H _ Hk); Z.div_mod_to_equations; lia).
  pose proof (site_of _ _ _ _ _ _ _ (AtData (off / 512)) H Hk ltac:(done) Hx0) as Ho. fold x in Ho.
  pose proof (rm_own _ _ R _ _ Ho) as Hr. pose proof (rm_free _ _ R) as Hf. pose proof (wh_size _ (rm_whole _ _ R) x ltac:(lia)) as Hl.
  assert (Hm : 0 <= off mod 512 < 512) by (apply Z.mod_pos_bound; lia).
  assert (Hlen : length (put_bytes (blk s x) (Z.to_nat (off mod 512)) y) = BSIZE) by (rewrite length_put_bytes; [done|rewrite Hl; unfold BSIZE; lia]).
  split; [done|]. split; [by apply (room_upd s own x (n, AtData (off / 512)))|]. split; [by apply (keeps_upd n s own x (AtData (off / 512)))|].
  assert (Hb : forall c z, own !! c = Some z -> blk s' c = if c =? x then put_bytes (blk s x) (Z.to_nat (off mod 512)) y else blk s c).
  { intros c z Hc. pose proof (rm_own _ _ R _ _ Hc). unfold s'. rewrite blk_upd by (apply R || lia). done. }
  assert (Hs : forall z, site_ok z -> at_site isb (seen s') n d z = at_site isb (seen s) n d z).
  { intros z Hz. apply at_site_same; [done|]. intros H12. pose proof (site_of _ _ _ _ _ _ _ AtIndirect H Logic.I ltac:(done) H12) as Hi.
    cbn [at_site] in Hi. rewrite (Hb _ _ Hi), (proj2 (Z.eqb_neq _ _)); [done|]. congruence. }
  split; [apply H| | | | |].
  - intros z Hz Hzi Ha. rewrite Hs in * by done. by eapply site_of.
  - intros k Hk'. rewrite Hs, (md_data _ _ _ _ _ _ _ H k Hk') by done. Z.div_mod_to_equations. lia.
  - rewrite (md_indirect _ _ _ _ _ _ _ H). Z.div_mod_to_equations. lia.
  - rewrite length_app. unfold MAXFILE in *. Z.div_mod_to_equations. lia.
  - intros p Hp. pose proof (md_bytes _ _ _ _ _ _ _ H p Hp) as Hold. pose proof (site_at p Hp) as Hpk. unfold file_byte in Hold |- *.
    change (Z.of_nat BSIZE) with 512 in *. rewrite Hs by done. cbn [seen tview] in *.
    destruct (Z.eqb_spec (at_site isb (seen s) n d (AtData (p / 512))) 0) as [Ha|Ha].
    { assert (Hout : ~ p / 512 * 512 < off + 1) by (intros Hx; by apply (md_data _ _ _ _ _ _ _ H _ Hpk) in Hx). rewrite getb_app, Hold.
      case_decide; [Z.div_mod_to_equations; lia|]. unfold getb. rewrite !lookup_ge_None_2; [done|Z.div_mod_to_equations; lia..]. }
    pose proof (site_of _ _ _ _ _ _ _ (AtData (p / 512)) H Hpk ltac:(done) Ha) as Hop. rewrite (Hb _ _ Hop), getb_app.
    assert (Hsame : p / 512 <> off / 512 -> getb C (Z.to_nat p) = (if decide (Z.to_nat p < length C)%nat then getb C (Z.to_nat p) else getb y (Z.to_nat p - length C))).
    { intros Hne. case_decide; [done|]. unfold getb. rewrite !lookup_ge_None_2; [done|Z.div_mod_to_equations; lia..]. }
    destruct (Z.eqb_spec (at_site isb (seen s) n d (AtData (p / 512))) x) as [E|E].
    + assert (Hpo : p / 512 = off / 512) by congruence. rewrite getb_put_bytes by (rewrite Hl; unfold BSIZE; lia). rewrite E in Hold. rewrite Hold.
      destruct (decide (Z.to_nat p < length C)%nat) as [Hlt|Hge].
      * case_decide; [Z.div_mod_to_equations; lia|done].
      * case_decide as Hin; [f_equal; Z.div_mod_to_equations; lia|]. unfold getb. rewrite !lookup_ge_None_2; [done|Z.div_mod_to_equations; lia..].
    + rewrite Hold. apply Hsame. intros Hpo. apply E. unfold x. by rewrite Hpo.
Qed.

Lemma wp_iappend_loop n fuel : forall s own d C p Q, room s own -> made s own n d (Z.of_nat (length C)) (Z.of_nat (length C)) C ->
  Z.of_nat (length C) + Z.of_nat (length p) <= MAXFILE * 512 -> (length p < fuel)%nat ->
  freeblock s + need (Z.of_nat (length (C ++ p))) - need (Z.of_nat (length C)) <= 1000 ->
  (forall s' own' d', room s' own' -> made s' own' n d' (Z.of_nat (length (C ++ p))) (Z.of_nat (length (C ++ p))) (C ++ p) ->
    keeps n s own s' own' -> freeblock s' = freeblock s + need (Z.of_nat (length (C ++ p))) - need (Z.of_nat (length C)) ->
    fields d' = fields d -> Q (d', Z.of_nat (length (C ++ p))) s') ->
  wp (iappend_loop fuel d (Z.of_nat (length C)) p) Q s.
Proof.
  induction fuel as [|fuel IH]; intros s own d C p Q R H Hmax Hf Hsp HQ; [lia|]. destruct p as [|c p].
  { cbn [iappend_loop]. rewrite wp_ret, app_nil_r in *. apply (HQ s own d); [done|done|apply keeps_refl|lia|done]. }
  set (off := Z.of_nat (length C)) in *. cbn [iappend_loop]. change (Z.of_nat BSIZE) with 512. set (q := c :: p) in *.
  assert (Hq : 0 < Z.of_nat (length q)) by (simpl; lia). unfold MAXFILE in Hmax.
  rewrite (proj2 (Z.leb_gt MAXFILE (off / 512))) by (unfold MAXFILE; Z.div_mod_to_equations; lia). rewrite wp_bind.
  assert (Hneed : forall a b, 0 <= a <= b -> need a <= need b).
  { intros a b Hab. unfold need. destruct (Z.ltb_spec 6144 a), (Z.ltb_spec 6144 b); Z.div_mod_to_equations; lia. }
  rewrite length_app in Hsp, HQ. fold q in Hsp. replace (Z.of_nat (length C + length q)) with (off + Z.of_nat (length q)) in * by lia.
  apply (wp_block_for n C off eq_refl ltac:(unfold MAXFILE; lia) s own d); [done|done|pose proof (Hneed (off + 1) (off + Z.of_nat (length q)) ltac:(lia)); lia|].
  intros s1 own1 d1 R1 H1 K1 F1 E1. set (n1 := Z.min _ _).
  assert (Hn1 : 0 < n1 <= Z.of_nat (length q) /\ off mod 512 + n1 <= 512) by (unfold n1; Z.div_mod_to_equations; lia).
  assert (Hlt : length (take (Z.to_nat n1) q) = Z.to_nat n1) by (rewrite length_take; lia).
  destruct (made_write s1 own1 n d1 off C (take (Z.to_nat n1) q) R1 H1 eq_refl) as (Hox & R2 & K2 & H2);
    [rewrite Hlt; lia|rewrite Hlt; lia|unfold MAXFILE; lia|].
  set (x := at_site isb (seen s1) n d1 (AtData (off / 512))) in *. pose proof (rm_own _ _ R1 _ _ Hox) as Hxr. pose proof (rm_free _ _ R1) as Hf1.
  rewrite wp_bind. apply wp_rsect; [apply R1|lia|]. rewrite wp_bind. apply wp_wsect; [apply R1|lia|].
  replace (off - off / 512 * 512) with (off mod 512) by (Z.div_mod_to_equations; lia). rewrite u32_small by lia.
  set (s2 := upd x _ s1) in *. rewrite Hlt in H2. replace (off + Z.of_nat (Z.to_nat n1)) with (Z.of_nat (length (C ++ take (Z.to_nat n1) q))) in H2
    by (rewrite length_app, Hlt; lia).
  replace (off + n1) with (Z.of_nat (length (C ++ take (Z.to_nat n1) q))) by (rewrite length_app, Hlt; lia).
  assert (En : need (off + 1) = need (off + n1)).
  { unfold need. destruct (Z.ltb_spec 6144 (off + 1)), (Z.ltb_spec 6144 (off + n1)); Z.div_mod_to_equations; lia. }
  assert (Eq : (C ++ take (Z.to_nat n1) q) ++ drop (Z.to_nat n1) q = C ++ q) by (by rewrite <-(assoc_L app), take_drop).
  assert (El : Z.of_nat (length (C ++ take (Z.to_nat n1) q)) = off + n1) by (rewrite length_app, Hlt; lia).
  assert (El2 : Z.of_nat (length (C ++ q)) = off + Z.of_nat (length q)) by (rewrite length_app; lia).
  assert (Ef : freeblock s2 = freeblock s1) by done.
  apply (IH s2 own1 d1); rewrite ?Eq, ?El, ?El2; [done|by rewrite El in H2|rewrite length_drop; unfold MAXFILE; lia|rewrite length_drop; lia|lia|].
  intros s3 own3 d3 R3 H3 K3 F3 E3. apply (HQ s3 own3 d3); [done|done| |lia|congruence].
  eapply keeps_trans; [exact K1|]. eapply keeps_trans; [exact K2|done].
Qed.
