(* ===== verification/MkfsImage.v ===== *)
(** * From the empty image to the file system

    The files are made one after the other; at the end the kernel finds its
    invariants in the image and every file with the bytes of the host's. *)
From S2P Require Import Prelude Bytes CString Spinlock Sleeplock Bio BioProps Log LogProps TxDisk Fs FsProps FsData FsRw Mkfs MkfsProps.

Open Scope Z_scope.

(** ** Inodes *)
Definition stored (s : image) (n : Z) : dinode := dinode_at (blk s (IBLOCK n isb)) (dinode_off n).
Definition with_inode (n : Z) (d : dinode) (s : image) : image :=
  upd (IBLOCK n isb) (put_dinode (blk s (IBLOCK n isb)) (dinode_off n) d) s.

Lemma wp_rinode n s (Q : dinode -> image -> Prop) : whole s -> 0 <= n < 208 -> Q (stored s n) s -> wp (rinode n) Q s.
Proof. intros W Hn HQ. pose proof (IBLOCK_range n Hn). unfold rinode. rewrite wp_bind. apply wp_rsect; [done|lia|]. by rewrite wp_ret. Qed.
Lemma wp_winode n d s (Q : unit -> image -> Prop) : whole s -> 0 <= n < 208 -> Q tt (with_inode n d s) -> wp (winode n d) Q s.
Proof. intros W Hn HQ. pose proof (IBLOCK_range n Hn). unfold winode. rewrite wp_bind. apply wp_rsect; [done|lia|]. apply wp_wsect; [done|lia|done]. Qed.

Section Inode.
Context (s : image) (own : owners) (n : Z) (d : dinode).
Hypotheses (R : room s own) (Hn : 0 <= n < 208).
Let W := rm_whole _ _ R.
Let Hl : length (blk s (IBLOCK n isb)) = BSIZE.
Proof. apply wh_size; [exact W|]. pose proof (IBLOCK_range n Hn). lia. Qed.

Lemma with_inode_blk b : 0 <= b -> ~ 32 <= b < 58 -> blk (with_inode n d s) b = blk s b.
Proof.
  intros H1 H2. pose proof (IBLOCK_range n Hn). unfold with_inode. rewrite blk_upd by (apply W || lia). by rewrite (proj2 (Z.eqb_neq _ _)) by lia.
Qed.
Lemma with_inode_room : room (with_inode n d s) own.
Proof.
  pose proof (IBLOCK_range n Hn). pose proof (rm_free _ _ R) as Hf. split; [apply whole_upd; [apply W|lia|by rewrite put_dinode_length]|done|apply R|].
  intros b Hb. cbn in Hb. rewrite with_inode_blk by lia. by apply R.
Qed.
Lemma with_inode_made m d' e ei C : made s own m d' e ei C -> made (with_inode n d s) own m d' e ei C.
Proof.
  intros H. apply (made_frame s own); [done| |done]. intros b x Hb. apply (rm_own _ _ R) in Hb. apply with_inode_blk; lia.
Qed.
Lemma with_inode_same : dinode_ok d -> stored (with_inode n d s) n = d.
Proof.
  intros D. pose proof (IBLOCK_range n Hn). unfold stored, with_inode. rewrite blk_upd by (apply W || lia). rewrite Z.eqb_refl.
  apply dinode_same; [|done]. rewrite Hl. apply dinode_off_bound.
Qed.
Lemma with_inode_other m : 0 <= m < 208 -> m <> n -> dinode_ok d -> stored (with_inode n d s) m = stored s m.
Proof.
  intros Hm Hne D. pose proof (IBLOCK_range n Hn). pose proof (IBLOCK_range m Hm). unfold stored, with_inode. rewrite blk_upd by (apply W || lia).
  destruct (Z.eqb_spec (IBLOCK m isb) (IBLOCK n isb)) as [E|E]; [|done]. rewrite <-E in *.
  apply dinode_other; [rewrite Hl; apply dinode_off_bound|apply D|]. unfold IBLOCK, dinode_off, IPB in *. Z.div_mod_to_equations. lia.
Qed.
End Inode.

(** ** The files made so far: types and contents, from inode 1 on *)
Abbreviation ifiles := (list (Z * bytes)).
Definition isize (C : bytes) : Z := Z.of_nat (length C).
Fixpoint total_need (F : ifiles) : Z := match F with [] => 0 | f :: F => need (isize f.2) + total_need F end.
Record has_file (s : image) (own : owners) (i : nat) (ty : Z) (C : bytes) : Prop := {
  hf_made : made s own (Z.of_nat i + 1) (stored s (Z.of_nat i + 1)) (isize C) (isize C) C;
  hf_fields : fields (stored s (Z.of_nat i + 1)) = DInode ty 0 0 1 (isize C) []
}.
Record built (s : image) (F : ifiles) : Prop := {
  bt_files : exists own, room s own /\ forall i ty C, F !! i = Some (ty, C) -> has_file s own i ty C;
  bt_inode : freeinode s = 1 + Z.of_nat (length F);
  bt_few : (length F <= 199)%nat;
  bt_block : freeblock s = 59 + total_need F;
  bt_super : blk s 1 = sb_bytes isb;
  bt_empty b : b = 0 \/ 2 <= b < 32 -> blk s b = replicate BSIZE 0
}.

Lemma need_nonneg a : 0 <= a -> 0 <= need a.
Proof. intros H. unfold need. destruct (6144 <? a); Z.div_mod_to_equations; lia. Qed.
Lemma total_need_app F G : total_need (F ++ G) = total_need F + total_need G.
Proof. induction F as [|f F IH]; simpl; [done|]. rewrite IH. lia. Qed.
Lemma total_need_insert F i ty C C' : F !! i = Some (ty, C) -> total_need (<[i := (ty, C')]> F) = total_need F - need (isize C) + need (isize C').
Proof.
  revert i. induction F as [|f F IH]; intros i; [done|]. destruct i as [|i]; simpl; [intros [= ->]; simpl; lia|]. intros H. rewrite (IH i H). lia.
Qed.

Lemma empty_dinode_ok ty : -32768 <= ty < 32768 -> dinode_ok (DInode ty 0 0 1 0 (replicate 13 0)).
Proof. intros H. split; simpl; try done; try lia. by repeat constructor; lia. Qed.
Lemma made_empty s own n ty : -32768 <= ty < 32768 -> made s own n (DInode ty 0 0 1 0 (replicate 13 0)) 0 0 [].
Proof.
  intros H. assert (Ha : forall k, addr k (DInode ty 0 0 1 0 (replicate 13 0)) = 0).
  { intros k. unfold addr. cbn [d_addrs]. destruct (replicate 13 0 !! k) as [z|] eqn:E; [|done]. by apply lookup_replicate in E as [-> _]. }
  assert (Hs : forall k, at_site isb (seen s) n (DInode ty 0 0 1 0 (replicate 13 0)) (AtData k) = 0).
  { intros k. unfold at_site. rewrite !Ha. by destruct (k <? _). }
  split; [by apply empty_dinode_ok| | | | |].
  - intros x _ Hi Hne. destruct x as [| |k]; [done|by rewrite <-(Ha NDIRECT) in Hne|by rewrite Hs in Hne].
  - intros k Hk. rewrite Hs. split; [done|lia].
  - rewrite Ha. split; [done|lia].
  - unfold MAXFILE. simpl. lia.
  - intros p Hp. unfold file_byte. by rewrite Hs.
Qed.

(** ** The operations *)
Lemma wp_ialloc s F ty (Q : Z -> image -> Prop) : built s F -> (length F < 199)%nat -> 0 <= ty < 32768 ->
  (forall s', built s' (F ++ [(ty, [])]) -> Q (1 + Z.of_nat (length F)) s') -> wp (ialloc ty) Q s.
Proof.
  intros [(own & R & HF) B2 B3 B4 B5 B6] Hf Hty HQ. unfold ialloc. rewrite wp_bind, wp_gets, B2, wp_bind, wp_modify, u32_small by lia.
  set (n := 1 + Z.of_nat (length F)). set (s0 := set_freeinode (n + 1) s). assert (R0 : room s0 own) by (destruct R as [[R1 R1'] R2 R3 R4]; split; [by split|done..]).
  assert (Hx : xshort ty = ty /\ xshort 1 = 1 /\ xint 0 = 0) by (rewrite !xshort_u16, xint_u32; unfold u16, u32; rewrite !Z.mod_small by lia; done).
  destruct Hx as (-> & -> & ->). set (d := DInode ty 0 0 1 0 (replicate 13 0)). assert (D : dinode_ok d) by (apply empty_dinode_ok; lia).
  rewrite wp_bind. apply wp_winode; [apply R0|lia|]. rewrite wp_ret. apply HQ. split.
  - exists own. split; [apply with_inode_room; [done|lia]|]. intros i ty' C Hi. apply lookup_app_Some in Hi as [Hi|[Hge Hi]].
    + destruct (HF i ty' C Hi) as [M1 M2]. apply lookup_lt_Some in Hi.
      assert (Es : stored (with_inode n d s0) (Z.of_nat i + 1) = stored s (Z.of_nat i + 1)) by (apply (with_inode_other s0 own n d R0); done || lia).
      split; rewrite Es; [|done]. apply (with_inode_made s0 own n d R0 ltac:(lia)). by apply (made_frame s own).
    + assert (Ei : (i - length F)%nat = 0%nat) by (apply lookup_lt_Some in Hi; simpl in Hi; lia). rewrite Ei in Hi. injection Hi as <- <-.
      assert (En : Z.of_nat i + 1 = n) by lia. split; rewrite En, (with_inode_same s0 own n d R0) by (done || lia); [|done].
      apply (with_inode_made s0 own n d R0 ltac:(lia)). apply made_empty. lia.
  - cbn. rewrite length_app. simpl. lia.
  - rewrite length_app. simpl. lia.
  - rewrite total_need_app. cbn [total_need snd]. change (need (isize [])) with 0. cbn. lia.
  - rewrite (with_inode_blk s0 own n d R0); [done|lia|lia|lia].
  - intros b Hb. rewrite (with_inode_blk s0 own n d R0); [by apply B6|lia|lia|lia].
Qed.

Lemma wp_iappend s F i ty C y (Q : unit -> image -> Prop) : built s F -> F !! i = Some (ty, C) -> isize (C ++ y) <= MAXFILE * 512 ->
  59 + total_need (<[i := (ty, C ++ y)]> F) <= 1000 -> -32768 <= ty < 32768 ->
  (forall s', built s' (<[i := (ty, C ++ y)]> F) -> Q tt s') -> wp (iappend (Z.of_nat i + 1) y) Q s.
Proof.
  intros [(own & R & HF) B2 B3 B4 B5 B6] Hi Hmax Hsp Hty HQ. pose proof (lookup_lt_Some _ _ _ Hi) as Hlt. set (n := Z.of_nat i + 1).
  destruct (HF i ty C Hi) as [M1 M2]. fold n in M1, M2. rewrite (total_need_insert _ _ _ _ _ Hi) in Hsp. unfold isize, MAXFILE in *.
  unfold iappend. rewrite wp_bind. apply wp_rinode; [apply R|lia|]. set (d := stored s n) in *.
  assert (Esz : d_size d = Z.of_nat (length C)) by (by injection M2). rewrite Esz, xint_u32, u32_small by (rewrite length_app in Hmax; lia). rewrite wp_bind.
  apply (wp_iappend_loop n (S (length y)) s own d C y); [done|done|rewrite length_app in Hmax; unfold MAXFILE; lia|lia|lia|].
  intros s1 own1 d1 R1 H1 K1 F1 E1. set (L := Z.of_nat (length (C ++ y))) in *. rewrite xint_u32, u32_small by lia.
  set (d2 := set_size L d1). assert (Ef : fields d2 = DInode ty 0 0 1 L []) by (rewrite M2 in E1; unfold d2, fields in *; cbn in *; congruence).
  assert (D2 : dinode_ok d2) by (destruct (md_dinode _ _ _ _ _ _ _ H1); split; cbn; try done; lia).
  assert (H2 : made s1 own1 n d2 L L (C ++ y)) by (destruct H1 as [X1 X2 X3 X4 X5 X6]; split; done).
  apply wp_winode; [apply R1|lia|]. apply HQ. split.
  - exists own1. split; [apply with_inode_room; [done|lia]|]. intros j ty' C' Hj. apply list_lookup_insert_Some in Hj as [(-> & [= <- <-] & _)|[Hne Hj]].
    + fold n. split; fold n; rewrite (with_inode_same s1 own1 n d2 R1) by (done || lia); [|done]. by apply (with_inode_made s1 own1 n d2 R1 ltac:(lia)).
    + destruct (HF j ty' C' Hj) as [N1 N2]. apply lookup_lt_Some in Hj. set (m := Z.of_nat j + 1) in *.
      assert (Hm : 32 <= IBLOCK m isb < 58) by (apply IBLOCK_range; lia).
      assert (Es : stored (with_inode n d2 s1) m = stored s m).
      { rewrite (with_inode_other s1 own1 n d2 R1) by (done || lia). unfold stored. by rewrite (kp_meta _ _ _ _ _ K1) by lia. }
      split; fold m; rewrite Es; [|done]. apply (with_inode_made s1 own1 n d2 R1 ltac:(lia)). apply (made_keeps n s own); [lia|done|done].
  - rewrite length_insert. change (freeinode s1 = 1 + Z.of_nat (length F)). by rewrite (kp_inode _ _ _ _ _ K1).
  - by rewrite length_insert.
  - rewrite (total_need_insert _ _ _ _ _ Hi). change (freeblock s1 = 59 + (total_need F - need (isize C) + need (isize (C ++ y)))). unfold isize. fold L. lia.
  - rewrite (with_inode_blk s1 own1 n d2 R1) by lia. by rewrite (kp_meta _ _ _ _ _ K1) by lia.
  - intros b Hb. rewrite (with_inode_blk s1 own1 n d2 R1) by lia. rewrite (kp_meta _ _ _ _ _ K1) by lia. by apply B6.
Qed.

(** ** A file of the host *)
Lemma need_mono a b : 0 <= a <= b -> need a <= need b.
Proof. intros H. unfold need. destruct (Z.ltb_spec 6144 a), (Z.ltb_spec 6144 b); Z.div_mod_to_equations; lia. Qed.
Lemma isize_app C y : isize (C ++ y) = isize C + isize y.
Proof. unfold isize. rewrite length_app. lia. Qed.
Lemma isize_nonneg C : 0 <= isize C.
Proof. unfold isize. lia. Qed.

Lemma wp_reads i ty : forall reads s F C (Q : unit -> image -> Prop), built s F -> F !! i = Some (ty, C) -> isize (C ++ concat reads) <= MAXFILE * 512 ->
  59 + total_need (<[i := (ty, C ++ concat reads)]> F) <= 1000 -> -32768 <= ty < 32768 ->
  (forall s', built s' (<[i := (ty, C ++ concat reads)]> F) -> Q tt s') -> wp (for_each reads (iappend (Z.of_nat i + 1))) Q s.
Proof.
  induction reads as [|y reads IH]; intros s F C Q B Hi Hmax Hsp Hty HQ; cbn [for_each concat] in *.
  - rewrite wp_ret, app_nil_r in *. apply HQ. by rewrite list_insert_id.
  - rewrite wp_bind, (assoc_L app) in *. assert (Hle : isize (C ++ y) <= isize ((C ++ y) ++ concat reads)) by (rewrite (isize_app (C ++ y)); pose proof (isize_nonneg (concat reads)); lia).
    apply (wp_iappend s F i ty C y); [done|done|lia| |done|].
    + rewrite (total_need_insert _ _ _ _ _ Hi) in Hsp. rewrite (total_need_insert _ _ _ _ _ Hi). pose proof (need_mono (isize (C ++ y)) (isize ((C ++ y) ++ concat reads)) ltac:(pose proof (isize_nonneg (C ++ y)); lia)). lia.
    + intros s1 B1. pose proof (lookup_lt_Some _ _ _ Hi) as Hlt.
      apply (IH s1 (<[i := (ty, C ++ y)]> F) (C ++ y)); [done|by apply list_lookup_insert_eq|done| |done|]; rewrite list_insert_insert_eq; done.
Qed.

Lemma insert_last {A} (l : list A) x y : <[length l := y]> (l ++ [x]) = l ++ [y].
Proof. rewrite <-(Nat.add_0_r (length l)). by rewrite insert_app_r. Qed.

(** The name in the directory. *)
Definition strip (name : bytes) : bytes := match name with 95 :: name' => name' | _ => name end.
Fixpoint entries (n : Z) (L : list (bytes * list bytes)) : bytes :=
  match L with
  | [] => []
  | (name, _) :: L => make_dirent (strip name) n ++ entries (n + 1) L
  end.
Definition made_from (L : list (bytes * list bytes)) : ifiles := map (fun f => (T_FILE, concat f.2)) L.
Definition final (D : bytes) (G : ifiles) (L : list (bytes * list bytes)) : ifiles :=
  (T_DIR, D ++ entries (Z.of_nat (length G) + 2) L) :: G ++ made_from L.

Lemma final_step D G name reads L :
  final (D ++ make_dirent (strip name) (Z.of_nat (length G) + 2)) (G ++ [(T_FILE, concat reads)]) L = final D G ((name, reads) :: L).
Proof.
  unfold final. cbn [entries made_from map snd]. rewrite <-!(assoc_L app), length_app. cbn [length app].
  by replace (Z.of_nat (length G + 1) + 2) with (Z.of_nat (length G) + 2 + 1) by lia.
Qed.
Lemma length_strncpy s n i : length (strncpy_bytes s i n) = n.
Proof.
  revert i. induction n as [|n IH]; intros i; [done|]. cbn [strncpy_bytes]. destruct (getb s i =? 0); [by rewrite length_replicate|]. simpl. by rewrite IH.
Qed.
Lemma length_dirent name n : length (make_dirent name n) = 16%nat.
Proof. unfold make_dirent. by rewrite length_put16, length_app, length_strncpy. Qed.
Lemma total_need_nonneg F : 0 <= total_need F.
Proof. induction F as [|f F IH]; simpl; [lia|]. pose proof (need_nonneg _ (isize_nonneg f.2)). lia. Qed.

Definition acceptable (files : host) (f : bytes * list bytes) : Prop :=
  existsb (fun c => c =? 47) f.1 = false /\ files f.1 = Some f.2 /\ isize (concat f.2) <= MAXFILE * 512.

Lemma wp_files files : forall L s D G (Q : unit -> image -> Prop), built s ((T_DIR, D) :: G) -> Forall (acceptable files) L ->
  (length G + length L <= 198)%nat -> isize (D ++ entries (Z.of_nat (length G) + 2) L) <= MAXFILE * 512 ->
  59 + total_need (final D G L) <= 1000 -> (forall s', built s' (final D G L) -> Q tt s') ->
  wp (for_each (map fst L) (add_file files 1)) Q s.
Proof.
  induction L as [|[name reads] L IH]; intros s D G Q B HL Hlen Hdir Hsp HQ; cbn [map for_each fst].
  { rewrite wp_ret. apply HQ. unfold final. cbn [entries made_from map]. by rewrite !app_nil_r. }
  inversion HL as [|? ? (A1 & A2 & A3) HL']. subst. cbn [fst snd] in *. unfold final in Hsp. cbn [entries made_from map length snd total_need] in *.
  set (e := make_dirent (strip name) (Z.of_nat (length G) + 2)) in *. rewrite (assoc_L app) in Hdir, Hsp.
  pose proof (isize_nonneg (entries (Z.of_nat (length G) + 2 + 1) L)) as He. rewrite (isize_app (D ++ e)) in Hdir, Hsp.
  pose proof (need_mono (isize (D ++ e)) (isize (D ++ e) + isize (entries (Z.of_nat (length G) + 2 + 1) L)) ltac:(pose proof (isize_nonneg (D ++ e)); lia)) as Hn.
  rewrite total_need_app in Hsp. cbn [total_need snd] in Hsp. pose proof (total_need_nonneg (made_from L)) as Hm. unfold made_from in Hm.
  pose proof (need_nonneg _ (isize_nonneg (concat reads))) as Hc.
  rewrite wp_bind. unfold add_file. rewrite A1, A2. fold (strip name). rewrite wp_bind.
  apply (wp_ialloc s ((T_DIR, D) :: G) T_FILE); [done|simpl; lia|by vm_compute|]. intros s1 B1. cbn [app] in B1.
  replace (1 + Z.of_nat (length ((T_DIR, D) :: G))) with (Z.of_nat (length G) + 2) by (simpl; lia).
  rewrite xshort_u16. unfold u16. rewrite Z.mod_small by lia. fold e. rewrite wp_bind.
  apply (wp_iappend s1 ((T_DIR, D) :: G ++ [(T_FILE, [])]) 0 T_DIR D e); [done|done|lia| |by vm_compute|].
  { cbn [insert list_insert total_need snd]. rewrite total_need_app. cbn [total_need snd]. change (need (isize [])) with 0. lia. }
  intros s2 B2. cbn [insert list_insert] in B2. replace (Z.of_nat (length G) + 2) with (Z.of_nat (S (length G)) + 1) by lia.
  assert (Hi : ((T_DIR, D ++ e) :: G ++ [(T_FILE, [])]) !! S (length G) = Some (T_FILE, [])) 
    by (change ((G ++ [(T_FILE, [] : bytes)]) !! length G = Some (T_FILE, [])); by apply list_lookup_middle).
  assert (Ei : <[S (length G) := (T_FILE, concat reads)]> ((T_DIR, D ++ e) :: G ++ [(T_FILE, [])]) = (T_DIR, D ++ e) :: G ++ [(T_FILE, concat reads)]).
  { change ((T_DIR, D ++ e) :: <[length G := (T_FILE, concat reads)]> (G ++ [(T_FILE, [])]) = (T_DIR, D ++ e) :: G ++ [(T_FILE, concat reads)]).
    f_equal. apply insert_last. }
  apply (wp_reads (S (length G)) T_FILE reads s2 ((T_DIR, D ++ e) :: G ++ [(T_FILE, [])]) []); [done|done|done| |by vm_compute|]; cbn [app]; rewrite Ei.
  { cbn [total_need snd]. rewrite total_need_app. cbn [total_need snd]. lia. }
  intros s3 B3. apply (IH s3 (D ++ e) (G ++ [(T_FILE, concat reads)])); [done|done|rewrite length_app; simpl; lia|..].
  - rewrite length_app. simpl. replace (Z.of_nat (length G + 1) + 2) with (Z.of_nat (length G) + 2 + 1) by lia. rewrite isize_app. lia.
  - rewrite (final_step D G name reads L : final (D ++ e) _ _ = _). unfold final. cbn [entries made_from map length snd total_need fst]. fold e. rewrite (assoc_L app), isize_app, total_need_app.
    cbn [total_need snd]. lia.
  - by rewrite (final_step D G name reads L : final (D ++ e) _ _ = _).
Qed.

(** ** The start: an image of zeros and the superblock *)
Lemma wp_zeros (s : image) (Q : unit -> image -> Prop) : sects s = [] ->
  Q tt (set_sects (replicate 1000 (replicate BSIZE 0)) s) ->
  wp (for_each (seq 0 (Z.to_nat FSSIZE)) (fun i => wsect (Z.of_nat i) (replicate BSIZE 0))) Q s.
Proof.
  intros Hs HQ. change (Z.to_nat FSSIZE) with 1000%nat.
  apply (wp_for_each _ _ (fun l s' => (exists k, l = seq 0 k /\ (k <= 1000)%nat) /\ s' = set_sects (replicate (length l) (replicate BSIZE 0)) s)).
  - split; [exists 0%nat; split; [done|lia]|]. cbn [length replicate]. destruct s as [l fi fb]. cbn [sects] in Hs. rewrite Hs. reflexivity.
  - intros l i todo s' El [(k & -> & Hk) ->]. rewrite length_seq.
    assert (Ei : i = k /\ (k < 1000)%nat).
    { assert (H : seq 0 1000 !! k = Some i) by (rewrite El, lookup_app_r; rewrite length_seq; [by rewrite Nat.sub_diag|done]).
      apply lookup_seq in H. simpl in H. lia. }
    destruct Ei as [-> Hlt]. unfold wsect. rewrite wp_modify. split.
    + exists (S k). split; [by rewrite seq_S|lia].
    + rewrite position_eq by lia. rewrite Nat2Z.id. cbn [set_sects sects freeinode freeblock]. rewrite length_app, length_seq, length_replicate.
      replace (S k - k)%nat with 1%nat by lia. unfold set_sects. cbn [freeinode freeblock length replicate]. f_equal.
      pose proof (insert_last (replicate k (replicate BSIZE 0)) (replicate BSIZE 0) (replicate BSIZE 0)) as E. rewrite length_replicate in E. rewrite E.
      by rewrite Nat.add_1_r, replicate_S_end.
  - intros s' [_ ->]. by rewrite length_seq.
Qed.

Lemma blk_zeros s b : sects s = replicate 1000 (replicate BSIZE 0) -> 0 <= b < 1000 -> blk s b = replicate BSIZE 0.
Proof. intros E Hb. unfold blk. rewrite E, lookup_replicate_2; [done|lia]. Qed.
Lemma built_start : built (upd 1 (sb_bytes isb) (Image (replicate 1000 (replicate BSIZE 0)) 1 nmeta)) [].
Proof.
  set (s0 := Image (replicate 1000 (replicate BSIZE 0)) 1 nmeta). set (s := upd 1 (sb_bytes isb) s0).
  assert (W0 : whole s0) by (split; [by vm_compute|intros b Hb; by rewrite (blk_zeros s0 b)]).
  assert (Hl : length (sb_bytes isb) = BSIZE) by (by vm_compute).
  pose proof (whole_upd 1 _ s0 W0 ltac:(lia) Hl) as W1. fold s in W1.
  assert (Hz : forall b, 0 <= b < 1000 -> b <> 1 -> blk s b = replicate BSIZE 0).
  { intros b Hb Hne. unfold s. rewrite blk_upd by (done || lia). rewrite (proj2 (Z.eqb_neq _ _)) by lia. by apply (blk_zeros s0). }
  split.
  - exists ∅. split; [|done]. split; [done|by vm_compute|intros b z Hb; by rewrite lookup_empty in Hb|].
    intros b Hb. cbn in Hb. change (blk s b = replicate BSIZE 0). rewrite nmeta_eq in Hb. apply Hz; lia.
  - done.
  - simpl. lia.
  - by vm_compute.
  - change (blk s 1 = sb_bytes isb). unfold s. by rewrite blk_upd by (done || lia).
  - intros b Hb. change (blk s b = replicate BSIZE 0). apply Hz; lia.
Qed.

(** ** The bitmap *)
Lemma bitmap_used u k : (u <= 1000)%nat -> 0 <= k < 4096 ->
  bit_used (fold_left (fun x i => set_bit x (Z.of_nat i)) (seq 0 u) (replicate BSIZE 0)) k = (k <? Z.of_nat u) /\
  length (fold_left (fun x i => set_bit x (Z.of_nat i)) (seq 0 u) (replicate BSIZE 0)) = BSIZE.
Proof.
  intros Hu Hk. induction u as [|u IH].
  - split; [|done]. cbn [seq fold_left]. rewrite (proj2 (Z.ltb_ge _ _)) by lia. unfold bit_used. rewrite getb_zeros. by rewrite Z.land_0_l.
  - destruct (IH ltac:(lia)) as [H1 H2]. rewrite seq_S, fold_left_app. cbn [fold_left]. split; [|by rewrite set_bit_length].
    rewrite set_bit_used; [|done|unfold BPB; lia..]. change (0 + u)%nat with u. case_decide as E.
    + rewrite (proj2 (Z.ltb_lt _ _)) by lia. done.
    + rewrite H1. destruct (Z.ltb_spec k (Z.of_nat u)), (Z.ltb_spec k (Z.of_nat (S u))); try done; lia.
Qed.

(** ** What the kernel finds *)
Lemma BBLOCK_58 b : 0 <= b < 1000 -> BBLOCK b isb = 58.
Proof. intros H. unfold BBLOCK, BPB. rewrite isb_eq. cbn [sb_bmapstart]. rewrite Z.div_small by lia. done. Qed.

Section Kernel.
Context (s : image) (own : owners).
Hypotheses (R : room s own) (U : forall b, 0 <= b < 1000 -> used isb (seen s) b = (b <? freeblock s)).

Lemma image_fs_ok : fs_ok isb (seen s).
Proof.
  pose proof (rm_free _ _ R). rewrite isb_eq. split; cbn [sb_size]; [lia|..]; intros b Hb; rewrite <-isb_eq.
  - intros Hu. rewrite U in Hu by done. apply Z.ltb_ge in Hu. split; lia.
  - rewrite BBLOCK_58 by done. split; lia.
  - rewrite BBLOCK_58 by done. split; [lia|]. rewrite U by lia. apply Z.ltb_lt. lia.
Qed.
Lemma image_owned b : b = 0 \/ 32 <= b < 58 \/ 59 <= b < freeblock s -> owned isb (seen s) b.
Proof.
  intros Hb. pose proof (rm_free _ _ R). split.
  - rewrite isb_eq. cbn [sb_size]. lia.
  - rewrite U by lia. apply Z.ltb_lt. lia.
  - split; lia.
  - intros c Hc. rewrite isb_eq in Hc. cbn [sb_size] in Hc. rewrite BBLOCK_58 by done. lia.
Qed.
Lemma image_file_ok n d e ei C : 0 <= n < 208 -> made s own n d e ei C -> 0 <= d_size d <= MAXFILE * 512 ->
  (forall k, 0 <= k -> k * 512 < d_size d -> k * 512 < e) -> file_ok isb (seen s) n d.
Proof.
  intros Hn H Hsz Hfull. pose proof (IBLOCK_range n Hn) as Hi.
  assert (Ho : forall x, site_ok x -> x <> AtInode -> at_site isb (seen s) n d x <> 0 -> own !! at_site isb (seen s) n d x = Some (n, x)).
  { intros x. by apply (site_of _ _ _ _ _ _ _ x H). }
  assert (Hr : forall x, site_ok x -> x <> AtInode -> at_site isb (seen s) n d x <> 0 -> 59 <= at_site isb (seen s) n d x < freeblock s).
  { intros x Hx Hxi Hne. by apply (rm_own _ _ R _ (n, x)), Ho. }
  split.
  - apply H.
  - done.
  - apply image_owned. by left.
  - lia.
  - intros x Hx Hne. apply image_owned. destruct (decide (x = AtInode)) as [->|Hxi]; [cbn; lia|]. right. right. by apply Hr.
  - intros x y Hx Hy Hne E. destruct (decide (x = AtInode)) as [->|Hxi], (decide (y = AtInode)) as [->|Hyi]; [done|..].
    + change (IBLOCK n isb = at_site isb (seen s) n d y) in E. specialize (Hr y Hy Hyi ltac:(lia)). lia.
    + change (at_site isb (seen s) n d x = IBLOCK n isb) in E. rewrite <-E in Hi. specialize (Hr x Hx Hxi Hne). lia.
    + pose proof (Ho x Hx Hxi Hne) as H1. rewrite E in H1. rewrite (Ho y Hy Hyi ltac:(congruence)) in H1. by injection H1.
  - intros k Hk Hlt. change (Z.of_nat BSIZE) with 512 in Hlt. unfold MAXFILE in *. apply (md_data _ _ _ _ _ _ _ H); [unfold MAXFILE; lia|]. by apply Hfull.
Qed.
Lemma image_bytes n d e ei C : made s own n d e ei C -> file_bytes isb (seen s) n d 0 (isize C) = C.
Proof.
  intros H. pose proof (md_cover _ _ _ _ _ _ _ H). unfold isize. apply getb_eq; [by rewrite length_file_bytes, Nat2Z.id|]. intros j Hj. rewrite length_file_bytes, Nat2Z.id in Hj.
  rewrite getb_file_bytes by lia. rewrite (md_bytes _ _ _ _ _ _ _ H) by lia. f_equal. lia.
Qed.
End Kernel.

(** A file of the image, as the kernel sees it: its inode, the conditions on its
    blocks, and its bytes. *)
Definition kernel_file (s : image) (n ty : Z) (C : bytes) : Prop :=
  fields (stored s n) = DInode ty 0 0 1 (isize C) [] /\ file_ok isb (seen s) n (stored s n) /\
  file_bytes isb (seen s) n (stored s n) 0 (isize C) = C.

(** Writing a block before the data blocks. *)
Lemma room_meta s own b y : room s own -> 0 <= b < 59 -> length y = BSIZE -> room (upd b y s) own.
Proof.
  intros R Hb Hy. pose proof (rm_free _ _ R). split; [apply whole_upd; [apply R|lia|done]|done|apply R|].
  intros c Hc. cbn in Hc. rewrite blk_upd by (apply R || lia). rewrite (proj2 (Z.eqb_neq _ _)) by lia. by apply R.
Qed.
Lemma made_meta s own b y n d e ei C : room s own -> 0 <= b < 59 -> made s own n d e ei C -> made (upd b y s) own n d e ei C.
Proof.
  intros R Hb H. apply (made_frame s own); [done| |done]. intros c x Hc. apply (rm_own _ _ R) in Hc. pose proof (rm_free _ _ R).
  rewrite blk_upd by (apply R || lia). by rewrite (proj2 (Z.eqb_neq _ _)) by lia.
Qed.

(** The finished image: files [G] from inode 2 on and the root directory [D]. *)
Record finished (s : image) (D : bytes) (G : ifiles) : Prop := {
  fn_super : sb_decode (blk s 1) = isb;
  fn_log : blk s 2 = replicate BSIZE 0;
  fn_fs : fs_ok isb (seen s);
  fn_used b : 0 <= b < 1000 -> used isb (seen s) b = (b <? 59 + total_need ((T_DIR, D) :: G));
  fn_files i ty C : G !! i = Some (ty, C) -> kernel_file s (Z.of_nat i + 2) ty C;
  fn_root : fields (stored s 1) = DInode T_DIR 0 0 1 ((isize D / 512 + 1) * 512) [];
  fn_root_bytes p : 0 <= p < MAXFILE * 512 -> file_byte isb (seen s) 1 (stored s 1) p = getb D (Z.to_nat p);
  fn_root_ok : isize D mod 512 <> 0 -> file_ok isb (seen s) 1 (stored s 1)
}.

Lemma decode_super : sb_decode (sb_bytes isb) = isb.
Proof. vm_compute. reflexivity. Qed.

Lemma wp_finish s D G (Q : unit -> image -> Prop) : built s ((T_DIR, D) :: G) -> isize D + 512 <= MAXFILE * 512 ->
  (forall s', finished s' D G -> Q tt s') -> wp (fix_size 1 ;; u ← gets freeblock; balloc (s32 u)) Q s.
Proof.
  intros [(own & R & HF) B2 B3 B4 B5 B6] HD HQ. pose proof (rm_free _ _ R) as Hfree. pose proof (isize_nonneg D) as HD0.
  destruct (HF 0%nat T_DIR D eq_refl) as [M1 M2]. change (Z.of_nat 0 + 1) with 1 in *. set (d := stored s 1) in *.
  assert (Esz : d_size d = isize D) by (by injection M2). unfold MAXFILE in HD.
  rewrite wp_bind. unfold fix_size. rewrite wp_bind. apply wp_rinode; [apply R|lia|]. fold d. change (Z.of_nat BSIZE) with 512.
  rewrite Esz, !xint_u32. set (L := (isize D / 512 + 1) * 512). assert (HL : isize D < L <= 71680) by (unfold L; Z.div_mod_to_equations; lia).
  assert (EL : u32 (u32 ((u32 (isize D) / 512 + 1) * 512)) = L).
  { rewrite (u32_small (isize D)) by lia. fold L. rewrite (u32_small L) by lia. apply u32_small. lia. }
  rewrite EL.
  set (d' := set_size L d). assert (D' : dinode_ok d') by (destruct (md_dinode _ _ _ _ _ _ _ M1); split; cbn; try done; lia).
  apply wp_winode; [apply R|lia|]. set (s1 := with_inode 1 d' s). assert (R1 : room s1 own) by (apply with_inode_room; [done|lia]).
  rewrite wp_bind, wp_gets. unfold balloc. change (Z.of_nat BSIZE * 8) with 4096. change (freeblock s1) with (freeblock s).
  rewrite (s32_small (freeblock s)) by lia.
  rewrite (proj2 (Z.leb_gt _ _)) by lia. rewrite isb_eq at 1. cbn [sb_bmapstart].
  assert (Hbm := fun k => bitmap_used (Z.to_nat (freeblock s)) k ltac:(lia)). set (bm := fold_left _ _ _) in *.
  destruct (Hbm 0 ltac:(lia)) as [_ Hlen]. apply wp_wsect; [apply R1|lia|]. apply HQ. set (s2 := upd 58 bm s1).
  assert (R2 : room s2 own) by (by apply room_meta). assert (W1 : whole s1) by apply R1.
  assert (Hblk : forall b, 0 <= b -> b <> 58 -> blk s2 b = blk s1 b).
  { intros b H1 H2. unfold s2. rewrite blk_upd by (done || lia). by rewrite (proj2 (Z.eqb_neq _ _)). }
  assert (Hst : forall n, 0 <= n < 208 -> stored s2 n = stored s1 n) by (intros n Hn; unfold stored; pose proof (IBLOCK_range n Hn); rewrite Hblk by lia; done).
  assert (Hroot : stored s2 1 = d') by (rewrite Hst by lia; by apply (with_inode_same s own 1 d' R)).
  assert (Ef : freeblock s2 = 59 + total_need ((T_DIR, D) :: G)) by done.
  assert (U : forall b, 0 <= b < 1000 -> used isb (seen s2) b = (b <? freeblock s2)).
  { intros b Hb. unfold used. rewrite BBLOCK_58 by done. cbn [seen tview]. unfold s2 at 1. rewrite blk_upd by (done || lia). cbn [Z.eqb Pos.eqb].
    rewrite Z.mod_small by (unfold BPB; lia). rewrite (proj1 (Hbm b ltac:(lia))). change (freeblock s2) with (freeblock s). f_equal. lia. }
  assert (M1' : made s2 own 1 d' (isize D) (isize D) D).
  { apply made_meta; [done|lia|]. apply with_inode_made; [done|lia|]. destruct M1; by split. }
  split.
  - rewrite Hblk, (with_inode_blk s own 1 d' R), B5 by lia. apply decode_super.
  - rewrite Hblk, (with_inode_blk s own 1 d' R), B6 by lia. done.
  - by apply (image_fs_ok s2 own).
  - intros b Hb. rewrite U, Ef by done. done.
  - intros i ty C Hi. destruct (HF (S i) ty C Hi) as [N1 N2]. apply lookup_lt_Some in Hi. cbn [length] in B3.
    replace (Z.of_nat (S i) + 1) with (Z.of_nat i + 2) in * by lia. set (n := Z.of_nat i + 2) in *.
    assert (Es : stored s2 n = stored s n) by (rewrite Hst by lia; apply (with_inode_other s own 1 d' R); done || lia).
    assert (N1' : made s2 own n (stored s2 n) (isize C) (isize C) C).
    { rewrite Es. apply made_meta; [done|lia|]. apply with_inode_made; [done|lia|done]. }
    split; [by rewrite Es|]. split; [|by apply (image_bytes s2 own n _ (isize C) (isize C))].
    apply (image_file_ok s2 own R2 U n _ (isize C) (isize C) C); [lia|done|..].
    + rewrite Es. assert (E : d_size (stored s n) = isize C) by (by injection N2). rewrite E. pose proof (md_cover _ _ _ _ _ _ _ N1). unfold isize, MAXFILE in *. lia.
    + rewrite Es. assert (E : d_size (stored s n) = isize C) by (by injection N2). rewrite E. done.
  - rewrite Hroot. change (fields d') with (set_size L (fields d)). by rewrite M2.
  - intros p Hp. rewrite Hroot. by apply M1'.
  - intros Hm. rewrite Hroot. apply (image_file_ok s2 own R2 U 1 d' (isize D) (isize D) D); [lia|done|cbn; unfold MAXFILE; lia|].
    intros k Hk Hlt. cbn in Hlt. unfold L in Hlt. Z.div_mod_to_equations. lia.
Qed.

Definition dots : bytes := make_dirent [46] 1 ++ make_dirent [46; 46] 1.
Lemma length_entries n L : length (entries n L) = (16 * length L)%nat.
Proof.
  revert n. induction L as [|[name reads] L IH]; intros n; [done|]. cbn [entries length]. rewrite length_app, length_dirent, IH. lia.
Qed.

(** C11: the image mkfs makes is a file system the kernel accepts.  When the files
    of the host can be opened, none is larger than an inode can address, and all
    fit, mkfs ends without an error; the superblock, an empty log and the free
    block map are in their places, the map marks exactly the blocks handed out,
    the kernel's invariant of the disk holds, every file has an inode whose
    blocks are its own and whose bytes are those of the host's file, and the root
    directory lists the names in order, followed by zeros.  The root directory
    meets the kernel's condition too, unless its entries fill whole blocks: then
    its size covers a block that is not there. *)
Theorem mkfs_makes_file_system files L : Forall (acceptable files) L -> (length L <= 198)%nat ->
  59 + total_need (final dots [] L) <= 1000 ->
  wp (main files (map fst L)) (fun _ s => finished s (dots ++ entries 2 L) (made_from L)) start.
Proof.
  intros HL Hlen Hsp. assert (Hd : isize (dots ++ entries 2 L) = 32 + 16 * Z.of_nat (length L)).
  { rewrite isize_app. unfold isize at 2. rewrite length_entries. change (isize dots) with 32. lia. }
  assert (Hdots : 59 + need (isize dots) <= 1000) by (change (isize dots) with 32; by vm_compute).
  unfold main. rewrite wp_bind, wp_modify, wp_bind. apply wp_zeros; [done|]. rewrite wp_bind.
  set (s0 := set_sects _ _). assert (W0 : whole s0) by (split; [by vm_compute|intros b Hb; by rewrite (blk_zeros s0 b)]).
  apply wp_wsect; [done|lia|]. pose proof built_start as B0. change (upd 1 (sb_bytes isb) (Image (replicate 1000 (replicate BSIZE 0)) 1 nmeta)) with (upd 1 (sb_bytes isb) s0) in B0.
  rewrite wp_bind. apply (wp_ialloc _ [] T_DIR); [done|simpl; lia|by vm_compute|]. intros s1 B1. cbn [app length] in *. change (1 + Z.of_nat 0) with 1.
  rewrite wp_bind. cbn [Z.eqb ROOTINO Pos.eqb]. rewrite wp_ret. change (xshort 1) with 1. rewrite wp_bind.
  apply (wp_iappend s1 [(T_DIR, [])] 0 T_DIR [] (make_dirent [46] 1)); [done|done|by vm_compute|by vm_compute|by vm_compute|]. intros s2 B2.
  cbn [app insert list_insert] in B2. rewrite wp_bind.
  apply (wp_iappend s2 [(T_DIR, make_dirent [46] 1)] 0 T_DIR (make_dirent [46] 1) (make_dirent [46; 46] 1)); [done|done|by vm_compute|by vm_compute|by vm_compute|].
  intros s3 B3. cbn [insert list_insert] in B3. fold dots in B3. rewrite wp_bind.
  apply (wp_files files L s3 dots []); [done|done|simpl; lia| |done|].
  { change (Z.of_nat (length []) + 2) with 2. rewrite Hd. unfold MAXFILE. lia. }
  intros s4 B4. unfold final in B4. cbn [length app] in B4. change (Z.of_nat 0 + 2) with 2 in B4.
  apply (wp_finish s4 (dots ++ entries 2 L) (made_from L)); [done| |done]. rewrite Hd. unfold MAXFILE. lia.
Qed.
Lemma mkfs_makes_file_system_witness :
  let files := fun name => if decide (name = [95; 99]) then Some [replicate 512 7; [1; 2; 3]] else None in
  wp (main files [[95; 99]]) (fun _ s => finished s (dots ++ entries 2 [([95; 99], [replicate 512 7; [1; 2; 3]])]) [(T_FILE, replicate 512 7 ++ [1; 2; 3])]) start.
Proof.
  intros files. apply (mkfs_makes_file_system files [([95; 99], [replicate 512 7; [1; 2; 3]])]).
  - constructor; [|constructor]. split; [reflexivity|]. split; [reflexivity|]. by vm_compute.
  - simpl. lia.
  - by vm_compute.
Defined.
