(* ===== verification/Pipe.v ===== *)
(** * Pipes (pipe.c)

    A pipe and the operations on it, each run until it returns or sleeps, and
    any number of readers and writers using one pipe. *)
From S2P Require Import Prelude Bytes Spinlock.

Open Scope Z_scope.

Definition PIPESIZE : Z := 512.

(** struct pipe.  [woke_r] and [woke_w] count the wakeups of sleepers on
    [&nread] and on [&nwrite]. *)
Record pipe := Pipe {
  p_lock : bool; p_data : bytes; nread : Z; nwrite : Z; readopen : Z; writeopen : Z;
  woke_r : nat; woke_w : nat }.

Definition p_lockL : lens pipe bool :=
  Lens p_lock (fun l p => Pipe l (p_data p) (nread p) (nwrite p) (readopen p) (writeopen p) (woke_r p) (woke_w p)).
Definition set_readopen v p := Pipe (p_lock p) (p_data p) (nread p) (nwrite p) v (writeopen p) (woke_r p) (woke_w p).
Definition set_writeopen v p := Pipe (p_lock p) (p_data p) (nread p) (nwrite p) (readopen p) v (woke_r p) (woke_w p).
Definition wakeup_r : M pipe unit := modify (fun p =>
  Pipe (p_lock p) (p_data p) (nread p) (nwrite p) (readopen p) (writeopen p) (S (woke_r p)) (woke_w p)).
Definition wakeup_w : M pipe unit := modify (fun p =>
  Pipe (p_lock p) (p_data p) (nread p) (nwrite p) (readopen p) (writeopen p) (woke_r p) (S (woke_w p))).
Definition p_acquire : M pipe unit := zoom p_lockL lk_acquire.
Definition p_release : M pipe unit := zoom p_lockL lk_release.

(** The part of pipealloc that sets up the pipe. *)
Definition new_pipe (junk : bytes) : pipe := Pipe false junk 0 0 1 1 0 0.

(** The result tells whether the pipe's page is freed. *)
Definition pipeclose (writable : bool) : M pipe bool :=
  p_acquire ;;
  (if writable then modify (set_writeopen 0) ;; wakeup_r
   else modify (set_readopen 0) ;; wakeup_w) ;;
  p ← get;
  p_release ;;
  mret ((readopen p =? 0) && (writeopen p =? 0)).

(** p->data[p->nwrite++ % PIPESIZE] = c; and the other way. *)
Definition pipe_put (c : Z) (p : pipe) : pipe :=
  Pipe (p_lock p) (<[Z.to_nat (nwrite p mod PIPESIZE) := c]> (p_data p)) (nread p) (u32 (nwrite p + 1))
    (readopen p) (writeopen p) (woke_r p) (woke_w p).
Definition pipe_next (p : pipe) : Z := getb (p_data p) (Z.to_nat (nread p mod PIPESIZE)).
Definition pipe_skip (p : pipe) : pipe :=
  Pipe (p_lock p) (p_data p) (u32 (nread p + 1)) (nwrite p) (readopen p) (writeopen p) (woke_r p) (woke_w p).

(** A call that returned with its result, or sleeps with the rest of its work. *)
Inductive outcome (A : Type) := Returned (r : Z) (out : bytes) | Asleep (rest : A).
Arguments Returned {A} r out.
Arguments Asleep {A} rest.

(** pipewrite from the test of the inner loop, [rest] still to be written.
    Sleeping releases the pipe's lock. *)
Fixpoint pipewrite_loop (killed : bool) (n : Z) (rest : bytes) : M pipe (outcome bytes) :=
  match rest with
  | [] => wakeup_r ;; p_release ;; mret (Returned n [])
  | c :: rest' =>
      p ← get;
      if nwrite p =? u32 (nread p + PIPESIZE) then
        if (readopen p =? 0) || killed then p_release ;; mret (Returned (-1) [])
        else wakeup_r ;; p_release ;; mret (Asleep rest)
      else modify (pipe_put c) ;; pipewrite_loop killed n rest'
  end.
(** The call, and its continuation after a wakeup, which takes the lock again. *)
Definition pipewrite (killed : bool) (n : Z) (rest : bytes) : M pipe (outcome bytes) :=
  p_acquire ;;
  pipewrite_loop killed n rest.

Fixpoint piperead_copy (n : nat) (out : bytes) : M pipe bytes :=
  match n with
  | O => mret out
  | S n =>
      p ← get;
      if nread p =? nwrite p then mret out
      else modify pipe_skip ;; piperead_copy n (out ++ [pipe_next p])
  end.
Definition piperead (killed : bool) (n : Z) : M pipe (outcome unit) :=
  p_acquire ;;
  p ← get;
  if (nread p =? nwrite p) && truthy (writeopen p) then
    if killed then p_release ;; mret (Returned (-1) [])
    else p_release ;; mret (Asleep tt)
  else
    out ← piperead_copy (Z.to_nat n) [];
    wakeup_w ;;
    p_release ;;
    mret (Returned (Z.of_nat (length out)) out).

(** ** The bytes in a pipe *)

(** The bytes between the read and the write position. *)
Definition count (p : pipe) : nat := Z.to_nat (u32 (nwrite p - nread p)).
Definition contents (p : pipe) : bytes :=
  (fun k => getb (p_data p) (Z.to_nat (u32 (nread p + Z.of_nat k) mod PIPESIZE))) <$> seq 0 (count p).

Record pipe_ok (p : pipe) : Prop := {
  po_lock : p_lock p = false;
  po_len : length (p_data p) = Z.to_nat PIPESIZE;
  po_nread : 0 <= nread p < 4294967296;
  po_nwrite : 0 <= nwrite p < 4294967296;
  po_count : Z.of_nat (count p) <= PIPESIZE
}.

Lemma u32_mod_PIPESIZE z : u32 z mod PIPESIZE = z mod PIPESIZE.
Proof. unfold u32, PIPESIZE. Z.div_mod_to_equations. lia. Qed.

Lemma contents_alt p : contents p =
  (fun k => getb (p_data p) (Z.to_nat ((nread p + Z.of_nat k) mod PIPESIZE))) <$> seq 0 (count p).
Proof. unfold contents. apply list_fmap_ext. intros i k _. by rewrite u32_mod_PIPESIZE. Qed.

Lemma contents_length p : length (contents p) = count p.
Proof. unfold contents. by rewrite length_fmap, length_seq. Qed.

(** Arithmetic on the two counters, which wrap around. *)
Ltac counters :=
  unfold count, u32, PIPESIZE in *; simpl in *; unfold u32 in *; Z.div_mod_to_equations; lia.

Section Ok.
Context (p : pipe).
Hypothesis O : pipe_ok p.

Lemma full_count : (nwrite p =? u32 (nread p + PIPESIZE)) = true <-> Z.of_nat (count p) = PIPESIZE.
Proof. destruct O as [_ _ Hn Hw Hc]. rewrite Z.eqb_eq. counters. Qed.
Lemma empty_count : (nread p =? nwrite p) = true <-> count p = 0%nat.
Proof. destruct O as [_ _ Hn Hw Hc]. rewrite Z.eqb_eq. counters. Qed.

Lemma put_count c : Z.of_nat (count p) < PIPESIZE -> count (pipe_put c p) = S (count p).
Proof. destruct O as [_ _ Hn Hw Hc]. intros H. counters. Qed.
Lemma skip_count : (0 < count p)%nat -> count p = S (count (pipe_skip p)).
Proof. destruct O as [_ _ Hn Hw Hc]. intros H. counters. Qed.

(** The slot a byte is stored to is that of the byte's place in the queue. *)
Lemma write_slot : nwrite p mod PIPESIZE = (nread p + Z.of_nat (count p)) mod PIPESIZE.
Proof.
  destruct O as [_ _ Hn Hw Hc]. unfold count. rewrite Z2Nat.id by (apply u32_range). counters.
Qed.

Lemma put_ok c : Z.of_nat (count p) < PIPESIZE -> pipe_ok (pipe_put c p).
Proof.
  intros H. split; simpl; try apply O; [by rewrite length_insert; apply O|apply u32_range|].
  rewrite put_count by done. lia.
Qed.
Lemma skip_ok : (0 < count p)%nat -> pipe_ok (pipe_skip p).
Proof. intros H. split; simpl; try apply O; [apply u32_range|]. pose proof (skip_count H). pose proof (po_count p O). lia. Qed.

Lemma put_contents c : Z.of_nat (count p) < PIPESIZE -> contents (pipe_put c p) = contents p ++ [c].
Proof.
  intros H. rewrite !contents_alt, put_count, seq_S, fmap_app by done. simpl. rewrite <-write_slot. f_equal.
  - apply list_fmap_ext. intros i k Hk. apply lookup_seq in Hk as [-> Hk]. unfold getb.
    rewrite list_lookup_insert_ne; [done|]. rewrite write_slot. unfold PIPESIZE in *.
    intros E. apply Z2Nat.inj in E; [|apply Z.mod_pos_bound; lia..]. Z.div_mod_to_equations. lia.
  - unfold getb. rewrite list_lookup_insert_eq; [done|]. rewrite (po_len p O).
    apply Z2Nat.inj_lt; [apply Z.mod_pos_bound; done|done|apply Z.mod_pos_bound; done].
Qed.

Lemma skip_contents : (0 < count p)%nat -> contents p = pipe_next p :: contents (pipe_skip p).
Proof.
  intros H. rewrite !contents_alt, (skip_count H). cbn [seq fmap list_fmap]. f_equal.
  - unfold pipe_next. do 2 f_equal. rewrite Z.add_0_r. done.
  - rewrite <-fmap_S_seq, <-list_fmap_compose. apply list_fmap_ext. intros i k _. simpl. do 2 f_equal.
    rewrite <-(u32_mod_PIPESIZE (u32 (nread p + 1) + _)). unfold u32, PIPESIZE. Z.div_mod_to_equations. lia.
Qed.
End Ok.

(** ** Each call, alone *)
Definition with_lock (l : bool) (p : pipe) : pipe := lset p_lockL l p.

(** What a run of pipewrite from [p] with [rest] to write comes to. *)
Inductive wrote (killed : bool) (n : Z) (rest : bytes) (p : pipe) : outcome bytes -> pipe -> Prop :=
| wrote_all p' : pipe_ok p' -> contents p' = contents p ++ rest -> woke_r p' = S (woke_r p) ->
    woke_w p' = woke_w p -> readopen p' = readopen p -> writeopen p' = writeopen p ->
    wrote killed n rest p (Returned n []) p'
| wrote_error w r p' : pipe_ok p' -> rest = w ++ r -> r <> [] -> contents p' = contents p ++ w ->
    Z.of_nat (count p') = PIPESIZE -> readopen p = 0 \/ killed = true -> woke_r p' = woke_r p ->
    woke_w p' = woke_w p -> readopen p' = readopen p -> writeopen p' = writeopen p ->
    wrote killed n rest p (Returned (-1) []) p'
| wrote_part w r p' : pipe_ok p' -> rest = w ++ r -> r <> [] -> contents p' = contents p ++ w ->
    Z.of_nat (count p') = PIPESIZE -> readopen p <> 0 -> killed = false -> woke_r p' = S (woke_r p) ->
    woke_w p' = woke_w p -> readopen p' = readopen p -> writeopen p' = writeopen p ->
    wrote killed n rest p (Asleep r) p'.

Lemma with_lock_ok p : pipe_ok (with_lock false p) -> forall c, Z.of_nat (count p) < PIPESIZE ->
  pipe_ok (with_lock false (pipe_put c p)) /\ contents (pipe_put c p) = contents p ++ [c].
Proof.
  intros O c H. pose proof (put_ok _ O c H) as O'. pose proof (put_contents _ O c H) as C'. split.
  - exact O'.
  - exact C'.
Qed.

Lemma pipewrite_loop_run killed n rest : forall p, p_lock p = true -> pipe_ok (with_lock false p) ->
  exists o p', pipewrite_loop killed n rest p = Ok (o, p') /\ wrote killed n rest (with_lock false p) o p'.
Proof.
  induction rest as [|c rest IH]; intros p Hl O.
  - destruct p as [l d nr nw ro wo wr ww]. simpl in Hl. subst l.
    eexists _, _. split; [reflexivity|]. apply wrote_all; try done; [by destruct O|by rewrite app_nil_r].
  - cbn [pipewrite_loop]. unfold mbind at 1, M_bind at 1. cbn [get].
    destruct (nwrite p =? u32 (nread p + PIPESIZE)) eqn:Hf.
    + pose proof (proj1 (full_count _ O) Hf) as Hfull.
      destruct p as [l d nr nw ro wo wr ww]. simpl in Hl. subst l. simpl in *.
      destruct (Z.eqb_spec ro 0) as [Hro|Hro]; simpl; [|destruct killed].
      * eexists _, _. split; [reflexivity|]. apply (wrote_error _ _ _ _ [] (c :: rest)); try done; [by rewrite app_nil_r|by left].
      * eexists _, _. split; [reflexivity|]. apply (wrote_error _ _ _ _ [] (c :: rest)); try done; [by rewrite app_nil_r|by right].
      * eexists _, _. split; [reflexivity|]. apply (wrote_part _ _ _ _ [] (c :: rest)); try done; [by destruct O|by rewrite app_nil_r].
    + assert (Hlt : Z.of_nat (count p) < PIPESIZE).
      { pose proof (po_count _ O) as Hc. destruct (decide (Z.of_nat (count p) = PIPESIZE)) as [E|E].
        - pose proof (proj2 (full_count _ O) E) as Ht. simpl in Ht. congruence.
        - change (count (with_lock false p)) with (count p) in Hc. lia. }
      destruct (with_lock_ok p O c Hlt) as [O' C']. rewrite bind_modify.
      destruct (IH (pipe_put c p)) as (o & p' & Hrun & Hw); [done|done|].
      exists o, p'. split; [done|]. change (contents (pipe_put c p)) with (contents (with_lock false (pipe_put c p))) in C'.
      change (contents p) with (contents (with_lock false p)) in C'.
      destruct Hw as [p' W1 W2 W3 W4 W5 W6|w r p' W1 W2 W3 W4 W5 W6 W7 W8 W9 W10|w r p' W1 W2 W3 W4 W5 W6 W7 W8 W9 W10 W11].
      * apply wrote_all; try done. by rewrite W2, C', <-(assoc_L app).
      * apply (wrote_error _ _ _ _ (c :: w) r); try done; [by rewrite W2|by rewrite W4, C', <-(assoc_L app)].
      * apply (wrote_part _ _ _ _ (c :: w) r); try done; [by rewrite W2|by rewrite W4, C', <-(assoc_L app)].
Qed.

Lemma pipewrite_run killed n rest p : pipe_ok p ->
  exists o p', pipewrite killed n rest p = Ok (o, p') /\ wrote killed n rest p o p'.
Proof.
  intros O. destruct (pipewrite_loop_run killed n rest (with_lock true p)) as (o & p' & Hrun & Hw).
  - done.
  - pose proof (po_lock p O). destruct p. simpl in *. by subst.
  - exists o, p'. pose proof (po_lock p O) as Hl. destruct p as [l d nr nw ro wo wr ww]. simpl in Hl. subst l.
    split; [exact Hrun|exact Hw].
Qed.

(** What a run of piperead comes to. *)
Inductive got (killed : bool) (n : Z) (p : pipe) : outcome unit -> pipe -> Prop :=
| got_bytes out p' : pipe_ok p' -> contents p = out ++ contents p' ->
    length out = Nat.min (Z.to_nat n) (count p) -> (count p <> 0%nat \/ writeopen p = 0) ->
    woke_r p' = woke_r p -> woke_w p' = S (woke_w p) -> readopen p' = readopen p -> writeopen p' = writeopen p ->
    got killed n p (Returned (Z.of_nat (length out)) out) p'
| got_killed : killed = true -> count p = 0%nat -> writeopen p <> 0 -> got killed n p (Returned (-1) []) p
| got_nothing : killed = false -> count p = 0%nat -> writeopen p <> 0 -> got killed n p (Asleep tt) p.

Lemma piperead_copy_run n : forall p out, p_lock p = true -> pipe_ok (with_lock false p) ->
  exists new p', piperead_copy n out p = Ok (out ++ new, p') /\ p_lock p' = true /\ pipe_ok (with_lock false p') /\
    contents p = new ++ contents p' /\ length new = Nat.min n (count p) /\
    woke_r p' = woke_r p /\ woke_w p' = woke_w p /\ readopen p' = readopen p /\ writeopen p' = writeopen p.
Proof.
  induction n as [|n IH]; intros p out Hl O.
  - exists [], p. rewrite app_nil_r. by split_and!.
  - cbn [piperead_copy]. unfold mbind at 1, M_bind at 1. cbn [get].
    destruct (nread p =? nwrite p) eqn:He.
    + pose proof (proj1 (empty_count _ O) He) as Hc. change (count (with_lock false p)) with (count p) in Hc.
      exists [], p. rewrite app_nil_r, Hc, Nat.min_0_r. by split_and!.
    + assert (Hpos : (0 < count p)%nat).
      { destruct (count p) eqn:E; [|lia]. pose proof (proj2 (empty_count _ O) E) as Ht. simpl in Ht. congruence. }
      rewrite bind_modify. destruct (IH (pipe_skip p) (out ++ [pipe_next p])) as (new & p' & Hrun & H1 & H2 & H3 & H4 & H5).
      * done.
      * exact (skip_ok _ O Hpos).
      * exists (pipe_next p :: new), p'. rewrite Hrun. rewrite <-(assoc_L app). split; [done|]. split; [done|]. split; [done|].
        pose proof (skip_contents _ O Hpos) as Hsk. change (contents (with_lock false p)) with (contents p) in Hsk.
        change (contents (pipe_skip (with_lock false p))) with (contents (pipe_skip p)) in Hsk.
        pose proof (skip_count _ O Hpos) as Hsc. change (count (pipe_skip (with_lock false p))) with (count (pipe_skip p)) in Hsc.
        change (count (with_lock false p)) with (count p) in Hsc.
        split; [rewrite Hsk, H3; done|]. split; [simpl; rewrite H4, Hsc; lia|]. done.
Qed.

Lemma piperead_run killed n p : pipe_ok p ->
  exists o p', piperead killed n p = Ok (o, p') /\ got killed n p o p'.
Proof.
  intros O. pose proof (po_lock p O) as Hl.
  assert (Hc : (nread p =? nwrite p) = true <-> count p = 0%nat) by by apply empty_count.
  destruct ((nread p =? nwrite p) && truthy (writeopen p)) eqn:E.
  - apply andb_true_iff in E as [E1 E2]. apply Hc in E1 as E1'. unfold truthy in E2.
    destruct (Z.eqb_spec (writeopen p) 0) as [|Hwo]; [done|].
    destruct killed; eexists _, p; (split; [|by constructor]).
    + destruct p as [l d nr nw ro wo wr ww]. simpl in *. subst l. unfold piperead, mbind, M_bind. simpl.
      rewrite E1. unfold truthy. destruct (Z.eqb_spec wo 0); [done|]. reflexivity.
    + destruct p as [l d nr nw ro wo wr ww]. simpl in *. subst l. unfold piperead, mbind, M_bind. simpl.
      rewrite E1. unfold truthy. destruct (Z.eqb_spec wo 0); [done|]. reflexivity.
  - destruct (piperead_copy_run (Z.to_nat n) (with_lock true p) []) as (new & p' & Hrun & H1 & H2 & H3 & H4 & H5 & H6 & H7 & H8).
    + done.
    + destruct p. simpl in *. by subst.
    + eexists _, _. split.
      * unfold piperead. rewrite (bind_ok p_acquire _ p tt (with_lock true p)).
        2:{ unfold p_acquire, zoom, lk_acquire. simpl. by rewrite Hl. }
        unfold mbind at 1, M_bind at 1. cbn [get].
        change (nread (with_lock true p)) with (nread p). change (nwrite (with_lock true p)) with (nwrite p).
        change (writeopen (with_lock true p)) with (writeopen p). rewrite E.
        rewrite (bind_ok _ _ _ _ _ Hrun). unfold mbind, M_bind. simpl. unfold p_release, zoom, lk_release. simpl.
        rewrite H1. reflexivity.
      * apply got_bytes; try done; [by destruct H2| |simpl; by rewrite H6].
        destruct (decide (count p = 0%nat)) as [Hz|Hz]; [right|by left].
        apply Hc in Hz. rewrite Hz in E. simpl in E. unfold truthy in E. by destruct (Z.eqb_spec (writeopen p) 0).
Qed.

(** ** Readers and writers

    Where a process is: outside, about to run pipewrite of [buf] with the bytes
    [rest] left, asleep in it, about to run piperead, or asleep in it. *)
Inductive ppc := Out | WReady (buf rest : bytes) | WSleep (buf rest : bytes) | RReady (n : Z) | RSleep (n : Z).

(** The pipe, the processes and which of them are killed.  [sent] has every byte
    that a writer handed over, with the writer; [told] what the calls of
    pipewrite that returned told each process they wrote; [received] the bytes
    the readers got. *)
Record psys := PSys {
  pp : pipe; who : nat -> ppc; dead : nat -> bool;
  sent : list (nat * Z); told : nat -> bytes; received : bytes }.

Definition at_proc {A} (f : nat -> A) (c : nat) (q : A) : nat -> A :=
  fun d => if decide (d = c) then q else f d.
(** The wakeups an operation made reach the processes asleep. *)
Definition woken_pc (p p' : pipe) (q : ppc) : ppc :=
  match q with
  | RSleep n => if decide (woke_r p' = woke_r p) then q else RReady n
  | WSleep b r => if decide (woke_w p' = woke_w p) then q else WReady b r
  | _ => q
  end.
(** kill makes a process that sleeps runnable. *)
Definition kill_pc (q : ppc) : ppc :=
  match q with RSleep n => RReady n | WSleep b r => WReady b r | _ => q end.
Definition after_w (buf : bytes) (o : outcome bytes) : ppc :=
  match o with Returned _ _ => Out | Asleep r => WSleep buf r end.
Definition after_r (n : Z) (o : outcome unit) : ppc :=
  match o with Returned _ _ => Out | Asleep _ => RSleep n end.
(** The bytes a reader gets: as many as the result says. *)
Definition bytes_out (o : outcome unit) : bytes :=
  match o with Returned r out => take (Z.to_nat r) out | Asleep _ => [] end.
(** The bytes of the argument that a run of pipewrite handed over: as many as the
    pipe holds more. *)
Definition moved (p p' : pipe) (rest : bytes) : bytes := take (count p' - count p) rest.
(** What the caller may believe of its buffer when the call returns: a count says
    that so many bytes were written; an error, that some may have been. *)
Definition tells (p p' : pipe) (buf rest : bytes) (o : outcome bytes) : bytes :=
  match o with
  | Returned r _ =>
      if r <? 0 then take (length buf - length rest) buf ++ moved p p' rest else take (Z.to_nat r) buf
  | Asleep _ => []
  end.

(** [K] says where processes may be killed.  A killed process makes no new call.
    A process reads only while it has the read end open, so the read end is
    closed only when no process is reading. *)
Inductive ps_step (K : ppc -> Prop) : psys -> psys -> Prop :=
| ps_write c buf p f k snt t rcv : f c = Out -> k c = false ->
    ps_step K (PSys p f k snt t rcv) (PSys p (at_proc f c (WReady buf buf)) k snt t rcv)
| ps_read c n p f k snt t rcv : f c = Out -> k c = false -> readopen p <> 0 ->
    ps_step K (PSys p f k snt t rcv) (PSys p (at_proc f c (RReady n)) k snt t rcv)
| ps_run_w c buf rest p p' o f k snt t rcv : f c = WReady buf rest ->
    pipewrite (k c) (Z.of_nat (length buf)) rest p = Ok (o, p') ->
    ps_step K (PSys p f k snt t rcv)
      (PSys p' (at_proc (fun d => woken_pc p p' (f d)) c (after_w buf o)) k (snt ++ (pair c <$> moved p p' rest))
         (at_proc t c (t c ++ tells p p' buf rest o)) rcv)
| ps_run_r c n p p' o f k snt t rcv : f c = RReady n -> piperead (k c) n p = Ok (o, p') ->
    ps_step K (PSys p f k snt t rcv)
      (PSys p' (at_proc (fun d => woken_pc p p' (f d)) c (after_r n o)) k snt t (rcv ++ bytes_out o))
| ps_kill c p f k snt t rcv : K (f c) ->
    ps_step K (PSys p f k snt t rcv) (PSys p (at_proc f c (kill_pc (f c))) (at_proc k c true) snt t rcv)
| ps_close writable p p' b f k snt t rcv : pipeclose writable p = Ok (b, p') ->
    (writable = false -> forall d n, f d <> RReady n /\ f d <> RSleep n) ->
    ps_step K (PSys p f k snt t rcv) (PSys p' (fun d => woken_pc p p' (f d)) k snt t rcv).

Definition ps_init (junk : bytes) : psys :=
  PSys (new_pipe junk) (fun _ => Out) (fun _ => false) [] (fun _ => []) [].

(** The bytes of one writer, in order; what its present call has handed over. *)
Definition of_proc (c : nat) (l : list (nat * Z)) : bytes := (filter (fun x => x.1 = c) l).*2.
Definition in_call (q : ppc) : bytes :=
  match q with WReady buf rest | WSleep buf rest => take (length buf - length rest) buf | _ => [] end.
Definition reading (q : ppc) : Prop := match q with RReady _ | RSleep _ => True | _ => False end.
Definition writing (q : ppc) : Prop := match q with WReady _ _ | WSleep _ _ => True | _ => False end.
(** What is left is the end of the buffer. *)
Definition call_ok (q : ppc) : Prop :=
  match q with WReady buf rest | WSleep buf rest => exists w, buf = w ++ rest | _ => True end.

Record ps_inv (s : psys) : Prop := {
  pi_ok : pipe_ok (pp s);
  pi_fifo : (sent s).*2 = received s ++ contents (pp s);
  pi_told c : of_proc c (sent s) = told s c ++ in_call (who s c);
  pi_call c : call_ok (who s c);
  pi_reader c : reading (who s c) -> readopen (pp s) <> 0
}.
(** Whoever is asleep has reason to, and no writer is killed. *)
Record ps_wait (s : psys) : Prop := {
  pw_reader c n : who s c = RSleep n -> count (pp s) = 0%nat /\ writeopen (pp s) <> 0;
  pw_writer c b r : who s c = WSleep b r -> Z.of_nat (count (pp s)) = PIPESIZE /\ readopen (pp s) <> 0;
  pw_alive c : writing (who s c) -> dead s c = false
}.

Lemma pipeclose_run writable p : pipe_ok p ->
  exists b p', pipeclose writable p = Ok (b, p') /\ pipe_ok p' /\ contents p' = contents p /\ count p' = count p /\
    (if writable then readopen p' = readopen p /\ writeopen p' = 0 /\ woke_r p' = S (woke_r p) /\ woke_w p' = woke_w p
     else readopen p' = 0 /\ writeopen p' = writeopen p /\ woke_r p' = woke_r p /\ woke_w p' = S (woke_w p)).
Proof.
  intros O. pose proof (po_lock p O) as Hl. destruct p as [l d nr nw ro wo wr ww]. simpl in Hl. subst l.
  destruct writable; (eexists _, _; split; [reflexivity|]; split; [by destruct O|by split_and!]).
Qed.


Lemma at_proc_eq {A} (f : nat -> A) c q : at_proc f c q c = q.
Proof. unfold at_proc. by case_decide. Qed.
Lemma at_proc_ne {A} (f : nat -> A) c q d : d <> c -> at_proc f c q d = f d.
Proof. unfold at_proc. by case_decide. Qed.
Lemma of_proc_app c l l' : of_proc c (l ++ l') = of_proc c l ++ of_proc c l'.
Proof. unfold of_proc. by rewrite filter_app, fmap_app. Qed.
Lemma of_proc_own c l : of_proc c (pair c <$> l) = l.
Proof.
  unfold of_proc. induction l as [|x l IH]; [done|]. rewrite fmap_cons, filter_cons_True by done. by rewrite fmap_cons, IH.
Qed.
Lemma of_proc_other c d l : d <> c -> of_proc d (pair c <$> l) = [].
Proof. intros H. unfold of_proc. induction l as [|x l IH]; [done|]. rewrite fmap_cons, filter_cons_False; [done|]. cbn. congruence. Qed.

(** What a wakeup, or kill, leaves of where a process is. *)
Lemma woken_keeps p p' q : in_call (woken_pc p p' q) = in_call q /\ (call_ok (woken_pc p p' q) <-> call_ok q) /\
  (reading (woken_pc p p' q) <-> reading q) /\ (writing (woken_pc p p' q) <-> writing q).
Proof. destruct q; simpl; try case_decide; done. Qed.
Lemma kill_keeps q : in_call (kill_pc q) = in_call q /\ (call_ok (kill_pc q) <-> call_ok q) /\ (reading (kill_pc q) <-> reading q).
Proof. by destruct q. Qed.
Lemma woken_reader p p' q n : woken_pc p p' q = RSleep n -> q = RSleep n /\ woke_r p' = woke_r p.
Proof. destruct q; simpl; try done; case_decide; try done. Qed.
Lemma woken_writer p p' q b r : woken_pc p p' q = WSleep b r -> q = WSleep b r /\ woke_w p' = woke_w p.
Proof. destruct q; simpl; try done; case_decide; try done. Qed.
Lemma kill_sleeps q : (forall n, kill_pc q <> RSleep n) /\ (forall b r, kill_pc q <> WSleep b r).
Proof. by destruct q. Qed.
Lemma at_proc_cases {A} (f : nat -> A) c q d x : at_proc f c q d = x -> (d = c /\ q = x) \/ (d <> c /\ f d = x).
Proof. unfold at_proc. case_decide; auto. Qed.

(** A run of pipewrite: the bytes it handed over are the first of [rest], they are
    at the end of the pipe, and the outcome accounts for them. *)
Lemma wrote_facts killed n rest p o p' : wrote killed n rest p o p' ->
  pipe_ok p' /\ (exists r, rest = moved p p' rest ++ r /\ (o = Returned n [] /\ r = [] \/ o = Returned (-1) [] \/ o = Asleep r)) /\
  contents p' = contents p ++ moved p p' rest /\ readopen p' = readopen p /\ writeopen p' = writeopen p /\
  woke_w p' = woke_w p /\ (count p <= count p')%nat.
Proof.
  intros H. assert (Hw : forall w r, rest = w ++ r -> contents p' = contents p ++ w -> moved p p' rest = w /\ (count p <= count p')%nat).
  { intros w r -> E. apply (f_equal length) in E. rewrite length_app, !contents_length in E. unfold moved. split; [|lia].
    rewrite E, take_app_length' by lia. done. }
  destruct H as [p' H1 H2|w r p' H1 H2 H3 H4|w r p' H1 H2 H3 H4].
  - destruct (Hw rest [] (eq_sym (app_nil_r rest)) H2) as [-> ?]. split_and!; try done. exists []. rewrite app_nil_r. auto.
  - destruct (Hw w r H2 H4) as [-> ?]. split_and!; try done. exists r. auto.
  - destruct (Hw w r H2 H4) as [-> ?]. split_and!; try done. exists r. auto.
Qed.

Lemma prefix_len {A} (w r : list A) : take (length (w ++ r) - length r) (w ++ r) = w.
Proof. rewrite length_app, take_app_length' by lia. done. Qed.

(** The account of the caller after a run of its pipewrite. *)
Lemma told_after killed n buf rest p o p' : n = Z.of_nat (length buf) -> call_ok (WReady buf rest) -> wrote killed n rest p o p' ->
  in_call (WReady buf rest) ++ moved p p' rest = tells p p' buf rest o ++ in_call (after_w buf o) /\ call_ok (after_w buf o).
Proof.
  intros -> [w Hb] H. destruct (wrote_facts _ _ _ _ _ _ H) as (_ & (r & Hr & Ho) & _). cbn [in_call].
  set (m := moved p p' rest) in *. assert (Hin : take (length buf - length rest) buf = w) by (rewrite Hb; apply prefix_len).
  rewrite Hin. destruct Ho as [[-> ->]|[->| ->]]; cbn [tells after_w in_call call_ok].
  - rewrite app_nil_r in Hr. rewrite app_nil_r. destruct (Z.ltb_spec (Z.of_nat (length buf)) 0); [lia|].
    rewrite Nat2Z.id, take_ge by lia. by rewrite Hb, <-Hr.
  - cbn. by rewrite Hin, app_nil_r.
  - cbn. rewrite Hb, Hr, (assoc_L app). split; [by rewrite prefix_len|by eexists].
Qed.

Lemma ps_inv_step K s s' : ps_inv s -> ps_step K s s' -> ps_inv s'.
Proof.
  intros [I1 I2 I3 I4 I5] Hs. destruct Hs as [c buf p f k snt t rcv Hc Hk|c n p f k snt t rcv Hc Hk Ho|c buf rest p p' o f k snt t rcv Hc Hr
    |c n p p' o f k snt t rcv Hc Hr|c p f k snt t rcv HK|writable p p' b f k snt t rcv Hr Hcl]; simpl in *.
  - split; simpl; try done; intros d; destruct (decide (d = c)) as [->|Hne]; rewrite ?at_proc_eq, ?at_proc_ne by done; try done.
    + rewrite I3, Hc. cbn. by rewrite Nat.sub_diag.
    + by exists [].
    + apply I5.
  - split; simpl; try done; intros d; destruct (decide (d = c)) as [->|Hne]; rewrite ?at_proc_eq, ?at_proc_ne by done; try done.
    by rewrite I3, Hc.
  - destruct (pipewrite_run (k c) (Z.of_nat (length buf)) rest p I1) as (o' & p'' & Hrun & Hw). rewrite Hr in Hrun. injection Hrun as <- <-.
    destruct (wrote_facts _ _ _ _ _ _ Hw) as (O' & _ & Ew & E1 & E2 & E3 & E4).
    pose proof (I4 c) as Hcall. rewrite Hc in Hcall. destruct (told_after _ _ _ _ _ _ _ eq_refl Hcall Hw) as [T1 T2].
    split; simpl; [done|..]; try intros d.
    + rewrite fmap_app, I2, Ew, <-list_fmap_compose, (assoc_L app). f_equal. by rewrite (list_fmap_id _).
    + rewrite of_proc_app. destruct (decide (d = c)) as [->|Hne]; rewrite ?at_proc_eq, ?at_proc_ne by done.
      * rewrite of_proc_own, I3, Hc, <-!(assoc_L app), T1. done.
      * rewrite of_proc_other, app_nil_r, I3 by done. by rewrite (proj1 (woken_keeps p p' (f d))).
    + destruct (decide (d = c)) as [->|Hne]; rewrite ?at_proc_eq, ?at_proc_ne by done; [done|]. by apply woken_keeps.
    + rewrite E1. destruct (decide (d = c)) as [->|Hne]; rewrite ?at_proc_eq, ?at_proc_ne by done; [by destruct o|].
      intros Hd. apply (I5 d). by apply woken_keeps in Hd.
  - destruct (piperead_run (k c) n p I1) as (o' & p'' & Hrun & Hg). rewrite Hr in Hrun. injection Hrun as <- <-.
    assert (Hro : readopen p <> 0) by (apply (I5 c); by rewrite Hc).
    assert (pipe_ok p' /\ contents p = bytes_out o ++ contents p' /\ readopen p' = readopen p) as (O' & Ec & E1).
    { destruct Hg; split_and!; try done. cbn. rewrite Nat2Z.id, take_ge by lia. done. }
    split; simpl; [done|by rewrite I2, Ec, (assoc_L app)|..]; intros d; [| |by rewrite E1].
    + destruct (decide (d = c)) as [->|Hne]; rewrite ?at_proc_eq, ?at_proc_ne by done; rewrite I3; [rewrite Hc; by destruct o|].
      by rewrite (proj1 (woken_keeps p p' (f d))).
    + destruct (decide (d = c)) as [->|Hne]; rewrite ?at_proc_eq, ?at_proc_ne by done; [by destruct o|]. by apply woken_keeps.
  - split; simpl; try done; intros d; destruct (decide (d = c)) as [->|Hne]; rewrite ?at_proc_eq, ?at_proc_ne by done; try done.
    + by rewrite I3, (proj1 (kill_keeps (f c))).
    + by apply kill_keeps.
    + intros Hd. apply (I5 c). by apply (kill_keeps (f c)).
    + apply I5.
  - destruct (pipeclose_run writable p I1) as (b' & p'' & Hrun & O' & Ec & _ & Hw). rewrite Hr in Hrun. injection Hrun as <- <-.
    split; simpl; [done|by rewrite Ec|..]; intros d.
    + by rewrite I3, (proj1 (woken_keeps p p' (f d))).
    + by apply woken_keeps.
    + intros Hd. apply woken_keeps in Hd. destruct writable; [destruct Hw as [-> _]; by apply (I5 d)|].
      exfalso. destruct (f d) eqn:Hf; try done; by destruct (Hcl eq_refl d n).
Qed.

(** A process may be killed anywhere but in pipewrite. *)
Definition not_writing (q : ppc) : Prop := ~ writing q.

Lemma ps_wait_step s s' : ps_inv s -> ps_wait s -> ps_step not_writing s s' -> ps_wait s'.
Proof.
  intros [I1 I2 I3 I4 I5] [W1 W2 W3] Hs. destruct Hs as [c buf p f k snt t rcv Hc Hk|c n p f k snt t rcv Hc Hk Ho|c buf rest p p' o f k snt t rcv Hc Hr
    |c n p p' o f k snt t rcv Hc Hr|c p f k snt t rcv HK|writable p p' b f k snt t rcv Hr Hcl]; simpl in *.
  - split; simpl; intros d; [intros m|intros m r|]; try (intros Hd; apply at_proc_cases in Hd as [[_ ?]|[_ Hd]]; by eauto).
    destruct (decide (d = c)) as [->|Hne]; [done|]. rewrite at_proc_ne by done. apply W3.
  - split; simpl; intros d; [intros m|intros m r|]; try (intros Hd; apply at_proc_cases in Hd as [[_ ?]|[_ Hd]]; by eauto).
    destruct (decide (d = c)) as [->|Hne]; [done|]. rewrite at_proc_ne by done. apply W3.
  - destruct (pipewrite_run (k c) (Z.of_nat (length buf)) rest p I1) as (o' & p'' & Hrun & Hw). rewrite Hr in Hrun. injection Hrun as <- <-.
    destruct (wrote_facts _ _ _ _ _ _ Hw) as (O' & _ & _ & E1 & E2 & E3 & E4). pose proof (po_count p' O') as Hmax.
    assert (Hk : k c = false) by (apply W3; by rewrite Hc). split; simpl.
    + intros d m Hd. apply at_proc_cases in Hd as [[_ Hd]|[_ Hd]]; [by destruct o|].
      apply woken_reader in Hd as [Hd Hwk]. exfalso. assert (Hro : readopen p <> 0) by (apply (I5 d); by rewrite Hd).
      destruct Hw; try lia. intuition congruence.
    + intros d m r Hd. apply at_proc_cases in Hd as [[_ Hd]|[_ Hd]]; [rewrite E1; by destruct Hw|].
      apply woken_writer in Hd as [Hd _]. destruct (W2 d m r Hd) as [Hf Hro]. rewrite E1. split; [lia|done].
    + intros d Hd. destruct (decide (d = c)) as [->|Hne]; [done|]. rewrite at_proc_ne in Hd by done. apply W3. by apply woken_keeps in Hd.
  - destruct (piperead_run (k c) n p I1) as (o' & p'' & Hrun & Hg). rewrite Hr in Hrun. injection Hrun as <- <-. split; simpl.
    + intros d m Hd. apply at_proc_cases in Hd as [[_ Hd]|[_ Hd]]; [by destruct Hg|].
      apply woken_reader in Hd as [Hd Hwk]. destruct (W1 d m Hd) as [Hz Hwo].
      destruct Hg as [out p' G1 G2 G3 G4 G5 G6 G7 G8|? ? ?|? ? ?]; [destruct G4; done|done|done].
    + intros d m r Hd. apply at_proc_cases in Hd as [[_ Hd]|[_ Hd]]; [by destruct o|].
      apply woken_writer in Hd as [Hd Hwk]. destruct (W2 d m r Hd) as [Hf Hro].
      destruct Hg as [out p' G1 G2 G3 G4 G5 G6 G7 G8|? ? ?|? ? ?]; [lia|done|done].
    + intros d Hd. destruct (decide (d = c)) as [->|Hne]; [rewrite at_proc_eq in Hd; by destruct o|].
      rewrite at_proc_ne in Hd by done. apply W3. by apply woken_keeps in Hd.
  - destruct (kill_sleeps (f c)) as [K1 K2]. split; simpl; intros d; [intros m Hd|intros m r Hd|intros Hd].
    + apply at_proc_cases in Hd as [[_ Hd]|[_ Hd]]; [by destruct (K1 m)|eauto].
    + apply at_proc_cases in Hd as [[_ Hd]|[_ Hd]]; [by destruct (K2 m r)|eauto].
    + destruct (decide (d = c)) as [->|Hne]; rewrite ?at_proc_eq, ?at_proc_ne in * by done; [|auto].
      destruct HK. by destruct (f c).
  - destruct (pipeclose_run writable p I1) as (b' & p'' & Hrun & O' & Ec & Hcnt & Hw). rewrite Hr in Hrun. injection Hrun as <- <-.
    split; simpl.
    + intros d m Hd. apply woken_reader in Hd as [Hd Hwk]. destruct (W1 d m Hd) as [Hz Hwo]. destruct writable; [lia|].
      destruct Hw as (_ & -> & _). by rewrite Hcnt.
    + intros d m r Hd. apply woken_writer in Hd as [Hd Hwk]. destruct (W2 d m r Hd) as [Hf Hro]. destruct writable; [|lia].
      destruct Hw as (-> & _). by rewrite Hcnt.
    + intros d Hd. apply W3. by apply woken_keeps in Hd.
Qed.

Lemma ps_inv_init junk : length junk = Z.to_nat PIPESIZE -> ps_inv (ps_init junk) /\ ps_wait (ps_init junk).
Proof. intros Hj. split; split; simpl; try done. Qed.

(** C4: a pipe is a queue.  In every state that any number of readers, writers,
    kills and closes can reach, the bytes the writers handed over are the bytes
    the readers got followed by the bytes in the buffer, in order; the bytes of
    each writer among them are, in order, what its finished calls of pipewrite
    told it were written (the whole buffer when the result is its length, some of
    its first bytes when it is -1) and then the first bytes of the buffer it is
    writing; and the pipe never holds more than PIPESIZE bytes, although its two
    counters wrap around. *)
Theorem pipe_is_fifo junk s : length junk = Z.to_nat PIPESIZE ->
  rtc (ps_step (fun _ => True)) (ps_init junk) s ->
  (sent s).*2 = received s ++ contents (pp s) /\
  (forall c, of_proc c (sent s) = told s c ++ in_call (who s c)) /\
  (length (contents (pp s)) <= Z.to_nat PIPESIZE)%nat.
Proof.
  intros Hj Hr. assert (I : ps_inv s).
  { destruct (ps_inv_init junk Hj) as [I0 _]. revert I0. induction Hr; [done|]. eauto using ps_inv_step. }
  split; [apply I|]. split; [apply I|]. rewrite contents_length. pose proof (po_count _ (pi_ok _ I)). lia.
Qed.

(** C35: no wakeup is lost.  As long as no process is killed while it is in
    pipewrite, in every reachable state a process asleep in piperead waits on an
    empty pipe whose write end is open, and a process asleep in pipewrite waits on
    a full pipe whose read end is open.  Processes may be killed in piperead and
    outside. *)
Theorem pipe_no_lost_wakeup junk s : length junk = Z.to_nat PIPESIZE ->
  rtc (ps_step not_writing) (ps_init junk) s ->
  (forall c n, who s c = RSleep n -> contents (pp s) = [] /\ writeopen (pp s) <> 0) /\
  (forall c b r, who s c = WSleep b r -> length (contents (pp s)) = Z.to_nat PIPESIZE /\ readopen (pp s) <> 0).
Proof.
  intros Hj Hr. assert (I : ps_inv s /\ ps_wait s).
  { pose proof (ps_inv_init junk Hj) as I0. revert I0. induction Hr; [done|]. intros [I W].
    apply IHHr. split; [by eapply ps_inv_step|by eapply ps_wait_step]. }
  destruct I as [_ [W1 W2 _]]. split.
  - intros c n Hc. destruct (W1 c n Hc) as [Hz Hwo]. split; [|done]. apply nil_length_inv. by rewrite contents_length.
  - intros c n r Hc. destruct (W2 c n r Hc) as [Hf Hro]. split; [|done]. rewrite contents_length. lia.
Qed.

(** A writer puts two bytes in, a reader takes one out. *)
Lemma pipe_is_fifo_witness : exists s, received s = [5] /\ told s 0%nat = [5; 6] /\
  (sent s).*2 = received s ++ contents (pp s) /\ of_proc 0 (sent s) = told s 0%nat ++ in_call (who s 0%nat).
Proof.
  destruct (pipewrite_run false 2 [5; 6] (new_pipe (replicate 512 0))) as (o & p1 & H1 & _); [by split|].
  pose proof H1 as E1. vm_compute in E1. injection E1 as Eo Ep.
  destruct (piperead_run false 1 p1) as (o2 & p2 & H2 & _); [rewrite <-Ep; by split|].
  pose proof H2 as E2. rewrite <-Ep in E2. vm_compute in E2. injection E2 as Eo2 Ep2.
  assert (Ho : readopen p1 <> 0) by by rewrite <-Ep.
  assert (B : bytes_out o2 = [5]) by by rewrite <-Eo2.
  assert (T : tells (new_pipe (replicate 512 0)) p1 [5; 6] [5; 6] o = [5; 6]) by by rewrite <-Eo.
  clear Eo Ep Eo2 Ep2.
  refine ((fun s (H : rtc (ps_step (fun _ => True)) (ps_init (replicate 512 0)) s) (H5 : received s = [5]) (H6 : told s 0%nat = [5; 6]) =>
    ex_intro _ s (conj H5 (conj H6 (conj (proj1 (pipe_is_fifo (replicate 512 0) s eq_refl H)) (proj1 (proj2 (pipe_is_fifo (replicate 512 0) s eq_refl H)) 0%nat)))))
    (PSys p2 _ _ _ _ _) _ _ _).
  - eapply rtc_l; [apply (ps_write _ 0 [5; 6]); reflexivity|].
    eapply rtc_l; [apply (ps_run_w _ 0 [5; 6] [5; 6] _ p1 o); [reflexivity|exact H1]|].
    eapply rtc_l; [apply (ps_read _ 1 1); [reflexivity|reflexivity|exact Ho]|].
    eapply rtc_l; [apply (ps_run_r _ 1 1 _ p2 o2); [reflexivity|exact H2]|].
    apply rtc_refl.
  - exact B.
  - exact T.
Defined.

(** A reader falls asleep on an empty pipe. *)
Lemma pipe_no_lost_wakeup_witness : exists s, who s 1%nat = RSleep 4 /\ contents (pp s) = [] /\ writeopen (pp s) <> 0.
Proof.
  refine ((fun s (H : rtc (ps_step not_writing) (ps_init (replicate 512 0)) s) (Hs : who s 1%nat = RSleep 4) =>
    ex_intro _ s (conj Hs (proj1 (pipe_no_lost_wakeup (replicate 512 0) s eq_refl H) 1%nat 4 Hs)))
    (PSys (new_pipe (replicate 512 0)) _ _ _ _ _) _ _).
  - eapply rtc_l; [apply (ps_read _ 1 4); [reflexivity|reflexivity|done]|].
    eapply rtc_l; [apply (ps_run_r _ 1 4 _ (new_pipe (replicate 512 0)) (Asleep tt)); reflexivity|].
    apply rtc_refl.
  - reflexivity.
Defined.

(** The condition is needed: a writer that is killed before it finds the pipe full
    returns without waking the readers, and a process asleep in piperead stays
    asleep on a full pipe. *)
Lemma killed_writer_leaves_reader_asleep : exists s c n,
  rtc (ps_step (fun _ => True)) (ps_init (replicate 512 0)) s /\
  who s c = RSleep n /\ length (contents (pp s)) = 512%nat.
Proof.
  destruct (pipewrite_run true 513 (replicate 513 7) (new_pipe (replicate 512 0))) as (o & p1 & H1 & _); [by split|].
  pose proof H1 as E1. vm_compute in E1. injection E1 as Eo Ep.
  eexists (PSys p1 _ _ _ _ _), 1%nat, 4. split; [|split].
  - eapply rtc_l; [apply (ps_read _ 1 4); [reflexivity|reflexivity|done]|].
    eapply rtc_l; [apply (ps_run_r _ 1 4 _ (new_pipe (replicate 512 0)) (Asleep tt)); reflexivity|].
    eapply rtc_l; [apply (ps_write _ 0 (replicate 513 7)); reflexivity|].
    eapply rtc_l; [apply (ps_kill _ 0); exact I|].
    eapply rtc_l; [apply (ps_run_w _ 0 (replicate 513 7) (replicate 513 7) _ p1 o); [reflexivity|exact H1]|].
    apply rtc_refl.
  - rewrite <-Ep. reflexivity.
  - rewrite <-Ep. reflexivity.
Qed.
