(* ===== verification/Kernel.v ===== *)
(** * The kernel's state and the process that makes a system call

    The components put together: memory, the process table, the file system over
    the log and the cache, the open file table, pipes, memory mapped areas and
    the clock.  A system call runs on CPU [k_me] for the process that CPU runs;
    it reaches the process's memory through its page table. *)
From S2P Require Import Prelude CString Layout Spinlock Kalloc Vm Fp Sched Bytes Console Sleeplock Bio Log TxDisk Fs Pipe.

Open Scope Z_scope.

(** Addresses that the linker chooses: of the slots of the process table, of
    variables that processes sleep on, and of code. *)
Class KSyms := {
  addr_proc : nat -> Z;
  addr_ticks : Z;
  addr_input_r : Z;
  addr_forkret : Z;
  addr_trapret : Z
}.

(** ** struct file *)
Inductive ftype := FD_NONE | FD_PIPE | FD_INODE.
#[export] Instance ftype_eq_dec : EqDecision ftype.
Proof. solve_decision. Defined.

(** [f_pipe] is the address of the pipe's page and [f_ip] the inode's slot. *)
Record file := File {
  f_type : ftype; f_ref : Z; readable : Z; writable : Z; f_pipe : Z; f_ip : nat; f_off : Z }.
Definition no_file : file := File FD_NONE 0 0 0 0 0 0.
Definition NFILE : nat := 100.

Definition set_ftype v f := File v (f_ref f) (readable f) (writable f) (f_pipe f) (f_ip f) (f_off f).
Definition set_fref v f := File (f_type f) v (readable f) (writable f) (f_pipe f) (f_ip f) (f_off f).
Definition set_foff v f := File (f_type f) (f_ref f) (readable f) (writable f) (f_pipe f) (f_ip f) v.

(** ** struct mmap_area, with its entry of mmap_status_flag *)
Record mmap_area := MArea {
  ma_f : option nat; ma_addr : Z; ma_length : Z; ma_offset : Z; ma_prot : Z; ma_flags : Z;
  ma_p : option nat; ma_status : Z }.
Definition no_area : mmap_area := MArea None 0 0 0 0 0 None 0.

(** ** What lies under the file system

    The log and the cache, and the console, which is a device file; [ds_killed]
    is the running process's [killed], which the console's read looks at. *)
Record dstate (C : Type) := DState { ds_log : lstate C; ds_cons : console; ds_killed : bool }.
Arguments DState {C} _ _ _.
Arguments ds_log {C} _.
Arguments ds_cons {C} _.
Arguments ds_killed {C} _.

Definition ds_logL {C} : lens (dstate C) (lstate C) :=
  Lens ds_log (fun l d => DState l (ds_cons d) (ds_killed d)).
Definition ds_consL {C} : lens (dstate C) console :=
  Lens ds_cons (fun c d => DState (ds_log d) c (ds_killed d)).

(** Operations on a part keep what they promise in the whole. *)
Lemma zoom_ok {S T A} (l : lens S T) (m : M T A) s a t :
  m (lget l s) = Ok (a, t) -> zoom l m s = Ok (a, lset l t s).
Proof. intros H. unfold zoom. by rewrite H. Qed.

Section TxDisk.
Context {C : Type} `{TD : !TxDisk (lstate C)}.

#[export] Program Instance ds_txdisk : TxDisk (dstate C) := {
  trep := fun d t => trep (ds_log d) t;
  tx_bread := fun d n => zoom ds_logL (tx_bread d n);
  tx_data := fun i => zoom ds_logL (tx_data i);
  tx_put := fun i x => zoom ds_logL (tx_put i x);
  tx_log_write := fun i => zoom ds_logL (tx_log_write i);
  tx_brelse := fun i => zoom ds_logL (tx_brelse i)
}.
Next Obligation. intros s t n R. by apply (trep_length _ _ _ R). Qed.
Next Obligation.
  intros s t n R Hu Hh Hs. destruct (tx_bread_law _ t n R Hu Hh Hs) as (i & s' & E & R').
  exists i, (lset ds_logL s' s). split; [by apply zoom_ok|done].
Qed.
Next Obligation.
  intros s t n i R Hh. etrans; [exact (zoom_ok ds_logL _ _ _ _ (tx_data_law _ t n i R Hh))|by destruct s].
Qed.
Next Obligation.
  intros s t n i x R Hh Hx. destruct (tx_put_law _ t n i x R Hh Hx) as (s' & E & R').
  exists (lset ds_logL s' s). split; [by apply zoom_ok|done].
Qed.
Next Obligation.
  intros s t n i R Hh Hs. destruct (tx_log_write_law _ t n i R Hh Hs) as (s' & E & R').
  exists (lset ds_logL s' s). split; [by apply zoom_ok|done].
Qed.
Next Obligation.
  intros s t n i R Hh Hd. destruct (tx_brelse_law _ t n i R Hh Hd) as (s' & E & R').
  exists (lset ds_logL s' s). split; [by apply zoom_ok|done].
Qed.

(** The console in devsw: its read and write drop the inode's lock while they
    use the console.  A read that finds nothing sleeps: alone, it never
    returns. *)
Definition CONSOLE : Z := 1.
Definition on_cons {A} (m : M console A) : M (fstate (dstate C)) A := zoom diskL (zoom ds_consL m).
Definition dev_consoleread (ip : nat) (n : Z) : M (fstate (dstate C)) (Z * bytes) :=
  iunlock (Some ip) ;;
  killed ← gets (fun s => ds_killed (disk s));
  r ← on_cons (consoleread killed (Z.of_nat (Z.to_nat n)) (Z.to_nat n) []);
  match r with
  | CRead r out => ilock (Some ip) ;; mret (r, out)
  | CSleep _ _ => hang
  end.
Definition dev_consolewrite (ip : nat) (buf : bytes) : M (fstate (dstate C)) Z :=
  iunlock (Some ip) ;;
  n ← on_cons (consolewrite buf);
  ilock (Some ip) ;;
  mret n.
(** The table as [consoleinit] leaves it. *)
#[export] Instance console_devsw : DevSw (dstate C) := {
  dev_read := fun mj => if mj =? CONSOLE then Some dev_consoleread else None;
  dev_write := fun mj => if mj =? CONSOLE then Some dev_consolewrite else None
}.
End TxDisk.

(** ** The whole state *)
Record kernel (C : Type) := Kernel {
  k_me : nat;  (* the CPU *)
  k_mem : kmem;
  k_pt : ptable;
  k_fs : fstate (dstate C);
  k_ftlock : bool;
  k_files : list file;
  k_pipes : gmap Z pipe;  (* by the address of their page *)
  k_areas : list mmap_area;
  k_tickslock : bool;
  k_ticks : Z;
  k_first : Z  (* forkret's static variable *)
}.
Arguments Kernel {C} _ _ _ _ _ _ _ _ _ _ _.
Arguments k_me {C} _.
Arguments k_mem {C} _.
Arguments k_pt {C} _.
Arguments k_fs {C} _.
Arguments k_ftlock {C} _.
Arguments k_files {C} _.
Arguments k_pipes {C} _.
Arguments k_areas {C} _.
Arguments k_tickslock {C} _.
Arguments k_ticks {C} _.
Arguments k_first {C} _.

Section State.
Context {C : Type}.
Implicit Types k : kernel C.

Definition memL : lens (kernel C) kmem := Lens k_mem (fun v k =>
  Kernel (k_me k) v (k_pt k) (k_fs k) (k_ftlock k) (k_files k) (k_pipes k) (k_areas k) (k_tickslock k) (k_ticks k) (k_first k)).
Definition ptL : lens (kernel C) ptable := Lens k_pt (fun v k =>
  Kernel (k_me k) (k_mem k) v (k_fs k) (k_ftlock k) (k_files k) (k_pipes k) (k_areas k) (k_tickslock k) (k_ticks k) (k_first k)).
Definition fsL : lens (kernel C) (fstate (dstate C)) := Lens k_fs (fun v k =>
  Kernel (k_me k) (k_mem k) (k_pt k) v (k_ftlock k) (k_files k) (k_pipes k) (k_areas k) (k_tickslock k) (k_ticks k) (k_first k)).
Definition ftlockL : lens (kernel C) bool := Lens k_ftlock (fun v k =>
  Kernel (k_me k) (k_mem k) (k_pt k) (k_fs k) v (k_files k) (k_pipes k) (k_areas k) (k_tickslock k) (k_ticks k) (k_first k)).
Definition filesL : lens (kernel C) (list file) := Lens k_files (fun v k =>
  Kernel (k_me k) (k_mem k) (k_pt k) (k_fs k) (k_ftlock k) v (k_pipes k) (k_areas k) (k_tickslock k) (k_ticks k) (k_first k)).
Definition pipesL : lens (kernel C) (gmap Z pipe) := Lens k_pipes (fun v k =>
  Kernel (k_me k) (k_mem k) (k_pt k) (k_fs k) (k_ftlock k) (k_files k) v (k_areas k) (k_tickslock k) (k_ticks k) (k_first k)).
Definition areasL : lens (kernel C) (list mmap_area) := Lens k_areas (fun v k =>
  Kernel (k_me k) (k_mem k) (k_pt k) (k_fs k) (k_ftlock k) (k_files k) (k_pipes k) v (k_tickslock k) (k_ticks k) (k_first k)).
Definition tickslockL : lens (kernel C) bool := Lens k_tickslock (fun v k =>
  Kernel (k_me k) (k_mem k) (k_pt k) (k_fs k) (k_ftlock k) (k_files k) (k_pipes k) (k_areas k) v (k_ticks k) (k_first k)).
Definition set_ticks v k :=
  Kernel (k_me k) (k_mem k) (k_pt k) (k_fs k) (k_ftlock k) (k_files k) (k_pipes k) (k_areas k) (k_tickslock k) v (k_first k).
Definition set_first v k :=
  Kernel (k_me k) (k_mem k) (k_pt k) (k_fs k) (k_ftlock k) (k_files k) (k_pipes k) (k_areas k) (k_tickslock k) (k_ticks k) v.

(** Each component's operations. *)
Definition on_mem {A} (m : M kmem A) : M (kernel C) A := zoom memL m.
Definition on_pt {A} (m : nat -> M ptable A) : M (kernel C) A := me ← gets k_me; zoom ptL (m me).
Definition on_console {A} (m : M console A) : M (kernel C) A := zoom fsL (zoom diskL (zoom ds_consL m)).
Definition on_log {A} (m : M (lstate C) A) : M (kernel C) A := zoom fsL (zoom diskL (zoom ds_logL m)).
Definition kprintf (fmt : string) (args : list carg) : M (kernel C) unit := on_console (cprintf fmt args).

(** The running process, where there must be one. *)
Definition me_proc : M (kernel C) nat := on_pt curproc.
Definition cur : M (kernel C) proc := i ← me_proc; on_pt (fun _ => get_proc i).
Definition nth_proc (i : nat) : M (kernel C) proc := on_pt (fun _ => get_proc i).
Definition set_proc (i : nat) (f : proc -> proc) : M (kernel C) unit := on_pt (fun _ => upd_proc i f).

(** Pointers held in a process: 0 is null and slot [i] is [i + 1]. *)
Definition ptr (i : nat) : Z := Z.of_nat i + 1.
Definition of_ptr (z : Z) : option nat := if z =? 0 then None else Some (Z.to_nat (z - 1)).
(** A null current directory is no inode. *)
Definition cwd_slot (z : Z) : nat := default NINODE (of_ptr z).

(** The file system runs for the current process: its pid, its current
    directory and whether it was killed. *)
Definition sync (k : kernel C) : fstate (dstate C) :=
  let p := match pcpus (k_pt k) !! k_me k with
           | Some c => match c_proc c with Some i => default no_proc (procs (k_pt k) !! i) | None => no_proc end
           | None => no_proc
           end in
  let s := k_fs k in
  let d := disk s in
  FState (DState (ds_log d) (ds_cons d) (truthy (killed p))) (sb s) (ic_lock s) (icache s) (pid p) (cwd_slot (Sched.cwd p)).
Definition on_fs {A} (m : M (fstate (dstate C)) A) : M (kernel C) A :=
  modify (fun k => lset fsL (sync k) k) ;; zoom fsL m.
End State.

(** ** Trap frames, on the kernel stack *)
Definition tf_eax : Z := 28.
Definition tf_trapno : Z := 48.
Definition tf_err : Z := 52.
Definition tf_eip : Z := 56.
Definition tf_cs : Z := 60.
Definition tf_eflags : Z := 64.
Definition tf_esp : Z := 68.
Definition tf_ss : Z := 72.
Definition tf_size : Z := 76.

(** ** The memory of the running process

    The kernel reaches it at its user address, through the page table in cr3.
    An access to a page that is not present (or, for a store, not writable)
    faults. *)
Section User.
Context {C : Type}.

Definition user_pgdir : M (kernel C) Z := c ← on_pt get_pcpu; mret (P2V (c_cr3 c)).
Definition user_addr (w : bool) (m : mem) (pgdir va : Z) : option Z :=
  let e := pte_at m pgdir va in
  if pte_present e && (negb w || truthy (Z.land e PTE_W)) then Some (P2V (PTE_ADDR e + u32 va mod 4096)) else None.

Definition load_byte (va : Z) : M (kernel C) Z :=
  d ← user_pgdir; m ← gets (fun k => ram (k_mem k));
  match user_addr false m d va with Some a => mret (rdb m a) | None => undef "page fault" end.
Definition store_byte (va b : Z) : M (kernel C) unit :=
  d ← user_pgdir; m ← gets (fun k => ram (k_mem k));
  match user_addr true m d va with
  | Some a => on_mem (modify (lset ramL (wrb m a b)))
  | None => undef "page fault"
  end.

Fixpoint load_bytes (va : Z) (n : nat) : M (kernel C) bytes :=
  match n with
  | O => mret []
  | S n => b ← load_byte va; l ← load_bytes (u32 (va + 1)) n; mret (b :: l)
  end.
Fixpoint store_all (va : Z) (l : bytes) : M (kernel C) unit :=
  match l with
  | [] => mret tt
  | b :: l => store_byte va b ;; store_all (u32 (va + 1)) l
  end.
Definition load_word (va : Z) : M (kernel C) Z := l ← load_bytes va 4; mret (get32 l 0).
Definition word_bytes (w : Z) : bytes := put32 [0; 0; 0; 0] 0 w.
Definition store_word (va w : Z) : M (kernel C) unit := store_all va (word_bytes w).

(** The string at [va], up to its null byte; [fuel] bounds its length. *)
Fixpoint load_string (fuel : nat) (va : Z) : M (kernel C) bytes :=
  match fuel with
  | O => hang
  | S fuel =>
      b ← load_byte va;
      if b =? 0 then mret [] else l ← load_string fuel (u32 (va + 1)); mret (b :: l)
  end.
End User.
