(* ===== verification/Machine.v ===== *)
(** * A small machine

    A concrete kernel state on which theorems about the whole kernel are
    instantiated: one CPU that runs process 1, whose memory is one page, over a
    memory disk of 100 blocks whose file system has an empty root directory. *)
From S2P Require Import Prelude CString Layout Spinlock Kalloc Vm Fp Sched Bytes Console Sleeplock Bio BioProps Log LogProps TxDisk Fs FsProps Pipe Kernel.

Open Scope Z_scope.

Definition ex_syms : KSyms := {|
  addr_proc := fun i => 0x80110000 + 200 * Z.of_nat i;
  addr_ticks := 0x80120000;
  addr_input_r := 0x80120010;
  addr_forkret := 0x80104000;
  addr_trapret := 0x80105000
|}.

(** A page directory at 0x80400000, its table at 0x80401000 and the process's
    page at 0x80402000: the string "hi" at 0 and the stack at its end, whose
    arguments are 0, 7 and 16.  The trap frame is on the kernel stack at 0x80403000. *)
Definition ex_tf : Z := 0x80403000 + 4096 - 76.
Definition ex_ram : mem :=
  let m := wrw ∅ 0x80400000 (0x401000 + 7) in
  let m := wrw m 0x80401000 (0x402000 + 7) in
  let m := wrb (wrb m 0x80402000 104) 0x80402001 105 in
  let m := wrw (wrw (wrw (wrw m 0x80402ff0 0) 0x80402ff4 0) 0x80402ff8 7) 0x80402ffc 16 in
  let m := wrw m (ex_tf + tf_esp) 0xff0 in
  wrw m (ex_tf + tf_cs) 0x1b.

Definition ex_proc : proc :=
  Proc 4096 0x80400000 0x80403000 RUNNING 1 None ex_tf (ex_tf - 24) 0 0 (replicate (Z.to_nat NOFILE) 0) 0 20
    (bytes_of "init" ++ replicate 12 0) 10000 0 0 0 0 1024 1.
Definition ex_ptable : ptable :=
  Pt false (ex_proc :: replicate 63 no_proc) (Some 0%nat) 2 [Pcpu (Some 0%nat) 0x80404000 0x400000 true 0 0] 0.

Definition ex_cons : console :=
  Console false 1 (Screen 0 1 [] (replicate 2100 0) 0) (Input (replicate 128 0) 0 0 0) (Kbd [] 0) [] 0.
(** The root directory, inode 1, is empty. *)
Definition ex_root : bytes := put_dinode (replicate BSIZE 0) 64 (DInode T_DIR 0 0 1 0 (replicate 13 0)).
Definition ex_disk : Memide.memdisk := Memide.ideinit {[ 33 := ex_root ]} (100 * 512).
Definition ex_fs : fstate (dstate (Bcache.bcache Memide.memdisk)) :=
  FState (DState (LState ex_log (Bcache.binit ex_disk 1)) ex_cons false) ex_sb false (replicate NINODE no_inode) 0 0.

Definition ex_kernel : kernel (Bcache.bcache Memide.memdisk) :=
  Kernel 0 (Kmem false false 0 ex_ram) ex_ptable ex_fs false (replicate NFILE no_file) ∅
    (replicate 64 no_area) false 0 0.
