(* ===== verification/File.v ===== *)
(** * Open files (file.c) and the two ends of a pipe (pipealloc of pipe.c)

    The table of open files with its reference counts, and reading and writing
    through it. *)
From S2P Require Import Prelude CString Layout Spinlock Kalloc Vm Fp Sched Bytes Console Sleeplock Bio Log TxDisk Fs Pipe Kernel.

Open Scope Z_scope.

Section File.
Context {C : Type} `{BC : !BufCache C} `{L : !Layout} `{FE : !FpEnv}.
Abbreviation K := (kernel C).

Definition ft_acquire : M K unit := zoom ftlockL lk_acquire.
Definition ft_release : M K unit := zoom ftlockL lk_release.
Definition get_file (f : nat) : M K file := fun k =>
  match k_files k !! f with Some x => Ok (x, k) | None => Undef "not a file" end.
Definition set_file (f : nat) (g : file -> file) : M K unit :=
  modify (fun k => lset filesL (alter g f (k_files k)) k).

Definition fileinit : M K unit := modify (fun k => lset ftlockL false k).

Definition filealloc : M K (option nat) :=
  ft_acquire ;;
  fs ← gets k_files;
  match list_find (fun f => f_ref f = 0) fs with
  | Some (i, _) => set_file i (set_fref 1) ;; ft_release ;; mret (Some i)
  | None => ft_release ;; mret None
  end.

Definition filedup (f : nat) : M K nat :=
  ft_acquire ;;
  x ← get_file f;
  (if f_ref x <? 1 then panic "filedup" else mret tt) ;;
  set_file f (set_fref (f_ref x + 1)) ;;
  ft_release ;;
  mret f.

(** ** Pipes *)

(** An operation on the pipe at address [a]; its wakeups reach the processes
    that sleep on the addresses of [nread] and [nwrite]. *)
Definition chan_r (a : Z) : Z := a + 564.
Definition chan_w (a : Z) : Z := a + 568.
Definition on_pipe {A} (a : Z) (m : M pipe A) : M K A :=
  ps ← gets k_pipes;
  match ps !! a with
  | None => undef "not a pipe"
  | Some p =>
      r ← zoom pipesL (fun ps => match m p with
                                 | Ok (x, p') => Ok ((x, p'), <[a := p']> ps)
                                 | Panic e => Panic e | Undef e => Undef e | Hang => Hang end);
      when (woke_r p <? woke_r r.2)%nat (on_pt (fun me => wakeup me (chan_r a))) ;;
      when (woke_w p <? woke_w r.2)%nat (on_pt (fun me => wakeup me (chan_w a))) ;;
      mret r.1
  end.

Definition k_pipeclose (a : Z) (w : bool) : M K unit :=
  last ← on_pipe a (pipeclose w);
  if (last : bool) then modify (fun k => lset pipesL (delete a (k_pipes k)) k) ;; on_mem (kfree a)
  else mret tt.
Definition am_killed : M K bool := p ← cur; mret (truthy (killed p)).
Definition k_piperead (a n : Z) : M K (Z * bytes) :=
  kd ← am_killed;
  o ← on_pipe a (piperead kd n);
  match o with Returned r out => mret (r, out) | Asleep _ => hang end.
Definition k_pipewrite (a : Z) (src : bytes) : M K Z :=
  kd ← am_killed;
  o ← on_pipe a (pipewrite kd (Z.of_nat (length src)) src);
  match o with Returned r _ => mret r | Asleep _ => hang end.

(** ** Files *)
(** The part under the lock; it copies out the file the last reference to which
    is gone. *)
Definition fileclose_drop (f : nat) : M K (option file) :=
  ft_acquire ;;
  x ← get_file f;
  (if f_ref x <? 1 then panic "fileclose" else mret tt) ;;
  set_file f (set_fref (f_ref x - 1)) ;;
  if 0 <? f_ref x - 1 then ft_release ;; mret None
  else
    ff ← get_file f;
    set_file f (set_fref 0) ;;
    set_file f (set_ftype FD_NONE) ;;
    ft_release ;;
    mret (Some ff).
Definition fileclose (f : nat) : M K unit :=
  last ← fileclose_drop f;
  match last with
  | None => mret tt
  | Some ff =>
      match f_type ff with
      | FD_PIPE => k_pipeclose (f_pipe ff) (truthy (writable ff))
      | FD_INODE => on_log begin_op ;; on_fs (iput (f_ip ff)) ;; on_log end_op
      | FD_NONE => mret tt
      end
  end.

(** The result and, when it is 0, what is stored at [st]. *)
Definition filestat (f : nat) : M K (Z * option stat) :=
  x ← get_file f;
  match f_type x with
  | FD_INODE =>
      on_fs (ilock (Some (f_ip x))) ;;
      st ← on_fs (stati (f_ip x));
      on_fs (iunlock (Some (f_ip x))) ;;
      mret (0, Some st)
  | _ => mret (-1, None)
  end.

(** The result and what is stored at [addr]. *)
Definition fileread (f : nat) (n : Z) : M K (Z * bytes) :=
  x ← get_file f;
  if readable x =? 0 then mret (-1, [])
  else match f_type x with
  | FD_PIPE => k_piperead (f_pipe x) n
  | FD_INODE =>
      on_fs (ilock (Some (f_ip x))) ;;
      on_fs (readi (f_ip x) (f_off x) n) ≫= fun '(r, out) =>
      when (0 <? r) (set_file f (set_foff (u32 (f_off x + r)))) ;;
      on_fs (iunlock (Some (f_ip x))) ;;
      mret (r, out)
  | FD_NONE => panic "fileread"
  end.

(** [src] holds the bytes at [addr].  A few blocks at a time, so that each
    transaction fits in the log. *)
Definition write_max : Z := ((MAXOPBLOCKS - 1 - 1 - 2) / 2) * 512.
Fixpoint filewrite_loop (fuel : nat) (f : nat) (src : bytes) (i n : Z) : M K Z :=
  match fuel with
  | O => hang
  | S fuel =>
      if i <? n then
        let n1 := if write_max <? n - i then write_max else n - i in
        on_log begin_op ;;
        x ← get_file f;
        on_fs (ilock (Some (f_ip x))) ;;
        r ← on_fs (writei (f_ip x) (take (Z.to_nat n1) src) (f_off x) n1);
        when (0 <? r) (set_file f (set_foff (u32 (f_off x + r)))) ;;
        on_fs (iunlock (Some (f_ip x))) ;;
        on_log end_op ;;
        if r <? 0 then mret i
        else if negb (r =? n1) then panic "short filewrite"
        else filewrite_loop fuel f (drop (Z.to_nat n1) src) (i + r) n
      else mret i
  end.
Definition filewrite (f : nat) (src : bytes) : M K Z :=
  let n := Z.of_nat (length src) in
  x ← get_file f;
  if writable x =? 0 then mret (-1)
  else match f_type x with
  | FD_PIPE => k_pipewrite (f_pipe x) src
  | FD_INODE =>
      i ← filewrite_loop (S (length src)) f src 0 n;
      mret (if i =? n then n else -1)
  | FD_NONE => panic "filewrite"
  end.

(** ** pipealloc *)
Definition pipe_end (w : bool) (a : Z) (f : file) : file :=
  File FD_PIPE (f_ref f) (b2z (negb w)) (b2z w) a (f_ip f) (f_off f).
Definition close_opt (f : option nat) : M K unit :=
  match f with Some f => fileclose f | None => mret tt end.
Definition pipealloc : M K (option (nat * nat)) :=
  f0 ← filealloc;
  f1 ← (match f0 with Some _ => filealloc | None => mret None end);
  match f0, f1 with
  | Some r, Some w =>
      p ← on_mem kalloc;
      if p =? 0 then fileclose r ;; fileclose w ;; mret None
      else
        junk ← gets (fun k => (fun i => rdb (ram (k_mem k)) (p + 52 + Z.of_nat i)) <$> seq 0 512);
        modify (fun k => lset pipesL (<[p := new_pipe junk]> (k_pipes k)) k) ;;
        set_file r (pipe_end false p) ;;
        set_file w (pipe_end true p) ;;
        mret (Some (r, w))
  | _, _ => close_opt f0 ;; close_opt f1 ;; mret None
  end.
End File.
