(* ===== verification/FileProps.v ===== *)
(** * Reference counts of open files

    Whoever holds a pointer to an open file - a descriptor, a mapped area, a
    system call under way - holds one reference. *)
From stdpp Require Import gmultiset.
From S2P Require Import Prelude CString Layout Spinlock Kalloc Vm Fp Sched Bytes Console Sleeplock Bio Log TxDisk Fs Pipe Kernel Machine File BioProps.

Open Scope Z_scope.

Section Refs.
Context {C : Type} `{BC : !BufCache C} `{L : !Layout} `{FE : !FpEnv}.
Abbreviation K := (kernel C).

(** The references held, with their number for each file. *)
Record counted (k : K) (h : gmultiset nat) : Prop := {
  co_lock : k_ftlock k = false;
  co_count f x : k_files k !! f = Some x -> f_ref x = Z.of_nat (multiplicity f h);
  co_held f : f ∈ h -> (f < length (k_files k))%nat
}.

Lemma counted_held k h f : counted k h -> f ∈ h -> exists x, k_files k !! f = Some x /\ 1 <= f_ref x.
Proof.
  intros I Hf. destruct (lookup_lt_is_Some_2 _ _ (co_held k h I f Hf)) as [x Hx]. exists x. split; [done|].
  rewrite (co_count k h I f x Hx). rewrite elem_of_multiplicity in Hf. lia.
Qed.

(** Changing the count of one file and the references alike. *)
Lemma counted_alter k h h' f (g : file -> file) k' : counted k h ->
  k_ftlock k' = false -> k_files k' = alter g f (k_files k) ->
  (forall x, k_files k !! f = Some x -> f_ref (g x) = Z.of_nat (multiplicity f h')) ->
  (forall i, i <> f -> multiplicity i h' = multiplicity i h) -> (f < length (k_files k))%nat ->
  counted k' h'.
Proof.
  intros I Hl Hf Hc Hm Hlt. split; [done| |].
  - intros i x. rewrite Hf. destruct (decide (i = f)) as [->|N].
    + rewrite list_lookup_alter_eq. destruct (k_files k !! f) as [y|] eqn:E; [|done]. simpl.
      intros [= <-]. by apply Hc.
    + rewrite list_lookup_alter_ne by done. rewrite Hm by done. apply (co_count k h I).
  - intros i Hi. rewrite Hf, length_alter. destruct (decide (i = f)) as [->|N]; [done|]. apply (co_held k h I).
    rewrite elem_of_multiplicity in Hi. rewrite elem_of_multiplicity. by rewrite <-(Hm i N).
Qed.

Lemma filealloc_run k h : counted k h ->
  (exists f k', filealloc k = Ok (Some f, k') /\ (f ∉ h) /\ counted k' ({[+ f +]} ⊎ h)) \/
  (filealloc k = Ok (None, k) /\ forall f, (f < length (k_files k))%nat -> f ∈ h).
Proof.
  intros I. pose proof (co_lock k h I) as Hl. unfold filealloc, ft_acquire, ft_release, zoom, lk_acquire, lk_release, mbind, M_bind, gets.
  cbn [ftlockL lget lset k_files k_ftlock]. rewrite Hl. cbn [k_files].
  destruct (list_find (fun f => f_ref f = 0) (k_files k)) as [[f x]|] eqn:E.
  - left. apply list_find_Some in E as (Hx & H0 & _). pose proof (co_count k h I f x Hx) as Hc. rewrite H0 in Hc.
    eexists f, _. split; [reflexivity|]. split.
    + intros Hf. rewrite elem_of_multiplicity in Hf. lia.
    + eapply (counted_alter k h); [done|done|reflexivity| | |by eapply lookup_lt_Some].
      * intros y Hy. cbn [set_fref f_ref]. rewrite multiplicity_disj_union, multiplicity_singleton, decide_True by done. lia.
      * intros i Hi. rewrite multiplicity_disj_union, multiplicity_singleton_ne by done. lia.
  - right. split; [f_equal; f_equal; destruct k; cbn in *; by subst|].
    intros f Hf. destruct (lookup_lt_is_Some_2 _ _ Hf) as [x Hx]. apply list_find_None in E. rewrite Forall_lookup in E.
    specialize (E f x Hx). rewrite (co_count k h I f x Hx) in E. rewrite elem_of_multiplicity. lia.
Qed.

Lemma filedup_run k h f : counted k h -> f ∈ h ->
  exists k', filedup f k = Ok (f, k') /\ counted k' ({[+ f +]} ⊎ h).
Proof.
  intros I Hf. pose proof (co_lock k h I) as Hl. destruct (counted_held k h f I Hf) as (x & Hx & H1).
  unfold filedup, ft_acquire, ft_release, get_file, zoom, lk_acquire, lk_release, mbind, M_bind.
  cbn [ftlockL lget lset k_files k_ftlock]. rewrite Hl. cbn [k_files]. rewrite Hx.
  destruct (Z.ltb_spec (f_ref x) 1); [lia|]. eexists. split; [reflexivity|].
  eapply (counted_alter k h); [done|done|reflexivity| | |by apply (co_held k h I)].
  - intros y Hy. cbn [set_fref f_ref]. rewrite multiplicity_disj_union, multiplicity_singleton, decide_True by done.
    rewrite (co_count k h I f x Hx). lia.
  - intros i Hi. rewrite multiplicity_disj_union, multiplicity_singleton_ne by done. lia.
Qed.

Lemma fileclose_drop_run k h f : counted k h -> f ∈ h ->
  exists r k', fileclose_drop f k = Ok (r, k') /\ counted k' (h ∖ {[+ f +]}) /\
    (r = None <-> f ∈ h ∖ {[+ f +]}) /\ k_pipes k' = k_pipes k /\
    (forall ff, r = Some ff -> exists x, k_files k !! f = Some x /\ f_type ff = f_type x /\ f_pipe ff = f_pipe x /\ f_ip ff = f_ip x).
Proof.
  intros I Hf. pose proof (co_lock k h I) as Hl. destruct (counted_held k h f I Hf) as (x & Hx & H1).
  pose proof (co_count k h I f x Hx) as Hc.
  assert (Hm : multiplicity f (h ∖ {[+ f +]}) = (multiplicity f h - 1)%nat)
    by (by rewrite multiplicity_difference, multiplicity_singleton, decide_True by done).
  assert (Hn : forall i, i <> f -> multiplicity i (h ∖ {[+ f +]}) = multiplicity i h)
    by (intros i Hi; rewrite multiplicity_difference, multiplicity_singleton_ne by done; lia).
  unfold fileclose_drop, ft_acquire, ft_release, get_file, set_file, modify, zoom, lk_acquire, lk_release, mbind, M_bind.
  cbn [ftlockL filesL lget lset k_files k_ftlock]. rewrite Hl. cbn [k_files]. rewrite Hx.
  destruct (Z.ltb_spec (f_ref x) 1); [lia|]. cbn [mret M_ret].
  destruct (Z.ltb_spec 0 (f_ref x - 1)) as [Hg|Hg].
  - eexists None, _. split; [reflexivity|]. split_and!; try done.
    + eapply (counted_alter k h); [done|done|reflexivity| |done|by apply (co_held k h I)].
      intros y Hy. cbn [set_fref f_ref]. lia.
    + split; [|done]. intros _. rewrite elem_of_multiplicity. lia.
  - cbn [k_files]. rewrite list_lookup_alter_eq, Hx. cbn [fmap option_fmap option_map].
    eexists (Some _), _. split; [reflexivity|]. split_and!; try done.
    + eapply (counted_alter k h _ f (set_ftype FD_NONE ∘ set_fref 0 ∘ set_fref (f_ref x - 1))); [done|done| | |done|by apply (co_held k h I)].
      * cbn [k_files]. by rewrite !list_alter_alter_eq.
      * intros y Hy. cbn. lia.
    + split; [done|]. intros Hf'. rewrite elem_of_multiplicity in Hf'. lia.
    + intros ff [= <-]. by exists x.
Qed.

(** Programs that use the table: a reference is taken by opening or
    duplicating a file one holds, and given up once by closing it. *)
Inductive ref_step : K * gmultiset nat -> K * gmultiset nat -> Prop :=
| ref_alloc k h f k' : filealloc k = Ok (Some f, k') -> ref_step (k, h) (k', {[+ f +]} ⊎ h)
| ref_full k h k' : filealloc k = Ok (None, k') -> ref_step (k, h) (k', h)
| ref_dup k h f k' : f ∈ h -> filedup f k = Ok (f, k') -> ref_step (k, h) (k', {[+ f +]} ⊎ h)
| ref_close k h f r k' : f ∈ h -> fileclose_drop f k = Ok (r, k') -> ref_step (k, h) (k', h ∖ {[+ f +]}).

Lemma ref_step_counted s s' : ref_step s s' -> counted s.1 s.2 -> counted s'.1 s'.2.
Proof.
  destruct 1 as [k h f k' E|k h k' E|k h f k' Hf E|k h f r k' Hf E]; cbn [fst snd]; intros I.
  - destruct (filealloc_run k h I) as [(f' & k'' & E' & _ & I')|[E' _]]; [|congruence].
    rewrite E in E'. by injection E' as -> ->.
  - destruct (filealloc_run k h I) as [(f' & k'' & E' & _ & I')|[E' _]]; [congruence|].
    rewrite E in E'. by injection E' as ->.
  - destruct (filedup_run k h f I Hf) as (k'' & E' & I'). rewrite E in E'. by injection E' as ->.
  - destruct (fileclose_drop_run k h f I Hf) as (r' & k'' & E' & I' & _). rewrite E in E'. by injection E' as -> ->.
Qed.

(** C9: Reference counting of open files is safe.  However references are taken
    and given up, each file's count is the number of references to it; a file
    in use is never handed out again by [filealloc], which fails only when all
    are in use; [filedup] and [fileclose] never panic for a reference that is
    held; and [fileclose] gives the pipe or the inode up exactly when the last
    reference goes. *)
Theorem file_refcounts_safe (k0 k : K) (h : gmultiset nat) (I0 : counted k0 ∅)
  (R : rtc ref_step (k0, ∅) (k, h)) :
  counted k h /\
  (forall f k', filealloc k = Ok (Some f, k') -> f ∉ h) /\
  (forall k', filealloc k = Ok (None, k') -> forall f, (f < length (k_files k))%nat -> f ∈ h) /\
  (forall f, f ∈ h -> exists k', filedup f k = Ok (f, k')) /\
  (forall f, f ∈ h -> exists r k', fileclose_drop f k = Ok (r, k') /\ (r = None <-> f ∈ h ∖ {[+ f +]})).
Proof.
  assert (I : counted k h).
  { change (counted (k, h).1 (k, h).2). revert R. generalize (k, h). intros s R.
    refine (rtc_ind_r (fun s => counted s.1 s.2) (k0, ∅) I0 _ s R). intros s1 s2 _ H I. by eapply ref_step_counted. }
  split_and!; [done|..].
  - intros f k' E. destruct (filealloc_run k h I) as [(f' & k'' & E' & N & _)|[E' _]]; [|congruence].
    rewrite E in E'. by injection E' as -> ->.
  - intros k' E. destruct (filealloc_run k h I) as [(f' & k'' & E' & N & _)|[E' A]]; [congruence|done].
  - intros f Hf. destruct (filedup_run k h f I Hf) as (k' & E & _). by exists k'.
  - intros f Hf. destruct (fileclose_drop_run k h f I Hf) as (r & k' & E & _ & Hr & _). by exists r, k'.
Qed.
End Refs.

(** A file is opened, duplicated and closed once: one reference is left. *)
Lemma file_refcounts_safe_witness : exists (k : kernel (Bcache.bcache Memide.memdisk)),
  rtc ref_step (ex_kernel, ∅) (k, ({[+ 0%nat +]} ⊎ ({[+ 0%nat +]} ⊎ ∅)) ∖ {[+ 0%nat +]}) /\ exists k', filedup 0 k = Ok (0%nat, k').
Proof.
  assert (I0 : counted ex_kernel ∅).
  { split; [done| |intros f Hf; by apply gmultiset_not_elem_of_empty in Hf]. intros f x. cbn [ex_kernel k_files].
    intros [-> _]%lookup_replicate. by rewrite multiplicity_empty. }
  assert (H0 : 0%nat ∈ ({[+ 0%nat +]} ⊎ ∅ : gmultiset nat)) by multiset_solver.
  assert (exists k, rtc ref_step (ex_kernel, ∅) (k, ({[+ 0%nat +]} ⊎ ({[+ 0%nat +]} ⊎ ∅)) ∖ {[+ 0%nat +]})) as [k R].
  { eexists. eapply rtc_l; [apply (ref_alloc ex_kernel ∅ 0); reflexivity|].
    eapply rtc_l; [apply (ref_dup _ _ 0); [exact H0|reflexivity]|].
    eapply rtc_l; [eapply (ref_close _ _ 0); [multiset_solver|reflexivity]|]. apply rtc_refl. }
  exists k. split; [exact R|]. destruct (file_refcounts_safe ex_kernel _ _ I0 R) as (_ & _ & _ & D & _).
  apply D. multiset_solver.
Defined.
