(* ===== verification/Syscall.v ===== *)
(** * System call arguments (syscall.c)

    A system call's arguments are on the user's stack and may be pointers into
    the user's memory: whatever they are, fetching them must not fault.  What a
    call then does with a number it fetched is another matter (mmap's descriptor,
    for one). *)
From S2P Require Import Prelude CString Layout Spinlock Kalloc Vm Fp Sched Bytes Console Sleeplock Bio BioProps Log LogProps TxDisk Fs FsProps Pipe Kernel Machine.

Open Scope Z_scope.

Section Args.
Context {C : Type}.
Abbreviation K := (kernel C).

(** The word at [addr], when the call returns 0. *)
Definition fetchint (addr : Z) : M K (option Z) :=
  p ← cur;
  if (sz p <=? addr) || (sz p <? u32 (addr + 4)) then mret None
  else w ← load_word addr; mret (Some (s32 w)).

(** The loop of fetchstr, from [s] to the end of the process's memory. *)
Fixpoint fetchstr_loop (fuel : nat) (s : Z) : M K (option bytes) :=
  match fuel with
  | O => mret None
  | S fuel =>
      b ← load_byte s;
      if b =? 0 then mret (Some [])
      else r ← fetchstr_loop fuel (s + 1); mret (cons b <$> r)
  end.
(** The string that [*pp] then points at; its length is the call's result. *)
Definition fetchstr (addr : Z) : M K (option bytes) :=
  p ← cur;
  if sz p <=? addr then mret None
  else fetchstr_loop (Z.to_nat (sz p - addr)) addr.

Definition tf_load (off : Z) : M K Z := p ← cur; on_mem (load (tf p + off)).
Definition tf_store (off v : Z) : M K unit := p ← cur; on_mem (store (tf p + off) (u32 v)).

Definition argint (n : Z) : M K (option Z) :=
  esp ← tf_load tf_esp; fetchint (u32 (esp + 4 + 4 * n)).

(** The pointer, as an address. *)
Definition argptr (n size : Z) : M K (option Z) :=
  p ← cur;
  i ← argint n;
  match i with
  | None => mret None
  | Some i =>
      if (size <? 0) || (sz p <=? u32 i) || (sz p <? u32 (u32 i + size)) then mret None
      else mret (Some (u32 i))
  end.

Definition argstr (n : Z) : M K (option bytes) :=
  addr ← argint n;
  match addr with None => mret None | Some a => fetchstr (u32 a) end.
End Args.

(** ** Fetching an argument is safe and exact *)
Section Safe.
Context {C : Type}.
Abbreviation K := (kernel C).
Implicit Types k : K.

(** The process [p] runs with its page table and all the memory below its size
    is mapped, as exec, sbrk and fork leave it. *)
Record runs (k : K) (i : nat) (c : pcpu) (p : proc) : Prop := {
  ru_cpu : pcpus (k_pt k) !! k_me k = Some c;
  ru_cur : c_proc c = Some i;
  ru_proc : procs (k_pt k) !! i = Some p;
  ru_cr3 : P2V (c_cr3 c) = pgdir p;
  ru_sz : 0 <= sz p <= KERNBASE;
  ru_mapped va : 0 <= va < sz p -> exists a, user_addr false (ram (k_mem k)) (pgdir p) va = Some a
}.

(** What the memory of the process holds: a byte, an int, and a string with its
    null byte that lies below the process's size. *)
Definition user_byte k (p : proc) (va : Z) : Z :=
  from_option (rdb (ram (k_mem k))) 0 (user_addr false (ram (k_mem k)) (pgdir p) va).
Definition user_int k p (va : Z) : Z :=
  s32 (user_byte k p va + 256 * user_byte k p (va + 1) + 65536 * user_byte k p (va + 2) + 16777216 * user_byte k p (va + 3)).
Definition user_string k p (va : Z) (l : bytes) : Prop :=
  (forall n b, l !! n = Some b -> b <> 0 /\ user_byte k p (va + Z.of_nat n) = b) /\
  user_byte k p (va + Z.of_nat (length l)) = 0 /\ va + Z.of_nat (length l) < sz p.
(** The address of argument [n], above the return address on the user's stack,
    and its value if it lies below the process's size. *)
Definition arg_addr k p (n : Z) : Z := u32 (rdw (ram (k_mem k)) (tf p + tf_esp) + 4 + 4 * n).
Definition arg_value k p (n : Z) : option Z :=
  if arg_addr k p n + 4 <=? sz p then Some (user_int k p (arg_addr k p n)) else None.

Section Fetch.
Context (k : K) (i : nat) (c : pcpu) (p : proc).
Hypothesis R : runs k i c p.

Lemma lset_pt : lset ptL (k_pt k) k = k.
Proof. by destruct k. Qed.
Lemma lset_mem : lset memL (k_mem k) k = k.
Proof. by destruct k. Qed.

Lemma cur_run : cur k = Ok (p, k).
Proof.
  unfold cur, me_proc, on_pt, curproc, myproc, get_pcpu, get_proc, zoom, mbind, M_bind, gets.
  cbn [ptL lget]. rewrite (ru_cpu _ _ _ _ R). cbn. rewrite (ru_cur _ _ _ _ R). cbn.
  rewrite (ru_proc _ _ _ _ R). f_equal. f_equal. by destruct k.
Qed.
Lemma user_pgdir_run : user_pgdir k = Ok (pgdir p, k).
Proof.
  unfold user_pgdir, on_pt, get_pcpu, zoom, mbind, M_bind, gets. cbn [ptL lget].
  rewrite (ru_cpu _ _ _ _ R). rewrite lset_pt. cbn. by rewrite (ru_cr3 _ _ _ _ R).
Qed.
Lemma load_byte_run va : 0 <= va < sz p -> load_byte va k = Ok (user_byte k p va, k).
Proof.
  intros H. destruct (ru_mapped _ _ _ _ R va H) as [a Ha]. unfold load_byte, user_byte.
  by rewrite (bind_ok _ _ _ _ _ user_pgdir_run), bind_gets, Ha.
Qed.
Lemma load_word_run va : 0 <= va -> va + 4 <= sz p -> exists w, load_word va k = Ok (w, k) /\ s32 w = user_int k p va.
Proof.
  intros H0 H1. pose proof (ru_sz _ _ _ _ R) as Hs. unfold KERNBASE in Hs. unfold load_word. cbn [load_bytes].
  assert (E1 : u32 (va + 1) = va + 1) by (apply u32_small; lia). assert (E2 : u32 (va + 1 + 1) = va + 2) by (rewrite u32_small; lia).
  assert (E3 : u32 (va + 2 + 1) = va + 3) by (rewrite u32_small; lia). rewrite E1, E2, E3. eexists. split.
  - unfold mbind, M_bind. rewrite !load_byte_run by lia. reflexivity.
  - reflexivity.
Qed.

Lemma fetchint_run addr : 0 <= addr < 4294967296 ->
  fetchint addr k = Ok (if addr + 4 <=? sz p then Some (user_int k p addr) else None, k).
Proof.
  intros Ha. pose proof (ru_sz _ _ _ _ R) as Hs. unfold KERNBASE in Hs. unfold fetchint.
  rewrite (bind_ok _ _ _ _ _ cur_run). destruct (Z.leb_spec (sz p) addr) as [H|H]; cbn [orb].
  { by rewrite (proj2 (Z.leb_gt _ _)) by lia. }
  assert (u32 (addr + 4) = addr + 4) as -> by (unfold u32; rewrite Z.mod_small; lia).
  destruct (Z.ltb_spec (sz p) (addr + 4)) as [H4|H4]; [by rewrite (proj2 (Z.leb_gt _ _)) by lia|].
  destruct (load_word_run addr ltac:(lia) ltac:(lia)) as (w & Hw & Ew). rewrite (bind_ok _ _ _ _ _ Hw), Ew.
  by rewrite (proj2 (Z.leb_le _ _)) by lia.
Qed.

Lemma user_string_nil va : user_string k p va [] <-> user_byte k p va = 0 /\ va < sz p.
Proof. unfold user_string. cbn [length]. rewrite Z.add_0_r. split; [tauto|]. intros H. split; [by intros n b|done]. Qed.
Lemma user_string_cons va b l : user_string k p va (b :: l) <-> b <> 0 /\ user_byte k p va = b /\ user_string k p (va + 1) l.
Proof.
  unfold user_string. cbn [length]. replace (va + Z.of_nat (S (length l))) with (va + 1 + Z.of_nat (length l)) by lia. split.
  - intros (H & H1 & H2). destruct (H 0%nat b eq_refl) as [H3 H4]. rewrite Z.add_0_r in H4. split_and!; try done.
    intros n x Hx. replace (va + 1 + Z.of_nat n) with (va + Z.of_nat (S n)) by lia. by apply H.
  - intros (H1 & H2 & H & H3 & H4). split_and!; try done. intros [|n] x Hx; [rewrite Z.add_0_r; cbn in Hx; split; congruence|].
    replace (va + Z.of_nat (S n)) with (va + 1 + Z.of_nat n) by lia. by apply H.
Qed.

Lemma fetchstr_loop_run fuel : forall s, 0 <= s -> s + Z.of_nat fuel = sz p ->
  exists r, fetchstr_loop fuel s k = Ok (r, k) /\ forall l, r = Some l <-> user_string k p s l.
Proof.
  induction fuel as [|fuel IH]; intros s H0 H1; cbn [fetchstr_loop].
  { exists None. split; [done|]. intros l. split; [done|]. intros (_ & _ & H). lia. }
  rewrite (bind_ok _ _ _ _ _ (load_byte_run s ltac:(lia))). destruct (Z.eqb_spec (user_byte k p s) 0) as [E|Nb].
  - exists (Some []). split; [done|]. intros [|b l]; [rewrite user_string_nil|rewrite user_string_cons].
    + split; [intros _; split; [done|lia]|done].
    + split; [done|]. intros (? & ? & _). congruence.
  - destruct (IH (s + 1)) as (r & Hr & P); [lia|lia|]. rewrite (bind_ok _ _ _ _ _ Hr).
    exists (cons (user_byte k p s) <$> r). split; [done|]. intros [|b l]; [rewrite user_string_nil|rewrite user_string_cons, <-P].
    + split; [by destruct r|]. intros [? _]. done.
    + destruct r as [l'|]; cbn; split; try done; [intros [= <- <-]; done| |]; intros (? & ? & ?); [|done]. congruence.
Qed.
Lemma fetchstr_run addr : 0 <= addr < 4294967296 ->
  exists r, fetchstr addr k = Ok (r, k) /\ forall l, r = Some l <-> user_string k p addr l.
Proof.
  intros Ha. unfold fetchstr. rewrite (bind_ok _ _ _ _ _ cur_run). destruct (Z.leb_spec (sz p) addr); [|apply fetchstr_loop_run; lia].
  exists None. split; [done|]. intros l. split; [done|]. intros (_ & _ & ?). lia.
Qed.

Lemma argint_run n : argint n k = Ok (arg_value k p n, k).
Proof.
  unfold argint, tf_load. rewrite (bind_ok _ _ _ (rdw (ram (k_mem k)) (tf p + tf_esp)) k); [apply fetchint_run, u32_range|].
  rewrite (bind_ok _ _ _ _ _ cur_run). unfold on_mem, load, gets, zoom. cbn. by destruct k.
Qed.
End Fetch.

(** C17: The functions that fetch system call arguments are safe and exact.  For
    every address, argument number and size, fetchint, argint, fetchstr, argptr and
    argstr return without a fault and change nothing.  A word is fetched exactly
    when it lies below the process's size, and is the one in the process's memory;
    a string exactly when it and its null byte lie there; a pointer exactly when
    its size is not negative and the whole block lies there.  The additions that
    check this do not overflow. *)
Theorem syscall_args_stay_in_process (k : K) (i : nat) (c : pcpu) (p : proc) (R : runs k i c p) :
  (forall addr, 0 <= addr < 4294967296 ->
     fetchint addr k = Ok (if addr + 4 <=? sz p then Some (user_int k p addr) else None, k)) /\
  (forall addr, 0 <= addr < 4294967296 -> exists r, fetchstr addr k = Ok (r, k) /\
     forall l, r = Some l <-> user_string k p addr l) /\
  (forall n, argint n k = Ok (arg_value k p n, k)) /\
  (forall n size, -2147483648 <= size < 2147483648 -> exists r, argptr n size k = Ok (r, k) /\
     forall a, r = Some a <-> (u32 <$> arg_value k p n) = Some a /\ 0 <= size /\ a < sz p /\ a + size <= sz p) /\
  (forall n, exists r, argstr n k = Ok (r, k) /\
     forall l, r = Some l <-> exists a, (u32 <$> arg_value k p n) = Some a /\ user_string k p a l).
Proof.
  split_and!.
  - intros addr Ha. by apply (fetchint_run k i c p R).
  - intros addr Ha. by apply (fetchstr_run k i c p R).
  - by apply (argint_run k i c p R).
  - intros n size Hsz. pose proof (ru_sz _ _ _ _ R) as Hs. unfold KERNBASE in Hs.
    unfold argptr. rewrite (bind_ok _ _ _ _ _ (cur_run k i c p R)), (bind_ok _ _ _ _ _ (argint_run k i c p R n)).
    destruct (arg_value k p n) as [j|]; [|exists None; split; [done|]; split; [done|by intros [? _]]]. cbn [fmap option_fmap option_map].
    pose proof (u32_range j) as Hj. assert (E : 0 <= size -> u32 j < sz p -> u32 (u32 j + size) = u32 j + size) by (intros ? ?; apply u32_small; lia).
    destruct (Z.ltb_spec size 0); cbn [orb]; [exists None; split; [done|]; split; [done|lia]|].
    destruct (Z.leb_spec (sz p) (u32 j)); cbn [orb]; [exists None; split; [done|]; split; [done|intros ([= <-] & ?); lia]|].
    rewrite E by lia. destruct (Z.ltb_spec (sz p) (u32 j + size)); [exists None; split; [done|]; split; [done|intros ([= <-] & ?); lia]|].
    exists (Some (u32 j)). split; [done|]. intros a. split; [intros [= <-]; split; [done|lia]|by intros [? _]].
  - intros n. unfold argstr. rewrite (bind_ok _ _ _ _ _ (argint_run k i c p R n)).
    destruct (arg_value k p n) as [j|]; cbn [fmap option_fmap option_map]; [|exists None; split; [done|]; split; [done|by intros (? & ? & _)]].
    destruct (fetchstr_run k i c p R (u32 j) (u32_range j)) as (r & E & P). exists r. split; [done|]. intros l. rewrite P.
    split; [intros ?; by exists (u32 j)|]. by intros (? & [= <-] & ?).
Qed.
End Safe.

Lemma ex_runs : runs ex_kernel 0 (Pcpu (Some 0%nat) 0x80404000 0x400000 true 0 0) ex_proc.
Proof.
  split; try done. intros va Hva. cbn [sz ex_proc] in Hva. cbn [ex_kernel k_mem ram pgdir ex_proc].
  assert (E : pte_at ex_ram 0x80400000 va = 0x402007).
  { assert (PDX va = 0 /\ PTX va = 0) as [E1 E2].
    { rewrite PDX_eq, PTX_eq. unfold u32. rewrite (Z.mod_small va), !(Z.div_small va) by lia. done. }
    unfold pte_at, table_at, pde_at. rewrite E1, E2. vm_compute. reflexivity. }
  unfold user_addr. rewrite E. eexists. reflexivity.
Qed.

Lemma syscall_args_stay_in_process_witness :
  argint 1 ex_kernel = Ok (arg_value ex_kernel ex_proc 1, ex_kernel) /\
  (exists r, argptr 2 16 ex_kernel = Ok (r, ex_kernel)) /\ (exists r, argstr 0 ex_kernel = Ok (r, ex_kernel)).
Proof.
  destruct (syscall_args_stay_in_process ex_kernel 0 _ ex_proc ex_runs) as (_ & _ & A & P & Q). split; [exact (A 1)|]. split.
  - destruct (P 2 16) as (r & E & _); [lia|]. exists r. exact E.
  - destruct (Q 0) as (r & E & _). exists r. exact E.
Defined.

(** The stack of the example holds the arguments 0, 7 and 16: the string "hi",
    a number, and a pointer. *)
Lemma ex_args : argstr 0 ex_kernel = Ok (Some (bytes_of "hi"), ex_kernel) /\ argint 1 ex_kernel = Ok (Some 7, ex_kernel).
Proof. split; vm_compute; reflexivity. Qed.
