(* ===== verification/Sysfile.v ===== *)
(** * System calls on files (sysfile.c)

    Each call fetches its arguments from the user's stack, runs its work in a
    transaction and keeps the process's descriptor table. *)
From S2P Require Import Prelude CString Layout Spinlock Kalloc Vm Fp Sched Bytes Console Sleeplock Bio Log TxDisk Fs Pipe Kernel File Syscall.

Open Scope Z_scope.

Definition O_RDONLY : Z := 0x000.
Definition O_WRONLY : Z := 0x001.
Definition O_RDWR : Z := 0x002.
Definition O_CREATE : Z := 0x200.

(** ** The part that works on inodes only *)
Section Inodes.
Context {S : Type} `{TD : !TxDisk S} `{DV : !DevSw S}.

Definition add_nlink (i : nat) (d : Z) : M (fstate S) unit :=
  upd_data i (fun x => set_nlink (s16 (d_nlink x + d)) x).
(** [char name[DIRSIZ]], not initialised. *)
Definition name_buf : bytes := replicate DIRSIZ 0.

Fixpoint isdirempty_loop (fuel : nat) (dp : nat) (off : Z) : M (fstate S) bool :=
  match fuel with
  | O => hang
  | Datatypes.S fuel =>
      ip ← nth_inode dp;
      if off <? d_size (idata ip) then
        readi dp off DESIZE ≫= fun '(r, de) =>
        (if negb (r =? DESIZE) then panic "isdirempty: readi" else mret tt) ;;
        if negb (de_inum de =? 0) then mret false
        else isdirempty_loop fuel dp (off + DESIZE)
      else mret true
  end.
Definition isdirempty (dp : nat) : M (fstate S) bool :=
  ip ← nth_inode dp;
  isdirempty_loop (Z.to_nat (d_size (idata ip)) + 1) dp (2 * DESIZE).

(** The inode comes back locked. *)
Definition create (path : bytes) (type major minor : Z) : M (fstate S) (option nat) :=
  nameiparent path name_buf ≫= fun '(dp, name) =>
  match dp with
  | None => mret None
  | Some dp =>
      ilock (Some dp) ;;
      found ← dirlookup dp name;
      match found with
      | Some (ip, _) =>
          iunlockput dp ;;
          ilock (Some ip) ;;
          x ← nth_inode ip;
          if (type =? T_FILE) && (d_type (idata x) =? T_FILE) then mret (Some ip)
          else iunlockput ip ;; mret None
      | None =>
          d ← nth_inode dp;
          ip ← ialloc (idev d) type;
          ilock (Some ip) ;;
          upd_data ip (set_major (s16 major)) ;;
          upd_data ip (set_minor (s16 minor)) ;;
          upd_data ip (set_nlink 1) ;;
          iupdate ip ;;
          x ← nth_inode ip;
          (if type =? T_DIR then
             add_nlink dp 1 ;;
             iupdate dp ;;
             r ← dirlink ip [46; 0] (inum x);
             (if r <? 0 then panic "create dots" else mret tt) ;;
             d ← nth_inode dp;
             r ← dirlink ip [46; 46; 0] (inum d);
             (if r <? 0 then panic "create dots" else mret tt)
           else mret tt) ;;
          r ← dirlink dp name (inum x);
          (if r <? 0 then panic "create: dirlink" else mret tt) ;;
          iunlockput dp ;;
          mret (Some ip)
      end
  end.

(** From the look-up of [old] in sys_link; the caller ends the transaction. *)
Definition link_undo (ip : nat) : M (fstate S) Z :=
  ilock (Some ip) ;;
  add_nlink ip (-1) ;;
  iupdate ip ;;
  iunlockput ip ;;
  mret (-1).
Definition link (old new : bytes) : M (fstate S) Z :=
  ip ← namei old;
  match ip with
  | None => mret (-1)
  | Some ip =>
      ilock (Some ip) ;;
      x ← nth_inode ip;
      if d_type (idata x) =? T_DIR then iunlockput ip ;; mret (-1)
      else
        add_nlink ip 1 ;;
        iupdate ip ;;
        iunlock (Some ip) ;;
        nameiparent new name_buf ≫= fun '(dp, name) =>
        match dp with
        | None => link_undo ip
        | Some dp =>
            ilock (Some dp) ;;
            d ← nth_inode dp; x ← nth_inode ip;
            ok ← (if negb (idev d =? idev x) then mret false
                  else r ← dirlink dp name (inum x); mret (negb (r <? 0)));
            if negb ok then iunlockput dp ;; link_undo ip
            else iunlockput dp ;; iput ip ;; mret 0
        end
  end.

(** From the look-up of the path in sys_unlink. *)
Definition unlink (path : bytes) : M (fstate S) Z :=
  nameiparent path name_buf ≫= fun '(dp, name) =>
  match dp with
  | None => mret (-1)
  | Some dp =>
      ilock (Some dp) ;;
      if (namecmp name [46; 0] =? 0) || (namecmp name [46; 46; 0] =? 0) then iunlockput dp ;; mret (-1)
      else
        found ← dirlookup dp name;
        match found with
        | None => iunlockput dp ;; mret (-1)
        | Some (ip, off) =>
            ilock (Some ip) ;;
            x ← nth_inode ip;
            (if d_nlink (idata x) <? 1 then panic "unlink: nlink < 1" else mret tt) ;;
            empty ← (if d_type (idata x) =? T_DIR then isdirempty ip else mret true);
            if negb empty then iunlockput ip ;; iunlockput dp ;; mret (-1)
            else
              r ← writei dp (replicate (Z.to_nat DESIZE) 0) off DESIZE;
              (if negb (r =? DESIZE) then panic "unlink: writei" else mret tt) ;;
              when (d_type (idata x) =? T_DIR) (add_nlink dp (-1) ;; iupdate dp) ;;
              iunlockput dp ;;
              add_nlink ip (-1) ;;
              iupdate ip ;;
              iunlockput ip ;;
              mret 0
        end
  end.

(** The inode sys_open opens, locked. *)
Definition open_inode (path : bytes) (omode : Z) : M (fstate S) (option nat) :=
  if truthy (Z.land omode O_CREATE) then create path T_FILE 0 0
  else
    ip ← namei path;
    match ip with
    | None => mret None
    | Some ip =>
        ilock (Some ip) ;;
        x ← nth_inode ip;
        if (d_type (idata x) =? T_DIR) && negb (omode =? O_RDONLY) then iunlockput ip ;; mret None
        else mret (Some ip)
    end.
End Inodes.

(** ** The calls *)
Section Calls.
Context {C : Type} `{BC : !BufCache C} `{L : !Layout} `{FE : !FpEnv}.
Abbreviation K := (kernel C).

(** A call that can fail, and what is done with its result if it did not. *)
Definition or_fail {A} (m : M K (option A)) (f : A -> M K Z) : M K Z :=
  r ← m; match r with None => mret (-1) | Some a => f a end.

(** The descriptor and its file. *)
Definition argfd (n : Z) : M K (option (Z * nat)) :=
  fd ← argint n;
  match fd with
  | None => mret None
  | Some fd =>
      if (fd <? 0) || (NOFILE <=? fd) then mret None
      else p ← cur; mret (pair fd <$> of_ptr (nth (Z.to_nat fd) (ofile p) 0))
  end.

Definition set_fd (fd : nat) (v : Z) : M K unit :=
  i ← me_proc; set_proc i (fun p => set_ofile (<[fd := v]> (ofile p)) p).
Definition fdalloc (f : nat) : M K Z :=
  p ← cur;
  match list_find (fun z => z = 0) (ofile p) with
  | Some (fd, _) => set_fd fd (ptr f) ;; mret (Z.of_nat fd)
  | None => mret (-1)
  end.

Definition sys_dup : M K Z :=
  or_fail (argfd 0) (fun '(_, f) =>
  fd ← fdalloc f;
  if fd <? 0 then mret (-1) else filedup f ;; mret fd).

Definition sys_read : M K Z :=
  or_fail (argfd 0) (fun '(_, f) =>
  or_fail (argint 2) (fun n =>
  or_fail (argptr 1 n) (fun p =>
  fileread f n ≫= fun '(r, out) => store_all p out ;; mret r))).

Definition sys_write : M K Z :=
  or_fail (argfd 0) (fun '(_, f) =>
  or_fail (argint 2) (fun n =>
  or_fail (argptr 1 n) (fun p =>
  src ← load_bytes p (Z.to_nat n); filewrite f src))).

Definition sys_close : M K Z :=
  or_fail (argfd 0) (fun '(fd, f) =>
  set_fd (Z.to_nat fd) 0 ;; fileclose f ;; mret 0).

(** struct stat in memory: the two bytes of padding after its shorts are not
    written. *)
Definition store_stat (a : Z) (st : stat) : M K unit :=
  store_word (a + 4) (st_dev st) ;;
  store_word (a + 8) (st_ino st) ;;
  store_all a (take 2 (word_bytes (st_type st))) ;;
  store_all (a + 12) (take 2 (word_bytes (st_nlink st))) ;;
  store_word (a + 16) (st_size st).
Definition sys_fstat : M K Z :=
  or_fail (argfd 0) (fun '(_, f) =>
  or_fail (argptr 1 20) (fun a =>
  filestat f ≫= fun '(r, st) =>
  (match st with Some st => store_stat a st | None => mret tt end) ;; mret r)).

Definition sys_link : M K Z :=
  or_fail (argstr 0) (fun old =>
  or_fail (argstr 1) (fun new =>
  on_log begin_op ;; r ← on_fs (link old new); on_log end_op ;; mret r)).

Definition sys_unlink : M K Z :=
  or_fail (argstr 0) (fun path =>
  on_log begin_op ;; r ← on_fs (unlink path); on_log end_op ;; mret r).

(** f->type = FD_INODE and the assignments after it. *)
Definition opened (ip : nat) (omode : Z) (f : file) : file :=
  File FD_INODE (f_ref f) (b2z (negb (truthy (Z.land omode O_WRONLY))))
    (b2z (truthy (Z.land omode O_WRONLY) || truthy (Z.land omode O_RDWR))) (f_pipe f) ip 0.
Definition sys_open : M K Z :=
  or_fail (argstr 0) (fun path =>
  or_fail (argint 1) (fun omode =>
  on_log begin_op ;;
  ip ← on_fs (open_inode path omode);
  match ip with
  | None => on_log end_op ;; mret (-1)
  | Some ip =>
      f ← filealloc;
      fd ← (match f with Some f => fdalloc f | None => mret (-1) end);
      match f with
      | Some f =>
          if fd <? 0 then fileclose f ;; on_fs (iunlockput ip) ;; on_log end_op ;; mret (-1)
          else
            on_fs (iunlock (Some ip)) ;;
            on_log end_op ;;
            set_file f (opened ip omode) ;;
            mret fd
      | None => on_fs (iunlockput ip) ;; on_log end_op ;; mret (-1)
      end
  end)).

(** The transaction of mkdir and mknod begins before the arguments are read. *)
Definition make (path : M K (option bytes)) (go : bytes -> M K (option nat)) : M K Z :=
  on_log begin_op ;;
  s ← path;
  ip ← (match s with None => mret None | Some s => go s end);
  match ip with
  | None => on_log end_op ;; mret (-1)
  | Some ip => on_fs (iunlockput ip) ;; on_log end_op ;; mret 0
  end.
Definition sys_mkdir : M K Z :=
  make (argstr 0) (fun path => on_fs (create path T_DIR 0 0)).
Definition sys_mknod : M K Z :=
  make (argstr 0) (fun path =>
    major ← argint 1;
    match major with
    | None => mret None
    | Some major =>
        minor ← argint 2;
        match minor with None => mret None | Some minor => on_fs (create path T_DEV major minor) end
    end).

Definition sys_chdir : M K Z :=
  i ← me_proc;
  on_log begin_op ;;
  path ← argstr 0;
  ip ← (match path with None => mret None | Some path => on_fs (namei path) end);
  match ip with
  | None => on_log end_op ;; mret (-1)
  | Some ip =>
      on_fs (ilock (Some ip)) ;;
      x ← on_fs (nth_inode ip);
      if negb (d_type (idata x) =? T_DIR) then on_fs (iunlockput ip) ;; on_log end_op ;; mret (-1)
      else
        on_fs (iunlock (Some ip)) ;;
        p ← nth_proc i;
        on_fs (iput (cwd_slot (Sched.cwd p))) ;;
        on_log end_op ;;
        set_proc i (set_cwd (ptr ip)) ;;
        mret 0
  end.

Definition sys_pipe : M K Z :=
  or_fail (argptr 0 8) (fun a =>
  or_fail pipealloc (fun '(rf, wf) =>
  fd0 ← fdalloc rf;
  fd1 ← (if fd0 <? 0 then mret (-1) else fdalloc wf);
  if (fd0 <? 0) || (fd1 <? 0) then
    when (0 <=? fd0) (set_fd (Z.to_nat fd0) 0) ;;
    fileclose rf ;; fileclose wf ;; mret (-1)
  else
    store_word a fd0 ;; store_word (a + 4) fd1 ;; mret 0)).
End Calls.
