(* ===== verification/Proc.v ===== *)
(** * Processes (proc.c): creation, growth, fork, exit, wait and the listings

    The scheduling half of proc.c is in Sched.v; this is the half that also
    uses memory, files and mapped areas. *)
From S2P Require Import Prelude CString Layout Spinlock Kalloc Vm Fp Sched Bytes Console Sleeplock Bio Log TxDisk Fs Pipe Kernel File Syscall.

Open Scope Z_scope.

(** [safestrcpy] into a name field: at most [n - 1] characters, a null byte, and
    the byte after it. *)
Fixpoint cstr (l : bytes) : bytes :=
  match l with
  | [] => []
  | b :: l => if b =? 0 then [] else b :: cstr l
  end.
Definition name_copy (old new : bytes) : bytes := put_bytes old 0 (take 15 (new ++ [0]) ++ [0]).

Definition MAP_ANONYMOUS : Z := 0x1.
Definition MAP_POPULATE : Z := 0x2.

Section Proc.
Context {C : Type} `{BC : !BufCache C} `{L : !Layout} `{FE : !FpEnv} `{SY : !KSyms}.
Abbreviation K := (kernel C).

(** ** allocproc *)
Definition fresh_proc (p : proc) (pd : Z) : proc :=
  set_int_overflow 0 (set_time_slice 0 (set_scheduled_time 0 (set_vruntime 0 (set_actual_runtime 0
    (set_weight (nth 20 nice_to_weight 0) (set_nice 20 (set_pid pd (set_state EMBRYO p)))))))).

Definition context_size : Z := 20.
Definition allocproc : M K (option nat) :=
  on_pt pt_acquire ;;
  ps ← gets (fun k => procs (k_pt k));
  match list_find (fun p => state p = UNUSED) ps with
  | None => on_pt pt_release ;; mret None
  | Some (i, _) =>
      pd ← gets (fun k => nextpid (k_pt k));
      set_proc i (fun p => fresh_proc p pd) ;;
      on_pt (fun _ => modify (set_nextpid (s32 (pd + 1)))) ;;
      on_pt pt_release ;;
      ks ← on_mem kalloc;
      set_proc i (set_kstack ks) ;;
      if ks =? 0 then set_proc i (set_state UNUSED) ;; mret None
      else
        let sp := ks + KSTACKSIZE - tf_size in
        set_proc i (set_tf sp) ;;
        let sp := sp - 4 in
        on_mem (store sp addr_trapret) ;;
        let sp := sp - context_size in
        set_proc i (set_context sp) ;;
        on_mem (kmemset sp 0 context_size) ;;
        on_mem (store (sp + 16) addr_forkret) ;;
        mret (Some i)
  end.

(** ** userinit; [initcode] is the program the build embeds in the kernel. *)
Definition store16 (a v : Z) : M K unit := on_mem (Vm.store_bytes a (take 2 (word_bytes v))).
Definition userinit (initcode : bytes) : M K unit :=
  r ← allocproc;
  match r with
  | None => undef "null process"
  | Some i =>
      on_pt (fun _ => modify (set_initproc (Some i))) ;;
      d ← on_mem setupkvm;
      set_proc i (set_pgdir d) ;;
      (if d =? 0 then panic "userinit: out of memory?" else mret tt) ;;
      on_mem (inituvm d initcode (Z.of_nat (length initcode))) ;;
      set_proc i (set_sz PGSIZE) ;;
      p ← nth_proc i;
      let t := tf p in
      on_mem (kmemset t 0 tf_size) ;;
      store16 (t + tf_cs) 0x1b ;;
      store16 (t + 44) 0x23 ;;
      store16 (t + 40) 0x23 ;;
      store16 (t + tf_ss) 0x23 ;;
      on_mem (store (t + tf_eflags) FL_IF) ;;
      on_mem (store (t + tf_esp) PGSIZE) ;;
      on_mem (store (t + tf_eip) 0) ;;
      set_proc i (fun p => set_name (name_copy (name p) (bytes_of "initcode")) p) ;;
      ip ← on_fs (namei [SLASH]);
      set_proc i (set_cwd (match ip with Some ip => ptr ip | None => 0 end)) ;;
      on_pt pt_acquire ;;
      set_proc i (set_state RUNNABLE) ;;
      on_pt pt_release
  end.

(** ** growproc *)
Definition growproc (n : Z) : M K Z :=
  i ← me_proc;
  p ← nth_proc i;
  z ← (if 0 <? n then on_mem (allocuvm (pgdir p) (sz p) (u32 (sz p + n)))
       else if n <? 0 then on_mem (deallocuvm (pgdir p) (sz p) (u32 (sz p + n)))
       else mret (sz p));
  if negb (n =? 0) && (z =? 0) then mret (-1)
  else set_proc i (set_sz z) ;; on_pt (fun me => switchuvm me (Some i)) ;; mret 0.

(** ** fork *)
Definition area (a : nat) : M K mmap_area := fun k =>
  match k_areas k !! a with Some x => Ok (x, k) | None => Undef "not an area" end.
Definition set_area (a : nat) (x : mmap_area) : M K unit :=
  modify (fun k => lset areasL (<[a := x]> (k_areas k)) k).
Definition set_status (v : Z) (x : mmap_area) : mmap_area :=
  MArea (ma_f x) (ma_addr x) (ma_length x) (ma_offset x) (ma_prot x) (ma_flags x) (ma_p x) v.
Definition free_area : M K (option nat) :=
  l ← gets k_areas; mret (fst <$> list_find (fun x => ma_status x = 0) l).

(** [for(i = 0; i < length; i += PGSIZE)]: the pages of an area for the child;
    [Some r] when fork returns [r] from inside. *)
Fixpoint fork_pages (fuel : nat) (np : proc) (x : mmap_area) (i : Z) : M K (option Z) :=
  match fuel with
  | O => hang
  | S fuel =>
      if i <? ma_length x then
        mem ← on_mem kalloc;
        if mem =? 0 then mret (Some 0)
        else
          on_mem (kmemset mem 0 PGSIZE) ;;
          l ← load_bytes (u32 (ma_addr x + i)) (Z.to_nat PGSIZE);
          on_mem (Vm.store_bytes mem l) ;;
          on_mem (mappages (pgdir np) (u32 (ma_addr x + i)) PGSIZE (V2P mem) (Z.lor (ma_prot x) PTE_U)) ;;
          fork_pages fuel np x (i + PGSIZE)
      else mret None
  end.
Definition area_pages (x : mmap_area) : nat := S (Z.to_nat (ma_length x / PGSIZE + 1)).

Definition set_file_off (f : option nat) (off : Z) : M K unit :=
  match f with Some f => set_file f (set_foff (u32 off)) | None => undef "null file" end.
(** One area of the parent. *)
Definition fork_area (cp np : nat) (a : nat) : M K (option Z) :=
  x ← area a;
  if bool_decide (ma_p x = Some cp) && negb (ma_status x =? 0) then
    e ← free_area;
    match e with
    | None => kprintf "Fork error: there is no empty mmap_area\n" [] ;; mret (Some (-1))
    | Some b =>
        set_area b (MArea (ma_f x) (ma_addr x) (ma_length x) (ma_offset x) (ma_prot x) (ma_flags x)
                      (Some np) (ma_status x)) ;;
        if ma_status x =? 1 then
          when ((ma_flags x =? 0) || (ma_flags x =? MAP_POPULATE)) (set_file_off (ma_f x) (ma_offset x)) ;;
          q ← nth_proc np;
          r ← fork_pages (area_pages x) q x 0;
          match r with
          | Some r => mret (Some r)
          | None => y ← area b; set_area b (set_status 1 y) ;; mret None
          end
        else mret None
    end
  else mret None.
Fixpoint fork_areas (cp np : nat) (l : list nat) : M K (option Z) :=
  match l with
  | [] => mret None
  | a :: l =>
      r ← fork_area cp np a;
      match r with Some r => mret (Some r) | None => fork_areas cp np l end
  end.

(** [if(curproc->ofile[i]) np->ofile[i] = filedup(curproc->ofile[i])] *)
Definition fork_fd (cp np : nat) (fd : nat) : M K unit :=
  p ← nth_proc cp;
  match of_ptr (nth fd (ofile p) 0) with
  | None => mret tt
  | Some f => f' ← filedup f; set_proc np (fun q => set_ofile (<[fd := ptr f']> (ofile q)) q)
  end.

Definition copy_tf (src dst : Z) : M K unit :=
  on_mem (modify (fun s => lset ramL (memmove (ram s) dst src tf_size).2 s)).

Definition fork : M K Z :=
  cp ← me_proc;
  r ← allocproc;
  match r with
  | None => mret (-1)
  | Some np =>
      p ← nth_proc cp;
      d ← on_mem (copyuvm (pgdir p) (sz p));
      set_proc np (set_pgdir d) ;;
      if d =? 0 then
        q ← nth_proc np;
        on_mem (kfree (kstack q)) ;;
        set_proc np (set_kstack 0) ;;
        set_proc np (set_state UNUSED) ;;
        mret (-1)
      else
        set_proc np (set_sz (sz p)) ;;
        set_proc np (set_parent (Some cp)) ;;
        q ← nth_proc np;
        copy_tf (tf p) (tf q) ;;
        set_proc np (set_nice (nice p)) ;;
        set_proc np (set_weight (nth (Z.to_nat (nice p)) nice_to_weight 0)) ;;
        set_proc np (set_vruntime (vruntime p)) ;;
        set_proc np (set_int_overflow (int_overflow p)) ;;
        on_mem (store (tf q + tf_eax) 0) ;;
        for_each (seq 0 (Z.to_nat NOFILE)) (fork_fd cp np) ;;
        ip ← on_fs (idup (cwd_slot (Sched.cwd p)));
        set_proc np (set_cwd (ptr ip)) ;;
        set_proc np (fun q => set_name (name_copy (name q) (cstr (name p))) q) ;;
        r ← fork_areas cp np (seq 0 64);
        match r with
        | Some r => mret r
        | None =>
            q ← nth_proc np;
            on_pt pt_acquire ;;
            set_proc np (set_state RUNNABLE) ;;
            on_pt pt_release ;;
            mret (pid q)
        end
  end.

(** ** exit *)
Definition proc_chan (o : option nat) : Z := match o with Some i => addr_proc i | None => 0 end.

Definition close_fd (cp fd : nat) : M K unit :=
  p ← nth_proc cp;
  match of_ptr (nth fd (ofile p) 0) with
  | None => mret tt
  | Some f => fileclose f ;; set_proc cp (fun p => set_ofile (<[fd := 0]> (ofile p)) p)
  end.

(** [if(p->parent == curproc){ p->parent = initproc; if(p->state == ZOMBIE) wakeup1(initproc); }] *)
Definition reparent (cp i : nat) : M ptable unit :=
  p ← get_proc i;
  init ← gets initproc;
  if decide (parent p = Some cp) then
    upd_proc i (set_parent init) ;;
    when (bool_decide (state p = ZOMBIE)) (wakeup1 (proc_chan init))
  else mret tt.

(** The part of exit that holds ptable.lock, up to the switch to the scheduler. *)
Definition exit_table (me cp : nat) : M ptable unit :=
  upd_vruntime cp ;;
  pt_acquire me ;;
  p ← get_proc cp;
  wakeup1 (proc_chan (parent p)) ;;
  for_each (seq 0 (Z.to_nat NPROC)) (reparent cp) ;;
  upd_proc cp (set_state ZOMBIE) ;;
  sched me.

(** exit does not return: the CPU has left the process when this is done. *)
Definition exit : M K unit :=
  cp ← me_proc;
  init ← gets (fun k => initproc (k_pt k));
  (if decide (init = Some cp) then panic "init exiting" else mret tt) ;;
  for_each (seq 0 (Z.to_nat NOFILE)) (close_fd cp) ;;
  on_log begin_op ;;
  p ← nth_proc cp;
  on_fs (iput (cwd_slot (Sched.cwd p))) ;;
  on_log end_op ;;
  set_proc cp (set_cwd 0) ;;
  on_pt (fun me => exit_table me cp).

(** ** wait *)

(** The scan: the first child that has exited, or whether there are children. *)
Inductive scan := Zombie (i : nat) | Children | NoChildren.
Fixpoint wait_scan (cp : nat) (i : nat) (ps : list proc) (havekids : bool) : scan :=
  match ps with
  | [] => if havekids then Children else NoChildren
  | p :: ps =>
      if decide (parent p = Some cp) then
        if decide (state p = ZOMBIE) then Zombie i else wait_scan cp (S i) ps true
      else wait_scan cp (S i) ps havekids
  end.

Definition reap (i : nat) : M K Z :=
  p ← nth_proc i;
  on_mem (kfree (kstack p)) ;;
  set_proc i (set_kstack 0) ;;
  on_mem (freevm (pgdir p)) ;;
  set_proc i (set_pid 0) ;;
  set_proc i (set_parent None) ;;
  set_proc i (fun p => set_name (<[0%nat := 0]> (name p)) p) ;;
  set_proc i (set_killed 0) ;;
  set_proc i (set_state UNUSED) ;;
  on_pt pt_release ;;
  mret (pid p).

(** One round of wait's loop, with ptable.lock held: the result, or [None] when
    the process has gone to sleep on its own address. *)
Definition wait_round : M K (option Z) :=
  cp ← me_proc;
  ps ← gets (fun k => procs (k_pt k));
  match wait_scan cp 0 ps false with
  | Zombie i => r ← reap i; mret (Some r)
  | NoChildren => on_pt pt_release ;; mret (Some (-1))
  | Children =>
      kd ← am_killed;
      if (kd : bool) then on_pt pt_release ;; mret (Some (-1))
      else on_pt (fun me => sleep_out me (addr_proc cp) false) ;; mret None
  end.
Definition wait : M K (option Z) := on_pt pt_acquire ;; wait_round.
(** The rest of the call when the sleeping process runs again. *)
Definition wait_resume : M K (option Z) := on_pt (fun me => sleep_in me false) ;; wait_round.

(** ** forkret *)
Definition forkret : M K unit :=
  on_pt pt_release ;;
  first ← gets k_first;
  if truthy first then
    modify (set_first 0) ;;
    on_fs (iinit ROOTDEV) ;;
    on_log (initlog ROOTDEV)
  else mret tt.

(** ** procdump and ps *)
Definition state_name (st : procstate) : string :=
  match st with
  | UNUSED => "unused" | EMBRYO => "embryo" | SLEEPING => "sleep " | RUNNABLE => "runble"
  | RUNNING => "run   " | ZOMBIE => "zombie"
  end.
Fixpoint until_zero (l : list Z) : list Z :=
  match l with [] => [] | x :: l => if x =? 0 then [] else x :: until_zero l end.
Definition procdump_slot (i : nat) : M K unit :=
  p ← nth_proc i;
  if decide (state p = UNUSED) then mret tt
  else
    kprintf "%d %s %s" [CInt (pid p); CStr (Some (bytes_of (state_name (state p)))); CStr (Some (cstr (name p)))] ;;
    (if decide (state p = SLEEPING) then
       m ← gets (fun k => ram (k_mem k));
       for_each (until_zero (getcallerpcs m (rdw m (context p + 12) + 8))) (fun pc => kprintf " %p" [CInt pc])
     else mret tt) ;;
    kprintf "\n" [].
Definition procdump : M K unit := for_each (seq 0 (Z.to_nat NPROC)) procdump_slot.

(** The two branches of ps print the state with different padding. *)
Definition ps_state (pad : bool) (st : procstate) : string :=
  match st, pad with
  | UNUSED, true => "UNUSED  \t" | UNUSED, false => "UNUSED\t"
  | EMBRYO, true => "EMBRYO  \t" | EMBRYO, false => "EMBRYO\t"
  | SLEEPING, _ => "SLEEPING\t"
  | RUNNABLE, _ => "RUNNABLE\t"
  | RUNNING, true => "RUNNING \t" | RUNNING, false => "RUNNING\t"
  | ZOMBIE, true => "ZOMBIE  \t" | ZOMBIE, false => "ZOMBIE\t"
  end.
Definition ps_line (pad : bool) (p : proc) : M K unit :=
  kprintf "%s\t%d\t" [CStr (Some (cstr (name p))); CInt (pid p)] ;;
  kprintf (ps_state pad (state p)) [] ;;
  (if weight p =? 0 then undef "division by zero" else mret tt) ;;
  kprintf (if actual_runtime p =? 0 then "%d\t        %d\t\t %d   \t\t%d\n" else "%d\t        %d\t\t %d   \t%d\n")
    [CInt (nice p); CInt (actual_runtime p / u32 (weight p)); CInt (actual_runtime p); CInt (vruntime p)].
Definition ps_all (i : nat) : M K unit :=
  p ← nth_proc i;
  if decide (state p = UNUSED) then mret tt else ps_line true p.
Definition ps (pd : Z) : M K unit :=
  on_pt pt_acquire ;;
  t ← gets k_ticks;
  kprintf "name\tpid\tstate\t\tpriority\truntime/weight   runtime   \tvruntime\ttick %d\n" [CInt (u32 (1000 * t))] ;;
  (if pd =? 0 then for_each (seq 0 (Z.to_nat NPROC)) ps_all
   else
     l ← gets (fun k => procs (k_pt k));
     match list_find (fun p => state p <> UNUSED /\ pid p = pd) l with
     | Some (_, p) => ps_line false p
     | None => mret tt
     end) ;;
  on_pt pt_release.
End Proc.
