(* ===== verification/Start.v ===== *)
(** * The start of the kernel (main.c), with the initialisation of its parts

    [main] runs on the boot processor, before there is a process: it sets up
    memory, the processors, the interrupt controllers, the devices, the other
    processors and the first process, and enters the scheduler. *)
From S2P Require Import Prelude CString Layout Spinlock Kalloc Vm Fp Sched Bytes Console Sleeplock Bio Ide Io Mp Apic Segs Log TxDisk Fs Pipe Kernel File Syscall Proc.

Open Scope Z_scope.

(** Addresses the linker chooses, and the program in entryother.S. *)
Class BootSyms := {
  addr_mpenter : Z;
  addr_entrypgdir : Z;
  vectors : nat -> Z;
  entryother : bytes
}.

(** The processors: which one runs, and a bound for the wait of lapicinit. *)
Class Cpus (H : Type) := { run_on : Z -> H -> H; ipi_bound : nat }.

(** binit and the part of ideinit that concerns the disk. *)
Class DiskInit (C : Type) := { cache_init : M C unit; disk_init : M C unit }.
#[export] Instance ide_init {H} `{HW : !IdeHw H} : DiskInit (Bcache.bcache (ide H)) := {
  cache_init := modify (fun c => Bcache.binit (Bcache.drv c) (Bcache.me c));
  disk_init := zoom (Lens Bcache.drv (fun d c => Bcache.BCache (Bcache.bc_lock c) (Bcache.bufs c) (Bcache.mru c) d (Bcache.me c))) Ide.ideinit
}.

(** ** The state while the kernel starts

    The kernel, the devices, what mpinit finds, the table of gates, and for each
    CPU whether it has started, its segment table and whether it has loaded the
    table of gates.  [b_cr3] is the page table register of the boot processor
    before it has a number. *)
Record boot (C H : Type) := Boot {
  b_k : kernel C; b_h : H; b_ids : list Z; b_ioapicid : Z; b_lapic : Z; b_idt : list gatedesc;
  b_started : list Z; b_gdt : list (list segdesc); b_idtr : list bool; b_cr3 : Z }.
Arguments Boot {C H} _ _ _ _ _ _ _ _ _ _.
Arguments b_k {C H} _.
Arguments b_h {C H} _.
Arguments b_ids {C H} _.
Arguments b_ioapicid {C H} _.
Arguments b_lapic {C H} _.
Arguments b_idt {C H} _.
Arguments b_started {C H} _.
Arguments b_gdt {C H} _.
Arguments b_idtr {C H} _.
Arguments b_cr3 {C H} _.

Section Start.
Context {C : Type} `{BC : !BufCache C} `{DI : !DiskInit C} {H : Type} `{IO : !Io H} `{CP : !Cpus H}.
Context `{L : !Layout} `{FE : !FpEnv} `{SY : !KSyms} `{BS : !BootSyms}.
Abbreviation B := (boot C H).
Implicit Types s : B.

Definition kL : lens B (kernel C) := Lens b_k (fun k s =>
  Boot k (b_h s) (b_ids s) (b_ioapicid s) (b_lapic s) (b_idt s) (b_started s) (b_gdt s) (b_idtr s) (b_cr3 s)).
Definition hL : lens B H := Lens b_h (fun h s =>
  Boot (b_k s) h (b_ids s) (b_ioapicid s) (b_lapic s) (b_idt s) (b_started s) (b_gdt s) (b_idtr s) (b_cr3 s)).
Definition set_idt v s :=
  Boot (b_k s) (b_h s) (b_ids s) (b_ioapicid s) (b_lapic s) v (b_started s) (b_gdt s) (b_idtr s) (b_cr3 s).
Definition set_started v s :=
  Boot (b_k s) (b_h s) (b_ids s) (b_ioapicid s) (b_lapic s) (b_idt s) v (b_gdt s) (b_idtr s) (b_cr3 s).
Definition set_gdt v s :=
  Boot (b_k s) (b_h s) (b_ids s) (b_ioapicid s) (b_lapic s) (b_idt s) (b_started s) v (b_idtr s) (b_cr3 s).
Definition set_idtr v s :=
  Boot (b_k s) (b_h s) (b_ids s) (b_ioapicid s) (b_lapic s) (b_idt s) (b_started s) (b_gdt s) v (b_cr3 s).
Definition set_cr3 v s :=
  Boot (b_k s) (b_h s) (b_ids s) (b_ioapicid s) (b_lapic s) (b_idt s) (b_started s) (b_gdt s) (b_idtr s) v.
Definition on_k {A} (m : M (kernel C) A) : M B A := zoom kL m.
Definition on_h {A} (m : M H A) : M B A := zoom hL m.

(** ** vm.c, proc.c, trap.c, console.c, uart.c *)
Definition set_kpgdir (d : Z) (p : ptable) : ptable := Pt (plock p) (procs p) (initproc p) (nextpid p) (pcpus p) d.
(** Without a page table the next instruction cannot be fetched. *)
Definition kvmalloc : M B unit :=
  d ← on_k (on_mem setupkvm);
  on_k (on_pt (fun _ => modify (set_kpgdir d))) ;;
  if d =? 0 then undef "no kernel page table" else modify (set_cr3 (V2P d)).

(** The tables of mp.c are in the kernel's memory; the entries of [cpus] are
    zero but for the id. *)
Definition mpL : lens B (mpst H) := Lens
  (fun s => Mpst (ram (k_mem (b_k s))) (b_ids s) (b_ioapicid s) (b_lapic s) (b_h s))
  (fun v s => Boot (b_k s) (mp_io v) (mp_ids v) (ioapicid v) (lapic v) (b_idt s) (b_started s) (b_gdt s) (b_idtr s) (b_cr3 s)).
Definition zero_cpu : pcpu := Pcpu None 0 0 false 0 0.
Definition fill_cpus : M B unit :=
  ids ← gets b_ids;
  on_k (on_pt (fun _ => modify (lset cpusL (map (fun _ => zero_cpu) ids)))) ;;
  modify (set_started (map (fun _ => 0) ids)) ;;
  modify (set_gdt (map (fun _ => replicate (Z.to_nat NSEGS) no_seg) ids)) ;;
  modify (set_idtr (map (fun _ => false) ids)).
Definition boot_mpinit : M B unit := zoom mpL mpinit ;; fill_cpus.

Definition boot_lapicinit : M B unit := a ← gets b_lapic; on_h (lapicinit ipi_bound a).

(** mycpu, as an index into [cpus]. *)
Definition boot_mycpu : M B nat :=
  a ← gets b_lapic;
  id ← on_h (lapicid a);
  ids ← gets b_ids;
  match list_find (eq id) ids with
  | Some (i, _) => mret i
  | None => panic "unknown apicid"
  end.
Definition set_me (i : nat) (k : kernel C) : kernel C :=
  Kernel i (k_mem k) (k_pt k) (k_fs k) (k_ftlock k) (k_files k) (k_pipes k) (k_areas k) (k_tickslock k) (k_ticks k) (k_first k).

Definition seginit : M B unit :=
  i ← boot_mycpu;
  modify (fun s => set_gdt (alter seginit_gdt i (b_gdt s)) s).
(** From here the boot processor has a number, and its register is that of
    its entry. *)
Definition adopt : M B unit :=
  i ← boot_mycpu;
  cr3 ← gets b_cr3;
  on_k (modify (set_me i)) ;;
  on_k (on_pt (fun _ => upd_pcpu i (fun x => Pcpu (c_proc x) (c_esp0 x) cr3 (c_if x) (c_ncli x) (c_intena x)))).

Definition boot_ioapicinit : M B unit :=
  id ← gets b_ioapicid;
  differs ← on_h (ioapicinit id);
  when differs (on_k (kprintf "ioapicinit: id isn't equal to ioapicid; not a MP\n" [])).

(** The device table is a constant of the model. *)
Definition consoleinit : M B unit :=
  on_k (on_console (modify (lset c_lockL false))) ;;
  on_k (on_console (modify (set_locking 1))) ;;
  on_h (ioapicenable IRQ_KBD 0).

Definition COM1 : Z := 0x3f8.
Definition set_uart (v : Z) (c : screen) : screen := Screen (panicked c) v (serial c) (crt c) (cursor c).
Definition uartinit : M B unit :=
  on_h (outb (COM1 + 2) 0) ;;
  on_h (outb (COM1 + 3) 0x80) ;;
  on_h (outb (COM1 + 0) (115200 / 9600)) ;;
  on_h (outb (COM1 + 1) 0) ;;
  on_h (outb (COM1 + 3) 0x03) ;;
  on_h (outb (COM1 + 4) 0) ;;
  on_h (outb (COM1 + 1) 0x01) ;;
  st ← on_h (inb (COM1 + 5));
  if st =? 0xFF then mret tt
  else
    on_k (on_console (zoom scrL (modify (set_uart 1)))) ;;
    on_h (inb (COM1 + 2)) ;;
    on_h (inb (COM1 + 0)) ;;
    on_h (ioapicenable IRQ_COM1 0) ;;
    on_k (on_console (zoom scrL (for_each (bytes_of "xv6..." ++ [10]) uartputc))).

Definition pinit : M B unit := on_k (on_pt (fun _ => modify (lset plockL false))).
Definition tvinit : M B unit :=
  modify (fun s => set_idt (tvinit_idt vectors (b_idt s)) s) ;;
  on_k (modify (lset tickslockL false)).
Definition idtinit : M B unit := i ← boot_mycpu; modify (fun s => set_idtr (<[i := true]> (b_idtr s)) s).
Definition binit : M B unit := on_k (on_log (zoom bcL cache_init)).
Definition ideinit : M B unit :=
  n ← gets (fun s => Z.of_nat (length (b_ids s)));
  on_h (ioapicenable IRQ_IDE (n - 1)) ;;
  on_k (on_log (zoom bcL disk_init)).

(** ** main.c *)

(** The page table of entry.S and entryother.S, with two pages of 4 MB. *)
Definition entrypgdir : list Z :=
  let e := Z.lor (Z.lor (Z.lor 0 PTE_P) PTE_W) PTE_PS in
  <[Z.to_nat (Z.shiftr KERNBASE PDXSHIFT) := e]> (<[0%nat := e]> (replicate (Z.to_nat NPDENTRIES) 0)).

(** mpmain up to the scheduler. *)
Definition mpmain : M B unit :=
  i ← boot_mycpu;
  on_k (kprintf "cpu%d: starting %d\n" [CInt (Z.of_nat i); CInt (Z.of_nat i)]) ;;
  idtinit ;;
  i ← boot_mycpu;
  modify (fun s => set_started (<[i := 1]> (b_started s)) s).

Definition mpenter : M B unit :=
  on_k (on_pt switchkvm) ;;
  seginit ;;
  boot_lapicinit ;;
  mpmain.

(** entryother.S on the processor with this id: it takes its stack, the page
    table and the function to call from the words below its code.  It runs with
    its own local controller and registers. *)
Definition code : Z := P2V 0x7000.
Definition start_cpu (id : Z) : M B unit :=
  me ← gets (fun s => k_me (b_k s));
  h0 ← gets b_lapic;
  this ← on_h (lapicid h0);
  on_h (modify (run_on id)) ;;
  i ← boot_mycpu;
  on_k (modify (set_me i)) ;;
  esp ← on_k (on_mem (load (code - 4)));
  f ← on_k (on_mem (load (code - 8)));
  pg ← on_k (on_mem (load (code - 12)));
  (if negb (f =? addr_mpenter) || negb (pg =? V2P addr_entrypgdir) then undef "entry of another processor"
   else if esp =? KSTACKSIZE then undef "no stack"
   else mpenter) ;;
  on_h (modify (run_on this)) ;;
  on_k (modify (set_me me)).

(** [while(c->started == 0);] the other processor runs while this one waits. *)
Definition wait_started (c : nat) (id : Z) : M B unit :=
  st ← gets (fun s => b_started s !! c);
  if bool_decide (st = Some 0) then
    start_cpu id ;;
    st ← gets (fun s => b_started s !! c);
    if bool_decide (st = Some 0) then hang else mret tt
  else mret tt.

Definition ramhL : lens B (mem * H) := Lens
  (fun s => (ram (k_mem (b_k s)), b_h s))
  (fun p s => lset hL p.2 (lset kL (lset memL (lset ramL p.1 (k_mem (b_k s))) (b_k s)) s)).
Definition start_other (c : nat) (id : Z) : M B unit :=
  me ← boot_mycpu;
  if decide (c = me) then mret tt
  else
    stack ← on_k (on_mem kalloc);
    on_k (on_mem (store (code - 4) (u32 (stack + KSTACKSIZE)))) ;;
    on_k (on_mem (store (code - 8) addr_mpenter)) ;;
    on_k (on_mem (store (code - 12) (V2P addr_entrypgdir))) ;;
    a ← gets b_lapic;
    zoom ramhL (lapicstartap a id (V2P code)) ;;
    wait_started c id.
Definition startothers : M B unit :=
  on_k (on_mem (store_bytes code entryother)) ;;
  ids ← gets b_ids;
  for_each (imap pair ids) (fun c => start_other c.1 c.2).

Definition main (initcode : bytes) : M B unit :=
  on_k (on_mem (kinit1 kend (P2V (4 * 1024 * 1024)))) ;;
  kvmalloc ;;
  boot_mpinit ;;
  boot_lapicinit ;;
  seginit ;; adopt ;;
  on_h picinit ;;
  boot_ioapicinit ;;
  consoleinit ;;
  uartinit ;;
  pinit ;;
  tvinit ;;
  binit ;;
  on_k fileinit ;;
  ideinit ;;
  startothers ;;
  on_k (on_mem (kinit2 (P2V (4 * 1024 * 1024)) (P2V PHYSTOP))) ;;
  on_k (userinit initcode) ;;
  mpmain.
End Start.
