(* ===== verification/StartProps.v ===== *)
(** * Lemmas on the steps of the start

    The interrupt controllers as their data sheets describe them, with the effect
    of the functions that program them; what the initialisation of memory leaves
    alone; printing while the kernel starts. *)
From S2P Require Import Prelude CString Layout Spinlock Kalloc Vm VmProps KvmRoom Fp Sched SchedProps Bytes Console ConsoleProps Sleeplock Bio Ide Io Mp Apic Segs Log TxDisk Fs Pipe Kernel File Syscall Proc Start.

Open Scope Z_scope.

(** ** The controllers

    Every processor reads its own id at the address of the local controller, and
    messages are delivered after a bounded number of polls.  The I/O controller has
    a register that selects one of the others, which the data register then shows.
    No other access concerns it. *)
Class Board (H : Type) `{IO : !Io H} `{CP : !Cpus H} := {
  cpu_of : H -> Z;
  lapic_base : Z;
  io_regs : H -> Z -> Z;
  io_sel : H -> Z;
  ipi_delay : H -> nat;
  lapic_page : lapic_base mod 4096 = 0 /\ 0 < lapic_base < 4294967296 /\ lapic_base <> IOAPIC;
  cpu_range h : 0 <= cpu_of h < 256;
  cpu_run_on i h : 0 <= i < 256 -> cpu_of (run_on i h) = i /\ io_regs (run_on i h) = io_regs h;
  outb_board p v h : cpu_of (io_outb p v h) = cpu_of h /\ io_regs (io_outb p v h) = io_regs h;
  inb_board p h : cpu_of (io_inb p h).2 = cpu_of h /\ io_regs (io_inb p h).2 = io_regs h;
  read_board a h : cpu_of (mm_read a h).2 = cpu_of h /\ io_regs (mm_read a h).2 = io_regs h;
  write_board a v h : cpu_of (mm_write a v h) = cpu_of h /\ (a <> ioapic_data -> io_regs (mm_write a v h) = io_regs h);
  select_reg r h : io_sel (mm_write ioapic_reg r h) = r;
  data_write v h : REG_TABLE <= io_sel h -> forall r, io_regs (mm_write ioapic_data v h) r = if r =? io_sel h then v else io_regs h r;
  data_read h : (mm_read ioapic_data h).1 = io_regs h (io_sel h);
  id_read h : (mm_read (lapic_base + 4 * ID) h).1 = Z.shiftl (cpu_of h) 24;
  icr_read h : truthy (Z.land (u32 (mm_read (lapic_base + 4 * ICRLO) h).1) DELIVS) = true ->
    (ipi_delay (mm_read (lapic_base + 4 * ICRLO) h).2 < ipi_delay h)%nat;
  ipi_small h : (ipi_delay h < ipi_bound)%nat
}.

Section Controllers.
Context {H : Type} `{IO : !Io H} `{CP : !Cpus H} `{BD : !Board H}.
Implicit Types h : H.

Definition same_board h h' : Prop := cpu_of h' = cpu_of h /\ io_regs h' = io_regs h.
Lemma same_board_refl h : same_board h h.
Proof. done. Qed.
Lemma same_board_trans h1 h2 h3 : same_board h1 h2 -> same_board h2 h3 -> same_board h1 h3.
Proof. unfold same_board. intros [E1 E2] [E3 E4]. split; congruence. Qed.

(** Programs that leave the I/O controller alone and end. *)
Definition quiet {A} (m : M H A) : Prop := forall h, wp m (fun _ h' => same_board h h') h.
Lemma quiet_ret {A} (a : A) : quiet (mret a).
Proof. intros h. by apply wp_ret. Qed.
Lemma quiet_bind {A B} (m : M H A) (f : A -> M H B) : quiet m -> (forall a, quiet (f a)) -> quiet (a ← m; f a).
Proof.
  intros Hm Hf h. rewrite wp_bind. eapply wp_mono; [apply Hm|]. intros a h1 E1. eapply wp_mono; [apply Hf|]. intros b h2 E2. exact (same_board_trans _ _ _ E1 E2).
Qed.
Lemma quiet_outb p v : quiet (Io.outb p v).
Proof. intros h. rewrite wp_outb. apply outb_board. Qed.
Lemma quiet_inb p : quiet (Io.inb p).
Proof. intros h. rewrite wp_inb. apply inb_board. Qed.
Lemma quiet_readl a : quiet (readl a).
Proof. intros h. rewrite wp_readl. apply read_board. Qed.
Lemma quiet_writel a v : u32 a <> ioapic_data -> quiet (writel a v).
Proof. intros D h. rewrite wp_writel. destruct (write_board (u32 a) (u32 v) h) as [E1 E2]. split; [done|by apply E2]. Qed.
Lemma quiet_when b m : quiet m -> quiet (when b m).
Proof. intros Hm. destruct b; [done|apply quiet_ret]. Qed.
Lemma quiet_for_each {A} (l : list A) f : (forall x, quiet (f x)) -> quiet (for_each l f).
Proof. intros Hf. induction l as [|x l IH]; cbn [for_each]; [apply quiet_ret|apply quiet_bind; [done|by intros _]]. Qed.

Lemma lapic_addr k : 0 <= k < 1024 -> u32 (lapic_base + 4 * k) = lapic_base + 4 * k /\ lapic_base + 4 * k <> ioapic_data.
Proof.
  intros Hk. destruct lapic_page as (H1 & H2 & H3). unfold ioapic_data, IOAPIC in *. rewrite u32_small; Z.div_mod_to_equations; lia.
Qed.
Lemma quiet_lapicw k v : 0 <= k < 1024 -> quiet (lapicw lapic_base k v).
Proof.
  intros Hk. destruct (lapic_addr k Hk) as [E D]. apply quiet_bind; [apply quiet_writel; by rewrite E|]. intros _.
  apply quiet_bind; [apply quiet_readl|]. intros _. apply quiet_ret.
Qed.
Lemma wp_lapicid (Q : Z -> H -> Prop) h : (forall h', same_board h h' -> Q (cpu_of h) h') -> wp (Apic.lapicid lapic_base) Q h.
Proof.
  intros HQ. unfold Apic.lapicid, lapicr. destruct lapic_page as (_ & H2 & _). rewrite (proj2 (Z.eqb_neq _ _)) by lia.
  rewrite wp_bind, wp_readl, wp_ret. destruct (lapic_addr ID ltac:(by vm_compute)) as [-> _]. rewrite id_read. pose proof (cpu_range h) as R.
  rewrite Z.shiftl_mul_pow2, u32_small, Z.shiftr_div_pow2, Z.div_mul by lia. apply HQ, read_board.
Qed.
Lemma quiet_wait : quiet (wait_delivery ipi_bound lapic_base).
Proof.
  cut (forall fuel h0 h, (ipi_delay h < fuel)%nat -> same_board h0 h -> wp (wait_delivery fuel lapic_base) (fun _ h' => same_board h0 h') h).
  { intros G h. apply (G _ h h); [apply ipi_small|done]. }
  induction fuel as [|fuel IH]; intros h0 h Hf S0; [lia|]. cbn [wait_delivery]. unfold lapicr. rewrite wp_bind, wp_readl.
  destruct (lapic_addr ICRLO ltac:(by vm_compute)) as [-> _]. pose proof (read_board (lapic_base + 4 * ICRLO) h) as S1. pose proof (icr_read h) as D.
  pose proof (same_board_trans _ _ _ S0 S1) as S2. destruct (truthy _); [|by rewrite wp_ret]. apply IH; [specialize (D eq_refl); lia|done].
Qed.
Lemma quiet_lapicinit : quiet (lapicinit ipi_bound lapic_base).
Proof.
  unfold lapicinit. destruct lapic_page as (_ & H2 & _). rewrite (proj2 (Z.eqb_neq _ _)) by lia.
  do 6 (apply quiet_bind; [by apply quiet_lapicw|intros _]). apply quiet_bind; [apply quiet_readl|intros v].
  apply quiet_bind; [by apply quiet_when, quiet_lapicw|intros _]. do 6 (apply quiet_bind; [by apply quiet_lapicw|intros _]).
  apply quiet_bind; [apply quiet_wait|intros _]. by apply quiet_lapicw.
Qed.
Lemma quiet_picinit : quiet picinit.
Proof. apply quiet_bind; [apply quiet_outb|intros _; apply quiet_outb]. Qed.
Lemma quiet_cmos_shutdown : quiet cmos_shutdown.
Proof. apply quiet_bind; [apply quiet_outb|intros _; apply quiet_outb]. Qed.
Lemma quiet_startup id addr : quiet (universal_startup lapic_base id addr).
Proof.
  unfold universal_startup. do 2 (apply quiet_bind; [by apply quiet_lapicw|intros _]). apply quiet_bind; [apply quiet_ret|intros _].
  apply quiet_bind; [by apply quiet_lapicw|intros _]. apply quiet_bind; [apply quiet_ret|intros _]. apply quiet_for_each. intros _.
  do 2 (apply quiet_bind; [by apply quiet_lapicw|intros _]). apply quiet_ret.
Qed.

(** The registers of the I/O controller. *)
Definition upd (R : Z -> Z) (k v : Z) : Z -> Z := fun r => if r =? k then v else R r.
Lemma wp_ioapicwrite reg data (R : Z -> Z) (Q : unit -> H -> Prop) h : REG_TABLE <= reg < 4294967296 -> (forall r, io_regs h r = R r) ->
  (forall h', cpu_of h' = cpu_of h -> (forall r, io_regs h' r = upd R reg (u32 data) r) -> Q tt h') -> wp (ioapicwrite reg data) Q h.
Proof.
  unfold REG_TABLE. intros Hr HR HQ. unfold ioapicwrite. rewrite wp_bind, wp_writel, wp_writel. change (u32 ioapic_reg) with ioapic_reg. change (u32 ioapic_data) with ioapic_data.
  rewrite (u32_small reg) by lia. destruct (write_board ioapic_reg reg h) as [E1 E2]. specialize (E2 ltac:(done)). pose proof (select_reg reg h) as S. set (h1 := mm_write ioapic_reg _ _) in *.
  destruct (write_board ioapic_data (u32 data) h1) as [E3 _]. apply HQ; [congruence|]. intros r. rewrite data_write by (unfold REG_TABLE; lia). unfold upd. by rewrite S, E2, HR.
Qed.
Lemma wp_ioapicread reg (R : Z -> Z) (Q : Z -> H -> Prop) h : 0 <= reg < 4294967296 -> (forall r, io_regs h r = R r) ->
  (forall h', cpu_of h' = cpu_of h -> (forall r, io_regs h' r = R r) -> Q (u32 (R reg)) h') -> wp (ioapicread reg) Q h.
Proof.
  intros Hr HR HQ. unfold ioapicread. rewrite wp_bind, wp_writel, wp_readl. change (u32 ioapic_reg) with ioapic_reg. change (u32 ioapic_data) with ioapic_data. rewrite (u32_small reg) by lia.
  destruct (write_board ioapic_reg reg h) as [E1 E2]. specialize (E2 ltac:(done)). pose proof (select_reg reg h) as S. set (h1 := mm_write ioapic_reg _ _) in *.
  destruct (read_board ioapic_data h1) as [E3 E4]. rewrite data_read, S, E2, HR. apply HQ; [congruence|]. intros r. by rewrite E4, E2.
Qed.

(** After ioapicinit every interrupt is masked; ioapicenable unmasks one. *)
Definition maxintr (R : Z -> Z) : Z := Z.land (Z.shiftr (u32 (R REG_VER)) 16) 0xFF.
Definition masked (n : Z) (R : Z -> Z) : Z -> Z := fun r =>
  if (16 <=? r) && (r <? 16 + 2 * n) then if r mod 2 =? 0 then Z.lor INT_DISABLED (T_IRQ0 + (r - 16) / 2) else 0 else R r.
Definition enabled (irq cpu : Z) (R : Z -> Z) : Z -> Z := upd (upd R (16 + 2 * irq) (T_IRQ0 + irq)) (17 + 2 * irq) (u32 (Z.shiftl cpu 24)).

Lemma wp_ioapicenable irq cpu (R : Z -> Z) (Q : unit -> H -> Prop) h : 0 <= irq < 100 -> (forall r, io_regs h r = R r) ->
  (forall h', cpu_of h' = cpu_of h -> (forall r, io_regs h' r = enabled irq cpu R r) -> Q tt h') -> wp (ioapicenable irq cpu) Q h.
Proof.
  unfold REG_TABLE. intros Hi HR HQ. unfold ioapicenable, REG_TABLE. rewrite wp_bind. apply (wp_ioapicwrite _ _ R); [unfold REG_TABLE; lia|done|]. intros h1 C1 R1.
  eapply (wp_ioapicwrite _ _ _ _ h1); [unfold REG_TABLE; lia|exact R1|]. intros h2 C2 R2. apply HQ; [congruence|]. intros r. rewrite R2. unfold enabled.
  replace (16 + 2 * irq + 1) with (17 + 2 * irq) by lia. rewrite (u32_small (T_IRQ0 + irq)) by (unfold T_IRQ0; lia).
  assert (E : u32 (s32 (Z.shiftl cpu 24)) = u32 (Z.shiftl cpu 24)); [|by rewrite E].
  unfold s32, u32. set (x := Z.shiftl cpu 24). destruct (_ <? _); [by rewrite Z.mod_mod|]. rewrite Zminus_mod, Z.mod_mod, Z.mod_same, Z.sub_0_r by lia. by rewrite Z.mod_mod.
Qed.
Lemma masked_step n R r : 0 <= n ->
  upd (upd (masked n R) (16 + 2 * n) (Z.lor INT_DISABLED (T_IRQ0 + n))) (17 + 2 * n) 0 r = masked (n + 1) R r.
Proof.
  intros Hn. unfold upd, masked. destruct (Z.eqb_spec r (17 + 2 * n)) as [->|D1].
  - rewrite (proj2 (Z.leb_le _ _)), (proj2 (Z.ltb_lt _ _)) by lia. cbn [andb]. rewrite (proj2 (Z.eqb_neq _ _)); [done|]. Z.div_mod_to_equations. lia.
  - destruct (Z.eqb_spec r (16 + 2 * n)) as [->|D2].
    + rewrite (proj2 (Z.leb_le _ _)), (proj2 (Z.ltb_lt _ _)) by lia. cbn [andb]. rewrite (proj2 (Z.eqb_eq _ _)) by (Z.div_mod_to_equations; lia).
      f_equal. f_equal. Z.div_mod_to_equations. lia.
    + destruct (Z.leb_spec 16 r), (Z.ltb_spec r (16 + 2 * n)), (Z.ltb_spec r (16 + 2 * (n + 1))); cbn [andb]; try done; lia.
Qed.
Lemma masked_0 R r : masked 0 R r = R r.
Proof. unfold masked. destruct (Z.leb_spec 16 r), (Z.ltb_spec r (16 + 2 * 0)); cbn [andb]; done || lia. Qed.

Lemma wp_ioapicinit id (R : Z -> Z) (Q : bool -> H -> Prop) h : (forall r, io_regs h r = R r) ->
  (forall b h', cpu_of h' = cpu_of h -> (forall r, io_regs h' r = masked (maxintr R + 1) R r) -> Q b h') -> wp (ioapicinit id) Q h.
Proof.
  intros HR HQ. unfold ioapicinit. rewrite wp_bind. apply (wp_ioapicread _ R); [by vm_compute|done|]. intros h1 C1 R1.
  rewrite wp_bind. apply (wp_ioapicread _ R); [by vm_compute|done|]. intros h2 C2 R2. rewrite wp_bind. fold (maxintr R).
  assert (Hm : 0 <= maxintr R < 256).
  { unfold maxintr. change 0xFF with (Z.ones 8). rewrite Z.land_ones by lia. by apply Z.mod_pos_bound. }
  set (n := maxintr R) in *.
  apply wp_for_each with (I := fun dn h' => cpu_of h' = cpu_of h /\ forall r, io_regs h' r = masked (Z.of_nat (length dn)) R r).
  - split; [congruence|]. intros r. cbn [length]. by rewrite masked_0.
  - intros dn x todo h3 E [C3 R3]. assert (x = length dn /\ (length dn < S (Z.to_nat n))%nat) as [-> Hx].
    { assert (Hl : seq 0 (S (Z.to_nat n)) !! length dn = Some x) by (rewrite E; by apply list_lookup_middle). apply lookup_seq in Hl. lia. }
    unfold REG_TABLE. rewrite wp_bind. eapply wp_ioapicwrite; [unfold REG_TABLE; lia|exact R3|]. intros h4 C4 R4.
    eapply wp_ioapicwrite; [unfold REG_TABLE; lia|exact R4|]. intros h5 C5 R5. split; [congruence|]. intros r. rewrite R5, length_app, Nat2Z.inj_add.
    change (Z.of_nat (length [length dn])) with 1. rewrite <-masked_step by lia. replace (16 + 2 * Z.of_nat (length dn) + 1) with (17 + 2 * Z.of_nat (length dn)) by lia.
    unfold upd. destruct (_ =? _); [done|]. destruct (_ =? _); [|done]. apply u32_small. unfold INT_DISABLED, T_IRQ0.
    split; [apply Z.lor_nonneg; lia|]. apply Z.log2_lt_cancel. rewrite Z.log2_lor by lia. change (Z.log2 4294967296) with 32.
    assert (Z.log2 (32 + Z.of_nat (length dn)) < 32) by (apply Z.log2_lt_pow2; lia). change (Z.log2 65536) with 16. lia.
  - intros h3 [C3 R3]. rewrite wp_ret. apply HQ; [done|]. intros r. rewrite R3, length_seq. by replace (Z.of_nat (S (Z.to_nat n))) with (n + 1) by lia.
Qed.
End Controllers.

(** ** Memory *)
Section Memory.
Context `{L : !Layout}.

Lemma kfree_bytes v s s' : kfree v s = Ok (tt, s') -> forall a, a < v \/ v + 4096 <= a -> rdb (ram s') a = rdb (ram s) a.
Proof.
  unfold kfree. destruct (_ || _); [done|]. intros E a Ha.
  assert (E' : ram s' = wrw (memset (ram s) v 1 PGSIZE).2 v (freelist s)).
  { destruct s as [lk ul fl m]. unfold kmemset, store, when, gets, modify, mbind, M_bind, mret, M_ret in E. cbn in E. destruct ul, lk; cbn in E; try done; by injection E as <-. }
  rewrite E', rdb_wrw, in_range_false by lia. unfold PGSIZE. rewrite memset_mem, in_range_false by lia. done.
Qed.
Lemma freerange_bytes vend : forall fuel p s s', freerange_loop fuel p vend s = Ok (tt, s') ->
  forall a, a < p \/ vend <= a -> rdb (ram s') a = rdb (ram s) a.
Proof.
  induction fuel as [|fuel IH]; intros p s s' E a Ha; [done|]. cbn [freerange_loop] in E. unfold PGSIZE in E.
  destruct (Z.leb_spec (p + 4096) vend) as [Hp|Hp]; [|by injection E as <-].
  unfold mbind, M_bind in E. destruct (kfree p s) as [[[] s1]| | |] eqn:E1; try done.
  rewrite (IH _ _ _ E a) by lia. apply (kfree_bytes _ _ _ E1). lia.
Qed.

(** The first half of the initialisation of memory: the pages below 4 MB. *)
Lemma kinit1_runs b u m : mem_ok m ->
  exists s' l, kinit1 kend (P2V (4 * 1024 * 1024)) (Kmem b u 0 m) = Ok (tt, s') /\ kmem_ok s' l /\ use_lock s' = false /\
    (forall q, q ∈ l <-> q mod 4096 = 0 /\ kend <= q /\ q + 4096 <= KERNBASE + 4194304) /\
    (forall a, a < kend -> rdb (ram s') a = rdb m a) /\ KERNBASE + 4194304 - kend - 8191 <= 4096 * Z.of_nat (length l).
Proof.
  intros Hm. pose proof kdata_low as H1. pose proof kdata_kend as H2. pose proof kend_high as H3. unfold KERNLINK, KERNBASE, EXTMEM in *.
  change (P2V (4 * 1024 * 1024)) with 2151677952.
  destruct (freerange_spec kend 2151677952 (Kmem false false 0 m) []) as (s1 & n & Hr & Hu & Hk & Hp); unfold KERNBASE, PHYSTOP; try lia.
  { split; cbn; [done|constructor|constructor|done|done]. }
  { intros q Hq. by apply elem_of_nil in Hq. }
  rewrite app_nil_r in Hk. exists s1, (reverse (pages_from (PGROUNDUP kend) n)). split; [unfold kinit1, mbind, M_bind, modify; simpl; by rewrite Hr|].
  split_and!; [done|done| | |].
  - intros q. rewrite elem_of_reverse, Hp. lia.
  - intros a Ha. unfold freerange in Hr. apply (freerange_bytes _ _ _ _ _ Hr). left. rewrite PGROUNDUP_eq by lia. Z.div_mod_to_equations. lia.
  - rewrite length_reverse. unfold pages_from. rewrite length_fmap, length_seq. rewrite PGROUNDUP_eq in Hp by lia. set (p := (kend + 4095) / 4096 * 4096) in *.
    assert (Hlast : ~ p + 4096 * Z.of_nat n ∈ pages_from p n) by (rewrite elem_of_pages_from; intros (i & Hi & E); lia). rewrite Hp in Hlast.
    assert ((p + 4096 * Z.of_nat n) mod 4096 = 0) by (unfold p; rewrite <-Z.mul_comm, <-Z.mul_add_distr_l; rewrite Z.mul_comm; apply Z.mod_mul; lia).
    assert (kend <= p < kend + 4096) by (unfold p; Z.div_mod_to_equations; lia). lia.
Qed.

(** The second half, up to PHYSTOP; every page below 4 MB keeps its bytes. *)
Lemma kinit2_runs s l : kmem_ok s l -> (forall q, q ∈ l -> q + 4096 <= KERNBASE + 4194304) ->
  exists s' l2, kinit2 (P2V (4 * 1024 * 1024)) (P2V PHYSTOP) s = Ok (tt, s') /\ kmem_ok s' (l2 ++ l) /\ use_lock s' = true /\
    (forall q, q ∈ l2 <-> q mod 4096 = 0 /\ KERNBASE + 4194304 <= q /\ q < KERNBASE + PHYSTOP) /\
    (forall a, a < KERNBASE + 4194304 -> rdb (ram s') a = rdb (ram s) a) /\ (1000 <= length l2)%nat.
Proof.
  intros Hk Hl. pose proof kend_high as H3. unfold KERNBASE, PHYSTOP in *. change (P2V (4 * 1024 * 1024)) with 2151677952. change (P2V 234881024) with 2382364672.
  destruct (freerange_spec 2151677952 2382364672 s l) as (s1 & n & Hr & Hu & Hk1 & Hp); unfold KERNBASE, PHYSTOP; try lia; try done.
  { intros q Hq. apply Hl in Hq. lia. }
  exists (Kmem (km_lock s1) true (freelist s1) (ram s1)), (reverse (pages_from (PGROUNDUP 2151677952) n)). split_and!.
  - unfold kinit2, mbind, M_bind, modify. by rewrite Hr.
  - destruct Hk1 as [? ? ? ? ?]. by split.
  - done.
  - intros q. rewrite elem_of_reverse, Hp. split; [lia|]. intros (E & ? & ?). Z.div_mod_to_equations. lia.
  - intros a Ha. unfold freerange in Hr. cbn [ram]. apply (freerange_bytes _ _ _ _ _ Hr). left. change (PGROUNDUP 2151677952) with 2151677952. lia.
  - rewrite length_reverse. unfold pages_from. rewrite length_fmap, length_seq. change (PGROUNDUP 2151677952) with 2151677952 in Hp.
    assert (Hlast : ~ 2151677952 + 4096 * Z.of_nat n ∈ pages_from 2151677952 n) by (rewrite elem_of_pages_from; intros (i & Hi & E); lia). rewrite Hp in Hlast.
    destruct (decide (1000 <= n)%nat) as [|D]; [done|]. exfalso. apply Hlast. split; [|lia]. change 2151677952 with (525312 * 4096).
    rewrite (Z.mul_comm 4096), <-Z.mul_add_distr_r. apply Z.mod_mul. lia.
Qed.
End Memory.

(** ** The page table of the first instructions *)

(** The physical address of [va] when pages are 4 MB. *)
Definition big_page (d : list Z) (va : Z) : option Z :=
  match d !! Z.to_nat (PDX va) with
  | Some e => if truthy (Z.land e PTE_P) && truthy (Z.land e PTE_PS) then Some (e / 4194304 * 4194304 + va mod 4194304) else None
  | None => None
  end.
(** The first 4 MB of memory are at their physical address and above KERNBASE,
    and nothing else is mapped. *)
Lemma entrypgdir_maps va : 0 <= va < 4294967296 ->
  big_page entrypgdir va = if va <? 4194304 then Some va else if (KERNBASE <=? va) && (va <? KERNBASE + 4194304) then Some (va - KERNBASE) else None.
Proof.
  intros Hva. unfold big_page, PDX. rewrite u32_small by done. change 0x3FF with (Z.ones 10). rewrite Z.land_ones, Z.shiftr_div_pow2 by (unfold PDXSHIFT; lia).
  change (2 ^ PDXSHIFT) with 4194304. change (2 ^ 10) with 1024. rewrite (Z.mod_small (va / 4194304)) by (Z.div_mod_to_equations; lia).
  assert (Hd : 0 <= va / 4194304 < 1024) by (Z.div_mod_to_equations; lia). unfold entrypgdir, KERNBASE. change (Z.to_nat (Z.shiftr 2147483648 PDXSHIFT)) with 512%nat. change (Z.to_nat NPDENTRIES) with 1024%nat.
  destruct (decide (va / 4194304 = 512)) as [E|D].
  - rewrite E. rewrite list_lookup_insert_eq by (rewrite length_insert, length_replicate; lia).
    destruct (Z.ltb_spec va 4194304), (Z.leb_spec 2147483648 va), (Z.ltb_spec va (2147483648 + 4194304)); try (Z.div_mod_to_equations; lia).
    change (Some (0 + va mod 4194304) = Some (va - 2147483648)). f_equal. Z.div_mod_to_equations; lia.
  - rewrite list_lookup_insert_ne by lia. destruct (decide (va / 4194304 = 0)) as [E|D0].
    + rewrite E. change (Z.to_nat 0) with 0%nat. rewrite list_lookup_insert_eq by (rewrite length_replicate; lia). destruct (Z.ltb_spec va 4194304); [|Z.div_mod_to_equations; lia].
      change (Some (0 + va mod 4194304) = Some va). f_equal. Z.div_mod_to_equations; lia.
    + rewrite list_lookup_insert_ne, lookup_replicate_2 by lia. destruct (Z.ltb_spec va 4194304), (Z.leb_spec 2147483648 va), (Z.ltb_spec va (2147483648 + 4194304)); try done; Z.div_mod_to_equations; lia.
Qed.

(** ** Printing *)
Fixpoint fits (fmt : bytes) (args : list carg) : bool :=
  match fmt with
  | [] => true
  | 37 :: 100 :: fmt => match args with CInt _ :: args => fits fmt args | _ => false end
  | c :: fmt => negb (c =? 0) && negb (c =? 37) && fits fmt args
  end.
Lemma wp_console_printint v s : screen_ok s -> wp (printint (s32 v) 10 1) (fun _ s' => screen_ok s' /\ uart s' = uart s) s.
Proof.
  intros O. destruct (printint_buf_ok (s32 v) 10 1) as (Ln & F & _); [apply s32_range|by left|]. unfold printint.
  destruct (Z.ltb_spec 16 (Z.of_nat (length (printint_buf (s32 v) 10 1)))); [lia|].
  eapply wp_mono; [by apply wp_putall|]. by intros [] s' (O' & _ & E).
Qed.
Lemma wp_cprintf_loop n : forall fmt args s, (length fmt <= n)%nat -> fits fmt args = true -> screen_ok s ->
  wp (cprintf_loop fmt args) (fun _ s' => screen_ok s' /\ uart s' = uart s) s.
Proof.
  induction n as [|n IH]; intros fmt args s Hn Hf O; (destruct fmt as [|c fmt]; [by cbn|]); cbn in Hn; [lia|].
  destruct (decide (c = 37)) as [->|D].
  - destruct fmt as [|d fmt]; [done|]. destruct (decide (d = 100)) as [->|D].
    + cbn [fits] in Hf. destruct args as [|[v|] args]; try done. cbn [cprintf_loop Z.eqb negb Pos.eqb].
      apply wp_bind. eapply wp_mono; [by apply wp_console_printint|]. intros [] s1 [O1 U1]. eapply wp_mono; [apply (IH fmt args); [cbn in Hn; lia|done|done]|].
      intros [] s2 [O2 U2]. split; [done|congruence].
    + exfalso. assert (E : fits (37 :: d :: fmt) args = negb (37 =? 0) && negb (37 =? 37) && fits (d :: fmt) args).
      { clear -D. destruct d as [|p|p]; try done. do 7 (destruct p as [p|p|]; try done). }
      rewrite E in Hf. done.
  - assert (E : fits (c :: fmt) args = negb (c =? 0) && negb (c =? 37) && fits fmt args).
    { clear -D. destruct c as [|p|p]; try done. do 6 (destruct p as [p|p|]; try done). }
    rewrite E in Hf. apply andb_true_iff in Hf as [Hf1 Hf2]. apply andb_true_iff in Hf1 as [H0 H37]. cbn [cprintf_loop].
    destruct (c =? 0); [done|]. rewrite H37. apply wp_bind. eapply wp_mono; [by apply wp_consputc|]. intros [] s1 (O1 & _ & U1).
    eapply wp_mono; [apply (IH fmt args); [lia|done|done]|]. intros [] s2 [O2 U2]. split; [done|congruence].
Qed.

(** The console can print: its lock is free and its screen works. *)
Definition can_print (c : console) : Prop := c_lock c = false /\ screen_ok (scr c).
Lemma wp_cprintf fmt args c (Q : unit -> console -> Prop) : fits (unescape (bytes_of fmt)) args = true -> can_print c ->
  (forall c', can_print c' -> uart (scr c') = uart (scr c) -> Q tt c') -> wp (cprintf fmt args) Q c.
Proof.
  intros Hf [Hl O] HQ. unfold cprintf. rewrite wp_bind, wp_get. destruct (truthy (locking c)); cbn [when].
  - rewrite wp_bind. unfold c_acquire. rewrite wp_zoom. cbn [lget c_lockL]. rewrite Hl. unfold wp at 1. cbn [lk_acquire].
    rewrite wp_bind, wp_zoom. eapply wp_mono; [apply (wp_cprintf_loop _ _ _ _ (Nat.le_refl _) Hf); exact O|]. intros [] s1 [O1 U1].
    unfold c_release. rewrite wp_zoom. unfold wp. cbn. apply HQ; [by split|exact U1].
  - rewrite wp_bind, wp_ret, wp_bind, wp_zoom. eapply wp_mono; [apply (wp_cprintf_loop _ _ _ _ (Nat.le_refl _) Hf); exact O|]. intros [] s1 [O1 U1].
    rewrite wp_ret. apply HQ; [by split|exact U1].
Qed.
