(* ===== verification/StartMem.v ===== *)
(** * Memory while the kernel starts

    The kernel's page table, the first process's address space and its kernel
    stack, and the writes that leave them alone. *)
From S2P Require Import Prelude CString Layout Spinlock Bytes Fp Sched Console Sleeplock Bio Log TxDisk Fs Pipe Kernel Syscall Proc Kalloc Vm VmProps KvmRoom.

Open Scope Z_scope.

Section StartMem.
Context `{L : !Layout}.

(** The page table of the kernel maps exactly kmap. *)
Record kernel_map (m : mem) (l : list Z) (kp : Z) : Prop := {
  kn_dir : pgdir_ok m l kp;
  kn_low : forall q, q = kp \/ is_table m kp q -> q + 4096 <= KERNBASE + 4194304;
  kn_pte : forall va, 0 <= va < 4294967296 -> pte_at m kp va = rows_entry kmap va
}.
Lemma kernel_map_keep m m' l l' kp : kernel_map m l kp ->
  (forall q, page_ok q -> q ∉ l -> q + 4096 <= KERNBASE + 4194304 -> same_page m m' q) ->
  (forall q, q ∈ l' -> q + 4096 <= KERNBASE + 4194304 -> q ∈ l) -> kernel_map m' l' kp.
Proof.
  intros [Hd Hl Hp] Hs Hin. assert (Hkp : same_page m m' kp) by (apply Hs; [apply Hd|apply Hd|apply Hl; by left]).
  assert (Ht : forall q, is_table m kp q -> same_page m m' q).
  { intros q Hq. pose proof (po_tab _ _ _ Hd q Hq) as (H1 & H2 & _). apply Hs; [done|done|apply Hl; by right]. }
  split.
  - apply (pgdir_same_ok m m' l l'); [done|done| |].
    + intros Hk. apply (po_free _ _ _ Hd), Hin; [done|apply Hl; by left].
    + intros q Hq Hk. pose proof (po_tab _ _ _ Hd q Hq) as (_ & H2 & _). apply H2, Hin; [done|apply Hl; by right].
  - intros q [->|Hq]; apply Hl; [by left|right; by apply (pgdir_same_tables m m')].
  - intros va Hva. rewrite <-(Hp va Hva). by apply pgdir_same_pte.
Qed.

(** The address space of the first process: one page with its program. *)
Record space (m : mem) (l own : list Z) (d : Z) (init : bytes) : Prop := {
  sp_dir : pgdir_ok m l d;
  sp_user : user_ok m l d;
  sp_own : forall q, q = d \/ is_table m d q \/ q = upage m d 0 -> q ∈ own;
  sp_bytes : forall a, 0 <= a < 4096 -> writable m d a /\ uread m d a = u8 (getb init (Z.to_nat a));
  sp_none : forall va, 4096 <= va < KERNBASE -> ~ mapped m d va;
  sp_kernel : forall va, KERNBASE <= va < 4294967296 -> pte_at m d va = rows_entry kmap va
}.
Lemma space_keep m m' l own d init : space m l own d init -> (forall q, q ∈ own -> page_ok q -> same_page m m' q) -> space m' l own d init.
Proof.
  intros [Hd Hu Ho Hb Hn Hk] Hs. assert (Hdm : same_page m m' d) by (apply Hs; [apply Ho; by left|apply Hd]).
  assert (Ht : forall q, is_table m d q -> same_page m m' q).
  { intros q Hq. apply Hs; [apply Ho; by right; left|by apply (po_tab _ _ _ Hd)]. }
  assert (Hpte : forall va, pte_at m' d va = pte_at m d va) by (intros va; by apply pgdir_same_pte).
  assert (Htab : forall q, is_table m' d q <-> is_table m d q) by (intros q; by apply pgdir_same_tables).
  assert (Hup : forall va, upage m' d va = upage m d va) by (intros va; unfold upage; by rewrite Hpte).
  split.
  - apply (pgdir_same_ok m m' l l); [done|done|apply Hd|]. intros q Hq. by apply (po_tab _ _ _ Hd).
  - apply (user_ok_mono m m' l); try done. intros q Hq. left. by apply Htab.
  - intros q. rewrite Htab, Hup. apply Ho.
  - intros a Ha. destruct (Hb a Ha) as [[W1 W2] R]. unfold writable, mapped. rewrite Hpte. split; [done|]. rewrite <-R. unfold uread. rewrite Hup.
    assert (E : upage m d a = upage m d 0) by (unfold upage; by rewrite (pte_at_page m d a 0) by (rewrite !u32_small by lia; Z.div_mod_to_equations; lia)).
    rewrite E. apply (Hs (upage m d 0)).
    + apply Ho. by right; right.
    + rewrite <-E. apply (uo_page _ _ _ Hu a); [unfold KERNBASE; lia|done].
    + pose proof (Z.mod_pos_bound a 4096). lia.
  - intros va Hva. unfold mapped. rewrite Hpte. by apply Hn.
  - intros va Hva. rewrite Hpte. by apply Hk.
Qed.

Lemma entry_user x : truthy (Z.land (Z.lor (Z.lor x (Z.lor PTE_W PTE_U)) PTE_P) PTE_U) = true.
Proof.
  unfold truthy. apply negb_true_iff, Z.eqb_neq. intros E. assert (T : Z.testbit (Z.land (Z.lor (Z.lor x (Z.lor PTE_W PTE_U)) PTE_P) PTE_U) 2 = false) by (by rewrite E).
  rewrite Z.land_spec, !Z.lor_spec in T. cbn in T. by rewrite orb_true_r in T.
Qed.
Lemma inituvm_runs d init s l tabs : kmem_ok s l -> pgdir_ok (ram s) l d -> (forall q, is_table (ram s) d q <-> q ∈ tabs) ->
  (forall va, 0 <= va < 4294967296 -> pte_at (ram s) d va = rows_entry kmap va) -> (2 <= length l)%nat -> (length init < 4096)%nat ->
  exists s' used l', inituvm d init (Z.of_nat (length init)) s = Ok (tt, s') /\ l = used ++ l' /\ kmem_ok s' l' /\ use_lock s' = use_lock s /\
    space (ram s') l' (d :: tabs ++ used) d init /\
    (forall q, q mod 4096 = 0 -> q ∉ d :: tabs ++ used -> same_page (ram s) (ram s') q).
Proof.
  intros Hk Hd Htabs Hpte Hlen Hinit. destruct l as [|v l]; [cbn in Hlen; lia|]. cbn [length] in Hlen.
  assert (Hz : forall va, 0 <= va < KERNBASE -> pte_at (ram s) d va = 0).
  { intros va Hva. unfold KERNBASE in *. rewrite Hpte by lia. eapply rows_entry_below; [apply kmap_rows|unfold KERNBASE; lia]. }
  assert (Hu : user_ok (ram s) (v :: l) d) by (by apply user_ok_none).
  destruct (kalloc_fresh d s v l Hk Hd Hu) as (s1 & Hal & Hr & Hul & Hk1 & Hd1 & Hu1 & Hf & Hvl & Hv0).
  pose proof Hf as (Hv & Hvd & Hvt & _). set (m1 := (memset (ram s1) v 0 PGSIZE).2).
  destruct (install_page d 0 (Z.lor PTE_W PTE_U) v m1 s1 l Hk1 Hd1 Hu1 Hf Hvl) as (r & s2 & used & l2 & Hrun & Hl2 & [I1 I2 I3 I4 I5 I6 I7] & Hres); try done.
  { intros p Hp Hne. unfold m1, PGSIZE. apply same_page_memset; [done|by apply page_ok_aligned|done]. }
  { apply mem_ok_memset; [unfold PGSIZE; lia|apply Hk1]. }
  { unfold mapped. by rewrite Hr, Hz. }
  destruct Hres as [[-> Hp2]|(_ & -> & _)]; [|cbn in Hlen; lia]. destruct (page_entry v (Z.lor PTE_W PTE_U) Hv ltac:(by vm_compute)) as (_ & _ & Ev & _ & Epr).
  assert (Hm0 : mapped (ram s2) d 0) by (unfold mapped; rewrite Hp2; exact Epr).
  assert (Hup0 : upage (ram s2) d 0 = v) by (unfold upage; rewrite Hp2; exact Ev).
  set (bs := take (Z.to_nat (Z.of_nat (length init))) init).
  assert (Ebs : bs = init) by (unfold bs; rewrite Nat2Z.id; apply firstn_all). 
  destruct (user_write d 0 bs s2 l2 I1 I2 I3) as (W1 & W2 & W3 & W4 & W5); [by vm_compute|done|rewrite Ebs; change (0 mod 4096) with 0; lia|].
  rewrite Hup0 in W1, W2, W3, W4, W5. change (v + 0 mod 4096) with (v + 0) in *. rewrite Z.add_0_r in W1, W2, W3, W4, W5. set (s3 := lset ramL (wr_bytes (ram s2) v bs) s2) in *.
  exists s3, (v :: used), l2. split; [|split; [by rewrite Hl2|split; [done|split; [cbn; congruence|split]]]].
  - unfold inituvm. rewrite (proj2 (Z.leb_gt _ _)) by (unfold PGSIZE; lia). rewrite (bind_ok _ _ _ _ _ Hal). unfold kmemset. rewrite bind_modify.
    fold m1. rewrite (bind_ok _ _ _ _ _ Hrun). done.
  - assert (Hpg : forall va, 0 <= va < KERNBASE -> pte_at (ram s3) d va = if va / 4096 =? 0 then Z.lor (Z.lor (V2P v) (Z.lor PTE_W PTE_U)) PTE_P else 0).
    { intros va Hva. unfold KERNBASE in Hva. rewrite W4, Hp2, u32_small by lia. change (0 / 4096) with 0. rewrite Hr. destruct (va / 4096 =? 0); [done|]. apply Hz. unfold KERNBASE. lia. }
    split; [done|done| | | |].
    + intros q. rewrite elem_of_cons, elem_of_app, elem_of_cons, <-Htabs.
      assert (Hsd : same_page (ram s2) (ram s3) d).
      { intros a Ha. cbn. rewrite wr_bytes_mem, in_range_false; [done|]. rewrite Ebs.
        destruct (pages_disjoint d v) as [D|D]; [apply page_ok_aligned, Hd|by apply page_ok_aligned|congruence|lia|lia]. }
      rewrite (pgdir_same_tables (ram s2) (ram s3)), I6, Hr by done. unfold upage at 1. rewrite W4. fold (upage (ram s2) d 0). rewrite Hup0. tauto.
    + intros a Ha. assert (Hma : mapped (ram s3) d a) by (unfold mapped; rewrite Hpg by (unfold KERNBASE; lia); rewrite (Z.div_small a) by lia; exact Epr).
      split; [split; [done|]|].
      * rewrite Hpg by (unfold KERNBASE; lia). rewrite (Z.div_small a) by lia. cbn [Z.eqb]. apply entry_user.
      * rewrite W5 by (unfold KERNBASE; lia || (unfold mapped in *; by rewrite <-W4)). rewrite Ebs, Z.sub_0_r, Z.add_0_l.
        destruct (decide (a < Z.of_nat (length init))) as [D|D].
        -- rewrite in_range_true by lia. unfold getb. destruct (lookup_lt_is_Some_2 init (Z.to_nat a)) as [x Hx]; [lia|]. by rewrite (list_lookup_total_correct _ _ _ Hx), Hx.
        -- rewrite in_range_false by lia. unfold getb. rewrite lookup_ge_None_2 by lia. unfold uread.
           assert (Eu : upage (ram s2) d a = v) by (rewrite <-Hup0; unfold upage; by rewrite (pte_at_page _ d a 0) by (rewrite !u32_small by lia; rewrite !Z.div_small by lia; done)).
           rewrite Eu, Z.mod_small by lia. rewrite I5 by lia. unfold m1, PGSIZE. rewrite memset_mem, in_range_true by lia. done.
    + intros va Hva. unfold mapped. rewrite Hpg by lia. rewrite (proj2 (Z.eqb_neq _ _)) by (Z.div_mod_to_equations; lia). done.
    + intros va Hva. unfold KERNBASE in Hva. rewrite W4, Hp2, u32_small by lia. change (0 / 4096) with 0. rewrite (proj2 (Z.eqb_neq _ _)) by (Z.div_mod_to_equations; lia). rewrite Hr. apply Hpte. lia.
  - intros q Hq Hn. rewrite elem_of_cons, elem_of_app, elem_of_cons in Hn. rewrite <-Hr. eapply same_page_trans; [apply I7; try done; [tauto|tauto|tauto|]|].
    + rewrite Hr, Htabs. tauto.
    + intros a Ha. cbn. rewrite wr_bytes_mem, in_range_false; [done|]. rewrite Ebs.
      destruct (pages_disjoint q v) as [D|D]; [done|by apply page_ok_aligned|tauto|lia|lia].
Qed.

(** ** The kernel stack of the first process *)

(** A change inside one page. *)
Definition touch (p : Z) (m m' : mem) : Prop := forall a, a < p \/ p + 4096 <= a -> rdb m' a = rdb m a.
Lemma touch_page p m m' q : p mod 4096 = 0 -> q mod 4096 = 0 -> q <> p -> touch p m m' -> same_page m m' q.
Proof. intros Hp Hq D T a Ha. apply T. destruct (pages_disjoint q p Hq Hp D); lia. Qed.
Lemma touch_kmem s l p m' : kmem_ok s l -> touch p (ram s) m' -> mem_ok m' -> p mod 4096 = 0 -> p ∉ l -> kmem_ok (lset ramL m' s) l.
Proof.
  intros Hk T Hm Hp Hn. apply kmem_ok_ram; [done|done|]. intros q Hq. apply (touch_page p); try done; [|intros ->; done].
  pose proof (ko_pages _ _ Hk) as Hps. rewrite Forall_forall in Hps. by apply page_ok_aligned, Hps.
Qed.

Context `{SY : !KSyms}.
(** What allocproc puts on it: the return address of forkret and its context. *)
Definition stacked (m : mem) (ks : Z) : mem :=
  let sp := ks + KSTACKSIZE - tf_size in
  let m := wrw m (sp - 4) addr_trapret in
  let m := (memset m (sp - 4 - context_size) 0 context_size).2 in
  wrw m (sp - 4 - context_size + 16) addr_forkret.
(** What userinit puts on it: the registers the program starts with. *)
Definition framed (m : mem) (t : Z) : mem :=
  let m := (memset m t 0 tf_size).2 in
  let m := wr_bytes m (t + tf_cs) (take 2 (word_bytes 0x1b)) in
  let m := wr_bytes m (t + 44) (take 2 (word_bytes 0x23)) in
  let m := wr_bytes m (t + 40) (take 2 (word_bytes 0x23)) in
  let m := wr_bytes m (t + tf_ss) (take 2 (word_bytes 0x23)) in
  let m := wrw m (t + tf_eflags) FL_IF in
  let m := wrw m (t + tf_esp) PGSIZE in
  wrw m (t + tf_eip) 0.

Lemma length_word2 w : length (take 2 (word_bytes w)) = 2%nat.
Proof. done. Qed.
Lemma stacked_bytes m ks a : a < ks + 3996 \/ ks + 4020 <= a -> rdb (stacked m ks) a = rdb m a.
Proof.
  intros Ha. unfold stacked, KSTACKSIZE, tf_size, context_size. rewrite rdb_wrw, in_range_false by lia. rewrite memset_mem, in_range_false by lia. by rewrite rdb_wrw, in_range_false by lia.
Qed.
Lemma framed_bytes m t a : a < t \/ t + 76 <= a -> rdb (framed m t) a = rdb m a.
Proof.
  intros Ha. unfold framed, tf_cs, tf_ss, tf_eflags, tf_esp, tf_eip, tf_size. rewrite rdb_wrw, in_range_false by lia. rewrite rdb_wrw, in_range_false by lia. rewrite rdb_wrw, in_range_false by lia.
  do 4 (rewrite wr_bytes_mem, length_word2, in_range_false by lia). by rewrite memset_mem, in_range_false by lia.
Qed.
Lemma mem_ok_stacked m ks : mem_ok m -> mem_ok (stacked m ks).
Proof. intros Hm. apply mem_ok_wrw, mem_ok_memset; [by vm_compute|]. by apply mem_ok_wrw. Qed.
Lemma mem_ok_framed m t : mem_ok m -> mem_ok (framed m t).
Proof. intros Hm. unfold framed. do 3 apply mem_ok_wrw. do 4 apply mem_ok_wr_bytes. apply mem_ok_memset; [by vm_compute|done]. Qed.

(** How the first process will start: forkret, trapret and then user code at 0
    with interrupts on and the stack at the end of its page; [first_frame] are the
    words of struct trapframe that trapret loads. *)
Definition first_frame : list (Z * Z) :=
  [(0, 0); (4, 0); (8, 0); (16, 0); (20, 0); (24, 0); (tf_eax, 0); (32, 0); (36, 0); (40, 0x23); (44, 0x23);
   (tf_eip, 0); (tf_cs, 0x1b); (tf_eflags, FL_IF); (tf_esp, 4096); (tf_ss, 0x23)].
Lemma first_frame_range o w : (o, w) ∈ first_frame -> 0 <= o <= 72.
Proof.
  apply (Forall_forall (fun p => 0 <= p.1 <= 72) first_frame). apply (bool_decide_unpack _). by vm_compute.
Qed.
Record starts_user (m : mem) (ks t ctx : Z) : Prop := {
  su_tf : t = ks + 4020 /\ ctx = ks + 3996;
  su_forkret : rdw m (ctx + 16) = u32 addr_forkret;
  su_trapret : rdw m (ctx + 20) = u32 addr_trapret;
  su_frame : forall o w, (o, w) ∈ first_frame -> rdw m (t + o) = w
}.
(** The bytes of the frame, by their offset. *)
Definition within (a n o : Z) : bool := (a <=? o) && (o <? a + n).
Definition half (w o : Z) : Z := u8 (take 2 (word_bytes w) !!! Z.to_nat o).
Definition frame_byte (o : Z) : Z :=
  if within tf_eip 4 o then byte_of 0 (o - tf_eip) else if within tf_esp 4 o then byte_of PGSIZE (o - tf_esp)
  else if within tf_eflags 4 o then byte_of FL_IF (o - tf_eflags) else if within tf_ss 2 o then half 0x23 (o - tf_ss)
  else if within 40 2 o then half 0x23 (o - 40) else if within 44 2 o then half 0x23 (o - 44)
  else if within tf_cs 2 o then half 0x1b (o - tf_cs) else 0.
Lemma within_shift t a n o : (t + a <=? t + o) && (t + o <? t + a + n) = within a n o.
Proof. unfold within. f_equal; destruct (Z.leb_spec a o), (Z.ltb_spec o (a + n)); rewrite ?Z.leb_gt, ?Z.leb_le, ?Z.ltb_lt, ?Z.ltb_ge; lia. Qed.
Lemma framed_byte m t o : 0 <= o < 76 -> rdb (framed m t) (t + o) = frame_byte o.
Proof.
  intros Ho. unfold framed, frame_byte. rewrite !rdb_wrw, !wr_bytes_mem, !length_word2. change (Z.of_nat 2) with 2. rewrite !within_shift.
  rewrite !(Z.add_comm t), !Z.add_add_simpl_r_r. unfold half. rewrite memset_mem, in_range_true by (unfold tf_size; lia). done.
Qed.
Lemma framed_words m t o w : (o, w) ∈ first_frame -> rdw (framed m t) (t + o) = w.
Proof.
  intros Hin. assert (Ho : 0 <= o <= 72 /\ frame_byte o + 256 * frame_byte (o + 1) + 65536 * frame_byte (o + 2) + 16777216 * frame_byte (o + 3) = w).
  { revert Hin. apply (Forall_forall (fun p => 0 <= p.1 <= 72 /\ frame_byte p.1 + 256 * frame_byte (p.1 + 1) + 65536 * frame_byte (p.1 + 2) + 16777216 * frame_byte (p.1 + 3) = p.2) first_frame).
    apply (bool_decide_unpack _). by vm_compute. }
  destruct Ho as [Ho <-]. unfold rdw. rewrite <-!Z.add_assoc, !framed_byte by lia. rewrite ?Z.add_assoc. done.
Qed.
Lemma framed_starts m m' ks : (forall a, ks + 3996 <= a < ks + 4020 -> rdb m' a = rdb (stacked m ks) a) ->
  starts_user (framed m' (ks + 4020)) ks (ks + 4020) (ks + 3996).
Proof.
  intros Hs. assert (W : forall o, 3996 <= o -> o + 4 <= 4020 -> rdw (framed m' (ks + 4020)) (ks + o) = rdw (stacked m ks) (ks + o)).
  { intros o H1 H2. apply rdw_ext. intros i Hi. rewrite framed_bytes by lia. apply Hs. lia. }
  split; [done| | |].
  - replace (ks + 3996 + 16) with (ks + 4012) by lia. rewrite W by lia. unfold stacked, KSTACKSIZE, tf_size, context_size.
    replace (ks + 4096 - 76 - 4 - 20 + 16) with (ks + 4012) by lia. apply rdw_wrw_eq.
  - replace (ks + 3996 + 20) with (ks + 4016) by lia. rewrite W by lia. unfold stacked, KSTACKSIZE, tf_size, context_size. rewrite rdw_wrw_ne by lia.
    replace (ks + 4096 - 76 - 4) with (ks + 4016) by lia. rewrite <-(rdw_wrw_eq m (ks + 4016) addr_trapret). apply rdw_ext. intros i Hi.
    by rewrite memset_mem, in_range_false by lia.
  - intros o w. apply framed_words.
Qed.
End StartMem.
