(* ===== verification/StartUser.v ===== *)
(** * The first process

    allocproc on the empty table and userinit: the process that will run the
    first program. *)
From S2P Require Import Prelude CString Layout Spinlock Bytes Fp Sched SchedProps Console Sleeplock Bio Log TxDisk Fs Pipe Kernel Syscall Proc Kalloc Vm VmProps KvmRoom StartMem.

Open Scope Z_scope.

(** The table before and after: 63 of the slots stay as they are. *)
Definition spare : list proc := replicate 63 no_proc.
(** A CPU that holds no lock and whose interrupts are off. *)
Definition idle (c : pcpu) : Prop := c_proc c = None /\ c_if c = false /\ c_ncli c = 0 /\ c_intena c = 0.
Lemma lock_cycle c : idle c -> popped_cpu (pushed_cpu c) = c.
Proof. intros (_ & E1 & E2 & E3). destruct c as [p e r i n t]. cbn in *. subst. done. Qed.

Ltac kcbn := cbn [lset ptL memL fsL k_pt k_me k_mem k_fs k_ftlock k_files k_pipes k_areas k_tickslock k_ticks k_first
  procsL plockL cpusL plock procs initproc nextpid pcpus kpgdir SchedProps.with_lock SchedProps.with_cpu].

Section StartUser.
Context {C : Type} `{BC : !BufCache C} `{L : !Layout} `{FE : !FpEnv} `{SY : !KSyms}.
Implicit Types k : kernel C.

Lemma on_pt_ok {A} (m : nat -> M ptable A) k a p : m (k_me k) (k_pt k) = Ok (a, p) -> on_pt m k = Ok (a, lset ptL p k).
Proof. intros E. unfold on_pt. rewrite bind_gets. unfold zoom. cbn [lget ptL]. by rewrite E. Qed.
Lemma on_mem_ok {A} (m : M kmem A) k a s : m (k_mem k) = Ok (a, s) -> on_mem m k = Ok (a, lset memL s k).
Proof. intros E. unfold on_mem, zoom. cbn [lget memL]. by rewrite E. Qed.
Lemma set_proc_0 f k p : procs (k_pt k) = p :: spare -> set_proc 0 f k = Ok (tt, lset ptL (lset procsL (f p :: spare) (k_pt k)) k).
Proof. intros E. unfold set_proc. apply on_pt_ok. unfold upd_proc, modify. by rewrite E. Qed.
Lemma nth_proc_0 k p : procs (k_pt k) = p :: spare -> nth_proc 0 k = Ok (p, k).
Proof. intros E. unfold nth_proc. erewrite on_pt_ok by (unfold get_proc; by rewrite E). by destruct k. Qed.

Definition embryo : proc := fresh_proc no_proc 1.
Definition with_stack (ks : Z) : proc := set_context (ks + 3996) (set_tf (ks + 4020) (set_kstack ks embryo)).

Lemma allocproc_first k c ks l cpus kp : k_pt k = Pt false (no_proc :: spare) None 1 cpus kp -> cpus !! k_me k = Some c -> idle c ->
  kmem_ok (k_mem k) (ks :: l) ->
  exists km, allocproc k = Ok (Some 0%nat, lset memL km (lset ptL (Pt false (with_stack ks :: spare) None 2 cpus kp) k)) /\
    kmem_ok km l /\ ram km = stacked (ram (k_mem k)) ks /\ use_lock km = use_lock (k_mem k).
Proof.
  intros Ept Hc Hidle Hk. destruct (kalloc_spec _ _ Hk) as (s1 & Hal & Hk1 & Hr1 & Hu1). cbn [hd tl] in *.
  pose proof (ko_pages _ _ Hk) as Hps. apply Forall_cons in Hps as [Hks _]. pose proof (ko_nodup _ _ Hk) as Hn. apply NoDup_cons in Hn as [Hnl _].
  pose proof (page_ok_aligned ks Hks) as Hka. destruct k as [me km pt fs ftl fls pip ars tl tk fi]. cbn [k_pt k_me k_mem] in *. subst pt.
  unfold allocproc. erewrite bind_ok by (apply on_pt_ok, (pt_acquire_ok me _ c); [exact Hc|done]). kcbn. rewrite bind_gets. kcbn.
  change (list_find _ (no_proc :: spare)) with (Some (0%nat, no_proc)). cbv iota beta. rewrite bind_gets. kcbn.
  erewrite bind_ok by (by apply (set_proc_0 _ _ no_proc)). kcbn.
  erewrite bind_ok by (by apply on_pt_ok). unfold set_nextpid. kcbn. fold embryo.
  assert (Hlt : (me < length cpus)%nat) by (by apply lookup_lt_Some in Hc).
  erewrite bind_ok.
  2:{ apply on_pt_ok, (pt_release_ok me _ (pushed_cpu c)); [by apply list_lookup_insert_eq|done|done|]. destruct Hidle as (_ & _ & E & _). cbn. lia. }
  kcbn. rewrite lock_cycle, list_insert_insert_eq, list_insert_id by done.
  erewrite bind_ok by (by apply on_mem_ok). kcbn. erewrite bind_ok by (by apply (set_proc_0 _ _ embryo)). kcbn.
  rewrite (hd_page_nonzero (ks :: l) ks l (ko_pages _ _ Hk) eq_refl). unfold KSTACKSIZE, tf_size, context_size.
  replace (ks + 4096 - 76) with (ks + 4020) by lia. replace (ks + 4020 - 4) with (ks + 4016) by lia. replace (ks + 4016 - 20) with (ks + 3996) by lia.
  erewrite bind_ok by (by apply (set_proc_0 _ _ (set_kstack ks embryo))). kcbn.
  erewrite bind_ok by (by apply on_mem_ok). kcbn. erewrite bind_ok by (by apply (set_proc_0 _ _ (set_tf (ks + 4020) (set_kstack ks embryo)))). kcbn.
  erewrite bind_ok by (by apply on_mem_ok). kcbn. erewrite bind_ok by (by apply on_mem_ok). kcbn. fold (with_stack ks).
  eexists. split; [reflexivity|]. assert (Es : stacked (ram s1) ks = wrw (memset (wrw (ram s1) (ks + 4016) addr_trapret) (ks + 3996) 0 20).2 (ks + 3996 + 16) addr_forkret).
  { unfold stacked, KSTACKSIZE, tf_size, context_size. replace (ks + 4096 - 76 - 4 - 20) with (ks + 3996) by lia. by replace (ks + 4096 - 76 - 4) with (ks + 4016) by lia. }
  cbn [ram lset ramL km_lock use_lock freelist]. rewrite <-Es, Hr1 in *. split_and!; [|done|done].
  pose proof (touch_kmem s1 l ks (stacked (ram s1) ks) Hk1) as K. rewrite Hr1 in K. apply K; try done.
  - intros a Ha. apply stacked_bytes. lia.
  - apply mem_ok_stacked, Hk.
Qed.

Definition root_inode : inode := set_valid 0 (set_ref 1 (set_inum ROOTINO (set_idev ROOTDEV no_inode))).
Lemma namei_root (d : dstate C) v pd cw :
  namei [SLASH] (FState d v false (replicate NINODE no_inode) pd cw) = Ok (Some 0%nat, FState d v false (root_inode :: replicate 49 no_inode) pd cw).
Proof. reflexivity. Qed.

Definition loaded_proc (ks d : Z) : proc :=
  set_name (name_copy (replicate 16 0) (bytes_of "initcode")) (set_sz PGSIZE (set_pgdir d (with_stack ks))).
Definition first_proc (ks d : Z) : proc := set_state RUNNABLE (set_cwd (ptr 0) (loaded_proc ks d)).

Lemma on_fs_ok {A} (m : M (fstate (dstate C)) A) k a f : m (sync k) = Ok (a, f) -> on_fs m k = Ok (a, lset fsL f k).
Proof. intros E. unfold on_fs. rewrite bind_modify. unfold zoom. cbn [lget lset fsL k_fs]. by rewrite E. Qed.

(** The stores of userinit into the trap frame. *)
Lemma frame_stores t k :
  (on_mem (kmemset t 0 tf_size) ;; store16 (t + tf_cs) 0x1b ;; store16 (t + 44) 0x23 ;; store16 (t + 40) 0x23 ;; store16 (t + tf_ss) 0x23 ;;
   on_mem (store (t + tf_eflags) FL_IF) ;; on_mem (store (t + tf_esp) PGSIZE) ;; on_mem (store (t + tf_eip) 0)) k
  = Ok (tt, lset memL (lset ramL (framed (ram (k_mem k)) t) (k_mem k)) k).
Proof. destruct k as [me [lk ul fl m] pt fs ftl fls pip ars tl tk fi]. reflexivity. Qed.
Lemma frame_stores_then {A} t (f : M (kernel C) A) k :
  (on_mem (kmemset t 0 tf_size) ;; store16 (t + tf_cs) 0x1b ;; store16 (t + 44) 0x23 ;; store16 (t + 40) 0x23 ;; store16 (t + tf_ss) 0x23 ;;
   on_mem (store (t + tf_eflags) FL_IF) ;; on_mem (store (t + tf_esp) PGSIZE) ;; on_mem (store (t + tf_eip) 0) ;; f) k
  = f (lset memL (lset ramL (framed (ram (k_mem k)) t) (k_mem k)) k).
Proof. destruct k as [me [lk ul fl m] pt fs ftl fls pip ars tl tk fi]. reflexivity. Qed.

Lemma userinit_first k c ks l cpus kp init : k_pt k = Pt false (no_proc :: spare) None 1 cpus kp -> cpus !! k_me k = Some c -> idle c ->
  ic_lock (k_fs k) = false -> icache (k_fs k) = replicate NINODE no_inode -> kmem_ok (k_mem k) (ks :: l) -> (100 <= length l)%nat -> (length init < 4096)%nat ->
  exists km d own l' f, userinit init k = Ok (tt, lset fsL f (lset memL km (lset ptL (Pt false (first_proc ks d :: spare) (Some 0%nat) 2 cpus kp) k))) /\
    l = own ++ l' /\ d ∈ own /\ kmem_ok km l' /\ use_lock km = use_lock (k_mem k) /\ space (ram km) l' own d init /\
    starts_user (ram km) ks (ks + 4020) (ks + 3996) /\
    f = FState (DState (ds_log (disk (k_fs k))) (ds_cons (disk (k_fs k))) false) (sb (k_fs k)) false (root_inode :: replicate 49 no_inode) 0 NINODE /\
    (forall q, page_ok q -> q ∉ ks :: l -> same_page (ram (k_mem k)) (ram km) q).
Proof.
  intros Ept Hc Hidle Hil Hic Hk Hlen Hinit. destruct (allocproc_first k c ks l cpus kp Ept Hc Hidle Hk) as (km0 & Ea & Hk0 & Hr0 & Hu0).
  destruct (setupkvm_room km0 l Hk0) as (d & km1 & tabs & l1 & Es & Hu1 & El & Hk1 & Hd1 & Ht1 & Hp1 & Hf1 & Hn1); [lia|].
  assert (Hl1 : (2 <= length l1)%nat) by (rewrite El in Hlen; cbn in Hlen; rewrite length_app in Hlen; lia).
  destruct (inituvm_runs d init km1 l1 tabs Hk1 Hd1 Ht1 Hp1 Hl1 Hinit) as (km2 & used & l2 & Ei & El1 & Hk2 & Hu2 & Hsp & Hf2).
  pose proof (ko_pages _ _ Hk) as Hps. apply Forall_cons in Hps as [Hks Hps]. pose proof (ko_nodup _ _ Hk) as Hn. apply NoDup_cons in Hn as [Hnl _].
  pose proof (page_ok_aligned ks Hks) as Hka. set (own := d :: tabs ++ used). assert (Eo : l = own ++ l2) by (unfold own; rewrite El, El1; cbn; by rewrite app_assoc).
  assert (Hko : ks ∉ own) by (rewrite Eo in Hnl; set_solver).
  destruct k as [me km pt fs ftl fls pip ars tl tk fi]. cbn [k_pt k_me k_mem k_fs] in *. subst pt. unfold userinit. rewrite (bind_ok _ _ _ _ _ Ea). kcbn.
  erewrite bind_ok by (by apply on_pt_ok). unfold set_initproc. kcbn. erewrite bind_ok by (by apply on_mem_ok). kcbn.
  erewrite bind_ok by (by apply (set_proc_0 _ _ (with_stack ks))). kcbn.
  assert (Hd0 : (d =? 0) = false) by (apply (hd_page_nonzero l d (tabs ++ l1) Hps); exact El). rewrite Hd0. erewrite bind_ok by reflexivity.
  erewrite bind_ok by (by apply on_mem_ok). kcbn. erewrite bind_ok by (by apply (set_proc_0 _ _ (set_pgdir d (with_stack ks)))). kcbn.
  erewrite bind_ok by (by apply (nth_proc_0 _ (set_sz PGSIZE (set_pgdir d (with_stack ks))))). change (tf _) with (ks + 4020). rewrite frame_stores_then. kcbn.
  erewrite bind_ok by (by apply (set_proc_0 _ _ (set_sz PGSIZE (set_pgdir d (with_stack ks))))). kcbn. change (set_name _ _) with (loaded_proc ks d).
  set (f0 := FState (DState (ds_log (disk fs)) (ds_cons (disk fs)) false) (sb fs) (ic_lock fs) (icache fs) 0 NINODE).
  erewrite bind_ok.
  2:{ apply on_fs_ok. unfold sync. kcbn. rewrite Hc, (proj1 Hidle). change (pid no_proc) with 0. rewrite Hil, Hic. apply namei_root. }
  kcbn. erewrite bind_ok by (by apply (set_proc_0 _ _ (loaded_proc ks d))). kcbn.
  assert (Hlt : (me < length cpus)%nat) by (by apply lookup_lt_Some in Hc).
  erewrite bind_ok by (apply on_pt_ok, (pt_acquire_ok me _ c); [exact Hc|done]). kcbn.
  erewrite bind_ok by (by apply (set_proc_0 _ _ (set_cwd (ptr 0) (loaded_proc ks d)))). kcbn. fold (first_proc ks d).
  erewrite on_pt_ok.
  2:{ apply (pt_release_ok me _ (pushed_cpu c)); [by apply list_lookup_insert_eq|done|done|]. destruct Hidle as (_ & _ & E & _). cbn. lia. }
  kcbn. rewrite lock_cycle, list_insert_insert_eq, list_insert_id by done.
  assert (Ht : touch ks (ram km2) (framed (ram km2) (ks + 4020))) by (intros a Ha; apply framed_bytes; lia).
  assert (Hq2 : forall q, q mod 4096 = 0 -> q ∉ own -> same_page (stacked (ram km) ks) (ram km2) q).
  { intros q Hq Hno. rewrite <-Hr0. eapply same_page_trans; [apply Hf1; [done|]|by apply Hf2]. unfold own in Hno. set_solver. }
  eexists _, d, own, l2, _. split; [reflexivity|]. cbn [ram lset ramL km_lock use_lock freelist disk ds_cons].
  split_and!; [done|unfold own; set_solver| |congruence| | |done|].
  - apply (touch_kmem km2 l2 ks); try done; [apply mem_ok_framed, Hk2|]. rewrite Eo in Hnl. set_solver.
  - apply (space_keep (ram km2)); [done|]. intros q Hq Hpq. apply (touch_page ks); try done; [by apply page_ok_aligned|]. intros ->. done.
  - apply (framed_starts (ram km)). intros a Ha. apply (Hq2 ks); [done|done|lia].
  - intros q Hpq Hnq. rewrite elem_of_cons in Hnq. apply page_ok_aligned in Hpq. eapply same_page_trans; [|apply (touch_page ks); try done; tauto].
    eapply same_page_trans; [|apply Hq2; [done|rewrite Eo in Hnq; set_solver]]. apply (touch_page ks); try done; [tauto|]. intros a Ha. apply stacked_bytes. lia.
Qed.
End StartUser.
