(* ===== verification/AsmProps.v ===== *)
(** * What the assembly does

    A switch of contexts returns when the other side switches back, with the
    registers of the call; a trap builds the frame trap() gets, and returning from it
    restores every register from the frame. *)
From S2P Require Import Prelude CString Layout Spinlock Segs Kernel StartMem Asm.

Open Scope Z_scope.

(** ** Registers after an instruction *)
Lemma rg_setr r v s x : rg (setr r v s) x = if decide (x = r) then v else rg s x.
Proof. done. Qed.
Lemma rg_stw a v s x : rg (stw a v s) x = rg s x.
Proof. unfold stw. by destruct (cpl s =? 0). Qed.
Lemma rg_push v s x : rg (push v s) x = if decide (x = ESP) then u32 (rg s ESP - 4) else rg s x.
Proof. unfold push. by rewrite rg_stw. Qed.
Lemma rg_popr r s x : rg (popr r s) x = if decide (x = r) then ldw (rg s ESP) s else if decide (x = ESP) then u32 (rg s ESP + 4) else rg s x.
Proof. done. Qed.
Lemma rg_popseg r s x : rg (popseg r s) x = if decide (x = r) then u16 (ldw (rg s ESP) s) else if decide (x = ESP) then u32 (rg s ESP + 4) else rg s x.
Proof. done. Qed.
Lemma kram_setr r v s : kram (setr r v s) = kram s.
Proof. done. Qed.
Lemma kram_popr r s : kram (popr r s) = kram s.
Proof. done. Qed.
Lemma kram_popseg r s : kram (popseg r s) = kram s.
Proof. done. Qed.
Lemma cpl_setr r v s : r <> CS -> cpl (setr r v s) = cpl s.
Proof. intros D. unfold cpl. by rewrite rg_setr, decide_False. Qed.
Lemma cpl_popr r s : r <> CS -> cpl (popr r s) = cpl s.
Proof. intros D. unfold popr. by rewrite !cpl_setr. Qed.
Lemma cpl_popseg r s : r <> CS -> cpl (popseg r s) = cpl s.
Proof. intros D. unfold popseg. by rewrite !cpl_setr. Qed.
Lemma cpl_push v s : cpl (push v s) = cpl s.
Proof. unfold cpl. by rewrite rg_push. Qed.
Lemma ldw_kernel a s : cpl s = 0 -> ldw a s = rdw (kram s) a.
Proof. intros E. unfold ldw. by rewrite E. Qed.

(** ** Words on the kernel stack

    [l] are the words pushed since the stack pointer was [top], and the other
    registers are [R]. *)
Definition updr (R : reg -> Z) (r : reg) (v : Z) : reg -> Z := fun x => if decide (x = r) then v else R x.
Record pushed (m0 u0 : mem) (top : Z) (l : list Z) (R : reg -> Z) (s : amach) : Prop := {
  pu_cpl : cpl s = 0;
  pu_esp : rg s ESP = top - 4 * Z.of_nat (length l);
  pu_words : forall i v, l !! i = Some v -> rdw (kram s) (top - 4 * (Z.of_nat i + 1)) = u32 v;
  pu_rest : forall a, a < top - 4 * Z.of_nat (length l) \/ top <= a -> rdb (kram s) a = rdb m0 a;
  pu_user : uram s = u0;
  pu_regs : forall r, r <> ESP -> rg s r = R r
}.
Lemma pushed_nil s top : cpl s = 0 -> rg s ESP = top -> pushed (kram s) (uram s) top [] (rg s) s.
Proof. intros E1 E2. split; try done. rewrite E2. cbn. lia. Qed.
Lemma pushed_push m0 u0 top l R s v : pushed m0 u0 top l R s -> 4 * (Z.of_nat (length l) + 1) <= top < 4294967296 -> pushed m0 u0 top (l ++ [v]) R (push v s).
Proof.
  intros [P1 P2 P3 P4 P5 P6] Ht. assert (Ea : u32 (rg s ESP - 4) = top - 4 * (Z.of_nat (length l) + 1)) by (rewrite P2, u32_small; lia).
  assert (Ek : kram (push v s) = wrw (kram s) (top - 4 * (Z.of_nat (length l) + 1)) v).
  { unfold push, stw. rewrite cpl_setr, P1 by done. cbn [Z.eqb kram setr]. by rewrite Ea. }
  split.
  - by rewrite cpl_push.
  - rewrite rg_push, decide_True, Ea, length_app by done. cbn. lia.
  - intros i w Hi. rewrite Ek. destruct (decide (i = length l)) as [->|D].
    + rewrite lookup_app_r, Nat.sub_diag in Hi by done. injection Hi as ->. apply rdw_wrw_eq.
    + assert (Hl : (i < length l)%nat) by (apply lookup_lt_Some in Hi; rewrite length_app in Hi; cbn in Hi; lia).
      rewrite lookup_app_l in Hi by done. rewrite rdw_wrw_ne by lia. by apply P3.
  - intros a Ha. rewrite length_app in Ha. cbn in Ha. rewrite Ek, rdb_wrw, in_range_false by lia. apply P4. lia.
  - unfold push, stw. by rewrite cpl_setr, P1.
  - intros r D. rewrite rg_push, decide_False by done. by apply P6.
Qed.
Lemma pushed_pushr m0 u0 top l R s r : pushed m0 u0 top l R s -> r <> ESP -> 4 * (Z.of_nat (length l) + 1) <= top < 4294967296 ->
  pushed m0 u0 top (l ++ [R r]) R (pushr r s).
Proof. intros P D Ht. unfold pushr. rewrite (pu_regs _ _ _ _ _ _ P r D). by apply pushed_push. Qed.
Lemma pushed_setr m0 u0 top l R s r v : pushed m0 u0 top l R s -> r <> ESP -> r <> CS -> pushed m0 u0 top l (updr R r v) (setr r v s).
Proof.
  intros [P1 P2 P3 P4 P5 P6] D1 D2. split; [by rewrite cpl_setr|by rewrite rg_setr, decide_False|done|done|done|].
  intros x Dx. rewrite rg_setr. unfold updr. destruct (decide (x = r)); [done|by apply P6].
Qed.

(** ** Returning from a trap *)
Definition frame_regs (m : mem) (f ss0 : Z) (r : reg) : Z :=
  match r with
  | EDI => rdw m f | ESI => rdw m (f + 4) | EBP => rdw m (f + 8) | EBX => rdw m (f + 16) | EDX => rdw m (f + 20)
  | ECX => rdw m (f + 24) | EAX => rdw m (f + 28) | GS => u16 (rdw m (f + 32)) | FS => u16 (rdw m (f + 36))
  | ES => u16 (rdw m (f + 40)) | DS => u16 (rdw m (f + 44)) | EIP => rdw m (f + 56) | CS => u16 (rdw m (f + 60))
  | EFLAGS => rdw m (f + 64)
  | ESP => if 0 <? Z.land (u16 (rdw m (f + 60))) 3 then rdw m (f + 68) else f + 68
  | SS => if 0 <? Z.land (u16 (rdw m (f + 60))) 3 then u16 (rdw m (f + 72)) else ss0
  end.
(** Words popped from a frame at [f]: the stack pointer has moved by [o] and the
    other registers are [R]. *)
Record popped (m u : mem) (f o : Z) (R : reg -> Z) (s : amach) : Prop := {
  po_cpl : cpl s = 0;
  po_esp : rg s ESP = f + o;
  po_kram : kram s = m;
  po_uram : uram s = u;
  po_regs : forall r, r <> ESP -> rg s r = R r
}.
Lemma popped_start s f : cpl s = 0 -> rg s ESP = f -> popped (kram s) (uram s) f 0 (rg s) s.
Proof. intros E1 E2. split; try done. rewrite E2. lia. Qed.
Lemma popped_popr m u f o o' R s r : popped m u f o R s -> r <> ESP -> r <> CS -> o' = o + 4 -> 0 <= f + o -> f + o' < 4294967296 ->
  popped m u f o' (updr R r (rdw m (f + o))) (popr r s).
Proof.
  intros [P1 P2 P3 P4 P5] D1 D2 -> H0 H1. split; try done.
  - by rewrite cpl_popr.
  - rewrite rg_popr, decide_False, decide_True, P2, u32_small by (done || lia). lia.
  - intros x Dx. rewrite rg_popr, P2, ldw_kernel, P3 by done. unfold updr. destruct (decide (x = r)); [done|]. rewrite decide_False by done. by apply P5.
Qed.
Lemma popped_popseg m u f o o' R s r : popped m u f o R s -> r <> ESP -> r <> CS -> o' = o + 4 -> 0 <= f + o -> f + o' < 4294967296 ->
  popped m u f o' (updr R r (u16 (rdw m (f + o)))) (popseg r s).
Proof.
  intros [P1 P2 P3 P4 P5] D1 D2 -> H0 H1. split; try done.
  - by rewrite cpl_popseg.
  - rewrite rg_popseg, decide_False, decide_True, P2, u32_small by (done || lia). lia.
  - intros x Dx. rewrite rg_popseg, P2, ldw_kernel, P3 by done. unfold updr. destruct (decide (x = r)); [done|]. rewrite decide_False by done. by apply P5.
Qed.
Lemma popped_skip m u f o o' R s d : popped m u f o R s -> o' = o + d -> 0 <= d -> 0 <= f + o -> f + o' < 4294967296 ->
  popped m u f o' R (setr ESP (u32 (rg s ESP + d)) s).
Proof.
  intros [P1 P2 P3 P4 P5] -> Hd H0 H1. split; [by rewrite cpl_setr| |done|done|].
  - rewrite rg_setr, decide_True, P2, u32_small by (done || lia). lia.
  - intros x Dx. rewrite rg_setr, decide_False by done. by apply P5.
Qed.

Lemma trapret_regs s f : cpl s = 0 -> rg s ESP = f -> 0 <= f -> f + 76 < 4294967296 ->
  kram (trapret s) = kram s /\ uram (trapret s) = uram s /\ forall r, rg (trapret s) r = frame_regs (kram s) f (rg s SS) r.
Proof.
  intros Hc He H0 H1. pose proof (popped_start s f Hc He) as P. set (m := kram s) in *. set (u := uram s) in *.
  apply (popped_popr _ _ _ _ 4 _ _ EDI) in P; [|done|done|done|lia|lia]. apply (popped_popr _ _ _ _ 8 _ _ ESI) in P; [|done|done|done|lia|lia].
  apply (popped_popr _ _ _ _ 12 _ _ EBP) in P; [|done|done|done|lia|lia]. apply (popped_skip _ _ _ _ 16 _ _ 4) in P; [|done|lia|lia|lia].
  apply (popped_popr _ _ _ _ 20 _ _ EBX) in P; [|done|done|done|lia|lia]. apply (popped_popr _ _ _ _ 24 _ _ EDX) in P; [|done|done|done|lia|lia].
  apply (popped_popr _ _ _ _ 28 _ _ ECX) in P; [|done|done|done|lia|lia]. apply (popped_popr _ _ _ _ 32 _ _ EAX) in P; [|done|done|done|lia|lia].
  apply (popped_popseg _ _ _ _ 36 _ _ GS) in P; [|done|done|done|lia|lia]. apply (popped_popseg _ _ _ _ 40 _ _ FS) in P; [|done|done|done|lia|lia].
  apply (popped_popseg _ _ _ _ 44 _ _ ES) in P; [|done|done|done|lia|lia]. apply (popped_popseg _ _ _ _ 48 _ _ DS) in P; [|done|done|done|lia|lia].
  apply (popped_skip _ _ _ _ 56 _ _ 8) in P; [|done|lia|lia|lia].
  change (trapret s) with (iret (setr ESP (u32 (rg (popseg DS (popseg ES (popseg FS (popseg GS (popal s))))) ESP + 8)) (popseg DS (popseg ES (popseg FS (popseg GS (popal s))))))).
  match type of P with popped _ _ _ _ _ ?t => change (iret _) with (iret t); generalize dependent t end. intros t [P1 P2 P3 P4 P5].
  unfold iret. rewrite !ldw_kernel, P2, P3, P1 by done. rewrite !u32_small by lia.
  replace (f + 56 + 4) with (f + 60) by lia. replace (f + 56 + 8) with (f + 64) by lia. replace (f + 56 + 12) with (f + 68) by lia. replace (f + 56 + 16) with (f + 72) by lia.
  set (x := 0 <? Z.land (u16 (rdw m (f + 60))) 3). assert (Hr : forall r, r <> ESP -> r <> SS -> r <> EIP -> r <> CS -> r <> EFLAGS -> rg t r = frame_regs m f (rg s SS) r).
  { intros r D1 D2 D3 D4 D5. rewrite P5 by done. destruct r; try done; cbn [frame_regs]; unfold updr; by rewrite ?Z.add_0_r. }
  split_and!; [by destruct x|by destruct x|]. intros r. rewrite !rg_setr.
  destruct (decide (r = EFLAGS)) as [->|D1]; [done|]. destruct (decide (r = CS)) as [->|D2]; [done|]. destruct (decide (r = EIP)) as [->|D3]; [done|].
  destruct (decide (r = ESP)) as [->|D4]; [cbn [frame_regs]; fold x; destruct x; rewrite ?rg_setr, ?decide_True, ?decide_False by done; done|].
  destruct (decide (r = SS)) as [->|D5].
  - cbn [frame_regs]. fold x. destruct x; rewrite ?rg_setr, ?decide_True, ?decide_False by done; [done|]. by rewrite P5.
  - rewrite <-Hr by done. destruct x; by rewrite !rg_setr, !decide_False.
Qed.

(** ** A trap from user code

    [frame_words] are the words of the frame, from its end to its start. *)
Definition frame_words (u : amach) (i err esp0 : Z) : list Z :=
  [rg u SS; rg u ESP; rg u EFLAGS; rg u CS; rg u EIP; err; i; rg u DS; rg u ES; rg u FS; rg u GS;
   rg u EAX; rg u ECX; rg u EDX; rg u EBX; esp0 - 44; rg u EBP; rg u ESI; rg u EDI; esp0 - 76].
(** The exceptions for which the processor pushes an error code: double fault,
    invalid TSS, segment not present, stack fault, general protection, page fault
    and alignment check. *)
Definition code_vectors : list Z := [8; 10; 11; 12; 13; 14; 17].
Definition pushes_code (i : Z) (err : option Z) : Prop := if decide (i ∈ code_vectors) then is_Some err else err = None.
Lemma has_error_code_vectors i : has_error_code i = bool_decide (i ∈ code_vectors).
Proof.
  apply eq_true_iff_eq. unfold has_error_code, code_vectors. rewrite bool_decide_eq_true, !elem_of_cons, elem_of_nil. lia.
Qed.
Lemma trap_frame g off ints esp0 ss0 i err u : enters g (8 * SEG_KCODE) off ints -> cpl u = 3 -> pushes_code i err -> 80 <= esp0 < 4294967296 ->
  exists R, pushed (kram u) (uram u) esp0 (frame_words u i (default 0 err) esp0) R (alltraps (vector i (interrupt g esp0 ss0 err u))) /\ R SS = ss0 /\
    Z.testbit (R EFLAGS) 9 = ints && Z.testbit (rg u EFLAGS) 9.
Proof.
  intros (_ & _ & Hcs & _ & Hty) Hu He Hesp.
  assert (P : exists R0 s1, vector i (interrupt g esp0 ss0 err u) = s1 /\
    pushed (kram u) (uram u) esp0 [rg u SS; rg u ESP; rg u EFLAGS; rg u CS; rg u EIP; default 0 err; i] R0 s1 /\
    (forall r, r <> EIP -> r <> EFLAGS -> r <> SS -> r <> CS -> R0 r = if decide (r = ESP) then esp0 else rg u r) /\ R0 SS = ss0 /\ Z.testbit (R0 EFLAGS) 9 = ints && Z.testbit (rg u EFLAGS) 9).
  { unfold interrupt. rewrite Hcs, Hu. change (Z.land (8 * SEG_KCODE) 3 <? 3) with true. change (negb (3 =? Z.land (8 * SEG_KCODE) 3)) with true. cbv iota zeta.
    set (s0 := setr CS (8 * SEG_KCODE) (setr SS ss0 (setr ESP esp0 u))). assert (P : pushed (kram u) (uram u) esp0 [] (rg s0) s0) by (by apply (pushed_nil s0)).
    apply (pushed_push _ _ _ _ _ _ (rg u SS)) in P; [|cbn; lia]. apply (pushed_push _ _ _ _ _ _ (rg u ESP)) in P; [|cbn; lia].
    apply (pushed_push _ _ _ _ _ _ (rg u EFLAGS)) in P; [|cbn; lia]. apply (pushed_push _ _ _ _ _ _ (rg u CS)) in P; [|cbn; lia].
    apply (pushed_push _ _ _ _ _ _ (rg u EIP)) in P; [|cbn; lia]. cbn [app] in P. set (s5 := push (rg u EIP) _) in *. set (fl := if gd_type g =? STS_IG32 then _ else _).
    exists (updr (updr (rg s0) EFLAGS fl) EIP (gate_off g)). eexists. split; [reflexivity|]. split_and!; [| |done|].
    - unfold vector, pushes_code in *. rewrite has_error_code_vectors. destruct (bool_decide_reflect (i ∈ code_vectors)) as [Hi|Hi]; case_decide; try done.
      + destruct He as [e ->]. apply (pushed_push _ _ _ _ _ _ e) in P; [|cbn; lia]. apply (pushed_setr _ _ _ _ _ _ EFLAGS fl) in P; [|done|done].
        apply (pushed_setr _ _ _ _ _ _ EIP (gate_off g)) in P; [|done|done]. apply (pushed_push _ _ _ _ _ _ i) in P; [|cbn; lia]. exact P.
      + subst err. apply (pushed_setr _ _ _ _ _ _ EFLAGS fl) in P; [|done|done]. apply (pushed_setr _ _ _ _ _ _ EIP (gate_off g)) in P; [|done|done].
        apply (pushed_push _ _ _ _ _ _ 0) in P; [|cbn; lia]. apply (pushed_push _ _ _ _ _ _ i) in P; [|cbn; lia]. exact P.
    - intros r D1 D2 D3 D4. unfold updr. rewrite !decide_False by done. unfold s0. by rewrite !rg_setr, !decide_False by done.
    - change (Z.testbit fl 9 = ints && Z.testbit (rg u EFLAGS) 9). unfold fl. rewrite Hty. destruct ints; cbn [Z.eqb Pos.eqb STS_TG32 STS_IG32 andb];
        rewrite !Z.ldiff_spec; cbn [Z.testbit Pos.testbit FL_TRAP FL_IF negb]; by rewrite ?andb_true_r, ?andb_false_r. }
  destruct P as (R0 & s1 & -> & P & HR & HS & HF). unfold alltraps. apply (pushed_pushr _ _ _ _ _ _ DS) in P; [|done|cbn; lia]. apply (pushed_pushr _ _ _ _ _ _ ES) in P; [|done|cbn; lia].
  apply (pushed_pushr _ _ _ _ _ _ FS) in P; [|done|cbn; lia]. apply (pushed_pushr _ _ _ _ _ _ GS) in P; [|done|cbn; lia]. unfold pushal. rewrite (pu_esp _ _ _ _ _ _ P).
  set (s2 := pushr GS _) in *. apply (pushed_pushr _ _ _ _ _ _ EAX) in P; [|done|cbn; lia]. apply (pushed_pushr _ _ _ _ _ _ ECX) in P; [|done|cbn; lia].
  apply (pushed_pushr _ _ _ _ _ _ EDX) in P; [|done|cbn; lia]. apply (pushed_pushr _ _ _ _ _ _ EBX) in P; [|done|cbn; lia].
  cbn [app length] in P |- *. change (esp0 - 4 * Z.of_nat 11) with (esp0 - 44). apply (pushed_push _ _ _ _ _ _ (esp0 - 44)) in P; [|cbn; lia].
  apply (pushed_pushr _ _ _ _ _ _ EBP) in P; [|done|cbn; lia]. apply (pushed_pushr _ _ _ _ _ _ ESI) in P; [|done|cbn; lia]. apply (pushed_pushr _ _ _ _ _ _ EDI) in P; [|done|cbn; lia].
  set (s3 := pushr EDI _) in *. set (ax := Z.lor _ _). apply (pushed_setr _ _ _ _ _ _ EAX ax) in P; [|done|done]. apply (pushed_setr _ _ _ _ _ _ DS (8 * SEG_KDATA)) in P; [|done|done].
  apply (pushed_setr _ _ _ _ _ _ ES (8 * SEG_KDATA)) in P; [|done|done]. set (s4 := setr ES _ _) in *. unfold pushr at 1. rewrite (pu_esp _ _ _ _ _ _ P).
  cbn [app length] in P |- *. change (esp0 - 4 * Z.of_nat 19) with (esp0 - 76). apply (pushed_push _ _ _ _ _ _ (esp0 - 76)) in P; [|cbn; lia]. cbn [app] in P.
  rewrite !HR in P by done. eexists. split; [exact P|]. split; [exact HS|exact HF].
Qed.

Definition segment (r : reg) : bool := match r with CS | SS | DS | ES | FS | GS => true | _ => false end.
(** Registers of their width, in user mode. *)
Definition user_state (u : amach) : Prop := cpl u = 3 /\ forall r, 0 <= rg u r < if segment r then 65536 else 4294967296.
Definition frame_offset (r : reg) : Z :=
  match r with
  | EDI => 0 | ESI => 4 | EBP => 8 | EBX => 16 | EDX => 20 | ECX => 24 | EAX => tf_eax | GS => 32 | FS => 36 | ES => 40 | DS => 44
  | EIP => tf_eip | CS => tf_cs | EFLAGS => tf_eflags | ESP => tf_esp | SS => tf_ss
  end.
Lemma user_word u r : user_state u -> u32 (rg u r) = rg u r.
Proof. intros [_ W]. apply u32_small. specialize (W r). destruct (segment r); lia. Qed.
Lemma frame_fields u i err esp0 m : user_state u ->
  (forall k v, frame_words u i err esp0 !! k = Some v -> rdw m (esp0 - 4 * (Z.of_nat k + 1)) = u32 v) ->
  forall r, rdw m (esp0 - tf_size + frame_offset r) = rg u r.
Proof.
  intros Hu Hw r. rewrite <-(user_word u r Hu). unfold tf_size.
  assert (G : forall k, frame_words u i err esp0 !! k = Some (rg u r) -> frame_offset r = 72 - 4 * Z.of_nat k -> rdw m (esp0 - 76 + frame_offset r) = u32 (rg u r)).
  { intros k Hk E. rewrite <-(Hw k _ Hk). f_equal. lia. }
  destruct r; [apply (G 11%nat)|apply (G 12%nat)|apply (G 13%nat)|apply (G 14%nat)|apply (G 1%nat)|apply (G 16%nat)|apply (G 17%nat)|apply (G 18%nat)
    |apply (G 4%nat)|apply (G 2%nat)|apply (G 3%nat)|apply (G 0%nat)|apply (G 7%nat)|apply (G 8%nat)|apply (G 9%nat)|apply (G 10%nat)]; reflexivity.
Qed.
(** A frame in memory that holds the registers of [u], but for [eax]. *)
Lemma frame_restores u m f ss0 : user_state u -> (forall r, r <> EAX -> rdw m (f + frame_offset r) = rg u r) ->
  forall r, frame_regs m f ss0 r = if decide (r = EAX) then rdw m (f + tf_eax) else rg u r.
Proof.
  intros [Hc W] Hf r. destruct (decide (r = EAX)) as [->|D]; [done|]. rewrite <-(Hf r D).
  assert (S : forall r, segment r = true -> r <> EAX -> u16 (rdw m (f + frame_offset r)) = rdw m (f + frame_offset r)).
  { intros x Hx Dx. rewrite (Hf x Dx). unfold u16. apply Z.mod_small. specialize (W x). by rewrite Hx in W. }
  assert (C3 : Z.land (u16 (rdw m (f + 60))) 3 = 3).
  { pose proof (S CS eq_refl ltac:(done)) as E. cbn [frame_offset] in E. unfold tf_cs in E. rewrite E. pose proof (Hf CS ltac:(done)) as E2. cbn [frame_offset] in E2. unfold tf_cs in E2. rewrite E2. exact Hc. }
  destruct r; cbn [frame_regs]; try (rewrite C3); try done; [by rewrite Z.add_0_r|..].
  - exact (S CS eq_refl D).
  - exact (S SS eq_refl D).
  - exact (S DS eq_refl D).
  - exact (S ES eq_refl D).
  - exact (S FS eq_refl D).
  - exact (S GS eq_refl D).
Qed.

(** C18: A trap is transparent.  When user code traps through a gate of the
    kernel, with the error code exactly for the exceptions that have one, trap()
    gets a frame at the end of the process's kernel stack that holds every register
    at its offset in struct trapframe, the vector and the error code; nothing
    outside the frame and trap()'s argument changes, and interrupts stay on only
    behind a trap gate.  If trap() changes nothing of the frame but the saved
    [eax], trapret returns to the same point in user mode with every register as
    it was, and in [eax] what the frame holds. *)
Theorem trap_is_transparent (g : gatedesc) (off : Z) (ints : bool) (esp0 ss0 i : Z) (err : option Z) (u : amach)
  (Hg : enters g (8 * SEG_KCODE) off ints) (Hu : user_state u) (He : pushes_code i err) (Hr : 80 <= esp0 < 4294967296) :
  let f := esp0 - tf_size in
  let s := alltraps (vector i (interrupt g esp0 ss0 err u)) in
  cpl s = 0 /\ rg s ESP = f - 4 /\ rdw (kram s) (f - 4) = f /\ Z.testbit (rg s EFLAGS) 9 = ints && Z.testbit (rg u EFLAGS) 9 /\
  (forall r, rdw (kram s) (f + frame_offset r) = rg u r) /\ rdw (kram s) (f + tf_trapno) = u32 i /\ rdw (kram s) (f + tf_err) = u32 (default 0 err) /\
  (forall a, a < f - 4 \/ esp0 <= a -> rdb (kram s) a = rdb (kram u) a) /\ uram s = uram u /\
  forall t, cpl t = 0 -> rg t ESP = f ->
    (forall a, f <= a < esp0 -> a < f + tf_eax \/ f + tf_eax + 4 <= a -> rdb (kram t) a = rdb (kram s) a) ->
    (forall r, rg (trapret t) r = if decide (r = EAX) then rdw (kram t) (f + tf_eax) else rg u r) /\ uram (trapret t) = uram t.
Proof.
  intros f s. destruct (trap_frame g off ints esp0 ss0 i err u Hg (proj1 Hu) He Hr) as (R & [P1 P2 P3 P4 P5 P6] & _ & HF). fold s in P1, P2, P3, P4, P5, P6.
  pose proof (frame_fields u i (default 0 err) esp0 (kram s) Hu P3) as Hf. fold f in Hf. unfold f, tf_size, tf_trapno, tf_err in *. split_and!; try done.
  - rewrite P2. cbn. lia.
  - replace (esp0 - 76 - 4) with (esp0 - 4 * (Z.of_nat 19 + 1)) by lia. rewrite (P3 19%nat (esp0 - 76) eq_refl). apply u32_small. lia.
  - by rewrite P6.
  - replace (esp0 - 76 + 48) with (esp0 - 4 * (Z.of_nat 6 + 1)) by lia. by apply P3.
  - replace (esp0 - 76 + 52) with (esp0 - 4 * (Z.of_nat 5 + 1)) by lia. by apply P3.
  - intros a Ha. apply P4. cbn. lia.
  - intros t T1 T2 T3. destruct (trapret_regs t (esp0 - 76) T1 T2) as (_ & E2 & E3); [lia|lia|]. split; [|done]. intros r. rewrite E3. apply (frame_restores u); [done|].
    intros x Dx. rewrite <-Hf. apply rdw_ext. assert (0 <= frame_offset x <= 72 /\ (frame_offset x + 4 <= 28 \/ 32 <= frame_offset x)) by (clear -Dx; destruct x; [congruence|cbn; unfold tf_eip, tf_cs, tf_eflags, tf_esp, tf_ss; lia..]).
    intros a Ha. apply T3; unfold tf_eax; lia.
Qed.

(** ** Context switches *)

(** A call of swtch(old, new): the saved context at [new] is neither in the words
    about to be pushed nor in [*old]. *)
Definition arg_old (s : amach) : Z := rdw (kram s) (rg s ESP + 4).
Definition arg_new (s : amach) : Z := rdw (kram s) (rg s ESP + 8).
Definition apart (a n b k : Z) : Prop := a + n <= b \/ b + k <= a.
Record switch_call (s : amach) : Prop := {
  sw_cpl : cpl s = 0;
  sw_esp : 16 <= rg s ESP /\ rg s ESP + 12 < 4294967296;
  sw_new : arg_new s + 20 < 4294967296;
  sw_old : apart (arg_old s) 4 (rg s ESP - 16) 20;
  sw_sep : apart (arg_new s) 20 (rg s ESP - 16) 16 /\ apart (arg_new s) 20 (arg_old s) 4
}.
Definition switched_regs (s : amach) (r : reg) : Z :=
  let new := arg_new s in
  match r with
  | EDI => rdw (kram s) new | ESI => rdw (kram s) (new + 4) | EBX => rdw (kram s) (new + 8) | EBP => rdw (kram s) (new + 12)
  | EIP => rdw (kram s) (new + 16) | ESP => new + 20 | EAX => arg_old s | EDX => new | r => rg s r
  end.
Lemma rdw_nonneg m a : mem_ok m -> 0 <= rdw m a.
Proof. intros Hm. unfold rdw. pose proof (Hm a). pose proof (Hm (a + 1)). pose proof (Hm (a + 2)). pose proof (Hm (a + 3)). lia. Qed.
Lemma updr_context R a b c d e r : updr (updr (updr (updr (updr R EDI a) ESI b) EBX c) EBP d) EIP e r
  = match r with EDI => a | ESI => b | EBX => c | EBP => d | EIP => e | r => R r end.
Proof. by destruct r. Qed.
Lemma swtch_runs s : switch_call s -> mem_ok (kram s) ->
  (forall r, rg (swtch s) r = switched_regs s r) /\ uram (swtch s) = uram s /\ rdw (kram (swtch s)) (arg_old s) = rg s ESP - 16 /\
  (forall k r, [EDI; ESI; EBX; EBP] !! k = Some r -> rdw (kram (swtch s)) (rg s ESP - 16 + 4 * Z.of_nat k) = u32 (rg s r)) /\
  (forall a, ~ (rg s ESP - 16 <= a < rg s ESP) -> ~ (arg_old s <= a < arg_old s + 4) -> rdb (kram (swtch s)) a = rdb (kram s) a).
Proof.
  intros [S1 [S2 S3] S4 S5 [S6 S7]] Hm. pose proof (rdw_nonneg _ (rg s ESP + 8) Hm : 0 <= arg_new s) as Hn. unfold apart in *.
  set (esp := rg s ESP) in *. set (old := arg_old s) in *. set (new := arg_new s) in *.
  set (s0 := setr EDX new (setr EAX old s)).
  assert (E0 : swtch s = let s1 := pushr EDI (pushr ESI (pushr EBX (pushr EBP s0))) in let s2 := stw (rg s1 EAX) (rg s1 ESP) s1 in
    ret (popr EBP (popr EBX (popr ESI (popr EDI (setr ESP (rg s2 EDX) s2)))))).
  { unfold swtch. fold esp. rewrite !ldw_kernel by done. rewrite (rg_setr EAX), decide_False by done. fold esp. rewrite kram_setr, !u32_small by lia. done. }
  assert (P : pushed (kram s) (uram s) esp [] (rg s0) s0) by (by apply (pushed_nil s0)).
  apply (pushed_pushr _ _ _ _ _ _ EBP) in P; [|done|cbn; lia]. apply (pushed_pushr _ _ _ _ _ _ EBX) in P; [|done|cbn; lia].
  apply (pushed_pushr _ _ _ _ _ _ ESI) in P; [|done|cbn; lia]. apply (pushed_pushr _ _ _ _ _ _ EDI) in P; [|done|cbn; lia]. cbn [app] in P.
  set (s1 := pushr EDI _) in *. destruct P as [P1 P2 P3 P4 P5 P6]. cbn [length Z.of_nat Pos.of_succ_nat Pos.succ Z.mul Pos.mul Pos.add] in P2, P4.
  set (s2 := stw (rg s1 EAX) (rg s1 ESP) s1) in *. assert (A1 : rg s1 EAX = old) by (rewrite P6; done). assert (A2 : rg s1 EDX = new) by (rewrite P6; done).
  assert (E2 : s2 = AMach (rg s1) (wrw (kram s1) old (esp - 16)) (uram s1)) by (unfold s2, stw; by rewrite P1, A1, P2).
  set (m2 := wrw (kram s1) old (esp - 16)) in *. set (s3 := setr ESP (rg s2 EDX) s2) in *.
  assert (Q : popped m2 (uram s) new 0 (rg s1) s3).
  { unfold s3. rewrite E2. split; [exact P1| |reflexivity|exact P5|]; [rewrite rg_setr, decide_True by done; cbn [rg]; rewrite A2; lia|]. intros r D. by rewrite rg_setr, decide_False. }
  apply (popped_popr _ _ _ _ 4 _ _ EDI) in Q; [|done|done|done|lia|lia]. apply (popped_popr _ _ _ _ 8 _ _ ESI) in Q; [|done|done|done|lia|lia].
  apply (popped_popr _ _ _ _ 12 _ _ EBX) in Q; [|done|done|done|lia|lia]. apply (popped_popr _ _ _ _ 16 _ _ EBP) in Q; [|done|done|done|lia|lia].
  apply (popped_popr _ _ _ _ 20 _ _ EIP) in Q; [|done|done|done|lia|lia]. rewrite E0. cbv zeta. fold s1 s2 s3. fold (ret (popr EBP (popr EBX (popr ESI (popr EDI s3))))) in Q.
  set (s4 := ret _) in *. destruct Q as [Q1 Q2 Q3 Q4 Q5].
  assert (W : forall o, 0 <= o -> o + 4 <= 20 -> rdw m2 (new + o) = rdw (kram s) (new + o)).
  { intros o O1 O2. unfold m2. rewrite rdw_wrw_ne by lia. apply rdw_ext. intros i Hi. apply P4. lia. }
  assert (V : forall k r, [EDI; ESI; EBX; EBP] !! k = Some r -> rdw m2 (esp - 16 + 4 * Z.of_nat k) = u32 (rg s r)).
  { intros k r Hk. assert (Hk4 : (k < 4)%nat) by (by apply lookup_lt_Some in Hk). unfold m2. rewrite rdw_wrw_ne by lia.
    replace (esp - 16 + 4 * Z.of_nat k) with (esp - 4 * (Z.of_nat (3 - k) + 1)) by lia. rewrite (P3 (3 - k)%nat (rg s r)); [done|].
    do 4 (destruct k as [|k]; [injection Hk as <-; reflexivity|]). lia. }
  split_and!.
  - intros r. destruct (decide (r = ESP)) as [->|D]; [by rewrite Q2|]. rewrite Q5, updr_context, !W, Z.add_0_r by (done || lia).
    assert (P7 : forall x, x <> ESP -> rg s1 x = if decide (x = EDX) then new else if decide (x = EAX) then old else rg s x) by exact P6.
    clear -P7 D. unfold switched_regs. fold new old. clearbody s1 new old. destruct r; try reflexivity; try done; exact (P7 _ D).
  - done.
  - rewrite Q3. unfold m2. rewrite rdw_wrw_eq. apply u32_small. lia.
  - rewrite Q3. exact V.
  - intros a Ha Hb. rewrite Q3. unfold m2. rewrite rdb_wrw, in_range_false by lia. apply P4. lia.
Qed.

(** C25: swtch returns.  A call saves the four registers a C function must
    preserve and leaves the address of what it saved in [*old]; the processor
    continues with the saved context it was given, on its stack.  When later, on
    any processor and from any context, swtch is called with that address, and the
    saved words and the return address have not been overwritten, the first call
    returns: the four registers are as they were, the stack pointer is past the
    return address, and execution continues behind the call. *)
Theorem swtch_switches_back (s t : amach) (Hs : switch_call s) (Ms : mem_ok (kram s)) (Ws : forall r, 0 <= rg s r < 4294967296)
  (Ht : switch_call t) (Mt : mem_ok (kram t)) (Hnew : arg_new t = rdw (kram (swtch s)) (arg_old s))
  (Hkeep : forall a, rg s ESP - 16 <= a < rg s ESP + 4 -> rdb (kram t) a = rdb (kram (swtch s)) a) :
  (forall r, rg (swtch s) r = switched_regs s r) /\
  (forall r, r ∈ [EDI; ESI; EBX; EBP] -> rg (swtch t) r = rg s r) /\
  rg (swtch t) ESP = rg s ESP + 4 /\ rg (swtch t) EIP = rdw (kram s) (rg s ESP).
Proof.
  destruct (swtch_runs s Hs Ms) as (E1 & _ & E3 & E4 & E5). destruct (swtch_runs t Ht Mt) as (F1 & _). rewrite E3 in Hnew.
  assert (K : forall o, 0 <= o -> o <= 16 -> rdw (kram t) (arg_new t + o) = rdw (kram (swtch s)) (rg s ESP - 16 + o)).
  { intros o O1 O2. rewrite Hnew. apply rdw_ext. intros i Hi. apply Hkeep. lia. }
  assert (V : forall k r, [EDI; ESI; EBX; EBP] !! k = Some r -> rdw (kram t) (arg_new t + 4 * Z.of_nat k) = rg s r).
  { intros k r Hk. assert (Hk4 : (k < 4)%nat) by (by apply lookup_lt_Some in Hk). rewrite K by lia. rewrite (E4 k r Hk). by apply u32_small. }
  split_and!; [exact E1| | |].
  - intros r Hr. rewrite F1. unfold switched_regs. rewrite !elem_of_cons, elem_of_nil in Hr. destruct Hr as [->|[->|[->|[->|[]]]]].
    + rewrite <-(V 0%nat EDI eq_refl). f_equal. lia.
    + exact (V 1%nat ESI eq_refl).
    + exact (V 2%nat EBX eq_refl).
    + exact (V 3%nat EBP eq_refl).
  - rewrite F1. cbn [switched_regs]. lia.
  - rewrite F1. cbn [switched_regs]. rewrite K by lia. replace (rg s ESP - 16 + 16) with (rg s ESP) by lia. apply rdw_ext. intros i Hi.
    destruct Hs as [_ _ _ So _]. unfold apart in So. apply E5; lia.
Qed.

(** ** The first process enters user mode *)
Section First.
Context `{SY : !KSyms}.
Definition first_regs (r : reg) : Z :=
  match r with ESP => 4096 | EFLAGS => FL_IF | CS => 0x1b | SS | DS | ES => 0x23 | _ => 0 end.
(** The scheduler switches to the context at [ks + 3996] ([s] is the call), and
    forkret returns ([t] is its return). *)
Definition enters_user (m : mem) (ks : Z) : Prop :=
  forall s, switch_call s -> mem_ok (kram s) -> arg_new s = ks + 3996 -> (forall a, ks <= a < ks + 4096 -> rdb (kram s) a = rdb m a) ->
  rg (swtch s) EIP = u32 addr_forkret /\
  forall t, cpl t = 0 -> rg t ESP = rg (swtch s) ESP -> (forall a, ks + 4016 <= a < ks + 4096 -> rdb (kram t) a = rdb m a) ->
    rg (ret t) EIP = u32 addr_trapret /\ forall r, rg (trapret (ret t)) r = first_regs r.
Lemma starts_enters m ks : 0 <= ks -> ks + 4096 < 4294967296 -> starts_user m ks (ks + 4020) (ks + 3996) -> enters_user m ks.
Proof.
  intros K0 K1 [_ Hf Ht Hw] s Hs Ms Hn Hm. destruct (swtch_runs s Hs Ms) as (E1 & _). split.
  - rewrite E1. cbn [switched_regs]. rewrite Hn, <-Hf. apply rdw_ext. intros a Ha. apply Hm. lia.
  - intros t T1 T2 T3. rewrite E1 in T2. cbn [switched_regs] in T2. rewrite Hn in T2. pose proof (popped_start t _ T1 T2) as P.
    apply (popped_popr _ _ _ _ 4 _ _ EIP) in P; [|done|done|done|lia|lia]. fold (ret t) in P. destruct P as [P1 P2 P3 P4 P5]. split.
    + rewrite P5 by done. unfold updr. rewrite decide_True, Z.add_0_r, <-Ht by done. apply rdw_ext. intros a Ha. apply T3. lia.
    + intros r. destruct (trapret_regs (ret t) (ks + 4020) P1) as (_ & _ & ->); [rewrite P2; lia|lia|lia|]. rewrite P3.
      assert (W : forall o w, (o, w) ∈ first_frame -> rdw (kram t) (ks + 4020 + o) = w).
      { intros o w Hin. rewrite <-(Hw o w Hin). apply rdw_ext. intros a Ha. apply T3. apply first_frame_range in Hin. lia. }
      assert (Wd : forall o w, bool_decide ((o, w) ∈ first_frame) = true -> rdw (kram t) (ks + 4020 + o) = w) by (intros o w Hin; apply W; by apply bool_decide_eq_true in Hin).
      pose proof (Wd 60 0x1b eq_refl) as Wcs. destruct r; cbn [frame_regs first_regs].
      * exact (Wd 28 0 eq_refl).
      * exact (Wd 24 0 eq_refl).
      * exact (Wd 20 0 eq_refl).
      * exact (Wd 16 0 eq_refl).
      * rewrite Wcs. exact (Wd 68 4096 eq_refl).
      * exact (Wd 8 0 eq_refl).
      * exact (Wd 4 0 eq_refl).
      * rewrite <-(Z.add_0_r (ks + 4020)). exact (Wd 0 0 eq_refl).
      * exact (Wd 56 0 eq_refl).
      * exact (Wd 64 FL_IF eq_refl).
      * by rewrite (Wd 60 0x1b eq_refl).
      * rewrite Wcs. by rewrite (Wd 72 0x23 eq_refl).
      * by rewrite (Wd 44 0x23 eq_refl).
      * by rewrite (Wd 40 0x23 eq_refl).
      * by rewrite (Wd 36 0 eq_refl).
      * by rewrite (Wd 32 0 eq_refl).
Qed.
End First.

(** ** Examples *)

(** The gate of system calls, and a process that traps through it. *)
Definition ex_gate : gatedesc := SETGATE 1 8 0x80106280 3.
Definition ex_trapped : amach :=
  AMach (fun r => match r with CS => 0x1b | SS | DS | ES => 0x23 | FS | GS => 0 | EAX => 5 | EFLAGS => 0x202 | ESP => 0x2fc0 | EIP => 0x431 | EBP => 0x2fe8 | _ => 7 end) ∅ ∅.
Lemma ex_amach_ok : user_state ex_trapped.
Proof. split; [done|]. intros []; cbn; lia. Qed.
Lemma trap_is_transparent_witness :
  let s := alltraps (vector 64 (interrupt ex_gate 0x80401000 16 None ex_trapped)) in
  rdw (kram s) (0x80401000 - tf_size + tf_eip) = 0x431 /\
  forall t, cpl t = 0 -> rg t ESP = 0x80401000 - tf_size -> kram t = wrw (kram s) (0x80401000 - tf_size + tf_eax) 33 ->
    rg (trapret t) EAX = 33 /\ rg (trapret t) ESP = 0x2fc0.
Proof.
  destruct (trap_is_transparent ex_gate 0x80106280 true 0x80401000 16 64 None ex_trapped) as (_ & _ & _ & _ & Hf & _ & _ & _ & _ & Ht); [|exact ex_amach_ok|done|lia|].
  { by split_and!. }
  split; [exact (Hf EIP)|]. intros t T1 T2 T3. destruct (Ht t T1 T2) as [E _].
  - intros a _ Ha. rewrite T3, rdb_wrw, in_range_false by lia. done.
  - rewrite !E, T3. split; [|done]. rewrite decide_True by done. apply rdw_wrw_eq.
Defined.

(** Two kernel stacks: the first call switches from 0x80500fe0 to a context at
    0x80600f00, the second back. *)
Definition ex_call (esp back old new : Z) (m : mem) : amach :=
  AMach (fun r => match r with ESP => esp | CS => 8 | EBX => 11 | ESI => 12 | EDI => 13 | EBP => 14 | _ => 0 end)
    (wrw (wrw (wrw m esp back) (esp + 4) old) (esp + 8) new) ∅.
Definition ex_from : amach := ex_call 0x80500fe0 0x80103333 0x80110000 0x80600f00 ∅.
Definition ex_back : amach := ex_call 0x80600f40 0x80104444 0x80110010 0x80500fd0 (kram (swtch ex_from)).
Lemma mem_ok_check (m : mem) : bool_decide (map_Forall (fun _ b => 0 <= b < 256) m) = true -> mem_ok m.
Proof.
  intros F a. apply bool_decide_eq_true in F. unfold rdb. destruct (m !! a) as [b|] eqn:E; cbn; [by apply (F a)|lia].
Qed.
Lemma swtch_switches_back_witness :
  rg (swtch ex_from) ESP = 0x80600f14 /\ rg (swtch ex_back) EIP = 0x80103333 /\ rg (swtch ex_back) EBX = 11.
Proof.
  assert (Ms : mem_ok (kram ex_from)) by (apply mem_ok_check; by vm_compute). assert (Mt : mem_ok (kram ex_back)) by (apply mem_ok_check; by vm_compute).
  assert (Hs : switch_call ex_from) by (split; [done|by vm_compute|by vm_compute|left; by vm_compute|split; right; by vm_compute]).
  assert (Ht : switch_call ex_back) by (split; [done|by vm_compute|by vm_compute|left; by vm_compute|split; [left|right]; by vm_compute]).
  assert (Ws : forall r, 0 <= rg ex_from r < 4294967296) by (intros []; by vm_compute).
  destruct (swtch_switches_back ex_from ex_back Hs Ms Ws Ht Mt) as (E1 & E2 & _ & E4).
  - by vm_compute.
  - intros a Ha. change (rg ex_from ESP) with 0x80500fe0 in Ha. unfold ex_back, ex_call. cbn [kram]. by rewrite !rdb_wrw, !in_range_false by lia.
  - split; [rewrite E1; by vm_compute|]. split; [rewrite E4; by vm_compute|]. apply E2. by right; right; left.
Defined.
