(* ===== verification/StartView.v ===== *)
(** * The start, seen from outside

    What the start of the kernel does to its state, as a view: the memory, the
    process table, the processors with their tables, the registers of the
    interrupt controller.  Each step of [main] moves from view to view. *)
From S2P Require Import Prelude CString Layout Spinlock Kalloc Vm Fp Sched SchedProps Bytes Console ConsoleProps Sleeplock Bio Ide Io Mp Apic Segs Log TxDisk Fs Pipe Kernel File Syscall Proc VmProps Start StartProps StartMem StartUser.

Open Scope Z_scope.

(** A processor: its registers, its segments, whether it has loaded the gates
    and its [started]. *)
Record cview := CView { v_cpu : pcpu; v_gdt : list segdesc; v_idtr : bool; v_started : Z }.
Definition set_vcpu f x := CView (f (v_cpu x)) (v_gdt x) (v_idtr x) (v_started x).
Definition set_vgdt f x := CView (v_cpu x) (f (v_gdt x)) (v_idtr x) (v_started x).
Definition set_vidtr b x := CView (v_cpu x) (v_gdt x) b (v_started x).
Definition set_vstarted n x := CView (v_cpu x) (v_gdt x) (v_idtr x) n.

(** [v_pt] is the process table without its CPUs. *)
Record bview (C : Type) := BView {
  v_me : nat; v_mem : kmem; v_pt : ptable; v_cpus : list cview; v_icache : list inode; v_bc : C; v_regs : Z -> Z; v_idt : list gatedesc }.
Arguments BView {C} _ _ _ _ _ _ _ _.
Arguments v_me {C} _.
Arguments v_mem {C} _.
Arguments v_pt {C} _.
Arguments v_cpus {C} _.
Arguments v_icache {C} _.
Arguments v_bc {C} _.
Arguments v_regs {C} _.
Arguments v_idt {C} _.

Lemma map_alter {A B} (g : A -> B) (f : A -> A) (h : B -> B) i l : (forall x, g (f x) = h (g x)) -> map g (alter f i l) = alter h i (map g l).
Proof. intros E. apply (list_fmap_alter g f h). by apply Forall_true. Qed.
Lemma map_alter_same {A B} (g : A -> B) (f : A -> A) i l : (forall x, g (f x) = g x) -> map g (alter f i l) = map g l.
Proof. intros E. rewrite (map_alter g f id) by done. by apply list_alter_id. Qed.

Section View.
Context {C : Type}.
Implicit Types v : bview C.
Definition with_me x v := BView x (v_mem v) (v_pt v) (v_cpus v) (v_icache v) (v_bc v) (v_regs v) (v_idt v).
Definition with_mem x v := BView (v_me v) x (v_pt v) (v_cpus v) (v_icache v) (v_bc v) (v_regs v) (v_idt v).
Definition with_pt x v := BView (v_me v) (v_mem v) x (v_cpus v) (v_icache v) (v_bc v) (v_regs v) (v_idt v).
Definition with_cpus x v := BView (v_me v) (v_mem v) (v_pt v) x (v_icache v) (v_bc v) (v_regs v) (v_idt v).
Definition with_icache x v := BView (v_me v) (v_mem v) (v_pt v) (v_cpus v) x (v_bc v) (v_regs v) (v_idt v).
Definition with_bc (x : C) v := BView (v_me v) (v_mem v) (v_pt v) (v_cpus v) (v_icache v) x (v_regs v) (v_idt v).
Definition with_regs x v := BView (v_me v) (v_mem v) (v_pt v) (v_cpus v) (v_icache v) (v_bc v) x (v_idt v).
Definition with_idt x v := BView (v_me v) (v_mem v) (v_pt v) (v_cpus v) (v_icache v) (v_bc v) (v_regs v) x.
End View.

Section Steps.
Context {C : Type} `{BC : !BufCache C} `{DI : !DiskInit C} {H : Type} `{IO : !Io H} `{CP : !Cpus H} `{BD : !Board H}.
Context `{L : !Layout} `{FE : !FpEnv} `{SY : !KSyms} `{BS : !BootSyms}.
Variable ids : list Z.
Hypothesis ids_nodup : NoDup ids.
Implicit Types (s : boot C H) (v : bview C).

Record shows (v : bview C) (s : boot C H) : Prop := {
  sh_me : k_me (b_k s) = v_me v;
  sh_cpu : ids !! v_me v = Some (cpu_of (b_h s));
  sh_mem : k_mem (b_k s) = v_mem v;
  sh_pt : k_pt (b_k s) = lset cpusL (map v_cpu (v_cpus v)) (v_pt v);
  sh_fs : ic_lock (k_fs (b_k s)) = false /\ icache (k_fs (b_k s)) = v_icache v;
  sh_con : can_print (ds_cons (disk (k_fs (b_k s))));
  sh_bc : bc (ds_log (disk (k_fs (b_k s)))) = v_bc v;
  sh_ids : b_ids s = ids;
  sh_lapic : b_lapic s = lapic_base;
  sh_regs : forall r, io_regs (b_h s) r = v_regs v r;
  sh_idt : b_idt s = v_idt v;
  sh_gdt : b_gdt s = map v_gdt (v_cpus v);
  sh_idtr : b_idtr s = map v_idtr (v_cpus v);
  sh_started : b_started s = map v_started (v_cpus v)
}.

(** Steps that the view does not show, and changes of one of its parts. *)
Lemma shows_h v s h R : shows v s -> cpu_of h = cpu_of (b_h s) -> (forall r, io_regs h r = R r) -> shows (with_regs R v) (lset hL h s).
Proof. intros [] Ec Er. split; cbn; try done. congruence. Qed.
Lemma shows_same v s h : shows v s -> same_board (b_h s) h -> shows v (lset hL h s).
Proof. intros [] [Ec Er]. split; cbn; try done; [congruence|]. intros r. by rewrite Er. Qed.
Lemma wp_quiet {A} (m : M H A) v s Q : quiet m -> shows v s -> (forall a s', shows v s' -> Q a s') -> wp (on_h m) Q s.
Proof.
  intros Hm Hs HQ. unfold on_h. rewrite wp_zoom. eapply wp_mono; [apply Hm|]. intros a h Hh. apply HQ. by apply shows_same.
Qed.
Lemma wp_mem {A} (m : M kmem A) v s Q a km : m (v_mem v) = Ok (a, km) -> shows v s -> (forall s', shows (with_mem km v) s' -> Q a s') -> wp (on_k (on_mem m)) Q s.
Proof.
  intros E Hs HQ. unfold on_k, on_mem. rewrite !wp_zoom. cbn [lget kL memL]. rewrite (sh_mem _ _ Hs). unfold wp. rewrite E. apply HQ. destruct Hs. by split.
Qed.
Lemma wp_con {A} (m : M console A) v s Q :
  shows v s -> (forall c, can_print c -> wp m (fun a c' => can_print c' /\ forall s', shows v s' -> Q a s') c) -> wp (on_k (on_console m)) Q s.
Proof.
  intros Hs Hm. unfold on_k, on_console. rewrite !wp_zoom. eapply wp_mono; [apply Hm, Hs|]. intros a c' [Hc HQ]. apply HQ. destruct Hs. by split.
Qed.
Lemma wp_kprintf fmt args v s (Q : unit -> boot C H -> Prop) : fits (unescape (bytes_of fmt)) args = true ->
  shows v s -> (forall s', shows v s' -> Q tt s') -> wp (on_k (kprintf fmt args)) Q s.
Proof. intros Hf Hs HQ. apply (wp_con _ v); [done|]. intros c Hc. apply wp_cprintf; [done|done|]. intros c' Hc' _. by split. Qed.
Lemma wp_mycpu_at j s Q : b_lapic s = lapic_base -> b_ids s = ids -> ids !! j = Some (cpu_of (b_h s)) ->
  (forall h, same_board (b_h s) h -> Q j (lset hL h s)) -> wp boot_mycpu Q s.
Proof.
  intros El Ei Ej HQ. unfold boot_mycpu. rewrite wp_bind, wp_gets, El, wp_bind. unfold on_h. rewrite wp_zoom. apply wp_lapicid. intros h Hh. cbn [lget hL].
  rewrite wp_bind, wp_gets. change (b_ids (lset hL h s)) with (b_ids s). rewrite Ei.
  assert (list_find (eq (cpu_of (b_h s))) ids = Some (j, cpu_of (b_h s))) as ->; [|by apply wp_ret, HQ].
  apply list_find_Some. split_and!; [done|done|]. intros i y Hi Hlt E. subst y. pose proof (NoDup_lookup _ _ _ _ ids_nodup Hi Ej). lia.
Qed.
Lemma wp_mycpu v s Q : shows v s -> (forall s', shows v s' -> Q (v_me v) s') -> wp boot_mycpu Q s.
Proof. intros Hs HQ. apply (wp_mycpu_at (v_me v)); [apply Hs|apply Hs|apply Hs|]. intros h Hh. apply HQ. by apply shows_same. Qed.
Lemma wp_cpu_regs v s f Q : shows v s -> (forall s', shows (with_cpus (alter (set_vcpu f) (v_me v) (v_cpus v)) v) s' -> Q tt s') ->
  wp (on_k (on_pt (fun me => upd_pcpu me f))) Q s.
Proof.
  intros Hs HQ. unfold on_k, on_pt. rewrite wp_zoom, wp_bind, wp_gets, wp_zoom. unfold upd_pcpu. rewrite wp_modify. apply HQ.
  destruct Hs as [E1 E2 E3 E4 E5 E6 E7 E8 E9 E10 E11 E12 E13 E14]. cbn [lget kL] in *. split; cbn; try done.
  - rewrite E4, E1. cbn. by rewrite (map_alter v_cpu (set_vcpu f) f).
  - by rewrite E12, map_alter_same.
  - by rewrite E13, map_alter_same.
  - by rewrite E14, map_alter_same.
Qed.

(** A change of the tables of one processor. *)
Lemma shows_cpus v s f g i : shows v s -> (forall x, v_cpu (f x) = v_cpu x) ->
  (b_k (g s), b_h (g s), b_ids (g s), b_lapic (g s), b_idt (g s)) = (b_k s, b_h s, b_ids s, b_lapic s, b_idt s) ->
  b_gdt (g s) = map v_gdt (alter f i (v_cpus v)) -> b_idtr (g s) = map v_idtr (alter f i (v_cpus v)) -> b_started (g s) = map v_started (alter f i (v_cpus v)) ->
  shows (with_cpus (alter f i (v_cpus v)) v) (g s).
Proof.
  intros [] Hf [= Ek Eh Ei El Et] Eg Er Es. split; cbn; rewrite ?Ek, ?Eh, ?Ei, ?El, ?Et, ?Eg, ?Er, ?Es; try done. by rewrite map_alter_same.
Qed.
Lemma wp_seginit v s Q : shows v s -> (forall s', shows (with_cpus (alter (set_vgdt seginit_gdt) (v_me v) (v_cpus v)) v) s' -> Q tt s') -> wp seginit Q s.
Proof.
  intros Hs HQ. unfold seginit. rewrite wp_bind. apply (wp_mycpu v); [done|]. intros s1 H1. rewrite wp_modify. apply HQ.
  apply (shows_cpus v s1 _ (fun s => set_gdt (alter seginit_gdt (v_me v) (b_gdt s)) s)); try done; cbn.
  - rewrite (sh_gdt _ _ H1). symmetry. by apply map_alter.
  - rewrite (sh_idtr _ _ H1). symmetry. by apply map_alter_same.
  - rewrite (sh_started _ _ H1). symmetry. by apply map_alter_same.
Qed.
Lemma insert_alter {A} (i : nat) (x : A) (l : list A) : <[i := x]> l = alter (fun _ => x) i l.
Proof. revert i. induction l as [|y l IH]; intros [|i]; try done. cbn. f_equal. apply IH. Qed.
Lemma wp_idtinit v s Q : shows v s -> (forall s', shows (with_cpus (alter (set_vidtr true) (v_me v) (v_cpus v)) v) s' -> Q tt s') -> wp idtinit Q s.
Proof.
  intros Hs HQ. unfold idtinit. rewrite wp_bind. apply (wp_mycpu v); [done|]. intros s1 H1. rewrite wp_modify. apply HQ.
  apply (shows_cpus v s1 _ (fun s => set_idtr (<[v_me v := true]> (b_idtr s)) s)); try done; cbn.
  - rewrite (sh_gdt _ _ H1). symmetry. by apply map_alter_same.
  - rewrite (sh_idtr _ _ H1), insert_alter. symmetry. by apply map_alter.
  - rewrite (sh_started _ _ H1). symmetry. by apply map_alter_same.
Qed.
Lemma wp_set_started v s Q : shows v s -> (forall s', shows (with_cpus (alter (set_vstarted 1) (v_me v) (v_cpus v)) v) s' -> Q tt s') ->
  wp (modify (fun s => set_started (<[v_me v := 1]> (b_started s)) s)) Q s.
Proof.
  intros H1 HQ. rewrite wp_modify. apply HQ. apply (shows_cpus v s _ (fun s => set_started (<[v_me v := 1]> (b_started s)) s)); try done; cbn.
  - rewrite (sh_gdt _ _ H1). symmetry. by apply map_alter_same.
  - rewrite (sh_idtr _ _ H1). symmetry. by apply map_alter_same.
  - rewrite (sh_started _ _ H1), insert_alter. symmetry. by apply map_alter.
Qed.

(** ** mpmain and mpenter *)
Definition live (x : cview) : cview := set_vstarted 1 (set_vidtr true x).
Lemma wp_mpmain v s Q : shows v s -> (forall s', shows (with_cpus (alter live (v_me v) (v_cpus v)) v) s' -> Q tt s') -> wp mpmain Q s.
Proof.
  intros Hs HQ. unfold mpmain. rewrite wp_bind. apply (wp_mycpu v); [done|]. intros s1 H1. rewrite wp_bind.
  apply (wp_kprintf _ _ v); [done|done|]. intros s2 H2. rewrite wp_bind. apply (wp_idtinit v); [done|]. intros s3 H3.
  rewrite wp_bind. apply (wp_mycpu _ _ _ H3). intros s4 H4. apply (wp_set_started _ _ _ H4). intros s5 H5. apply HQ.
  cbn in H5. by rewrite list_alter_alter_eq in H5.
Qed.
Definition entered (kp : Z) (x : cview) : cview :=
  live (set_vgdt seginit_gdt (set_vcpu (fun c => Pcpu (c_proc c) (c_esp0 c) (V2P kp) (c_if c) (c_ncli c) (c_intena c)) x)).
Lemma wp_mpenter v s Q : shows v s -> (forall s', shows (with_cpus (alter (entered (kpgdir (v_pt v))) (v_me v) (v_cpus v)) v) s' -> Q tt s') -> wp mpenter Q s.
Proof.
  intros Hs HQ. unfold mpenter. rewrite wp_bind.
  assert (E : wp (on_k (on_pt switchkvm)) (fun _ => wp (seginit ;; boot_lapicinit ;; mpmain) Q) s
    <-> wp (on_k (on_pt (fun me => upd_pcpu me (fun c => Pcpu (c_proc c) (c_esp0 c) (V2P (kpgdir (v_pt v))) (c_if c) (c_ncli c) (c_intena c)))))
      (fun _ => wp (seginit ;; boot_lapicinit ;; mpmain) Q) s).
  { unfold on_k, on_pt. rewrite !wp_zoom, !wp_bind, !wp_gets, !wp_zoom. unfold switchkvm. rewrite wp_bind, wp_gets. cbn [lget kL ptL]. by rewrite (sh_pt _ _ Hs). }
  rewrite E. apply (wp_cpu_regs v); [done|]. intros s1 H1. rewrite wp_bind. apply (wp_seginit _ _ _ H1). intros s2 H2. cbn in H2. rewrite list_alter_alter_eq in H2.
  unfold boot_lapicinit. rewrite wp_bind, wp_bind, wp_gets, (sh_lapic _ _ H2). apply (wp_quiet _ _ _ _ quiet_lapicinit H2). intros _ s3 H3.
  apply (wp_mpmain _ _ _ H3). intros s4 H4. apply HQ. cbn in H4. by rewrite list_alter_alter_eq in H4.
Qed.

(** ** Memory that stays good: free pages below 4 MB and the kernel's map *)
Record stable (l : list Z) (v : bview C) : Prop := {
  st_ok : kmem_ok (v_mem v) l;
  st_low : forall q, q ∈ l -> q + 4096 <= KERNBASE + 4194304;
  st_lock : use_lock (v_mem v) = false;
  st_map : kernel_map (ram (v_mem v)) l (kpgdir (v_pt v))
}.
Lemma page_above q : page_ok q -> KERNBASE + EXTMEM <= q.
Proof. intros (_ & H1 & _). pose proof kdata_low. pose proof kdata_kend. unfold KERNLINK in *. lia. Qed.
(** Stores below the kernel. *)
Lemma stable_store l v m' : stable l v -> mem_ok m' -> (forall a, KERNBASE + EXTMEM <= a -> rdb m' a = rdb (ram (v_mem v)) a) ->
  stable l (with_mem (lset ramL m' (v_mem v)) v).
Proof.
  intros [Hk Hl Hu Hm] Ho Hs. assert (Hp : forall q, page_ok q -> same_page (ram (v_mem v)) m' q).
  { intros q Hq a Ha. apply Hs. pose proof (page_above q Hq). lia. }
  split; cbn; try done.
  - apply kmem_ok_ram; [done|done|]. intros q Hq. apply Hp. pose proof (ko_pages _ _ Hk) as F. rewrite Forall_forall in F. by apply F.
  - apply (kernel_map_keep (ram (v_mem v)) m' l l); [done| |done]. intros q Hq _ _. by apply Hp.
Qed.
Lemma stable_kalloc p l v : stable (p :: l) v ->
  exists km, kalloc (v_mem v) = Ok (p, km) /\ ram km = ram (v_mem v) /\ page_ok p /\ stable l (with_mem km v).
Proof.
  intros [Hk Hl Hu Hm]. destruct (kalloc_spec _ _ Hk) as (km & E & Hk' & Hr & Hu'). cbn [hd tl] in *. exists km. split_and!; [done|done| |].
  - pose proof (ko_pages _ _ Hk) as F. by apply Forall_cons in F as [? _].
  - split; cbn; [done|by intros q Hq; apply Hl; right|congruence|]. rewrite Hr. apply (kernel_map_keep (ram (v_mem v)) _ (p :: l)); [done|done|]. by intros q Hq _; right.
Qed.

(** ** The other processors *)
Record mailbox (m : mem) (stack : Z) : Prop := {
  mb_stack : rdw m (code - 4) = stack;
  mb_entry : rdw m (code - 8) = addr_mpenter;
  mb_pgdir : rdw m (code - 12) = V2P addr_entrypgdir
}.
Lemma wp_load a v s Q : shows v s -> (forall s', shows v s' -> Q (rdw (ram (v_mem v)) a) s') -> wp (on_k (on_mem (load a))) Q s.
Proof. intros Hs HQ. eapply (wp_mem _ v); [reflexivity|done|]. destruct v. apply HQ. Qed.
Lemma wp_start_cpu v s j id stack Q : shows v s -> ids !! j = Some id -> 0 <= id < 256 -> mailbox (ram (v_mem v)) stack -> stack <> KSTACKSIZE ->
  (forall s', shows (with_cpus (alter (entered (kpgdir (v_pt v))) j (v_cpus v)) v) s' -> Q tt s') -> wp (start_cpu id) Q s.
Proof.
  intros Hs Hj Hid [M1 M2 M3] Hst HQ. unfold start_cpu. rewrite wp_bind, wp_gets, wp_bind, wp_gets, (sh_lapic _ _ Hs), wp_bind. unfold on_h at 1. rewrite wp_zoom.
  apply wp_lapicid. intros h1 S1. pose proof (shows_same _ _ _ Hs S1) as H1. cbn [lget hL]. set (s1 := lset hL h1 s) in *.
  rewrite wp_bind. unfold on_h at 1. rewrite wp_zoom, wp_modify. destruct (cpu_run_on id h1 Hid) as [C1 R1]. rewrite wp_bind.
  apply (wp_mycpu_at j); [apply H1|apply H1|cbn; by rewrite C1|]. intros h2 [C2 R2]. cbn [lget hL b_h lset] in C2, R2. rewrite wp_bind. unfold on_k at 1. rewrite wp_zoom, wp_modify.
  set (s2 := lset kL _ _).
  assert (H2 : shows (with_me j v) s2).
  { destruct H1. split; cbn in *; try done; [by rewrite C2, C1|]. intros r. by rewrite R2, R1. }
  rewrite wp_bind. apply (wp_load _ _ _ _ H2). intros s3 H3. rewrite wp_bind. apply (wp_load _ _ _ _ H3). intros s4 H4. rewrite wp_bind. apply (wp_load _ _ _ _ H4). intros s5 H5.
  cbn [v_mem with_me]. rewrite M1, M2, M3, !Z.eqb_refl, (proj2 (Z.eqb_neq _ _) Hst). cbn [negb orb]. rewrite wp_bind. apply (wp_mpenter _ _ _ H5). intros s6 H6.
  rewrite wp_bind. unfold on_h. rewrite wp_zoom, wp_modify. unfold on_k. rewrite wp_zoom, wp_modify. apply HQ. cbn [lget hL kL].
  destruct (cpu_run_on (cpu_of (b_h s)) (b_h s6) (cpu_range (b_h s))) as [C6 R6]. destruct H6. split; cbn in *; try done.
  - apply Hs.
  - rewrite C6. apply Hs.
  - intros r. by rewrite R6.
Qed.
End Steps.
