(* ===== verification/StartBoot.v ===== *)
(** * The kernel starts

    The steps of [main] put together: from a machine whose firmware has loaded
    the kernel to the scheduler on every processor, with one process to run. *)
From S2P Require Import Prelude CString Layout Spinlock Kalloc Vm Fp Sched SchedProps Bytes Console ConsoleProps Sleeplock Bio BioProps Ide Io Mp Apic Segs Log LogProps TxDisk Fs FsProps Pipe Kernel Machine File Syscall Proc VmProps KvmRoom Start StartProps StartMem StartUser AsmProps StartView.

Open Scope Z_scope.

Section StartBoot.
Context {C : Type} `{BC : !BufCache C} `{DI : !DiskInit C} {H : Type} `{IO : !Io H} `{CP : !Cpus H} `{BD : !Board H}.
Context `{L : !Layout} `{FE : !FpEnv} `{SY : !KSyms} `{BS : !BootSyms}.
Variable ids : list Z.
Hypothesis ids_nodup : NoDup ids.
Hypothesis ids_range : Forall (fun id => 0 <= id < 256) ids.
Hypothesis mpenter_addr : 0 <= addr_mpenter < 4294967296.
Implicit Types (s : boot C H) (v : bview C).

(** ** startothers *)
Definition posted (m : mem) (p : Z) : mem :=
  wrw (wrw (wrw m (code - 4) (u32 (p + KSTACKSIZE))) (code - 8) addr_mpenter) (code - 12) (V2P addr_entrypgdir).
Lemma posted_mailbox m p : page_ok p -> mailbox (warm_reset (V2P code) (posted m p)) (p + KSTACKSIZE).
Proof.
  intros Hp. pose proof (page_above p Hp) as Hl. destruct Hp as (_ & _ & Hh). unfold KERNBASE, EXTMEM, PHYSTOP in *.
  assert (W : forall m a, code - 12 <= a < code -> rdb (warm_reset (V2P code) m) a = rdb m a).
  { intros m0 a Ha. unfold warm_reset. change wrv with 2147484775. change code with 2147512320 in Ha. by rewrite !rdb_wrb_ne by lia. }
  unfold KSTACKSIZE in *. split; rewrite (rdw_ext _ (posted m p)) by (intros i Hi; apply W; lia); unfold posted, KSTACKSIZE.
  - rewrite !rdw_wrw_ne by lia. rewrite rdw_wrw_eq. rewrite !u32_small by (rewrite ?u32_small; lia). done.
  - rewrite !rdw_wrw_ne by lia. rewrite rdw_wrw_eq. by apply u32_small.
  - rewrite rdw_wrw_eq. apply u32_small, u32_range.
Qed.
Lemma posted_high m p a : KERNBASE + EXTMEM <= a -> rdb (warm_reset (V2P code) (posted m p)) a = rdb m a.
Proof.
  intros Ha. unfold KERNBASE, EXTMEM in Ha. unfold warm_reset, posted. change wrv with 2147484775. change code with 2147512320. rewrite !rdb_wrb_ne by lia. by rewrite !rdb_wrw, !in_range_false by lia.
Qed.
Lemma mem_ok_posted m p : mem_ok m -> mem_ok (warm_reset (V2P code) (posted m p)).
Proof. intros Hm. unfold warm_reset, posted. by do 4 apply mem_ok_wrb; do 3 apply mem_ok_wrw. Qed.

Lemma wp_startap v s id Q : shows ids v s ->
  (forall s', shows ids (with_mem (lset ramL (warm_reset (V2P code) (ram (v_mem v))) (v_mem v)) v) s' -> Q tt s') ->
  wp (zoom ramhL (lapicstartap lapic_base id (V2P code))) Q s.
Proof.
  intros Hs HQ. rewrite wp_zoom. unfold lapicstartap. rewrite wp_bind, wp_zoom. eapply wp_mono; [apply quiet_cmos_shutdown|]. intros [] h1 S1.
  rewrite wp_bind, wp_modify, wp_zoom. eapply wp_mono; [apply quiet_startup|]. intros [] h2 S2. apply HQ. cbn in S1, S2. pose proof (same_board_trans _ _ _ S1 S2) as S3.
  apply shows_same; [|exact S3]. destruct Hs. split; cbn; try done. by rewrite sh_mem.
Qed.
Lemma wp_start_other v s p l c id x Q : shows ids v s -> stable (p :: l) v -> ids !! c = Some id -> c <> v_me v -> v_cpus v !! c = Some x -> v_started x = 0 ->
  (forall km s', shows ids (with_cpus (alter (entered (kpgdir (v_pt v))) c (v_cpus v)) (with_mem km v)) s' -> stable l (with_mem km v) -> Q tt s') ->
  wp (start_other c id) Q s.
Proof.
  intros Hs Hl Hc Hme Hx Hx0 HQ. unfold start_other. rewrite wp_bind. apply (wp_mycpu ids ids_nodup v); [done|]. intros s1 H1. rewrite decide_False by done.
  destruct (stable_kalloc p l v Hl) as (km & Ek & Er & Hp & Hl1). rewrite wp_bind. apply (wp_mem ids _ v _ _ _ _ Ek H1). intros s2 H2.
  rewrite wp_bind. eapply (wp_mem ids); [reflexivity|exact H2|]. intros s3 H3. rewrite wp_bind. eapply (wp_mem ids); [reflexivity|exact H3|]. intros s4 H4.
  rewrite wp_bind. eapply (wp_mem ids); [reflexivity|exact H4|]. intros s5 H5. rewrite wp_bind, wp_gets, (sh_lapic _ _ _ H5), wp_bind. apply (wp_startap _ _ _ _ H5). intros s6 H6.
  cbn in H6. fold (posted (ram km) p) in H6. set (m' := warm_reset _ _) in H6. pose proof (posted_mailbox (ram km) p Hp) as Hb. fold m' in Hb.
  assert (H7 : shows ids (with_mem (lset ramL m' km) v) s6) by exact H6.
  assert (Hl7 : stable l (with_mem (lset ramL m' km) v)).
  { apply (stable_store l (with_mem km v) m' Hl1); [apply mem_ok_posted, (ko_mem _ _ (st_ok _ _ Hl1))|]. intros a Ha. by apply posted_high. }
  unfold wait_started. rewrite wp_bind, wp_gets, (sh_started _ _ _ H7). cbn [v_cpus with_mem]. rewrite list_lookup_fmap, Hx. cbn. rewrite Hx0, bool_decide_true by done.
  rewrite wp_bind. apply (wp_start_cpu ids ids_nodup _ _ c id (p + KSTACKSIZE) _ H7 Hc); [|done|pose proof (page_above p Hp); unfold KERNBASE, EXTMEM, KSTACKSIZE in *; lia|].
  { rewrite Forall_lookup in ids_range. by apply (ids_range c). }
  intros s8 H8. rewrite wp_bind, wp_gets, (sh_started _ _ _ H8). cbn [v_cpus with_mem with_cpus]. rewrite list_lookup_fmap, list_lookup_alter_eq, Hx. cbn. by apply (HQ (lset ramL m' km)).
Qed.

(** The processors after the first [n] entries of [cpus]: [me] started them. *)
Definition awake (kp : Z) (me n : nat) (cs : list cview) : list cview :=
  imap (fun i x => if decide (i < n /\ i <> me)%nat then entered kp x else x) cs.
Lemma awake_0 kp me cs : awake kp me 0 cs = cs.
Proof. apply list_eq. intros i. unfold awake. rewrite list_lookup_imap. destruct (cs !! i); cbn; [|done]. by rewrite decide_False by lia. Qed.
Lemma awake_S kp me n cs : n <> me -> awake kp me (S n) cs = alter (entered kp) n (awake kp me n cs).
Proof.
  intros D. apply list_eq. intros i. unfold awake. rewrite list_lookup_alter, !list_lookup_imap. destruct (decide (n = i)) as [<-|E].
  - destruct (cs !! n) as [x|]; cbn; [|done]. by rewrite decide_True, decide_False by lia.
  - destruct (cs !! i) as [x|]; cbn; [|done]. f_equal. destruct (decide (i < n /\ i <> me)%nat); [by rewrite decide_True by lia|by rewrite decide_False by lia].
Qed.
Lemma awake_me kp me cs : awake kp me (S me) cs = awake kp me me cs.
Proof. unfold awake. apply imap_ext. intros i x _. destruct (decide (i < me /\ i <> me)%nat); [by rewrite decide_True by lia|by rewrite decide_False by lia]. Qed.

Lemma wp_startothers v s l Q : shows ids v s -> stable l v -> (length ids <= length l)%nat -> length (v_cpus v) = length ids ->
  (forall i x, v_cpus v !! i = Some x -> i <> v_me v -> v_started x = 0) -> Z.of_nat (length entryother) <= 4096 ->
  (forall km l' s', shows ids (with_cpus (awake (kpgdir (v_pt v)) (v_me v) (length ids) (v_cpus v)) (with_mem km v)) s' -> stable l' (with_mem km v) -> Q tt s') ->
  wp startothers Q s.
Proof.
  intros Hs Hl Hlen Hn H0 He HQ. unfold startothers. rewrite wp_bind. eapply (wp_mem ids); [reflexivity|exact Hs|]. intros s1 H1. rewrite wp_bind, wp_gets, (sh_ids _ _ _ H1).
  set (m1 := wr_bytes (ram (v_mem v)) code entryother) in *.
  assert (Hl1 : stable l (with_mem (lset ramL m1 (v_mem v)) v)).
  { apply stable_store; [done|apply mem_ok_wr_bytes, (ko_mem _ _ (st_ok _ _ Hl))|]. intros a Ha. unfold KERNBASE, EXTMEM in Ha. unfold m1. change code with 2147512320.
    by rewrite wr_bytes_mem, in_range_false by lia. }
  set (kp := kpgdir (v_pt v)) in *. set (me := v_me v) in *.
  apply wp_for_each with (I := fun dn s' => exists km l', shows ids (with_cpus (awake kp me (length dn) (v_cpus v)) (with_mem km v)) s' /\
    stable l' (with_mem km v) /\ (length ids <= length l' + length dn)%nat).
  - exists (lset ramL m1 (v_mem v)), l. cbn [length]. rewrite awake_0, Nat.add_0_r. by split_and!.
  - intros dn [c id] todo s2 E (km & l' & H2 & Hl2 & Hr). cbn [fst snd].
    assert (Hc : imap pair ids !! length dn = Some (c, id)) by (rewrite E; by apply list_lookup_middle).
    rewrite list_lookup_imap in Hc. destruct (ids !! length dn) as [id'|] eqn:Eid; [|done]. cbn in Hc. injection Hc as <- <-.
    assert (Hlt : (length dn < length ids)%nat) by (by apply lookup_lt_Some in Eid). rewrite length_app. cbn [length]. rewrite Nat.add_1_r. destruct (decide (length dn = me)) as [Em|Dm].
    + unfold start_other. rewrite wp_bind. apply (wp_mycpu ids ids_nodup _ _ _ H2). intros s3 H3. cbn [v_me with_mem with_cpus]. rewrite decide_True by done. rewrite wp_ret.
      exists km, l'. rewrite Em in H3, Hr |- *. rewrite awake_me. split_and!; [done|done|lia].
    + destruct l' as [|p l']; [cbn in Hr; lia|]. destruct (lookup_lt_is_Some_2 (v_cpus v) (length dn)) as [x Hx]; [lia|].
      apply (wp_start_other _ _ p l' _ _ x _ H2); [destruct Hl2; by split|done|done| |by apply (H0 (length dn))|].
      { cbn. unfold awake. rewrite list_lookup_imap, Hx. cbn. by rewrite decide_False by lia. }
      intros km3 s3 H3 Hl3. exists km3, l'. split_and!; [|destruct Hl3; by split|cbn in Hr; lia]. rewrite awake_S by done. exact H3.
  - intros s2 (km & l' & H2 & Hl2 & _). rewrite length_imap in H2. by apply (HQ km l').
Qed.

(** ** The devices *)
Lemma wp_enable irq cpu v s Q : 0 <= irq < 100 -> shows ids v s ->
  (forall s', shows ids (with_regs (enabled irq cpu (v_regs v)) v) s' -> Q tt s') -> wp (on_h (ioapicenable irq cpu)) Q s.
Proof.
  intros Hi Hs HQ. unfold on_h. rewrite wp_zoom. apply (wp_ioapicenable _ _ (v_regs v)); [done|apply Hs|]. intros h Hc Hr. apply HQ. by apply shows_h.
Qed.
Lemma wp_boot_ioapicinit v s Q : shows ids v s ->
  (forall s', shows ids (with_regs (masked (maxintr (v_regs v) + 1) (v_regs v)) v) s' -> Q tt s') -> wp boot_ioapicinit Q s.
Proof.
  intros Hs HQ. unfold boot_ioapicinit. rewrite wp_bind, wp_gets, wp_bind. unfold on_h. rewrite wp_zoom. apply (wp_ioapicinit _ (v_regs v)); [apply Hs|]. intros b h Hc Hr.
  pose proof (shows_h ids v s h _ Hs Hc Hr) as H1. destruct b; cbn [when]; [|by apply wp_ret, HQ]. by eapply (wp_kprintf ids); [|exact H1|].
Qed.
Lemma wp_consoleinit v s Q : shows ids v s -> (forall s', shows ids (with_regs (enabled IRQ_KBD 0 (v_regs v)) v) s' -> Q tt s') -> wp consoleinit Q s.
Proof.
  intros Hs HQ. unfold consoleinit. rewrite wp_bind. apply (wp_con ids _ v); [done|]. intros c [_ O]. rewrite wp_modify. split; [by split|]. intros s1 H1.
  rewrite wp_bind. apply (wp_con ids _ v); [done|]. intros c1 O1. rewrite wp_modify. split; [exact O1|]. intros s2 H2. by apply (wp_enable _ _ v).
Qed.
Definition com1 (present : bool) (R : Z -> Z) : Z -> Z := if present then enabled IRQ_COM1 0 R else R.
Lemma wp_uartinit v s Q : shows ids v s -> (forall p s', shows ids (with_regs (com1 p (v_regs v)) v) s' -> Q tt s') -> wp uartinit Q s.
Proof.
  intros Hs HQ. unfold uartinit. revert s Hs. do 7 (intros s Hs; rewrite wp_bind; apply (wp_quiet ids _ v s _ (quiet_outb _ _) Hs); intros _; clear s Hs).
  intros s Hs. rewrite wp_bind. apply (wp_quiet ids _ v s _ (quiet_inb _) Hs). intros st s1 H1. destruct (st =? 0xFF).
  { rewrite wp_ret. apply (HQ false). by destruct v. }
  rewrite wp_bind. apply (wp_con ids _ v); [done|]. intros c [Ol O]. rewrite wp_zoom, wp_modify. split; [destruct O; by split|]. intros s2 H2.
  rewrite wp_bind. apply (wp_quiet ids _ v s2 _ (quiet_inb _) H2). intros _ s3 H3. rewrite wp_bind. apply (wp_quiet ids _ v s3 _ (quiet_inb _) H3). intros _ s4 H4.
  rewrite wp_bind. apply (wp_enable _ _ v); [done|done|]. intros s5 H5. apply (wp_con ids _ _ _ _ H5). intros c1 O1. rewrite wp_zoom.
  apply wp_for_each with (I := fun _ => screen_ok).
  - apply O1.
  - intros dn x todo s6 _ O6. unfold uartputc. rewrite wp_bind, wp_get. destruct (_ =? 0); [done|]. rewrite wp_put. destruct O6; by split.
  - intros s6 O6. split; [by split; [apply O1|]|]. intros s' H'. apply (HQ true), H'.
Qed.
Lemma wp_pinit v s Q : shows ids v s -> (forall s', shows ids (with_pt (lset plockL false (v_pt v)) v) s' -> Q tt s') -> wp pinit Q s.
Proof.
  intros Hs HQ. unfold pinit, on_k, on_pt. rewrite wp_zoom, wp_bind, wp_gets, wp_zoom, wp_modify. apply HQ. destruct Hs. split; cbn; try done. cbn in sh_pt. by rewrite sh_pt.
Qed.
Lemma wp_tvinit v s Q : shows ids v s -> (forall s', shows ids (with_idt (tvinit_idt vectors (v_idt v)) v) s' -> Q tt s') -> wp tvinit Q s.
Proof.
  intros Hs HQ. unfold tvinit. rewrite wp_bind, wp_modify. unfold on_k. rewrite wp_zoom, wp_modify. apply HQ. destruct Hs. split; cbn; try done. by rewrite sh_idt.
Qed.
Lemma wp_cache (m : M C unit) v s c Q : m (v_bc v) = Ok (tt, c) -> shows ids v s -> (forall s', shows ids (with_bc c v) s' -> Q tt s') ->
  wp (on_k (on_log (zoom bcL m))) Q s.
Proof.
  intros E Hs HQ. unfold on_k, on_log. rewrite !wp_zoom. cbn [lget kL fsL diskL ds_logL bcL]. rewrite (sh_bc _ _ _ Hs). unfold wp. rewrite E. apply HQ. destruct Hs. by split.
Qed.
Lemma wp_fileinit v s Q : shows ids v s -> (forall s', shows ids v s' -> Q tt s') -> wp (on_k fileinit) Q s.
Proof. intros Hs HQ. unfold on_k, fileinit. rewrite wp_zoom, wp_modify. apply HQ. destruct Hs. by split. Qed.

(** Where interrupts go: the keyboard and the serial line, when there is one, to
    CPU 0, the disk to the last. *)
Definition routed (serial : bool) (R : Z -> Z) : Z -> Z :=
  enabled IRQ_IDE (Z.of_nat (length ids) - 1) (com1 serial (enabled IRQ_KBD 0 (masked (maxintr R + 1) R))).
Lemma wp_devices v s c1 c2 (K : M (boot C H) unit) Q : shows ids v s -> cache_init (v_bc v) = Ok (tt, c1) -> disk_init c1 = Ok (tt, c2) ->
  (forall serial s', shows ids (with_bc c2 (with_idt (tvinit_idt vectors (v_idt v)) (with_regs (routed serial (v_regs v)) (with_pt (lset plockL false (v_pt v)) v)))) s' -> wp K Q s') ->
  wp (on_h picinit ;; boot_ioapicinit ;; consoleinit ;; uartinit ;; pinit ;; tvinit ;; binit ;; on_k fileinit ;; ideinit ;; K) Q s.
Proof.
  intros Hs E1 E2 HQ. rewrite wp_bind. apply (wp_quiet ids _ v s _ quiet_picinit Hs). intros _ s1 H1. rewrite wp_bind. apply (wp_boot_ioapicinit _ _ _ H1). intros s2 H2.
  rewrite wp_bind. apply (wp_consoleinit _ _ _ H2). intros s3 H3. rewrite wp_bind. apply (wp_uartinit _ _ _ H3). intros p s4 H4.
  rewrite wp_bind. apply (wp_pinit _ _ _ H4). intros s5 H5. rewrite wp_bind. apply (wp_tvinit _ _ _ H5). intros s6 H6.
  rewrite wp_bind. eapply (wp_cache _ _ _ c1); [|exact H6|]; [exact E1|]. intros s7 H7. rewrite wp_bind. apply (wp_fileinit _ _ _ H7). intros s8 H8.
  rewrite wp_bind. unfold ideinit. rewrite wp_bind, wp_gets, (sh_ids _ _ _ H8), wp_bind. eapply wp_enable; [done|exact H8|]. intros s9 H9.
  eapply (wp_cache _ _ _ c2); [|exact H9|]; [exact E2|]. intros s10 H10. by apply (HQ p).
Qed.

(** ** Up to the segments of the boot processor *)
Definition zero_view : cview := CView zero_cpu (replicate (Z.to_nat NSEGS) no_seg) false 0.
Definition boot_view (kp : Z) : cview := CView (Pcpu None 0 (V2P kp) false 0 0) (seginit_gdt (replicate (Z.to_nat NSEGS) no_seg)) false 0.
Definition empty_table (kp : Z) : ptable := Pt false (no_proc :: spare) None 1 [] kp.
Definition first_view (me : nat) (km : kmem) (kp : Z) (c : C) (R : Z -> Z) (idt : list gatedesc) : bview C :=
  BView me km (empty_table kp) (alter (fun _ => boot_view kp) me (map (fun _ => zero_view) ids)) (replicate NINODE no_inode) c R idt.

(** What the firmware leaves in low memory. *)
Record firmware (m : mem) (fp : Z) (hdr : bytes) (es : list entry) : Prop := {
  fw_table : table m fp hdr (body_of es);
  fw_entries : Forall entry_ok es;
  fw_lapic : get32 hdr 36 = lapic_base;
  fw_places : Forall (fun a => a + 16 <= kend) (places m);
  fw_low : P2V (mp_physaddr m fp) + Z.of_nat (length (hdr ++ body_of es)) <= kend
}.
Lemma holds_keep m m' e a l : (forall x, x < e -> rdb m' x = rdb m x) -> a + Z.of_nat (length l) <= e -> holds m a l -> holds m' a l.
Proof. intros E Ha Hh i Hi. rewrite E by lia. by apply Hh. Qed.
Lemma pointer_keep m m' e a : (forall x, x < e -> rdb m' x = rdb m x) -> a + 16 <= e -> pointer m a <-> pointer m' a.
Proof.
  intros E Ha. split; intros (l & Hh & Hl & Hr); exists l; (split; [|done]); (eapply holds_keep; [| |exact Hh]); [exact E|by rewrite Hl| |by rewrite Hl].
  intros x Hx. symmetry. by apply E.
Qed.
Lemma places_keep m m' : (forall x, x < kend -> rdb m' x = rdb m x) -> places m' = places m.
Proof.
  intros E. pose proof kdata_low as K1. pose proof kdata_kend as K2. unfold KERNLINK, KERNBASE, EXTMEM in *.
  unfold places, word16. change (P2V 0x40E) with 2147484686. change (P2V 0x413) with 2147484691. by rewrite !E by lia.
Qed.
Lemma firmware_keep m m' fp hdr es : firmware m fp hdr es -> mem_ok m' -> (forall x, x < kend -> rdb m' x = rdb m x) -> firmware m' fp hdr es.
Proof.
  intros [[T1 (pre & post & Hp & Hpre) T3 T4 T5 T6] F2 F3 F4 F5] Hm E. rewrite Hp in F4. apply Forall_app in F4 as [F4 F4']. apply Forall_cons in F4' as [F6 F7].
  assert (Ea : mp_physaddr m' fp = mp_physaddr m fp) by (unfold mp_physaddr; apply rdw_ext; intros i Hi; apply E; lia).
  split; [split| | | |]; try done.
  - exists pre, post. split; [by rewrite (places_keep m)|]. rewrite Forall_forall in *. intros x Hx Hq. apply (Hpre x Hx). by apply (pointer_keep m m' kend); [done|apply F4|].
  - by apply (pointer_keep m m' kend).
  - by rewrite Ea.
  - rewrite Ea. by apply (holds_keep m m' kend).
  - rewrite (places_keep m), Hp by done. apply Forall_app. split; [done|by apply Forall_cons].
  - by rewrite Ea.
Qed.

(** Equal lists of what the processors have, entry by entry. *)
Ltac by_index me :=
  let i := fresh "i" in let D := fresh "D" in
  apply list_eq; intros i; repeat (rewrite list_lookup_alter || rewrite list_lookup_fmap);
  destruct (decide (me = i)) as [<-|D]; repeat rewrite list_lookup_fmap; match goal with |- context [ids !! ?j] => by destruct (ids !! j) end.

(** The kernel's variables as the loader leaves them, and a screen. *)
Record reset (m : mem) s : Prop := {
  rs_mem : exists lk ul, k_mem (b_k s) = Kmem lk ul 0 m;
  rs_bytes : mem_ok m;
  rs_pt : k_pt (b_k s) = Pt false (no_proc :: spare) None 1 [] 0;
  rs_fs : ic_lock (k_fs (b_k s)) = false /\ icache (k_fs (b_k s)) = replicate NINODE no_inode;
  rs_con : can_print (ds_cons (disk (k_fs (b_k s))));
  rs_ids : b_ids s = []
}.
Lemma wp_count s k h me io lp idt st gd ir cr3 kp Q :
  k_pt k = Pt false (no_proc :: spare) None 1 [] kp -> ic_lock (k_fs k) = false /\ icache (k_fs k) = replicate NINODE no_inode ->
  can_print (ds_cons (disk (k_fs k))) -> ids !! me = Some (cpu_of h) -> lp = lapic_base -> cr3 = V2P kp -> s = Boot k h ids io lp idt st gd ir cr3 ->
  (forall s', shows ids (first_view me (k_mem k) kp (bc (ds_log (disk (k_fs k)))) (io_regs h) idt) s' -> Q tt s') ->
  wp (fill_cpus ;; boot_lapicinit ;; seginit ;; adopt) Q s.
Proof.
  intros Ek Ef Ec Eme -> -> -> HQ. rewrite wp_bind. unfold fill_cpus. rewrite wp_bind, wp_gets, wp_bind. unfold on_k at 1, on_pt at 1. rewrite wp_zoom, wp_bind, wp_gets, wp_zoom, wp_modify.
  rewrite wp_bind, wp_modify, wp_bind, wp_modify, wp_modify. cbn [b_ids lget kL b_k]. rewrite wp_bind. unfold boot_lapicinit, on_h. rewrite wp_bind, wp_gets, wp_zoom.
  eapply wp_mono; [apply quiet_lapicinit|]. intros [] h1 S1. cbn in S1. rewrite wp_bind. unfold seginit. rewrite wp_bind. apply (wp_mycpu_at ids ids_nodup me); [done|done|cbn; by rewrite (proj1 S1)|].
  intros h2 S2. cbn in S2. pose proof (same_board_trans _ _ _ S1 S2) as S3. rewrite wp_modify. unfold adopt. rewrite wp_bind. apply (wp_mycpu_at ids ids_nodup me); [done|done|cbn; by rewrite (proj1 S3)|].
  intros h3 S4. cbn in S4. pose proof (same_board_trans _ _ _ S3 S4) as [Hc Hr]. rewrite wp_bind, wp_gets, wp_bind. unfold on_k, on_pt. rewrite wp_zoom, wp_modify, wp_zoom, wp_bind, wp_gets, wp_zoom.
  unfold upd_pcpu. rewrite wp_modify. apply HQ. split; cbn; try done.
  - by rewrite Hc.
  - rewrite Ek. cbn. f_equal. by_index me.
  - intros r. by rewrite Hr.
  - by_index me.
  - by_index me.
  - by_index me.
Qed.

Lemma imcr_board (h : H) : same_board h (imcr h).
Proof.
  unfold imcr. destruct (outb_board 0x22 0x70 h) as [C1 R1]. set (h1 := io_outb 0x22 _ h) in *. destruct (inb_board 0x23 h1) as [C2 R2].
  destruct (outb_board 0x23 (u8 (Z.lor (u8 (io_inb 0x23 h1).1) 1)) (io_inb 0x23 h1).2) as [C3 R3]. split; congruence.
Qed.
(** The page table of the kernel, taken from the pages below 4 MB. *)
Lemma kvm_memory km l : kmem_ok km l -> use_lock km = false -> (forall q, q ∈ l -> q + 4096 <= KERNBASE + 4194304) -> (73 <= length l)%nat ->
  exists kp km' l', setupkvm km = Ok (kp, km') /\ (kp =? 0) = false /\ (8 <= length l')%nat /\ (forall x, x < kend -> rdb (ram km') x = rdb (ram km) x) /\
    kmem_ok km' l' /\ (forall q, q ∈ l' -> q + 4096 <= KERNBASE + 4194304) /\ use_lock km' = false /\ kernel_map (ram km') l' kp.
Proof.
  intros Hk Hu Hl Hn. destruct (setupkvm_room km l Hk) as (kp & km' & used & l' & E & Hu' & El & Hk' & Hd & Ht & Hp & Hf & Hle); [lia|].
  exists kp, km', l'. split_and!; try done.
  - by apply (hd_page_nonzero l kp (used ++ l') (ko_pages _ _ Hk)).
  - rewrite El in Hn. cbn in Hn. rewrite length_app in Hn. lia.
  - intros x Hx. set (q := x / 4096 * 4096). assert (Hq : q mod 4096 = 0) by (apply Z.mod_mul; lia).
    apply (Hf q Hq); [|unfold q; Z.div_mod_to_equations; lia]. intros Hin. pose proof (ko_pages _ _ Hk) as F. rewrite Forall_forall in F.
    assert (page_ok q) as (_ & Hkq & _) by (apply F; rewrite El; set_solver). unfold q in Hkq. Z.div_mod_to_equations. lia.
  - intros q Hq. apply Hl. rewrite El. set_solver.
  - congruence.
  - split; [done| |done]. intros q [->|Hq]; apply Hl; rewrite El; [set_solver|]. apply Ht in Hq. set_solver.
Qed.
Lemma wp_then3 {S} (a b c k : M S unit) Q (s : S) : wp (a ;; b ;; c) (fun _ => wp k Q) s -> wp (a ;; b ;; c ;; k) Q s.
Proof.
  unfold wp, mbind, M_bind. destruct (a s) as [[[] s1]| | |]; try done. destruct (b s1) as [[[] s2]| | |]; try done. by destruct (c s2) as [[[] s3]| | |].
Qed.
Lemma wp_early m s fp hdr es me (K : M (boot C H) unit) Q : reset m s -> firmware m fp hdr es -> ids = take 8 (processors es) ->
  ids !! me = Some (cpu_of (b_h s)) -> kend + 75 * 4096 <= KERNBASE + 4194304 ->
  (forall kp km l s', let v := first_view me km kp (bc (ds_log (disk (k_fs (b_k s))))) (io_regs (b_h s)) (b_idt s) in
    shows ids v s' -> stable l v -> (8 <= length l)%nat -> wp K Q s') ->
  wp (on_k (on_mem (kinit1 kend (P2V (4 * 1024 * 1024)))) ;; kvmalloc ;; boot_mpinit ;; boot_lapicinit ;; seginit ;; adopt ;; K) Q s.
Proof.
  intros [(lk & ul & Em) Hmo Ept Efs Eco Eid] Hfw Eids Hme Hroom HQ. destruct (kinit1_runs lk ul m Hmo) as (km1 & l1 & E1 & Hk1 & Hu1 & Hl1 & Hb1 & Hn1).
  destruct (kvm_memory km1 l1 Hk1 Hu1) as (kp & km2 & l2 & E2 & Hz & Hn2 & Hb2 & Hk2 & Hl2 & Hu2 & Hmap); [by intros q Hq; apply Hl1|lia|].
  assert (Hfw2 : firmware (ram km2) fp hdr es).
  { apply (firmware_keep m); [done|apply Hk2|]. intros x Hx. by rewrite Hb2, Hb1. }
  destruct Hfw2 as [T2 F2 Ela _ _]. destruct s as [k h ii io lp idt st gd ir cr3]. cbn [b_k b_h b_ids b_idt] in *. subst ii.
  rewrite wp_bind. unfold on_k at 1, on_mem at 1. rewrite !wp_zoom. cbn [lget kL memL b_k]. rewrite Em. unfold wp at 1. rewrite E1. cbn [lset kL memL b_k b_h b_ids b_ioapicid b_lapic b_idt b_started b_gdt b_idtr b_cr3].
  rewrite wp_bind. unfold kvmalloc. rewrite wp_bind. unfold on_k at 1, on_mem at 1. rewrite !wp_zoom. cbn [lget kL memL b_k k_mem]. unfold wp at 1. rewrite E2.
  rewrite wp_bind. unfold on_k at 1, on_pt at 1. rewrite wp_zoom, wp_bind, wp_gets, wp_zoom, wp_modify, Hz, wp_modify.
  rewrite wp_bind. unfold boot_mpinit. rewrite wp_bind, wp_zoom. apply (mpinit_good _ fp hdr es); [exact T2|done|done|]. rewrite Ela, <-Eids.
  set (h1 := if truthy _ then imcr _ else _). assert (S1 : same_board h h1) by (unfold h1; cbn; destruct (truthy _); [apply imcr_board|done]).
  cut (forall Q', (forall s', shows ids (first_view me km2 kp (bc (ds_log (disk (k_fs k)))) (io_regs h) idt) s' -> Q' tt s') -> wp (fill_cpus ;; boot_lapicinit ;; seginit ;; adopt) Q'
    (lset mpL (Mpst (ram km2) ids (default io (last (ioapics es))) lapic_base h1) (set_cr3 (V2P kp) (lset kL (lset ptL (set_kpgdir kp (k_pt k)) (lset memL km2 k)) (Boot k h [] io lp idt st gd ir cr3))))).
  { intros G. specialize (G (fun _ => wp K Q)). rewrite wp_bind in G. eapply wp_mono; [apply G|].
    - intros s' H'. apply (HQ kp km2 l2 s'); [done|by split|done].
    - intros [] s' W. by apply wp_then3. }
  intros Q' HQ'. eapply wp_count; [| | | | | |reflexivity|]; cbn; try done.
  - by rewrite Ept.
  - by rewrite (proj1 S1).
  - by rewrite (proj2 S1).
Qed.

(** ** The rest of memory and the first process *)
Lemma kinit2_keeps l v s Q : shows ids v s -> stable l v ->
  (forall km l' s', shows ids (with_mem km v) s' -> kmem_ok km l' -> use_lock km = true -> kernel_map (ram km) l' (kpgdir (v_pt v)) -> (1000 <= length l')%nat -> Q tt s') ->
  wp (on_k (on_mem (kinit2 (P2V (4 * 1024 * 1024)) (P2V PHYSTOP)))) Q s.
Proof.
  intros Hs [Hk Hl Hu Hm] HQ. destruct (kinit2_runs _ _ Hk Hl) as (km & l2 & E & Hk2 & Hu2 & Hl2 & Hb & Hn). apply (wp_mem ids _ v _ _ _ _ E Hs). intros s1 H1.
  apply (HQ km (l2 ++ l)); [exact H1|exact Hk2|exact Hu2| |].
  - apply (kernel_map_keep (ram (v_mem v)) _ l); [exact Hm| |].
    + intros q Hq _ Hlow a Ha. apply Hb. lia.
    + intros q Hq Hlow. apply elem_of_app in Hq as [Hq|Hq]; [apply Hl2 in Hq; lia|done].
  - rewrite length_app. lia.
Qed.
Definition first_table (ks d kp : Z) : ptable := Pt false (first_proc ks d :: spare) (Some 0%nat) 2 [] kp.
Lemma wp_userinit init l v s kp x Q : shows ids v s -> kmem_ok (v_mem v) l -> kernel_map (ram (v_mem v)) l kp -> (1000 <= length l)%nat -> (length init < 4096)%nat ->
  v_pt v = empty_table kp -> v_icache v = replicate NINODE no_inode -> v_cpus v !! v_me v = Some x -> idle (v_cpu x) ->
  (forall km ks d own l' s', shows ids (with_icache (root_inode :: replicate 49 no_inode) (with_pt (first_table ks d kp) (with_mem km v))) s' ->
    kmem_ok km l' -> use_lock km = use_lock (v_mem v) -> kernel_map (ram km) l' kp -> space (ram km) l' own d init -> starts_user (ram km) ks (ks + 4020) (ks + 3996) ->
    page_ok ks -> d <> 0 -> Q tt s') ->
  wp (on_k (userinit init)) Q s.
Proof.
  intros Hs Hk Hm Hn Hi Ept Eic Hx Hidle HQ. destruct l as [|ks l]; [cbn in Hn; lia|]. cbn [length] in Hn.
  destruct (userinit_first (b_k s) (v_cpu x) ks l (map v_cpu (v_cpus v)) kp init) as (km & d & own & l' & f & E & El & Hd & Hk' & Hu & Hsp & Hst & Ef & Hfr).
  - by rewrite (sh_pt _ _ _ Hs), Ept.
  - rewrite (sh_me _ _ _ Hs), list_lookup_fmap, Hx. done.
  - done.
  - apply Hs.
  - rewrite <-Eic. apply Hs.
  - by rewrite (sh_mem _ _ _ Hs).
  - lia.
  - done.
  - unfold on_k. rewrite wp_zoom. cbn [lget kL]. unfold wp. rewrite E. rewrite (sh_mem _ _ _ Hs) in Hu, Hfr.
    pose proof (ko_pages _ _ Hk) as F. assert (Hnz : forall q, q ∈ ks :: l -> q <> 0).
    { rewrite Forall_forall in F. intros q Hq. apply F, page_above in Hq. unfold KERNBASE, EXTMEM in Hq. lia. }
    apply (HQ km ks d own l'); try done.
    + destruct Hs. split; cbn; try done; rewrite Ef; done.
    + apply (kernel_map_keep (ram (v_mem v)) _ (ks :: l)); [done| |]; [by intros q Hq Hnq _; apply Hfr|]. intros q Hq _. rewrite El. set_solver.
    + by apply Forall_cons in F as [? _].
    + apply Hnz. rewrite El. set_solver.
Qed.

(** ** The started machine *)
Definition running_view (kp : Z) : cview := CView (Pcpu None 0 (V2P kp) false 0 0) (seginit_gdt (replicate (Z.to_nat NSEGS) no_seg)) true 1.
Lemma all_running kp me : (me < length ids)%nat ->
  alter live me (awake kp me (length ids) (alter (fun _ => boot_view kp) me (map (fun _ => zero_view) ids))) = map (fun _ => running_view kp) ids.
Proof.
  intros Hme. apply list_eq. intros i. rewrite list_lookup_alter. unfold awake. rewrite !list_lookup_imap, !list_lookup_alter, !list_lookup_fmap.
  destruct (decide (me = i)) as [<-|D].
  - rewrite decide_True by done. destruct (ids !! me); cbn; [|done]. by rewrite decide_False by lia.
  - destruct (ids !! i) eqn:Ei; cbn; [|done]. apply lookup_lt_Some in Ei. by rewrite decide_True by lia.
Qed.
(** What the controller does with interrupt [irq]: the two words of its entry. *)
Definition int_entry (R : Z -> Z) (irq : Z) : Z * Z := (R (REG_TABLE + 2 * irq), R (REG_TABLE + 2 * irq + 1)).
Definition int_expected (serial : bool) (irq : Z) : Z * Z :=
  if irq =? IRQ_IDE then (T_IRQ0 + IRQ_IDE, u32 (Z.shiftl (Z.of_nat (length ids) - 1) 24))
  else if (irq =? IRQ_KBD) || serial && (irq =? IRQ_COM1) then (T_IRQ0 + irq, 0)
  else (Z.lor INT_DISABLED (T_IRQ0 + irq), 0).
Lemma enabled_entry irq cpu R i : int_entry (enabled irq cpu R) i = if i =? irq then (T_IRQ0 + irq, u32 (Z.shiftl cpu 24)) else int_entry R i.
Proof.
  unfold int_entry, enabled, upd, REG_TABLE. replace (16 + 2 * i =? 17 + 2 * irq) with false by (symmetry; apply Z.eqb_neq; lia).
  replace (16 + 2 * i + 1 =? 16 + 2 * irq) with false by (symmetry; apply Z.eqb_neq; lia).
  replace (16 + 2 * i =? 16 + 2 * irq) with (i =? irq) by (destruct (Z.eqb_spec i irq); symmetry; [apply Z.eqb_eq|apply Z.eqb_neq]; lia).
  replace (16 + 2 * i + 1 =? 17 + 2 * irq) with (i =? irq) by (destruct (Z.eqb_spec i irq); symmetry; [apply Z.eqb_eq|apply Z.eqb_neq]; lia). by destruct (i =? irq).
Qed.
Lemma masked_entry n R i : 0 <= i < n -> int_entry (masked n R) i = (Z.lor INT_DISABLED (T_IRQ0 + i), 0).
Proof.
  intros Hi. unfold int_entry, masked, REG_TABLE. rewrite !(proj2 (Z.leb_le _ _)), !(proj2 (Z.ltb_lt _ _)) by lia. cbn [andb].
  assert ((16 + 2 * i) mod 2 = 0 /\ (16 + 2 * i + 1) mod 2 = 1) as [-> ->] by (Z.div_mod_to_equations; lia). cbn [Z.eqb]. do 3 f_equal. Z.div_mod_to_equations. lia.
Qed.
Lemma routed_entry serial R irq : 0 <= irq <= maxintr R -> int_entry (routed serial R) irq = int_expected serial irq.
Proof.
  intros Hi. unfold routed, int_expected, com1. rewrite enabled_entry. destruct (irq =? IRQ_IDE); [done|]. destruct serial; rewrite ?enabled_entry; cbn [andb].
  - destruct (Z.eqb_spec irq IRQ_COM1) as [->|D]; [done|]. destruct (Z.eqb_spec irq IRQ_KBD) as [->|D']; [done|]. cbn [orb]. apply masked_entry. lia.
  - destruct (Z.eqb_spec irq IRQ_KBD) as [->|D']; [done|]. cbn [orb]. apply masked_entry. lia.
Qed.

(** A processor that enters the scheduler takes the first process and loads its
    page table. *)
Definition dispatches_first (j : nat) (d : Z) (pt : ptable) : Prop :=
  exists pt' x p, scheduler_pick j pt = Ok (Some 0%nat, pt') /\ pcpus pt' !! j = Some x /\ c_proc x = Some 0%nat /\ c_cr3 x = V2P d /\
    procs pt' = p :: spare /\ state p = RUNNING.
Lemma first_dispatched ks d kp cpus j c : ks <> 0 -> d <> 0 -> cpus !! j = Some c -> idle c -> dispatches_first j d (lset cpusL cpus (first_table ks d kp)).
Proof.
  intros Hks Hd Hc Hi. destruct (scheduler_pick_some j (lset cpusL cpus (first_table ks d kp)) c 0 (first_proc ks d)) as (pt' & x & E & Ep & _ & _ & Hx & Hx0 & Hx1 & _).
  - exact Hc.
  - reflexivity.
  - apply Hi.
  - vm_compute. reflexivity.
  - vm_compute. discriminate.
  - exact Hks.
  - exact Hd.
  - exists pt', x, (dispatched (first_proc ks d) (u32 (totalweight (procs (first_table ks d kp))))). split_and!; [exact E|exact Hx|exact Hx0|exact Hx1|exact Ep|reflexivity].
Qed.
(** Segments that cover the whole address space, two for the kernel and two for
    user code. *)
Definition flat (gdt : list segdesc) : Prop := forall i, i ∈ [1; 2; 3; 4]%nat ->
  exists d, gdt !! i = Some d /\ seg_base d = 0 /\ seg_last d = 4294967295 /\ sd_dpl d = (if decide (i < 3)%nat then 0 else 3).
Record booted (init : bytes) (c : C) s0 s : Prop := {
  bo_tables : exists kp ks d own l,
    k_pt (b_k s) = lset cpusL (map (fun _ => v_cpu (running_view kp)) ids) (first_table ks d kp) /\ pt_inv (k_pt (b_k s)) /\
    kmem_ok (k_mem (b_k s)) l /\ use_lock (k_mem (b_k s)) = true /\ kernel_map (ram (k_mem (b_k s))) l kp /\
    space (ram (k_mem (b_k s))) l own d init /\ enters_user (ram (k_mem (b_k s))) ks /\
    forall j, (j < length ids)%nat -> dispatches_first j d (k_pt (b_k s));
  bo_cpus : b_ids s = ids /\ b_started s = map (fun _ => 1) ids /\ b_idtr s = map (fun _ => true) ids /\
    length (b_gdt s) = length ids /\ Forall flat (b_gdt s);
  bo_me : ids !! k_me (b_k s) = Some (cpu_of (b_h s0)) /\ cpu_of (b_h s) = cpu_of (b_h s0);
  bo_idt : forall i, (i < 256)%nat -> exists g, b_idt s !! i = Some g /\
    enters g (8 * SEG_KCODE) (vectors i) (bool_decide (i = Z.to_nat T_SYSCALL)) /\ int_allowed g 3 = bool_decide (i = Z.to_nat T_SYSCALL);
  bo_intr : exists serial, forall irq, 0 <= irq <= maxintr (io_regs (b_h s0)) -> int_entry (io_regs (b_h s)) irq = int_expected serial irq;
  bo_disk : bc (ds_log (disk (k_fs (b_k s)))) = c;
  bo_root : ic_lock (k_fs (b_k s)) = false /\ icache (k_fs (b_k s)) = root_inode :: replicate 49 no_inode
}.
Lemma first_pt_inv ks d kp cpus : ks <> 0 -> d <> 0 -> Forall idle cpus -> pt_inv (lset cpusL cpus (first_table ks d kp)).
Proof.
  intros Hks Hd Hid. set (p0 := first_proc ks d). rewrite Forall_lookup in Hid.
  assert (Hin : forall i p, (p0 :: spare) !! i = Some p -> (i = 0%nat /\ p = p0) \/ p = no_proc).
  { intros [|i] p Hp; [left; split; [done|by injection Hp]|right]. change (spare !! i = Some p) in Hp. by apply lookup_replicate in Hp as [-> _]. }
  assert (Hall : forall P : proc -> Prop, P p0 -> P no_proc -> Forall P (p0 :: spare)) by (intros P H1 H2; apply Forall_cons; split; [done|by apply Forall_replicate]).
  assert (Hnone : forall c x, cpus !! c = Some x -> c_proc x = None) by (intros c x Hx; apply (Hid c x Hx)).
  split; cbn [procs plock pcpus nextpid lset cpusL first_table]; fold p0; try (apply Hall; cbn; (lia || done)).
  - done.
  - done.
  - intros i p Hp. split.
    + by destruct (Hin i p Hp) as [[_ ->]| ->].
    + intros (c & x & Hx & E). by rewrite (Hnone c x Hx) in E.
  - intros c c' x x' i Hx _ E. by rewrite (Hnone c x Hx) in E.
  - intros c x i Hx E. by rewrite (Hnone c x Hx) in E.
  - intros c x Hx _. apply (Hid c x Hx).
  - apply Hall; cbn; [|by intros [E|[E|E]]]. done.
  - intros i j p q Hp Hq E E0. destruct (Hin i p Hp) as [[-> ->]| ->]; [|done]. destruct (Hin j q Hq) as [[-> ->]| ->]; done.
Qed.

Lemma main_runs init m s fp hdr es me c1 c2 : reset m s -> firmware m fp hdr es -> ids = take 8 (processors es) -> ids !! me = Some (cpu_of (b_h s)) ->
  kend + 75 * 4096 <= KERNBASE + 4194304 -> Z.of_nat (length entryother) <= 4096 -> (length init < 4096)%nat ->
  length (b_idt s) = 256%nat -> (forall i, (i < 256)%nat -> 0 <= vectors i < 4294967296) ->
  cache_init (bc (ds_log (disk (k_fs (b_k s))))) = Ok (tt, c1) -> disk_init c1 = Ok (tt, c2) ->
  wp (main init) (fun _ s' => booted init c2 s s') s.
Proof.
  intros Hr Hfw Eids Hme Hroom He Hi Hidt Hvec E1 E2. unfold main. apply (wp_early m s fp hdr es me); try done. cbv zeta. intros kp km1 l1 s1 H1 Hl1 Hn1.
  assert (Hme' : (me < length ids)%nat) by (by apply lookup_lt_Some in Hme). assert (Hn8 : (length ids <= 8)%nat) by (rewrite Eids, length_take; lia).
  apply (wp_devices _ _ c1 c2 _ _ H1); [done|done|]. intros serial s2 H2. rewrite wp_bind.
  set (v2 := with_bc c2 _) in H2. assert (Hl2 : stable l1 v2) by (destruct Hl1; by split).
  apply (wp_startothers v2 s2 l1); [done|done|lia| | |done|].
  { cbn. by rewrite length_alter, length_fmap. }
  { cbn. intros i x Hx D. rewrite list_lookup_alter_ne, list_lookup_fmap in Hx by done. destruct (ids !! i); [|done]. by injection Hx as <-. }
  intros km3 l3 s3 H3 Hl3. rewrite wp_bind. eapply kinit2_keeps; [exact H3| |]. { destruct Hl3. split; [done|exact st_low|done|done]. }
  intros km4 l4 s4 H4 Hk4 Hu4 Hm4 Hn4. rewrite wp_bind. set (cs := awake _ _ _ _) in H4.
  assert (Hb : cs !! me = Some (boot_view kp)).
  { unfold cs, awake. rewrite list_lookup_imap. cbn. rewrite list_lookup_alter_eq, list_lookup_fmap, Hme. cbn. by rewrite decide_False by lia. }
  eapply (wp_userinit init l4 _ s4 kp (boot_view kp)); [exact H4|exact Hk4|exact Hm4|done|done|done|done|exact Hb|done|].
  intros km5 ks d own l5 s5 H5 Hk5 Hu5 Hm5 Hsp Hst Hpk Hd. apply (wp_mpmain ids ids_nodup _ _ _ H5). intros s6 H6. subst v2.
  cbn [v_me v_mem v_pt v_cpus v_icache v_bc v_regs v_idt with_me with_mem with_pt with_cpus with_icache with_bc with_regs with_idt first_view] in H6.
  assert (Ecs : alter live me cs = map (fun _ => running_view kp) ids) by (by apply all_running). rewrite Ecs in H6. cbn in Hu5. clear Ecs Hb H5 H4 H3 H2 H1.
  destruct H6 as [G1 G2 G3 G4 G5 G6 G7 G8 G9 G10 G11 G12 G13 G14]. cbn in G1, G2, G3, G4, G5, G7, G10, G11, G12, G13, G14. rewrite map_map in G4, G12, G13, G14.
  assert (Hks : ks <> 0 /\ 0 <= ks /\ ks + 4096 < 4294967296) by (apply page_ok_range in Hpk; unfold KERNBASE, EXTMEM, PHYSTOP in Hpk; lia). destruct Hks as (Hks & Hks0 & Hks1).
  split.
  - exists kp, ks, d, own, l5. rewrite G3, G4. split_and!; try done; [|by rewrite Hu5|apply starts_enters; [lia|lia|exact Hst]|].
    + apply first_pt_inv; [done|done|]. rewrite Forall_fmap. by apply Forall_true.
    + intros j Hj. eapply (first_dispatched ks d kp _ j _ Hks Hd).
      * rewrite list_lookup_fmap. destruct (lookup_lt_is_Some_2 ids j Hj) as [i ->]. reflexivity.
      * by split_and!.
  - split_and!; [done|done|done|by rewrite G12, length_fmap|]. rewrite G12, Forall_fmap. apply Forall_true. intros x. exact (seginit_flat (replicate (Z.to_nat NSEGS) no_seg) eq_refl).
  - rewrite G1, <-Hme, G2. split; [done|]. rewrite Hme in G2. by injection G2.
  - rewrite G11. intros i Hi256. apply tvinit_gates; [done|done|by apply Hvec].
  - exists serial. intros irq Hirq. rewrite <-(routed_entry serial (io_regs (b_h s))) by done. unfold int_entry. by rewrite !G10.
  - done.
  - done.
Qed.
End StartBoot.

(** ** From the loader to the scheduler *)
Section Claim.
Context {C : Type} `{BC : !BufCache C} `{DI : !DiskInit C} {H : Type} `{IO : !Io H} `{CP : !Cpus H} `{BD : !Board H}.
Context `{L : !Layout} `{FE : !FpEnv} `{SY : !KSyms} `{BS : !BootSyms}.

(** A machine on which the kernel can start: the variables of the kernel are as
    in its image, the firmware's table is in low memory and names different
    processors, the one that runs among them, and below 4 MB there is room for the
    page table and the stacks. *)
Record bootable (init : bytes) (m : mem) (s : boot C H) (fp : Z) (hdr : bytes) (es : list entry) : Prop := {
  bt_reset : reset m s;
  bt_firmware : firmware m fp hdr es;
  bt_ids : NoDup (take 8 (processors es)) /\ Forall (fun id => 0 <= id < 256) (take 8 (processors es));
  bt_me : cpu_of (b_h s) ∈ take 8 (processors es);
  bt_room : kend + 75 * 4096 <= KERNBASE + 4194304;
  bt_code : Z.of_nat (length entryother) <= 4096 /\ (length init < 4096)%nat;
  bt_idt : length (b_idt s) = 256%nat;
  bt_addrs : 0 <= addr_mpenter < 4294967296 /\ forall i, (i < 256)%nat -> 0 <= vectors i < 4294967296
}.

(** C12: The kernel starts.  On a machine that can boot it, with a disk whose
    driver starts, [main] runs to the scheduler on every processor of the
    firmware's table: each has the kernel's page table, flat segments and the gates
    of the traps loaded.  The kernel's page table maps exactly what the table kmap
    says; the free list holds pages and is locked from now on; the process table
    satisfies its invariant and has one process, whose address space is the page
    with the first program; the first processor to schedule takes it, and the
    switch to it leads through forkret and trapret to user mode at the first byte
    of the program, with interrupts on and the stack at the end of the page.  The
    interrupts of the keyboard, the serial line and the disk are enabled, the
    disk's for the processor whose APIC id is the number of CPUs less one, and all
    others are masked. *)
Theorem main_starts_kernel (init : bytes) (m : mem) (s : boot C H) (fp : Z) (hdr : bytes) (es : list entry) (c1 c2 : C)
  (Hb : bootable init m s fp hdr es) (E1 : cache_init (bc (ds_log (disk (k_fs (b_k s))))) = Ok (tt, c1)) (E2 : disk_init c1 = Ok (tt, c2)) :
  wp (main init) (fun _ s' => booted (take 8 (processors es)) init c2 s s') s.
Proof.
  destruct Hb as [B1 B2 [B3 B4] B5 B6 [B7 B8] B9 [B10 B11]]. apply list_elem_of_lookup in B5 as [me Hme].
  by apply (main_runs _ B3 B4 B10 init m s fp hdr es me c1).
Qed.
End Claim.

(** With the IDE driver the disk starts as soon as it is ready. *)
Lemma ide_starts {H} `{HW : !IdeHw H} (c : Bcache.bcache (ide H)) : hw_ready (hw (Bcache.drv c)) ->
  exists c1 c2, cache_init c = Ok (tt, c1) /\ disk_init c1 = Ok (tt, c2).
Proof.
  intros R. eexists. cut (exists d, Ide.ideinit (Bcache.drv c) = Ok (tt, d)).
  { intros [d E]. eexists. split; [reflexivity|]. unfold disk_init, ide_init, zoom. cbn [lget Bcache.drv Bcache.binit]. rewrite E. reflexivity. }
  unfold Ide.ideinit. rewrite bind_modify. set (d0 := lset ide_lockL false (Bcache.drv c)).
  destruct (idewait_ready d0 R) as (r & h & E & _). rewrite (bind_ok _ _ _ _ _ E).
  assert (P : forall n d, exists d', probe n d = Ok (tt, d')).
  { induction n as [|n IH]; intros d; [by eexists|]. cbn [probe]. destruct (hw_inb 0x1f7 (hw d)) as [r1 h1] eqn:Er. rewrite (bind_ok _ _ _ _ _ (inb_run _ _ _ _ Er)).
    destruct (negb _); [by eexists|apply IH]. }
  unfold Ide.outb at 1. erewrite bind_ok by reflexivity.  unfold mbind, M_bind.
  match goal with |- context [probe 1000 ?d] => destruct (P 1000%nat d) as [d' ->] end. by eexists.
Qed.

(** ** A machine with two processors, with ids 0 and 4 *)
Module ExBoard.
Record board := Board { cpu : Z; sel : Z; regs : Z -> Z }.
#[local] Instance board_io : Io board := {|
  io_outb := fun _ _ h => h; io_inb := fun _ h => (0, h);
  mm_write := fun a x h =>
    if a =? ioapic_reg then Board (cpu h) x (regs h)
    else if (a =? ioapic_data) && (REG_TABLE <=? sel h) then Board (cpu h) (sel h) (fun r => if r =? sel h then x else regs h r)
    else h;
  mm_read := fun a h => (if a =? ioapic_data then regs h (sel h) else if a =? 0xFEE00000 + 4 * ID then Z.shiftl (cpu h mod 256) 24 else 0, h) |}.
#[local] Instance board_cpus : Cpus board := {| run_on := fun i h => Board i (sel h) (regs h); ipi_bound := 1 |}.
#[local] Program Instance board_laws : StartProps.Board board := {|
  cpu_of := fun h => cpu h mod 256; lapic_base := 0xFEE00000; io_regs := regs; io_sel := sel; ipi_delay := fun _ => 0%nat |}.
Next Obligation. by vm_compute. Qed.
Next Obligation. intros h. cbn. apply Z.mod_pos_bound. lia. Qed.
Next Obligation. intros i h Hi. cbn. split; [by apply Z.mod_small|done]. Qed.
Next Obligation. done. Qed.
Next Obligation. done. Qed.
Next Obligation. done. Qed.
Next Obligation.
  intros a x h. cbn. destruct (a =? ioapic_reg); [done|]. destruct (Z.eqb_spec a ioapic_data) as [->|D]; [|done]. cbn [andb].
  destruct (REG_TABLE <=? sel h); [|done]. split; [done|]. by intros D.
Qed.
Next Obligation. done. Qed.
Next Obligation. intros x h Hs r. unfold mm_write, board_io. change (ioapic_data =? ioapic_reg) with false. rewrite Z.eqb_refl, (proj2 (Z.leb_le _ _) Hs). done. Qed.
Next Obligation. done. Qed.
Next Obligation. done. Qed.
Next Obligation. intros h E. vm_compute in E. discriminate. Qed.
Next Obligation. intros h. cbn. lia. Qed.

#[local] Existing Instance fp_double.
#[local] Existing Instance example_layout.
#[local] Existing Instance ex_syms.
#[local] Instance ex_code : BootSyms := {|
  addr_mpenter := 0x80103000; addr_entrypgdir := 0x80109000; vectors := fun i => 0x80106000 + 10 * Z.of_nat i; entryother := replicate 100 144 |}.

Definition ex_cache : Bcache.bcache (ide Ata.ata) := Bcache.BCache false [] [] (Ide false [] 0 ex_ata [] []) 0.
Definition ex_start : boot (Bcache.bcache (ide Ata.ata)) board :=
  Boot (Kernel 0 (Kmem false false 0 ex_tables) (Pt false (no_proc :: spare) None 1 [] 0)
      (FState (DState (LState ex_log ex_cache) ex_cons false) ex_sb false (replicate NINODE no_inode) 0 0)
      false (replicate NFILE no_file) ∅ (replicate 64 no_area) false 0 1)
    (Board 4 0 (fun r => if r =? REG_VER then 0x170011 else 0)) [] 0 0 (replicate 256 (GateDesc 0 0 0 0 0 0 0 0 0)) [] [] [] 0.
Lemma ex_bootable init : (length init < 4096)%nat ->
  bootable init ex_tables ex_start (P2V 0x9FC00) (ex_header (- total (ex_header 0 ++ body_of ex_entries) mod 256)) ex_entries.
Proof.
  intros Hi. split.
  - split; [by eexists _, _|apply (tb_bytes _ _ _ _ ex_table)|done|done| |done]. split; [done|]. by split; [|cbn; lia|cbn; lia].
  - split; [exact ex_table|repeat constructor|by vm_compute| |by vm_compute].
    apply (bool_decide_unpack _). by vm_compute.
  - split; [apply (bool_decide_unpack _); by vm_compute|repeat constructor; lia].
  - by right; left.
  - by vm_compute.
  - split; [by vm_compute|done].
  - done.
  - split; [by vm_compute|]. intros i Hi256. cbn. lia.
Qed.
Lemma main_starts_kernel_witness : exists c2, let init := replicate 44 144 in
  wp (main init) (fun _ s' => booted [0; 4] init c2 ex_start s' /\ b_started s' = [1; 1]) ex_start.
Proof.
  destruct (ide_starts ex_cache) as (c1 & c2 & E1 & E2); [by split; [|intros dr n]|]. exists c2. cbv zeta. assert (Hi : (length (replicate 44 144%Z) < 4096)%nat) by (apply Nat.ltb_lt; reflexivity).
  eapply wp_mono; [apply (main_starts_kernel (replicate 44 144) ex_tables ex_start _ _ ex_entries c1 c2 (ex_bootable _ Hi) E1 E2)|].
  intros [] s' Hs. split; [exact Hs|]. apply Hs.
Defined.
End ExBoard.
