(* ===== verification/Mmap.v ===== *)
(** * Memory mapped areas (mmap, page_fault_handler and munmap of proc.c) *)
From S2P Require Import Prelude CString Layout Spinlock Kalloc Vm Fp Sched Bytes Console Sleeplock Bio Log TxDisk Fs Pipe Kernel File Syscall Proc.

Open Scope Z_scope.

Definition PROT_READ : Z := 0x1.
Definition PROT_WRITE : Z := 0x2.

(** The end of an area, [addr + length] on [uint]. *)
Definition area_end (x : mmap_area) : Z := u32 (ma_addr x + ma_length x).
(** The test of mmap's overlap loop on an area in use. *)
Definition disjoint (addr addr_end : Z) (x : mmap_area) : bool :=
  (addr_end <=? ma_addr x) || (area_end x <=? addr).
(** The test of page_fault_handler's loop. *)
Definition covers (va : Z) (x : mmap_area) : bool := (ma_addr x <=? va) && (va <? area_end x).

Section Mmap.
Context {C : Type} `{BC : !BufCache C} `{L : !Layout} `{FE : !FpEnv} `{SY : !KSyms}.
Abbreviation K := (kernel C).

(** curproc->ofile[fd], an array of NOFILE pointers; [fd] is not negative. *)
Definition fd_file (fd : Z) : M K (option nat) :=
  p ← cur;
  match ofile p !! Z.to_nat fd with Some z => mret (of_ptr z) | None => undef "ofile out of range" end.

(** Whether a file may be mapped with this protection. *)
Definition mappable (f : option nat) (prot : Z) : M K bool :=
  match f with
  | None => undef "null file"
  | Some f =>
      x ← get_file f;
      mret (bool_decide (f_type x = FD_INODE)
            && negb ((Z.land prot PROT_READ =? PROT_READ) && (readable x =? 0))
            && negb ((Z.land prot PROT_WRITE =? PROT_WRITE) && (writable x =? 0)))
  end.

(** The pages of a populated area, read from [f] if it is a file mapping;
    [false] when memory runs out. *)
Fixpoint populate (fuel : nat) (d addr length prot : Z) (f : option nat) (i : Z) : M K bool :=
  match fuel with
  | O => hang
  | S fuel =>
      if i <? length then
        mem ← on_mem kalloc;
        if mem =? 0 then mret false
        else
          on_mem (kmemset mem 0 PGSIZE) ;;
          (match f with
           | Some f => fileread f PGSIZE ≫= fun '(_, out) => on_mem (Vm.store_bytes mem out)
           | None => mret tt
           end) ;;
          r ← on_mem (mappages d (u32 (addr + i)) PGSIZE (V2P mem) (Z.lor prot PTE_U));
          if r =? -1 then mret false else populate fuel d addr length prot f (i + PGSIZE)
      else mret true
  end.

(** The arguments mmap rejects before it looks at the file. *)
Definition bad_args (addr length prot flags fd : Z) : bool :=
  truthy (addr mod PGSIZE) || (length =? 0) || truthy (cmod length PGSIZE)
  || (negb (prot =? PROT_READ) && negb (prot =? Z.lor PROT_READ PROT_WRITE))
  || (negb (flags =? 0) && negb (flags =? MAP_ANONYMOUS) && negb (flags =? MAP_POPULATE)
      && negb (flags =? Z.lor MAP_ANONYMOUS MAP_POPULATE))
  || ((Z.land flags MAP_ANONYMOUS =? 0) && (fd =? -1)).

(** From the overlap loop on: the file has been checked. *)
Definition map_area (addr length prot flags offset : Z) (pfile : option nat) : M K Z :=
  cp ← me_proc;
  p ← nth_proc cp;
  l ← gets k_areas;
  if negb (forallb (fun x => (ma_status x =? 0) || disjoint addr (u32 (addr + length)) x) l) then mret 0
  else
    e ← free_area;
    match e with
    | None => mret 0
    | Some a =>
        f ← (match pfile with None => mret None | Some f => f ← filedup f; mret (Some f) end);
        set_area a (MArea f addr length offset prot flags (Some cp) (-1)) ;;
        if (flags =? 0) || (flags =? MAP_ANONYMOUS) then mret addr
        else
          (if flags =? MAP_POPULATE then set_file_off pfile offset else mret tt) ;;
          ok ← populate (S (Z.to_nat (length / PGSIZE + 1))) (pgdir p) addr length prot
                 (if flags =? MAP_POPULATE then pfile else None) 0;
          if negb ok then mret 0
          else x ← area a; set_area a (set_status 1 x) ;; mret addr
    end.

Definition mmap (addr length prot flags fd offset : Z) : M K Z :=
  if bad_args addr length prot flags fd then mret 0
  else
    let addr := u32 (addr + MMAPBASE) in
    if negb (fd =? -1) && ((fd <? 0) || (offset <? 0)) then mret 0
    else
      pfile ← (if fd =? -1 then mret None else fd_file fd);
      ok ← (if Z.land flags MAP_ANONYMOUS =? 0 then mappable pfile prot else mret true);
      if negb ok then mret 0 else map_area addr length prot flags offset pfile.

(** [va] is the faulting address in cr2. *)
Definition page_fault_handler (va error : Z) : M K Z :=
  cp ← on_pt myproc;
  l ← gets k_areas;
  match list_find (fun x => covers va x = true /\ ma_p x = cp) l with
  | None => kprintf "Page fault: faulted address has no corresponding mmap_area\n" [] ;; mret (-1)
  | Some (a, x) =>
      if negb (Z.land (ma_prot x) PROT_READ =? 1) && (Z.land error 2 =? 0) then
        kprintf "Page fault: cannot read, but tried to read\n" [] ;; mret (-1)
      else if negb (Z.land (ma_prot x) PROT_WRITE =? 2) && (Z.land error 2 =? 2) then
        kprintf "Page fault: cannot write, but tried to write\n" [] ;; mret (-1)
      else if negb (ma_status x =? -1) then mret (-1)
      else
        mem ← on_mem kalloc;
        if mem =? 0 then mret (-1)
        else
          on_mem (kmemset mem 0 PGSIZE) ;;
          ok ← (if Z.land (ma_flags x) MAP_ANONYMOUS =? 0 then
                  set_file_off (ma_f x) (ma_offset x) ;;
                  match ma_f x with
                  | None => undef "null file"
                  | Some f =>
                      fileread f PGSIZE ≫= fun '(r, out) =>
                      on_mem (Vm.store_bytes mem out) ;; mret (negb (r =? -1))
                  end
                else mret true);
          if negb ok then mret (-1)
          else
            p ← cur;
            r ← on_mem (mappages (pgdir p) (ma_addr x) PGSIZE (V2P mem) (Z.lor (ma_prot x) PTE_U));
            if r =? -1 then mret (-1)
            else x ← area a; set_area a (set_status 1 x) ;; mret 1
  end.

(** [for(int i = 0; i < length; i += PGSIZE)] of munmap *)
Fixpoint unmap_pages (fuel : nat) (d addr length i : Z) : M kmem bool :=
  match fuel with
  | O => hang
  | S fuel =>
      if i <? length then
        pte ← walkpgdir d (u32 (addr + i)) false;
        if pte =? 0 then mret false
        else
          e ← load pte;
          when (pte_present e)
            (kfree (P2V (Z.lor (PTE_ADDR e) (Z.land (u32 (addr + i)) 0xfff))) ;; store pte 0) ;;
          unmap_pages fuel d addr length (i + PGSIZE)
      else mret true
  end.

Definition munmap (addr : Z) : M K Z :=
  if truthy (addr mod PGSIZE) then mret (-1)
  else
    cp ← me_proc;
    p ← nth_proc cp;
    l ← gets k_areas;
    match list_find (fun x => ma_addr x = addr /\ ma_p x = Some cp /\ ma_status x <> 0) l with
    | None => mret (-1)
    | Some (a, x) =>
        if ma_status x =? -1 then set_area a (set_status 0 x) ;; mret 1
        else
          ok ← on_mem (unmap_pages (area_pages x) (pgdir p) addr (ma_length x) 0);
          if negb ok then mret (-1)
          else set_area a (set_status 0 x) ;; mret 1
    end.
End Mmap.
