(* ===== verification/Exec.v ===== *)
(** * Loading a program (exec.c, loaduvm of vm.c, sys_exec of sysfile.c) *)
From S2P Require Import Prelude CString Layout Spinlock Kalloc Vm Fp Sched Bytes Console Sleeplock Bio Log TxDisk Fs Pipe Kernel File Syscall Sysfile Proc.

Open Scope Z_scope.

Definition ELF_MAGIC : Z := 0x464C457F.
Definition ELF_PROG_LOAD : Z := 1.
Definition ELFSIZE : Z := 52.
Definition PHSIZE : Z := 32.
Definition MAXARG : Z := 32.

(** The fields of struct elfhdr and struct proghdr that exec uses. *)
Record elfhdr := ElfHdr { e_magic : Z; e_entry : Z; e_phoff : Z; e_phnum : Z }.
Definition elf_decode (x : bytes) : elfhdr := ElfHdr (get32 x 0) (get32 x 24) (get32 x 28) (get16 x 44).
Record proghdr := ProgHdr { ph_type : Z; ph_off : Z; ph_vaddr : Z; ph_filesz : Z; ph_memsz : Z }.
Definition ph_decode (x : bytes) : proghdr :=
  ProgHdr (get32 x 0) (get32 x 4) (get32 x 8) (get32 x 16) (get32 x 20).

(** The name after the last slash. *)
Fixpoint last_elem (path last : bytes) : bytes :=
  match path with
  | [] => last
  | c :: path => last_elem path (if c =? SLASH then path else last)
  end.

Section Exec.
Context {C : Type} `{BC : !BufCache C} `{L : !Layout} `{FE : !FpEnv}.
Abbreviation K := (kernel C).

(** [for(i = 0; i < sz; i += PGSIZE)] *)
Fixpoint loaduvm_loop (fuel : nat) (d addr : Z) (ip : nat) (offset sz i : Z) : M K Z :=
  match fuel with
  | O => hang
  | S fuel =>
      if i <? sz then
        pte ← on_mem (walkpgdir d (u32 (addr + i)) false);
        (if pte =? 0 then panic "loaduvm: address should exist" else mret tt) ;;
        e ← on_mem (load pte);
        let pa := PTE_ADDR e in
        let n := if sz - i <? PGSIZE then sz - i else PGSIZE in
        on_fs (readi ip (u32 (offset + i)) n) ≫= fun '(r, out) =>
        on_mem (Vm.store_bytes (P2V pa) out) ;;
        if negb (r =? n) then mret (-1)
        else loaduvm_loop fuel d addr ip offset sz (i + PGSIZE)
      else mret 0
  end.
Definition loaduvm (d addr : Z) (ip : nat) (offset sz : Z) : M K Z :=
  if truthy (addr mod PGSIZE) then panic "loaduvm: addr must be page aligned"
  else loaduvm_loop (S (Z.to_nat (sz / PGSIZE + 1))) d addr ip offset sz 0.

(** The segments: the size reached, or [None] for [goto bad]. *)
Fixpoint load_segments (n : nat) (d : Z) (ip : nat) (off sz : Z) : M K (option Z) :=
  match n with
  | O => mret (Some sz)
  | S n =>
      on_fs (readi ip (u32 off) PHSIZE) ≫= fun '(r, x) =>
      if negb (r =? PHSIZE) then mret None
      else
        let ph := ph_decode x in
        if negb (ph_type ph =? ELF_PROG_LOAD) then load_segments n d ip (off + PHSIZE) sz
        else if ph_memsz ph <? ph_filesz ph then mret None
        else if u32 (ph_vaddr ph + ph_memsz ph) <? ph_vaddr ph then mret None
        else
          sz ← on_mem (allocuvm d sz (u32 (ph_vaddr ph + ph_memsz ph)));
          if sz =? 0 then mret None
          else if truthy (ph_vaddr ph mod PGSIZE) then mret None
          else
            r ← loaduvm d (ph_vaddr ph) ip (ph_off ph) (ph_filesz ph);
            if r <? 0 then mret None else load_segments n d ip (off + PHSIZE) sz
  end.

(** The argument strings, pushed from [sp] down; [us] collects their addresses.
    [argv] is the array sys_exec filled, of MAXARG pointers. *)
Fixpoint push_args (d : Z) (argv : list bytes) (argc sp : Z) (us : list Z) : M K (option (Z * Z * list Z)) :=
  match argv with
  | [] => mret (Some (argc, sp, us))
  | s :: argv =>
      if MAXARG <=? argc then mret None
      else
        let sp := Z.land (u32 (sp - (Z.of_nat (length s) + 1))) (u32 (Z.lnot 3)) in
        r ← on_mem (copyout d sp (s ++ [0]));
        if r <? 0 then mret None else push_args d argv (argc + 1) sp (us ++ [sp])
  end.

(** The words of ustack: a fake return address, argc, argv and the strings. *)
Definition ustack (argc sp : Z) (us : list Z) : list Z :=
  [0xffffffff; argc; u32 (sp - (argc + 1) * 4)] ++ us ++ [0].

(** Leaving through [bad]; [ip] is the locked inode, if it is still open. *)
Definition exec_bad (d : Z) (ip : option nat) : M K Z :=
  when (truthy d) (on_mem (freevm d)) ;;
  (match ip with
   | Some ip => on_fs (iunlockput ip) ;; on_log end_op
   | None => mret tt
   end) ;;
  mret (-1).

(** From the stack on. *)
Definition exec_stack (path : bytes) (argv : list bytes) (entry d sz : Z) : M K Z :=
  i ← me_proc;
  let sz := PGROUNDUP sz in
  sz ← on_mem (allocuvm d sz (u32 (sz + 2 * PGSIZE)));
  if sz =? 0 then exec_bad d None
  else
    on_mem (clearpteu d (u32 (sz - 2 * PGSIZE))) ;;
    r ← push_args d argv 0 sz [];
    match r with
    | None => exec_bad d None
    | Some (argc, sp, us) =>
        let words := ustack argc sp us in
        let sp := u32 (sp - (3 + argc + 1) * 4) in
        r ← on_mem (copyout d sp (concat (word_bytes <$> words)));
        if r <? 0 then exec_bad d None
        else
          p ← nth_proc i;
          set_proc i (fun p => set_name (name_copy (name p) (last_elem path path)) p) ;;
          set_proc i (set_pgdir d) ;;
          set_proc i (set_sz sz) ;;
          on_mem (store (tf p + tf_eip) entry) ;;
          on_mem (store (tf p + tf_esp) sp) ;;
          on_pt (fun me => switchuvm me (Some i)) ;;
          on_mem (freevm (pgdir p)) ;;
          mret 0
    end.

Definition exec (path : bytes) (argv : list bytes) : M K Z :=
  on_log begin_op ;;
  ip ← on_fs (namei path);
  match ip with
  | None => on_log end_op ;; kprintf "exec: fail\n" [] ;; mret (-1)
  | Some ip =>
      on_fs (ilock (Some ip)) ;;
      on_fs (readi ip 0 ELFSIZE) ≫= fun '(r, x) =>
      if negb (r =? ELFSIZE) then exec_bad 0 (Some ip)
      else
        let elf := elf_decode x in
        if negb (e_magic elf =? ELF_MAGIC) then exec_bad 0 (Some ip)
        else
          d ← on_mem setupkvm;
          if d =? 0 then exec_bad 0 (Some ip)
          else
            z ← load_segments (Z.to_nat (e_phnum elf)) d ip (s32 (e_phoff elf)) 0;
            match z with
            | None => exec_bad d (Some ip)
            | Some z =>
                on_fs (iunlockput ip) ;;
                on_log end_op ;;
                exec_stack path argv (e_entry elf) d z
            end
  end.

(** The argument vector, fetched from the user's memory; at most MAXARG
    entries, the null at its end included. *)
Fixpoint fetch_argv (n : nat) (uargv : Z) : M K (option (list bytes)) :=
  match n with
  | O => mret None
  | S n =>
      u ← fetchint (u32 uargv);
      match u with
      | None => mret None
      | Some u =>
          if u =? 0 then mret (Some [])
          else
            s ← fetchstr (u32 u);
            match s with
            | None => mret None
            | Some s => r ← fetch_argv n (uargv + 4); mret (cons s <$> r)
            end
      end
  end.
Definition sys_exec : M K Z :=
  or_fail (argstr 0) (fun path =>
  or_fail (argint 1) (fun uargv =>
  or_fail (fetch_argv (Z.to_nat MAXARG) (u32 uargv)) (fun argv => exec path argv))).
End Exec.
