(* ===== verification/Trap.v ===== *)
(** * System calls on processes (sysproc.c), their dispatch (syscall.c) and traps (trap.c) *)
From S2P Require Import Prelude CString Layout Spinlock Kalloc Vm Fp Sched Bytes Console Sleeplock Bio BioProps Ide Io Apic Log TxDisk Fs Pipe Kernel File Syscall Sysfile Proc Mmap Exec.

Open Scope Z_scope.

(** The disk driver's interrupt handler, on the state of the buffer cache. *)
Class DiskIntr (C : Type) := { disk_intr : M C unit }.
#[export] Instance memide_intr : DiskIntr (Bcache.bcache Memide.memdisk) := {
  disk_intr := zoom (Lens Bcache.drv (fun d c => Bcache.BCache (Bcache.bc_lock c) (Bcache.bufs c) (Bcache.mru c) d (Bcache.me c)))
    Memide.ideintr
}.
#[export] Instance ide_intr {H} `{HW : !IdeHw H} : DiskIntr (Bcache.bcache (ide H)) := {
  disk_intr := zoom (Lens (fun c => (Bcache.bufs c, Bcache.drv c))
    (fun p c => Bcache.BCache (Bcache.bc_lock c) p.1 (Bcache.mru c) p.2 (Bcache.me c))) Ide.ideintr
}.

Section Trap.
Context {C : Type} `{BC : !BufCache C} `{DI : !DiskIntr C} `{L : !Layout} `{FE : !FpEnv} `{SY : !KSyms}.
Abbreviation K := (kernel C).

(** ** sysproc.c

    A call gives [None] when the process does not return from it now: it has
    gone to sleep or exited. *)
Definition returns (m : M K Z) : M K (option Z) := r ← m; mret (Some r).
Definition no_return (m : M K unit) : M K (option Z) := m ;; mret None.

Definition sys_fork : M K (option Z) := returns fork.
Definition sys_exit : M K (option Z) := no_return exit.
Definition sys_wait : M K (option Z) := wait.
Definition sys_kill : M K (option Z) := returns (or_fail (argint 0) (fun pd => on_pt (fun me => kill me pd))).
Definition sys_getpid : M K (option Z) := p ← cur; mret (Some (pid p)).
Definition sys_sbrk : M K (option Z) :=
  returns (or_fail (argint 0) (fun n =>
    p ← cur;
    let addr := s32 (sz p) in
    r ← growproc n;
    mret (if r <? 0 then -1 else addr))).

Definition ticks_acquire : M K unit := zoom tickslockL lk_acquire ;; on_pt cpu_pushcli.
Definition ticks_release : M K unit := zoom tickslockL lk_release ;; on_pt cpu_popcli.
(** The test of sys_sleep's loop: [ticks - ticks0 < n] is a comparison of
    unsigned words. *)
Definition sleep_round (ticks0 n : Z) : M K (option Z) :=
  t ← gets k_ticks;
  if u32 (t - ticks0) <? u32 n then
    kd ← am_killed;
    if (kd : bool) then ticks_release ;; mret (Some (-1))
    else
      zoom tickslockL lk_release ;;
      on_pt (fun me => sleep_out me addr_ticks true) ;;
      mret None
  else ticks_release ;; mret (Some 0).
Definition sys_sleep : M K (option Z) :=
  n ← argint 0;
  match n with
  | None => mret (Some (-1))
  | Some n => ticks_acquire ;; t ← gets k_ticks; sleep_round t n
  end.
Definition sys_sleep_resume (ticks0 n : Z) : M K (option Z) :=
  on_pt (fun me => sleep_in me true) ;; zoom tickslockL lk_acquire ;; sleep_round ticks0 n.

Definition sys_uptime : M K (option Z) :=
  ticks_acquire ;; t ← gets k_ticks; ticks_release ;; mret (Some (s32 t)).
Definition sys_getnice : M K (option Z) := returns (or_fail (argint 0) (fun pd => on_pt (fun me => getnice me pd))).
Definition sys_setnice : M K (option Z) :=
  returns (or_fail (argint 0) (fun pd => or_fail (argint 1) (fun v => on_pt (fun me => setnice me pd v)))).
Definition sys_ps : M K (option Z) := returns (or_fail (argint 0) (fun pd => ps pd ;; mret 0)).

(** sys_mmap returns 0 where the others return -1. *)
Definition or_zero {A} (m : M K (option A)) (f : A -> M K Z) : M K Z :=
  r ← m; match r with None => mret 0 | Some a => f a end.
Definition sys_mmap : M K (option Z) :=
  returns
    (or_zero (argint 0) (fun addr => or_zero (argint 1) (fun length => or_zero (argint 2) (fun prot =>
     or_zero (argint 3) (fun flags => or_zero (argint 4) (fun fd => or_zero (argint 5) (fun offset =>
     mmap (u32 addr) length prot flags fd offset))))))).
Definition sys_munmap : M K (option Z) := returns (or_fail (argint 0) (fun addr => munmap (u32 addr))).
Definition sys_freemem : M K (option Z) := returns (on_mem freemem).

(** ** The table and the dispatch *)
Definition syscalls (num : Z) : option (M K (option Z)) :=
  match num with
  | 1 => Some sys_fork | 2 => Some sys_exit | 3 => Some sys_wait | 4 => Some (returns sys_pipe)
  | 5 => Some (returns sys_read) | 6 => Some sys_kill | 7 => Some (returns sys_exec)
  | 8 => Some (returns sys_fstat) | 9 => Some (returns sys_chdir) | 10 => Some (returns sys_dup)
  | 11 => Some sys_getpid | 12 => Some sys_sbrk | 13 => Some sys_sleep | 14 => Some sys_uptime
  | 15 => Some (returns sys_open) | 16 => Some (returns sys_write) | 17 => Some (returns sys_mknod)
  | 18 => Some (returns sys_unlink) | 19 => Some (returns sys_link) | 20 => Some (returns sys_mkdir)
  | 21 => Some (returns sys_close) | 22 => Some sys_getnice | 23 => Some sys_setnice | 24 => Some sys_ps
  | 25 => Some sys_mmap | 26 => Some sys_munmap | 27 => Some sys_freemem
  | _ => None
  end.

(** [false] when the process does not return from the call now. *)
Definition syscall : M K bool :=
  i ← me_proc;
  p ← nth_proc i;
  num ← on_mem (load (tf p + tf_eax));
  match syscalls (s32 num) with
  | Some f =>
      r ← f;
      match r with
      | Some v => q ← nth_proc i; on_mem (store (tf q + tf_eax) (u32 v)) ;; mret true
      | None => mret false
      end
  | None =>
      kprintf "%d %s: unknown sys call %d\n" [CInt (pid p); CStr (Some (cstr (name p))); CInt num] ;;
      on_mem (store (tf p + tf_eax) (u32 (-1))) ;;
      mret true
  end.

(** ** Interrupts *)

(** The console's handlers; their wakeups and the listing they ask for happen
    here. *)
Definition console_intr (m : M console bool) : M K unit :=
  w ← gets (fun k => woke_in (ds_cons (disk (k_fs k))));
  d ← on_console m;
  w' ← gets (fun k => woke_in (ds_cons (disk (k_fs k))));
  when (w <? w')%nat (on_pt (fun me => wakeup me addr_input_r)) ;;
  when d procdump.

Definition timer_intr : M K unit :=
  me ← gets k_me;
  if decide (me = 0%nat) then
    ticks_acquire ;;
    modify (fun k => set_ticks (u32 (k_ticks k + 1)) k) ;;
    on_pt (fun me => wakeup me addr_ticks) ;;
    ticks_release
  else mret tt.

(** ** trap

    [t] is the address of the trap frame and [cr2] the faulting address.  The
    result tells whether the CPU returns to where the trap came from; otherwise
    the process has exited, sleeps, or has given the CPU up. *)
Definition T_SYSCALL : Z := 64.
Definition T_PGFLT : Z := 14.
Definition DPL_USER : Z := 3.

Definition die_if_killed (m : M K bool) : M K bool :=
  kd ← am_killed; if (kd : bool) then exit ;; mret false else m.

(** [if(myproc() && myproc()->killed && (tf->cs&3) == DPL_USER) exit();] *)
Definition die_in_user (cs : Z) (m : M K bool) : M K bool :=
  o ← on_pt myproc;
  match o with
  | Some i =>
      p ← nth_proc i;
      if truthy (killed p) && (Z.land cs 3 =? DPL_USER) then exit ;; mret false else m
  | None => m
  end.

(** The end of trap(), which ticks the running process on a timer interrupt and
    gives up the CPU when its slice is used up. *)
Definition trap_end (trapno cs : Z) : M K bool :=
  die_in_user cs
    (o ← on_pt myproc;
     tick ← (match o with
             | Some i => p ← nth_proc i; mret (bool_decide (state p = RUNNING) && (trapno =? T_IRQ0))
             | None => mret false
             end);
     over ← (if (tick : bool) then on_pt timer_charge else mret false);
     if (over : bool) then on_pt yield_out ;; mret false
     else die_in_user cs (mret true)).

(** The default case: a fault that nothing handles. *)
Definition trap_default (trapno cr2 cs eip err : Z) : M K unit :=
  o ← on_pt myproc;
  me ← gets k_me;
  match o with
  | Some i =>
      if Z.land cs 3 =? 0 then
        kprintf "unexpected trap %d from cpu %d eip %x (cr2=0x%x)\n" [CInt trapno; CInt (Z.of_nat me); CInt eip; CInt cr2] ;;
        panic "trap"
      else
        p ← nth_proc i;
        kprintf "pid %d %s: trap %d err %d on cpu %d eip 0x%x addr 0x%x--kill proc\n"
          [CInt (pid p); CStr (Some (cstr (name p))); CInt trapno; CInt err; CInt (Z.of_nat me); CInt eip; CInt cr2] ;;
        set_proc i (set_killed 1)
  | None =>
      kprintf "unexpected trap %d from cpu %d eip %x (cr2=0x%x)\n" [CInt trapno; CInt (Z.of_nat me); CInt eip; CInt cr2] ;;
      panic "trap"
  end.

(** The interrupt is acknowledged to the local controller, at [lapic], whose
    state is with the devices. *)
Section Handler.
Context {H : Type} `{IO : !Io H} (lapic : Z).
Definition on_kernel {A} (m : M K A) : M (K * H) A := zoom (Lens fst (fun k s => (k, s.2))) m.
Definition eoi : M (K * H) unit := zoom (Lens snd (fun h s => (s.1, h))) (lapiceoi lapic).

Definition trap (t cr2 : Z) : M (K * H) bool :=
  trapno ← on_kernel (on_mem (load (t + tf_trapno)));
  csw ← on_kernel (on_mem (load (t + tf_cs)));
  eip ← on_kernel (on_mem (load (t + tf_eip)));
  err ← on_kernel (on_mem (load (t + tf_err)));
  let cs := u16 csw in
  let finish := on_kernel (trap_end trapno cs) in
  if trapno =? T_SYSCALL then
    on_kernel (die_if_killed
      (i ← me_proc;
       set_proc i (set_tf t) ;;
       back ← syscall;
       if (back : bool) then die_if_killed (mret true) else mret false))
  else if trapno =? T_IRQ0 + IRQ_TIMER then on_kernel timer_intr ;; eoi ;; finish
  else if trapno =? T_IRQ0 + IRQ_IDE then on_kernel (on_log (zoom bcL disk_intr)) ;; eoi ;; finish
  else if trapno =? T_IRQ0 + IRQ_IDE + 1 then finish
  else if trapno =? T_IRQ0 + IRQ_KBD then on_kernel (console_intr kbdintr) ;; eoi ;; finish
  else if trapno =? T_IRQ0 + IRQ_COM1 then on_kernel (console_intr uartintr) ;; eoi ;; finish
  else if (trapno =? T_IRQ0 + 7) || (trapno =? T_IRQ0 + IRQ_SPURIOUS) then
    on_kernel (me ← gets k_me;
      kprintf "cpu%d: spurious interrupt at %x:%x\n" [CInt (Z.of_nat me); CInt cs; CInt eip]) ;;
    eoi ;;
    finish
  else if trapno =? T_PGFLT then
    r ← on_kernel (page_fault_handler cr2 (Z.land err 2));
    if negb (r =? -1) then finish else on_kernel exit ;; mret false
  else on_kernel (trap_default trapno cr2 cs eip err) ;; finish.

(** The interrupts that the controller delivers and waits to see acknowledged. *)
Definition acknowledged (trapno : Z) : bool :=
  existsb (Z.eqb trapno) ((fun i => T_IRQ0 + i) <$> [IRQ_TIMER; IRQ_KBD; IRQ_COM1; IRQ_IDE; 7; IRQ_SPURIOUS]).

(** What a computation does to the devices, when it returns. *)
Definition on_devices {A} (m : M (K * H) A) (R : H -> H -> Prop) : Prop :=
  forall k h a k' h', m (k, h) = Ok (a, (k', h')) -> R h h'.
Lemma kernel_only {A} (m : M K A) : on_devices (on_kernel m) eq.
Proof. intros k h a k' h'. unfold on_kernel, zoom. cbn. by destruct (m k) as [[? ?]| | |]; intros [=]. Qed.
Lemma eoi_only : on_devices eoi (fun h h' => lapiceoi lapic h = Ok (tt, h')).
Proof. intros k h [] k' h'. unfold eoi, zoom. cbn. destruct (lapiceoi lapic h) as [[[] ?]| | |]; by intros [= _ ->]. Qed.
Lemma quietly_then {A B} (m : M K A) (f : A -> M (K * H) B) R :
  (forall a, on_devices (f a) R) -> on_devices (on_kernel m ≫= f) R.
Proof.
  intros Hf k h b k' h'. unfold mbind, M_bind. destruct (on_kernel m (k, h)) as [[a [k1 h1]]| | |] eqn:E; try discriminate.
  rewrite (kernel_only m _ _ _ _ _ E). apply Hf.
Qed.
Lemma eoi_then {A} (m : M K A) : on_devices (eoi ;; on_kernel m) (fun h h' => lapiceoi lapic h = Ok (tt, h')).
Proof.
  intros k h b k' h'. unfold mbind, M_bind. destruct (eoi (k, h)) as [[[] [k1 h1]]| | |] eqn:E; try discriminate.
  intros E2. rewrite <-(kernel_only m _ _ _ _ _ E2). exact (eoi_only _ _ _ _ _ E).
Qed.

(** Every interrupt of a device is acknowledged once, and nothing else is: the
    end of an interrupt is written exactly for the timer, the disk, the keyboard,
    the serial port and the spurious interrupts. *)
Lemma trap_acknowledges t cr2 k h b k' h' : trap t cr2 (k, h) = Ok (b, (k', h')) ->
  if acknowledged (rdw (ram (k_mem k)) (t + tf_trapno)) then lapiceoi lapic h = Ok (tt, h') else h = h'.
Proof.
  set (no := rdw _ _). unfold trap. intros E.
  rewrite (bind_ok _ _ _ no (k, h)) in E by (unfold on_kernel, on_mem, zoom, load, gets; cbn; by destruct k).
  match type of E with ?m _ = _ =>
    cut (on_devices m (fun h h' => if acknowledged no then lapiceoi lapic h = Ok (tt, h') else h = h'))
  end; [intros D; exact (D _ _ _ _ _ E)|].
  clear E. cbv beta. do 3 (apply quietly_then; intros ?). clearbody no. unfold acknowledged.
  assert (Acked : forall (m : M K unit) (m' : M K bool), on_devices (on_kernel m ;; eoi ;; on_kernel m') (fun h h' => lapiceoi lapic h = Ok (tt, h')))
    by (intros; apply quietly_then; intros ?; apply eoi_then).
  repeat match goal with |- on_devices (if no =? ?c then _ else _) _ => destruct (Z.eqb_spec no c) as [->|?] end;
    [apply kernel_only|apply Acked|apply Acked|apply kernel_only|apply Acked|apply Acked|].
  destruct (Z.eqb_spec no (T_IRQ0 + 7)) as [->|?]; [apply Acked|].
  destruct (Z.eqb_spec no (T_IRQ0 + IRQ_SPURIOUS)) as [->|?]; [apply Acked|]. cbn [orb].
  destruct (existsb _ _) eqn:Ex; [exfalso|].
  { apply existsb_exists in Ex as (x & Hx & ->%Z.eqb_eq). cbn in Hx. naive_solver. }
  destruct (Z.eqb_spec no T_PGFLT); apply quietly_then; intros r; [|apply kernel_only].
  destruct (negb (r =? -1)); [apply kernel_only|]. by apply (quietly_then exit); intros _ ? ? ? ? ? [= _ _ ->].
Qed.
End Handler.

(** trap() from the return of yield. *)
Definition trap_resume (cs : Z) : M K bool := on_pt yield_in ;; die_in_user cs (mret true).
End Trap.
