(* ===== verification/Ukernel.v ===== *)
(** * User programs on the kernel

    A program's calls answered by the kernel itself: the arguments go where the
    compiler and usys.S put them, on the user's stack and in the user's memory,
    the trap handler runs, and the answer is read back from the trap frame and
    the memory.  Accesses through pointers go through the page table and fault
    into the handler. *)
From S2P Require Import Prelude CString Layout Spinlock Kalloc Vm Fp Sched Bytes Console Sleeplock Bio BioProps Io Log LogProps TxDisk Fs FsProps Pipe Kernel File Syscall Sysfile Proc Mmap Exec Trap User.

Open Scope Z_scope.

Section Calls.
Context {C : Type} `{BC : !BufCache C} `{DI : !DiskIntr C} `{L : !Layout} `{FE : !FpEnv} `{SY : !KSyms}.
Context {H : Type} `{IO : !Io H} (lapic : Z).
Abbreviation K := (kernel C).
(** The kernel and the devices. *)
Abbreviation W := (kernel C * H)%type.

(** Where the program keeps the strings and the buffer it passes. *)
Definition STR : Z := 0.
Definition STR2 : Z := 0x800.
Definition BUFFER : Z := 0x1000.

(** A trap from user mode; [hang] when the process does not come back from it. *)
Definition enter (trapno err cr2 : Z) : M W unit :=
  on_kernel (tf_store tf_trapno trapno) ;;
  on_kernel (tf_store tf_err err) ;;
  p ← on_kernel cur;
  back ← trap lapic (tf p) cr2;
  if (back : bool) then mret tt else hang.

Fixpoint store_words (a : Z) (l : list Z) : M K unit :=
  match l with
  | [] => mret tt
  | w :: l => store_word a w ;; store_words (a + 4) l
  end.
(** usys.S: the number in eax, the arguments above the return address. *)
Definition call_kernel (num : Z) (args : list Z) : M W Z :=
  esp ← on_kernel (tf_load tf_esp);
  on_kernel (store_words (u32 (esp + 4)) args) ;;
  on_kernel (tf_store tf_eax num) ;;
  enter T_SYSCALL 0 0 ;;
  v ← on_kernel (tf_load tf_eax);
  mret (s32 v).

(** An access in user mode, tried again after a fault the kernel repaired. *)
Definition user_can (w : bool) (m : mem) (d va : Z) : option Z :=
  if truthy (Z.land (pte_at m d va) PTE_U) then user_addr w m d va else None.
Fixpoint access (tries : nat) (w : bool) (va : Z) : M W Z :=
  match tries with
  | O => hang
  | S tries =>
      d ← on_kernel user_pgdir; m ← gets (fun s => ram (k_mem s.1));
      match user_can w m d va with
      | Some a => mret a
      | None =>
          let present := pte_present (pte_at m d va) in
          enter T_PGFLT (4 + (if w then 2 else 0) + b2z present) va ;;
          access tries w va
      end
  end.
Definition user_load (va : Z) : M W Z := a ← access 2 false va; m ← gets (fun s => ram (k_mem s.1)); mret (rdb m a).
Definition user_store (va b : Z) : M W unit :=
  a ← access 2 true va; on_kernel (on_mem (modify (fun s => lset ramL (wrb (ram s) a b) s))).

Definition with_path (path : bytes) (num : Z) (args : list Z) : M W Z :=
  on_kernel (store_all STR (path ++ [0])) ;; call_kernel num (STR :: args).

Definition kernel_call R (c : call R) : M W R :=
  match c in call R return M W R with
  | COpen path mode => with_path path 15 [mode]
  | CMknod path major minor => with_path path 17 [major; minor]
  | CUnlink path => with_path path 18 []
  | CMkdir path => with_path path 20 []
  | CChdir path => with_path path 9 []
  | CLink old new => on_kernel (store_all STR2 (new ++ [0])) ;; with_path old 19 [STR2]
  | CLinkAt old p => with_path old 19 [p]
  | CWrite fd b => on_kernel (store_all BUFFER b) ;; call_kernel 16 [fd; BUFFER; Z.of_nat (length b)]
  | CRead fd n => r ← call_kernel 5 [fd; BUFFER; n]; b ← on_kernel (load_bytes BUFFER (Z.to_nat r)); mret (r, b)
  | CReadAt fd p n => call_kernel 5 [fd; p; n]
  | CFstat fd =>
      r ← call_kernel 8 [fd; BUFFER];
      b ← on_kernel (load_bytes BUFFER 20);
      mret (r, Stat (s16 (get16 b 0)) (s32 (get32 b 4)) (get32 b 8) (s16 (get16 b 12)) (get32 b 16))
  | CClose fd => call_kernel 21 [fd]
  | CDup fd => call_kernel 10 [fd]
  | CPipe =>
      r ← call_kernel 4 [BUFFER];
      if r =? 0 then a ← on_kernel (load_word BUFFER); b ← on_kernel (load_word (BUFFER + 4)); mret (Some (s32 a, s32 b))
      else mret None
  | CGetpid => call_kernel 11 []
  | CSbrk n => call_kernel 12 [n]
  | CMmap addr len prot flags fd off => call_kernel 25 [addr; len; prot; flags; fd; off]
  | CMunmap addr => call_kernel 26 [addr]
  | CFreemem => call_kernel 27 []
  | CLoad p n => if n =? 1 then user_load p else undef "load of a word"
  | CStore p n v => if n =? 1 then user_store p v else undef "store of a word"
  | CFork | CWait | CKill _ | CSleep _ | CExec _ _ | CTrap _ _ | CMalloc _ | CInb _ => undef "not of one process"
  | CFree _ | COutb _ _ => undef "not of one process"
  end.
End Calls.
