(* ===== verification/UsertestsRun.v ===== *)
(** * The file system tests of usertests.c, run: a validation of the model

    The tests that need one process, run as user code on the whole kernel: from
    the image mkfs makes of four files, through the first return to user mode,
    which reads the superblock and recovers the log, the opening of the console,
    and every call with its arguments in the process's memory. *)
From S2P Require Import Prelude CString Layout Spinlock Kalloc Vm Fp Sched Bytes Console Sleeplock Bio BioProps Ide Io Apic Log LogProps TxDisk Fs FsProps Pipe Kernel Machine File Syscall Sysfile Proc StartUser Mmap Exec Trap User Ulib Mkfs Uprogs Usertests Ukernel.

Open Scope Z_scope.

#[local] Existing Instance fp_double.
#[local] Existing Instance example_layout.
#[local] Existing Instance ex_syms.

(** No interrupt comes in: the devices keep no state. *)
#[local] Instance silent : Io unit := {|
  io_outb := fun _ _ h => h; io_inb := fun _ h => (0, h); mm_write := fun _ _ h => h; mm_read := fun _ h => (0, h) |}.
Abbreviation machine := (kernel (Bcache.bcache Memide.memdisk) * unit)%type.

(** ** The disk: the image of README, cat, echo and init *)
Definition host_files : Mkfs.host := fun name =>
  if decide (name ∈ (bytes_of <$> ["_init"; "_echo"; "_cat"])) then Some [[127; 69; 76; 70]]
  else if decide (name = bytes_of "README") then Some [bytes_of "NOTE: we have stopped maintaining"]
  else None.
Definition sectors (r : res (unit * Mkfs.image)) : list bytes :=
  match r with Ok (_, s) => Mkfs.sects s | _ => [] end.
Definition image : list bytes :=
  sectors (Mkfs.main host_files (bytes_of <$> ["README"; "_cat"; "_echo"; "_init"]) Mkfs.start).
Definition disk_image : Memide.memdisk :=
  Memide.ideinit (list_to_map (imap (fun i b => (Z.of_nat i, b)) image)) (1000 * 512).

(** ** The process, whose memory is five pages, about to return to user mode *)
Definition start_ram : CString.mem :=
  let m := wrw ∅ 0x80400000 (0x401000 + 7) in
  let m := fold_left (fun m i => wrw m (0x80401000 + 4 * i) (0x410000 + 4096 * i + 7)) (seqZ 0 5) m in
  let m := wrw m (ex_tf + tf_esp) 0x4f00 in
  wrw m (ex_tf + tf_cs) 0x1b.
Definition start_table : ptable :=
  Pt true (set_cwd (ptr 0) (set_sz 0x5000 ex_proc) :: replicate 63 no_proc) (Some 0%nat) 2
    [Pcpu (Some 0%nat) 0x80404000 0x400000 false 1 1] 0.
Definition start_fs : fstate (dstate (Bcache.bcache Memide.memdisk)) :=
  FState (DState (LState (Log false 0 0 0 0 0 0 (replicate LOGSIZE 0) 0) (Bcache.binit disk_image 1)) ex_cons false)
    (SuperBlock 0 0 0 0 0 0 0) false (root_inode :: replicate 49 no_inode) 0 NINODE.
Definition machine0 : machine :=
  (Kernel 0 (Kmem false false 0 start_ram) start_table start_fs false (replicate NFILE no_file) ∅
     (replicate 64 no_area) false 0 1, tt).

(** ** The tests *)
Definition single_process_tests : prog unit :=
  argptest ;;
  opentest ;;
  iputtest ;;
  dirtest ;;
  rmdot ;;
  fourteen ;;
  let buf := replicate (Z.to_nat BUF) 0 in
  buf ← subdir buf;
  buf ← linktest buf;
  buf ← unlinkread buf;
  dirfile.

(** What was sent to the serial port, whether the program came to its end, and
    what it left behind: the references to open files and to inodes in memory,
    the calls in the log and the blocks it holds. *)
Definition outcome (r : res (option unit * machine)) : res (option unit * bytes * (Z * Z * Z * Z)) :=
  match r with
  | Ok (o, (k, _)) =>
      let l := lg (ds_log (disk (k_fs k))) in
      Ok (o, serial (scr (ds_cons (disk (k_fs k)))),
          (foldr Z.add 0 (f_ref <$> k_files k), foldr Z.add 0 (ref <$> icache (k_fs k)), outstanding l, lh_n l))
  | Panic e => Panic e
  | Undef e => Undef e
  | Hang => Hang
  end.

Definition expected : bytes := unescape (bytes_of
  "arg test passed\nopen test\nopen test ok\niput test\niput test ok\nmkdir test\nmkdir test ok\nrmdot test\nrmdot ok\nfourteen test\nfourteen ok\nsubdir test\nsubdir ok\nlinktest\nlinktest ok\nunlinkread test\nunlinkread ok\ndir vs file\ndir vs file OK\n").

(** The single-process file system tests of usertests.c pass on the kernel.
    From an image made by mkfs, the first process returns to user mode, opens the
    console and runs ten of the tests: they come to their end, print their
    success messages and nothing else, and leave nothing behind but the three
    descriptors of the console, the console's and the current directory's inodes,
    and an empty log. *)
Example usertests_pass :
  outcome ((on_kernel forkret ;; run (kernel_call 0) (Init.open_console ;; single_process_tests)) machine0) =
  Ok (Some tt, expected, (3, 2, 0, 0)).
Proof. vm_compute. reflexivity. Qed.
