(* ===== verification/ExecProps.v ===== *)
(** * A failed exec leaves the process as it was *)
From S2P Require Import Prelude CString Layout Spinlock Kalloc Vm Fp Sched Bytes Console Sleeplock Bio BioProps Log LogProps TxDisk Fs FsProps Pipe Kernel Machine File Syscall Sysfile Proc Exec.

Open Scope Z_scope.

Create HintDb keeps.

(** ** Operations that do not touch the process table *)
Section Keeps.
Context {C : Type} `{BC : !BufCache C} `{L : !Layout} `{FE : !FpEnv}.
Abbreviation K := (kernel C).

(** If the operation returns with a result in [R], the process table, the
    mapped areas and the open files are as before. *)
Definition untouched (k k' : K) : Prop :=
  k_pt k' = k_pt k /\ k_areas k' = k_areas k /\ k_files k' = k_files k /\ k_pipes k' = k_pipes k.
Definition keeps_if {A} (R : A -> Prop) (m : M K A) : Prop :=
  forall k a k', m k = Ok (a, k') -> R a -> untouched k k'.
Abbreviation keeps := (keeps_if (fun _ => True)).

Lemma untouched_refl k : untouched k k.
Proof. done. Qed.
Lemma untouched_trans k1 k2 k3 : untouched k1 k2 -> untouched k2 k3 -> untouched k1 k3.
Proof. unfold untouched. intuition congruence. Qed.

Lemma keeps_ret {A} R (a : A) : keeps_if R (mret a).
Proof. intros k b k' [= <- <-] _. apply untouched_refl. Qed.
Lemma keeps_bind {A B} R (m : M K A) (f : A -> M K B) : keeps m -> (forall a, keeps_if R (f a)) -> keeps_if R (mbind f m).
Proof.
  intros Hm Hf k b k' E Rb. unfold mbind, M_bind in E. destruct (m k) as [[a k1]| | |] eqn:E1; try done.
  eapply untouched_trans; [by eapply Hm|by eapply Hf].
Qed.
Lemma keeps_on_mem {A} R (m : M kmem A) : keeps_if R (on_mem m).
Proof. intros k a k' E _. unfold on_mem, zoom in E. destruct (m _) as [[? ?]| | |]; try done. by injection E as <- <-. Qed.
Lemma keeps_on_log {A} R (m : M (lstate C) A) : keeps_if R (on_log m).
Proof.
  intros k a k' E _. unfold on_log in E. unfold zoom at 1 in E. destruct (zoom _ _ _) as [[? ?]| | |]; try done.
  by injection E as <- <-.
Qed.
Lemma keeps_on_fs {A} R (m : M (fstate (dstate C)) A) : keeps_if R (on_fs m).
Proof.
  intros k a k' E _. unfold on_fs in E. rewrite bind_modify in E. unfold zoom in E. destruct (m _) as [[? ?]| | |]; try done.
  by injection E as <- <-.
Qed.
Lemma keeps_kprintf R fmt args : keeps_if R (kprintf fmt args).
Proof.
  intros k a k' E _. unfold kprintf, on_console in E. unfold zoom at 1 in E. destruct (zoom _ _ _) as [[? ?]| | |]; try done.
  by injection E as <- <-.
Qed.
Lemma keeps_panic {A} R s : keeps_if R (panic s : M K A).
Proof. by intros k a k' E. Qed.
Lemma keeps_hang {A} R : keeps_if R (hang : M K A).
Proof. by intros k a k' E. Qed.
Lemma keeps_when R b (m : M K unit) : keeps_if R m -> keeps_if R (when b m).
Proof. intros H. destruct b; [done|apply keeps_ret]. Qed.
(** A read of the state. *)
Lemma keeps_read {A} R (m : M K A) : (forall k a k', m k = Ok (a, k') -> k' = k) -> keeps_if R m.
Proof. intros H k a k' E _. by rewrite (H _ _ _ E). Qed.
Lemma keeps_me_proc R : keeps_if R me_proc.
Proof.
  apply keeps_read. intros k a k' E. unfold me_proc, on_pt, curproc, myproc, get_pcpu, zoom, mbind, M_bind, gets in E.
  destruct (pcpus _ !! _) as [c|]; [|done]. cbn in E. destruct (c_proc c); [|done]. injection E as <- <-. by destruct k.
Qed.
Lemma keeps_nth_proc R i : keeps_if R (nth_proc i).
Proof.
  apply keeps_read. intros k a k' E. unfold nth_proc, on_pt, get_proc, zoom, mbind, M_bind, gets in E.
  destruct (procs _ !! _) as [p|]; [|done]. injection E as <- <-. by destruct k.
Qed.
End Keeps.
#[export] Hint Resolve keeps_ret keeps_on_mem keeps_on_log keeps_on_fs keeps_kprintf keeps_panic keeps_hang keeps_when
  keeps_me_proc keeps_nth_proc : keeps.

(** Follow the code: a bind, a branch, or an operation known to the database. *)
Ltac keeps_step :=
  first
  [ solve [eauto 2 with keeps]
  | match goal with
    | |- keeps_if _ (mbind _ _) => apply keeps_bind
    | |- forall _, _ => intro
    | |- keeps_if _ (if ?b then _ else _) => destruct b
    | |- keeps_if _ (match ?o with _ => _ end) => destruct o
    | |- keeps_if _ (let _ := _ in _) => cbv zeta
    end ].
Ltac keeps := repeat keeps_step.

Section Exec.
Context {C : Type} `{BC : !BufCache C} `{L : !Layout} `{FE : !FpEnv}.
Abbreviation K := (kernel C).
Abbreviation keeps := (keeps_if (C := C) (fun _ => True)).

Lemma keeps_loaduvm_loop fuel d addr ip off sz : forall i, keeps (loaduvm_loop fuel d addr ip off sz i).
Proof. induction fuel as [|fuel IH]; intros i; cbn [loaduvm_loop]; keeps. Qed.
Lemma keeps_loaduvm d addr ip off sz : keeps (loaduvm d addr ip off sz).
Proof. unfold loaduvm. destruct (truthy _); [apply keeps_panic|apply keeps_loaduvm_loop]. Qed.
Lemma keeps_load_segments n d ip : forall off sz, keeps (load_segments n d ip off sz).
Proof.
  induction n as [|n IH]; intros off sz; cbn [load_segments]; keeps. apply keeps_loaduvm.
Qed.
Lemma keeps_push_args d argv : forall argc sp us, keeps (push_args d argv argc sp us).
Proof. induction argv as [|s argv IH]; intros argc sp us; cbn [push_args]; keeps. Qed.
Lemma keeps_exec_bad R d ip : keeps_if (C := C) R (exec_bad d ip).
Proof. unfold exec_bad. keeps. Qed.

(** The table changes only on the way to the result 0. *)
Lemma keeps_exec_stack path argv entry d sz : keeps_if (C := C) (fun r => r <> 0) (exec_stack path argv entry d sz).
Proof.
  unfold exec_stack. apply keeps_bind; [apply keeps_me_proc|]. intros i. cbv zeta.
  apply keeps_bind; [apply keeps_on_mem|]. intros z. destruct (z =? 0); [apply keeps_exec_bad|].
  apply keeps_bind; [apply keeps_on_mem|]. intros [].
  apply keeps_bind; [apply keeps_push_args|]. intros [[[argc sp] us]|]; [|apply keeps_exec_bad].
  apply keeps_bind; [apply keeps_on_mem|]. intros r. destruct (r <? 0); [apply keeps_exec_bad|].
  apply keeps_bind; [apply keeps_nth_proc|]. intros p k a k' E Ha. destruct Ha. revert E.
  unfold mbind, M_bind. repeat (case_match; [|done..]; destruct_and?; case_match). by intros [= <- _].
Qed.

(** C20: If exec fails - whatever the reason: no such file, a bad header, a
    malformed segment, no memory, too many arguments - the process that called
    it keeps its page table, size, name, open files and mapped areas: nothing of
    the process table, the areas, the open files and the pipes has changed. *)
Theorem exec_failure_keeps_process (path : bytes) (argv : list bytes) (k k' : K) (r : Z)
  (E : exec path argv k = Ok (r, k')) (Hr : r <> 0) : untouched k k'.
Proof.
  revert k r k' E Hr. change (keeps_if (C := C) (fun r => r <> 0) (exec path argv)). unfold exec.
  apply keeps_bind; [apply keeps_on_log|]. intros []. apply keeps_bind; [apply keeps_on_fs|]. intros [ip|].
  - apply keeps_bind; [apply keeps_on_fs|]. intros []. apply keeps_bind; [apply keeps_on_fs|]. intros [n x]. cbv zeta.
    destruct (negb (n =? ELFSIZE)); [apply keeps_exec_bad|]. destruct (negb (_ =? ELF_MAGIC)); [apply keeps_exec_bad|].
    apply keeps_bind; [apply keeps_on_mem|]. intros d. destruct (d =? 0); [apply keeps_exec_bad|].
    apply keeps_bind; [apply keeps_load_segments|]. intros [z|]; [|apply keeps_exec_bad].
    apply keeps_bind; [apply keeps_on_fs|]. intros []. apply keeps_bind; [apply keeps_on_log|]. intros [].
    apply keeps_exec_stack.
  - apply keeps_bind; [apply keeps_on_log|]. intros []. apply keeps_bind; [apply keeps_kprintf|]. intros []. apply keeps_ret.
Qed.
End Exec.

(** On the example machine there is no file "/x". *)
Lemma exec_failure_keeps_process_witness : exists k',
  @exec _ _ example_layout (bytes_of "/x") [] ex_kernel = Ok (-1, k') /\ k_pt k' = k_pt ex_kernel.
Proof.
  destruct (@exec _ _ example_layout (bytes_of "/x") [] ex_kernel) as [[r k']| | |] eqn:E; [|vm_compute in E; discriminate..].
  exists k'. assert (r = -1) as ->.
  { assert (T : match @exec _ _ example_layout (bytes_of "/x") [] ex_kernel with Ok (r, _) => r | _ => 0 end = -1) by (vm_compute; reflexivity).
    rewrite E in T. exact T. }
  split; [reflexivity|]. apply (@exec_failure_keeps_process _ _ example_layout (bytes_of "/x") [] ex_kernel k' (-1) E). lia.
Defined.
