(* ===== verification/ProcProps.v ===== *)
(** * exit and wait

    A parent asleep in wait is woken by its child's exit and finds the child;
    the child's children go to init. *)
From S2P Require Import Prelude CString Layout Spinlock Kalloc Vm Fp Sched SchedProps Bytes Console Sleeplock Bio BioProps Log LogProps TxDisk Fs FsProps Pipe Kernel Machine File Syscall Proc.

Open Scope Z_scope.

Section Exit.
Context `{FE : !FpEnv} `{SY : !KSyms}.

(** What wakeups change of a process: it may be RUNNABLE instead of SLEEPING. *)
Definition kept (x0 x : proc) : Prop :=
  (state x = state x0 /\ chan x = chan x0) \/ (state x0 = SLEEPING /\ state x = RUNNABLE).

(** What the loop over the table keeps: the exiting process [cp] and its parent
    [pp], which is awake; of the table [ps0] of before, the slots before [n] that
    were children of [cp] are init's, the other parents are as they were, and init
    is awake if one before [m] is a zombie and init was waiting. *)
Record handing (ps0 : list proc) (cp pp : nat) (cpus : list pcpu) (init : option nat) (n m : nat) (s : ptable) : Prop := {
  ha_lock : plock s = true;
  ha_cpus : pcpus s = cpus;
  ha_init : initproc s = init;
  ha_len : length (procs s) = 64%nat;
  ha_len0 : length ps0 = 64%nat;
  ha_vr : Forall vr_ok (procs s);
  ha_cp : exists p, procs s !! cp = Some p /\ state p = RUNNING /\ parent p = Some pp;
  ha_pp : exists q, procs s !! pp = Some q /\ state q = RUNNABLE;
  ha_kept i x0 x : ps0 !! i = Some x0 -> procs s !! i = Some x -> kept x0 x /\
    parent x = if decide ((i < n)%nat /\ parent x0 = Some cp) then init else parent x0;
  ha_awake ii q0 k x0 : init = Some ii -> ps0 !! ii = Some q0 -> state q0 = SLEEPING -> chan q0 = addr_proc ii ->
    (k < m)%nat -> ps0 !! k = Some x0 -> parent x0 = Some cp -> state x0 = ZOMBIE ->
    exists q, procs s !! ii = Some q /\ state q = RUNNABLE
}.

Lemma awakened_fields ch p p' : awakened ch p p' ->
  parent p' = parent p /\ (state p <> SLEEPING -> p' = p) /\ (state p = SLEEPING -> chan p = ch -> state p' = RUNNABLE).
Proof.
  unfold awakened, sleeping_on. intros A.
  destruct (bool_decide (state p = SLEEPING)) eqn:B; cbn [andb] in A.
  - apply bool_decide_eq_true in B. destruct (Z.eqb_spec (chan p) ch).
    + destruct A as (v & o & _ & ->). split_and!; [done|by intros ?|done].
    + subst p'. by split_and!.
  - apply bool_decide_eq_false in B. subst p'. by split_and!.
Qed.

(** wakeup1 on a table where someone is not RUNNABLE. *)
Lemma wakeup1_run ch s cp p : Forall vr_ok (procs s) -> procs s !! cp = Some p -> state p = RUNNING ->
  exists ps, wakeup1 ch s = Ok (tt, with_procs s ps) /\ Forall vr_ok ps /\ length ps = length (procs s) /\
    forall i x, procs s !! i = Some x -> exists x', ps !! i = Some x' /\ awakened ch x x'.
Proof.
  intros Hv Hp Hst. destruct (wakeup1_spec ch s Hv) as (ps & R & A & V).
  { exists cp, p. split; [done|]. apply bool_decide_eq_false. by rewrite Hst. }
  exists ps. split; [done|]. split; [done|]. split; [symmetry; by eapply Forall2_length|].
  intros i x Hx. destruct (Forall2_lookup_l _ _ _ _ _ A Hx) as (x' & Hx' & Ha). by exists x'.
Qed.

Lemma kept_awakened ch x0 x x' : kept x0 x -> awakened ch x x' -> kept x0 x'.
Proof.
  intros K A. destruct (awakened_fields _ _ _ A) as (_ & E1 & E2). destruct (decide (state x = SLEEPING)) as [S|S]; [|by rewrite E1].
  unfold awakened, sleeping_on in A. rewrite bool_decide_eq_true_2 in A by done. cbn [andb] in A.
  destruct (Z.eqb_spec (chan x) ch); [|by subst x']. destruct K as [[K1 K2]|[K1 K2]]; [|congruence]. right. split; [congruence|by apply E2].
Qed.
Lemma runs_awakened ch x x' : state x = RUNNABLE -> awakened ch x x' -> state x' = RUNNABLE.
Proof. intros S A. destruct (awakened_fields _ _ _ A) as (_ & E & _). by rewrite E by congruence. Qed.

Lemma handing_wake ps0 ch cp pp cpus init n m s : handing ps0 cp pp cpus init n m s ->
  exists ps, wakeup1 ch s = Ok (tt, with_procs s ps) /\ handing ps0 cp pp cpus init n m (with_procs s ps) /\
    forall i x, procs s !! i = Some x -> exists x', ps !! i = Some x' /\ awakened ch x x'.
Proof.
  intros [H1 H2 H3 H4 H4' H5 (p & Hp & Sp & Pp) (q & Hq & Sq) H8 H9].
  destruct (wakeup1_run ch s cp p H5 Hp Sp) as (ps & R & V & L & A). exists ps. split; [done|]. split; [|exact A].
  split; cbn [with_procs lset procsL plock pcpus initproc procs]; try done.
  - by rewrite L.
  - destruct (A cp p Hp) as (p' & Hp' & Ap). destruct (awakened_fields _ _ _ Ap) as (_ & E & _).
    rewrite E in Hp' by congruence. by exists p.
  - destruct (A pp q Hq) as (q' & Hq' & Aq). exists q'. split; [done|]. by eapply runs_awakened.
  - intros i x0 x Hx0 Hx. assert (exists y, procs s !! i = Some y) as [y Hy].
    { apply lookup_lt_is_Some. rewrite <-L. by eapply lookup_lt_Some. }
    destruct (A i y Hy) as (y' & Hy' & Ay). destruct (awakened_fields _ _ _ Ay) as (E & _).
    assert (y' = x) as -> by congruence. destruct (H8 i x0 y Hx0 Hy) as [K P]. rewrite E. split; [by eapply kept_awakened|done].
  - intros ii q0 k x0 Hi Hq0 S0 C0 Hk Hx0 Px Zx. destruct (H9 ii q0 k x0 Hi Hq0 S0 C0 Hk Hx0 Px Zx) as (y & Hy & Sy).
    destruct (A ii y Hy) as (y' & Hy' & Ay). exists y'. split; [done|]. by eapply runs_awakened.
Qed.

(** [p->parent = initproc] of a child of [cp]. *)
Lemma handing_set ps0 cp pp cpus init n m s x : handing ps0 cp pp cpus init n m s -> init <> Some cp ->
  procs s !! n = Some x -> parent x = Some cp ->
  handing ps0 cp pp cpus init (S n) m (with_procs s (<[n := set_parent init x]> (procs s))).
Proof.
  intros [H1 H2 H3 H4 H4' H5 (p & Hp & Sp & Pp) (q & Hq & Sq) H8 H9] Hi Hx Px.
  assert (Hlt : (n < length (procs s))%nat) by (by eapply lookup_lt_Some).
  split; cbn [with_procs lset procsL plock pcpus initproc procs]; try done.
  - by rewrite length_insert.
  - apply Forall_insert; [done|]. rewrite Forall_lookup in H5. exact (H5 n x Hx).
  - destruct (decide (n = cp)) as [->|N]; [|exists p; by rewrite list_lookup_insert_ne].
    congruence.
  - destruct (decide (n = pp)) as [->|N].
    + rewrite list_lookup_insert_eq by done. eexists. split; [done|]. cbn. congruence.
    + exists q. by rewrite list_lookup_insert_ne.
  - intros i x0 y Hx0. destruct (decide (i = n)) as [->|N].
    + rewrite list_lookup_insert_eq by done. intros [= <-]. destruct (H8 n x0 x Hx0 Hx) as [K P]. split; [exact K|]. cbn.
      rewrite decide_False in P by lia. rewrite decide_True by (split; [lia|congruence]). done.
    + rewrite list_lookup_insert_ne by done. intros Hy. destruct (H8 i x0 y Hx0 Hy) as [K P]. split; [done|]. rewrite P.
      apply decide_ext. split; intros [? ?]; (split; [lia|done]).
  - intros ii q0 k x0 Hii Hq0 S0 C0 Hk Hx0 Px0 Zx0.
    destruct (H9 ii q0 k x0 Hii Hq0 S0 C0 Hk Hx0 Px0 Zx0) as (y & Hy & Sy). destruct (decide (ii = n)) as [->|M].
    + rewrite list_lookup_insert_eq by done. eexists. split; [done|]. cbn. congruence.
    + exists y. by rewrite list_lookup_insert_ne.
Qed.

(** The slot [n] is done: it was not a child of [cp], is not a zombie, or init runs. *)
Lemma handing_done ps0 cp pp cpus init n s : handing ps0 cp pp cpus init (S n) n s ->
  (forall ii q0 x0, init = Some ii -> ps0 !! ii = Some q0 -> state q0 = SLEEPING -> chan q0 = addr_proc ii ->
     ps0 !! n = Some x0 -> parent x0 = Some cp -> state x0 = ZOMBIE ->
     exists q, procs s !! ii = Some q /\ state q = RUNNABLE) ->
  handing ps0 cp pp cpus init (S n) (S n) s.
Proof.
  intros [H1 H2 H3 H4 H4' H5 H6 H7 H8 H9] Hn. split; try done.
  intros ii q0 k x0 Hii Hq0 S0 C0 Hk Hx0 Px0 Zx0. destruct (decide (k = n)) as [->|N]; [by eapply Hn|].
  apply (H9 ii q0 k x0); try done. lia.
Qed.

Lemma handing_skip ps0 cp pp cpus init n s x : handing ps0 cp pp cpus init n n s -> procs s !! n = Some x ->
  parent x <> Some cp -> handing ps0 cp pp cpus init (S n) (S n) s.
Proof.
  intros [H1 H2 H3 H4 H4' H5 H6 H7 H8 H9] Hx Px.
  assert (No : forall x0, ps0 !! n = Some x0 -> parent x0 <> Some cp).
  { intros x0 Hx0. destruct (H8 n x0 x Hx0 Hx) as [_ P]. rewrite decide_False in P by lia. congruence. }
  apply handing_done.
  - split; try done. intros i x0 y Hx0 Hy. destruct (H8 i x0 y Hx0 Hy) as [K P]. split; [done|]. rewrite P.
    apply decide_ext. split; intros [? ?]; (split; [|done]); [lia|]. destruct (decide (i = n)) as [->|]; [|lia].
    by destruct (No x0 Hx0).
  - intros ii q0 x0 _ _ _ _ Hx0 Px0. by destruct (No x0 Hx0).
Qed.

Lemma handing_reparent ps0 cp pp cpus init n s : handing ps0 cp pp cpus init n n s -> init <> Some cp -> (n < 64)%nat ->
  exists s', reparent cp n s = Ok (tt, s') /\ handing ps0 cp pp cpus init (S n) (S n) s'.
Proof.
  intros Hd Hi Hn.
  assert (exists x, procs s !! n = Some x) as [x Hx] by (apply lookup_lt_is_Some; rewrite (ha_len _ _ _ _ _ _ _ _ Hd); lia).
  unfold reparent. rewrite (bind_ok _ _ _ _ _ (get_proc_ok n s x Hx)), bind_gets, (ha_init _ _ _ _ _ _ _ _ Hd). case_decide as D.
  2:{ exists s. split; [done|]. by eapply handing_skip. }
  rewrite (bind_ok _ _ _ _ _ (upd_proc_ok n _ s x Hx)).
  pose proof (handing_set _ _ _ _ _ _ _ _ _ Hd Hi Hx D) as Hd1. set (s1 := with_procs s _) in *.
  destruct (bool_decide (state x = ZOMBIE)) eqn:Z; cbn [when].
  - destruct (handing_wake _ (proc_chan init) _ _ _ _ _ _ _ Hd1) as (ps & R & Hd2 & A). exists (with_procs s1 ps). split; [done|].
    apply handing_done; [done|]. intros ii q0 x0 -> Hq0 S0 C0 _ _ _.
    assert (exists y, procs s1 !! ii = Some y) as [y Hy].
    { apply lookup_lt_is_Some. rewrite (ha_len _ _ _ _ _ _ _ _ Hd1), <-(ha_len0 _ _ _ _ _ _ _ _ Hd1). by eapply lookup_lt_Some. }
    destruct (A ii y Hy) as (y' & Hy' & Ay). exists y'. split; [done|].
    destruct (ha_kept _ _ _ _ _ _ _ _ Hd1 ii q0 y Hq0 Hy) as [[[K1 K2]|[_ K2]] _]; [|by eapply runs_awakened].
    destruct (awakened_fields _ _ _ Ay) as (_ & _ & E). cbn [proc_chan] in *. apply E; congruence.
  - exists s1. split; [done|]. apply handing_done; [done|]. intros ii q0 x0 _ _ _ _ Hx0 _ Zx0. exfalso.
    apply bool_decide_eq_false in Z. apply Z. destruct (ha_kept _ _ _ _ _ _ _ _ Hd n x0 x Hx0 Hx) as [[[K1 _]|[K1 _]] _]; congruence.
Qed.

Lemma handing_loop ps0 cp pp cpus init : init <> Some cp -> forall m n s, (n + m = 64)%nat -> handing ps0 cp pp cpus init n n s ->
  exists s', for_each (seq n m) (reparent cp) s = Ok (tt, s') /\ handing ps0 cp pp cpus init 64 64 s'.
Proof.
  intros Hi. induction m as [|m IH]; intros n s Hnm Hd; cbn [seq for_each].
  - replace 64%nat with n by lia. by exists s.
  - destruct (handing_reparent ps0 cp pp cpus init n s Hd Hi ltac:(lia)) as (s1 & R1 & Hd1).
    rewrite (bind_ok _ _ _ _ _ R1). apply (IH (S n)); [lia|done].
Qed.

(** The loop starts on the table [ps] that waking the parent made of [s2], which
    differs from the table [ps0] of before in the exiting process's vruntime. *)
Lemma handing_start ps0 s2 cp pp p p1 q ps cpus init : plock s2 = true -> pcpus s2 = cpus -> initproc s2 = init ->
  procs s2 = <[cp := p1]> ps0 -> length ps0 = 64%nat -> ps0 !! cp = Some p ->
  state p1 = RUNNING -> state p1 = state p -> chan p1 = chan p -> parent p1 = parent p -> parent p = Some pp ->
  ps0 !! pp = Some q -> state q = SLEEPING -> chan q = addr_proc pp -> pp <> cp ->
  Forall vr_ok ps -> length ps = length (procs s2) ->
  (forall i x, procs s2 !! i = Some x -> exists x', ps !! i = Some x' /\ awakened (addr_proc pp) x x') ->
  handing ps0 cp pp cpus init 0 0 (with_procs s2 ps).
Proof.
  intros L2 C2 I2 E2 N0 Hp S1 Sp C1 P1 Pp Hq Sq Cq Npp V L A.
  assert (Hlt : (cp < length ps0)%nat) by (by eapply lookup_lt_Some).
  assert (Hp1 : procs s2 !! cp = Some p1) by (by rewrite E2, list_lookup_insert_eq).
  assert (Hq1 : procs s2 !! pp = Some q) by (by rewrite E2, list_lookup_insert_ne).
  split; cbn [with_procs lset procsL plock pcpus initproc procs]; try done; [|..|lia].
  - by rewrite L, E2, length_insert.
  - destruct (A cp p1 Hp1) as (x & Hx & Ax). destruct (awakened_fields _ _ _ Ax) as (_ & E & _).
    rewrite E in Hx by congruence. exists p1. split_and!; [done|done|congruence].
  - destruct (A pp q Hq1) as (x & Hx & Ax). destruct (awakened_fields _ _ _ Ax) as (_ & _ & E). exists x. split; [done|].
    by apply E.
  - intros i x0 x Hx0 Hx. rewrite decide_False by lia.
    assert (exists y, procs s2 !! i = Some y /\ kept x0 y /\ parent y = parent x0) as (y & Hy & K & Py).
    { rewrite E2. destruct (decide (i = cp)) as [->|N].
      - rewrite list_lookup_insert_eq by done. exists p1. assert (x0 = p) as -> by congruence. split; [done|]. split; [by left|done].
      - rewrite list_lookup_insert_ne by done. exists x0. split; [done|]. split; [by left|done]. }
    destruct (A i y Hy) as (y' & Hy' & Ay). assert (y' = x) as -> by congruence.
    destruct (awakened_fields _ _ _ Ay) as (E & _). split; [by eapply kept_awakened|congruence].
Qed.

(** The scan finds a zombie child if there is one. *)
Lemma wait_scan_finds pp : forall ps i b k x, ps !! k = Some x -> parent x = Some pp -> state x = ZOMBIE ->
  exists z y, wait_scan pp i ps b = Zombie (i + z) /\ ps !! z = Some y /\ parent y = Some pp /\ state y = ZOMBIE.
Proof.
  induction ps as [|p ps IH]; intros i b k x Hx Hp Hz; [done|]. cbn [wait_scan].
  assert (D : p = x /\ k = 0%nat \/ exists k', ps !! k' = Some x) by (destruct k as [|k]; [left; by injection Hx|right; by exists k]).
  case_decide as D1; [case_decide as D2|].
  - exists 0%nat, p. rewrite Nat.add_0_r. done.
  - destruct D as [[-> ->]|[k' Hk]]; [done|]. destruct (IH (S i) true k' x Hk Hp Hz) as (z & y & E & Hy & P).
    exists (S z), y. split; [by rewrite E, Nat.add_succ_r|done].
  - destruct D as [[-> ->]|[k' Hk]]; [done|]. destruct (IH (S i) b k' x Hk Hp Hz) as (z & y & E & Hy & P).
    exists (S z), y. split; [by rewrite E, Nat.add_succ_r|done].
Qed.

(** C26: A process that exits does not leave its parent asleep.  When the parent
    sleeps in wait (on its own address), the child's exit makes the parent
    RUNNABLE before it leaves the CPU, the child is a zombie that the parent's
    next scan of the table finds, every child of the exiting process now has init
    as its parent and no other process changes its parent, init is RUNNABLE if it
    slept in wait and one of these children is a zombie, and the process table
    lock is still held for the scheduler. *)
Theorem exit_hands_over_to_parent (me : nat) (s : ptable) (c : pcpu) (cp pp : nat) (p q : proc)
  (I : pt_inv s) (Hc : pcpus s !! me = Some c) (Hcp : c_proc c = Some cp) (Hn : c_ncli c = 0)
  (Hp : procs s !! cp = Some p) (Hpp : parent p = Some pp) (Hq : procs s !! pp = Some q)
  (Sq : state q = SLEEPING) (Cq : chan q = addr_proc pp) (Hi : initproc s <> Some cp)
  (V : vt_ok p) (Hv : 1024 * ran p <= 2147483647 * weight p) :
  exists s', exit_table me cp s = Ok (tt, s') /\ plock s' = true /\
    (exists q', procs s' !! pp = Some q' /\ state q' = RUNNABLE) /\
    (exists p', procs s' !! cp = Some p' /\ state p' = ZOMBIE /\ parent p' = Some pp) /\
    (forall i x x', procs s !! i = Some x -> procs s' !! i = Some x' ->
       parent x' = if decide (parent x = Some cp) then initproc s else parent x) /\
    (forall i x, procs s' !! i = Some x -> parent x <> Some cp) /\
    (forall ii q0 k x, initproc s = Some ii -> procs s !! ii = Some q0 -> state q0 = SLEEPING ->
       chan q0 = addr_proc ii -> procs s !! k = Some x -> parent x = Some cp -> state x = ZOMBIE ->
       exists q', procs s' !! ii = Some q' /\ state q' = RUNNABLE) /\
    (exists z y, wait_scan pp 0 (procs s') false = Zombie z /\ procs s' !! z = Some y /\
       parent y = Some pp /\ state y = ZOMBIE).
Proof.
  assert (Sp : state p = RUNNING) by (apply (pv_run _ I cp p Hp); by exists me, c).
  assert (Npp : pp <> cp) by (intros ->; congruence).
  pose proof (vruntimeupdate_eq p V Hv) as Ev. destruct (vruntime_exact_fields p) as (F1 & F2 & F3 & F4 & F5 & F6).
  set (p1 := vruntime_exact p) in *.
  assert (Sp1 : state p1 = RUNNING /\ parent p1 = Some pp).
  { unfold p1, vruntime_exact. destruct (_ <? _); done. }
  set (s1 := with_procs s (<[cp := p1]> (procs s))).
  assert (Hlt : (cp < length (procs s))%nat) by (by eapply lookup_lt_Some).
  assert (Hp1 : procs s1 !! cp = Some p1) by (cbn; by rewrite list_lookup_insert_eq).
  assert (Hq1 : procs s1 !! pp = Some q) by (cbn; by rewrite list_lookup_insert_ne).
  assert (V1 : Forall vr_ok (procs s1)).
  { cbn. apply Forall_insert; [by apply pt_inv_vr|]. split; [apply vruntime_exact_range; done|]. destruct Sp1 as [E _]. by rewrite E. }
  set (s2 := SchedProps.with_lock (with_cpu s1 me (pushed_cpu c)) true).
  destruct (wakeup1_run (addr_proc pp) s2 cp p1 V1 Hp1 (proj1 Sp1)) as (ps & R & V2 & L & A).
  assert (Hd : handing (procs s) cp pp (<[me := pushed_cpu c]> (pcpus s)) (initproc s) 0 0 (with_procs s2 ps)).
  { apply (handing_start (procs s) s2 cp pp p p1 q); try done; [apply (pv_len _ I)|..]; unfold p1, vruntime_exact; by destruct (_ <? _). }
  destruct (handing_loop _ cp pp _ _ Hi 64 0 _ eq_refl Hd)
    as (s3 & R3 & [H1 H2 H3 H4 H4' H5 (p3 & Hp3 & Sp3 & Pp3) (q3 & Hq3 & Sq3) H8 H9]).
  assert (Hlt3 : (cp < length (procs s3))%nat) by (by eapply lookup_lt_Some).
  set (s4 := with_procs s3 (<[cp := set_state ZOMBIE p3]> (procs s3))).
  assert (Hp4 : procs s4 !! cp = Some (set_state ZOMBIE p3)) by (cbn; by rewrite list_lookup_insert_eq).
  assert (Hme : (me < length (pcpus s))%nat) by (by eapply lookup_lt_Some).
  assert (R5 : sched me s4 = Ok (tt, with_procs s4 (<[cp := set_ctx_intena (c_intena (pushed_cpu c)) (set_state ZOMBIE p3)]> (procs s4)))).
  { apply (sched_ok me s4 (pushed_cpu c)); try done; [cbn; rewrite H2; by rewrite list_lookup_insert_eq|cbn; lia]. }
  set (z := set_ctx_intena (c_intena (pushed_cpu c)) (set_state ZOMBIE p3)) in *.
  assert (Ez : procs (with_procs s4 (<[cp := z]> (procs s4))) = <[cp := z]> (procs s3)) by (cbn; by rewrite list_insert_insert_eq).
  assert (Hpar : forall i x x', procs s !! i = Some x -> <[cp := z]> (procs s3) !! i = Some x' ->
    parent x' = if decide (parent x = Some cp) then initproc s else parent x).
  { intros i x x' Hx Hx'. assert (Hl : (i < 64)%nat) by (rewrite <-H4'; by eapply lookup_lt_Some).
    assert (exists y, procs s3 !! i = Some y /\ parent x' = parent y) as (y & Hy & ->).
    { destruct (decide (i = cp)) as [->|N]; [|rewrite list_lookup_insert_ne in Hx' by done; by exists x'].
      rewrite list_lookup_insert_eq in Hx' by done. injection Hx' as <-. by exists p3. }
    rewrite (proj2 (H8 i x y Hx Hy)). apply decide_ext. split; [by intros [_ ?]|done]. }
  exists (with_procs s4 (<[cp := z]> (procs s4))). rewrite Ez. split_and!.
  - unfold exit_table. rewrite (bind_ok _ _ _ _ _ (upd_vruntime_ok cp s p p1 Hp Ev)). fold s1.
    rewrite (bind_ok _ _ _ _ _ (pt_acquire_ok me s1 c Hc (pv_lock _ I))). fold s2.
    rewrite (bind_ok _ _ _ _ _ (get_proc_ok cp s2 p1 Hp1)). rewrite (proj2 Sp1). cbn [proc_chan].
    rewrite (bind_ok _ _ _ _ _ R), (bind_ok _ _ _ _ _ R3), (bind_ok _ _ _ _ _ (upd_proc_ok cp _ s3 p3 Hp3)). exact R5.
  - exact H1.
  - exists q3. by rewrite list_lookup_insert_ne.
  - exists z. by rewrite list_lookup_insert_eq.
  - exact Hpar.
  - intros i x Hx. assert (exists x0, procs s !! i = Some x0) as [x0 Hx0].
    { apply lookup_lt_is_Some. rewrite H4', <-H4, <-(length_insert (procs s3) cp z). by eapply lookup_lt_Some. }
    rewrite (Hpar i x0 x Hx0 Hx). by case_decide.
  - intros ii q0 k x Hii Hq0 S0 C0 Hk Px Zx. assert (ii <> cp) by congruence.
    rewrite list_lookup_insert_ne by done. apply (H9 ii q0 k x); try done. pose proof (lookup_lt_Some _ _ _ Hk). lia.
  - apply (wait_scan_finds pp (<[cp := z]> (procs s3)) 0 false cp z); [by rewrite list_lookup_insert_eq|done|done].
Qed.
End Exit.

(** ** A parent asleep in wait and its running child *)
Definition ex_parent : proc :=
  set_chan (@addr_proc ex_syms 1) (set_weight 1024 (set_nice 20 (set_pid 2 (set_state SLEEPING
    (set_pgdir 0x80404000 (set_kstack 0x80403000 no_proc)))))).
Definition ex_child : proc :=
  set_actual_runtime 1000 (set_parent (Some 1%nat) (set_weight 1024 (set_nice 20 (set_pid 3 (set_state RUNNING
    (set_pgdir 0x80406000 (set_kstack 0x80405000 no_proc))))))).
Definition ex_family : ptable :=
  Pt false (SchedProps.ex_run :: ex_parent :: ex_child :: replicate 61 no_proc) (Some O) 4
    [Pcpu (Some 2%nat) 0 0x1000 true 0 0] 0x803ff000.

Lemma ex_family_lookup i p : procs ex_family !! i = Some p ->
  (i = 0%nat /\ p = SchedProps.ex_run) \/ (i = 1%nat /\ p = ex_parent) \/ (i = 2%nat /\ p = ex_child) \/ (p = no_proc /\ i <> 2%nat).
Proof.
  destruct i as [|[|[|i]]]; intros H.
  - injection H as <-. auto.
  - injection H as <-. auto.
  - injection H as <-. auto.
  - right. right. right. change (replicate 61 no_proc !! i = Some p) in H. by apply lookup_replicate in H as [-> _].
Qed.
Lemma ex_family_inv : pt_inv ex_family.
Proof.
  split; try done.
  - intros i p Hp. destruct (ex_family_lookup i p Hp) as [[-> ->]|[[-> ->]|[[-> ->]|[-> Ni]]]]; (split; [try done|]).
    + intros ([|c] & x & Hx & Hxi); simplify_eq/=.
    + intros ([|c] & x & Hx & Hxi); simplify_eq/=.
    + intros _. by exists 0%nat, (Pcpu (Some 2%nat) 0 0x1000 true 0 0).
    + done.
    + intros ([|c] & x & Hx & Hxi); simplify_eq/=.
  - intros [|c] [|c'] x x' i Hx Hx'; simplify_eq/=. done.
  - intros [|c] x i Hx; simplify_eq/=. intros [= <-]. lia.
  - intros [|c] x Hx; simplify_eq/=. done.
  - rewrite Forall_lookup. intros i p Hp.
    destruct (ex_family_lookup i p Hp) as [[-> ->]|[[-> ->]|[[-> ->]|[-> Ni]]]]; simpl; lia.
  - rewrite Forall_lookup. intros i p Hp.
    destruct (ex_family_lookup i p Hp) as [[-> ->]|[[-> ->]|[[-> ->]|[-> Ni]]]]; simpl; (done || (intros _; split; [lia|reflexivity])).
  - rewrite Forall_lookup. intros i p Hp.
    destruct (ex_family_lookup i p Hp) as [[-> ->]|[[-> ->]|[[-> ->]|[-> Ni]]]]; simpl; try (intros _; lia).
    intros [?|[?|?]]; done.
  - intros i j p q Hp Hq.
    destruct (ex_family_lookup i p Hp) as [[-> ->]|[[-> ->]|[[-> ->]|[-> Ni]]]],
      (ex_family_lookup j q Hq) as [[-> ->]|[[-> ->]|[[-> ->]|[-> Nj]]]]; simpl; done.
  - rewrite Forall_lookup. intros i p Hp.
    destruct (ex_family_lookup i p Hp) as [[-> ->]|[[-> ->]|[[-> ->]|[-> Ni]]]]; simpl; lia.
Qed.

Lemma exit_hands_over_to_parent_witness : exists s', @exit_table fp_double ex_syms 0 2 ex_family = Ok (tt, s') /\
  exists z y, wait_scan 1 0 (procs s') false = Zombie z /\ procs s' !! z = Some y /\ parent y = Some 1%nat /\ state y = ZOMBIE.
Proof.
  assert (Hi : initproc ex_family <> Some 2%nat) by discriminate.
  assert (V : vt_ok ex_child) by (split; simpl; lia).
  assert (Hv : 1024 * ran ex_child <= 2147483647 * weight ex_child) by (vm_compute; discriminate).
  destruct (@exit_hands_over_to_parent fp_double ex_syms 0 ex_family (Pcpu (Some 2%nat) 0 0x1000 true 0 0) 2 1 ex_child ex_parent
    ex_family_inv eq_refl eq_refl eq_refl eq_refl eq_refl eq_refl eq_refl eq_refl Hi V Hv) as (s' & E & _ & _ & _ & _ & _ & _ & Z).
  exists s'. split; [exact E|exact Z].
Defined.
