(* ===== verification/MmapProps.v ===== *)
(** * Page faults in mapped areas *)
From S2P Require Import Prelude CString Layout Spinlock Kalloc Vm VmProps Fp Sched Bytes Console Sleeplock Bio BioProps Log LogProps TxDisk Fs FsProps Pipe Kernel Machine File Syscall Proc Mmap.

Open Scope Z_scope.

Section Fault.
Context {C : Type} `{BC : !BufCache C} `{L : !Layout} `{FE : !FpEnv}.
Abbreviation K := (kernel C).

(** Process [p] in slot [i] runs on this CPU. *)
Record on_cpu (k : K) (i : nat) (p : proc) : Prop := {
  oc_cpu : exists c, pcpus (k_pt k) !! k_me k = Some c /\ c_proc c = Some i;
  oc_proc : procs (k_pt k) !! i = Some p
}.
Lemma myproc_run k i p : on_cpu k i p -> on_pt myproc k = Ok (Some i, k).
Proof.
  intros [(c & Hc & Hi) Hp]. unfold on_pt, myproc, get_pcpu, zoom, mbind, M_bind, gets. cbn [ptL lget].
  rewrite Hc. cbn. rewrite Hi. by destruct k.
Qed.
Lemma cur_at k i p : on_cpu k i p -> cur k = Ok (p, k).
Proof.
  intros [(c & Hc & Hi) Hp]. unfold cur, me_proc, on_pt, curproc, myproc, get_pcpu, get_proc, zoom, mbind, M_bind, gets.
  cbn [ptL lget]. rewrite Hc. cbn. rewrite Hi. cbn. rewrite Hp. by destruct k.
Qed.
Lemma on_mem_run {A} (m : M kmem A) (k : K) a s : m (k_mem k) = Ok (a, s) -> on_mem m k = Ok (a, lset memL s k).
Proof. apply (zoom_ok memL m k a s). Qed.

(** The area that a fault at [va] finds. *)
Definition found (k : K) (i : nat) (va : Z) (a : nat) (x : mmap_area) : Prop :=
  list_find (fun x => covers va x = true /\ ma_p x = Some i) (k_areas k) = Some (a, x).

(** The protection of the area allows the access. *)
Definition allowed (x : mmap_area) (error : Z) : Prop :=
  negb (Z.land (ma_prot x) PROT_READ =? 1) && (Z.land error 2 =? 0) = false /\
  negb (Z.land (ma_prot x) PROT_WRITE =? 2) && (Z.land error 2 =? 2) = false.

(** Changing the status of an area does not change which area a fault finds. *)
Lemma found_status k k' i va a x v : found k i va a x -> k_areas k' = <[a := set_status v x]> (k_areas k) ->
  found k' i va a (set_status v x).
Proof.
  intros F E. apply list_find_Some in F as (Hx & [Hc Hp] & N). apply list_find_Some.
  assert (Hlt : (a < length (k_areas k))%nat) by (by eapply lookup_lt_Some).
  rewrite E. split; [by rewrite list_lookup_insert_eq|]. split; [done|].
  intros b y Hy Hlb. rewrite list_lookup_insert_ne in Hy by lia. by apply (N b y).
Qed.

(** A fault in an area that is not waiting for its page. *)
Lemma fault_refused k i p va error a x : on_cpu k i p -> found k i va a x -> allowed x error -> ma_status x <> -1 ->
  page_fault_handler va error k = Ok (-1, k).
Proof.
  intros O F [A1 A2] Hs. unfold page_fault_handler. rewrite (bind_ok _ _ _ _ _ (myproc_run k i p O)), bind_gets.
  unfold found in F. rewrite F, A1, A2. destruct (Z.eqb_spec (ma_status x) (-1)); [done|]. done.
Qed.

(** The same fault when the protection does not allow the access: a message is printed. *)
Lemma fault_final k i p va error a x r k' : on_cpu k i p -> found k i va a x -> ma_status x <> -1 ->
  page_fault_handler va error k = Ok (r, k') -> r = -1 /\ k_mem k' = k_mem k /\ k_areas k' = k_areas k.
Proof.
  intros O F Hs. unfold page_fault_handler. rewrite (bind_ok _ _ _ _ _ (myproc_run k i p O)), bind_gets.
  unfold found in F. rewrite F. destruct (Z.eqb_spec (ma_status x) (-1)); [done|].
  assert (P : forall fmt, (kprintf fmt [] ;; mret (-1)) k = Ok (r, k') -> r = -1 /\ k_mem k' = k_mem k /\ k_areas k' = k_areas k).
  { intros fmt. unfold kprintf, on_console, zoom, mbind, M_bind. destruct (cprintf fmt [] _) as [[u y]| | |]; try done.
    intros [= <- <-]. done. }
  destruct (negb _ && _); [apply P|]. destruct (negb _ && _); [apply P|]. by intros [= <- <-].
Qed.

End Fault.

#[local] Existing Instance fp_double.
#[local] Existing Instance example_layout.

(** A mapping of three pages, of which the second faults. *)
Definition ex_area : mmap_area := MArea None 0x40000000 12288 0 3 1 (Some 0%nat) (-1).
Definition ex_fault : kernel (Bcache.bcache Memide.memdisk) :=
  lset areasL (ex_area :: replicate 63 no_area) (lset memL ex_vm ex_kernel).

